(* ===== verification/_CoqProject ===== *)
-Q . S2P
Prelude.v
Domain.v
Device.v
Schema.v
Aggregate.v
Queue.v
Scheduler.v
Files.v
Journal.v
Artifact.v
Progress.v
Download.v
TransferStore.v
StoreProofs.v
Reload.v
Fault.v
Tracking.v
Coordinator.v
CoordinatorProofs.v
CoordinatorRuns.v
CoordinatorOps.v
CoordinatorLiveness.v
Identity.v
Actor.v
Fleet.v
Disk.v
Staging.v
Publish.v
Seal.v
Selected.v
Json.v
StrictJson.v
Timestamp.v
Publication.v
Trust.v
Ingest.v
Import.v
ImportProofs.v
ImportTrust.v
Rational.v
Profile.v
MediaPlan.v
MediaPlanProofs.v
Validation.v
Manifest.v
ManifestProofs.v
Derivation.v
MediaStore.v
DerivationStore.v
DerivationStoreProofs.v
DerivationProofs.v
Normalizer.v
NormalizerProofs.v
NormalizerRuns.v
Leases.v
LeasesProofs.v
UploadBundle.v
UploadBundleProofs.v
UploadStore.v
UploadStoreProofs.v
UploadRuns.v
DerivedUploadStore.v
DerivedUploadProofs.v
Pipeline.v
PipelineProofs.v
ImportStore.v
PipelineStore.v
ImportStoreProofs.v
PipelineStoreProofs.v
Ingestor.v
IngestCopy.v
IngestRun.v
IngestTables.v
IngestProofs.v
