(* ===== verification/Prelude.v ===== *)
(** * YLX transfer core: a verification development

The program is the transfer client of a capture system: it finds capture
devices on the network, downloads their recorded sessions file by file,
verifies them against signed publications, publishes them as whole sessions
in a local library, and keeps a durable record of every job so that a crash
at any point loses no outcome.  This library models its core, the crate
[ylx-transfer-core] (src/src-tauri/crates/ylx-transfer-core/src/; paths below
are relative to it), as executable functions, and proves what its parts
promise each other.

** Parts and files

- Requests.  [Domain] (domain/mod.rs): job identity, file list, publication
  material and the validated [JobSpec]; [Device] (device/mod.rs) and [Schema]
  (persistence/schema.rs): the vocabularies stored in rows.
- The job state machine.  [Aggregate] (transfer/aggregate.rs): the reducer
  [JobAggregate_decide], the legality graph, target leases; [Queue]
  (transfer/queue.rs): runtime job record and its durable encodings;
  [Scheduler] (transfer/scheduler.rs): the ready queue as a refinement of an
  abstract channel.
- Files on disk.  [Files] (std::fs and the path checks of
  library/download.rs), [Journal] (download checkpoints), [Artifact]
  (library/artifact.rs: the judge of what is on disk), [Progress]
  (transfer/progress.rs), [Download] (library/download.rs: one file, with
  resume, restart, verification and commit), [Tracking] (transfer/queue.rs:
  the interrupt-aware source around it), [Fault] (transfer/fault.rs).
- The session library.  [Disk]: whole trees, calls that fail, crashes;
  [Staging], [Publish], [Seal] and [Selected] (library/staging.rs and the
  commit of library/download.rs): staging, sealing, publication by rename,
  publication of selected files, [commit_staged_session].
- The durable store.  [TransferStore] (persistence/transfer_store.rs):
  tables and every operation; [StoreProofs] its invariant and guarantees;
  [Reload] the round trip through the tables.
- The coordinator.  [Coordinator] (transfer/coordinator.rs,
  transfer/recovery.rs): critical sections, commands, worker turn,
  dispatcher, recovery; [CoordinatorProofs] its invariant, [CoordinatorRuns]
  runs that interleave, [CoordinatorOps] the public operations,
  [CoordinatorLiveness] the run of a worker left alone.
- Devices.  [Identity] (device/identity.rs), [Actor] (device/actor.rs),
  [Fleet] (device/fleet.rs): fingerprints, one device's connection, and the
  fencing of replies that arrive late.
- Signed publications (publication.rs).  [Json]: JSON values, UTF-8 and the
  canonical text that signatures and revisions cover; [StrictJson]: the lexical
  audit that runs before the parser; [Timestamp]: RFC 3339 instants;
  [Publication]: the envelope, [verify] with all of its checks, the download
  plans and their [JobSpec]; [Trust]: what a verified publication guarantees.

- Imports from media.  [Ingest] (ingest/identity.rs, path.rs, source.rs):
  identities, recordings, provenance, admission; [Import] (ingest/job.rs): the
  import job; [ImportProofs], [ImportTrust]: what success means, down to the
  device's key.
- Normalization of media.  [Rational], [Profile], [MediaPlan], [Validation],
  [Manifest], [Derivation] (normalization/rational.rs, profile.rs, plan.rs,
  validation.rs and ports.rs, manifest.rs, job.rs): frame times, encoder
  profiles, the plan of segments, the verdict on an encoded pair, the derived
  manifest, the derivation job; [MediaPlanProofs], [ManifestProofs],
  [DerivationProofs].
- The media database.  [MediaStore] (media_store/model.rs, receipts.rs,
  outbox.rs): what its tables share; [DerivationStore]
  (media_store/derivation_jobs.rs), [DerivationStoreProofs]; [ImportStore]
  (media_store/import_jobs.rs, generations.rs, receipts.rs), [PipelineStore]
  (media_store/pipeline.rs), [ImportStoreProofs], [PipelineStoreProofs]: any
  sequence of their operations; [Leases] (media_store/leases.rs), [LeasesProofs].
- The import executor.  [Ingestor] (recording_ingestor/store.rs, and the
  commands of engine.rs): how a command becomes a stored snapshot; [IngestCopy]
  and [IngestRun] (engine.rs): the copy of one file, the phases of a job and the
  interface; [IngestTables] and [IngestProofs]: any sequence of calls.
- The derivation executor.  [Normalizer] (media_normalizer/engine.rs, store.rs,
  control.rs): critical sections and the worker's stages; [NormalizerProofs],
  [NormalizerRuns]: runs that interleave.
- Uploads.  [UploadBundle] (media_pipeline/upload_bundle.rs, admission.rs): the
  frozen bundle, its keys and digests, remote verification, retention of the
  source; [UploadStore] (persistence/upload_store.rs): upload jobs, multipart
  state and receipts, with [UploadStoreProofs] and [UploadRuns];
  [DerivedUploadStore] (persistence/derived_upload_store.rs): one live attempt
  per destination and its checkpoint, with [DerivedUploadProofs].
- The session pipeline.  [Pipeline] (media_pipeline/pipeline.rs): the aggregate
  that ties import, derivation and upload of one session together and decides
  from the evidence what to do next; [PipelineProofs].

A job flows through them so: [verify] turns a signed envelope into a plan and
the plan into a [JobSpec]; [enqueue] writes it to the store and the id
to the queue; a worker claims it, the reducer decides each move, the store
records it under a version check, [Download] fetches each file under
[Tracking], the session is published, and [complete_job] writes the outcome
row that stays until it is acknowledged.  A session that comes from media
flows so: a recording is admitted ([Ingest]) with its import and its pipeline
in one transaction ([PipelineStore]); the import executor copies, verifies and
commits it, each step decided by the import job and stored before it counts
([IngestRun], [Import], [ImportStore]); the pipeline asks for a derivation, whose
executor ([Normalizer]) plans and encodes pairs and writes the derived manifest
([Manifest]) and its receipt; the pipeline freezes a bundle, has an unsigned one
admitted, and asks for an upload ([DerivedUploadStore]), until the remote
receipt completes it and the retention policy may delete the source.

** How code became definitions

A Rust function is a function of the same name; fallible code returns
[result]; state is passed by the monad [sm] of this file ([let!], [do!]).
A struct is a record, an enum an inductive type with the source's
constructors.  [u64] is [N] with the wrap-around, saturation or checked
result written out ([u64_add], [u64_sat_add], [u64_checked_add]); SQLite
integers are [Z].  A mutex-guarded operation is one function; where a lock is
released the function is split, or takes what the other threads do there as
an argument ([others] in [Fleet], [section_step] in [CoordinatorRuns]).
Replies of devices are arguments.  A definition names its lines in the
comment above it.

Code outside src/ is a class with the documented laws: [Sha256] (sha2),
[JournalCodec] and [MarkerCodec] (serde_json), [Lowercase] (full Unicode case
folding of [str::to_lowercase]), [Display] (thiserror's messages), [Floats]
(the f64 of serde_json's numbers and their shortest text), [JsonText]
(serde_json's parser), [PayloadSchema] (the reading of the payload that
serde derives), [ImportRequestText], [ProfileText], [ManifestText],
[DerivationText] (serde's texts of those values), [NormalizerPorts] (encoder,
validator and staging area of the executor), [IngestPorts] (sources, space,
queue, clock, leases and notifications of the import executor, and what the other
threads do before each of its looks at the database), [QueryPlan] (the order in which
SQLite visits rows); the Ed25519 check is an argument of [verify].  Code of
the program behind a trait object is a class as well: [DownloadSource], and
the collaborators of the coordinator, [Environment]; [SessionLibrary] is the
coordinator's view of the session directory.  The theorems are proved for
every instance; their witnesses instantiate the classes with concrete ones
([DemoSha], [DemoCodec], ...).

** Groups of theorems

- State machine: legal chains of decisions, panics that converge, cancel.
- Download: a reported file is verified, checkpoints never exceed durable
  bytes, an honest source is downloaded to the end, header parsing.
- Session library: what is visible at every instant of a publication, under
  any failing call and any crash; sealing is complete in both directions;
  interrupted publications converge; a commit needs a verified publication.
- Store: the invariant of the tables and its preservation, compare-and-set,
  outcomes recorded once and kept, monotone ledger, retry lineage, round trip.
- Coordinator: memory and store agree along every interleaving, success is
  earned, operations are sequences of critical sections, recovery installs
  every job, a worker's turn ends and completes a job that is served.
- Publication trust: a verified publication is signed by the pinned key, about
  this device and session, and its files are safe, distinct and add up; one
  revision names one content, because canonical texts determine the manifest;
  the audit accepts exactly the texts of a grammar without repeated keys;
  timestamps are bounded instants; a verified plan becomes a job.
- Imports: what a verified import holds; a signed one holds the bytes the
  device's key signed; stored imports are runs of the import job, never failed
  or cancelled ones; a verified row is whole; a copied file is on disk with its
  digest; a reported commit is visible in the library; the copy loops end.
- Normalization: a plan tiles the session exactly, the planner never panics, a
  manifest lists every pair of the plan, a stored success is whole.
- Media database: rows only advance, every terminal row has its completion,
  receipts fence a second import, an admission can be repeated, exclusive
  leases exclude.
- Uploads: bundles determine what they upload and have distinct keys, one
  live attempt per destination with one writer, each part counts once, a job
  ends once, a source is deleted only when it is archived.
- Pipeline: completion rests on the evidence of one session, an unsigned upload
  on an admission of exactly its objects; with honest executors it completes.
- Devices: pinned publication key, stale replies are refused (one is not),
  the sweep's result does not depend on the schedule.

** Bounds and fuel

[download_loop] runs on MAX_ETAG_RESTART_ATTEMPTS (3) as the source's counter
does; [process_loop] is given the five passes [worker_turn_terminates] shows
enough; [prune_upwards] takes the length of the path, which is the most
parents it can visit; a response body is a finite list of reads.  The audit of
a JSON text runs on twice its length and two steps, which its completeness
theorem shows enough: every step that calls another consumes a character or
moves from a value to its container.  [gcd] runs on twice the bits of its second
argument and one step, which [gcd_spec] shows enough;
[slices_loop] runs on the number of runs and two, [pairs_loop] on the frames
divided by the limit and two, which [plan_tiles_the_session] shows enough;
[reduce_inner] nests twice, as the reducer's effects do; [run_loop] takes any
fuel and its theorems hold for each; [run_pipeline] completes in seven steps.
The loops of [IngestCopy] run on the bytes that are left, which [copy_loops_end]
shows enough; the import worker takes the steps its configuration allows and then
gives the code's own error.

** Not modelled

Real time, thread creation, panics other than those the definitions return,
logging and metrics; read errors of the filesystem in [Disk] (calls that change
it may all fail) and links to directories; SQLite itself (its tables,
constraints and transactions are), migrations.  Of the crate:
persistence/app_store.rs and legacy_import.rs (documents read through serde),
completion_consumer.rs (a loop over handlers); library/object_store_port.rs
beyond its receipts (a trait for S3 access and its contract tests);
ingest/detector.rs, scan.rs and artifact_source.rs and
media_normalizer/staging.rs (reading media and staging files with platform
calls); of recording_ingestor the readers' gate and the threads that call the
executor (a job's staging tree is taken to have one writer, as its lock
enforces); media_library and
media_pipeline/projection.rs (read models for the user interface);
normalization/approved.rs (bundled data).  The adapters (HTTP, S3, mDNS, keyring, OS media)
and the Tauri application are I/O and glue around the core. *)

(** ** Prelude: notations, machine integers, text and proof automation

Shared by every file of the development: the [result] type of fallible
Rust functions with its bind notation, [u64] arithmetic with the
wrap-around and the saturation written out, the fragment of [str] the
sources use (decimal printing and parsing, [split_once], [strip_prefix],
ASCII case folding, [trim().is_empty()]), and the tactics and hint
databases the component files rely on. *)

From Stdlib Require Import NArith ZArith Lia Ascii String.
From stdpp Require Import base numbers list strings gmap relations.

(** Rust's [Result<A, E>]. *)
Inductive result (E A : Type) : Type :=
| Ok (a : A)
| Err (e : E).
Arguments Ok {E A} a.
Arguments Err {E A} e.

Declare Scope ylx_scope.
Delimit Scope ylx_scope with ylx.
#[global] Open Scope ylx_scope.

Definition rbind {E A B} (c : result E A) (k : A -> result E B) : result E B :=
  match c with
  | Ok a => k a
  | Err e => Err e
  end.

Definition rmap_err {E F A} (f : E -> F) (c : result E A) : result F A :=
  match c with
  | Ok a => Ok a
  | Err e => Err (f e)
  end.

Definition ok_or {E A} (o : option A) (e : E) : result E A :=
  match o with
  | Some a => Ok a
  | None => Err e
  end.

Definition is_ok {E A} (c : result E A) : bool :=
  match c with
  | Ok _ => true
  | Err _ => false
  end.

Definition is_err {E A} (c : result E A) : bool := negb (is_ok c).

(** The [?] operator. *)
Notation "'let?' x ':=' c 'in' k" := (rbind c (fun x => k))
  (at level 10, x pattern, c at level 100, k at level 200,
   format "'let?'  x  ':='  c  'in' '//' k") : ylx_scope.

#[global] Instance result_eq_dec `{EqDecision E, EqDecision A} : EqDecision (result E A).
Proof. solve_decision. Defined.

Lemma rbind_ok {E A B} (c : result E A) (k : A -> result E B) (b : B) :
  rbind c k = Ok b <-> exists a, c = Ok a /\ k a = Ok b.
Proof. destruct c; simpl; split; [eauto | by intros (? & [= <-] & ?) | done | by intros (? & ? & ?)]. Qed.

Lemma rbind_err {E A B} (c : result E A) (k : A -> result E B) (e : E) :
  rbind c k = Err e <-> c = Err e \/ exists a, c = Ok a /\ k a = Err e.
Proof.
  destruct c; simpl; split; [by eauto | | by intros [= ->]; auto |].
  - by intros [? | (? & [= <-] & ?)].
  - by intros [[= ->] | (? & ? & ?)].
Qed.

(** [iter().map(f).collect::<Result<Vec<_>, _>>()]: the first error wins. *)
Fixpoint rtraverse {E A B} (f : A -> result E B) (l : list A) : result E (list B) :=
  match l with
  | [] => Ok []
  | x :: l' => let? y := f x in let? ys := rtraverse f l' in Ok (y :: ys)
  end.

Lemma rtraverse_ok {E A B} (f : A -> result E B) l ys :
  rtraverse f l = Ok ys <-> Forall2 (fun x y => f x = Ok y) l ys.
Proof.
  revert ys. induction l as [|x l IH]; intros ys; simpl.
  - split; [intros [= <-]; constructor | by inversion 1].
  - rewrite rbind_ok. setoid_rewrite rbind_ok. setoid_rewrite IH.
    split.
    + intros (y & ? & zs & ? & [= <-]). by constructor.
    + inversion 1; subst. eauto 10.
Qed.

Lemma rtraverse_total {E A B : Type} (f : A -> result E B) l :
  Forall (fun x => exists y, f x = Ok y) l -> exists ys, rtraverse f l = Ok ys.
Proof.
  induction 1 as [|x l [y Hy] _ [ys Hys]]; simpl; [by eexists|]. rewrite Hy. simpl. rewrite Hys. by eexists.
Qed.

(** [for x in l { f(x)?; }]. *)
Fixpoint rforall {E A} (f : A -> result E unit) (l : list A) : result E unit :=
  match l with
  | [] => Ok tt
  | x :: l' => let? _ := f x in rforall f l'
  end.

Lemma rforall_ok {E A} (f : A -> result E unit) l :
  rforall f l = Ok tt <-> Forall (fun x => f x = Ok tt) l.
Proof.
  induction l as [|x l IH]; simpl; [split; auto|].
  rewrite rbind_ok, Forall_cons. split.
  - by intros ([] & -> & ?%IH).
  - intros [-> ?%IH]. by exists tt.
Qed.

(** ** Stateful fallible code

A Rust function that mutates a store and returns a [Result]: the state
reached is kept on both outcomes, as in the source an early return leaves
behind whatever was already done. *)

Definition sm (S E A : Type) : Type := S -> S * result E A.

Definition sret {S E A} (a : A) : sm S E A := fun s => (s, Ok a).
Definition sfail {S E A} (e : E) : sm S E A := fun s => (s, Err e).
Definition slift {S E A} (c : result E A) : sm S E A := fun s => (s, c).
Definition sget {S E} : sm S E S := fun s => (s, Ok s).
Definition sput {S E} (s' : S) : sm S E unit := fun _ => (s', Ok tt).
Definition sbind {S E A B} (c : sm S E A) (k : A -> sm S E B) : sm S E B :=
  fun s => match c s with
           | (s', Ok a) => k a s'
           | (s', Err e) => (s', Err e)
           end.
(** [let _ = c;]: the result is dropped, the effects stay. *)
Definition signore {S E A} (c : sm S E A) : sm S E unit := fun s => ((c s).1, Ok tt).

Notation "'let!' x ':=' c 'in' k" := (sbind c (fun x => k))
  (at level 10, x pattern, c at level 100, k at level 200,
   format "'let!'  x  ':='  c  'in' '//' k") : ylx_scope.
Notation "'do!' c 'then!' k" := (sbind c (fun _ => k))
  (at level 10, c at level 100, k at level 200, format "'do!'  c  'then!' '//' k") : ylx_scope.

(** Hoare triples for such code; the postcondition sees the outcome. *)
Definition triple {S E A} (P : S -> Prop) (c : sm S E A) (Q : result E A -> S -> Prop) : Prop :=
  forall s, P s -> Q (c s).2 (c s).1.

Lemma triple_bind {S E A B} (P : S -> Prop) (c : sm S E A) (k : A -> sm S E B)
    (R : A -> S -> Prop) (Q : result E B -> S -> Prop) :
  triple P c (fun r s => match r with Ok a => R a s | Err e => Q (Err e) s end) ->
  (forall a, triple (R a) (k a) Q) ->
  triple P (sbind c k) Q.
Proof.
  intros Hc Hk s Hs. generalize (Hc s Hs). unfold sbind.
  destruct (c s) as [s' [a|e]]; simpl; [apply Hk|done].
Qed.

Lemma triple_ret {S E A} (P : S -> Prop) (a : A) (Q : result E A -> S -> Prop) :
  (forall s, P s -> Q (Ok a) s) -> triple P (sret a) Q.
Proof. intros H s Hs. by apply H. Qed.

Lemma triple_fail {S E A} (P : S -> Prop) (e : E) (Q : result E A -> S -> Prop) :
  (forall s, P s -> Q (Err e) s) -> triple P (sfail e) Q.
Proof. intros H s Hs. by apply H. Qed.

Lemma triple_lift {S E A} (P : S -> Prop) (c : result E A) (Q : result E A -> S -> Prop) :
  (forall s, P s -> Q c s) -> triple P (slift c) Q.
Proof. intros H s Hs. by apply H. Qed.

Lemma triple_weaken {S E A} (P P' : S -> Prop) (c : sm S E A) (Q Q' : result E A -> S -> Prop) :
  triple P' c Q' -> (forall s, P s -> P' s) -> (forall r s, Q' r s -> Q r s) -> triple P c Q.
Proof. intros H HP HQ s Hs. by apply HQ, H, HP. Qed.

Lemma sbind_ok {S E A B} (c : sm S E A) (k : A -> sm S E B) s s' b :
  sbind c k s = (s', Ok b) <-> exists s1 a, c s = (s1, Ok a) /\ k a s1 = (s', Ok b).
Proof.
  unfold sbind. destruct (c s) as [s1 [a|e]]; split.
  - eauto.
  - by intros (? & ? & [= <- <-] & ?).
  - done.
  - by intros (? & ? & ? & ?).
Qed.

(** [map_err] on stateful code. *)
Definition serr {S E F A : Type} (f : E -> F) (c : sm S E A) : sm S F A :=
  fun s => let '(s', r) := c s in (s', rmap_err f r).

(** [for x in l { c(x)?; }]. *)
Fixpoint sforeach {S E A : Type} (c : A -> sm S E unit) (l : list A) : sm S E unit :=
  match l with
  | [] => sret tt
  | x :: l' => do! c x then! sforeach c l'
  end.

(** ** Inverting successful runs *)

Lemma slift_ok {S E A : Type} (c : result E A) (s s' : S) a :
  slift c s = (s', Ok a) <-> s' = s /\ c = Ok a.
Proof. unfold slift. naive_solver. Qed.

Lemma sret_ok {S E A : Type} (x : A) (s s' : S) a :
  sret (E := E) x s = (s', Ok a) <-> s' = s /\ x = a.
Proof. unfold sret. naive_solver. Qed.

Lemma sget_ok {S E : Type} (s s' a : S) : sget (E := E) s = (s', Ok a) <-> s' = s /\ a = s.
Proof. unfold sget. naive_solver. Qed.

Lemma sfail_ok {S E A : Type} (e : E) (s s' : S) (a : A) : sfail e s = (s', Ok a) <-> False.
Proof. unfold sfail. naive_solver. Qed.

Lemma serr_ok {S E F A : Type} (f : E -> F) (c : sm S E A) s s' a :
  serr f c s = (s', Ok a) <-> c s = (s', Ok a).
Proof. unfold serr. destruct (c s) as [? [?|?]]; naive_solver. Qed.

Lemma ok_or_ok {E A : Type} (o : option A) (e : E) a : ok_or o e = Ok a <-> o = Some a.
Proof. destruct o; naive_solver. Qed.

(** A refused case of a fallible computation. *)
Lemma guard_ok {E A : Type} (b : bool) (e : E) (k : result E A) a : (if b then Err e else k) = Ok a <-> b = false /\ k = Ok a.
Proof. destruct b; split; [done|by intros [? _]|done|by intros [_ ?]]. Qed.

Lemma rmap_err_ok {E F A : Type} (f : E -> F) (c : result E A) a : rmap_err f c = Ok a <-> c = Ok a.
Proof. destruct c; naive_solver. Qed.

Create HintDb sm discriminated.
Create Rewrite HintDb sm.
#[export] Hint Rewrite @slift_ok @sret_ok @sget_ok @sfail_ok @serr_ok @ok_or_ok @rmap_err_ok : sm.

Lemma lift_bind_ok {S E A B : Type} (c : result E A) (k : A -> sm S E B) s s' b :
  sbind (slift c) k s = (s', Ok b) <-> exists a, c = Ok a /\ k a s = (s', Ok b).
Proof. unfold sbind, slift. destruct c; naive_solver. Qed.

Lemma lift_or_bind_ok {S E A B : Type} (o : option A) (e : E) (k : A -> sm S E B) s s' b :
  sbind (slift (ok_or o e)) k s = (s', Ok b) <-> exists a, o = Some a /\ k a s = (s', Ok b).
Proof. rewrite lift_bind_ok. by setoid_rewrite ok_or_ok. Qed.

Lemma lift_err_bind_ok {S E F A B : Type} (f : E -> F) (c : result E A) (k : A -> sm S F B) s s' b :
  sbind (slift (rmap_err f c)) k s = (s', Ok b) <-> exists a, c = Ok a /\ k a s = (s', Ok b).
Proof. rewrite lift_bind_ok. by setoid_rewrite rmap_err_ok. Qed.

Lemma get_bind {S E B : Type} (k : S -> sm S E B) s : sbind sget k s = k s s.
Proof. done. Qed.

Lemma serr_bind_ok {S E F A B : Type} (f : E -> F) (c : sm S E A) (k : A -> sm S F B) s s' b :
  sbind (serr f c) k s = (s', Ok b) <-> exists s1 a, c s = (s1, Ok a) /\ k a s1 = (s', Ok b).
Proof. rewrite sbind_ok. by setoid_rewrite serr_ok. Qed.

Lemma sforeach_app {S E A : Type} (c : A -> sm S E unit) l k s :
  sforeach c (l ++ k) s = sbind (sforeach c l) (fun _ => sforeach c k) s.
Proof.
  revert s. induction l as [|x l IH]; intros s; simpl; [done|]. unfold sbind at 1 2 3.
  destruct (c x s) as [s1 [[]|e]]; [|done]. rewrite IH. done.
Qed.

Lemma sforeach_one {S E A : Type} (c : A -> sm S E unit) x s :
  sforeach c [x] s = c x s.
Proof. simpl. unfold sbind, sret. by destruct (c x s) as [s1 [[]|e]]. Qed.

Lemma lift_run {S E A B : Type} (c : result E A) (k : A -> sm S E B) s a :
  c = Ok a -> sbind (slift c) k s = k a s.
Proof. by intros ->. Qed.

Lemma step_run {S E F A B : Type} (f : E -> F) (c : sm S E A) (k : A -> sm S F B) s s1 a :
  c s = (s1, Ok a) -> sbind (serr f c) k s = k a s1.
Proof. intros Hc. unfold sbind, serr. by rewrite Hc. Qed.

(** ** Unsigned 64-bit integers

A [u64] is an [N]; every addition of the sources goes through [u64_add]
(plain [+], which wraps in a release build) or [u64_sat_add]
([saturating_add]). *)

Definition u64_max : N := 18446744073709551615.
Definition i64_max : N := 9223372036854775807.
Definition u64_add (a b : N) : N := (a + b) mod (u64_max + 1).
Definition u64_sat_add (a b : N) : N := N.min (a + b) u64_max.
Definition u32_max : N := 4294967295.
Definition u32_add (a b : N) : N := (a + b) mod (u32_max + 1).
Definition u64_checked_add (a b : N) : option N :=
  if (a + b <=? u64_max)%N then Some (a + b)%N else None.

Lemma u64_add_small a b : (a + b <= u64_max)%N -> u64_add a b = (a + b)%N.
Proof. unfold u64_add, u64_max. intros. apply N.mod_small. lia. Qed.

Lemma u64_sat_add_small a b : (a + b <= u64_max)%N -> u64_sat_add a b = (a + b)%N.
Proof. unfold u64_sat_add. lia. Qed.

Lemma u64_sat_add_le a b : (u64_sat_add a b <= u64_max)%N.
Proof. unfold u64_sat_add. lia. Qed.

Lemma u64_add_le a b : (u64_add a b <= u64_max)%N.
Proof.
  unfold u64_add. assert (Hm := N.mod_lt (a + b) (u64_max + 1) ltac:(done)).
  apply N.lt_succ_r. by rewrite <- N.add_1_r.
Qed.

Lemma u64_checked_add_Some a b c :
  u64_checked_add a b = Some c <-> (a + b <= u64_max /\ c = a + b)%N.
Proof.
  unfold u64_checked_add. destruct (N.leb_spec (a + b) u64_max); split.
  - by intros [= <-].
  - by intros [_ ->].
  - done.
  - lia.
Qed.

(** ** Text

A Rust [String] is its UTF-8 bytes, so a [string] here is a sequence of
bytes and [str_len] is [str::len]. *)

Local Open Scope string_scope.

Definition str_len (s : string) : N := N.of_nat (String.length s).

Fixpoint str_map (f : ascii -> ascii) (s : string) : string :=
  match s with
  | EmptyString => EmptyString
  | String c s' => String (f c) (str_map f s')
  end.

Fixpoint str_all (p : ascii -> bool) (s : string) : bool :=
  match s with
  | EmptyString => true
  | String c s' => p c && str_all p s'
  end.

Definition str_any (p : ascii -> bool) (s : string) : bool := negb (str_all (fun c => negb (p c)) s).

Definition str_mem (c : ascii) (s : string) : bool := str_any (Ascii.eqb c) s.

Definition byte_in (lo hi : N) (c : ascii) : bool :=
  let b := N_of_ascii c in ((lo <=? b) && (b <=? hi))%N.

Definition is_digit (c : ascii) : bool := byte_in 48 57 c.
Definition is_upper (c : ascii) : bool := byte_in 65 90 c.
Definition is_lower (c : ascii) : bool := byte_in 97 122 c.
Definition is_lower_hex (c : ascii) : bool := is_digit c || byte_in 97 102 c.
Definition is_hexdigit (c : ascii) : bool := is_lower_hex c || byte_in 65 70 c.

Definition ascii_lower (c : ascii) : ascii :=
  if is_upper c then ascii_of_N (N_of_ascii c + 32) else c.
Definition ascii_upper (c : ascii) : ascii :=
  if is_lower c then ascii_of_N (N_of_ascii c - 32) else c.

Definition to_ascii_lowercase (s : string) : string := str_map ascii_lower s.
Definition to_ascii_uppercase (s : string) : string := str_map ascii_upper s.
Definition eq_ignore_ascii_case (a b : string) : bool :=
  String.eqb (to_ascii_lowercase a) (to_ascii_lowercase b).

Fixpoint strip_prefix (p s : string) : option string :=
  match p, s with
  | EmptyString, _ => Some s
  | String a p', String b s' => if Ascii.eqb a b then strip_prefix p' s' else None
  | String _ _, EmptyString => None
  end.

(** [str::contains(&str)]. *)
Fixpoint str_contains (needle hay : string) : bool :=
  match strip_prefix needle hay with
  | Some _ => true
  | None => match hay with
            | EmptyString => false
            | String _ hay' => str_contains needle hay'
            end
  end.

Fixpoint split_once (c : ascii) (s : string) : option (string * string) :=
  match s with
  | EmptyString => None
  | String a s' =>
      if Ascii.eqb a c then Some (EmptyString, s')
      else match split_once c s' with
           | Some (l, r) => Some (String a l, r)
           | None => None
           end
  end.

(** [str::split(char)]: never empty, one piece per separator plus one. *)
Fixpoint split_char (c : ascii) (s : string) : list string :=
  match s with
  | EmptyString => [EmptyString]
  | String a s' =>
      if Ascii.eqb a c then EmptyString :: split_char c s'
      else match split_char c s' with
           | [] => [String a EmptyString]
           | w :: ws => String a w :: ws
           end
  end.

Fixpoint last_char (s : string) : option ascii :=
  match s with
  | EmptyString => None
  | String c EmptyString => Some c
  | String _ s' => last_char s'
  end.

Fixpoint str_take (n : nat) (s : string) : string :=
  match n, s with
  | S n', String c s' => String c (str_take n' s')
  | _, _ => EmptyString
  end.

Fixpoint str_drop (n : nat) (s : string) : string :=
  match n, s with
  | S n', String _ s' => str_drop n' s'
  | _, _ => s
  end.

(** [s.trim().is_empty()]: every character is Unicode [White_Space],
    recognised on its UTF-8 bytes. *)
Fixpoint is_blank (s : string) : bool :=
  match s with
  | EmptyString => true
  | String c1 s1 =>
      let b1 := N_of_ascii c1 in
      if (((9 <=? b1) && (b1 <=? 13)) || (b1 =? 32))%N then is_blank s1
      else match s1 with
           | EmptyString => false
           | String c2 s2 =>
               let b2 := N_of_ascii c2 in
               if ((b1 =? 194) && ((b2 =? 133) || (b2 =? 160)))%N then is_blank s2
               else match s2 with
                    | EmptyString => false
                    | String c3 s3 =>
                        let b3 := N_of_ascii c3 in
                        if (((b1 =? 225) && (b2 =? 154) && (b3 =? 128))
                            || ((b1 =? 226) && (b2 =? 128)
                                && (((128 <=? b3) && (b3 <=? 138)) || (b3 =? 168)
                                    || (b3 =? 169) || (b3 =? 175)))
                            || ((b1 =? 226) && (b2 =? 129) && (b3 =? 159))
                            || ((b1 =? 227) && (b2 =? 128) && (b3 =? 128)))%N
                        then is_blank s3 else false
                    end
           end
  end.

(** *** Decimal numbers *)

Definition digit_char (d : N) : ascii := ascii_of_N (48 + d).

Definition digit_val (c : ascii) : option N :=
  if is_digit c then Some (N_of_ascii c - 48)%N else None.

Fixpoint dec_go (fuel : nat) (n : N) (acc : string) : string :=
  match fuel with
  | O => acc
  | S f =>
      let acc' := String (digit_char (n mod 10)) acc in
      if (n <? 10)%N then acc' else dec_go f (n / 10) acc'
  end.

(** [u64::to_string]. *)
Definition dec (n : N) : string := dec_go (S (N.size_nat n)) n "".

Fixpoint parse_digits (s : string) (acc : N) : option N :=
  match s with
  | EmptyString => Some acc
  | String c s' =>
      match digit_val c with
      | Some d =>
          let acc' := (acc * 10 + d)%N in
          if (acc' <=? u64_max)%N then parse_digits s' acc' else None
      | None => None
      end
  end.

(** [str::parse::<u64>]: like the standard library it takes one leading
    ['+'], refuses the empty string and detects overflow digit by digit. *)
Definition parse_u64 (s : string) : option N :=
  match s with
  | EmptyString => None
  | String c s' =>
      if Ascii.eqb c "+"%char
      then match s' with EmptyString => None | _ => parse_digits s' 0 end
      else parse_digits s 0
  end.

Lemma str_app_cons c s t : String c s ++ t = String c (s ++ t).
Proof. done. Qed.

Lemma str_all_app p s t : str_all p (s ++ t) = str_all p s && str_all p t.
Proof. induction s as [|c s IH]; simpl; [done|]. by rewrite IH, andb_assoc. Qed.

Lemma str_len_app s t : str_len (s ++ t) = (str_len s + str_len t)%N.
Proof.
  unfold str_len. rewrite <- Nat2N.inj_add. f_equal.
  induction s as [|c s IH]; simpl; [done|]. by rewrite IH.
Qed.

Lemma str_app_nil_r s : s ++ "" = s.
Proof. induction s as [|c s IH]; [done|]. by rewrite str_app_cons, IH. Qed.

Lemma str_app_inj s1 s2 t1 t2 :
  str_len s1 = str_len s2 -> s1 ++ t1 = s2 ++ t2 -> s1 = s2 /\ t1 = t2.
Proof.
  unfold str_len. intros Hl%Nat2N.inj. revert s2 Hl.
  induction s1 as [|c s1 IH]; intros [|c2 s2]; simpl; try done.
  intros [= Hl] [= -> He]. by destruct (IH _ Hl He) as [-> ->].
Qed.

Lemma str_app_assoc s t u : (s ++ t) ++ u = s ++ (t ++ u).
Proof. induction s as [|c s IH]; [done|]. by rewrite !str_app_cons, IH. Qed.

Lemma strip_prefix_Some p s t : strip_prefix p s = Some t <-> s = p ++ t.
Proof.
  revert s. induction p as [|c p IH]; intros s; simpl.
  - split; [by intros [= ->] | by intros ->].
  - rewrite str_app_cons. destruct s as [|d s]; [done|].
    destruct (Ascii.eqb_spec c d) as [->|Hne].
    + rewrite IH. split; [by intros -> | by intros [= ->]].
    + split; [done | by intros [= ->]].
Qed.

Lemma split_once_app c l r :
  str_mem c l = false -> split_once c (l ++ String c r) = Some (l, r).
Proof.
  unfold str_mem, str_any. rewrite negb_false_iff.
  induction l as [|a l IH]; simpl.
  - by rewrite Ascii.eqb_refl.
  - rewrite andb_true_iff, negb_true_iff, Ascii.eqb_sym. intros [-> Hl]. by rewrite IH.
Qed.

Lemma split_once_Some c s l r :
  split_once c s = Some (l, r) -> s = l ++ String c r /\ str_mem c l = false.
Proof.
  unfold str_mem, str_any.
  revert l r. induction s as [|a s IH]; intros l r; simpl; [done|].
  destruct (Ascii.eqb_spec a c) as [->|Hne].
  - intros [= <- <-]. done.
  - destruct (split_once c s) as [[l' r']|]; [|done].
    intros [= <- <-]. destruct (IH _ _ eq_refl) as [-> Hm]. simpl.
    rewrite negb_andb, negb_involutive. split; [done|].
    apply orb_false_iff. split; [|done].
    rewrite Ascii.eqb_sym. by apply Ascii.eqb_neq.
Qed.

Lemma digit_val_char d : (d < 10)%N -> digit_val (digit_char d) = Some d.
Proof.
  intros Hd. unfold digit_val, digit_char, is_digit, byte_in.
  rewrite N_ascii_embedding by lia.
  replace (48 <=? 48 + d)%N with true by (symmetry; apply N.leb_le; lia).
  replace (48 + d <=? 57)%N with true by (symmetry; apply N.leb_le; lia).
  simpl. f_equal. lia.
Qed.

Lemma digit_char_digit d : (d < 10)%N -> is_digit (digit_char d) = true.
Proof.
  intros Hd. generalize (digit_val_char d Hd). unfold digit_val.
  by destruct (is_digit _).
Qed.

Lemma dec_go_cons fuel n acc :
  exists d s, dec_go (S fuel) n acc = String d s /\ is_digit d = true.
Proof.
  revert n acc. induction fuel as [|f IH]; intros n acc.
  - simpl. destruct (n <? 10)%N; eexists _, _; (split; [done|]);
      apply digit_char_digit; apply N.mod_lt; lia.
  - change (dec_go (S (S f)) n acc) with
      (if (n <? 10)%N then String (digit_char (n mod 10)) acc
       else dec_go (S f) (n / 10) (String (digit_char (n mod 10)) acc)).
    destruct (n <? 10)%N; [|apply IH].
    eexists _, _; (split; [done|]). apply digit_char_digit, N.mod_lt; lia.
Qed.

Lemma dec_go_digits fuel n acc :
  str_all is_digit acc = true -> str_all is_digit (dec_go fuel n acc) = true.
Proof.
  revert n acc. induction fuel as [|f IH]; intros n acc Hacc; simpl; [done|].
  assert (Hd : str_all is_digit (String (digit_char (n mod 10)) acc) = true).
  { simpl. rewrite Hacc, digit_char_digit; [done|]. apply N.mod_lt; lia. }
  destruct (n <? 10)%N; [done|]. by apply IH.
Qed.

Lemma parse_dec_go fuel n acc :
  (n < 10 ^ N.of_nat fuel)%N -> (n <= u64_max)%N ->
  fuel <> O ->
  parse_digits (dec_go fuel n acc) 0 = parse_digits acc n.
Proof.
  revert n acc. induction fuel as [|f IH]; intros n acc Hlt Hmax Hf; [done|].
  simpl. destruct (N.ltb_spec n 10) as [Hn|Hn].
  - simpl. rewrite digit_val_char by (apply N.mod_lt; lia).
    rewrite N.mod_small by lia.
    replace (0 * 10 + n)%N with n by lia.
    replace (n <=? u64_max)%N with true by (symmetry; apply N.leb_le; lia). done.
  - assert (Hdm := N.div_mod n 10 ltac:(lia)).
    assert (Hmod := N.mod_lt n 10 ltac:(lia)).
    assert (f <> O).
    { intros ->. simpl in Hlt. lia. }
    rewrite IH; [| | |done].
    + simpl. rewrite digit_val_char by lia.
      replace (n / 10 * 10 + n mod 10)%N with n by lia.
      replace (n <=? u64_max)%N with true by (symmetry; apply N.leb_le; lia). done.
    + rewrite Nat2N.inj_succ, N.pow_succ_r' in Hlt.
      apply N.Div0.div_lt_upper_bound; lia.
    + etrans; [|exact Hmax]. apply N.Div0.div_le_upper_bound; lia.
Qed.

Lemma N_lt_pow10_size n : (n < 10 ^ N.of_nat (S (N.size_nat n)))%N.
Proof.
  assert (n < 2 ^ N.of_nat (N.size_nat n))%N as Hs.
  { destruct n as [|p]; [done|]. change (N.size_nat (Npos p)) with (Pos.size_nat p).
    induction p as [p IH|p IH|]; [..|done];
      cbn [Pos.size_nat]; rewrite Nat2N.inj_succ, N.pow_succ_r'; lia. }
  eapply N.lt_le_trans; [exact Hs|].
  rewrite Nat2N.inj_succ. etrans.
  - apply (N.pow_le_mono_l 2 10). lia.
  - apply N.pow_le_mono_r; lia.
Qed.

Lemma is_digit_not_plus c : is_digit c = true -> Ascii.eqb c "+"%char = false.
Proof. intros H. apply Ascii.eqb_neq. by intros ->. Qed.

(** Printing a [u64] and parsing it back gives the number. *)
Lemma parse_u64_dec n : (n <= u64_max)%N -> parse_u64 (dec n) = Some n.
Proof.
  intros Hn. unfold dec.
  assert (Hp := parse_dec_go (S (N.size_nat n)) n "" (N_lt_pow10_size n) Hn ltac:(done)).
  destruct (dec_go_cons (N.size_nat n) n "") as (d & s & Heq & Hd).
  rewrite Heq in Hp |- *. unfold parse_u64. rewrite is_digit_not_plus by done. exact Hp.
Qed.

Lemma dec_digits n : str_all is_digit (dec n) = true.
Proof. by apply dec_go_digits. Qed.

Lemma digits_not_mem c s :
  is_digit c = false -> str_all is_digit s = true -> str_mem c s = false.
Proof.
  intros Hc. unfold str_mem, str_any. rewrite negb_false_iff.
  induction s as [|a s IH]; simpl; [done|].
  rewrite !andb_true_iff. intros [Ha Hs]. split; [|by apply IH].
  apply negb_true_iff, Ascii.eqb_neq. congruence.
Qed.

(** The value of a digit string, without the [u64] bound. *)
Fixpoint digits_val (s : string) (acc : N) : N :=
  match s with
  | EmptyString => acc
  | String c s' => digits_val s' (acc * 10 + (N_of_ascii c - 48))%N
  end.

Lemma digits_val_dec_go fuel n acc :
  (n < 10 ^ N.of_nat fuel)%N -> digits_val (dec_go fuel n acc) 0 = digits_val acc n.
Proof.
  revert n acc. induction fuel as [|f IH]; intros n acc Hlt.
  - simpl in *. by replace n with 0%N by lia.
  - assert (Hdm := N.div_mod n 10 ltac:(lia)).
    assert (Hmod := N.mod_lt n 10 ltac:(lia)).
    cbn [dec_go]. unfold digit_char. destruct (N.ltb_spec n 10) as [Hn|Hn].
    + cbn [digits_val]. rewrite N_ascii_embedding, N.mod_small by lia. f_equal. lia.
    + rewrite IH.
      * cbn [digits_val]. rewrite N_ascii_embedding by lia.
        replace (48 + n mod 10 - 48)%N with (n mod 10)%N by (rewrite N.add_comm, N.add_sub; done).
        f_equal. lia.
      * rewrite Nat2N.inj_succ, N.pow_succ_r' in Hlt.
        apply N.Div0.div_lt_upper_bound; lia.
Qed.

Lemma dec_inj n m : dec n = dec m -> n = m.
Proof.
  intros Heq. generalize (digits_val_dec_go _ n "" (N_lt_pow10_size n)).
  fold (dec n). rewrite Heq. unfold dec at 1.
  rewrite digits_val_dec_go by apply N_lt_pow10_size. simpl. congruence.
Qed.

Lemma parse_digits_le s acc n :
  (acc <= u64_max)%N -> parse_digits s acc = Some n -> (n <= u64_max)%N.
Proof.
  revert acc. induction s as [|c s IH]; intros acc Hacc; simpl; [congruence|].
  destruct (digit_val c); [|done]. case_match eqn:Hle; [|done].
  apply IH. by apply N.leb_le.
Qed.

Lemma parse_u64_le s n : parse_u64 s = Some n -> (n <= u64_max)%N.
Proof.
  unfold parse_u64. destruct s as [|c s]; [done|].
  destruct (Ascii.eqb c "+"); [destruct s; [done|]|]; apply parse_digits_le; done.
Qed.
