(* ===== verification/Domain.v ===== *)
(** * Domain: the durable transfer request (crates/ylx-transfer-core/src/domain/mod.rs)

[JobIdentity], [JobFileSpec], [PublicationMaterial] and [JobSpec] with
their validating constructors, the collision-free natural key, the
length-prefixed preimage of [JobSpec::request_digest] and the hex
spelling of a [RequestDigest].  SHA-256 is the external [sha2] crate: it
enters as the class [Sha256]. *)

From Stdlib Require Import NArith ZArith Lia Ascii String.
From Stdlib Require Import Strings.Byte.
From stdpp Require Import base numbers list strings gmap.
From S2P Require Import Prelude.

Abbreviation byte := Byte.byte.
#[global] Instance byte_eq_dec : EqDecision byte := Byte.byte_eq_dec.

Abbreviation DeviceId := string (only parsing).
Abbreviation SessionId := string (only parsing).
Abbreviation FileId := string (only parsing).

Local Open Scope string_scope.

(** The external hash: 32 bytes for every input. *)
Class Sha256 := {
  sha256 : list byte -> list byte;
  sha256_length : forall bs, length (sha256 bs) = 32;
}.

(** [u64::to_be_bytes]. *)
Definition byte_of (n : N) : byte :=
  match Byte.of_N (n mod 256) with Some b => b | None => Byte.x00 end.

Fixpoint be_bytes (k : nat) (n : N) : list byte :=
  match k with
  | O => []
  | S k' => byte_of (n / 256 ^ N.of_nat k') :: be_bytes k' n
  end.

Definition be64 (n : N) : list byte := be_bytes 8 n.
#[global] Arguments be64 : simpl never.

Definition bytes_of (s : string) : list byte := list_byte_of_string s.

(** [PublicationManifest::has_known_schema_version] (domain/mod.rs:171-182). *)
Definition has_known_schema_version (schema_version : N) : bool :=
  existsb (N.eqb schema_version) [1%N].

(** [PublicationScope] (domain/mod.rs:190-196). *)
Inductive PublicationScope := FullSession | SelectedFiles.

(** [PublicationScope::is_full_session] (domain/mod.rs:198-203). *)
Definition is_full_session (s : PublicationScope) : bool :=
  match s with FullSession => true | SelectedFiles => false end.

(** [PublicationScope::from] (domain/mod.rs:205-213). *)
Definition scope_of_bool (full_session : bool) : PublicationScope :=
  if full_session then FullSession else SelectedFiles.

(** [JobSpecError] (domain/mod.rs:227-265). *)
Inductive JobSpecError :=
| Empty (field : string)
| NotSha256Hex (field value : string)
| BadLength (field : string) (expected actual : N)
| DuplicateInventoryFile (file_id : string)
| DuplicateRequestedFile (file_id : string)
| RequestedFileNotInInventory (file_id : string)
| RevisionMismatch (identity_revision publication_revision : string)
| IncompleteFullSession (inventory requested : N).

#[global] Instance JobSpecError_eq_dec : EqDecision JobSpecError.
Proof. solve_decision. Defined.

(** [require_non_empty] (domain/mod.rs:727-732). *)
Definition require_non_empty (field value : string) : result JobSpecError unit :=
  if is_blank value then Err (Empty field) else Ok tt.

(** [require_sha256_hex] (domain/mod.rs:734-747). *)
Definition require_sha256_hex (field value : string) : result JobSpecError unit :=
  if ((str_len value =? 64)%N && str_all is_lower_hex value)%bool
  then Ok tt else Err (NotSha256Hex field value).

(** [require_len] (domain/mod.rs:749-759). *)
Definition require_len (field : string) (expected actual : N) : result JobSpecError unit :=
  if (expected =? actual)%N then Ok tt else Err (BadLength field expected actual).

(** [JobIdentity] (domain/mod.rs:274-279). *)
Record JobIdentity := mkIdentity {
  id_device : DeviceId;
  id_session : SessionId;
  id_revision : string;
}.

#[global] Instance JobIdentity_eq_dec : EqDecision JobIdentity.
Proof. solve_decision. Defined.

(** [JobIdentity::new] (domain/mod.rs:281-299). *)
Definition JobIdentity_new (device_id session_id revision : string)
    : result JobSpecError JobIdentity :=
  let? _ := require_non_empty "device_id" device_id in
  let? _ := require_non_empty "session_id" session_id in
  let? _ := require_non_empty "revision" revision in
  Ok (mkIdentity device_id session_id revision).

Definition key_part (part : string) : string := dec (str_len part) ++ String ":" part.

(** [JobIdentity::natural_key] (domain/mod.rs:323-337). *)
Definition natural_key (i : JobIdentity) : string :=
  key_part (id_device i) ++ key_part (id_session i) ++ key_part (id_revision i).

(** [JobIdentity::fmt] (domain/mod.rs:339-349). *)
Definition identity_to_string (i : JobIdentity) : string :=
  id_device i ++ "/" ++ id_session i ++ "@" ++ id_revision i.

(** [JobFileSpec] (domain/mod.rs:356-362). *)
Record JobFileSpec := mkFileSpec {
  fs_file_id : FileId;
  fs_display_path : string;
  fs_size_bytes : N;
  fs_sha256 : string;
}.

#[global] Instance JobFileSpec_eq_dec : EqDecision JobFileSpec.
Proof. solve_decision. Defined.

(** [JobFileSpec::new] (domain/mod.rs:369-386). *)
Definition JobFileSpec_new (file_id display_path : string) (size_bytes : N) (sha : string)
    : result JobSpecError JobFileSpec :=
  let? _ := require_non_empty "file_id" file_id in
  let? _ := require_non_empty "display_path" display_path in
  let? _ := require_sha256_hex "sha256" sha in
  Ok (mkFileSpec file_id display_path size_bytes sha).

(** [PublicationMaterial] (domain/mod.rs:417-423). *)
Record PublicationMaterial := mkMaterial {
  pm_revision : string;
  pm_payload : list byte;
  pm_signature : list byte;
  pm_public_key : list byte;
}.

#[global] Instance PublicationMaterial_eq_dec : EqDecision PublicationMaterial.
Proof. solve_decision. Defined.

(** [PUBLICATION_SIGNATURE_LEN] (domain/mod.rs:426-426). *)
Definition PUBLICATION_SIGNATURE_LEN : N := 64.
(** [PUBLICATION_PUBLIC_KEY_LEN] (domain/mod.rs:428-428). *)
Definition PUBLICATION_PUBLIC_KEY_LEN : N := 32.

(** [PublicationMaterial::new] (domain/mod.rs:431-460). *)
Definition PublicationMaterial_new (revision : string) (payload signature public_key : list byte)
    : result JobSpecError PublicationMaterial :=
  let? _ := require_non_empty "publication.revision" revision in
  match payload with
  | [] => Err (Empty "publication.payload")
  | _ =>
      let? _ := require_len "publication.signature" PUBLICATION_SIGNATURE_LEN
                  (N.of_nat (length signature)) in
      let? _ := require_len "publication.public_key" PUBLICATION_PUBLIC_KEY_LEN
                  (N.of_nat (length public_key)) in
      Ok (mkMaterial revision payload signature public_key)
  end.

(** [JobSpec] (domain/mod.rs:493-506). *)
Record JobSpec := mkJobSpec {
  sp_identity : JobIdentity;
  sp_publication : PublicationMaterial;
  sp_session_files : list JobFileSpec;
  sp_requested : list nat;
  sp_full_session : bool;
  sp_date_label : string;
}.

#[global] Instance JobSpec_eq_dec : EqDecision JobSpec.
Proof. solve_decision. Defined.

Definition index_find (id : string) (index_of : list (string * nat)) : option nat :=
  snd <$> find (fun e => String.eqb (fst e) id) index_of.

(** [JobSpec::new, inventory index] (domain/mod.rs:546-555). *)
Fixpoint build_index (index_of : list (string * nat)) (position : nat)
    (files : list JobFileSpec) : result JobSpecError (list (string * nat)) :=
  match files with
  | [] => Ok index_of
  | file :: rest =>
      let id := fs_file_id file in
      if existsb (fun e => String.eqb (fst e) id) index_of
      then Err (DuplicateInventoryFile id)
      else build_index (index_of ++ [(id, position)])%list (S position) rest
  end.

(** [JobSpec::new, request selection] (domain/mod.rs:557-570). *)
Fixpoint select_requested (index_of : list (string * nat)) (requested : list nat)
    (ids : list FileId) : result JobSpecError (list nat) :=
  match ids with
  | [] => Ok requested
  | id :: rest =>
      match index_find id index_of with
      | None => Err (RequestedFileNotInInventory id)
      | Some position =>
          if existsb (Nat.eqb position) requested
          then Err (DuplicateRequestedFile id)
          else select_requested index_of (requested ++ [position])%list rest
      end
  end.

(** [JobSpec::new] (domain/mod.rs:521-587). *)
Definition JobSpec_new (identity : JobIdentity) (publication : PublicationMaterial)
    (session_files : list JobFileSpec) (requested_file_ids : list FileId)
    (full_session : bool) (date_label : string) : result JobSpecError JobSpec :=
  if negb (String.eqb (pm_revision publication) (id_revision identity))
  then Err (RevisionMismatch (id_revision identity) (pm_revision publication))
  else match session_files with
  | [] => Err (Empty "session_files")
  | _ =>
    match requested_file_ids with
    | [] => Err (Empty "requested_file_ids")
    | _ =>
      let? index_of := build_index [] 0 session_files in
      let? requested := select_requested index_of [] requested_file_ids in
      if full_session && negb (length requested =? length session_files)%nat
      then Err (IncompleteFullSession (N.of_nat (length session_files))
                                      (N.of_nat (length requested)))
      else Ok (mkJobSpec identity publication session_files requested full_session date_label)
    end
  end.

(** [JobSpec::requested_files] (domain/mod.rs:606-608). *)
Definition requested_files (s : JobSpec) : list JobFileSpec :=
  omap (fun i => sp_session_files s !! i) (sp_requested s).

(** [JobSpec::request_position] (domain/mod.rs:612-616). *)
Definition request_position (s : JobSpec) (file_id : FileId) : option nat :=
  fst <$> list_find (fun i => fs_file_id <$> (sp_session_files s !! i) = Some file_id)
                    (sp_requested s).

(** [JobSpec::publication_scope] (domain/mod.rs:627-629). *)
Definition publication_scope (s : JobSpec) : PublicationScope :=
  scope_of_bool (sp_full_session s).

(** [JobSpec::request_digest, absorb] (domain/mod.rs:649-652). *)
Definition absorb (bs : list byte) : list byte := be64 (N.of_nat (length bs)) ++ bs.

Definition absorb_file (f : JobFileSpec) : list byte :=
  (absorb (bytes_of (fs_file_id f)) ++ absorb (bytes_of (fs_display_path f))
   ++ be64 (fs_size_bytes f) ++ absorb (bytes_of (fs_sha256 f)))%list.

(** The literal [b"ylx.job-spec.v1\0"]. *)
Definition digest_domain : list byte := bytes_of "ylx.job-spec.v1" ++ [Byte.x00].

(** [JobSpec::request_digest, preimage] (domain/mod.rs:644-677). *)
Definition request_preimage (s : JobSpec) : list byte :=
  (digest_domain
   ++ absorb (bytes_of (id_device (sp_identity s)))
   ++ absorb (bytes_of (id_session (sp_identity s)))
   ++ absorb (bytes_of (id_revision (sp_identity s)))
   ++ absorb (bytes_of (pm_revision (sp_publication s)))
   ++ absorb (pm_payload (sp_publication s))
   ++ absorb (pm_signature (sp_publication s))
   ++ absorb (pm_public_key (sp_publication s))
   ++ [if sp_full_session s then Byte.x01 else Byte.x00]
   ++ be64 (N.of_nat (length (sp_session_files s)))
   ++ mjoin (absorb_file <$> sp_session_files s)
   ++ be64 (N.of_nat (length (sp_requested s)))
   ++ mjoin ((fun f => absorb (bytes_of (fs_file_id f))) <$> requested_files s))%list.

(** [JobSpec::request_digest] (domain/mod.rs:644-682). *)
Definition request_digest `{Sha256} (s : JobSpec) : list byte := sha256 (request_preimage s).

(** *** The hex spelling of a digest *)

Definition hex_digit (d : N) : ascii :=
  if (d <? 10)%N then ascii_of_N (48 + d) else ascii_of_N (87 + d).

(** [RequestDigest::to_hex] (domain/mod.rs:693-699). *)
Fixpoint to_hex (bs : list byte) : string :=
  match bs with
  | [] => ""
  | b :: bs' =>
      String (hex_digit (Byte.to_N b / 16)) (String (hex_digit (Byte.to_N b mod 16)) (to_hex bs'))
  end.

(** The digit of [u8::from_str_radix(_, 16)] (upper case included). *)
Definition hex_val (c : ascii) : option N :=
  if is_digit c then Some (N_of_ascii c - 48)%N
  else if byte_in 97 102 c then Some (N_of_ascii c - 87)%N
  else if byte_in 65 70 c then Some (N_of_ascii c - 55)%N
  else None.

Fixpoint hex_bytes (s : string) : option (list byte) :=
  match s with
  | EmptyString => Some []
  | String h (String l s') =>
      match hex_val h, hex_val l, hex_bytes s' with
      | Some a, Some b, Some bs => Some (byte_of (a * 16 + b) :: bs)
      | _, _, _ => None
      end
  | _ => None
  end.

(** [RequestDigest::from_hex] (domain/mod.rs:701-713). *)
Definition from_hex (value : string) : result JobSpecError (list byte) :=
  let? _ := require_sha256_hex "request_digest" value in
  ok_or (hex_bytes value) (NotSha256Hex "request_digest" value).

(** ** Theorems *)

Lemma key_part_inj a b x y :
  key_part a ++ x = key_part b ++ y -> a = b /\ x = y.
Proof.
  unfold key_part. rewrite !str_app_assoc, !str_app_cons. intros H.
  assert (Hs : forall p z, split_once ":" (dec (str_len p) ++ String ":" (p ++ z))
                           = Some (dec (str_len p), p ++ z)).
  { intros p z. apply split_once_app, digits_not_mem; [done | apply dec_digits]. }
  generalize (Hs a x), (Hs b y). simpl in H |- *. rewrite H. intros H1 H2.
  rewrite H1 in H2. injection H2 as Hd Hb. symmetry in Hb. apply str_app_inj; [|done].
  by apply dec_inj.
Qed.

(** the natural key identifies a job identity: two identities with
    the same key have the same device, session and revision, whatever
    characters (separators, digits) the components contain. *)
Theorem natural_key_inj i j : natural_key i = natural_key j <-> i = j.
Proof.
  split; [|by intros ->].
  destruct i as [d1 s1 r1], j as [d2 s2 r2]. unfold natural_key; simpl.
  intros [-> [-> H]%key_part_inj]%key_part_inj.
  f_equal. apply (key_part_inj r1 r2 "" ""). by rewrite H.
Qed.

(** *** Framing *)

Local Open Scope list_scope.

Lemma byte_of_inj a b : (a < 256)%N -> (b < 256)%N -> byte_of a = byte_of b -> a = b.
Proof.
  intros Ha Hb. unfold byte_of. rewrite !N.mod_small by done.
  assert (Hof : forall n, (n < 256)%N -> exists x, Byte.of_N n = Some x /\ Byte.to_N x = n).
  { intros n Hn. destruct (Byte.of_N n) as [x|] eqn:E.
    - exists x. split; [done|]. by apply Byte.to_of_N.
    - apply Byte.of_N_None_iff in E. lia. }
  destruct (Hof a Ha) as (x & -> & <-), (Hof b Hb) as (y & -> & <-). congruence.
Qed.

Lemma byte_of_mod n : byte_of (n mod 256) = byte_of n.
Proof. unfold byte_of. by rewrite N.Div0.mod_mod. Qed.

Lemma be_bytes_length k n : length (be_bytes k n) = k.
Proof. revert n. induction k; intros; simpl; congruence. Qed.

Lemma be_bytes_inj k a b :
  (a < 256 ^ N.of_nat k)%N -> (b < 256 ^ N.of_nat k)%N ->
  be_bytes k a = be_bytes k b -> a = b.
Proof.
  revert a b. induction k as [|k IH]; intros a b Ha Hb; simpl in *; [lia|].
  intros [= Hd Hr].
  rewrite Nat2N.inj_succ, N.pow_succ_r' in Ha, Hb.
  set (P := (256 ^ N.of_nat k)%N) in *.
  assert (HP : (0 < P)%N) by (subst P; apply N.neq_0_lt_0, N.pow_nonzero; lia).
  assert (Hstep : forall n, be_bytes k (n mod P) = be_bytes k n).
  { clear -HP. intros n. subst P.
    assert (Hgen : forall j m, (N.of_nat j <= m)%N ->
               be_bytes j (n mod 256 ^ m) = be_bytes j n).
    { induction j as [|j IHj]; intros m Hm; simpl; [done|].
      f_equal; [|apply IHj; lia].
      rewrite <- byte_of_mod, <- (byte_of_mod (n / _)). f_equal.
      replace (256 ^ m)%N with (256 ^ N.of_nat j * (256 * 256 ^ (m - N.of_nat j - 1)))%N.
      2:{ rewrite <- N.pow_succ_r', <- N.pow_add_r. f_equal. lia. }
      rewrite N.Div0.mod_mul_r, N.mul_comm, N.div_add by (apply N.pow_nonzero; lia).
      rewrite N.div_small by (apply N.mod_lt, N.pow_nonzero; lia).
      rewrite N.add_0_l, N.Div0.mod_mul_r, N.mul_comm, N.Div0.mod_add.
      by rewrite N.Div0.mod_mod. }
    by apply Hgen. }
  apply byte_of_inj in Hd; [|apply N.Div0.div_lt_upper_bound; lia..].
  assert (a mod P = b mod P)%N.
  { apply IH; [apply N.mod_lt; lia..|]. by rewrite !Hstep. }
  rewrite (N.div_mod a P), (N.div_mod b P) by lia. congruence.
Qed.

Lemma be64_app_inj a b x y :
  (a <= u64_max)%N -> (b <= u64_max)%N ->
  be64 a ++ x = be64 b ++ y -> a = b /\ x = y.
Proof.
  unfold be64. intros Ha Hb H. apply app_inj_1 in H as [H ->]; [|by rewrite !be_bytes_length].
  split; [|done]. apply be_bytes_inj in H; [done|unfold u64_max in *; simpl; lia..].
Qed.

(** A byte sequence that fits a Rust slice on a 64-bit target. *)
Definition addressable {A} (l : list A) : Prop := (N.of_nat (length l) <= u64_max)%N.

Lemma absorb_app_inj a b x y :
  addressable a -> addressable b -> absorb a ++ x = absorb b ++ y -> a = b /\ x = y.
Proof.
  unfold absorb. intros Ha Hb. rewrite <- !app_assoc.
  intros [Hl H]%be64_app_inj; [|done..].
  apply app_inj_1 in H; [done|lia].
Qed.

(** *** Well-formed specifications *)

(** What a [JobSpec] in circulation satisfies: the fields are private, so
    [JobSpec_new] is the only way to obtain one. *)
Record spec_wf (s : JobSpec) : Prop := {
  wf_revision : pm_revision (sp_publication s) = id_revision (sp_identity s);
  wf_files : sp_session_files s <> [];
  wf_unique : NoDup (fs_file_id <$> sp_session_files s);
  wf_requested : sp_requested s <> [];
  wf_requested_unique : NoDup (sp_requested s);
  wf_in_range : Forall (fun i => i < length (sp_session_files s)) (sp_requested s);
  wf_full : sp_full_session s = true ->
            length (sp_requested s) = length (sp_session_files s);
}.

Lemma build_index_ok idx pos files out :
  build_index idx pos files = Ok out <->
  out = idx ++ zip (fs_file_id <$> files) (seq pos (length files)) /\
  NoDup (fs_file_id <$> files) /\
  Forall (fun f => fs_file_id f ∉ idx.*1) files.
Proof.
  revert idx pos out. induction files as [|f files IH]; intros idx pos out; simpl.
  - rewrite app_nil_r. split; [intros [= <-]; repeat constructor | by intros [-> _]].
  - destruct (existsb _ idx) eqn:E.
    + split; [done|]. intros (_ & _ & [Hn _]%Forall_cons).
      apply existsb_exists in E as (e & Hin & Heq%String.eqb_eq). destruct Hn.
      rewrite <- Heq. apply list_elem_of_fmap. exists e. split; [done|]. by apply list_elem_of_In.
    + assert (Hnew : fs_file_id f ∉ idx.*1).
      { intros (e & He & Hin)%list_elem_of_fmap.
        assert (existsb (fun e' => String.eqb e'.1 (fs_file_id f)) idx = true); [|congruence].
        apply existsb_exists. exists e. split; [by apply list_elem_of_In|].
        rewrite He. apply String.eqb_refl. }
      rewrite IH, <- app_assoc. simpl. rewrite NoDup_cons, Forall_cons.
      split.
      * intros (-> & Hnd & Hf). split_and!; [done| |done|done|].
        -- intros (g & Hg & Hin)%list_elem_of_fmap. rewrite Forall_forall in Hf.
           apply (Hf g Hin). rewrite fmap_app, elem_of_app. right. rewrite <- Hg. simpl. set_solver.
        -- eapply Forall_impl; [exact Hf|]. intros g Hg. rewrite fmap_app in Hg. set_solver.
      * intros (-> & (Hnin & Hnd) & _ & Hf). split_and!; [done..|].
        rewrite Forall_forall in Hf |- *. intros g Hin. rewrite fmap_app, elem_of_app. simpl.
        intros [Hbad|Hbad]; [by apply (Hf g)|].
        apply list_elem_of_singleton in Hbad. destruct Hnin. rewrite <- Hbad.
        apply list_elem_of_fmap. eauto.
Qed.

Lemma index_find_zip ids pos id p :
  NoDup ids ->
  index_find id (zip ids (seq pos (length ids))) = Some p <->
  pos <= p /\ ids !! (p - pos) = Some id.
Proof.
  unfold index_find. revert pos. induction ids as [|a ids IH]; intros pos Hnd; simpl.
  - split; [done|]. rewrite lookup_nil. by intros [_ ?].
  - apply NoDup_cons in Hnd as [Hnin Hnd].
    destruct (String.eqb_spec a id) as [->|Hne]; simpl.
    + split.
      * intros [= <-]. by rewrite Nat.sub_diag.
      * intros [Hle Hl]. destruct (p - pos) as [|k] eqn:E; [f_equal; lia|].
        simpl in Hl. destruct Hnin. by eapply list_elem_of_lookup_2.
    + rewrite (IH (S pos) Hnd). split.
      * intros [Hle Hl]. split; [lia|]. by replace (p - pos) with (S (p - S pos)) by lia.
      * intros [Hle Hl]. destruct (p - pos) as [|k] eqn:E; [naive_solver|].
        simpl in Hl. split; [lia|]. by replace (p - S pos) with k by lia.
Qed.

Lemma select_requested_ok idx req ids out :
  select_requested idx req ids = Ok out <->
  exists ps, out = req ++ ps /\ Forall2 (fun id p => index_find id idx = Some p) ids ps
             /\ NoDup ps /\ Forall (fun p => p ∉ req) ps.
Proof.
  revert req out. induction ids as [|id ids IH]; intros req out; simpl.
  - split.
    + intros [= <-]. exists []. rewrite app_nil_r. repeat constructor.
    + intros (ps & -> & H & _). inversion H; subst. by rewrite app_nil_r.
  - destruct (index_find id idx) as [p|] eqn:E.
    2:{ split; [done|]. intros (ps & _ & H & _). inversion H; congruence. }
    destruct (existsb (Nat.eqb p) req) eqn:Ex.
    + split; [done|]. intros (ps & _ & H & _ & Hf).
      inversion H as [|? p' ? ps' Hp']; subst. inversion Hf as [|? ? Hn]; subst.
      apply existsb_exists in Ex as (q & Hin & <-%Nat.eqb_eq). destruct Hn.
      assert (p' = p) as -> by congruence. by apply list_elem_of_In.
    + assert (Hnew : p ∉ req).
      { intros Hin%list_elem_of_In. assert (existsb (Nat.eqb p) req = true); [|congruence].
        apply existsb_exists. exists p. split; [done|]. apply Nat.eqb_refl. }
      rewrite IH. split.
      * intros (ps & -> & H & Hnd & Hf). exists (p :: ps). rewrite <- app_assoc.
        split_and!; [done|by constructor| |].
        -- constructor; [|done]. intros Hin. rewrite Forall_forall in Hf.
           apply (Hf p Hin). set_solver.
        -- constructor; [done|]. eapply Forall_impl; [exact Hf|]. set_solver.
      * intros (ps & -> & H & Hnd & Hf). inversion H as [|? p' ? ps' Hp' Hr]; subst.
        assert (p' = p) as -> by congruence. apply NoDup_cons in Hnd as [? ?].
        apply Forall_cons in Hf as [? Hf].
        exists ps'. rewrite <- app_assoc. split_and!; [done..|].
        rewrite Forall_forall in Hf |- *. intros q Hq. rewrite not_elem_of_app. set_solver.
Qed.

Lemma omap_lookup_Forall2 (files : list JobFileSpec) ps ids :
  Forall (fun i => i < length files) ps ->
  fs_file_id <$> omap (fun i => files !! i) ps = ids <->
  Forall2 (fun id p => (fs_file_id <$> files) !! p = Some id) ids ps.
Proof.
  intros Hr. revert ids. induction Hr as [|p ps Hp Hr IH]; intros ids; simpl.
  - split; [intros <-; constructor | by inversion 1].
  - apply lookup_lt_is_Some in Hp as [f Hf]. rewrite Hf. simpl. split.
    + intros <-. constructor; [by rewrite list_lookup_fmap, Hf|]. by apply IH.
    + inversion 1 as [|id ? ids' ? Hid Hrest]; subst. f_equal.
      * rewrite list_lookup_fmap, Hf in Hid. by injection Hid.
      * by apply IH.
Qed.

Lemma JobSpec_new_spec identity publication files ids full label s :
  JobSpec_new identity publication files ids full label = Ok s <->
  spec_wf s /\ sp_identity s = identity /\ sp_publication s = publication /\
  sp_session_files s = files /\ sp_full_session s = full /\ sp_date_label s = label /\
  fs_file_id <$> requested_files s = ids.
Proof.
  unfold JobSpec_new, requested_files.
  destruct (String.eqb_spec (pm_revision publication) (id_revision identity)) as [Hrev|Hrev];
    simpl.
  2:{ split; [done|]. intros (Hwf & <- & <- & _). by destruct Hrev, Hwf. }
  destruct files as [|f0 files0] eqn:Efiles.
  { split; [done|]. intros (Hwf & _ & _ & Hf & _). by destruct (wf_files s Hwf). }
  rewrite <- Efiles. destruct ids as [|id0 ids0] eqn:Eids.
  { split; [done|]. intros (Hwf & _ & _ & Hf & _ & _ & Hm). exfalso.
    apply omap_lookup_Forall2 in Hm; [|apply Hwf]. inversion Hm as [Hz|]; subst.
    by destruct (wf_requested s Hwf). }
  rewrite <- Eids. rewrite rbind_ok. setoid_rewrite rbind_ok.
  setoid_rewrite build_index_ok. setoid_rewrite select_requested_ok.
  assert (Hiff : forall ps, NoDup (fs_file_id <$> files) ->
    Forall2 (fun id p => index_find id (zip (fs_file_id <$> files)
                           (seq 0 (length files))) = Some p) ids ps <->
    Forall2 (fun id p => (fs_file_id <$> files) !! p = Some id) ids ps).
  { intros ps Hnd. split; (intros HF; eapply Forall2_impl; [exact HF|]); intros id p;
      rewrite <- (length_fmap fs_file_id files), index_find_zip by done;
      rewrite Nat.sub_0_r; intuition lia. }
  split.
  - intros (idx & (-> & Hnd & _) & req & (ps & -> & H & Hndp & _) & Hret). simpl in *.
    apply Hiff in H; [|done].
    assert (Hrange : Forall (fun i => i < length files) ps).
    { eapply Forall2_Forall_r; [exact H|]. apply Forall_true. intros id p Hl%lookup_lt_Some.
      by rewrite length_fmap in Hl. }
    destruct (full && negb (length ps =? length files)%nat) eqn:Efull; [done|].
    injection Hret as <-. simpl. split_and!; try done.
    + constructor; simpl; try done.
      * by rewrite Efiles.
      * intros ->. rewrite Eids in H. by inversion H.
      * intros ->. simpl in Efull. by apply Nat.eqb_eq, negb_false_iff.
    + by apply omap_lookup_Forall2.
  - intros (Hwf & Hi & Hp & Hf & Hfull & Hd & Hm).
    eexists. split.
    { split_and!; [reflexivity|rewrite <- Hf; apply Hwf|]. apply Forall_true. simpl. set_solver. }
    apply omap_lookup_Forall2 in Hm; [|apply Hwf].
    exists (sp_requested s). rewrite Hf in Hm. split.
    + exists (sp_requested s). split_and!; [done| |apply Hwf|apply Forall_true; set_solver].
      simpl. apply Hiff; [rewrite <- Hf; apply Hwf|done].
    + replace (full && _) with false; [destruct s; simpl in *; subst; done|].
      symmetry. destruct full; [simpl|done]. apply negb_false_iff, Nat.eqb_eq.
      rewrite <- Hf. by apply Hwf.
Qed.

(** [JobSpec::new] accepts exactly the well-formed requests: it
    returns a specification if and only if the publication covers the
    identity's revision, the inventory and the request are non-empty and free
    of duplicates, every requested id is in the signed inventory and a
    full-session request covers all of it; and what it returns carries the
    arguments, with [requested_files] listing exactly the requested ids in
    request order. *)
Theorem JobSpec_new_iff identity publication files ids full label s :
  JobSpec_new identity publication files ids full label = Ok s <->
  spec_wf s /\ sp_identity s = identity /\ sp_publication s = publication /\
  sp_session_files s = files /\ sp_full_session s = full /\ sp_date_label s = label /\
  fs_file_id <$> requested_files s = ids.
Proof. apply JobSpec_new_spec. Qed.

(** *** The request digest *)

(** Two specifications that ask for the same bytes: equal but for the
    cosmetic date label. *)
Definition same_request (s t : JobSpec) : Prop :=
  sp_identity s = sp_identity t /\ sp_publication s = sp_publication t /\
  sp_session_files s = sp_session_files t /\ sp_requested s = sp_requested t /\
  sp_full_session s = sp_full_session t.

Definition fits_str (x : string) : Prop := addressable (bytes_of x).

Definition file_fits (f : JobFileSpec) : Prop :=
  fits_str (fs_file_id f) /\ fits_str (fs_display_path f) /\
  (fs_size_bytes f <= u64_max)%N /\ fits_str (fs_sha256 f).

(** Every length and size is a machine integer. *)
Record spec_fits (s : JobSpec) : Prop := {
  fit_identity : fits_str (id_device (sp_identity s)) /\ fits_str (id_session (sp_identity s))
                 /\ fits_str (id_revision (sp_identity s));
  fit_publication : fits_str (pm_revision (sp_publication s)) /\
                    addressable (pm_payload (sp_publication s)) /\
                    addressable (pm_signature (sp_publication s)) /\
                    addressable (pm_public_key (sp_publication s));
  fit_files : addressable (sp_session_files s) /\ Forall file_fits (sp_session_files s);
  fit_requested : addressable (sp_requested s);
}.

Lemma bytes_of_inj a b : bytes_of a = bytes_of b -> a = b.
Proof.
  intros H. rewrite <- (string_of_list_byte_of_string a), <- (string_of_list_byte_of_string b).
  by f_equal.
Qed.

Lemma absorb_str_inj a b x y :
  fits_str a -> fits_str b ->
  absorb (bytes_of a) ++ x = absorb (bytes_of b) ++ y -> a = b /\ x = y.
Proof. intros Ha Hb Heq. by apply absorb_app_inj in Heq as [Hs%bytes_of_inj ->]. Qed.

Lemma absorb_file_inj f g x y :
  file_fits f -> file_fits g -> absorb_file f ++ x = absorb_file g ++ y -> f = g /\ x = y.
Proof.
  destruct f, g. unfold file_fits, absorb_file; cbn [fs_file_id fs_display_path fs_size_bytes fs_sha256].
  intros (? & ? & ? & ?) (? & ? & ? & ?). rewrite <- !app_assoc.
  intros [-> Hx]%absorb_str_inj; [|done..].
  apply absorb_str_inj in Hx as [-> Hx]; [|done..].
  apply be64_app_inj in Hx as [-> Hx]; [|done..].
  by apply absorb_str_inj in Hx as [-> ->].
Qed.

Lemma mjoin_framed_inj {A} (enc : A -> list byte) (P : A -> Prop) l k x y :
  (forall a b u v, P a -> P b -> enc a ++ u = enc b ++ v -> a = b /\ u = v) ->
  Forall P l -> Forall P k -> length l = length k ->
  mjoin (enc <$> l) ++ x = mjoin (enc <$> k) ++ y -> l = k /\ x = y.
Proof.
  intros Henc Hl. revert k. induction Hl as [|a l Ha Hl IH]; intros [|b k] Hk Hlen; try done.
  apply Forall_cons in Hk as [Hb Hk]. simpl in *. rewrite <- !app_assoc.
  intros [-> H]%Henc; [|done..]. apply IH in H as [-> ->]; [done|done|lia].
Qed.

Lemma requested_ids_inj s ps qs :
  NoDup (fs_file_id <$> sp_session_files s) ->
  Forall (fun i => i < length (sp_session_files s)) ps ->
  Forall (fun i => i < length (sp_session_files s)) qs ->
  fs_file_id <$> omap (fun i => sp_session_files s !! i) ps =
  fs_file_id <$> omap (fun i => sp_session_files s !! i) qs -> ps = qs.
Proof.
  intros Hnd Hp Hq H. apply omap_lookup_Forall2 in H; [|done].
  assert (H2 := proj1 (omap_lookup_Forall2 _ qs _ Hq) eq_refl).
  clear Hp Hq. revert ps H. induction H2 as [|id q ids qs Hid H2 IH]; intros ps H.
  - by inversion H.
  - inversion H as [|? p ? ps' Hp Hr]; subst. f_equal; [|by apply IH].
    eapply NoDup_lookup; eauto.
Qed.

Lemma requested_files_length s :
  spec_wf s -> length (requested_files s) = length (sp_requested s).
Proof.
  intros Hwf. unfold requested_files. generalize (wf_in_range s Hwf).
  induction (sp_requested s) as [|i l IH]; intros Hf; simpl; [done|].
  apply Forall_cons in Hf as [[f Hi]%lookup_lt_is_Some Hf]. rewrite Hi. simpl.
  f_equal. by apply IH.
Qed.

Lemma requested_files_fit s :
  spec_fits s -> Forall (fun f => fits_str (fs_file_id f)) (requested_files s).
Proof.
  intros Hfit. destruct (fit_files s Hfit) as [_ Hall]. rewrite Forall_forall in Hall |- *.
  intros f (i & _ & Hi)%list_elem_of_omap. apply (Hall f). by eapply list_elem_of_lookup_2.
Qed.

Lemma mjoin_ids (l : list JobFileSpec) :
  mjoin ((fun f => absorb (bytes_of (fs_file_id f))) <$> l) =
  mjoin ((fun id => absorb (bytes_of id)) <$> (fs_file_id <$> l)).
Proof. by rewrite <- list_fmap_compose. Qed.

(** The bytes [request_digest] hashes determine the request: two
    well-formed specifications have the same preimage exactly when they agree
    on identity, publication, inventory, selection order and scope, so two
    different requests share a digest only through a SHA-256 collision, and
    the date label never matters. *)
Theorem request_preimage_iff s t :
  spec_wf s -> spec_wf t -> spec_fits s -> spec_fits t ->
  request_preimage s = request_preimage t <-> same_request s t.
Proof.
  intros Ws Wt Fs Ft. split.
  2:{ unfold request_preimage, same_request, requested_files.
      by intros (-> & -> & -> & -> & ->). }
  unfold request_preimage. intros H. apply app_inv_head in H.
  assert (Ms := requested_files_fit s Fs). assert (Mt := requested_files_fit t Ft).
  assert (Ls := requested_files_length s Ws). assert (Lt := requested_files_length t Wt).
  rewrite !mjoin_ids in H.
  destruct Fs as [(?&?&?) (?&?&?&?) [? ?] ?], Ft as [(?&?&?) (?&?&?&?) [? ?] ?].
  apply absorb_str_inj in H as [Hd H]; [|done..].
  apply absorb_str_inj in H as [Hs H]; [|done..].
  apply absorb_str_inj in H as [Hr H]; [|done..].
  apply absorb_str_inj in H as [Hpr H]; [|done..].
  apply absorb_app_inj in H as [Hpp H]; [|done..].
  apply absorb_app_inj in H as [Hpsig H]; [|done..].
  apply absorb_app_inj in H as [Hppk H]; [|done..].
  apply app_inj_1 in H as [Hfull H]; [injection Hfull as Hfull|done].
  apply be64_app_inj in H as [Hlen%Nat2N.inj H]; [|done..].
  apply (mjoin_framed_inj absorb_file file_fits) in H as [Hfiles H];
    [|apply absorb_file_inj|done..].
  apply be64_app_inj in H as [Hrl%Nat2N.inj H]; [|done..].
  rewrite <- (app_nil_r (mjoin _)), <- (app_nil_r (mjoin (_ <$> (_ <$> requested_files t)))) in H.
  apply (mjoin_framed_inj _ fits_str) in H as [Hreq _];
    [|intros; by apply absorb_str_inj|by apply Forall_fmap..|rewrite !length_fmap; congruence].
  unfold same_request. split_and!; try done.
  - destruct (sp_identity s), (sp_identity t); simpl in *; congruence.
  - destruct (sp_publication s), (sp_publication t); simpl in *; congruence.
  - unfold requested_files in Hreq. rewrite <- Hfiles in Hreq.
    eapply requested_ids_inj; [apply Ws|apply Ws| |exact Hreq]. rewrite Hfiles. apply Wt.
  - by destruct (sp_full_session s), (sp_full_session t).
Qed.

(** *** Hex *)

Lemma hex_digit_cases d : (d < 16)%N ->
  is_lower_hex (hex_digit d) = true /\ hex_val (hex_digit d) = Some d.
Proof.
  intros Hd. assert (Hin : d ∈ N.of_nat <$> seq 0 16).
  { apply list_elem_of_fmap. exists (N.to_nat d). split; [lia|]. apply elem_of_seq. lia. }
  clear Hd. revert d Hin. apply Forall_forall. repeat (constructor; [by vm_compute|]). constructor.
Qed.

Lemma to_hex_lower bs : str_all is_lower_hex (to_hex bs) = true.
Proof.
  induction bs as [|b bs IH]; [done|]. cbn [to_hex str_all].
  assert (Hb := Byte.to_N_bounded b). rewrite IH, andb_true_r.
  apply andb_true_iff; split; apply hex_digit_cases.
  - apply N.Div0.div_lt_upper_bound; lia.
  - apply N.mod_lt; lia.
Qed.

Lemma to_hex_length bs : String.length (to_hex bs) = 2 * length bs.
Proof. induction bs as [|b bs IH]; [done|]. cbn [to_hex String.length length]. lia. Qed.

Lemma byte_of_to_N b : byte_of (Byte.to_N b) = b.
Proof.
  unfold byte_of. assert (Hb := Byte.to_N_bounded b).
  rewrite N.mod_small by lia. by rewrite Byte.of_to_N.
Qed.

Lemma hex_bytes_to_hex bs : hex_bytes (to_hex bs) = Some bs.
Proof.
  induction bs as [|b bs IH]; [done|]. cbn [to_hex hex_bytes].
  assert (Hb := Byte.to_N_bounded b).
  rewrite !(fun d H => proj2 (hex_digit_cases d H)), IH.
  - do 2 f_equal. rewrite <- (byte_of_to_N b) at 3. f_equal.
    rewrite (N.div_mod (Byte.to_N b) 16) at 3 by lia. lia.
  - apply N.mod_lt; lia.
  - apply N.Div0.div_lt_upper_bound; lia.
Qed.

Lemma from_hex_to_hex_spec bs : length bs = 32 -> from_hex (to_hex bs) = Ok bs.
Proof.
  intros Hl. unfold from_hex, require_sha256_hex, str_len.
  rewrite to_hex_lower, to_hex_length, Hl. simpl. by rewrite hex_bytes_to_hex.
Qed.

(** a digest survives the text column it is stored in: the hex of
    32 bytes is accepted by [from_hex] and gives back the same bytes. *)
Theorem from_hex_to_hex bs : length bs = 32 -> from_hex (to_hex bs) = Ok bs.
Proof. apply from_hex_to_hex_spec. Qed.

(** ** A concrete digest

    A stand-in for the [sha2] crate under which the definitions evaluate: the
    first 32 bytes of the zero-padded input. *)
Module DemoSha.

Definition digest (bs : list byte) : list byte := take 32 (bs ++ replicate 32 Byte.x00).

Lemma digest_length bs : length (digest bs) = 32.
Proof. unfold digest. rewrite length_take, length_app, length_replicate. lia. Qed.

Definition sha : Sha256 := {| sha256 := digest; sha256_length := digest_length |}.

End DemoSha.

(** *** Witnesses *)

Definition demo_sha : string :=
  "e3b0c44298fc1c149afbf4c8996fb92427ae41e4649b934ca495991b7852b855".

Definition demo_spec (label : string) : JobSpec :=
  mkJobSpec (mkIdentity "yl2" "rec-1" "sha256:aa")
    (mkMaterial "sha256:aa" [Byte.x7b; Byte.x7d] (replicate 64 Byte.x00) (replicate 32 Byte.x01))
    [mkFileSpec "f1" "left.mp4" 3 demo_sha; mkFileSpec "f2" "right.mp4" 0 demo_sha]
    [1; 0] true label.

Lemma demo_spec_wf label : spec_wf (demo_spec label).
Proof.
  split; simpl; try done.
  - by apply (bool_decide_unpack _); vm_compute.
  - by apply (bool_decide_unpack _); vm_compute.
  - repeat constructor.
Qed.

Lemma demo_spec_fits label : spec_fits (demo_spec label).
Proof. split; simpl; repeat split; unfold fits_str, addressable; repeat constructor; by vm_compute. Qed.

Lemma request_preimage_iff_witness :
  request_preimage (demo_spec "2026-01-01") = request_preimage (demo_spec "later") <->
  same_request (demo_spec "2026-01-01") (demo_spec "later").
Proof.
  apply (request_preimage_iff (demo_spec "2026-01-01") (demo_spec "later"));
    [apply demo_spec_wf..|apply demo_spec_fits|apply demo_spec_fits].
Defined.

Lemma from_hex_to_hex_witness :
  length (replicate 32 Byte.xaf) = 32 /\
  from_hex (to_hex (replicate 32 Byte.xaf)) = Ok (replicate 32 Byte.xaf).
Proof. split; [reflexivity | apply (from_hex_to_hex (replicate 32 Byte.xaf)); reflexivity]. Defined.
