(* ===== verification/Device.v ===== *)
(** * Device: the three orthogonal device states (device/mod.rs)

Discovery, connection and capture activity of one Pi, and the [Device]
record that combines them.  [Aggregate] reads the connection and the
capture activity together as a [DeviceSnapshot]. *)

From Stdlib Require Import NArith String.
From stdpp Require Import base strings numbers.
From S2P Require Import Prelude Domain.

(** [DiscoveryState] (device/mod.rs:63-69). *)
Inductive DiscoveryState := Online | Stale | Offline.

(** [PairingPhase] (device/mod.rs:74-82). *)
Inductive PairingPhase := PhPending | PhAllowed | PhRejected | PhExpired | PhCancelled.

(** [ConnectionState] (device/mod.rs:103-118). *)
Inductive ConnectionState :=
| Disconnected
| Pairing (attempt_id : string) (phase : PairingPhase)
| Connected (connection_id : string) (epoch : N)
| Expired (reason : string).

(** [CaptureActivityState] (device/mod.rs:130-139). *)
Inductive CaptureActivityState := CapIdle | CapStarting | CapRecording | CapStopping | CapError | CapUnknown.

(** [Device] (device/mod.rs:147-155). *)
Record Device := mkDevice {
  dev_device_id : DeviceId;
  dev_name : string;
  dev_tls_fingerprint : string;
  dev_discovery : DiscoveryState;
  dev_connection : ConnectionState;
  dev_capture_activity : CaptureActivityState;
}.

#[global] Instance DiscoveryState_eq_dec : EqDecision DiscoveryState.
Proof. solve_decision. Defined.
#[global] Instance PairingPhase_eq_dec : EqDecision PairingPhase.
Proof. solve_decision. Defined.
#[global] Instance ConnectionState_eq_dec : EqDecision ConnectionState.
Proof. solve_decision. Defined.
#[global] Instance CaptureActivityState_eq_dec : EqDecision CaptureActivityState.
Proof. solve_decision. Defined.
