(* ===== verification/Schema.v ===== *)
(** * Schema: the durable vocabulary (persistence/schema.rs)

The state tag stored in a job row, the ledger status of a file, their
text spellings, and the transition graph the store enforces. *)

From Stdlib Require Import NArith String.
From stdpp Require Import base numbers list strings.
From S2P Require Import Prelude.

(** [JobStateTag] (persistence/schema.rs:981-996). *)
Inductive JobStateTag :=
| TQueued | TWaitingForDevice | TWaitingForPairing | TPausedCaptureActive | TPreparing
| TTransferring | TVerifying | TCommitting | TRetryWait | TCancelling | TSucceeded | TFailed
| TCancelled.

#[global] Instance JobStateTag_eq_dec : EqDecision JobStateTag.
Proof. solve_decision. Defined.

(** [JobStateTag::as_db_str] (persistence/schema.rs:999-1015). *)
Definition tag_as_db_str (t : JobStateTag) : string :=
  match t with
  | TQueued => "queued"
  | TWaitingForDevice => "waiting_for_device"
  | TWaitingForPairing => "waiting_for_pairing"
  | TPausedCaptureActive => "paused_capture_active"
  | TPreparing => "preparing"
  | TTransferring => "transferring"
  | TVerifying => "verifying"
  | TCommitting => "committing"
  | TRetryWait => "retry_wait"
  | TCancelling => "cancelling"
  | TSucceeded => "succeeded"
  | TFailed => "failed"
  | TCancelled => "cancelled"
  end.

(** [JobStateTag::from_db_str] (persistence/schema.rs:1017-1034). *)
Definition tag_from_db_str (s : string) : option JobStateTag :=
  if String.eqb s "queued" then Some TQueued
  else if String.eqb s "waiting_for_device" then Some TWaitingForDevice
  else if String.eqb s "waiting_for_pairing" then Some TWaitingForPairing
  else if String.eqb s "paused_capture_active" then Some TPausedCaptureActive
  else if String.eqb s "preparing" then Some TPreparing
  else if String.eqb s "transferring" then Some TTransferring
  else if String.eqb s "verifying" then Some TVerifying
  else if String.eqb s "committing" then Some TCommitting
  else if String.eqb s "retry_wait" then Some TRetryWait
  else if String.eqb s "cancelling" then Some TCancelling
  else if String.eqb s "succeeded" then Some TSucceeded
  else if String.eqb s "failed" then Some TFailed
  else if String.eqb s "cancelled" then Some TCancelled
  else None.

(** [JobStateTag::is_terminal] (persistence/schema.rs:1044-1049). *)
Definition tag_is_terminal (t : JobStateTag) : bool :=
  match t with TSucceeded | TFailed | TCancelled => true | _ => false end.

(** [is_valid_transition] (persistence/schema.rs:1056-1100). *)
Definition is_valid_transition (from to : JobStateTag) : bool :=
  if tag_is_terminal from then false else
  match from, to with
  | TQueued, (TWaitingForDevice | TWaitingForPairing | TPreparing | TCancelling)
  | TWaitingForDevice, (TQueued | TPreparing | TPausedCaptureActive | TCancelling)
  | TWaitingForPairing, (TQueued | TPreparing | TCancelling)
  | TPausedCaptureActive, (TQueued | TPreparing | TCancelling)
  | TPreparing, (TTransferring | TWaitingForDevice | TFailed | TCancelling)
  | TTransferring, (TVerifying | TRetryWait | TPausedCaptureActive | TFailed | TCancelling)
  | TVerifying, (TCommitting | TRetryWait | TFailed | TCancelling)
  | TCommitting, (TSucceeded | TRetryWait | TFailed)
  | TRetryWait, (TQueued | TPreparing | TCancelling | TFailed)
  | TCancelling, (TCancelled | TFailed) => true
  | _, _ => false
  end.

(** [FileLedgerStatus] (persistence/schema.rs:695-701). *)
Inductive FileLedgerStatus := LMissing | LPartial | LVerified | LInvalid.

#[global] Instance FileLedgerStatus_eq_dec : EqDecision FileLedgerStatus.
Proof. solve_decision. Defined.

(** [FileLedgerStatus::as_db_str] (persistence/schema.rs:704-712). *)
Definition ledger_as_db_str (s : FileLedgerStatus) : string :=
  match s with
  | LMissing => "missing" | LPartial => "partial" | LVerified => "verified" | LInvalid => "invalid"
  end.

(** [FileLedgerStatus::from_db_str] (persistence/schema.rs:714-723). *)
Definition ledger_from_db_str (s : string) : option FileLedgerStatus :=
  if String.eqb s "missing" then Some LMissing
  else if String.eqb s "partial" then Some LPartial
  else if String.eqb s "verified" then Some LVerified
  else if String.eqb s "invalid" then Some LInvalid
  else None.

(** [CURRENT_JOB_SPEC_VERSION] (persistence/schema.rs:727-727). *)
Definition CURRENT_JOB_SPEC_VERSION : N := 1.

Lemma tag_db_roundtrip t : tag_from_db_str (tag_as_db_str t) = Some t.
Proof. by destruct t. Qed.

Lemma tag_from_db_str_Some s t : tag_from_db_str s = Some t -> s = tag_as_db_str t.
Proof.
  unfold tag_from_db_str.
  repeat (match goal with |- context [String.eqb s ?k] => destruct (String.eqb_spec s k) end;
          [intros [= <-]; assumption|]).
  done.
Qed.

Lemma ledger_db_roundtrip t : ledger_from_db_str (ledger_as_db_str t) = Some t.
Proof. by destruct t. Qed.

Lemma tag_as_db_str_inj a b : tag_as_db_str a = tag_as_db_str b -> a = b.
Proof. intros H. apply (inj Some). by rewrite <- !tag_db_roundtrip, H. Qed.
