(* ===== verification/Aggregate.v ===== *)
(** * Aggregate: the job state machine and its pure reducer

The vertex set (transfer/mod.rs), the edge set, the routes, the device
readiness, the reducer [JobAggregate_decide] with every [decide_*] branch, and the
target leases (transfer/aggregate.rs).  The reducer is a pure function
from an aggregate and a command to a decision; the theorems say which
commits a decision may propose and what each command guarantees. *)

From Stdlib Require Import NArith Lia String.
From stdpp Require Import base numbers list strings gmap relations.
From S2P Require Import Prelude Domain Device.

(** ** States and the transition graph *)

(** [FailureCode] (transfer/mod.rs:58-67). *)
Inductive FailureCode :=
| Network | DiskFull | HashMismatch | ObjectStoreRejected | DeviceHeartbeatFailed
| Other (message : string).

(** [TransferJobState] (transfer/mod.rs:75-91). *)
Inductive TransferJobState :=
| Queued | WaitingForDevice | WaitingForPairing | PausedCaptureActive | Preparing
| Transferring | Verifying | Committing | RetryWait | Cancelling | Succeeded
| Failed (code : FailureCode) (retryable : bool)
| Cancelled.

#[global] Instance FailureCode_eq_dec : EqDecision FailureCode.
Proof. solve_decision. Defined.
#[global] Instance TransferJobState_eq_dec : EqDecision TransferJobState.
Proof. solve_decision. Defined.

Definition state_eqb (a b : TransferJobState) : bool := bool_decide (a = b).

(** [TransferJobState::is_terminal] (transfer/mod.rs:100-108). *)
Definition is_terminal (s : TransferJobState) : bool :=
  match s with Succeeded | Failed _ _ | Cancelled => true | _ => false end.

Abbreviation JobId := string (only parsing).

(** [TransferJob] (transfer/mod.rs:118-123). *)
Record TransferJob := mkTransferJob {
  tj_device_id : DeviceId;
  tj_session_id : SessionId;
  tj_state : TransferJobState;
}.

(** [is_legal_transition] (transfer/aggregate.rs:66-110). *)
Definition is_legal_transition (from to : TransferJobState) : bool :=
  if is_terminal from then false else
  match from, to with
  | Queued, (WaitingForDevice | WaitingForPairing | Preparing | Cancelling)
  | WaitingForDevice, (Queued | Preparing | PausedCaptureActive | Cancelling)
  | WaitingForPairing, (Queued | Preparing | Cancelling)
  | PausedCaptureActive, (Queued | Preparing | Cancelling)
  | Preparing, (Transferring | WaitingForDevice | Failed _ _ | Cancelling)
  | Transferring, (Verifying | RetryWait | PausedCaptureActive | Failed _ _ | Cancelling)
  | Verifying, (Committing | RetryWait | Failed _ _ | Cancelling)
  | Committing, (Succeeded | RetryWait | Failed _ _)
  | RetryWait, (Queued | Preparing | Cancelling | Failed _ _)
  | Cancelling, (Cancelled | Failed _ _) => true
  | _, _ => false
  end.

(** [all_states] (transfer/aggregate.rs:116-136). *)
Definition all_states : list TransferJobState :=
  [Queued; WaitingForDevice; WaitingForPairing; PausedCaptureActive; Preparing; Transferring;
   Verifying; Committing; RetryWait; Cancelling; Succeeded; Failed Network true; Cancelled].

(** [state_name] (transfer/aggregate.rs:141-158). *)
Definition state_name (s : TransferJobState) : string :=
  match s with
  | Queued => "queued"
  | WaitingForDevice => "waiting_for_device"
  | WaitingForPairing => "waiting_for_pairing"
  | PausedCaptureActive => "paused_capture_active"
  | Preparing => "preparing"
  | Transferring => "transferring"
  | Verifying => "verifying"
  | Committing => "committing"
  | RetryWait => "retry_wait"
  | Cancelling => "cancelling"
  | Succeeded => "succeeded"
  | Failed _ _ => "failed"
  | Cancelled => "cancelled"
  end.

(** [route] (transfer/aggregate.rs:170-184). *)
Definition route (from to : TransferJobState) : option (list TransferJobState) :=
  if state_eqb from to then Some []
  else if is_legal_transition from to then Some [to]
  else if is_legal_transition from Queued && is_legal_transition Queued to
  then Some [Queued; to]
  else None.

(** ** Device readiness *)

(** [DeviceReadiness] (transfer/aggregate.rs:193-199). *)
Inductive DeviceReadiness := Ready | WaitDevice | WaitPairing | CapturePaused.

(** [DeviceSnapshot] (transfer/aggregate.rs:211-216). *)
Record DeviceSnapshot := mkSnapshot {
  ds_version : N;
  ds_connection : ConnectionState;
  ds_capture : CaptureActivityState;
}.

#[global] Instance DeviceReadiness_eq_dec : EqDecision DeviceReadiness.
Proof. solve_decision. Defined.

(** [DeviceSnapshot::readiness] (transfer/aggregate.rs:228-245). *)
Definition readiness (s : DeviceSnapshot) : DeviceReadiness :=
  match ds_connection s with
  | Connected _ _ =>
      match ds_capture s with
      | CapRecording | CapStarting | CapStopping => CapturePaused
      | CapIdle | CapError | CapUnknown => Ready
      end
  | Pairing _ _ => WaitPairing
  | Disconnected | Expired _ => WaitDevice
  end.

(** [DeviceSnapshot::is_ready] (transfer/aggregate.rs:247-250). *)
Definition is_ready (s : DeviceSnapshot) : bool := bool_decide (readiness s = Ready).

(** ** Commands, effects and decisions *)

(** [InterruptReason] (transfer/queue.rs:299-313). *)
Inductive InterruptReason := IrCapturePause | IrUserPause | IrCancel | IrDeviceLost | IrShutdown.

#[global] Instance InterruptReason_eq_dec : EqDecision InterruptReason.
Proof. solve_decision. Defined.

(** [WorkerReport] (transfer/aggregate.rs:261-291). *)
Inductive WorkerReport :=
| Prepared
| PreparationFailed (code : FailureCode) (retryable : bool)
| TransferComplete
| TransferFailed (code : FailureCode) (retryable : bool)
| WorkerPanicked (detail : string)
| Interrupted (reason : InterruptReason)
| Verified
| CommitComplete
| CommitFailed (code : FailureCode) (retryable : bool).

(** [WorkerReport::expected_state] (transfer/aggregate.rs:294-310). *)
Definition expected_state (r : WorkerReport) : option TransferJobState :=
  match r with
  | Prepared | PreparationFailed _ _ => Some Preparing
  | TransferComplete | TransferFailed _ _ | Interrupted _ => Some Transferring
  | WorkerPanicked _ => None
  | Verified => Some Verifying
  | CommitComplete | CommitFailed _ _ => Some Committing
  end.

(** [WorkerReport::name] (transfer/aggregate.rs:312-325). *)
Definition report_name (r : WorkerReport) : string :=
  match r with
  | Prepared => "prepared"
  | PreparationFailed _ _ => "preparation_failed"
  | TransferComplete => "transfer_complete"
  | TransferFailed _ _ => "transfer_failed"
  | WorkerPanicked _ => "worker_panicked"
  | Interrupted _ => "interrupted"
  | Verified => "verified"
  | CommitComplete => "commit_complete"
  | CommitFailed _ _ => "commit_failed"
  end.

(** [DesiredRunState] (transfer/aggregate.rs:335-340). *)
Inductive DesiredRunState := Run | Paused.

#[global] Instance DesiredRunState_eq_dec : EqDecision DesiredRunState.
Proof. solve_decision. Defined.

(** [JobCommand] (transfer/aggregate.rs:345-373). *)
Inductive JobCommand :=
| Transition (to : TransferJobState)
| Pause | Resume | Cancel | FinalizeCancel | Retry | Dismiss
| DeviceObserved (snapshot : DeviceSnapshot)
| Worker (report : WorkerReport).

(** [JobCommand::name] (transfer/aggregate.rs:375-391). *)
Definition command_name (c : JobCommand) : string :=
  match c with
  | Transition _ => "transition"
  | Pause => "pause"
  | Resume => "resume"
  | Cancel => "cancel"
  | FinalizeCancel => "finalize_cancel"
  | Retry => "retry"
  | Dismiss => "dismiss"
  | DeviceObserved _ => "device_observed"
  | Worker _ => "worker"
  end.

(** [Effect] (transfer/aggregate.rs:395-427). *)
Inductive Effect :=
| Commit (expected_version : N) (to : TransferJobState)
| SetDesiredRunState (desired : DesiredRunState)
| RequestInterrupt (reason : InterruptReason)
| ClearInterrupt
| AwaitWorkerRelease
| Dispatch
| RecordDeviceVersion (version : N)
| SpawnRetryJob
| RemoveJob.

(** [RejectReason] (transfer/aggregate.rs:430-439). *)
Inductive RejectReason :=
| AlreadyTerminal | NotTerminal | NotFailed
| IllegalTransition (from to : TransferJobState).

(** [CommandOutcome] (transfer/aggregate.rs:441-449). *)
Inductive CommandOutcome :=
| Accepted
| NoOp
| Rejected (reason : RejectReason).

#[global] Instance Effect_eq_dec : EqDecision Effect.
Proof. solve_decision. Defined.
#[global] Instance RejectReason_eq_dec : EqDecision RejectReason.
Proof. solve_decision. Defined.
#[global] Instance CommandOutcome_eq_dec : EqDecision CommandOutcome.
Proof. solve_decision. Defined.

(** [CommandOutcome::is_rejected] (transfer/aggregate.rs:451-456). *)
Definition is_rejected (o : CommandOutcome) : bool :=
  match o with Rejected _ => true | _ => false end.

(** [Decision] (transfer/aggregate.rs:459-463). *)
Record Decision := mkDecision {
  outcome : CommandOutcome;
  effects : list Effect;
}.

(** [Decision::accepted] (transfer/aggregate.rs:466-471). *)
Definition accepted (es : list Effect) : Decision := mkDecision Accepted es.
(** [Decision::no_op] (transfer/aggregate.rs:473-478). *)
Definition no_op : Decision := mkDecision NoOp [].
(** [Decision::rejected] (transfer/aggregate.rs:480-485). *)
Definition rejected (r : RejectReason) : Decision := mkDecision (Rejected r) [].

Definition commit_of (e : Effect) : option TransferJobState :=
  match e with Commit _ to => Some to | _ => None end.

(** [Decision::final_state] (transfer/aggregate.rs:489-499). *)
Definition final_state (d : Decision) (current : TransferJobState) : TransferJobState :=
  match omap commit_of (rev (effects d)) with
  | to :: _ => to
  | [] => current
  end.

(** ** The reducer *)

(** [JobAggregate] (transfer/aggregate.rs:505-513). *)
Record JobAggregate := mkAggregate {
  ag_state : TransferJobState;
  ag_version : N;
  ag_desired_run_state : DesiredRunState;
  ag_observed_device_version : N;
}.

(** [JobAggregate::new] (transfer/aggregate.rs:516-524). *)
Definition JobAggregate_new (s : TransferJobState) : JobAggregate := mkAggregate s 1 Run 0.

(** [JobAggregate::commit] (transfer/aggregate.rs:560-565). *)
Definition commit (a : JobAggregate) (to : TransferJobState) : Effect :=
  Commit (ag_version a) to.

(** [JobAggregate::commits_towards] (transfer/aggregate.rs:570-581). *)
Definition commits_towards (a : JobAggregate) (to : TransferJobState) : option (list Effect) :=
  hops ← route (ag_state a) to;
  Some (imap (fun i hop => Commit (u64_add (ag_version a) (N.of_nat i)) hop) hops).

(** [JobAggregate::decide_device_observed, commits] (transfer/aggregate.rs:641-655). *)
Definition finish_observation (a : JobAggregate) (s : DeviceSnapshot)
    (target : option TransferJobState) : Decision :=
  let record := RecordDeviceVersion (ds_version s) in
  let commits := default [] (target ≫= commits_towards a) in
  match commits with
  | [] => if (ag_observed_device_version a <? ds_version s)%N then accepted [record] else no_op
  | _ => accepted (record :: commits)
  end.

(** [JobAggregate::decide_device_observed] (transfer/aggregate.rs:587-656). *)
Definition decide_device_observed (a : JobAggregate) (s : DeviceSnapshot) : Decision :=
  if (ds_version s <? ag_observed_device_version a)%N then no_op
  else if is_terminal (ag_state a) || state_eqb (ag_state a) Cancelling then no_op
  else if bool_decide (ag_desired_run_state a = Paused) then no_op
  else
    let record := RecordDeviceVersion (ds_version s) in
    let finish := finish_observation a s in
    match ag_state a, readiness s with
    | (Queued | WaitingForDevice | WaitingForPairing | PausedCaptureActive | RetryWait), r =>
        finish (Some match r with
                     | Ready => Preparing
                     | WaitDevice => WaitingForDevice
                     | WaitPairing => WaitingForPairing
                     | CapturePaused => PausedCaptureActive
                     end)
    | Preparing, Ready => finish None
    | Preparing, _ => finish (Some WaitingForDevice)
    | Transferring, Ready => finish None
    | Transferring, CapturePaused => accepted [record; RequestInterrupt IrCapturePause]
    | Transferring, (WaitDevice | WaitPairing) => accepted [record; RequestInterrupt IrDeviceLost]
    | _, _ => finish None
    end.

(** [JobAggregate::decide_worker_panic] (transfer/aggregate.rs:708-736). *)
Definition decide_worker_panic (a : JobAggregate) (detail : string) : Decision :=
  let failed := Failed (Other detail) false in
  let fallback :=
    if is_legal_transition (ag_state a) Cancelling && is_legal_transition Cancelling failed
    then accepted [commit a Cancelling; Commit (u64_add (ag_version a) 1) failed]
    else rejected (IllegalTransition (ag_state a) failed) in
  match commits_towards a failed with
  | Some ((_ :: _) as commits) => accepted commits
  | _ => fallback
  end.

(** [JobAggregate::decide_finalize_cancel] (transfer/aggregate.rs:882-912). *)
Definition decide_finalize_cancel (a : JobAggregate) : Decision :=
  if state_eqb (ag_state a) Cancelled then no_op
  else if is_terminal (ag_state a) then rejected AlreadyTerminal
  else if state_eqb (ag_state a) Cancelling
  then accepted [commit a Cancelled; ClearInterrupt]
  else if negb (is_legal_transition (ag_state a) Cancelling)
  then rejected (IllegalTransition (ag_state a) Cancelling)
  else accepted [commit a Cancelling; Commit (u64_add (ag_version a) 1) Cancelled;
                 ClearInterrupt].

(** [JobAggregate::decide_interrupted] (transfer/aggregate.rs:738-794). *)
Definition decide_interrupted (a : JobAggregate) (reason : InterruptReason) : Decision :=
  if state_eqb (ag_state a) Cancelling && negb (bool_decide (reason = IrCancel)) then no_op
  else
    let valid_state :=
      match reason with
      | IrCancel => state_eqb (ag_state a) Transferring || state_eqb (ag_state a) Cancelling
      | _ => state_eqb (ag_state a) Transferring
      end in
    if negb valid_state then rejected (IllegalTransition (ag_state a) (ag_state a))
    else match reason with
    | IrCancel => decide_finalize_cancel a
    | IrShutdown => no_op
    | IrUserPause | IrCapturePause | IrDeviceLost =>
        let target := match reason with IrCapturePause => PausedCaptureActive | _ => RetryWait end in
        match commits_towards a target with
        | None | Some [] => no_op
        | Some commits => accepted (ClearInterrupt :: commits)
        end
    end.

(** [JobAggregate::decide_worker] (transfer/aggregate.rs:662-701). *)
Definition decide_worker (a : JobAggregate) (report : WorkerReport) : Decision :=
  if is_terminal (ag_state a) then rejected AlreadyTerminal else
  let stage to :=
    if state_eqb (ag_state a) Cancelling then no_op
    else match expected_state report with
    | None => no_op
    | Some expected =>
        if negb (state_eqb (ag_state a) expected)
        then rejected (IllegalTransition (ag_state a) expected)
        else accepted [commit a to]
    end in
  match report with
  | WorkerPanicked detail => decide_worker_panic a detail
  | Interrupted reason => decide_interrupted a reason
  | Prepared => stage Transferring
  | TransferComplete => stage Verifying
  | Verified => stage Committing
  | CommitComplete => stage Succeeded
  | PreparationFailed code retryable | TransferFailed code retryable
  | CommitFailed code retryable => stage (Failed code retryable)
  end.

(** [JobAggregate::decide_transition] (transfer/aggregate.rs:796-810). *)
Definition decide_transition (a : JobAggregate) (to : TransferJobState) : Decision :=
  if state_eqb (ag_state a) to then no_op
  else if is_terminal (ag_state a) then rejected AlreadyTerminal
  else if negb (is_legal_transition (ag_state a) to)
  then rejected (IllegalTransition (ag_state a) to)
  else accepted [commit a to].

(** [JobAggregate::decide_pause] (transfer/aggregate.rs:812-825). *)
Definition decide_pause (a : JobAggregate) : Decision :=
  if is_terminal (ag_state a) then rejected AlreadyTerminal
  else accepted [SetDesiredRunState Paused; RequestInterrupt IrUserPause; AwaitWorkerRelease;
                 ClearInterrupt].

(** [JobAggregate::decide_resume] (transfer/aggregate.rs:827-851). *)
Definition decide_resume (a : JobAggregate) : Decision :=
  if is_terminal (ag_state a) then rejected AlreadyTerminal
  else if state_eqb (ag_state a) Cancelling
  then rejected (IllegalTransition Cancelling Queued)
  else accepted (SetDesiredRunState Run
                 :: (if state_eqb (ag_state a) RetryWait then [commit a Queued] else [])
                 ++ [Dispatch])%list.

(** [JobAggregate::decide_cancel] (transfer/aggregate.rs:853-880). *)
Definition decide_cancel (a : JobAggregate) : Decision :=
  if is_terminal (ag_state a) then rejected AlreadyTerminal
  else if state_eqb (ag_state a) Cancelling
  then accepted [RequestInterrupt IrCancel; Dispatch; AwaitWorkerRelease]
  else if negb (is_legal_transition (ag_state a) Cancelling)
  then rejected (IllegalTransition (ag_state a) Cancelling)
  else accepted [RequestInterrupt IrCancel; commit a Cancelling; Dispatch; AwaitWorkerRelease].

(** [JobAggregate::decide_retry] (transfer/aggregate.rs:914-919). *)
Definition decide_retry (a : JobAggregate) : Decision :=
  match ag_state a with
  | Failed _ _ => accepted [SpawnRetryJob]
  | _ => rejected NotFailed
  end.

(** [JobAggregate::decide_dismiss] (transfer/aggregate.rs:921-926). *)
Definition decide_dismiss (a : JobAggregate) : Decision :=
  if negb (is_terminal (ag_state a)) then rejected NotTerminal
  else accepted [AwaitWorkerRelease; RemoveJob].

(** [JobAggregate::decide] (transfer/aggregate.rs:544-558). *)
Definition JobAggregate_decide (a : JobAggregate) (c : JobCommand) : Decision :=
  match c with
  | Transition to => decide_transition a to
  | Pause => decide_pause a
  | Resume => decide_resume a
  | Cancel => decide_cancel a
  | FinalizeCancel => decide_finalize_cancel a
  | Retry => decide_retry a
  | Dismiss => decide_dismiss a
  | DeviceObserved snapshot => decide_device_observed a snapshot
  | Worker report => decide_worker a report
  end.

(** [JobFailure] (transfer/aggregate.rs:935-939). *)
Record JobFailure := mkJobFailure { jf_code : FailureCode; jf_retryable : bool }.

(** [JobSnapshot::failure_of] (transfer/aggregate.rs:964-973). *)
Definition failure_of (s : TransferJobState) : option JobFailure :=
  match s with Failed code retryable => Some (mkJobFailure code retryable) | _ => None end.

(** ** Target leases *)

(** [TargetKey] (transfer/aggregate.rs:988-1002). *)
Record TargetKey := mkTargetKey { tk_device_id : DeviceId; tk_session_id : SessionId }.

#[global] Instance TargetKey_eq_dec : EqDecision TargetKey.
Proof. solve_decision. Defined.
#[global] Program Instance TargetKey_countable : Countable TargetKey :=
  inj_countable' (fun k => (tk_device_id k, tk_session_id k)) (fun p => mkTargetKey p.1 p.2) _.
Next Obligation. by intros []. Qed.

(** The [held] map of [TargetLeases]. *)
Abbreviation TargetLeases := (gmap TargetKey string).

(** [TargetLeases::try_acquire] (transfer/aggregate.rs:1021-1031). *)
Definition try_acquire (held : TargetLeases) (target : TargetKey) (job_id : JobId)
    : option TargetLeases :=
  match held !! target with
  | Some _ => None
  | None => Some (<[target := job_id]> held)
  end.

(** [TargetLeases::holder] (transfer/aggregate.rs:1033-1037). *)
Definition holder (held : TargetLeases) (target : TargetKey) : option JobId := held !! target.

(** [TargetLeases::release] (transfer/aggregate.rs:1049-1051). *)
Definition release (held : TargetLeases) (target : TargetKey) : TargetLeases :=
  delete target held.

(** Live leases: the guards handed out by [try_acquire] and not yet dropped.
    [Drop for TargetLease] releases the target exactly once. *)
Record LeaseWorld := mkLeaseWorld {
  lw_held : TargetLeases;
  lw_guards : list (TargetKey * string);
}.

Inductive lease_step : LeaseWorld -> LeaseWorld -> Prop :=
| lease_acquire held guards t j held' :
    try_acquire held t j = Some held' ->
    lease_step (mkLeaseWorld held guards) (mkLeaseWorld held' ((t, j) :: guards))
| lease_drop held g1 t j g2 :
    lease_step (mkLeaseWorld held (g1 ++ (t, j) :: g2)) (mkLeaseWorld (release held t) (g1 ++ g2)).

(** ** The transition graph *)

Lemma terminal_no_exit s t : is_terminal s = true -> is_legal_transition s t = false.
Proof. unfold is_legal_transition. by intros ->. Qed.

Lemma legal_irrefl s : is_legal_transition s s = false.
Proof. by destruct s. Qed.

Lemma state_eqb_eq a b : state_eqb a b = true <-> a = b.
Proof. apply bool_decide_eq_true. Qed.

Lemma state_eqb_refl a : state_eqb a a = true.
Proof. by apply state_eqb_eq. Qed.

Lemma state_eqb_neq a b : state_eqb a b = false <-> a <> b.
Proof. apply bool_decide_eq_false. Qed.

(** [legal_path s l t]: the durable states a row goes through after [s]. *)
Fixpoint legal_path (s : TransferJobState) (l : list TransferJobState) : bool :=
  match l with
  | [] => true
  | x :: l' => is_legal_transition s x && legal_path x l'
  end.

Lemma last_cons {A} (x : A) l d : List.last (x :: l) d = List.last l x.
Proof.
  revert x d. induction l as [|y l IH]; intros x d; [done|].
  change (List.last (y :: l) d = List.last (y :: l) x). by rewrite !IH.
Qed.

Lemma legal_path_snoc s l x :
  legal_path s (l ++ [x]) = true <->
  legal_path s l = true /\ is_legal_transition (List.last l s) x = true.
Proof.
  revert s. induction l as [|y l IH]; intros s.
  - simpl. rewrite andb_true_r. tauto.
  - rewrite last_cons. simpl. rewrite !andb_true_iff, IH. tauto.
Qed.

(** The only predecessor of each stage of a successful run. *)
Lemma legal_pred s t u :
  is_legal_transition s t = true ->
  (t, u) ∈ [(Succeeded, Committing); (Committing, Verifying); (Verifying, Transferring);
            (Transferring, Preparing)] -> s = u.
Proof.
  intros H Hin. rewrite !elem_of_cons, elem_of_nil in Hin.
  destruct Hin as [[= -> ->]|[[= -> ->]|[[= -> ->]|[[= -> ->]|[]]]]]; by destruct s.
Qed.

Lemma legal_path_pred l t u s :
  legal_path s (l ++ [t]) = true -> s <> u ->
  (t, u) ∈ [(Succeeded, Committing); (Committing, Verifying); (Verifying, Transferring);
            (Transferring, Preparing)] ->
  exists l', l = l' ++ [u] /\ legal_path s (l' ++ [u]) = true.
Proof.
  rewrite legal_path_snoc. intros [Hp Hl] Hs Hin.
  assert (Hu := legal_pred _ _ _ Hl Hin).
  destruct l as [|y l' _] using rev_ind; [done|].
  rewrite List.last_last in Hu. subst y. eauto.
Qed.

Lemma success_path l :
  legal_path Queued (l ++ [Succeeded]) = true ->
  exists l', l = l' ++ [Preparing; Transferring; Verifying; Committing].
Proof.
  intros H.
  destruct (legal_path_pred _ _ Committing _ H) as (l1 & -> & H1); [done|set_solver|].
  destruct (legal_path_pred _ _ Verifying _ H1) as (l2 & -> & H2); [done|set_solver|].
  destruct (legal_path_pred _ _ Transferring _ H2) as (l3 & -> & H3); [done|set_solver|].
  destruct (legal_path_pred _ _ Preparing _ H3) as (l4 & -> & H4); [done|set_solver|].
  exists l4. by rewrite <- !app_assoc.
Qed.

(** A job reaches [succeeded] only through one uninterrupted run:
    whatever a queued row went through before, the last five states of its
    history are preparing, transferring, verifying, committing, succeeded, so
    no job succeeds without having been verified and committed since it last
    started. *)
Theorem success_is_an_uninterrupted_run l :
  legal_path Queued (l ++ [Succeeded]) = true ->
  exists l', l = l' ++ [Preparing; Transferring; Verifying; Committing].
Proof. apply success_path. Qed.

Lemma success_is_an_uninterrupted_run_witness :
  exists l', [WaitingForDevice; Queued; Preparing; Transferring; Verifying; Committing]
             = l' ++ [Preparing; Transferring; Verifying; Committing].
Proof.
  apply (success_is_an_uninterrupted_run
           [WaitingForDevice; Queued; Preparing; Transferring; Verifying; Committing]).
  reflexivity.
Defined.

(** ** Routes *)

Lemma route_legal s t l :
  route s t = Some l ->
  legal_path s l = true /\ List.last l s = t /\ length l <= 2.
Proof.
  unfold route. destruct (state_eqb s t) eqn:E.
  - apply state_eqb_eq in E as ->. intros [= <-]. simpl. auto.
  - destruct (is_legal_transition s t) eqn:E1.
    + intros [= <-]. simpl. rewrite E1. auto.
    + destruct (_ && _) eqn:E2; [|done]. intros [= <-]. simpl.
      apply andb_true_iff in E2 as [-> ->]. auto.
Qed.

(** ** What a decision may commit *)

(** The commits of an effect list, performed in order from state [s] at
    version [v], each expect the version the previous one produced and each
    follow an edge of the graph. *)
Fixpoint chain_legal (s : TransferJobState) (v : N) (es : list Effect) : bool :=
  match es with
  | [] => true
  | Commit ev to :: es' => (ev =? v)%N && is_legal_transition s to && chain_legal to (v + 1) es'
  | _ :: es' => chain_legal s v es'
  end.

Definition is_commit (e : Effect) : bool :=
  match e with Commit _ _ => true | _ => false end.

Lemma commits_towards_legal a t es :
  (ag_version a < u64_max)%N -> commits_towards a t = Some es ->
  chain_legal (ag_state a) (ag_version a) es = true /\ forallb is_commit es = true /\
  List.last (omap commit_of es) (ag_state a) = t.
Proof.
  intros Hv. unfold commits_towards. destruct (route _ _) as [l|] eqn:E; simpl; [|done].
  intros [= <-]. apply route_legal in E as (Hp & Hl & Hlen).
  destruct l as [|x [|y [|z l]]]; simpl in *; try lia; try done;
    rewrite ?u64_add_small by lia.
  - rewrite N.add_0_r, N.eqb_refl, andb_true_l. by split_and!.
  - rewrite N.add_0_r, !N.eqb_refl, !andb_true_l. rewrite !andb_true_iff in *.
    by destruct Hp as (-> & -> & _).
Qed.

Lemma chain_legal_app s v es fs :
  forallb (fun e => negb (is_commit e)) es = true ->
  chain_legal s v (es ++ fs) = chain_legal s v fs.
Proof.
  induction es as [|e es IH]; simpl; [done|].
  rewrite andb_true_iff. intros [He Hes]. destruct e; try done; by apply IH.
Qed.

Lemma commit_legal a t :
  is_legal_transition (ag_state a) t = true ->
  chain_legal (ag_state a) (ag_version a) [commit a t] = true.
Proof. simpl. rewrite N.eqb_refl. by intros ->. Qed.

(** What every decision satisfies: a legal commit chain, effects exactly when
    accepted, and no commit out of a terminal state. *)
Definition decision_ok (a : JobAggregate) (d : Decision) : Prop :=
  chain_legal (ag_state a) (ag_version a) (effects d) = true /\
  (outcome d = Accepted <-> effects d <> []) /\
  (is_terminal (ag_state a) = true -> omap commit_of (effects d) = []).

Lemma no_op_ok a : decision_ok a no_op.
Proof. by repeat split. Qed.

Lemma rejected_ok a r : decision_ok a (rejected r).
Proof. by repeat split. Qed.

Lemma accepted_ok a es :
  is_terminal (ag_state a) = false -> es <> [] ->
  chain_legal (ag_state a) (ag_version a) es = true -> decision_ok a (accepted es).
Proof. intros Ht Hes Hc. split; [done|split; [done|by rewrite Ht]]. Qed.

Create HintDb aggregate.
#[local] Hint Resolve no_op_ok rejected_ok accepted_ok : aggregate.
#[local] Hint Extern 1 (_ <> []) => discriminate : aggregate.

Lemma legal_from_nonterminal s t : is_legal_transition s t = true -> is_terminal s = false.
Proof. unfold is_legal_transition. by destruct (is_terminal s). Qed.

Lemma device_observed_ok a s :
  (ag_version a < u64_max)%N -> decision_ok a (decide_device_observed a s).
Proof.
  intros Hv. unfold decide_device_observed.
  destruct (_ <? _)%N; [apply no_op_ok|].
  destruct (is_terminal (ag_state a)) eqn:Et; simpl; [apply no_op_ok|].
  destruct (state_eqb (ag_state a) Cancelling); [apply no_op_ok|].
  case_bool_decide; [apply no_op_ok|].
  assert (Hfin : forall target, decision_ok a (finish_observation a s target)).
  { intros target. unfold finish_observation. destruct (default [] _) as [|e es] eqn:E.
    - destruct (_ <? _)%N; auto with aggregate.
    - apply accepted_ok; [done..|]. simpl. destruct target as [t|]; simpl in E; [|done].
      destruct (commits_towards a t) as [cs|] eqn:Ec; simpl in E; [subst|done].
      by apply commits_towards_legal in Ec as (? & _). }
  destruct (ag_state a) eqn:Es, (readiness s); try apply Hfin;
    apply accepted_ok; rewrite ?Es; done.
Qed.

Lemma chain_two a t u :
  (ag_version a < u64_max)%N ->
  is_legal_transition (ag_state a) t = true -> is_legal_transition t u = true ->
  chain_legal (ag_state a) (ag_version a) [commit a t; Commit (u64_add (ag_version a) 1) u] = true.
Proof.
  intros Hv Ht Hu. simpl. rewrite u64_add_small by lia. by rewrite !N.eqb_refl, Ht, Hu.
Qed.

Lemma finalize_cancel_ok a :
  (ag_version a < u64_max)%N -> decision_ok a (decide_finalize_cancel a).
Proof.
  intros Hv. unfold decide_finalize_cancel.
  destruct (state_eqb _ Cancelled); [apply no_op_ok|].
  destruct (is_terminal (ag_state a)) eqn:Et; [apply rejected_ok|].
  destruct (state_eqb _ Cancelling) eqn:Ec.
  { apply state_eqb_eq in Ec. apply accepted_ok; [done..|]. simpl. by rewrite N.eqb_refl, Ec. }
  destruct (is_legal_transition _ Cancelling) eqn:El; [|apply rejected_ok]. simpl.
  apply accepted_ok; [done..|]. simpl. rewrite u64_add_small by lia. by rewrite !N.eqb_refl, El.
Qed.

Lemma interrupted_ok a r :
  (ag_version a < u64_max)%N -> decision_ok a (decide_interrupted a r).
Proof.
  intros Hv. unfold decide_interrupted.
  destruct (_ && _); [apply no_op_ok|]. destruct (negb _) eqn:Evalid; [apply rejected_ok|].
  assert (Et : is_terminal (ag_state a) = false).
  { apply negb_false_iff in Evalid. by destruct (ag_state a), r; try done; vm_compute in Evalid. }
  destruct r; try (apply finalize_cancel_ok; done); try apply no_op_ok;
    (destruct (commits_towards a _) as [[|e es]|] eqn:E; [apply no_op_ok| |apply no_op_ok];
     apply commits_towards_legal in E as (Hc & _); [|done]; by apply accepted_ok).
Qed.

Lemma worker_panic_ok a detail :
  (ag_version a < u64_max)%N -> decision_ok a (decide_worker_panic a detail).
Proof.
  intros Hv. unfold decide_worker_panic.
  assert (Hfb : decision_ok a
    (if is_legal_transition (ag_state a) Cancelling
        && is_legal_transition Cancelling (Failed (Other detail) false)
     then accepted [commit a Cancelling;
                    Commit (u64_add (ag_version a) 1) (Failed (Other detail) false)]
     else rejected (IllegalTransition (ag_state a) (Failed (Other detail) false)))).
  { destruct (_ && _) eqn:E; [|apply rejected_ok]. apply andb_true_iff in E as [E1 E2].
    apply accepted_ok; [by eapply legal_from_nonterminal|done|by apply chain_two]. }
  destruct (commits_towards a _) as [[|e es]|] eqn:E; try exact Hfb.
  destruct (is_terminal (ag_state a)) eqn:Et.
  - exfalso. unfold commits_towards, route in E.
    destruct (state_eqb _ _); [done|]. rewrite !terminal_no_exit in E by done. done.
  - apply commits_towards_legal in E as (Hc & _); [|done]. by apply accepted_ok.
Qed.

Lemma worker_ok a r : (ag_version a < u64_max)%N -> decision_ok a (decide_worker a r).
Proof.
  intros Hv. unfold decide_worker.
  destruct (is_terminal (ag_state a)) eqn:Et; [apply rejected_ok|].
  destruct r; try (by apply worker_panic_ok); try (by apply interrupted_ok);
    (destruct (state_eqb (ag_state a) Cancelling); [apply no_op_ok|]);
    simpl; (destruct (state_eqb (ag_state a) _) eqn:E; [|apply rejected_ok]);
    apply state_eqb_eq in E; apply accepted_ok; try done; apply commit_legal; by rewrite E.
Qed.

Lemma decide_chains a c :
  (ag_version a < u64_max)%N -> decision_ok a (JobAggregate_decide a c).
Proof.
  intros Hv. destruct c as [to| | | | | | |s|r]; cbn [JobAggregate_decide].
  - unfold decide_transition. destruct (state_eqb _ _); [apply no_op_ok|].
    destruct (is_terminal _) eqn:Et; [apply rejected_ok|].
    destruct (is_legal_transition _ _) eqn:El; simpl; [|apply rejected_ok].
    apply accepted_ok; [done..|by apply commit_legal].
  - unfold decide_pause. destruct (is_terminal _) eqn:Et; [apply rejected_ok|by apply accepted_ok].
  - unfold decide_resume. destruct (is_terminal _) eqn:Et; [apply rejected_ok|].
    destruct (state_eqb _ Cancelling); [apply rejected_ok|].
    apply accepted_ok; [done..|]. simpl. destruct (state_eqb _ RetryWait) eqn:E; [|done].
    apply state_eqb_eq in E. simpl. by rewrite N.eqb_refl, E.
  - unfold decide_cancel. destruct (is_terminal _) eqn:Et; [apply rejected_ok|].
    destruct (state_eqb _ Cancelling); [by apply accepted_ok|].
    destruct (is_legal_transition _ _) eqn:El; simpl; [|apply rejected_ok].
    apply accepted_ok; [done..|]. simpl. by rewrite N.eqb_refl, El.
  - by apply finalize_cancel_ok.
  - unfold decide_retry. destruct (ag_state a) eqn:Es; try apply rejected_ok.
    split_and!; done.
  - unfold decide_dismiss. destruct (is_terminal _) eqn:Et; simpl; [|apply rejected_ok].
    split_and!; done.
  - by apply device_observed_ok.
  - by apply worker_ok.
Qed.

(** C1: every decision of the reducer, for every state and every
    command, proposes only legal moves: its commits, performed in order, start
    from the aggregate's state and version, follow edges of the transition
    graph and expect consecutive versions; it carries effects exactly when it
    is accepted (a refused command does nothing); and it never proposes a
    commit out of a terminal state. *)
Theorem decide_proposes_legal_chains a c :
  (ag_version a < u64_max)%N -> decision_ok a (JobAggregate_decide a c).
Proof. apply decide_chains. Qed.

Lemma decide_proposes_legal_chains_witness :
  decision_ok (mkAggregate Transferring 7 Run 0) (JobAggregate_decide (mkAggregate Transferring 7 Run 0) FinalizeCancel)
  /\ effects (JobAggregate_decide (mkAggregate Transferring 7 Run 0) FinalizeCancel)
     = [Commit 7 Cancelling; Commit 8 Cancelled; ClearInterrupt].
Proof.
  split; [|reflexivity].
  apply (decide_proposes_legal_chains (mkAggregate Transferring 7 Run 0)). reflexivity.
Defined.

(** ** What each command guarantees *)

(** A caught worker panic always converges: from every non-terminal
    state the decision is accepted and leaves the job in a non-retryable
    failure carrying the panic's detail, so a panic never strands a row. *)
Theorem worker_panic_converges a detail :
  is_terminal (ag_state a) = false ->
  outcome (JobAggregate_decide a (Worker (WorkerPanicked detail))) = Accepted /\
  final_state (JobAggregate_decide a (Worker (WorkerPanicked detail))) (ag_state a)
  = Failed (Other detail) false.
Proof.
  destruct a as [s v d o]. simpl. intros Ht. unfold decide_worker; simpl. rewrite Ht.
  unfold decide_worker_panic, commits_towards, route; simpl.
  by destruct s.
Qed.

Lemma worker_panic_converges_witness :
  outcome (JobAggregate_decide (JobAggregate_new PausedCaptureActive) (Worker (WorkerPanicked "boom"))) = Accepted /\
  final_state (JobAggregate_decide (JobAggregate_new PausedCaptureActive) (Worker (WorkerPanicked "boom")))
              PausedCaptureActive = Failed (Other "boom") false.
Proof. apply (worker_panic_converges (JobAggregate_new PausedCaptureActive) "boom"). reflexivity. Defined.

(** Cancelling is possible in every non-terminal state except while
    committing, where it is refused; when it is accepted the job is left
    [cancelling] (an already cancelling job stays so), finalizing it ends in
    [cancelled], and the finalization of a job being cancelled is accepted
    whatever its version or run intent. *)
Theorem cancel_outcome a :
  is_rejected (outcome (JobAggregate_decide a Cancel)) = is_terminal (ag_state a) || state_eqb (ag_state a) Committing
  /\ (is_rejected (outcome (JobAggregate_decide a Cancel)) = false ->
      final_state (JobAggregate_decide a Cancel) (ag_state a) = Cancelling /\
      In (RequestInterrupt IrCancel) (effects (JobAggregate_decide a Cancel)) /\
      forall v, outcome (JobAggregate_decide (mkAggregate Cancelling v (ag_desired_run_state a)
                                   (ag_observed_device_version a)) FinalizeCancel) = Accepted /\
        final_state (JobAggregate_decide (mkAggregate Cancelling v (ag_desired_run_state a)
                                   (ag_observed_device_version a)) FinalizeCancel) Cancelling
        = Cancelled).
Proof.
  destruct a as [s v d o]. simpl. unfold decide_cancel; simpl. split.
  - by destruct s.
  - destruct s; simpl; try done; intros _; repeat split; simpl; auto.
Qed.

(** States a job rests in while it waits for its device. *)
Definition parked (s : TransferJobState) : bool :=
  match s with
  | Queued | WaitingForDevice | WaitingForPairing | PausedCaptureActive | RetryWait => true
  | _ => false
  end.

(** a device observation starts a job exactly when the job is parked,
    the user wants it to run, the reading is not older than one already acted
    on, and the device is connected and not capturing. *)
Theorem observation_prepares_iff a s :
  ag_state a <> Preparing ->
  final_state (JobAggregate_decide a (DeviceObserved s)) (ag_state a) = Preparing <->
  parked (ag_state a) = true /\ ag_desired_run_state a = Run /\
  (ag_observed_device_version a <= ds_version s)%N /\ readiness s = Ready.
Proof.
  destruct a as [st v d o]; simpl. intros Hne.
  unfold decide_device_observed; simpl.
  destruct (N.ltb_spec (ds_version s) o) as [Hlt|Hle].
  { split; [done|]. intros (_ & _ & ? & _). lia. }
  destruct (is_terminal st) eqn:Et; simpl.
  { split; [by destruct st|]. intros (? & _). by destruct st. }
  destruct (state_eqb st Cancelling) eqn:Ec.
  { apply state_eqb_eq in Ec as ->. split; [done|]. by intros (? & _). }
  case_bool_decide as Ed.
  { split; [done|]. intros (_ & ? & _). congruence. }
  assert (d = Run) as -> by (by destruct d).
  unfold finish_observation, commits_towards, route; simpl.
  destruct st; simpl in *; try done; destruct (readiness s) eqn:Er; simpl; try done;
    repeat (case_match; simpl; try done); unfold final_state; simpl;
    (split; [try done; intros _; repeat split; done | try done; intros (? & ? & ? & ?); done]).
Qed.

Lemma observation_prepares_iff_witness :
  final_state (JobAggregate_decide (JobAggregate_new RetryWait)
                 (DeviceObserved (mkSnapshot 4 (Connected "c" 1) CapIdle))) RetryWait = Preparing.
Proof.
  apply (observation_prepares_iff (JobAggregate_new RetryWait)
           (mkSnapshot 4 (Connected "c" 1) CapIdle)); [discriminate|].
  repeat split. simpl. lia.
Defined.

(** ** Leases *)

Definition lease_inv (w : LeaseWorld) : Prop :=
  NoDup (lw_guards w).*1 /\
  forall t j, (t, j) ∈ lw_guards w <-> lw_held w !! t = Some j.

Lemma lease_step_inv w w' : lease_step w w' -> lease_inv w -> lease_inv w'.
Proof.
  intros Hs [Hnd Hiff]. destruct Hs as [held guards t j held' Ha|held g1 t j g2]; simpl in *.
  - unfold try_acquire in Ha. destruct (_ !! _) eqn:E in Ha; [discriminate Ha|]. injection Ha as <-.
    split; simpl.
    + constructor; [|done]. intros ([t' j'] & Heq & Hin)%list_elem_of_fmap.
      simpl in Heq. subst t'. apply Hiff in Hin. by rewrite E in Hin.
    + intros t' j'. rewrite elem_of_cons, lookup_insert_Some, Hiff. split.
      * intros [[= -> ->]|Hin]; [by left|]. right. split; [congruence|done].
      * intros [[-> ->]|[Hne Hin]]; auto.
  - rewrite fmap_app, fmap_cons in Hnd. simpl in Hnd.
    apply NoDup_app in Hnd as (H1 & H12 & [H3 H4]%NoDup_cons).
    split; simpl.
    + rewrite fmap_app. apply NoDup_app. split_and!; [done| |done].
      intros x Hx Hx2. apply (H12 x Hx). by right.
    + intros t' j'. unfold release. rewrite lookup_delete_Some, elem_of_app, <- Hiff, elem_of_app, elem_of_cons.
      split.
      * intros Hin. split; [|tauto]. intros <-. destruct Hin as [Hin|Hin].
        -- apply (H12 t); [|by left]. apply list_elem_of_fmap. by exists (t, j').
        -- apply H3. apply list_elem_of_fmap. by exists (t, j').
      * intros [Hne [Hin|[[= -> ->]|Hin]]]; [by left|done|by right].
Qed.

Lemma lease_reachable_inv w : rtc lease_step (mkLeaseWorld ∅ []) w -> lease_inv w.
Proof.
  assert (forall w0, rtc lease_step w0 w -> lease_inv w0 -> lease_inv w) as H.
  { intros w0 Hr. induction Hr; [done|]. intros Hi. by eapply IHHr, lease_step_inv. }
  intros Hr. apply (H _ Hr). split; simpl; [constructor|]. intros t j.
  rewrite lookup_empty, elem_of_nil. split; [done|by intros].
Qed.

(** At any time, after any interleaving of acquisitions and drops, at
    most one live lease exists for a target, its holder is the one recorded,
    and another acquisition of that target is refused while it lives. *)
Theorem target_lease_exclusive w t j1 j2 :
  rtc lease_step (mkLeaseWorld ∅ []) w ->
  (t, j1) ∈ lw_guards w -> 
  ((t, j2) ∈ lw_guards w -> j1 = j2) /\ holder (lw_held w) t = Some j1 /\
  (forall j3, try_acquire (lw_held w) t j3 = None) /\
  length (filter (fun g => g.1 = t) (lw_guards w)) = 1.
Proof.
  intros Hr H1. destruct (lease_reachable_inv w Hr) as [Hnd Hiff].
  assert (Hh := proj1 (Hiff t j1) H1). split_and!; [|done| |].
  - intros H2%Hiff. congruence.
  - intros j3. unfold try_acquire. by rewrite Hh.
  - clear Hh Hiff Hr. revert H1 Hnd. generalize (lw_guards w). intros l. clear w.
    assert (Hz : forall l : list (TargetKey * string), t ∉ l.*1 ->
              length (filter (fun g => g.1 = t) l) = 0).
    { intros k Hk. induction k as [|g k IH]; [done|]. rewrite fmap_cons, not_elem_of_cons in Hk.
      destruct Hk as [Hk1 Hk2]. rewrite filter_cons_False by congruence. by apply IH. }
    induction l as [|g l IH]; [by intros ?%elem_of_nil|].
    rewrite fmap_cons, NoDup_cons, elem_of_cons. intros [<-|Hin] [Hn Hnd]; simpl in *.
    + rewrite filter_cons_True by done. simpl. by rewrite Hz.
    + rewrite filter_cons_False; [by apply IH|]. intros Heq. apply Hn. rewrite Heq.
      apply list_elem_of_fmap. by exists (t, j1).
Qed.

Lemma target_lease_exclusive_witness :
  try_acquire (<[mkTargetKey "d" "s" := "job-1"]> ∅) (mkTargetKey "d" "s") "job-2" = None.
Proof.
  destruct (target_lease_exclusive
           (mkLeaseWorld (<[mkTargetKey "d" "s" := "job-1"]> ∅) [(mkTargetKey "d" "s", "job-1")])
           (mkTargetKey "d" "s") "job-1" "job-1") as (_ & _ & H & _); [| |apply H].
  - apply rtc_once, lease_acquire. reflexivity.
  - by left.
Defined.
