(* ===== verification/Queue.v ===== *)
(** * Queue: the runtime job record and its durable encodings (transfer/queue.rs)

[TransferRequest] and its two conversions with [JobSpec], the
[TransferJobState] / [JobStateTag] conversion with the failure-code text
encoding, and the per-job control block. *)

From Stdlib Require Import NArith Lia Ascii String.
From stdpp Require Import base numbers list strings.
From S2P Require Import Prelude Domain Schema Aggregate.

Local Open Scope string_scope.

(** ** Requests *)

(** [JobFile] (transfer/queue.rs:63-75). *)
Record JobFile := mkJobFile {
  jf_file_id : FileId;
  jf_target_relative_path : option string;
  jf_expected_size : N;
  jf_expected_sha256_hex : string;
}.

(** [TransferRequest] (transfer/queue.rs:85-104). *)
Record TransferRequest := mkRequest {
  rq_device_id : DeviceId;
  rq_session_id : SessionId;
  rq_revision : string;
  rq_idempotency_key : string;
  rq_files : list JobFile;
  rq_manifest_bytes : list byte;
  rq_signature : list byte;
  rq_publication_public_key : list byte;
}.

Definition job_file_spec (f : JobFile) : result JobSpecError JobFileSpec :=
  JobFileSpec_new (jf_file_id f) (default (jf_file_id f) (jf_target_relative_path f))
                  (jf_expected_size f) (jf_expected_sha256_hex f).

(** [TransferRequest::to_job_spec] (transfer/queue.rs:110-153). *)
Definition to_job_spec (r : TransferRequest) (full_session : bool) (date_label : string)
    : result JobSpecError JobSpec :=
  let? identity := JobIdentity_new (rq_device_id r) (rq_session_id r) (rq_revision r) in
  let? publication := PublicationMaterial_new (rq_revision r) (rq_manifest_bytes r)
                        (rq_signature r) (rq_publication_public_key r) in
  let? session_files := rtraverse job_file_spec (rq_files r) in
  JobSpec_new identity publication session_files (jf_file_id <$> rq_files r) full_session date_label.

Definition file_of_spec (f : JobFileSpec) : JobFile :=
  mkJobFile (fs_file_id f) (Some (fs_display_path f)) (fs_size_bytes f) (fs_sha256 f).

(** [request_from_spec] (transfer/queue.rs:160-179). *)
Definition request_from_spec (s : JobSpec) : TransferRequest :=
  mkRequest (id_device (sp_identity s)) (id_session (sp_identity s)) (id_revision (sp_identity s))
    (natural_key (sp_identity s)) (file_of_spec <$> requested_files s)
    (pm_payload (sp_publication s)) (pm_signature (sp_publication s))
    (pm_public_key (sp_publication s)).

(** ** State tags *)

(** [failure_code_to_db] (transfer/queue.rs:269-278). *)
Definition failure_code_to_db (c : FailureCode) : string :=
  match c with
  | Network => "network"
  | DiskFull => "disk_full"
  | HashMismatch => "hash_mismatch"
  | ObjectStoreRejected => "object_store_rejected"
  | DeviceHeartbeatFailed => "device_heartbeat_failed"
  | Other msg => "other:" ++ msg
  end.

(** [failure_code_from_db] (transfer/queue.rs:280-289). *)
Definition failure_code_from_db (s : string) : FailureCode :=
  if String.eqb s "network" then Network
  else if String.eqb s "disk_full" then DiskFull
  else if String.eqb s "hash_mismatch" then HashMismatch
  else if String.eqb s "object_store_rejected" then ObjectStoreRejected
  else if String.eqb s "device_heartbeat_failed" then DeviceHeartbeatFailed
  else Other (default s (strip_prefix "other:" s)).

(** [state_to_tag] (transfer/queue.rs:215-234). *)
Definition state_to_tag (s : TransferJobState) : JobStateTag * option (string * bool) :=
  match s with
  | Queued => (TQueued, None)
  | WaitingForDevice => (TWaitingForDevice, None)
  | WaitingForPairing => (TWaitingForPairing, None)
  | PausedCaptureActive => (TPausedCaptureActive, None)
  | Preparing => (TPreparing, None)
  | Transferring => (TTransferring, None)
  | Verifying => (TVerifying, None)
  | Committing => (TCommitting, None)
  | RetryWait => (TRetryWait, None)
  | Cancelling => (TCancelling, None)
  | Succeeded => (TSucceeded, None)
  | Failed code retryable => (TFailed, Some (failure_code_to_db code, retryable))
  | Cancelled => (TCancelled, None)
  end.

(** [tag_to_state] (transfer/queue.rs:244-267): [None] is the [expect] panic. *)
Definition tag_to_state (t : JobStateTag) (error : option (string * bool))
    : option TransferJobState :=
  match t with
  | TQueued => Some Queued
  | TWaitingForDevice => Some WaitingForDevice
  | TWaitingForPairing => Some WaitingForPairing
  | TPausedCaptureActive => Some PausedCaptureActive
  | TPreparing => Some Preparing
  | TTransferring => Some Transferring
  | TVerifying => Some Verifying
  | TCommitting => Some Committing
  | TRetryWait => Some RetryWait
  | TCancelling => Some Cancelling
  | TSucceeded => Some Succeeded
  | TFailed => '(code, retryable) ← error; Some (Failed (failure_code_from_db code) retryable)
  | TCancelled => Some Cancelled
  end.

(** ** The control block *)

(** [JobControl] (transfer/queue.rs:321-327). *)
Record JobControl := mkControl {
  jc_active : bool;
  jc_interrupt_flag : bool;
  jc_interrupt_reason : option InterruptReason;
  jc_checkpoint_fault : option string;
}.

(** [JobControl::default] (transfer/queue.rs:321-321). *)
Definition JobControl_default : JobControl := mkControl false false None None.

(** [JobControl::try_claim] (transfer/queue.rs:335-342). *)
Definition try_claim (c : JobControl) : option JobControl :=
  if jc_active c then None
  else Some (mkControl true (jc_interrupt_flag c) (jc_interrupt_reason c) (jc_checkpoint_fault c)).

(** [ActiveLease::drop] (transfer/queue.rs:387-391). *)
Definition drop_active_lease (c : JobControl) : JobControl :=
  mkControl false (jc_interrupt_flag c) (jc_interrupt_reason c) (jc_checkpoint_fault c).

(** [JobControl::request_interrupt] (transfer/queue.rs:344-347). *)
Definition request_interrupt (c : JobControl) (reason : InterruptReason) : JobControl :=
  mkControl (jc_active c) true (Some reason) (jc_checkpoint_fault c).

(** [JobControl::clear_interrupt] (transfer/queue.rs:349-352). *)
Definition clear_interrupt (c : JobControl) : JobControl :=
  mkControl (jc_active c) false None (jc_checkpoint_fault c).

(** [JobControl::record_checkpoint_fault] (transfer/queue.rs:361-366). *)
Definition record_checkpoint_fault (c : JobControl) (detail : string) : JobControl :=
  mkControl (jc_active c) (jc_interrupt_flag c) (jc_interrupt_reason c)
    (match jc_checkpoint_fault c with None => Some detail | f => f end).

(** [JobControl::take_checkpoint_fault] (transfer/queue.rs:368-370). *)
Definition take_checkpoint_fault (c : JobControl) : option string * JobControl :=
  (jc_checkpoint_fault c,
   mkControl (jc_active c) (jc_interrupt_flag c) (jc_interrupt_reason c) None).

(** [INTERRUPT_MARKER] (transfer/queue.rs:397-397). *)
Definition INTERRUPT_MARKER : string := "__ylx_pc05_interrupt__".

(** ** Theorems *)

Lemma failure_code_db_roundtrip c : failure_code_from_db (failure_code_to_db c) = c.
Proof.
  by destruct c.
Qed.

(** no state is lost in the store: the tag and error columns of a
    state decode to that same state, payload included; the tag survives its
    text spelling; the error columns are filled exactly for failures; and the
    store's transition graph is the domain's graph on those tags. *)
Theorem state_tag_faithful s t :
  tag_to_state (state_to_tag s).1 (state_to_tag s).2 = Some s /\
  tag_from_db_str (tag_as_db_str (state_to_tag s).1) = Some (state_to_tag s).1 /\
  tag_as_db_str (state_to_tag s).1 = state_name s /\
  (is_Some (state_to_tag s).2 <-> (state_to_tag s).1 = TFailed) /\
  tag_is_terminal (state_to_tag s).1 = is_terminal s /\
  is_valid_transition (state_to_tag s).1 (state_to_tag t).1 = is_legal_transition s t.
Proof.
  split_and!.
  - destruct s; try reflexivity. cbn -[failure_code_to_db]. by rewrite failure_code_db_roundtrip.
  - apply tag_db_roundtrip.
  - by destruct s.
  - destruct s; simpl; split; try done; intros [? ?]; done.
  - by destruct s.
  - by destruct s, t.
Qed.

Definition saved_file (f : JobFile) : JobFile :=
  mkJobFile (jf_file_id f) (Some (default (jf_file_id f) (jf_target_relative_path f)))
            (jf_expected_size f) (jf_expected_sha256_hex f).

Lemma JobFileSpec_new_ok id path size sha f :
  JobFileSpec_new id path size sha = Ok f -> f = mkFileSpec id path size sha.
Proof.
  unfold JobFileSpec_new. intros (? & _ & H)%rbind_ok. apply rbind_ok in H as (? & _ & H).
  apply rbind_ok in H as (? & _ & H). congruence.
Qed.

Lemma JobIdentity_new_ok d s r i :
  JobIdentity_new d s r = Ok i -> i = mkIdentity d s r.
Proof.
  unfold JobIdentity_new. intros (? & _ & H)%rbind_ok. apply rbind_ok in H as (? & _ & H).
  apply rbind_ok in H as (? & _ & H). congruence.
Qed.

Lemma PublicationMaterial_new_ok r p s k m :
  PublicationMaterial_new r p s k = Ok m -> m = mkMaterial r p s k.
Proof.
  unfold PublicationMaterial_new. intros (? & _ & H)%rbind_ok.
  destruct p; [done|]. apply rbind_ok in H as (? & _ & H).
  apply rbind_ok in H as (? & _ & H). congruence.
Qed.

(** A job created by [to_job_spec] requests every file of its inventory in
    order: its selection is the identity. *)
Lemma requested_all s :
  spec_wf s -> fs_file_id <$> requested_files s = fs_file_id <$> sp_session_files s ->
  requested_files s = sp_session_files s.
Proof.
  intros Hwf H. unfold requested_files in H |- *.
  apply omap_lookup_Forall2 in H; [|apply Hwf].
  assert (Hi : sp_requested s = seq 0 (length (sp_session_files s))).
  { apply list_eq. intros i.
    assert (Hlen := Forall2_length _ _ _ H). rewrite length_fmap in Hlen.
    destruct (decide (i < length (sp_session_files s))) as [Hlt|Hge].
    2:{ rewrite !lookup_ge_None_2; [done|rewrite length_seq; lia|lia]. }
    rewrite lookup_seq_lt by done. simpl.
    destruct (lookup_lt_is_Some_2 (sp_requested s) i) as [p Hp]; [lia|].
    destruct (lookup_lt_is_Some_2 (fs_file_id <$> sp_session_files s) i) as [id Hid];
      [by rewrite length_fmap|].
    rewrite Hp. f_equal. eapply (NoDup_lookup _ p i id); [apply Hwf| |done].
    by eapply (Forall2_lookup_lr _ _ _ i id p) in H. }
  rewrite Hi. clear. generalize (sp_session_files s). intros l.
  induction l as [|f l IH] using rev_ind; [done|].
  rewrite length_app, seq_app, omap_app. simpl.
  rewrite lookup_app_r, Nat.sub_diag by lia. simpl. f_equal.
  rewrite <- IH at 2. apply list_omap_ext. apply Forall2_same_length_lookup_2; [done|].
  intros i x y Hx Hy. simplify_eq. apply lookup_seq in Hx as [-> Hx]. simpl.
  by rewrite lookup_app_l.
Qed.

(** the durable specification loses nothing of the request it was
    built from: rehydrating the specification of an accepted request gives
    the same device, session, revision, files and publication material, with
    a missing target path resolved to the file id and the idempotency label
    replaced by the natural key. *)
Theorem to_job_spec_roundtrip r full label s :
  to_job_spec r full label = Ok s ->
  request_from_spec s =
    mkRequest (rq_device_id r) (rq_session_id r) (rq_revision r) (natural_key (sp_identity s))
      (saved_file <$> rq_files r) (rq_manifest_bytes r) (rq_signature r)
      (rq_publication_public_key r).
Proof.
  unfold to_job_spec. intros (i & Hi%JobIdentity_new_ok & H)%rbind_ok.
  apply rbind_ok in H as (p & Hp%PublicationMaterial_new_ok & H).
  apply rbind_ok in H as (files & Hf%rtraverse_ok & H).
  apply JobSpec_new_spec in H as (Hwf & Hsi & Hsp & Hsf & _ & _ & Hids).
  assert (Hids' : fs_file_id <$> sp_session_files s = jf_file_id <$> rq_files r).
  { rewrite Hsf. clear -Hf. induction Hf as [|x y l k Hxy _ IH]; [done|].
    rewrite !fmap_cons, IH. by apply JobFileSpec_new_ok in Hxy as ->. }
  assert (Hall : requested_files s = files).
  { rewrite <- Hsf. apply requested_all; [done|]. congruence. }
  unfold request_from_spec. rewrite Hall, Hsi, Hsp, Hi, Hp. simpl. f_equal.
  clear -Hf. induction Hf as [|x y l k Hxy _ IH]; [done|].
  rewrite !fmap_cons, IH. by apply JobFileSpec_new_ok in Hxy as ->.
Qed.

Definition demo_request : TransferRequest :=
  mkRequest "yl2" "rec-1" "sha256:aa" "label"
    [mkJobFile "f1" (Some "left.mp4") 3 demo_sha; mkJobFile "f2" None 0 demo_sha]
    [Byte.x7b] (replicate 64 Byte.x00) (replicate 32 Byte.x01).

Lemma to_job_spec_roundtrip_witness :
  match to_job_spec demo_request true "today" with
  | Ok s => rq_files (request_from_spec s) = saved_file <$> rq_files demo_request
  | Err _ => False
  end.
Proof.
  destruct (to_job_spec demo_request true "today") as [s|e] eqn:E.
  - rewrite (to_job_spec_roundtrip demo_request true "today" s E). reflexivity.
  - vm_compute in E. discriminate E.
Defined.
