(* ===== verification/Scheduler.v ===== *)
(** * Scheduler: the bounded, de-duplicating FIFO of ready jobs (transfer/scheduler.rs)

[WorkQueue] behind its mutex: every operation is one atomic step on
[QueueState].  [claim]'s wait loop is split at the condition variable:
[claim_iter] is one pass of the loop, and a pass that must wait leaves the
state as it is, so the interleaved operations of other threads are simply
other steps.  The queue is a refinement of an abstract channel. *)

From Stdlib Require Import NArith Lia String.
From stdpp Require Import base numbers list strings gmap relations.
From S2P Require Import Prelude.

(** [ScheduleOutcome] (transfer/scheduler.rs:44-57). *)
Inductive ScheduleOutcome := Scheduled | AlreadyScheduled | Full | Stopped.

#[global] Instance ScheduleOutcome_eq_dec : EqDecision ScheduleOutcome.
Proof. solve_decision. Defined.

(** [QueueState] (transfer/scheduler.rs:66-74). *)
Record QueueState := mkQueue {
  q_order : list string;
  q_scheduled : gset string;
  q_stopped : bool;
  q_overflows : N;
  q_duplicates : N;
  q_delivered : N;
}.

Definition QueueState_default : QueueState := mkQueue [] ∅ false 0 0 0.

(** [WorkQueue::new] (transfer/scheduler.rs:91-97). *)
Definition effective_capacity (capacity : nat) : nat := Nat.max capacity 1.

(** [WorkQueue::schedule] (transfer/scheduler.rs:105-123). *)
Definition schedule (capacity : nat) (st : QueueState) (job_id : string)
    : QueueState * ScheduleOutcome :=
  if q_stopped st then (st, Stopped)
  else if decide (job_id ∈ q_scheduled st)
  then (mkQueue (q_order st) (q_scheduled st) (q_stopped st) (q_overflows st)
                (u64_add (q_duplicates st) 1) (q_delivered st), AlreadyScheduled)
  else if capacity <=? length (q_order st)
  then (mkQueue (q_order st) (q_scheduled st) (q_stopped st) (u64_add (q_overflows st) 1)
                (q_duplicates st) (q_delivered st), Full)
  else (mkQueue (q_order st ++ [job_id]) ({[job_id]} ∪ q_scheduled st) (q_stopped st)
                (q_overflows st) (q_duplicates st) (q_delivered st), Scheduled).

Inductive ClaimStep :=
| ClaimReturn (job : option string)
| ClaimWait.

(** [WorkQueue::claim] (transfer/scheduler.rs:128-150): one pass of the loop. *)
Definition claim_iter (st : QueueState) (deadline_passed : bool) : QueueState * ClaimStep :=
  if q_stopped st then (st, ClaimReturn None)
  else match q_order st with
  | job_id :: rest =>
      (mkQueue rest (q_scheduled st ∖ {[job_id]}) (q_stopped st) (q_overflows st)
               (q_duplicates st) (u64_add (q_delivered st) 1), ClaimReturn (Some job_id))
  | [] => if deadline_passed then (st, ClaimReturn None) else (st, ClaimWait)
  end.

(** [WorkQueue::stop] (transfer/scheduler.rs:153-160). *)
Definition stop (st : QueueState) : QueueState :=
  mkQueue [] ∅ true (q_overflows st) (q_duplicates st) (q_delivered st).

(** [WorkQueue::len] (transfer/scheduler.rs:168-170). *)
Definition queue_len (st : QueueState) : nat := length (q_order st).

(** [WorkQueue::is_scheduled] (transfer/scheduler.rs:178-180). *)
Definition is_scheduled (st : QueueState) (job_id : string) : bool :=
  bool_decide (job_id ∈ q_scheduled st).

(** ** Runs *)

Inductive QueueOp :=
| OpSchedule (job_id : string)
| OpClaim (deadline_passed : bool)
| OpStop.

(** What the callers observe: accepted jobs, delivered jobs. *)
Record QueueLog := mkQLog { ql_accepted : list string; ql_delivered : list string }.

Definition queue_op (capacity : nat) (st : QueueState) (log : QueueLog) (op : QueueOp)
    : QueueState * QueueLog :=
  match op with
  | OpSchedule j =>
      let '(st', o) := schedule capacity st j in
      (st', if bool_decide (o = Scheduled)
            then mkQLog (ql_accepted log ++ [j]) (ql_delivered log) else log)
  | OpClaim dl =>
      let '(st', r) := claim_iter st dl in
      (st', match r with
            | ClaimReturn (Some j) => mkQLog (ql_accepted log) (ql_delivered log ++ [j])
            | _ => log
            end)
  | OpStop => (stop st, log)
  end.

Fixpoint queue_run (capacity : nat) (st : QueueState) (log : QueueLog) (ops : list QueueOp)
    : QueueState * QueueLog :=
  match ops with
  | [] => (st, log)
  | op :: ops' => let '(st', log') := queue_op capacity st log op in queue_run capacity st' log' ops'
  end.

(** ** The abstract channel *)

(** [None] once closed, otherwise the waiting jobs, oldest first. *)
Definition Channel := option (list string).

Inductive channel_step (capacity : nat) : Channel -> QueueOp -> option string -> Channel -> Prop :=
| ch_accept q j : j ∉ q -> length q < capacity ->
    channel_step capacity (Some q) (OpSchedule j) None (Some (q ++ [j]))
| ch_duplicate q j : j ∈ q -> channel_step capacity (Some q) (OpSchedule j) None (Some q)
| ch_full q j : capacity <= length q -> channel_step capacity (Some q) (OpSchedule j) None (Some q)
| ch_deliver j q dl : channel_step capacity (Some (j :: q)) (OpClaim dl) (Some j) (Some q)
| ch_wait dl : channel_step capacity (Some []) (OpClaim dl) None (Some [])
| ch_close c : channel_step capacity c OpStop None None
| ch_closed_schedule j : channel_step capacity None (OpSchedule j) None None
| ch_closed_claim dl : channel_step capacity None (OpClaim dl) None None.

Definition abstract_queue (st : QueueState) : Channel :=
  if q_stopped st then None else Some (q_order st).

(** ** Invariant and theorems *)

Record queue_inv (capacity : nat) (st : QueueState) : Prop := {
  qi_nodup : NoDup (q_order st);
  qi_set : q_scheduled st = list_to_set (q_order st);
  qi_bounded : length (q_order st) <= capacity;
  qi_stopped : q_stopped st = true -> q_order st = [];
}.

Lemma queue_inv_init capacity : queue_inv capacity QueueState_default.
Proof. split; simpl; [constructor|done|lia|done]. Qed.

Lemma schedule_inv capacity st j :
  queue_inv capacity st -> queue_inv capacity (schedule capacity st j).1.
Proof.
  intros [Hnd Hset Hb Hs]. unfold schedule.
  destruct (q_stopped st) eqn:Es; [split; simpl; auto|].
  case_decide as Hin; [split; simpl; auto|].
  destruct (Nat.leb_spec capacity (length (q_order st))); [split; simpl; auto|].
  split; simpl.
  - apply NoDup_app. split_and!; [done| |apply NoDup_singleton].
    intros x Hx ->%list_elem_of_singleton. apply Hin. rewrite Hset. by apply elem_of_list_to_set.
  - rewrite Hset, list_to_set_app_L. simpl. set_solver.
  - rewrite length_app. simpl. lia.
  - done.
Qed.

Lemma claim_inv capacity st dl :
  queue_inv capacity st -> queue_inv capacity (claim_iter st dl).1.
Proof.
  intros [Hnd Hset Hb Hs]. unfold claim_iter.
  destruct (q_stopped st) eqn:Es; [split; simpl; auto|].
  destruct (q_order st) as [|j q] eqn:Eq.
  { destruct dl; split; simpl; rewrite ?Eq, ?Es; auto. }
  apply NoDup_cons in Hnd as [Hj Hnd]. split; simpl in *; [done| |lia|done].
  rewrite Hset. simpl. apply set_eq. intros x. rewrite elem_of_difference, elem_of_union,
    !elem_of_singleton, elem_of_list_to_set. split; [tauto|]. intros Hx. split; [by right|].
  by intros ->.
Qed.

Lemma stop_inv capacity st : queue_inv capacity (stop st).
Proof. split; simpl; [constructor|done|lia|done]. Qed.

Lemma queue_op_inv capacity st log op :
  queue_inv capacity st -> queue_inv capacity (queue_op capacity st log op).1.
Proof.
  intros Hi. destruct op as [j|dl|]; simpl.
  - generalize (schedule_inv capacity st j Hi). by destruct (schedule capacity st j).
  - generalize (claim_inv capacity st dl Hi). by destruct (claim_iter st dl).
  - apply stop_inv.
Qed.

Lemma queue_run_inv capacity ops st log :
  queue_inv capacity st -> queue_inv capacity (queue_run capacity st log ops).1.
Proof.
  revert st log. induction ops as [|op ops IH]; intros st log Hi; [done|]. simpl.
  generalize (queue_op_inv capacity st log op Hi). destruct (queue_op capacity st log op) as [st' log'].
  apply IH.
Qed.

(** C36: the work queue implements the abstract channel: every operation
    on a state satisfying the invariant is the corresponding channel step
    (accept a new job at the back when there is room, ignore a duplicate,
    refuse when full, deliver the oldest, deliver nothing when empty or
    closed), and it keeps the invariant: no job waits twice, the membership
    set is exactly the waiting jobs, and the capacity is never exceeded. *)
Theorem queue_refines_channel capacity st log op :
  queue_inv capacity st ->
  queue_inv capacity (queue_op capacity st log op).1 /\
  exists delivered,
    channel_step capacity (abstract_queue st) op delivered
                 (abstract_queue (queue_op capacity st log op).1) /\
    ql_delivered (queue_op capacity st log op).2 = ql_delivered log ++ option_list delivered.
Proof.
  intros Hi. split; [by apply queue_op_inv|]. destruct Hi as [Hnd Hset Hb Hs].
  destruct op as [j|dl|]; simpl.
  - exists None. unfold schedule, abstract_queue. simpl. rewrite app_nil_r.
    destruct (q_stopped st) eqn:Es; simpl; [rewrite ?Es; split; [constructor|done]|].
    case_decide as Hin; simpl; rewrite ?Es.
    + split; [|done]. apply ch_duplicate. rewrite Hset in Hin. by apply elem_of_list_to_set in Hin.
    + destruct (Nat.leb_spec capacity (length (q_order st))); simpl; rewrite ?Es.
      * split; [by apply ch_full|done].
      * split; [|done]. apply ch_accept; [|done]. rewrite Hset in Hin.
        by rewrite elem_of_list_to_set in Hin.
  - unfold claim_iter, abstract_queue.
    destruct (q_stopped st) eqn:Es.
    { exists None. simpl. rewrite ?Es, app_nil_r. split; [constructor|done]. }
    destruct (q_order st) as [|j q] eqn:Eq.
    + exists None. destruct dl; simpl; rewrite ?Es, ?Eq, app_nil_r; (split; [constructor|done]).
    + exists (Some j). simpl. rewrite ?Es. split; [constructor|done].
  - exists None. rewrite app_nil_r. split; [constructor|done].
Qed.

Definition demo_queue : QueueState := mkQueue ["a"%string] {["a"%string]} false 0 0 0.

Lemma demo_queue_inv : queue_inv 2 demo_queue.
Proof. split; simpl; [apply NoDup_singleton|set_solver|lia|done]. Qed.

Lemma queue_refines_channel_witness :
  queue_inv 2 (queue_op 2 demo_queue (mkQLog [] []) (OpSchedule "b")).1 /\
  exists delivered,
    channel_step 2 (Some ["a"%string]) (OpSchedule "b") delivered (Some ["a"; "b"]%string) /\
    [] = [] ++ option_list delivered.
Proof. apply (queue_refines_channel 2 demo_queue (mkQLog [] []) (OpSchedule "b")), demo_queue_inv. Defined.

Lemma queue_op_conserve capacity st log op :
  q_stopped (queue_op capacity st log op).1 = false ->
  ql_accepted log = ql_delivered log ++ q_order st ->
  q_stopped st = false /\
  ql_accepted (queue_op capacity st log op).2
  = ql_delivered (queue_op capacity st log op).2 ++ q_order (queue_op capacity st log op).1.
Proof.
  intros Hns Hacc. destruct op as [j|dl|]; simpl in *; [| |done].
  - unfold schedule in *. destruct (q_stopped st) eqn:Es; simpl in *; [congruence|].
    split; [done|]. case_decide; simpl; [done|].
    destruct (_ <=? _); simpl; [done|]. by rewrite Hacc, app_assoc.
  - unfold claim_iter in *. destruct (q_stopped st) eqn:Es; simpl in *; [congruence|].
    split; [done|]. destruct (q_order st) as [|j q] eqn:Eq; simpl.
    + destruct dl; simpl; by rewrite Eq.
    + by rewrite Hacc, <- app_assoc.
Qed.

Lemma queue_run_conserve capacity ops st log :
  q_stopped (queue_run capacity st log ops).1 = false ->
  ql_accepted log = ql_delivered log ++ q_order st ->
  ql_accepted (queue_run capacity st log ops).2
  = ql_delivered (queue_run capacity st log ops).2 ++ q_order (queue_run capacity st log ops).1.
Proof.
  revert st log. induction ops as [|op ops IH]; intros st log Hns Hacc; [done|].
  simpl in *. assert (Hop := queue_op_conserve capacity st log op).
  destruct (queue_op capacity st log op) as [st' log'] eqn:E. simpl in Hop.
  apply IH; [done|]. apply Hop; [|done].
  destruct (q_stopped st') eqn:Es; [|done]. exfalso. clear -Hns Es.
  revert st' log' Hns Es. induction ops as [|op ops IH]; intros st log; simpl; [congruence|].
  destruct (queue_op capacity st log op) as [st' log'] eqn:E. intros Hns Es.
  apply (IH st' log' Hns).
  destruct op; simpl in E; unfold schedule, claim_iter in E; try rewrite Es in E;
    injection E as <- <-; done.
Qed.

(** Deliveries are first-in first-out and lossless: after any sequence
    of schedules and claims on a queue that has not been stopped, the jobs
    accepted so far are exactly the jobs delivered so far followed by the jobs
    still waiting, in that order, so each accepted notification is delivered
    at most once and none overtakes another. *)
Theorem queue_fifo capacity ops :
  q_stopped (queue_run capacity QueueState_default (mkQLog [] []) ops).1 = false ->
  let '(st, log) := queue_run capacity QueueState_default (mkQLog [] []) ops in
  ql_accepted log = ql_delivered log ++ q_order st /\ NoDup (q_order st) /\
  length (q_order st) <= capacity.
Proof.
  intros Hns.
  assert (Hc := queue_run_conserve capacity ops QueueState_default (mkQLog [] []) Hns eq_refl).
  assert (Hi := queue_run_inv capacity ops _ (mkQLog [] []) (queue_inv_init capacity)).
  destruct (queue_run _ _ _ ops) as [st log]. simpl in *.
  destruct Hi. by split_and!.
Qed.

Lemma queue_fifo_witness :
  let '(st, log) := queue_run 2 QueueState_default (mkQLog [] [])
     [OpSchedule "a"; OpSchedule "b"; OpSchedule "a"; OpSchedule "c"; OpClaim true]%string in
  ql_accepted log = ql_delivered log ++ q_order st /\ NoDup (q_order st) /\
  length (q_order st) <= 2.
Proof.
  apply (queue_fifo 2 [OpSchedule "a"; OpSchedule "b"; OpSchedule "a"; OpSchedule "c"; OpClaim true]%string).
  vm_compute. reflexivity.
Defined.
