(* ===== verification/Files.v ===== *)
(** * Files: the local filesystem the library code runs against

A model of the [std::fs] calls the sources use, on paths relative to the
library root: a path is its list of components, the root itself is [[]]
and always a directory, and a node is a regular file, a directory or a
symbolic link (with what reading through it gives).  Durability calls
([sync_all], directory fsync) do not change contents and are not
separate operations; failures other than the ones a node's kind implies
(full disk, permissions, hardware) are not modelled.

The path-safety functions of library/download.rs follow: the id-segment
and relative-path validators, target derivation, and the checks made on
every component before a file is opened. *)

From Stdlib Require Import NArith Lia Ascii String.
From stdpp Require Import base numbers list strings gmap.
From S2P Require Import Prelude Domain.

Local Open Scope string_scope.

Abbreviation Path := (list string).

Inductive Node :=
| NFile (content : list byte)
| NDir
| NSymlink (resolved : option (list byte)).

(** The instances are spelled out: an unknown path type elsewhere in a statement
    must not pick others. *)
Abbreviation FS :=
  (@gmap (list string) (@list_eq_dec string String.eq_dec)
     (@list_countable string String.eq_dec String.countable) Node).

#[global] Instance Node_eq_dec : EqDecision Node.
Proof. solve_decision. Defined.

(** [io::ErrorKind]; [IoStorageFull] is errno 28, which only the classifiers
    of failures look at: no operation below returns it. *)
Inductive IoKind :=
| IoNotFound | IoAlreadyExists | IoNotADirectory | IoIsADirectory | IoInvalidData
| IoStorageFull | IoDirectoryNotEmpty | IoInvalidInput.

#[global] Instance IoKind_eq_dec : EqDecision IoKind.
Proof. solve_decision. Defined.

Definition node_at (fs : FS) (p : Path) : option Node :=
  match p with [] => Some NDir | _ => fs !! p end.

Definition blen (bs : list byte) : N := N.of_nat (length bs).

(** [fs::metadata(p).len()] for a path that is not a symbolic link. *)
Definition file_len (fs : FS) (p : Path) : result IoKind N :=
  match node_at fs p with
  | Some (NFile bs) | Some (NSymlink (Some bs)) => Ok (blen bs)
  | Some NDir => Err IoIsADirectory
  | Some (NSymlink None) | None => Err IoNotFound
  end.

(** [fs::read]: follows links. *)
Definition read_file (fs : FS) (p : Path) : result IoKind (list byte) :=
  match node_at fs p with
  | Some (NFile bs) | Some (NSymlink (Some bs)) => Ok bs
  | Some NDir => Err IoIsADirectory
  | Some (NSymlink None) | None => Err IoNotFound
  end.

Definition byte_between (lo hi : N) (b : byte) : bool :=
  let n := Byte.to_N b in ((lo <=? n) && (n <=? hi))%N.

(** Well-formed UTF-8, which [fs::read_to_string] requires. *)
Fixpoint utf8_valid (bs : list byte) : bool :=
  match bs with
  | [] => true
  | b1 :: r1 =>
      if byte_between 0 127 b1 then utf8_valid r1
      else match r1 with
      | [] => false
      | b2 :: r2 =>
          if byte_between 194 223 b1 then byte_between 128 191 b2 && utf8_valid r2
          else match r2 with
          | [] => false
          | b3 :: r3 =>
              if byte_between 224 239 b1
              then byte_between (if byte_between 224 224 b1 then 160 else 128)
                                (if byte_between 237 237 b1 then 159 else 191) b2
                   && byte_between 128 191 b3 && utf8_valid r3
              else match r3 with
              | [] => false
              | b4 :: r4 =>
                  byte_between 240 244 b1
                  && byte_between (if byte_between 240 240 b1 then 144 else 128)
                                  (if byte_between 244 244 b1 then 143 else 191) b2
                  && byte_between 128 191 b3 && byte_between 128 191 b4 && utf8_valid r4
              end
          end
      end
  end.

(** [fs::read_to_string]. *)
Definition read_to_string (fs : FS) (p : Path) : result IoKind (list byte) :=
  let? bs := read_file fs p in
  if utf8_valid bs then Ok bs else Err IoInvalidData.

(** [fs::remove_file]. *)
Definition remove_file (fs : FS) (p : Path) : result IoKind FS :=
  match node_at fs p with
  | Some NDir => Err IoIsADirectory
  | Some _ => Ok (delete p fs)
  | None => Err IoNotFound
  end.

(** [fs::create_dir], the parent being there. *)
Definition create_dir (fs : FS) (p : Path) : result IoKind FS :=
  match node_at fs p with
  | None => Ok (<[p := NDir]> fs)
  | Some _ => Err IoAlreadyExists
  end.

(** [fs::create_dir_all]: the missing ancestors, outermost first. *)
Fixpoint create_dirs (fs : FS) (done rest : Path) : result IoKind FS :=
  match rest with
  | [] => Ok fs
  | c :: rest' =>
      let p := (done ++ [c])%list in
      match node_at fs p with
      | Some NDir => create_dirs fs p rest'
      | None => create_dirs (<[p := NDir]> fs) p rest'
      | Some _ => Err IoNotADirectory
      end
  end.

Definition create_dir_all (fs : FS) (p : Path) : result IoKind FS := create_dirs fs [] p.

(** [fs::rename] of a file. *)
Definition rename_file (fs : FS) (from to : Path) : result IoKind FS :=
  match node_at fs from with
  | None => Err IoNotFound
  | Some n => match node_at fs to with
              | Some NDir => Err IoIsADirectory
              | _ => Ok (<[to := n]> (delete from fs))
              end
  end.

(** Opening for writing, creating the file when it is absent and emptying it
    when asked to; a symbolic link is never opened for writing here, every
    caller having refused one just before. *)
Definition open_write (fs : FS) (p : Path) (truncate : bool) : result IoKind FS :=
  match node_at fs p with
  | None => Ok (<[p := NFile []]> fs)
  | Some (NFile bs) => Ok (if truncate then <[p := NFile []]> fs else fs)
  | Some NDir => Err IoIsADirectory
  | Some (NSymlink _) => Err IoAlreadyExists
  end.

(** [write_all] at a position: past the end the gap reads as zeros. *)
Definition write_at (content : list byte) (offset : N) (chunk : list byte) : list byte :=
  let off := N.to_nat offset in
  (take off content ++ replicate (off - length content) Byte.x00 ++ chunk
   ++ drop (off + length chunk) content)%list.

Definition write_chunk (fs : FS) (p : Path) (offset : N) (chunk : list byte) : FS :=
  match fs !! p with
  | Some (NFile bs) => <[p := NFile (write_at bs offset chunk)]> fs
  | _ => fs
  end.

(** [File::set_len] downwards. *)
Definition truncate_file (fs : FS) (p : Path) (len : N) : result IoKind FS :=
  match node_at fs p with
  | Some (NFile bs) => Ok (<[p := NFile (take (N.to_nat len) bs)]> fs)
  | Some NDir => Err IoIsADirectory
  | Some (NSymlink _) => Err IoAlreadyExists
  | None => Err IoNotFound
  end.

(** [Path::parent] and the path with a suffix on its last component. *)
Fixpoint path_parent (p : Path) : Path :=
  match p with
  | [] => []
  | [_] => []
  | c :: p' => c :: path_parent p'
  end.

Fixpoint path_push_suffix (p : Path) (suffix : string) : Path :=
  match p with
  | [] => []
  | [c] => [c ++ suffix]
  | c :: p' => c :: path_push_suffix p' suffix
  end.

Definition path_file_name (p : Path) : string := List.last p "".

(** The names in a directory, in the order the map lists them ([read_dir]
    promises none). *)
Definition child_name (dir p : Path) : option string :=
  match p with
  | [] => None
  | _ => if decide (path_parent p = dir) then Some (path_file_name p) else None
  end.

Definition children (fs : FS) (dir : Path) : list string :=
  omap (fun e => child_name dir e.1) (map_to_list fs).

(** ** Path safety *)

(** [PathSafetyError] (library/download.rs:138-172). *)
Inductive PathSafetyError :=
| PsEmpty | PsNulByte | PsDotDot
| PsReservedInternalName (segment : string)
| PsPathSeparator | PsDriveOrColon | PsForbiddenWindowsCharacter
| PsReservedDeviceName (segment : string)
| PsTrailingDotOrSpace | PsEscapesRoot
| PsCaseInsensitiveCollision (candidate existing : string)
| PsSymlinkNotAllowed (path : Path)
| PsIo (path : Path) (kind : IoKind).

#[global] Instance PathSafetyError_eq_dec : EqDecision PathSafetyError.
Proof. solve_decision. Defined.

(** [STAGING_DIR_NAME] (library/staging.rs:132-132). *)
Definition STAGING_DIR_NAME : string := ".ylx-staging".
(** [REVISION_MARKER_NAME] (library/staging.rs:138-138). *)
Definition REVISION_MARKER_NAME : string := ".ylx-revision".
(** [SELECTED_MARKER_NAME] (library/staging.rs:145-145). *)
Definition SELECTED_MARKER_NAME : string := ".ylx-selected".

(** [WINDOWS_RESERVED_NAMES] (library/download.rs:176-180). *)
Definition WINDOWS_RESERVED_NAMES : list string :=
  ["CON"; "PRN"; "AUX"; "NUL"; "COM1"; "COM2"; "COM3"; "COM4"; "COM5"; "COM6"; "COM7"; "COM8";
   "COM9"; "LPT1"; "LPT2"; "LPT3"; "LPT4"; "LPT5"; "LPT6"; "LPT7"; "LPT8"; "LPT9"; "CLOCK$";
   "CONIN$"; "CONOUT$"].

Definition forbidden_windows_char (c : ascii) : bool :=
  (N_of_ascii c <? 32)%N
  || existsb (Ascii.eqb c) ["<"%char; ">"%char; "034"%char; "|"%char; "?"%char; "*"%char].

Definition ends_with_char (c : ascii) (s : string) : bool :=
  match last_char s with Some d => Ascii.eqb d c | None => false end.

(** [validate_id_segment] (library/download.rs:188-230). *)
Definition validate_id_segment (segment : string) : result PathSafetyError unit :=
  if String.eqb segment "" then Err PsEmpty
  else if str_mem "000" segment then Err PsNulByte
  else if String.eqb segment "." || String.eqb segment ".." then Err PsDotDot
  else if eq_ignore_ascii_case segment STAGING_DIR_NAME
          || eq_ignore_ascii_case segment REVISION_MARKER_NAME
          || eq_ignore_ascii_case segment SELECTED_MARKER_NAME
  then Err (PsReservedInternalName segment)
  else if str_mem "/" segment || str_mem "\" segment then Err PsPathSeparator
  else if str_mem ":" segment then Err PsDriveOrColon
  else if str_any forbidden_windows_char segment then Err PsForbiddenWindowsCharacter
  else
    let upper := to_ascii_uppercase segment in
    let base := hd upper (split_char "." upper) in
    if existsb (String.eqb base) WINDOWS_RESERVED_NAMES then Err (PsReservedDeviceName segment)
    else if ends_with_char "." segment || ends_with_char " " segment then Err PsTrailingDotOrSpace
    else Ok tt.

(** [validate_relative_path] (library/download.rs:236-251). *)
Definition validate_relative_path (relative_path : string) : result PathSafetyError unit :=
  if String.eqb relative_path "" then Err PsEmpty
  else if str_mem "\" relative_path then Err PsPathSeparator
  else rforall validate_id_segment (split_char "/" relative_path).

(** [Path::components] of a relative path: empty pieces and interior dots
    vanish, [..] and a leading dot are not [Normal]. *)
Inductive Component := CNormal (name : string) | CCurDir | CParentDir.

Definition component_of (c : string) : Component :=
  if String.eqb c ".." then CParentDir else CNormal c.

Definition components (pieces : list string) : list Component :=
  match filter (fun c => c <> "") pieces with
  | [] => []
  | c :: rest =>
      (if String.eqb c "." then [CCurDir] else [])
      ++ (component_of <$> filter (fun c => c <> ".") (c :: rest))
  end%list.

Fixpoint normal_components (cs : list Component) : option Path :=
  match cs with
  | [] => Some []
  | CNormal n :: cs' => (n ::.) <$> normal_components cs'
  | _ :: _ => None
  end.

(** [derive_target_path_for_file] (library/download.rs:272-303). *)
Definition derive_target_path_for_file (device_id session_id file_id : string)
    (target_relative_path : option string) : result PathSafetyError Path :=
  let? _ := validate_id_segment device_id in
  let? _ := validate_id_segment session_id in
  let? _ := validate_id_segment file_id in
  let session_root := [device_id; session_id] in
  let? candidate :=
    match target_relative_path with
    | Some relative_path =>
        let? _ := validate_relative_path relative_path in
        Ok (session_root ++ split_char "/" relative_path)%list
    | None => Ok (session_root ++ [file_id])%list
    end in
  ok_or (normal_components (components candidate)) PsEscapesRoot.

(** [derive_target_path] (library/download.rs:259-266). *)
Definition derive_target_path (device_id session_id file_id : string)
    : result PathSafetyError Path :=
  derive_target_path_for_file device_id session_id file_id None.

(** [part_path] (library/download.rs:421-425). *)
Definition part_path (target : Path) : Path := path_push_suffix target ".part".

(** [journal_path] (library/download.rs:429-433). *)
Definition journal_path (target : Path) : Path := path_push_suffix (part_path target) ".journal".

(** [reject_symlink] (library/download.rs:406-418). *)
Definition reject_symlink (fs : FS) (p : Path) : result PathSafetyError unit :=
  match node_at fs p with
  | Some (NSymlink _) => Err (PsSymlinkNotAllowed p)
  | _ => Ok tt
  end.

(** Unicode lower-casing ([str::to_lowercase]) stays abstract. *)
Class Lowercase := to_lowercase : string -> string.

Section path_checks.
  Context `{Lowercase}.

Definition collides (candidate name : string) : bool :=
  negb (String.eqb name candidate)
  && String.eqb (to_lowercase name) (to_lowercase candidate).

(** [check_case_insensitive_collision] (library/download.rs:369-399). *)
Definition check_case_insensitive_collision (fs : FS) (dir : Path) (candidate : string)
    : result PathSafetyError unit :=
  match node_at fs dir with
  | None | Some (NSymlink None) => Ok tt
  | Some NDir =>
      match List.find (collides candidate) (children fs dir) with
      | Some name => Err (PsCaseInsensitiveCollision candidate name)
      | None => Ok tt
      end
  | Some _ => Err (PsIo dir IoNotADirectory)
  end.

(** Failures of [prepare_target_parent]: unsafe path or I/O. *)
Inductive PrepareError :=
| PrUnsafe (e : PathSafetyError)
| PrIo (path : Path) (kind : IoKind).

(** [prepare_target_parent, per component] (library/download.rs:323-358). *)
Fixpoint prepare_components (fs : FS) (parent rest : Path) : FS * result PrepareError unit :=
  match rest with
  | [] => (fs, Err (PrUnsafe PsEscapesRoot))
  | name :: rest' =>
      match check_case_insensitive_collision fs parent name with
      | Err e => (fs, Err (PrUnsafe e))
      | Ok _ =>
          let candidate := (parent ++ [name])%list in
          match reject_symlink fs candidate with
          | Err e => (fs, Err (PrUnsafe e))
          | Ok _ =>
              match rest' with
              | [] => (fs, Ok tt)
              | _ =>
                  match create_dir fs candidate with
                  | Ok fs' =>
                      match reject_symlink fs' candidate with
                      | Err e => (fs', Err (PrUnsafe e))
                      | Ok _ => prepare_components fs' candidate rest'
                      end
                  | Err IoAlreadyExists =>
                      match node_at fs candidate with
                      | Some NDir =>
                          match reject_symlink fs candidate with
                          | Err e => (fs, Err (PrUnsafe e))
                          | Ok _ => prepare_components fs candidate rest'
                          end
                      | _ => (fs, Err (PrIo candidate IoAlreadyExists))
                      end
                  | Err k => (fs, Err (PrIo candidate k))
                  end
              end
          end
      end
  end.

(** [prepare_target_parent] (library/download.rs:309-360). *)
Definition prepare_target_parent (fs : FS) (target : Path) : FS * result PrepareError unit :=
  prepare_components fs [] target.

End path_checks.

(** ** Theorems: confinement *)

Local Open Scope list_scope.

(** What a validated segment is. *)
Definition safe_segment (c : string) : Prop :=
  c <> ""%string /\ c <> "."%string /\ c <> ".."%string /\
  str_mem "000" c = false /\ str_mem "/" c = false /\ str_mem "\" c = false /\
  str_mem ":" c = false /\
  ends_with_char "." c = false /\ ends_with_char " " c = false /\
  Forall (fun n => eq_ignore_ascii_case c n = false)
    [STAGING_DIR_NAME; REVISION_MARKER_NAME; SELECTED_MARKER_NAME].

Lemma validate_id_segment_safe c : validate_id_segment c = Ok tt -> safe_segment c.
Proof.
  unfold validate_id_segment, safe_segment.
  destruct (String.eqb_spec c ""); [done|].
  destruct (str_mem "000" c); [done|].
  destruct (String.eqb_spec c "."); [done|]. destruct (String.eqb_spec c ".."); [done|]. simpl.
  destruct (eq_ignore_ascii_case c STAGING_DIR_NAME) eqn:E1; [done|].
  destruct (eq_ignore_ascii_case c REVISION_MARKER_NAME) eqn:E2; [done|].
  destruct (eq_ignore_ascii_case c SELECTED_MARKER_NAME) eqn:E3; [done|]. simpl.
  destruct (str_mem "/" c); [done|]. destruct (str_mem "\" c); [done|].
  destruct (str_mem ":" c); [done|]. simpl.
  case_match; [done|]. case_match; [done|].
  destruct (ends_with_char "." c); [done|]. destruct (ends_with_char " " c); [done|].
  intros _. repeat split; try done. by repeat constructor.
Qed.

Lemma filter_all {A} (P : A -> Prop) `{!forall x, Decision (P x)} l :
  Forall P l -> filter P l = l.
Proof. induction 1 as [|x l Hx _ IH]; [done|]. by rewrite filter_cons_True, IH. Qed.

Lemma safe_components ps :
  Forall safe_segment ps -> normal_components (components ps) = Some ps.
Proof.
  intros H. unfold components.
  assert (Hf1 : filter (fun c => c <> ""%string) ps = ps).
  { apply filter_all. eapply Forall_impl; [exact H|]. by intros c (? & _). }
  assert (Hf2 : filter (fun c => c <> "."%string) ps = ps).
  { apply filter_all. eapply Forall_impl; [exact H|]. by intros c (_ & ? & _). }
  rewrite Hf1.
  assert (Hn : normal_components (component_of <$> ps) = Some ps).
  { clear Hf1 Hf2. induction H as [|c ps (_ & _ & Hc & _) _ IH]; [done|].
    rewrite fmap_cons. unfold component_of at 1. apply String.eqb_neq in Hc. rewrite Hc.
    cbn [normal_components]. by rewrite IH. }
  destruct ps as [|c ps]; [done|]. rewrite Hf2.
  apply Forall_cons in H as [(_ & Hc & _) _]. apply String.eqb_neq in Hc. by rewrite Hc.
Qed.

Definition target_segments (file_id : string) (rel : option string) : list string :=
  match rel with Some r => split_char "/" r | None => [file_id] end.

Lemma derive_target_path_spec d s f rel p :
  derive_target_path_for_file d s f rel = Ok p <->
  validate_id_segment d = Ok tt /\ validate_id_segment s = Ok tt /\
  validate_id_segment f = Ok tt /\
  match rel with Some r => validate_relative_path r = Ok tt | None => True end /\
  p = d :: s :: target_segments f rel /\ Forall safe_segment p.
Proof.
  unfold derive_target_path_for_file. rewrite rbind_ok. split.
  - intros ([] & Hd & H). apply rbind_ok in H as ([] & Hs & H).
    apply rbind_ok in H as ([] & Hf & H). apply rbind_ok in H as (c & Hc & H).
    assert (Hsafe : Forall safe_segment c /\ c = d :: s :: target_segments f rel /\
                    match rel with Some r => validate_relative_path r = Ok tt | None => True end).
    { destruct rel as [r|].
      - apply rbind_ok in Hc as ([] & Hr & [= <-]). split_and!; [|done|done].
        unfold validate_relative_path in Hr. destruct (String.eqb r ""); [done|].
        destruct (str_mem _ r); [done|]. apply rforall_ok in Hr.
        repeat (apply Forall_cons; split; [by apply validate_id_segment_safe|]).
        eapply Forall_impl; [exact Hr|]. intros; by apply validate_id_segment_safe.
      - injection Hc as <-. split_and!; [|done|done].
        repeat (apply Forall_cons; split; [by apply validate_id_segment_safe|]). constructor. }
    destruct Hsafe as (Hsafe & Hc' & Hrel). rewrite safe_components in H by done.
    injection H as <-. by rewrite <- Hc'.
  - intros (Hd & Hs & Hf & Hrel & -> & Hsafe). exists tt. split; [done|].
    rewrite Hs, Hf. simpl. destruct rel as [r|]; simpl; [rewrite Hrel; simpl|];
      by rewrite safe_components.
Qed.

(** A download target never leaves its session directory. Derivation
    succeeds exactly when the three ids and the optional signed display path
    validate, and then the target is the library root followed by the device,
    the session and the display path's pieces (or the file id), every one of
    them a safe segment: not empty, not [.] or [..], without separators,
    drive colons or NUL, not ending in a dot or space and not one of the
    library's own internal names. The escapes-root error is unreachable. *)
Theorem derive_target_path_confined d s f rel p :
  derive_target_path_for_file d s f rel = Ok p <->
  validate_id_segment d = Ok tt /\ validate_id_segment s = Ok tt /\
  validate_id_segment f = Ok tt /\
  match rel with Some r => validate_relative_path r = Ok tt | None => True end /\
  p = d :: s :: target_segments f rel /\ Forall safe_segment p.
Proof. apply derive_target_path_spec. Qed.

(** ** Frame of the preparation step *)

(** Every proper, non-empty prefix of [p] is a directory. *)
Definition parents_exist (fs : FS) (p : Path) : Prop :=
  forall q r, p = q ++ r -> q <> [] -> r <> [] -> fs !! q = Some NDir.

(** [fs'] only adds directories to [fs], on proper prefixes of [p]. *)
Definition only_new_dirs (fs fs' : FS) (p : Path) : Prop :=
  forall q, fs' !! q = fs !! q \/
            (fs !! q = None /\ fs' !! q = Some NDir /\ exists r, p = q ++ r /\ r <> []).

Lemma only_new_dirs_refl fs p : only_new_dirs fs fs p.
Proof. intros q. by left. Qed.

Lemma only_new_dirs_trans fs1 fs2 fs3 p :
  only_new_dirs fs1 fs2 p -> only_new_dirs fs2 fs3 p -> only_new_dirs fs1 fs3 p.
Proof.
  intros H1 H2 q. destruct (H1 q) as [E1|(E1 & E1' & ?)], (H2 q) as [E2|(E2 & E2' & ?)];
    [left; congruence|right; rewrite <- E1; auto|right; rewrite E2; auto|congruence].
Qed.

Lemma only_new_dirs_insert fs q r :
  fs !! q = None -> r <> [] -> only_new_dirs fs (<[q := NDir]> fs) (q ++ r).
Proof.
  intros Hn Hr q'. destruct (decide (q' = q)) as [->|Hne].
  - right. rewrite lookup_insert_eq. eauto.
  - left. by rewrite lookup_insert_ne by done.
Qed.

Lemma node_at_nonempty fs p : p <> [] -> node_at fs p = fs !! p.
Proof. by destruct p. Qed.


Lemma snoc_prefix_cases {A} (q r p : list A) c :
  p ++ [c] = q ++ r -> r <> [] -> (exists r', p = q ++ r') .
Proof.
  intros H Hr. destruct r as [|x r _] using rev_ind; [done|].
  rewrite app_assoc in H. apply app_inj_tail in H as [-> _]. eauto.
Qed.

Lemma parents_exist_snoc fs p c :
  parents_exist fs p -> (p <> [] -> fs !! p = Some NDir) -> parents_exist fs (p ++ [c]).
Proof.
  intros Hp Hd q r Hq Hq0 Hr. destruct (snoc_prefix_cases q r p c Hq Hr) as [r' ->].
  destruct r' as [|x r'].
  - rewrite app_nil_r in *. by apply Hd.
  - apply (Hp q (x :: r')); done.
Qed.

Lemma parents_exist_mono fs fs' p : 
  parents_exist fs p -> (forall q, fs !! q = Some NDir -> fs' !! q = Some NDir) ->
  parents_exist fs' p.
Proof. intros H Hm q r Hq Hq0 Hr. apply Hm. by apply (H q r). Qed.

Lemma only_new_dirs_keeps fs fs' p q n :
  only_new_dirs fs fs' p -> fs !! q = Some n -> fs' !! q = Some n.
Proof. intros H Hq. destruct (H q) as [->|(Hn & _)]; congruence. Qed.

Section prepare.
  Context `{Lowercase}.

Lemma prepare_components_spec rest fs parent fs' r :
  rest <> [] ->
  (parent <> [] -> fs !! parent = Some NDir) -> parents_exist fs parent ->
  prepare_components fs parent rest = (fs', r) ->
  only_new_dirs fs fs' (parent ++ rest) /\
  (r = Ok tt -> parents_exist fs' (parent ++ rest) /\
                forall o, fs' !! (parent ++ rest) <> Some (NSymlink o)).
Proof.
  revert fs parent. induction rest as [|name rest IH]; intros fs parent Hne Hpar Hpe Heq; [done|].
  simpl in Heq.
  destruct (check_case_insensitive_collision fs parent name) as [u|e];
    [|by simplify_eq; split; [apply only_new_dirs_refl|]].
  unfold reject_symlink in Heq.
  assert (Hcand : parent ++ [name] <> []) by (by destruct parent).
  rewrite !node_at_nonempty in Heq by done.
  assert (Hpe' := parents_exist_snoc fs parent name Hpe Hpar).
  assert (Happ : parent ++ name :: rest = (parent ++ [name]) ++ rest) by (by rewrite <- app_assoc).
  rewrite Happ.
  destruct (fs !! (parent ++ [name])) as [[bs| |o]|] eqn:Ecand;
    [..|]; (destruct rest as [|n2 rest2]; [clear IH; simplify_eq; rewrite app_nil_r|]).
  all: try (split; [apply only_new_dirs_refl|]; intros; split; [done|]; congruence).
  all: unfold create_dir in Heq; rewrite ?(node_at_nonempty _ _ Hcand) in Heq;
    rewrite ?Ecand in Heq; simpl in Heq.
  - rewrite ?Ecand in Heq. simplify_eq. split; [apply only_new_dirs_refl|done].
  - rewrite ?Ecand in Heq. apply (IH fs (parent ++ [name])); done.
  - simplify_eq. split; [apply only_new_dirs_refl|done].
  - rewrite ?(node_at_nonempty (<[_:=_]> _) _ Hcand), lookup_insert_eq in Heq.
    assert (Hnew := only_new_dirs_insert fs (parent ++ [name]) (n2 :: rest2) Ecand ltac:(done)).
    apply IH in Heq as [H1 H2]; [| done | | ].
    + split; [by eapply only_new_dirs_trans|done].
    + intros _. apply lookup_insert_eq.
    + eapply parents_exist_mono; [exact Hpe'|]. intros q Hq.
      by eapply only_new_dirs_keeps.
Qed.

Lemma prepare_target_parent_spec fs p fs' r :
  p <> [] -> prepare_target_parent fs p = (fs', r) ->
  only_new_dirs fs fs' p /\
  (r = Ok tt -> parents_exist fs' p /\ forall o, fs' !! p <> Some (NSymlink o)).
Proof.
  intros Hp. apply (prepare_components_spec p fs []); [done|done|].
  intros q r' Hq Hq0. by destruct q.
Qed.
End prepare.
