(* ===== verification/Journal.v ===== *)
(** * Journal: the durable download checkpoint (library/download.rs, sections 2, 3 and 5)

[DownloadJournal] with its three invariants, the durable write, the
recovery of a resume offset and the download error type.  The JSON text
of a journal is [serde_json]'s: it enters as [JournalCodec]. *)

From Stdlib Require Import NArith Lia Ascii String.
From stdpp Require Import base numbers list strings gmap.
From S2P Require Import Prelude Domain Files.

(** [CheckpointError] (library/download.rs:445-465). *)
Inductive CheckpointError :=
| NonMonotonic (recorded proposed : N)
| ExceedsDurableBytes (path : Path) (proposed durable : N)
| ImmutableSize (recorded proposed : N)
| ImmutableSha256 (recorded proposed : string)
| ImmutableEtag (recorded : string) (proposed : option string).

(** [VerifyError] (library/download.rs:1381-1385). *)
Inductive VerifyError := VerifyRejected (reason : string).

(** [DownloadError] (library/download.rs:875-934): the payload of [InvalidPlan]
    and [Serialization] is what the message is formatted from. *)
Inductive DownloadError :=
| DPathSafety (e : PathSafetyError)
| DIo (path : Path) (kind : IoKind)
| DSourceIo (message : string)
| DSource (message : string)
| DInvalidPlan (detail : string)
| DMalformedContentRange (header : string)
| DRangeMismatch (requested_start got_start : N)
| DRangeNotSatisfiable
| DUnexpectedStatus (status : N)
| DTooManyRestarts
| DShortBody (expected actual : N)
| DUnexpectedExtraBytes
| DSizeMismatch (expected actual : N)
| DHashMismatch (expected actual : string)
| DSerialization (detail : string)
| DCheckpoint (e : CheckpointError)
| DVerification (e : VerifyError).

#[global] Instance CheckpointError_eq_dec : EqDecision CheckpointError.
Proof. solve_decision. Defined.
#[global] Instance VerifyError_eq_dec : EqDecision VerifyError.
Proof. solve_decision. Defined.
#[global] Instance DownloadError_eq_dec : EqDecision DownloadError.
Proof. solve_decision. Defined.

(** [DownloadJournal] (library/download.rs:497-503). *)
Record DownloadJournal := mkJournal {
  dj_confirmed_offset : N;
  dj_expected_size : N;
  dj_expected_sha256_hex : string;
  dj_etag : option string;
}.

#[global] Instance DownloadJournal_eq_dec : EqDecision DownloadJournal.
Proof. solve_decision. Defined.

Definition journal_fits (j : DownloadJournal) : Prop :=
  (dj_confirmed_offset j <= u64_max)%N /\ (dj_expected_size j <= u64_max)%N.

(** [serde_json] on a journal: text that parses back to the value. *)
Class JournalCodec := {
  journal_encode : DownloadJournal -> list byte;
  journal_decode : list byte -> option DownloadJournal;
  journal_encode_utf8 : forall j, utf8_valid (journal_encode j) = true;
  journal_decode_encode : forall j, journal_fits j -> journal_decode (journal_encode j) = Some j;
  journal_decode_fits : forall bs j, journal_decode bs = Some j -> journal_fits j;
}.

(** An I/O error of a plain file operation, as the sources wrap it. *)
Definition dio {A} (p : Path) (c : result IoKind A) : result DownloadError A :=
  rmap_err (DIo p) c.

(** Run an operation on the filesystem, keeping it unchanged when it fails. *)
Definition fs_try (p : Path) (f : FS -> result IoKind FS) : sm FS DownloadError unit :=
  fun fs => match f fs with Ok fs' => (fs', Ok tt) | Err k => (fs, Err (DIo p k)) end.

Definition fs_read {A} (f : FS -> result DownloadError A) : sm FS DownloadError A :=
  fun fs => (fs, f fs).

(** [write_file_durably] (library/download.rs:641-667): temporary file, then
    rename over the path. *)
Definition write_file_durably (p : Path) (bytes : list byte) : sm FS DownloadError unit :=
  let parent := path_parent p in
  let tmp := path_push_suffix p ".tmp" in
  do! fs_try parent (fun fs => create_dir_all fs parent) then!
  do! fs_try tmp (fun fs => open_write fs tmp true) then!
  do! (fun fs => (write_chunk fs tmp 0 bytes, Ok tt)) then!
  fs_try p (fun fs => rename_file fs tmp p).

(** [discard_partial, loop] (library/download.rs:689-695). *)
Fixpoint remove_if_present (ps : list Path) : sm FS DownloadError unit :=
  match ps with
  | [] => sret tt
  | p :: ps' =>
      do! (fun fs => match remove_file fs p with
                     | Ok fs' => (fs', Ok tt)
                     | Err IoNotFound => (fs, Ok tt)
                     | Err k => (fs, Err (DIo p k))
                     end) then!
      remove_if_present ps'
  end.

(** [discard_partial] (library/download.rs:688-697). *)
Definition discard_partial (part jpath : Path) : sm FS DownloadError unit :=
  remove_if_present [part; jpath].

(** The length of a file that may be absent. *)
Definition durable_len (fs : FS) (p : Path) : result DownloadError N :=
  match file_len fs p with
  | Ok n => Ok n
  | Err IoNotFound => Ok 0%N
  | Err k => Err (DIo p k)
  end.

Section journal.
  Context `{JournalCodec}.

(** [DownloadJournal::read] (library/download.rs:511-518). *)
Definition journal_read (fs : FS) (p : Path) : result DownloadError (option DownloadJournal) :=
  match read_to_string fs p with
  | Ok raw => Ok (journal_decode raw)
  | Err IoNotFound => Ok None
  | Err k => Err (DIo p k)
  end.

(** [DownloadJournal::write] (library/download.rs:626-630). *)
Definition journal_write (p : Path) (j : DownloadJournal) : sm FS DownloadError unit :=
  write_file_durably p (journal_encode j).

(** [DownloadJournal::advance, checks] (library/download.rs:537-582). *)
Definition check_advance (part : Path) (durable : N) (recorded : option DownloadJournal)
    (proposed : DownloadJournal) : result CheckpointError unit :=
  if (durable <? dj_confirmed_offset proposed)%N
  then Err (ExceedsDurableBytes part (dj_confirmed_offset proposed) durable)
  else match recorded with
  | None => Ok tt
  | Some r =>
      if (dj_confirmed_offset proposed <? dj_confirmed_offset r)%N
      then Err (NonMonotonic (dj_confirmed_offset r) (dj_confirmed_offset proposed))
      else if negb (dj_expected_size r =? dj_expected_size proposed)%N
      then Err (ImmutableSize (dj_expected_size r) (dj_expected_size proposed))
      else if negb (String.eqb (dj_expected_sha256_hex r) (dj_expected_sha256_hex proposed))
      then Err (ImmutableSha256 (dj_expected_sha256_hex r) (dj_expected_sha256_hex proposed))
      else match dj_etag r with
      | Some e => if bool_decide (dj_etag proposed = Some e) then Ok tt
                  else Err (ImmutableEtag e (dj_etag proposed))
      | None => Ok tt
      end
  end.

(** [DownloadJournal::advance] (library/download.rs:527-585): the journal is
    read only once the offset is known not to exceed the durable bytes. *)
Definition journal_advance (p part : Path) (proposed : DownloadJournal)
    : sm FS DownloadError unit :=
  let! durable := fs_read (fun fs => durable_len fs part) in
  do! slift (rmap_err DCheckpoint (check_advance part durable None proposed)) then!
  let! recorded := fs_read (fun fs => journal_read fs p) in
  do! slift (rmap_err DCheckpoint (check_advance part durable recorded proposed)) then!
  journal_write p proposed.

(** [DownloadJournal::reset_to] (library/download.rs:597-615). *)
Definition journal_reset_to (p : Path) (j : DownloadJournal) (durable_offset : N)
    : sm FS DownloadError DownloadJournal :=
  if (dj_confirmed_offset j <? durable_offset)%N
  then sfail (DCheckpoint (NonMonotonic (dj_confirmed_offset j) durable_offset))
  else
    let corrected := mkJournal durable_offset (dj_expected_size j) (dj_expected_sha256_hex j)
                               (dj_etag j) in
    do! journal_write p corrected then!
    sret corrected.

(** [recover_resume_offset] (library/download.rs:712-736). *)
Definition recover_resume_offset (part : Path) (journal : option DownloadJournal)
    : sm FS DownloadError N :=
  let! actual_len := fs_read (fun fs => durable_len fs part) in
  let claimed := match journal with Some j => dj_confirmed_offset j | None => 0%N end in
  let safe_offset := N.min actual_len claimed in
  if (safe_offset <? actual_len)%N
  then do! fs_try part (fun fs => truncate_file fs part safe_offset) then! sret safe_offset
  else sret safe_offset.

End journal.

(** ** Theorems *)

Local Open Scope list_scope.

Lemma push_suffix_snoc (q : Path) c s : path_push_suffix (q ++ [c]) s = q ++ [(c ++ s)%string].
Proof.
  induction q as [|x q IH]; [done|]. simpl. rewrite IH. by destruct q.
Qed.

Lemma parent_snoc (q : Path) c : path_parent (q ++ [c]) = q.
Proof. induction q as [|x q IH]; [done|]. simpl. rewrite IH. by destruct q. Qed.

Lemma node_at_snoc fs (q : Path) c : node_at fs (q ++ [c]) = fs !! (q ++ [c]).
Proof. by destruct q. Qed.

Lemma part_snoc (q : Path) c : part_path (q ++ [c]) = q ++ [(c ++ ".part")%string].
Proof. apply push_suffix_snoc. Qed.

Lemma journal_snoc (q : Path) c :
  journal_path (q ++ [c]) = q ++ [((c ++ ".part") ++ ".journal")%string].
Proof. unfold journal_path. by rewrite part_snoc, push_suffix_snoc. Qed.

Lemma suffix_ne c s : s <> ""%string -> (c ++ s)%string <> c.
Proof.
  intros Hs He. assert (Hl := f_equal str_len He). rewrite str_len_app in Hl.
  destruct s; [done|]. unfold str_len in Hl. simpl in Hl. lia.
Qed.

Lemma snoc_ne (q : Path) a b : a <> b -> q ++ [a] <> q ++ [b].
Proof. intros Hne H. apply app_inv_head in H. congruence. Qed.

Lemma create_dirs_lookup rest fs fs' done p :
  create_dirs fs done rest = Ok fs' -> length done + length rest < length p ->
  fs' !! p = fs !! p.
Proof.
  revert fs done. induction rest as [|c rest IH]; intros fs d Heq Hlen; simpl in *.
  - congruence.
  - destruct (node_at fs (d ++ [c])) as [[]|]; try done.
    + apply IH in Heq; [done|]. rewrite length_app. simpl. lia.
    + apply IH in Heq; [|rewrite length_app; simpl; lia]. rewrite Heq.
      apply lookup_insert_ne. intros <-. rewrite length_app in Hlen. simpl in Hlen. lia.
Qed.

Lemma create_dirs_existing rest fs done :
  parents_exist fs (done ++ rest ++ ["x"%string]) -> create_dirs fs done rest = Ok fs.
Proof.
  revert done. induction rest as [|c rest IH]; intros d Hp; [done|]. simpl.
  rewrite node_at_snoc, (Hp (d ++ [c]) (rest ++ ["x"%string])); [| |by destruct d|by destruct rest].
  - apply IH. by rewrite <- app_assoc.
  - by rewrite <- app_assoc.
Qed.

Lemma parents_exist_sibling fs (q : Path) a b :
  parents_exist fs (q ++ [a]) -> parents_exist fs (q ++ [b]).
Proof.
  intros H u v Huv Hu Hv. destruct (snoc_prefix_cases u v q b Huv Hv) as [w ->].
  apply (H u (w ++ [a])); [by rewrite <- app_assoc|done|by destruct w].
Qed.

(** What a write at [q/n] does to the entries of directory [q]. *)
Lemma write_file_durably_lookup (q : Path) n bs fs :
  let '(fs', r) := write_file_durably (q ++ [n]) bs fs in
  (forall m, m <> n -> m <> (n ++ ".tmp")%string -> fs' !! (q ++ [m]) = fs !! (q ++ [m])) /\
  (fs' !! (q ++ [n]) = Some (NFile bs) \/ is_ok r = false /\ fs' !! (q ++ [n]) = fs !! (q ++ [n])).
Proof.
  unfold write_file_durably. rewrite push_suffix_snoc, parent_snoc.
  set (t := (n ++ ".tmp")%string).
  assert (Htn : t <> n) by (by apply suffix_ne).
  unfold sbind, fs_try at 1, create_dir_all.
  destruct (create_dirs fs [] q) as [fs1|k] eqn:E1; [|simpl; auto].
  assert (H1 : forall m, fs1 !! (q ++ [m]) = fs !! (q ++ [m])).
  { intros m. eapply create_dirs_lookup; [exact E1|]. rewrite length_app. simpl. lia. }
  unfold fs_try at 1, open_write. rewrite node_at_snoc.
  assert (Hwrite : forall fs2, (forall m, m <> t -> fs2 !! (q ++ [m]) = fs !! (q ++ [m])) ->
    fs2 !! (q ++ [t]) = Some (NFile []) ->
    let '(fs', r) := fs_try (q ++ [n]) (fun fs0 => rename_file fs0 (q ++ [t]) (q ++ [n]))
                        (write_chunk fs2 (q ++ [t]) 0 bs) in
    (forall m, m <> n -> m <> t -> fs' !! (q ++ [m]) = fs !! (q ++ [m])) /\
    (fs' !! (q ++ [n]) = Some (NFile bs) \/
     is_ok r = false /\ fs' !! (q ++ [n]) = fs !! (q ++ [n]))).
  { intros fs2 Hfs2 Ht. unfold write_chunk. rewrite Ht.
    assert (Hw : write_at [] 0 bs = bs) by (unfold write_at; simpl; by rewrite drop_nil, app_nil_r).
    rewrite Hw. unfold fs_try, rename_file. rewrite !node_at_snoc, lookup_insert_eq.
    rewrite lookup_insert_ne by (by apply snoc_ne).
    assert (Hne : forall m, m <> t -> <[q ++ [t]:=NFile bs]> fs2 !! (q ++ [m]) = fs !! (q ++ [m])).
    { intros m Hm. rewrite lookup_insert_ne by (by apply snoc_ne). by apply Hfs2. }
    assert (Hok : forall m, m <> n -> m <> t ->
      <[q ++ [n]:=NFile bs]> (delete (q ++ [t]) (<[q ++ [t]:=NFile bs]> fs2)) !! (q ++ [m])
      = fs !! (q ++ [m])).
    { intros m Hm1 Hm2. rewrite lookup_insert_ne by (by apply snoc_ne).
      rewrite lookup_delete_ne by (by apply snoc_ne). by apply Hne. }
    destruct (fs2 !! (q ++ [n])) as [[]|]; simpl; (split; [auto|]); rewrite ?lookup_insert_eq; auto. }
  destruct (fs1 !! (q ++ [t])) as [[bs0| |o]|] eqn:Et; simpl.
  - apply Hwrite; [|apply lookup_insert_eq]. intros m Hm.
    rewrite lookup_insert_ne by (by apply snoc_ne). apply H1.
  - auto.
  - auto.
  - apply Hwrite; [|apply lookup_insert_eq]. intros m Hm.
    rewrite lookup_insert_ne by (by apply snoc_ne). apply H1.
Qed.

(** When the directory exists and nothing stands in the way, the write
    succeeds and changes just the two names. *)
Lemma write_file_durably_exact (q : Path) n bs fs :
  parents_exist fs (q ++ [n]) -> fs !! (q ++ [n]) <> Some NDir ->
  match fs !! (q ++ [(n ++ ".tmp")%string]) with
  | None | Some (NFile _) => True | _ => False end ->
  write_file_durably (q ++ [n]) bs fs =
  (<[q ++ [n] := NFile bs]> (delete (q ++ [(n ++ ".tmp")%string]) fs), Ok tt).
Proof.
  intros Hp Hn Ht. unfold write_file_durably. rewrite push_suffix_snoc, parent_snoc.
  set (t := (n ++ ".tmp")%string) in *.
  assert (Htn : t <> n) by (by apply suffix_ne).
  unfold sbind, fs_try at 1, create_dir_all.
  rewrite create_dirs_existing by (apply (parents_exist_sibling _ _ n); done).
  assert (Hopen : open_write fs (q ++ [t]) true = Ok (<[q ++ [t] := NFile []]> fs)).
  { unfold open_write. rewrite node_at_snoc. by destruct (fs !! (q ++ [t])) as [[]|]. }
  unfold fs_try at 1. rewrite Hopen. unfold write_chunk. rewrite lookup_insert_eq, insert_insert_eq.
  assert (Hw : write_at [] 0 bs = bs) by (unfold write_at; simpl; by rewrite drop_nil, app_nil_r).
  rewrite Hw. unfold fs_try, rename_file. rewrite !node_at_snoc, lookup_insert_eq.
  rewrite lookup_insert_ne by (by apply snoc_ne).
  rewrite delete_insert_eq. by destruct (fs !! (q ++ [n])) as [[]|].
Qed.

Section checkpoint.
  Context `{JournalCodec}.

(** The partial and its journal, two entries of the directory [q]. *)
Variables (q : Path) (pn jn : string).
Hypothesis names : pn <> jn /\ pn <> (jn ++ ".tmp")%string.

Abbreviation part := (q ++ [pn]).
Abbreviation jpath := (q ++ [jn]).

Definition plen (fs : FS) : N :=
  match durable_len fs part with Ok n => n | Err _ => 0%N end.

(** Entries of the directory other than the journal's own are kept. *)
Definition same_others (fs fs' : FS) : Prop :=
  forall m, m <> jn -> m <> (jn ++ ".tmp")%string -> fs' !! (q ++ [m]) = fs !! (q ++ [m]).

Lemma same_others_part fs fs' : same_others fs fs' -> fs' !! part = fs !! part.
Proof. intros Hs. destruct names. by apply Hs. Qed.

Lemma durable_len_ext fs fs' : fs' !! part = fs !! part -> durable_len fs' part = durable_len fs part.
Proof. intros He. unfold durable_len, file_len. by rewrite !node_at_snoc, He. Qed.

Lemma plen_ext fs fs' : fs' !! part = fs !! part -> plen fs' = plen fs.
Proof. intros He. unfold plen. by rewrite (durable_len_ext fs fs'). Qed.

Lemma journal_read_ext fs fs' :
  fs' !! jpath = fs !! jpath -> journal_read fs' jpath = journal_read fs jpath.
Proof.
  intros He. unfold journal_read, read_to_string, read_file. by rewrite !node_at_snoc, He.
Qed.

Lemma journal_read_encoded fs j :
  journal_fits j -> fs !! jpath = Some (NFile (journal_encode j)) ->
  journal_read fs jpath = Ok (Some j).
Proof.
  intros Hf He. unfold journal_read, read_to_string, read_file. rewrite node_at_snoc, He. simpl.
  by rewrite journal_encode_utf8, journal_decode_encode.
Qed.

(** The journal on disk never claims more bytes than the partial holds. *)
Definition journal_sound (fs : FS) : Prop :=
  forall j, journal_read fs jpath = Ok (Some j) -> (dj_confirmed_offset j <= plen fs)%N.

Lemma journal_write_cases j fs :
  journal_fits j ->
  let '(fs', r) := journal_write jpath j fs in
  same_others fs fs' /\
  (journal_read fs' jpath = Ok (Some j) \/
   is_ok r = false /\ journal_read fs' jpath = journal_read fs jpath).
Proof.
  intros Hf. unfold journal_write.
  generalize (write_file_durably_lookup q jn (journal_encode j) fs).
  destruct (write_file_durably jpath (journal_encode j) fs) as [fs' r].
  intros [Ho [He|[Hr He]]]; (split; [done|]).
  - left. by apply journal_read_encoded.
  - right. split; [done|]. by apply journal_read_ext.
Qed.

Lemma check_advance_ok part' durable recorded proposed :
  check_advance part' durable recorded proposed = Ok tt <->
  (dj_confirmed_offset proposed <= durable)%N /\
  forall r, recorded = Some r ->
    (dj_confirmed_offset r <= dj_confirmed_offset proposed)%N /\
    dj_expected_size r = dj_expected_size proposed /\
    dj_expected_sha256_hex r = dj_expected_sha256_hex proposed /\
    (forall e, dj_etag r = Some e -> dj_etag proposed = Some e).
Proof.
  unfold check_advance. destruct (N.ltb_spec durable (dj_confirmed_offset proposed)).
  { split; [done|]. intros [? _]. lia. }
  destruct recorded as [r|]; [|split; [|done]; intros _; split; [lia|done]].
  destruct (N.ltb_spec (dj_confirmed_offset proposed) (dj_confirmed_offset r)).
  { split; [done|]. intros [_ Hr]. destruct (Hr r eq_refl). lia. }
  destruct (N.eqb_spec (dj_expected_size r) (dj_expected_size proposed)); simpl.
  2:{ split; [done|]. intros [_ Hr]. by destruct (Hr r eq_refl) as (_ & ? & _). }
  destruct (String.eqb_spec (dj_expected_sha256_hex r) (dj_expected_sha256_hex proposed)); simpl.
  2:{ split; [done|]. intros [_ Hr]. by destruct (Hr r eq_refl) as (_ & _ & ? & _). }
  destruct (dj_etag r) as [et|] eqn:Ee.
  - case_bool_decide.
    + split; [|done]. intros _. split; [lia|]. intros r' [= <-]. split_and!; try done.
      intros e' He'. congruence.
    + split; [done|]. intros [_ Hr]. destruct (Hr r eq_refl) as (_ & _ & _ & He). by apply He in Ee.
  - split; [|done]. intros _. split; [lia|]. intros r' [= <-]. split_and!; try done.
    intros e' He'. congruence.
Qed.

Lemma journal_advance_spec proposed fs :
  journal_fits proposed ->
  let '(fs', r) := journal_advance jpath part proposed fs in
  same_others fs fs' /\
  (r = Ok tt ->
     journal_read fs' jpath = Ok (Some proposed) /\
     (dj_confirmed_offset proposed <= plen fs')%N /\
     forall old, journal_read fs jpath = Ok (Some old) ->
       (dj_confirmed_offset old <= dj_confirmed_offset proposed)%N /\
       dj_expected_size old = dj_expected_size proposed /\
       dj_expected_sha256_hex old = dj_expected_sha256_hex proposed /\
       (forall e, dj_etag old = Some e -> dj_etag proposed = Some e)) /\
  (journal_sound fs -> journal_sound fs').
Proof.
  intros Hf. unfold journal_advance, sbind, fs_read at 1, slift at 1.
  destruct (durable_len fs part) as [durable|e] eqn:Ed; [|split_and!; done].
  assert (Hpl : plen fs = durable) by (unfold plen; by rewrite Ed).
  destruct (check_advance part durable None proposed) as [[]|e]; [|split_and!; done]. simpl.
  destruct (journal_read fs jpath) as [recorded|e] eqn:Er; [|split_and!; done].
  unfold slift.
  destruct (check_advance part durable recorded proposed) as [[]|e] eqn:Ec; [|split_and!; done].
  apply check_advance_ok in Ec as [Hdur Hrec]. simpl.
  generalize (journal_write_cases proposed fs Hf).
  destruct (journal_write jpath proposed fs) as [fs' r]. intros [Ho Hcase].
  assert (Hp := plen_ext fs fs' (same_others_part fs fs' Ho)).
  split_and!; [done| |].
  - intros ->. destruct Hcase as [Hj|[? _]]; [|done]. rewrite Hp, Hpl. split_and!; [done|done|].
    intros old [= ->]. by apply Hrec.
  - intros Hs j Hj. rewrite Hp. destruct Hcase as [Hj'|[_ Hj']]; rewrite Hj' in Hj.
    + injection Hj as <-. by rewrite Hpl.
    + by apply Hs.
Qed.


(** The same, as an exact success condition. *)
Lemma journal_advance_ok proposed fs :
  durable_len fs part = Ok (plen fs) -> (dj_confirmed_offset proposed <= plen fs)%N ->
  parents_exist fs jpath ->
  match fs !! (q ++ [(jn ++ ".tmp")%string]) with
  | None | Some (NFile _) => True | _ => False end ->
  (fs !! jpath = None \/
   exists raw, fs !! jpath = Some (NFile raw) /\ utf8_valid raw = true /\
     forall old, journal_decode raw = Some old ->
       (dj_confirmed_offset old <= dj_confirmed_offset proposed)%N /\
       dj_expected_size old = dj_expected_size proposed /\
       dj_expected_sha256_hex old = dj_expected_sha256_hex proposed /\
       (forall e, dj_etag old = Some e -> dj_etag proposed = Some e)) ->
  (journal_advance jpath part proposed fs).2 = Ok tt.
Proof.
  intros Hd Hle Hpar Htmp Hj. unfold journal_advance, sbind, fs_read at 1, slift at 1.
  rewrite Hd.
  assert (Hc0 : check_advance part (plen fs) None proposed = Ok tt)
    by (apply check_advance_ok; split; [done|done]).
  rewrite Hc0. simpl.
  assert (Hread : exists rec, journal_read fs jpath = Ok rec /\
            check_advance part (plen fs) rec proposed = Ok tt).
  { unfold journal_read, read_to_string, read_file. rewrite node_at_snoc.
    destruct Hj as [->|(raw & -> & Hu & Hold)]; simpl; [eauto|]. rewrite Hu.
    eexists. split; [done|]. apply check_advance_ok. split; [done|]. intros r Hr. by apply Hold. }
  destruct Hread as (rec & -> & Hc). unfold slift. rewrite Hc. simpl.
  unfold journal_write. rewrite write_file_durably_exact; [done|done| |done].
  destruct Hj as [->|(raw & -> & _)]; done.
Qed.
End checkpoint.

(** ** A concrete codec

One text format with the two documented properties of [serde_json]'s, so
that the results above can be evaluated: decimal offsets and hexadecimal
strings separated by semicolons. *)
Module DemoCodec.
Local Open Scope string_scope.

Definition hex_of (s : string) : string := to_hex (bytes_of s).

Definition text (j : DownloadJournal) : string :=
  dec (dj_confirmed_offset j) ++ String ";" (dec (dj_expected_size j)
    ++ String ";" (hex_of (dj_expected_sha256_hex j)
    ++ String ";" (match dj_etag j with Some e => String "e" (hex_of e) | None => "" end))).

Definition string_of_hex (s : string) : option string :=
  string_of_list_byte <$> hex_bytes s.

Definition parse (s : string) : option DownloadJournal :=
  '(a, s1) ← split_once ";" s;
  '(b, s2) ← split_once ";" s1;
  '(h, e) ← split_once ";" s2;
  off ← parse_u64 a;
  size ← parse_u64 b;
  sha ← string_of_hex h;
  etag ← match e with
         | EmptyString => Some None
         | String _ e' => Some <$> string_of_hex e'
         end;
  Some (mkJournal off size sha etag).

Definition encode (j : DownloadJournal) : list byte := bytes_of (text j).
Definition decode (bs : list byte) : option DownloadJournal := parse (string_of_list_byte bs).

Definition is_ascii (c : ascii) : bool := (N_of_ascii c <? 128)%N.

Lemma str_all_weaken (p q : ascii -> bool) s :
  (forall c, p c = true -> q c = true) -> str_all p s = true -> str_all q s = true.
Proof.
  intros Hpq. induction s as [|c s IH]; simpl; [done|].
  rewrite !andb_true_iff. intros [? ?]. auto.
Qed.

Lemma byte_in_hi lo hi c : byte_in lo hi c = true -> (hi < 128)%N -> is_ascii c = true.
Proof.
  unfold byte_in, is_ascii. rewrite andb_true_iff, !N.leb_le, N.ltb_lt. lia.
Qed.

Lemma digit_ascii c : is_digit c = true -> is_ascii c = true.
Proof. intros H. by apply (byte_in_hi 48 57). Qed.

Lemma lower_hex_ascii c : is_lower_hex c = true -> is_ascii c = true.
Proof.
  unfold is_lower_hex. rewrite orb_true_iff. intros [H|H]; [by apply digit_ascii|].
  by apply (byte_in_hi 97 102).
Qed.

Lemma ascii_utf8 s : str_all is_ascii s = true -> utf8_valid (bytes_of s) = true.
Proof.
  induction s as [|c s IH]; [done|]. cbn [str_all]. rewrite andb_true_iff. intros [Hc Hs].
  change (bytes_of (String c s)) with (byte_of_ascii c :: bytes_of s). cbn [utf8_valid].
  assert (Hb : Byte.to_N (byte_of_ascii c) = N_of_ascii c).
  { by destruct c as [[] [] [] [] [] [] [] []]. }
  unfold is_ascii in Hc. apply N.ltb_lt in Hc.
  replace (byte_between 0 127 (byte_of_ascii c)) with true; [by apply IH|].
  symmetry. unfold byte_between. rewrite Hb. apply andb_true_iff. rewrite !N.leb_le. lia.
Qed.

Lemma encode_utf8 j : utf8_valid (encode j) = true.
Proof.
  apply ascii_utf8. unfold text, hex_of.
  assert (Hd : forall n, str_all is_ascii (dec n) = true)
    by (intros; eapply str_all_weaken; [apply digit_ascii|apply dec_digits]).
  assert (Hh : forall bs, str_all is_ascii (to_hex bs) = true)
    by (intros; eapply str_all_weaken; [apply lower_hex_ascii|apply to_hex_lower]).
  rewrite str_all_app, Hd. simpl. rewrite str_all_app, Hd. simpl. rewrite str_all_app, Hh. simpl.
  destruct (dj_etag j); [simpl; apply Hh|done].
Qed.

Lemma not_mem_weaken p c s : p c = false -> str_all p s = true -> str_mem c s = false.
Proof.
  intros Hc. unfold str_mem, str_any. rewrite negb_false_iff.
  induction s as [|a s IH]; simpl; [done|].
  rewrite !andb_true_iff. intros [Ha Hs]. split; [|by apply IH].
  apply negb_true_iff, Ascii.eqb_neq. congruence.
Qed.

Lemma string_of_hex_of s : string_of_hex (hex_of s) = Some s.
Proof.
  unfold string_of_hex, hex_of. rewrite hex_bytes_to_hex. simpl. unfold bytes_of.
  by rewrite string_of_list_byte_of_string.
Qed.

Lemma decode_encode j : journal_fits j -> decode (encode j) = Some j.
Proof.
  intros [H1 H2]. unfold decode, encode, bytes_of. rewrite string_of_list_byte_of_string.
  unfold parse, text.
  assert (Hd : forall n, str_mem ";" (dec n) = false)
    by (intros; by eapply digits_not_mem, dec_digits).
  assert (Hh : forall bs, str_mem ";" (to_hex bs) = false)
    by (intros; by eapply (not_mem_weaken is_lower_hex), to_hex_lower).
  rewrite split_once_app by apply Hd. simpl.
  rewrite split_once_app by apply Hd. simpl.
  rewrite split_once_app by apply Hh. simpl.
  rewrite !parse_u64_dec by done. simpl. rewrite string_of_hex_of. simpl.
  destruct j as [a b c [e|]]; simpl; [by rewrite string_of_hex_of|done].
Qed.

Lemma decode_fits bs j : decode bs = Some j -> journal_fits j.
Proof.
  unfold decode, parse. generalize (string_of_list_byte bs). intros s H.
  destruct (split_once ";" s) as [[a s1]|]; simpl in H; [|done].
  destruct (split_once ";" s1) as [[b s2]|]; simpl in H; [|done].
  destruct (split_once ";" s2) as [[h e]|]; simpl in H; [|done].
  destruct (parse_u64 a) as [off|] eqn:Ea; simpl in H; [|done].
  destruct (parse_u64 b) as [size|] eqn:Eb; simpl in H; [|done].
  destruct (string_of_hex h) as [sha|]; simpl in H; [|done].
  destruct (match e with EmptyString => Some None | String _ e' => Some <$> string_of_hex e' end)
    as [etag|]; simpl in H; [|done].
  injection H as <-. split; simpl; by eapply parse_u64_le.
Qed.

#[global] Instance codec : JournalCodec := {|
  journal_encode := encode;
  journal_decode := decode;
  journal_encode_utf8 := encode_utf8;
  journal_decode_encode := decode_encode;
  journal_decode_fits := decode_fits;
|}.
End DemoCodec.

