(* ===== verification/Artifact.v ===== *)
(** * Artifact: the single judge of what is already on disk (library/artifact.rs)

One verdict per expected file, from the committed target, the [.part]
partial and the journal together, and the recovery plan of a whole job. *)

From Stdlib Require Import NArith Lia Ascii String.
From stdpp Require Import base numbers list strings gmap.
From S2P Require Import Prelude Domain Files Journal.

(** [FilePlan] (library/download.rs:951-962). *)
Record FilePlan := mkPlan {
  fp_device_id : string;
  fp_session_id : string;
  fp_file_id : string;
  fp_target_relative_path : option string;
  fp_expected_size : N;
  fp_expected_sha256_hex : string;
}.

(** [ExpectedArtifact] (library/artifact.rs:57-78). *)
Record ExpectedArtifact := mkExpected {
  ea_file_id : string;
  ea_target_relative_path : option string;
  ea_expected_size : N;
  ea_expected_sha256_hex : option string;
}.

(** [ExpectedArtifact::new] (library/artifact.rs:82-95). *)
Definition ExpectedArtifact_new (file_id : string) (rel : option string) (size : N) (sha : string)
    : ExpectedArtifact := mkExpected file_id rel size (Some sha).

(** [ExpectedArtifact::without_digest] (library/artifact.rs:99-111). *)
Definition without_digest (file_id : string) (rel : option string) (size : N)
    : ExpectedArtifact := mkExpected file_id rel size None.

(** [ExpectedArtifact::from] (library/artifact.rs:114-123). *)
Definition expected_of_plan (p : FilePlan) : ExpectedArtifact :=
  mkExpected (fp_file_id p) (fp_target_relative_path p) (fp_expected_size p)
             (Some (fp_expected_sha256_hex p)).

(** [InvalidReason] (library/artifact.rs:128-140): an unreadable file keeps
    the error it is described from. *)
Inductive InvalidReason :=
| InvSizeMismatch (expected actual : N)
| InvDigestMismatch (expected actual : string)
| InvNotARegularFile
| InvUnsafeTargetPath (e : PathSafetyError)
| InvUnreadable (path : Path) (kind : IoKind).

(** [ArtifactStatus] (library/artifact.rs:143-157). *)
Inductive ArtifactStatus :=
| AMissing
| APartial (durable_offset : N)
| AVerified
| AInvalid (reason : InvalidReason).

(** [ArtifactEvidence] (library/artifact.rs:161-168). *)
Record ArtifactEvidence := mkEvidence {
  ae_file_id : string;
  ae_expected_size : N;
  ae_target : option Path;
  ae_status : ArtifactStatus;
}.

#[global] Instance InvalidReason_eq_dec : EqDecision InvalidReason.
Proof. solve_decision. Defined.
#[global] Instance ArtifactStatus_eq_dec : EqDecision ArtifactStatus.
Proof. solve_decision. Defined.
#[global] Instance ArtifactEvidence_eq_dec : EqDecision ArtifactEvidence.
Proof. solve_decision. Defined.

(** [ArtifactEvidence::durable_bytes] (library/artifact.rs:179-186). *)
Definition durable_bytes (e : ArtifactEvidence) : N :=
  match ae_status e with
  | AVerified => ae_expected_size e
  | APartial durable_offset => N.min durable_offset (ae_expected_size e)
  | AMissing | AInvalid _ => 0
  end.

(** [ArtifactEvidence::is_verified] (library/artifact.rs:188-191). *)
Definition is_verified (e : ArtifactEvidence) : bool :=
  match ae_status e with AVerified => true | _ => false end.

(** [ArtifactEvidence::needs_download] (library/artifact.rs:195-198). *)
Definition needs_download (e : ArtifactEvidence) : bool := negb (is_verified e).

(** [RecoveryPlan::reuse] (library/artifact.rs:210-212). *)
Definition plan_reuse (plan : list ArtifactEvidence) : list ArtifactEvidence :=
  List.filter is_verified plan.

(** [RecoveryPlan::redownload] (library/artifact.rs:215-217). *)
Definition plan_redownload (plan : list ArtifactEvidence) : list ArtifactEvidence :=
  List.filter needs_download plan.

(** [RecoveryPlan::durable_bytes] (library/artifact.rs:220-225). *)
Definition plan_durable_bytes (plan : list ArtifactEvidence) : N :=
  fold_left (fun acc e => u64_sat_add acc (durable_bytes e)) plan 0%N.

(** [RecoveryPlan::verified_files] (library/artifact.rs:227-230). *)
Definition plan_verified_files (plan : list ArtifactEvidence) : N :=
  (N.of_nat (length (plan_reuse plan)) mod (u32_max + 1))%N.

(** [RecoveryPlan::total_bytes] (library/artifact.rs:232-237). *)
Definition plan_total_bytes (plan : list ArtifactEvidence) : N :=
  fold_left (fun acc e => u64_sat_add acc (ae_expected_size e)) plan 0%N.

Section inspector.
  Context `{JournalCodec, Sha256}.

(** [sha256_of_file] (library/download.rs:1360-1375). *)
Definition sha256_of_file (fs : FS) (p : Path) : result IoKind string :=
  let? bs := read_file fs p in Ok (to_hex (sha256 bs)).

(** [committed_verdict] (library/artifact.rs:348-380). *)
Definition committed_verdict (fs : FS) (target : Path) (actual_size : N) (e : ExpectedArtifact)
    : ArtifactStatus :=
  if negb (actual_size =? ea_expected_size e)%N
  then AInvalid (InvSizeMismatch (ea_expected_size e) actual_size)
  else match ea_expected_sha256_hex e with
  | None => AVerified
  | Some expected_hex =>
      match sha256_of_file fs target with
      | Ok actual =>
          if String.eqb actual (to_ascii_lowercase expected_hex) then AVerified
          else AInvalid (InvDigestMismatch (to_ascii_lowercase expected_hex) actual)
      | Err k => AInvalid (InvUnreadable target k)
      end
  end.

(** [partial_verdict] (library/artifact.rs:384-399). *)
Definition partial_verdict (fs : FS) (target : Path) (e : ExpectedArtifact) : ArtifactStatus :=
  let part_len := match file_len fs (part_path target) with Ok n => n | Err _ => 0%N end in
  let confirmed := match journal_read fs (journal_path target) with
                   | Ok (Some j) => dj_confirmed_offset j
                   | _ => 0%N
                   end in
  let durable_offset := N.min (N.min part_len confirmed) (ea_expected_size e) in
  if (durable_offset =? 0)%N then AMissing else APartial durable_offset.

(** [ArtifactInspector::judge] (library/artifact.rs:325-344). *)
Definition judge (fs : FS) (target : Path) (e : ExpectedArtifact) : ArtifactStatus :=
  match node_at fs target with
  | Some (NSymlink _) | Some NDir => AInvalid InvNotARegularFile
  | Some (NFile bs) => committed_verdict fs target (blen bs) e
  | None => partial_verdict fs target e
  end.

(** [ArtifactInspector::target_path] (library/artifact.rs:269-278). *)
Definition target_path (device_id session_id : string) (e : ExpectedArtifact) : option Path :=
  match derive_target_path_for_file device_id session_id (ea_file_id e)
          (ea_target_relative_path e) with
  | Ok p => Some p
  | Err _ => None
  end.

(** [ArtifactInspector::inspect] (library/artifact.rs:285-313). *)
Definition inspect (fs : FS) (device_id session_id : string) (e : ExpectedArtifact)
    : ArtifactEvidence :=
  match derive_target_path_for_file device_id session_id (ea_file_id e)
          (ea_target_relative_path e) with
  | Ok target => mkEvidence (ea_file_id e) (ea_expected_size e) (Some target) (judge fs target e)
  | Err error => mkEvidence (ea_file_id e) (ea_expected_size e) None
                            (AInvalid (InvUnsafeTargetPath error))
  end.

(** [ArtifactInspector::plan_recovery] (library/artifact.rs:316-323). *)
Definition plan_recovery (fs : FS) (device_id session_id : string) (files : list ExpectedArtifact)
    : list ArtifactEvidence := inspect fs device_id session_id <$> files.

(** ** Theorems *)

Lemma durable_bytes_le e : (durable_bytes e <= ae_expected_size e)%N.
Proof. unfold durable_bytes. destruct (ae_status e); lia. Qed.

Lemma inspect_spec fs d s e sha :
  ea_expected_sha256_hex e = Some sha ->
  (ae_status (inspect fs d s e) = AVerified <->
   exists target bs,
     derive_target_path_for_file d s (ea_file_id e) (ea_target_relative_path e) = Ok target /\
     fs !! target = Some (NFile bs) /\ blen bs = ea_expected_size e /\
     to_hex (sha256 bs) = to_ascii_lowercase sha) /\
  (forall n, ae_status (inspect fs d s e) = APartial n <->
   (0 < n)%N /\ exists target,
     derive_target_path_for_file d s (ea_file_id e) (ea_target_relative_path e) = Ok target /\
     fs !! target = None /\
     exists len conf,
       len = match file_len fs (part_path target) with Ok l => l | Err _ => 0%N end /\
       conf = match journal_read fs (journal_path target) with
              | Ok (Some j) => dj_confirmed_offset j | _ => 0%N end /\
       n = N.min (N.min len conf) (ea_expected_size e)) /\
  (durable_bytes (inspect fs d s e) <= ea_expected_size e)%N.
Proof.
  intros Hsha. unfold inspect.
  destruct (derive_target_path_for_file d s _ _) as [t|err] eqn:Ed.
  2:{ simpl. split_and!; [split; [done|naive_solver]|intros n; split; [done|naive_solver]|apply N.le_0_l]. }
  assert (Ht : t <> []).
  { apply derive_target_path_spec in Ed as (_ & _ & _ & _ & -> & _). done. }
  simpl. split_and!.
  - unfold judge. rewrite node_at_nonempty by done. split.
    + destruct (fs !! t) as [[bs| |o]|] eqn:Et; try done.
      * unfold committed_verdict. rewrite Hsha.
        destruct (N.eqb_spec (blen bs) (ea_expected_size e)); [|done]. simpl.
        unfold sha256_of_file, read_file. rewrite node_at_nonempty, Et by done. simpl.
        destruct (String.eqb_spec (to_hex (sha256 bs)) (to_ascii_lowercase sha)); [|done].
        intros _. by exists t, bs.
      * unfold partial_verdict. destruct (_ =? 0)%N; done.
    + intros (t' & bs & [= <-] & Et & Hl & Hh). rewrite Et. unfold committed_verdict.
      rewrite Hl, N.eqb_refl, Hsha. simpl. unfold sha256_of_file, read_file.
      rewrite node_at_nonempty, Et by done. simpl. by rewrite Hh, String.eqb_refl.
  - intros n. unfold judge. rewrite node_at_nonempty by done. split.
    + destruct (fs !! t) as [[bs| |o]|] eqn:Et; try done.
      * unfold committed_verdict. rewrite Hsha.
        destruct (negb _); [done|]. destruct (sha256_of_file fs t); [destruct (String.eqb _ _)|]; done.
      * unfold partial_verdict. destruct (N.eqb_spec (N.min (N.min
          match file_len fs (part_path t) with Ok l => l | Err _ => 0%N end
          match journal_read fs (journal_path t) with
          | Ok (Some j) => dj_confirmed_offset j | _ => 0%N end) (ea_expected_size e)) 0) as [|Hne];
          [done|].
        intros [= <-]. split; [lia|]. exists t. eauto 10.
    + intros (Hpos & t' & [= <-] & Et & len & conf & -> & -> & ->). rewrite Et.
      unfold partial_verdict. destruct (N.eqb_spec (N.min (N.min
          match file_len fs (part_path t) with Ok l => l | Err _ => 0%N end
          match journal_read fs (journal_path t) with
          | Ok (Some j) => dj_confirmed_offset j | _ => 0%N end) (ea_expected_size e)) 0); [lia|done].
  - etrans; [apply durable_bytes_le|]. done.
Qed.

(** a file with a known digest is judged verified exactly when a
    regular file of the expected size and the expected SHA-256 sits at the
    derived target; and it is judged partial exactly when nothing sits there
    and the smallest of the partial's length, the journal's confirmed offset
    and the expected size is positive, which is then the reported offset, so
    the judge never credits more than the file's expected size. *)
Theorem inspect_verdicts fs d s e sha :
  ea_expected_sha256_hex e = Some sha ->
  (ae_status (inspect fs d s e) = AVerified <->
   exists target bs,
     derive_target_path_for_file d s (ea_file_id e) (ea_target_relative_path e) = Ok target /\
     fs !! target = Some (NFile bs) /\ blen bs = ea_expected_size e /\
     to_hex (sha256 bs) = to_ascii_lowercase sha) /\
  (forall n, ae_status (inspect fs d s e) = APartial n <->
   (0 < n)%N /\ exists target,
     derive_target_path_for_file d s (ea_file_id e) (ea_target_relative_path e) = Ok target /\
     fs !! target = None /\
     exists len conf,
       len = match file_len fs (part_path target) with Ok l => l | Err _ => 0%N end /\
       conf = match journal_read fs (journal_path target) with
              | Ok (Some j) => dj_confirmed_offset j | _ => 0%N end /\
       n = N.min (N.min len conf) (ea_expected_size e)) /\
  (durable_bytes (inspect fs d s e) <= ea_expected_size e)%N.
Proof. apply inspect_spec. Qed.

End inspector.

Lemma inspect_verdicts_witness :
  let e := mkExpected "f1" (Some "left.mp4"%string) 3
             (Some (to_hex (DemoSha.digest [Byte.x01; Byte.x02; Byte.x03]))) in
  let fs := <[["dev-1"; "s-1"; "left.mp4.part"]%string := NFile [Byte.x01]]>
            (<[["dev-1"; "s-1"; "left.mp4"]%string := NFile [Byte.x01; Byte.x02; Byte.x03]]> ∅) in
  ae_status (@inspect DemoCodec.codec DemoSha.sha fs "dev-1" "s-1" e) = AVerified.
Proof.
  intros e fs.
  apply (proj1 (@inspect_verdicts DemoCodec.codec DemoSha.sha fs "dev-1" "s-1" e _ eq_refl)).
  exists ["dev-1"; "s-1"; "left.mp4"]%string, [Byte.x01; Byte.x02; Byte.x03].
  split_and!; vm_compute; reflexivity.
Defined.
