(* ===== verification/Progress.v ===== *)
(** * Progress: byte-level job progress (transfer/progress.rs)

The tracker's atomics are read and written one at a time: every public
operation of the single worker is a short program of atomic actions, and
a snapshot may fall between any two of them. *)

From Stdlib Require Import NArith Lia String.
From stdpp Require Import base numbers list strings gmap.
From S2P Require Import Prelude Domain Files Journal Artifact.

(** [JobProgress] (transfer/progress.rs:83-96). *)
Record JobProgress := mkProgress {
  pr_total_bytes : N;
  pr_transferred_bytes : N;
  pr_files_total : N;
  pr_files_done : N;
}.

#[global] Instance JobProgress_eq_dec : EqDecision JobProgress.
Proof. solve_decision. Defined.

(** [JobProgressTracker] (transfer/progress.rs:102-114). *)
Record JobProgressTracker := mkTracker {
  tr_total_bytes : N;
  tr_files_total : N;
  tr_completed_bytes : N;
  tr_files_done : N;
  tr_current_file_bytes : N;
  tr_peak_transferred : N;
}.

(** [DiskBaseline] (transfer/progress.rs:222-229). *)
Record DiskBaseline := mkBaseline {
  db_completed_bytes : N;
  db_files_done : N;
  db_partial_bytes : N;
}.

(** [JobProgressTracker::new] (transfer/progress.rs:119-128). *)
Definition tracker_new (total_bytes files_total : N) : JobProgressTracker :=
  mkTracker total_bytes files_total 0 0 0 0.

(** [JobProgressTracker::with_baseline] (transfer/progress.rs:137-150). *)
Definition with_baseline (total_bytes files_total : N) (b : DiskBaseline) : JobProgressTracker :=
  mkTracker total_bytes files_total (db_completed_bytes b) (db_files_done b) 0
    (N.min (u64_add (db_completed_bytes b) (db_partial_bytes b)) total_bytes).

(** [DiskBaseline::from_evidence, step] (transfer/progress.rs:249-263). *)
Definition baseline_step (b : DiskBaseline) (item : ArtifactEvidence) : DiskBaseline :=
  match ae_status item with
  | AVerified => mkBaseline (u64_sat_add (db_completed_bytes b) (durable_bytes item))
                            (u32_add (db_files_done b) 1) (db_partial_bytes b)
  | APartial _ => mkBaseline (db_completed_bytes b) (db_files_done b)
                             (u64_sat_add (db_partial_bytes b) (durable_bytes item))
  | AMissing | AInvalid _ => b
  end.

(** [DiskBaseline::from_evidence] (transfer/progress.rs:244-265). *)
Definition from_evidence (evidence : list ArtifactEvidence) : DiskBaseline :=
  fold_left baseline_step evidence (mkBaseline 0 0 0).

(** [DiskBaseline::durable_bytes] (transfer/progress.rs:268-271). *)
Definition baseline_durable_bytes (b : DiskBaseline) : N :=
  u64_sat_add (db_completed_bytes b) (db_partial_bytes b).

(** [JobProgressTracker::from_evidence_source] (transfer/progress.rs:160-171). *)
Definition from_evidence_source (evidence : list ArtifactEvidence) : JobProgressTracker :=
  let total_bytes := fold_left (fun acc e => u64_sat_add acc (ae_expected_size e)) evidence 0%N in
  let files_total := (N.of_nat (length evidence) mod (u32_max + 1))%N in
  with_baseline total_bytes files_total (from_evidence evidence).

(** ** Atomic actions *)

Inductive Atomic :=
| StoreCurrent (offset : N)
| AddCompleted (n : N)
| IncFilesDone
| BumpPeak.

(** [JobProgressTracker::raw_transferred] (transfer/progress.rs:193-198). *)
Definition raw_transferred (t : JobProgressTracker) : N :=
  N.min (u64_sat_add (tr_completed_bytes t) (tr_current_file_bytes t)) (tr_total_bytes t).

(** [JobProgressTracker::bump_peak] (transfer/progress.rs:200-203). *)
Definition bump_peak (t : JobProgressTracker) : JobProgressTracker :=
  mkTracker (tr_total_bytes t) (tr_files_total t) (tr_completed_bytes t) (tr_files_done t)
    (tr_current_file_bytes t) (N.max (tr_peak_transferred t) (raw_transferred t)).

Definition atomic (t : JobProgressTracker) (a : Atomic) : JobProgressTracker :=
  match a with
  | StoreCurrent offset =>
      mkTracker (tr_total_bytes t) (tr_files_total t) (tr_completed_bytes t) (tr_files_done t)
        offset (tr_peak_transferred t)
  | AddCompleted n =>
      mkTracker (tr_total_bytes t) (tr_files_total t) (u64_add (tr_completed_bytes t) n)
        (tr_files_done t) (tr_current_file_bytes t) (tr_peak_transferred t)
  | IncFilesDone =>
      mkTracker (tr_total_bytes t) (tr_files_total t) (tr_completed_bytes t)
        (u32_add (tr_files_done t) 1) (tr_current_file_bytes t) (tr_peak_transferred t)
  | BumpPeak => bump_peak t
  end.

Definition run_atomics (t : JobProgressTracker) (l : list Atomic) : JobProgressTracker :=
  fold_left atomic l t.

(** [JobProgressTracker::set_current_file_offset] (transfer/progress.rs:176-179). *)
Definition set_current_file_offset (offset : N) : list Atomic := [StoreCurrent offset; BumpPeak].

(** [JobProgressTracker::file_completed] (transfer/progress.rs:185-191). *)
Definition file_completed (expected_size : N) : list Atomic :=
  [StoreCurrent 0; AddCompleted expected_size; IncFilesDone; BumpPeak].

(** [JobProgressTracker::snapshot] (transfer/progress.rs:207-217). *)
Definition snapshot (t : JobProgressTracker) : JobProgress :=
  mkProgress (tr_total_bytes t) (N.max (tr_peak_transferred t) (raw_transferred t))
    (tr_files_total t) (N.min (tr_files_done t) (tr_files_total t)).

(** What the worker does to one job's tracker. *)
Inductive ProgressOp :=
| OpOffset (offset : N)
| OpFileDone (expected_size : N).

Definition op_program (o : ProgressOp) : list Atomic :=
  match o with
  | OpOffset offset => set_current_file_offset offset
  | OpFileDone size => file_completed size
  end.

Definition worker_program (ops : list ProgressOp) : list Atomic := mjoin (op_program <$> ops).

Definition completed_by (ops : list ProgressOp) : N :=
  foldr (fun o acc => match o with OpFileDone n => n + acc | _ => acc end)%N 0%N ops.

(** ** Theorems *)

Definition observed (t : JobProgressTracker) : N := pr_transferred_bytes (snapshot t).

(** Between two operations of the worker the peak is up to date. *)
Definition settled (t : JobProgressTracker) : Prop :=
  (raw_transferred t <= tr_peak_transferred t)%N /\
  (tr_peak_transferred t <= tr_total_bytes t)%N.

Lemma run_atomics_app t l k : run_atomics t (l ++ k) = run_atomics (run_atomics t l) k.
Proof. unfold run_atomics. apply fold_left_app. Qed.

Lemma observed_settled t : settled t -> observed t = tr_peak_transferred t.
Proof. intros [H _]. unfold observed, snapshot; simpl. lia. Qed.

(** Along one operation the observed value never falls, at any point. *)
Lemma op_monotone t o pre suf :
  settled t -> (tr_completed_bytes t + completed_by [o] <= u64_max)%N ->
  op_program o = pre ++ suf ->
  (observed t <= observed (run_atomics t pre))%N /\
  (observed (run_atomics t pre) <= observed (run_atomics t (op_program o)))%N /\
  settled (run_atomics t (op_program o)) /\
  tr_completed_bytes (run_atomics t (op_program o)) = (tr_completed_bytes t + completed_by [o])%N.
Proof.
  intros Hs Hfit Hsplit. rewrite (observed_settled t Hs). destruct t as [T F c d cur p].
  unfold settled, raw_transferred, u64_sat_add in Hs; simpl in *.
  destruct o as [off|n]; simpl in *; rewrite N.add_0_r in *;
    [|assert (Hadd := u64_add_small c n Hfit)];
    repeat (destruct pre as [|? pre]; simpl in Hsplit; [clear Hsplit|first [discriminate Hsplit|injection Hsplit as <- Hsplit]]);
    unfold settled, observed, snapshot, run_atomics, bump_peak, raw_transferred, u64_sat_add; simpl;
    unfold bump_peak, raw_transferred, u64_sat_add; simpl;
    rewrite ?Hadd; lia.
Qed.

Lemma program_monotone ops t pre suf :
  settled t -> (tr_completed_bytes t + completed_by ops <= u64_max)%N ->
  worker_program ops = pre ++ suf ->
  (observed t <= observed (run_atomics t pre))%N /\
  (observed (run_atomics t pre) <= observed (run_atomics t (worker_program ops)))%N /\
  settled (run_atomics t (worker_program ops)) /\
  tr_completed_bytes (run_atomics t (worker_program ops))
  = (tr_completed_bytes t + completed_by ops)%N.
Proof.
  revert t pre suf. induction ops as [|o ops IH]; intros t pre suf Hs Hfit Hsplit.
  - destruct pre; [|done]. simpl. rewrite N.add_0_r. repeat split; try lia; apply Hs.
  - assert (Hc1 : completed_by [o] = match o with OpFileDone n => n | _ => 0%N end)
      by (destruct o; simpl; lia).
    assert (Hc : completed_by (o :: ops) = (completed_by [o] + completed_by ops)%N)
      by (rewrite Hc1; destruct o; simpl; lia).
    rewrite Hc in Hfit.
    change (worker_program (o :: ops)) with (op_program o ++ worker_program ops) in *.
    destruct (op_monotone t o [] (op_program o) Hs ltac:(lia) eq_refl) as (H1 & H2 & H3 & H4).
    assert (Hfit' : (tr_completed_bytes (run_atomics t (op_program o)) + completed_by ops <= u64_max)%N)
      by lia.
    rewrite run_atomics_app.
    apply app_eq_inv in Hsplit as [(k & Hpre & Hsuf)|(k & Hpre & Hsuf)].
    + (* the snapshot falls inside the first operation *)
      destruct (op_monotone t o pre k Hs ltac:(lia) Hpre) as (G1 & G2 & _).
      destruct (IH (run_atomics t (op_program o)) [] _ H3 Hfit' eq_refl) as (I1 & I2 & I3 & I4).
      change (run_atomics (run_atomics t (op_program o)) []) with (run_atomics t (op_program o)) in *.
      repeat split; [done| lia |apply I3|apply I3|lia].
    + subst pre. rewrite run_atomics_app.
      destruct (IH (run_atomics t (op_program o)) k _ H3 Hfit' Hsuf) as (I1 & I2 & I3 & I4).
      change (run_atomics t []) with t in *.
      repeat split; [lia|done|apply I3|apply I3|lia].
Qed.

(** A job's evidence whose sizes fit the counters. *)
Definition evidence_fits (ev : list ArtifactEvidence) : Prop :=
  (foldr (fun e acc => ae_expected_size e + acc) 0 ev <= u64_max)%N /\
  (N.of_nat (length ev) <= u32_max)%N.

Definition sum_sizes (ev : list ArtifactEvidence) : N :=
  foldr (fun e acc => ae_expected_size e + acc)%N 0%N ev.
Definition sum_durable (p : ArtifactEvidence -> bool) (ev : list ArtifactEvidence) : N :=
  foldr (fun e acc => (if p e then durable_bytes e else 0) + acc)%N 0%N ev.

Definition is_partial (e : ArtifactEvidence) : bool :=
  match ae_status e with APartial _ => true | _ => false end.

Lemma sum_durable_le ev :
  (sum_durable is_verified ev + sum_durable is_partial ev <= sum_sizes ev)%N.
Proof.
  induction ev as [|e ev IH]; simpl; [lia|]. assert (Hd := durable_bytes_le e).
  unfold is_verified, is_partial in *. destruct (ae_status e); lia.
Qed.

Lemma fold_sizes ev acc :
  (acc + sum_sizes ev <= u64_max)%N ->
  fold_left (fun acc e => u64_sat_add acc (ae_expected_size e)) ev acc = (acc + sum_sizes ev)%N.
Proof.
  revert acc. induction ev as [|e ev IH]; intros acc H; simpl in *; [lia|].
  rewrite u64_sat_add_small by lia. rewrite IH; lia.
Qed.

Lemma fold_baseline ev b :
  (db_completed_bytes b + sum_sizes ev <= u64_max)%N ->
  (db_partial_bytes b + sum_sizes ev <= u64_max)%N ->
  (db_files_done b + N.of_nat (length ev) <= u32_max)%N ->
  fold_left baseline_step ev b =
  mkBaseline (db_completed_bytes b + sum_durable is_verified ev)
             (db_files_done b + N.of_nat (length (plan_reuse ev)))
             (db_partial_bytes b + sum_durable is_partial ev).
Proof.
  revert b. induction ev as [|e ev IH]; intros b Hc Hp Hf; simpl in *.
  - destruct b; simpl. f_equal; lia.
  - assert (Hd := durable_bytes_le e). unfold plan_reuse in *; simpl.
    rewrite IH; unfold baseline_step, is_verified, is_partial, u64_sat_add in *;
      destruct (ae_status e) eqn:Es; simpl in *; unfold u32_add, u32_max in *;
      rewrite ?N.mod_small by lia; try lia; f_equal; lia.
Qed.

(** A job's reported progress starts at the bytes its disk
    evidence proves, never falls and never exceeds the job's total, at every
    instant a snapshot can be taken: between any two atomic actions of any
    sequence of offset reports and file completions. The two snapshots compared
    are taken after [pre] and after the whole program. *)
Theorem progress_monotone_from_disk ev ops pre suf :
  evidence_fits ev ->
  (sum_sizes ev + completed_by ops <= u64_max)%N ->
  worker_program ops = pre ++ suf ->
  let t0 := from_evidence_source ev in
  pr_transferred_bytes (snapshot t0) =
    (sum_durable is_verified ev + sum_durable is_partial ev)%N /\
  (pr_transferred_bytes (snapshot t0) <= pr_transferred_bytes (snapshot (run_atomics t0 pre)) /\
   pr_transferred_bytes (snapshot (run_atomics t0 pre))
     <= pr_transferred_bytes (snapshot (run_atomics t0 (worker_program ops))) /\
   pr_transferred_bytes (snapshot (run_atomics t0 (worker_program ops)))
     <= pr_total_bytes (snapshot t0))%N.
Proof.
  intros [Hsz Hlen] Hfit Hsplit t0. change (sum_sizes ev <= u64_max)%N in Hsz.
  assert (Hle := sum_durable_le ev).
  assert (Ht0 : t0 = mkTracker (sum_sizes ev) (N.of_nat (length ev)) (sum_durable is_verified ev)
                       (N.of_nat (length (plan_reuse ev))) 0
                       (sum_durable is_verified ev + sum_durable is_partial ev)).
  { unfold t0, from_evidence_source, from_evidence, with_baseline.
    rewrite fold_sizes, fold_baseline by (simpl; lia). simpl.
    unfold u32_max in *. rewrite u64_add_small, N.mod_small by lia. f_equal. lia. }
  assert (Hs : settled t0).
  { rewrite Ht0. unfold settled, raw_transferred, u64_sat_add; simpl. lia. }
  assert (Hobs := observed_settled t0 Hs).
  destruct (program_monotone ops t0 pre suf Hs) as (H1 & H2 & H3 & _); [|done|].
  { rewrite Ht0. simpl. lia. }
  assert (Htot : tr_total_bytes (run_atomics t0 (worker_program ops)) = tr_total_bytes t0).
  { clear. generalize (worker_program ops) t0. intros l. induction l as [|a l IH]; [done|].
    intros t. change (run_atomics t (a :: l)) with (run_atomics (atomic t a) l).
    rewrite IH. by destruct a. }
  unfold observed in *. split; [rewrite Hobs, Ht0; done|].
  split; [done|]. split; [done|]. rewrite (observed_settled _ H3 : pr_transferred_bytes _ = _).
  destruct H3 as [_ H3]. rewrite Htot in H3. simpl. done.
Qed.

Definition demo_evidence : list ArtifactEvidence :=
  [mkEvidence "f1" 100 None AVerified; mkEvidence "f2" 50 None (APartial 20);
   mkEvidence "f3" 7 None AMissing].

Lemma progress_monotone_from_disk_witness :
  pr_transferred_bytes (snapshot (from_evidence_source demo_evidence)) = 120%N /\
  (120 <= pr_transferred_bytes (snapshot (run_atomics (from_evidence_source demo_evidence)
            [StoreCurrent 10])))%N.
Proof.
  destruct (progress_monotone_from_disk demo_evidence [OpOffset 10; OpFileDone 50]
              [StoreCurrent 10] [BumpPeak; StoreCurrent 0; AddCompleted 50; IncFilesDone; BumpPeak])
    as (H1 & H2 & _).
  - split; vm_compute; discriminate.
  - vm_compute. discriminate.
  - reflexivity.
  - split; [exact H1|]. etrans; [|exact H2]. by rewrite H1.
Defined.
