(* ===== verification/Download.v ===== *)
(** * Download: one file, end to end (library/download.rs, sections 4 and 6)

Range responses, the body writer with its checkpoints, and
[download_file].  The remote end is an interface, [DownloadSource]: a
stateful [fetch_range] whose response body is the list of results its
successive reads give (an empty chunk or the end of the list is end of
file).  The state is the filesystem together with the source's own. *)

From Stdlib Require Import NArith Lia Ascii String.
From stdpp Require Import base numbers list strings gmap.
From S2P Require Import Prelude Domain Files Journal Artifact.

Local Open Scope string_scope.

(** ** Range responses *)

(** [RequestedRange] (library/download.rs:745-749). *)
Record RequestedRange := mkRange {
  rr_start : N;
  rr_if_match_etag : option string;
}.

Abbreviation Body := (list (result string (list byte))).

(** [SourceResponse] (library/download.rs:767-775). *)
Record SourceResponse := mkResponse {
  sr_status : N;
  sr_etag : option string;
  sr_content_range : option string;
  sr_content_length : option N;
  sr_body : Body;
}.

(** [RangeOutcome] (library/download.rs:778-795). *)
Inductive RangeOutcome :=
| RoPartial (start end_inclusive total : N)
| RoFullFromZero (total : option N)
| RoNotSatisfiable (total : option N)
| RoPreconditionFailed.

(** [parse_content_range_header] (library/download.rs:845-861). *)
Definition parse_content_range_header (header : string) : result DownloadError (N * N * N) :=
  let malformed := DMalformedContentRange header in
  let? rest := ok_or (strip_prefix "bytes " header) malformed in
  let? (range_part, total_part) := ok_or (split_once "/" rest) malformed in
  if String.eqb total_part "*" then Err malformed else
  let? total := ok_or (parse_u64 total_part) malformed in
  let? (start_s, end_s) := ok_or (split_once "-" range_part) malformed in
  let? start := ok_or (parse_u64 start_s) malformed in
  let? end_ := ok_or (parse_u64 end_s) malformed in
  if ((end_ <? start) || (total <=? end_))%N then Err malformed
  else Ok (start, end_, total).

(** [parse_unsatisfiable_total] (library/download.rs:867-869). *)
Definition parse_unsatisfiable_total (header : string) : option N :=
  strip_prefix "bytes */" header ≫= parse_u64.

(** [interpret_range_response] (library/download.rs:801-837). *)
Definition interpret_range_response (status : N) (content_range : option string)
    (content_length : option N) (requested_start : N) : result DownloadError RangeOutcome :=
  if (status =? 206)%N then
    let? header := ok_or content_range
        (DMalformedContentRange "206 response is missing a Content-Range header") in
    let? (start, end_, total) := parse_content_range_header header in
    if negb (start =? requested_start)%N then Err (DRangeMismatch requested_start start)
    else Ok (RoPartial start end_ total)
  else if (status =? 200)%N then Ok (RoFullFromZero content_length)
  else if (status =? 416)%N then Ok (RoNotSatisfiable (content_range ≫= parse_unsatisfiable_total))
  else if (status =? 412)%N then Ok RoPreconditionFailed
  else Err (DUnexpectedStatus status).

(** ** Orchestration *)

(** [MAX_ETAG_RESTART_ATTEMPTS] (library/download.rs:128-128). *)
Definition MAX_ETAG_RESTART_ATTEMPTS : nat := 3.
(** [JOURNAL_CHECKPOINT_INTERVAL] (library/download.rs:122-122). *)
Definition JOURNAL_CHECKPOINT_INTERVAL : N := 262144.

(** [VerifiedFile] (library/download.rs:966-975). *)
Record VerifiedFile := mkVerified {
  vf_device_id : string;
  vf_session_id : string;
  vf_file_id : string;
  vf_path : Path;
  vf_size_bytes : N;
  vf_sha256_hex : string;
  vf_etag : option string;
}.

#[global] Instance VerifiedFile_eq_dec : EqDecision VerifiedFile.
Proof. solve_decision. Defined.

(** [validate_plan] (library/download.rs:977-985). *)
Definition validate_plan (p : FilePlan) : result DownloadError unit :=
  let hex := fp_expected_sha256_hex p in
  if negb (str_len hex =? 64)%N || negb (str_all is_hexdigit hex)
  then Err (DInvalidPlan hex) else Ok tt.

(** [expected_etag_for_resume] (library/download.rs:990-998). *)
Definition expected_etag_for_resume (resume_offset : N) (journal : option DownloadJournal)
    : option string :=
  if (resume_offset =? 0)%N then None else journal ≫= dj_etag.

(** [DownloadSource] (library/download.rs:762-764). *)
Class DownloadSource (S : Type) :=
  fetch_range : RequestedRange -> S -> S * result DownloadError SourceResponse.

(** A filesystem action in a state that also carries the source. *)
Definition on_fs {S A : Type} (c : sm FS DownloadError A) : sm (FS * S) DownloadError A :=
  fun st => let '(fs', r) := c st.1 in ((fs', st.2), r).

Definition on_source {S A : Type} (c : S -> S * result DownloadError A) : sm (FS * S) DownloadError A :=
  fun st => let '(s', r) := c st.2 in ((st.1, s'), r).

Section download.
  Context `{JournalCodec, Sha256, Lowercase}.

(** The journal a response's bytes are recorded under. *)
Definition checkpoint_of (plan_size : N) (sha : string) (etag : option string) (offset : N)
    : DownloadJournal := mkJournal offset plan_size sha etag.

(** [write_response_body, read loop] (library/download.rs:1308-1353). *)
Fixpoint body_loop (part jpath : Path) (start_offset : N) (expected_len : option N)
    (expected_size : N) (sha : string) (etag : option string)
    (written since_checkpoint : N) (body : Body) : sm FS DownloadError N :=
  let finish :=
    match expected_len with
    | Some limit => if negb (written =? limit)%N then sfail (DShortBody limit written)
                    else sret written
    | None => sret written
    end in
  match body with
  | [] | Ok [] :: _ => finish
  | Err message :: _ => sfail (DSourceIo message)
  | Ok chunk :: body' =>
      do! (fun fs => (write_chunk fs part (start_offset + written) chunk, Ok tt)) then!
      let written' := u64_add written (blen chunk) in
      let since' := u64_add since_checkpoint (blen chunk) in
      if match expected_len with Some limit => (limit <? written')%N | None => false end
      then sfail DUnexpectedExtraBytes
      else if (JOURNAL_CHECKPOINT_INTERVAL <=? since')%N
      then
        do! journal_advance jpath part
              (checkpoint_of expected_size sha etag (u64_add start_offset written')) then!
        body_loop part jpath start_offset expected_len expected_size sha etag written' 0 body'
      else
        body_loop part jpath start_offset expected_len expected_size sha etag written' since' body'
  end.

(** [write_response_body] (library/download.rs:1283-1353). *)
Definition write_response_body (part jpath : Path) (start_offset : N) (body : Body)
    (expected_len : option N) (expected_size : N) (sha : string) (etag : option string)
    : sm FS DownloadError N :=
  do! fs_try part (fun fs => open_write fs part (start_offset =? 0)%N) then!
  body_loop part jpath start_offset expected_len expected_size sha etag 0 0 body.

Section with_source.
  Context {S : Type} `{DownloadSource S}.

(** [download_file, outcome of one attempt] (library/download.rs:1113-1223):
    [restart] is the [continue] after the partial was discarded. *)
Definition handle_outcome (plan : FilePlan) (part jpath : Path)
    (journal_opt : option DownloadJournal) (resume_offset : N) (response : SourceResponse)
    (outcome : RangeOutcome) (restart : sm (FS * S) DownloadError (option string))
    : sm (FS * S) DownloadError (option string) :=
  let record offset :=
    journal_advance jpath part
      (checkpoint_of (fp_expected_size plan) (fp_expected_sha256_hex plan) (sr_etag response)
                     offset) in
  match outcome with
  | RoPreconditionFailed =>
      do! on_fs (discard_partial part jpath) then! restart
  | RoNotSatisfiable _ =>
      if (resume_offset =? 0)%N then sfail DRangeNotSatisfiable
      else
        let! actual_len := on_fs (fs_read (fun fs => durable_len fs part)) in
        if negb (actual_len =? fp_expected_size plan)%N
        then do! on_fs (discard_partial part jpath) then! sfail DRangeNotSatisfiable
        else sret (journal_opt ≫= dj_etag)
  | RoFullFromZero total =>
      do! on_fs (discard_partial part jpath) then!
      let! written := on_fs (write_response_body part jpath 0 (sr_body response) total
                               (fp_expected_size plan) (fp_expected_sha256_hex plan)
                               (sr_etag response)) in
      do! on_fs (record written) then!
      sret (sr_etag response)
  | RoPartial start end_inclusive _ =>
      if match expected_etag_for_resume resume_offset journal_opt with
         | Some prev_etag => negb (bool_decide (sr_etag response = Some prev_etag))
         | None => false
         end
      then do! on_fs (discard_partial part jpath) then! restart
      else
        let expected_chunk_len := u64_add (end_inclusive - start) 1 in
        let! written := on_fs (write_response_body part jpath start (sr_body response)
                                 (Some expected_chunk_len) (fp_expected_size plan)
                                 (fp_expected_sha256_hex plan) (sr_etag response)) in
        do! on_fs (record (u64_add start written)) then!
        sret (sr_etag response)
  end.

(** [download_file, attempt loop] (library/download.rs:1095-1224): [attempts]
    is how many of the allowed attempts remain. *)
Fixpoint download_loop (plan : FilePlan) (part jpath : Path) (attempts : nat)
    (journal_opt : option DownloadJournal) (resume_offset : N)
    : sm (FS * S) DownloadError (option string) :=
  match attempts with
  | O => sfail DTooManyRestarts
  | Datatypes.S attempts' =>
      let if_match := expected_etag_for_resume resume_offset journal_opt in
      let! response := on_source (fetch_range (mkRange resume_offset if_match)) in
      let! outcome := slift (interpret_range_response (sr_status response)
                               (sr_content_range response) (sr_content_length response)
                               resume_offset) in
      handle_outcome plan part jpath journal_opt resume_offset response outcome
        (download_loop plan part jpath attempts' None 0)
  end.

(** [download_file, verification and commit] (library/download.rs:1226-1271). *)
Definition verify_and_commit (plan : FilePlan) (target part jpath : Path)
    (final_etag : option string) : sm FS DownloadError VerifiedFile :=
  let! len := fs_read (fun fs => dio part (file_len fs part)) in
  if negb (len =? fp_expected_size plan)%N
  then do! discard_partial part jpath then! sfail (DSizeMismatch (fp_expected_size plan) len)
  else
    let! actual_hash := fs_read (fun fs => dio part (sha256_of_file fs part)) in
    let expected_hash := to_ascii_lowercase (fp_expected_sha256_hex plan) in
    if negb (String.eqb actual_hash expected_hash)
    then do! discard_partial part jpath then! sfail (DHashMismatch expected_hash actual_hash)
    else
      do! fs_try part (fun fs => open_write fs part false) then!
      do! fs_try target (fun fs => rename_file fs part target) then!
      do! signore (fs_try jpath (fun fs => remove_file fs jpath)) then!
      sret (mkVerified (fp_device_id plan) (fp_session_id plan) (fp_file_id plan) target len
                       actual_hash final_etag).

(** [download_file, existing evidence] (library/download.rs:1052-1079). *)
Definition existing_evidence (plan : FilePlan) (target part jpath : Path)
    : sm FS DownloadError (option VerifiedFile) :=
  fun fs =>
    match ae_status (inspect fs (fp_device_id plan) (fp_session_id plan) (expected_of_plan plan)) with
    | AVerified =>
        (do! signore (discard_partial part jpath) then!
         sret (Some (mkVerified (fp_device_id plan) (fp_session_id plan) (fp_file_id plan) target
                       (fp_expected_size plan)
                       (to_ascii_lowercase (fp_expected_sha256_hex plan)) None))) fs
    | AInvalid _ =>
        (do! slift (rmap_err DPathSafety (reject_symlink fs target)) then!
         do! remove_if_present [target] then!
         sret None) fs
    | AMissing | APartial _ => (fs, Ok None)
    end.

(** [download_file, resume point] (library/download.rs:1081-1091). *)
Definition resume_point (part jpath : Path)
    : sm FS DownloadError (option DownloadJournal * N) :=
  let! journal_opt := fs_read (fun fs => journal_read fs jpath) in
  let! resume_offset := recover_resume_offset part journal_opt in
  match journal_opt with
  | Some journal =>
      if (resume_offset <? dj_confirmed_offset journal)%N
      then let! corrected := journal_reset_to jpath journal resume_offset in
           sret (Some corrected, resume_offset)
      else sret (journal_opt, resume_offset)
  | None => sret (None, resume_offset)
  end.

Definition of_prepare (e : PrepareError) : DownloadError :=
  match e with PrUnsafe s => DPathSafety s | PrIo p k => DIo p k end.

(** [download_file, target checks] (library/download.rs:1012-1035). *)
Definition prepare_download (plan : FilePlan) : sm FS DownloadError Path :=
  do! slift (validate_plan plan) then!
  let! target := slift (rmap_err DPathSafety
                   (derive_target_path_for_file (fp_device_id plan) (fp_session_id plan)
                      (fp_file_id plan) (fp_target_relative_path plan))) in
  do! (fun fs => let '(fs', r) := prepare_target_parent fs target in (fs', rmap_err of_prepare r)) then!
  let part := part_path target in
  do! fs_read (fun fs => rmap_err DPathSafety
        (check_case_insensitive_collision fs (path_parent target) (path_file_name part))) then!
  do! fs_read (fun fs => rmap_err DPathSafety (reject_symlink fs part)) then!
  sret target.

(** [download_file] (library/download.rs:1007-1272). *)
Definition download_file (plan : FilePlan) : sm (FS * S) DownloadError VerifiedFile :=
  let! target := on_fs (prepare_download plan) in
  let part := part_path target in
  let jpath := journal_path target in
  let! already := on_fs (existing_evidence plan target part jpath) in
  match already with
  | Some verified => sret verified
  | None =>
      let! (journal_opt, resume_offset) := on_fs (resume_point part jpath) in
      let! final_etag := download_loop plan part jpath MAX_ETAG_RESTART_ATTEMPTS journal_opt
                                       resume_offset in
      on_fs (verify_and_commit plan target part jpath final_etag)
  end.

End with_source.
End download.

(** ** Theorems: range headers *)

Lemma digit_str_not_mem c n : is_digit c = false -> str_mem c (dec n) = false.
Proof. intros Hc. by eapply digits_not_mem, dec_digits. Qed.

Lemma dec_not_star n : String.eqb (dec n) "*" = false.
Proof.
  apply String.eqb_neq. intros He. assert (Hd := dec_digits n). by rewrite He in Hd.
Qed.

Lemma str_mem_app c s t : str_mem c (s ++ t) = str_mem c s || str_mem c t.
Proof. unfold str_mem, str_any. by rewrite str_all_app, negb_andb. Qed.

Definition content_range_text (start end_ total : N) : string :=
  "bytes " ++ ((dec start ++ String "-" (dec end_)) ++ String "/" (dec total)).

Lemma content_range_spec :
  (forall header start end_ total,
     parse_content_range_header header = Ok (start, end_, total) ->
     (start <= end_ /\ end_ < total /\ total <= u64_max /\
      u64_add (end_ - start) 1 = end_ - start + 1)%N) /\
  (forall start end_ total, (start <= end_ /\ end_ < total /\ total <= u64_max)%N ->
     parse_content_range_header (content_range_text start end_ total) = Ok (start, end_, total)).
Proof.
  split.
  - intros header s e t. unfold parse_content_range_header.
    intros (rest & _ & H)%rbind_ok. apply rbind_ok in H as ([rp tp] & _ & H).
    destruct (String.eqb tp "*"); [done|].
    apply rbind_ok in H as (total & Ht%ok_or_ok & H). apply rbind_ok in H as ([ss es] & _ & H).
    apply rbind_ok in H as (start & Hs%ok_or_ok & H). apply rbind_ok in H as (en & He%ok_or_ok & H).
    apply parse_u64_le in Ht, Hs, He.
    destruct (N.ltb_spec en start); [done|]. destruct (N.leb_spec total en); [done|].
    injection H as <- <- <-. split_and!; try done. rewrite u64_add_small; lia.
  - intros s e t (Hse & Het & Ht). unfold parse_content_range_header, content_range_text.
    replace (strip_prefix "bytes " _) with (Some ((dec s ++ String "-" (dec e)) ++ String "/" (dec t)))
      by (symmetry; by apply strip_prefix_Some).
    cbn [ok_or rbind]. rewrite split_once_app.
    2:{ rewrite str_mem_app, digit_str_not_mem by done.
        change (String "-" (dec e)) with ("-" ++ dec e). rewrite str_mem_app.
        by rewrite digit_str_not_mem. }
    cbn [ok_or rbind]. rewrite dec_not_star, parse_u64_dec by done. cbn [ok_or rbind].
    rewrite split_once_app by (by apply digit_str_not_mem). cbn [ok_or rbind].
    rewrite !parse_u64_dec by lia. cbn [ok_or rbind].
    destruct (N.ltb_spec e s); [lia|]. by destruct (N.leb_spec t e); [lia|].
Qed.

(** What the parser accepts is a sound range, and what a server
    prints is accepted: a parsed header has start <= end < total within 64
    bits, so the chunk length end - start + 1 cannot wrap; and the header
    printed for any such triple parses back to it. *)
Theorem content_range_parse :
  (forall header start end_ total,
     parse_content_range_header header = Ok (start, end_, total) ->
     (start <= end_ /\ end_ < total /\ total <= u64_max /\
      u64_add (end_ - start) 1 = end_ - start + 1)%N) /\
  (forall start end_ total, (start <= end_ /\ end_ < total /\ total <= u64_max)%N ->
     parse_content_range_header (content_range_text start end_ total) = Ok (start, end_, total)).
Proof. apply content_range_spec. Qed.

(** One attempt of the loop. *)
Lemma download_loop_step `{JournalCodec} {S : Type} `{DownloadSource S} plan part jpath n jo off fs (s s1 : S)
    resp outcome :
  fetch_range (mkRange off (expected_etag_for_resume off jo)) s = (s1, Ok resp) ->
  interpret_range_response (sr_status resp) (sr_content_range resp) (sr_content_length resp) off
  = Ok outcome ->
  download_loop plan part jpath (Datatypes.S n) jo off (fs, s) =
  handle_outcome plan part jpath jo off resp outcome (download_loop plan part jpath n None 0) (fs, s1).
Proof.
  intros Hf Hi. cbn [download_loop]. unfold sbind, on_source, slift. simpl. by rewrite Hf, Hi.
Qed.

Lemma sbind_on_fs {S A B : Type} (k : sm FS DownloadError A) (f : A -> sm (FS * S) DownloadError B)
    fs fs' (s : S) a :
  k fs = (fs', Ok a) -> sbind (on_fs k) f (fs, s) = f a (fs', s).
Proof. intros Hk. unfold sbind, on_fs. simpl. by rewrite Hk. Qed.

(** The stray plus sign the integer parser lets through. *)
Example content_range_plus_accepted :
  parse_content_range_header "bytes +0-+4/+5" = Ok (0, 4, 5)%N.
Proof. reflexivity. Qed.

(** ** Theorems: what a download may change *)

Local Open Scope list_scope.

Lemma only_new_dirs_sibling fs fs' (q : Path) c m :
  only_new_dirs fs fs' (q ++ [c]) -> fs' !! (q ++ [m]) = fs !! (q ++ [m]).
Proof.
  intros Ho. destruct (Ho (q ++ [m])) as [He|(_ & _ & r & Hr & Hne)]; [done|].
  exfalso. apply (f_equal length) in Hr. rewrite !length_app in Hr. simpl in Hr.
  destruct r; [done|]. simpl in Hr. lia.
Qed.

Lemma write_at_length content off chunk :
  length content <= length (write_at content off chunk).
Proof.
  unfold write_at. rewrite !length_app, length_take, length_replicate, length_drop. lia.
Qed.

Section directory.
  Context `{JournalCodec, Sha256}.
  Variables (q : Path) (c : string).

Abbreviation pn := (c ++ ".part")%string.
Abbreviation jn := ((c ++ ".part") ++ ".journal")%string.
Abbreviation part := (q ++ [pn]).
Abbreviation jpath := (q ++ [jn]).

Lemma names_distinct : pn <> jn /\ pn <> (jn ++ ".tmp")%string.
Proof.
  split; intros He; apply (f_equal str_len) in He; rewrite !str_len_app in He;
    unfold str_len in He; simpl in He; lia.
Qed.

(** Entries of the directory other than the partial's, the journal's and
    its temporary file's are untouched. *)
Definition frame (fs fs' : FS) : Prop :=
  forall m, m <> pn -> m <> jn -> m <> (jn ++ ".tmp")%string ->
            fs' !! (q ++ [m]) = fs !! (q ++ [m]).

Abbreviation jsound := (journal_sound q pn jn).

Definition good (fs fs' : FS) : Prop := frame fs fs' /\ (jsound fs -> jsound fs').

Definition keeps {A : Type} (k : sm FS DownloadError A) : Prop := forall fs, good fs (k fs).1.

Lemma good_refl fs : good fs fs.
Proof. by split. Qed.

Lemma good_trans fs1 fs2 fs3 : good fs1 fs2 -> good fs2 fs3 -> good fs1 fs3.
Proof.
  intros [F1 J1] [F2 J2]. split; [|auto]. intros m Hm1 Hm2 Hm3. by rewrite F2, F1.
Qed.

Lemma keeps_bind {A B : Type} (k : sm FS DownloadError A) (f : A -> sm FS DownloadError B) :
  keeps k -> (forall a, keeps (f a)) -> keeps (sbind k f).
Proof.
  intros Hk Hf fs. unfold sbind. generalize (Hk fs).
  destruct (k fs) as [fs1 [a|e]]; simpl; intros Hg; [|done].
  by eapply good_trans, Hf.
Qed.

Lemma keeps_ret {A : Type} (a : A) : keeps (sret a).
Proof. intros fs. apply good_refl. Qed.
Lemma keeps_fail {A : Type} e : keeps (sfail (A := A) e).
Proof. intros fs. apply good_refl. Qed.
Lemma keeps_lift {A : Type} (r : result DownloadError A) : keeps (slift r).
Proof. intros fs. apply good_refl. Qed.
Lemma keeps_read {A : Type} (f : FS -> result DownloadError A) : keeps (fs_read f).
Proof. intros fs. apply good_refl. Qed.
Lemma keeps_ignore {A : Type} (k : sm FS DownloadError A) : keeps k -> keeps (signore k).
Proof. intros Hk fs. apply Hk. Qed.

(** A change of the partial alone that does not shorten it. *)
Lemma good_part fs n :
  (plen q pn fs <= plen q pn (<[part := n]> fs))%N -> good fs (<[part := n]> fs).
Proof.
  intros Hlen. destruct names_distinct as [Hn _]. split.
  - intros m Hm _ _. by rewrite lookup_insert_ne by (apply snoc_ne; congruence).
  - intros Hs j Hj. etrans; [|exact Hlen]. apply Hs. rewrite <- Hj. symmetry.
    apply journal_read_ext. by rewrite lookup_insert_ne by (by apply snoc_ne).
Qed.

Lemma plen_insert fs bs : plen q pn (<[part := NFile bs]> fs) = blen bs.
Proof. unfold plen, durable_len, file_len. by rewrite node_at_snoc, lookup_insert_eq. Qed.

Lemma plen_file fs bs : fs !! part = Some (NFile bs) -> plen q pn fs = blen bs.
Proof. intros He. unfold plen, durable_len, file_len. by rewrite node_at_snoc, He. Qed.

Lemma keeps_chunk off chunk :
  keeps (fun fs => (write_chunk fs part off chunk, Ok tt)).
Proof.
  intros fs. simpl. unfold write_chunk.
  destruct (fs !! part) as [[bs| |o]|] eqn:Ep; try apply good_refl.
  apply good_part. rewrite (plen_file fs bs), plen_insert by done. unfold blen.
  generalize (write_at_length bs off chunk). lia.
Qed.

Lemma keeps_advance proposed :
  journal_fits proposed -> keeps (journal_advance jpath part proposed).
Proof.
  intros Hf fs. generalize (journal_advance_spec q pn jn names_distinct proposed fs Hf).
  destruct (journal_advance jpath part proposed fs) as [fs' r]. intros (Hs & _ & Hj).
  split; [|done]. intros m _ Hm1 Hm2. by apply Hs.
Qed.

(** Discarding leaves no journal behind when it succeeds. *)
Lemma discard_spec fs :
  let '(fs', r) := discard_partial part jpath fs in
  good fs fs' /\ (r = Ok tt -> fs' !! part = None /\ fs' !! jpath = None).
Proof.
  destruct names_distinct as [Hn _]. assert (Hne := snoc_ne q _ _ Hn).
  unfold discard_partial. simpl. unfold sbind, sret, remove_file. rewrite node_at_snoc.
  assert (Hj : forall fs1, frame fs fs1 -> fs1 !! part = None -> fs1 !! jpath = fs !! jpath ->
    let '(fs', r) :=
      match
        match match node_at fs1 jpath with
              | Some NDir => Err IoIsADirectory
              | Some _ => Ok (delete jpath fs1)
              | None => Err IoNotFound
              end with
        | Ok fs' => (fs', Ok tt)
        | Err IoNotFound => (fs1, Ok tt)
        | Err k => (fs1, Err (DIo jpath k))
        end with
      | (s', Ok _) => (s', Ok tt)
      | (s', Err e) => (s', Err e)
      end in
    good fs fs' /\ (r = Ok tt -> fs' !! part = None /\ fs' !! jpath = None)).
  { intros fs1 Hf Hp Hje. rewrite node_at_snoc.
    assert (Hdel : good fs (delete jpath fs1) /\
                   delete jpath fs1 !! part = None /\ delete jpath fs1 !! jpath = None).
    { split_and!; [split| |apply lookup_delete_eq].
      - intros m H1 H2 H3. rewrite lookup_delete_ne by (apply snoc_ne; congruence). by apply Hf.
      - intros _ j Hj. unfold journal_read, read_to_string, read_file in Hj.
        by rewrite node_at_snoc, lookup_delete_eq in Hj.
      - by rewrite lookup_delete_ne by congruence. }
    destruct Hdel as (Hg & Hd1 & Hd2).
    destruct (fs1 !! jpath) as [[bs| |o]|] eqn:Ej; try done.
    - split; [|done]. split; [done|]. intros _ j Hjr. exfalso.
      unfold journal_read, read_to_string, read_file in Hjr.
      by rewrite node_at_snoc, Ej in Hjr.
    - split; [|done]. split; [done|]. intros _ j Hjr. exfalso.
      unfold journal_read, read_to_string, read_file in Hjr.
      by rewrite node_at_snoc, Ej in Hjr. }
  assert (Hfdel : frame fs (delete part fs)).
  { intros m H1 _ _. by rewrite lookup_delete_ne by (apply snoc_ne; congruence). }
  destruct (fs !! part) as [[bs| |o]|] eqn:Ep; simpl.
  - apply (Hj (delete part fs)); [done|apply lookup_delete_eq|]. by rewrite lookup_delete_ne.
  - split; [apply good_refl|done].
  - apply (Hj (delete part fs)); [done|apply lookup_delete_eq|]. by rewrite lookup_delete_ne.
  - apply (Hj fs); done.
Qed.

Lemma keeps_discard : keeps (discard_partial part jpath).
Proof.
  intros fs. generalize (discard_spec fs). destruct (discard_partial part jpath fs).
  by intros [? _].
Qed.

Lemma keeps_body_loop start elen size sha etag written since body :
  (size <= u64_max)%N ->
  keeps (body_loop part jpath start elen size sha etag written since body).
Proof.
  intros Hsize. revert written since. induction body as [|rd body IH]; intros written since; simpl.
  - destruct elen; [destruct (negb _)|]; (apply keeps_fail || apply keeps_ret).
  - destruct rd as [[|b chunk]|message].
    + destruct elen; [destruct (negb _)|]; (apply keeps_fail || apply keeps_ret).
    + apply keeps_bind; [apply keeps_chunk|]. intros _.
      destruct (match elen with Some _ => _ | None => _ end); [apply keeps_fail|].
      destruct (_ <=? _)%N; [|apply IH].
      apply keeps_bind; [|intros; apply IH]. apply keeps_advance.
      split; simpl; [apply u64_add_le|done].
    + apply keeps_fail.
Qed.

Lemma write_body_bounded p jp start body elen size sha etag fs w :
  (write_response_body p jp start body elen size sha etag fs).2 = Ok w -> (w <= u64_max)%N.
Proof.
  unfold write_response_body, sbind. destruct (fs_try p _ fs) as [fs1 [u|e]]; [|done].
  assert (forall body written since fs0, (written <= u64_max)%N ->
    (body_loop p jp start elen size sha etag written since body fs0).2 = Ok w -> (w <= u64_max)%N)
    as Hloop; [|by apply Hloop].
  clear. intros body. induction body as [|rd body IH]; intros written since fs0 Hw; simpl.
  - destruct elen; [destruct (negb _)|]; simpl; congruence.
  - destruct rd as [[|b chunk]|message]; [|unfold sbind; simpl|done].
    + destruct elen; [destruct (negb _)|]; simpl; congruence.
    + destruct (match elen with Some _ => _ | None => _ end); [done|].
      destruct (_ <=? _)%N; [|apply IH, u64_add_le].
      destruct (journal_advance _ _ _ _) as [fs2 [v|e]]; [|done]. apply IH, u64_add_le.
Qed.

Lemma interpret_partial_start status cr cl off start en tot :
  interpret_range_response status cr cl off = Ok (RoPartial start en tot) -> start = off.
Proof.
  unfold interpret_range_response. destruct (status =? 206)%N.
  - intros (h & _ & Hp)%rbind_ok. apply rbind_ok in Hp as ([[s e] t] & _ & Hp).
    destruct (N.eqb_spec s off); simpl in Hp; [|done]. congruence.
  - repeat (destruct (_ =? _)%N; [done|]). done.
Qed.

(** The journal's claim is at most [n]. *)
Definition claim_le (n : N) (fs : FS) : Prop :=
  forall j, journal_read fs jpath = Ok (Some j) -> (dj_confirmed_offset j <= n)%N.

Lemma good_open start fs :
  claim_le start fs ->
  good fs (fs_try part (fun fs => open_write fs part (start =? 0)%N) fs).1.
Proof.
  intros Hc. unfold fs_try, open_write. rewrite node_at_snoc.
  destruct names_distinct as [Hn _].
  assert (Hread : forall n, journal_read (<[part := n]> fs) jpath = journal_read fs jpath).
  { intros n. apply journal_read_ext. by rewrite lookup_insert_ne by (by apply snoc_ne). }
  assert (Hframe : forall n, frame fs (<[part := n]> fs)).
  { intros n m Hm _ _. by rewrite lookup_insert_ne by (apply snoc_ne; congruence). }
  destruct (fs !! part) as [[bs| |o]|] eqn:Ep; simpl; try apply good_refl.
  - destruct (N.eqb_spec start 0) as [->|]; simpl; [|apply good_refl].
    split; [done|]. intros _ j Hj. rewrite Hread in Hj. apply Hc in Hj. lia.
  - split; [done|]. intros Hs j Hj. rewrite Hread in Hj. apply Hs in Hj.
    unfold plen, durable_len, file_len in Hj. rewrite node_at_snoc, Ep in Hj. simpl in Hj. lia.
Qed.

Lemma good_write_body start body elen size sha etag fs :
  (size <= u64_max)%N -> claim_le start fs ->
  good fs (write_response_body part jpath start body elen size sha etag fs).1.
Proof.
  intros Hsize Hc. unfold write_response_body, sbind.
  generalize (good_open start fs Hc).
  destruct (fs_try part _ fs) as [fs1 [u|e]]; simpl; intros Hg; [|done].
  eapply good_trans; [exact Hg|]. by apply keeps_body_loop.
Qed.

Section loop.
  Context {S : Type} `{DownloadSource S}.

Lemma good_on_fs {A : Type} (k : sm FS DownloadError A) fs (s : S) :
  ((on_fs k) (fs, s)) = (((k fs).1, s), (k fs).2).
Proof. unfold on_fs. simpl. by destruct (k fs). Qed.

Definition goodl {A : Type} (k : sm (FS * S) DownloadError A) (P : FS -> Prop) : Prop :=
  forall fs s, P fs -> good fs (k (fs, s)).1.1.

Lemma goodl_bind_fs {A B : Type} (k : sm FS DownloadError A)
    (f : A -> sm (FS * S) DownloadError B) (P : FS -> Prop) (Q : A -> FS -> Prop) :
  (forall fs, P fs -> good fs (k fs).1 /\ forall a, (k fs).2 = Ok a -> Q a (k fs).1) ->
  (forall a, goodl (f a) (Q a)) -> goodl (sbind (on_fs k) f) P.
Proof.
  intros Hk Hf fs s HP. unfold sbind. rewrite good_on_fs.
  destruct (Hk fs HP) as [Hg Ha]. destruct (k fs) as [fs1 [a|e]]; simpl in *; [|done].
  eapply good_trans; [exact Hg|]. apply Hf. by apply Ha.
Qed.

Lemma goodl_trivial {A : Type} (r : result DownloadError A) (P : FS -> Prop) :
  goodl (fun st => (st, r)) P.
Proof. intros fs s _. apply good_refl. Qed.

Lemma download_loop_good plan attempts jopt off :
  (fp_expected_size plan <= u64_max)%N ->
  goodl (download_loop plan part jpath attempts jopt off) (claim_le off).
Proof.
  intros Hsize. revert jopt off. induction attempts as [|n IH]; intros jopt off; simpl.
  { apply goodl_trivial. }
  intros fs s Hc. unfold sbind at 1, on_source. simpl.
  destruct (fetch_range _ s) as [s1 [resp|e]]; simpl; [|apply good_refl].
  unfold sbind at 1, slift.
  destruct (interpret_range_response _ _ _ _) as [outcome|e] eqn:Eo; simpl; [|apply good_refl].
  assert (Hrestart : goodl (sbind (on_fs (discard_partial part jpath)) (fun _ : unit =>
             download_loop plan part jpath n None 0)) (claim_le off)).
  { eapply goodl_bind_fs with (Q := fun _ => claim_le 0); [|intros _; apply IH].
    intros fs0 _. generalize (discard_spec fs0).
    destruct (discard_partial part jpath fs0) as [fs1 r]. intros [Hg Hnone]. split; [done|].
    simpl. intros [] ->. destruct (Hnone eq_refl) as [_ Hj]. intros j Hjr.
    unfold journal_read, read_to_string, read_file in Hjr.
    by rewrite node_at_snoc, Hj in Hjr. }
  assert (Hrecord : forall o, (o <= u64_max)%N -> forall r : option string, forall Q,
    goodl (sbind (on_fs (journal_advance jpath part (checkpoint_of (fp_expected_size plan)
             (fp_expected_sha256_hex plan) (sr_etag resp) o))) (fun _ : unit => sret r)) Q).
  { intros o Ho r Q. eapply goodl_bind_fs with (Q := fun _ _ => True); [|intros; apply goodl_trivial].
    intros fs0 _. split; [|done]. by apply keeps_advance. }
  unfold handle_outcome. destruct outcome as [start en tot|total|tot|].
  - assert (start = off) as -> by (by eapply interpret_partial_start).
    destruct (match expected_etag_for_resume off jopt with Some _ => _ | None => _ end);
      [by apply Hrestart|].
    apply (goodl_bind_fs _ _ (claim_le off) (fun _ _ => True)); [|intros a; apply Hrecord, u64_add_le|done].
    intros fs0 Hc0. split; [|done]. by apply good_write_body.
  - apply (goodl_bind_fs _ _ (fun _ => True) (fun _ => claim_le 0)); [| |done].
    + intros fs0 _. generalize (discard_spec fs0).
      destruct (discard_partial part jpath fs0) as [fs1 r]. intros [Hg Hnone]. split; [done|].
      simpl. intros [] ->. destruct (Hnone eq_refl) as [_ Hj]. intros j Hjr.
      unfold journal_read, read_to_string, read_file in Hjr.
      by rewrite node_at_snoc, Hj in Hjr.
    + intros _. intros fs0 s0 Hc0. unfold sbind at 1. rewrite good_on_fs.
      assert (Hg := good_write_body 0 (sr_body resp) total (fp_expected_size plan)
                      (fp_expected_sha256_hex plan) (sr_etag resp) fs0 Hsize Hc0).
      assert (Hw := write_body_bounded part jpath 0 (sr_body resp) total (fp_expected_size plan)
                      (fp_expected_sha256_hex plan) (sr_etag resp) fs0).
      destruct (write_response_body _ _ _ _ _ _ _ _ fs0) as [fs1 [w|e]]; simpl in *; [|done].
      eapply good_trans; [exact Hg|]. apply (Hrecord w (Hw w eq_refl) _ (fun _ => True)). done.
  - destruct (off =? 0)%N; [apply good_refl|].
    apply (goodl_bind_fs _ _ (fun _ => True) (fun _ _ => True)); [|intros len|done].
    + intros fs0 _. split; [apply keeps_read|done].
    + destruct (negb _); [|apply goodl_trivial].
      eapply goodl_bind_fs with (Q := fun _ _ => True); [|intros; apply goodl_trivial].
      intros fs0 _. split; [apply keeps_discard|done].
  - by apply Hrestart.
Qed.
End loop.

(** *** The resume point *)

Definition claimed (fs : FS) : N :=
  match journal_read fs jpath with Ok (Some j) => dj_confirmed_offset j | _ => 0%N end.

Lemma journal_read_fits fs j : journal_read fs jpath = Ok (Some j) -> journal_fits j.
Proof.
  unfold journal_read. destruct (read_to_string fs jpath) as [raw|[]]; try done.
  intros [= Hd]. by eapply journal_decode_fits.
Qed.

(** The partial after recovery: cut to the trusted offset. *)
Lemma recover_spec fs jo :
  journal_read fs jpath = Ok jo ->
  let '(fs', r) := recover_resume_offset part jo fs in
  frame fs fs' /\ fs' !! jpath = fs !! jpath /\ (jsound fs -> jsound fs') /\
  forall off, r = Ok off ->
    off = N.min (plen q pn fs) (claimed fs) /\ plen q pn fs' = off /\
    (fs !! part = None -> fs' !! part = None) /\
    (forall bs, fs !! part = Some (NFile bs) ->
                fs' !! part = Some (NFile (take (N.to_nat off) bs))).
Proof.
  intros Hj. destruct names_distinct as [Hn _].
  unfold recover_resume_offset, sbind, fs_read.
  destruct (durable_len fs part) as [len|e] eqn:El; [|by split_and!].
  assert (Hpl : plen q pn fs = len) by (unfold plen; by rewrite El).
  assert (Hcl : claimed fs = match jo with Some j => dj_confirmed_offset j | None => 0%N end)
    by (unfold claimed; rewrite Hj; by destruct jo).
  rewrite <- Hcl. destruct (N.ltb_spec (N.min len (claimed fs)) len) as [Hlt|Hge].
  - unfold fs_try, truncate_file. rewrite node_at_snoc.
    destruct (fs !! part) as [[bs| |o]|] eqn:Ep; try (by split_and!).
    unfold durable_len, file_len in El. rewrite node_at_snoc, Ep in El. injection El as El.
    assert (Hnj : <[part:=NFile (take (N.to_nat (N.min len (claimed fs))) bs)]> fs !! jpath
                  = fs !! jpath) by (by rewrite lookup_insert_ne by (by apply snoc_ne)).
    assert (Htl : blen (take (N.to_nat (N.min len (claimed fs))) bs) = N.min len (claimed fs)).
    { unfold blen in *. rewrite length_take. lia. }
    cbn. split_and!.
    + intros m Hm _ _. by rewrite lookup_insert_ne by (apply snoc_ne; congruence).
    + exact Hnj.
    + intros _ j Hjr. rewrite (journal_read_ext q jn fs) in Hjr by done.
      rewrite plen_insert, Htl. unfold claimed in *. rewrite Hjr in Hlt |- *. lia.
    + intros off [= <-]. rewrite plen_insert, Hpl, Htl, lookup_insert_eq. split_and!; try done.
      intros bs' [= <-]. done.
  - cbn. split_and!; [done|done|done|]. intros off [= <-].
    split_and!; [by rewrite Hpl|rewrite Hpl; lia|done|].
    intros bs Ep. rewrite Ep. unfold durable_len, file_len in El.
    rewrite node_at_snoc, Ep in El. injection El as El. rewrite take_ge; [done|].
    unfold blen in El. lia.
Qed.

Lemma resume_point_spec fs :
  let '(fs', r) := resume_point part jpath fs in
  good fs fs' /\
  forall jo off, r = Ok (jo, off) ->
    off = N.min (plen q pn fs) (claimed fs) /\ plen q pn fs' = off /\
    journal_read fs' jpath = Ok jo /\ claim_le off fs' /\ jsound fs' /\
    (fs !! part = None -> fs' !! part = None) /\
    (forall bs, fs !! part = Some (NFile bs) ->
                fs' !! part = Some (NFile (take (N.to_nat off) bs))).
Proof.
  unfold resume_point, sbind at 1, fs_read at 1.
  destruct (journal_read fs jpath) as [jo|e] eqn:Ej; [|split; [apply good_refl|done]].
  unfold sbind at 1. generalize (recover_spec fs jo Ej).
  destruct (recover_resume_offset part jo fs) as [fs1 [off|e]]; intros (Hf & Hje & Hs & Hoff).
  2:{ by split; [split|]. }
  destruct (Hoff off eq_refl) as (Ho & Hp & Hnone & Htake).
  assert (Hr1 : journal_read fs1 jpath = Ok jo) by (by rewrite (journal_read_ext q jn fs)).
  assert (Hcl : claimed fs = match jo with Some j => dj_confirmed_offset j | None => 0%N end)
    by (unfold claimed; rewrite Ej; by destruct jo).
  assert (Hdone : forall jo', jo = jo' ->
            (forall j, jo' = Some j -> (dj_confirmed_offset j <= off)%N) ->
            good fs fs1 /\
            forall jo0 off0, Ok (E := DownloadError) (jo', off) = Ok (jo0, off0) ->
              off0 = N.min (plen q pn fs) (claimed fs) /\ plen q pn fs1 = off0 /\
              journal_read fs1 jpath = Ok jo0 /\ claim_le off0 fs1 /\ jsound fs1 /\
              (fs !! part = None -> fs1 !! part = None) /\
              (forall bs, fs !! part = Some (NFile bs) ->
                          fs1 !! part = Some (NFile (take (N.to_nat off0) bs)))).
  { intros jo' <- Hle. split; [by split|]. intros jo0 off0 [= <- <-].
    split_and!; try done.
    - intros j Hjr. apply Hle. congruence.
    - intros j Hjr. rewrite Hp. apply Hle. congruence. }
  destruct jo as [j|]; [|by apply Hdone].
  destruct (N.ltb_spec off (dj_confirmed_offset j)) as [Hlt|Hge].
  2:{ apply Hdone; [done|]. by intros j' [= <-]. }
  unfold journal_reset_to. destruct (N.ltb_spec (dj_confirmed_offset j) off); [lia|].
  set (cj := mkJournal off (dj_expected_size j) (dj_expected_sha256_hex j) (dj_etag j)).
  assert (Hfit : journal_fits cj).
  { apply journal_read_fits in Ej as [H1' H2']. split; simpl; [lia|done]. }
  unfold sbind at 1. generalize (journal_write_cases q jn cj fs1 Hfit). unfold sbind at 1.
  destruct (journal_write jpath cj fs1) as [fs2 [u|e]]; intros [Hso Hc].
  - destruct Hc as [Hc|[Hbad _]]; [|done].
    assert (Hpart := same_others_part q pn jn names_distinct fs1 fs2 Hso).
    assert (Hpl2 := plen_ext q pn fs1 fs2 Hpart).
    assert (Hsnd : jsound fs2).
    { intros j' Hj'. rewrite Hc in Hj'. injection Hj' as <-. rewrite Hpl2, Hp. simpl. lia. }
    cbn. split.
    + split; [|done]. intros m Hm1 Hm2 Hm3. rewrite Hso by done. by apply Hf.
    + intros jo0 off0 [= <- <-]. rewrite Hpl2, Hpart. split_and!; try done.
      intros j' Hj'. rewrite Hc in Hj'. injection Hj' as <-. simpl. lia.
  - cbn. split; [|done]. destruct Hc as [Hc|[_ Hc]].
    + assert (Hpart := same_others_part q pn jn names_distinct fs1 fs2 Hso). split.
      * intros m Hm1 Hm2 Hm3. rewrite Hso by done. by apply Hf.
      * intros _ j' Hj'. rewrite Hc in Hj'. injection Hj' as <-.
        rewrite (plen_ext q pn fs1 fs2 Hpart), Hp. simpl. lia.
    + split; [intros m Hm1 Hm2 Hm3; rewrite Hso by done; by apply Hf|].
      intros Hs0 j' Hj'. rewrite Hc in Hj'.
      rewrite (plen_ext q pn fs1 fs2) by (by apply (same_others_part q pn jn names_distinct)).
      by apply (Hs Hs0).
Qed.

(** *** Verification and commit *)

Abbreviation target := (q ++ [c]).

Lemma target_distinct : c <> pn /\ c <> jn /\ c <> (jn ++ ".tmp")%string.
Proof.
  split_and!; intros He; apply (f_equal str_len) in He; rewrite !str_len_app in He;
    unfold str_len in He; simpl in He; lia.
Qed.

(** A file of the planned size and digest. *)
Definition matches_plan (plan : FilePlan) (bs : list byte) : Prop :=
  blen bs = fp_expected_size plan /\
  to_hex (sha256 bs) = to_ascii_lowercase (fp_expected_sha256_hex plan).

Definition verified_of (plan : FilePlan) (etag : option string) : VerifiedFile :=
  mkVerified (fp_device_id plan) (fp_session_id plan) (fp_file_id plan) target
    (fp_expected_size plan) (to_ascii_lowercase (fp_expected_sha256_hex plan)) etag.

Lemma no_journal_sound fs :
  fs !! jpath = None \/ fs !! jpath = Some NDir -> jsound fs.
Proof.
  intros Hj j Hr. unfold journal_read, read_to_string, read_file in Hr.
  rewrite node_at_snoc in Hr. by destruct Hj as [Hj|Hj]; rewrite Hj in Hr.
Qed.

Lemma verify_and_commit_spec plan etag fs :
  let '(fs', r) := verify_and_commit plan target part jpath etag fs in
  match r with
  | Ok vf => vf = verified_of plan etag /\ fs' !! part = None /\ jsound fs' /\
             exists bs, fs !! part = Some (NFile bs) /\ fs' !! target = Some (NFile bs) /\
                        matches_plan plan bs
  | Err _ => fs' !! target = fs !! target /\ (jsound fs -> jsound fs')
  end.
Proof.
  destruct names_distinct as [Hpj _]. destruct target_distinct as (Htp & Htj & Htt).
  unfold verify_and_commit, sbind at 1, fs_read at 1, dio at 1.
  destruct (file_len fs part) as [len|k] eqn:El; [|done]. simpl.
  assert (Hdis : forall e : DownloadError,
    let '(fs', r) := sbind (discard_partial part jpath) (fun _ => sfail (A := VerifiedFile) e) fs in
    match r with Ok _ => False
    | Err _ => fs' !! target = fs !! target /\ (jsound fs -> jsound fs') end).
  { intros e. unfold sbind. destruct (keeps_discard fs) as [Hf Hj].
    destruct (discard_partial part jpath fs) as [fs' [u|e']]; simpl in *; auto. }
  destruct (N.eqb_spec len (fp_expected_size plan)) as [->|Hne]; simpl.
  2:{ generalize (Hdis (DSizeMismatch (fp_expected_size plan) len)).
      destruct (sbind _ _ fs) as [fs' [v|e]]; [done|auto]. }
  unfold sbind at 1, fs_read at 1, dio at 1.
  destruct (sha256_of_file fs part) as [h|k] eqn:Eh; [|done]. simpl.
  destruct (String.eqb_spec h (to_ascii_lowercase (fp_expected_sha256_hex plan))) as [->|Hne]; simpl.
  2:{ generalize (Hdis (DHashMismatch (to_ascii_lowercase (fp_expected_sha256_hex plan)) h)).
      destruct (sbind _ _ fs) as [fs' [v|e]]; [done|auto]. }
  unfold sbind at 1, fs_try at 1, open_write. rewrite node_at_snoc.
  unfold file_len in El. rewrite node_at_snoc in El.
  unfold sha256_of_file, read_file in Eh. rewrite node_at_snoc in Eh.
  destruct (fs !! part) as [[bs| |o]|] eqn:Ep; try done.
  injection El as El. simpl in Eh. injection Eh as Eh.
  unfold sbind at 1, fs_try at 1, rename_file. rewrite !node_at_snoc, Ep.
  assert (Hgo : forall fs2, fs2 = <[target := NFile bs]> (delete part fs) ->
    let '(fs', r) := sbind (signore (fs_try jpath (fun fs => remove_file fs jpath)))
                       (fun _ => sret (verified_of plan etag)) fs2 in
    match r with
    | Ok vf => vf = verified_of plan etag /\ fs' !! part = None /\ jsound fs' /\
               exists bs', Some (NFile bs) = Some (NFile bs') /\ fs' !! target = Some (NFile bs') /\
                           matches_plan plan bs'
    | Err _ => fs' !! target = fs !! target /\ (jsound fs -> jsound fs')
    end).
  { intros fs2 ->. unfold sbind, signore, fs_try, remove_file. rewrite node_at_snoc.
    rewrite lookup_insert_ne, lookup_delete_ne by (by apply snoc_ne).
    assert (H2 : forall fs3, (fs3 !! jpath = None \/ fs3 !! jpath = Some NDir) ->
       fs3 !! part = None -> fs3 !! target = Some (NFile bs) ->
       verified_of plan etag = verified_of plan etag /\ fs3 !! part = None /\ jsound fs3 /\
       exists bs', Some (NFile bs) = Some (NFile bs') /\ fs3 !! target = Some (NFile bs') /\
                   matches_plan plan bs').
    { intros fs3 Hj Hp Ht. split_and!; [done|done|by apply no_journal_sound|].
      exists bs. split_and!; done. }
    destruct (fs !! jpath) as [[bs'| |o]|] eqn:Ejp; simpl; apply H2;
      rewrite ?lookup_delete_eq, ?lookup_delete_ne by (by apply snoc_ne; congruence);
      rewrite ?lookup_insert_eq, ?lookup_insert_ne by (by apply snoc_ne; congruence);
      rewrite ?lookup_delete_eq, ?lookup_delete_ne by (by apply snoc_ne; congruence); auto. }
  destruct (fs !! target) as [[bt| |o]|] eqn:Et; try (by apply Hgo); done.
Qed.

Lemma existing_evidence_spec plan fs :
  derive_target_path_for_file (fp_device_id plan) (fp_session_id plan) (fp_file_id plan)
    (fp_target_relative_path plan) = Ok target ->
  let '(fs', r) := existing_evidence plan target part jpath fs in
  (jsound fs -> jsound fs') /\
  match r with
  | Ok (Some vf) => vf = verified_of plan None /\
                    exists bs, fs' !! target = Some (NFile bs) /\ matches_plan plan bs
  | Ok None => fs' !! target = fs !! target \/ fs' !! target = None
  | Err _ => fs' !! target = fs !! target
  end.
Proof.
  intros Hd. destruct target_distinct as (Htp & Htj & Htt). unfold existing_evidence.
  destruct (inspect_spec fs (fp_device_id plan) (fp_session_id plan) (expected_of_plan plan)
              (fp_expected_sha256_hex plan) eq_refl) as (Hver & _ & _).
  destruct (ae_status _) as [|n| |reason] eqn:Es; [by auto|by auto| |].
  - destruct (proj1 Hver eq_refl) as (t & bs & Ht & Hb & Hl & Hh).
    assert (t = target) as -> by (simpl in Ht; congruence).
    unfold sbind, signore. destruct (keeps_discard fs) as [Hf Hj].
    simpl. split; [done|]. split; [done|]. exists bs. rewrite Hf by done. done.
  - unfold sbind at 1, slift. destruct (reject_symlink fs target) as [u|e]; simpl; [|by auto].
    assert (Hdel : jsound fs -> jsound (delete target fs)).
    { intros Hs j Hjr. rewrite (journal_read_ext q jn fs) in Hjr
        by (by rewrite lookup_delete_ne by (by apply snoc_ne)).
      rewrite (plen_ext q pn fs) by (by rewrite lookup_delete_ne by (by apply snoc_ne)).
      by apply Hs. }
    unfold sbind, remove_file, sret. rewrite node_at_snoc.
    destruct (fs !! target) as [[bs| |o]|] eqn:Et; simpl; rewrite ?lookup_delete_eq; auto.
Qed.

Lemma good_others fs fs' :
  (forall m, fs' !! (q ++ [m]) = fs !! (q ++ [m])) -> good fs fs'.
Proof.
  intros He. split; [by intros m _ _ _|]. intros Hs j Hjr.
  rewrite (journal_read_ext q jn fs) in Hjr by apply He.
  rewrite (plen_ext q pn fs) by apply He. by apply Hs.
Qed.

Lemma prepare_download_spec `{Lowercase} plan fs :
  derive_target_path_for_file (fp_device_id plan) (fp_session_id plan) (fp_file_id plan)
    (fp_target_relative_path plan) = Ok target ->
  let '(fs', r) := prepare_download plan fs in
  only_new_dirs fs fs' target /\
  (forall t, r = Ok t -> t = target /\ parents_exist fs' target /\
                         (forall o, fs' !! part <> Some (NSymlink o))).
Proof.
  intros Hd. unfold prepare_download, sbind at 1, slift.
  destruct (validate_plan plan); simpl; [|split; [apply only_new_dirs_refl|done]].
  unfold sbind at 1. rewrite Hd. simpl. unfold sbind at 1.
  destruct (prepare_target_parent fs target) as [fs1 r1] eqn:Ep.
  apply prepare_target_parent_spec in Ep as [Hnew Hok]; [|by destruct q].
  destruct r1 as [[]|e]; simpl; [|by split].
  destruct (Hok eq_refl) as [Hpar _].
  unfold sbind at 1, fs_read at 1. rewrite part_snoc, parent_snoc.
  destruct (check_case_insensitive_collision fs1 q _); simpl; [|by split].
  unfold sbind, fs_read, reject_symlink. rewrite node_at_snoc.
  destruct (fs1 !! part) as [[bs| |o]|] eqn:Epart; simpl; (split; [done|]);
    intros t [= <-]; split_and!; try done; congruence.
Qed.
End directory.

Section safety.
  Context `{JournalCodec, Sha256, Lowercase} {S : Type} `{DownloadSource S}.

End safety.

(** ** Theorems: an honest source is enough *)

Lemma write_at_end pre chunk : write_at pre (blen pre) chunk = pre ++ chunk.
Proof.
  unfold write_at, blen. rewrite Nat2N.id, take_ge, Nat.sub_diag by lia.
  rewrite (drop_ge pre) by lia. simpl. by rewrite app_nil_r.
Qed.

Section honest.
  Context `{JournalCodec, Sha256, Lowercase}.
  Variables (q : Path) (c : string).

Abbreviation pn := (c ++ ".part")%string.
Abbreviation jn := ((c ++ ".part") ++ ".journal")%string.
Abbreviation part := (q ++ [pn]).
Abbreviation jpath := (q ++ [jn]).
Abbreviation tmp := (q ++ [(jn ++ ".tmp")%string]).
Abbreviation target := (q ++ [c]).

Definition is_file_or_none (n : option Node) : Prop :=
  match n with None | Some (NFile _) => True | _ => False end.

(** The download's corner of the filesystem: the directory exists, the
    partial holds [pre] ([None] when there is no partial) and [jr] sits at
    the journal's name. *)
Record workdir (fs : FS) (pre : option (list byte)) (jr : option Node) : Prop := {
  wd_parents : parents_exist fs jpath;
  wd_part : fs !! part = NFile <$> pre;
  wd_journal : fs !! jpath = jr;
  wd_tmp : is_file_or_none (fs !! tmp);
}.

(** A journal file that lets [proposed] be recorded. *)
Definition compatible (jr : option Node) (proposed : DownloadJournal) : Prop :=
  jr = None \/
  exists raw, jr = Some (NFile raw) /\ utf8_valid raw = true /\
    forall old, journal_decode raw = Some old ->
      (dj_confirmed_offset old <= dj_confirmed_offset proposed)%N /\
      dj_expected_size old = dj_expected_size proposed /\
      dj_expected_sha256_hex old = dj_expected_sha256_hex proposed /\
      (forall e, dj_etag old = Some e -> dj_etag proposed = Some e).

Lemma compatible_self j : journal_fits j -> compatible (Some (NFile (journal_encode j))) j.
Proof.
  intros Hf. right. eexists. split_and!; [done|apply journal_encode_utf8|].
  intros old. rewrite journal_decode_encode by done. intros [= <-]. done.
Qed.

Lemma distinct_names : NoDup [c; pn; jn; (jn ++ ".tmp")%string].
Proof.
  destruct (target_distinct c) as (H1' & H2' & H3'). destruct (names_distinct c) as [H4' H5'].
  assert (jn <> (jn ++ ".tmp")%string) by (symmetry; by apply suffix_ne).
  repeat (constructor; [set_solver|]). constructor.
Qed.

(** A name of the directory is not the path of an ancestor. *)
Lemma parents_insert fs m n :
  parents_exist fs jpath -> parents_exist (<[q ++ [m] := n]> fs) jpath.
Proof.
  intros Hp u v Huv Hu Hv. rewrite lookup_insert_ne; [by apply (Hp u v)|].
  intros <-. apply (f_equal length) in Huv. rewrite !length_app in Huv. simpl in Huv.
  destruct v; [done|]. simpl in Huv. lia.
Qed.

Lemma parents_delete fs m :
  parents_exist fs jpath -> parents_exist (delete (q ++ [m]) fs) jpath.
Proof.
  intros Hp u v Huv Hu Hv. rewrite lookup_delete_ne; [by apply (Hp u v)|].
  intros <-. apply (f_equal length) in Huv. rewrite !length_app in Huv. simpl in Huv.
  destruct v; [done|]. simpl in Huv. lia.
Qed.

Lemma advance_workdir fs pre jr proposed :
  journal_fits proposed -> workdir fs (Some pre) jr -> compatible jr proposed ->
  (dj_confirmed_offset proposed <= blen pre)%N ->
  exists fs', journal_advance jpath part proposed fs = (fs', Ok tt) /\
    workdir fs' (Some pre) (Some (NFile (journal_encode proposed))) /\
    fs' !! target = fs !! target.
Proof.
  intros Hf [Hpar Hpart Hj Ht] Hc Hle.
  assert (Hok : (journal_advance jpath part proposed fs).2 = Ok tt).
  { apply journal_advance_ok; try done.
    - unfold plen, durable_len, file_len. by rewrite node_at_snoc, Hpart.
    - unfold plen, durable_len, file_len. by rewrite node_at_snoc, Hpart.
    - rewrite Hj. destruct Hc as [->|(raw & -> & Hu & Hold)]; eauto. }
  assert (Heq : journal_advance jpath part proposed fs =
                journal_write jpath proposed fs).
  { unfold journal_advance, sbind, fs_read, slift in Hok |- *.
    destruct (durable_len fs part) as [d|e]; [|done].
    destruct (check_advance part d None proposed) as [[]|e]; [|done]. simpl in *.
    destruct (journal_read fs jpath) as [rec|e]; [|done].
    destruct (check_advance part d rec proposed) as [[]|e]; done. }
  rewrite Heq in *. unfold journal_write in *.
  assert (Hexact : write_file_durably jpath (journal_encode proposed) fs =
    (<[jpath := NFile (journal_encode proposed)]> (delete tmp fs), Ok tt)).
  { apply write_file_durably_exact; [done| |done]. rewrite Hj.
    by destruct Hc as [->|(raw & -> & _)]. }
  rewrite Hexact. eexists. split; [done|].
  assert (Hd := distinct_names). rewrite !NoDup_cons in Hd.
  split; [split|].
  - by apply parents_insert, parents_delete.
  - rewrite lookup_insert_ne, lookup_delete_ne by (apply snoc_ne; set_solver). done.
  - apply lookup_insert_eq.
  - rewrite lookup_insert_ne, lookup_delete_eq by (apply snoc_ne; set_solver). done.
  - by rewrite lookup_insert_ne, lookup_delete_ne by (apply snoc_ne; set_solver).
Qed.

Section transfer.
  Variables (plan : FilePlan) (content : list byte) (etag : string).
  Hypothesis content_fits : (blen content <= u64_max)%N.
  Hypothesis content_matches : matches_plan plan content.

Definition cp (off : N) : DownloadJournal :=
  checkpoint_of (fp_expected_size plan) (fp_expected_sha256_hex plan) (Some etag) off.

Lemma cp_fits off : (off <= u64_max)%N -> journal_fits (cp off).
Proof. intros Ho. destruct content_matches as [Hl _]. split; simpl; [done|by rewrite <- Hl]. Qed.

Lemma compatible_mono jr a b : (a <= b)%N -> compatible jr (cp a) -> compatible jr (cp b).
Proof.
  intros Hab [->|(raw & -> & Hu & Hold)]; [by left|]. right. exists raw. split_and!; try done.
  intros old Hd. destruct (Hold old Hd) as (? & ? & ? & ?). simpl in *. split_and!; try done. lia.
Qed.

(** One body chunk appended to the partial. *)
Lemma body_single fs pre jr chunk :
  workdir fs (Some pre) jr -> compatible jr (cp (blen pre + blen chunk)) ->
  (blen pre + blen chunk <= u64_max)%N ->
  exists fs' jr',
    body_loop part jpath (blen pre) (Some (blen chunk)) (fp_expected_size plan)
      (fp_expected_sha256_hex plan) (Some etag) 0 0 [Ok chunk] fs = (fs', Ok (blen chunk)) /\
    workdir fs' (Some (pre ++ chunk)) jr' /\ compatible jr' (cp (blen pre + blen chunk)) /\
    fs' !! target = fs !! target.
Proof.
  intros Hwd Hc Hfit. assert (Hd := distinct_names). rewrite !NoDup_cons in Hd.
  destruct chunk as [|b chunk0] eqn:Echunk.
  { exists fs, jr. rewrite app_nil_r. simpl. by split_and!. }
  rewrite <- Echunk in *. cbn [body_loop].
  replace (match chunk with [] => _ | _ => _ end) with
    (sbind (fun fs0 => (write_chunk fs0 part (blen pre + 0) chunk, Ok tt)) (fun _ : unit =>
      if (blen chunk <? u64_add 0 (blen chunk))%N then sfail DUnexpectedExtraBytes
      else if (JOURNAL_CHECKPOINT_INTERVAL <=? u64_add 0 (blen chunk))%N
      then sbind (journal_advance jpath part (checkpoint_of (fp_expected_size plan)
             (fp_expected_sha256_hex plan) (Some etag) (u64_add (blen pre) (u64_add 0 (blen chunk)))))
           (fun _ : unit => body_loop part jpath (blen pre) (Some (blen chunk)) (fp_expected_size plan)
              (fp_expected_sha256_hex plan) (Some etag) (u64_add 0 (blen chunk)) 0 [])
      else body_loop part jpath (blen pre) (Some (blen chunk)) (fp_expected_size plan)
              (fp_expected_sha256_hex plan) (Some etag) (u64_add 0 (blen chunk))
              (u64_add 0 (blen chunk)) [])) by (by rewrite Echunk).
  rewrite !(u64_add_small 0) by lia. rewrite u64_add_small by lia.
  rewrite N.add_0_l, N.add_0_r, N.ltb_irrefl.
  destruct Hwd as [Hpar Hpart Hj Ht]. simpl in Hpart.
  set (fs1 := <[part := NFile (pre ++ chunk)]> fs).
  assert (Hwrite : write_chunk fs part (blen pre) chunk = fs1).
  { unfold write_chunk. by rewrite Hpart, write_at_end. }
  assert (Hwd1 : workdir fs1 (Some (pre ++ chunk)) jr).
  { split; unfold fs1.
    - by apply parents_insert.
    - apply lookup_insert_eq.
    - by rewrite lookup_insert_ne by (apply snoc_ne; set_solver).
    - by rewrite lookup_insert_ne by (apply snoc_ne; set_solver). }
  assert (Ht1 : fs1 !! target = fs !! target)
    by (unfold fs1; by rewrite lookup_insert_ne by (apply snoc_ne; set_solver)).
  assert (Hlen : blen (pre ++ chunk) = (blen pre + blen chunk)%N)
    by (unfold blen; rewrite length_app; lia).
  unfold sbind at 1. rewrite Hwrite.
  assert (Hfin : forall since fs2, body_loop part jpath (blen pre) (Some (blen chunk))
            (fp_expected_size plan) (fp_expected_sha256_hex plan) (Some etag) (blen chunk) since []
            fs2 = (fs2, Ok (blen chunk))).
  { intros since fs2. simpl. by rewrite N.eqb_refl. }
  destruct (_ <=? _)%N.
  - destruct (advance_workdir fs1 (pre ++ chunk) jr (cp (blen pre + blen chunk)))
      as (fs2 & Hadv & Hwd2 & Ht2); [by apply cp_fits|done|done|simpl; lia|].
    exists fs2, (Some (NFile (journal_encode (cp (blen pre + blen chunk))))).
    unfold sbind. fold (cp (blen pre + blen chunk)). rewrite Hadv, Hfin. split_and!; try done.
    + by apply compatible_self, cp_fits.
    + by rewrite Ht2.
  - exists fs1, jr. rewrite Hfin. by split_and!.
Qed.

(** Write one response and record it. *)
Lemma write_and_record fs pre jr chunk :
  workdir fs pre jr ->
  let base := default [] pre in
  compatible jr (cp (blen base + blen chunk)) -> (blen base + blen chunk <= u64_max)%N ->
  exists fs1 fs2 jr',
    write_response_body part jpath (blen base) [Ok chunk] (Some (blen chunk))
      (fp_expected_size plan) (fp_expected_sha256_hex plan) (Some etag) fs
    = (fs1, Ok (blen chunk)) /\
    journal_advance jpath part (cp (blen base + blen chunk)) fs1 = (fs2, Ok tt) /\
    workdir fs2 (Some (base ++ chunk)) jr' /\ fs2 !! target = fs !! target.
Proof.
  intros Hwd base Hc Hfit. assert (Hd := distinct_names). rewrite !NoDup_cons in Hd.
  destruct Hwd as [Hpar Hpart Hj Ht].
  assert (Hopen : exists fs0, fs_try part (fun fs => open_write fs part (blen base =? 0)%N) fs
                    = (fs0, Ok tt) /\ workdir fs0 (Some base) jr /\ fs0 !! target = fs !! target).
  { unfold fs_try, open_write. rewrite node_at_snoc, Hpart.
    assert (Hnew : workdir (<[part := NFile []]> fs) (Some []) jr /\
                   <[part := NFile []]> fs !! target = fs !! target).
    { split; [split|].
      - by apply parents_insert.
      - apply lookup_insert_eq.
      - by rewrite lookup_insert_ne by (apply snoc_ne; set_solver).
      - by rewrite lookup_insert_ne by (apply snoc_ne; set_solver).
      - by rewrite lookup_insert_ne by (apply snoc_ne; set_solver). }
    destruct pre as [p|]; simpl in *.
    - destruct (N.eqb_spec (blen base) 0) as [Hz|Hz].
      + eexists. split; [done|]. replace base with (@nil byte); [exact Hnew|].
        by destruct base.
      + eexists. split; [done|]. split; [by split|done].
    - eexists. split; [done|]. exact Hnew. }
  destruct Hopen as (fs0 & Ho & Hwd0 & Ht0).
  destruct (body_single fs0 base jr chunk Hwd0 Hc Hfit) as (fs1 & jr1 & Hb & Hwd1 & Hc1 & Ht1).
  destruct (advance_workdir fs1 (base ++ chunk) jr1 (cp (blen base + blen chunk)))
    as (fs2 & Hadv & Hwd2 & Ht2); [by apply cp_fits|done|done| |].
  { simpl. unfold blen. rewrite length_app. lia. }
  exists fs1, fs2. eexists. split_and!; [|exact Hadv|exact Hwd2|].
  - unfold write_response_body, sbind. rewrite Ho. exact Hb.
  - by rewrite Ht2, Ht1.
Qed.

(** A server that holds [content] under [etag] and follows HTTP ranges. *)
Definition honest_response (r : RequestedRange) : SourceResponse :=
  let len := blen content in
  match rr_if_match_etag r with
  | Some e =>
      if negb (String.eqb e etag) then mkResponse 412 None None None []
      else if (rr_start r <? len)%N
      then mkResponse 206 (Some etag) (Some (content_range_text (rr_start r) (len - 1) len))
             (Some (len - rr_start r)%N) [Ok (drop (N.to_nat (rr_start r)) content)]
      else mkResponse 416 (Some etag) None None []
  | None =>
      if (rr_start r =? 0)%N then mkResponse 200 (Some etag) None (Some len) [Ok content]
      else if (rr_start r <? len)%N
      then mkResponse 206 (Some etag) (Some (content_range_text (rr_start r) (len - 1) len))
             (Some (len - rr_start r)%N) [Ok (drop (N.to_nat (rr_start r)) content)]
      else mkResponse 416 (Some etag) None None []
  end.

Definition honest_source : DownloadSource unit := fun r s => (s, Ok (honest_response r)).

Lemma discard_workdir fs pre jr :
  workdir fs pre jr -> is_file_or_none jr ->
  exists fs', discard_partial part jpath fs = (fs', Ok tt) /\ workdir fs' None None /\
              fs' !! target = fs !! target.
Proof.
  intros [Hpar Hpart Hj Ht] Hjr. assert (Hd := distinct_names). rewrite !NoDup_cons in Hd.
  unfold discard_partial. cbn [remove_if_present]. unfold sbind, sret, remove_file.
  rewrite node_at_snoc, Hpart.
  assert (Hnext : forall fs1, workdir fs1 None jr -> fs1 !! target = fs !! target ->
    exists fs', 
      match
        match match node_at fs1 jpath with
              | Some NDir => Err IoIsADirectory
              | Some _ => Ok (delete jpath fs1)
              | None => Err IoNotFound
              end with
        | Ok fs' => (fs', Ok tt)
        | Err IoNotFound => (fs1, Ok tt)
        | Err k => (fs1, Err (DIo jpath k))
        end with
      | (s', Ok _) => (s', Ok tt)
      | (s', Err e) => (s', Err e)
      end = (fs', Ok tt) /\ workdir fs' None None /\ fs' !! target = fs !! target).
  { intros fs1 [Hp1 Hpa1 Hj1 Ht1] Htg. rewrite node_at_snoc, Hj1.
    destruct jr as [[raw| |o]|]; try done.
    - eexists. split; [done|]. split; [split|].
      + by apply parents_delete.
      + by rewrite lookup_delete_ne by (apply snoc_ne; set_solver).
      + apply lookup_delete_eq.
      + by rewrite lookup_delete_ne by (apply snoc_ne; set_solver).
      + by rewrite lookup_delete_ne by (apply snoc_ne; set_solver).
    - eexists. split; [done|]. by split; [split|]. }
  destruct pre as [p|]; simpl.
  - apply Hnext; [split|].
    + by apply parents_delete.
    + apply lookup_delete_eq.
    + by rewrite lookup_delete_ne by (apply snoc_ne; set_solver).
    + by rewrite lookup_delete_ne by (apply snoc_ne; set_solver).
    + by rewrite lookup_delete_ne by (apply snoc_ne; set_solver).
  - by apply Hnext; [split|].
Qed.

Lemma loop_from_zero n jo fs pre jr :
  workdir fs pre jr -> is_file_or_none jr ->
  exists fs' jr',
    @download_loop _ _ honest_source plan part jpath (Datatypes.S n) jo 0 (fs, tt)
    = ((fs', tt), Ok (Some etag)) /\
    workdir fs' (Some content) jr' /\ fs' !! target = fs !! target.
Proof.
  intros Hwd Hjr. destruct (discard_workdir fs pre jr Hwd Hjr) as (fs1 & Hdis & Hwd1 & Ht1).
  destruct (write_and_record fs1 None None content Hwd1) as (fs2 & fs3 & jr' & Hw & Ha & Hwd3 & Ht3);
    [by left|exact content_fits|]. simpl in Hw, Ha, Hwd3.
  exists fs3, jr'. split_and!; [|done|by rewrite Ht3].
  erewrite download_loop_step; [|reflexivity|reflexivity]. unfold handle_outcome.
  rewrite (sbind_on_fs _ _ _ _ _ _ Hdis), (sbind_on_fs _ _ _ _ _ _ Hw).
  by rewrite (sbind_on_fs _ _ _ _ _ _ Ha).
Qed.

Lemma journal_read_compatible fs pre jr jo n :
  workdir fs pre jr -> is_file_or_none jr -> journal_read fs jpath = Ok jo ->
  (forall j, jo = Some j -> (dj_confirmed_offset j <= n)%N /\
     dj_expected_size j = fp_expected_size plan /\
     dj_expected_sha256_hex j = fp_expected_sha256_hex plan /\
     (forall e, dj_etag j = Some e -> e = etag)) ->
  compatible jr (cp n).
Proof.
  intros Hwd Hjr Hr Hj. unfold journal_read, read_to_string, read_file in Hr.
  rewrite node_at_snoc, (wd_journal _ _ _ Hwd) in Hr.
  destruct jr as [[raw| |o]|]; try done; [|by left].
  simpl in Hr. destruct (utf8_valid raw) eqn:Eu; [|done]. injection Hr as Hr.
  right. exists raw. split_and!; try done. intros old Hold. rewrite Hold in Hr.
  destruct (Hj old) as (? & ? & ? & He); [done|]. simpl. split_and!; try done.
  intros e Ee. by rewrite (He e Ee).
Qed.

Lemma loop_completes n jo off fs pre jr :
  workdir fs pre jr -> is_file_or_none jr -> journal_read fs jpath = Ok jo ->
  off = blen (default [] pre) ->
  (forall j, jo = Some j -> (dj_confirmed_offset j <= off)%N /\
     dj_expected_size j = fp_expected_size plan /\
     dj_expected_sha256_hex j = fp_expected_sha256_hex plan /\
     ((forall e, dj_etag j = Some e -> e = etag) -> default [] pre `prefix_of` content)) ->
  (jo = None -> off = 0%N) ->
  exists fs' et jr',
    @download_loop _ _ honest_source plan part jpath (Datatypes.S (Datatypes.S n)) jo off (fs, tt)
    = ((fs', tt), Ok et) /\
    workdir fs' (Some content) jr' /\ fs' !! target = fs !! target.
Proof.
  intros Hwd Hjr Hread Hoff Hj Hnone.
  destruct (N.eqb_spec off 0) as [->|Hpos].
  { destruct (loop_from_zero (Datatypes.S n) jo fs pre jr Hwd Hjr) as (fs' & jr' & Hl & Hw & Ht).
    exists fs', (Some etag), jr'. by split_and!. }
  destruct jo as [j|]; [|by destruct Hpos; apply Hnone].
  destruct (Hj j eq_refl) as (Hjc & Hjs & Hjh & Hpre).
  assert (Hetag : (exists e, dj_etag j = Some e /\ e <> etag) \/
                  (forall e, dj_etag j = Some e -> e = etag)).
  { destruct (dj_etag j) as [e|]; [|by right].
    destruct (decide (e = etag)); [right; congruence|left; eauto]. }
  assert (Hif : expected_etag_for_resume off (Some j) = dj_etag j).
  { unfold expected_etag_for_resume. apply N.eqb_neq in Hpos. by rewrite Hpos. }
  destruct Hetag as [(e & He & Hne)|Hsame].
  - (* the recorded ETag is stale: restart from zero *)
    destruct (discard_workdir fs pre jr Hwd Hjr) as (fs1 & Hdis & Hwd1 & Ht1).
    destruct (loop_from_zero n None fs1 None None Hwd1 I) as (fs2 & jr' & Hl & Hwd2 & Ht2).
    exists fs2, (Some etag), jr'. split_and!; [|done|by rewrite Ht2].
    erewrite download_loop_step; [|reflexivity|].
    2:{ unfold honest_response. rewrite Hif, He. cbn [rr_if_match_etag].
        apply String.eqb_neq in Hne. rewrite Hne. reflexivity. }
    unfold handle_outcome. by rewrite (sbind_on_fs _ _ _ _ _ _ Hdis).
  - destruct (Hpre Hsame) as [rest Hcontent].
    destruct pre as [p|]; cbn [default from_option id] in *; [|by rewrite Hoff in Hpos].
    assert (Hresp : honest_response (mkRange off (dj_etag j)) =
      if (off <? blen content)%N
      then mkResponse 206 (Some etag) (Some (content_range_text off (blen content - 1) (blen content)))
             (Some (blen content - off)%N) [Ok (drop (N.to_nat off) content)]
      else mkResponse 416 (Some etag) None None []).
    { unfold honest_response. cbn [rr_if_match_etag rr_start]. apply N.eqb_neq in Hpos.
      destruct (dj_etag j) as [e|]; [|by rewrite Hpos].
      rewrite (Hsame e eq_refl), String.eqb_refl. done. }
    assert (Hdrop : drop (N.to_nat off) content = rest).
    { rewrite Hoff, Hcontent. unfold blen. rewrite Nat2N.id. by rewrite drop_app_length. }
    assert (Hlen : blen content = (off + blen rest)%N).
    { rewrite Hcontent, Hoff. unfold blen. rewrite length_app. lia. }
    destruct (N.ltb_spec off (blen content)) as [Hlt|Hge].
    + destruct (write_and_record fs (Some p) jr rest Hwd)
        as (fs2 & fs3 & jr' & Hw & Ha & Hwd3 & Ht3); cbn [default from_option id] in *.
      { rewrite <- Hoff. eapply journal_read_compatible; [done..|].
        intros j' [= <-]. split_and!; try done. lia. }
      { rewrite <- Hoff. lia. }
      rewrite <- Hoff in *.
      exists fs3, (Some etag), jr'. split_and!; [|by rewrite Hcontent|done].
      erewrite download_loop_step; [|unfold fetch_range, honest_source; rewrite Hif, Hresp; reflexivity|].
      2:{ unfold interpret_range_response. cbn [sr_status sr_content_range sr_content_length].
          cbn [N.eqb Pos.eqb ok_or rbind]. rewrite (proj2 content_range_spec) by lia.
          cbn [rbind]. rewrite N.eqb_refl. reflexivity. }
      unfold handle_outcome. rewrite Hif. cbn [sr_etag sr_body].
      replace (match dj_etag j with Some p0 => negb (bool_decide (Some etag = Some p0)) | None => false end)
        with false.
      2:{ destruct (dj_etag j) as [e|]; [|done]. rewrite (Hsame e eq_refl).
          by rewrite bool_decide_eq_true_2. }
      rewrite u64_add_small by lia.
      replace (blen content - 1 - off + 1)%N with (blen rest) by lia. rewrite Hdrop.
      rewrite (sbind_on_fs _ _ _ _ _ _ Hw), u64_add_small by lia.
      by rewrite (sbind_on_fs _ _ _ _ _ _ Ha).
    + assert (rest = []) as -> by (unfold blen in *; destruct rest; simpl in *; [done|lia]).
      rewrite app_nil_r in Hcontent.
      exists fs, (dj_etag j), jr. split_and!; [|by rewrite Hcontent|done].
      erewrite download_loop_step; [|unfold fetch_range, honest_source; rewrite Hif, Hresp; reflexivity|reflexivity].
      unfold handle_outcome. apply N.eqb_neq in Hpos. rewrite Hpos.
      erewrite sbind_on_fs.
      2:{ unfold fs_read, durable_len, file_len.
          rewrite node_at_snoc, (wd_part _ _ _ Hwd). reflexivity. }
      destruct content_matches as [Hml _]. rewrite Hcontent in Hml. rewrite Hml, N.eqb_refl. done.
Qed.

Definition claim_of (jo : option DownloadJournal) : N :=
  match jo with Some j => dj_confirmed_offset j | None => 0%N end.

Lemma resume_workdir fs pre jr jo :
  workdir fs pre jr -> is_file_or_none jr -> journal_read fs jpath = Ok jo ->
  let off := N.min (blen (default [] pre)) (claim_of jo) in
  exists fs' jo' jr',
    resume_point part jpath fs = (fs', Ok (jo', off)) /\
    workdir fs' (take (N.to_nat off) <$> pre) jr' /\ is_file_or_none jr' /\
    fs' !! target = fs !! target /\
    (forall j', jo' = Some j' -> exists j, jo = Some j /\
       j' = mkJournal off (dj_expected_size j) (dj_expected_sha256_hex j) (dj_etag j)) /\
    (jo' = None -> jo = None).
Proof.
  intros Hwd Hjr Hread off. assert (Hd := distinct_names). rewrite !NoDup_cons in Hd.
  assert (Hrec : exists fs1, recover_resume_offset part jo fs = (fs1, Ok off) /\
            workdir fs1 (take (N.to_nat off) <$> pre) jr /\ fs1 !! target = fs !! target).
  { unfold recover_resume_offset, sbind, fs_read, durable_len, file_len.
    rewrite node_at_snoc, (wd_part _ _ _ Hwd).
    assert (Hkeep : (blen (default [] pre) <= off)%N ->
              workdir fs (take (N.to_nat off) <$> pre) jr).
    { intros Hge. replace (take (N.to_nat off) <$> pre) with pre; [done|].
      destruct pre as [p|]; [|done]. simpl in *. rewrite take_ge; [done|].
      unfold blen in Hge. lia. }
    destruct pre as [p|]; cbn [fmap option_fmap option_map default from_option id] in *.
    - fold (claim_of jo). fold off. destruct (N.ltb_spec off (blen p)) as [Hlt|Hge].
      + unfold fs_try, truncate_file. rewrite node_at_snoc, (wd_part _ _ _ Hwd).
        cbn [fmap option_fmap option_map]. eexists. split; [reflexivity|].
        destruct Hwd as [Hpar Hpart Hj Ht]. split; [split|].
        * by apply parents_insert.
        * apply lookup_insert_eq.
        * by rewrite lookup_insert_ne by (apply snoc_ne; set_solver).
        * by rewrite lookup_insert_ne by (apply snoc_ne; set_solver).
        * by rewrite lookup_insert_ne by (apply snoc_ne; set_solver).
      + exists fs. split_and!; [done|by apply Hkeep|done].
    - assert (Hoff : off = 0%N) by (subst off; apply N.min_0_l).
      exists fs. split_and!; [rewrite Hoff, !N.min_0_l; reflexivity|apply Hkeep; unfold blen; simpl; lia|done]. }
  destruct Hrec as (fs1 & Hr & Hwd1 & Ht1).
  assert (Hread1 : journal_read fs1 jpath = Ok jo).
  { rewrite <- Hread. apply journal_read_ext.
    by rewrite (wd_journal _ _ _ Hwd), (wd_journal _ _ _ Hwd1). }
  unfold resume_point, sbind at 1, fs_read. rewrite Hread. unfold sbind at 1. rewrite Hr.
  destruct jo as [j|]; cbn [claim_of] in *.
  2:{ exists fs1, None, jr. split_and!; try done. }
  destruct (N.ltb_spec off (dj_confirmed_offset j)) as [Hlt|Hge].
  - unfold journal_reset_to. destruct (N.ltb_spec (dj_confirmed_offset j) off); [lia|].
    unfold sbind, journal_write. rewrite write_file_durably_exact.
    + eexists _, _, _. split; [reflexivity|]. destruct Hwd1 as [Hpar Hpart Hj Ht].
      split_and!; [split|..].
      * by apply parents_insert, parents_delete.
      * by rewrite lookup_insert_ne, lookup_delete_ne by (apply snoc_ne; set_solver).
      * apply lookup_insert_eq.
      * rewrite lookup_insert_ne, lookup_delete_eq by (apply snoc_ne; set_solver). done.
      * done.
      * by rewrite lookup_insert_ne, lookup_delete_ne by (apply snoc_ne; set_solver).
      * intros j' [= <-]. eauto.
      * done.
    + apply (wd_parents _ _ _ Hwd1).
    + rewrite (wd_journal _ _ _ Hwd1). by destruct jr as [[]|].
    + apply (wd_tmp _ _ _ Hwd1).
  - exists fs1, (Some j), jr. split_and!; try done.
    intros j' [= <-]. exists j. split; [done|].
    assert (off = dj_confirmed_offset j) as -> by (subst off; lia). by destruct j.
Qed.

Lemma verify_workdir fs jr et :
  workdir fs (Some content) jr -> fs !! target = None ->
  exists fs', verify_and_commit plan target part jpath et fs
              = (fs', Ok (verified_of q c plan et)) /\
              fs' !! target = Some (NFile content).
Proof.
  intros Hwd Ht. destruct content_matches as [Hl Hh].
  assert (Hok : is_ok (verify_and_commit plan target part jpath et fs).2 = true).
  { unfold verify_and_commit, sbind at 1, fs_read, dio, file_len.
    rewrite node_at_snoc, (wd_part _ _ _ Hwd). cbn [fmap option_fmap option_map rmap_err].
    rewrite Hl, N.eqb_refl. cbn [negb]. unfold sbind at 1, sha256_of_file, read_file.
    rewrite node_at_snoc, (wd_part _ _ _ Hwd). cbn [fmap option_fmap option_map rmap_err rbind].
    rewrite Hh, String.eqb_refl. cbn [negb].
    unfold sbind at 1, fs_try at 1, open_write. rewrite node_at_snoc, (wd_part _ _ _ Hwd).
    cbn [fmap option_fmap option_map]. unfold sbind at 1, fs_try at 1, rename_file.
    rewrite !node_at_snoc, (wd_part _ _ _ Hwd), Ht. cbn [fmap option_fmap option_map].
    unfold sbind, signore, sret. done. }
  generalize (verify_and_commit_spec q c plan et fs).
  destruct (verify_and_commit plan target part jpath et fs) as [fs' [vf|e]]; [|done].
  intros (-> & _ & _ & bs & Hb & Htg & _). exists fs'. split; [done|].
  rewrite (wd_part _ _ _ Hwd) in Hb. simpl in Hb. congruence.
Qed.

End transfer.
End honest.

(** ** Concrete runs *)
Module DemoDownload.

Definition content : list byte := [Byte.x01; Byte.x02; Byte.x03; Byte.x04; Byte.x05].
Definition plan : FilePlan :=
  mkPlan "dev-1" "s-1" "f1" (Some "left.mp4"%string) 5 (to_hex (DemoSha.digest content)).
Definition dir : Path := ["dev-1"; "s-1"]%string.
Definition target : Path := dir ++ ["left.mp4"]%string.
Definition part : Path := dir ++ ["left.mp4.part"]%string.
Definition jpath : Path := dir ++ ["left.mp4.part.journal"]%string.
Definition journal : DownloadJournal :=
  mkJournal 2 5 (to_hex (DemoSha.digest content)) (Some "v1"%string).
(** An interrupted run: three bytes arrived, two of them were recorded. *)
Definition interrupted : FS :=
  <[part := NFile [Byte.x01; Byte.x02; Byte.x09]]>
  (<[jpath := NFile (@journal_encode DemoCodec.codec journal)]> ∅).
(** A source that answers every request with the wrong bytes. *)
Definition hostile : DownloadSource unit :=
  fun _ s => (s, Ok (mkResponse 200 None None (Some 5%N) [Ok (replicate 5 Byte.xff)])).

End DemoDownload.


