(* ===== verification/TransferStore.v ===== *)
(** * TransferStore: the durable authority for jobs (persistence/transfer_store.rs)

The SQLite file is a record of tables ([Db]); a table whose rows belong to
one job is a map from the job id to its rows, the others are maps from their
primary key.  Rows keep the raw column values the sources parse ([string],
SQLite's 64-bit [Z], NULL as [None]), so what a reader does with a row
edited underneath it is part of the model.  PRIMARY KEY, UNIQUE, CHECK and
FOREIGN KEY clauses of persistence/schema.rs that a write can run into are
checked by the [insert_*]/[update_*] helpers.  A transaction restores the
tables on every error.  Human-readable details of errors are replaced by
structured values that carry the same data. *)

From Stdlib Require Import NArith ZArith Lia Ascii String.
From Stdlib Require Import Strings.Byte.
From stdpp Require Import base numbers list strings gmap sorting.
From S2P Require Import Prelude Domain Device Schema Aggregate.

Local Open Scope string_scope.

(** [OperationKind] (persistence/transfer_store.rs:53-57). *)
Inductive OperationKind := OpDownload | OpUpload.

#[global] Instance OperationKind_eq_dec : EqDecision OperationKind.
Proof. solve_decision. Defined.

(** [OperationKind::as_db_str] (persistence/transfer_store.rs:60-66). *)
Definition op_as_db_str (k : OperationKind) : string :=
  match k with OpDownload => "download" | OpUpload => "upload" end.

(** [OperationKind::from_db_str] (persistence/transfer_store.rs:68-75). *)
Definition op_from_db_str (value : string) : option OperationKind :=
  if String.eqb value "download" then Some OpDownload
  else if String.eqb value "upload" then Some OpUpload
  else None.

(** ** Tables *)

(** [CREATE TABLE transfer_jobs] (persistence/schema.rs:196-227). *)
Record JobRow := mkJobRow {
  jr_operation_kind : string;
  jr_natural_key : string;
  jr_device_id : string;
  jr_session_id : string;
  jr_revision : string;
  jr_request_digest : string;
  jr_state : string;
  jr_state_version : Z;
  jr_desired_run_state : string;
  jr_error_code : option string;
  jr_error_retryable : option Z;
  jr_created_at : string;
  jr_updated_at : string;
  jr_dismissed_at : option string;
}.

(** [CREATE TABLE transfer_job_specs] (persistence/schema.rs:239-254). *)
Record SpecRow := mkSpecRow {
  sr_spec_version : Z;
  sr_full_session : Z;
  sr_date_label : string;
  sr_publication_revision : string;
  sr_publication_payload : list byte;
  sr_publication_signature : list byte;
  sr_publication_public_key : list byte;
}.

(** [CREATE TABLE transfer_job_files] (persistence/schema.rs:263-274). *)
Record FileRow := mkFileRow {
  fr_inventory_index : Z;
  fr_request_index : option Z;
  fr_file_id : string;
  fr_display_path : string;
  fr_size_bytes : Z;
  fr_sha256 : string;
}.

(** [CREATE TABLE transfer_file_ledger] (persistence/schema.rs:285-299). *)
Record LedgerRow := mkLedgerRow {
  lr_file_id : string;
  lr_status : string;
  lr_bytes_confirmed : Z;
  lr_verified_sha256 : option string;
  lr_updated_at : string;
}.

(** [CREATE TABLE transfer_completion_outbox] (persistence/schema.rs:335-349). *)
Record OutboxRow := mkOutboxRow {
  or_sequence : Z;
  or_operation_kind : string;
  or_outcome : string;
  or_error_code : option string;
  or_error_retryable : option Z;
  or_state_version : Z;
  or_recorded_at : string;
  or_acknowledged_at : option string;
}.

(** [CREATE TABLE transfer_job_lineage] (persistence/schema.rs:442-450). *)
Record LineageRow := mkLineageRow {
  ln_parent_job_id : string;
  ln_attempt : Z;
  ln_created_at : string;
}.

(** [CREATE TABLE transfer_upload_job_specs] (persistence/schema.rs:469-476). *)
Record UploadSpecRow := mkUploadSpecRow {
  us_entry_key : string;
  us_revision : string;
  us_input_digest : string;
  us_object_prefix : option string;
  us_subject_kind : string;
  us_storage_profile_identity : option string;
}.

(** [CREATE TABLE transfer_upload_activity] (persistence/schema.rs:503-513). *)
Record ActivityRow := mkActivityRow {
  ac_label : string;
  ac_target_label : string;
  ac_total_bytes : Z;
  ac_confirmed_bytes : Z;
  ac_created_at : string;
  ac_updated_at : string;
}.

(** [CREATE TABLE transfer_uploads] (persistence/schema.rs:383-400). *)
Record UploadRow := mkUploadRow {
  up_object_key : string;
  up_upload_id : string;
  up_transfer_key : string;
  up_entry_key : string;
  up_revision : string;
  up_endpoint : string;
  up_bucket : string;
  up_url_style : string;
  up_desired_state : string;
  up_created_at : string;
  up_updated_at : string;
  up_job_id : option string;
}.

(** [CREATE TABLE transfer_upload_parts] (persistence/schema.rs:416-426). *)
Record PartRow := mkPartRow {
  pt_object_key : string;
  pt_upload_id : string;
  pt_part_number : Z;
  pt_etag : string;
  pt_size_bytes : Z;
  pt_recorded_at : string;
}.

(** [CREATE TABLE transfer_upload_receipts] (persistence/schema.rs:560-576): the
    row under its object key. *)
Record ReceiptRow := mkReceiptRow {
  rp_entry_key : string;
  rp_revision : string;
  rp_object_role : string;
  rp_etag : string;
  rp_version_id : option string;
  rp_size_bytes : Z;
  rp_source_sha256 : string;
  rp_digest_proof : string;
  rp_staged_at : string;
}.

(** [CREATE TABLE transfer_derived_upload_jobs] (persistence/schema.rs:660-673). *)
Record DerivedRow := mkDerivedRow {
  dj_media_library_entry_key : string;
  dj_upload_bundle_revision : string;
  dj_storage_profile_identity : string;
  dj_frozen_bundle_json : string;
  dj_checkpoint_json : string;
  dj_checkpoint_version : Z;
  dj_created_at : string;
  dj_updated_at : string;
}.

(** [t_uploads] and [t_parts] are in the order of their rowids. *)
Record Db := mkDb {
  t_jobs : gmap string JobRow;
  t_specs : gmap string SpecRow;
  t_files : gmap string (list FileRow);
  t_ledger : gmap string (list LedgerRow);
  t_outbox : gmap string OutboxRow;
  t_outbox_seq : Z;
  t_lineage : gmap string LineageRow;
  t_upload_specs : gmap string UploadSpecRow;
  t_activity : gmap string ActivityRow;
  t_uploads : list UploadRow;
  t_parts : list PartRow;
  t_receipts : gmap string (gmap string ReceiptRow);
  t_derived : gmap string DerivedRow;
}.

Definition empty_db : Db := mkDb ∅ ∅ ∅ ∅ ∅ 0 ∅ ∅ ∅ [] [] ∅ ∅.

Definition with_jobs (m : gmap string JobRow) (d : Db) : Db :=
  mkDb m (t_specs d) (t_files d) (t_ledger d) (t_outbox d) (t_outbox_seq d) (t_lineage d)
       (t_upload_specs d) (t_activity d) (t_uploads d) (t_parts d) (t_receipts d) (t_derived d).
Definition with_specs (m : gmap string SpecRow) (d : Db) : Db :=
  mkDb (t_jobs d) m (t_files d) (t_ledger d) (t_outbox d) (t_outbox_seq d) (t_lineage d)
       (t_upload_specs d) (t_activity d) (t_uploads d) (t_parts d) (t_receipts d) (t_derived d).
Definition with_files (m : gmap string (list FileRow)) (d : Db) : Db :=
  mkDb (t_jobs d) (t_specs d) m (t_ledger d) (t_outbox d) (t_outbox_seq d) (t_lineage d)
       (t_upload_specs d) (t_activity d) (t_uploads d) (t_parts d) (t_receipts d) (t_derived d).
Definition with_ledger (m : gmap string (list LedgerRow)) (d : Db) : Db :=
  mkDb (t_jobs d) (t_specs d) (t_files d) m (t_outbox d) (t_outbox_seq d) (t_lineage d)
       (t_upload_specs d) (t_activity d) (t_uploads d) (t_parts d) (t_receipts d) (t_derived d).
Definition with_outbox (m : gmap string OutboxRow) (seq : Z) (d : Db) : Db :=
  mkDb (t_jobs d) (t_specs d) (t_files d) (t_ledger d) m seq (t_lineage d)
       (t_upload_specs d) (t_activity d) (t_uploads d) (t_parts d) (t_receipts d) (t_derived d).
Definition with_lineage (m : gmap string LineageRow) (d : Db) : Db :=
  mkDb (t_jobs d) (t_specs d) (t_files d) (t_ledger d) (t_outbox d) (t_outbox_seq d) m
       (t_upload_specs d) (t_activity d) (t_uploads d) (t_parts d) (t_receipts d) (t_derived d).
Definition with_upload_specs (m : gmap string UploadSpecRow) (d : Db) : Db :=
  mkDb (t_jobs d) (t_specs d) (t_files d) (t_ledger d) (t_outbox d) (t_outbox_seq d) (t_lineage d)
       m (t_activity d) (t_uploads d) (t_parts d) (t_receipts d) (t_derived d).
Definition with_activity (m : gmap string ActivityRow) (d : Db) : Db :=
  mkDb (t_jobs d) (t_specs d) (t_files d) (t_ledger d) (t_outbox d) (t_outbox_seq d) (t_lineage d)
       (t_upload_specs d) m (t_uploads d) (t_parts d) (t_receipts d) (t_derived d).
Definition with_multipart (ups : list UploadRow) (parts : list PartRow) (d : Db) : Db :=
  mkDb (t_jobs d) (t_specs d) (t_files d) (t_ledger d) (t_outbox d) (t_outbox_seq d) (t_lineage d)
       (t_upload_specs d) (t_activity d) ups parts (t_receipts d) (t_derived d).
Definition with_receipts (m : gmap string (gmap string ReceiptRow)) (d : Db) : Db :=
  mkDb (t_jobs d) (t_specs d) (t_files d) (t_ledger d) (t_outbox d) (t_outbox_seq d) (t_lineage d)
       (t_upload_specs d) (t_activity d) (t_uploads d) (t_parts d) m (t_derived d).
Definition with_derived (m : gmap string DerivedRow) (d : Db) : Db :=
  mkDb (t_jobs d) (t_specs d) (t_files d) (t_ledger d) (t_outbox d) (t_outbox_seq d) (t_lineage d)
       (t_upload_specs d) (t_activity d) (t_uploads d) (t_parts d) (t_receipts d) m.

(** ** Errors *)

(** [TerminalOutcome] (persistence/transfer_store.rs:449-454). *)
Inductive TerminalOutcome :=
| ToSucceeded
| ToFailed (code : string) (retryable : bool)
| ToCancelled.

#[global] Instance TerminalOutcome_eq_dec : EqDecision TerminalOutcome.
Proof. solve_decision. Defined.

(** Constraint failures the SQL statements can report. *)
Inductive SqliteError := SqUnique (what : string) | SqCheck (table : string) | SqForeignKey | SqFull | SqNoRows
| SqConversion (column : string).

(** The data of the [Conflict] messages. *)
Inductive ConflictDetail :=
| TerminalNeedsCompleteJob (to : JobStateTag)
| ErrorIffFailed
| StateVersionExhausted (job_id : string)
| StaleOrTerminal (job_id : string) (expected_version : N)
| NotFoundOrStale (job_id : string)
| CheckpointExceedsSize (file_id : string) (bytes_confirmed expected_size : N)
| VerifiedNeedsDigest
| VerifiedDigestInvalid (e : JobSpecError)
| DigestOnlyForVerified
| VerifiedDowngrade (file_id : string)
| CheckpointBackwards (file_id : string) (stored bytes_confirmed : N)
| SimulatedCrash (stage : string)
| ExceedsInteger (field : string) (value : N)
| UnacknowledgedOutcome (job_id : string) (outcome : TerminalOutcome)
| JobIdTaken (job_id : string)
| RetryAttemptsExhausted (parent_job_id : string)
| ProgressOverflow (job_id : string)
| ProgressExceedsTotal (job_id : string) (next total : N).

(** [PersistenceError] (persistence/error.rs:12-87): the variants the job
    operations construct; a [Corrupt] carries the table and the row. *)
Inductive PersistenceError :=
| PCorrupt (table row : string)
| PSqlite (e : SqliteError)
| PConflict (detail : ConflictDetail)
| PNotFound (what : string).

(** [Connection::transaction] with rollback on drop. *)
Definition transaction {E A : Type} (body : sm Db E A) : sm Db E A :=
  fun db => match body db with
            | (db', Ok a) => (db', Ok a)
            | (_, Err e) => (db, Err e)
            end.

(** [checked_i64] (persistence/transfer_store.rs:1958-1962). *)
Definition checked_i64 (value : N) (field : string) : result PersistenceError Z :=
  if (value <=? i64_max)%N then Ok (Z.of_N value) else Err (PConflict (ExceedsInteger field value)).

(** [desired_run_state_db] (persistence/transfer_store.rs:1964-1969). *)
Definition desired_run_state_db (value : DesiredRunState) : string :=
  match value with Run => "run" | Paused => "paused" end.

(** [desired_run_state_from_db] (persistence/transfer_store.rs:1971-1977). *)
Definition desired_run_state_from_db (value : string) : option DesiredRunState :=
  if String.eqb value "run" then Some Run
  else if String.eqb value "paused" then Some Paused
  else None.

(** [u64::try_from(i64)]. *)
Definition u64_of_i64 (z : Z) : option N := if (z <? 0)%Z then None else Some (Z.to_N z).

(** ** Statements *)

Definition is_failed_text (state : string) : bool := String.eqb state "failed".

(** The CHECK clauses of [transfer_jobs]. *)
Definition job_row_ok (r : JobRow) : bool :=
  bool_decide (is_Some (op_from_db_str (jr_operation_kind r)))
  && (str_len (jr_request_digest r) =? 64)%N
  && bool_decide (is_Some (tag_from_db_str (jr_state r)))
  && (1 <=? jr_state_version r)%Z
  && bool_decide (is_Some (desired_run_state_from_db (jr_desired_run_state r)))
  && Bool.eqb (is_failed_text (jr_state r)) (bool_decide (is_Some (jr_error_code r)))
  && Bool.eqb (is_failed_text (jr_state r)) (bool_decide (is_Some (jr_error_retryable r))).

(** [INSERT INTO transfer_jobs]. *)
Definition insert_job (id : string) (row : JobRow) : sm Db PersistenceError unit :=
  fun db =>
    if bool_decide (is_Some (t_jobs db !! id)) then (db, Err (PSqlite (SqUnique "job_id")))
    else if existsb (fun e => String.eqb (jr_natural_key e.2) (jr_natural_key row))
              (map_to_list (t_jobs db))
    then (db, Err (PSqlite (SqUnique "natural_key")))
    else if negb (job_row_ok row) then (db, Err (PSqlite (SqCheck "transfer_jobs")))
    else (with_jobs (<[id := row]> (t_jobs db)) db, Ok tt).

(** [UPDATE transfer_jobs SET .. WHERE job_id = id AND ..]; whether a row
    changed. *)
Definition update_job (id : string) (cond : JobRow -> bool) (set : JobRow -> JobRow)
    : sm Db PersistenceError bool :=
  fun db =>
    match t_jobs db !! id with
    | Some r =>
        if cond r then
          if job_row_ok (set r) then (with_jobs (<[id := set r]> (t_jobs db)) db, Ok true)
          else (db, Err (PSqlite (SqCheck "transfer_jobs")))
        else (db, Ok false)
    | None => (db, Ok false)
    end.

(** The foreign key of a row that belongs to a job. *)
Definition owned_by (id : string) {A : Type} (c : sm Db PersistenceError A)
    : sm Db PersistenceError A :=
  fun db => if bool_decide (is_Some (t_jobs db !! id)) then c db
            else (db, Err (PSqlite SqForeignKey)).

(** [INSERT INTO transfer_job_specs]. *)
Definition insert_spec (id : string) (row : SpecRow) : sm Db PersistenceError unit :=
  owned_by id (fun db =>
    if bool_decide (is_Some (t_specs db !! id)) then (db, Err (PSqlite (SqUnique "job_id")))
    else if negb ((1 <=? sr_spec_version row)%Z
                  && ((sr_full_session row =? 0) || (sr_full_session row =? 1))%Z
                  && negb (length (sr_publication_payload row) =? 0)%nat
                  && (length (sr_publication_signature row) =? 64)%nat
                  && (length (sr_publication_public_key row) =? 32)%nat)
    then (db, Err (PSqlite (SqCheck "transfer_job_specs")))
    else (with_specs (<[id := row]> (t_specs db)) db, Ok tt)).

Definition files_of (db : Db) (id : string) : list FileRow := default [] (t_files db !! id).
Definition ledger_of (db : Db) (id : string) : list LedgerRow := default [] (t_ledger db !! id).

Definition file_row_ok (r : FileRow) : bool :=
  (0 <=? fr_inventory_index r)%Z
  && match fr_request_index r with Some i => (0 <=? i)%Z | None => true end
  && (0 <=? fr_size_bytes r)%Z && (str_len (fr_sha256 r) =? 64)%N.

(** The UNIQUE clauses of [transfer_job_files] between two rows of a job. *)
Definition file_rows_clash (a b : FileRow) : bool :=
  String.eqb (fr_file_id a) (fr_file_id b)
  || (fr_inventory_index a =? fr_inventory_index b)%Z
  || match fr_request_index a, fr_request_index b with
     | Some i, Some j => (i =? j)%Z
     | _, _ => false
     end.

(** [INSERT INTO transfer_job_files]. *)
Definition insert_file (id : string) (row : FileRow) : sm Db PersistenceError unit :=
  owned_by id (fun db =>
    if existsb (file_rows_clash row) (files_of db id)
    then (db, Err (PSqlite (SqUnique "transfer_job_files")))
    else if negb (file_row_ok row) then (db, Err (PSqlite (SqCheck "transfer_job_files")))
    else (with_files (<[id := (files_of db id ++ [row])%list]> (t_files db)) db, Ok tt)).

Definition ledger_row_ok (r : LedgerRow) : bool :=
  bool_decide (is_Some (ledger_from_db_str (lr_status r)))
  && (0 <=? lr_bytes_confirmed r)%Z
  && Bool.eqb (String.eqb (lr_status r) "verified") (bool_decide (is_Some (lr_verified_sha256 r))).

(** [INSERT INTO transfer_file_ledger], with its key into the file plan. *)
Definition insert_ledger (id : string) (row : LedgerRow) : sm Db PersistenceError unit :=
  fun db =>
    if negb (existsb (fun f => String.eqb (fr_file_id f) (lr_file_id row)) (files_of db id))
    then (db, Err (PSqlite SqForeignKey))
    else if existsb (fun l => String.eqb (lr_file_id l) (lr_file_id row)) (ledger_of db id)
    then (db, Err (PSqlite (SqUnique "transfer_file_ledger")))
    else if negb (ledger_row_ok row) then (db, Err (PSqlite (SqCheck "transfer_file_ledger")))
    else (with_ledger (<[id := (ledger_of db id ++ [row])%list]> (t_ledger db)) db, Ok tt).

(** ** Reading rows *)

(** [StoredJob] (persistence/transfer_store.rs:92-111). *)
Record StoredJob := mkStoredJob {
  sj_job_id : string;
  sj_operation_kind : OperationKind;
  sj_identity : JobIdentity;
  sj_request_digest : list byte;
  sj_state : JobStateTag;
  sj_state_version : N;
  sj_desired_run_state : DesiredRunState;
  sj_error : option (string * bool);
  sj_created_at : string;
  sj_updated_at : string;
  sj_dismissed_at : option string;
}.

(** [read_job_row] (persistence/transfer_store.rs:2359-2402): the error names
    the column. *)
Definition read_job_row (job_id : string) (r : JobRow) : result string StoredJob :=
  let? operation_kind := ok_or (op_from_db_str (jr_operation_kind r)) "operation_kind" in
  let? identity := rmap_err (fun _ => "identity")
    (JobIdentity_new (jr_device_id r) (jr_session_id r) (jr_revision r)) in
  let? request_digest := rmap_err (fun _ => "request_digest") (from_hex (jr_request_digest r)) in
  let? state := ok_or (tag_from_db_str (jr_state r)) "state" in
  let? state_version := ok_or (u64_of_i64 (jr_state_version r)) "state_version" in
  let? desired := ok_or (desired_run_state_from_db (jr_desired_run_state r)) "desired_run_state" in
  let error := match jr_error_code r, jr_error_retryable r with
               | Some code, Some retryable => Some (code, negb (retryable =? 0)%Z)
               | _, _ => None
               end in
  Ok (mkStoredJob job_id operation_kind identity request_digest state state_version desired error
        (jr_created_at r) (jr_updated_at r) (jr_dismissed_at r)).

(** [read_job] (persistence/transfer_store.rs:2308-2329): by [job_id], the
    only column the job operations ask for. *)
Definition read_job (db : Db) (job_id : string) : result PersistenceError (option StoredJob) :=
  match t_jobs db !! job_id with
  | None => Ok None
  | Some r => let? job := rmap_err (fun _ => PCorrupt "transfer_jobs" job_id) (read_job_row job_id r) in
              Ok (Some job)
  end.

(** [ORDER BY created_at, job_id]: strictly after. *)
Definition row_after (a b : string * JobRow) : bool :=
  match String.compare (jr_created_at a.2) (jr_created_at b.2) with
  | Gt => true
  | Lt => false
  | Eq => match String.compare a.1 b.1 with Gt => true | _ => false end
  end.

Definition latest_row (l : list (string * JobRow)) : option (string * JobRow) :=
  foldr (fun x acc => match acc with
                      | Some y => if row_after x y then Some x else Some y
                      | None => Some x
                      end) None l.

Definition has_identity (i : JobIdentity) (r : JobRow) : bool :=
  String.eqb (jr_device_id r) (id_device i) && String.eqb (jr_session_id r) (id_session i)
  && String.eqb (jr_revision r) (id_revision i).

(** [read_latest_job_by_identity] (persistence/transfer_store.rs:2331-2357). *)
Definition read_latest_job_by_identity (db : Db) (identity : JobIdentity)
    : result PersistenceError (option StoredJob) :=
  match latest_row (List.filter (fun e => has_identity identity e.2) (map_to_list (t_jobs db))) with
  | None => Ok None
  | Some (job_id, r) =>
      let? job := rmap_err (fun _ => PCorrupt "transfer_jobs" job_id) (read_job_row job_id r) in
      Ok (Some job)
  end.

Definition by_creation (a b : string * JobRow) : Prop := row_after a b = false.
#[global] Instance by_creation_dec : RelDecision by_creation.
Proof. intros a b. unfold by_creation. apply _. Defined.

Definition jobs_in_order (db : Db) : list (string * JobRow) :=
  merge_sort by_creation (map_to_list (t_jobs db)).

(** [TransferStore::list_jobs] (persistence/transfer_store.rs:1008-1025). *)
Definition list_jobs (db : Db) : result PersistenceError (list StoredJob) :=
  rtraverse (fun e => rmap_err (fun _ => PCorrupt "transfer_jobs" e.1) (read_job_row e.1 e.2))
    (jobs_in_order db).

(** [TransferStore::list_visible_jobs] (persistence/transfer_store.rs:1030-1047). *)
Definition list_visible_jobs (db : Db) : result PersistenceError (list StoredJob) :=
  rtraverse (fun e => rmap_err (fun _ => PCorrupt "transfer_jobs" e.1) (read_job_row e.1 e.2))
    (List.filter (fun e => bool_decide (jr_dismissed_at e.2 = None)) (jobs_in_order db)).

(** [RecoveryBlockedReason] (persistence/transfer_store.rs:312-329). *)
Inductive RecoveryBlockedReason :=
| MissingSpec | MissingFiles | UnknownSpecVersion | CorruptSpec | DigestMismatch | UnknownState.

(** [RecoveryBlocked] (persistence/transfer_store.rs:335-342). *)
Record RecoveryBlocked := mkBlocked {
  rb_job_id : string;
  rb_identity : option JobIdentity;
  rb_reason : RecoveryBlockedReason;
}.

(** [blocked_row] (persistence/transfer_store.rs:2406-2429). *)
Definition blocked_row (db : Db) (job_id : string) : RecoveryBlocked :=
  let reason := match jr_state <$> t_jobs db !! job_id with
                | Some state => if bool_decide (tag_from_db_str state = None) then UnknownState
                                else CorruptSpec
                | None => CorruptSpec
                end in
  mkBlocked job_id None reason.

Section store.
Context `{Sha256}.

Definition by_inventory (a b : FileRow) : Prop := (fr_inventory_index a <= fr_inventory_index b)%Z.
#[global] Instance by_inventory_dec : RelDecision by_inventory.
Proof. intros a b. unfold by_inventory. apply _. Defined.

Definition by_index (a b : Z * FileId) : Prop := (a.1 <= b.1)%Z.
#[global] Instance by_index_dec : RelDecision by_index.
Proof. intros a b. unfold by_index. apply _. Defined.

(** [load_spec, file rows] (persistence/transfer_store.rs:2520-2552): the
    inventory and the requested ids with their positions. *)
Fixpoint load_files (rows : list FileRow)
    : result RecoveryBlockedReason (list JobFileSpec * list (Z * FileId)) :=
  match rows with
  | [] => Ok ([], [])
  | r :: rest =>
      let? size_bytes := ok_or (u64_of_i64 (fr_size_bytes r)) CorruptSpec in
      let? file := rmap_err (fun _ => CorruptSpec)
        (JobFileSpec_new (fr_file_id r) (fr_display_path r) size_bytes (fr_sha256 r)) in
      let? here := match fr_request_index r with
                   | Some index => if (index <? 0)%Z then Err CorruptSpec
                                   else Ok [(index, fr_file_id r)]
                   | None => Ok []
                   end in
      let? (files, requested) := load_files rest in
      Ok (file :: files, here ++ requested)%list
  end.

(** [load_spec] (persistence/transfer_store.rs:2437-2602): the reason a
    durable spec cannot be reassembled, or the spec. *)
Definition load_spec_reason (db : Db) (job : StoredJob) : result RecoveryBlockedReason JobSpec :=
  let? row := ok_or (t_specs db !! sj_job_id job) MissingSpec in
  if negb (sr_spec_version row =? Z.of_N CURRENT_JOB_SPEC_VERSION)%Z then Err UnknownSpecVersion else
  let? full_session := (if (sr_full_session row =? 0)%Z then Ok false
                        else if (sr_full_session row =? 1)%Z then Ok true
                        else Err CorruptSpec) in
  match merge_sort by_inventory (files_of db (sj_job_id job)) with
  | [] => Err MissingFiles
  | rows =>
      let? (session_files, requested) := load_files rows in
      match requested with
      | [] => Err MissingFiles
      | _ =>
          let requested_ids := (merge_sort by_index requested).*2 in
          let? publication := rmap_err (fun _ => CorruptSpec)
            (PublicationMaterial_new (sr_publication_revision row) (sr_publication_payload row)
               (sr_publication_signature row) (sr_publication_public_key row)) in
          let? spec := rmap_err (fun _ => CorruptSpec)
            (JobSpec_new (sj_identity job) publication session_files requested_ids full_session
               (sr_date_label row)) in
          if bool_decide (request_digest spec = sj_request_digest job) then Ok spec
          else Err DigestMismatch
      end
  end.

(** [load_spec, blocked record] (persistence/transfer_store.rs:2441-2446). *)
Definition load_spec (db : Db) (job : StoredJob) : result RecoveryBlocked JobSpec :=
  rmap_err (mkBlocked (sj_job_id job) (Some (sj_identity job))) (load_spec_reason db job).

(** [FileLedgerEntry] (persistence/transfer_store.rs:208-216). *)
Record FileLedgerEntry := mkLedgerEntry {
  le_file_id : FileId;
  le_status : FileLedgerStatus;
  le_bytes_confirmed : N;
  le_verified_sha256 : option string;
  le_updated_at : string;
}.

(** [ORDER BY request_index], NULLs first. *)
Definition by_request (a b : option Z * LedgerRow) : Prop :=
  match a.1, b.1 with
  | Some i, Some j => (i <= j)%Z
  | Some _, None => False
  | None, _ => True
  end.
#[global] Instance by_request_dec : RelDecision by_request.
Proof. intros [[i|] ?] [[j|] ?]; unfold by_request; simpl; apply _. Defined.

Definition ledger_joined (db : Db) (job_id : string) : list (option Z * LedgerRow) :=
  l ← ledger_of db job_id;
  f ← List.filter (fun f => String.eqb (fr_file_id f) (lr_file_id l)) (files_of db job_id);
  [(fr_request_index f, l)].

(** [read_ledger] (persistence/transfer_store.rs:2604-2638). *)
Definition read_ledger (db : Db) (job_id : string)
    : result PersistenceError (list FileLedgerEntry) :=
  rtraverse (fun e => let l := e.2 in
    let? bytes := ok_or (u64_of_i64 (lr_bytes_confirmed l)) (PCorrupt "transfer_file_ledger" job_id) in
    let? status := ok_or (ledger_from_db_str (lr_status l)) (PCorrupt "transfer_file_ledger" job_id) in
    Ok (mkLedgerEntry (lr_file_id l) status bytes (lr_verified_sha256 l) (lr_updated_at l)))
  (merge_sort by_request (ledger_joined db job_id)).

(** [JobSpecLoadError] (persistence/transfer_store.rs:370-379). *)
Inductive JobSpecLoadError :=
| SlUnknownJob (job_id : string)
| SlBlocked (b : RecoveryBlocked)
| SlPersistence (e : PersistenceError).

(** [TransferStore::job_spec] (persistence/transfer_store.rs:1063-1071). *)
Definition job_spec (db : Db) (job_id : string) : result JobSpecLoadError JobSpec :=
  let? found := rmap_err SlPersistence (read_job db job_id) in
  let? job := ok_or found (SlUnknownJob job_id) in
  rmap_err SlBlocked (load_spec db job).

(** [RecoverableJob] (persistence/transfer_store.rs:346-357). *)
Inductive RecoverableJob :=
| RjReady (job : StoredJob) (spec : JobSpec) (ledger : list FileLedgerEntry)
| RjBlocked (b : RecoveryBlocked).

(** [RecoverableJob::job_id] (persistence/transfer_store.rs:359-367). *)
Definition rj_job_id (r : RecoverableJob) : string :=
  match r with RjReady job _ _ => sj_job_id job | RjBlocked b => rb_job_id b end.

Definition terminal_text (state : string) : bool :=
  existsb (String.eqb state) ["succeeded"; "failed"; "cancelled"].

(** [list_recoverable_jobs, one row] (persistence/transfer_store.rs:1113-1134). *)
Definition recover_row (db : Db) (e : string * JobRow) : result PersistenceError RecoverableJob :=
  match read_job_row e.1 e.2 with
  | Err _ => Ok (RjBlocked (blocked_row db e.1))
  | Ok job =>
      match load_spec db job with
      | Ok spec => let? ledger := read_ledger db (sj_job_id job) in Ok (RjReady job spec ledger)
      | Err blocked => Ok (RjBlocked blocked)
      end
  end.

(** [TransferStore::list_recoverable_jobs] (persistence/transfer_store.rs:1090-1136). *)
Definition list_recoverable_jobs (db : Db) : result PersistenceError (list RecoverableJob) :=
  rtraverse (recover_row db)
    (List.filter (fun e => String.eqb (jr_operation_kind e.2) "download"
                           && negb (terminal_text (jr_state e.2))) (jobs_in_order db)).

(** ** State transitions *)

(** [TransferStore::transition_job] (persistence/transfer_store.rs:721-772). *)
Definition transition_job (job_id : string) (expected_version : N) (to : JobStateTag)
    (error : option (string * bool)) (now : string) : sm Db PersistenceError N :=
  if tag_is_terminal to then sfail (PConflict (TerminalNeedsCompleteJob to)) else
  if xorb (bool_decide (to = TFailed)) (bool_decide (is_Some error))
  then sfail (PConflict ErrorIffFailed) else
  let! next_version := slift (ok_or (u64_checked_add expected_version 1)
                                (PConflict (StateVersionExhausted job_id))) in
  let! next := slift (checked_i64 next_version "state_version") in
  let! expected := slift (checked_i64 expected_version "expected_version") in
  let! changed := update_job job_id
    (fun r => (jr_state_version r =? expected)%Z && negb (terminal_text (jr_state r)))
    (fun r => mkJobRow (jr_operation_kind r) (jr_natural_key r) (jr_device_id r) (jr_session_id r)
                (jr_revision r) (jr_request_digest r) (tag_as_db_str to) next
                (jr_desired_run_state r) (fst <$> error) ((fun e => Z.b2z e.2) <$> error)
                (jr_created_at r) now (jr_dismissed_at r)) in
  if changed then sret next_version
  else sfail (PConflict (StaleOrTerminal job_id expected_version)).

(** [TransferStore::set_desired_run_state] (persistence/transfer_store.rs:778-812). *)
Definition set_desired_run_state (job_id : string) (desired : DesiredRunState) (now : string)
    (expected_version : option N) : sm Db PersistenceError unit :=
  let! version := slift (match expected_version with
                         | Some v => let? z := checked_i64 v "expected_version" in Ok (Some z)
                         | None => Ok None
                         end) in
  let! changed := update_job job_id
    (fun r => match version with Some z => (jr_state_version r =? z)%Z | None => true end)
    (fun r => mkJobRow (jr_operation_kind r) (jr_natural_key r) (jr_device_id r) (jr_session_id r)
                (jr_revision r) (jr_request_digest r) (jr_state r) (jr_state_version r)
                (desired_run_state_db desired) (jr_error_code r) (jr_error_retryable r)
                (jr_created_at r) now (jr_dismissed_at r)) in
  if changed then sret tt else sfail (PConflict (NotFoundOrStale job_id)).

(** [update_file_ledger, digest] (persistence/transfer_store.rs:856-872). *)
Definition ledger_digest (status : FileLedgerStatus) (verified_sha256 : option string)
    : result PersistenceError (option string) :=
  match status, verified_sha256 with
  | LVerified, None => Err (PConflict VerifiedNeedsDigest)
  | LVerified, Some digest =>
      let? _ := rmap_err (fun e => PConflict (VerifiedDigestInvalid e)) (from_hex digest) in
      Ok (Some digest)
  | _, Some _ => Err (PConflict DigestOnlyForVerified)
  | _, None => Ok None
  end.

(** [update_file_ledger, stored row] (persistence/transfer_store.rs:882-919):
    whether the stored row already says it, or the reason it must stay. *)
Definition ledger_guard (file_id : FileId) (status : FileLedgerStatus) (bytes_confirmed : N)
    (digest : option string) (stored : LedgerRow) : result PersistenceError bool :=
  let? stored_status := ok_or (ledger_from_db_str (lr_status stored))
                              (PCorrupt "transfer_file_ledger" file_id) in
  let? stored_bytes := ok_or (u64_of_i64 (lr_bytes_confirmed stored))
                             (PCorrupt "transfer_file_ledger" file_id) in
  if bool_decide (stored_status = LVerified)
     && (negb (bool_decide (status = LVerified))
         || negb (bool_decide (lr_verified_sha256 stored = digest)))
  then Err (PConflict (VerifiedDowngrade file_id))
  else if (bytes_confirmed <? stored_bytes)%N
  then Err (PConflict (CheckpointBackwards file_id stored_bytes bytes_confirmed))
  else Ok (bool_decide (stored_status = LVerified)
           && bool_decide (lr_verified_sha256 stored = digest)
           && (bytes_confirmed =? stored_bytes)%N).

(** [UPDATE transfer_file_ledger .. WHERE job_id = ?1 AND file_id = ?2]. *)
Definition write_ledger (job_id : string) (row : LedgerRow) : sm Db PersistenceError unit :=
  fun db =>
    if ledger_row_ok row
    then (with_ledger (<[job_id := (fun l => if String.eqb (lr_file_id l) (lr_file_id row)
                                             then row else l) <$> ledger_of db job_id]>
                         (t_ledger db)) db, Ok tt)
    else (db, Err (PSqlite (SqCheck "transfer_file_ledger"))).

(** [TransferStore::update_file_ledger] (persistence/transfer_store.rs:818-934). *)
Definition update_file_ledger (job_id : string) (file_id : FileId) (status : FileLedgerStatus)
    (bytes_confirmed : N) (verified_sha256 : option string) (now : string)
    : sm Db PersistenceError unit :=
  let! db := sget in
  let! f := slift (ok_or (find (fun f => String.eqb (fr_file_id f) file_id) (files_of db job_id))
                         (PNotFound file_id)) in
  let! expected_size := slift (ok_or (u64_of_i64 (fr_size_bytes f))
                                     (PCorrupt "transfer_job_files" file_id)) in
  if (expected_size <? bytes_confirmed)%N
  then sfail (PConflict (CheckpointExceedsSize file_id bytes_confirmed expected_size)) else
  let! digest := slift (ledger_digest status verified_sha256) in
  transaction (
    let! already := slift (
      match find (fun l => String.eqb (lr_file_id l) file_id) (ledger_of db job_id) with
      | Some stored => ledger_guard file_id status bytes_confirmed digest stored
      | None => Ok false
      end) in
    if already : bool then sret tt else
    let! bytes := slift (checked_i64 bytes_confirmed "bytes_confirmed") in
    write_ledger job_id (mkLedgerRow file_id (ledger_as_db_str status) bytes digest now)).

(** ** Creation *)

(** [CreateJobOutcome] (persistence/transfer_store.rs:232-238). *)
Inductive CreateJobOutcome := CjCreated (job : StoredJob) | CjExisting (job : StoredJob).

(** The data of [describe_digest_mismatch]'s message. *)
Inductive MismatchDetail :=
| StoredSpecUnusable (reason : RecoveryBlockedReason)
| PublicationDiffers
| FullSessionDiffers (stored requested : bool)
| InventoryLengthDiffers (stored requested : nat)
| InventoryEntryDiffers (stored requested : JobFileSpec)
| RequestedPlanDiffers (stored requested : list FileId)
| DigestsDiffer.

(** [JobRequestConflict] (persistence/transfer_store.rs:259-265). *)
Record JobRequestConflict := mkRequestConflict {
  rc_job_id : string;
  rc_identity : JobIdentity;
  rc_existing_digest : list byte;
  rc_requested_digest : list byte;
  rc_detail : MismatchDetail;
}.

(** [CreateJobError] (persistence/transfer_store.rs:268-286). *)
Inductive CreateJobError :=
| CjRequestDigestMismatch (c : JobRequestConflict)
| CjJobIdCollision (job_id existing : string)
| CjPersistence (e : PersistenceError).

(** [CreateJobAbort] (persistence/transfer_store.rs:299-304). *)
Inductive CreateJobAbort := AfterJobRow | AfterSpecRow | AfterFiles | AfterLedger.

#[global] Instance CreateJobAbort_eq_dec : EqDecision CreateJobAbort.
Proof. solve_decision. Defined.

Definition abort_name (a : CreateJobAbort) : string :=
  match a with
  | AfterJobRow => "AfterJobRow" | AfterSpecRow => "AfterSpecRow"
  | AfterFiles => "AfterFiles" | AfterLedger => "AfterLedger"
  end.

(** [abort_if] (persistence/transfer_store.rs:2237-2244). *)
Definition abort_if {S : Type} (abort : option CreateJobAbort) (stage : CreateJobAbort)
    : sm S CreateJobError unit :=
  if bool_decide (abort = Some stage)
  then sfail (CjPersistence (PConflict (SimulatedCrash (abort_name stage))))
  else sret tt.

(** [describe_digest_mismatch] (persistence/transfer_store.rs:2248-2306). *)
Definition describe_digest_mismatch (db : Db) (existing : StoredJob) (spec : JobSpec)
    : MismatchDetail :=
  match load_spec db existing with
  | Err blocked => StoredSpecUnusable (rb_reason blocked)
  | Ok stored =>
      if negb (bool_decide (sp_publication stored = sp_publication spec)) then PublicationDiffers
      else if negb (Bool.eqb (sp_full_session stored) (sp_full_session spec))
      then FullSessionDiffers (sp_full_session stored) (sp_full_session spec)
      else if negb (length (sp_session_files stored) =? length (sp_session_files spec))%nat
      then InventoryLengthDiffers (length (sp_session_files stored)) (length (sp_session_files spec))
      else match find (fun p => negb (bool_decide (p.1 = p.2)))
                   (zip (sp_session_files stored) (sp_session_files spec)) with
           | Some (a, b) => InventoryEntryDiffers a b
           | None =>
               let stored_plan := fs_file_id <$> requested_files stored in
               let new_plan := fs_file_id <$> requested_files spec in
               if negb (bool_decide (stored_plan = new_plan))
               then RequestedPlanDiffers stored_plan new_plan
               else DigestsDiffer
           end
  end.

(** [insert_job_tx, file rows] (persistence/transfer_store.rs:2063-2083). *)
Definition insert_file_of (job_id : string) (spec : JobSpec) (e : nat * JobFileSpec)
    : sm Db PersistenceError unit :=
  let '(inventory_index, file) := e in
  let! request_index := slift (
    match request_position spec (fs_file_id file) with
    | Some index => let? z := checked_i64 (N.of_nat index) "request_index" in Ok (Some z)
    | None => Ok None
    end) in
  let! inventory := slift (checked_i64 (N.of_nat inventory_index) "inventory_index") in
  let! size := slift (checked_i64 (fs_size_bytes file) "size_bytes") in
  insert_file job_id (mkFileRow inventory request_index (fs_file_id file) (fs_display_path file)
                        size (fs_sha256 file)).

Definition queued_row (identity : JobIdentity) (kind : OperationKind) (natural_key digest now : string)
    : JobRow :=
  mkJobRow (op_as_db_str kind) natural_key (id_device identity) (id_session identity)
    (id_revision identity) digest "queued" 1 "run" None None now now None.

(** [insert_job_tx] (persistence/transfer_store.rs:1992-2106). *)
Definition insert_job_tx (job_id : string) (spec : JobSpec) (now : string)
    (abort : option CreateJobAbort) : sm Db CreateJobError CreateJobOutcome :=
  let identity := sp_identity spec in
  let requested_digest := request_digest spec in
  let! db := sget in
  let! found := slift (rmap_err CjPersistence (read_latest_job_by_identity db identity)) in
  match found with
  | Some existing =>
      if bool_decide (sj_request_digest existing = requested_digest)
      then sret (CjExisting existing)
      else sfail (CjRequestDigestMismatch
             (mkRequestConflict (sj_job_id existing) (sj_identity existing)
                (sj_request_digest existing) requested_digest
                (describe_digest_mismatch db existing spec)))
  | None =>
      let! taken := slift (rmap_err CjPersistence (read_job db job_id)) in
      match taken with
      | Some existing => sfail (CjJobIdCollision job_id (identity_to_string (sj_identity existing)))
      | None =>
          do! serr CjPersistence (insert_job job_id
                (queued_row identity OpDownload (natural_key identity) (to_hex requested_digest) now)) then!
          do! abort_if abort AfterJobRow then!
          let publication := sp_publication spec in
          do! serr CjPersistence (insert_spec job_id
                (mkSpecRow (Z.of_N CURRENT_JOB_SPEC_VERSION) (Z.b2z (sp_full_session spec))
                   (sp_date_label spec) (pm_revision publication) (pm_payload publication)
                   (pm_signature publication) (pm_public_key publication))) then!
          do! abort_if abort AfterSpecRow then!
          do! serr CjPersistence (sforeach (insert_file_of job_id spec)
                (imap (fun i f => (i, f)) (sp_session_files spec))) then!
          do! abort_if abort AfterFiles then!
          do! serr CjPersistence (sforeach (fun f =>
                insert_ledger job_id (mkLedgerRow (fs_file_id f) (ledger_as_db_str LMissing) 0 None now))
                (requested_files spec)) then!
          do! abort_if abort AfterLedger then!
          let! after := sget in
          let! inserted := slift (rmap_err CjPersistence (read_job after job_id)) in
          let! job := slift (ok_or inserted (CjPersistence (PNotFound job_id))) in
          sret (CjCreated job)
      end
  end.

(** [TransferStore::create_job] (persistence/transfer_store.rs:954-985): with
    the crash point of [create_job_aborting_after]. *)
Definition create_job (job_id : string) (spec : JobSpec) (now : string)
    (abort : option CreateJobAbort) : sm Db CreateJobError CreateJobOutcome :=
  transaction (insert_job_tx job_id spec now abort).

(** ** Terminal outcomes and the completion outbox *)

(** [TerminalOutcome::state_tag] (persistence/transfer_store.rs:458-464). *)
Definition outcome_tag (o : TerminalOutcome) : JobStateTag :=
  match o with ToSucceeded => TSucceeded | ToFailed _ _ => TFailed | ToCancelled => TCancelled end.

(** [TerminalOutcome::as_db_str] (persistence/transfer_store.rs:467-469). *)
Definition outcome_as_db_str (o : TerminalOutcome) : string := tag_as_db_str (outcome_tag o).

(** [TerminalOutcome::error_columns] (persistence/transfer_store.rs:476-483). *)
Definition error_columns (o : TerminalOutcome) : option string * option Z :=
  match o with
  | ToFailed code retryable => (Some code, Some (Z.b2z retryable))
  | _ => (None, None)
  end.

(** [TerminalOutcome::from_columns] (persistence/transfer_store.rs:485-501). *)
Definition outcome_from_columns (outcome : string) (code : option string) (retryable : option Z)
    : option TerminalOutcome :=
  if String.eqb outcome "succeeded" then Some ToSucceeded
  else if String.eqb outcome "cancelled" then Some ToCancelled
  else if String.eqb outcome "failed" then
    c ← code; r ← retryable; Some (ToFailed c (negb (r =? 0)%Z))
  else None.

(** [CompletionRecord] (persistence/transfer_store.rs:519-534). *)
Record CompletionRecord := mkCompletion {
  cr_sequence : N;
  cr_job_id : string;
  cr_operation_kind : OperationKind;
  cr_outcome : TerminalOutcome;
  cr_state_version : N;
  cr_recorded_at : string;
  cr_acknowledged_at : option string;
}.

(** [CompletionRecord::is_acknowledged] (persistence/transfer_store.rs:538-540). *)
Definition is_acknowledged (c : CompletionRecord) : bool :=
  bool_decide (is_Some (cr_acknowledged_at c)).

(** [read_completion_row] (persistence/transfer_store.rs:2205-2235). *)
Definition read_completion_row (job_id : string) (r : OutboxRow)
    : result PersistenceError CompletionRecord :=
  let corrupt := PCorrupt "transfer_completion_outbox" job_id in
  let? sequence := ok_or (u64_of_i64 (or_sequence r)) corrupt in
  let? operation_kind := ok_or (op_from_db_str (or_operation_kind r)) corrupt in
  let? state_version := ok_or (u64_of_i64 (or_state_version r)) corrupt in
  let? outcome := ok_or (outcome_from_columns (or_outcome r) (or_error_code r) (or_error_retryable r))
                        corrupt in
  Ok (mkCompletion sequence job_id operation_kind outcome state_version (or_recorded_at r)
        (or_acknowledged_at r)).

(** [read_completion] (persistence/transfer_store.rs:2157-2178). *)
Definition read_completion (db : Db) (job_id : string)
    : result PersistenceError (option CompletionRecord) :=
  match t_outbox db !! job_id with
  | None => Ok None
  | Some r => let? c := read_completion_row job_id r in Ok (Some c)
  end.

Definition by_sequence (a b : string * OutboxRow) : Prop := (or_sequence a.2 <= or_sequence b.2)%Z.
#[global] Instance by_sequence_dec : RelDecision by_sequence.
Proof. intros a b. unfold by_sequence. apply _. Defined.

(** [read_completions] (persistence/transfer_store.rs:2180-2203). *)
Definition read_completions (db : Db) (unacknowledged_only : bool)
    : result PersistenceError (list CompletionRecord) :=
  rtraverse (fun e => read_completion_row e.1 e.2)
    (List.filter (fun e => negb unacknowledged_only
                           || bool_decide (or_acknowledged_at e.2 = None))
       (merge_sort by_sequence (map_to_list (t_outbox db)))).

(** [TransferStore::pending_completions] (persistence/transfer_store.rs:1426-1428). *)
Definition pending_completions (db : Db) := read_completions db true.

(** [CompleteJobError] (persistence/transfer_store.rs:573-590). *)
Inductive CompleteJobError :=
| CpUnknownJob (job_id : string)
| CpAlreadyTerminal (job_id : string) (existing requested : TerminalOutcome)
| CpPersistence (e : PersistenceError).

(** [CompleteJobOutcome] (persistence/transfer_store.rs:545-554). *)
Inductive CompleteJobOutcome := CpRecorded (r : CompletionRecord) | CpAlreadyRecorded (r : CompletionRecord).

(** [CompleteJobAbort] (persistence/transfer_store.rs:603-606). *)
Inductive CompleteJobAbort := AfterStateUpdate | AfterOutboxRow.

#[global] Instance CompleteJobAbort_eq_dec : EqDecision CompleteJobAbort.
Proof. solve_decision. Defined.

(** [abort_completion_if] (persistence/transfer_store.rs:2142-2152). *)
Definition abort_completion_if {S : Type} (abort : option CompleteJobAbort) (stage : CompleteJobAbort)
    : sm S CompleteJobError unit :=
  if bool_decide (abort = Some stage)
  then sfail (CpPersistence (PConflict (SimulatedCrash
         (match stage with AfterStateUpdate => "AfterStateUpdate" | AfterOutboxRow => "AfterOutboxRow" end))))
  else sret tt.

(** The CHECK clauses of [transfer_completion_outbox]. *)
Definition outbox_row_ok (r : OutboxRow) : bool :=
  bool_decide (is_Some (op_from_db_str (or_operation_kind r)))
  && terminal_text (or_outcome r) && (1 <=? or_state_version r)%Z
  && Bool.eqb (is_failed_text (or_outcome r)) (bool_decide (is_Some (or_error_code r)))
  && Bool.eqb (is_failed_text (or_outcome r)) (bool_decide (is_Some (or_error_retryable r))).

(** [INSERT INTO transfer_completion_outbox]: the next AUTOINCREMENT key. *)
Definition insert_outbox (job_id : string) (row : Z -> OutboxRow) : sm Db PersistenceError unit :=
  owned_by job_id (fun db =>
    let seq := (t_outbox_seq db + 1)%Z in
    if bool_decide (is_Some (t_outbox db !! job_id)) then (db, Err (PSqlite (SqUnique "job_id")))
    else if (Z.of_N i64_max <? seq)%Z then (db, Err (PSqlite SqFull))
    else if negb (outbox_row_ok (row seq))
    then (db, Err (PSqlite (SqCheck "transfer_completion_outbox")))
    else (with_outbox (<[job_id := row seq]> (t_outbox db)) seq db, Ok tt)).

(** [insert_outbox_row] (persistence/transfer_store.rs:2108-2140). *)
Definition insert_outbox_row (job_id : string) (outcome : TerminalOutcome) (state_version : N)
    (now : string) : sm Db PersistenceError CompletionRecord :=
  let! db := sget in
  let! job := slift (ok_or (t_jobs db !! job_id) (PSqlite SqNoRows)) in
  let! version := slift (checked_i64 state_version "state_version") in
  do! insert_outbox job_id (fun seq =>
        mkOutboxRow seq (jr_operation_kind job) (outcome_as_db_str outcome)
          (error_columns outcome).1 (error_columns outcome).2 version now None) then!
  let! after := sget in
  let! found := slift (read_completion after job_id) in
  slift (ok_or found (PNotFound job_id)).

(** [complete_job, ending of a terminal row] (persistence/transfer_store.rs:1361-1376). *)
Definition ending_of (job : StoredJob) : option TerminalOutcome :=
  match sj_state job, sj_error job with
  | TSucceeded, _ => Some ToSucceeded
  | TCancelled, _ => Some ToCancelled
  | TFailed, Some (code, retryable) => Some (ToFailed code retryable)
  | _, _ => None
  end.

Definition set_outcome (outcome : TerminalOutcome) (version : Z) (now : string) (r : JobRow) : JobRow :=
  mkJobRow (jr_operation_kind r) (jr_natural_key r) (jr_device_id r) (jr_session_id r)
    (jr_revision r) (jr_request_digest r) (outcome_as_db_str outcome) version
    (jr_desired_run_state r) (error_columns outcome).1 (error_columns outcome).2
    (jr_created_at r) now (jr_dismissed_at r).

(** [TransferStore::complete_job_inner] (persistence/transfer_store.rs:1334-1418). *)
Definition complete_job (job_id : string) (outcome : TerminalOutcome) (now : string)
    (abort : option CompleteJobAbort) : sm Db CompleteJobError CompleteJobOutcome :=
  transaction (
    let! db := sget in
    let! found := slift (rmap_err CpPersistence (read_job db job_id)) in
    let! job := slift (ok_or found (CpUnknownJob job_id)) in
    let! recorded := slift (rmap_err CpPersistence (read_completion db job_id)) in
    match recorded with
    | Some existing =>
        if bool_decide (cr_outcome existing = outcome) then sret (CpAlreadyRecorded existing)
        else sfail (CpAlreadyTerminal job_id (cr_outcome existing) outcome)
    | None =>
        if tag_is_terminal (sj_state job) then
          let! existing := slift (ok_or (ending_of job) (CpPersistence (PCorrupt "transfer_jobs" job_id))) in
          if bool_decide (existing = outcome) then
            let! record := serr CpPersistence
              (insert_outbox_row job_id outcome (sj_state_version job) now) in
            sret (CpRecorded record)
          else sfail (CpAlreadyTerminal job_id existing outcome)
        else
          let! next_version := slift (ok_or (u64_checked_add (sj_state_version job) 1)
            (CpPersistence (PConflict (StateVersionExhausted job_id)))) in
          let! version := slift (rmap_err CpPersistence (checked_i64 next_version "state_version")) in
          let! _ := serr CpPersistence
            (update_job job_id (fun _ => true) (set_outcome outcome version now)) in
          do! abort_completion_if abort AfterStateUpdate then!
          let! record := serr CpPersistence (insert_outbox_row job_id outcome next_version now) in
          do! abort_completion_if abort AfterOutboxRow then!
          sret (CpRecorded record)
    end).

(** [AckOutcome] (persistence/transfer_store.rs:610-620). *)
Inductive AckOutcome :=
| Acknowledged (r : CompletionRecord)
| AlreadyAcknowledged (r : CompletionRecord)
| AckUnknown.

Definition stamp_ack (now : string) (r : OutboxRow) : OutboxRow :=
  mkOutboxRow (or_sequence r) (or_operation_kind r) (or_outcome r) (or_error_code r)
    (or_error_retryable r) (or_state_version r) (or_recorded_at r) (Some now).

(** [TransferStore::acknowledge_completion] (persistence/transfer_store.rs:1442-1464). *)
Definition acknowledge_completion (job_id now : string) : sm Db PersistenceError AckOutcome :=
  transaction (
    let! db := sget in
    let! found := slift (read_completion db job_id) in
    match found with
    | None => sret AckUnknown
    | Some existing =>
        if is_acknowledged existing then sret (AlreadyAcknowledged existing) else
        do! (fun d => (with_outbox (alter (stamp_ack now) job_id (t_outbox d)) (t_outbox_seq d) d,
                       Ok tt)) then!
        let! after := sget in
        let! found' := slift (read_completion after job_id) in
        let! acknowledged := slift (ok_or found' (PNotFound job_id)) in
        sret (Acknowledged acknowledged)
    end).

(** ** Retry lineage *)

(** [RetryJobError] (persistence/transfer_store.rs:145-171). *)
Inductive RetryJobError :=
| RtUnknownJob (job_id : string)
| RtNotRetryable (job_id : string)
| RtDismissedParent (job_id : string)
| RtUnacknowledgedParent (job_id : string)
| RtSuccessfulDescendant (parent_job_id child_job_id : string)
| RtJobIdCollision (job_id : string)
| RtPersistence (e : PersistenceError).

(** [RetryJobOutcome] (persistence/transfer_store.rs:125-128). *)
Inductive RetryJobOutcome := RtCreated (job : StoredJob) | RtExisting (job : StoredJob).

(** [length_prefixed_key_for_retry] (persistence/transfer_store.rs:1979-1987). *)
Definition length_prefixed_key_for_retry (entry_key revision : string) : string :=
  key_part entry_key ++ key_part revision.

Definition children_of (db : Db) (parent : string) : list (string * LineageRow) :=
  List.filter (fun e => String.eqb (ln_parent_job_id e.2) parent) (map_to_list (t_lineage db)).

(** [ORDER BY l.attempt DESC LIMIT 1]. *)
Definition latest_attempt (l : list (string * LineageRow)) : option (string * LineageRow) :=
  foldr (fun x acc => match acc with
                      | Some y => if (ln_attempt y.2 <? ln_attempt x.2)%Z then Some x else Some y
                      | None => Some x
                      end) None l.

(** [JOIN transfer_jobs j ON j.job_id = l.child_job_id]. *)
Definition joined_children (db : Db) (parent : string) (p : JobRow -> bool)
    : list (string * LineageRow) :=
  List.filter (fun e => match t_jobs db !! e.1 with Some r => p r | None => false end)
    (children_of db parent).

(** [TransferStore::latest_retry_child] (persistence/transfer_store.rs:1469-1486). *)
Definition latest_retry_child (db : Db) (parent : string) : result PersistenceError (option StoredJob) :=
  match latest_attempt (children_of db parent) with
  | Some (child, _) => read_job db child
  | None => Ok None
  end.

(** [INSERT INTO transfer_job_lineage]. *)
Definition insert_lineage (child : string) (row : LineageRow) : sm Db PersistenceError unit :=
  owned_by child (owned_by (ln_parent_job_id row) (fun db =>
    if bool_decide (is_Some (t_lineage db !! child)) then (db, Err (PSqlite (SqUnique "child_job_id")))
    else if existsb (fun e => (ln_attempt e.2 =? ln_attempt row)%Z)
              (children_of db (ln_parent_job_id row))
    then (db, Err (PSqlite (SqUnique "parent_job_id, attempt")))
    else if (ln_attempt row <? 1)%Z then (db, Err (PSqlite (SqCheck "transfer_job_lineage")))
    else (with_lineage (<[child := row]> (t_lineage db)) db, Ok tt))).

(** [spawn_retry_job_inner, upload child] (persistence/transfer_store.rs:1613-1699). *)
Definition spawn_upload_child (parent : StoredJob) (child_job_id : string) (attempt : Z) (now : string)
    : sm Db RetryJobError unit :=
  let parent_job_id := sj_job_id parent in
  let! db := sget in
  let! spec := slift (ok_or (t_upload_specs db !! parent_job_id)
    (RtPersistence (PCorrupt "transfer_upload_job_specs" parent_job_id))) in
  let key := "upload:" ++ length_prefixed_key_for_retry (us_entry_key spec) (us_revision spec)
             ++ "#retry:" ++ child_job_id in
  do! serr RtPersistence (insert_job child_job_id
        (queued_row (sj_identity parent) OpUpload key (to_hex (sj_request_digest parent)) now)) then!
  do! serr RtPersistence (owned_by child_job_id (fun d =>
        (with_upload_specs (<[child_job_id := mkUploadSpecRow (us_entry_key spec) (us_revision spec)
                                (us_input_digest spec) (us_object_prefix spec) "library_publication" None]>
                              (t_upload_specs d)) d, Ok tt))) then!
  let! activity := slift (ok_or (t_activity db !! parent_job_id)
    (RtPersistence (PCorrupt "transfer_upload_activity" parent_job_id))) in
  do! serr RtPersistence (owned_by child_job_id (fun d =>
        (with_activity (<[child_job_id := mkActivityRow (ac_label activity) (ac_target_label activity)
                            (ac_total_bytes activity) 0 now now]> (t_activity d)) d, Ok tt))) then!
  serr RtPersistence (insert_lineage child_job_id (mkLineageRow parent_job_id attempt now)).

(** [spawn_retry_job_inner, download child] (persistence/transfer_store.rs:1700-1743). *)
Definition spawn_download_child (parent : StoredJob) (child_job_id : string) (attempt : Z)
    (now : string) : sm Db RetryJobError unit :=
  let parent_job_id := sj_job_id parent in
  let! db := sget in
  let key := natural_key (sj_identity parent) ++ "#retry:" ++ child_job_id in
  do! serr RtPersistence (insert_job child_job_id
        (queued_row (sj_identity parent) OpDownload key (to_hex (sj_request_digest parent)) now)) then!
  do! serr RtPersistence (match t_specs db !! parent_job_id with
                          | Some row => insert_spec child_job_id row
                          | None => sret tt
                          end) then!
  do! serr RtPersistence (sforeach (insert_file child_job_id) (files_of db parent_job_id)) then!
  do! serr RtPersistence (sforeach (fun l => insert_ledger child_job_id
        (mkLedgerRow (lr_file_id l) (lr_status l) (lr_bytes_confirmed l) (lr_verified_sha256 l) now))
        (ledger_of db parent_job_id)) then!
  serr RtPersistence (insert_lineage child_job_id (mkLineageRow parent_job_id attempt now)).

(** [spawn_retry_job_inner, guards] (persistence/transfer_store.rs:1522-1570):
    the parent, once every guard passed. *)
Definition retry_parent_checked (db : Db) (parent_job_id : string) (allow_cancelled_upload : bool)
    : result RetryJobError StoredJob :=
  let? found := rmap_err RtPersistence (read_job db parent_job_id) in
  let? parent := ok_or found (RtUnknownJob parent_job_id) in
  if bool_decide (is_Some (sj_dismissed_at parent)) then Err (RtDismissedParent parent_job_id) else
  let retryable_failed := bool_decide (sj_state parent = TFailed)
                          && match sj_error parent with Some (_, r) => r | None => false end in
  let acknowledged_cancelled_upload :=
    allow_cancelled_upload && bool_decide (sj_operation_kind parent = OpUpload)
    && bool_decide (sj_state parent = TCancelled) in
  if negb retryable_failed && negb acknowledged_cancelled_upload
  then Err (RtNotRetryable parent_job_id) else
  let? recorded := rmap_err RtPersistence (read_completion db parent_job_id) in
  let? completion := ok_or recorded (RtUnacknowledgedParent parent_job_id) in
  if negb (is_acknowledged completion) then Err (RtUnacknowledgedParent parent_job_id) else
  match sj_operation_kind parent,
        latest_attempt (joined_children db parent_job_id
                          (fun r => String.eqb (jr_state r) "succeeded")) with
  | OpUpload, Some (child, _) => Err (RtSuccessfulDescendant parent_job_id child)
  | _, _ => Ok parent
  end.

(** [TransferStore::spawn_retry_job_inner] (persistence/transfer_store.rs:1514-1751). *)
Definition spawn_retry_job_inner (parent_job_id child_job_id now : string)
    (allow_cancelled_upload : bool) : sm Db RetryJobError RetryJobOutcome :=
  transaction (
    let! db := sget in
    let! parent := slift (retry_parent_checked db parent_job_id allow_cancelled_upload) in
    let! taken := slift (rmap_err RtPersistence (read_job db child_job_id)) in
    match taken with
    | Some existing =>
        if bool_decide (ln_parent_job_id <$> t_lineage db !! child_job_id = Some parent_job_id)
        then sret (RtExisting existing)
        else sfail (RtJobIdCollision child_job_id)
    | None =>
        let previous := latest_attempt (joined_children db parent_job_id (fun _ => true)) in
        let! live := slift (match previous with
          | Some (existing_id, _) =>
              let? job := rmap_err RtPersistence (read_job db existing_id) in
              Ok (match job with
                  | Some existing => if tag_is_terminal (sj_state existing) then None else Some existing
                  | None => None
                  end)
          | None => Ok None
          end) in
        match live with
        | Some existing => sret (RtExisting existing)
        | None =>
            let! attempt := slift (match previous with
              | Some (_, row) => if (ln_attempt row <? Z.of_N i64_max)%Z then Ok (ln_attempt row + 1)%Z
                                 else Err (RtPersistence (PConflict (RetryAttemptsExhausted parent_job_id)))
              | None => Ok 1%Z
              end) in
            do! (match sj_operation_kind parent with
                 | OpUpload => spawn_upload_child parent child_job_id attempt now
                 | OpDownload => spawn_download_child parent child_job_id attempt now
                 end) then!
            let! after := sget in
            let! found := slift (rmap_err RtPersistence (read_job after child_job_id)) in
            let! child := slift (ok_or found (RtPersistence (PNotFound child_job_id))) in
            sret (RtCreated child)
        end
    end).

(** [TransferStore::spawn_retry_job] (persistence/transfer_store.rs:1492-1499). *)
Definition spawn_retry_job (parent_job_id child_job_id now : string) :=
  spawn_retry_job_inner parent_job_id child_job_id now false.

(** [TransferStore::spawn_upload_retry_job] (persistence/transfer_store.rs:1505-1512). *)
Definition spawn_upload_retry_job (parent_job_id child_job_id now : string) :=
  spawn_retry_job_inner parent_job_id child_job_id now true.

(** ** Dismissal, deletion, retargeting *)

(** [DismissJobError] (persistence/transfer_store.rs:177-192). *)
Inductive DismissJobError :=
| DmUnknownJob (job_id : string)
| DmNotTerminal (job_id state : string)
| DmUnacknowledged (job_id : string)
| DmPendingMultipart (job_id : string)
| DmPersistence (e : PersistenceError).

(** [dismiss_job, pending multipart rows] (persistence/transfer_store.rs:1820-1836). *)
Definition pending_uploads_of (db : Db) (job_id : string) : list UploadRow :=
  List.filter (fun u =>
    match up_job_id u with
    | Some j => String.eqb j job_id
    | None => String.eqb (up_transfer_key u) job_id
              || match us_entry_key <$> t_upload_specs db !! job_id with
                 | Some k => negb (str_len k =? 0)%N && String.eqb (up_entry_key u) k
                 | None => false
                 end
    end) (t_uploads db).

(** [TransferStore::dismiss_job] (persistence/transfer_store.rs:1797-1850). *)
Definition dismiss_job (job_id now : string) : sm Db DismissJobError bool :=
  transaction (
    let! db := sget in
    let! found := slift (rmap_err DmPersistence (read_job db job_id)) in
    let! job := slift (ok_or found (DmUnknownJob job_id)) in
    if bool_decide (is_Some (sj_dismissed_at job)) then sret false else
    if negb (tag_is_terminal (sj_state job))
    then sfail (DmNotTerminal job_id (tag_as_db_str (sj_state job))) else
    let! recorded := slift (rmap_err DmPersistence (read_completion db job_id)) in
    let! completion := slift (ok_or recorded (DmUnacknowledged job_id)) in
    if negb (is_acknowledged completion) then sfail (DmUnacknowledged job_id) else
    if bool_decide (sj_operation_kind job = OpUpload)
       && negb (length (pending_uploads_of db job_id) =? 0)%nat
    then sfail (DmPendingMultipart job_id) else
    serr DmPersistence (update_job job_id (fun r => bool_decide (jr_dismissed_at r = None))
      (fun r => mkJobRow (jr_operation_kind r) (jr_natural_key r) (jr_device_id r) (jr_session_id r)
                  (jr_revision r) (jr_request_digest r) (jr_state r) (jr_state_version r)
                  (jr_desired_run_state r) (jr_error_code r) (jr_error_retryable r)
                  (jr_created_at r) now (Some now)))).

Definition owned_upload (id : string) (u : UploadRow) : bool := bool_decide (up_job_id u = Some id).

(** The part rows of an upload row. *)
Definition part_of (u : UploadRow) (p : PartRow) : bool :=
  String.eqb (pt_object_key p) (up_object_key u) && String.eqb (pt_upload_id p) (up_upload_id u).

(** [DELETE FROM transfer_jobs WHERE job_id = id]: the ON DELETE clauses. *)
Definition delete_job_row (id : string) : sm Db PersistenceError bool :=
  fun db =>
    match t_jobs db !! id with
    | None => (db, Ok false)
    | Some _ =>
        if negb (length (children_of db id) =? 0)%nat then (db, Err (PSqlite SqForeignKey))
        else (mkDb (delete id (t_jobs db)) (delete id (t_specs db)) (delete id (t_files db))
                (delete id (t_ledger db)) (delete id (t_outbox db)) (t_outbox_seq db)
                (delete id (t_lineage db)) (delete id (t_upload_specs db)) (delete id (t_activity db))
                (List.filter (fun u => negb (owned_upload id u)) (t_uploads db))
                (List.filter (fun p => negb (existsb (fun u => owned_upload id u && part_of u p) (t_uploads db)))
                   (t_parts db))
                (delete id (t_receipts db)) (delete id (t_derived db)),
              Ok true)
    end.

(** [TransferStore::delete_job] (persistence/transfer_store.rs:1858-1874). *)
Definition delete_job (job_id : string) : sm Db PersistenceError bool :=
  transaction (
    let! db := sget in
    let! recorded := slift (read_completion db job_id) in
    match recorded with
    | Some completion =>
        if negb (is_acknowledged completion)
        then sfail (PConflict (UnacknowledgedOutcome job_id (cr_outcome completion)))
        else delete_job_row job_id
    | None => delete_job_row job_id
    end).

Definition move_key {A : Type} (old new : string) (m : gmap string A) : gmap string A :=
  match m !! old with
  | Some v => <[new := v]> (delete old m)
  | None => m
  end.

(** Rows that still reference [id] when the deferred foreign keys are checked. *)
Definition dangling (db : Db) (id : string) : bool :=
  bool_decide (is_Some (t_lineage db !! id)) || negb (length (children_of db id) =? 0)%nat
  || bool_decide (is_Some (t_upload_specs db !! id)) || bool_decide (is_Some (t_activity db !! id))
  || existsb (owned_upload id) (t_uploads db)
  || bool_decide (is_Some (t_receipts db !! id)) || bool_decide (is_Some (t_derived db !! id)).

(** [TransferStore::retarget_job, outcome] (persistence/transfer_store.rs:1911-1925). *)
Definition drop_acknowledged_outcome (job_id : string) : sm Db PersistenceError unit :=
  let! db := sget in
  let! recorded := slift (read_completion db job_id) in
  match recorded with
  | Some completion =>
      if negb (is_acknowledged completion)
      then sfail (PConflict (UnacknowledgedOutcome job_id (cr_outcome completion)))
      else fun d => (with_outbox (delete job_id (t_outbox d)) (t_outbox_seq d) d, Ok tt)
  | None => sret tt
  end.

Definition requeue (now : string) (r : JobRow) : JobRow :=
  mkJobRow (jr_operation_kind r) (jr_natural_key r) (jr_device_id r) (jr_session_id r)
    (jr_revision r) (jr_request_digest r) "queued" (jr_state_version r + 1)%Z
    (jr_desired_run_state r) None None (jr_created_at r) now None.

(** [TransferStore::retarget_job] (persistence/transfer_store.rs:1889-1951). *)
Definition retarget_job (old_job_id new_job_id now : string) : sm Db PersistenceError StoredJob :=
  transaction (
    let! db := sget in
    let! old := slift (read_job db old_job_id) in
    if bool_decide (old = None) then sfail (PNotFound old_job_id) else
    let! new := slift (read_job db new_job_id) in
    if bool_decide (is_Some new) then sfail (PConflict (JobIdTaken new_job_id)) else
    do! drop_acknowledged_outcome old_job_id then!
    do! (fun d => (mkDb (move_key old_job_id new_job_id (alter (requeue now) old_job_id (t_jobs d)))
                     (move_key old_job_id new_job_id (t_specs d))
                     (move_key old_job_id new_job_id (t_files d))
                     (move_key old_job_id new_job_id (t_ledger d))
                     (t_outbox d) (t_outbox_seq d) (t_lineage d) (t_upload_specs d) (t_activity d)
                     (t_uploads d) (t_parts d) (t_receipts d) (t_derived d), Ok tt)) then!
    let! after := sget in
    let! found := slift (read_job after new_job_id) in
    let! moved := slift (ok_or found (PNotFound new_job_id)) in
    if (Z.of_N i64_max <? Z.of_N (sj_state_version moved))%Z
    then sfail (PCorrupt "transfer_jobs" new_job_id)
    else if dangling after old_job_id then sfail (PSqlite SqForeignKey)
    else sret moved).

End store.
