(* ===== verification/StoreProofs.v ===== *)
(** * StoreProofs: what the job store guarantees

The invariant of the durable tables, its preservation by every operation
of TransferStore.v, and the guarantees clients rely on: transitions are
compare-and-set, a terminal outcome is recorded exactly once and survives
until it is acknowledged, the ledger is monotone, a created job can be
reloaded, retries never have two live children. *)

From Stdlib Require Import NArith ZArith Lia Ascii String.
From Stdlib Require Import Strings.Byte.
From stdpp Require Import base numbers list strings gmap sorting.
From S2P Require Import Prelude Domain Device Schema Aggregate TransferStore.

Local Open Scope string_scope.

Lemma transaction_ok {E A : Type} (c : sm Db E A) s s' a :
  transaction c s = (s', Ok a) <-> c s = (s', Ok a).
Proof. unfold transaction. destruct (c s) as [? [?|?]]; naive_solver. Qed.

(** Every failing run leaves the tables as they were. *)
Definition atomic {E A : Type} (c : sm Db E A) : Prop :=
  forall db db' e, c db = (db', Err e) -> db' = db.

Lemma atomic_transaction {E A : Type} (c : sm Db E A) : atomic (transaction c).
Proof. intros db db' e. unfold transaction. destruct (c db) as [? [?|?]]; naive_solver. Qed.

Lemma atomic_slift_bind {E A B : Type} (c : result E A) (k : A -> sm Db E B) :
  (forall a, atomic (k a)) -> atomic (sbind (slift c) k).
Proof. intros Hk db db' e. unfold sbind, slift. destruct c; [apply Hk|naive_solver]. Qed.

Lemma atomic_sget_bind {E B : Type} (k : Db -> sm Db E B) :
  (forall d, atomic (k d)) -> atomic (sbind sget k).
Proof. intros Hk db db' e. unfold sbind, sget. apply Hk. Qed.

Lemma atomic_sfail {E A : Type} (e : E) : atomic (A := A) (sfail e).
Proof. intros db db' e'. unfold sfail. naive_solver. Qed.

Lemma atomic_sret {E A : Type} (a : A) : atomic (E := E) (sret a).
Proof. intros db db' e'. unfold sret. naive_solver. Qed.

#[export] Hint Resolve atomic_transaction atomic_slift_bind atomic_sget_bind atomic_sfail atomic_sret : sm.

Lemma update_job_spec id cond set db :
  update_job id cond set db =
    match t_jobs db !! id with
    | Some r => if cond r then
                  if job_row_ok (set r) then (with_jobs (<[id := set r]> (t_jobs db)) db, Ok true)
                  else (db, Err (PSqlite (SqCheck "transfer_jobs")))
                else (db, Ok false)
    | None => (db, Ok false)
    end.
Proof. done. Qed.

(** A guarded single-row update followed by a check that it happened. *)
Lemma update_job_ok id cond set db db' b :
  update_job id cond set db = (db', Ok b) ->
  (b = false /\ db' = db /\ forall r, t_jobs db !! id = Some r -> cond r = false) \/
  (b = true /\ exists r, t_jobs db !! id = Some r /\ cond r = true /\ job_row_ok (set r) = true /\
     db' = with_jobs (<[id := set r]> (t_jobs db)) db).
Proof.
  rewrite update_job_spec. destruct (t_jobs db !! id) as [r|]; [|naive_solver].
  destruct (cond r) eqn:?, (job_row_ok (set r)) eqn:?; naive_solver.
Qed.

Lemma atomic_update_job_bind {B : Type} id cond set (k : bool -> sm Db PersistenceError B) :
  atomic (k false) -> (forall db db' e, k true db <> (db', Err e)) -> 
  atomic (sbind (update_job id cond set) k).
Proof.
  intros Hf Ht db db' e. unfold sbind. rewrite update_job_spec.
  destruct (t_jobs db !! id) as [r|]; [|apply Hf].
  destruct (cond r); [|apply Hf]. destruct (job_row_ok _); [|naive_solver].
  intros H. by apply Ht in H.
Qed.

(** ** The invariant *)

(** A job row satisfies its CHECK clauses, and its version is an [i64]. *)
Definition job_row_inv (r : JobRow) : Prop :=
  job_row_ok r = true /\ (jr_state_version r <= Z.of_N i64_max)%Z.

(** The outbox row is the ending of its job row. *)
Definition outcome_agrees (o : OutboxRow) (r : JobRow) : Prop :=
  outbox_row_ok o = true /\ jr_state r = or_outcome o /\ jr_error_code r = or_error_code o /\
  jr_error_retryable r = or_error_retryable o /\ jr_state_version r = or_state_version o /\
  jr_operation_kind r = or_operation_kind o.

Definition row_identity (r : JobRow) : JobIdentity :=
  mkIdentity (jr_device_id r) (jr_session_id r) (jr_revision r).

(** The natural key of a download starts with its identity's key (a retry
    appends a suffix); uploads have a key space of their own. *)
Definition row_key (r : JobRow) : Prop :=
  exists rest, jr_natural_key r = natural_key (row_identity r) ++ rest \/
               jr_natural_key r = String "u" rest.

Record store_inv (db : Db) : Prop := {
  si_rows : map_Forall (fun _ => job_row_inv) (t_jobs db);
  si_keys : map_Forall (fun _ => row_key) (t_jobs db);
  si_outbox : map_Forall (fun id o => exists r, t_jobs db !! id = Some r /\ outcome_agrees o r)
                (t_outbox db);
  si_terminal : map_Forall (fun id r => terminal_text (jr_state r) = true ->
                              is_Some (t_outbox db !! id)) (t_jobs db);
  si_sequence : map_Forall (fun _ o => (1 <= or_sequence o <= t_outbox_seq db)%Z) (t_outbox db);
  si_seq_pos : (0 <= t_outbox_seq db)%Z;
  si_unique : forall i j a b, t_outbox db !! i = Some a -> t_outbox db !! j = Some b ->
                or_sequence a = or_sequence b -> i = j;
  si_specs : dom (t_specs db) ⊆ dom (t_jobs db);
  si_files : dom (t_files db) ⊆ dom (t_jobs db);
  si_ledger : dom (t_ledger db) ⊆ dom (t_jobs db);
  si_ledger_rows : map_Forall (fun _ rows => Forall (fun l => ledger_row_ok l = true) rows)
                     (t_ledger db);
  si_lineage : map_Forall (fun child l => child ∈ dom (t_jobs db) /\
                             ln_parent_job_id l ∈ dom (t_jobs db)) (t_lineage db);
  si_one_live : forall c1 c2 l1 l2, t_lineage db !! c1 = Some l1 -> t_lineage db !! c2 = Some l2 ->
                  ln_parent_job_id l1 = ln_parent_job_id l2 -> c1 <> c2 ->
                  (ln_attempt l1 < ln_attempt l2)%Z \/ (ln_attempt l2 < ln_attempt l1)%Z;
  si_live_is_latest : forall c1 c2 l1 l2 r, t_lineage db !! c1 = Some l1 ->
                  t_lineage db !! c2 = Some l2 -> ln_parent_job_id l1 = ln_parent_job_id l2 ->
                  (ln_attempt l1 < ln_attempt l2)%Z -> t_jobs db !! c1 = Some r ->
                  terminal_text (jr_state r) = true;
}.

Lemma store_inv_empty : store_inv empty_db.
Proof.
  split; simpl; try reflexivity; first [apply map_Forall_empty | intros; simplify_map_eq].
Qed.

Lemma terminal_text_tag t : terminal_text (tag_as_db_str t) = tag_is_terminal t.
Proof. by destruct t. Qed.

(** Rewriting one job row, keeping its key columns, when its ending (or its
    being unfinished) is kept. *)
Lemma store_inv_row db id r r' :
  store_inv db -> t_jobs db !! id = Some r -> job_row_inv r' -> (row_key r -> row_key r') ->
  terminal_text (jr_state r') = terminal_text (jr_state r) ->
  (terminal_text (jr_state r) = true -> jr_state r' = jr_state r /\
     jr_error_code r' = jr_error_code r /\ jr_error_retryable r' = jr_error_retryable r /\
     jr_state_version r' = jr_state_version r /\ jr_operation_kind r' = jr_operation_kind r) ->
  store_inv (with_jobs (<[id := r']> (t_jobs db)) db).
Proof.
  intros [Hr Hk Ho Ht Hs Hsq Hu Hsp Hf Hl Hlr Hln Hone Hlive] Hid Hr' Hkey Hterm Hkeep.
  assert (Hdom : dom (<[id := r']> (t_jobs db)) = dom (t_jobs db)).
  { rewrite dom_insert_L. apply elem_of_dom_2 in Hid. set_solver. }
  split; cbn [with_jobs t_jobs t_outbox t_outbox_seq t_specs t_files t_ledger t_lineage];
    rewrite ?Hdom; try done.
  - by apply map_Forall_insert_2.
  - apply map_Forall_insert_2; [|done]. by apply Hkey, (Hk id r).
  - intros j o Hj. destruct (Ho j o Hj) as (r0 & Hr0 & Hag).
    destruct (decide (j = id)) as [->|Hne]; [|by exists r0; rewrite lookup_insert_ne].
    simplify_eq. exists r'. rewrite lookup_insert_eq. split; [done|].
    destruct Hag as (Hok & Hst & Hc & Hre & Hv & Hop).
    destruct Hkeep as (H1 & H2 & H3 & H4 & H5).
    { rewrite Hst. unfold outbox_row_ok in Hok. by rewrite !andb_true_iff in Hok; destruct_and!. }
    unfold outcome_agrees. by rewrite H1, H2, H3, H4, H5.
  - intros j r0 Hj Htx. destruct (decide (j = id)) as [->|Hne].
    + rewrite lookup_insert_eq in Hj. simplify_eq. apply (Ht id r Hid). by rewrite <- Hterm.
    + rewrite lookup_insert_ne in Hj by done. by apply (Ht j r0 Hj).
  - intros c1 c2 l1 l2 r0 H1 H2 H3 H4 H5. destruct (decide (c1 = id)) as [->|Hne].
    + rewrite lookup_insert_eq in H5. simplify_eq. rewrite Hterm. by apply (Hlive id c2 l1 l2 r).
    + rewrite lookup_insert_ne in H5 by done. by apply (Hlive c1 c2 l1 l2 r0).
Qed.

Lemma job_row_ok_iff r : job_row_ok r = true <->
  is_Some (op_from_db_str (jr_operation_kind r)) /\ (str_len (jr_request_digest r) = 64)%N /\
  is_Some (tag_from_db_str (jr_state r)) /\ (1 <= jr_state_version r)%Z /\
  is_Some (desired_run_state_from_db (jr_desired_run_state r)) /\
  is_failed_text (jr_state r) = bool_decide (is_Some (jr_error_code r)) /\
  is_failed_text (jr_state r) = bool_decide (is_Some (jr_error_retryable r)).
Proof.
  unfold job_row_ok. rewrite !andb_true_iff, !bool_decide_eq_true, N.eqb_eq, Z.leb_le, !eqb_true_iff.
  tauto.
Qed.

(** ** Transitions *)

(** The row a transition writes. *)
Definition moved_row (to : JobStateTag) (version : N) (now : string) (r : JobRow) : JobRow :=
  mkJobRow (jr_operation_kind r) (jr_natural_key r) (jr_device_id r) (jr_session_id r)
    (jr_revision r) (jr_request_digest r) (tag_as_db_str to) (Z.of_N version)
    (jr_desired_run_state r) None None (jr_created_at r) now (jr_dismissed_at r).

Lemma checked_i64_ok v field z :
  checked_i64 v field = Ok z <-> (v <= i64_max)%N /\ z = Z.of_N v.
Proof. unfold checked_i64. destruct (N.leb_spec v i64_max); naive_solver lia. Qed.

Lemma transition_job_ok id v to err now db db' v' :
  transition_job id v to err now db = (db', Ok v') ->
  tag_is_terminal to = false /\ err = None /\ v' = (v + 1)%N /\ (v + 1 <= i64_max)%N /\
  exists r, t_jobs db !! id = Some r /\ jr_state_version r = Z.of_N v /\
    terminal_text (jr_state r) = false /\ job_row_ok (moved_row to (v + 1) now r) = true /\
    db' = with_jobs (<[id := moved_row to (v + 1) now r]> (t_jobs db)) db.
Proof.
  unfold transition_job. destruct (tag_is_terminal to) eqn:Ht; [by intros []%sfail_ok|].
  assert (to <> TFailed) as Hnf by (by intros ->).
  rewrite bool_decide_eq_false_2 by done. destruct err as [e|]; [by intros []%sfail_ok|].
  rewrite xorb_false_l, bool_decide_eq_false_2 by (by intros [? ?]).
  intros (nv & [_ ->]%u64_checked_add_Some & H)%lift_or_bind_ok.
  apply lift_bind_ok in H as (nz & [Hn ->]%checked_i64_ok & H).
  apply lift_bind_ok in H as (ez & [_ ->]%checked_i64_ok & H).
  apply sbind_ok in H as (d & b & [(-> & -> & _)|[-> Hu]]%update_job_ok & H); [by apply sfail_ok in H|].
  apply sret_ok in H as [-> <-]. destruct Hu as (r & Hid & Hc & Hok & ->).
  apply andb_true_iff in Hc as [Hc1%Z.eqb_eq Hc2%negb_true_iff].
  split_and!; try done. by exists r.
Qed.

Lemma moved_row_ok to v now r :
  job_row_ok r = true -> tag_is_terminal to = false -> job_row_ok (moved_row to (v + 1) now r) = true.
Proof.
  rewrite !job_row_ok_iff. simpl. intros (? & ? & ? & ? & ? & ? & ?) Ht.
  split_and!; try done; [by rewrite tag_db_roundtrip|lia|by destruct to..].
Qed.

Lemma transition_job_succeeds id v to now db r :
  store_inv db -> t_jobs db !! id = Some r -> jr_state_version r = Z.of_N v ->
  terminal_text (jr_state r) = false -> tag_is_terminal to = false -> (v + 1 <= i64_max)%N ->
  transition_job id v to None now db =
    (with_jobs (<[id := moved_row to (v + 1) now r]> (t_jobs db)) db, Ok (v + 1)%N).
Proof.
  intros Hinv Hid Hv Hnt Ht Hb. unfold transition_job. rewrite Ht.
  rewrite bool_decide_eq_false_2 by (by intros ->).
  rewrite xorb_false_l, bool_decide_eq_false_2 by (by intros [? ?]).
  assert (Hadd : u64_checked_add v 1 = Some (v + 1)%N).
  { apply u64_checked_add_Some. unfold u64_max, i64_max in *. lia. }
  rewrite Hadd. unfold sbind at 1, slift at 1, ok_or.
  assert (Hc : forall w f, (w <= i64_max)%N -> checked_i64 w f = Ok (Z.of_N w))
    by (intros; by apply checked_i64_ok).
  rewrite !Hc by lia. unfold sbind, slift. rewrite update_job_spec, Hid, Hv, Z.eqb_refl, Hnt.
  simpl. replace (job_row_ok _) with true; [done|]. symmetry.
  apply (moved_row_ok to v now r); [|done]. by apply (si_rows db Hinv id).
Qed.

Lemma transition_job_atomic id v to err now : atomic (transition_job id v to err now).
Proof.
  unfold transition_job. destruct (tag_is_terminal to); auto with sm.
  destruct (xorb _ _); auto with sm. do 3 (apply atomic_slift_bind; intros ?).
  apply atomic_update_job_bind; [auto with sm|]. unfold sret. naive_solver.
Qed.

(** [transition_job] is a compare-and-set on the state version: on a
    store satisfying the invariant it succeeds exactly when the row exists, is
    unfinished, still carries the expected version and the target is
    non-terminal and given without error columns; success rewrites only the
    state, version and timestamp of that row and bumps the version, so no
    second writer holding the same expected version can succeed after it; any
    failure leaves the store unchanged. *)
Theorem transition_job_cas id v to err now db :
  store_inv db ->
  (is_ok (transition_job id v to err now db).2 = true <->
   tag_is_terminal to = false /\ err = None /\ (v + 1 <= i64_max)%N /\
   exists r, t_jobs db !! id = Some r /\ jr_state_version r = Z.of_N v /\
             terminal_text (jr_state r) = false) /\
  (forall db' e, transition_job id v to err now db = (db', Err e) -> db' = db) /\
  (forall db' v', transition_job id v to err now db = (db', Ok v') ->
     v' = (v + 1)%N /\
     (exists r, t_jobs db !! id = Some r /\
        db' = with_jobs (<[id := moved_row to (v + 1) now r]> (t_jobs db)) db) /\
     forall to2 err2 now2, is_ok (transition_job id v to2 err2 now2 db').2 = false).
Proof.
  intros Hinv. split_and!.
  - split.
    + destruct (transition_job id v to err now db) as [db' [v'|e]] eqn:E; [intros _|done].
      apply transition_job_ok in E as (? & ? & _ & ? & r & ? & ? & ? & _). eauto 10.
    + intros (Ht & -> & Hb & r & Hid & Hv & Hnt).
      by rewrite (transition_job_succeeds id v to now db r).
  - apply transition_job_atomic.
  - intros db' v' E. apply transition_job_ok in E as (_ & _ & -> & _ & r & Hid & _ & _ & _ & ->).
    split_and!; [done|by eauto|]. intros to2 err2 now2.
    destruct (transition_job id v to2 err2 now2 _) as [db2 [v2|e]] eqn:E2; [exfalso|done].
    apply transition_job_ok in E2 as (_ & _ & _ & _ & r2 & Hid2 & Hv2 & _).
    simpl in Hid2. rewrite lookup_insert_eq in Hid2. injection Hid2 as <-. simpl in Hv2. lia.
Qed.

Lemma transition_job_inv id v to err now db db' v' :
  store_inv db -> transition_job id v to err now db = (db', Ok v') -> store_inv db'.
Proof.
  intros Hinv (Ht & _ & _ & Hb & r & Hid & _ & Hnt & Hok & ->)%transition_job_ok.
  apply (store_inv_row db id r); [done|done|split; [done|cbn [moved_row jr_state_version]; lia]|done| |congruence].
  cbn [moved_row jr_state]. by rewrite terminal_text_tag, Hnt.
Qed.

Definition intended_row (desired : DesiredRunState) (now : string) (r : JobRow) : JobRow :=
  mkJobRow (jr_operation_kind r) (jr_natural_key r) (jr_device_id r) (jr_session_id r)
    (jr_revision r) (jr_request_digest r) (jr_state r) (jr_state_version r)
    (desired_run_state_db desired) (jr_error_code r) (jr_error_retryable r)
    (jr_created_at r) now (jr_dismissed_at r).

Lemma set_desired_run_state_ok id desired now v db db' u :
  set_desired_run_state id desired now v db = (db', Ok u) ->
  exists r, t_jobs db !! id = Some r /\ job_row_ok (intended_row desired now r) = true /\
    db' = with_jobs (<[id := intended_row desired now r]> (t_jobs db)) db.
Proof.
  unfold set_desired_run_state. intros (vz & _ & H)%lift_bind_ok.
  apply sbind_ok in H as (d & b & [(-> & -> & _)|[-> Hu]]%update_job_ok & H); [by apply sfail_ok in H|].
  apply sret_ok in H as [-> _]. destruct Hu as (r & Hid & _ & Hok & ->). by exists r.
Qed.

Lemma set_desired_run_state_atomic id desired now v : atomic (set_desired_run_state id desired now v).
Proof.
  unfold set_desired_run_state. apply atomic_slift_bind. intros vz.
  apply atomic_update_job_bind; [auto with sm|]. unfold sret. naive_solver.
Qed.

Lemma set_desired_run_state_inv id desired now v db db' u :
  store_inv db -> set_desired_run_state id desired now v db = (db', Ok u) -> store_inv db'.
Proof.
  intros Hinv (r & Hid & Hok & ->)%set_desired_run_state_ok.
  apply (store_inv_row db id r); try done.
  split; [done|]. apply (proj2 (si_rows db Hinv id r Hid)).
Qed.

(** ** Endings *)

Lemma owned_by_ok {A : Type} id (c : sm Db PersistenceError A) db db' a :
  owned_by id c db = (db', Ok a) <-> is_Some (t_jobs db !! id) /\ c db = (db', Ok a).
Proof.
  unfold owned_by. destruct (bool_decide_reflect (is_Some (t_jobs db !! id))); naive_solver.
Qed.

Definition outbox_row_of (r : JobRow) (o : TerminalOutcome) (version : N) (now : string) (seq : Z)
    : OutboxRow :=
  mkOutboxRow seq (jr_operation_kind r) (outcome_as_db_str o) (error_columns o).1
    (error_columns o).2 (Z.of_N version) now None.

Lemma insert_outbox_row_ok id o v now db db' rec :
  insert_outbox_row id o v now db = (db', Ok rec) ->
  exists r, t_jobs db !! id = Some r /\ t_outbox db !! id = None /\ (v <= i64_max)%N /\
    let row := outbox_row_of r o v now (t_outbox_seq db + 1) in
    outbox_row_ok row = true /\ read_completion_row id row = Ok rec /\
    db' = with_outbox (<[id := row]> (t_outbox db)) (t_outbox_seq db + 1) db.
Proof.
  unfold insert_outbox_row. rewrite get_bind. intros (r & Hr & H)%lift_or_bind_ok.
  apply lift_bind_ok in H as (z & [Hv ->]%checked_i64_ok & H).
  apply sbind_ok in H as (d & [] & Hi & H). unfold insert_outbox in Hi.
  apply owned_by_ok in Hi as [_ Hi].
  destruct (bool_decide_reflect (is_Some (t_outbox db !! id))) as [|Hno]; [done|].
  destruct (Z.of_N i64_max <? _)%Z; [done|]. destruct (outbox_row_ok _) eqn:Hok; [|done].
  injection Hi as <-. rewrite get_bind in H.
  apply lift_bind_ok in H as (f & Hf & H). apply slift_ok in H as [-> ->%ok_or_ok].
  exists r. split_and!; [done|by apply eq_None_not_Some|done|done| |done].
  unfold read_completion in Hf. simpl in Hf. rewrite lookup_insert_eq in Hf.
  apply rbind_ok in Hf as (c & Hc & [= ->]). done.
Qed.

Lemma store_inv_finish db id r r' o :
  store_inv db -> t_jobs db !! id = Some r -> terminal_text (jr_state r) = false ->
  job_row_inv r' -> (row_key r -> row_key r') -> terminal_text (jr_state r') = true -> outcome_agrees o r' ->
  or_sequence o = (t_outbox_seq db + 1)%Z ->
  store_inv (with_outbox (<[id := o]> (t_outbox db)) (t_outbox_seq db + 1)
               (with_jobs (<[id := r']> (t_jobs db)) db)).
Proof.
  intros [Hr Hk Ho Ht Hs Hpos Hu Hsp Hf Hl Hlr Hln Hone Hlive] Hid Hnt Hr' Hkey Ht' Hag Hseq.
  assert (Hdom : dom (<[id := r']> (t_jobs db)) = dom (t_jobs db)).
  { rewrite dom_insert_L. apply elem_of_dom_2 in Hid. set_solver. }
  split; cbn [with_outbox with_jobs t_jobs t_outbox t_outbox_seq t_specs t_files t_ledger t_lineage];
    rewrite ?Hdom; try done; [| | | | |lia|..].
  - by apply map_Forall_insert_2.
  - apply map_Forall_insert_2; [|done]. by apply Hkey, (Hk id r).
  - apply map_Forall_insert_2.
    + exists r'. by rewrite lookup_insert_eq.
    + intros j o' Hj. destruct (Ho j o' Hj) as (r0 & Hr0 & Hag0).
      destruct (decide (j = id)) as [->|Hne]; [|by exists r0; rewrite lookup_insert_ne].
      exfalso. simplify_eq. destruct Hag0 as (Hok & Hst & _). rewrite Hst in Hnt.
      unfold outbox_row_ok in Hok. rewrite !andb_true_iff in Hok. destruct_and!. congruence.
  - intros j r0 Hj Htx. destruct (decide (j = id)) as [->|Hne].
    + rewrite lookup_insert_eq. by eexists.
    + rewrite lookup_insert_ne in Hj by done. rewrite lookup_insert_ne by done.
      by apply (Ht j r0 Hj).
  - apply map_Forall_insert_2; [rewrite Hseq; lia|].
    intros j o' Hj. generalize (Hs j o' Hj). simpl. lia.
  - assert (Hold : forall j b, t_outbox db !! j = Some b -> or_sequence b <> or_sequence o).
    { intros j b Hj. generalize (Hs j b Hj). simpl. lia. }
    intros i j a b. rewrite !lookup_insert_Some.
    intros [[<- <-]|[Hi Ha]] [[<- <-]|[Hj Hb]] He; try done.
    + by destruct (Hold j b Hb).
    + by destruct (Hold i a Ha).
    + by apply (Hu i j a b).
  - intros c1 c2 l1 l2 r0 H1 H2 H3 H4 H5. destruct (decide (c1 = id)) as [->|Hne].
    + rewrite lookup_insert_eq in H5. by simplify_eq.
    + rewrite lookup_insert_ne in H5 by done. by apply (Hlive c1 c2 l1 l2 r0).
Qed.

Lemma read_job_ok db id job :
  read_job db id = Ok (Some job) <-> exists r, t_jobs db !! id = Some r /\ read_job_row id r = Ok job.
Proof.
  unfold read_job. destruct (t_jobs db !! id) as [r|]; [|naive_solver].
  rewrite rbind_ok. setoid_rewrite rmap_err_ok. naive_solver.
Qed.

Lemma u64_of_i64_Some z n : u64_of_i64 z = Some n <-> z = Z.of_N n.
Proof.
  unfold u64_of_i64. destruct (Z.ltb_spec z 0); split; try done.
  - intros ->. lia.
  - intros [= <-]. lia.
  - intros ->. by rewrite N2Z.id.
Qed.

Lemma op_db_roundtrip k : op_from_db_str (op_as_db_str k) = Some k.
Proof. by destruct k. Qed.

(** What a successfully read row says about its columns. *)
Lemma read_job_row_ok id r job :
  read_job_row id r = Ok job ->
  sj_job_id job = id /\ op_from_db_str (jr_operation_kind r) = Some (sj_operation_kind job) /\
  tag_from_db_str (jr_state r) = Some (sj_state job) /\
  jr_state r = tag_as_db_str (sj_state job) /\
  jr_state_version r = Z.of_N (sj_state_version job) /\
  sj_dismissed_at job = jr_dismissed_at r.
Proof.
  unfold read_job_row.
  intros (op & Hop%ok_or_ok & (i & _ & (dg & _ & (st & Hst%ok_or_ok & (v & Hv%ok_or_ok &
    (ds & _ & [= <-])%rbind_ok)%rbind_ok)%rbind_ok)%rbind_ok)%rbind_ok)%rbind_ok. simpl.
  apply u64_of_i64_Some in Hv. split_and!; try done. by apply tag_from_db_str_Some.
Qed.

(** Rewriting state, version, errors and stamps does not spoil a readable row. *)
Lemma read_job_row_outcome id r job o v now :
  read_job_row id r = Ok job ->
  read_job_row id (set_outcome o (Z.of_N v) now r) =
    Ok (mkStoredJob id (sj_operation_kind job) (sj_identity job) (sj_request_digest job)
          (outcome_tag o) v (sj_desired_run_state job)
          (match o with ToFailed c b => Some (c, b) | _ => None end)
          (sj_created_at job) now (sj_dismissed_at job)).
Proof.
  unfold read_job_row.
  intros (op & Hop & (i & Hi & (dg & Hdg & (st & Hst & (v0 & Hv &
    (ds & Hds & [= <-])%rbind_ok)%rbind_ok)%rbind_ok)%rbind_ok)%rbind_ok)%rbind_ok.
  cbn [set_outcome jr_operation_kind jr_device_id jr_session_id jr_revision jr_request_digest
       jr_state jr_state_version jr_desired_run_state jr_error_code jr_error_retryable
       jr_created_at jr_updated_at jr_dismissed_at].
  rewrite Hop, Hi, Hdg, Hds. unfold outcome_as_db_str. rewrite tag_db_roundtrip.
  replace (u64_of_i64 (Z.of_N v)) with (Some v) by (symmetry; by apply u64_of_i64_Some).
  simpl. destruct o as [|c [|]|]; done.
Qed.

Lemma outcome_columns_roundtrip o :
  outcome_from_columns (outcome_as_db_str o) (error_columns o).1 (error_columns o).2 = Some o.
Proof. by destruct o as [|c [|]|]. Qed.

Lemma outcome_terminal_text o : terminal_text (outcome_as_db_str o) = true.
Proof. by destruct o. Qed.

(** The completion record a given outbox row reads as. *)
Lemma read_completion_row_of id r job o v now seq :
  read_job_row id r = Ok job -> (0 <= seq)%Z ->
  read_completion_row id (outbox_row_of r o v now seq) =
    Ok (mkCompletion (Z.to_N seq) id (sj_operation_kind job) o v now None).
Proof.
  intros (_ & Hop & _)%read_job_row_ok Hs. unfold read_completion_row, outbox_row_of.
  cbn [or_sequence or_operation_kind or_outcome or_error_code or_error_retryable or_state_version
       or_recorded_at or_acknowledged_at].
  rewrite Hop, outcome_columns_roundtrip.
  rewrite (proj2 (u64_of_i64_Some seq (Z.to_N seq))) by lia.
  by rewrite (proj2 (u64_of_i64_Some (Z.of_N v) v)).
Qed.

(** A fresh ending: the row becomes terminal and the outbox gets the same
    ending with the version of that very transition. *)
Definition finished (db : Db) (id : string) (r : JobRow) (o : TerminalOutcome) (v : N) (now : string)
    : Db :=
  with_outbox (<[id := outbox_row_of r o v now (t_outbox_seq db + 1)]> (t_outbox db))
    (t_outbox_seq db + 1)
    (with_jobs (<[id := set_outcome o (Z.of_N v) now r]> (t_jobs db)) db).

Lemma complete_job_ok id o now abort db db' out :
  store_inv db -> complete_job id o now abort db = (db', Ok out) ->
  exists job r, t_jobs db !! id = Some r /\ read_job_row id r = Ok job /\
  ((exists c, out = CpAlreadyRecorded c /\ db' = db /\ read_completion db id = Ok (Some c) /\
              cr_outcome c = o) \/
   (exists c, out = CpRecorded c /\ terminal_text (jr_state r) = false /\
      t_outbox db !! id = None /\ (sj_state_version job + 1 <= i64_max)%N /\
      job_row_ok (set_outcome o (Z.of_N (sj_state_version job + 1)) now r) = true /\
      outbox_row_ok (outbox_row_of r o (sj_state_version job + 1) now (t_outbox_seq db + 1)) = true /\
      cr_outcome c = o /\ cr_acknowledged_at c = None /\
      cr_state_version c = (sj_state_version job + 1)%N /\
      read_completion db' id = Ok (Some c) /\
      db' = finished db id r o (sj_state_version job + 1) now)).
Proof.
  intros Hinv. unfold complete_job. rewrite transaction_ok, get_bind.
  intros (f & Hf & H)%lift_err_bind_ok. apply lift_or_bind_ok in H as (job & -> & H).
  apply read_job_ok in Hf as (r & Hr & Hrow). exists job, r. split_and!; [done..|].
  assert (Hst := read_job_row_ok _ _ _ Hrow). destruct Hst as (_ & Hop & _ & Hst & Hv & _).
  apply lift_err_bind_ok in H as (rec & Hrec & H). destruct rec as [c|].
  { case_bool_decide; [|by apply sfail_ok in H]. apply sret_ok in H as [-> <-]. left. by exists c. }
  right. assert (Hno : t_outbox db !! id = None).
  { unfold read_completion in Hrec. destruct (t_outbox db !! id) as [row|]; [|done].
    apply rbind_ok in Hrec as (? & _ & [=]). }
  assert (Hnt : terminal_text (jr_state r) = false).
  { apply not_true_iff_false. intros [? ?]%(si_terminal db Hinv id r Hr). congruence. }
  rewrite <- terminal_text_tag, <- Hst, Hnt in H.
  apply lift_or_bind_ok in H as (nv & [_ ->]%u64_checked_add_Some & H).
  apply lift_err_bind_ok in H as (z & [Hb ->]%checked_i64_ok & H).
  apply serr_bind_ok in H as (d1 & b & [(_ & _ & Hf)|[-> Hu]]%update_job_ok & H);
    [by specialize (Hf r Hr)|].
  destruct Hu as (r1 & Hr1 & _ & Hok & ->). rewrite Hr in Hr1. injection Hr1 as <-.
  apply sbind_ok in H as (d2 & [] & Ha & H). unfold abort_completion_if in Ha.
  case_bool_decide; [by apply sfail_ok in Ha|]. apply sret_ok in Ha as [-> _].
  apply serr_bind_ok in H as (d3 & c & Hins & H).
  apply insert_outbox_row_ok in Hins as (r2 & Hr2 & _ & _ & Hok2 & Hc & ->).
  simpl in Hr2. rewrite lookup_insert_eq in Hr2. injection Hr2 as <-.
  apply sbind_ok in H as (d4 & [] & Ha & H). unfold abort_completion_if in Ha.
  case_bool_decide; [by apply sfail_ok in Ha|]. apply sret_ok in Ha as [-> _].
  apply sret_ok in H as [-> <-].
  assert (Hrow' := read_completion_row_of id r job o (sj_state_version job + 1) now
                     (t_outbox_seq db + 1) Hrow ltac:(generalize (si_seq_pos db Hinv); lia)).
  change (outbox_row_of (set_outcome o (Z.of_N (sj_state_version job + 1)) now r) o)
    with (outbox_row_of r o) in Hc, Hok2.
  simpl in Hc, Hok2. rewrite Hrow' in Hc. injection Hc as <-.
  exists (mkCompletion (Z.to_N (t_outbox_seq db + 1)) id (sj_operation_kind job) o
            (sj_state_version job + 1) now None).
  split_and!; try done. unfold read_completion. simpl. rewrite lookup_insert_eq.
  change (outbox_row_of (set_outcome o (Z.of_N (sj_state_version job + 1)) now r) o)
    with (outbox_row_of r o). by rewrite Hrow'.
Qed.

Lemma complete_job_inv id o now abort db db' out :
  store_inv db -> complete_job id o now abort db = (db', Ok out) -> store_inv db'.
Proof.
  intros Hinv (job & r & Hr & Hrow & [(c & _ & -> & _)|(c & _ & Hnt & _ & Hb & Hok & Hok2 & _ & _ & _ & _ & ->)])%complete_job_ok;
    [done| |done].
  apply (store_inv_finish db id r); try done.
  - split; [done|]. cbn [set_outcome jr_state_version]. lia.
  - apply outcome_terminal_text.
Qed.

Lemma complete_job_replay id o o' now abort db c r job :
  t_jobs db !! id = Some r -> read_job_row id r = Ok job ->
  read_completion db id = Ok (Some c) -> cr_outcome c = o ->
  complete_job id o' now abort db =
    (db, if decide (o' = o) then Ok (CpAlreadyRecorded c) else Err (CpAlreadyTerminal id o o')).
Proof.
  intros Hr Hrow Hc <-. unfold complete_job, transaction. rewrite get_bind.
  assert (Hj : read_job db id = Ok (Some job)) by (apply read_job_ok; eauto).
  unfold sbind, slift. rewrite Hj, Hc. simpl.
  destruct (decide (o' = cr_outcome c)) as [->|Hne].
  - by rewrite bool_decide_eq_true_2.
  - by rewrite bool_decide_eq_false_2 by congruence.
Qed.

(** C34: a job ends exactly once: after a successful [complete_job] the
    outbox holds that outcome, and from then on the same outcome is answered
    with the recorded one and every other outcome with [AlreadyTerminal],
    neither writing anything; a failing call (a crash point included) leaves
    the store as it was. *)
Theorem complete_job_exactly_once id o now abort db :
  store_inv db ->
  match complete_job id o now abort db with
  | (db', Ok out) =>
      exists c, (out = CpRecorded c \/ out = CpAlreadyRecorded c) /\
        read_completion db' id = Ok (Some c) /\ cr_outcome c = o /\
        forall o' now' abort',
          complete_job id o' now' abort' db' =
            (db', if decide (o' = o) then Ok (CpAlreadyRecorded c)
                  else Err (CpAlreadyTerminal id o o'))
  | (db', Err _) => db' = db
  end.
Proof.
  intros Hinv. destruct (complete_job id o now abort db) as [db' [out|e]] eqn:E.
  2:{ by eapply atomic_transaction. }
  apply complete_job_ok in E as (job & r & Hr & Hrow & E); [|done].
  destruct E as [(c & -> & -> & Hc & Ho)|(c & -> & _ & _ & _ & _ & _ & Ho & _ & _ & Hc & ->)];
    exists c; split_and!; eauto; intros o' now' abort'.
  - by eapply complete_job_replay.
  - eapply complete_job_replay; [simpl; apply lookup_insert_eq|by apply read_job_row_outcome|done..].
Qed.

(** ** Acknowledgement *)

Lemma acknowledge_completion_ok id now db db' out :
  acknowledge_completion id now db = (db', Ok out) ->
  db' = db \/ exists o, t_outbox db !! id = Some o /\ or_acknowledged_at o = None /\
    db' = with_outbox (<[id := stamp_ack now o]> (t_outbox db)) (t_outbox_seq db) db.
Proof.
  unfold acknowledge_completion. rewrite transaction_ok, get_bind.
  intros (f & Hf & H)%lift_bind_ok. destruct f as [c|]; [|left; by apply sret_ok in H as [-> _]].
  destruct (is_acknowledged c) eqn:Ea; [left; by apply sret_ok in H as [-> _]|right].
  apply sbind_ok in H as (d & [] & [= <-] & H). rewrite get_bind in H.
  apply lift_bind_ok in H as (f' & _ & H). apply lift_or_bind_ok in H as (a & _ & H).
  apply sret_ok in H as [-> _]. unfold read_completion in Hf.
  destruct (t_outbox db !! id) as [o|] eqn:Ho; [|done]. exists o. split_and!; [done| |].
  - apply rbind_ok in Hf as (c' & Hc & [= ->]). unfold read_completion_row in Hc.
    repeat (apply rbind_ok in Hc as (? & _ & Hc)). injection Hc as <-.
    unfold is_acknowledged in Ea. simpl in Ea. apply bool_decide_eq_false in Ea.
    by apply eq_None_not_Some.
  - f_equal. apply map_eq. intros j. destruct (decide (j = id)) as [->|Hne].
    + by rewrite lookup_alter_eq, lookup_insert_eq, Ho.
    + by rewrite lookup_alter_ne, lookup_insert_ne.
Qed.

Lemma acknowledge_completion_inv id now db db' out :
  store_inv db -> acknowledge_completion id now db = (db', Ok out) -> store_inv db'.
Proof.
  intros [Hr Hk Ho Ht Hs Hsq Hu Hsp Hf Hl Hlr Hln Hone Hlive] [->|(o & Hid & _ & ->)]%acknowledge_completion_ok;
    [by split|].
  split; cbn [with_outbox t_jobs t_outbox t_outbox_seq t_specs t_files t_ledger t_lineage]; try done.
  - by apply map_Forall_insert_2; [apply (Ho id o)|].
  - intros j r Hj Htx. destruct (decide (j = id)) as [->|Hne].
    + rewrite lookup_insert_eq. by eexists.
    + rewrite lookup_insert_ne by done. by apply (Ht j r Hj).
  - by apply map_Forall_insert_2; [apply (Hs id o)|].
  - assert (Hsame : forall j a, <[id := stamp_ack now o]> (t_outbox db) !! j = Some a ->
              exists b, t_outbox db !! j = Some b /\ or_sequence b = or_sequence a).
    { intros j a [[<- <-]|[_ ?]]%lookup_insert_Some; eauto. }
    intros i j a b (a' & Ha & Hsa)%Hsame (b' & Hb & Hsb)%Hsame He.
    apply (Hu i j a' b'); congruence.
Qed.

(** ** The ledger *)

Lemma find_some_spec {A} (p : A -> bool) l x : find p l = Some x -> x ∈ l /\ p x = true.
Proof. intros H%find_some. by rewrite list_elem_of_In. Qed.

Definition ledger_written (db : Db) (job_id : string) (row : LedgerRow) : Db :=
  with_ledger (<[job_id := (fun l => if String.eqb (lr_file_id l) (lr_file_id row) then row else l)
                             <$> ledger_of db job_id]> (t_ledger db)) db.

Lemma update_file_ledger_ok id file status bytes sha now db db' u :
  update_file_ledger id file status bytes sha now db = (db', Ok u) ->
  exists f digest, find (fun f => String.eqb (fr_file_id f) file) (files_of db id) = Some f /\
    (Z.of_N bytes <= fr_size_bytes f)%Z /\ ledger_digest status sha = Ok digest /\
    exists already,
      match find (fun l => String.eqb (lr_file_id l) file) (ledger_of db id) with
      | Some stored => ledger_guard file status bytes digest stored = Ok already
      | None => already = false
      end /\
      let row := mkLedgerRow file (ledger_as_db_str status) (Z.of_N bytes) digest now in
      if already : bool then db' = db
      else db' = ledger_written db id row /\ ledger_row_ok row = true.
Proof.
  unfold update_file_ledger. rewrite get_bind. intros (f & Hf & H)%lift_or_bind_ok.
  apply lift_or_bind_ok in H as (size & Hsz%u64_of_i64_Some & H).
  destruct (N.ltb_spec size bytes) as [|Hle]; [by apply sfail_ok in H|].
  apply lift_bind_ok in H as (digest & Hd & H). rewrite transaction_ok in H.
  apply lift_bind_ok in H as (already & Hg & H). exists f, digest.
  split_and!; [done|lia|done|]. exists already. split.
  - destruct (find _ (ledger_of db id)); [done|by injection Hg].
  - destruct already; [by apply sret_ok in H as [-> _]|].
    apply lift_bind_ok in H as (z & [_ ->]%checked_i64_ok & H). unfold write_ledger in H.
    destruct (ledger_row_ok _) eqn:Hok; [|done]. injection H as <-. by split.
Qed.

Lemma update_file_ledger_atomic id file status bytes sha now :
  atomic (update_file_ledger id file status bytes sha now).
Proof.
  unfold update_file_ledger. apply atomic_sget_bind; intros d.
  do 2 (apply atomic_slift_bind; intros ?). destruct (_ <? _)%N; auto with sm.
Qed.

Lemma update_file_ledger_inv id file status bytes sha now db db' u :
  store_inv db -> update_file_ledger id file status bytes sha now db = (db', Ok u) -> store_inv db'.
Proof.
  intros [Hr Hk Ho Ht Hs Hsq Hu Hsp Hf Hl Hlr Hln Hone Hlive]
    (f & dg & (Hin & _)%find_some_spec & _ & _ & [|] & _ & Hw)%update_file_ledger_ok;
    [simpl in Hw; subst db'; by split|]. destruct Hw as [-> Hok].
  assert (Hid : id ∈ dom (t_jobs db)).
  { apply Hf. apply elem_of_dom. unfold files_of in Hin.
    destruct (t_files db !! id); [eauto|set_solver]. }
  split; cbn [ledger_written with_ledger t_jobs t_outbox t_outbox_seq t_specs t_files t_ledger t_lineage];
    try done.
  - rewrite dom_insert_L. set_solver.
  - apply map_Forall_insert_2; [|done]. apply Forall_fmap, Forall_forall. intros l Hin'. simpl.
    destruct (String.eqb _ _); [done|]. unfold ledger_of in Hin'.
    destruct (t_ledger db !! id) as [rows|] eqn:El; [|set_solver].
    apply (Hlr id rows) in El. rewrite Forall_forall in El. by apply El.
Qed.

Definition ledger_row (db : Db) (id : string) (file : FileId) : option LedgerRow :=
  find (fun l => String.eqb (lr_file_id l) file) (ledger_of db id).

Lemma ledger_of_written db id row j :
  ledger_of (ledger_written db id row) j =
    if decide (j = id) then (fun l => if String.eqb (lr_file_id l) (lr_file_id row) then row else l)
                              <$> ledger_of db id
    else ledger_of db j.
Proof.
  unfold ledger_written, ledger_of. simpl. case_decide as Hj; [subst|].
  - by rewrite lookup_insert_eq.
  - by rewrite lookup_insert_ne.
Qed.

Lemma find_replaced rows row file :
  find (fun l => String.eqb (lr_file_id l) file)
    ((fun l => if String.eqb (lr_file_id l) (lr_file_id row) then row else l) <$> rows) =
  if String.eqb (lr_file_id row) file
  then (fun _ => row) <$> find (fun l => String.eqb (lr_file_id l) file) rows
  else find (fun l => String.eqb (lr_file_id l) file) rows.
Proof.
  induction rows as [|l rows IH]; [by simpl; destruct (String.eqb _ _)|].
  rewrite fmap_cons. cbn [find].
  destruct (String.eqb_spec (lr_file_id l) (lr_file_id row)) as [El|Nl]; rewrite IH.
  - rewrite El. by destruct (String.eqb_spec (lr_file_id row) file).
  - destruct (String.eqb_spec (lr_file_id row) file) as [Ef|Nf]; [|done].
    destruct (String.eqb_spec (lr_file_id l) file); [congruence|done].
Qed.

(** File evidence only grows: whatever [update_file_ledger] is
    asked, for any job and file, every ledger row that existed is still there,
    with at least as many confirmed bytes, and a verified row keeps its status
    and its digest; a failing call changes nothing. *)
Theorem ledger_monotone id file id' file' status bytes sha now db l :
  ledger_row db id file = Some l ->
  let '(db', r) := update_file_ledger id' file' status bytes sha now db in
  (is_ok r = false -> db' = db) /\
  exists l', ledger_row db' id file = Some l' /\
    (lr_bytes_confirmed l <= lr_bytes_confirmed l')%Z /\
    (lr_status l = "verified" ->
     lr_status l' = "verified" /\ lr_verified_sha256 l' = lr_verified_sha256 l).
Proof.
  intros Hl.
  assert (Hsame : exists l', Some l = Some l' /\ (lr_bytes_confirmed l <= lr_bytes_confirmed l')%Z /\
    (lr_status l = "verified" -> lr_status l' = "verified" /\
       lr_verified_sha256 l' = lr_verified_sha256 l)) by (exists l; split_and!; [done|lia|done]).
  destruct (update_file_ledger id' file' status bytes sha now db) as [db' [u|e]] eqn:E.
  2:{ apply update_file_ledger_atomic in E as ->. by rewrite Hl. }
  split; [done|]. apply update_file_ledger_ok in E as (f & dg & _ & _ & _ & [|] & Hg & Hw);
    [simpl in Hw; subst db'; by rewrite Hl|]. destruct Hw as [-> _].
  unfold ledger_row in *. rewrite ledger_of_written. case_decide as Hid; [subst id'|by rewrite Hl].
  rewrite find_replaced. simpl. destruct (String.eqb_spec file' file) as [->|]; [|by rewrite Hl].
  rewrite Hl in Hg |- *. simpl. eexists. split; [done|]. simpl. clear Hl.
  unfold ledger_guard in Hg. apply rbind_ok in Hg as (st & Hst%ok_or_ok & Hg).
  apply rbind_ok in Hg as (sb & Hsb%ok_or_ok & Hg). apply u64_of_i64_Some in Hsb.
  destruct (bool_decide (st = LVerified) && _) eqn:Ev; [done|].
  destruct (N.ltb_spec bytes sb); [done|]. split; [lia|].
  intros Hv. rewrite Hv in Hst. injection Hst as <-. simpl in Ev.
  apply orb_false_iff in Ev as [E1%negb_false_iff E2%negb_false_iff].
  apply bool_decide_eq_true in E1, E2. by subst.
Qed.

(** ** Preservation, structurally *)

(** A successful run keeps [P]. *)
Definition maintains {E A : Type} (P : Db -> Prop) (c : sm Db E A) : Prop :=
  forall db db' a, P db -> c db = (db', Ok a) -> P db'.

Section maintains.
Context (P : Db -> Prop).

Lemma maintains_ret {E A : Type} (a : A) : maintains (E := E) P (sret a).
Proof. intros db db' b Hp [-> _]%sret_ok. done. Qed.

Lemma maintains_fail {E A : Type} (e : E) : maintains (A := A) P (sfail e).
Proof. by intros db db' b Hp ?%sfail_ok. Qed.

Lemma maintains_bind {E A B : Type} (c : sm Db E A) (k : A -> sm Db E B) :
  maintains P c -> (forall a, maintains P (k a)) -> maintains P (sbind c k).
Proof. intros Hc Hk db db' b Hp (d & a & H1 & H2)%sbind_ok. eapply Hk; [|done]. by eapply Hc. Qed.

Lemma maintains_lift {E A : Type} (c : result E A) : maintains P (slift c).
Proof. intros db db' a Hp [-> _]%slift_ok. done. Qed.

Lemma maintains_get {E : Type} : maintains (E := E) P sget.
Proof. intros db db' a Hp [-> _]%sget_ok. done. Qed.

Lemma maintains_serr {E F A : Type} (f : E -> F) (c : sm Db E A) : maintains P c -> maintains P (serr f c).
Proof. intros Hc db db' a Hp H%serr_ok. by eapply Hc. Qed.

Lemma maintains_transaction {E A : Type} (c : sm Db E A) : maintains P c -> maintains P (transaction c).
Proof. intros Hc db db' a Hp. rewrite transaction_ok. by apply Hc. Qed.

Lemma maintains_foreach {E A : Type} (c : A -> sm Db E unit) l :
  (forall x, maintains P (c x)) -> maintains P (sforeach c l).
Proof. intros Hc. induction l as [|x l IH]; simpl; [apply maintains_ret|]. by apply maintains_bind. Qed.

Lemma maintains_abort (a : option CreateJobAbort) st : maintains P (abort_if a st).
Proof. unfold abort_if. case_bool_decide; [apply maintains_fail|apply maintains_ret]. Qed.
End maintains.

#[export] Hint Resolve maintains_ret maintains_fail maintains_bind maintains_lift maintains_get maintains_serr
  maintains_transaction maintains_foreach maintains_abort : sm.

Lemma store_inv_tables db db' :
  store_inv db -> t_jobs db' = t_jobs db -> t_outbox db' = t_outbox db ->
  t_outbox_seq db' = t_outbox_seq db -> t_lineage db' = t_lineage db ->
  dom (t_specs db') ⊆ dom (t_jobs db) -> dom (t_files db') ⊆ dom (t_jobs db) ->
  dom (t_ledger db') ⊆ dom (t_jobs db) ->
  map_Forall (fun _ rows => Forall (fun l => ledger_row_ok l = true) rows) (t_ledger db') ->
  store_inv db'.
Proof. intros [] Hj Ho Hs Hl. split; rewrite ?Hj, ?Ho, ?Hs, ?Hl; done. Qed.

(** The tables of the job store: everything but the tables of the uploads. *)
Definition job_tables (db : Db) :=
  (t_jobs db, t_specs db, t_files db, t_ledger db, t_outbox db, t_outbox_seq db, t_lineage db).

Lemma store_inv_uploads db db' : job_tables db' = job_tables db -> store_inv db -> store_inv db'.
Proof.
  intros [= Hj Hs Hf Hl Ho Hq Hln] Hinv. apply (store_inv_tables db); try done; rewrite ?Hs, ?Hf, ?Hl; apply Hinv.
Qed.

(** While job [child] is being created next to [db0]. *)
Record creating (db0 : Db) (child : string) (d : Db) : Prop := {
  cr_inv : store_inv d;
  cr_lineage : t_lineage d = t_lineage db0;
  cr_outbox : t_outbox d = t_outbox db0;
  cr_jobs : forall j, j <> child -> t_jobs d !! j = t_jobs db0 !! j;
}.

Section creating.
Context (db0 : Db) (child : string).

Lemma creating_insert_job identity kind key digest now :
  row_key (queued_row identity kind key digest now) ->
  maintains (creating db0 child) (insert_job child (queued_row identity kind key digest now)).
Proof.
  intros Hkey db db' [] [Hinv Hl Hout Hj]. unfold insert_job.
  destruct (bool_decide_reflect (is_Some (t_jobs db !! child))) as [|Hno]; [done|].
  apply eq_None_not_Some in Hno. destruct (existsb _ _); [done|].
  destruct (job_row_ok _) eqn:Hok; [|done]. intros [= <-].
  split; [|done|done|intros j Hne; simpl; by rewrite lookup_insert_ne, Hj].
  destruct Hinv as [Hr Hk Ho Ht Hs Hsq Hu Hsp Hf Hle Hlr Hln Hone Hlive].
  assert (Hdom : dom (t_jobs db) ⊆ dom (<[child := queued_row identity kind key digest now]> (t_jobs db)))
    by (rewrite dom_insert_L; set_solver).
  split; cbn [with_jobs t_jobs t_outbox t_outbox_seq t_specs t_files t_ledger t_lineage];
    try done; try (by etrans).
  - apply map_Forall_insert_2; [split; [done|]|done]. simpl. unfold i64_max. lia.
  - by apply map_Forall_insert_2.
  - intros j o Hjo. destruct (Ho j o Hjo) as (r & Hr0 & Hag). exists r. split; [|done].
    rewrite lookup_insert_ne; [done|congruence].
  - intros j r [[<- <-]|[_ Hjr]]%lookup_insert_Some Htx; [done|]. by apply (Ht j r Hjr).
  - intros c l Hc. destruct (Hln c l Hc). set_solver.
  - intros c1 c2 l1 l2 r H1 H2 H3 H4 [[<- <-]|[_ H5]]%lookup_insert_Some.
    + destruct (Hln child l1 H1) as [Hd _]. apply elem_of_dom in Hd as [? ?]. congruence.
    + by apply (Hlive c1 c2 l1 l2 r).
Qed.

Lemma creating_insert_spec row : maintains (creating db0 child) (insert_spec child row).
Proof.
  intros db db' [] [Hinv Hl Hout Hj]. unfold insert_spec. intros [Hid H]%owned_by_ok.
  case_bool_decide; [done|]. destruct (negb (_ && _)); [done|]. injection H as <-.
  split; [|done..]. apply (store_inv_tables db); try done; try apply Hinv.
  simpl. rewrite dom_insert_L. apply elem_of_dom in Hid. generalize (si_specs db Hinv). set_solver.
Qed.

Lemma creating_insert_file row : maintains (creating db0 child) (insert_file child row).
Proof.
  intros db db' [] [Hinv Hl Hout Hj]. unfold insert_file. intros [Hid H]%owned_by_ok.
  destruct (existsb _ _); [done|]. destruct (negb _); [done|]. injection H as <-.
  split; [|done..]. apply (store_inv_tables db); try done; try apply Hinv.
  simpl. rewrite dom_insert_L. apply elem_of_dom in Hid. generalize (si_files db Hinv). set_solver.
Qed.

Lemma creating_insert_ledger row : maintains (creating db0 child) (insert_ledger child row).
Proof.
  intros db db' [] [Hinv Hl Hout Hj]. unfold insert_ledger.
  destruct (existsb _ (files_of db child)) eqn:Ef; [|done].
  cbn [negb]. destruct (existsb _ (ledger_of db child)); [done|]. destruct (ledger_row_ok row) eqn:Hok; [|done]. intros [= <-].
  split; [|done..]. apply (store_inv_tables db); try done; try apply Hinv.
  2:{ simpl. apply map_Forall_insert_2; [|apply Hinv]. apply Forall_app. split; [|by constructor].
      unfold ledger_of. destruct (t_ledger db !! child) as [rows|] eqn:El; [|constructor].
      by apply (si_ledger_rows db Hinv child). }
  assert (Hid : child ∈ dom (t_jobs db)).
  { apply (si_files db Hinv), elem_of_dom. unfold files_of in Ef.
    destruct (t_files db !! child); [eauto|done]. }
  simpl. rewrite dom_insert_L. generalize (si_ledger db Hinv). set_solver.
Qed.

Lemma creating_uploads d d' : job_tables d' = job_tables d -> creating db0 child d -> creating db0 child d'.
Proof.
  intros Ht [Hinv Hl Hout Hj]. assert (Hi := store_inv_uploads _ _ Ht Hinv). injection Ht as Hjs _ _ _ Hos _ Hls.
  split; rewrite ?Hls, ?Hos, ?Hjs; done.
Qed.
End creating.

#[export] Hint Resolve creating_insert_job creating_insert_spec creating_insert_file
  creating_insert_ledger : sm.

Lemma download_key identity kind rest digest now :
  row_key (queued_row identity kind (natural_key identity ++ rest) digest now).
Proof. exists rest. left. by destruct identity. Qed.

Lemma download_key_plain identity kind digest now :
  row_key (queued_row identity kind (natural_key identity) digest now).
Proof. exists "". left. destruct identity. simpl. by rewrite str_app_nil_r. Qed.

Lemma upload_key identity kind rest digest now :
  row_key (queued_row identity kind ("upload:" ++ rest) digest now).
Proof. exists ("pload:" ++ rest). by right. Qed.

Lemma creating_refl db child : store_inv db -> creating db child db.
Proof. by split. Qed.

Lemma insert_file_of_keeps db0 child spec e :
  maintains (creating db0 child) (insert_file_of child spec e).
Proof. destruct e as [i f]. unfold insert_file_of. auto 10 with sm. Qed.
#[export] Hint Resolve insert_file_of_keeps : sm.

(** Walk through a program, one bind at a time. *)
Ltac maintains_step :=
  repeat first [ apply maintains_bind; [|intros ?] | apply maintains_serr | apply maintains_foreach; intros ?
               | solve [auto with sm] ].

Section operations.
Context `{Sha256}.

Lemma insert_job_tx_keeps db0 job_id spec now abort :
  maintains (creating db0 job_id) (insert_job_tx job_id spec now abort).
Proof.
  unfold insert_job_tx. apply maintains_bind; [auto with sm|]. intros d.
  apply maintains_bind; [auto with sm|]. intros [existing|]; [case_bool_decide; auto with sm|].
  apply maintains_bind; [auto with sm|]. intros [existing|]; [auto with sm|].
  maintains_step. apply creating_insert_job. apply download_key_plain.
Qed.

Lemma create_job_inv job_id spec now abort db db' out :
  store_inv db -> create_job job_id spec now abort db = (db', Ok out) -> store_inv db'.
Proof.
  intros Hinv Hc. unfold create_job in Hc.
  eapply (maintains_transaction (creating db job_id)); [apply insert_job_tx_keeps| |exact Hc].
  by apply creating_refl.
Qed.
End operations.

Lemma dismiss_job_ok id now db db' b :
  dismiss_job id now db = (db', Ok b) ->
  (b = false /\ db' = db) \/
  exists r r', t_jobs db !! id = Some r /\ job_row_ok r' = true /\
    db' = with_jobs (<[id := r']> (t_jobs db)) db /\ jr_state r' = jr_state r /\
    jr_error_code r' = jr_error_code r /\ jr_error_retryable r' = jr_error_retryable r /\
    jr_state_version r' = jr_state_version r /\ jr_operation_kind r' = jr_operation_kind r /\
    jr_desired_run_state r' = jr_desired_run_state r /\ (row_key r -> row_key r').
Proof.
  unfold dismiss_job. rewrite transaction_ok, get_bind.
  intros (f & Hf & (job & -> & H)%lift_or_bind_ok)%lift_err_bind_ok.
  case_bool_decide; [left; by apply sret_ok in H as [-> <-]|].
  destruct (negb (tag_is_terminal _)); [by apply sfail_ok in H|].
  apply lift_err_bind_ok in H as (rc & _ & (c & _ & H)%lift_or_bind_ok).
  destruct (negb (is_acknowledged c)); [by apply sfail_ok in H|].
  destruct (_ && _); [by apply sfail_ok in H|].
  apply serr_ok, update_job_ok in H as [(-> & -> & _)|(-> & r & Hr & _ & Hok & ->)]; [by left|right].
  eexists r, _. by split_and!.
Qed.

Lemma dismiss_job_inv id now db db' b :
  store_inv db -> dismiss_job id now db = (db', Ok b) -> store_inv db'.
Proof.
  intros Hinv [[_ ->]|(r & r' & Hr & Hok & -> & Hs & Hc & He & Hv & Hk & _ & Hkey)]%dismiss_job_ok; [done|].
  apply (store_inv_row db id r); try done; [|by rewrite Hs].
  split; [done|]. rewrite Hv. apply (proj2 (si_rows db Hinv id r Hr)).
Qed.

Lemma children_of_spec db p c l :
  (c, l) ∈ children_of db p <-> t_lineage db !! c = Some l /\ ln_parent_job_id l = p.
Proof.
  unfold children_of. rewrite list_elem_of_In, filter_In, <- list_elem_of_In, elem_of_map_to_list.
  simpl. by rewrite String.eqb_eq.
Qed.

Lemma no_children db p :
  negb (length (children_of db p) =? 0)%nat = false ->
  forall c l, t_lineage db !! c = Some l -> ln_parent_job_id l <> p.
Proof.
  rewrite negb_false_iff, Nat.eqb_eq. intros Hn%nil_length_inv c l Hc Hp.
  assert (Hin : (c, l) ∈ children_of db p) by (by apply children_of_spec). rewrite Hn in Hin. set_solver.
Qed.

Lemma delete_job_ok id db db' b :
  delete_job id db = (db', Ok b) ->
  (forall c, read_completion db id = Ok (Some c) -> is_acknowledged c = true) /\
  delete_job_row id db = (db', Ok b).
Proof.
  unfold delete_job. rewrite transaction_ok, get_bind. intros (rc & Hrc & H)%lift_bind_ok.
  destruct rc as [c|].
  - destruct (is_acknowledged c) eqn:Ea; [|by apply sfail_ok in H]. split; [|done]. congruence.
  - split; [congruence|done].
Qed.

Lemma delete_job_inv id db db' b :
  store_inv db -> delete_job id db = (db', Ok b) -> store_inv db'.
Proof.
  intros Hinv [_ Hd]%delete_job_ok. unfold delete_job_row in Hd.
  destruct (t_jobs db !! id) as [r|] eqn:Hr; [|by injection Hd as <-].
  destruct (negb (_ =? 0)%nat) eqn:Hc; [done|]. injection Hd as <- _.
  assert (Hp := no_children db id Hc). clear Hc.
  destruct Hinv as [Hrows Hk Ho Ht Hs Hsq Hu Hsp Hf Hl Hlr Hln Hone Hlive].
  split; cbn [t_jobs t_outbox t_outbox_seq t_specs t_files t_ledger t_lineage];
    rewrite ?dom_delete_L; try done; try (by apply difference_mono_r).
  - by apply map_Forall_delete.
  - by apply map_Forall_delete.
  - intros j o [Hne Hj]%lookup_delete_Some. destruct (Ho j o Hj) as (r0 & ? & ?).
    exists r0. by rewrite lookup_delete_ne.
  - intros j r0 [Hne Hj]%lookup_delete_Some Htx. rewrite lookup_delete_ne by done.
    by apply (Ht j r0 Hj).
  - by apply map_Forall_delete.
  - intros i j a b0 [_ Hi]%lookup_delete_Some [_ Hj]%lookup_delete_Some. by apply Hu.
  - by apply map_Forall_delete.
  - intros c l [Hne Hc]%lookup_delete_Some. destruct (Hln c l Hc).
    specialize (Hp c l Hc). set_solver.
  - intros c1 c2 l1 l2 [_ H1]%lookup_delete_Some [_ H2]%lookup_delete_Some. by apply Hone.
  - intros c1 c2 l1 l2 r0 [_ H1]%lookup_delete_Some [_ H2]%lookup_delete_Some H3 H4
      [_ H5]%lookup_delete_Some. by apply (Hlive c1 c2 l1 l2 r0).
Qed.

(** ** Retargeting *)

Lemma read_job_none db id : read_job db id = Ok None <-> t_jobs db !! id = None.
Proof.
  unfold read_job. destruct (t_jobs db !! id) as [r|]; [|done]. split; [|done].
  intros (j & _ & ?)%rbind_ok. done.
Qed.

Lemma read_completion_none db id : read_completion db id = Ok None <-> t_outbox db !! id = None.
Proof.
  unfold read_completion. destruct (t_outbox db !! id) as [r|]; [|done]. split; [|done].
  intros (j & _ & ?)%rbind_ok. done.
Qed.

Definition retargeted (db : Db) (old new now : string) (r : JobRow) : Db :=
  mkDb (<[new := requeue now r]> (delete old (t_jobs db))) (move_key old new (t_specs db))
    (move_key old new (t_files db)) (move_key old new (t_ledger db)) (delete old (t_outbox db))
    (t_outbox_seq db) (t_lineage db) (t_upload_specs db) (t_activity db) (t_uploads db)
    (t_parts db) (t_receipts db) (t_derived db).

Lemma retarget_job_ok old new now db db' job :
  retarget_job old new now db = (db', Ok job) ->
  (forall c, read_completion db old = Ok (Some c) -> is_acknowledged c = true) /\
  exists r, t_jobs db !! old = Some r /\ t_jobs db !! new = None /\
    dangling db old = false /\ read_job_row new (requeue now r) = Ok job /\
    (jr_state_version r + 1 <= Z.of_N i64_max)%Z /\ db' = retargeted db old new now r.
Proof.
  unfold retarget_job. rewrite transaction_ok, get_bind.
  intros (o & Ho & H)%lift_bind_ok. case_bool_decide; [by apply sfail_ok in H|].
  apply lift_bind_ok in H as (n & Hn & H). case_bool_decide as Hnew; [by apply sfail_ok in H|].
  apply eq_None_not_Some in Hnew as ->. apply read_job_none in Hn.
  destruct o as [oj|]; [|done]. apply read_job_ok in Ho as (r & Hr & _).
  assert (Hne : old <> new) by congruence.
  apply sbind_ok in H as (d & [] & Hdrop & H).
  assert (Hd : d = with_outbox (delete old (t_outbox db)) (t_outbox_seq db) db /\
               forall c, read_completion db old = Ok (Some c) -> is_acknowledged c = true).
  { unfold drop_acknowledged_outcome in Hdrop. rewrite get_bind in Hdrop.
    apply lift_bind_ok in Hdrop as ([c|] & Hc & Hdrop).
    - destruct (is_acknowledged c) eqn:Ea; [|by apply sfail_ok in Hdrop].
      injection Hdrop as <-. split; [done|congruence].
    - apply sret_ok in Hdrop as [-> _]. apply read_completion_none in Hc.
      rewrite delete_id by done. split; [by destruct db|].
      intros c Hc'. rewrite (proj2 (read_completion_none db old) Hc) in Hc'. done. }
  destruct Hd as [-> Hack]. split; [done|]. exists r.
  apply sbind_ok in H as (d & [] & [= <-] & H). cbn [with_outbox t_jobs t_specs t_files t_ledger
    t_outbox t_outbox_seq t_lineage t_upload_specs t_activity t_uploads t_parts t_receipts t_derived] in H.
  assert (Hmv : move_key old new (alter (requeue now) old (t_jobs db))
                = <[new := requeue now r]> (delete old (t_jobs db))).
  { unfold move_key. rewrite lookup_alter_eq, Hr. simpl. f_equal. apply map_eq. intros j.
    destruct (decide (j = old)) as [->|]; [by rewrite !lookup_delete_eq|].
    by rewrite !lookup_delete_ne, lookup_alter_ne. }
  rewrite Hmv, get_bind in H. apply lift_bind_ok in H as (f & Hf & H).
  apply lift_or_bind_ok in H as (m & -> & H).
  apply read_job_ok in Hf as (r' & Hr' & Hrow). simpl in Hr'. rewrite lookup_insert_eq in Hr'.
  injection Hr' as <-. destruct (Z.ltb_spec (Z.of_N i64_max) (Z.of_N (sj_state_version m))) as [|Hle];
    [by apply sfail_ok in H|].
  destruct (dangling _ old) eqn:Hdang; [by apply sfail_ok in H|]. apply sret_ok in H as [-> <-].
  apply read_job_row_ok in Hrow as Hcols. destruct Hcols as (_ & _ & _ & _ & Hv & _).
  split_and!; try done. simpl in Hv. by rewrite Hv.
Qed.

Lemma move_key_dom {A : Type} (m : gmap string A) old new (X : gset string) :
  dom m ⊆ X -> dom (move_key old new m) ⊆ {[new]} ∪ X ∖ {[old]}.
Proof.
  intros Hm. unfold move_key. destruct (m !! old) eqn:E.
  - rewrite dom_insert_L, dom_delete_L. set_solver.
  - apply not_elem_of_dom in E. set_solver.
Qed.

Lemma move_key_Forall {A : Type} (P : A -> Prop) (m : gmap string A) old new :
  map_Forall (fun _ => P) m -> map_Forall (fun _ => P) (move_key old new m).
Proof.
  intros Hm. unfold move_key. destruct (m !! old) eqn:E; [|done].
  apply map_Forall_insert_2; [by apply (Hm old)|by apply map_Forall_delete].
Qed.

Lemma requeue_ok now r : job_row_ok r = true -> job_row_ok (requeue now r) = true.
Proof.
  rewrite !job_row_ok_iff. simpl. intros (? & ? & _ & ? & ? & _ & _).
  split_and!; try done. lia.
Qed.

Lemma retarget_job_inv old new now db db' job :
  store_inv db -> retarget_job old new now db = (db', Ok job) -> store_inv db'.
Proof.
  intros Hinv (_ & r & Hr & Hn & Hd & _ & Hb & ->)%retarget_job_ok.
  unfold dangling in Hd. rewrite !orb_false_iff in Hd. destruct Hd as ((((((Hl0 & Hc) & _) & _) & _) & _) & _).
  apply bool_decide_eq_false in Hl0. apply eq_None_not_Some in Hl0.
  assert (Hp := no_children db old Hc). clear Hc.
  assert (Hok := si_rows db Hinv old r Hr). destruct Hok as [Hok _].
  assert (Hdom : dom (<[new := requeue now r]> (delete old (t_jobs db)))
                 = {[new]} ∪ dom (t_jobs db) ∖ {[old]}) by (by rewrite dom_insert_L, dom_delete_L).
  destruct Hinv as [Hrows Hk Ho Ht Hs Hsq Hu Hsp Hf Hl Hlr Hln Hone Hlive].
  split; cbn [retargeted t_jobs t_outbox t_outbox_seq t_specs t_files t_ledger t_lineage];
    rewrite ?Hdom; try done; try (by apply move_key_dom).
  - apply map_Forall_insert_2; [|by apply map_Forall_delete]. split; [by apply requeue_ok|].
    cbn [requeue jr_state_version]. lia.
  - apply map_Forall_insert_2; [by apply (Hk old r)|by apply map_Forall_delete].
  - intros j o [Hne Hj]%lookup_delete_Some. destruct (Ho j o Hj) as (r0 & Hr0 & Hag).
    exists r0. split; [|done]. by rewrite lookup_insert_ne, lookup_delete_ne by congruence.
  - intros j r0 [[<- <-]|[Hne [Hne' Hj]%lookup_delete_Some]]%lookup_insert_Some Htx; [done|].
    rewrite lookup_delete_ne by done. by apply (Ht j r0 Hj).
  - by apply map_Forall_delete.
  - intros i j a b0 [_ Hi]%lookup_delete_Some [_ Hj]%lookup_delete_Some. by apply Hu.
  - by apply move_key_Forall.
  - intros c l Hc. destruct (Hln c l Hc) as [H1 H2]. specialize (Hp c l Hc).
    assert (c <> old) by congruence. split; apply elem_of_union_r, elem_of_difference;
      (split; [done|]); by rewrite elem_of_singleton.
  - intros c1 c2 l1 l2 r0 H1 H2 H3 H4 [[<- <-]|[_ [_ H5]%lookup_delete_Some]]%lookup_insert_Some.
    + destruct (Hln new l1 H1) as [[? ?]%elem_of_dom _]. congruence.
    + by apply (Hlive c1 c2 l1 l2 r0).
Qed.

(** ** Retries *)

Lemma latest_attempt_Some l x :
  latest_attempt l = Some x -> x ∈ l /\ forall y, y ∈ l -> (ln_attempt y.2 <= ln_attempt x.2)%Z.
Proof.
  revert x. induction l as [|z l IH]; intros x; simpl; [done|].
  destruct (latest_attempt l) as [w|] eqn:E.
  - destruct (IH w eq_refl) as [Hin Hmax].
    destruct (Z.ltb_spec (ln_attempt w.2) (ln_attempt z.2)); intros [= <-];
      (split; [set_solver|]); intros y [->|Hy]%elem_of_cons; try lia;
      specialize (Hmax y Hy); lia.
  - intros [= <-]. destruct l as [|u l']; [|simpl in E; by destruct (latest_attempt l'); [destruct (_ <? _)%Z|]].
    split; [set_solver|]. intros y [->|Hy]%elem_of_cons; [lia|set_solver].
Qed.

Lemma latest_attempt_None l : latest_attempt l = None -> l = [].
Proof.
  destruct l as [|z l]; [done|]. simpl. destruct (latest_attempt l); [by destruct (_ <? _)%Z|done].
Qed.

Lemma joined_children_all db p :
  store_inv db -> joined_children db p (fun _ => true) = children_of db p.
Proof.
  intros Hinv. unfold joined_children.
  assert (Hall : forall e, e ∈ children_of db p ->
            match t_jobs db !! e.1 with Some _ => true | None => false end = true).
  { intros [c l] [Hc _]%children_of_spec. destruct (si_lineage db Hinv c l Hc) as [[r Hr]%elem_of_dom _].
    simpl. by rewrite Hr. }
  induction (children_of db p) as [|e l IH]; [done|]. simpl. rewrite Hall by set_solver.
  f_equal. apply IH. intros e' He'. apply Hall. set_solver.
Qed.

(** Every earlier child of [parent] has ended, and [attempt] is fresh. *)
Definition may_spawn (db : Db) (parent : string) (attempt : Z) : Prop :=
  forall c l, t_lineage db !! c = Some l -> ln_parent_job_id l = parent ->
    (ln_attempt l < attempt)%Z /\
    exists r, t_jobs db !! c = Some r /\ terminal_text (jr_state r) = true.

Lemma insert_lineage_creating db0 child row d d' :
  creating db0 child d -> store_inv db0 -> t_jobs db0 !! child = None ->
  may_spawn db0 (ln_parent_job_id row) (ln_attempt row) ->
  insert_lineage child row d = (d', Ok tt) ->
  store_inv d' /\ t_lineage d' = <[child := row]> (t_lineage db0) /\ t_outbox d' = t_outbox db0 /\
  t_jobs d' = t_jobs d.
Proof.
  intros [Hinv Hl Hout Hj] Hinv0 Hnew Hmay. unfold insert_lineage.
  intros [Hc [Hp H]%owned_by_ok]%owned_by_ok.
  case_bool_decide as Hno; [done|]. destruct (existsb _ _); [done|].
  destruct (_ <? 1)%Z; [done|]. injection H as <-. apply eq_None_not_Some in Hno.
  assert (Hne : forall c l, t_lineage d !! c = Some l -> c <> child) by (intros c l ? ->; congruence).
  assert (Hsib : forall c l, t_lineage d !! c = Some l -> ln_parent_job_id l = ln_parent_job_id row ->
            (ln_attempt l < ln_attempt row)%Z /\
            exists r, t_jobs d !! c = Some r /\ terminal_text (jr_state r) = true).
  { intros c l Hcl Hpar. rewrite Hl in Hcl. destruct (Hmay c l Hcl Hpar) as [? (r & Hr & ?)].
    split; [done|]. exists r. rewrite Hj; [done|congruence]. }
  split; [|cbn [with_lineage t_lineage t_outbox t_jobs]; by rewrite Hl].
  destruct Hinv as [Hrows Hk Ho Ht Hs Hsq Hu Hsp Hf Hle Hlr Hln Hone Hlive].
  split; cbn [with_lineage t_jobs t_outbox t_outbox_seq t_specs t_files t_ledger t_lineage]; try done.
  - apply map_Forall_insert_2; [|done]. split; by apply elem_of_dom.
  - intros c1 c2 l1 l2 [[<- <-]|[N1 H1]]%lookup_insert_Some [[<- <-]|[N2 H2]]%lookup_insert_Some He Hd;
      [done| | |by apply Hone with c1 c2].
    + right. by apply (Hsib c2).
    + left. by apply (Hsib c1).
  - intros c1 c2 l1 l2 r [[<- <-]|[N1 H1]]%lookup_insert_Some [[<- <-]|[N2 H2]]%lookup_insert_Some He Ha Hr.
    + lia.
    + destruct (Hsib c2 l2 H2 (eq_sym He)) as [? _]. lia.
    + destruct (Hsib c1 l1 H1 He) as [_ (r' & Hr' & ?)]. congruence.
    + by apply (Hlive c1 c2 l1 l2 r).
Qed.

Lemma spawn_child_ok (k : OperationKind) db parent child attempt now d' :
  store_inv db -> t_jobs db !! child = None -> may_spawn db (sj_job_id parent) attempt ->
  match k with
  | OpUpload => spawn_upload_child parent child attempt now
  | OpDownload => spawn_download_child parent child attempt now
  end db = (d', Ok tt) ->
  store_inv d' /\
  t_lineage d' = <[child := mkLineageRow (sj_job_id parent) attempt now]> (t_lineage db) /\
  t_outbox d' = t_outbox db /\ (forall j, j <> child -> t_jobs d' !! j = t_jobs db !! j).
Proof.
  intros Hinv Hno Hmay Hrun.
  assert (Hsplit : exists d, creating db child d /\
            insert_lineage child (mkLineageRow (sj_job_id parent) attempt now) d = (d', Ok tt)).
  { destruct k; unfold spawn_download_child, spawn_upload_child in Hrun; rewrite get_bind in Hrun.
    - apply sbind_ok in Hrun as (d1 & [] & H1 & Hrun). apply sbind_ok in Hrun as (d2 & [] & H2 & Hrun).
      apply sbind_ok in Hrun as (d3 & [] & H3 & Hrun). apply sbind_ok in Hrun as (d4 & [] & H4 & Hrun).
      apply serr_ok in Hrun. exists d4. split; [|done].
      assert (C1 : creating db child d1) by (eapply maintains_serr; [apply creating_insert_job| |exact H1]; [apply download_key|by apply creating_refl]).
      assert (C2 : creating db child d2).
      { eapply maintains_serr; [| |exact H2]; [|done]. destruct (t_specs db !! _); auto with sm. }
      assert (C3 : creating db child d3).
      { eapply maintains_serr; [| |exact H3]; [|done]. apply maintains_foreach. auto with sm. }
      eapply maintains_serr; [| |exact H4]; [|done]. apply maintains_foreach. auto with sm.
    - apply lift_or_bind_ok in Hrun as (us & Hus & Hrun).
      apply sbind_ok in Hrun as (d1 & [] & H1 & Hrun). apply sbind_ok in Hrun as (d2 & [] & H2 & Hrun).
      apply lift_or_bind_ok in Hrun as (ac & Hac & Hrun). apply sbind_ok in Hrun as (d3 & [] & H3 & Hrun).
      apply serr_ok in Hrun. exists d3. split; [|done].
      assert (C1 : creating db child d1) by (eapply maintains_serr; [apply creating_insert_job| |exact H1]; [apply upload_key|by apply creating_refl]).
      apply serr_ok, owned_by_ok in H2 as [_ [= <-]]. apply serr_ok, owned_by_ok in H3 as [_ [= <-]].
      by apply (creating_uploads _ _ d1). }
  destruct Hsplit as (d & Hcr & Hins).
  destruct (insert_lineage_creating db child (mkLineageRow (sj_job_id parent) attempt now) d d' Hcr Hinv Hno Hmay Hins) as (? & ? & ? & Hjobs).
  split_and!; try done. intros j Hj. rewrite Hjobs. by apply Hcr.
Qed.

Lemma retry_parent_checked_ok db p allow parent :
  retry_parent_checked db p allow = Ok parent ->
  sj_job_id parent = p /\
  (exists r, t_jobs db !! p = Some r /\ read_job_row p r = Ok parent) /\
  tag_is_terminal (sj_state parent) = true /\ sj_dismissed_at parent = None /\
  exists c, read_completion db p = Ok (Some c) /\ is_acknowledged c = true.
Proof.
  unfold retry_parent_checked. intros (f & Hf%rmap_err_ok & H)%rbind_ok.
  apply rbind_ok in H as (job & ->%ok_or_ok & H). apply read_job_ok in Hf as (r & Hr & Hrow).
  case_bool_decide as Hdis; [done|]. apply eq_None_not_Some in Hdis.
  destruct (negb _ && negb _) eqn:Eg; [done|]. apply andb_false_iff in Eg.
  apply rbind_ok in H as (rc & Hrc%rmap_err_ok & H). apply rbind_ok in H as (c & ->%ok_or_ok & H).
  destruct (is_acknowledged c) eqn:Ea; [|done]. cbn [negb] in H.
  assert (job = parent) as ->.
  { revert H. destruct (sj_operation_kind job); [congruence|].
    destruct (latest_attempt _) as [[? ?]|]; congruence. }
  assert (Hid := read_job_row_ok _ _ _ Hrow). split_and!; [apply Hid|by eauto| |done|by eauto].
  destruct Eg as [E|E]; apply negb_false_iff in E; rewrite !andb_true_iff in E; destruct_and!;
    repeat match goal with Hb : bool_decide _ = true |- _ => apply bool_decide_eq_true in Hb end;
    by match goal with Hs : sj_state _ = _ |- _ => rewrite Hs end.
Qed.

(** The next attempt after the latest child has ended. *)
Lemma attempt_may_spawn db p attempt :
  store_inv db ->
  (forall lc ll, latest_attempt (children_of db p) = Some (lc, ll) ->
     attempt = (ln_attempt ll + 1)%Z /\
     exists job, read_job db lc = Ok job /\ forall j, job = Some j -> tag_is_terminal (sj_state j) = true) ->
  may_spawn db p attempt.
Proof.
  intros Hinv Hlatest c l Hc Hp. assert (Hin : (c, l) ∈ children_of db p) by (by apply children_of_spec).
  destruct (latest_attempt (children_of db p)) as [[lc ll]|] eqn:El.
  2:{ apply latest_attempt_None in El. rewrite El in Hin. set_solver. }
  destruct (Hlatest lc ll eq_refl) as [-> (lj & Hlj & Hterm)].
  apply latest_attempt_Some in El as [Hlin Hmax]. specialize (Hmax (c, l) Hin). simpl in Hmax. split; [lia|].
  apply children_of_spec in Hlin as [Hlc Hlp].
  destruct (si_lineage db Hinv lc ll Hlc) as [[lr Hlr]%elem_of_dom _].
  destruct lj as [lj|]; [|apply read_job_none in Hlj; congruence].
  apply read_job_ok in Hlj as (lr' & Hlr' & Hrow). assert (lr' = lr) as -> by congruence.
  apply read_job_row_ok in Hrow as (_ & _ & _ & Hst & _).
  assert (Hlt : terminal_text (jr_state lr) = true) by (rewrite Hst, terminal_text_tag; by apply Hterm).
  destruct (decide (c = lc)) as [->|Hne]; [exists lr; by split|].
  destruct (si_lineage db Hinv c l Hc) as [[r Hr]%elem_of_dom _]. exists r. split; [done|].
  destruct (si_one_live db Hinv c lc l ll Hc Hlc ltac:(congruence) Hne) as [Hlt'|?]; [|lia].
  apply (si_live_is_latest db Hinv c lc l ll r); congruence || done.
Qed.

Lemma spawn_retry_job_ok p child now allow db db' out :
  store_inv db -> spawn_retry_job_inner p child now allow db = (db', Ok out) ->
  (exists job, out = RtExisting job /\ db' = db) \/
  (exists job attempt, out = RtCreated job /\ t_jobs db !! child = None /\
     may_spawn db p attempt /\ store_inv db' /\
     t_lineage db' = <[child := mkLineageRow p attempt now]> (t_lineage db) /\
     t_outbox db' = t_outbox db /\ (forall j, j <> child -> t_jobs db' !! j = t_jobs db !! j)).
Proof.
  intros Hinv. unfold spawn_retry_job_inner. rewrite transaction_ok, get_bind.
  intros (parent & Hpar & H)%lift_bind_ok. apply retry_parent_checked_ok in Hpar as (Hid & _).
  apply lift_err_bind_ok in H as (taken & Htaken & H). destruct taken as [ex|].
  { case_bool_decide; [|by apply sfail_ok in H]. apply sret_ok in H as [-> <-]. left. by exists ex. }
  apply read_job_none in Htaken. rewrite joined_children_all in H by done.
  apply lift_bind_ok in H as (live & Hlive & H). destruct live as [ex|].
  { apply sret_ok in H as [-> <-]. left. by exists ex. }
  apply lift_bind_ok in H as (attempt & Hatt & H).
  apply sbind_ok in H as (d & [] & Hrun & H). rewrite get_bind in H.
  apply lift_err_bind_ok in H as (f & _ & H). apply lift_or_bind_ok in H as (job & -> & H).
  apply sret_ok in H as [-> <-]. right. exists job, attempt.
  assert (Hmay : may_spawn db p attempt).
  { apply attempt_may_spawn; [done|]. intros lc ll El. rewrite El in Hatt, Hlive.
    destruct (_ <? _)%Z; [|done]. injection Hatt as <-. split; [done|].
    apply rbind_ok in Hlive as (lj & Hlj%rmap_err_ok & [= Hterm]). exists lj. split; [done|]. intros j ->.
    by destruct (tag_is_terminal (sj_state j)). }
  rewrite <- Hid in Hmay.
  destruct (spawn_child_ok (sj_operation_kind parent) db parent child attempt now d)
    as (? & ? & ? & ?); [done..|]. rewrite Hid in *. by split_and!.
Qed.

(** ** Every operation *)

Inductive StoreOp :=
| OTransition (id : string) (v : N) (to : JobStateTag) (err : option (string * bool)) (now : string)
| OIntent (id : string) (desired : DesiredRunState) (now : string) (v : option N)
| OLedger (id : string) (file : FileId) (status : FileLedgerStatus) (bytes : N)
          (sha : option string) (now : string)
| OCreate (id : string) (spec : JobSpec) (now : string) (abort : option CreateJobAbort)
| OComplete (id : string) (o : TerminalOutcome) (now : string) (abort : option CompleteJobAbort)
| OAck (id now : string)
| ORetry (parent child now : string) (upload : bool)
| ODismiss (id now : string)
| ODelete (id : string)
| ORetarget (old new now : string).

Definition outcome_flag {E A : Type} (x : Db * result E A) : Db * bool := (x.1, is_ok x.2).

Section all_operations.
Context `{Sha256}.

Definition run_op (op : StoreOp) (db : Db) : Db * bool :=
  match op with
  | OTransition id v to err now => outcome_flag (transition_job id v to err now db)
  | OIntent id desired now v => outcome_flag (set_desired_run_state id desired now v db)
  | OLedger id file status bytes sha now => outcome_flag (update_file_ledger id file status bytes sha now db)
  | OCreate id spec now abort => outcome_flag (create_job id spec now abort db)
  | OComplete id o now abort => outcome_flag (complete_job id o now abort db)
  | OAck id now => outcome_flag (acknowledge_completion id now db)
  | ORetry parent child now upload => outcome_flag (spawn_retry_job_inner parent child now upload db)
  | ODismiss id now => outcome_flag (dismiss_job id now db)
  | ODelete id => outcome_flag (delete_job id db)
  | ORetarget old new now => outcome_flag (retarget_job old new now db)
  end.

Lemma outcome_flag_spec {E A : Type} (P : Db -> Prop) (c : sm Db E A) db :
  atomic c -> P db -> (forall db' a, c db = (db', Ok a) -> P db') ->
  let '(db', ok) := outcome_flag (c db) in P db' /\ (ok = false -> db' = db).
Proof.
  intros Ha Hp Hk. unfold outcome_flag. destruct (c db) as [db' [a|e]] eqn:Erun; simpl.
  - split; [by eapply Hk|done].
  - assert (db' = db) as -> by (by eapply Ha). done.
Qed.

(** What every operation satisfies, from what each of them satisfies. *)
Lemma run_op_ind (P : Db -> Prop) db op :
  P db ->
  (forall id v to err now db' a, op = OTransition id v to err now ->
     transition_job id v to err now db = (db', Ok a) -> P db') ->
  (forall id desired now v db' a, op = OIntent id desired now v ->
     set_desired_run_state id desired now v db = (db', Ok a) -> P db') ->
  (forall id file status bytes sha now db' a, op = OLedger id file status bytes sha now ->
     update_file_ledger id file status bytes sha now db = (db', Ok a) -> P db') ->
  (forall id spec now abort db' a, op = OCreate id spec now abort ->
     create_job id spec now abort db = (db', Ok a) -> P db') ->
  (forall id o now abort db' a, op = OComplete id o now abort ->
     complete_job id o now abort db = (db', Ok a) -> P db') ->
  (forall id now db' a, op = OAck id now -> acknowledge_completion id now db = (db', Ok a) -> P db') ->
  (forall parent child now upload db' a, op = ORetry parent child now upload ->
     spawn_retry_job_inner parent child now upload db = (db', Ok a) -> P db') ->
  (forall id now db' a, op = ODismiss id now -> dismiss_job id now db = (db', Ok a) -> P db') ->
  (forall id db' a, op = ODelete id -> delete_job id db = (db', Ok a) -> P db') ->
  (forall old new now db' a, op = ORetarget old new now ->
     retarget_job old new now db = (db', Ok a) -> P db') ->
  let '(db', ok) := run_op op db in P db' /\ (ok = false -> db' = db).
Proof.
  intros Hp H1 H2 H3 H4 H5 H6 H7 H8 H9 H10.
  destruct op; simpl; apply outcome_flag_spec; try done; try apply atomic_transaction;
    [apply transition_job_atomic|eauto|apply set_desired_run_state_atomic|eauto
    |apply update_file_ledger_atomic|eauto..].
Qed.

Lemma store_operations_inv db op :
  store_inv db -> let '(db', ok) := run_op op db in store_inv db' /\ (ok = false -> db' = db).
Proof.
  intros Hinv. apply run_op_ind; [done|intros *; intros _; intros Hrun..].
  - by eapply transition_job_inv.
  - by eapply set_desired_run_state_inv.
  - by eapply update_file_ledger_inv.
  - by eapply create_job_inv.
  - by eapply complete_job_inv.
  - by eapply acknowledge_completion_inv.
  - apply spawn_retry_job_ok in Hrun as [(? & _ & ->)|(? & ? & _ & _ & _ & ? & _)]; done.
  - by eapply dismiss_job_inv.
  - by eapply delete_job_inv.
  - by eapply retarget_job_inv.
Qed.


Lemma create_job_outbox id spec now abort db db' out :
  store_inv db -> create_job id spec now abort db = (db', Ok out) -> t_outbox db' = t_outbox db.
Proof.
  intros Hinv Hrun. unfold create_job in Hrun. rewrite transaction_ok in Hrun.
  eapply insert_job_tx_keeps in Hrun; [|by apply creating_refl]. apply Hrun.
Qed.

Lemma unacknowledged_not_read db id o c :
  t_outbox db !! id = Some o -> or_acknowledged_at o = None ->
  read_completion db id = Ok (Some c) -> is_acknowledged c = false.
Proof.
  unfold read_completion. intros -> Ho (c' & Hc & [= ->])%rbind_ok. unfold read_completion_row in Hc.
  repeat (apply rbind_ok in Hc as (? & _ & Hc)). injection Hc as <-.
  unfold is_acknowledged. simpl. by rewrite Ho.
Qed.

Lemma read_completion_some db id o :
  store_inv db -> t_outbox db !! id = Some o -> exists c, read_completion db id = Ok (Some c).
Proof.
  intros Hinv Ho. unfold read_completion. rewrite Ho.
  destruct (si_outbox db Hinv id o Ho) as (r & _ & (Hok & _)).
  generalize (si_sequence db Hinv id o Ho). simpl. intros Hs.
  unfold outbox_row_ok in Hok. rewrite !andb_true_iff, !eqb_true_iff, Z.leb_le in Hok.
  destruct Hok as ((((Hop & Ht) & Hv) & Hc) & Hr). apply bool_decide_eq_true in Hop as [k Hk].
  unfold read_completion_row. rewrite Hk.
  rewrite (proj2 (u64_of_i64_Some (or_sequence o) (Z.to_N (or_sequence o)))) by lia.
  rewrite (proj2 (u64_of_i64_Some (or_state_version o) (Z.to_N (or_state_version o)))) by lia.
  cbn [ok_or rbind]. unfold outcome_from_columns, terminal_text, is_failed_text in *.
  simpl in Ht. rewrite orb_false_r in Ht.
  destruct (String.eqb_spec (or_outcome o) "succeeded"); [by eexists|].
  destruct (String.eqb_spec (or_outcome o) "cancelled"); [by eexists|].
  destruct (String.eqb_spec (or_outcome o) "failed"); [|by rewrite !orb_false_r in Ht].
  symmetry in Hc, Hr. apply bool_decide_eq_true in Hc as [x ->], Hr as [y ->]. by eexists.
Qed.

(** A result nobody has seen is never lost: an unacknowledged
    outcome in the outbox survives every operation unchanged, except that
    acknowledging it stamps it; it stays readable and its job row keeps the
    ending it records. *)
Theorem unacknowledged_outcome_survives db op id o :
  store_inv db -> t_outbox db !! id = Some o -> or_acknowledged_at o = None ->
  let db' := (run_op op db).1 in
  (t_outbox db' !! id = Some o \/
   exists now, op = OAck id now /\ t_outbox db' !! id = Some (stamp_ack now o)) /\
  (exists c, read_completion db' id = Ok (Some c)) /\
  exists r, t_jobs db' !! id = Some r /\ outcome_agrees o r.
Proof.
  intros Hinv Ho Hack db'.
  set (P := fun d => t_outbox d !! id = Some o \/
                     exists now, op = OAck id now /\ t_outbox d !! id = Some (stamp_ack now o)).
  assert (HP : P db').
  { enough (Hind : let '(d, ok) := run_op op db in P d /\ (ok = false -> d = db))
      by (subst db'; destruct (run_op op db); apply Hind).
    apply run_op_ind; [by left|intros *; intros Hop; intros Hrun..].
    - apply transition_job_ok in Hrun as (_ & _ & _ & _ & r & _ & _ & _ & _ & ->). by left.
    - apply set_desired_run_state_ok in Hrun as (r & _ & _ & ->). by left.
    - apply update_file_ledger_ok in Hrun as (f & dg & _ & _ & _ & [|] & _ & Hw); simpl in Hw;
        [subst|destruct Hw as [-> _]]; by left.
    - left. by rewrite (create_job_outbox _ _ _ _ _ _ _ Hinv Hrun).
    - apply complete_job_ok in Hrun as (job & r & _ & _ & [(c & _ & -> & _)|(c & _ & _ & Hno & _ & _ & _ & _ & _ & _ & _ & ->)]);
        [by left|left|done]. simpl. rewrite lookup_insert_ne; [done|congruence].
    - apply acknowledge_completion_ok in Hrun as [->|(o' & Ho' & _ & ->)]; [by left|]. simpl.
      destruct (decide (id0 = id)) as [->|Hne].
      + right. exists now. split; [done|]. cbn [with_outbox t_outbox].
        rewrite lookup_insert_eq. congruence.
      + left. simpl. by rewrite lookup_insert_ne.
    - apply spawn_retry_job_ok in Hrun as [(? & _ & ->)|(? & ? & _ & _ & _ & _ & _ & Hout & _)];
        [by left|left; by rewrite Hout|done].
    - apply dismiss_job_ok in Hrun as [[_ ->]|(r & r' & _ & _ & -> & _)]; by left.
    - apply delete_job_ok in Hrun as [Hc Hd]. unfold delete_job_row in Hd.
      destruct (t_jobs db !! id0); [|injection Hd as <-; by left].
      destruct (negb _); [done|]. injection Hd as <- _. left. simpl.
      rewrite lookup_delete_ne; [done|]. intros ->. destruct (read_completion_some db id o Hinv Ho) as [c Hr].
      specialize (Hc c Hr). by rewrite (unacknowledged_not_read db id o c Ho Hack Hr) in Hc.
    - apply retarget_job_ok in Hrun as [Hc (r & _ & _ & _ & _ & _ & ->)]. left. simpl.
      rewrite lookup_delete_ne; [done|]. intros ->. destruct (read_completion_some db id o Hinv Ho) as [c Hr].
      specialize (Hc c Hr). by rewrite (unacknowledged_not_read db id o c Ho Hack Hr) in Hc. }
  assert (Hinv' : store_inv db').
  { generalize (store_operations_inv db op Hinv). subst db'. destruct (run_op op db). tauto. }
  split; [exact HP|].
  assert (Hrow : exists o', t_outbox db' !! id = Some o' /\ forall r, outcome_agrees o' r -> outcome_agrees o r).
  { destruct HP as [?|(now & _ & ?)]; eauto. }
  destruct Hrow as (o' & Ho' & Hag). split; [by eapply read_completion_some|].
  destruct (si_outbox db' Hinv' id o' Ho') as (r & ? & ?). eauto.
Qed.

(** Retries never race: while a retry of a parent is unfinished it
    is the parent's only unfinished retry, and asking for another one creates
    nothing, whatever child id is proposed. *)
Theorem retry_single_live_child db c l r child now upload :
  store_inv db -> t_lineage db !! c = Some l -> t_jobs db !! c = Some r ->
  terminal_text (jr_state r) = false ->
  (forall c2 l2 r2, t_lineage db !! c2 = Some l2 -> ln_parent_job_id l2 = ln_parent_job_id l ->
     t_jobs db !! c2 = Some r2 -> terminal_text (jr_state r2) = false -> c2 = c) /\
  let '(db', out) := spawn_retry_job_inner (ln_parent_job_id l) child now upload db in
  db' = db /\ forall job, out <> Ok (RtCreated job).
Proof.
  intros Hinv Hl Hr Hnt. split.
  - intros c2 l2 r2 Hl2 Hp Hr2 Hnt2. destruct (decide (c2 = c)) as [|Hne]; [done|exfalso].
    destruct (si_one_live db Hinv c2 c l2 l Hl2 Hl Hp Hne) as [Ha|Ha].
    + assert (terminal_text (jr_state r2) = true); [|congruence].
      by apply (si_live_is_latest db Hinv c2 c l2 l r2).
    + assert (terminal_text (jr_state r) = true); [|congruence].
      by apply (si_live_is_latest db Hinv c c2 l l2 r).
  - destruct (spawn_retry_job_inner _ child now upload db) as [db' [out|e]] eqn:Erun.
    2:{ split; [by eapply atomic_transaction|done]. }
    apply spawn_retry_job_ok in Erun as [(job & -> & ->)|(job & a & _ & _ & Hmay & _)]; [done| |done].
    destruct (Hmay c l Hl eq_refl) as [_ (r' & Hr' & Ht)]. congruence.
Qed.
End all_operations.

(** ** Concrete stores *)
Module DemoStore.

#[local] Existing Instance DemoSha.sha.

Definition run (ops : list StoreOp) : Db := foldl (fun d op => (run_op op d).1) empty_db ops.

Lemma run_inv ops : store_inv (run ops).
Proof.
  unfold run. assert (Hgen : forall d, store_inv d -> store_inv (foldl (fun d op => (run_op op d).1) d ops)).
  { induction ops as [|op ops IH]; intros d Hd; [done|]. apply IH.
    generalize (store_operations_inv d op Hd). destruct (run_op op d). tauto. }
  apply Hgen, store_inv_empty.
Qed.

Definition created : list StoreOp := [OCreate "j1" (demo_spec "d") "t1" None].
Definition failed : list StoreOp := (created ++ [OComplete "j1" (ToFailed "network" true) "t2" None])%list.
Definition retried : list StoreOp := (failed ++ [OAck "j1" "t3"; ORetry "j1" "j2" "t4" false])%list.

Lemma row_of {A : Type} (f : JobRow -> A) ops id x :
  f <$> t_jobs (run ops) !! id = Some x -> exists r, t_jobs (run ops) !! id = Some r /\ f r = x.
Proof. destruct (t_jobs (run ops) !! id) as [r|]; [|done]. intros [= <-]. eauto. Qed.

End DemoStore.

Lemma transition_job_cas_witness :
  is_ok (transition_job "j1" 1 TPreparing None "t2" (DemoStore.run DemoStore.created)).2 = true.
Proof.
  apply (transition_job_cas "j1" 1 TPreparing None "t2" (DemoStore.run DemoStore.created)
           (DemoStore.run_inv _)).
  split_and!; [reflexivity|reflexivity|vm_compute; discriminate|].
  destruct (DemoStore.row_of (fun r => (jr_state_version r, terminal_text (jr_state r)))
              DemoStore.created "j1" (1%Z, false)) as (r & Hr & [= Hv Ht]); [vm_compute; reflexivity|].
  exists r. by split_and!.
Defined.

Lemma complete_job_exactly_once_witness :
  exists c, forall now',
    let db' := (complete_job "j1" ToSucceeded "t2" None (DemoStore.run DemoStore.created)).1 in
    complete_job "j1" ToCancelled now' None db'
    = (db', Err (CpAlreadyTerminal "j1" ToSucceeded ToCancelled)) /\
    complete_job "j1" ToSucceeded now' None db' = (db', Ok (CpAlreadyRecorded c)).
Proof.
  generalize (complete_job_exactly_once "j1" ToSucceeded "t2" None (DemoStore.run DemoStore.created)
                (DemoStore.run_inv _)).
  assert (Hok : is_ok (complete_job "j1" ToSucceeded "t2" None (DemoStore.run DemoStore.created)).2 = true)
    by (vm_compute; reflexivity).
  destruct (complete_job "j1" ToSucceeded "t2" None _) as [db' [out|e]]; [|discriminate Hok].
  intros (c & _ & _ & _ & H). exists c. intros now'. split; [apply (H ToCancelled)|apply (H ToSucceeded)].
Defined.

Lemma ledger_monotone_witness :
  let db := DemoStore.run DemoStore.created in
  exists l', ledger_row (update_file_ledger "j1" "f1" LPartial 2 None "t2" db).1 "j1" "f1" = Some l' /\
             (0 <= lr_bytes_confirmed l')%Z.
Proof.
  intros db.
  generalize (ledger_monotone "j1" "f1" "j1" "f1" LPartial 2 None "t2" db
                (mkLedgerRow "f1" "missing" 0 None "t1") ltac:(vm_compute; reflexivity)).
  destruct (update_file_ledger "j1" "f1" LPartial 2 None "t2" db) as [db' r].
  intros (_ & l' & Hl & Hb & _). by exists l'.
Defined.


Lemma unacknowledged_outcome_survives_witness :
  exists c, read_completion (@run_op DemoSha.sha (ODelete "j1") (DemoStore.run DemoStore.failed)).1 "j1"
            = Ok (Some c).
Proof.
  apply (@unacknowledged_outcome_survives DemoSha.sha (DemoStore.run DemoStore.failed) (ODelete "j1") "j1"
           (mkOutboxRow 1 "download" "failed" (Some "network") (Some 1%Z) 2 "t2" None)
           (DemoStore.run_inv _)); vm_compute; reflexivity.
Defined.

Lemma retry_single_live_child_witness :
  (spawn_retry_job_inner "j1" "j3" "t5" false (DemoStore.run DemoStore.retried)).1
  = DemoStore.run DemoStore.retried.
Proof.
  destruct (DemoStore.row_of (fun r => terminal_text (jr_state r)) DemoStore.retried "j2" false)
    as (r & Hr & Ht); [vm_compute; reflexivity|].
  generalize (retry_single_live_child (DemoStore.run DemoStore.retried) "j2" (mkLineageRow "j1" 1 "t4") r
                "j3" "t5" false (DemoStore.run_inv _) ltac:(vm_compute; reflexivity) Hr Ht).
  intros [_ H]. revert H.
  change (ln_parent_job_id (mkLineageRow "j1" 1 "t4")) with "j1".
  destruct (spawn_retry_job_inner "j1" "j3" "t5" false _) as [db' out]. intros [H _]. exact H.
Defined.
