(* ===== verification/Reload.v ===== *)
(** * Reload: a created job can be recovered (persistence/transfer_store.rs)

[create_job] writes a specification as rows, [job_spec] and
[list_recoverable_jobs] read it back: the round trip through the tables is
the identity, and the enumeration recovery starts from never drops a job. *)

From Stdlib Require Import NArith ZArith Lia Ascii String.
From Stdlib Require Import Strings.Byte.
From stdpp Require Import base numbers list strings gmap sorting.
From S2P Require Import Prelude Domain Device Schema Aggregate TransferStore StoreProofs.

Local Open Scope string_scope.
Local Open Scope list_scope.

(** ** Specifications in circulation *)

(** A specification all of whose parts came out of their constructors, with
    sizes and lengths a SQLite INTEGER can hold. *)
Record spec_valid (s : JobSpec) : Prop := {
  sv_wf : spec_wf s;
  sv_identity : let i := sp_identity s in
    JobIdentity_new (id_device i) (id_session i) (id_revision i) = Ok i;
  sv_publication : let p := sp_publication s in
    PublicationMaterial_new (pm_revision p) (pm_payload p) (pm_signature p) (pm_public_key p) = Ok p;
  sv_files : Forall (fun f =>
    JobFileSpec_new (fs_file_id f) (fs_display_path f) (fs_size_bytes f) (fs_sha256 f) = Ok f /\
    (fs_size_bytes f <= i64_max)%N) (sp_session_files s);
  sv_lengths : (N.of_nat (length (sp_session_files s)) <= i64_max)%N /\
               (N.of_nat (length (sp_requested s)) <= i64_max)%N;
}.

Lemma requested_files_lookup s i :
  spec_wf s -> requested_files s !! i = sp_requested s !! i ≫= fun p => sp_session_files s !! p.
Proof.
  intros Hwf. unfold requested_files. generalize (wf_in_range s Hwf). revert i.
  induction (sp_requested s) as [|p l IH]; intros i; simpl; [done|].
  intros [[f Hf]%lookup_lt_is_Some Hr]%Forall_cons. rewrite Hf. destruct i as [|i]; simpl; [done|].
  by apply IH.
Qed.

Lemma session_file_unique s p q f g :
  spec_wf s -> sp_session_files s !! p = Some f -> sp_session_files s !! q = Some g ->
  fs_file_id f = fs_file_id g -> p = q.
Proof.
  intros Hwf Hp Hq He. eapply (NoDup_lookup _ p q (fs_file_id f)); [apply (wf_unique s Hwf)|..].
  - by rewrite list_lookup_fmap, Hp.
  - by rewrite list_lookup_fmap, Hq, He.
Qed.

(** The position of a file in the request is its place in [requested_files]. *)
Lemma request_position_spec s id i :
  spec_wf s ->
  request_position s id = Some i <-> fs_file_id <$> requested_files s !! i = Some id.
Proof.
  intros Hwf. unfold request_position. rewrite requested_files_lookup by done. split.
  - intros ([j x] & (Hj & Hx & _)%list_find_Some & ->)%fmap_Some. simpl. by rewrite Hj.
  - destruct (sp_requested s !! i) as [p|] eqn:Hi; [|done]. simpl. intros Hp.
    apply fmap_Some. exists (i, p). split; [|done]. apply list_find_Some. split_and!; [done..|].
    intros j q Hj Hlt Hq. apply fmap_Some in Hp as (f & Hf & ->).
    apply fmap_Some in Hq as (g & Hg & He).
    assert (p = q) as -> by (by eapply session_file_unique).
    assert (i = j) by (eapply NoDup_lookup; [apply (wf_requested_unique s Hwf)|done..]). lia.
Qed.

(** ** The rows of a specification *)

Definition file_row (s : JobSpec) (i : nat) (f : JobFileSpec) : FileRow :=
  mkFileRow (Z.of_nat i) (Z.of_nat <$> request_position s (fs_file_id f)) (fs_file_id f)
    (fs_display_path f) (Z.of_N (fs_size_bytes f)) (fs_sha256 f).

Definition file_rows (s : JobSpec) (fs : list JobFileSpec) : list FileRow := imap (file_row s) fs.

Definition missing_row (now : string) (f : JobFileSpec) : LedgerRow :=
  mkLedgerRow (fs_file_id f) "missing" 0 None now.

Lemma checked_i64_fits v field : (v <= i64_max)%N -> checked_i64 v field = Ok (Z.of_N v).
Proof. intros. by apply checked_i64_ok. Qed.

Lemma require_sha256_len field v : require_sha256_hex field v = Ok tt -> str_len v = 64%N.
Proof.
  unfold require_sha256_hex. destruct (N.eqb_spec (str_len v) 64); [done|]. done.
Qed.

Lemma file_spec_sha f :
  JobFileSpec_new (fs_file_id f) (fs_display_path f) (fs_size_bytes f) (fs_sha256 f) = Ok f ->
  str_len (fs_sha256 f) = 64%N.
Proof.
  unfold JobFileSpec_new. intros (u & _ & H)%rbind_ok. apply rbind_ok in H as (u2 & _ & H).
  apply rbind_ok in H as ([] & H%require_sha256_len & _). done.
Qed.

Lemma file_rows_no_clash s pre f :
  spec_wf s -> pre ++ [f] `prefix_of` sp_session_files s ->
  existsb (file_rows_clash (file_row s (length pre) f)) (file_rows s pre) = false.
Proof.
  intros Hwf [rest Hpre]. apply not_true_iff_false. rewrite existsb_exists.
  intros (r & Hin%list_elem_of_In & Hc). unfold file_rows in Hin.
  apply list_elem_of_lookup in Hin as (j & Hj). apply list_lookup_imap_Some in Hj as (g & Hg & ->).
  assert (Hgj : sp_session_files s !! j = Some g).
  { rewrite Hpre, <- app_assoc, lookup_app_l; [done|]. by eapply lookup_lt_Some. }
  assert (Hfj : sp_session_files s !! length pre = Some f).
  { rewrite Hpre, <- app_assoc, lookup_app_r by lia. by rewrite Nat.sub_diag. }
  assert (Hlt : j < length pre) by (by eapply lookup_lt_Some).
  assert (Hne : fs_file_id f <> fs_file_id g).
  { intros He. assert (length pre = j) by (by eapply session_file_unique). lia. }
  unfold file_rows_clash, file_row in Hc. cbn [fr_file_id fr_inventory_index fr_request_index] in Hc.
  rewrite !orb_true_iff in Hc. destruct Hc as [[Hc%String.eqb_eq|Hc%Z.eqb_eq]|Hc]; [done|lia|].
  destruct (request_position s (fs_file_id f)) as [a|] eqn:Ea,
           (request_position s (fs_file_id g)) as [b|] eqn:Eb; simpl in Hc; try done.
  apply Z.eqb_eq in Hc. assert (a = b) as -> by lia.
  apply request_position_spec in Ea, Eb; [|done..]. congruence.
Qed.

(** ** Writing the rows *)

Lemma insert_file_of_runs s job_id pre f d :
  spec_valid s -> pre ++ [f] `prefix_of` sp_session_files s ->
  is_Some (t_jobs d !! job_id) -> files_of d job_id = file_rows s pre ->
  insert_file_of job_id s (length pre, f) d =
    (with_files (<[job_id := file_rows s (pre ++ [f])]> (t_files d)) d, Ok tt).
Proof.
  intros [Hwf _ _ Hfs [Hl1 Hl2]] Hpre Hjob Hfiles.
  assert (Hin : f ∈ sp_session_files s) by (destruct Hpre as [rest ->]; set_solver).
  assert (Hlen : length pre < length (sp_session_files s)).
  { destruct Hpre as [rest ->]. rewrite !length_app. simpl. lia. }
  rewrite Forall_forall in Hfs. destruct (Hfs f Hin) as [Hnew Hsize].
  assert (Hreq : match request_position s (fs_file_id f) with
                 | Some index => let? z := checked_i64 (N.of_nat index) "request_index" in Ok (Some z)
                 | None => Ok None
                 end = Ok (Z.of_nat <$> request_position s (fs_file_id f))).
  { destruct (request_position s (fs_file_id f)) as [i|] eqn:Ei; [|done].
    apply request_position_spec in Ei; [|done]. apply fmap_Some in Ei as (g & Hg%lookup_lt_Some & _).
    rewrite requested_files_length in Hg by done. rewrite checked_i64_fits by lia. simpl.
    by rewrite nat_N_Z. }
  unfold insert_file_of, sbind, slift. rewrite Hreq, !checked_i64_fits by lia.
  unfold insert_file, owned_by. rewrite bool_decide_eq_true_2 by done. rewrite nat_N_Z.
  fold (file_row s (length pre) f). rewrite Hfiles, file_rows_no_clash by done.
  assert (Hok : file_row_ok (file_row s (length pre) f) = true).
  { unfold file_row_ok, file_row. cbn [fr_inventory_index fr_request_index fr_size_bytes fr_sha256].
    rewrite (file_spec_sha f Hnew). rewrite !andb_true_iff, !Z.leb_le. split_and!; try lia; [|done].
    destruct (request_position s _); simpl; [apply Z.leb_le; lia|done]. }
  rewrite Hok. cbn [negb]. unfold file_rows at 2. rewrite imap_app. simpl. rewrite Nat.add_0_r. done.
Qed.

(** [d'] differs from [d] in the file rows of [id] only. *)
Definition with_file_rows (d d' : Db) (id : string) (rows : list FileRow) : Prop :=
  t_jobs d' = t_jobs d /\ t_specs d' = t_specs d /\ t_ledger d' = t_ledger d /\
  t_outbox d' = t_outbox d /\ t_lineage d' = t_lineage d /\ files_of d' id = rows.

Lemma insert_files_run s job_id d fs :
  spec_valid s -> fs `prefix_of` sp_session_files s ->
  is_Some (t_jobs d !! job_id) -> files_of d job_id = [] ->
  exists d', sforeach (insert_file_of job_id s) (imap (fun i f => (i, f)) fs) d = (d', Ok tt) /\
             with_file_rows d d' job_id (file_rows s fs).
Proof.
  intros Hv Hpre Hjob Hnil. induction fs as [|f fs IH] using rev_ind.
  { exists d. by split. }
  destruct IH as (d1 & Hrun & Hj & Hs & Hl & Ho & Hln & Hf).
  { etrans; [apply prefix_app_r; reflexivity|done]. }
  rewrite imap_app, sforeach_app. unfold sbind. rewrite Hrun. simpl imap.
  rewrite sforeach_one, Nat.add_0_r, insert_file_of_runs; [|done|done|by rewrite Hj|done].
  eexists. split; [done|]. unfold with_file_rows, files_of. simpl. by rewrite lookup_insert_eq.
Qed.

Definition with_ledger_rows (d d' : Db) (id : string) (rows : list LedgerRow) : Prop :=
  t_jobs d' = t_jobs d /\ t_specs d' = t_specs d /\ t_files d' = t_files d /\
  t_outbox d' = t_outbox d /\ t_lineage d' = t_lineage d /\ ledger_of d' id = rows.

Lemma insert_ledgers_run job_id now d fs :
  NoDup (fs_file_id <$> fs) ->
  (forall f, f ∈ fs -> fs_file_id f ∈ fr_file_id <$> files_of d job_id) ->
  ledger_of d job_id = [] ->
  exists d', sforeach (fun f => insert_ledger job_id
               (mkLedgerRow (fs_file_id f) (ledger_as_db_str LMissing) 0 None now)) fs d = (d', Ok tt) /\
             with_ledger_rows d d' job_id (missing_row now <$> fs).
Proof.
  intros Hnd Hin Hnil. induction fs as [|f fs IH] using rev_ind.
  { exists d. by split. }
  rewrite fmap_app, NoDup_app in Hnd. destruct Hnd as (Hnd & Hdis & _).
  destruct IH as (d1 & Hrun & Hj & Hs & Hf & Ho & Hln & Hl); [done|set_solver|].
  rewrite sforeach_app. unfold sbind. rewrite Hrun, sforeach_one.
  unfold insert_ledger at 1. cbn [lr_file_id].
  assert (Hex : existsb (fun g => String.eqb (fr_file_id g) (fs_file_id f)) (files_of d1 job_id) = true).
  { apply existsb_exists. assert (Hfi : fs_file_id f ∈ fr_file_id <$> files_of d job_id) by set_solver.
    apply list_elem_of_fmap in Hfi as (g & Hg & Hing). exists g. unfold files_of in *. rewrite Hf.
    split; [by apply list_elem_of_In|]. by rewrite Hg, String.eqb_refl. }
  assert (Hno : existsb (fun l => String.eqb (lr_file_id l) (fs_file_id f)) (ledger_of d1 job_id) = false).
  { apply not_true_iff_false. rewrite existsb_exists, Hl. intros (l & Hil%list_elem_of_In & He%String.eqb_eq).
    apply list_elem_of_fmap in Hil as (g & -> & Hg). simpl in He.
    apply (Hdis (fs_file_id f)); [|set_solver]. rewrite <- He. apply list_elem_of_fmap. eauto. }
  rewrite Hex, Hno. cbn [negb]. eexists. split; [reflexivity|].
  unfold with_ledger_rows, ledger_of in *. simpl. rewrite lookup_insert_eq. simpl.
  by rewrite Hl, fmap_app.
Qed.

(** ** Reading them back *)

Lemma load_files_rows s fs pos :
  Forall (fun f => JobFileSpec_new (fs_file_id f) (fs_display_path f) (fs_size_bytes f) (fs_sha256 f)
                   = Ok f) fs ->
  load_files (imap (fun i => file_row s (pos + i)) fs) =
    Ok (fs, omap (fun f => (fun i => (Z.of_nat i, fs_file_id f)) <$> request_position s (fs_file_id f)) fs).
Proof.
  intros Hfs. revert pos. induction Hfs as [|f fs Hf Hfs IH]; intros pos; [done|].
  rewrite imap_cons. cbn [load_files file_row fr_size_bytes fr_file_id fr_display_path fr_sha256 fr_request_index].
  rewrite (proj2 (u64_of_i64_Some (Z.of_N (fs_size_bytes f)) (fs_size_bytes f))) by done.
  cbn [ok_or rbind]. rewrite Hf. cbn [rmap_err rbind].
  assert (Hreq : (let? here := match Z.of_nat <$> request_position s (fs_file_id f) with
                      | Some index => if (index <? 0)%Z then Err CorruptSpec else Ok [(index, fs_file_id f)]
                      | None => Ok []
                      end in Ok here) =
                 Ok (default [] ((fun i => [(Z.of_nat i, fs_file_id f)]) <$>
                       request_position s (fs_file_id f)))).
  { destruct (request_position s (fs_file_id f)) as [i|]; simpl; [|done].
    destruct (Z.ltb_spec (Z.of_nat i) 0); [lia|done]. }
  apply rbind_ok in Hreq as (here & Hh & [= ->]). rewrite Hh. cbn [rbind].
  assert (Hshift : imap ((fun i => file_row s (pos + i)) ∘ Datatypes.S) fs =
                   imap (fun i => file_row s (Datatypes.S pos + i)) fs).
  { apply imap_ext. intros i g _. simpl. f_equal. lia. }
  rewrite Hshift, IH. cbn [rbind]. do 2 f_equal.
  simpl. destruct (request_position s (fs_file_id f)); done.
Qed.

#[local] Instance by_index_total : Total by_index.
Proof. intros a b. unfold by_index. lia. Qed.
#[local] Instance by_index_trans : Transitive by_index.
Proof. intros a b c. unfold by_index. lia. Qed.
#[local] Instance by_inventory_total : Total by_inventory.
Proof. intros a b. unfold by_inventory. lia. Qed.
#[local] Instance by_inventory_trans : Transitive by_inventory.
Proof. intros a b c. unfold by_inventory. lia. Qed.

Lemma imap_sorted {A B : Type} (R : relation B) (f : nat -> A -> B) l :
  (forall i j x y, i < j -> R (f i x) (f j y)) -> StronglySorted R (imap f l).
Proof.
  intros Hr. revert f Hr. induction l as [|x l IH]; intros f Hr; [constructor|].
  rewrite imap_cons. constructor.
  - apply IH. intros. apply Hr. lia.
  - apply Forall_forall. intros y Hy. apply list_elem_of_lookup in Hy as (i & Hi).
    apply list_lookup_imap_Some in Hi as (z & _ & ->). apply Hr. lia.
Qed.

Lemma sort_file_rows s fs : merge_sort by_inventory (file_rows s fs) = file_rows s fs.
Proof.
  apply (StronglySorted_unique_strong by_inventory).
  - intros a b Ha Hb. rewrite merge_sort_Permutation in Ha.
    apply list_elem_of_lookup in Ha as (i & Hi), Hb as (j & Hj).
    pose proof Hi as Hi'. pose proof Hj as Hj'.
    apply list_lookup_imap_Some in Hi as (f & _ & ->), Hj as (g & _ & ->).
    unfold by_inventory, file_row at 1 2 3 4. simpl. intros ? ?. assert (i = j) as -> by lia.
    congruence.
  - apply (StronglySorted_merge_sort by_inventory).
  - apply imap_sorted. intros. unfold by_inventory. simpl. lia.
  - apply merge_sort_Permutation.
Qed.

Definition selected_ids (s : JobSpec) (fs : list JobFileSpec) : list (Z * FileId) :=
  omap (fun f => (fun i => (Z.of_nat i, fs_file_id f)) <$> request_position s (fs_file_id f)) fs.

Lemma selected_NoDup s fs : NoDup (fs_file_id <$> fs) -> NoDup (selected_ids s fs).
Proof.
  unfold selected_ids. induction fs as [|f l IH]; [constructor|].
  rewrite fmap_cons. intros [Hn Hnd]%NoDup_cons. specialize (IH Hnd). simpl.
  destruct (request_position s (fs_file_id f)) as [i|]; simpl; [|done]. apply NoDup_cons. split; [|done].
  intros (g & Hg & (k & _ & [= _ He])%fmap_Some)%list_elem_of_omap. apply Hn.
  rewrite He. apply list_elem_of_fmap. eauto.
Qed.

(** Sorting the selected ids by request position gives the request order. *)
Lemma sort_requested s :
  spec_wf s ->
  (merge_sort by_index (selected_ids s (sp_session_files s))).*2 = fs_file_id <$> requested_files s.
Proof.
  intros Hwf. set (loaded := selected_ids s (sp_session_files s)).
  set (plan := imap (fun i f => (Z.of_nat i, fs_file_id f)) (requested_files s)).
  assert (Hloaded : forall z id, (z, id) ∈ loaded <->
            exists i, z = Z.of_nat i /\ fs_file_id <$> requested_files s !! i = Some id).
  { intros z id. unfold loaded, selected_ids. rewrite list_elem_of_omap. split.
    - intros (f & _ & (i & Hi%request_position_spec & [= -> ->])%fmap_Some); eauto.
    - intros (i & -> & Hi). pose proof Hi as Hpos. apply request_position_spec in Hpos; [|done].
      rewrite requested_files_lookup in Hi by done. apply fmap_Some in Hi as (f & Hf & ->).
      apply bind_Some in Hf as (p & _ & Hp). exists f. split; [by eapply list_elem_of_lookup_2|].
      by rewrite Hpos. }
  assert (Hplan : forall z id, (z, id) ∈ plan <->
            exists i, z = Z.of_nat i /\ fs_file_id <$> requested_files s !! i = Some id).
  { intros z id. unfold plan. rewrite list_elem_of_lookup. setoid_rewrite list_lookup_imap_Some. split.
    - intros (i & f & Hf & [= -> ->]). exists i. by rewrite Hf.
    - intros (i & -> & (f & Hf & ->)%fmap_Some). eauto. }
  assert (Hplan_nd : NoDup plan).
  { apply NoDup_alt. intros i j x Hi Hj. apply list_lookup_imap_Some in Hi as (f & _ & ->), Hj as (g & _ & He).
    injection He as He _. lia. }
  assert (Hloaded_nd : NoDup loaded).
  { unfold loaded. apply selected_NoDup, (wf_unique s Hwf). }
  assert (Hsort : merge_sort by_index loaded = plan).
  { apply (StronglySorted_unique_strong by_index).
    - intros [za a] [zb b] Ha Hb. rewrite merge_sort_Permutation in Ha.
      apply Hloaded in Ha as (i & -> & Hi). apply Hplan in Hb as (j & -> & Hj).
      unfold by_index. simpl. intros ? ?. assert (i = j) as -> by lia. congruence.
    - apply (StronglySorted_merge_sort by_index).
    - apply imap_sorted. intros. unfold by_index. simpl. lia.
    - rewrite merge_sort_Permutation. apply NoDup_Permutation; [done..|]. intros [z id].
      by rewrite Hloaded, Hplan. }
  rewrite Hsort. unfold plan. rewrite fmap_imap. by rewrite <- imap_const.
Qed.

Lemma filter_by_key {A : Type} (g : A -> string) (l : list A) x :
  NoDup (g <$> l) -> x ∈ l -> List.filter (fun y => String.eqb (g y) (g x)) l = [x].
Proof.
  induction l as [|y l IH]; [set_solver|]. rewrite fmap_cons. intros [Hn Hnd]%NoDup_cons Hin. simpl.
  assert (Hnone : forall z, g z ∉ g <$> l -> List.filter (fun y => String.eqb (g y) (g z)) l = []).
  { clear. intros z. induction l as [|w l IH]; [done|]. rewrite fmap_cons, not_elem_of_cons. simpl.
    intros [Hne Hn]. destruct (String.eqb_spec (g w) (g z)); [congruence|by apply IH]. }
  apply elem_of_cons in Hin as [->|Hin].
  - by rewrite String.eqb_refl, Hnone.
  - destruct (String.eqb_spec (g y) (g x)) as [He|]; [|by apply IH].
    destruct Hn. rewrite He. apply list_elem_of_fmap. eauto.
Qed.

Lemma file_rows_ids s fs : fr_file_id <$> file_rows s fs = fs_file_id <$> fs.
Proof. unfold file_rows. rewrite fmap_imap. by rewrite <- (imap_const fs_file_id). Qed.

Definition missing_entry (now : string) (f : JobFileSpec) : FileLedgerEntry :=
  mkLedgerEntry (fs_file_id f) LMissing 0 None now.

Lemma requested_file_in s i f :
  spec_wf s -> requested_files s !! i = Some f -> exists p, sp_session_files s !! p = Some f.
Proof.
  intros Hwf Hf. rewrite requested_files_lookup in Hf by done.
  apply bind_Some in Hf as (p & _ & Hp). eauto.
Qed.

Lemma ledger_joined_rows s now db job_id :
  spec_wf s -> files_of db job_id = file_rows s (sp_session_files s) ->
  ledger_of db job_id = missing_row now <$> requested_files s ->
  ledger_joined db job_id =
    imap (fun i f => (Some (Z.of_nat i), missing_row now f)) (requested_files s).
Proof.
  intros Hwf Hf Hl. unfold ledger_joined. rewrite Hl, Hf.
  assert (Hall : forall k i f, requested_files s !! (k + i) = Some f ->
            List.filter (fun r => String.eqb (fr_file_id r) (fs_file_id f)) (file_rows s (sp_session_files s))
            ≫= (fun r => [(fr_request_index r, missing_row now f)]) =
            [(Some (Z.of_nat (k + i)), missing_row now f)]).
  { intros k i f Hi. destruct (requested_file_in s (k + i) f Hwf Hi) as [p Hp].
    change (fs_file_id f) with (fr_file_id (file_row s p f)).
    rewrite filter_by_key.
    - simpl. repeat f_equal. rewrite (proj2 (request_position_spec s (fs_file_id f) (k + i) Hwf)); [done|].
      by rewrite Hi.
    - rewrite file_rows_ids. apply (wf_unique s Hwf).
    - apply (list_elem_of_lookup_2 _ p). unfold file_rows. by rewrite list_lookup_imap, Hp. }
  assert (Hgen : forall k fs, (forall i f, fs !! i = Some f -> requested_files s !! (k + i) = Some f) ->
            (l ← missing_row now <$> fs;
             r ← List.filter (fun r => String.eqb (fr_file_id r) (lr_file_id l)) (file_rows s (sp_session_files s));
             [(fr_request_index r, l)]) =
            imap (fun i f => (Some (Z.of_nat (k + i)), missing_row now f)) fs).
  { intros k fs. revert k. induction fs as [|f fs IH]; intros k Hfs; [done|].
    rewrite fmap_cons, bind_cons, imap_cons.
    change (lr_file_id (missing_row now f)) with (fs_file_id f). rewrite (Hall k 0 f) by (by apply Hfs).
    simpl. f_equal. rewrite (IH (Datatypes.S k)).
    - apply imap_ext. intros i g _. simpl. repeat f_equal. lia.
    - intros i g Hi. replace (Datatypes.S k + i) with (k + Datatypes.S i) by lia. by apply Hfs. }
  apply (Hgen 0). done.
Qed.

#[local] Instance by_request_total : Total by_request.
Proof. intros [[i|] a] [[j|] b]; unfold by_request; simpl; try tauto. lia. Qed.
#[local] Instance by_request_trans : Transitive by_request.
Proof. intros [[i|] a] [[j|] b] [[k|] c]; unfold by_request; simpl; try tauto. lia. Qed.

Lemma read_ledger_created s now db job_id :
  spec_wf s -> files_of db job_id = file_rows s (sp_session_files s) ->
  ledger_of db job_id = missing_row now <$> requested_files s ->
  read_ledger db job_id = Ok (missing_entry now <$> requested_files s).
Proof.
  intros Hwf Hf Hl. unfold read_ledger. rewrite (ledger_joined_rows s now) by done.
  set (rows := imap _ _).
  assert (Hsort : merge_sort by_request rows = rows).
  { apply (StronglySorted_unique_strong by_request).
    - intros a b Ha Hb. rewrite merge_sort_Permutation in Ha.
      apply list_elem_of_lookup in Ha as (i & Hi), Hb as (j & Hj).
      pose proof Hi as Hi'. pose proof Hj as Hj'.
      apply list_lookup_imap_Some in Hi as (f & _ & ->), Hj as (g & _ & ->).
      unfold by_request. simpl. intros ? ?. assert (i = j) as -> by lia. congruence.
    - apply (StronglySorted_merge_sort by_request).
    - apply imap_sorted. intros. unfold by_request. simpl. lia.
    - apply merge_sort_Permutation. }
  rewrite Hsort. apply rtraverse_ok. subst rows. apply Forall2_same_length_lookup_2.
  - by rewrite length_imap, length_fmap.
  - intros i x y Hx Hy. apply list_lookup_imap_Some in Hx as (f & Hf' & ->).
    rewrite list_lookup_fmap, Hf' in Hy. by injection Hy as <-.
Qed.

(** ** The round trip *)

Lemma natural_key_prefix_free i j rest :
  natural_key i = (natural_key j ++ rest)%string -> i = j.
Proof.
  destruct i as [d1 s1 r1], j as [d2 s2 r2]. unfold natural_key. simpl. rewrite !str_app_assoc.
  intros [-> [-> Hr]%key_part_inj]%key_part_inj. f_equal.
  apply (key_part_inj r1 r2 "" rest). by rewrite str_app_nil_r.
Qed.

Lemma natural_key_not_upload i rest : natural_key i <> String "u" rest.
Proof.
  unfold natural_key, key_part. rewrite !str_app_assoc. intros He.
  assert (Hd := dec_digits (str_len (id_device i))).
  destruct (dec (str_len (id_device i))) as [|c s]; [by simpl in He|].
  rewrite str_app_cons in He. injection He as -> _. done.
Qed.

Lemma has_identity_true i r : has_identity i r = true <-> row_identity r = i.
Proof.
  unfold has_identity, row_identity. rewrite !andb_true_iff, !String.eqb_eq. destruct i; simpl.
  naive_solver.
Qed.

(** No stored job has this identity. *)
Definition fresh_identity (db : Db) (i : JobIdentity) : Prop :=
  forall j r, t_jobs db !! j = Some r -> row_identity r <> i.

Lemma fresh_read_latest db i : fresh_identity db i -> read_latest_job_by_identity db i = Ok None.
Proof.
  intros Hf. unfold read_latest_job_by_identity.
  assert (Hnil : List.filter (fun e => has_identity i e.2) (map_to_list (t_jobs db)) = []).
  { assert (Hall : forall e, e ∈ map_to_list (t_jobs db) -> has_identity i e.2 = false).
    { intros [j r] Hj%elem_of_map_to_list. apply not_true_iff_false. rewrite has_identity_true.
      by apply (Hf j). }
    induction (map_to_list (t_jobs db)) as [|e l IH]; [done|]. simpl. rewrite Hall by set_solver.
    apply IH. set_solver. }
  by rewrite Hnil.
Qed.

Lemma fresh_key db i :
  store_inv db -> fresh_identity db i ->
  existsb (fun e => String.eqb (jr_natural_key e.2) (natural_key i)) (map_to_list (t_jobs db)) = false.
Proof.
  intros Hinv Hf. apply not_true_iff_false. rewrite existsb_exists.
  intros ([j r] & Hj%list_elem_of_In%elem_of_map_to_list & He%String.eqb_eq). simpl in He.
  destruct (si_keys db Hinv j r Hj) as [rest [Hk|Hk]].
  - apply (Hf j r Hj). symmetry. apply (natural_key_prefix_free i _ rest). congruence.
  - apply (natural_key_not_upload i rest). congruence.
Qed.

Section reload.
Context `{Sha256}.

Definition created_job (s : JobSpec) (job_id now : string) : StoredJob :=
  mkStoredJob job_id OpDownload (sp_identity s) (request_digest s) TQueued 1 Run None now now None.

Definition created_row (s : JobSpec) (now : string) : JobRow :=
  queued_row (sp_identity s) OpDownload (natural_key (sp_identity s)) (to_hex (request_digest s)) now.

Lemma created_row_reads s job_id now :
  spec_valid s -> read_job_row job_id (created_row s now) = Ok (created_job s job_id now).
Proof.
  intros Hv. unfold read_job_row, created_row, queued_row.
  cbn [jr_operation_kind jr_device_id jr_session_id jr_revision jr_request_digest jr_state
       jr_state_version jr_desired_run_state jr_error_code jr_error_retryable jr_created_at
       jr_updated_at jr_dismissed_at].
  rewrite op_db_roundtrip. cbn [ok_or rbind]. rewrite (sv_identity s Hv). cbn [rmap_err rbind].
  unfold request_digest. rewrite from_hex_to_hex_spec by apply sha256_length. done.
Qed.

Lemma created_row_ok s now : job_row_ok (created_row s now) = true.
Proof.
  apply job_row_ok_iff. unfold created_row, queued_row. simpl. split_and!; try done; try by eexists.
  unfold str_len, request_digest. rewrite to_hex_length, sha256_length. done.
Qed.

Definition spec_row (s : JobSpec) : SpecRow :=
  mkSpecRow (Z.of_N CURRENT_JOB_SPEC_VERSION) (Z.b2z (sp_full_session s)) (sp_date_label s)
    (pm_revision (sp_publication s)) (pm_payload (sp_publication s)) (pm_signature (sp_publication s))
    (pm_public_key (sp_publication s)).

Lemma spec_row_inserts s job_id d :
  spec_valid s -> is_Some (t_jobs d !! job_id) -> t_specs d !! job_id = None ->
  insert_spec job_id (spec_row s) d = (with_specs (<[job_id := spec_row s]> (t_specs d)) d, Ok tt).
Proof.
  intros Hv Hj Hn. unfold insert_spec, owned_by. rewrite bool_decide_eq_true_2 by done.
  rewrite bool_decide_eq_false_2 by (rewrite Hn; by intros [? ?]).
  assert (Hp := sv_publication s Hv). unfold PublicationMaterial_new in Hp. cbv zeta in Hp.
  apply rbind_ok in Hp as (u & _ & Hp). unfold spec_row.
  cbn [sr_spec_version sr_full_session sr_publication_payload sr_publication_signature sr_publication_public_key].
  destruct (pm_payload (sp_publication s)) as [|b l] eqn:Epay; [done|].
  apply rbind_ok in Hp as (u2 & Hs & Hp). apply rbind_ok in Hp as (u3 & Hk & _).
  unfold require_len in Hs, Hk.
  destruct (N.eqb_spec PUBLICATION_SIGNATURE_LEN (N.of_nat (length (pm_signature (sp_publication s))))) as [Es|]; [|done].
  destruct (N.eqb_spec PUBLICATION_PUBLIC_KEY_LEN (N.of_nat (length (pm_public_key (sp_publication s))))) as [Ek|]; [|done].
  unfold PUBLICATION_SIGNATURE_LEN, PUBLICATION_PUBLIC_KEY_LEN in *.
  assert (length (pm_signature (sp_publication s)) = 64) as -> by lia.
  assert (length (pm_public_key (sp_publication s)) = 32) as -> by lia.
  by destruct (sp_full_session s).
Qed.

(** The tables after [create_job] as far as this job is concerned. *)
Record holds_spec (s : JobSpec) (job_id now : string) (d : Db) : Prop := {
  hs_job : t_jobs d !! job_id = Some (created_row s now);
  hs_spec : t_specs d !! job_id = Some (spec_row s);
  hs_files : files_of d job_id = file_rows s (sp_session_files s);
  hs_ledger : ledger_of d job_id = missing_row now <$> requested_files s;
}.

Lemma requested_ids_NoDup s : spec_wf s -> NoDup (fs_file_id <$> requested_files s).
Proof.
  intros Hwf. apply NoDup_alt. intros i j id Hi Hj. rewrite list_lookup_fmap in Hi, Hj.
  apply (request_position_spec s id) in Hi, Hj; [|done..]. congruence.
Qed.

Lemma abort_run {S B : Type} stage (k : unit -> sm S CreateJobError B) s :
  sbind (abort_if None stage) k s = k tt s.
Proof. unfold abort_if. by rewrite bool_decide_eq_false_2. Qed.

Lemma create_job_runs s job_id now db :
  store_inv db -> spec_valid s -> fresh_identity db (sp_identity s) -> t_jobs db !! job_id = None ->
  exists d, create_job job_id s now None db = (d, Ok (CjCreated (created_job s job_id now))) /\
            holds_spec s job_id now d.
Proof.
  intros Hinv Hv Hfresh Hnone. assert (Hwf := sv_wf s Hv).
  assert (Hempty : t_specs db !! job_id = None /\ files_of db job_id = [] /\ ledger_of db job_id = []).
  { apply not_elem_of_dom in Hnone. unfold files_of, ledger_of.
    rewrite (not_elem_of_dom_1 (t_specs db) job_id) by (generalize (si_specs db Hinv); set_solver).
    rewrite (not_elem_of_dom_1 (t_files db) job_id) by (generalize (si_files db Hinv); set_solver).
    rewrite (not_elem_of_dom_1 (t_ledger db) job_id) by (generalize (si_ledger db Hinv); set_solver). done. }
  destruct Hempty as (Hs0 & Hf0 & Hl0).
  set (d1 := with_jobs (<[job_id := created_row s now]> (t_jobs db)) db).
  assert (Hj1 : is_Some (t_jobs d1 !! job_id)) by (simpl; rewrite lookup_insert_eq; eauto).
  assert (H1 : insert_job job_id (created_row s now) db = (d1, Ok tt)).
  { unfold insert_job. rewrite bool_decide_eq_false_2 by (rewrite Hnone; by intros [? ?]).
    change (jr_natural_key (created_row s now)) with (natural_key (sp_identity s)).
    by rewrite fresh_key, created_row_ok. }
  set (d2 := with_specs (<[job_id := spec_row s]> (t_specs d1)) d1).
  assert (H2 : insert_spec job_id (spec_row s) d1 = (d2, Ok tt)) by (by apply spec_row_inserts).
  destruct (insert_files_run s job_id d2 (sp_session_files s)) as (d3 & H3 & Hj3 & Hs3 & Hl3 & _ & _ & Hf3); [done..|].
  destruct (insert_ledgers_run job_id now d3 (requested_files s)) as (d4 & H4 & Hj4 & Hs4 & Hf4 & _ & _ & Hl4).
  { by apply requested_ids_NoDup. }
  { intros f (i & Hi)%list_elem_of_lookup. rewrite Hf3, file_rows_ids.
    destruct (requested_file_in s i f Hwf Hi) as [p Hp]. apply list_elem_of_fmap. exists f.
    split; [done|]. by eapply list_elem_of_lookup_2. }
  { unfold ledger_of in *. by rewrite Hl3. }
  assert (Hjob : t_jobs d4 !! job_id = Some (created_row s now)).
  { rewrite Hj4, Hj3. simpl. by rewrite lookup_insert_eq. }
  exists d4. split; [|split; [done| | |done]].
  - unfold create_job, transaction, insert_job_tx. rewrite get_bind.
    rewrite (lift_run _ _ _ None) by (by rewrite fresh_read_latest).
    rewrite (lift_run _ _ _ None) by (by rewrite (proj2 (read_job_none db job_id))).
    fold (created_row s now). fold (spec_row s).
    rewrite (step_run _ _ _ _ _ _ H1), (abort_run _ _ _), (step_run _ _ _ _ _ _ H2), (abort_run _ _ _).
    rewrite (step_run _ _ _ _ _ _ H3), (abort_run _ _ _), (step_run _ _ _ _ _ _ H4), (abort_run _ _ _).
    rewrite get_bind, (lift_run _ _ _ (Some (created_job s job_id now))); [done|].
    rewrite (proj2 (read_job_ok d4 job_id (created_job s job_id now))); [done|].
    exists (created_row s now). split; [done|]. by apply created_row_reads.
  - rewrite Hs4, Hs3. simpl. by rewrite lookup_insert_eq.
  - unfold files_of in *. by rewrite Hf4.
Qed.

Lemma load_spec_holds s job_id now d :
  spec_valid s -> holds_spec s job_id now d -> load_spec d (created_job s job_id now) = Ok s.
Proof.
  intros Hv [Hj Hs Hf Hl]. assert (Hwf := sv_wf s Hv). unfold load_spec.
  assert (Hreason : load_spec_reason d (created_job s job_id now) = Ok s); [|by rewrite Hreason].
  unfold load_spec_reason. cbn [created_job sj_job_id sj_identity sj_request_digest].
  rewrite Hs, Hf, sort_file_rows. cbn [ok_or rbind].
  unfold spec_row at 1. cbn [sr_spec_version]. rewrite Z.eqb_refl. cbn [negb].
  assert (Hfull : (if (sr_full_session (spec_row s) =? 0)%Z then Ok false
                   else if (sr_full_session (spec_row s) =? 1)%Z then Ok true
                   else Err CorruptSpec) = Ok (E := RecoveryBlockedReason) (sp_full_session s)).
  { unfold spec_row. cbn [sr_full_session]. by destruct (sp_full_session s). }
  rewrite Hfull. cbn [rbind].
  assert (Hload : load_files (file_rows s (sp_session_files s))
                  = Ok (sp_session_files s, selected_ids s (sp_session_files s))).
  { apply (load_files_rows s _ 0). eapply Forall_impl; [apply (sv_files s Hv)|]. by intros f [? _]. }
  destruct (file_rows s (sp_session_files s)) as [|r rows] eqn:Erows.
  { exfalso. apply (wf_files s Hwf). unfold file_rows in Erows.
    destruct (sp_session_files s); [done|]. by rewrite imap_cons in Erows. }
  rewrite Hload. cbn [rbind].
  assert (Hids := sort_requested s Hwf).
  destruct (selected_ids s (sp_session_files s)) as [|q qs] eqn:Eq.
  { exfalso. apply (wf_requested s Hwf). apply nil_length_inv.
    rewrite <- (requested_files_length s Hwf), <- (length_fmap fs_file_id), <- Hids. done. }
  rewrite Hids. unfold spec_row. cbn [sr_publication_revision sr_publication_payload
    sr_publication_signature sr_publication_public_key sr_date_label].
  rewrite (sv_publication s Hv). cbn [rmap_err rbind].
  rewrite (proj2 (JobSpec_new_spec (sp_identity s) (sp_publication s) (sp_session_files s)
             (fs_file_id <$> requested_files s) (sp_full_session s) (sp_date_label s) s)) by done.
  cbn [rmap_err rbind]. by rewrite bool_decide_eq_true_2.
Qed.

(** Nothing of a request is lost in the tables: on a store
    satisfying the invariant, creating a job for an identity the store does
    not hold under an unused id always succeeds, and what [job_spec] then
    reassembles from the rows is exactly the specification that was written,
    file order, selection order and digest included; its ledger lists the
    requested files, in request order, as missing with no bytes. *)
Theorem create_job_reloads s job_id now db :
  store_inv db -> spec_valid s -> fresh_identity db (sp_identity s) -> t_jobs db !! job_id = None ->
  exists d job, create_job job_id s now None db = (d, Ok (CjCreated job)) /\
    sj_job_id job = job_id /\ sj_state job = TQueued /\ sj_state_version job = 1%N /\
    job_spec d job_id = Ok s /\
    read_ledger d job_id = Ok (missing_entry now <$> requested_files s).
Proof.
  intros Hinv Hv Hfresh Hnone.
  destruct (create_job_runs s job_id now db Hinv Hv Hfresh Hnone) as (d & Hrun & Hh).
  exists d, (created_job s job_id now). split_and!; try done.
  - unfold job_spec. rewrite (proj2 (read_job_ok d job_id (created_job s job_id now))).
    + cbn [rmap_err rbind ok_or]. by rewrite (load_spec_holds s job_id now d).
    + exists (created_row s now). split; [apply Hh|by apply created_row_reads].
  - apply read_ledger_created; [apply Hv|apply Hh..].
Qed.

Lemma latest_row_in l x : latest_row l = Some x -> x ∈ l.
Proof.
  revert x. induction l as [|y l IH]; intros x; simpl; [done|].
  destruct (latest_row l) as [z|]; [|intros [= <-]; set_solver].
  destruct (row_after y z); intros [= <-]; [set_solver|]. specialize (IH z eq_refl). set_solver.
Qed.

Lemma latest_row_none l : latest_row l = None -> l = [].
Proof. destruct l as [|y l]; [done|]. simpl. destruct (latest_row l); [by destruct (row_after _ _)|done]. Qed.

Lemma only_row_is_latest db i job_id r :
  t_jobs db !! job_id = Some r -> row_identity r = i ->
  (forall j r', t_jobs db !! j = Some r' -> row_identity r' = i -> j = job_id) ->
  latest_row (List.filter (fun e => has_identity i e.2) (map_to_list (t_jobs db))) = Some (job_id, r).
Proof.
  intros Hr Hi Huniq.
  assert (Hin : forall e, e ∈ List.filter (fun e => has_identity i e.2) (map_to_list (t_jobs db)) <->
                  t_jobs db !! e.1 = Some e.2 /\ row_identity e.2 = i).
  { intros [j r']. rewrite list_elem_of_In, filter_In, <- list_elem_of_In, elem_of_map_to_list.
    by rewrite has_identity_true. }
  destruct (latest_row _) as [[j r']|] eqn:El.
  - apply latest_row_in, Hin in El as [Hj Hri]. simpl in *.
    assert (j = job_id) as -> by (by eapply Huniq). congruence.
  - apply latest_row_none in El. assert (Hbad : (job_id, r) ∈ (@nil (string * JobRow))); [|set_solver].
    rewrite <- El. by apply Hin.
Qed.

(** Asking again is safe: after a job was created, asking for the
    same identity under any id writes nothing; the answer is the stored job
    when the request digests agree and a mismatch naming both digests when
    they do not, never a silent reuse of a different plan. *)
Theorem create_job_idempotent s t job_id id2 now now2 db :
  store_inv db -> spec_valid s -> fresh_identity db (sp_identity s) -> t_jobs db !! job_id = None ->
  sp_identity t = sp_identity s ->
  let '(d, out) := create_job job_id s now None db in
  exists job, out = Ok (CjCreated job) /\
  exists detail, create_job id2 t now2 None d =
    (d, if decide (request_digest t = request_digest s) then Ok (CjExisting job)
        else Err (CjRequestDigestMismatch (mkRequestConflict job_id (sp_identity s)
                    (request_digest s) (request_digest t) detail))).
Proof.
  intros Hinv Hv Hfresh Hnone Hid.
  destruct (create_job_runs s job_id now db Hinv Hv Hfresh Hnone) as (d & Hrun & Hh). rewrite Hrun.
  exists (created_job s job_id now). split; [done|].
  exists (describe_digest_mismatch d (created_job s job_id now) t).
  assert (Hcr : creating db job_id d).
  { unfold create_job in Hrun. rewrite transaction_ok in Hrun.
    eapply insert_job_tx_keeps; [|exact Hrun]. by apply creating_refl. }
  assert (Hlatest : read_latest_job_by_identity d (sp_identity t) = Ok (Some (created_job s job_id now))).
  { unfold read_latest_job_by_identity.
    rewrite (only_row_is_latest d (sp_identity t) job_id (created_row s now)).
    - by rewrite created_row_reads.
    - apply Hh.
    - rewrite Hid. unfold created_row, queued_row, row_identity. simpl. by destruct (sp_identity s).
    - intros j r' Hj Hri. destruct (decide (j = job_id)) as [|Hne]; [done|exfalso].
      rewrite (cr_jobs db job_id d Hcr j Hne) in Hj. by apply (Hfresh j r' Hj); rewrite Hri. }
  unfold create_job, transaction, insert_job_tx. rewrite get_bind.
  rewrite (lift_run _ _ _ (Some (created_job s job_id now))) by (by rewrite Hlatest).
  cbn [created_job sj_request_digest sj_job_id sj_identity].
  destruct (decide (request_digest t = request_digest s)) as [He|Hne].
  - by rewrite bool_decide_eq_true_2.
  - by rewrite bool_decide_eq_false_2 by congruence.
Qed.

(** ** Enumeration *)

Lemma recover_row_id db e rj : recover_row db e = Ok rj -> rj_job_id rj = e.1.
Proof.
  unfold recover_row. destruct (read_job_row e.1 e.2) as [job|] eqn:Er; [|by intros [= <-]].
  apply read_job_row_ok in Er as [Hid _]. unfold load_spec.
  destruct (load_spec_reason db job) as [spec|b]; simpl; [|by intros [= <-]].
  intros (l & _ & [= <-])%rbind_ok. done.
Qed.

Lemma ledger_joined_in db id e : e ∈ ledger_joined db id -> e.2 ∈ ledger_of db id.
Proof.
  unfold ledger_joined. rewrite list_elem_of_bind. intros (l & He & Hl).
  apply list_elem_of_bind in He as (f & He & _). apply list_elem_of_singleton in He as ->. done.
Qed.

Lemma read_ledger_total db id : store_inv db -> exists l, read_ledger db id = Ok l.
Proof.
  intros Hinv. apply rtraverse_total, Forall_forall. intros e He. rewrite merge_sort_Permutation in He.
  apply ledger_joined_in in He. unfold ledger_of in He.
  destruct (t_ledger db !! id) as [rows|] eqn:Er; [|simpl in He; set_solver].
  assert (Hok := si_ledger_rows db Hinv id rows Er). simpl in Hok. rewrite Forall_forall in Hok.
  specialize (Hok e.2 He). unfold ledger_row_ok in Hok. rewrite !andb_true_iff, Z.leb_le in Hok.
  destruct Hok as ((Hs & Hb) & _). apply bool_decide_eq_true in Hs as [st Hst].
  cbv beta zeta. rewrite (proj2 (u64_of_i64_Some (lr_bytes_confirmed e.2) (Z.to_N (lr_bytes_confirmed e.2)))) by lia.
  rewrite Hst. by eexists.
Qed.

Lemma jobs_in_order_Permutation db : jobs_in_order db ≡ₚ map_to_list (t_jobs db).
Proof. apply merge_sort_Permutation. Qed.

Lemma Forall2_fmap_eq {A B C : Type} (R : A -> B -> Prop) (f : A -> C) (g : B -> C) l k :
  (forall x y, R x y -> g y = f x) -> Forall2 R l k -> g <$> k = f <$> l.
Proof. intros Hr. induction 1; [done|]. rewrite !fmap_cons. f_equal; auto. Qed.

Lemma recovery_lists db :
  store_inv db ->
  exists l, list_recoverable_jobs db = Ok l /\ NoDup (rj_job_id <$> l) /\
    forall id, id ∈ rj_job_id <$> l <->
      exists r, t_jobs db !! id = Some r /\ jr_operation_kind r = "download" /\
                terminal_text (jr_state r) = false.
Proof.
  intros Hinv. unfold list_recoverable_jobs. set (rows := List.filter _ _).
  destruct (rtraverse_total (recover_row db) rows) as [l Hl].
  { apply Forall_forall. intros e _. unfold recover_row.
    destruct (read_job_row e.1 e.2) as [job|]; [|by eexists].
    destruct (load_spec db job); [|by eexists].
    destruct (read_ledger_total db (sj_job_id job) Hinv) as [k Hk]. rewrite Hk. by eexists. }
  exists l. split; [done|]. apply rtraverse_ok in Hl.
  assert (Hids : rj_job_id <$> l = rows.*1).
  { eapply Forall2_fmap_eq; [|exact Hl]. intros e rj. apply recover_row_id. }
  assert (Hin : forall e, e ∈ rows <-> t_jobs db !! e.1 = Some e.2 /\
            jr_operation_kind e.2 = "download" /\ terminal_text (jr_state e.2) = false).
  { intros [id r]. unfold rows. rewrite list_elem_of_In, filter_In, <- list_elem_of_In.
    rewrite jobs_in_order_Permutation, elem_of_map_to_list. simpl.
    by rewrite andb_true_iff, String.eqb_eq, negb_true_iff. }
  rewrite Hids. split.
  - apply (sublist_NoDup _ (jobs_in_order db).*1).
    + rewrite jobs_in_order_Permutation. apply NoDup_fst_map_to_list.
    + apply fmap_sublist. unfold rows. clear. induction (jobs_in_order db) as [|e k IH]; [constructor|].
      simpl. destruct (_ && _); by constructor.
  - intros id. rewrite list_elem_of_fmap. split.
    + intros ([id' r] & -> & He%Hin). eauto.
    + intros (r & Hr). exists (id, r). split; [done|]. by apply Hin.
Qed.

(** Recovery never loses a job: enumerating a store satisfying
    the invariant always succeeds, and it reports each unfinished download
    exactly once, either ready to run or blocked with a reason, and nothing
    else. *)
Theorem recovery_lists_every_job db :
  store_inv db ->
  exists l, list_recoverable_jobs db = Ok l /\ NoDup (rj_job_id <$> l) /\
    forall id, id ∈ rj_job_id <$> l <->
      exists r, t_jobs db !! id = Some r /\ jr_operation_kind r = "download" /\
                terminal_text (jr_state r) = false.
Proof. apply recovery_lists. Qed.
End reload.

(** ** Concrete requests *)

Lemma demo_spec_valid label : spec_valid (demo_spec label).
Proof.
  split; [apply demo_spec_wf|reflexivity|reflexivity| |split; vm_compute; discriminate].
  repeat constructor; vm_compute; done.
Qed.

Lemma empty_fresh i : fresh_identity empty_db i.
Proof. intros j r Hj. by simpl in Hj; rewrite lookup_empty in Hj. Qed.

Lemma create_job_reloads_witness :
  exists d job, @create_job DemoSha.sha "j1" (demo_spec "d") "t1" None empty_db = (d, Ok (CjCreated job)) /\
    @job_spec DemoSha.sha d "j1" = Ok (demo_spec "d").
Proof.
  destruct (@create_job_reloads DemoSha.sha (demo_spec "d") "j1" "t1" empty_db store_inv_empty
              (demo_spec_valid "d") (empty_fresh _) ltac:(reflexivity))
    as (d & job & Hrun & _ & _ & _ & Hspec & _).
  exists d, job. split; [exact Hrun|exact Hspec].
Defined.

Lemma create_job_idempotent_witness :
  let '(d, _) := @create_job DemoSha.sha "j1" (demo_spec "d") "t1" None empty_db in
  exists job, @create_job DemoSha.sha "other" (demo_spec "later") "t2" None d = (d, Ok (CjExisting job)).
Proof.
  generalize (@create_job_idempotent DemoSha.sha (demo_spec "d") (demo_spec "later") "j1" "other" "t1" "t2"
                empty_db store_inv_empty (demo_spec_valid "d") (empty_fresh _) ltac:(reflexivity)
                ltac:(reflexivity)).
  destruct (create_job "j1" (demo_spec "d") "t1" None empty_db) as [d out].
  intros (job & _ & detail & H). exists job. rewrite H. reflexivity.
Defined.

Lemma recovery_lists_every_job_witness :
  exists l, @list_recoverable_jobs DemoSha.sha (DemoStore.run DemoStore.retried) = Ok l /\
            "j2"%string ∈ rj_job_id <$> l /\ "j1"%string ∉ rj_job_id <$> l.
Proof.
  destruct (@recovery_lists_every_job DemoSha.sha (DemoStore.run DemoStore.retried) (DemoStore.run_inv _))
    as (l & Hl & _ & Hin).
  exists l. split; [exact Hl|]. split.
  - apply Hin.
    destruct (DemoStore.row_of (fun r => (jr_operation_kind r, terminal_text (jr_state r)))
                DemoStore.retried "j2" ("download"%string, false)) as (r & Hr & [= Hk Ht]);
      [vm_compute; reflexivity|]. exists r. by split_and!.
  - rewrite Hin. intros (r & Hr & _ & Ht).
    destruct (DemoStore.row_of (fun r => terminal_text (jr_state r)) DemoStore.retried "j1" true)
      as (r' & Hr' & Ht'); [vm_compute; reflexivity|]. congruence.
Defined.
