(* ===== verification/Fault.v ===== *)
(** * Fault: machinery faults and the two classifications of a download failure

[CoordinatorFault] (transfer/fault.rs) with the operational class of a
download error, and [classify_download_error] (transfer/coordinator.rs), the
job-lifecycle answer to the same error.  Error messages are derived by
[thiserror]: they enter as the class [Display]. *)

From Stdlib Require Import NArith String.
From stdpp Require Import base numbers strings.
From S2P Require Import Prelude Domain Files Journal Aggregate.

(** [ToString] of an error type. *)
Class Display (A : Type) := to_string : A -> string.

(** [FaultKind] (transfer/fault.rs:40-54). *)
Inductive FaultKind :=
| FkTransition | FkSend | FkCheckpoint | FkWorkerPanic | FkDesiredRunState | FkShutdown.

(** [FaultKind::name] (transfer/fault.rs:58-67). *)
Definition fault_kind_name (k : FaultKind) : string :=
  match k with
  | FkTransition => "transition"
  | FkSend => "send"
  | FkCheckpoint => "checkpoint"
  | FkWorkerPanic => "worker_panic"
  | FkDesiredRunState => "desired_run_state"
  | FkShutdown => "shutdown"
  end.

(** [FailureClass] (transfer/fault.rs:71-78). *)
Inductive FailureClass := FcLocalIo | FcRemote | FcIntegrity | FcConfiguration | FcCancelled.

(** [FailureClass::name] (transfer/fault.rs:82-90). *)
Definition failure_class_name (c : FailureClass) : string :=
  match c with
  | FcLocalIo => "local_io"
  | FcRemote => "remote"
  | FcIntegrity => "integrity"
  | FcConfiguration => "configuration"
  | FcCancelled => "cancelled"
  end.

#[global] Instance FaultKind_eq_dec : EqDecision FaultKind.
Proof. solve_decision. Defined.
#[global] Instance FailureClass_eq_dec : EqDecision FailureClass.
Proof. solve_decision. Defined.

(** [CoordinatorFault] (transfer/fault.rs:99-123). *)
Record CoordinatorFault := mkFault {
  cf_job_id : option JobId;
  cf_kind : FaultKind;
  cf_class : FailureClass;
  cf_detail : string;
}.

#[global] Instance CoordinatorFault_eq_dec : EqDecision CoordinatorFault.
Proof. solve_decision. Defined.

(** [classify_download_failure] (transfer/fault.rs:131-150). *)
Definition classify_download_failure (e : DownloadError) : FailureClass :=
  match e with
  | DHashMismatch _ _ | DSizeMismatch _ _ | DUnexpectedExtraBytes | DShortBody _ _
  | DRangeMismatch _ _ | DVerification _ => FcIntegrity
  | DSourceIo _ | DSource _ | DRangeNotSatisfiable | DMalformedContentRange _
  | DUnexpectedStatus _ | DTooManyRestarts => FcRemote
  | DIo _ _ | DCheckpoint _ => FcLocalIo
  | DPathSafety _ | DInvalidPlan _ | DSerialization _ => FcConfiguration
  end.

(** [classify_download_error] (transfer/coordinator.rs:2275-2302). *)
Definition classify_download_error `{Display DownloadError} (e : DownloadError)
    : FailureCode * bool :=
  match e with
  | DHashMismatch _ _ | DSizeMismatch _ _ => (HashMismatch, true)
  | DSourceIo _ | DSource _ => (Network, true)
  | DIo _ kind => if bool_decide (kind = IoStorageFull) then (DiskFull, false) else (Network, true)
  | DRangeNotSatisfiable | DRangeMismatch _ _ | DMalformedContentRange _ | DUnexpectedStatus _
  | DUnexpectedExtraBytes | DShortBody _ _ | DTooManyRestarts => (Network, true)
  | DPathSafety _ | DInvalidPlan _ | DCheckpoint _ | DSerialization _ => (Other (to_string e), false)
  | DVerification _ => (Other (to_string e), false)
  end.

(** The two classifications of a download failure agree where it
    matters: a failure the operator must fix in the request
    ([configuration]) is never offered for a retry, a failure blamed on the
    remote side always is, and a failure that is not retryable is a full disk,
    a refused checkpoint, a request that cannot succeed or a rejected
    publication. *)
Lemma classifications_agree `{Display DownloadError} e :
  (classify_download_failure e = FcConfiguration -> (classify_download_error e).2 = false) /\
  (classify_download_failure e = FcRemote -> classify_download_error e = (Network, true)) /\
  ((classify_download_error e).2 = false <->
   classify_download_failure e = FcConfiguration \/ (exists v, e = DVerification v) \/
   (exists c, e = DCheckpoint c) \/ (exists p, e = DIo p IoStorageFull)) /\
  classify_download_failure e <> FcCancelled.
Proof.
  split_and!; [by destruct e|by destruct e| |by destruct e].
  destruct e; simpl; try case_bool_decide; simpl; subst; naive_solver.
Qed.
