(* ===== verification/Tracking.v ===== *)
(** * Tracking: the interrupt-aware, checkpointing source decorator (transfer/queue.rs)

[TrackingSource::fetch_range] and [TrackingBody::read] as functions of what
the wrapped source and body answer.  A read touches the job's control block,
its progress tracker and, once per threshold, its ledger row; between two
reads other threads may request an interrupt. *)

From Stdlib Require Import NArith ZArith Lia String.
From stdpp Require Import base numbers list strings gmap.
From S2P Require Import Prelude Domain Schema Aggregate Queue Files Journal Artifact Progress.
From S2P Require Import Download TransferStore StoreProofs.

Local Open Scope string_scope.

(** [is_interrupt_error] (transfer/queue.rs:399-405). *)
Definition is_interrupt_error (e : DownloadError) : bool :=
  match e with
  | DSourceIo s | DSource s => str_contains INTERRUPT_MARKER s
  | _ => false
  end.

(** What a tracked read shares with the rest of the coordinator. *)
Record TrackWorld := mkTrackWorld {
  tw_control : JobControl;
  tw_db : Db;
  tw_progress : option JobProgressTracker;
}.

(** [TrackingBody] (transfer/queue.rs:469-479). *)
Record TrackingBody := mkTrackingBody {
  tb_job_id : string;
  tb_file_id : FileId;
  tb_offset : N;
  tb_bytes_since_checkpoint : N;
  tb_threshold : N;
}.

Definition set_offset (offset : N) (p : option JobProgressTracker) : option JobProgressTracker :=
  (fun t => run_atomics t (set_current_file_offset offset)) <$> p.

(** [TrackingSource::fetch_range] (transfer/queue.rs:431-466): [inner] is the
    answer of the wrapped source, which is not asked when an interrupt is
    pending. *)
Definition tracking_fetch_range (job_id : string) (file_id : FileId) (checkpoint_threshold_bytes : N)
    (request : RequestedRange) (inner : result DownloadError SourceResponse) (w : TrackWorld)
    : TrackWorld * result DownloadError (SourceResponse * TrackingBody) :=
  if jc_interrupt_flag (tw_control w) then (w, Err (DSource INTERRUPT_MARKER)) else
  match inner with
  | Err e => (w, Err e)
  | Ok resp =>
      let effective_start := if (sr_status resp =? 200)%N then Some 0%N
                             else if (sr_status resp =? 206)%N then Some (rr_start request)
                             else None in
      let progress := match effective_start with
                      | Some offset => set_offset offset (tw_progress w)
                      | None => tw_progress w
                      end in
      (mkTrackWorld (tw_control w) (tw_db w) progress,
       Ok (resp, mkTrackingBody job_id file_id (default (rr_start request) effective_start) 0
                   (N.max checkpoint_threshold_bytes 1)))
  end.

(** [TrackingBody::read, checkpoint] (transfer/queue.rs:495-518). *)
Definition tracking_checkpoint (error_text : PersistenceError -> string) (now : string)
    (b : TrackingBody) (w : TrackWorld) : TrackWorld * TrackingBody :=
  if (tb_threshold b <=? tb_bytes_since_checkpoint b)%N then
    let b' := mkTrackingBody (tb_job_id b) (tb_file_id b) (tb_offset b) 0 (tb_threshold b) in
    match update_file_ledger (tb_job_id b) (tb_file_id b) LPartial (tb_offset b) None now (tw_db w) with
    | (db', Ok _) => (mkTrackWorld (tw_control w) db' (tw_progress w), b')
    | (db', Err error) =>
        (mkTrackWorld (record_checkpoint_fault (tw_control w) (error_text error)) db' (tw_progress w), b')
    end
  else (w, b).

(** [TrackingBody::read] (transfer/queue.rs:482-522): [inner] is how many
    bytes the wrapped body delivered, or its error. *)
Definition tracking_read (error_text : PersistenceError -> string) (now : string)
    (inner : result string N) (b : TrackingBody) (w : TrackWorld)
    : TrackWorld * result string (TrackingBody * N) :=
  if jc_interrupt_flag (tw_control w) then (w, Err INTERRUPT_MARKER) else
  match inner with
  | Err e => (w, Err e)
  | Ok n =>
      if (0 <? n)%N then
        let offset := u64_add (tb_offset b) n in
        let b1 := mkTrackingBody (tb_job_id b) (tb_file_id b) offset
                    (u64_add (tb_bytes_since_checkpoint b) n) (tb_threshold b) in
        let w1 := mkTrackWorld (tw_control w) (tw_db w) (set_offset offset (tw_progress w)) in
        let '(w2, b2) := tracking_checkpoint error_text now b1 w1 in
        (w2, Ok (b2, n))
      else (w, Ok (b, n))
  end.

(** ** Runs *)

(** Reads of the body, and interrupts other threads request between them. *)
Inductive TrackEvent :=
| TeRead (inner : result string N)
| TeInterrupt (reason : InterruptReason).

Section tracking.
Context (error_text : PersistenceError -> string) (now : string).

Fixpoint tracking_run (events : list TrackEvent) (b : TrackingBody) (w : TrackWorld)
    : TrackWorld * result string TrackingBody :=
  match events with
  | [] => (w, Ok b)
  | TeInterrupt reason :: rest =>
      tracking_run rest b (mkTrackWorld (request_interrupt (tw_control w) reason) (tw_db w) (tw_progress w))
  | TeRead inner :: rest =>
      match tracking_read error_text now inner b w with
      | (w', Ok (b', _)) => tracking_run rest b' w'
      | (w', Err e) => (w', Err e)
      end
  end.

(** Bytes the wrapped body delivers. *)
Definition delivered (events : list TrackEvent) : N :=
  foldr (fun e acc => match e with TeRead (Ok n) => n + acc | _ => acc end)%N 0%N events.

Definition is_interrupt (e : TrackEvent) : bool :=
  match e with TeInterrupt _ => true | TeRead _ => false end.

(** What a body that started at [start] keeps true of its counters, of the
    fault slot and of the ledger row. *)
Record tracked (start : N) (b : TrackingBody) (w : TrackWorld) : Prop := {
  tk_threshold : (1 <= tb_threshold b)%N;
  tk_since : (tb_bytes_since_checkpoint b < tb_threshold b)%N;
  tk_start : (start + tb_bytes_since_checkpoint b <= tb_offset b)%N;
  tk_row : is_Some (ledger_row (tw_db w) (tb_job_id b) (tb_file_id b));
  tk_kept : jc_checkpoint_fault (tw_control w) <> None \/
            (start + tb_bytes_since_checkpoint b)%N = tb_offset b \/
            lr_bytes_confirmed <$> ledger_row (tw_db w) (tb_job_id b) (tb_file_id b)
            = Some (Z.of_N (tb_offset b - tb_bytes_since_checkpoint b));
}.

(** A partial checkpoint that succeeds is the row's new count. *)
Lemma partial_checkpoint db db' id file bytes u l :
  ledger_row db id file = Some l ->
  update_file_ledger id file LPartial bytes None now db = (db', Ok u) ->
  lr_bytes_confirmed <$> ledger_row db' id file = Some (Z.of_N bytes).
Proof.
  intros Hl (f & dg & _ & _ & _ & already & Hg & Hw)%update_file_ledger_ok.
  unfold ledger_row in *. rewrite Hl in Hg. unfold ledger_guard in Hg.
  apply rbind_ok in Hg as (st & _ & Hg). apply rbind_ok in Hg as (sb & _ & Hg).
  destruct (bool_decide (st = LVerified)); simpl in Hg; [done|].
  destruct (_ <? _)%N; [done|]. injection Hg as <-. destruct Hw as [-> _].
  rewrite ledger_of_written, decide_True, find_replaced by done. simpl.
  by rewrite String.eqb_refl, Hl.
Qed.

Lemma checkpoint_tracked start b w :
  (1 <= tb_threshold b)%N -> (start + tb_bytes_since_checkpoint b <= tb_offset b)%N ->
  is_Some (ledger_row (tw_db w) (tb_job_id b) (tb_file_id b)) ->
  (jc_checkpoint_fault (tw_control w) <> None \/
   (start + tb_bytes_since_checkpoint b)%N = tb_offset b \/
   lr_bytes_confirmed <$> ledger_row (tw_db w) (tb_job_id b) (tb_file_id b)
   = Some (Z.of_N (tb_offset b - tb_bytes_since_checkpoint b))) ->
  let '(w', b') := tracking_checkpoint error_text now b w in
  tracked start b' w' /\ tb_offset b' = tb_offset b /\
  jc_interrupt_flag (tw_control w') = jc_interrupt_flag (tw_control w) /\
  tb_job_id b' = tb_job_id b /\ tb_file_id b' = tb_file_id b /\ tb_threshold b' = tb_threshold b.
Proof.
  intros Ht Hs [l Hl] Hk. unfold tracking_checkpoint.
  destruct (N.leb_spec (tb_threshold b) (tb_bytes_since_checkpoint b)) as [Hle|Hlt].
  - destruct (update_file_ledger _ _ _ _ _ _ _) as [db' [u|e]] eqn:E.
    + split_and!; try done. assert (Hp := partial_checkpoint _ _ _ _ _ _ _ Hl E).
      split; simpl; [done|lia|lia| |right; right; by rewrite N.sub_0_r].
      destruct (ledger_row db' _ _); [eauto|discriminate Hp].
    + apply update_file_ledger_atomic in E as ->.
      split_and!; try done. split; simpl; [done|lia|lia|by rewrite Hl|].
      left. by destruct (jc_checkpoint_fault (tw_control w)).
  - split_and!; eauto. split; eauto.
Qed.

Lemma read_tracked start inner b w w' b' n :
  tracked start b w -> (tb_offset b + n <= u64_max)%N ->
  tracking_read error_text now inner b w = (w', Ok (b', n)) ->
  tracked start b' w' /\ inner = Ok n /\ tb_offset b' = (tb_offset b + n)%N /\
  jc_interrupt_flag (tw_control w) = false /\ jc_interrupt_flag (tw_control w') = false /\
  tb_job_id b' = tb_job_id b /\ tb_file_id b' = tb_file_id b /\ tb_threshold b' = tb_threshold b.
Proof.
  intros [Ht Hs Hst Hr Hk] Hmax. unfold tracking_read.
  destruct (jc_interrupt_flag _) eqn:Ef; [done|]. destruct inner as [m|]; [|done].
  destruct (N.ltb_spec 0 m) as [Hm|Hm].
  2:{ intros [= <- <- <-]. replace m with 0%N by lia. rewrite N.add_0_r. split_and!; try done. }
  destruct (tracking_checkpoint _ _ _ _) as [w2 b2] eqn:E. intros [= <- <- <-].
  rewrite (u64_add_small (tb_offset b)), u64_add_small in E by lia.
  set (b1 := mkTrackingBody _ _ _ _ _) in E. set (w1 := mkTrackWorld _ _ _) in E.
  assert (Hc := checkpoint_tracked start b1 w1 Ht ltac:(cbn; lia) Hr). rewrite E in Hc.
  destruct Hc as (Hc & Ho & Hf & ? & ? & ?); [cbn|by rewrite Hf].
  destruct Hk as [?|[?|Hk]]; [by left|right; left; lia|right; right].
  by replace (tb_offset b + m - (tb_bytes_since_checkpoint b + m))%N
    with (tb_offset b - tb_bytes_since_checkpoint b)%N by lia.
Qed.

Lemma run_tracked start events b w w' b' :
  tracked start b w -> (tb_offset b + delivered events <= u64_max)%N ->
  tracking_run events b w = (w', Ok b') ->
  tracked start b' w' /\ tb_offset b' = (tb_offset b + delivered events)%N /\
  (jc_interrupt_flag (tw_control w) || existsb is_interrupt events = true ->
   jc_interrupt_flag (tw_control w') = true).
Proof.
  revert b w. induction events as [|[inner|reason] events IH]; intros b w Hb Hmax; cbn [tracking_run].
  - intros [= <- <-]. simpl. by rewrite N.add_0_r, orb_false_r.
  - destruct (tracking_read _ _ _ _ _) as [w1 [[b1 n]|e]] eqn:E; [|done]. intros Hrun.
    assert (Hin : inner = Ok n).
    { revert E. unfold tracking_read. destruct (jc_interrupt_flag (tw_control w)); [done|].
      destruct inner as [m|]; [|done].
      destruct (0 <? m)%N; [destruct (tracking_checkpoint _ _ _ _)|]; congruence. }
    subst inner. simpl in Hmax. apply read_tracked with (start := start) in E as
      (Hb1 & _ & Ho & Hf & Hf1 & _); [|done|lia].
    destruct (IH b1 w1 Hb1 ltac:(lia) Hrun) as (? & Ho' & Hi). split_and!; [done|simpl; lia|].
    intros Hor. apply Hi. by rewrite Hf1 in *; rewrite Hf in Hor.
  - intros Hrun. eapply IH in Hrun as (? & ? & Hi); [|by destruct Hb; split|done].
    split_and!; [done|done|]. intros _. by apply Hi.
Qed.

(** A tracked download loses little and hides nothing.  After any
    reads that succeeded, from a fresh body at [start], whatever the ledger
    answered: the body has counted exactly the bytes delivered; fewer than one
    threshold of them await a checkpoint; and the ledger row confirms all the
    others unless a checkpoint failed, in which case the failure is recorded
    for the coordinator (a body that has read less than one threshold owes no
    checkpoint yet).  Once another thread has requested an interrupt no
    further byte is read: the next read fails, and the download error it
    becomes is recognised as deliberate. *)
Theorem tracking_bounded_loss events b w w' b' :
  (1 <= tb_threshold b)%N -> tb_bytes_since_checkpoint b = 0%N ->
  is_Some (ledger_row (tw_db w) (tb_job_id b) (tb_file_id b)) ->
  (tb_offset b + delivered events <= u64_max)%N ->
  tracking_run events b w = (w', Ok b') ->
  tb_offset b' = (tb_offset b + delivered events)%N /\
  (tb_bytes_since_checkpoint b' < tb_threshold b')%N /\
  (jc_checkpoint_fault (tw_control w') <> None \/
   (tb_offset b + tb_bytes_since_checkpoint b' = tb_offset b')%N \/
   lr_bytes_confirmed <$> ledger_row (tw_db w') (tb_job_id b') (tb_file_id b')
   = Some (Z.of_N (tb_offset b' - tb_bytes_since_checkpoint b'))) /\
  (forall e, existsb is_interrupt events = true ->
     tracking_read error_text now e b' w' = (w', Err INTERRUPT_MARKER)) /\
  is_interrupt_error (DSourceIo INTERRUPT_MARKER) = true.
Proof.
  intros Ht Hs Hr Hmax Hrun.
  assert (Hinit : tracked (tb_offset b) b w).
  { split; [done|lia|lia|done|]. right; left. lia. }
  assert (Hgen : tracked (tb_offset b) b' w' /\ tb_offset b' = (tb_offset b + delivered events)%N /\
    (jc_interrupt_flag (tw_control w) || existsb is_interrupt events = true ->
     jc_interrupt_flag (tw_control w') = true)) by (by eapply run_tracked).
  destruct Hgen as ([_ Hlt _ _ Hk] & Ho & Hi). split_and!; [done|done|done| |reflexivity].
  intros e He. unfold tracking_read. rewrite Hi; [done|]. by rewrite He, orb_true_r.
Qed.

End tracking.

(** Three reads of the two-byte-threshold tracker of a queued job's file. *)
Module DemoTracking.

Definition world : TrackWorld :=
  mkTrackWorld JobControl_default (DemoStore.run DemoStore.created) None.
Definition body : TrackingBody := mkTrackingBody "j1" "f1" 0 0 2.
Definition events : list TrackEvent :=
  [TeRead (Ok 2%N); TeRead (Ok 1%N); TeInterrupt IrCancel].

End DemoTracking.

Lemma tracking_bounded_loss_witness :
  tracking_read (fun _ => "") "t2" (Ok 1%N)
    (mkTrackingBody "j1" "f1" 3 1 2) (tracking_run (fun _ => "") "t2" DemoTracking.events
       DemoTracking.body DemoTracking.world).1
  = ((tracking_run (fun _ => "") "t2" DemoTracking.events DemoTracking.body DemoTracking.world).1,
     Err INTERRUPT_MARKER).
Proof.
  destruct (tracking_run (fun _ => "") "t2" DemoTracking.events DemoTracking.body DemoTracking.world)
    as [w' r] eqn:E.
  assert (Hr : r = Ok (mkTrackingBody "j1" "f1" 3 1 2)).
  { change r with (w', r).2. rewrite <- E. vm_compute. reflexivity. }
  subst r. apply (tracking_bounded_loss (fun _ => "") "t2" DemoTracking.events DemoTracking.body
                    DemoTracking.world w'); [|reflexivity| |vm_compute; discriminate|done|reflexivity].
  - vm_compute. discriminate.
  - eexists. vm_compute. reflexivity.
Defined.
