(* ===== verification/Coordinator.v ===== *)
(** * Coordinator: the durable job scheduler (transfer/coordinator.rs, transfer/recovery.rs)

[Inner] is the state the worker threads share: the transfer store, the
in-memory maps, the leases, the ready queue, the recorded faults.  Every
critical section of the sources is one function on it: what happens while a
job's [JobCell::serial] is held is one function, and the one place it is
released ([AwaitWorkerRelease]) splits a command into two of them.  An [Arc]
to a job's control block or cell is the entry of its map.  The clock, the
fresh job ids and the collaborators of the coordinator (device status,
source factory, publication verifier) enter as [Environment]; the session
directory on disk enters through the interface [SessionLibrary]. *)

From Stdlib Require Import NArith ZArith Lia Ascii String.
From Stdlib Require Import Strings.Byte.
From stdpp Require Import base numbers list strings gmap.
From S2P Require Import Prelude Domain Device Schema Aggregate Queue Scheduler Files Journal.
From S2P Require Import Artifact Progress Download TransferStore Fault Tracking.

Local Open Scope string_scope.

(** [CoordinatorConfig] (transfer/coordinator.rs:168-186): what the model
    keeps of it. *)
Record CoordinatorConfig := mkConfig {
  cc_num_workers : nat;
  cc_checkpoint_threshold_bytes : N;
}.

(** [WorkQueue] sizing (transfer/coordinator.rs:361-361). *)
Definition ready_capacity (c : CoordinatorConfig) : nat :=
  effective_capacity (Nat.max (cc_num_workers c) 1 * 2).

(** [ManagedJob] (transfer/queue.rs:185-204). *)
Record ManagedJob := mkManaged {
  mj_job_id : JobId;
  mj_request : TransferRequest;
  mj_state : TransferJobState;
  mj_publication_scope : PublicationScope;
  mj_desired_run_state : DesiredRunState;
  mj_verified_files : list VerifiedFile;
}.

(** [JobCell] (transfer/coordinator.rs:245-259): the serializing mutex is the
    atomicity of the functions below. *)
Record JobCell := mkCell {
  cl_version : N;
  cl_observed_device_version : N;
}.

Definition JobCell_new : JobCell := mkCell 1 0.

(** The [Conflict]s the coordinator raises itself, with the data their
    messages are formatted from. *)
Inductive CoordinatorConflict :=
| SpecNotBuildable (e : JobSpecError)
| RequestIdentityMismatch
| RequestPublicationMismatch
| RequestFilesMismatch (full_session : bool)
| RequestDigestConflict (c : JobRequestConflict)
| JobIdConflict (job_id existing : string)
| IllegalMove (job_id from to : string)
| RetryUnacknowledged (job_id : string)
| RetryDismissed (job_id : string)
| RetrySucceeded (parent_job_id child_job_id : string)
| RetryIdTaken (job_id : string)
| RetrySpecUnusable (e : JobSpecLoadError)
| CompletionRefused (e : CompleteJobError)
| DismissUnacknowledged (job_id : string)
| DismissWithoutOutcome (job_id : string).

(** [CoordinatorError] (transfer/coordinator.rs:188-220): [CeConflict] is the
    [Persistence(Conflict)] of the coordinator's own making; [Io] and
    [Serialization] are never constructed here.  [CePanic] is not a value of
    the enum: it is the unwinding of an [expect] or an [unreachable!]. *)
Inductive CoordinatorError :=
| CePersistence (e : PersistenceError)
| CeConflict (c : CoordinatorConflict)
| CeNotFound (job_id : string)
| CeAlreadyTerminal (job_id : string)
| CeNotTerminal (job_id : string)
| CeNotFailed (job_id : string)
| CeTimeout (job_id : string)
| CeStale (job_id : string) (expected actual : N)
| CeVerification (e : VerifyError)
| CeShuttingDown
| CePanic (message : string).

(** [JobSnapshot] (transfer/aggregate.rs:945-960). *)
Record JobSnapshot := mkJobSnapshot {
  js_job_id : JobId;
  js_version : N;
  js_device_id : DeviceId;
  js_session_id : SessionId;
  js_state : TransferJobState;
  js_desired_run_state : DesiredRunState;
  js_progress : JobProgress;
  js_error : option JobFailure;
  js_active : bool;
}.

(** ** Collaborators *)

(** The traffic of one download: the ranges asked of the wrapped source and
    the reads of the bodies it returned. *)
Inductive Traffic :=
| TrFetch (request : RequestedRange) (answer : result DownloadError SourceResponse)
| TrRead (inner : result string N).

(** What the coordinator asks of the session directories ([SessionStaging],
    [commit_staged_session], [disk_baseline]): [L] is their state. *)
Class SessionLibrary (L : Type) := {
  disk_evidence : TransferRequest -> L -> list ArtifactEvidence;
  open_staging : TransferRequest -> L -> L * result DownloadError unit;
  download_into : TransferRequest -> JobFile -> L -> L * (list Traffic * result DownloadError VerifiedFile);
  commit_session : ManagedJob -> L -> L * result DownloadError unit;
}.

(** The trait seams [DeviceStatusPort], [DownloadSourceFactory] and
    [PublicationVerifier], the clock and the id generator.  The [n]-th device
    reading of the coordinator is [device_port n]. *)
Class Environment := {
  device_port : N -> DeviceId -> ConnectionState * CaptureActivityState;
  make_source : DeviceId -> SessionId -> FileId -> result DownloadError unit;
  verify_publication : list byte -> list byte -> list byte -> result VerifyError unit;
  now_string : string;
  next_job_id : string;
}.

(** ** Shared state *)

(** [Inner] (transfer/coordinator.rs:306-333). *)
Record Inner (L : Type) := mkInner {
  in_store : Db;
  in_jobs : gmap string ManagedJob;
  in_controls : gmap string JobControl;
  in_cells : gmap string JobCell;
  in_leases : TargetLeases;
  in_queue : QueueState;
  in_faults : list CoordinatorFault;
  in_progress : gmap string JobProgressTracker;
  in_library : L;
  in_shutdown : bool;
  in_observation_version : N;
}.
Arguments mkInner {L}.
Arguments in_store {L}. Arguments in_jobs {L}. Arguments in_controls {L}. Arguments in_cells {L}.
Arguments in_leases {L}. Arguments in_queue {L}. Arguments in_faults {L}. Arguments in_progress {L}.
Arguments in_library {L}. Arguments in_shutdown {L}. Arguments in_observation_version {L}.

Section setters.
Context {L : Type}.
Implicit Types w : Inner L.

Definition set_store (d : Db) w : Inner L :=
  mkInner d (in_jobs w) (in_controls w) (in_cells w) (in_leases w) (in_queue w) (in_faults w)
    (in_progress w) (in_library w) (in_shutdown w) (in_observation_version w).
Definition set_maps (j : gmap string ManagedJob) (c : gmap string JobControl)
    (k : gmap string JobCell) w : Inner L :=
  mkInner (in_store w) j c k (in_leases w) (in_queue w) (in_faults w)
    (in_progress w) (in_library w) (in_shutdown w) (in_observation_version w).
Definition set_jobs (j : gmap string ManagedJob) w : Inner L :=
  set_maps j (in_controls w) (in_cells w) w.
Definition set_controls (c : gmap string JobControl) w : Inner L :=
  set_maps (in_jobs w) c (in_cells w) w.
Definition set_cells (k : gmap string JobCell) w : Inner L :=
  set_maps (in_jobs w) (in_controls w) k w.
Definition set_leases (l : TargetLeases) w : Inner L :=
  mkInner (in_store w) (in_jobs w) (in_controls w) (in_cells w) l (in_queue w) (in_faults w)
    (in_progress w) (in_library w) (in_shutdown w) (in_observation_version w).
Definition set_queue (q : QueueState) w : Inner L :=
  mkInner (in_store w) (in_jobs w) (in_controls w) (in_cells w) (in_leases w) q (in_faults w)
    (in_progress w) (in_library w) (in_shutdown w) (in_observation_version w).
Definition set_faults (f : list CoordinatorFault) w : Inner L :=
  mkInner (in_store w) (in_jobs w) (in_controls w) (in_cells w) (in_leases w) (in_queue w) f
    (in_progress w) (in_library w) (in_shutdown w) (in_observation_version w).
Definition set_progress (p : gmap string JobProgressTracker) w : Inner L :=
  mkInner (in_store w) (in_jobs w) (in_controls w) (in_cells w) (in_leases w) (in_queue w)
    (in_faults w) p (in_library w) (in_shutdown w) (in_observation_version w).
Definition set_library (l : L) w : Inner L :=
  mkInner (in_store w) (in_jobs w) (in_controls w) (in_cells w) (in_leases w) (in_queue w)
    (in_faults w) (in_progress w) l (in_shutdown w) (in_observation_version w).
Definition set_shutdown (b : bool) w : Inner L :=
  mkInner (in_store w) (in_jobs w) (in_controls w) (in_cells w) (in_leases w) (in_queue w)
    (in_faults w) (in_progress w) (in_library w) b (in_observation_version w).
Definition set_observation (n : N) w : Inner L :=
  mkInner (in_store w) (in_jobs w) (in_controls w) (in_cells w) (in_leases w) (in_queue w)
    (in_faults w) (in_progress w) (in_library w) (in_shutdown w) n.

(** [TransferCoordinator::build, state] (transfer/coordinator.rs:361-383). *)
Definition Inner_new (store : Db) (library : L) : Inner L :=
  mkInner store ∅ ∅ ∅ ∅ QueueState_default [] ∅ library false 0.

(** A change that always succeeds, in fallible code. *)
Definition upd {E : Type} (f : Inner L -> Inner L) : sm (Inner L) E unit := fun w => (f w, Ok tt).

(** Code under the store's mutex. *)
Definition on_store {E A : Type} (c : sm Db E A) : sm (Inner L) E A :=
  fun w => let '(d, r) := c (in_store w) in (set_store d w, r).

(** What is done on the error path before the error is returned. *)
Definition on_error {E A : Type} (c : sm (Inner L) E A) (h : E -> Inner L -> Inner L)
    : sm (Inner L) E A :=
  fun w => match c w with
           | (w', Err e) => (h e w', Err e)
           | x => x
           end.

End setters.

(** ** Error mapping *)

(** [reject_error] (transfer/coordinator.rs:2159-2174). *)
Definition reject_error (job_id : JobId) (reason : RejectReason) : CoordinatorError :=
  match reason with
  | AlreadyTerminal => CeAlreadyTerminal job_id
  | NotTerminal => CeNotTerminal job_id
  | NotFailed => CeNotFailed job_id
  | IllegalTransition from to => CeConflict (IllegalMove job_id (state_name from) (state_name to))
  end.

(** [retry_error] (transfer/coordinator.rs:2176-2205). *)
Definition retry_error (e : RetryJobError) : CoordinatorError :=
  match e with
  | RtUnknownJob job_id => CeNotFound job_id
  | RtNotRetryable job_id => CeNotFailed job_id
  | RtUnacknowledgedParent job_id => CeConflict (RetryUnacknowledged job_id)
  | RtDismissedParent job_id => CeConflict (RetryDismissed job_id)
  | RtSuccessfulDescendant parent child => CeConflict (RetrySucceeded parent child)
  | RtJobIdCollision job_id => CeConflict (RetryIdTaken job_id)
  | RtPersistence e => CePersistence e
  end.

(** [map_complete_job_error] (transfer/coordinator.rs:2207-2214). *)
Definition map_complete_job_error (e : CompleteJobError) : CoordinatorError :=
  match e with
  | CpPersistence e => CePersistence e
  | other => CeConflict (CompletionRefused other)
  end.

(** [Inner::enqueue, create_job errors] (transfer/coordinator.rs:879-891). *)
Definition create_error (e : CreateJobError) : CoordinatorError :=
  match e with
  | CjRequestDigestMismatch conflict => CeConflict (RequestDigestConflict conflict)
  | CjJobIdCollision job_id existing => CeConflict (JobIdConflict job_id existing)
  | CjPersistence e => CePersistence e
  end.

(** [validate_request_against_spec, files] (transfer/coordinator.rs:2247-2259). *)
Definition request_file_matches (expected : JobFileSpec) (actual : JobFile) : bool :=
  String.eqb (fs_file_id expected) (jf_file_id actual)
  && String.eqb (fs_display_path expected) (default (jf_file_id actual) (jf_target_relative_path actual))
  && (fs_size_bytes expected =? jf_expected_size actual)%N
  && String.eqb (fs_sha256 expected) (jf_expected_sha256_hex actual).

(** [validate_request_against_spec] (transfer/coordinator.rs:2221-2273). *)
Definition validate_request_against_spec (r : TransferRequest) (spec : JobSpec)
    : result CoordinatorError unit :=
  let identity := sp_identity spec in
  if negb (String.eqb (id_device identity) (rq_device_id r))
     || negb (String.eqb (id_session identity) (rq_session_id r))
     || negb (String.eqb (id_revision identity) (rq_revision r))
  then Err (CeConflict RequestIdentityMismatch) else
  let publication := sp_publication spec in
  if negb (bool_decide (pm_payload publication = rq_manifest_bytes r))
     || negb (bool_decide (pm_signature publication = rq_signature r))
     || negb (bool_decide (pm_public_key publication = rq_publication_public_key r))
  then Err (CeConflict RequestPublicationMismatch) else
  let requested := requested_files spec in
  if negb (length requested =? length (rq_files r))%nat
     || existsb (fun p => negb (request_file_matches p.1 p.2)) (zip requested (rq_files r))
  then Err (CeConflict (RequestFilesMismatch (is_full_session (publication_scope spec))))
  else Ok tt.

Section coordinator.
Context `{Sha256, Display DownloadError, Display CoordinatorError, Display VerifyError,
          Display PersistenceError}.
Context {L : Type} `{SessionLibrary L} (config : CoordinatorConfig).
Implicit Types w : Inner L.

Section with_environment.
Context `{Environment}.

(** ** Faults, the ready set, observations *)

(** [Inner::record_fault] (transfer/coordinator.rs:792-794). *)
Definition record_fault (f : CoordinatorFault) w : Inner L := set_faults (in_faults w ++ [f])%list w.

(** [Inner::schedule] (transfer/coordinator.rs:941-962). *)
Definition schedule_job (job_id : JobId) w : Inner L :=
  let '(queue, outcome) := schedule (ready_capacity config) (in_queue w) job_id in
  let w := set_queue queue w in
  match outcome with
  | Scheduled | AlreadyScheduled => w
  | Full => record_fault (mkFault (Some job_id) FkSend FcLocalIo
              ("ready queue is full (capacity " ++ dec (N.of_nat (ready_capacity config)) ++ ")")) w
  | Stopped => record_fault (mkFault (Some job_id) FkSend FcCancelled "ready queue is stopped") w
  end.

(** [Inner::device_snapshot] (transfer/coordinator.rs:804-811): the
    [observation_version] counter stamps the reading. *)
Definition device_snapshot (device_id : DeviceId) w : Inner L * DeviceSnapshot :=
  let version := u64_add (in_observation_version w) 1 in
  let '(connection, capture) := device_port version device_id in
  (set_observation version w, mkSnapshot version connection capture).

(** [Inner::readiness] (transfer/coordinator.rs:822-824). *)
Definition device_readiness (device_id : DeviceId) w : Inner L * DeviceReadiness :=
  let '(w, s) := device_snapshot device_id w in (w, readiness s).

(** ** Commands *)

(** [Inner::cell] (transfer/coordinator.rs:1095-1102). *)
Definition cell_of w (job_id : JobId) : result CoordinatorError JobCell :=
  ok_or (in_cells w !! job_id) (CeNotFound job_id).

(** [Inner::control] (transfer/coordinator.rs:1104-1111). *)
Definition control_of w (job_id : JobId) : result CoordinatorError JobControl :=
  ok_or (in_controls w !! job_id) (CeNotFound job_id).

Definition job_of w (job_id : JobId) : result CoordinatorError ManagedJob :=
  ok_or (in_jobs w !! job_id) (CeNotFound job_id).

(** [Inner::load_aggregate] (transfer/coordinator.rs:1185-1201). *)
Definition load_aggregate w (job_id : JobId) (cell : JobCell) : result CoordinatorError JobAggregate :=
  let? job := job_of w job_id in
  Ok (mkAggregate (mj_state job) (cl_version cell) (mj_desired_run_state job)
        (cl_observed_device_version cell)).

Definition alter_job (f : ManagedJob -> ManagedJob) (job_id : JobId) w : Inner L :=
  set_jobs (alter f job_id (in_jobs w)) w.
Definition alter_control (f : JobControl -> JobControl) (job_id : JobId) w : Inner L :=
  set_controls (alter f job_id (in_controls w)) w.
Definition alter_cell (f : JobCell -> JobCell) (job_id : JobId) w : Inner L :=
  set_cells (alter f job_id (in_cells w)) w.

Definition job_with_state (s : TransferJobState) (j : ManagedJob) : ManagedJob :=
  mkManaged (mj_job_id j) (mj_request j) s (mj_publication_scope j) (mj_desired_run_state j)
    (mj_verified_files j).
Definition job_with_intent (d : DesiredRunState) (j : ManagedJob) : ManagedJob :=
  mkManaged (mj_job_id j) (mj_request j) (mj_state j) (mj_publication_scope j) d
    (mj_verified_files j).
Definition job_with_files (l : list VerifiedFile) (j : ManagedJob) : ManagedJob :=
  mkManaged (mj_job_id j) (mj_request j) (mj_state j) (mj_publication_scope j)
    (mj_desired_run_state j) l.

(** [Inner::commit_transition, outcome] (transfer/coordinator.rs:1316-1324). *)
Definition outcome_of_state (to : TransferJobState) : option TerminalOutcome :=
  match state_to_tag to with
  | (TSucceeded, _) => Some ToSucceeded
  | (TCancelled, _) => Some ToCancelled
  | (TFailed, Some (code, retryable)) => Some (ToFailed code retryable)
  | _ => None
  end.

(** [Inner::commit_transition, durable write] (transfer/coordinator.rs:1300-1336). *)
Definition commit_durable (job_id : JobId) (expected_version : N) (to : TransferJobState)
    : sm Db CoordinatorError unit :=
  let '(tag, error) := state_to_tag to in
  if is_terminal to then
    let! db := sget in
    let! found := slift (rmap_err CePersistence (read_job db job_id)) in
    let! current := slift (ok_or found (CeNotFound job_id)) in
    if negb (sj_state_version current =? expected_version)%N
    then sfail (CeStale job_id expected_version (sj_state_version current)) else
    let! outcome := slift (ok_or (outcome_of_state to) (CePanic "terminal state tag expected")) in
    do! serr map_complete_job_error (complete_job job_id outcome now_string None) then! sret tt
  else
    do! serr CePersistence (transition_job job_id expected_version tag error now_string) then!
    sret tt.

(** [Inner::commit_transition] (transfer/coordinator.rs:1292-1341). *)
Definition commit_transition (job_id : JobId) (expected_version : N) (to : TransferJobState)
    : sm (Inner L) CoordinatorError unit :=
  do! on_store (commit_durable job_id expected_version to) then!
  upd (alter_job (job_with_state to) job_id).

Definition transition_fault (job_id : JobId) (e : CoordinatorError) w : Inner L :=
  record_fault (mkFault (Some job_id) FkTransition FcLocalIo (to_string e)) w.

(** [Inner::perform] (transfer/coordinator.rs:1206-1287). *)
Definition perform (job_id : JobId) (e : Effect) : sm (Inner L) CoordinatorError unit :=
  match e with
  | Commit expected_version to =>
      let! w := sget in
      let! cell := slift (cell_of w job_id) in
      if negb (cl_version cell =? expected_version)%N
      then sfail (CeStale job_id expected_version (cl_version cell)) else
      do! on_error (commit_transition job_id expected_version to) (transition_fault job_id) then!
      upd (alter_cell (fun c => mkCell (u64_add expected_version 1) (cl_observed_device_version c)) job_id)
  | SetDesiredRunState desired =>
      let! w := sget in
      let! cell := slift (cell_of w job_id) in
      do! serr CePersistence (on_error
            (on_store (set_desired_run_state job_id desired now_string (Some (cl_version cell))))
            (fun e => record_fault (mkFault (Some job_id) FkDesiredRunState FcLocalIo (to_string e)))) then!
      upd (alter_job (job_with_intent desired) job_id)
  | RequestInterrupt reason => upd (alter_control (fun c => request_interrupt c reason) job_id)
  | ClearInterrupt => upd (alter_control clear_interrupt job_id)
  | Dispatch => upd (schedule_job job_id)
  | RecordDeviceVersion version =>
      upd (alter_cell (fun c => mkCell (cl_version c) (N.max (cl_observed_device_version c) version)) job_id)
  | AwaitWorkerRelease | SpawnRetryJob | RemoveJob => sret tt
  end.

(** [Inner::apply_checked, phases] (transfer/coordinator.rs:1154-1163): the
    effects before the wait, and those after it when there is a wait. *)
Fixpoint split_await (es : list Effect) : list Effect * option (list Effect) :=
  match es with
  | [] => ([], None)
  | AwaitWorkerRelease :: rest => ([], Some rest)
  | e :: es' => let '(now, rest) := split_await es' in (e :: now, rest)
  end.

(** [Inner::apply_checked, first critical section] (transfer/coordinator.rs:1136-1163). *)
Definition apply_begin (job_id : JobId) (command : JobCommand) (expected_version : option N)
    : sm (Inner L) CoordinatorError (CommandOutcome * option (list Effect)) :=
  let! w := sget in
  let! cell := slift (cell_of w job_id) in
  let! _ := slift (control_of w job_id) in
  let! aggregate := slift (load_aggregate w job_id cell) in
  do! (match expected_version with
       | Some expected => if negb (expected =? ag_version aggregate)%N
                          then sfail (CeStale job_id expected (ag_version aggregate)) else sret tt
       | None => sret tt
       end) then!
  let decision := JobAggregate_decide aggregate command in
  match outcome decision with
  | Rejected reason => sfail (reject_error job_id reason)
  | o => let '(now, rest) := split_await (effects decision) in
         do! sforeach (perform job_id) now then! sret (o, rest)
  end.

(** [Inner::apply_checked, second critical section] (transfer/coordinator.rs:1170-1175). *)
Definition apply_finish (job_id : JobId) (rest : list Effect) : sm (Inner L) CoordinatorError unit :=
  sforeach (perform job_id) rest.

Definition is_active w (job_id : JobId) : bool :=
  match in_controls w !! job_id with Some c => jc_active c | None => false end.

(** [Inner::apply_checked] (transfer/coordinator.rs:1130-1181): run by a
    thread nobody interferes with, the wait ends at once or times out. *)
Definition apply_checked (job_id : JobId) (command : JobCommand) (expected_version : option N)
    : sm (Inner L) CoordinatorError CommandOutcome :=
  let! (o, awaited) := apply_begin job_id command expected_version in
  match awaited with
  | None => sret o
  | Some rest =>
      let! w := sget in
      if is_active w job_id then sfail (CeTimeout job_id)
      else do! apply_finish job_id rest then! sret o
  end.

(** [Inner::apply] (transfer/coordinator.rs:1113-1119). *)
Definition apply (job_id : JobId) (command : JobCommand) : sm (Inner L) CoordinatorError CommandOutcome :=
  apply_checked job_id command None.

(** [Inner::worker_report] (transfer/coordinator.rs:1074-1089). *)
Definition worker_report (job_id : JobId) (report : WorkerReport)
    : sm (Inner L) CoordinatorError CommandOutcome :=
  on_error (apply job_id (Worker report)) (transition_fault job_id).

(** [Inner::observe_device] (transfer/coordinator.rs:829-838). *)
Definition observe_device (job_id : JobId) (device_id : DeviceId)
    : sm (Inner L) CoordinatorError DeviceReadiness :=
  let! w := sget in
  let '(w', s) := device_snapshot device_id w in
  do! sput w' then!
  do! apply job_id (DeviceObserved s) then!
  sret (readiness s).

(** ** Installing and removing jobs *)

(** [Inner::install_progress] (transfer/coordinator.rs:1400-1453): the root
    the baseline is read from is the library's choice. *)
Definition install_progress (job_id : JobId) (request : TransferRequest) w : Inner L :=
  let total_bytes := foldl (fun acc f => u64_add acc (jf_expected_size f)) 0%N (rq_files request) in
  let files_total := (N.of_nat (length (rq_files request)) mod (u32_max + 1))%N in
  let baseline := from_evidence (disk_evidence request (in_library w)) in
  set_progress (<[job_id := with_baseline total_bytes files_total baseline]> (in_progress w)) w.

Definition or_insert {A : Type} (job_id : string) (a : A) (m : gmap string A) : gmap string A :=
  match m !! job_id with Some _ => m | None => <[job_id := a]> m end.

(** [Inner::rehydrate] (transfer/coordinator.rs:2099-2136). *)
Definition rehydrate (job_id : JobId) (request : TransferRequest) (state : TransferJobState)
    (scope : PublicationScope) (desired : DesiredRunState) (version : N) w : Inner L :=
  let should_dispatch := negb (is_terminal state) in
  let w := install_progress job_id request w in
  let w := set_maps (<[job_id := mkManaged job_id request state scope desired []]> (in_jobs w))
             (or_insert job_id JobControl_default (in_controls w))
             (or_insert job_id (mkCell version 0) (in_cells w)) w in
  if should_dispatch && bool_decide (desired = Run) then schedule_job job_id w else w.

(** [tag_to_state] on a stored row; its [expect] panics. *)
Definition state_of_stored (job : StoredJob) : result CoordinatorError TransferJobState :=
  ok_or (tag_to_state (sj_state job) (sj_error job)) (CePanic "Failed rows carry error columns").

Definition rehydrate_stored (job : StoredJob) (request : TransferRequest) (spec : JobSpec)
    : sm (Inner L) CoordinatorError unit :=
  let! state := slift (state_of_stored job) in
  upd (rehydrate (sj_job_id job) request state (publication_scope spec) (sj_desired_run_state job)
         (sj_state_version job)).

(** [Inner::verify_request_publication] (transfer/coordinator.rs:1920-1926). *)
Definition verify_request_publication (r : TransferRequest) : result VerifyError unit :=
  verify_publication (rq_manifest_bytes r) (rq_signature r) (rq_publication_public_key r).

(** [CreateJobOutcome::job] (persistence/transfer_store.rs:240-246). *)
Definition outcome_job (o : CreateJobOutcome) : StoredJob :=
  match o with CjCreated job | CjExisting job => job end.

(** [Inner::enqueue, new job] (transfer/coordinator.rs:916-937). *)
Definition install_new (job_id : JobId) (request : TransferRequest) (spec : JobSpec) w : Inner L :=
  let w := install_progress job_id request w in
  let managed := mkManaged job_id request Queued (publication_scope spec) Run [] in
  schedule_job job_id
    (set_maps (<[job_id := managed]> (in_jobs w)) (<[job_id := JobControl_default]> (in_controls w))
       (<[job_id := JobCell_new]> (in_cells w)) w).

(** [Inner::enqueue] (transfer/coordinator.rs:861-938). *)
Definition enqueue_spec (request : TransferRequest) (spec : JobSpec)
    : sm (Inner L) CoordinatorError JobId :=
  let! w := sget in
  if in_shutdown w then sfail CeShuttingDown else
  do! slift (rmap_err CeVerification (verify_request_publication request)) then!
  let! outcome := on_store (serr create_error (create_job next_job_id spec now_string None)) in
  let stored := outcome_job outcome in
  match outcome with
  | CjExisting _ =>
      let! w := sget in
      if bool_decide (is_Some (in_jobs w !! sj_job_id stored)) then sret (sj_job_id stored) else
      do! (if negb (tag_is_terminal (sj_state stored)) || bool_decide (sj_state stored = TFailed)
           then rehydrate_stored stored (request_from_spec spec) spec
           else sret tt) then!
      sret (sj_job_id stored)
  | CjCreated _ =>
      do! upd (install_new (sj_job_id stored) request spec) then! sret (sj_job_id stored)
  end.

(** [TransferCoordinator::enqueue] (transfer/coordinator.rs:447-454). *)
Definition enqueue (request : TransferRequest) : sm (Inner L) CoordinatorError JobId :=
  let! spec := slift (rmap_err (fun e => CeConflict (SpecNotBuildable e)) (to_job_spec request true "")) in
  enqueue_spec request spec.

(** [TransferCoordinator::enqueue_with_spec] (transfer/coordinator.rs:459-466). *)
Definition enqueue_with_spec (request : TransferRequest) (spec : JobSpec)
    : sm (Inner L) CoordinatorError JobId :=
  do! slift (validate_request_against_spec request spec) then! enqueue_spec request spec.

(** [RetryJobOutcome::job] (persistence/transfer_store.rs:130-137). *)
Definition retry_outcome_job (o : RetryJobOutcome) : StoredJob :=
  match o with RtCreated job | RtExisting job => job end.

(** [Inner::retry, child] (transfer/coordinator.rs:1991-2019). *)
Definition retry_child (job_id : JobId) (request : option TransferRequest)
    : sm (Inner L) CoordinatorError JobId :=
  let! outcome := on_store (serr retry_error (spawn_retry_job job_id next_job_id now_string)) in
  let child := retry_outcome_job outcome in
  let! w := sget in
  do! (if bool_decide (is_Some (in_jobs w !! sj_job_id child)) then sret tt else
       let! spec := slift (rmap_err (fun e => CeConflict (RetrySpecUnusable e))
                             (job_spec (in_store w) (sj_job_id child))) in
       rehydrate_stored child (default (request_from_spec spec) request) spec) then!
  sret (sj_job_id child).

(** [Inner::retry] (transfer/coordinator.rs:1979-2020). *)
Definition retry (job_id : JobId) : sm (Inner L) CoordinatorError JobId :=
  let! w := sget in
  let request := mj_request <$> in_jobs w !! job_id in
  do! apply job_id Retry then!
  retry_child job_id request.

Definition forget (job_id : JobId) w : Inner L :=
  set_progress (delete job_id (in_progress w))
    (set_maps (delete job_id (in_jobs w)) (delete job_id (in_controls w))
       (delete job_id (in_cells w)) w).

(** [Inner::dismiss, removal] (transfer/coordinator.rs:2032-2041): the durable
    removal and the removal from the maps, as one step (no command changes a
    terminal job in between). *)
Definition dismiss_removal (job_id : JobId) : sm (Inner L) CoordinatorError unit :=
  do! on_store (serr CePersistence (delete_job job_id)) then! upd (forget job_id).

(** [Inner::dismiss] (transfer/coordinator.rs:2022-2042). *)
Definition dismiss (job_id : JobId) : sm (Inner L) CoordinatorError unit :=
  let! w := sget in
  let! _ := slift (job_of w job_id) in
  do! apply job_id Dismiss then!
  dismiss_removal job_id.

(** [Inner::validate_dismissal] (transfer/coordinator.rs:2044-2073). *)
Definition validate_dismissal (job_id : JobId) w : result CoordinatorError unit :=
  let? job := job_of w job_id in
  if negb (is_terminal (mj_state job)) then Err (CeNotTerminal job_id) else
  let? completion := rmap_err CePersistence (read_completion (in_store w) job_id) in
  match completion with
  | Some record => if is_acknowledged record then Ok tt
                   else Err (CeConflict (DismissUnacknowledged job_id))
  | None => Err (CeConflict (DismissWithoutOutcome job_id))
  end.

(** [Inner::dismiss_runtime] (transfer/coordinator.rs:2075-2092). *)
Definition dismiss_runtime (job_id : JobId) : sm (Inner L) CoordinatorError unit :=
  let! w := sget in
  do! slift (validate_dismissal job_id w) then!
  do! apply job_id Dismiss then!
  upd (forget job_id).

(** [Inner::cancel, settled] (transfer/coordinator.rs:1949-1958). *)
Definition already_cancelled (job_id : JobId) w : bool :=
  match in_jobs w !! job_id with Some job => state_eqb (mj_state job) Cancelled | None => false end.

(** [Inner::cancel, one phase] (transfer/coordinator.rs:1947-1961): whether
    the job turned out to be cancelled already. *)
Definition cancel_phase (job_id : JobId) (command : JobCommand) : sm (Inner L) CoordinatorError bool :=
  fun w => match apply job_id command w with
           | (w', Ok _) => (w', Ok false)
           | (w', Err (CeAlreadyTerminal e)) =>
               if already_cancelled job_id w' then (w', Ok true) else (w', Err (CeAlreadyTerminal e))
           | (w', Err e) => (w', Err e)
           end.

(** [Inner::cancel] (transfer/coordinator.rs:1946-1977). *)
Definition cancel (job_id : JobId) : sm (Inner L) CoordinatorError unit :=
  let! settled := cancel_phase job_id Cancel in
  if settled : bool then sret tt
  else do! cancel_phase job_id FinalizeCancel then! sret tt.

(** [Inner::pause] (transfer/coordinator.rs:1932-1934). *)
Definition pause (job_id : JobId) : sm (Inner L) CoordinatorError unit :=
  do! apply job_id Pause then! sret tt.

(** [Inner::resume] (transfer/coordinator.rs:1936-1938). *)
Definition resume (job_id : JobId) : sm (Inner L) CoordinatorError unit :=
  do! apply job_id Resume then! sret tt.

(** [TransferCoordinator::command_if_unchanged] (transfer/coordinator.rs:606-614). *)
Definition command_if_unchanged (job_id : JobId) (expected_version : N) (command : JobCommand) :=
  apply_checked job_id command (Some expected_version).

(** [Inner::recover_on_startup, one row] (transfer/recovery.rs:32-59): what
    the loop does with a row, and the id it adds to the result. *)
Definition recover_one (r : RecoverableJob) : sm (Inner L) CoordinatorError (list JobId) :=
  match r with
  | RjReady job spec _ =>
      do! rehydrate_stored job (request_from_spec spec) spec then! sret [sj_job_id job]
  | RjBlocked blocked =>
      do! upd (record_fault (mkFault (Some (rb_job_id blocked)) FkTransition FcLocalIo
                 ("durable transfer job is blocked: " ++ rb_job_id blocked))) then! sret []
  end.

Fixpoint recover_all (rows : list RecoverableJob) : sm (Inner L) CoordinatorError (list JobId) :=
  match rows with
  | [] => sret []
  | r :: rest => let! ids := recover_one r in let! more := recover_all rest in sret (ids ++ more)%list
  end.

(** [Inner::recover_on_startup] (transfer/recovery.rs:25-62). *)
Definition recover_on_startup : sm (Inner L) CoordinatorError (list JobId) :=
  let! w := sget in
  let! recoverable := slift (rmap_err CePersistence (list_recoverable_jobs (in_store w))) in
  recover_all recoverable.

(** ** Views *)

(** [Inner::snapshot] (transfer/coordinator.rs:1347-1383). *)
Definition job_snapshot w (job_id : JobId) : option JobSnapshot :=
  cell ← in_cells w !! job_id;
  job ← in_jobs w !! job_id;
  Some (mkJobSnapshot job_id (cl_version cell) (rq_device_id (mj_request job))
          (rq_session_id (mj_request job)) (mj_state job) (mj_desired_run_state job)
          (from_option snapshot (mkProgress 0 0 0 0) (in_progress w !! job_id))
          (failure_of (mj_state job)) (is_active w job_id)).

(** [Inner::list_snapshots] (transfer/coordinator.rs:1385-1388). *)
Definition list_snapshots w : list JobSnapshot := omap (job_snapshot w) (map_to_list (in_jobs w)).*1.

(** [TransferCoordinator::has_non_terminal_jobs] (transfer/coordinator.rs:622-629). *)
Definition has_non_terminal_jobs w : bool :=
  existsb (fun e => negb (is_terminal (mj_state e.2))) (map_to_list (in_jobs w)).

(** [TransferCoordinator::set_library_root_if_idle] (transfer/coordinator.rs:631-637). *)
Definition set_library_root_if_idle (library : L) : sm (Inner L) string unit :=
  let! w := sget in
  if has_non_terminal_jobs w then sfail "downloads unfinished" else upd (set_library library).

(** [TransferCoordinator::shutdown, signals] (transfer/coordinator.rs:473-481). *)
Definition begin_shutdown w : Inner L :=
  let w := set_shutdown true w in
  let w := set_controls ((fun c => if jc_active c then request_interrupt c IrShutdown else c)
                           <$> in_controls w) w in
  set_queue (stop (in_queue w)) w.

(** ** The worker *)

(** [TransferOutcome] (transfer/coordinator.rs:781-789). *)
Inductive TransferOutcome :=
| ToAllDone (files : list VerifiedFile)
| ToNotReady | ToCapturePaused | ToUserPaused | ToInterruptCancelled | ToShutdown
| ToTransferFailed (code : FailureCode) (retryable : bool).

(** A result the caller looks at; a panic still unwinds. *)
Definition caught {A : Type} (c : sm (Inner L) CoordinatorError A)
    : sm (Inner L) CoordinatorError (result CoordinatorError A) :=
  fun w => match c w with
           | (w', Err (CePanic m)) => (w', Err (CePanic m))
           | (w', r) => (w', Ok r)
           end.

(** [Inner::interrupt_outcome] (transfer/coordinator.rs:1854-1863). *)
Definition interrupt_outcome (reason : option InterruptReason) : TransferOutcome :=
  match reason with
  | Some IrCancel => ToInterruptCancelled
  | Some IrCapturePause => ToCapturePaused
  | Some IrUserPause => ToUserPaused
  | Some IrDeviceLost => ToNotReady
  | Some IrShutdown => ToShutdown
  | None => ToInterruptCancelled
  end.

Definition control_or_default w (job_id : JobId) : JobControl :=
  default JobControl_default (in_controls w !! job_id).

(** [Inner::pre_file_interrupt_check] (transfer/coordinator.rs:1829-1852). *)
Definition pre_file_interrupt_check (job_id : JobId) (device_id : DeviceId) w
    : Inner L * option TransferOutcome :=
  let control := control_or_default w job_id in
  if jc_interrupt_flag control then (w, Some (interrupt_outcome (jc_interrupt_reason control))) else
  if bool_decide (mj_desired_run_state <$> in_jobs w !! job_id = Some Paused)
  then (w, Some ToUserPaused) else
  let '(w, r) := device_readiness device_id w in
  (w, match r with
      | Ready => None
      | CapturePaused => Some ToCapturePaused
      | WaitDevice | WaitPairing => Some ToNotReady
      end).

Definition track_view w (job_id : JobId) : TrackWorld :=
  mkTrackWorld (control_or_default w job_id) (in_store w) (in_progress w !! job_id).

Definition track_put (job_id : JobId) (t : TrackWorld) w : Inner L :=
  let w := set_store (tw_db t) (alter_control (fun _ => tw_control t) job_id w) in
  set_progress (partial_alter (fun _ => tw_progress t) job_id (in_progress w)) w.

(** The traffic of one download through its [TrackingSource]: the error that
    ended it early, if any. *)
Fixpoint track_traffic (job_id : JobId) (file_id : FileId) (l : list Traffic)
    (body : option TrackingBody) w : Inner L * option DownloadError :=
  match l with
  | [] => (w, None)
  | TrFetch request answer :: rest =>
      match tracking_fetch_range job_id file_id (cc_checkpoint_threshold_bytes config) request answer
              (track_view w job_id) with
      | (t, Ok (_, body')) => track_traffic job_id file_id rest (Some body') (track_put job_id t w)
      | (t, Err e) => (track_put job_id t w, Some e)
      end
  | TrRead inner :: rest =>
      match body with
      | None => (w, None)
      | Some b =>
          match tracking_read to_string now_string inner b (track_view w job_id) with
          | (t, Ok (b', _)) => track_traffic job_id file_id rest (Some b') (track_put job_id t w)
          | (t, Err message) => (track_put job_id t w, Some (DSourceIo message))
          end
      end
  end.

Definition download_fault (job_id : JobId) (e : DownloadError) w : Inner L :=
  record_fault (mkFault (Some job_id) FkTransition (classify_download_failure e) (to_string e)) w.

Definition transfer_failed (e : DownloadError) : TransferOutcome :=
  let '(code, retryable) := classify_download_error e in ToTransferFailed code retryable.

Definition progress_done (job_id : JobId) (size : N) w : Inner L :=
  set_progress (alter (fun t => run_atomics t (file_completed size)) job_id (in_progress w)) w.

(** [Inner::run_transfer, one file] (transfer/coordinator.rs:1758-1823): the
    verified file, or the outcome that ends the transfer. *)
Definition transfer_file (job_id : JobId) (request : TransferRequest) (file : JobFile) w
    : Inner L * (VerifiedFile + TransferOutcome) :=
  let device_id := rq_device_id request in
  match pre_file_interrupt_check job_id device_id w with
  | (w, Some outcome) => (w, inr outcome)
  | (w, None) =>
      match make_source device_id (rq_session_id request) (jf_file_id file) with
      | Err e => (record_fault (mkFault (Some job_id) FkTransition FcRemote (to_string e)) w,
                  inr (ToTransferFailed Network true))
      | Ok _ =>
          let '(library, (traffic, verdict)) := download_into request file (in_library w) in
          let '(w, cut) := track_traffic job_id (jf_file_id file) traffic None (set_library library w) in
          match match cut with Some e => Err e | None => verdict end with
          | Ok vf => (progress_done job_id (jf_expected_size file) w, inl vf)
          | Err e =>
              if is_interrupt_error e
              then (w, inr (interrupt_outcome (jc_interrupt_reason (control_or_default w job_id))))
              else (download_fault job_id e w, inr (transfer_failed e))
          end
      end
  end.

(** [Inner::run_transfer, loop] (transfer/coordinator.rs:1756-1826). *)
Fixpoint transfer_files (job_id : JobId) (request : TransferRequest) (files : list JobFile)
    (verified : list VerifiedFile) w : Inner L * TransferOutcome :=
  match files with
  | [] => (w, ToAllDone verified)
  | file :: rest =>
      match transfer_file job_id request file w with
      | (w, inl vf) => transfer_files job_id request rest (verified ++ [vf])%list w
      | (w, inr outcome) => (w, outcome)
      end
  end.

(** [Inner::run_transfer] (transfer/coordinator.rs:1709-1827). *)
Definition run_transfer (job_id : JobId) (request : TransferRequest) w : Inner L * TransferOutcome :=
  match open_staging request (in_library w) with
  | (library, Err e) => (download_fault job_id e (set_library library w), transfer_failed e)
  | (library, Ok _) => transfer_files job_id request (rq_files request) [] (set_library library w)
  end.

(** [Inner::do_commit] (transfer/coordinator.rs:1865-1918). *)
Definition do_commit (job : ManagedJob) w : Inner L * result (FailureCode * bool) unit :=
  let '(library, r) := commit_session job (in_library w) in
  (set_library library w,
   match r with
   | Ok _ => Ok tt
   | Err (DVerification (VerifyRejected msg)) =>
       Err (Other ("publication verification failed: " ++ msg), false)
   | Err e => Err (classify_download_error e)
   end).

(** [Inner::set_verified_files] (transfer/coordinator.rs:1459-1463). *)
Definition set_verified_files (job_id : JobId) (files : list VerifiedFile) w : Inner L :=
  alter_job (job_with_files files) job_id w.

(** [process_job, checkpoint fault] (transfer/coordinator.rs:1589-1596). *)
Definition take_checkpoint (job_id : JobId) w : Inner L :=
  let '(fault, control) := take_checkpoint_fault (control_or_default w job_id) in
  let w := alter_control (fun _ => control) job_id w in
  match fault with
  | Some detail => record_fault (mkFault (Some job_id) FkCheckpoint FcLocalIo detail) w
  | None => w
  end.

(** [let _ = self.worker_report(..); return;] *)
Definition report_and_return (job_id : JobId) (report : WorkerReport)
    : sm (Inner L) CoordinatorError bool :=
  do! caught (worker_report job_id report) then! sret false.

(** [if self.worker_report(..).is_err() { return; } continue;] *)
Definition report_and_continue (job_id : JobId) (report : WorkerReport)
    : sm (Inner L) CoordinatorError bool :=
  let! r := caught (worker_report job_id report) in sret (is_ok r).

Definition interrupted_and_return (job_id : JobId) (reason : InterruptReason)
    : sm (Inner L) CoordinatorError bool :=
  do! upd (alter_control clear_interrupt job_id) then!
  report_and_return job_id (Interrupted reason).

(** [process_job, transferring] (transfer/coordinator.rs:1587-1665): whether
    the loop continues. *)
Definition pass_transferring (job_id : JobId) (request : TransferRequest)
    : sm (Inner L) CoordinatorError bool :=
  let! w := sget in
  let '(w, transfer_outcome) := run_transfer job_id request w in
  do! sput (take_checkpoint job_id w) then!
  match transfer_outcome with
  | ToAllDone files =>
      do! upd (set_verified_files job_id files) then! report_and_continue job_id TransferComplete
  | ToCapturePaused => interrupted_and_return job_id IrCapturePause
  | ToUserPaused => interrupted_and_return job_id IrUserPause
  | ToNotReady =>
      do! upd (alter_control clear_interrupt job_id) then!
      let! w := sget in
      let '(w, r) := device_readiness (rq_device_id request) w in
      do! sput w then!
      report_and_return job_id
        (Interrupted match r with CapturePaused => IrCapturePause | _ => IrDeviceLost end)
  | ToInterruptCancelled => interrupted_and_return job_id IrCancel
  | ToShutdown => interrupted_and_return job_id IrShutdown
  | ToTransferFailed code retryable => report_and_return job_id (TransferFailed code retryable)
  end.

(** [process_job, one pass of the loop] (transfer/coordinator.rs:1487-1705):
    whether the loop continues. *)
Definition process_pass (job_id : JobId) : sm (Inner L) CoordinatorError bool :=
  let! w := sget in
  match in_jobs w !! job_id with
  | None => sret false
  | Some job =>
      let device_id := rq_device_id (mj_request job) in
      let observe (not_ready : DeviceReadiness -> sm (Inner L) CoordinatorError bool) :=
        if bool_decide (mj_desired_run_state job = Paused) then sret false else
        let! r := caught (observe_device job_id device_id) in
        match r with
        | Err e => do! upd (transition_fault job_id e) then! sret false
        | Ok Ready => sret true
        | Ok other => not_ready other
        end in
      match mj_state job with
      | Queued | RetryWait =>
          observe (fun r => match r with
                            | WaitDevice | WaitPairing => do! upd (schedule_job job_id) then! sret false
                            | _ => sret false
                            end)
      | WaitingForDevice | WaitingForPairing | PausedCaptureActive => observe (fun _ => sret false)
      | Preparing =>
          match verify_request_publication (mj_request job) with
          | Err e => report_and_return job_id (PreparationFailed (Other (to_string e)) false)
          | Ok _ => report_and_continue job_id Prepared
          end
      | Transferring => pass_transferring job_id (mj_request job)
      | Verifying => report_and_continue job_id Verified
      | Committing =>
          let '(w, commit_result) := do_commit job w in
          do! sput w then!
          match commit_result with
          | Ok _ => report_and_return job_id CommitComplete
          | Err (code, retryable) => report_and_return job_id (CommitFailed code retryable)
          end
      | Cancelling => interrupted_and_return job_id IrCancel
      | Succeeded | Failed _ _ | Cancelled => sret false
      end
  end.

(** [process_job, loop] (transfer/coordinator.rs:1487-1706): [None] when the
    fuel runs out, otherwise [Ok] for a return and [Err] for a panic. *)
Fixpoint process_loop (fuel : nat) (job_id : JobId) w : option (Inner L * result CoordinatorError unit) :=
  match fuel with
  | O => None
  | S fuel' =>
      match process_pass job_id w with
      | (w', Ok true) => process_loop fuel' job_id w'
      | (w', Ok false) => Some (w', Ok tt)
      | (w', Err e) => Some (w', Err e)
      end
  end.

(** [Inner::process_job] (transfer/coordinator.rs:1470-1707). *)
Definition process_job (fuel : nat) (job_id : JobId) w
    : option (Inner L * result CoordinatorError unit) :=
  match in_jobs w !! job_id with
  | None => Some (w, Ok tt)
  | Some job =>
      let target := mkTargetKey (rq_device_id (mj_request job)) (rq_session_id (mj_request job)) in
      match try_acquire (in_leases w) target job_id with
      | None => Some (w, Ok tt)
      | Some held =>
          match process_loop fuel job_id (set_leases held w) with
          | Some (w', r) => Some (set_leases (release (in_leases w') target) w', r)
          | None => None
          end
      end
  end.

Definition panic_text (e : CoordinatorError) : string :=
  match e with CePanic m => m | other => to_string other end.

(** [worker_loop, panic] (transfer/coordinator.rs:738-762). *)
Definition after_panic (job_id : JobId) (detail : string) w : Inner L :=
  let w := record_fault (mkFault (Some job_id) FkWorkerPanic FcLocalIo detail) w in
  let '(w, r) := worker_report job_id (WorkerPanicked detail) w in
  let w := match r with
           | Err e => record_fault (mkFault (Some job_id) FkTransition FcLocalIo
                        ("worker panic failed to converge job: " ++ to_string e)) w
           | Ok _ => w
           end in
  alter_control clear_interrupt job_id w.

(** [worker_loop, one turn] (transfer/coordinator.rs:714-766). *)
Definition worker_turn (fuel : nat) w : option (Inner L) :=
  let '(queue, claimed) := claim_iter (in_queue w) true in
  let w := set_queue queue w in
  match claimed with
  | ClaimReturn (Some job_id) =>
      match in_controls w !! job_id ≫= try_claim with
      | None => Some w
      | Some control =>
          let w := alter_control (fun _ => control) job_id w in
          let release_job w := alter_control drop_active_lease job_id w in
          if in_shutdown w
          then Some (release_job (alter_control (fun c => request_interrupt c IrShutdown) job_id w))
          else match process_job fuel job_id w with
               | None => None
               | Some (w, Ok _) => Some (release_job w)
               | Some (w, Err e) => Some (release_job (after_panic job_id (panic_text e) w))
               end
      end
  | _ => Some w
  end.

(** ** The dispatcher *)

Definition ignore_error {A : Type} (job_id : JobId) (x : Inner L * result CoordinatorError A) : Inner L :=
  match x with
  | (w, Ok _) => w
  | (w, Err e) => transition_fault job_id e w
  end.

(** [Inner::tick, parked states] (transfer/coordinator.rs:1033-1040). *)
Definition awaits_readiness (s : TransferJobState) : bool :=
  match s with
  | Queued | RetryWait | WaitingForDevice | WaitingForPairing | PausedCaptureActive => true
  | _ => false
  end.

(** [Inner::tick, one job] (transfer/coordinator.rs:975-1067). *)
Definition tick_job (job_id : JobId) w : Inner L :=
  match in_jobs w !! job_id with
  | None => w
  | Some job =>
      let device_id := rq_device_id (mj_request job) in
      let state := mj_state job in
      if is_terminal state then w else
      if match holder (in_leases w) (mkTargetKey device_id (rq_session_id (mj_request job))) with
         | Some h => negb (String.eqb h job_id)
         | None => false
         end then w else
      match in_controls w !! job_id with
      | None => w
      | Some control =>
          if state_eqb state Queued && (is_scheduled (in_queue w) job_id || jc_active control) then w else
          if jc_active control then ignore_error job_id (observe_device job_id device_id w) else
          if bool_decide (mj_desired_run_state job = Paused) then w else
          let offer (ready : DeviceReadiness) w :=
            if bool_decide (ready = Ready)
               || match state with Preparing | Verifying | Committing | Cancelling => true | _ => false end
            then schedule_job job_id w else w in
          if awaits_readiness state then
            match observe_device job_id device_id w with
            | (w', Ok ready) => offer ready w'
            | (w', Err e) => transition_fault job_id e w'
            end
          else offer Ready w
      end
  end.

(** [Inner::tick] (transfer/coordinator.rs:972-1069). *)
Definition tick w : Inner L :=
  foldl (fun w job_id => tick_job job_id w) w (map_to_list (in_jobs w)).*1.

End with_environment.
End coordinator.
