(* ===== verification/CoordinatorProofs.v ===== *)
(** * CoordinatorProofs: the coordinator and the store never disagree

[coord_inv] ties the in-memory maps to the durable rows; [evolves] says how
a row may change.  Every critical section of the coordinator keeps the
invariant and moves rows only along the transition graph. *)

From Stdlib Require Import NArith ZArith Lia Ascii String.
From stdpp Require Import base numbers list strings gmap relations.
From S2P Require Import Prelude Domain Device Schema Aggregate Queue Scheduler Files Journal.
From S2P Require Import Artifact Progress Download TransferStore StoreProofs Reload Fault Tracking.
From S2P Require Import Coordinator.

Local Open Scope string_scope.

(** ** The state a durable row stands for *)

Definition row_error (r : JobRow) : option (string * bool) :=
  match jr_error_code r, jr_error_retryable r with
  | Some code, Some retryable => Some (code, negb (retryable =? 0)%Z)
  | _, _ => None
  end.

Definition row_state (r : JobRow) : option TransferJobState :=
  t ← tag_from_db_str (jr_state r); tag_to_state t (row_error r).

Lemma failed_text t : is_failed_text (tag_as_db_str t) = bool_decide (t = TFailed).
Proof. by destruct t. Qed.

Lemma tag_of_text s t : tag_from_db_str s = Some t -> s = tag_as_db_str t.
Proof.
  unfold tag_from_db_str. repeat (case_match; [by match goal with H : String.eqb _ _ = true |- _ =>
    apply String.eqb_eq in H as ->; intros [= <-] end|]). done.
Qed.

Lemma row_state_total r : job_row_ok r = true -> is_Some (row_state r).
Proof.
  intros (_ & _ & [t Ht] & _ & _ & Hc & Hr)%job_row_ok_iff. unfold row_state. rewrite Ht. simpl.
  destruct t; simpl; eauto. apply tag_of_text in Ht. rewrite Ht in Hc, Hr.
  unfold row_error. destruct (jr_error_code r), (jr_error_retryable r); try done; simpl; eauto.
Qed.

Lemma row_state_terminal r s :
  row_state r = Some s -> terminal_text (jr_state r) = is_terminal s.
Proof.
  unfold row_state. intros (t & Ht & Hs)%bind_Some. apply tag_of_text in Ht. rewrite Ht.
  rewrite terminal_text_tag. destruct t; simpl in Hs; simplify_eq; try done.
  destruct (row_error r) as [[? ?]|]; simpl in Hs; by simplify_eq.
Qed.

Lemma tag_state_roundtrip s :
  tag_to_state (state_to_tag s).1 (state_to_tag s).2 = Some s.
Proof.
  destruct s; try reflexivity. cbn -[failure_code_to_db]. by rewrite failure_code_db_roundtrip.
Qed.

Lemma moved_row_state s v now r :
  is_terminal s = false -> row_state (moved_row (state_to_tag s).1 v now r) = Some s.
Proof.
  intros Hs. unfold row_state. simpl. rewrite tag_db_roundtrip. simpl. by destruct s.
Qed.

Lemma outcome_row_state s o v now r :
  is_terminal s = true -> outcome_of_state s = Some o -> row_state (set_outcome o v now r) = Some s.
Proof.
  intros Hs Ho. destruct s; try done; injection Ho as <-; try reflexivity.
  unfold row_state, row_error. cbn -[failure_code_to_db].
  rewrite failure_code_db_roundtrip. by destruct retryable.
Qed.

Lemma outcome_of_terminal s : is_terminal s = true -> exists o, outcome_of_state s = Some o.
Proof. destruct s; try done; eexists; reflexivity. Qed.

Lemma read_row_state id r job :
  read_job_row id r = Ok job ->
  sj_job_id job = id /\ row_state r = tag_to_state (sj_state job) (sj_error job) /\
  jr_state_version r = Z.of_N (sj_state_version job) /\
  desired_run_state_from_db (jr_desired_run_state r) = Some (sj_desired_run_state job).
Proof.
  unfold read_job_row. intros (k & _ & H)%rbind_ok. apply rbind_ok in H as (i & _ & H).
  apply rbind_ok in H as (d & _ & H). apply rbind_ok in H as (t & Ht%ok_or_ok & H).
  apply rbind_ok in H as (v & Hv%ok_or_ok & H). apply rbind_ok in H as (dr & Hd%ok_or_ok & H).
  injection H as <-. simpl. apply u64_of_i64_Some in Hv. split_and!; try done.
  unfold row_state. by rewrite Ht.
Qed.

(** ** How rows change *)

(** [r'] is reached from [r] along the transition graph, one version per hop. *)
Definition row_moves (r r' : JobRow) : Prop :=
  exists s hops, row_state r = Some s /\ row_state r' = Some (List.last hops s) /\
    legal_path s hops = true /\
    jr_state_version r' = (jr_state_version r + Z.of_nat (length hops))%Z.

Definition fresh_row (r : JobRow) : Prop :=
  jr_state r = "queued" /\ jr_state_version r = 1%Z /\ jr_desired_run_state r = "run" /\
  jr_error_code r = None.

(** No row is lost, rows move legally, new rows are queued at version 1. *)
Definition evolves (db db' : Db) : Prop :=
  (forall id r, t_jobs db !! id = Some r -> exists r', t_jobs db' !! id = Some r' /\ row_moves r r') /\
  (forall id r', t_jobs db !! id = None -> t_jobs db' !! id = Some r' ->
     exists r, fresh_row r /\ row_moves r r').

Lemma fresh_row_state r : fresh_row r -> row_state r = Some Queued.
Proof. intros (Hs & _ & _ & _). unfold row_state. by rewrite Hs. Qed.

Lemma row_moves_refl r : is_Some (row_state r) -> row_moves r r.
Proof. intros [s Hs]. exists s, []. split_and!; try done. simpl. lia. Qed.

Lemma last_app_default {A} (l k : list A) d : List.last (l ++ k) d = List.last k (List.last l d).
Proof.
  revert d. induction l as [|x l IH]; intros d; [done|]. simpl app.
  by rewrite (last_cons x (l ++ k) d), IH, (last_cons x l d).
Qed.

Lemma legal_path_app s l k :
  legal_path s (l ++ k) = legal_path s l && legal_path (List.last l s) k.
Proof.
  revert s. induction l as [|x l IH]; intros s; [done|].
  rewrite last_cons. simpl. by rewrite IH, andb_assoc.
Qed.

Lemma row_moves_trans r1 r2 r3 : row_moves r1 r2 -> row_moves r2 r3 -> row_moves r1 r3.
Proof.
  intros (s & h1 & H1 & H2 & Hp & Hv) (s' & h2 & H3 & H4 & Hp' & Hv').
  rewrite H3 in H2. injection H2 as ->.
  exists s, (h1 ++ h2)%list. split_and!; [done|by rewrite last_app_default| |].
  - by rewrite legal_path_app, Hp, Hp'.
  - rewrite Hv', Hv, length_app. lia.
Qed.

Lemma evolves_trans d1 d2 d3 : evolves d1 d2 -> evolves d2 d3 -> evolves d1 d3.
Proof.
  intros [A1 B1] [A2 B2]. split.
  - intros id r Hr. destruct (A1 id r Hr) as (r2 & Hr2 & M1).
    destruct (A2 id r2 Hr2) as (r3 & Hr3 & M2). exists r3. split; [done|by eapply row_moves_trans].
  - intros id r3 Hn Hr3. destruct (t_jobs d2 !! id) as [r2|] eqn:E2; [|by apply (B2 id)].
    destruct (B1 id r2 Hn E2) as (r & Hf & M1). destruct (A2 id r2 E2) as (r3' & Hr3' & M2).
    rewrite Hr3' in Hr3. injection Hr3 as ->. exists r. split; [done|by eapply row_moves_trans].
Qed.

(** A store whose job rows are the same up to columns a state does not
    depend on. *)
Lemma evolves_rows db db' :
  store_inv db -> dom (t_jobs db') = dom (t_jobs db) ->
  (forall id r r', t_jobs db !! id = Some r -> t_jobs db' !! id = Some r' ->
     row_state r' = row_state r /\ jr_state_version r' = jr_state_version r) ->
  evolves db db'.
Proof.
  intros Hinv Hdom Hsame. split.
  - intros id r Hr. assert (Hin : id ∈ dom (t_jobs db')) by (rewrite Hdom; by apply elem_of_dom_2 in Hr).
    apply elem_of_dom in Hin as [r' Hr']. exists r'. split; [done|].
    destruct (Hsame id r r' Hr Hr') as [Hs Hv].
    destruct (row_state_total r) as [s Hst]; [by apply (si_rows db Hinv id)|].
    exists s, []. split_and!; try done; [by rewrite Hs|simpl; lia].
  - intros id r' Hn Hr'. apply elem_of_dom_2 in Hr'. rewrite Hdom in Hr'.
    apply not_elem_of_dom in Hn. done.
Qed.

Lemma evolves_same_jobs db db' : store_inv db -> t_jobs db' = t_jobs db -> evolves db db'.
Proof.
  intros Hinv He. apply evolves_rows; [done|by rewrite He|]. intros id r r' Hr Hr'.
  rewrite He in Hr'. by simplify_eq.
Qed.

Lemma evolves_refl db : store_inv db -> evolves db db.
Proof. intros. by apply evolves_same_jobs. Qed.

(** One row of the store changes. *)
Lemma evolves_one db db' id r r' :
  store_inv db -> t_jobs db !! id = Some r -> t_jobs db' = <[id := r']> (t_jobs db) ->
  row_moves r r' -> evolves db db'.
Proof.
  intros Hinv Hr Hjobs Hm. split; rewrite Hjobs.
  - intros j q Hq. destruct (decide (j = id)) as [->|Hne].
    + rewrite Hr in Hq. injection Hq as <-. exists r'. by rewrite lookup_insert_eq.
    + exists q. rewrite lookup_insert_ne by done. split; [done|].
      apply row_moves_refl, row_state_total. by apply (si_rows db Hinv j).
  - intros j q Hn Hq. rewrite lookup_insert_ne in Hq; congruence.
Qed.

(** ** What the coordinator's store operations do *)

Lemma atomic_serr_ret {E F A B : Type} (f : E -> F) (c : sm Db E A) (g : A -> B) :
  atomic c -> atomic (sbind (serr f c) (fun a => sret (g a))).
Proof.
  intros Hc db db' e. unfold sbind, serr, sret. destruct (c db) as [d [a|e']] eqn:Ec; simpl; [done|].
  intros [= <- _]. by eapply Hc.
Qed.

Lemma atomic_serr {E F A : Type} (f : E -> F) (c : sm Db E A) : atomic c -> atomic (serr f c).
Proof.
  intros Hc db db' e. unfold serr. destruct (c db) as [d [a|e']] eqn:Ec; simpl; [done|].
  intros [= <- _]. by eapply Hc.
Qed.

Section durable.
Context {SHA : Sha256} {ENV : Environment}.

Lemma commit_durable_atomic id v to : atomic (commit_durable id v to).
Proof.
  unfold commit_durable. destruct (state_to_tag to) as [tag error]. destruct (is_terminal to).
  - apply atomic_sget_bind. intros d. do 2 (apply atomic_slift_bind; intros ?).
    destruct (negb _); [apply atomic_sfail|]. apply atomic_slift_bind. intros o.
    apply atomic_serr_ret, atomic_transaction.
  - apply atomic_serr_ret, transition_job_atomic.
Qed.

(** The row a commit writes. *)
Record committed (id : string) (r r' : JobRow) (v : N) (to : TransferJobState) : Prop := {
  cm_before : jr_state_version r = Z.of_N v;
  cm_fits : (v + 1 <= i64_max)%N;
  cm_state : row_state r' = Some to;
  cm_version : jr_state_version r' = Z.of_N (v + 1);
  cm_desired : jr_desired_run_state r' = jr_desired_run_state r;
  cm_reads : is_ok (read_job_row id r) = true -> is_ok (read_job_row id r') = true;
}.

Lemma moved_row_reads id to v now r :
  is_ok (read_job_row id r) = true -> is_ok (read_job_row id (moved_row to v now r)) = true.
Proof.
  unfold read_job_row. cbn [moved_row jr_operation_kind jr_device_id jr_session_id jr_revision
    jr_request_digest jr_state jr_state_version jr_desired_run_state].
  rewrite tag_db_roundtrip, (proj2 (u64_of_i64_Some (Z.of_N v) v)) by done.
  destruct (ok_or (op_from_db_str _) _); [|done]. destruct (rmap_err _ (JobIdentity_new _ _ _)); [|done].
  destruct (rmap_err _ (from_hex _)); [|done]. destruct (tag_from_db_str (jr_state r)); [|done].
  destruct (u64_of_i64 (jr_state_version r)); [|done].
  by destruct (desired_run_state_from_db _).
Qed.

Lemma completed_not_open db id r c :
  store_inv db -> t_jobs db !! id = Some r -> terminal_text (jr_state r) = false ->
  read_completion db id = Ok (Some c) -> False.
Proof.
  intros Hinv Hr Hnt. unfold read_completion. destruct (t_outbox db !! id) as [o|] eqn:Eo; [|done].
  intros _. destruct (si_outbox db Hinv id o Eo) as (r' & Hr' & Hag). rewrite Hr in Hr'.
  injection Hr' as <-. destruct Hag as (Hok & Hs & _). unfold outbox_row_ok in Hok.
  rewrite Hs in Hnt. rewrite Hnt in Hok. by rewrite andb_false_r in Hok.
Qed.

Lemma commit_durable_ok id v to db db' r s u :
  store_inv db -> t_jobs db !! id = Some r -> row_state r = Some s ->
  is_legal_transition s to = true -> commit_durable id v to db = (db', Ok u) ->
  store_inv db' /\
  exists r', t_jobs db' = <[id := r']> (t_jobs db) /\ committed id r r' v to /\
    (is_terminal to = false -> t_outbox_seq db' = t_outbox_seq db).
Proof.
  intros Hinv Hr Hs Hlegal. assert (Hnt := legal_from_nonterminal _ _ Hlegal).
  assert (Htext : terminal_text (jr_state r) = false) by (by rewrite (row_state_terminal r s)).
  unfold commit_durable. destruct (state_to_tag to) as [tag error] eqn:Etag.
  destruct (is_terminal to) eqn:Et.
  - rewrite get_bind. intros (f & Hf & H)%lift_err_bind_ok.
    apply lift_or_bind_ok in H as (job & -> & H). apply read_job_ok in Hf as (r0 & Hr0 & Hrow).
    rewrite Hr in Hr0. injection Hr0 as <-.
    destruct (N.eqb_spec (sj_state_version job) v) as [Hv|]; [|by apply sfail_ok in H]. simpl in H.
    apply lift_or_bind_ok in H as (o & Ho & H). apply serr_bind_ok in H as (d & out & Hc & H).
    apply sret_ok in H as [-> _]. split; [by eapply complete_job_inv|].
    apply complete_job_ok in Hc as (job' & r' & Hr' & Hrow' & Hcase); [|done].
    rewrite Hr in Hr'. injection Hr' as <-. rewrite Hrow in Hrow'. injection Hrow' as <-.
    destruct Hcase as [(c & _ & _ & Hc & _)|(c & _ & _ & _ & Hb & _ & _ & _ & _ & _ & _ & ->)];
      [by destruct (completed_not_open db id r c)|].
    rewrite Hv in *. eexists. split; [reflexivity|]. split; [|done].
    split; [|done|by eapply outcome_row_state|done|done|].
    + apply read_row_state in Hrow as (_ & _ & Hver & _). by rewrite Hver, Hv.
    + intros _. by rewrite (read_job_row_outcome _ _ _ _ _ _ Hrow).
  - intros (d & v' & Hc & H)%serr_bind_ok. apply sret_ok in H as [-> _].
    split; [by eapply transition_job_inv|].
    apply transition_job_ok in Hc as (_ & _ & -> & Hb & r' & Hr' & Hv & _ & _ & ->).
    rewrite Hr in Hr'. injection Hr' as <-. eexists. split; [reflexivity|]. split; [|done].
    split; try done; [|by apply moved_row_reads]. change tag with (tag, error).1. rewrite <- Etag. by apply moved_row_state.
Qed.

Lemma committed_moves id r r' v s to :
  row_state r = Some s -> is_legal_transition s to = true -> committed id r r' v to -> row_moves r r'.
Proof.
  intros Hs Hl [Hv Hf Hst Hv' _ _]. exists s, [to]. split_and!; [done|done| |].
  - simpl. by rewrite Hl.
  - rewrite Hv', Hv. simpl. lia.
Qed.

Lemma set_outcome_ok r o v now :
  job_row_ok r = true -> (1 <= v)%N -> job_row_ok (set_outcome o (Z.of_N v) now r) = true.
Proof.
  rewrite !job_row_ok_iff. simpl. intros (? & ? & _ & _ & ? & _ & _) Hv.
  split_and!; try done; [|lia|by destruct o..].
  unfold outcome_as_db_str. rewrite tag_db_roundtrip. eauto.
Qed.

Lemma outbox_row_of_ok r o v now seq :
  job_row_ok r = true -> (1 <= v)%N -> outbox_row_ok (outbox_row_of r o v now seq) = true.
Proof.
  rewrite job_row_ok_iff. intros (Hop & _) Hv. unfold outbox_row_ok, outbox_row_of.
  cbn [or_operation_kind or_outcome or_state_version or_error_code or_error_retryable].
  rewrite bool_decide_eq_true_2, outcome_terminal_text by done.
  replace (1 <=? Z.of_N v)%Z with true by (symmetry; apply Z.leb_le; lia).
  by destruct o as [|c [|]|].
Qed.

Lemma insert_outbox_row_runs id o v now db r job :
  t_jobs db !! id = Some r -> read_job_row id r = Ok job -> job_row_ok r = true ->
  t_outbox db !! id = None -> (1 <= v <= i64_max)%N ->
  (0 <= t_outbox_seq db)%Z -> (t_outbox_seq db + 1 <= Z.of_N i64_max)%Z ->
  insert_outbox_row id o v now db =
    (with_outbox (<[id := outbox_row_of r o v now (t_outbox_seq db + 1)]> (t_outbox db))
       (t_outbox_seq db + 1) db,
     Ok (mkCompletion (Z.to_N (t_outbox_seq db + 1)) id (sj_operation_kind job) o v now None)).
Proof.
  intros Hr Hrow Hok Hno [Hv1 Hv2] Hpos Hseq. unfold insert_outbox_row. rewrite get_bind.
  erewrite lift_run by (by rewrite Hr).
  erewrite lift_run by (by apply checked_i64_ok).
  unfold sbind at 1, insert_outbox, owned_by.
  rewrite bool_decide_eq_true_2, bool_decide_eq_false_2 by (rewrite ?Hr, ?Hno; eauto; by intros [? ?]).
  destruct (Z.ltb_spec (Z.of_N i64_max) (t_outbox_seq db + 1)) as [?|_]; [lia|].
  change (mkOutboxRow (t_outbox_seq db + 1) (jr_operation_kind r) (outcome_as_db_str o)
    (error_columns o).1 (error_columns o).2 (Z.of_N v) now None)
    with (outbox_row_of r o v now (t_outbox_seq db + 1)).
  rewrite outbox_row_of_ok by done. simpl negb. cbn iota. rewrite get_bind.
  unfold read_completion. simpl t_outbox. rewrite lookup_insert_eq.
  rewrite (read_completion_row_of id r job) by (done || lia). reflexivity.
Qed.

Lemma abort_completion_run {S B : Type} stage (k : unit -> sm S CompleteJobError B) s :
  sbind (abort_completion_if None stage) k s = k tt s.
Proof. unfold abort_completion_if. by rewrite bool_decide_eq_false_2. Qed.

(** A first ending of a readable, unfinished row always commits. *)
Lemma complete_job_runs id o now db r job :
  store_inv db -> t_jobs db !! id = Some r -> read_job_row id r = Ok job ->
  terminal_text (jr_state r) = false -> t_outbox db !! id = None ->
  (sj_state_version job + 1 <= i64_max)%N -> (t_outbox_seq db + 1 <= Z.of_N i64_max)%Z ->
  exists c, complete_job id o now None db
            = (finished db id r o (sj_state_version job + 1) now, Ok (CpRecorded c)).
Proof.
  intros Hinv Hr Hrow Hnt Hno Hv Hseq.
  assert (Hrok : job_row_ok r = true) by apply (si_rows db Hinv id r Hr).
  assert (Hj := read_job_row_ok _ _ _ Hrow). destruct Hj as (_ & _ & _ & Hst & _ & _).
  rewrite Hst, terminal_text_tag in Hnt.
  eexists. unfold complete_job. apply transaction_ok. rewrite get_bind.
  erewrite lift_run by (apply rmap_err_ok, read_job_ok; eauto).
  erewrite lift_run by reflexivity.
  erewrite lift_run by (apply rmap_err_ok, read_completion_none; done).
  rewrite Hnt.
  erewrite lift_run by (apply ok_or_ok, u64_checked_add_Some; split; [|done];
                        unfold u64_max, i64_max in *; lia).
  erewrite lift_run by (apply rmap_err_ok, checked_i64_ok; done).
  assert (Hok' := set_outcome_ok r o (sj_state_version job + 1) now Hrok ltac:(lia)).
  erewrite step_run by (rewrite update_job_spec, Hr, Hok'; reflexivity).
  rewrite abort_completion_run.
  set (d1 := with_jobs _ db).
  assert (Hins := insert_outbox_row_runs id o (sj_state_version job + 1) now d1 _ _
      (lookup_insert_eq _ _ _) (read_job_row_outcome id r job o _ now Hrow) Hok' Hno
      ltac:(lia) (si_seq_pos db Hinv) Hseq).
  erewrite step_run by exact Hins. rewrite abort_completion_run. reflexivity.
Qed.

(** A commit that is legal from the stored version always succeeds on a
    readable row. *)
Lemma commit_durable_runs id v to db r s job :
  store_inv db -> t_jobs db !! id = Some r -> row_state r = Some s ->
  is_legal_transition s to = true -> read_job_row id r = Ok job ->
  sj_state_version job = v -> (v + 1 <= i64_max)%N -> (t_outbox_seq db + 1 <= Z.of_N i64_max)%Z ->
  exists db', commit_durable id v to db = (db', Ok tt).
Proof.
  intros Hinv Hr Hs Hlegal Hrow <- Hv Hseq. assert (Hnt := legal_from_nonterminal _ _ Hlegal).
  assert (Htext : terminal_text (jr_state r) = false) by (by rewrite (row_state_terminal r s)).
  assert (Hver := proj1 (proj2 (proj2 (read_row_state _ _ _ Hrow)))).
  unfold commit_durable. destruct (state_to_tag to) as [tag error] eqn:Etag.
  destruct (is_terminal to) eqn:Et.
  - destruct (outcome_of_terminal to Et) as [o Ho].
    assert (Hno : t_outbox db !! id = None).
    { destruct (t_outbox db !! id) as [x|] eqn:Ex; [|done]. exfalso.
      destruct (si_outbox db Hinv id x Ex) as (r' & Hr' & Hok & Hst & _). rewrite Hr in Hr'.
      injection Hr' as <-. unfold outbox_row_ok in Hok. rewrite <- Hst, Htext in Hok.
      by rewrite andb_false_r in Hok. }
    destruct (complete_job_runs id o now_string db r job Hinv Hr Hrow Htext Hno Hv Hseq) as [c Hc].
    eexists. rewrite get_bind. erewrite lift_run by (apply rmap_err_ok, read_job_ok; eauto).
    erewrite lift_run by reflexivity. rewrite N.eqb_refl. cbv beta iota delta [negb].
    erewrite lift_run by (by rewrite Ho). by erewrite step_run by (exact Hc).
  - assert (Hnone : error = None) by (destruct to; try done; simpl in Etag; congruence). subst error.
    assert (Ht : tag_is_terminal tag = false).
    { change tag with (tag, @None (string * bool)).1. rewrite <- Etag. by destruct to. }
    eexists. by erewrite step_run by (by apply (transition_job_succeeds id _ tag now_string db r)).
Qed.

End durable.

(** ** Rows that are born *)

Definition newborn (child : string) (d : Db) : Prop :=
  forall r, t_jobs d !! child = Some r -> fresh_row r.

Lemma newborn_same_jobs {A : Type} child (c : sm Db PersistenceError A) :
  (forall d d' a, c d = (d', Ok a) -> t_jobs d' = t_jobs d) -> maintains (newborn child) c.
Proof. intros Hc d d' a Hd Hrun r Hr. apply Hd. by rewrite <- (Hc _ _ _ Hrun). Qed.

Lemma newborn_insert_job child identity kind key digest now :
  maintains (newborn child) (insert_job child (queued_row identity kind key digest now)).
Proof.
  intros d d' u Hd. unfold insert_job. repeat (case_match; [done|]). intros [= <- _] r.
  simpl. rewrite lookup_insert_eq. intros [= <-]. by split_and!.
Qed.

Lemma newborn_insert_spec child id row : maintains (newborn child) (insert_spec id row).
Proof.
  apply newborn_same_jobs. intros d d' u [_ H]%owned_by_ok. revert H.
  repeat (case_match; [done|]). by intros [= <- _].
Qed.

Lemma newborn_insert_file child id row : maintains (newborn child) (insert_file id row).
Proof.
  apply newborn_same_jobs. intros d d' u [_ H]%owned_by_ok. revert H.
  repeat (case_match; [done|]). by intros [= <- _].
Qed.

Lemma newborn_insert_ledger child id row : maintains (newborn child) (insert_ledger id row).
Proof.
  apply newborn_same_jobs. intros d d' u. unfold insert_ledger.
  repeat (case_match; [done|]). by intros [= <- _].
Qed.

Lemma newborn_insert_lineage child id row : maintains (newborn child) (insert_lineage id row).
Proof.
  apply newborn_same_jobs. intros d d' u [_ [_ H]%owned_by_ok]%owned_by_ok. revert H.
  repeat (case_match; [done|]). by intros [= <- _].
Qed.

Lemma newborn_owned child id (f : Db -> Db) :
  (forall d, t_jobs (f d) = t_jobs d) -> maintains (newborn child) (owned_by id (fun d => (f d, Ok tt))).
Proof. intros Hf. apply newborn_same_jobs. intros d d' u [_ [= <- _]]%owned_by_ok. apply Hf. Qed.

#[export] Hint Resolve newborn_insert_job newborn_insert_spec newborn_insert_file
  newborn_insert_ledger newborn_insert_lineage : sm.

Lemma evolves_born db d child :
  store_inv db -> t_jobs db !! child = None -> newborn child d ->
  (forall j, j <> child -> t_jobs d !! j = t_jobs db !! j) -> evolves db d.
Proof.
  intros Hinv Hno Hnb Hsame. split.
  - intros j r Hr. assert (j <> child) by congruence. exists r. rewrite Hsame by done.
    split; [done|]. apply row_moves_refl, row_state_total. by apply (si_rows db Hinv j).
  - intros j r Hn Hr. destruct (decide (j = child)) as [->|Hne].
    + exists r. split; [by apply Hnb|]. apply row_moves_refl.
      rewrite (fresh_row_state r (Hnb r Hr)). eauto.
    + rewrite Hsame in Hr by done. congruence.
Qed.

(** Rows are only added. *)
Definition grows (db db' : Db) : Prop :=
  evolves db db' /\ forall id r, t_jobs db !! id = Some r -> t_jobs db' !! id = Some r.

Lemma grows_refl db : store_inv db -> grows db db.
Proof. split; [by apply evolves_refl|done]. Qed.

Lemma grows_born db d child :
  store_inv db -> t_jobs db !! child = None -> newborn child d ->
  (forall j, j <> child -> t_jobs d !! j = t_jobs db !! j) -> grows db d.
Proof.
  intros Hinv Hno Hnb Hsame. split; [by eapply evolves_born|]. intros id r Hr.
  rewrite Hsame; congruence.
Qed.

Lemma read_job_id db id job : read_job db id = Ok (Some job) -> sj_job_id job = id.
Proof. intros (r & _ & H)%read_job_ok. by apply read_job_row_ok in H as [? _]. Qed.

Section born.
Context {SHA : Sha256}.

Lemma newborn_insert_file_of child id spec e : maintains (newborn child) (insert_file_of id spec e).
Proof. destruct e as [i f]. unfold insert_file_of. maintains_step. Qed.
#[local] Hint Resolve newborn_insert_file_of : sm.

Lemma newborn_insert_job_tx id spec now abort : maintains (newborn id) (insert_job_tx id spec now abort).
Proof.
  unfold insert_job_tx. apply maintains_bind; [auto with sm|]. intros d.
  apply maintains_bind; [auto with sm|]. intros [existing|]; [case_bool_decide; auto with sm|].
  apply maintains_bind; [auto with sm|]. intros [existing|]; [auto with sm|].
  maintains_step.
Qed.

Lemma read_latest_reads db i job :
  read_latest_job_by_identity db i = Ok (Some job) -> read_job db (sj_job_id job) = Ok (Some job).
Proof.
  unfold read_latest_job_by_identity.
  destruct (latest_row _) as [[id r]|] eqn:El; [|done].
  intros (j & Hj%rmap_err_ok & [= ->])%rbind_ok. apply latest_row_in in El.
  apply list_elem_of_In, filter_In in El as [Hin _].
  apply list_elem_of_In, elem_of_map_to_list in Hin.
  destruct (read_job_row_ok _ _ _ Hj) as [-> _]. apply read_job_ok. eauto.
Qed.

(** What [create_job] gives its caller: a job the store reads back, either
    one that was there or a newborn one. *)
Lemma create_job_gives id spec now db db' out :
  store_inv db -> create_job id spec now None db = (db', Ok out) ->
  store_inv db' /\ grows db db' /\
  read_job db' (sj_job_id (outcome_job out)) = Ok (Some (outcome_job out)) /\
  match out with
  | CjExisting _ => db' = db
  | CjCreated job => sj_job_id job = id /\ t_jobs db !! id = None /\
      exists r, t_jobs db' !! id = Some r /\ fresh_row r
  end.
Proof.
  intros Hinv Hrun. assert (Hinv' := create_job_inv _ _ _ _ _ _ _ Hinv Hrun).
  split; [done|]. unfold create_job in Hrun. rewrite transaction_ok in Hrun.
  assert (Hcr : creating db id db')
    by (eapply insert_job_tx_keeps; [|exact Hrun]; by apply creating_refl).
  assert (Hnb : t_jobs db !! id = None -> newborn id db').
  { intros Hn. eapply newborn_insert_job_tx; [|exact Hrun]. intros r Hr. congruence. }
  unfold insert_job_tx in Hrun. rewrite get_bind in Hrun.
  apply lift_err_bind_ok in Hrun as (f & Hf & Hrun). destruct f as [existing|].
  { case_bool_decide; [|by apply sfail_ok in Hrun]. apply sret_ok in Hrun as [-> <-].
    split; [by apply grows_refl|]. split; [by eapply read_latest_reads|done]. }
  apply lift_err_bind_ok in Hrun as (taken & Htaken & Hrun).
  destruct taken; [by apply sfail_ok in Hrun|]. apply read_job_none in Htaken.
  specialize (Hnb Htaken).
  do 8 (apply sbind_ok in Hrun as (? & [] & _ & Hrun)). rewrite get_bind in Hrun.
  apply lift_err_bind_ok in Hrun as (found & Hfound & Hrun).
  apply lift_or_bind_ok in Hrun as (job & -> & Hrun). apply sret_ok in Hrun as [-> <-].
  apply read_job_ok in Hfound as (r & Hr & Hrow). assert (Hid := proj1 (read_job_row_ok _ _ _ Hrow)).
  simpl. rewrite Hid. split_and!; [|apply read_job_ok; eauto|done|done|by eauto].
  eapply grows_born; [done..|apply Hcr].
Qed.

Lemma newborn_spawn_child (k : OperationKind) parent child attempt now :
  maintains (newborn child)
    (match k with
     | OpUpload => spawn_upload_child parent child attempt now
     | OpDownload => spawn_download_child parent child attempt now
     end).
Proof.
  destruct k; unfold spawn_download_child, spawn_upload_child; maintains_step.
  - destruct (t_specs _ !! _); auto with sm.
  - by apply newborn_owned.
  - by apply newborn_owned.
Qed.

(** A retry's job reads back too; a newborn child is queued. *)
Lemma spawn_retry_gives p child now db db' out :
  store_inv db -> spawn_retry_job p child now db = (db', Ok out) ->
  store_inv db' /\ grows db db' /\
  read_job db' (sj_job_id (retry_outcome_job out)) = Ok (Some (retry_outcome_job out)).
Proof.
  intros Hinv Hrun. assert (Hok := Hrun). apply spawn_retry_job_ok in Hok; [|done].
  unfold spawn_retry_job, spawn_retry_job_inner in Hrun. rewrite transaction_ok, get_bind in Hrun.
  apply lift_bind_ok in Hrun as (parent & Hpar & Hrun).
  apply lift_err_bind_ok in Hrun as (taken & Htaken & Hrun). destruct taken as [ex|].
  { case_bool_decide; [|by apply sfail_ok in Hrun]. apply sret_ok in Hrun as [-> <-]. simpl.
    split; [done|]. split; [by apply grows_refl|]. by rewrite (read_job_id _ _ _ Htaken). }
  apply read_job_none in Htaken. rewrite joined_children_all in Hrun by done.
  apply lift_bind_ok in Hrun as (live & Hlive & Hrun). destruct live as [ex|].
  { apply sret_ok in Hrun as [-> <-]. simpl. split; [done|]. split; [by apply grows_refl|].
    destruct (latest_attempt _) as [[existing_id l]|]; [|done].
    apply rbind_ok in Hlive as (found & Hfound%rmap_err_ok & [= Hex]).
    destruct found as [job|]; [|done]. destruct (tag_is_terminal _); [done|]. injection Hex as ->.
    by rewrite (read_job_id _ _ _ Hfound). }
  apply lift_bind_ok in Hrun as (attempt & Hatt & Hrun).
  apply sbind_ok in Hrun as (d & [] & Hspawn & Hrun). rewrite get_bind in Hrun.
  apply lift_err_bind_ok in Hrun as (f & Hf & Hrun). apply lift_or_bind_ok in Hrun as (job & -> & Hrun).
  apply sret_ok in Hrun as [-> <-]. simpl. rewrite (read_job_id _ _ _ Hf).
  destruct Hok as [(? & [=] & _)|(? & ? & _ & _ & _ & Hinv' & _ & _ & Hjobs)].
  split_and!; [done| |done]. apply (grows_born db d child); [done..| |done].
  eapply newborn_spawn_child; [|exact Hspawn]. intros r Hr. congruence.
Qed.

End born.

(** ** Memory and store agree *)

Record in_step (r : JobRow) (j : ManagedJob) (c : JobCell) : Prop := {
  st_state : row_state r = Some (mj_state j);
  st_version : jr_state_version r = Z.of_N (cl_version c);
  st_desired : desired_run_state_from_db (jr_desired_run_state r) = Some (mj_desired_run_state j);
}.

(** Every managed job has a control block, a cell and a durable row, and what
    memory says of its state, version and intent is what the row says. *)
Record coord_inv {L : Type} (w : Inner L) : Prop := {
  ci_store : store_inv (in_store w);
  ci_cells : forall id, is_Some (in_cells w !! id) <-> is_Some (in_jobs w !! id);
  ci_controls : forall id, is_Some (in_controls w !! id) <-> is_Some (in_jobs w !! id);
  ci_rows : forall id j, in_jobs w !! id = Some j ->
    exists r c, t_jobs (in_store w) !! id = Some r /\ in_cells w !! id = Some c /\ in_step r j c;
}.

(** One critical section: the invariant is kept and rows move legally. *)
Definition sound_step {L : Type} (w w' : Inner L) : Prop :=
  coord_inv w -> coord_inv w' /\ evolves (in_store w) (in_store w').

Definition job_core (j : ManagedJob) : TransferJobState * DesiredRunState :=
  (mj_state j, mj_desired_run_state j).

(** Changes no decision depends on. *)
Record calm {L : Type} (w w' : Inner L) : Prop := {
  ca_rows : t_jobs (in_store w') = t_jobs (in_store w);
  ca_store : store_inv (in_store w) -> store_inv (in_store w');
  ca_jobs : forall id, job_core <$> in_jobs w' !! id = job_core <$> in_jobs w !! id;
  ca_cells : forall id, cl_version <$> in_cells w' !! id = cl_version <$> in_cells w !! id;
  ca_controls : forall id, is_Some (in_controls w' !! id) <-> is_Some (in_controls w !! id);
}.

Section steps.
Context {L : Type}.
Implicit Types w : Inner L.

#[global] Instance calm_preorder : PreOrder (@calm L).
Proof.
  split.
  - intros w. by split.
  - intros w1 w2 w3 [A1 A2 A3 A4 A5] [B1 B2 B3 B4 B5].
    split; intros; rewrite ?B1, ?B3, ?B4, ?B5; auto.
Qed.

#[global] Instance sound_step_preorder : PreOrder (@sound_step L).
Proof.
  split.
  - intros w Hw. split; [done|]. apply evolves_refl, Hw.
  - intros w1 w2 w3 H12 H23 H1. destruct (H12 H1) as [H2 E12]. destruct (H23 H2) as [H3 E23].
    split; [done|]. by eapply evolves_trans.
Qed.

Lemma fmap_is_Some_iff {A B C : Type} (f : A -> B) (g : C -> B) (o : option A) (p : option C) :
  f <$> o = g <$> p -> is_Some o <-> is_Some p.
Proof. rewrite <- (fmap_is_Some f), <- (fmap_is_Some g). by intros ->. Qed.

Lemma calm_sound w w' : calm w w' -> sound_step w w'.
Proof.
  intros [Hr Hs Hj Hc Hk] [Is Ic Ik Ir]. split; [split|].
  - by apply Hs.
  - intros id. by rewrite (fmap_is_Some_iff _ _ _ _ (Hc id)), (fmap_is_Some_iff _ _ _ _ (Hj id)).
  - intros id. by rewrite Hk, (fmap_is_Some_iff _ _ _ _ (Hj id)).
  - intros id j' Hj'. assert (Hcore := Hj id). rewrite Hj' in Hcore.
    destruct (in_jobs w !! id) as [j|] eqn:Ej; [|done]. injection Hcore as Hst Hd.
    destruct (Ir id j Ej) as (r & c & Hrow & Hcell & [A B C]).
    assert (Hv := Hc id). rewrite Hcell in Hv.
    destruct (in_cells w' !! id) as [c'|] eqn:Ec'; [|done]. injection Hv as Hv.
    exists r, c'. rewrite Hr. split_and!; [done|done|].
    split; [by rewrite Hst|by rewrite Hv|by rewrite Hd].
  - by apply evolves_same_jobs.
Qed.

Lemma calm_alter_control f id w : calm w (alter_control f id w).
Proof.
  split; try done. intros j. simpl. destruct (decide (j = id)) as [->|Hne].
  - by rewrite lookup_alter_eq, fmap_is_Some.
  - by rewrite lookup_alter_ne.
Qed.

Lemma calm_alter_job f id w :
  (forall j, job_core (f j) = job_core j) -> calm w (alter_job f id w).
Proof.
  intros Hf. split; try done. intros j. simpl. destruct (decide (j = id)) as [->|Hne].
  - rewrite lookup_alter_eq. destruct (in_jobs w !! id) as [x|]; [|done]. simpl. by rewrite Hf.
  - by rewrite lookup_alter_ne.
Qed.

Lemma calm_alter_cell f id w :
  (forall c, cl_version (f c) = cl_version c) -> calm w (alter_cell f id w).
Proof.
  intros Hf. split; try done. intros j. simpl. destruct (decide (j = id)) as [->|Hne].
  - rewrite lookup_alter_eq. destruct (in_cells w !! id) as [x|]; [|done]. simpl. by rewrite Hf.
  - by rewrite lookup_alter_ne.
Qed.

Lemma calm_store d w :
  t_jobs d = t_jobs (in_store w) -> (store_inv (in_store w) -> store_inv d) -> calm w (set_store d w).
Proof. intros. by split. Qed.

Lemma calm_queue q w : calm w (set_queue q w). Proof. by split. Qed.
Lemma calm_faults f w : calm w (set_faults f w). Proof. by split. Qed.
Lemma calm_progress p w : calm w (set_progress p w). Proof. by split. Qed.
Lemma calm_leases l w : calm w (set_leases l w). Proof. by split. Qed.
Lemma calm_library l w : calm w (set_library l w). Proof. by split. Qed.
Lemma calm_shutdown b w : calm w (set_shutdown b w). Proof. by split. Qed.
Lemma calm_observation n w : calm w (set_observation n w). Proof. by split. Qed.

End steps.

Create HintDb calm discriminated.
#[export] Hint Resolve calm_alter_control calm_queue calm_faults calm_progress calm_leases
  calm_library calm_shutdown calm_observation : calm.

(** ** One command *)

Section commands.
Context {SHA : Sha256} {DE : Display DownloadError} {CE : Display CoordinatorError}
  {VE : Display VerifyError} {PE : Display PersistenceError}.
Context {L : Type} {SL : SessionLibrary L} (config : CoordinatorConfig) {ENV : Environment}.
Implicit Types w : Inner L.

Lemma calm_schedule id w : calm w (schedule_job config id w).
Proof.
  unfold schedule_job. destruct (schedule _ _ _) as [q o].
  destruct o; (etrans; [apply calm_queue|]); [done|done|apply calm_faults..].
Qed.

Lemma calm_fault f w : calm w (record_fault f w).
Proof. apply calm_faults. Qed.

(** The job [id] is managed, in state [s] at version [v]. *)
Definition job_at w (id : string) (s : TransferJobState) (v : N) : Prop :=
  exists j c, in_jobs w !! id = Some j /\ in_cells w !! id = Some c /\ mj_state j = s /\ cl_version c = v.

Lemma job_at_calm w w' id s v : calm w w' -> job_at w id s v -> job_at w' id s v.
Proof.
  intros [_ _ Hj Hc _] (j & c & Ej & Ec & Es & Ev).
  specialize (Hj id). specialize (Hc id). rewrite Ej in Hj. rewrite Ec in Hc.
  destruct (in_jobs w' !! id) as [j'|] eqn:Ej'; [|done]. destruct (in_cells w' !! id) as [c'|] eqn:Ec'; [|done].
  injection Hj as Hj1 Hj2. injection Hc as Hc. exists j', c'. split_and!; congruence.
Qed.

(** One row and its memory change together. *)
Lemma sound_pair w id r r' j' c' d :
  t_jobs (in_store w) !! id = Some r -> is_Some (in_jobs w !! id) ->
  (coord_inv w -> store_inv d) -> t_jobs d = <[id := r']> (t_jobs (in_store w)) ->
  row_moves r r' -> in_step r' j' c' ->
  sound_step w (set_cells (<[id := c']> (in_cells w)) (set_jobs (<[id := j']> (in_jobs w)) (set_store d w))).
Proof.
  intros Hr Hjob Hd Hrows Hm Hstep Hw. assert (Hw' := Hw). destruct Hw as [Is Ic Ik Ir].
  split; [split|]; cbn [set_cells set_jobs set_maps set_store in_store in_jobs in_cells in_controls].
  - by apply Hd.
  - intros k. destruct (decide (k = id)) as [->|Hne]; [rewrite !lookup_insert_eq|by rewrite !lookup_insert_ne].
    split; eauto.
  - intros k. rewrite Ik. destruct (decide (k = id)) as [->|Hne]; [rewrite lookup_insert_eq|by rewrite lookup_insert_ne].
    split; eauto.
  - intros k j Hj. rewrite Hrows. destruct (decide (k = id)) as [->|Hne].
    + rewrite lookup_insert_eq in Hj. injection Hj as <-. exists r', c'.
      by rewrite !lookup_insert_eq.
    + rewrite lookup_insert_ne in Hj by done. rewrite !lookup_insert_ne by done. by apply Ir.
  - by eapply evolves_one.
Qed.

Lemma alter_insert {A : Type} (f : A -> A) (m : gmap string A) id a :
  m !! id = Some a -> alter f id m = <[id := f a]> m.
Proof.
  intros Hm. apply map_eq. intros j. destruct (decide (j = id)) as [->|Hne].
  - by rewrite lookup_alter_eq, lookup_insert_eq, Hm.
  - by rewrite lookup_alter_ne, lookup_insert_ne.
Qed.

(** A legal commit, whatever the store answers. *)
Lemma perform_commit id v to w s :
  coord_inv w -> job_at w id s v -> is_legal_transition s to = true ->
  let '(w', r) := perform config id (Commit v to) w in
  sound_step w w' /\ (is_ok r = true -> job_at w' id to (v + 1)).
Proof.
  intros Hw (j & c & Ej & Ec & Es & Ev) Hlegal. unfold perform.
  rewrite get_bind. unfold cell_of. erewrite lift_run by (by rewrite Ec). rewrite Ev, N.eqb_refl.
  cbv beta iota delta [negb]. destruct (ci_rows w Hw id j Ej) as (r & c0 & Er & Ec0 & [Sst Sv Sd]).
  rewrite Ec in Ec0. injection Ec0 as <-. rewrite Es in Sst.
  unfold sbind at 1, on_error, commit_transition, sbind at 1, on_store.
  destruct (commit_durable id v to (in_store w)) as [d [u|e]] eqn:Ed.
  - destruct (commit_durable_ok id v to _ d r s u (ci_store w Hw) Er Sst Hlegal Ed)
      as (Hd & r' & Hrows & Hcm & _). assert (Hm := committed_moves id r r' v s to Sst Hlegal Hcm).
    destruct Hcm as [_ Hfit Hst Hver Hdes _].
    unfold upd. simpl. rewrite u64_add_small by (unfold u64_max, i64_max in *; lia).
    unfold alter_cell, alter_job. simpl.
    rewrite (alter_insert _ _ _ _ Ej), (alter_insert _ _ _ _ Ec). split.
    + apply (sound_pair w id r r' (job_with_state to j) (mkCell (v + 1) (cl_observed_device_version c)) d);
        try done; split; simpl; [done|done|by rewrite Hdes].
    + intros _. eexists _, _. simpl. by rewrite !lookup_insert_eq.
  - apply commit_durable_atomic in Ed as ->. split; [|done]. apply calm_sound.
    etrans; [|apply calm_fault]. by apply calm_store.
Qed.

Lemma perform_intent id desired w s v :
  coord_inv w -> job_at w id s v ->
  let '(w', r) := perform config id (SetDesiredRunState desired) w in
  sound_step w w' /\ (is_ok r = true -> job_at w' id s v).
Proof.
  intros Hw (j & c & Ej & Ec & Es & Ev). unfold perform.
  rewrite get_bind. unfold cell_of. erewrite lift_run by (by rewrite Ec).
  destruct (ci_rows w Hw id j Ej) as (r & c0 & Er & Ec0 & [Sst Sv Sd]).
  rewrite Ec in Ec0. injection Ec0 as <-. unfold sbind at 1, serr, on_error, on_store.
  destruct (set_desired_run_state _ _ _ _ _) as [d [u|e]] eqn:Ed; simpl.
  - assert (Hd := set_desired_run_state_inv _ _ _ _ _ _ _ (ci_store w Hw) Ed).
    apply set_desired_run_state_ok in Ed as (r' & Hr' & Hok & ->). rewrite Er in Hr'. injection Hr' as <-.
    unfold alter_job. simpl. rewrite (alter_insert _ _ _ _ Ej). split.
    + assert (Hkeep : <[id := c]> (in_cells w) = in_cells w) by (by apply insert_id).
      assert (Hp := sound_pair w id r (intended_row desired now_string r) (job_with_intent desired j) c
               (with_jobs (<[id := intended_row desired now_string r]> (t_jobs (in_store w))) (in_store w))
               Er ltac:(eauto) ltac:(done) eq_refl).
      rewrite Hkeep in Hp. apply Hp.
      * exists (mj_state j), []. split_and!; [done|done|done|simpl; lia].
      * split; simpl; [done|done|by destruct desired].
    + intros _. exists (job_with_intent desired j), c. simpl. by rewrite lookup_insert_eq.
  - apply set_desired_run_state_atomic in Ed as ->. split; [|done]. apply calm_sound.
    etrans; [|apply calm_fault]. by apply calm_store.
Qed.

(** Effects that leave the durable state alone. *)
Definition is_quiet (e : Effect) : bool :=
  match e with Commit _ _ | SetDesiredRunState _ => false | _ => true end.

Lemma perform_quiet id e w :
  is_quiet e = true -> exists w', perform config id e w = (w', Ok tt) /\ calm w w'.
Proof.
  destruct e; try done; intros _; eexists; (split; [reflexivity|]); try done;
    auto with calm; [apply calm_schedule|by apply calm_alter_cell].
Qed.

Lemma perform_quiet_all id es w :
  forallb is_quiet es = true -> exists w', sforeach (perform config id) es w = (w', Ok tt) /\ calm w w'.
Proof.
  revert w. induction es as [|e es IH]; intros w; [intros _; by exists w|].
  simpl. intros [He Hes]%andb_true_iff. destruct (perform_quiet id e w He) as (w1 & H1 & C1).
  destruct (IH w1 Hes) as (w2 & H2 & C2). exists w2. unfold sbind. rewrite H1. split; [done|by etrans].
Qed.

(** A chain of effects the reducer may emit, performed from the state it
    was decided on. *)
Lemma perform_chain id es w s v :
  coord_inv w -> job_at w id s v -> chain_legal s v es = true ->
  sound_step w (sforeach (perform config id) es w).1.
Proof.
  revert w s v. induction es as [|e es IH]; intros w s v Hw Hat Hc; [done|].
  cbn [sforeach]. unfold sbind.
  assert (Hcase : exists s' v', chain_legal s' v' es = true /\
    let '(w', r) := perform config id e w in sound_step w w' /\ (is_ok r = true -> job_at w' id s' v')).
  { destruct (is_quiet e) eqn:Eq.
    - exists s, v. destruct (perform_quiet id e w Eq) as (w' & -> & Hcalm).
      split; [by destruct e|]. split; [by apply calm_sound|]. intros _. by eapply job_at_calm.
    - destruct e as [ev to|desired| | | | | | |]; try done.
      + simpl in Hc. rewrite !andb_true_iff in Hc. destruct Hc as [[->%N.eqb_eq Hl] Hc].
        exists to, (v + 1)%N. split; [done|]. by eapply perform_commit.
      + exists s, v. split; [done|]. by apply perform_intent. }
  destruct Hcase as (s' & v' & Hc' & Hcase).
  destruct (perform config id e w) as [w' [u|err]] eqn:Ep; destruct Hcase as [Hs Hat']; [|done].
  etrans; [exact Hs|]. destruct (Hs Hw) as [Hw' _]. by eapply IH; [|apply Hat'|].
Qed.

End commands.
