(* ===== verification/CoordinatorRuns.v ===== *)
(** * CoordinatorRuns: what the handlers of the coordinator guarantee

Every handler is a sequence of critical sections ([section_step]); the
sections of concurrent handlers interleave freely, and the invariant and the
legality of durable moves hold along every interleaving.  Then: recovery,
cancellation, dismissal, and the run of a worker that is left alone. *)

From Stdlib Require Import NArith ZArith Lia Ascii String.
From stdpp Require Import base numbers list strings gmap relations sorting.
From S2P Require Import Prelude Domain Device Schema Aggregate Queue Scheduler Files Journal.
From S2P Require Import Artifact Progress Download TransferStore StoreProofs Reload Fault Tracking.
From S2P Require Import Coordinator CoordinatorProofs.

Local Open Scope string_scope.

(** ** The two phases of a command *)

Definition is_await (e : Effect) : bool :=
  match e with AwaitWorkerRelease => true | _ => false end.

(** What a command does after its wait commits nothing. *)
Definition await_quiet (es : list Effect) : Prop :=
  match (split_await es).2 with Some rest => forallb is_quiet rest = true | None => True end.

Lemma await_quiet_none es : existsb is_await es = false -> await_quiet es.
Proof.
  unfold await_quiet. intros Hn. replace (split_await es).2 with (@None (list Effect)); [done|].
  induction es as [|e es IH]; [done|]. simpl in *. apply orb_false_iff in Hn as [He Hes].
  specialize (IH Hes). destruct e; try done; simpl; by destruct (split_await es).
Qed.

Lemma commits_no_await es : forallb is_commit es = true -> existsb is_await es = false.
Proof.
  induction es as [|e es IH]; [done|]. simpl. rewrite andb_true_iff. intros [He Hes].
  rewrite IH by done. by destruct e.
Qed.

Lemma commits_towards_commits a t es : commits_towards a t = Some es -> forallb is_commit es = true.
Proof.
  unfold commits_towards. destruct (route _ _) as [l|]; [|done]. intros [= <-].
  generalize (ag_version a) as v. generalize 0%nat as k. clear a t.
  assert (Hgen : forall k v, forallb is_commit
    (imap (fun i hop => Commit (u64_add v (N.of_nat (k + i))) hop) l) = true).
  { induction l as [|x l IH]; intros k v; [done|]. rewrite imap_cons. simpl.
    rewrite <- (IH (S k) v). f_equal. apply imap_ext. intros i y _. simpl. by rewrite Nat.add_succ_r. }
  intros k v. apply (Hgen 0%nat).
Qed.

Lemma decide_await a c : await_quiet (effects (JobAggregate_decide a c)).
Proof.
  assert (Hc : forall t es, commits_towards a t = Some es -> existsb is_await es = false).
  { intros t es H%commits_towards_commits. by apply commits_no_await. }
  assert (Hfc : existsb is_await (effects (decide_finalize_cancel a)) = false).
  { unfold decide_finalize_cancel. by repeat case_match. }
  destruct c as [to| | | | | | |s|report]; cbn [JobAggregate_decide].
  - apply await_quiet_none. unfold decide_transition. by repeat case_match.
  - unfold decide_pause. by repeat case_match.
  - apply await_quiet_none. unfold decide_resume. by repeat case_match.
  - unfold decide_cancel. by repeat case_match.
  - by apply await_quiet_none.
  - unfold decide_retry. by repeat case_match.
  - unfold decide_dismiss. by repeat case_match.
  - apply await_quiet_none.
    assert (Hf : forall t, existsb is_await (effects (finish_observation a s t)) = false).
    { intros t. unfold finish_observation. destruct (default [] _) as [|e es] eqn:Ed.
      - by destruct (_ <? _)%N.
      - destruct t as [t|]; [|done]. simpl in Ed. destruct (commits_towards a t) eqn:Et; [|done].
        simpl in Ed. subst. exact (Hc t _ Et). }
    unfold decide_device_observed. by repeat (case_match; try apply Hf).
  - apply await_quiet_none. unfold decide_worker. destruct (is_terminal _); [done|].
    destruct report as [| | | |detail|reason| | |]; try by repeat case_match.
    + unfold decide_worker_panic.
      destruct (commits_towards a _) as [[|e es]|] eqn:Et; [by repeat case_match| |by repeat case_match].
      exact (Hc _ _ Et).
    + unfold decide_interrupted. repeat (case_match; try done);
        by match goal with Ht : commits_towards a _ = Some _ |- _ => exact (Hc _ _ Ht) end.
Qed.

Lemma split_await_chain s v es : chain_legal s v es = true -> chain_legal s v (split_await es).1 = true.
Proof.
  revert s v. induction es as [|e es IH]; intros s v; [done|].
  destruct e; simpl; try done; destruct (split_await es) as [now rest] eqn:E; simpl in *; try apply IH.
  rewrite !andb_true_iff. intros [? ?]. split; [done|by apply IH].
Qed.

(** ** Critical sections *)

Section sections.
Context {SHA : Sha256} {DE : Display DownloadError} {CE : Display CoordinatorError}
  {VE : Display VerifyError} {PE : Display PersistenceError}.
Context {L : Type} {SL : SessionLibrary L} (config : CoordinatorConfig).
Implicit Types w : Inner L.

(** One critical section of some thread; every section has its own clock
    reading, device readings and fresh id. *)
Inductive section_step w : Inner L -> Prop :=
| ss_begin (ENV : Environment) id command expected :
    section_step w (apply_begin config id command expected w).1
| ss_finish (ENV : Environment) id rest :
    forallb is_quiet rest = true -> section_step w (apply_finish config id rest w).1
| ss_enqueue (ENV : Environment) request spec : section_step w (enqueue_spec config request spec w).1
| ss_spawn (ENV : Environment) id request : section_step w (retry_child config id request w).1
| ss_dismiss id j :
    in_jobs w !! id = Some j -> is_terminal (mj_state j) = true ->
    section_step w (dismiss_removal id w).1
| ss_forget id : section_step w (forget id w)
| ss_recover : section_step w (recover_on_startup config w).1
| ss_tombstone id now : section_step w (set_store (dismiss_job id now (in_store w)).1 w)
| ss_calm w' : calm w w' -> section_step w w'.

(** ** Each section keeps the invariant *)

Lemma sound_guard w w' : (coord_inv w -> sound_step w w') -> sound_step w w'.
Proof. intros Hs Hw. by apply Hs. Qed.

Section one_environment.
Context {ENV : Environment}.

Lemma in_step_version w id j c :
  coord_inv w -> in_jobs w !! id = Some j -> in_cells w !! id = Some c -> (cl_version c <= i64_max)%N.
Proof.
  intros Hw Hj Hc. destruct (ci_rows w Hw id j Hj) as (r & c' & Hr & Hc' & [_ Hv _]).
  rewrite Hc in Hc'. injection Hc' as <-. destruct (si_rows _ (ci_store w Hw) id r Hr) as [_ Hb].
  rewrite Hv in Hb. lia.
Qed.

Lemma begin_sound id command expected w : sound_step w (apply_begin config id command expected w).1.
Proof.
  unfold apply_begin. rewrite get_bind. unfold cell_of, control_of, load_aggregate, job_of.
  destruct (in_cells w !! id) as [c|] eqn:Ec; [|done]. erewrite lift_run by reflexivity.
  destruct (in_controls w !! id) as [k|]; [|done]. erewrite lift_run by reflexivity.
  destruct (in_jobs w !! id) as [j|] eqn:Ej; [|done]. erewrite lift_run by reflexivity.
  set (a := mkAggregate _ _ _ _). unfold sbind at 1.
  assert (Hcheck : match expected with
    | Some v => if negb (v =? ag_version a)%N then sfail (CeStale id v (ag_version a)) else sret tt
    | None => sret tt end w = (w, Ok tt) \/ exists e, match expected with
    | Some v => if negb (v =? ag_version a)%N then sfail (CeStale id v (ag_version a)) else sret tt
    | None => sret tt end w = (w, Err e)).
  { destruct expected as [v|]; [destruct (negb _)|]; eauto. }
  destruct Hcheck as [->|[e ->]]; [|done]. intros Hw. revert Hw. 
  assert (Hrun : coord_inv w -> sound_step w
    (sforeach (perform config id) (split_await (effects (JobAggregate_decide a command))).1 w).1).
  { intros Hw. apply (perform_chain config id _ w (mj_state j) (cl_version c)); [done| |].
    - exists j, c. by split_and!.
    - apply split_await_chain. apply (decide_chains a command).
      generalize (in_step_version w id j c Hw Ej Ec). simpl. unfold u64_max, i64_max. lia. }
  destruct (outcome _) as [| |reason].
  1,2: destruct (split_await _) as [now rest]; intros Hw; simpl in Hrun; unfold sbind;
    specialize (Hrun Hw Hw); by destruct (sforeach _ now w) as [w' [u|e]].
  - intros Hw. split; [done|]. apply evolves_refl, Hw.
Qed.

Lemma finish_calm id rest w : forallb is_quiet rest = true -> calm w (apply_finish config id rest w).1.
Proof.
  intros Hq. unfold apply_finish. by destruct (perform_quiet_all config id rest w Hq) as (w' & -> & ?).
Qed.

(** A job that appears in memory with the state of its row. *)
Lemma rehydrate_sound id request state scope desired version w r :
  t_jobs (in_store w) !! id = Some r -> row_state r = Some state ->
  jr_state_version r = Z.of_N version -> desired_run_state_from_db (jr_desired_run_state r) = Some desired ->
  sound_step w (rehydrate config id request state scope desired version w).
Proof.
  intros Hr Hs Hv Hd. unfold rehydrate.
  assert (Hins : sound_step w (set_maps
    (<[id := mkManaged id request state scope desired []]> (in_jobs (install_progress id request w)))
    (or_insert id JobControl_default (in_controls (install_progress id request w)))
    (or_insert id (mkCell version 0) (in_cells (install_progress id request w)))
    (install_progress id request w))).
  { intros [Is Ic Ik Ir]. split; [|by apply evolves_refl]. unfold or_insert.
    split; cbn [set_maps install_progress set_progress in_store in_jobs in_controls in_cells]; [done| | |].
    - intros k. destruct (decide (k = id)) as [->|Hne].
      + rewrite lookup_insert_eq. destruct (in_cells w !! id) as [c|] eqn:Ec;
          rewrite ?Ec, ?lookup_insert_eq; split; eauto.
      + rewrite lookup_insert_ne by done.
        destruct (in_cells w !! id); rewrite ?lookup_insert_ne by done; apply Ic.
    - intros k. destruct (decide (k = id)) as [->|Hne].
      + rewrite lookup_insert_eq. destruct (in_controls w !! id) as [c|] eqn:Ec;
          rewrite ?Ec, ?lookup_insert_eq; split; eauto.
      + rewrite lookup_insert_ne by done.
        destruct (in_controls w !! id); rewrite ?lookup_insert_ne by done; apply Ik.
    - intros k j Hj. destruct (decide (k = id)) as [->|Hne].
      + rewrite lookup_insert_eq in Hj. injection Hj as <-.
        destruct (in_cells w !! id) as [c|] eqn:Ec.
        * exists r, c. split_and!; [done|done|]. split; simpl; [done| |done].
          destruct (proj1 (Ic id)) as [j0 Hj0]; [by eauto|].
          destruct (Ir id j0 Hj0) as (r0 & c0 & Hr0 & Hc0 & [_ Hv0 _]). congruence.
        * exists r, (mkCell version 0). rewrite lookup_insert_eq. by split_and!.
      + rewrite lookup_insert_ne in Hj by done. destruct (Ir k j Hj) as (r0 & c0 & Hr0 & Hc0 & Hin).
        exists r0, c0. split_and!; [done| |done].
        destruct (in_cells w !! id); by rewrite ?lookup_insert_ne. }
  case_match; [|done]. etrans; [exact Hins|]. apply calm_sound, calm_schedule.
Qed.

Lemma rehydrate_stored_sound job request spec w :
  read_job (in_store w) (sj_job_id job) = Ok (Some job) ->
  sound_step w (rehydrate_stored config job request spec w).1.
Proof.
  intros (r & Hr & Hrow)%read_job_ok. apply read_row_state in Hrow as (_ & Hs & Hv & Hd).
  unfold rehydrate_stored, state_of_stored.
  destruct (tag_to_state _ _) as [state|] eqn:Et; [|done]. simpl. by eapply rehydrate_sound.
Qed.

(** New rows do not disturb the managed jobs. *)
Lemma grown_sound d w :
  grows (in_store w) d -> store_inv d -> sound_step w (set_store d w).
Proof.
  intros [He Hkeep] Hd [Is Ic Ik Ir]. split; [|done]. split; [done|done|done|].
  intros id j Hj. destruct (Ir id j Hj) as (r & c & Hr & Hc & Hin). exists r, c.
  split_and!; [by apply Hkeep|done|done].
Qed.

Lemma install_sound id request spec w r :
  in_jobs w !! id = None -> t_jobs (in_store w) !! id = Some r -> fresh_row r ->
  sound_step w (install_new config id request spec w).
Proof.
  intros Hnone Hr Hf. unfold install_new. etrans; [|apply calm_sound, calm_schedule].
  intros [Is Ic Ik Ir]. split; [|by apply evolves_refl].
  split; cbn [set_maps install_progress set_progress in_store in_jobs in_controls in_cells]; [done| | |].
  1,2: intros k; destruct (decide (k = id)) as [->|Hne];
    [rewrite !lookup_insert_eq; split; eauto|by rewrite !lookup_insert_ne].
  intros k j Hj. destruct (decide (k = id)) as [->|Hne].
  - rewrite lookup_insert_eq in Hj. injection Hj as <-. exists r, JobCell_new.
    rewrite lookup_insert_eq. split_and!; [done|done|].
    assert (Hst := fresh_row_state r Hf). destruct Hf as (_ & Hv & Hdes & _).
    split; simpl; [done|done|by rewrite Hdes].
  - rewrite lookup_insert_ne in Hj by done. rewrite lookup_insert_ne by done. by apply Ir.
Qed.

Lemma enqueue_sound request spec w : sound_step w (enqueue_spec config request spec w).1.
Proof.
  unfold enqueue_spec. rewrite get_bind. destruct (in_shutdown w); [done|].
  destruct (verify_request_publication request) as [u|e]; [|done].
  erewrite lift_run by reflexivity. unfold sbind at 1, on_store, serr.
  destruct (create_job _ _ _ _ (in_store w)) as [d [out|e]] eqn:Ec; cbn [rmap_err].
  2:{ assert (d = in_store w) as -> by (eapply atomic_transaction; exact Ec).
      apply calm_sound. by apply calm_store. }
  apply (sound_guard w). intros Hw.
  destruct (create_job_gives _ _ _ _ _ _ (ci_store w Hw) Ec) as (Hd & He & Hread & Hcase).
  destruct out as [job|job]; cbn [outcome_job] in *.
  - destruct Hcase as (Hid & Hno & r & Hr & Hf). rewrite Hid.
    etrans; [apply (grown_sound d w He Hd)|]. apply (install_sound _ _ _ _ r); [|done|done].
    destruct (in_jobs w !! next_job_id) as [j|] eqn:Ej; [|done].
    destruct (ci_rows w Hw _ j Ej) as (r0 & _ & Hr0 & _). congruence.
  - subst d. etrans; [apply (grown_sound (in_store w) w He Hd)|]. rewrite get_bind.
    case_bool_decide; [done|]. destruct (_ || _); [|done].
    assert (Hs := rehydrate_stored_sound job (request_from_spec spec) spec
                    (set_store (in_store w) w) Hread).
    unfold sbind. by destruct (rehydrate_stored _ _ _ _ _) as [w' [u'|e]].
Qed.

Lemma retry_child_sound id request w : sound_step w (retry_child config id request w).1.
Proof.
  unfold retry_child, sbind at 1, on_store, serr.
  destruct (spawn_retry_job _ _ _ (in_store w)) as [d [out|e]] eqn:Ec; cbn [rmap_err].
  2:{ assert (d = in_store w) as -> by (eapply atomic_transaction; exact Ec).
      apply calm_sound. by apply calm_store. }
  apply (sound_guard w). intros Hw.
  destruct (spawn_retry_gives _ _ _ _ _ _ (ci_store w Hw) Ec) as (Hd & He & Hread).
  etrans; [apply (grown_sound d w He Hd)|]. rewrite get_bind. case_bool_decide; [done|].
  unfold sbind at 2. destruct (job_spec _ _) as [spec|e]; [|done]. cbn [rmap_err slift].
  assert (Hs := rehydrate_stored_sound (retry_outcome_job out) (default (request_from_spec spec) request)
                  spec (set_store d w) Hread).
  unfold sbind, slift. by destruct (rehydrate_stored _ _ _ _ _) as [w' [u'|e]].
Qed.

(** ** Recovery *)

Lemma recover_row_reads db e job spec ledger :
  t_jobs db !! e.1 = Some e.2 -> recover_row db e = Ok (RjReady job spec ledger) ->
  read_job db (sj_job_id job) = Ok (Some job) /\ sj_job_id job = e.1.
Proof.
  intros He. unfold recover_row. destruct (read_job_row e.1 e.2) as [j|] eqn:Er; [|done].
  destruct (load_spec db j) as [s|b]; [|done]. intros (l & _ & [= <- <- <-])%rbind_ok.
  destruct (read_job_row_ok _ _ _ Er) as [Hid _]. rewrite Hid. split; [|done].
  apply read_job_ok. eauto.
Qed.

Lemma recoverable_reads db rows :
  list_recoverable_jobs db = Ok rows ->
  Forall (fun r => match r with
                   | RjReady job _ _ => read_job db (sj_job_id job) = Ok (Some job)
                   | RjBlocked _ => True
                   end) rows.
Proof.
  unfold list_recoverable_jobs. intros Hr%rtraverse_ok.
  assert (Hin : forall e, e ∈ List.filter (fun e => String.eqb (jr_operation_kind e.2) "download"
                           && negb (terminal_text (jr_state e.2))) (jobs_in_order db) ->
                t_jobs db !! e.1 = Some e.2).
  { intros [id r] H. apply list_elem_of_In, filter_In in H as [H _]. apply list_elem_of_In in H.
    unfold jobs_in_order in H. rewrite merge_sort_Permutation, elem_of_map_to_list in H. done. }
  induction Hr as [|e r l rows Her _ IH]; constructor.
  - destruct r as [job spec ledger|b]; [|done].
    by destruct (recover_row_reads db e job spec ledger (Hin e ltac:(by left)) Her).
  - apply IH. intros e' He'. apply Hin. by right.
Qed.

Lemma store_of_rehydrate id request state scope desired version w :
  in_store (rehydrate config id request state scope desired version w) = in_store w.
Proof.
  unfold rehydrate. case_match; [|done]. unfold schedule_job. destruct (schedule _ _ _) as [q []]; done.
Qed.

Lemma recover_all_sound rows w :
  Forall (fun r => match r with
                   | RjReady job _ _ => read_job (in_store w) (sj_job_id job) = Ok (Some job)
                   | RjBlocked _ => True
                   end) rows ->
  sound_step w (recover_all config rows w).1.
Proof.
  revert w. induction rows as [|r rows IH]; intros w; [done|]. intros [Hr Hrows]%Forall_cons.
  cbn [recover_all]. unfold sbind at 1.
  assert (Hone : sound_step w (recover_one config r w).1 /\
                 in_store (recover_one config r w).1 = in_store w).
  { destruct r as [job spec ledger|b]; simpl.
    - assert (Hs := rehydrate_stored_sound job (request_from_spec spec) spec w Hr).
      unfold sbind. unfold rehydrate_stored in *.
      destruct (state_of_stored job); simpl in *; [|done]. split; [done|]. apply store_of_rehydrate.
    - split; [|done]. apply calm_sound, calm_fault. }
  destruct Hone as [Hs Hst]. destruct (recover_one config r w) as [w1 [ids|e]]; [|done]. simpl in Hs, Hst.
  specialize (IH w1). rewrite Hst in IH. specialize (IH Hrows). etrans; [exact Hs|].
  unfold sbind. by destruct (recover_all config rows w1) as [w2 [more|e]].
Qed.

Lemma recover_sound w : sound_step w (recover_on_startup config w).1.
Proof.
  unfold recover_on_startup. rewrite get_bind.
  destruct (list_recoverable_jobs _) as [rows|e] eqn:Er; [|done].
  erewrite lift_run by reflexivity. by apply recover_all_sound, recoverable_reads.
Qed.

End one_environment.

(** ** Removal *)

Lemma forget_inv id w : coord_inv w -> coord_inv (forget id w).
Proof.
  intros [Is Ic Ik Ir]. split; simpl; [done| | |].
  1,2: intros k; destruct (decide (k = id)) as [->|Hne];
    [by rewrite !lookup_delete_eq|by rewrite !lookup_delete_ne].
  intros k j [Hne Hj]%lookup_delete_Some. destruct (Ir k j Hj) as (r & c & Hr & Hc & Hin).
  exists r, c. rewrite lookup_delete_ne by done. by split_and!.
Qed.

(** A row that is gone: it was terminal and its outcome was delivered. *)
Definition retired (db : Db) (id : string) (r : JobRow) : Prop :=
  terminal_text (jr_state r) = true /\
  exists c, read_completion db id = Ok (Some c) /\ is_acknowledged c = true.

Definition moves (db db' : Db) : Prop :=
  forall id r, t_jobs db !! id = Some r ->
    (exists r', t_jobs db' !! id = Some r' /\ row_moves r r') \/
    (t_jobs db' !! id = None /\ retired db id r).

Lemma evolves_moves db db' : evolves db db' -> moves db db'.
Proof. intros [He _] id r Hr. left. by apply He. Qed.

Lemma dismiss_removal_inv id w : coord_inv w -> coord_inv (dismiss_removal id w).1.
Proof.
  intros Hw. unfold dismiss_removal, sbind, on_store, serr.
  destruct (delete_job id (in_store w)) as [d [b|e]] eqn:Ed; simpl.
  2:{ assert (d = in_store w) as -> by (eapply atomic_transaction; exact Ed).
      apply (proj1 (calm_sound w _ ltac:(by apply calm_store) Hw)). }
  assert (Hd := delete_job_inv _ _ _ _ (ci_store w Hw) Ed).
  apply delete_job_ok in Ed as [_ Ed]. unfold delete_job_row in Ed.
  assert (Hrows : forall k, k <> id -> t_jobs d !! k = t_jobs (in_store w) !! k).
  { intros k Hne. destruct (t_jobs (in_store w) !! id); [|by injection Ed as <- _].
    destruct (negb _); [done|]. injection Ed as <- _. simpl. by rewrite lookup_delete_ne. }
  destruct (forget_inv id w Hw) as [Is Ic Ik Ir]. split; [done|done|done|].
  intros k j Hj. assert (Hj' := Hj). simpl in Hj. apply lookup_delete_Some in Hj as [Hne _].
  destruct (Ir k j Hj') as (r & c & Hr & Hc & Hin). exists r, c. simpl in *.
  by rewrite Hrows.
Qed.

Lemma dismiss_removal_moves id j w :
  coord_inv w -> in_jobs w !! id = Some j -> is_terminal (mj_state j) = true ->
  moves (in_store w) (in_store (dismiss_removal id w).1).
Proof.
  intros Hw Hj Ht. unfold dismiss_removal, sbind, on_store, serr.
  destruct (delete_job id (in_store w)) as [d [b|e]] eqn:Ed; simpl.
  2:{ assert (d = in_store w) as -> by (eapply atomic_transaction; exact Ed).
      apply evolves_moves, evolves_refl, Hw. }
  assert (Hread : exists rc, read_completion (in_store w) id = Ok rc).
  { unfold delete_job in Ed. rewrite transaction_ok, get_bind in Ed.
    apply lift_bind_ok in Ed as (rc & Hrc & _). eauto. }
  apply delete_job_ok in Ed as [Hack Ed]. unfold delete_job_row in Ed.
  destruct (ci_rows w Hw id j Hj) as (r0 & _ & Hr0 & _ & [Hst _ _]). rewrite Hr0 in Ed.
  destruct (negb _); [done|]. injection Ed as <- _. intros k r Hr. simpl.
  destruct (decide (k = id)) as [->|Hne].
  - right. rewrite lookup_delete_eq. split; [done|]. rewrite Hr0 in Hr. injection Hr as <-.
    assert (Htext : terminal_text (jr_state r0) = true) by (by rewrite (row_state_terminal _ _ Hst)).
    split; [done|]. destruct Hread as [[c|] Hrc]; [by eauto|].
    apply read_completion_none in Hrc.
    destruct (si_terminal _ (ci_store w Hw) id r0 Hr0 Htext). congruence.
  - left. exists r. rewrite lookup_delete_ne by done. split; [done|].
    apply row_moves_refl, row_state_total. by apply (si_rows _ (ci_store w Hw) k).
Qed.

Lemma tombstone_sound id now w : sound_step w (set_store (dismiss_job id now (in_store w)).1 w).
Proof.
  destruct (dismiss_job id now (in_store w)) as [d [b|e]] eqn:Ed; simpl.
  2:{ assert (d = in_store w) as -> by (eapply atomic_transaction; exact Ed).
      apply calm_sound. by apply calm_store. }
  intros Hw. assert (Hd := dismiss_job_inv _ _ _ _ _ (ci_store w Hw) Ed).
  apply dismiss_job_ok in Ed as [[_ ->]|(r & r' & Hr & Hok & -> & Hs & He & Her & Hv & _ & Hdes & _)].
  { apply calm_sound; [|done]. by apply calm_store. }
  assert (Hst : row_state r' = row_state r) by (unfold row_state, row_error; by rewrite Hs, He, Her).
  destruct Hw as [Is Ic Ik Ir]. split.
  - split; [done|done|done|]. intros k j Hj. destruct (Ir k j Hj) as (q & c & Hq & Hc & [A B C]).
    simpl. destruct (decide (k = id)) as [->|Hne].
    + exists r', c. rewrite lookup_insert_eq. rewrite Hr in Hq. injection Hq as <-.
      split_and!; [done|done|]. split; [by rewrite Hst|by rewrite Hv|by rewrite Hdes].
    + exists q, c. by rewrite lookup_insert_ne.
  - apply (evolves_one _ _ id r r'); [done|done|done|].
    destruct (row_state_total r) as [s Hrs]; [by apply (si_rows _ Is id)|].
    exists s, []. split_and!; [done|by rewrite Hst|done|rewrite Hv; simpl; lia].
Qed.

(** ** Interleavings *)

(** Rows that appear are born queued. *)
Definition births (db db' : Db) : Prop :=
  forall id r', t_jobs db !! id = None -> t_jobs db' !! id = Some r' ->
    exists r, fresh_row r /\ row_moves r r'.

Lemma dismiss_removal_births id w :
  births (in_store w) (in_store (dismiss_removal id w).1).
Proof.
  assert (Hsame : forall d, t_jobs d ⊆ t_jobs (in_store w) -> births (in_store w) d).
  { intros d Hsub k r Hn Hr. apply (lookup_weaken _ _ _ _ Hr) in Hsub. congruence. }
  unfold dismiss_removal, sbind, on_store, serr.
  destruct (delete_job id (in_store w)) as [d [b|e]] eqn:Ed; simpl; apply Hsame.
  - apply delete_job_ok in Ed as [_ Ed]. unfold delete_job_row in Ed.
    destruct (t_jobs (in_store w) !! id); [|by injection Ed as <- _].
    destruct (negb _); [done|]. injection Ed as <- _. simpl. apply delete_subseteq.
  - by assert (d = in_store w) as -> by (eapply atomic_transaction; exact Ed).
Qed.

Lemma section_step_sound w w' :
  section_step w w' -> coord_inv w ->
  coord_inv w' /\ moves (in_store w) (in_store w') /\ births (in_store w) (in_store w').
Proof.
  assert (Hs : forall w w', sound_step w w' -> coord_inv w ->
            coord_inv w' /\ moves (in_store w) (in_store w') /\ births (in_store w) (in_store w')).
  { intros v v' Hv Hi. destruct (Hv Hi) as [? He]. split_and!; [done|by apply evolves_moves|exact (proj2 He)]. }
  intros Hstep Hw. destruct Hstep.
  - by apply Hs; [apply begin_sound|].
  - by apply Hs; [apply calm_sound, finish_calm|].
  - by apply Hs; [apply enqueue_sound|].
  - by apply Hs; [apply retry_child_sound|].
  - split_and!; [by apply dismiss_removal_inv|by eapply dismiss_removal_moves|].
    apply dismiss_removal_births.
  - assert (He := evolves_refl _ (ci_store w Hw)).
    split_and!; [by apply forget_inv|by apply evolves_moves|exact (proj2 He)].
  - by apply Hs; [apply recover_sound|].
  - by apply Hs; [apply tombstone_sound|].
  - by apply Hs; [apply calm_sound|].
Qed.

Lemma sections_inv w w' : rtc section_step w w' -> coord_inv w -> coord_inv w'.
Proof. induction 1 as [|w1 w2 w3 H12 _ IH]; [done|]. intros Hw. by apply IH, (section_step_sound w1). Qed.

Lemma coord_inv_new store (library : L) : store_inv store -> coord_inv (Inner_new store library).
Proof.
  intros Hs. split; simpl; [done| | |]; intros; rewrite ?lookup_empty in *; done.
Qed.


(** Durable states move only along the transition graph: one critical
    section, of any thread, changes an existing row by a legal path of hops
    with one version per hop (usually none), or removes it, and then the job
    was terminal and its outcome had been acknowledged. *)
Theorem durable_moves_are_legal w w' id r :
  coord_inv w -> section_step w w' -> t_jobs (in_store w) !! id = Some r ->
  (exists r' s hops, t_jobs (in_store w') !! id = Some r' /\ row_state r = Some s /\
     row_state r' = Some (List.last hops s) /\ legal_path s hops = true /\
     jr_state_version r' = (jr_state_version r + Z.of_nat (length hops))%Z) \/
  (t_jobs (in_store w') !! id = None /\ terminal_text (jr_state r) = true /\
   exists c, read_completion (in_store w) id = Ok (Some c) /\ is_acknowledged c = true).
Proof.
  intros Hw Hstep Hr. destruct (section_step_sound w w' Hstep Hw) as (_ & Hm & _).
  destruct (Hm id r Hr) as [(r' & Hr' & s & hops & H1 & H2 & H3 & H4)|[Hn [Ht Hc]]]; [left|by right].
  by exists r', s, hops.
Qed.

(** A run along which the row of [id] is never removed. *)
Definition kept (id : string) w w' : Prop :=
  section_step w w' /\ is_Some (t_jobs (in_store w') !! id).

Lemma kept_moves id w w' r :
  coord_inv w -> rtc (kept id) w w' -> t_jobs (in_store w) !! id = Some r ->
  coord_inv w' /\ exists r', t_jobs (in_store w') !! id = Some r' /\ row_moves r r'.
Proof.
  intros Hw Hrun. revert Hw r. induction Hrun as [w|w1 w2 w3 [H12 [r2 Hr2]] _ IH]; intros Hw r Hr.
  - split; [done|]. exists r. split; [done|]. apply row_moves_refl, row_state_total.
    by apply (si_rows _ (ci_store w Hw) id).
  - destruct (section_step_sound w1 w2 H12 Hw) as (Hw2 & Hm & _).
    destruct (Hm id r Hr) as [(r2' & Hr2' & M1)|[Hn _]]; [|congruence].
    destruct (IH Hw2 r2' Hr2') as (Hw3 & r3 & Hr3 & M2). split; [done|]. exists r3.
    split; [done|by eapply row_moves_trans].
Qed.

(** No job is ever durably [succeeded] without the work having been
    done: if a row that some section created is [succeeded] after any further
    interleaving during which it was not removed, its whole history is a
    legal path from [queued] whose last five states are preparing,
    transferring, verifying, committing, succeeded, and its version counts
    those states. *)
Theorem success_is_earned w0 w1 w2 id r :
  coord_inv w0 -> t_jobs (in_store w0) !! id = None -> kept id w0 w1 -> rtc (kept id) w1 w2 ->
  t_jobs (in_store w2) !! id = Some r -> jr_state r = "succeeded" ->
  exists l, let hops := (l ++ [Preparing; Transferring; Verifying; Committing; Succeeded])%list in
    legal_path Queued hops = true /\ jr_state_version r = (1 + Z.of_nat (length hops))%Z.
Proof.
  intros Hw0 Hn [H01 [r1 Hr1]] Hrun Hr Hs.
  destruct (section_step_sound w0 w1 H01 Hw0) as (Hw1 & _ & Hb).
  destruct (Hb id r1 Hn Hr1) as (rf & Hf & M1).
  destruct (kept_moves id w1 w2 r1 Hw1 Hrun Hr1) as (_ & r' & Hr' & M2).
  rewrite Hr in Hr'. injection Hr' as <-.
  destruct (row_moves_trans _ _ _ M1 M2) as (s & hops & Hs0 & Hs1 & Hp & Hv).
  rewrite (fresh_row_state rf Hf) in Hs0. injection Hs0 as <-.
  destruct Hf as (_ & Hv1 & _). rewrite Hv1 in Hv.
  unfold row_state in Hs1. rewrite Hs in Hs1. simpl in Hs1. injection Hs1 as Hl.
  destruct hops as [|x hops _] using rev_ind; [done|]. rewrite List.last_last in Hl. subst x.
  destruct (success_path hops Hp) as [l ->]. exists l. rewrite <- app_assoc in Hp, Hv.
  by split.
Qed.
End sections.

(** ** A concrete coordinator *)
Module DemoCoordinator.

#[export] Existing Instance DemoSha.sha.
#[export] Instance show_download : Display DownloadError := fun _ => "download".
#[export] Instance show_coordinator : Display CoordinatorError := fun _ => "coordinator".
#[export] Instance show_verify : Display VerifyError := fun _ => "verify".
#[export] Instance show_persistence : Display PersistenceError := fun _ => "persistence".

(** A disk on which every file arrives as planned. *)
#[export] Instance library : SessionLibrary unit := {|
  disk_evidence _ _ := [];
  open_staging _ l := (l, Ok tt);
  download_into r f l :=
    (l, ([], Ok (mkVerified (rq_device_id r) (rq_session_id r) (jf_file_id f) ["staged"]
                   (jf_expected_size f) (jf_expected_sha256_hex f) None)));
  commit_session _ l := (l, Ok tt);
|}.

(** Devices that are there, idle, and serve; publications that verify. *)
#[export] Instance environment : Environment := {|
  device_port _ _ := (Connected "c1" 1, CapIdle);
  make_source _ _ _ := Ok tt;
  verify_publication _ _ _ := Ok tt;
  now_string := "t1";
  next_job_id := "j1";
|}.

Definition config : CoordinatorConfig := mkConfig 1 2.
Definition request : TransferRequest := request_from_spec (demo_spec "d").

Definition start : Inner unit := Inner_new empty_db tt.
Definition enqueued : Inner unit := (enqueue_spec config request (demo_spec "d") start).1.

(** The commands of one undisturbed run, in order. *)
Definition script : list JobCommand :=
  [DeviceObserved (mkSnapshot 1 (Connected "c1" 1) CapIdle); Worker Prepared; Worker TransferComplete;
   Worker Verified; Worker CommitComplete].
Definition obey (w : Inner unit) (c : JobCommand) : Inner unit := (apply_begin config "j1" c None w).1.
Definition finished : Inner unit := foldl obey enqueued script.

Lemma start_inv : coord_inv start.
Proof. apply coord_inv_new, store_inv_empty. Qed.

Lemma enqueue_step : section_step config start enqueued.
Proof. apply ss_enqueue. Qed.

Lemma obey_step w c : section_step config w (obey w c).
Proof. apply ss_begin. Qed.

Lemma enqueued_inv : coord_inv enqueued.
Proof. apply (section_step_sound config start enqueued enqueue_step start_inv). Qed.

Lemma obey_run l w : rtc (section_step config) w (foldl obey w l).
Proof.
  revert w. induction l as [|c l IH]; intros w; [apply rtc_refl|].
  apply (rtc_l _ _ (obey w c)); [apply obey_step|apply IH].
Qed.

Definition has_row (w : Inner unit) : bool := bool_decide (is_Some (t_jobs (in_store w) !! "j1")).

Lemma obey_kept w c : has_row (obey w c) = true -> kept config "j1" w (obey w c).
Proof. intros H%bool_decide_eq_true. split; [apply obey_step|done]. Qed.

Fixpoint rows_kept (l : list JobCommand) (w : Inner unit) : bool :=
  match l with [] => true | c :: l => has_row (obey w c) && rows_kept l (obey w c) end.

Lemma obey_all_kept l w : rows_kept l w = true -> rtc (kept config "j1") w (foldl obey w l).
Proof.
  revert w. induction l as [|c l IH]; intros w; [intros; apply rtc_refl|].
  cbn [rows_kept]. intros [H1 H2]%andb_true_iff.
  apply (rtc_l _ _ (obey w c)); [by apply obey_kept|by apply IH].
Qed.

(** What a state shows of the demo job. *)
Lemma demo_row (w : Inner unit) {A : Type} (f : JobRow -> A) x :
  f <$> t_jobs (in_store w) !! "j1" = Some x -> exists r, t_jobs (in_store w) !! "j1" = Some r /\ f r = x.
Proof. destruct (t_jobs (in_store w) !! "j1") as [r|]; [|done]. intros [= <-]. eauto. Qed.

Lemma job_of_run (w : Inner unit) {A : Type} (f : ManagedJob -> A) x :
  f <$> in_jobs w !! "j1" = Some x -> exists j, in_jobs w !! "j1" = Some j /\ f j = x.
Proof. destruct (in_jobs w !! "j1") as [j|]; [|done]. intros [= <-]. eauto. Qed.

Lemma cell_of_run (w : Inner unit) {A : Type} (f : JobCell -> A) x :
  f <$> in_cells w !! "j1" = Some x -> exists c, in_cells w !! "j1" = Some c /\ f c = x.
Proof. destruct (in_cells w !! "j1") as [c|]; [|done]. intros [= <-]. eauto. Qed.

End DemoCoordinator.


Lemma durable_moves_are_legal_witness :
  exists r', t_jobs (in_store (DemoCoordinator.obey DemoCoordinator.enqueued Cancel)) !! "j1" = Some r'.
Proof.
  destruct (DemoCoordinator.demo_row DemoCoordinator.enqueued jr_state "queued") as (r & Hr & Hs);
    [vm_compute; reflexivity|].
  destruct (@durable_moves_are_legal DemoSha.sha DemoCoordinator.show_coordinator
              DemoCoordinator.show_persistence unit DemoCoordinator.library DemoCoordinator.config
              DemoCoordinator.enqueued (DemoCoordinator.obey DemoCoordinator.enqueued Cancel) "j1" r
              DemoCoordinator.enqueued_inv (DemoCoordinator.obey_step _ _) Hr)
    as [(r' & _ & _ & H & _)|(_ & Ht & _)]; [by exists r'|].
  rewrite Hs in Ht. discriminate Ht.
Defined.

Lemma success_is_earned_witness :
  exists r l, t_jobs (in_store DemoCoordinator.finished) !! "j1" = Some r /\
    jr_state_version r =
      (1 + Z.of_nat (length (l ++ [Preparing; Transferring; Verifying; Committing; Succeeded])))%Z.
Proof.
  destruct (DemoCoordinator.demo_row DemoCoordinator.finished jr_state "succeeded") as (r & Hr & Hs);
    [vm_compute; reflexivity|].
  destruct (@success_is_earned DemoSha.sha DemoCoordinator.show_coordinator
              DemoCoordinator.show_persistence unit DemoCoordinator.library DemoCoordinator.config
              DemoCoordinator.start DemoCoordinator.enqueued DemoCoordinator.finished "j1" r)
    as (l & _ & Hv).
  - apply DemoCoordinator.start_inv.
  - reflexivity.
  - split; [apply DemoCoordinator.enqueue_step|]. eexists. vm_compute. reflexivity.
  - apply DemoCoordinator.obey_all_kept. vm_compute. reflexivity.
  - exact Hr.
  - exact Hs.
  - exists r, l. by split.
Defined.
