(* ===== verification/CoordinatorOps.v ===== *)
(** * CoordinatorOps: every public operation is a sequence of critical sections

[steps c] says that running [c] performs critical sections and nothing
else; it is closed under the constructs the handlers are built from, so the
invariants of [CoordinatorRuns] hold of every handler, whatever the other
threads do between its sections.  Then what single operations guarantee:
stale commands, dismissal, recovery. *)

From Stdlib Require Import NArith ZArith Lia Ascii String.
From stdpp Require Import base numbers list strings gmap relations sorting.
From S2P Require Import Prelude Domain Device Schema Aggregate Queue Scheduler Files Journal.
From S2P Require Import Artifact Progress Download TransferStore StoreProofs Reload Fault Tracking.
From S2P Require Import Coordinator CoordinatorProofs CoordinatorRuns.

Local Open Scope string_scope.

Section operations.
Context {SHA : Sha256} {DE : Display DownloadError} {CE : Display CoordinatorError}
  {VE : Display VerifyError} {PE : Display PersistenceError}.
Context {L : Type} {SL : SessionLibrary L} (config : CoordinatorConfig) {ENV : Environment}.
Implicit Types w : Inner L.

Abbreviation runs := (rtc (section_step config)).

Definition steps {E A : Type} (c : sm (Inner L) E A) : Prop := forall w, runs w (c w).1.

Lemma steps_ret {E A : Type} (a : A) : steps (E := E) (sret a).
Proof. intros w. apply rtc_refl. Qed.

Lemma steps_fail {E A : Type} (e : E) : steps (A := A) (sfail e).
Proof. intros w. apply rtc_refl. Qed.

Lemma steps_lift {E A : Type} (c : result E A) : steps (slift c).
Proof. intros w. apply rtc_refl. Qed.

Lemma steps_bind {E A B : Type} (c : sm (Inner L) E A) (k : A -> sm (Inner L) E B) :
  steps c -> (forall a, steps (k a)) -> steps (sbind c k).
Proof.
  intros Hc Hk w. specialize (Hc w). unfold sbind. destruct (c w) as [w' [a|e]]; [|done].
  etrans; [exact Hc|apply Hk].
Qed.

Lemma steps_get {E B : Type} (k : Inner L -> sm (Inner L) E B) :
  (forall w, runs w (k w w).1) -> steps (sbind sget k).
Proof. intros Hk w. rewrite get_bind. apply Hk. Qed.

Lemma runs_calm w w' : calm w w' -> runs w w'.
Proof. intros. by apply rtc_once, ss_calm. Qed.

Lemma steps_calm {E : Type} (f : Inner L -> Inner L) : (forall w, calm w (f w)) -> steps (E := E) (upd f).
Proof. intros Hf w. apply runs_calm, Hf. Qed.

Lemma steps_on_error {E A : Type} (c : sm (Inner L) E A) (h : E -> Inner L -> Inner L) :
  steps c -> (forall e w, calm w (h e w)) -> steps (on_error c h).
Proof.
  intros Hc Hh w. specialize (Hc w). unfold on_error. destruct (c w) as [w' [a|e]]; [done|].
  etrans; [exact Hc|]. apply runs_calm, Hh.
Qed.

Lemma steps_caught {A : Type} (c : sm (Inner L) CoordinatorError A) : steps c -> steps (caught c).
Proof.
  intros Hc w. specialize (Hc w). unfold caught. destruct (c w) as [w' [a|e]]; [done|]. by destruct e.
Qed.

Lemma calm_transition_fault id e w : calm w (transition_fault id e w).
Proof. apply calm_fault. Qed.

Lemma calm_device_snapshot dev w : calm w (device_snapshot dev w).1.
Proof. unfold device_snapshot. destruct (device_port _ _). apply calm_observation. Qed.

Lemma calm_track_put id t w :
  t_jobs (tw_db t) = t_jobs (in_store w) -> (store_inv (in_store w) -> store_inv (tw_db t)) ->
  calm w (track_put id t w).
Proof.
  intros Hj Hi. unfold track_put.
  etrans; [apply (calm_alter_control (fun _ => tw_control t) id)|].
  etrans; [|apply calm_progress]. by apply calm_store.
Qed.

(** ** Commands *)

Lemma begin_rest id command expected w w' o rest :
  apply_begin config id command expected w = (w', Ok (o, Some rest)) -> forallb is_quiet rest = true.
Proof.
  unfold apply_begin. rewrite get_bind. intros (c & _ & H)%lift_bind_ok.
  apply lift_bind_ok in H as (k & _ & H). apply lift_bind_ok in H as (a & _ & H).
  apply sbind_ok in H as (w1 & u & _ & H). assert (Hq := decide_await a command).
  unfold await_quiet in Hq.
  destruct (outcome _) as [| |reason]; [| |by apply sfail_ok in H];
    destruct (split_await _) as [now rest']; apply sbind_ok in H as (w2 & u2 & _ & H);
    apply sret_ok in H as [_ [= _ ->]]; done.
Qed.

Lemma steps_apply_checked id command expected : steps (apply_checked config id command expected).
Proof.
  intros w. unfold apply_checked, sbind at 1.
  assert (Hb : section_step config w (apply_begin config id command expected w).1) by apply ss_begin.
  destruct (apply_begin config id command expected w) as [w1 [[o [rest|]]|e]] eqn:Eb;
    [|by apply rtc_once..].
  etrans; [by apply rtc_once|]. cbv beta iota. rewrite get_bind.
  destruct (is_active w1 id); [apply rtc_refl|]. apply begin_rest in Eb.
  assert (Hf := ss_finish config w1 ENV id rest Eb). unfold sbind.
  destruct (apply_finish config id rest w1) as [w2 [u|e]]; by apply rtc_once.
Qed.

Lemma steps_apply id command : steps (apply config id command).
Proof. apply steps_apply_checked. Qed.

Lemma steps_worker_report id report : steps (worker_report config id report).
Proof. apply steps_on_error; [apply steps_apply|intros; apply calm_transition_fault]. Qed.

Lemma steps_observe_device id dev : steps (observe_device config id dev).
Proof.
  intros w. unfold observe_device. rewrite get_bind.
  assert (Hc := calm_device_snapshot dev w). destruct (device_snapshot dev w) as [w' s].
  etrans; [apply runs_calm, Hc|]. unfold sbind at 1, sput.
  apply (steps_bind (apply config id (DeviceObserved s)) (fun _ => sret (readiness s)));
    [apply steps_apply|intros; apply steps_ret].
Qed.

(** ** Handlers of user commands *)

Lemma steps_cancel_phase id command : steps (cancel_phase config id command).
Proof.
  intros w. assert (Ha := steps_apply id command w). unfold cancel_phase.
  destruct (apply config id command w) as [w' [o|e]]; [done|]. destruct e; try done. by case_match.
Qed.

Lemma steps_cancel id : steps (cancel config id).
Proof.
  apply steps_bind; [apply steps_cancel_phase|]. intros [|]; [apply steps_ret|].
  apply steps_bind; [apply steps_cancel_phase|]. intros ?. apply steps_ret.
Qed.

Lemma steps_retry id : steps (retry config id).
Proof.
  apply steps_get. intros w. apply (steps_bind (apply config id Retry)); [apply steps_apply|].
  intros _ w'. apply rtc_once, ss_spawn.
Qed.

(** A dismissal that is accepted changed nothing yet: the job is terminal and
    no worker owns it. *)
Lemma apply_dismiss_ok id w w' o :
  apply config id Dismiss w = (w', Ok o) ->
  w' = w /\ exists j, in_jobs w !! id = Some j /\ is_terminal (mj_state j) = true /\
    is_active w id = false.
Proof.
  unfold apply, apply_checked. intros (w1 & [o1 rest] & H1 & H2)%sbind_ok.
  unfold apply_begin in H1. rewrite get_bind in H1. apply lift_bind_ok in H1 as (c & _ & H1).
  apply lift_bind_ok in H1 as (k & _ & H1). apply lift_bind_ok in H1 as (a & Ha & H1).
  unfold load_aggregate in Ha. apply rbind_ok in Ha as (j & Hj%ok_or_ok & [= <-]).
  apply sbind_ok in H1 as (w2 & u & [-> _]%sret_ok & H1). cbn in H1. unfold decide_dismiss in H1.
  simpl in H1. destruct (is_terminal (mj_state j)) eqn:Et; [|by apply sfail_ok in H1]. cbn in H1.
  injection H1 as <- <- <-. rewrite get_bind in H2.
  destruct (is_active w id) eqn:Eact; [by apply sfail_ok in H2|]. cbn in H2. injection H2 as <- <-.
  split; [done|]. by exists j.
Qed.

Lemma steps_dismiss id : steps (dismiss config id).
Proof.
  apply steps_get. intros w. apply (steps_bind (slift (job_of w id))); [apply steps_lift|].
  intros _ w0. assert (Ha := steps_apply id Dismiss w0). unfold sbind.
  destruct (apply config id Dismiss w0) as [w1 [o|e]] eqn:Ed; [|done].
  apply apply_dismiss_ok in Ed as (-> & j & Hj & Ht & _). apply rtc_once. by eapply ss_dismiss.
Qed.

Lemma steps_dismiss_runtime id : steps (dismiss_runtime config id).
Proof.
  apply steps_get. intros w.
  apply (steps_bind (slift (validate_dismissal id w))); [apply steps_lift|].
  intros _. apply steps_bind; [apply steps_apply|]. intros _ w1. apply rtc_once, ss_forget.
Qed.

Lemma steps_enqueue request : steps (enqueue config request).
Proof.
  apply steps_bind; [apply steps_lift|]. intros spec w. apply rtc_once, ss_enqueue.
Qed.

Lemma steps_enqueue_with_spec request spec : steps (enqueue_with_spec config request spec).
Proof.
  apply steps_bind; [apply steps_lift|]. intros _ w. apply rtc_once, ss_enqueue.
Qed.

Lemma steps_recover : steps (recover_on_startup config).
Proof. intros w. apply rtc_once, ss_recover. Qed.

Lemma calm_begin_shutdown w : calm w (begin_shutdown w).
Proof.
  unfold begin_shutdown. etrans; [|apply calm_queue]. etrans; [apply (calm_shutdown true)|].
  split; try done. intros id. cbn. by rewrite lookup_fmap, fmap_is_Some.
Qed.

(** ** The worker *)

(** Tracked traffic writes ledger rows and nothing else durable. *)
Definition ledger_only (d d' : Db) : Prop := t_jobs d' = t_jobs d /\ (store_inv d -> store_inv d').

Lemma update_file_ledger_only id file status bytes sha now d :
  ledger_only d (update_file_ledger id file status bytes sha now d).1.
Proof.
  destruct (update_file_ledger id file status bytes sha now d) as [d' [u|e]] eqn:Eu; simpl.
  - split; [|intros Hi; by eapply update_file_ledger_inv].
    apply update_file_ledger_ok in Eu as (f & dg & _ & _ & _ & [|] & _ & Hw); [by simpl in Hw; subst|].
    by destruct Hw as [-> _].
  - by apply update_file_ledger_atomic in Eu as ->.
Qed.

Lemma tracking_read_only text now inner b t :
  ledger_only (tw_db t) (tw_db (tracking_read text now inner b t).1).
Proof.
  unfold tracking_read. destruct (jc_interrupt_flag _); [done|]. destruct inner as [n|]; [|done].
  destruct (0 <? n)%N; [|done]. unfold tracking_checkpoint. cbn [tb_threshold].
  destruct (_ <=? _)%N; [|done]. cbn [tb_job_id tb_file_id tb_offset tw_db].
  assert (Hu := update_file_ledger_only (tb_job_id b) (tb_file_id b) LPartial
                  (u64_add (tb_offset b) n) None now (tw_db t)).
  by destruct (update_file_ledger _ _ _ _ _ _ _) as [d' [u|e]].
Qed.

Lemma tracking_fetch_same job file threshold request answer t :
  tw_db (tracking_fetch_range job file threshold request answer t).1 = tw_db t.
Proof. unfold tracking_fetch_range. destruct (jc_interrupt_flag _); [done|]. by destruct answer. Qed.

Lemma calm_track_traffic id file traffic body w :
  calm w (track_traffic config id file traffic body w).1.
Proof.
  revert body w. induction traffic as [|[request answer|inner] traffic IH]; intros body w; [done| |].
  - cbn [track_traffic].
    assert (Hdb := tracking_fetch_same id file (cc_checkpoint_threshold_bytes config) request answer
                     (track_view w id)).
    destruct (tracking_fetch_range _ _ _ _ _ _) as [t [[resp b]|e]]; simpl in Hdb.
    + etrans; [|apply IH]. apply calm_track_put; by rewrite Hdb.
    + apply calm_track_put; by rewrite Hdb.
  - cbn [track_traffic]. destruct body as [b|]; [|done].
    assert (Hdb := tracking_read_only to_string now_string inner b (track_view w id)).
    destruct (tracking_read _ _ _ _ _) as [t [[b' n]|e]]; destruct Hdb as [Hj Hi].
    + etrans; [|apply IH]. by apply calm_track_put.
    + by apply calm_track_put.
Qed.

Lemma calm_device_readiness dev w : calm w (device_readiness dev w).1.
Proof.
  unfold device_readiness. assert (Hc := calm_device_snapshot dev w).
  by destruct (device_snapshot dev w).
Qed.

Lemma calm_pre_file id dev w : calm w (pre_file_interrupt_check id dev w).1.
Proof.
  unfold pre_file_interrupt_check. destruct (jc_interrupt_flag _); [done|].
  case_bool_decide; [done|]. assert (Hc := calm_device_readiness dev w).
  by destruct (device_readiness dev w).
Qed.

Lemma calm_transfer_file id request file w : calm w (transfer_file config id request file w).1.
Proof.
  unfold transfer_file. assert (Hp := calm_pre_file id (rq_device_id request) w).
  destruct (pre_file_interrupt_check _ _ _) as [w1 [o|]]; [done|]. simpl in Hp.
  destruct (make_source _ _ _) as [u|e]; [|by etrans; [|apply calm_fault]].
  destruct (download_into _ _ _) as [library [traffic verdict]].
  assert (Ht := calm_track_traffic id (jf_file_id file) traffic None (set_library library w1)).
  destruct (track_traffic _ _ _ _ _ _) as [w2 cut]. simpl in Ht.
  assert (H2 : calm w w2) by (etrans; [exact Hp|]; by etrans; [apply calm_library|]).
  destruct (match cut with Some e => Err e | None => verdict end) as [vf|e].
  - etrans; [exact H2|]. apply calm_progress.
  - destruct (is_interrupt_error e); [done|]. etrans; [exact H2|]. apply calm_fault.
Qed.

Lemma calm_transfer_files id request files verified w :
  calm w (transfer_files config id request files verified w).1.
Proof.
  revert verified w. induction files as [|f files IH]; intros verified w; [done|].
  cbn [transfer_files]. assert (Hf := calm_transfer_file id request f w).
  destruct (transfer_file _ _ _ _ _) as [w1 [vf|o]]; [|done]. etrans; [exact Hf|apply IH].
Qed.

Lemma calm_run_transfer id request w : calm w (run_transfer config id request w).1.
Proof.
  unfold run_transfer. destruct (open_staging _ _) as [library [u|e]].
  - etrans; [apply (calm_library library)|apply calm_transfer_files].
  - etrans; [apply (calm_library library)|apply calm_fault].
Qed.

Lemma calm_take_checkpoint id w : calm w (take_checkpoint id w).
Proof.
  unfold take_checkpoint. destruct (take_checkpoint_fault _) as [[detail|] control].
  - etrans; [apply (calm_alter_control (fun _ => control) id)|apply calm_fault].
  - apply calm_alter_control.
Qed.

Lemma calm_do_commit job w : calm w (do_commit job w).1.
Proof. unfold do_commit. destruct (commit_session _ _) as [library r]. apply calm_library. Qed.

Lemma steps_report_and_return id report : steps (report_and_return config id report).
Proof.
  apply steps_bind; [apply steps_caught, steps_worker_report|]. intros. apply steps_ret.
Qed.

Lemma steps_report_and_continue id report : steps (report_and_continue config id report).
Proof.
  apply steps_bind; [apply steps_caught, steps_worker_report|]. intros. apply steps_ret.
Qed.

Lemma steps_interrupted id reason : steps (interrupted_and_return config id reason).
Proof.
  apply steps_bind; [apply steps_calm; intros; apply calm_alter_control|].
  intros _. apply steps_report_and_return.
Qed.

(** [sput] of a calm successor. *)
Lemma runs_put {B : Type} (k : unit -> sm (Inner L) CoordinatorError B) w w' :
  calm w w' -> steps (k tt) -> runs w (sbind (sput w') k w).1.
Proof. intros Hc Hk. unfold sbind, sput. etrans; [apply runs_calm, Hc|apply Hk]. Qed.

Lemma steps_pass_transferring id request : steps (pass_transferring config id request).
Proof.
  apply steps_get. intros w. assert (Hr := calm_run_transfer id request w).
  destruct (run_transfer _ _ _ _) as [w1 o]. apply runs_put.
  { etrans; [exact Hr|apply calm_take_checkpoint]. }
  destruct o as [files| | | | | |code retryable];
    [| |apply steps_interrupted|apply steps_interrupted|apply steps_interrupted
     |apply steps_interrupted|].
  - apply steps_bind; [|intros _; apply steps_report_and_continue].
    apply steps_calm. intros w0. by apply calm_alter_job.
  - apply steps_bind; [apply steps_calm; intros; apply calm_alter_control|]. intros _.
    apply steps_get. intros w2. assert (Hd := calm_device_readiness (rq_device_id request) w2).
    destruct (device_readiness _ w2) as [w3 r]. apply runs_put; [done|]. apply steps_report_and_return.
  - apply steps_report_and_return.
Qed.

Lemma steps_process_pass id : steps (process_pass config id).
Proof.
  apply steps_get. intros w. destruct (in_jobs w !! id) as [job|]; [|apply rtc_refl].
  assert (Hobs : forall (not_ready : DeviceReadiness -> sm (Inner L) CoordinatorError bool),
    (forall r, steps (not_ready r)) ->
    steps (if bool_decide (mj_desired_run_state job = Paused) then sret false else
           let! r := caught (observe_device config id (rq_device_id (mj_request job))) in
           match r with
           | Err e => do! upd (transition_fault id e) then! sret false
           | Ok Ready => sret true
           | Ok other => not_ready other
           end)).
  { intros not_ready Hn. case_bool_decide; [apply steps_ret|].
    apply steps_bind; [apply steps_caught, steps_observe_device|].
    intros [[| | |]|e]; [apply steps_ret|apply Hn..|].
    apply steps_bind; [apply steps_calm; intros; apply calm_transition_fault|intros; apply steps_ret]. }
  assert (Hsched : steps (E := CoordinatorError) (do! upd (schedule_job config id) then! sret false)).
  { apply steps_bind; [apply steps_calm; intros; apply calm_schedule|intros; apply steps_ret]. }
  assert (Hq : forall r, steps (match r with
                               | WaitDevice | WaitPairing => do! upd (schedule_job config id) then! sret false
                               | _ => sret false
                               end)) by (intros []; [apply steps_ret|exact Hsched..|apply steps_ret]).
  assert (Hstay : forall r : DeviceReadiness, steps (E := CoordinatorError) (sret false))
    by (intros; apply steps_ret).
  destruct (mj_state job).
  - exact (Hobs _ Hq w).
  - exact (Hobs _ Hstay w).
  - exact (Hobs _ Hstay w).
  - exact (Hobs _ Hstay w).
  - destruct (verify_request_publication _); [apply steps_report_and_continue|apply steps_report_and_return].
  - apply steps_pass_transferring.
  - apply steps_report_and_continue.
  - assert (Hc := calm_do_commit job w). destruct (do_commit job w) as [w1 r].
    apply runs_put; [done|]. destruct r as [u|[code retryable]]; apply steps_report_and_return.
  - exact (Hobs _ Hq w).
  - apply steps_interrupted.
  - apply rtc_refl.
  - apply rtc_refl.
  - apply rtc_refl.
Qed.

Lemma runs_process_loop fuel id w w' r :
  process_loop config fuel id w = Some (w', r) -> runs w w'.
Proof.
  revert w. induction fuel as [|fuel IH]; intros w; [done|]. cbn [process_loop].
  assert (Hp := steps_process_pass id w).
  destruct (process_pass config id w) as [w1 [[|]|e]]; [|by intros [= <- _]..].
  intros H. etrans; [exact Hp|by apply IH].
Qed.

Lemma runs_process_job fuel id w w' r : process_job config fuel id w = Some (w', r) -> runs w w'.
Proof.
  unfold process_job. destruct (in_jobs w !! id) as [job|]; [|intros [= <- _]; apply rtc_refl].
  destruct (try_acquire _ _ _) as [held|]; [|intros [= <- _]; apply rtc_refl].
  destruct (process_loop _ _ _ _) as [[w1 r1]|] eqn:Ep; [|done]. intros [= <- _].
  etrans; [apply runs_calm, (calm_leases held)|].
  etrans; [by eapply runs_process_loop|]. apply runs_calm, calm_leases.
Qed.

Lemma runs_after_panic id detail w : runs w (after_panic config id detail w).
Proof.
  unfold after_panic. etrans; [apply runs_calm, calm_fault|].
  assert (Hr := steps_worker_report id (WorkerPanicked detail) (record_fault
      (mkFault (Some id) FkWorkerPanic FcLocalIo detail) w)).
  destruct (worker_report _ _ _ _) as [w1 [o|e]]; (etrans; [exact Hr|]); apply runs_calm.
  - apply calm_alter_control.
  - etrans; [apply calm_fault|apply calm_alter_control].
Qed.

Lemma runs_worker_turn fuel w w' : worker_turn config fuel w = Some w' -> runs w w'.
Proof.
  unfold worker_turn. destruct (claim_iter _ _) as [q step]. intros H.
  etrans; [apply runs_calm, (calm_queue q)|]. destruct step as [[id|]|]; [|by injection H as <-..].
  destruct (in_controls (set_queue q w) !! id ≫= try_claim) as [control|]; [|by injection H as <-].
  etrans; [apply runs_calm, (calm_alter_control (fun _ => control) id)|].
  destruct (in_shutdown _).
  { injection H as <-. apply runs_calm. etrans; apply calm_alter_control. }
  destruct (process_job _ _ _ _) as [[w1 [u|e]]|] eqn:Ep; [| |done]; injection H as <-;
    (etrans; [by eapply runs_process_job|]).
  - apply runs_calm, calm_alter_control.
  - etrans; [apply runs_after_panic|]. apply runs_calm, calm_alter_control.
Qed.

(** ** The dispatcher *)

Lemma runs_tick_job id w : runs w (tick_job config id w).
Proof.
  unfold tick_job. destruct (in_jobs w !! id) as [job|]; [|apply rtc_refl].
  destruct (is_terminal _); [apply rtc_refl|]. case_match; [apply rtc_refl|].
  destruct (in_controls w !! id) as [control|]; [|apply rtc_refl].
  destruct (_ && _); [apply rtc_refl|].
  assert (Ho := steps_observe_device id (rq_device_id (mj_request job)) w).
  assert (Hoffer : forall b w0, runs w0 (if b : bool then schedule_job config id w0 else w0)).
  { intros [|] w0; [apply runs_calm, calm_schedule|apply rtc_refl]. }
  destruct (jc_active control).
  { destruct (observe_device _ _ _ _) as [w1 [r|e]]; [done|]. etrans; [exact Ho|].
    apply runs_calm, calm_transition_fault. }
  case_bool_decide; [apply rtc_refl|]. destruct (awaits_readiness _); [|apply Hoffer].
  destruct (observe_device _ _ _ _) as [w1 [r|e]]; (etrans; [exact Ho|]); [apply Hoffer|].
  apply runs_calm, calm_transition_fault.
Qed.

Lemma runs_tick w : runs w (tick config w).
Proof.
  unfold tick. generalize (map_to_list (in_jobs w)).*1 as ids. intros ids. revert w.
  induction ids as [|id ids IH]; intros w; [apply rtc_refl|]. simpl.
  etrans; [apply runs_tick_job|apply IH].
Qed.

(** ** Every public operation *)

Inductive Operation :=
| PEnqueue (request : TransferRequest)
| PEnqueueWithSpec (request : TransferRequest) (spec : JobSpec)
| PCommand (id : string) (command : JobCommand) (expected : option N)
| PCancel (id : string)
| PRetry (id : string)
| PDismiss (id : string)
| PDismissRuntime (id : string)
| PRecover
| PTick
| PWorkerTurn (fuel : nat)
| PShutdown.

(** The state after an operation; [None] when a worker's fuel ran out. *)
Definition run_operation (op : Operation) w : option (Inner L) :=
  match op with
  | PEnqueue request => Some (enqueue config request w).1
  | PEnqueueWithSpec request spec => Some (enqueue_with_spec config request spec w).1
  | PCommand id command expected => Some (apply_checked config id command expected w).1
  | PCancel id => Some (cancel config id w).1
  | PRetry id => Some (retry config id w).1
  | PDismiss id => Some (dismiss config id w).1
  | PDismissRuntime id => Some (dismiss_runtime config id w).1
  | PRecover => Some (recover_on_startup config w).1
  | PTick => Some (tick config w)
  | PWorkerTurn fuel => worker_turn config fuel w
  | PShutdown => Some (begin_shutdown w)
  end.

(** Every public operation of the coordinator, a dispatcher pass and a
    whole turn of a worker included, is a sequence of the critical sections
    that the interleaving theorems quantify over, whatever it returns; run
    alone it takes every consistent coordinator to a consistent one. *)
Theorem operations_are_sections op w w' :
  run_operation op w = Some w' ->
  rtc (section_step config) w w' /\ (coord_inv w -> coord_inv w').
Proof.
  assert (Hall : run_operation op w = Some w' -> runs w w').
  { destruct op; simpl; try (intros [= <-]).
    - apply steps_enqueue.
    - apply steps_enqueue_with_spec.
    - apply steps_apply_checked.
    - apply steps_cancel.
    - apply steps_retry.
    - apply steps_dismiss.
    - apply steps_dismiss_runtime.
    - apply steps_recover.
    - apply runs_tick.
    - apply runs_worker_turn.
    - apply runs_calm, calm_begin_shutdown. }
  intros Hrun. specialize (Hall Hrun). split; [done|]. by apply sections_inv with (config := config).
Qed.

(** ** Versioned commands *)

Lemma stale_command id c j k v command w :
  in_cells w !! id = Some c -> in_controls w !! id = Some k -> in_jobs w !! id = Some j ->
  v <> cl_version c ->
  command_if_unchanged config id v command w = (w, Err (CeStale id v (cl_version c))).
Proof.
  intros Hc Hk Hj Hne. unfold command_if_unchanged, apply_checked, apply_begin.
  unfold sbind at 1. rewrite get_bind. unfold cell_of. erewrite lift_run by (by rewrite Hc).
  unfold control_of. erewrite lift_run by (by rewrite Hk).
  unfold load_aggregate, job_of. erewrite lift_run by (by rewrite Hj). cbn [ag_version].
  by destruct (N.eqb_spec v (cl_version c)).
Qed.

(** A versioned command acts on exactly the state its caller saw, or
    on nothing: after a snapshot, whatever other threads did (while the row
    was not removed), a command carrying the snapshot's version either finds
    the job at that version, and then in the very state of the snapshot, or is
    refused as stale and changes nothing. *)
Theorem versioned_command_sees_snapshot w0 w1 id s j c command :
  coord_inv w0 -> job_snapshot w0 id = Some s -> rtc (kept config id) w0 w1 ->
  in_jobs w1 !! id = Some j -> in_cells w1 !! id = Some c ->
  (cl_version c = js_version s /\ mj_state j = js_state s) \/
  (js_version s < cl_version c)%N /\
  command_if_unchanged config id (js_version s) command w1
  = (w1, Err (CeStale id (js_version s) (cl_version c))).
Proof.
  intros Hw0 Hs Hrun Hj Hc. unfold job_snapshot in Hs.
  apply bind_Some in Hs as (c0 & Hc0 & (j0 & Hj0 & [= <-])%bind_Some). cbn [js_version js_state].
  destruct (ci_rows w0 Hw0 id j0 Hj0) as (r0 & c0' & Hr0 & Hc0' & [Hs0 Hv0 _]).
  rewrite Hc0 in Hc0'. injection Hc0' as <-.
  destruct (kept_moves config id w0 w1 r0 Hw0 Hrun Hr0) as (Hw1 & r1 & Hr1 & st & hops & H1 & H2 & _ & Hv).
  destruct (ci_rows w1 Hw1 id j Hj) as (r1' & c' & Hr1' & Hc' & [Hs1 Hv1 _]).
  rewrite Hr1 in Hr1'. injection Hr1' as <-. rewrite Hc in Hc'. injection Hc' as <-.
  rewrite Hs0 in H1. injection H1 as <-. rewrite Hs1 in H2. injection H2 as H2.
  destruct hops as [|x hops].
  - left. simpl in *. split; [lia|done].
  - right. simpl in Hv. split; [lia|]. destruct (proj2 (ci_controls w1 Hw1 id)) as [k Hk]; [by eauto|].
    apply (stale_command _ _ j k); [done..|lia].
Qed.

(** ** Dismissal *)

Lemma validate_dismissal_spec id w u :
  validate_dismissal id w = Ok u <->
  exists j c, in_jobs w !! id = Some j /\ is_terminal (mj_state j) = true /\
    read_completion (in_store w) id = Ok (Some c) /\ is_acknowledged c = true.
Proof.
  destruct u. unfold validate_dismissal, job_of.
  destruct (in_jobs w !! id) as [j|]; simpl; [|naive_solver].
  destruct (is_terminal (mj_state j)) eqn:Et; simpl.
  2:{ split; [done|]. intros (j' & c & [= <-] & ? & _). congruence. }
  destruct (read_completion (in_store w) id) as [[c|]|e]; simpl;
    [|split; [done|by intros (? & ? & _ & _ & [=] & _)]..].
  destruct (is_acknowledged c) eqn:Ea; [|].
  - split; [|done]. intros _. by exists j, c.
  - split; [done|]. intros (? & ? & _ & _ & [= <-] & ?). congruence.
Qed.

Lemma apply_dismiss_err id w w' e : apply config id Dismiss w = (w', Err e) -> w' = w.
Proof.
  unfold apply, apply_checked, apply_begin. unfold sbind at 1. rewrite get_bind.
  unfold cell_of, control_of, load_aggregate, job_of.
  destruct (in_cells w !! id) as [c|]; [|by intros [= <- _]]. erewrite lift_run by reflexivity.
  destruct (in_controls w !! id) as [k|]; [|by intros [= <- _]]. erewrite lift_run by reflexivity.
  destruct (in_jobs w !! id) as [j|]; [|by intros [= <- _]]. erewrite lift_run by reflexivity.
  unfold sbind at 1, sret at 1. cbn [JobAggregate_decide]. unfold decide_dismiss. cbn [ag_state].
  destruct (is_terminal (mj_state j)); [|by intros [= <- _]]. cbn.
  unfold sbind, sget. destruct (is_active w id); [by intros [= <- _]|done].
Qed.

(** Dismissal loses no outcome.  A job can be hidden exactly when it
    is terminal and its outcome was acknowledged; hiding it from the runtime
    changes only the maps of the coordinator and leaves the durable record
    untouched; a physical dismissal happens only to a terminal job that no
    worker owns and whose outcome, if any, was acknowledged, and then removes
    the row and the memory together.  A refused physical dismissal removes
    nothing. *)
Theorem dismissal_keeps_outcomes id w :
  (forall u, validate_dismissal id w = Ok u <->
     exists j c, in_jobs w !! id = Some j /\ is_terminal (mj_state j) = true /\
       read_completion (in_store w) id = Ok (Some c) /\ is_acknowledged c = true) /\
  (forall w' u, dismiss_runtime config id w = (w', Ok u) ->
     w' = forget id w /\ is_active w id = false /\ validate_dismissal id w = Ok tt) /\
  (forall w' u, dismiss config id w = (w', Ok u) ->
     exists j, in_jobs w !! id = Some j /\ is_terminal (mj_state j) = true /\
       is_active w id = false /\
       (forall c, read_completion (in_store w) id = Ok (Some c) -> is_acknowledged c = true) /\
       t_jobs (in_store w') !! id = None /\ in_jobs w' !! id = None /\ in_cells w' !! id = None) /\
  (forall w' e, dismiss config id w = (w', Err e) -> in_store w' = in_store w /\ in_jobs w' = in_jobs w).
Proof.
  split_and!.
  - intros u. apply validate_dismissal_spec.
  - intros w' u. unfold dismiss_runtime. rewrite get_bind.
    intros ([] & Hv & H)%lift_bind_ok. apply sbind_ok in H as (w1 & o & Ha & [= <- _]).
    apply apply_dismiss_ok in Ha as (-> & j & _ & _ & Hact). done.
  - intros w' u. unfold dismiss. rewrite get_bind. intros (j & Hj & H)%lift_bind_ok.
    apply sbind_ok in H as (w1 & o & Ha & H).
    apply apply_dismiss_ok in Ha as (-> & j' & Hj' & Ht & Hact).
    unfold dismiss_removal, sbind, on_store, serr in H.
    destruct (delete_job id (in_store w)) as [d [b|e]] eqn:Ed; [|done]. injection H as <- _.
    exists j'. assert (Hdel := delete_job_ok _ _ _ _ Ed). destruct Hdel as [Hack Hrow].
    split_and!; [done|done|done|done| |apply lookup_delete_eq|apply lookup_delete_eq].
    unfold delete_job_row in Hrow. simpl.
    destruct (t_jobs (in_store w) !! id) eqn:Er; [|by injection Hrow as <- _].
    destruct (negb _); [done|]. injection Hrow as <- _. apply lookup_delete_eq.
  - intros w' e. unfold dismiss. rewrite get_bind. unfold sbind at 1, slift.
    destruct (job_of w id) as [j|e0]; [|by intros [= <- _]]. unfold sbind at 1.
    destruct (apply config id Dismiss w) as [w1 [o|e1]] eqn:Ea.
    + apply apply_dismiss_ok in Ea as (-> & _). unfold dismiss_removal, sbind, on_store, serr.
      destruct (delete_job id (in_store w)) as [d [b|e2]] eqn:Ed; [done|]. intros [= <- _].
      split; [|done]. by eapply atomic_transaction.
    + apply apply_dismiss_err in Ea as ->. by intros [= <- _].
Qed.

(** ** Recovery *)

Definition ready_id (r : RecoverableJob) : option JobId :=
  match r with RjReady job _ _ => Some (sj_job_id job) | RjBlocked _ => None end.

(** What recovery installs for a ready row. *)
Definition recovered (w : Inner L) (job : StoredJob) (spec : JobSpec) : Prop :=
  exists state, tag_to_state (sj_state job) (sj_error job) = Some state /\
    in_jobs w !! sj_job_id job =
      Some (mkManaged (sj_job_id job) (request_from_spec spec) state (publication_scope spec)
              (sj_desired_run_state job) []).

Definition faulted (w : Inner L) (id : string) : Prop :=
  exists f, f ∈ in_faults w /\ cf_job_id f = Some id.

(** A job the dispatcher will run: it is in the ready set, or its refusal was
    recorded. *)
Definition offered (w : Inner L) (id : string) : Prop :=
  is_scheduled (in_queue w) id = true \/ faulted w id.

Record extends (w w' : Inner L) : Prop := {
  ex_store : in_store w' = in_store w;
  ex_faults : forall f, f ∈ in_faults w -> f ∈ in_faults w';
  ex_ready : forall id, is_scheduled (in_queue w) id = true -> is_scheduled (in_queue w') id = true;
}.

#[global] Instance extends_preorder : PreOrder extends.
Proof.
  split; [by split|]. intros w1 w2 w3 [A1 B1 C1] [A2 B2 C2]. split; [congruence|auto..].
Qed.

Lemma extends_faulted w w' id : extends w w' -> faulted w id -> faulted w' id.
Proof. intros [_ Hf _] (f & Hin & Hid). exists f. auto. Qed.

Lemma extends_offered w w' id : extends w w' -> offered w id -> offered w' id.
Proof. intros He [Hs|Hf]; [left; by apply (ex_ready _ _ He)|right; by eapply extends_faulted]. Qed.

Lemma schedule_job_offers id w :
  extends w (schedule_job config id w) /\ offered (schedule_job config id w) id /\
  in_jobs (schedule_job config id w) = in_jobs w.
Proof.
  unfold schedule_job, schedule. destruct (q_stopped (in_queue w)).
  { split_and!; [split; simpl; [done|set_solver|done]| |done]. right.
    eexists. split; [simpl; apply elem_of_app; right; by left|done]. }
  case_decide as Hin.
  { split_and!; [by split| |done]. left. by apply bool_decide_eq_true. }
  destruct (_ <=? _)%nat.
  - split_and!; [split; simpl; [done|set_solver|done]| |done]. right.
    eexists. split; [simpl; apply elem_of_app; right; by left|done].
  - split_and!; [split; simpl; [done|done|]| |done].
    + intros k. unfold is_scheduled. simpl. rewrite !bool_decide_eq_true. set_solver.
    + left. unfold is_scheduled. simpl. apply bool_decide_eq_true. set_solver.
Qed.

Lemma recover_one_ready job spec ledger w :
  store_inv (in_store w) -> read_job (in_store w) (sj_job_id job) = Ok (Some job) ->
  exists w', recover_one config (RjReady job spec ledger) w = (w', Ok [sj_job_id job]) /\
    extends w w' /\ recovered w' job spec /\
    (tag_is_terminal (sj_state job) = false -> sj_desired_run_state job = Run ->
     offered w' (sj_job_id job)) /\
    (forall id, id <> sj_job_id job -> in_jobs w' !! id = in_jobs w !! id).
Proof.
  intros Hinv (r & Hr & Hrow)%read_job_ok. assert (Hst := read_row_state _ _ _ Hrow).
  destruct Hst as (_ & Hst & _ & _).
  destruct (row_state_total r) as [state Hs]; [by apply (si_rows _ Hinv (sj_job_id job))|].
  rewrite Hst in Hs. unfold recover_one, rehydrate_stored, state_of_stored.
  eexists. unfold sbind, slift. rewrite Hs. cbn [ok_or upd]. split; [reflexivity|].
  assert (Hterm : is_terminal state = tag_is_terminal (sj_state job)).
  { rewrite <- (row_state_terminal r state) by (by rewrite Hst).
    apply read_job_row_ok in Hrow as (_ & _ & _ & -> & _). apply terminal_text_tag. }
  unfold rehydrate. rewrite Hterm. set (w1 := set_maps _ _ _ _).
  assert (H1 : extends w w1 /\ recovered w1 job spec /\
               forall id, id <> sj_job_id job -> in_jobs w1 !! id = in_jobs w !! id).
  { split_and!; [by split| |].
    - exists state. split; [done|]. simpl. by rewrite lookup_insert_eq.
    - intros id Hne. simpl. by rewrite lookup_insert_ne. }
  destruct H1 as (He1 & Hr1 & Ho1).
  destruct (schedule_job_offers (sj_job_id job) w1) as (He2 & Hoff & Hj2).
  destruct (negb _ && _) eqn:Ed.
  - split_and!; [by etrans| |done|by rewrite Hj2].
    destruct Hr1 as (s & ? & Hs1). exists s. by rewrite Hj2.
  - split_and!; [done|done| |done]. intros Hnt Hrun. rewrite Hnt, Hrun in Ed. done.
Qed.

Lemma recover_all_spec rows w :
  store_inv (in_store w) ->
  Forall (fun r => match r with
                   | RjReady job _ _ => read_job (in_store w) (sj_job_id job) = Ok (Some job)
                   | RjBlocked _ => True
                   end) rows ->
  NoDup (omap ready_id rows) ->
  exists w', recover_all config rows w = (w', Ok (omap ready_id rows)) /\ extends w w' /\
    (forall job spec ledger, RjReady job spec ledger ∈ rows ->
       recovered w' job spec /\
       (tag_is_terminal (sj_state job) = false -> sj_desired_run_state job = Run ->
        offered w' (sj_job_id job))) /\
    (forall b, RjBlocked b ∈ rows -> faulted w' (rb_job_id b)) /\
    (forall id, id ∉ omap ready_id rows -> in_jobs w' !! id = in_jobs w !! id).
Proof.
  revert w. induction rows as [|row rows IH]; intros w Hinv Hread Hnd.
  { exists w. split_and!; [done|done|set_solver|set_solver|done]. }
  apply Forall_cons in Hread as [Hrow Hread]. cbn [recover_all].
  destruct row as [job spec ledger|b].
  - simpl in Hnd. apply NoDup_cons in Hnd as [Hni Hnd].
    destruct (recover_one_ready job spec ledger w Hinv Hrow) as (w1 & H1 & He1 & Hr1 & Hoff1 & Ho1).
    destruct (IH w1) as (w2 & H2 & He2 & Hr2 & Hb2 & Ho2); [by rewrite (ex_store _ _ He1)..|done|].
    exists w2. unfold sbind. rewrite H1, H2. split_and!; [done|by etrans| |set_solver|].
    + intros job' spec' ledger' [[= -> -> ->]|Hin]%elem_of_cons; [|by eapply Hr2].
      split; [|intros ? ?; by eapply extends_offered; [|apply Hoff1]].
      destruct Hr1 as (s & Hs & Hj). exists s. split; [done|]. by rewrite Ho2.
    + simpl. intros id [Hne Hni2]%not_elem_of_cons. by rewrite Ho2, Ho1.
  - simpl in Hnd.
    set (w1 := record_fault (mkFault (Some (rb_job_id b)) FkTransition FcLocalIo
                 ("durable transfer job is blocked: " ++ rb_job_id b)) w).
    destruct (IH w1) as (w2 & H2 & He2 & Hr2 & Hb2 & Ho2); [done..|].
    assert (He1 : extends w w1) by (split; simpl; [done|set_solver|done]).
    exists w2. unfold recover_one, upd, sbind, sret. fold w1. cbv beta iota. rewrite H2.
    split_and!; [done|by etrans| | |done].
    + intros job spec ledger [?|Hin]%elem_of_cons; [done|by eapply Hr2].
    + intros b' [[= ->]|Hin]%elem_of_cons; [|by apply Hb2].
      apply (extends_faulted w1); [done|].
      eexists. split; [simpl; apply elem_of_app; right; by left|done].
Qed.

Lemma ready_NoDup rows : NoDup (rj_job_id <$> rows) -> NoDup (omap ready_id rows).
Proof.
  intros Hnd. apply (sublist_NoDup _ (rj_job_id <$> rows)); [done|]. clear Hnd. induction rows as [|[job spec ledger|b] rows IH]; [done| |]; rewrite fmap_cons; simpl.
  - by apply sublist_skip.
  - by apply sublist_cons.
Qed.

(** Restarting loses no unfinished download.  Recovery never fails
    over a consistent store: it enumerates the unfinished rows, returns the ids
    of the ready ones in creation order and leaves the store untouched; each
    of them is then managed with the files of its durable specification, the
    state and the intent of its row; each one the user wants to run is in the
    ready set, or the refusal of the full queue was recorded as a fault; each
    row that cannot be read is reported as a fault; no other job is disturbed,
    and memory agrees with the store. *)
Theorem recovery_installs_every_job w :
  coord_inv w ->
  exists rows w', list_recoverable_jobs (in_store w) = Ok rows /\
    recover_on_startup config w = (w', Ok (omap ready_id rows)) /\
    coord_inv w' /\ in_store w' = in_store w /\
    (forall job spec ledger, RjReady job spec ledger ∈ rows ->
       recovered w' job spec /\
       (tag_is_terminal (sj_state job) = false -> sj_desired_run_state job = Run ->
        offered w' (sj_job_id job))) /\
    (forall b, RjBlocked b ∈ rows -> faulted w' (rb_job_id b)) /\
    (forall id, id ∉ omap ready_id rows -> in_jobs w' !! id = in_jobs w !! id).
Proof.
  intros Hw. destruct (recovery_lists _ (ci_store w Hw)) as (rows & Hrows & Hnd & _).
  destruct (recover_all_spec rows w (ci_store w Hw) (recoverable_reads _ _ Hrows)
              (ready_NoDup _ Hnd)) as (w' & Hrun & He & Hr & Hb & Ho).
  assert (Hsame : recover_on_startup config w = (w', Ok (omap ready_id rows))).
  { unfold recover_on_startup. rewrite get_bind. by erewrite lift_run by (by rewrite Hrows). }
  exists rows, w'. split_and!; [done|done| |apply He|done|done|done].
  destruct (recover_sound config w Hw) as [Hw' _]. by rewrite Hsame in Hw'.
Qed.

End operations.

#[local] Existing Instance DemoSha.sha.
#[local] Existing Instance DemoCoordinator.show_download.
#[local] Existing Instance DemoCoordinator.show_coordinator.
#[local] Existing Instance DemoCoordinator.show_verify.
#[local] Existing Instance DemoCoordinator.show_persistence.
#[local] Existing Instance DemoCoordinator.library.
#[local] Existing Instance DemoCoordinator.environment.

(** A whole turn of a worker over the demo job. *)
Lemma operations_are_sections_witness :
  exists w', worker_turn DemoCoordinator.config 8 DemoCoordinator.enqueued = Some w' /\ coord_inv w'.
Proof.
  destruct (worker_turn DemoCoordinator.config 8 DemoCoordinator.enqueued) as [w'|] eqn:Erun.
  - exists w'. split; [reflexivity|].
    apply (proj2 (operations_are_sections DemoCoordinator.config (PWorkerTurn 8)
                    DemoCoordinator.enqueued w' Erun)).
    apply DemoCoordinator.enqueued_inv.
  - exfalso. assert (Hsome : bool_decide (is_Some (worker_turn DemoCoordinator.config 8 DemoCoordinator.enqueued)) = true)
      by (vm_compute; reflexivity).
    rewrite Erun in Hsome. discriminate Hsome.
Defined.

(** The snapshot of the queued job is stale once the device was seen ready. *)
Lemma versioned_command_sees_snapshot_witness :
  exists (s : JobSnapshot) (c : JobCell), job_snapshot DemoCoordinator.enqueued "j1" = Some s /\
    let w1 := foldl DemoCoordinator.obey DemoCoordinator.enqueued (take 1 DemoCoordinator.script) in
    command_if_unchanged DemoCoordinator.config "j1" (js_version s) Pause w1
    = (w1, Err (CeStale "j1" (js_version s) (cl_version c))).
Proof.
  destruct (job_snapshot DemoCoordinator.enqueued "j1") as [s|] eqn:Es.
  2:{ exfalso. assert (Hsome : bool_decide (is_Some (job_snapshot DemoCoordinator.enqueued "j1")) = true)
        by (vm_compute; reflexivity). rewrite Es in Hsome. discriminate Hsome. }
  assert (Hv : js_version s = 1%N).
  { assert (Hv : js_version <$> job_snapshot DemoCoordinator.enqueued "j1" = Some 1%N)
      by (vm_compute; reflexivity). rewrite Es in Hv. by injection Hv. }
  set (w1 := foldl DemoCoordinator.obey DemoCoordinator.enqueued (take 1 DemoCoordinator.script)).
  destruct (DemoCoordinator.job_of_run w1 mj_state Preparing) as (j & Hj & _); [vm_compute; reflexivity|].
  destruct (DemoCoordinator.cell_of_run w1 cl_version 2%N) as (c & Hc & Hcv); [vm_compute; reflexivity|].
  exists s, c. split; [reflexivity|].
  destruct (versioned_command_sees_snapshot DemoCoordinator.config
              DemoCoordinator.enqueued w1 "j1" s j c Pause
              DemoCoordinator.enqueued_inv Es) as [[Heq _]|[_ H]].
  - apply DemoCoordinator.obey_all_kept. vm_compute. reflexivity.
  - exact Hj.
  - exact Hc.
  - rewrite Hcv, Hv in Heq. discriminate Heq.
  - exact H.
Defined.

(** A coordinator that starts over a store with one unfinished job. *)
Lemma recovery_installs_every_job_witness :
  exists rows w', list_recoverable_jobs (DemoStore.run DemoStore.created) = Ok rows /\
    recover_on_startup DemoCoordinator.config (Inner_new (DemoStore.run DemoStore.created) tt)
    = (w', Ok (omap ready_id rows)) /\ coord_inv w'.
Proof.
  destruct (recovery_installs_every_job DemoCoordinator.config
              (Inner_new (DemoStore.run DemoStore.created) tt)
              (coord_inv_new _ tt (DemoStore.run_inv _))) as (rows & w' & H1 & H2 & H3 & _).
  exists rows, w'. split; [exact H1|]. split; [exact H2|exact H3].
Defined.
