(* ===== verification/CoordinatorLiveness.v ===== *)
(** * CoordinatorLiveness: what a worker left alone achieves

A worker turn with no other thread in between: with devices, sources and
disk that answer, a parked job is driven to a durable success; whatever they
answer, the worker's loop ends within a fixed number of passes; and a job no
worker owns can always be cancelled outside the commit window. *)

From Stdlib Require Import NArith ZArith Lia Ascii String.
From stdpp Require Import base numbers list strings gmap relations.
From S2P Require Import Prelude Domain Device Schema Aggregate Queue Scheduler Files Journal.
From S2P Require Import Artifact Progress Download TransferStore StoreProofs Reload Fault Tracking.
From S2P Require Import Coordinator CoordinatorProofs CoordinatorRuns CoordinatorOps.

Local Open Scope string_scope.

Section liveness.
Context {SHA : Sha256} {DE : Display DownloadError} {CE : Display CoordinatorError}
  {VE : Display VerifyError} {PE : Display PersistenceError}.
Context {L : Type} {SL : SessionLibrary L} (config : CoordinatorConfig) {ENV : Environment}.
Implicit Types w : Inner L.

(** ** A managed job at one stage of its run *)

(** Job [id], created for [request], is in state [s] at version [v]; the user
    wants it to run; its row can be read and one more outcome fits in the
    outbox. *)
Record staged w (id : string) (request : TransferRequest) (s : TransferJobState) (v : N) : Prop := {
  sg_inv : coord_inv w;
  sg_job : exists j, in_jobs w !! id = Some j /\ mj_request j = request /\ mj_state j = s /\
             mj_desired_run_state j = Run;
  sg_cell : exists c, in_cells w !! id = Some c /\ cl_version c = v;
  sg_row : exists r, t_jobs (in_store w) !! id = Some r /\ is_ok (read_job_row id r) = true;
  sg_room : is_terminal s = true \/ (t_outbox_seq (in_store w) + 1 <= Z.of_N i64_max)%Z;
}.

(** What a command leaves alone in the coordinator. *)
Record same_runtime w w' : Prop := {
  sr_controls : in_controls w' = in_controls w;
  sr_leases : in_leases w' = in_leases w;
  sr_library : in_library w' = in_library w;
}.

#[global] Instance same_runtime_preorder : PreOrder same_runtime.
Proof. split; [by split|]. intros a b c [] []. split; congruence. Qed.

Lemma staged_at w id request s v : staged w id request s v -> job_at w id s v.
Proof. intros [_ (j & Hj & _ & Hs & _) (c & Hc & Hv) _ _]. by exists j, c. Qed.

(** A calm change keeps the stage when it keeps the request, the row and the
    outbox. *)
Lemma staged_calm w w' id request s v :
  calm w w' ->
  mj_request <$> in_jobs w' !! id = mj_request <$> in_jobs w !! id ->
  t_outbox_seq (in_store w') = t_outbox_seq (in_store w) ->
  staged w id request s v -> staged w' id request s v.
Proof.
  intros Hc Hreq Hseq [Hi (j & Hj & Hr & Hs & Hd) (c & Hce & Hv) (r & Hrow & Hok) Hroom].
  assert (Hcs := Hc). destruct Hc as [Hrows _ Hjobs Hcells _].
  specialize (Hjobs id). specialize (Hcells id). rewrite Hj in Hjobs, Hreq. rewrite Hce in Hcells.
  destruct (in_jobs w' !! id) as [j'|] eqn:Ej; [|done].
  destruct (in_cells w' !! id) as [c'|] eqn:Ec; [|done]. simpl in *.
  injection Hjobs as H1 H2. injection Hcells as H3. injection Hreq as H4.
  split.
  - by apply (calm_sound w w' Hcs).
  - exists j'. rewrite H4, H1, H2. by split_and!.
  - exists c'. by rewrite H3.
  - exists r. by rewrite Hrows.
  - by rewrite Hseq.
Qed.

Lemma perform_commit_runs w id request s v to :
  staged w id request s v -> is_legal_transition s to = true -> (v + 1 <= i64_max)%N ->
  exists w', perform config id (Commit v to) w = (w', Ok tt) /\ staged w' id request to (v + 1) /\
    same_runtime w w'.
Proof.
  intros Hst Hlegal Hv. assert (Hat := staged_at _ _ _ _ _ Hst).
  destruct Hst as [Hi (j & Hj & Hreq & Hs & Hd) (c & Hc & Hcv) (r & Hrow & Hok) Hroom].
  destruct (ci_rows w Hi id j Hj) as (r0 & c0 & Hr0 & Hc0 & [Sst Sv _]).
  rewrite Hrow in Hr0. injection Hr0 as <-. rewrite Hc in Hc0. injection Hc0 as <-. rewrite Hs in Sst.
  destruct Hroom as [Ht|Hroom]; [by rewrite (legal_from_nonterminal _ _ Hlegal) in Ht|].
  destruct (read_job_row id r) as [job|] eqn:Ejob; [|done].
  assert (Hjv : sj_state_version job = v).
  { apply read_row_state in Ejob as (_ & _ & Hver & _). lia. }
  destruct (commit_durable_runs id v to (in_store w) r s job (ci_store w Hi) Hrow Sst Hlegal Ejob Hjv Hv Hroom)
    as [d Hd'].
  destruct (commit_durable_ok id v to _ d r s tt (ci_store w Hi) Hrow Sst Hlegal Hd')
    as (_ & r' & Hrows & Hcm & Hseq).
  assert (Hsound := perform_commit config id v to w s Hi Hat Hlegal).
  assert (Hperf : perform config id (Commit v to) w =
    (alter_cell (fun c => mkCell (u64_add v 1) (cl_observed_device_version c)) id
       (alter_job (job_with_state to) id (set_store d w)), Ok tt)).
  { unfold perform. rewrite get_bind. unfold cell_of. erewrite lift_run by (by rewrite Hc).
    rewrite Hcv, N.eqb_refl. cbv beta iota delta [negb].
    unfold sbind at 1, on_error, commit_transition, sbind at 1, on_store. by rewrite Hd'. }
  rewrite Hperf in Hsound. eexists. split; [exact Hperf|]. destruct Hsound as [Hsound Hat'].
  destruct (Hat' eq_refl) as (j' & c' & Hj' & Hc' & Hs' & Hv').
  split; [|by split]. split; [by apply Hsound| | | |].
  - exists (job_with_state to j). unfold alter_cell, alter_job. simpl.
    rewrite (alter_insert _ _ _ _ Hj), lookup_insert_eq. by split_and!.
  - by exists c'.
  - exists r'. simpl. rewrite Hrows, lookup_insert_eq. split; [done|].
    apply (cm_reads _ _ _ _ _ Hcm). by rewrite Ejob.
  - destruct (is_terminal to) eqn:Et; [by left|right]. simpl. by rewrite Hseq.
Qed.

(** ** Accepted commands *)

Lemma split_await_none es : existsb is_await es = false -> split_await es = (es, None).
Proof.
  induction es as [|e es IH]; [done|]. simpl. intros [He Hes]%orb_false_iff.
  rewrite (IH Hes). by destruct e.
Qed.

(** A command the reducer accepts, without a wait, runs its effects. *)
Lemma apply_runs id command w w' j c es :
  in_jobs w !! id = Some j -> in_cells w !! id = Some c -> is_Some (in_controls w !! id) ->
  JobAggregate_decide (mkAggregate (mj_state j) (cl_version c) (mj_desired_run_state j)
                         (cl_observed_device_version c)) command = accepted es ->
  existsb is_await es = false -> sforeach (perform config id) es w = (w', Ok tt) ->
  apply config id command w = (w', Ok Accepted).
Proof.
  intros Hj Hc [k Hk] Hd Hes Hrun. unfold apply, apply_checked, sbind at 1, apply_begin.
  rewrite get_bind. unfold cell_of. erewrite lift_run by (by rewrite Hc).
  unfold control_of. erewrite lift_run by (by rewrite Hk).
  unfold load_aggregate, job_of. erewrite lift_run by (by rewrite Hj).
  unfold sbind at 1, sret at 1. rewrite Hd. cbn [accepted outcome effects].
  rewrite (split_await_none es Hes). unfold sbind at 1. by rewrite Hrun.
Qed.

Lemma staged_maps w id request s v :
  staged w id request s v -> exists j c, in_jobs w !! id = Some j /\ in_cells w !! id = Some c /\
    is_Some (in_controls w !! id) /\ mj_request j = request /\ mj_state j = s /\
    mj_desired_run_state j = Run /\ cl_version c = v.
Proof.
  intros [Hi (j & Hj & Hr & Hs & Hd) (c & Hc & Hv) _ _]. exists j, c.
  split_and!; try done. apply (ci_controls w Hi). eauto.
Qed.

(** A stage report that the reducer accepts with one commit. *)
Lemma report_runs w id request s v report to :
  staged w id request s v -> is_legal_transition s to = true -> (v + 1 <= i64_max)%N ->
  (forall obs, decide_worker (mkAggregate s v Run obs) report = accepted [Commit v to]) ->
  exists w', worker_report config id report w = (w', Ok Accepted) /\ staged w' id request to (v + 1) /\
    same_runtime w w'.
Proof.
  intros Hst Hlegal Hv Hdec.
  destruct (staged_maps _ _ _ _ _ Hst) as (j & c & Hj & Hc & Hk & Hr & Hs & Hd & Hcv).
  destruct (perform_commit_runs w id request s v to Hst Hlegal Hv) as (w' & Hp & Hst' & Hsame).
  exists w'. split; [|done]. unfold worker_report, on_error.
  rewrite (apply_runs id (Worker report) w w' j c [Commit v to]); try done.
  - rewrite Hs, Hcv, Hd. apply Hdec.
  - by rewrite sforeach_one.
Qed.

(** ** A ready device starts a parked job *)

Lemma observation_starts s v obs n conn cap :
  awaits_readiness s = true -> (obs <= n)%N -> (v <= u64_max)%N -> readiness (mkSnapshot n conn cap) = Ready ->
  JobAggregate_decide (mkAggregate s v Run obs) (DeviceObserved (mkSnapshot n conn cap))
  = accepted [RecordDeviceVersion n; Commit v Preparing].
Proof.
  intros Hs Hle Hv Hready. cbn [JobAggregate_decide]. unfold decide_device_observed.
  cbn [ds_version ag_observed_device_version ag_desired_run_state ag_state].
  destruct (N.ltb_spec n obs); [lia|]. rewrite Hready.
  assert (Hzero : u64_add v 0 = v) by (rewrite u64_add_small; lia).
  assert (Hroute : commits_towards (mkAggregate s v Run obs) Preparing = Some [Commit v Preparing]).
  { unfold commits_towards. replace (route _ _) with (Some [Preparing]) by (by destruct s).
    change (Some [Commit (u64_add v 0) Preparing] = Some [Commit v Preparing]). by rewrite Hzero. }
  assert (Hfin : finish_observation (mkAggregate s v Run obs) (mkSnapshot n conn cap) (Some Preparing)
                 = accepted [RecordDeviceVersion n; Commit v Preparing]).
  { unfold finish_observation. cbn [mbind option_bind]. by rewrite Hroute. }
  by destruct s.
Qed.

Lemma observe_runs w id request s v dev :
  staged w id request s v -> awaits_readiness s = true -> (v + 1 <= i64_max)%N ->
  (forall c, in_cells w !! id = Some c -> (cl_observed_device_version c <= in_observation_version w)%N) ->
  (in_observation_version w < u64_max)%N ->
  (forall n, readiness (mkSnapshot n (device_port n dev).1 (device_port n dev).2) = Ready) ->
  exists w', observe_device config id dev w = (w', Ok Ready) /\ staged w' id request Preparing (v + 1) /\
    same_runtime w w'.
Proof.
  intros Hst Hpark Hv Hle Hob Hready. unfold observe_device. rewrite get_bind. unfold device_snapshot.
  rewrite u64_add_small by lia. set (n := (in_observation_version w + 1)%N).
  specialize (Hready n). destruct (device_port n dev) as [conn capture]. cbn [fst snd] in Hready.
  set (w1 := set_observation n w). set (snap := mkSnapshot n conn capture).
  destruct (staged_maps _ _ _ _ _ Hst) as (j & c & Hj & Hc & Hk & Hr & Hs & Hd & Hcv).
  set (w2 := alter_cell (fun c => mkCell (cl_version c) (N.max (cl_observed_device_version c) n)) id w1).
  assert (Hst2 : staged w2 id request s v).
  { apply (staged_calm w); [|done..]. etrans; [apply (calm_observation n)|]. by apply calm_alter_cell. }
  destruct (perform_commit_runs w2 id request s v Preparing Hst2 ltac:(by destruct s) Hv)
    as (w3 & Hp & Hst3 & [Hsc Hsl Hsb]).
  exists w3. split; [|by split].
  unfold sbind at 1, sput. unfold sbind at 1.
  rewrite (apply_runs id (DeviceObserved snap) w1 w3 j c [RecordDeviceVersion n; Commit v Preparing]);
    [unfold sret, snap; by rewrite Hready|done|done|done| |done|].
  - specialize (Hle c Hc). rewrite Hs, Hcv, Hd.
    apply observation_starts; [done|unfold n; lia|unfold i64_max, u64_max in *; lia|done].
  - change (sforeach (perform config id) [Commit v Preparing] w2 = (w3, Ok tt)).
    by rewrite sforeach_one.
Qed.

(** ** The transfer stage *)

(** The job's own download, nobody else: the rows, the job, the leases stay,
    and no interrupt appears. *)
Record undisturbed (id : string) w w' : Prop := {
  un_calm : calm w w';
  un_request : mj_request <$> in_jobs w' !! id = mj_request <$> in_jobs w !! id;
  un_seq : t_outbox_seq (in_store w') = t_outbox_seq (in_store w);
  un_leases : in_leases w' = in_leases w;
  un_flag : jc_interrupt_flag <$> in_controls w' !! id = jc_interrupt_flag <$> in_controls w !! id;
}.

#[global] Instance undisturbed_preorder id : PreOrder (undisturbed id).
Proof. split; [by split|]. intros a b c [] []. split; [by etrans|congruence..]. Qed.

Lemma undisturbed_staged w w' id request s v :
  undisturbed id w w' -> staged w id request s v -> staged w' id request s v.
Proof. intros [Hc Hr Hs _ _]. by apply staged_calm. Qed.

Definition clear w (id : string) : Prop :=
  jc_interrupt_flag <$> in_controls w !! id = Some false.

Lemma undisturbed_clear w w' id : undisturbed id w w' -> clear w id -> clear w' id.
Proof. intros [_ _ _ _ Hf] Hc. unfold clear. by rewrite Hf. Qed.

Lemma clear_default w id : clear w id -> jc_interrupt_flag (control_or_default w id) = false.
Proof. unfold clear, control_or_default. destruct (in_controls w !! id); simpl; congruence. Qed.

Lemma undisturbed_record f id w : undisturbed id w (record_fault f w).
Proof. split; [apply calm_fault|done..]. Qed.

Lemma undisturbed_library l id w : undisturbed id w (set_library l w).
Proof. split; [apply calm_library|done..]. Qed.

Lemma undisturbed_readiness dev id w : undisturbed id w (device_readiness dev w).1.
Proof.
  assert (Hc := calm_device_readiness dev w). unfold device_readiness, device_snapshot in *.
  destruct (device_port _ _). by split.
Qed.

(** Traffic that answers. *)
Definition answered (t : Traffic) : Prop :=
  match t with TrFetch _ r => is_ok r = true | TrRead r => is_ok r = true end.

Lemma track_put_undisturbed id t w :
  ledger_only (in_store w) (tw_db t) -> t_outbox_seq (tw_db t) = t_outbox_seq (in_store w) ->
  (clear w id -> jc_interrupt_flag (tw_control t) = false) -> clear w id ->
  undisturbed id w (track_put id t w).
Proof.
  intros [Hj Hi] Hs Hf Hc. split; [by apply calm_track_put|done|done|done|].
  specialize (Hf Hc). revert Hc. unfold clear, track_put, alter_control. simpl.
  rewrite lookup_alter_eq. destruct (in_controls w !! id); [|done]. simpl. intros ->. by rewrite Hf.
Qed.

Lemma update_file_ledger_seq id file status bytes sha now d :
  t_outbox_seq (update_file_ledger id file status bytes sha now d).1 = t_outbox_seq d.
Proof.
  destruct (update_file_ledger id file status bytes sha now d) as [d' [u|e]] eqn:Eu; simpl.
  - apply update_file_ledger_ok in Eu as (f & dg & _ & _ & _ & [|] & _ & Hw); [by simpl in Hw; subst|].
    by destruct Hw as [-> _].
  - by apply update_file_ledger_atomic in Eu as ->.
Qed.

(** An answered read never ends the download, and asks for no interrupt. *)
Lemma tracking_read_answers text now n b t :
  jc_interrupt_flag (tw_control t) = false ->
  exists t' b', tracking_read text now (Ok n) b t = (t', Ok (b', n)) /\
    jc_interrupt_flag (tw_control t') = false /\ t_outbox_seq (tw_db t') = t_outbox_seq (tw_db t).
Proof.
  intros Hf. unfold tracking_read. rewrite Hf. destruct (0 <? n)%N; [|by eauto].
  unfold tracking_checkpoint. cbn [tb_threshold]. destruct (_ <=? _)%N; [|by eauto].
  cbn [tb_job_id tb_file_id tb_offset tw_db tw_control].
  assert (Hs := update_file_ledger_seq (tb_job_id b) (tb_file_id b) LPartial
                  (u64_add (tb_offset b) n) None now (tw_db t)).
  destruct (update_file_ledger _ _ _ _ _ _ _) as [d' [u|e]]; by eauto.
Qed.

Lemma track_traffic_answers id file traffic body w :
  Forall answered traffic -> clear w id ->
  let '(w', cut) := track_traffic config id file traffic body w in
  cut = None /\ undisturbed id w w'.
Proof.
  intros Ht. revert body w. induction Ht as [|[request [r|e]|[n|e]] traffic Ha _ IH];
    intros body w Hc; try done; cbn [track_traffic].
  - unfold tracking_fetch_range. cbn [track_view tw_control]. rewrite (clear_default w id Hc).
    assert (Hu : forall t', tw_db t' = in_store w -> tw_control t' = control_or_default w id ->
              undisturbed id w (track_put id t' w)).
    { intros t' Hd Ht. apply track_put_undisturbed; [by rewrite Hd; split|by rewrite Hd| |done].
      intros _. rewrite Ht. by apply clear_default. }
    match goal with |- context [track_put id ?t' w] => assert (Hu' := Hu t' eq_refl eq_refl) end.
    match goal with |- context [track_traffic _ _ _ _ ?b ?v] =>
      specialize (IH b v (undisturbed_clear _ _ _ Hu' Hc)) end.
    destruct (track_traffic _ _ _ _ _ _) as [w' cut]. destruct IH as [-> IH]. split; [done|by etrans].
  - destruct body as [b|]; [|by split].
    destruct (tracking_read_answers to_string now_string n b (track_view w id))
      as (t' & b' & Hr & Hf & Hs); [by apply clear_default|].
    assert (Hl := tracking_read_only to_string now_string (Ok n) b (track_view w id)).
    rewrite Hr in *. simpl in Hl, Hs.
    assert (Hu : undisturbed id w (track_put id t' w)) by by apply track_put_undisturbed.
    specialize (IH (Some b') _ (undisturbed_clear _ _ _ Hu Hc)).
    destruct (track_traffic _ _ _ _ _ _) as [w' cut]. destruct IH as [-> IH]. split; [done|by etrans].
Qed.

(** ** An environment that serves one request *)

(** The device is there and idle whenever it is asked, its files can be
    fetched, and the library stages, downloads and publishes without error. *)
Record serves (id : string) (request : TransferRequest) : Prop := {
  sv_ready : forall n, readiness (mkSnapshot n (device_port n (rq_device_id request)).1
                                    (device_port n (rq_device_id request)).2) = Ready;
  sv_source : forall f, f ∈ rq_files request ->
    is_ok (make_source (rq_device_id request) (rq_session_id request) (jf_file_id f)) = true;
  sv_publication : is_ok (verify_request_publication request) = true;
  sv_staging : forall l, is_ok (open_staging request l).2 = true;
  sv_download : forall f l, f ∈ rq_files request ->
    Forall answered (download_into request f l).2.1 /\ is_ok (download_into request f l).2.2 = true;
  sv_commit : forall job l, mj_request job = request -> is_ok (commit_session job l).2 = true;
}.

Section served.
Context (id : string) (request : TransferRequest) (Hserve : serves id request).

Lemma pre_file_clear w s v :
  staged w id request s v -> clear w id ->
  exists w', pre_file_interrupt_check id (rq_device_id request) w = (w', None) /\ undisturbed id w w'.
Proof.
  intros Hst Hc. destruct (staged_maps _ _ _ _ _ Hst) as (j & c & Hj & _ & _ & _ & _ & Hd & _).
  unfold pre_file_interrupt_check. rewrite (clear_default w id Hc), Hj.
  rewrite bool_decide_eq_false_2 by (simpl; congruence).
  assert (Hu := undisturbed_readiness (rq_device_id request) id w).
  unfold device_readiness, device_snapshot in *.
  assert (Hr := sv_ready _ _ Hserve (u64_add (in_observation_version w) 1)).
  destruct (device_port _ _) as [conn cap]. cbn [fst snd] in *. rewrite Hr. by eexists.
Qed.

Lemma transfer_file_runs w s v f :
  staged w id request s v -> clear w id -> f ∈ rq_files request ->
  exists w' vf, transfer_file config id request f w = (w', inl vf) /\ undisturbed id w w'.
Proof.
  intros Hst Hc Hf. destruct (pre_file_clear w s v Hst Hc) as (w1 & Hp & Hu1).
  unfold transfer_file. rewrite Hp. assert (Hm := sv_source _ _ Hserve f Hf).
  destruct (make_source _ _ _); [|done].
  destruct (sv_download _ _ Hserve f (in_library w1) Hf) as [Ht Hv].
  destruct (download_into _ _ _) as [l [traffic verdict]]. cbn [fst snd] in *.
  assert (Hu2 : undisturbed id w (set_library l w1)) by (etrans; [exact Hu1|apply undisturbed_library]).
  assert (Htr := track_traffic_answers id (jf_file_id f) traffic None _ Ht (undisturbed_clear _ _ _ Hu2 Hc)).
  destruct (track_traffic _ _ _ _ _ _) as [w2 cut]. destruct Htr as [-> Hu3].
  destruct verdict as [vf|]; [|done]. eexists _, vf. split; [reflexivity|].
  etrans; [exact Hu2|]. etrans; [exact Hu3|]. split; [apply calm_progress|done..].
Qed.

Lemma transfer_files_run files verified w s v :
  (forall f, f ∈ files -> f ∈ rq_files request) -> staged w id request s v -> clear w id ->
  exists w' done_files, transfer_files config id request files verified w = (w', ToAllDone done_files) /\
    undisturbed id w w' /\ length done_files = (length verified + length files)%nat.
Proof.
  revert verified w. induction files as [|f files IH]; intros verified w Hin Hst Hc; cbn [transfer_files].
  { exists w, verified. split_and!; [done|done|simpl; lia]. }
  destruct (transfer_file_runs w s v f Hst Hc) as (w1 & vf & -> & Hu); [apply Hin; by left|].
  destruct (IH (verified ++ [vf])%list w1) as (w2 & l & H2 & Hu2 & Hlen);
    [intros; apply Hin; by right|by eapply undisturbed_staged|by eapply undisturbed_clear|].
  exists w2, l. split_and!; [done|by etrans|]. rewrite Hlen, length_app. simpl. lia.
Qed.

Lemma run_transfer_runs w s v :
  staged w id request s v -> clear w id ->
  exists w' files, run_transfer config id request w = (w', ToAllDone files) /\ undisturbed id w w' /\
    length files = length (rq_files request).
Proof.
  intros Hst Hc. unfold run_transfer. assert (Ho := sv_staging _ _ Hserve (in_library w)).
  destruct (open_staging _ _) as [l [u|e]]; [|done].
  assert (Hu := undisturbed_library l id w).
  destruct (transfer_files_run (rq_files request) [] (set_library l w) s v) as (w' & files & Hr & Hu' & Hlen);
    [done|by eapply undisturbed_staged|by eapply undisturbed_clear|].
  exists w', files. split_and!; [done|by etrans|done].
Qed.

Lemma take_checkpoint_undisturbed w : clear w id -> undisturbed id w (take_checkpoint id w).
Proof.
  intros Hc. assert (Hcalm := calm_take_checkpoint id w). unfold take_checkpoint in *.
  unfold take_checkpoint_fault in *.
  assert (Hflag : forall v : Inner L, in_controls v = alter (fun _ : JobControl =>
      (take_checkpoint_fault (control_or_default w id)).2) id (in_controls w) ->
      jc_interrupt_flag <$> in_controls v !! id = jc_interrupt_flag <$> in_controls w !! id).
  { intros v ->. rewrite lookup_alter_eq. unfold control_or_default.
    by destruct (in_controls w !! id). }
  destruct (jc_checkpoint_fault _); split; try done; by apply Hflag.
Qed.

(** ** The stages *)

Lemma report_stage w s v report to :
  staged w id request s v -> is_legal_transition s to = true -> (v + 1 <= i64_max)%N ->
  (forall obs, decide_worker (mkAggregate s v Run obs) report = accepted [Commit v to]) ->
  exists w', report_and_continue config id report w = (w', Ok true) /\
    report_and_return config id report w = (w', Ok false) /\
    staged w' id request to (v + 1) /\ same_runtime w w'.
Proof.
  intros Hst Hl Hv Hd. destruct (report_runs w id request s v report to Hst Hl Hv Hd) as (w' & Hr & H).
  exists w'. unfold report_and_continue, report_and_return, caught, sbind. rewrite Hr. split; [done|]. by split.
Qed.

Lemma pass_parked w s v :
  staged w id request s v -> awaits_readiness s = true -> (v + 1 <= i64_max)%N ->
  (forall c, in_cells w !! id = Some c -> (cl_observed_device_version c <= in_observation_version w)%N) ->
  (in_observation_version w < u64_max)%N ->
  exists w', process_pass config id w = (w', Ok true) /\ staged w' id request Preparing (v + 1) /\
    same_runtime w w'.
Proof.
  intros Hst Hp Hv Hle Hob. destruct (staged_maps _ _ _ _ _ Hst) as (j & c & Hj & _ & _ & Hr & Hs & Hd & _).
  destruct (observe_runs w id request s v (rq_device_id request) Hst Hp Hv Hle Hob (sv_ready _ _ Hserve))
    as (w' & Hrun & H). exists w'. split; [|done].
  unfold process_pass. rewrite get_bind, Hj, Hr, Hd, Hs.
  destruct s; try done; cbv beta zeta iota; (rewrite bool_decide_eq_false_2 by done);
    unfold caught, sbind; by rewrite Hrun.
Qed.

Lemma pass_preparing w v :
  staged w id request Preparing v -> (v + 1 <= i64_max)%N ->
  exists w', process_pass config id w = (w', Ok true) /\ staged w' id request Transferring (v + 1) /\
    same_runtime w w'.
Proof.
  intros Hst Hv. destruct (staged_maps _ _ _ _ _ Hst) as (j & c & Hj & _ & _ & Hr & Hs & _).
  destruct (report_stage w Preparing v Prepared Transferring Hst) as (w' & Hrun & _ & H); [done..|].
  exists w'. split; [|done]. unfold process_pass. rewrite get_bind, Hj, Hr, Hs.
  assert (Hp := sv_publication _ _ Hserve). by destruct (verify_request_publication request).
Qed.

Lemma pass_verifying w v :
  staged w id request Verifying v -> (v + 1 <= i64_max)%N ->
  exists w', process_pass config id w = (w', Ok true) /\ staged w' id request Committing (v + 1) /\
    same_runtime w w'.
Proof.
  intros Hst Hv. destruct (staged_maps _ _ _ _ _ Hst) as (j & c & Hj & _ & _ & Hr & Hs & _).
  destruct (report_stage w Verifying v Verified Committing Hst) as (w' & Hrun & _ & H); [done..|].
  exists w'. split; [|done]. unfold process_pass. by rewrite get_bind, Hj, Hs.
Qed.

Lemma pass_committing w v :
  staged w id request Committing v -> (v + 1 <= i64_max)%N ->
  exists w', process_pass config id w = (w', Ok false) /\ staged w' id request Succeeded (v + 1) /\
    in_leases w' = in_leases w.
Proof.
  intros Hst Hv. destruct (staged_maps _ _ _ _ _ Hst) as (j & c & Hj & _ & _ & Hr & Hs & _).
  unfold process_pass. rewrite get_bind, Hj, Hs. unfold do_commit.
  assert (Hc := sv_commit _ _ Hserve j (in_library w) Hr).
  destruct (commit_session _ _) as [l [u|e]]; [|done].
  destruct (report_stage (set_library l w) Committing v CommitComplete Succeeded)
    as (w' & _ & Hrun & Hst' & Hsame); [|done..|].
  { by apply (undisturbed_staged w); [apply undisturbed_library|]. }
  exists w'. split; [|by rewrite (sr_leases _ _ Hsame)]. unfold sbind at 1, sput. exact Hrun.
Qed.

Lemma pass_transfer w v :
  staged w id request Transferring v -> clear w id -> (v + 1 <= i64_max)%N ->
  exists w', process_pass config id w = (w', Ok true) /\ staged w' id request Verifying (v + 1) /\
    in_leases w' = in_leases w.
Proof.
  intros Hst Hc Hv. destruct (staged_maps _ _ _ _ _ Hst) as (j & c & Hj & _ & _ & Hr & Hs & _).
  unfold process_pass. rewrite get_bind, Hj, Hr, Hs. unfold pass_transferring. rewrite get_bind.
  destruct (run_transfer_runs w _ _ Hst Hc) as (w1 & files & -> & Hu1 & _).
  assert (Hu2 := take_checkpoint_undisturbed w1 (undisturbed_clear _ _ _ Hu1 Hc)).
  set (w2 := set_verified_files id files (take_checkpoint id w1)).
  assert (Hu3 : undisturbed id (take_checkpoint id w1) w2).
  { split; try done; [by apply calm_alter_job|]. unfold w2, set_verified_files, alter_job. simpl.
    rewrite lookup_alter_eq. by destruct (in_jobs (take_checkpoint id w1) !! id). }
  assert (Hu : undisturbed id w w2) by (etrans; [exact Hu1|by etrans]).
  destruct (report_stage w2 Transferring v TransferComplete Verifying) as (w' & Hrun & _ & Hst' & Hsame);
    [by eapply undisturbed_staged|done..|].
  exists w'. split; [|split; [done|by rewrite (sr_leases _ _ Hsame), (un_leases _ _ _ Hu)]].
  unfold sbind at 1, sput. unfold sbind at 1, upd. exact Hrun.
Qed.

End served.

(** ** Whatever the environment answers *)

(** Accepted effects that need no wait: the command is their run. *)
Lemma apply_accepts id command w j c es :
  in_jobs w !! id = Some j -> in_cells w !! id = Some c -> is_Some (in_controls w !! id) ->
  JobAggregate_decide (mkAggregate (mj_state j) (cl_version c) (mj_desired_run_state j)
                         (cl_observed_device_version c)) command = accepted es ->
  existsb is_await es = false ->
  apply config id command w = sbind (sforeach (perform config id) es) (fun _ => sret Accepted) w.
Proof.
  intros Hj Hc [k Hk] Hd Hes. unfold apply, apply_checked, sbind at 1, apply_begin.
  rewrite get_bind. unfold cell_of. erewrite lift_run by (by rewrite Hc).
  unfold control_of. erewrite lift_run by (by rewrite Hk).
  unfold load_aggregate, job_of. erewrite lift_run by (by rewrite Hj).
  unfold sbind at 1, sret at 1. rewrite Hd. cbn [accepted outcome effects].
  rewrite (split_await_none es Hes). unfold sbind. by destruct (sforeach _ es w) as [w1 [u|e]].
Qed.

(** The result is a returned value, not an unwinding. *)
Definition no_panic {A : Type} (r : result CoordinatorError A) : Prop :=
  match r with Err (CePanic _) => False | _ => True end.

Lemma commit_durable_calm id v to d : no_panic (commit_durable id v to d).2.
Proof.
  unfold commit_durable. destruct (state_to_tag to) as [tag error]. destruct (is_terminal to) eqn:Et.
  - rewrite get_bind. unfold sbind, slift, serr, sret. destruct (rmap_err _ (read_job _ _)) as [f|e] eqn:Ef.
    2:{ destruct (read_job d id); [done|]. by injection Ef as <-. }
    destruct f as [job|]; [|done]. cbn [ok_or]. destruct (negb _); [done|].
    destruct (outcome_of_terminal to Et) as [o ->]. cbn [ok_or].
    destruct (complete_job _ _ _ _ d) as [d' [c|e]]; [done|]. by destruct e.
  - unfold sbind, serr, sret. by destruct (transition_job _ _ _ _ _ d) as [d' [u|e]].
Qed.

Lemma perform_no_panic id e w : no_panic (perform config id e w).2.
Proof.
  destruct e; try done; unfold perform; rewrite get_bind; unfold cell_of;
    (destruct (in_cells w !! id) as [c|]; [|done]); erewrite lift_run by reflexivity.
  - destruct (negb _); [done|]. unfold sbind, on_error, commit_transition, on_store, sbind.
    assert (Hn := commit_durable_calm id expected_version to (in_store w)).
    destruct (commit_durable _ _ _ _) as [d [u|e]]; [done|exact Hn].
  - unfold sbind, serr, on_error, on_store. by destruct (set_desired_run_state _ _ _ _ _) as [d [u|e]].
Qed.

Lemma performs_no_panic id es w : no_panic (sforeach (perform config id) es w).2.
Proof.
  revert w. induction es as [|e es IH]; intros w; [done|]. cbn [sforeach]. unfold sbind.
  assert (Hn := perform_no_panic id e w).
  destruct (perform config id e w) as [w1 [u|e']]; [apply IH|exact Hn].
Qed.

(** One accepted commit, on whatever store: the job moves when it succeeds. *)
Lemma apply_commits id command w s v es to pre :
  coord_inv w -> job_at w id s v ->
  (forall d obs, mj_desired_run_state <$> in_jobs w !! id = Some d ->
     cl_observed_device_version <$> in_cells w !! id = Some obs ->
     JobAggregate_decide (mkAggregate s v d obs) command = accepted es) ->
  es = (pre ++ [Commit v to])%list -> forallb is_quiet pre = true -> existsb is_await pre = false ->
  is_legal_transition s to = true ->
  let '(w', r) := apply config id command w in
  coord_inv w' /\ (is_ok r = true -> job_at w' id to (v + 1)).
Proof.
  intros Hw Hat Hd -> Hq Ha Hl. assert (Hat' := Hat). destruct Hat' as (j & c & Hj & Hc & Hs & Hv).
  rewrite (apply_accepts id command w j c (pre ++ [Commit v to])%list);
    [|done|done|apply (ci_controls w Hw); eauto| |by rewrite existsb_app, Ha].
  2:{ rewrite Hs, Hv. apply Hd; by rewrite ?Hj, ?Hc. }
  destruct (perform_quiet_all config id pre w Hq) as (w1 & H1 & Hcalm).
  destruct (calm_sound _ _ Hcalm Hw) as [Hw1 _].
  assert (He : sforeach (perform config id) (pre ++ [Commit v to]) w = perform config id (Commit v to) w1).
  { rewrite sforeach_app. unfold sbind. rewrite H1. apply sforeach_one. }
  unfold sbind. rewrite He.
  assert (Hp := perform_commit config id v to w1 s Hw1 (job_at_calm _ _ _ _ _ Hcalm Hat) Hl).
  destruct (perform config id (Commit v to) w1) as [w2 [u|e]]; destruct Hp as [Hs2 Hat2];
    (split; [by apply Hs2|]); [intros _; by apply Hat2|done].
Qed.

Lemma apply_no_panic id command w : no_panic (apply config id command w).2.
Proof.
  unfold apply, apply_checked, sbind at 1, apply_begin. rewrite get_bind.
  unfold cell_of. destruct (in_cells w !! id) as [c|]; [|done]. erewrite lift_run by reflexivity.
  unfold control_of. destruct (in_controls w !! id) as [k|]; [|done]. erewrite lift_run by reflexivity.
  unfold load_aggregate, job_of. destruct (in_jobs w !! id) as [j|]; [|done].
  erewrite lift_run by reflexivity. unfold sbind at 1, sret at 1.
  set (d := JobAggregate_decide _ command). destruct (outcome d) as [| |reason]; [| |by destruct reason].
  1,2: destruct (split_await (effects d)) as [now rest]; unfold sbind at 1;
    assert (Hn := performs_no_panic id now w);
    destruct (sforeach (perform config id) now w) as [w1 [u|e]]; [|exact Hn];
    cbn [sret]; destruct rest as [rest|]; [|done]; rewrite get_bind;
    destruct (is_active w1 id); [done|]; unfold sbind, apply_finish;
    assert (Hn2 := performs_no_panic id rest w1);
    destruct (sforeach (perform config id) rest w1) as [w2 [u2|e2]]; [done|exact Hn2].
Qed.

Lemma caught_fine {A : Type} (c : sm (Inner L) CoordinatorError A) w :
  no_panic (c w).2 -> caught c w = ((c w).1, Ok (c w).2).
Proof.
  unfold caught, no_panic. by destruct (c w) as [w' [a|[]]].
Qed.

Lemma worker_report_fine id report w : no_panic (worker_report config id report w).2.
Proof.
  assert (Hn := apply_no_panic id (Worker report) w). unfold worker_report, on_error.
  by destruct (apply config id (Worker report) w) as [w1 [o|e]].
Qed.

(** How many passes the loop can still make. *)
Definition passes_left (s : TransferJobState) : nat :=
  match s with
  | Queued | RetryWait | WaitingForDevice | WaitingForPairing | PausedCaptureActive => 5
  | Preparing => 4
  | Transferring => 3
  | Verifying => 2
  | _ => 1
  end.

Lemma stage_commits s report to :
  expected_state report = Some s -> is_terminal s = false -> s <> Cancelling ->
  match report with
  | Prepared => to = Transferring | TransferComplete => to = Verifying | Verified => to = Committing
  | CommitComplete => to = Succeeded
  | PreparationFailed code retryable | TransferFailed code retryable
  | CommitFailed code retryable => to = Failed code retryable
  | WorkerPanicked _ | Interrupted _ => False
  end ->
  forall v d obs, decide_worker (mkAggregate s v d obs) report = accepted [Commit v to].
Proof. intros He Ht Hc. by destruct report; try done; intros -> v d obs; injection He as <-. Qed.

(** The loop goes on with the job in a later stage. *)
Definition nearer (id : string) (s : TransferJobState) (v : N) w : Prop :=
  exists s', coord_inv w /\ job_at w id s' (v + 1) /\ awaits_readiness s' = false /\
    (passes_left s' < passes_left s)%nat.

(** One report: the loop goes on only in the next state. *)
Lemma continue_moves id report w s v to :
  coord_inv w -> job_at w id s v -> is_legal_transition s to = true ->
  (forall v d obs, decide_worker (mkAggregate s v d obs) report = accepted [Commit v to]) ->
  awaits_readiness to = false -> (passes_left to < passes_left s)%nat ->
  exists w' b, report_and_continue config id report w = (w', Ok b) /\ (b = true -> nearer id s v w').
Proof.
  intros Hw Hat Hl Hd Ha Hp.
  assert (Hrun := apply_commits id (Worker report) w s v [Commit v to] to [] Hw Hat
                  (fun d obs _ _ => Hd v d obs) eq_refl eq_refl eq_refl Hl).
  unfold report_and_continue, sbind. rewrite caught_fine by apply worker_report_fine.
  eexists _, _. split; [reflexivity|]. unfold worker_report, on_error.
  destruct (apply config id (Worker report) w) as [w1 [o|e]]; [|done]. cbn [fst].
  destruct Hrun as [Hw1 Hat1]. intros _. exists to. split_and!; [done|by apply Hat1|done|done].
Qed.

Lemma report_returns id report w : exists w', report_and_return config id report w = (w', Ok false).
Proof.
  unfold report_and_return, sbind. rewrite caught_fine by apply worker_report_fine. by eexists.
Qed.

Lemma interrupted_returns id reason w :
  exists w', interrupted_and_return config id reason w = (w', Ok false).
Proof. apply report_returns. Qed.

(** The transfer stage: any outcome, one report. *)
Lemma transferring_progress id request w v :
  coord_inv w -> job_at w id Transferring v ->
  exists w' b, pass_transferring config id request w = (w', Ok b) /\ (b = true -> nearer id Transferring v w').
Proof.
  intros Hw Hat. unfold pass_transferring. rewrite get_bind.
  assert (Hc := calm_run_transfer config id request w). destruct (run_transfer _ _ _ _) as [w1 o].
  unfold sbind at 1, sput. destruct o as [files| | | | | |code retryable]; cbv beta iota;
    [| |destruct (interrupted_returns id IrCapturePause (take_checkpoint id w1)) as [w' ->]
     |destruct (interrupted_returns id IrUserPause (take_checkpoint id w1)) as [w' ->]
     |destruct (interrupted_returns id IrCancel (take_checkpoint id w1)) as [w' ->]
     |destruct (interrupted_returns id IrShutdown (take_checkpoint id w1)) as [w' ->]
     |destruct (report_returns id (TransferFailed code retryable) (take_checkpoint id w1)) as [w' ->]];
    try by eexists _, false.
  - unfold sbind at 1, upd. set (w2 := set_verified_files id files (take_checkpoint id w1)).
    assert (Hcalm : calm w w2).
    { etrans; [exact Hc|]. etrans; [apply calm_take_checkpoint|]. by apply calm_alter_job. }
    destruct (calm_sound _ _ Hcalm Hw) as [Hw2 _].
    apply (continue_moves id TransferComplete w2 Transferring v Verifying);
      done || (simpl; lia) || by eapply job_at_calm.
  - unfold sbind at 1, upd. rewrite get_bind. destruct (device_readiness _ _) as [w2 r].
    unfold sbind at 1. match goal with |- context [report_and_return _ _ ?rep ?v] =>
      destruct (report_returns id rep v) as [w' ->] end. by eexists _, false.
Qed.

(** What a parked job needs for its next observation to be a fresh one. *)
Definition observable w (id : string) : Prop :=
  (in_observation_version w < u64_max)%N /\
  forall c, in_cells w !! id = Some c -> (cl_observed_device_version c <= in_observation_version w)%N.

Lemma observe_fine id dev w : no_panic (observe_device config id dev w).2.
Proof.
  unfold observe_device. rewrite get_bind. destruct (device_snapshot dev w) as [w1 snap].
  unfold sbind, sput. assert (Hn := apply_no_panic id (DeviceObserved snap) w1).
  by destruct (apply config id (DeviceObserved snap) w1) as [w2 [o|e]].
Qed.

Lemma observe_progress id dev w s v :
  coord_inv w -> job_at w id s v -> awaits_readiness s = true ->
  mj_desired_run_state <$> in_jobs w !! id = Some Run -> observable w id ->
  let '(w', r) := observe_device config id dev w in
  r = Ok Ready -> coord_inv w' /\ job_at w' id Preparing (v + 1).
Proof.
  intros Hw Hat Hs Hd [Hlt Hle]. assert (Hat' := Hat). destruct Hat' as (j & c & Hj & Hc & _ & Hv).
  assert (Hb := in_step_version w id j c Hw Hj Hc). rewrite Hv in Hb.
  unfold observe_device. rewrite get_bind. unfold device_snapshot. rewrite u64_add_small by lia.
  set (n := (in_observation_version w + 1)%N). destruct (device_port n dev) as [conn cap].
  assert (Hcalm := calm_observation n w). destruct (calm_sound _ _ Hcalm Hw) as [Hw1 _].
  unfold sbind, sput. destruct (decide (readiness (mkSnapshot n conn cap) = Ready)) as [Hr|Hr].
  2:{ destruct (apply config id _ _) as [w2 [o|e]]; [|done]. unfold sret. by intros [= ?]. }
  assert (Ha := apply_commits id (DeviceObserved (mkSnapshot n conn cap)) (set_observation n w) s v
                  [RecordDeviceVersion n; Commit v Preparing] Preparing [RecordDeviceVersion n] Hw1
                  (job_at_calm _ _ _ _ _ Hcalm Hat)).
  destruct (apply config id _ _) as [w2 [o|e]]; [|done].
  destruct Ha as [Hw2 Hat2]; [|done|done|done|by destruct s|by intros _; split; [|apply Hat2]].
  - intros d obs Hd' Ho. simpl in Hd', Ho. rewrite Hd in Hd'. injection Hd' as <-.
    rewrite Hc in Ho. injection Ho as <-. specialize (Hle c Hc).
    apply observation_starts; [done|unfold n; lia|unfold i64_max, u64_max in *; lia|done].
Qed.

(** A pass that continues brings the job one stage nearer to its end; no pass
    unwinds. *)
Lemma pass_progress id w s v :
  coord_inv w -> job_at w id s v -> (awaits_readiness s = true -> observable w id) ->
  exists w' b, process_pass config id w = (w', Ok b) /\ (b = true -> nearer id s v w').
Proof.
  intros Hw Hat Hobs. assert (Hat' := Hat). destruct Hat' as (j & c & Hj & _ & Hs & _).
  unfold process_pass. rewrite get_bind, Hj, Hs.
  assert (Hpark : awaits_readiness s = true -> forall k : DeviceReadiness -> sm (Inner L) CoordinatorError bool,
    (forall r w1, exists w2, k r w1 = (w2, Ok false)) ->
    exists w' b, (if bool_decide (mj_desired_run_state j = Paused) then sret false else
       let! r := caught (observe_device config id (rq_device_id (mj_request j))) in
       match r with
       | Err e => do! upd (transition_fault id e) then! sret false
       | Ok Ready => sret true
       | Ok other => k other
       end) w = (w', Ok b) /\ (b = true -> nearer id s v w')).
  { intros Ha k Hk. case_bool_decide as Hd; [by eexists _, false|].
    assert (Hp := observe_progress id (rq_device_id (mj_request j)) w s v Hw Hat Ha).
    unfold sbind at 1. rewrite caught_fine by apply observe_fine.
    destruct (observe_device _ _ _ w) as [w1 [r|e]]; cbn [fst snd];
      [|by eexists _, false].
    destruct r; [|by destruct (Hk WaitDevice w1) as [w2 ->]; eexists _, false
                 |by destruct (Hk WaitPairing w1) as [w2 ->]; eexists _, false
                 |by destruct (Hk CapturePaused w1) as [w2 ->]; eexists _, false].
    exists w1, true. split; [done|]. intros _. exists Preparing.
    destruct Hp as [? ?]; [|by apply Hobs|done|split_and!; [done..|destruct s; simpl in *; lia || done]].
    rewrite Hj. simpl. by destruct (mj_desired_run_state j). }
  assert (Hstop : forall (r : DeviceReadiness) w1, exists w2,
    (match r with
     | WaitDevice | WaitPairing => do! upd (schedule_job config id) then! sret false
     | _ => sret false
     end : sm (Inner L) CoordinatorError bool) w1 = (w2, Ok false)) by (intros [] w1; by eexists).
  destruct s; cbv beta zeta iota.
  1-4: by apply (Hpark eq_refl); eauto.
  - destruct (verify_request_publication _).
    + apply (continue_moves id Prepared w Preparing v Transferring); done || (simpl; lia).
    + destruct (report_returns id (PreparationFailed (Other (to_string e)) false) w) as [w' ->].
      by eexists _, false.
  - by apply transferring_progress.
  - apply (continue_moves id Verified w Verifying v Committing); done || (simpl; lia).
  - destruct (do_commit j w) as [w1 [u|[code retryable]]]; unfold sbind at 1, sput;
      [destruct (report_returns id CommitComplete w1) as [w' ->]
      |destruct (report_returns id (CommitFailed code retryable) w1) as [w' ->]]; by eexists _, false.
  - by apply (Hpark eq_refl); eauto.
  - destruct (interrupted_returns id IrCancel w) as [w' ->]. by eexists _, false.
  - by eexists _, false.
  - by eexists _, false.
  - by eexists _, false.
Qed.

(** ** The loop ends *)

Lemma loop_ends id n w s v fuel :
  coord_inv w -> job_at w id s v -> (awaits_readiness s = true -> observable w id) ->
  (passes_left s <= n)%nat -> (n <= fuel)%nat ->
  exists w', process_loop config fuel id w = Some (w', Ok tt).
Proof.
  revert w s v fuel. induction n as [|n IH]; intros w s v fuel Hw Hat Hobs Hn Hf.
  { destruct s; simpl in Hn; lia. }
  destruct fuel as [|fuel]; [lia|]. cbn [process_loop].
  destruct (pass_progress id w s v Hw Hat Hobs) as (w1 & [|] & -> & Hnear); [|by eexists].
  destruct (Hnear eq_refl) as (s' & Hw1 & Hat1 & Ha1 & Hp1).
  apply (IH w1 s' (v + 1)%N); [done|done|by rewrite Ha1|lia|lia].
Qed.


(** ** A served job succeeds *)

Lemma loop_succeeds id request w s v fuel :
  serves id request -> staged w id request s v -> awaits_readiness s = true -> clear w id ->
  observable w id -> (v + 5 <= i64_max)%N -> (5 <= fuel)%nat ->
  exists w', process_loop config fuel id w = Some (w', Ok tt) /\
    staged w' id request Succeeded (v + 5) /\ in_leases w' = in_leases w.
Proof.
  intros Hserve Hst Hs Hc [Hlt Hle] Hv Hf. do 5 (destruct fuel as [|fuel]; [lia|]).
  destruct (pass_parked id request Hserve w s v Hst Hs ltac:(lia) Hle Hlt) as (w1 & H1 & Hst1 & [C1 L1 _]).
  destruct (pass_preparing id request Hserve w1 _ Hst1 ltac:(lia)) as (w2 & H2 & Hst2 & [C2 L2 _]).
  assert (Hc2 : clear w2 id) by (unfold clear; by rewrite C2, C1).
  destruct (pass_transfer id request Hserve w2 _ Hst2 Hc2 ltac:(lia)) as (w3 & H3 & Hst3 & L3).
  destruct (pass_verifying id request w3 _ Hst3 ltac:(lia)) as (w4 & H4 & Hst4 & [_ L4 _]).
  destruct (pass_committing id request Hserve w4 _ Hst4 ltac:(lia)) as (w5 & H5 & Hst5 & L5).
  exists w5. cbn [process_loop]. rewrite H1, H2, H3, H4, H5. split; [done|]. split; [|congruence].
  by replace (v + 5)%N with (v + 1 + 1 + 1 + 1 + 1)%N by lia.
Qed.

(** C40: a served job is brought to a durable success.  When the device is
    there and idle, the files can be fetched and the library stages, downloads
    and publishes without error, one turn of a worker on a parked job the user
    wants to run, whose target is free and which nobody interrupts, ends with
    the job succeeded in memory and in the store, exactly five versions later,
    with its ending in the completion outbox and the target free again. *)
Theorem worker_completes_served_job id request w s v fuel :
  serves id request -> staged w id request s v -> awaits_readiness s = true -> clear w id ->
  observable w id -> (v + 5 <= i64_max)%N -> (5 <= fuel)%nat ->
  let target := mkTargetKey (rq_device_id request) (rq_session_id request) in
  in_leases w !! target = None ->
  exists w' r, process_job config fuel id w = Some (w', Ok tt) /\ coord_inv w' /\
    mj_state <$> in_jobs w' !! id = Some Succeeded /\
    t_jobs (in_store w') !! id = Some r /\ row_state r = Some Succeeded /\
    jr_state_version r = Z.of_N (v + 5) /\
    is_Some (t_outbox (in_store w') !! id) /\ in_leases w' = in_leases w.
Proof.
  intros Hserve Hst Hs Hc Hobs Hv Hf target Hfree.
  destruct (staged_maps _ _ _ _ _ Hst) as (j & _ & Hj & _ & _ & Hr & _).
  unfold process_job. rewrite Hj, Hr. fold target. unfold try_acquire. rewrite Hfree.
  set (held := <[target := id]> (in_leases w)).
  destruct (loop_succeeds id request (set_leases held w) s v fuel) as (w' & -> & Hst' & Hl); try done.
  { apply (staged_calm w); [apply calm_leases|done..]. }
  destruct Hst' as [Hi (j' & Hj' & _ & Hs' & _) (c' & Hc' & Hcv) _ _].
  destruct (ci_rows w' Hi id j' Hj') as (r & c & Hrow & Hcell & [Rs Rv _]).
  rewrite Hc' in Hcell. injection Hcell as <-. rewrite Hs' in Rs. rewrite Hcv in Rv.
  eexists _, r. split; [done|]. split_and!; try done.
  - apply (calm_sound w' _ (calm_leases _ w') Hi).
  - simpl. rewrite Hj'. simpl. by rewrite Hs'.
  - apply (si_terminal _ (ci_store w' Hi) id r Hrow). by rewrite (row_state_terminal _ _ Rs).
  - simpl. rewrite Hl. unfold release, held. simpl. by apply delete_insert_id.
Qed.

End liveness.

(** ** The demo job *)

#[local] Existing Instance DemoSha.sha.
#[local] Existing Instance DemoCoordinator.show_download.
#[local] Existing Instance DemoCoordinator.show_coordinator.
#[local] Existing Instance DemoCoordinator.show_verify.
#[local] Existing Instance DemoCoordinator.show_persistence.
#[local] Existing Instance DemoCoordinator.library.
#[local] Existing Instance DemoCoordinator.environment.

Lemma demo_observable : observable DemoCoordinator.enqueued "j1".
Proof.
  split; [vm_compute; reflexivity|]. intros c Hc.
  destruct (DemoCoordinator.cell_of_run DemoCoordinator.enqueued cl_observed_device_version 0%N)
    as (c' & Hc' & Hz); [vm_compute; reflexivity|]. rewrite Hc in Hc'. injection Hc' as <-. lia.
Qed.

Lemma demo_serves : serves "j1" DemoCoordinator.request.
Proof. split; try done; intros; by repeat constructor. Qed.

Lemma demo_staged : staged DemoCoordinator.enqueued "j1" DemoCoordinator.request Queued 1.
Proof.
  split.
  - apply DemoCoordinator.enqueued_inv.
  - destruct (DemoCoordinator.job_of_run DemoCoordinator.enqueued
                (fun j => (mj_request j, mj_state j, mj_desired_run_state j))
                (DemoCoordinator.request, Queued, Run)) as (j & Hj & [= H1 H2 H3]);
      [vm_compute; reflexivity|]. by exists j.
  - apply DemoCoordinator.cell_of_run. vm_compute. reflexivity.
  - apply (DemoCoordinator.demo_row DemoCoordinator.enqueued (fun r => is_ok (read_job_row "j1" r))).
    vm_compute. reflexivity.
  - right. vm_compute. discriminate.
Qed.


Lemma worker_completes_served_job_witness :
  exists w', process_job DemoCoordinator.config 5 "j1" DemoCoordinator.enqueued = Some (w', Ok tt) /\
    mj_state <$> in_jobs w' !! "j1" = Some Succeeded.
Proof.
  destruct (worker_completes_served_job DemoCoordinator.config "j1" DemoCoordinator.request
              DemoCoordinator.enqueued Queued 1 5 demo_serves demo_staged)
    as (w' & r & H & _ & Hs & _).
  - reflexivity.
  - vm_compute. reflexivity.
  - apply demo_observable.
  - vm_compute. discriminate.
  - lia.
  - vm_compute. reflexivity.
  - exists w'. split; [exact H|exact Hs].
Defined.
