(* ===== verification/Identity.v ===== *)
(** * Identity: one fingerprint, three projections (device/identity.rs)

A device is identified by its whole TLS fingerprint; the canonical id, the
TLS pin and the display label are projections of it.  [DeviceFingerprint] is
a newtype over [String] whose values only [parse] makes: here a string, with
[fingerprint_ok] for what [parse] guarantees.  The resolver's [BTreeMap] is a
[gmap] read in key order. *)

From Stdlib Require Import NArith Lia Ascii String.
From stdpp Require Import base numbers list strings gmap sorting.
From S2P Require Import Prelude Domain.

Local Open Scope string_scope.

Abbreviation DeviceFingerprint := string (only parsing).

(** [FINGERPRINT_HEX_LEN] (device/identity.rs:20-20). *)
Definition FINGERPRINT_HEX_LEN : N := 64.
(** [DISPLAY_HEX_LEN] (device/identity.rs:21-21). *)
Definition DISPLAY_HEX_LEN : nat := 8.
(** [TLS_PREFIX] (device/identity.rs:22-22). *)
Definition TLS_PREFIX : string := "sha256:".
(** [DEVICE_ID_PREFIX] (device/identity.rs:23-23). *)
Definition DEVICE_ID_PREFIX : string := "ylx-".
(** [DISPLAY_PREFIX] (device/identity.rs:24-24). *)
Definition DISPLAY_PREFIX : string := "YLX-".

(** [DeviceFingerprintParseError] (device/identity.rs:27-35). *)
Inductive DeviceFingerprintParseError :=
| FpInvalidLength (actual : N)
| FpInvalidHex (index : N).

(** The index of the first byte that is not a hexadecimal digit. *)
Fixpoint first_non_hex (index : N) (s : string) : option N :=
  match s with
  | EmptyString => None
  | String c s' => if is_hexdigit c then first_non_hex (index + 1) s' else Some index
  end.

(** [str::get(..prefix.len())] compared without ASCII case: the rest of the
    text after the prefix. *)
Definition strip_prefix_ignore_case (prefix raw : string) : option string :=
  if eq_ignore_ascii_case (str_take (String.length prefix) raw) prefix
  then Some (str_drop (String.length prefix) raw) else None.

(** [DeviceFingerprint::parse] (device/identity.rs:48-67). *)
Definition DeviceFingerprint_parse (raw : string) : result DeviceFingerprintParseError DeviceFingerprint :=
  let hex := default raw (strip_prefix_ignore_case TLS_PREFIX raw) in
  if negb (str_len hex =? FINGERPRINT_HEX_LEN)%N then Err (FpInvalidLength (str_len hex)) else
  match first_non_hex 0 hex with
  | Some index => Err (FpInvalidHex index)
  | None => Ok (to_ascii_lowercase hex)
  end.

(** [DeviceFingerprint::device_id] (device/identity.rs:84-86). *)
Definition fp_device_id (fp : DeviceFingerprint) : DeviceId := DEVICE_ID_PREFIX ++ fp.
(** [DeviceFingerprint::tls_pin] (device/identity.rs:90-92). *)
Definition fp_tls_pin (fp : DeviceFingerprint) : string := TLS_PREFIX ++ fp.
(** [DeviceFingerprint::display_id] (device/identity.rs:96-101). *)
Definition fp_display_id (fp : DeviceFingerprint) : string :=
  DISPLAY_PREFIX ++ to_ascii_uppercase (str_take DISPLAY_HEX_LEN fp).

(** [DeviceIdentity] (device/identity.rs:132-136). *)
Record DeviceIdentity := mkDeviceIdentity {
  di_fingerprint : DeviceFingerprint;
  di_device_id : DeviceId;
  di_display_id : string;
}.

(** [DeviceIdentity::from_fingerprint] (device/identity.rs:140-148). *)
Definition DeviceIdentity_from_fingerprint (fp : DeviceFingerprint) : DeviceIdentity :=
  mkDeviceIdentity fp (fp_device_id fp) (fp_display_id fp).

(** [DeviceIdentity::parse] (device/identity.rs:150-152). *)
Definition DeviceIdentity_parse (raw : string) : result DeviceFingerprintParseError DeviceIdentity :=
  let? fp := DeviceFingerprint_parse raw in Ok (DeviceIdentity_from_fingerprint fp).

(** [parse_canonical_device_id] (device/identity.rs:326-337). *)
Definition parse_canonical_device_id (raw : string) : option DeviceFingerprint :=
  hex ← strip_prefix DEVICE_ID_PREFIX raw;
  if negb (str_len hex =? FINGERPRINT_HEX_LEN)%N || negb (str_all is_lower_hex hex) then None
  else match DeviceFingerprint_parse hex with Ok fp => Some fp | Err _ => None end.

(** [parse_legacy_alias] (device/identity.rs:339-349). *)
Definition parse_legacy_alias (raw : string) : option string :=
  hex ← strip_prefix_ignore_case DISPLAY_PREFIX raw;
  if negb (str_len hex =? N.of_nat DISPLAY_HEX_LEN)%N || negb (str_all is_hexdigit hex) then None
  else Some (DISPLAY_PREFIX ++ to_ascii_uppercase hex).

(** [DeviceIdentityResolutionError] (device/identity.rs:233-246). *)
Inductive DeviceIdentityResolutionError :=
| InvalidDeviceId (device_id : string)
| UnknownDevice (device_id : string)
| AmbiguousLegacyAlias (alias : string) (candidates : list DeviceId).

(** [StoredDeviceIdentity] (device/identity.rs:189-192). *)
Record StoredDeviceIdentity := mkStoredIdentity {
  sdi_device_id : DeviceId;
  sdi_display_id : string;
}.

(** [StoredDeviceIdentity::from] (device/identity.rs:223-230). *)
Definition StoredDeviceIdentity_from (i : DeviceIdentity) : StoredDeviceIdentity :=
  mkStoredIdentity (di_device_id i) (di_display_id i).

(** [StoredDeviceIdentity::parse] (device/identity.rs:195-210). *)
Definition StoredDeviceIdentity_parse (raw : DeviceId)
    : result DeviceIdentityResolutionError StoredDeviceIdentity :=
  match parse_canonical_device_id raw with
  | Some fp => Ok (StoredDeviceIdentity_from (DeviceIdentity_from_fingerprint fp))
  | None => match parse_legacy_alias raw with
            | Some display_id => Ok (mkStoredIdentity display_id display_id)
            | None => Err (InvalidDeviceId raw)
            end
  end.

(** [DeviceIdentityResolver] (device/identity.rs:255-257). *)
Definition DeviceIdentityResolver := gmap DeviceFingerprint DeviceIdentity.

Definition by_fingerprint (a b : DeviceFingerprint * DeviceIdentity) : Prop := String.leb a.1 b.1 = true.
#[global] Instance by_fingerprint_dec a b : Decision (by_fingerprint a b).
Proof. unfold by_fingerprint. apply _. Defined.

(** [DeviceIdentityResolver::identities] (device/identity.rs:311-313). *)
Definition resolver_identities (r : DeviceIdentityResolver) : list DeviceIdentity :=
  (merge_sort by_fingerprint (map_to_list r)).*2.

(** [DeviceIdentityResolver::insert] (device/identity.rs:266-270). *)
Definition resolver_insert (identity : DeviceIdentity) (r : DeviceIdentityResolver)
    : DeviceIdentityResolver * bool :=
  (<[di_fingerprint identity := identity]> r, negb (bool_decide (is_Some (r !! di_fingerprint identity)))).

(** [DeviceIdentityResolver::resolve] (device/identity.rs:273-307). *)
Definition resolve (r : DeviceIdentityResolver) (raw : DeviceId)
    : result DeviceIdentityResolutionError DeviceIdentity :=
  match parse_canonical_device_id raw with
  | Some fp => ok_or (r !! fp) (UnknownDevice raw)
  | None =>
      match parse_legacy_alias raw with
      | None => Err (InvalidDeviceId raw)
      | Some alias =>
          match List.filter (fun i => String.eqb (di_display_id i) alias) (resolver_identities r) with
          | [] => Err (UnknownDevice raw)
          | [identity] => Ok identity
          | matches => Err (AmbiguousLegacyAlias alias (di_device_id <$> matches))
          end
      end
  end.

(** ** What a fingerprint is *)

Definition fingerprint_ok (fp : string) : Prop :=
  str_len fp = FINGERPRINT_HEX_LEN /\ str_all is_lower_hex fp = true.

Definition identity_ok (i : DeviceIdentity) : Prop :=
  fingerprint_ok (di_fingerprint i) /\ i = DeviceIdentity_from_fingerprint (di_fingerprint i).

Lemma str_len_map f s : str_len (str_map f s) = str_len s.
Proof. unfold str_len. f_equal. induction s as [|c s IH]; simpl; congruence. Qed.

Lemma first_non_hex_none k s : first_non_hex k s = None <-> str_all is_hexdigit s = true.
Proof.
  revert k. induction s as [|c s IH]; intros k; simpl; [done|].
  destruct (is_hexdigit c); simpl; [apply IH|done].
Qed.

(** Every byte of the alphabet, checked. *)
Lemma all_ascii (p : ascii -> bool) :
  forallb p (map (fun n => ascii_of_nat n) (seq 0 256)) = true -> forall c, p c = true.
Proof.
  intros H c. rewrite forallb_forall in H. apply H. apply in_map_iff.
  exists (nat_of_ascii c). split; [apply ascii_nat_embedding|].
  apply in_seq. generalize (nat_ascii_bounded c). lia.
Qed.

Lemma lower_hex_char c : is_hexdigit c = true -> is_lower_hex (ascii_lower c) = true.
Proof.
  assert (H := all_ascii (fun c => implb (is_hexdigit c) (is_lower_hex (ascii_lower c)))
                 ltac:(vm_compute; reflexivity) c).
  simpl in H. by destruct (is_hexdigit c).
Qed.

Lemma lower_hex_stays c : is_lower_hex c = true -> ascii_lower c = c.
Proof.
  assert (H := all_ascii (fun c => implb (is_lower_hex c) (Ascii.eqb (ascii_lower c) c))
                 ltac:(vm_compute; reflexivity) c).
  simpl in H. destruct (is_lower_hex c); [|done]. intros _. by apply Ascii.eqb_eq.
Qed.

Lemma upper_hex_char c : is_lower_hex c = true -> is_hexdigit (ascii_upper c) = true.
Proof.
  assert (H := all_ascii (fun c => implb (is_lower_hex c) (is_hexdigit (ascii_upper c)))
                 ltac:(vm_compute; reflexivity) c).
  simpl in H. by destruct (is_lower_hex c).
Qed.

Lemma upper_idem c : ascii_upper (ascii_upper c) = ascii_upper c.
Proof.
  apply Ascii.eqb_eq, (all_ascii (fun c => Ascii.eqb (ascii_upper (ascii_upper c)) (ascii_upper c))).
  vm_compute. reflexivity.
Qed.

Lemma str_all_map (p q : ascii -> bool) f s :
  (forall c, p c = true -> q (f c) = true) -> str_all p s = true -> str_all q (str_map f s) = true.
Proof.
  intros Hf. induction s as [|c s IH]; simpl; [done|]. rewrite !andb_true_iff. intros [? ?].
  split; auto.
Qed.

Lemma lower_stays s : str_all is_lower_hex s = true -> to_ascii_lowercase s = s.
Proof.
  unfold to_ascii_lowercase. induction s as [|c s IH]; simpl; [done|].
  rewrite andb_true_iff. intros [Hc Hs]. by rewrite lower_hex_stays, IH.
Qed.

Lemma lower_hex_is_hex s : str_all is_lower_hex s = true -> str_all is_hexdigit s = true.
Proof.
  induction s as [|c s IH]; simpl; [done|]. rewrite !andb_true_iff. intros [Hc Hs].
  split; [|by apply IH]. unfold is_hexdigit. by rewrite Hc.
Qed.

Lemma parse_makes_ok raw fp : DeviceFingerprint_parse raw = Ok fp -> fingerprint_ok fp.
Proof.
  unfold DeviceFingerprint_parse. set (hex := default raw _).
  destruct (N.eqb_spec (str_len hex) FINGERPRINT_HEX_LEN) as [Hl|]; [|done]. simpl.
  destruct (first_non_hex 0 hex) eqn:Eh; [done|]. intros [= <-].
  apply first_non_hex_none in Eh. split; [by unfold to_ascii_lowercase; rewrite str_len_map|].
  by apply (str_all_map is_hexdigit); [apply lower_hex_char|].
Qed.

(** ** The projections *)

Lemma str_take_app p s : str_take (String.length p) (p ++ s) = p.
Proof. induction p as [|c p IH]; [by destruct s|]. rewrite str_app_cons. simpl. by rewrite IH. Qed.

Lemma str_drop_app p s : str_drop (String.length p) (p ++ s) = s.
Proof. induction p as [|c p IH]; [by destruct s|]. rewrite str_app_cons. simpl. apply IH. Qed.

Lemma strip_ignore_case_app p s : strip_prefix_ignore_case p (p ++ s) = Some s.
Proof.
  unfold strip_prefix_ignore_case. rewrite str_take_app, str_drop_app.
  unfold eq_ignore_ascii_case. by rewrite String.eqb_refl.
Qed.

Lemma str_take_len n s : (str_len (str_take n s) <= N.of_nat n)%N.
Proof.
  unfold str_len. revert s. induction n as [|n IH]; intros [|c s]; simpl; try lia.
  specialize (IH s). lia.
Qed.

Lemma str_take_full n s : (N.of_nat n <= str_len s)%N -> str_len (str_take n s) = N.of_nat n.
Proof.
  unfold str_len. revert s. induction n as [|n IH]; intros [|c s]; simpl; try lia.
  intros H. specialize (IH s). lia.
Qed.

Lemma str_take_drop n s : str_take n s ++ str_drop n s = s.
Proof.
  revert s. induction n as [|n IH]; intros [|c s]; simpl; try done. by rewrite str_app_cons, IH.
Qed.

Lemma str_all_take p n s : str_all p s = true -> str_all p (str_take n s) = true.
Proof.
  revert s. induction n as [|n IH]; intros [|c s]; simpl; try done.
  rewrite !andb_true_iff. intros [? ?]. split; [done|by apply IH].
Qed.

Lemma strip_ignore_case_len p s t :
  strip_prefix_ignore_case p s = Some t -> str_len s = (str_len p + str_len t)%N.
Proof.
  unfold strip_prefix_ignore_case, eq_ignore_ascii_case.
  destruct (String.eqb_spec (to_ascii_lowercase (str_take (String.length p) s)) (to_ascii_lowercase p))
    as [He|]; [|done].
  intros [= <-]. apply (f_equal str_len) in He. unfold to_ascii_lowercase in He.
  rewrite !str_len_map in He. rewrite <- (str_take_drop (String.length p) s) at 1.
  by rewrite str_len_app, He.
Qed.

Lemma parse_bare fp : fingerprint_ok fp -> DeviceFingerprint_parse fp = Ok fp.
Proof.
  intros [Hl Hh]. unfold DeviceFingerprint_parse.
  assert (Hn : strip_prefix_ignore_case TLS_PREFIX fp = None).
  { unfold strip_prefix_ignore_case, eq_ignore_ascii_case.
    destruct fp as [|c fp]; [done|]. cbn [str_all] in Hh. apply andb_true_iff in Hh as [Hc _].
    assert (Hs := all_ascii (fun c => implb (is_lower_hex c) (negb (Ascii.eqb c "s"%char)))
                    ltac:(vm_compute; reflexivity) c).
    cbn beta in Hs. rewrite Hc in Hs.
    destruct (String.eqb_spec (to_ascii_lowercase (str_take (String.length TLS_PREFIX) (String c fp)))
                (to_ascii_lowercase TLS_PREFIX)) as [He|]; [|done].
    apply (f_equal (fun s => match s with String d _ => d | EmptyString => c end)) in He.
    change (ascii_lower c = "s"%char) in He. rewrite (lower_hex_stays c Hc) in He. by rewrite He in Hs. }
  rewrite Hn. simpl default. rewrite Hl, N.eqb_refl. simpl negb. cbn iota.
  rewrite (proj2 (first_non_hex_none 0 fp)) by by apply lower_hex_is_hex.
  by rewrite lower_stays.
Qed.

Lemma parse_pin fp : fingerprint_ok fp -> DeviceFingerprint_parse (fp_tls_pin fp) = Ok fp.
Proof.
  intros Hok. assert (Hp := parse_bare fp Hok). destruct Hok as [Hl Hh].
  unfold DeviceFingerprint_parse, fp_tls_pin. rewrite strip_ignore_case_app. simpl default.
  rewrite Hl, N.eqb_refl. simpl negb. cbn iota.
  rewrite (proj2 (first_non_hex_none 0 fp)) by by apply lower_hex_is_hex.
  by rewrite lower_stays.
Qed.

Lemma canonical_iff raw fp :
  parse_canonical_device_id raw = Some fp <-> fingerprint_ok fp /\ raw = fp_device_id fp.
Proof.
  unfold parse_canonical_device_id. split.
  - intros (hex & ->%strip_prefix_Some & H)%bind_Some.
    destruct (N.eqb_spec (str_len hex) FINGERPRINT_HEX_LEN) as [Hl|]; [|done]. simpl in H.
    destruct (str_all is_lower_hex hex) eqn:Eh; [|done]. simpl in H.
    assert (Hok : fingerprint_ok hex) by done. rewrite (parse_bare hex Hok) in H.
    by injection H as <-.
  - intros [Hok ->]. unfold fp_device_id.
    rewrite (proj2 (strip_prefix_Some DEVICE_ID_PREFIX _ fp)) by done. simpl mbind.
    cbn [option_bind]. assert (Hp := parse_bare fp Hok). destruct Hok as [-> ->]. simpl. by rewrite Hp.
Qed.

Lemma alias_upper raw a : parse_legacy_alias raw = Some a -> parse_legacy_alias a = Some a.
Proof.
  unfold parse_legacy_alias at 1. intros (hex & _ & H)%bind_Some.
  destruct (N.eqb_spec (str_len hex) (N.of_nat DISPLAY_HEX_LEN)) as [Hl|]; [|done]. simpl in H.
  destruct (str_all is_hexdigit hex) eqn:Eh; [|done]. injection H as <-.
  unfold parse_legacy_alias. rewrite strip_ignore_case_app. cbn [mbind option_bind].
  unfold to_ascii_uppercase. rewrite str_len_map, Hl, N.eqb_refl. cbn [negb orb].
  assert (Hup := all_ascii (fun c => implb (is_hexdigit c) (is_hexdigit (ascii_upper c)))
                   ltac:(vm_compute; reflexivity)).
  rewrite (str_all_map is_hexdigit is_hexdigit); [| |done].
  - simpl. f_equal. f_equal. clear. induction hex as [|c s IH]; [done|]. simpl. by rewrite upper_idem, IH.
  - intros c Hc. specialize (Hup c). simpl in Hup. by rewrite Hc in Hup.
Qed.

Lemma display_is_alias fp : fingerprint_ok fp -> parse_legacy_alias (fp_display_id fp) = Some (fp_display_id fp).
Proof.
  intros [Hl Hh]. apply (alias_upper (DISPLAY_PREFIX ++ str_take DISPLAY_HEX_LEN fp)).
  unfold parse_legacy_alias. rewrite strip_ignore_case_app. cbn [mbind option_bind].
  rewrite str_take_full by (rewrite Hl; unfold FINGERPRINT_HEX_LEN, DISPLAY_HEX_LEN; lia).
  rewrite N.eqb_refl. cbn [negb orb].
  by rewrite (str_all_take _ _ _ (lower_hex_is_hex _ Hh)).
Qed.

Lemma canonical_not_alias raw fp : parse_canonical_device_id raw = Some fp -> parse_legacy_alias raw = None.
Proof.
  intros [[Hl _] ->]%canonical_iff. unfold parse_legacy_alias.
  destruct (strip_prefix_ignore_case DISPLAY_PREFIX (fp_device_id fp)) as [hex|] eqn:Es; [|done].
  apply strip_ignore_case_len in Es. unfold fp_device_id in Es. rewrite str_len_app, Hl in Es.
  unfold FINGERPRINT_HEX_LEN in Es. cbn [mbind option_bind].
  destruct (N.eqb_spec (str_len hex) (N.of_nat DISPLAY_HEX_LEN)) as [He|]; [|done].
  rewrite He in Es. vm_compute in Es. done.
Qed.

(** The fingerprint is the identity and every other spelling is
    a projection of it: whatever text [parse] accepts becomes 64 lowercase
    hexadecimal digits; the bare fingerprint and its TLS pin parse back to it;
    the canonical device id is read back exactly, is the only text read as it,
    and belongs to one fingerprint only; the display label is a valid legacy
    alias, already normalised, and never confused with a canonical id. *)
Theorem fingerprint_projections fp :
  (forall raw, DeviceFingerprint_parse raw = Ok fp -> fingerprint_ok fp) /\
  (fingerprint_ok fp ->
     DeviceFingerprint_parse fp = Ok fp /\ DeviceFingerprint_parse (fp_tls_pin fp) = Ok fp /\
     parse_canonical_device_id (fp_device_id fp) = Some fp /\
     (forall other, fp_device_id other = fp_device_id fp -> other = fp) /\
     parse_legacy_alias (fp_display_id fp) = Some (fp_display_id fp) /\
     parse_canonical_device_id (fp_display_id fp) = None) /\
  (forall raw, parse_canonical_device_id raw = Some fp ->
     raw = fp_device_id fp /\ fingerprint_ok fp /\ parse_legacy_alias raw = None).
Proof.
  split_and!.
  - intros raw. apply parse_makes_ok.
  - intros Hok. split_and!; [by apply parse_bare|by apply parse_pin|by apply canonical_iff| | |].
    + intros other He. unfold fp_device_id in He. by apply str_app_inj in He as [_ ?].
    + by apply display_is_alias.
    + destruct (parse_canonical_device_id (fp_display_id fp)) eqn:Ec; [|done].
      apply canonical_not_alias in Ec. by rewrite display_is_alias in Ec.
  - intros raw Hc. split_and!; [by apply canonical_iff in Hc as [_ ?]
                               |by apply canonical_iff in Hc as [? _]|by eapply canonical_not_alias].
Qed.

(** ** The resolver *)

(** What [insert] of well-formed identities maintains. *)
Definition resolver_ok (r : DeviceIdentityResolver) : Prop :=
  forall fp i, r !! fp = Some i -> fp = di_fingerprint i /\ identity_ok i.

Lemma resolver_insert_ok i r : identity_ok i -> resolver_ok r -> resolver_ok (resolver_insert i r).1.
Proof.
  intros Hi Hr fp j. simpl. intros [[<- <-]|[_ Hj]]%lookup_insert_Some; [done|by apply Hr].
Qed.

Lemma identities_in r i : resolver_ok r -> i ∈ resolver_identities r <-> r !! di_fingerprint i = Some i.
Proof.
  intros Hr. unfold resolver_identities. rewrite merge_sort_Permutation, list_elem_of_fmap. split.
  - intros ([fp j] & -> & Hj%elem_of_map_to_list). simpl. by destruct (Hr fp j Hj) as [<- _].
  - intros Hi. exists (di_fingerprint i, i). split; [done|by apply elem_of_map_to_list].
Qed.

Lemma identities_NoDup r : resolver_ok r -> NoDup (resolver_identities r).
Proof.
  intros Hr. unfold resolver_identities. rewrite merge_sort_Permutation.
  apply (NoDup_fmap_1 di_fingerprint). rewrite <- list_fmap_compose.
  assert (He : (di_fingerprint ∘ snd) <$> map_to_list r = (map_to_list r).*1).
  { apply list_fmap_ext. intros k [fp i] Hk. simpl.
    apply list_elem_of_lookup_2, elem_of_map_to_list in Hk. by destruct (Hr fp i Hk) as [<- _]. }
  rewrite He. apply NoDup_fst_map_to_list.
Qed.

(** The registered identities behind a label, in fingerprint order. *)
Definition labelled (r : DeviceIdentityResolver) (alias : string) : list DeviceIdentity :=
  List.filter (fun i => String.eqb (di_display_id i) alias) (resolver_identities r).

Lemma labelled_in r alias i :
  resolver_ok r -> i ∈ labelled r alias <-> r !! di_fingerprint i = Some i /\ di_display_id i = alias.
Proof.
  intros Hr. unfold labelled. rewrite list_elem_of_In, filter_In, <- list_elem_of_In.
  rewrite identities_in by done. by rewrite String.eqb_eq.
Qed.

(** A stored or remote id resolves to a registered device or to
    nothing.  A canonical id resolves to the device of exactly that
    fingerprint, if registered; a legacy label resolves exactly when one
    registered device has it, and when several have it the answer names every
    one of them and picks none; nothing is ever resolved to a device that was
    not registered. *)
Theorem resolver_exact r raw :
  resolver_ok r ->
  (forall fp, fingerprint_ok fp -> resolve r (fp_device_id fp) = ok_or (r !! fp) (UnknownDevice (fp_device_id fp))) /\
  (forall i, resolve r raw = Ok i ->
     r !! di_fingerprint i = Some i /\
     (raw = di_device_id i \/
      parse_legacy_alias raw = Some (di_display_id i) /\
      forall other, r !! di_fingerprint other = Some other ->
        di_display_id other = di_display_id i -> other = i)) /\
  (forall i alias, parse_legacy_alias raw = Some alias -> r !! di_fingerprint i = Some i ->
     di_display_id i = alias ->
     (forall other, r !! di_fingerprint other = Some other -> di_display_id other = alias -> other = i) ->
     resolve r raw = Ok i) /\
  (forall alias candidates, resolve r raw = Err (AmbiguousLegacyAlias alias candidates) ->
     2 <= length candidates /\ NoDup candidates /\
     forall id, id ∈ candidates <->
       exists i, r !! di_fingerprint i = Some i /\ di_display_id i = alias /\ di_device_id i = id).
Proof.
  intros Hr. assert (Hok : forall i, r !! di_fingerprint i = Some i -> identity_ok i)
    by (intros i Hi; by destruct (Hr _ _ Hi)).
  assert (Hone : forall alias l, labelled r alias = l -> NoDup l /\
    forall i, i ∈ l <-> r !! di_fingerprint i = Some i /\ di_display_id i = alias).
  { intros alias l <-. split; [|intros i; by apply labelled_in].
    apply NoDup_ListNoDup, List.NoDup_filter, NoDup_ListNoDup. by apply identities_NoDup. }
  unfold resolve. split_and!.
  - intros fp Hfp. by rewrite (proj2 (canonical_iff _ fp)).
  - intros i. destruct (parse_canonical_device_id raw) as [fp|] eqn:Ec.
    + destruct (r !! fp) as [j|] eqn:Ej; [|done]. intros [= ->].
      apply canonical_iff in Ec as [_ ->]. destruct (Hr fp i Ej) as [-> [_ Hi]]. split; [done|left].
      by rewrite Hi.
    + destruct (parse_legacy_alias raw) as [alias|]; [|done]. fold (labelled r alias).
      destruct (labelled r alias) as [|j [|k l]] eqn:El; [done| |done]. intros [= ->].
      destruct (Hone alias _ El) as [_ Hin]. destruct (proj1 (Hin i)) as [Hi <-]; [by left|].
      split; [done|right]. split; [done|]. intros other Ho Hd.
      assert (Hother : other ∈ [i]) by by apply Hin. by apply list_elem_of_singleton in Hother.
  - intros i alias Ha Hi Hd Huniq. destruct (parse_canonical_device_id raw) as [fp|] eqn:Ec.
    { apply canonical_not_alias in Ec. congruence. }
    rewrite Ha. fold (labelled r alias). destruct (labelled r alias) as [|j l] eqn:El;
      destruct (Hone alias _ El) as [Hnd Hin].
    { assert (i ∈ []) by by apply Hin. by apply not_elem_of_nil in H. }
    assert (Hall : forall x, x ∈ j :: l -> x = i) by (intros x [? ?]%Hin; by apply Huniq).
    rewrite (Hall j) by by left. destruct l as [|k l]; [done|].
    apply NoDup_cons in Hnd as [Hnj _]. destruct Hnj.
    rewrite (Hall j), <- (Hall k) by (rewrite ?elem_of_cons; auto). by left.
  - intros alias candidates. destruct (parse_canonical_device_id raw) as [fp|].
    { by destruct (r !! fp). }
    destruct (parse_legacy_alias raw) as [a|]; [|done]. fold (labelled r a).
    destruct (labelled r a) as [|j [|k l]] eqn:El; [done|done|]. intros [= <- Hc].
    assert (candidates = di_device_id <$> (j :: k :: l)) as -> by (by rewrite <- Hc). clear Hc.
    destruct (Hone a _ El) as [Hnd Hin]. rewrite length_fmap. split_and!; [simpl; lia| |].
    + apply NoDup_fmap_2_strong; [|done]. intros x y [Hx _]%Hin [Hy _]%Hin He.
      destruct (Hok x Hx) as [_ Hix], (Hok y Hy) as [_ Hiy]. rewrite Hix, Hiy in He.
      apply str_app_inj in He as [_ He]; [|done]. rewrite Hix, Hiy. by rewrite He.
    + intros id. rewrite list_elem_of_fmap. split.
      * intros (i & -> & Hi). exists i. apply Hin in Hi as [? ?]. by split_and!.
      * intros (i & Hi & Hd & <-). exists i. split; [done|]. by apply Hin.
Qed.

(** Two devices whose labels collide, and one more. *)
Module DemoIdentity.

Definition hex16 (d : string) : string := "abcdef0" ++ d ++ "abcdef01" ++ "abcdef01" ++ "abcdef01".
Definition fp_a : string := hex16 "1" ++ "00000000" ++ "00000000" ++ "00000000" ++ "00000000".
Definition fp_b : string := hex16 "1" ++ "00000000" ++ "00000000" ++ "00000000" ++ "00000001".
Definition fp_c : string := hex16 "2" ++ "00000000" ++ "00000000" ++ "00000000" ++ "00000000".

Definition resolver : DeviceIdentityResolver :=
  foldr (fun fp r => (resolver_insert (DeviceIdentity_from_fingerprint fp) r).1) ∅ [fp_a; fp_b; fp_c].

Lemma fp_ok fp : fp ∈ [fp_a; fp_b; fp_c] -> fingerprint_ok fp.
Proof.
  rewrite !elem_of_cons, elem_of_nil.
  by intros [->|[->|[->|[]]]]; split; vm_compute.
Qed.

Lemma resolver_good : resolver_ok resolver.
Proof.
  assert (Hid : forall fp, fp ∈ [fp_a; fp_b; fp_c] -> identity_ok (DeviceIdentity_from_fingerprint fp)).
  { intros fp Hfp. split; [by apply fp_ok|done]. }
  unfold resolver. cbn [foldr].
  repeat (apply resolver_insert_ok; [apply Hid; rewrite !elem_of_cons; auto|]).
  intros fp i Hi. discriminate Hi.
Qed.

End DemoIdentity.

Lemma resolver_exact_witness :
  resolve DemoIdentity.resolver "ylx-abcdef02" = Ok (DeviceIdentity_from_fingerprint DemoIdentity.fp_c) /\
  resolve DemoIdentity.resolver (fp_device_id DemoIdentity.fp_b)
  = Ok (DeviceIdentity_from_fingerprint DemoIdentity.fp_b).
Proof.
  destruct (resolver_exact DemoIdentity.resolver "ylx-abcdef02" DemoIdentity.resolver_good)
    as (Hcanon & _ & Hone & _). split.
  - apply (Hone _ "YLX-ABCDEF02"); [vm_compute; reflexivity|vm_compute; reflexivity|vm_compute; reflexivity|].
    intros other Ho Hd.
    assert (Hin := proj2 (labelled_in _ _ other DemoIdentity.resolver_good) (conj Ho Hd)).
    replace (labelled DemoIdentity.resolver "YLX-ABCDEF02")
      with [DeviceIdentity_from_fingerprint DemoIdentity.fp_c] in Hin by (vm_compute; reflexivity).
    by apply list_elem_of_singleton in Hin.
  - rewrite Hcanon; [vm_compute; reflexivity|]. apply DemoIdentity.fp_ok. by right; left.
Defined.
