(* ===== verification/Actor.v ===== *)
(** * Actor: one device's connection lifecycle (device/actor.rs)

The actor's fields are a record and its methods functions on it.  A method
that calls the Pi takes the reply as an argument (the capability ports are
not under src/'s control: any reply is possible); [Secret] is the string it
wraps.  The catalog and download payloads are forwarded unread, so their
types are parameters. *)

From Stdlib Require Import NArith Lia Ascii String.
From stdpp Require Import base numbers list strings.
From S2P Require Import Prelude Domain Device.

Local Open Scope string_scope.

(** ** Replies of the Pi *)

(** [PiClientErrorKind] (device/actor.rs:60-68). *)
Inductive PiClientErrorKind := Unauthorized | PiTimeout | PiOther.

(** [PiClientError] (device/actor.rs:73-76). *)
Record PiClientError := mkPiError { pe_kind : PiClientErrorKind; pe_message : string }.

(** [PairingCreatedView] (device/actor.rs:95-102). *)
Record PairingCreatedView := mkCreatedView {
  pc_attempt_id : string;
  pc_phase : PairingPhase;
  pc_poll_secret : string;
  pc_sas : string;
  pc_expires_at : string;
  pc_sas_publication_key_fingerprint : option string;
}.

(** [PairingStatusView] (device/actor.rs:109-119). *)
Record PairingStatusView := mkStatusView {
  ps_attempt_id : string;
  ps_phase : PairingPhase;
  ps_connection_token : option string;
  ps_sas : string;
  ps_expires_at : string;
  ps_sas_publication_key_fingerprint : option string;
}.

(** [HeartbeatOutcomeView] (device/actor.rs:123-126). *)
Record HeartbeatOutcomeView := mkHeartbeatView {
  hv_idle_timeout_ms : N;
  hv_absolute_expires_at : string;
}.

(** [DeviceInfoView] (device/actor.rs:130-136). *)
Record DeviceInfoView := mkInfoView {
  iv_capture_activity : CaptureActivityState;
  iv_media_admission : string;
  iv_publication_key_fingerprint : string;
}.

(** [DeleteSessionReceiptView] (device/actor.rs:231-235). *)
Record DeleteSessionReceiptView := mkReceiptView {
  rv_session_id : string;
  rv_revision : string;
  rv_deleted_at : string;
}.

#[global] Instance PiClientErrorKind_eq_dec : EqDecision PiClientErrorKind.
Proof. solve_decision. Defined.

(** ** Authenticated sessions *)

(** [AuthenticatedPiSession] (device/actor.rs:405-410). *)
Record AuthenticatedPiSession := mkSession {
  as_token : string;
  as_tls_pin : string;
  as_publication_key_fingerprint : option string;
  as_epoch : N;
}.

(** [AuthenticatedPiSessionError] (device/actor.rs:428-443). *)
Inductive AuthenticatedPiSessionError :=
| EmptyToken | EmptyTlsPin | InvalidPublicationKey (detail : string) | InvalidEpoch
| PublicationKeyChanged | MissingPublicationKey.

(** [AuthenticatedPiSessionError, Display] (device/actor.rs:428-443). *)
Definition session_error_text (e : AuthenticatedPiSessionError) : string :=
  match e with
  | EmptyToken => "authenticated Pi session token must not be empty"
  | EmptyTlsPin => "authenticated Pi session TLS pin must not be empty"
  | InvalidPublicationKey d => "authenticated Pi session publication key fingerprint is invalid: " ++ d
  | InvalidEpoch => "authenticated Pi session epoch must be greater than zero"
  | PublicationKeyChanged =>
      "device publication key identity changed since the SAS-confirmed pairing; re-pair to confirm the new key"
  | MissingPublicationKey => "authenticated Pi session has no SAS-confirmed publication key"
  end.

(** [From<AuthenticatedPiSessionError> for PiClientError] (device/actor.rs:445-452). *)
Definition session_error (e : AuthenticatedPiSessionError) : PiClientError :=
  mkPiError PiOther (session_error_text e).

(** [validate_publication_key_fingerprint] (device/actor.rs:565-582). *)
Definition validate_publication_key_fingerprint (value : string)
    : result AuthenticatedPiSessionError unit :=
  let refused := Err (InvalidPublicationKey "expected sha256:<64 lowercase hex>") in
  match strip_prefix "sha256:" value with
  | None => refused
  | Some hex => if negb (str_len hex =? 64)%N || negb (str_all is_lower_hex hex) then refused else Ok tt
  end.

(** [AuthenticatedPiSession::new] (device/actor.rs:459-485). *)
Definition AuthenticatedPiSession_new (token tls_pin : string) (publication_key : option string) (epoch : N)
    : result AuthenticatedPiSessionError AuthenticatedPiSession :=
  if String.eqb token "" then Err EmptyToken else
  if is_blank tls_pin then Err EmptyTlsPin else
  if (epoch =? 0)%N then Err InvalidEpoch else
  let? _ := match publication_key with
            | Some fingerprint => validate_publication_key_fingerprint fingerprint
            | None => Ok tt
            end in
  Ok (mkSession token tls_pin publication_key epoch).

(** [AuthenticatedPiSession::ensure_publication_key] (device/actor.rs:529-540). *)
Definition ensure_publication_key (s : AuthenticatedPiSession) (observed : string)
    : result AuthenticatedPiSessionError unit :=
  let? _ := validate_publication_key_fingerprint observed in
  match as_publication_key_fingerprint s with
  | Some expected => if String.eqb expected observed then Ok tt else Err PublicationKeyChanged
  | None => Ok tt
  end.

(** [AuthenticatedPiSession::bind_publication_key] (device/actor.rs:545-554). *)
Definition bind_publication_key (s : AuthenticatedPiSession) (observed : string)
    : result AuthenticatedPiSessionError AuthenticatedPiSession :=
  let? _ := ensure_publication_key s observed in
  Ok (mkSession (as_token s) (as_tls_pin s) (Some observed) (as_epoch s)).

(** ** Outcomes *)

(** [PairingAttemptInfo] (device/actor.rs:592-596). *)
Record PairingAttemptInfo := mkAttemptInfo {
  pa_attempt_id : string;
  pa_sas : string;
  pa_expires_at : string;
}.

(** [PollPairingOutcome] (device/actor.rs:600-620). *)
Inductive PollPairingOutcome :=
| PpNotPairing | PpStale | PpStillPending | PpConnected (epoch : N) | PpRejected | PpExpired
| PpError (kind : PiClientErrorKind).

(** [HeartbeatApplyOutcome] (device/actor.rs:624-639). *)
Inductive HeartbeatApplyOutcome :=
| HbNotConnected | HbStale | HbRenewed | HbExpired | HbError (kind : PiClientErrorKind).

(** ** The actor *)

(** [DeviceActor] (device/actor.rs:650-668). *)
Record DeviceActor := mkActor {
  ac_device : Device;
  ac_poll_secret : option string;
  ac_authenticated_session : option AuthenticatedPiSession;
  ac_next_epoch : N;
  ac_media_admission : option string;
  ac_publication_key_fingerprint : option string;
  ac_pending_sas_publication_key_fingerprint : option string;
  ac_sas_publication_key_fingerprint : option string;
}.

(** [DeviceActor::new] (device/actor.rs:671-682). *)
Definition DeviceActor_new (d : Device) : DeviceActor := mkActor d None None 0 None None None None.

(** [DeviceActor::connection_state] (device/actor.rs:688-690). *)
Definition connection_state (a : DeviceActor) : ConnectionState := dev_connection (ac_device a).

(** [DeviceActor::current_epoch] (device/actor.rs:698-703). *)
Definition current_epoch (a : DeviceActor) : option N :=
  match connection_state a with Connected _ epoch => Some epoch | _ => None end.

Definition with_connection (c : ConnectionState) (d : Device) : Device :=
  mkDevice (dev_device_id d) (dev_name d) (dev_tls_fingerprint d) (dev_discovery d) c
    (dev_capture_activity d).
Definition with_capture (c : CaptureActivityState) (d : Device) : Device :=
  mkDevice (dev_device_id d) (dev_name d) (dev_tls_fingerprint d) (dev_discovery d)
    (dev_connection d) c.

(** [Option::or]. *)
Definition or_option {A : Type} (x y : option A) : option A := match x with Some _ => x | None => y end.

(** [DeviceActor::sas_publication_key_fingerprint] (device/actor.rs:725-730). *)
Definition sas_publication_key_fingerprint (a : DeviceActor) : option string :=
  or_option (ac_authenticated_session a ≫= as_publication_key_fingerprint)
    (ac_sas_publication_key_fingerprint a).

(** [DeviceActor::expected_publication_key_fingerprint] (device/actor.rs:748-754). *)
Definition expected_publication_key_fingerprint (a : DeviceActor) : option string :=
  or_option (sas_publication_key_fingerprint a) (ac_publication_key_fingerprint a).

(** [DeviceActor::ensure_sas_confirmed_publication_key] (device/actor.rs:759-776). *)
Definition ensure_sas_confirmed_publication_key (a : DeviceActor) (observed : string)
    : result PiClientError unit :=
  match ac_authenticated_session a with
  | Some session => rmap_err session_error (ensure_publication_key session observed)
  | None =>
      match ac_sas_publication_key_fingerprint a with
      | Some confirmed =>
          if String.eqb confirmed observed then Ok tt
          else Err (mkPiError PiOther
                 ("device publication key identity changed since the SAS-confirmed pairing (confirmed "
                  ++ confirmed ++ ", device now presents " ++ observed
                  ++ "); re-pair to confirm the new key"))
      | None => Ok tt
      end
  end.

(** [DeviceActor::apply_pairing_created] (device/actor.rs:782-804). *)
Definition apply_pairing_created (created : PairingCreatedView) (a : DeviceActor)
    : DeviceActor * PairingAttemptInfo :=
  (mkActor (with_connection (Pairing (pc_attempt_id created) (pc_phase created)) (ac_device a))
     (Some (pc_poll_secret created)) None (ac_next_epoch a) (ac_media_admission a) None
     (pc_sas_publication_key_fingerprint created) None,
   mkAttemptInfo (pc_attempt_id created) (pc_sas created) (pc_expires_at created)).

(** [DeviceActor::checkout_pairing_poll] (device/actor.rs:838-845). *)
Definition checkout_pairing_poll (a : DeviceActor) : option (string * string) :=
  match connection_state a, ac_poll_secret a with
  | Pairing attempt_id _, Some secret => Some (attempt_id, secret)
  | _, _ => None
  end.

(** The actor back at [c], its credentials and identities gone. *)
Definition forget_session (c : ConnectionState) (a : DeviceActor) : DeviceActor :=
  mkActor (with_connection c (ac_device a)) None None (ac_next_epoch a) (ac_media_admission a)
    None None None.

(** [DeviceActor::apply_pairing_status, identity] (device/actor.rs:882-895):
    [None] when the identity the SAS covered has moved. *)
Definition confirmed_identity (created polled : option string) : option (option string) :=
  match created, polled with
  | Some c, Some p => if String.eqb c p then Some (Some p) else None
  | _, _ => Some (or_option polled created)
  end.

(** [DeviceActor::apply_pairing_status, allowed] (device/actor.rs:871-922). *)
Definition apply_allowed (attempt : string) (status : PairingStatusView) (a : DeviceActor)
    : DeviceActor * PollPairingOutcome :=
  let device c := with_connection c (ac_device a) in
  match ps_connection_token status with
  | None =>
      (mkActor (device Disconnected) None (ac_authenticated_session a) (ac_next_epoch a)
         (ac_media_admission a) (ac_publication_key_fingerprint a) None
         (ac_sas_publication_key_fingerprint a), PpError PiOther)
  | Some token =>
      match confirmed_identity (ac_pending_sas_publication_key_fingerprint a)
              (ps_sas_publication_key_fingerprint status) with
      | None =>
          (mkActor (device Disconnected) None (ac_authenticated_session a) (ac_next_epoch a)
             (ac_media_admission a) (ac_publication_key_fingerprint a) None
             (ac_sas_publication_key_fingerprint a), PpError PiOther)
      | Some confirmed =>
          let epoch := u64_add (ac_next_epoch a) 1 in
          match AuthenticatedPiSession_new token (dev_tls_fingerprint (ac_device a)) confirmed epoch with
          | Err _ =>
              (mkActor (device Disconnected) None None epoch (ac_media_admission a)
                 (ac_publication_key_fingerprint a) None None, PpError PiOther)
          | Ok session =>
              (mkActor (device (Connected attempt epoch)) None (Some session) epoch
                 (ac_media_admission a) None None confirmed, PpConnected epoch)
          end
      end
  end.

(** [DeviceActor::apply_pairing_status] (device/actor.rs:852-946). *)
Definition apply_pairing_status (response_attempt_id : string)
    (reply : result PiClientError PairingStatusView) (a : DeviceActor)
    : DeviceActor * PollPairingOutcome :=
  match connection_state a with
  | Pairing attempt_id _ =>
      if negb (String.eqb attempt_id response_attempt_id) then (a, PpStale) else
      match reply with
      | Err e => (a, PpError (pe_kind e))
      | Ok status =>
          match ps_phase status with
          | PhPending =>
              (mkActor (with_connection (Pairing response_attempt_id PhPending) (ac_device a))
                 (ac_poll_secret a) (ac_authenticated_session a) (ac_next_epoch a)
                 (ac_media_admission a) (ac_publication_key_fingerprint a)
                 (ac_pending_sas_publication_key_fingerprint a) (ac_sas_publication_key_fingerprint a),
               PpStillPending)
          | PhAllowed => apply_allowed response_attempt_id status a
          | PhRejected | PhCancelled => (forget_session Disconnected a, PpRejected)
          | PhExpired => (forget_session (Expired "pairing attempt expired") a, PpExpired)
          end
      end
  | _ => (a, PpStale)
  end.

(** [DeviceActor::apply_heartbeat_result] (device/actor.rs:967-990). *)
Definition apply_heartbeat_result (request_epoch : N)
    (reply : result PiClientError HeartbeatOutcomeView) (a : DeviceActor)
    : DeviceActor * HeartbeatApplyOutcome :=
  match connection_state a with
  | Connected _ epoch =>
      if negb (epoch =? request_epoch)%N then (a, HbStale) else
      match reply with
      | Ok _ => (a, HbRenewed)
      | Err e =>
          if bool_decide (pe_kind e = Unauthorized)
          then (mkActor (with_connection (Expired ("heartbeat failed: " ++ pe_message e)) (ac_device a))
                  (ac_poll_secret a) None (ac_next_epoch a) (ac_media_admission a) None
                  (ac_pending_sas_publication_key_fingerprint a) None, HbExpired)
          else (a, HbError (pe_kind e))
      end
  | _ => (a, HbStale)
  end.

(** [DeviceActor::clear_connection_state] (device/actor.rs:1009-1016). *)
Definition clear_connection_state (a : DeviceActor) : DeviceActor := forget_session Disconnected a.

(** [DeviceActor::apply_device_info] (device/actor.rs:1045-1057). *)
Definition apply_device_info (info : DeviceInfoView) (a : DeviceActor)
    : DeviceActor * result PiClientError unit :=
  let observed := iv_publication_key_fingerprint info in
  let bound :=
    let? _ := ensure_sas_confirmed_publication_key a observed in
    match ac_authenticated_session a with
    | Some session => let? s := rmap_err session_error (bind_publication_key session observed) in Ok (Some s)
    | None => Ok None
    end in
  match bound with
  | Err e => (a, Err e)
  | Ok session =>
      (mkActor (with_capture (iv_capture_activity info) (ac_device a)) (ac_poll_secret a) session
         (ac_next_epoch a) (Some (iv_media_admission info)) (Some observed)
         (ac_pending_sas_publication_key_fingerprint a) (ac_sas_publication_key_fingerprint a), Ok tt)
  end.

(** ** Calls made by the owner of the actor *)

(** [DeviceActor::start_pairing_with] (device/actor.rs:809-817). *)
Definition actor_start_pairing_with (reply : result PiClientError PairingCreatedView) (a : DeviceActor)
    : DeviceActor * result PiClientError PairingAttemptInfo :=
  match reply with
  | Err e => (a, Err e)
  | Ok created => let '(a', info) := apply_pairing_created created a in (a', Ok info)
  end.

(** [DeviceActor::poll_pairing_with] (device/actor.rs:822-828). *)
Definition actor_poll_pairing_with
    (call : string -> string -> result PiClientError PairingStatusView) (a : DeviceActor)
    : DeviceActor * PollPairingOutcome :=
  match checkout_pairing_poll a with
  | None => (a, PpNotPairing)
  | Some (attempt_id, poll_secret) => apply_pairing_status attempt_id (call attempt_id poll_secret) a
  end.

(** [DeviceActor::heartbeat_with] (device/actor.rs:951-961). *)
Definition actor_heartbeat_with
    (call : AuthenticatedPiSession -> result PiClientError HeartbeatOutcomeView) (a : DeviceActor)
    : DeviceActor * HeartbeatApplyOutcome :=
  match ac_authenticated_session a with
  | None => (a, HbNotConnected)
  | Some session => apply_heartbeat_result (as_epoch session) (call session) a
  end.

(** [DeviceActor::disconnect_with] (device/actor.rs:995-1005). *)
Definition actor_disconnect_with (call : AuthenticatedPiSession -> result PiClientError unit)
    (a : DeviceActor) : DeviceActor * result PiClientError unit :=
  (clear_connection_state a,
   match ac_authenticated_session a with Some session => call session | None => Ok tt end).

Definition without_session (operation : string) : PiClientError :=
  mkPiError PiOther (operation ++ " called without an authenticated session").

(** [DeviceActor::refresh_capture_activity_with] (device/actor.rs:1021-1034). *)
Definition actor_refresh_with (call : AuthenticatedPiSession -> result PiClientError DeviceInfoView)
    (a : DeviceActor) : DeviceActor * result PiClientError unit :=
  match ac_authenticated_session a with
  | None => (a, Err (without_session "refresh_capture_activity"))
  | Some session => match call session with
                    | Err e => (a, Err e)
                    | Ok info => apply_device_info info a
                    end
  end.

(** A call that borrows the session and returns what the port returns. *)
Definition with_session {A : Type} (operation : string)
    (call : AuthenticatedPiSession -> result PiClientError A) (a : DeviceActor) : result PiClientError A :=
  match ac_authenticated_session a with
  | None => Err (without_session operation)
  | Some session => call session
  end.

Section payloads.
Context {Page Detail File Head : Type}.

(** [DeviceActor::list_sessions_with] (device/actor.rs:1061-1075). *)
Definition actor_list_sessions_with
    (call : AuthenticatedPiSession -> option string -> option N -> result PiClientError Page)
    (cursor : option string) (limit : option N) (a : DeviceActor) : result PiClientError Page :=
  with_session "list_sessions" (fun s => call s cursor limit) a.

(** [DeviceActor::get_session_with] (device/actor.rs:1080-1093). *)
Definition actor_get_session_with
    (call : AuthenticatedPiSession -> string -> result PiClientError Detail)
    (session_id : string) (a : DeviceActor) : result PiClientError Detail :=
  with_session "get_session" (fun s => call s session_id) a.

(** [DeviceActor::delete_session_with] (device/actor.rs:1097-1112). *)
Definition actor_delete_session_with
    (call : AuthenticatedPiSession -> string -> string -> string
            -> result PiClientError DeleteSessionReceiptView)
    (session_id if_match_revision idempotency_key : string) (a : DeviceActor)
    : result PiClientError DeleteSessionReceiptView :=
  with_session "delete_session" (fun s => call s session_id if_match_revision idempotency_key) a.

(** [ByteRangeRequest] (device/actor.rs:242-246). *)
Inductive ByteRangeRequest :=
| BrFrom (start : N)
| BrBounded (start last : N)
| BrSuffix (length : N).

(** [DeviceActor::download_file_with] (device/actor.rs:1116-1132). *)
Definition actor_download_file_with
    (call : AuthenticatedPiSession -> string -> string -> option string -> option ByteRangeRequest
            -> result PiClientError File)
    (session_id file_id : string) (if_match : option string) (range : option ByteRangeRequest)
    (a : DeviceActor) : result PiClientError File :=
  with_session "download_file" (fun s => call s session_id file_id if_match range) a.

(** [DeviceActor::head_file_with] (device/actor.rs:1135-1150). *)
Definition actor_head_file_with
    (call : AuthenticatedPiSession -> string -> string -> option string -> result PiClientError Head)
    (session_id file_id : string) (if_match : option string) (a : DeviceActor)
    : result PiClientError Head :=
  with_session "head_file" (fun s => call s session_id file_id if_match) a.

End payloads.

(** ** Runs *)

(** What can happen to an actor while its lock is held. *)
Inductive ActorOp :=
| AoCreated (created : PairingCreatedView)
| AoStatus (attempt : string) (reply : result PiClientError PairingStatusView)
| AoHeartbeat (epoch : N) (reply : result PiClientError HeartbeatOutcomeView)
| AoInfo (info : DeviceInfoView)
| AoClear.

Definition run_actor (op : ActorOp) (a : DeviceActor) : DeviceActor :=
  match op with
  | AoCreated created => (apply_pairing_created created a).1
  | AoStatus attempt reply => (apply_pairing_status attempt reply a).1
  | AoHeartbeat epoch reply => (apply_heartbeat_result epoch reply a).1
  | AoInfo info => (apply_device_info info a).1
  | AoClear => clear_connection_state a
  end.

(** ** The invariant *)

Definition key_valid (k : string) : Prop := validate_publication_key_fingerprint k = Ok tt.

(** A session as [AuthenticatedPiSession::new] makes it. *)
Record session_ok (s : AuthenticatedPiSession) : Prop := {
  so_token : as_token s <> "";
  so_pin : is_blank (as_tls_pin s) = false;
  so_epoch : (1 <= as_epoch s)%N;
  so_key : forall k, as_publication_key_fingerprint s = Some k -> key_valid k;
}.

(** What the connection state says of the credentials. *)
Definition credentials_ok (a : DeviceActor) : Prop :=
  match connection_state a with
  | Connected _ epoch =>
      ac_poll_secret a = None /\
      exists s, ac_authenticated_session a = Some s /\ session_ok s /\ as_epoch s = epoch /\
        (epoch <= ac_next_epoch a)%N /\ as_tls_pin s = dev_tls_fingerprint (ac_device a) /\
        forall k, ac_sas_publication_key_fingerprint a = Some k -> as_publication_key_fingerprint s = Some k
  | Pairing _ _ => ac_authenticated_session a = None /\ is_Some (ac_poll_secret a) /\
                   ac_sas_publication_key_fingerprint a = None
  | _ => ac_authenticated_session a = None /\ ac_poll_secret a = None
  end.

Lemma session_new_ok token pin key epoch s :
  AuthenticatedPiSession_new token pin key epoch = Ok s ->
  session_ok s /\ as_epoch s = epoch /\ as_tls_pin s = pin /\ as_publication_key_fingerprint s = key /\
  as_token s = token.
Proof.
  unfold AuthenticatedPiSession_new. destruct (String.eqb_spec token "") as [|Ht]; [done|].
  destruct (is_blank pin) eqn:Ep; [done|]. destruct (N.eqb_spec epoch 0) as [|He]; [done|].
  intros ([] & Hk & [= <-])%rbind_ok. split_and!; [|done..].
  split; simpl; [done|done|lia|]. intros k ->. exact Hk.
Qed.

Lemma bind_key_ok s observed s' :
  bind_publication_key s observed = Ok s' ->
  s' = mkSession (as_token s) (as_tls_pin s) (Some observed) (as_epoch s) /\ key_valid observed /\
  forall k, as_publication_key_fingerprint s = Some k -> k = observed.
Proof.
  unfold bind_publication_key, ensure_publication_key.
  intros ([] & ([] & Hv & He)%rbind_ok & [= <-])%rbind_ok. split_and!; [done|done|].
  intros k Hk. rewrite Hk in He. by destruct (String.eqb_spec k observed).
Qed.

Lemma device_info_ok info a a' :
  apply_device_info info a = (a', Ok tt) ->
  connection_state a' = connection_state a /\ ac_next_epoch a' = ac_next_epoch a /\
  ac_poll_secret a' = ac_poll_secret a /\
  ac_sas_publication_key_fingerprint a' = ac_sas_publication_key_fingerprint a /\
  dev_tls_fingerprint (ac_device a') = dev_tls_fingerprint (ac_device a) /\
  match ac_authenticated_session a with
  | Some s => exists s', bind_publication_key s (iv_publication_key_fingerprint info) = Ok s' /\
                ac_authenticated_session a' = Some s'
  | None => ac_authenticated_session a' = None
  end.
Proof.
  unfold apply_device_info. destruct (rbind _ _) as [session|e] eqn:Eb; [|done]. intros [= <-].
  split_and!; try done. simpl. apply rbind_ok in Eb as (u & _ & Eb).
  destruct (ac_authenticated_session a) as [s|]; [|by injection Eb as <-].
  apply rbind_ok in Eb as (s' & Hs%rmap_err_ok & [= <-]). eauto.
Qed.

Lemma device_info_err info a a' e : apply_device_info info a = (a', Err e) -> a' = a.
Proof. unfold apply_device_info. destruct (rbind _ _); [done|]. by intros [= <- _]. Qed.

Lemma device_info_credentials info a a' :
  credentials_ok a -> apply_device_info info a = (a', Ok tt) -> credentials_ok a'.
Proof.
  intros Hok (Hc & Hn & Hp & Hsas & Ht & Hs)%device_info_ok. unfold credentials_ok in *.
  rewrite Hc, Hn, Hp, Hsas, Ht.
  destruct (connection_state a) as [|att ph|c e|];
    [by destruct Hok as [Hno ?]; rewrite Hno in Hs|by destruct Hok as [Hno ?]; rewrite Hno in Hs|
    |by destruct Hok as [Hno ?]; rewrite Hno in Hs].
  destruct Hok as (Hpoll & s & Hses & [T1 T2 T3 T4] & He & Hle & Hpin & Hk). rewrite Hses in Hs.
  destruct Hs as (s' & Hb & Hs'). apply bind_key_ok in Hb as (-> & Hv & Huniq).
  split; [done|]. eexists. split; [exact Hs'|]. split_and!; simpl; try done.
  - split; simpl; try done. by intros k [= <-].
  - intros k Hk'. f_equal. symmetry. apply Huniq. by apply Hk.
Qed.

Lemma allowed_ok attempt status a :
  credentials_ok a -> (exists phase, connection_state a = Pairing attempt phase) ->
  (ac_next_epoch a < u64_max)%N ->
  let '(a', out) := apply_allowed attempt status a in
  credentials_ok a' /\ (ac_next_epoch a <= ac_next_epoch a' <= ac_next_epoch a + 1)%N /\
  (forall e, current_epoch a' = Some e -> e = (ac_next_epoch a + 1)%N) /\
  (forall e, out = PpConnected e <-> current_epoch a' = Some e).
Proof.
  intros Hok [phase Hc] Hlt. unfold credentials_ok in Hok. rewrite Hc in Hok.
  destruct Hok as (Hs & _ & _). unfold apply_allowed.
  destruct (ps_connection_token status) as [token|]; [|by rewrite Hs; split_and!; simpl; try lia].
  destruct (confirmed_identity _ _) as [confirmed|]; [|by rewrite Hs; split_and!; simpl; try lia].
  rewrite u64_add_small by lia.
  destruct (AuthenticatedPiSession_new _ _ _ _) as [s|e] eqn:Es; [|by split_and!; simpl; try lia].
  destruct (session_new_ok _ _ _ _ _ Es) as (Hso & He & Hp & Hk & _).
  split_and!; simpl; try lia.
  - split; [done|]. exists s. split_and!; try done; simpl. intros k. by rewrite Hk.
  - intros e. unfold current_epoch. simpl. by intros [= <-].
  - intros e. unfold current_epoch. simpl. split; by intros [= <-].
Qed.

(** One operation: the invariant, and how far the epoch may move. *)
Lemma run_actor_ok op a :
  credentials_ok a -> (ac_next_epoch a < u64_max)%N ->
  let a' := run_actor op a in
  credentials_ok a' /\ (ac_next_epoch a <= ac_next_epoch a' <= ac_next_epoch a + 1)%N /\
  (forall e, current_epoch a' = Some e -> current_epoch a = Some e \/ e = (ac_next_epoch a + 1)%N).
Proof.
  intros Hok Hlt. assert (Hsame : credentials_ok a /\ (ac_next_epoch a <= ac_next_epoch a <= ac_next_epoch a + 1)%N /\
    (forall e, current_epoch a = Some e -> current_epoch a = Some e \/ e = (ac_next_epoch a + 1)%N))
    by (split_and!; try lia; auto).
  destruct op as [created|attempt reply|epoch reply|info|]; simpl.
  - by split_and!; simpl; try lia.
  - unfold apply_pairing_status. destruct (connection_state a) as [|att phase| |] eqn:Ec; try exact Hsame.
    destruct (String.eqb_spec att attempt) as [->|]; [|exact Hsame]. simpl negb. cbn iota.
    destruct reply as [status|e]; [|exact Hsame].
    destruct (ps_phase status); try (by split_and!; simpl; try lia).
    + unfold credentials_ok in Hok. rewrite Ec in Hok. by split_and!; simpl; try lia.
    + assert (Ha := allowed_ok attempt status a Hok ltac:(eauto) Hlt).
      destruct (apply_allowed attempt status a) as [a' out]. destruct Ha as (? & ? & He & _).
      cbn [fst]; split_and!; try done; try lia. intros e He'. right. by apply He.
  - unfold apply_heartbeat_result. destruct (connection_state a) as [| |c e|] eqn:Ec; try exact Hsame.
    destruct (negb _); [exact Hsame|]. destruct reply as [r|err]; [exact Hsame|].
    case_bool_decide; [|exact Hsame]. unfold credentials_ok in Hok. rewrite Ec in Hok.
    destruct Hok as [Hpoll _]. by split_and!; simpl; try lia.
  - destruct (apply_device_info info a) as [a' [[]|e]] eqn:Ei;
      [|apply device_info_err in Ei as ->; exact Hsame].
    assert (Hok' := device_info_credentials info a a' Hok Ei).
    apply device_info_ok in Ei as (Hc & Hn & _). cbn [fst]. unfold current_epoch. rewrite Hc, Hn.
    split_and!; [done|lia|lia|by left].
  - by split_and!; simpl; try lia.
Qed.

(** ** What a session is bound to *)

(** An operation that leaves the epoch alone leaves the session's token, pin
    and bound key alone. *)
Lemma same_epoch_same_session op a e s :
  credentials_ok a -> (ac_next_epoch a < u64_max)%N -> current_epoch a = Some e ->
  ac_authenticated_session a = Some s -> current_epoch (run_actor op a) = Some e ->
  exists s', ac_authenticated_session (run_actor op a) = Some s' /\ as_token s' = as_token s /\
    as_tls_pin s' = as_tls_pin s /\ as_epoch s' = as_epoch s /\
    forall k, as_publication_key_fingerprint s = Some k -> as_publication_key_fingerprint s' = Some k.
Proof.
  intros Hok Hlt He Hs He'. assert (Hsame : forall b, b = a -> exists s',
    ac_authenticated_session b = Some s' /\ as_token s' = as_token s /\ as_tls_pin s' = as_tls_pin s /\
    as_epoch s' = as_epoch s /\
    forall k, as_publication_key_fingerprint s = Some k -> as_publication_key_fingerprint s' = Some k)
    by (intros b ->; by exists s).
  destruct op as [created|attempt reply|epoch reply|info|]; simpl in *; try done.
  - unfold apply_pairing_status, current_epoch in *. destruct (connection_state a) eqn:Ec; try done.
    by apply Hsame.
  - unfold apply_heartbeat_result in *. destruct (connection_state a) eqn:Ec; try by apply Hsame.
    destruct (negb _); [by apply Hsame|]. destruct reply; [by apply Hsame|].
    case_bool_decide; [done|by apply Hsame].
  - destruct (apply_device_info info a) as [a' [[]|err]] eqn:Ei;
      [|apply device_info_err in Ei; by apply Hsame].
    apply device_info_ok in Ei as (_ & _ & _ & _ & _ & Hb). rewrite Hs in Hb.
    destruct Hb as (s' & Hbind & Hs'). apply bind_key_ok in Hbind as (-> & _ & Huniq). simpl.
    eexists. split; [exact Hs'|]. split_and!; try done. intros k Hk. simpl. by rewrite (Huniq k Hk).
Qed.

(** Trust is pinned for the life of a connection.  While the connection
    epoch does not change, no reply of the device changes the session's bearer
    token, TLS pin or bound publication key; a device that presents another
    publication key is refused and nothing of its answer is kept; and a
    pairing connects only as the answer to the current attempt, at a fresh
    epoch, with the token delivered, pinned to the device's own TLS
    fingerprint and bound to the identity the short authentication string
    covered, which must not have moved since the attempt was created. *)
Theorem publication_key_pinned a :
  credentials_ok a -> (ac_next_epoch a < u64_max)%N ->
  (forall op e s, current_epoch a = Some e -> ac_authenticated_session a = Some s ->
     current_epoch (run_actor op a) = Some e ->
     exists s', ac_authenticated_session (run_actor op a) = Some s' /\ as_token s' = as_token s /\
       as_tls_pin s' = as_tls_pin s /\
       forall k, as_publication_key_fingerprint s = Some k -> as_publication_key_fingerprint s' = Some k) /\
  (forall info s k, ac_authenticated_session a = Some s -> as_publication_key_fingerprint s = Some k ->
     iv_publication_key_fingerprint info <> k ->
     exists error, apply_device_info info a = (a, Err error)) /\
  (forall attempt reply a' epoch, apply_pairing_status attempt reply a = (a', PpConnected epoch) ->
     exists status token s, reply = Ok status /\ ps_connection_token status = Some token /\
       fst <$> checkout_pairing_poll a = Some attempt /\ epoch = (ac_next_epoch a + 1)%N /\
       ac_authenticated_session a' = Some s /\ as_token s = token /\ as_epoch s = epoch /\
       as_tls_pin s = dev_tls_fingerprint (ac_device a) /\
       (forall k, ps_sas_publication_key_fingerprint status = Some k ->
          as_publication_key_fingerprint s = Some k) /\
       (forall k, ac_pending_sas_publication_key_fingerprint a = Some k ->
          as_publication_key_fingerprint s = Some k)).
Proof.
  intros Hok Hlt. split_and!.
  - intros op e s He Hs He'.
    destruct (same_epoch_same_session op a e s Hok Hlt He Hs He') as (s' & H1 & H2 & H3 & _ & H4).
    by exists s'.
  - intros info s k Hs Hk Hne. unfold apply_device_info, ensure_sas_confirmed_publication_key.
    rewrite Hs. unfold ensure_publication_key. rewrite Hk.
    destruct (validate_publication_key_fingerprint _) as [[]|e]; simpl; [|by eexists].
    destruct (String.eqb_spec k (iv_publication_key_fingerprint info)); [congruence|]. by eexists.
  - intros attempt reply a' epoch. unfold apply_pairing_status.
    destruct (connection_state a) as [|att ph| |] eqn:Ec; try done.
    destruct (String.eqb_spec att attempt) as [->|]; [|done]. simpl negb. cbn iota.
    destruct reply as [status|e]; [|done]. destruct (ps_phase status); try done.
    unfold apply_allowed. destruct (ps_connection_token status) as [token|] eqn:Et; [|done].
    destruct (confirmed_identity _ _) as [confirmed|] eqn:Eci; [|done].
    rewrite u64_add_small by lia.
    destruct (AuthenticatedPiSession_new _ _ _ _) as [s|e] eqn:Es; [|done]. intros [= <- <-].
    destruct (session_new_ok _ _ _ _ _ Es) as (_ & He & Hp & Hk & Htok).
    exists status, token, s. unfold checkout_pairing_poll. rewrite Ec.
    unfold credentials_ok in Hok. rewrite Ec in Hok. destruct Hok as (_ & [secret Hsec] & _).
    rewrite Hsec. split_and!; try done; intros k Hkey; rewrite Hk; unfold confirmed_identity in Eci;
      rewrite Hkey in Eci.
    + destruct (ac_pending_sas_publication_key_fingerprint a) as [c|]; [|by injection Eci as <-].
      destruct (String.eqb c k); [by injection Eci as <-|done].
    + destruct (ps_sas_publication_key_fingerprint status) as [c|]; [|by injection Eci as <-].
      destruct (String.eqb_spec k c) as [->|]; [by injection Eci as <-|done].
Qed.

(** One device, its pairing and the connection it leads to. *)
Module DemoActor.

Definition key : string := "sha256:0123456789abcdef0123456789abcdef0123456789abcdef0123456789abcdef".
Definition device : Device := mkDevice "d1" "pi" "pin" Online Disconnected CapIdle.
Definition created : PairingCreatedView := mkCreatedView "p1" PhPending "secret" "123456" "soon" (Some key).
Definition allowed : PairingStatusView := mkStatusView "p1" PhAllowed (Some "token") "123456" "soon" (Some key).
Definition pairing : DeviceActor := run_actor (AoCreated created) (DeviceActor_new device).
Definition connected : DeviceActor := run_actor (AoStatus "p1" (Ok allowed)) pairing.

Lemma pairing_ok : credentials_ok pairing.
Proof. by repeat split. Qed.

Lemma connected_ok : credentials_ok connected.
Proof. apply (run_actor_ok (AoStatus "p1" (Ok allowed)) pairing pairing_ok). done. Qed.

End DemoActor.

Lemma publication_key_pinned_witness :
  exists s, ac_authenticated_session DemoActor.connected = Some s /\ as_token s = "token" /\
    as_publication_key_fingerprint s = Some DemoActor.key.
Proof.
  destruct (publication_key_pinned DemoActor.pairing DemoActor.pairing_ok) as (_ & _ & H);
    [vm_compute; reflexivity|].
  destruct (H "p1" (Ok DemoActor.allowed) DemoActor.connected 1%N)
    as (status & token & s & Hst & Htok & _ & _ & Hs & Ht & _ & _ & Hk & _); [vm_compute; reflexivity|].
  injection Hst as <-. injection Htok as <-. exists s. split; [exact Hs|]. split; [exact Ht|].
  apply Hk. reflexivity.
Defined.
