(* ===== verification/Fleet.v ===== *)
(** * Fleet: replies that arrive late (device/fleet.rs)

A [DeviceHandle] is an actor behind its own lock with two attempt counters;
network calls are made with no lock held, so other threads act on the handle
meanwhile.  [others] is what they do at each point where the method has
released the lock; replies of the Pi are arbitrary functions of the session
they were asked with.  The fleet is a map from full fingerprints, an [Arc]
handle being its entry. *)

From Stdlib Require Import NArith Lia Ascii String.
From stdpp Require Import base numbers list strings gmap relations sorting.
From S2P Require Import Prelude Domain Device Identity Actor.

Local Open Scope string_scope.

(** [HeartbeatTicket] (device/fleet.rs:98-101). *)
Record HeartbeatTicket := mkHeartbeatTicket { ht_epoch : N; ht_attempt : N }.
(** [EpochTicket] (device/fleet.rs:121-123). *)
Record EpochTicket := mkEpochTicket { et_epoch : N }.
(** [PairingTicket] (device/fleet.rs:136-138). *)
Record PairingTicket := mkPairingTicket { pt_generation : N }.

(** [RefreshApplyOutcome] (device/fleet.rs:149-157). *)
Inductive RefreshApplyOutcome := RfNotConnected | RfStale | RfRefreshed | RfFailed (e : PiClientError).

(** [SessionDetailOutcome] (device/fleet.rs:161-171). *)
Inductive SessionDetailOutcome (Detail : Type) :=
| SdNotConnected | SdStale | SdFetched (d : Detail) | SdFailed (e : PiClientError).
Arguments SdNotConnected {Detail}. Arguments SdStale {Detail}.
Arguments SdFetched {Detail} d. Arguments SdFailed {Detail} e.

(** [DeleteApplyOutcome] (device/fleet.rs:175-182). *)
Inductive DeleteApplyOutcome :=
| DlNotConnected | DlStale | DlDeleted (r : DeleteSessionReceiptView) | DlFailed (e : PiClientError).

(** [HandleInner] (device/fleet.rs:188-195). *)
Record DeviceHandle := mkHandle {
  dh_fingerprint : DeviceFingerprint;
  dh_actor : DeviceActor;
  dh_heartbeat_attempts : N;
  dh_pairing_attempts : N;
}.

(** [DeviceHandle::new] (device/fleet.rs:241-250). *)
Definition DeviceHandle_new (fp : DeviceFingerprint) (d : Device) : DeviceHandle :=
  mkHandle fp (DeviceActor_new d) 0 0.

Definition set_actor (a : DeviceActor) (h : DeviceHandle) : DeviceHandle :=
  mkHandle (dh_fingerprint h) a (dh_heartbeat_attempts h) (dh_pairing_attempts h).

(** [fetch_add(1) + 1] on [heartbeat_attempts]. *)
Definition next_heartbeat (h : DeviceHandle) : DeviceHandle * N :=
  let n := u64_add (dh_heartbeat_attempts h) 1 in
  (mkHandle (dh_fingerprint h) (dh_actor h) n (dh_pairing_attempts h), n).

(** [fetch_add(1) + 1] on [pairing_attempts]. *)
Definition next_pairing (h : DeviceHandle) : DeviceHandle * N :=
  let n := u64_add (dh_pairing_attempts h) 1 in
  (mkHandle (dh_fingerprint h) (dh_actor h) (dh_heartbeat_attempts h) n, n).

(** [DeviceHandle::current_epoch] (device/fleet.rs:294-296). *)
Definition handle_epoch (h : DeviceHandle) : option N := current_epoch (dh_actor h).

(** [DeviceHandle::checkout_authenticated_session] (device/fleet.rs:627-629). *)
Definition checkout_session (h : DeviceHandle) : option AuthenticatedPiSession :=
  ac_authenticated_session (dh_actor h).

(** [DeviceSnapshot] (device/fleet.rs:83-88). *)
Record FleetSnapshot := mkFleetSnapshot {
  fs_fingerprint : DeviceFingerprint;
  fs_short_id : string;
  fs_device : Device;
}.

(** [DeviceHandle::snapshot] (device/fleet.rs:279-286). *)
Definition handle_snapshot (h : DeviceHandle) : FleetSnapshot :=
  mkFleetSnapshot (dh_fingerprint h) (fp_display_id (dh_fingerprint h)) (ac_device (dh_actor h)).

(** [DeviceHandle::apply_heartbeat] (device/fleet.rs:321-331). *)
Definition apply_heartbeat (ticket : HeartbeatTicket) (reply : result PiClientError HeartbeatOutcomeView)
    (h : DeviceHandle) : DeviceHandle * HeartbeatApplyOutcome :=
  if negb (dh_heartbeat_attempts h =? ht_attempt ticket)%N then (h, HbStale) else
  let '(a, out) := apply_heartbeat_result (ht_epoch ticket) reply (dh_actor h) in
  (set_actor a h, out).

(** [DeviceHandle::apply_device_info] (device/fleet.rs:398-414). *)
Definition handle_apply_device_info (ticket : EpochTicket) (reply : result PiClientError DeviceInfoView)
    (h : DeviceHandle) : DeviceHandle * RefreshApplyOutcome :=
  if negb (bool_decide (handle_epoch h = Some (et_epoch ticket))) then (h, RfStale) else
  match reply with
  | Err e => (h, RfFailed e)
  | Ok info => match apply_device_info info (dh_actor h) with
               | (a, Ok _) => (set_actor a h, RfRefreshed)
               | (a, Err e) => (set_actor a h, RfFailed e)
               end
  end.

(** [DeviceHandle::apply_delete_receipt] (device/fleet.rs:592-605). *)
Definition apply_delete_receipt (ticket : EpochTicket)
    (reply : result PiClientError DeleteSessionReceiptView) (h : DeviceHandle) : DeleteApplyOutcome :=
  if negb (bool_decide (handle_epoch h = Some (et_epoch ticket))) then DlStale else
  match reply with Ok receipt => DlDeleted receipt | Err e => DlFailed e end.

(** [DeviceHandle::issue_epoch_ticket] (device/fleet.rs:584-589). *)
Definition issue_epoch_ticket (h : DeviceHandle) : option EpochTicket :=
  (fun s => mkEpochTicket (as_epoch s)) <$> checkout_session h.

(** [DeviceHandle::issue_pairing_ticket] (device/fleet.rs:550-553). *)
Definition issue_pairing_ticket (h : DeviceHandle) : DeviceHandle * PairingTicket :=
  let '(h, n) := next_pairing h in (h, mkPairingTicket n).

(** [DeviceHandle::pairing_ticket_is_current] (device/fleet.rs:559-561). *)
Definition pairing_ticket_is_current (t : PairingTicket) (h : DeviceHandle) : bool :=
  (dh_pairing_attempts h =? pt_generation t)%N.

(** [DeviceHandle::apply_pairing_created] (device/fleet.rs:540-545). *)
Definition handle_apply_pairing_created (created : PairingCreatedView) (h : DeviceHandle)
    : DeviceHandle * PairingAttemptInfo :=
  let '(a, info) := apply_pairing_created created (dh_actor h) in (set_actor a h, info).

(** [DeviceHandle::disconnect_local] (device/fleet.rs:507-510). *)
Definition disconnect_local (h : DeviceHandle) : DeviceHandle :=
  let '(h, _) := next_pairing h in set_actor (clear_connection_state (dh_actor h)) h.

(** ** Methods that call the Pi *)

Section calls.
Context (others : nat -> DeviceHandle -> DeviceHandle).

(** [DeviceHandle::issue_heartbeat_ticket] (device/fleet.rs:309-316). *)
Definition issue_heartbeat_ticket (h : DeviceHandle) : DeviceHandle * option HeartbeatTicket :=
  match checkout_session h with
  | None => (h, None)
  | Some session =>
      let '(h, attempt) := next_heartbeat (others 0 h) in
      (h, Some (mkHeartbeatTicket (as_epoch session) attempt))
  end.

(** [DeviceHandle::heartbeat_with] (device/fleet.rs:337-348). *)
Definition heartbeat_with
    (call : AuthenticatedPiSession -> result PiClientError HeartbeatOutcomeView) (h : DeviceHandle)
    : DeviceHandle * HeartbeatApplyOutcome :=
  match checkout_session h with
  | None => (h, HbNotConnected)
  | Some session =>
      let '(h, attempt) := next_heartbeat (others 0 h) in
      apply_heartbeat (mkHeartbeatTicket (as_epoch session) attempt) (call session) (others 1 h)
  end.

(** [DeviceHandle::refresh_capture_activity_with] (device/fleet.rs:356-368). *)
Definition refresh_capture_activity_with
    (call : AuthenticatedPiSession -> result PiClientError DeviceInfoView) (h : DeviceHandle)
    : DeviceHandle * RefreshApplyOutcome :=
  match checkout_session h with
  | None => (h, RfNotConnected)
  | Some session =>
      handle_apply_device_info (mkEpochTicket (as_epoch session)) (call session) (others 0 h)
  end.

Definition epoch_changed : PiClientError :=
  mkPiError PiOther "authenticated session epoch changed during catalog request".

(** [DeviceHandle::list_sessions_with] (device/fleet.rs:374-395). *)
Definition list_sessions_with {Page : Type}
    (call : AuthenticatedPiSession -> option string -> option N -> result PiClientError Page)
    (cursor : option string) (limit : option N) (h : DeviceHandle)
    : DeviceHandle * result PiClientError Page :=
  match checkout_session h with
  | None => (h, Err (without_session "list_sessions"))
  | Some session =>
      let reply := call session cursor limit in
      let h := others 0 h in
      (h, if negb (bool_decide (handle_epoch h = Some (as_epoch session))) then Err epoch_changed else reply)
  end.

(** [DeviceHandle::get_session_with, catalog read] (device/fleet.rs:462-474). *)
Definition fetch_detail {Detail : Type}
    (call : AuthenticatedPiSession -> string -> result PiClientError Detail) (session_id : string)
    (ticket : EpochTicket) (session : AuthenticatedPiSession) (h : DeviceHandle)
    : DeviceHandle * SessionDetailOutcome Detail :=
  let h := others 3 h in
  if negb (bool_decide (handle_epoch h = Some (et_epoch ticket))) then (h, SdStale) else
  let reply := call session session_id in
  let h := others 4 h in
  (h, match reply with
      | Ok detail => if bool_decide (handle_epoch h = Some (et_epoch ticket))
                     then SdFetched detail else SdStale
      | Err e => SdFailed e
      end).

(** [DeviceHandle::get_session_with] (device/fleet.rs:434-475). *)
Definition get_session_with {Detail : Type}
    (call_device : AuthenticatedPiSession -> result PiClientError DeviceInfoView)
    (call : AuthenticatedPiSession -> string -> result PiClientError Detail)
    (session_id : string) (h : DeviceHandle) : DeviceHandle * SessionDetailOutcome Detail :=
  match issue_epoch_ticket h with
  | None => (h, SdNotConnected)
  | Some ticket =>
      let h := others 0 h in
      match checkout_session h with
      | None => (h, SdNotConnected)
      | Some session =>
          match as_publication_key_fingerprint session with
          | Some _ => fetch_detail call session_id ticket session h
          | None =>
              let reply := call_device session in
              let h := others 1 h in
              match reply with
              | Err e => (h, SdFailed e)
              | Ok info =>
                  match handle_apply_device_info ticket (Ok info) h with
                  | (h, RfRefreshed) =>
                      let h := others 2 h in
                      match checkout_session h with
                      | Some session => fetch_detail call session_id ticket session h
                      | None => (h, SdNotConnected)
                      end
                  | (h, RfStale) => (h, SdStale)
                  | (h, RfNotConnected) => (h, SdNotConnected)
                  | (h, RfFailed e) => (h, SdFailed e)
                  end
              end
          end
      end
  end.

(** [DeviceHandle::disconnect_with] (device/fleet.rs:491-502). *)
Definition disconnect_with (call : AuthenticatedPiSession -> result PiClientError unit) (h : DeviceHandle)
    : DeviceHandle * result PiClientError unit :=
  let '(h, _) := next_pairing h in
  let h := others 0 h in
  let session := checkout_session h in
  let h := others 1 h in
  let h := set_actor (clear_connection_state (dh_actor h)) h in
  match session with
  | Some session => (others 2 h, call session)
  | None => (h, Ok tt)
  end.

Definition superseded : PiClientError :=
  mkPiError PiOther "pairing response belongs to a superseded attempt".

(** [DeviceHandle::start_pairing_with] (device/fleet.rs:520-535): the counter
    is compared before the actor's lock is taken. *)
Definition start_pairing_with (reply : result PiClientError PairingCreatedView) (h : DeviceHandle)
    : DeviceHandle * result PiClientError PairingAttemptInfo :=
  let '(h, ticket) := issue_pairing_ticket h in
  let h := others 0 h in
  match reply with
  | Err e => (h, Err e)
  | Ok created =>
      if negb (pairing_ticket_is_current ticket h) then (h, Err superseded) else
      let '(h, info) := handle_apply_pairing_created created (others 1 h) in (h, Ok info)
  end.

(** [DeviceHandle::poll_pairing_with] (device/fleet.rs:570-576). *)
Definition poll_pairing_with (call : string -> string -> result PiClientError PairingStatusView)
    (h : DeviceHandle) : DeviceHandle * PollPairingOutcome :=
  match checkout_pairing_poll (dh_actor h) with
  | None => (h, PpNotPairing)
  | Some (attempt_id, poll_secret) =>
      let reply := call attempt_id poll_secret in
      let h := others 0 h in
      let '(a, out) := apply_pairing_status attempt_id reply (dh_actor h) in
      (set_actor a h, out)
  end.

(** [DeviceHandle::delete_session_with] (device/fleet.rs:609-625). *)
Definition delete_session_with
    (call : AuthenticatedPiSession -> string -> string -> string
            -> result PiClientError DeleteSessionReceiptView)
    (session_id if_match_revision idempotency_key : string) (h : DeviceHandle)
    : DeviceHandle * DeleteApplyOutcome :=
  match checkout_session h with
  | None => (h, DlNotConnected)
  | Some session =>
      let reply := call session session_id if_match_revision idempotency_key in
      let h := others 0 h in
      (h, apply_delete_receipt (mkEpochTicket (as_epoch session)) reply h)
  end.

End calls.

(** ** The registry *)

(** [DeviceFleet] (device/fleet.rs:642-644). *)
Definition DeviceFleet := gmap DeviceFingerprint DeviceHandle.

(** [DeviceFleet::get_or_create] (device/fleet.rs:682-692). *)
Definition get_or_create (fp : DeviceFingerprint) (make_device : unit -> Device) (fleet : DeviceFleet)
    : DeviceFleet * DeviceHandle :=
  match fleet !! fp with
  | Some h => (fleet, h)
  | None => let h := DeviceHandle_new fp (make_device tt) in (<[fp := h]> fleet, h)
  end.

(** [DeviceFleet::handle] (device/fleet.rs:696-698). *)
Definition fleet_handle (fp : DeviceFingerprint) (fleet : DeviceFleet) : option DeviceHandle := fleet !! fp.

(** [DeviceFleet::handles] (device/fleet.rs:703-705). *)
Definition fleet_handles (fleet : DeviceFleet) : list DeviceHandle := (map_to_list fleet).*2.

Definition by_key {A : Type} (x y : DeviceFingerprint * A) : Prop := String.leb x.1 y.1 = true.
#[global] Instance by_key_dec {A : Type} (x y : DeviceFingerprint * A) : Decision (by_key x y).
Proof. unfold by_key. apply _. Defined.

Definition by_snapshot (x y : FleetSnapshot) : Prop :=
  String.leb (fs_fingerprint x) (fs_fingerprint y) = true.
#[global] Instance by_snapshot_dec x y : Decision (by_snapshot x y).
Proof. unfold by_snapshot. apply _. Defined.

(** [DeviceFleet::snapshots] (device/fleet.rs:710-715). *)
Definition fleet_snapshots (fleet : DeviceFleet) : list FleetSnapshot :=
  merge_sort by_snapshot (handle_snapshot <$> fleet_handles fleet).

(** ** A sweep over the fleet by a pool of workers *)

(** The shared state of a sweep: the next index, the handles some worker is
    busy with, the results so far. *)
Record Pool (T : Type) := mkPool {
  po_next : nat;
  po_busy : list DeviceHandle;
  po_results : list (DeviceFingerprint * T);
}.
Arguments mkPool {T}. Arguments po_next {T}. Arguments po_busy {T}. Arguments po_results {T}.

(** [DeviceFleet::for_each_device, worker] (device/fleet.rs:757-773): a worker
    takes the next handle, or reports the one it is done with. *)
Inductive pool_step {T : Type} (workers : nat) (handles : list DeviceHandle)
    (op : DeviceHandle -> option T) : Pool T -> Pool T -> Prop :=
| pool_take p h :
    handles !! po_next p = Some h -> length (po_busy p) < workers ->
    pool_step workers handles op p (mkPool (S (po_next p)) (h :: po_busy p) (po_results p))
| pool_done p before h after :
    po_busy p = (before ++ h :: after)%list ->
    pool_step workers handles op p
      (mkPool (po_next p) (before ++ after)
         (po_results p ++ match op h with Some v => [(dh_fingerprint h, v)] | None => [] end)%list).

(** [DeviceFleet::for_each_device, workers] (device/fleet.rs:748-754). *)
Definition pool_workers (max_concurrency : nat) (handles : list DeviceHandle) : nat :=
  Nat.min (Nat.max max_concurrency 1) (length handles).

(** [DeviceFleet::for_each_device, result] (device/fleet.rs:777-779). *)
Definition pool_output {T : Type} (p : Pool T) : list (DeviceFingerprint * T) :=
  merge_sort by_key (po_results p).

(** What a sweep is for: each device's answer, in fingerprint order. *)
Definition sweep {T : Type} (op : DeviceHandle -> option T) (handles : list DeviceHandle)
    : list (DeviceFingerprint * T) :=
  merge_sort by_key (omap (fun h => v ← op h; Some (dh_fingerprint h, v)) handles).

(** ** Runs of one handle *)

(** One locked section of some thread, or one counter increment.  Executions
    in which a 64-bit counter would pass its maximum are left out. *)
Inductive handle_step (h : DeviceHandle) : DeviceHandle -> Prop :=
| hs_actor op : (ac_next_epoch (dh_actor h) < u64_max)%N ->
    handle_step h (set_actor (run_actor op (dh_actor h)) h)
| hs_heartbeat : (dh_heartbeat_attempts h < u64_max)%N -> handle_step h (next_heartbeat h).1
| hs_pairing : (dh_pairing_attempts h < u64_max)%N -> handle_step h (next_pairing h).1.

Abbreviation handle_run := (rtc handle_step).

Definition handle_ok (h : DeviceHandle) : Prop := credentials_ok (dh_actor h).

(** What a run from [h] to [h'] cannot undo. *)
Record later (h h' : DeviceHandle) : Prop := {
  lt_ok : handle_ok h -> handle_ok h';
  lt_heartbeats : (dh_heartbeat_attempts h <= dh_heartbeat_attempts h')%N;
  lt_pairings : (dh_pairing_attempts h <= dh_pairing_attempts h')%N;
  lt_next : handle_ok h -> (ac_next_epoch (dh_actor h) <= ac_next_epoch (dh_actor h'))%N;
  lt_epoch : handle_ok h -> forall e, handle_epoch h' = Some e ->
    handle_epoch h = Some e \/ (ac_next_epoch (dh_actor h) < e)%N;
  lt_fingerprint : dh_fingerprint h' = dh_fingerprint h;
}.

#[global] Instance later_preorder : PreOrder later.
Proof.
  split; [by split; auto|]. intros a b c [A1 A2 A3 A4 A5 A6] [B1 B2 B3 B4 B5 B6].
  split; [auto|lia|lia| | |congruence].
  - intros Ha. specialize (A4 Ha). specialize (B4 (A1 Ha)). lia.
  - intros Ha e He. destruct (B5 (A1 Ha) e He) as [Hb|Hb]; [by apply A5|right].
    specialize (A4 Ha). lia.
Qed.

Lemma step_later h h' : handle_step h h' -> later h h'.
Proof.
  intros [op Hlt|Hlt|Hlt].
  - split; simpl; try lia.
    + intros Hok. by apply (run_actor_ok op).
    + intros Hok. destruct (run_actor_ok op _ Hok Hlt) as (_ & ? & _). lia.
    + intros Hok e He. destruct (run_actor_ok op _ Hok Hlt) as (_ & _ & H).
      destruct (H e He) as [?| ->]; [by left|right; lia].
    + done.
  - assert (Hn : u64_add (dh_heartbeat_attempts h) 1 = (dh_heartbeat_attempts h + 1)%N)
      by (apply u64_add_small; lia).
    split; simpl; try lia; auto.
  - assert (Hn : u64_add (dh_pairing_attempts h) 1 = (dh_pairing_attempts h + 1)%N)
      by (apply u64_add_small; lia).
    split; simpl; try lia; auto.
Qed.

Lemma run_later h h' : handle_run h h' -> later h h'.
Proof. induction 1 as [|a b c Hab _ IH]; [done|]. etrans; [by apply step_later|done]. Qed.

Lemma epoch_le_next h e : handle_ok h -> handle_epoch h = Some e -> (e <= ac_next_epoch (dh_actor h))%N.
Proof.
  unfold handle_ok, credentials_ok, handle_epoch, current_epoch.
  destruct (connection_state (dh_actor h)); try done. intros (_ & s & _ & _ & _ & ? & _) [= <-]. done.
Qed.

(** An epoch that was left never comes back. *)
Lemma epoch_stays h h' e n :
  handle_ok h -> (e <= n)%N -> (n <= ac_next_epoch (dh_actor h))%N -> later h h' ->
  handle_epoch h' = Some e -> handle_epoch h = Some e.
Proof.
  intros Hok He Hn Hl Hcur. destruct (lt_epoch _ _ Hl Hok e Hcur) as [?|?]; [done|lia].
Qed.

Lemma session_epoch h s :
  handle_ok h -> checkout_session h = Some s -> handle_epoch h = Some (as_epoch s).
Proof.
  unfold handle_ok, credentials_ok, handle_epoch, current_epoch, checkout_session.
  destruct (connection_state (dh_actor h)) as [| |c e|]; [by intros [-> _]|by intros [-> _]| |by intros [-> _]].
  intros (_ & s' & -> & _ & <- & _) [= <-]. done.
Qed.

Lemma epoch_session h e :
  handle_ok h -> handle_epoch h = Some e -> exists s, checkout_session h = Some s /\ as_epoch s = e.
Proof.
  unfold handle_ok, credentials_ok, handle_epoch, current_epoch, checkout_session.
  destruct (connection_state (dh_actor h)); try done.
  intros (_ & s & -> & _ & <- & _) [= <-]. eauto.
Qed.

(** While the epoch lasts, the session is the one that was handed out. *)
Lemma run_pinned h h' e s :
  handle_ok h -> handle_run h h' -> handle_epoch h = Some e -> handle_epoch h' = Some e ->
  checkout_session h = Some s ->
  exists s', checkout_session h' = Some s' /\ as_token s' = as_token s /\ as_tls_pin s' = as_tls_pin s /\
    forall k, as_publication_key_fingerprint s = Some k -> as_publication_key_fingerprint s' = Some k.
Proof.
  intros Hok Hrun. revert s. induction Hrun as [h|h1 h2 h3 H12 H23 IH]; intros s He He' Hs; [by exists s|].
  assert (L12 := step_later _ _ H12). assert (L23 := run_later _ _ H23).
  assert (Hok2 := lt_ok _ _ L12 Hok). assert (Hle := epoch_le_next h1 e Hok He).
  assert (Hnext := lt_next _ _ L12 Hok).
  assert (He2 : handle_epoch h2 = Some e)
    by (by apply (epoch_stays h2 h3 e (ac_next_epoch (dh_actor h1)))).
  assert (Hstep : exists s2, checkout_session h2 = Some s2 /\ as_token s2 = as_token s /\
    as_tls_pin s2 = as_tls_pin s /\
    forall k, as_publication_key_fingerprint s = Some k -> as_publication_key_fingerprint s2 = Some k).
  { destruct H12 as [op Hlt|Hlt|Hlt]; [|by exists s..].
    destruct (same_epoch_same_session op (dh_actor h1) e s Hok Hlt He Hs He2) as (s2 & ? & ? & ? & _ & ?).
    by exists s2. }
  destruct Hstep as (s2 & Hs2 & Ht & Hp & Hk).
  destruct (IH Hok2 s2 He2 He' Hs2) as (s3 & Hs3 & Ht3 & Hp3 & Hk3).
  exists s3. split_and!; [done|congruence|congruence|auto].
Qed.

(** ** Fencing *)

Lemma set_actor_same h : set_actor (dh_actor h) h = h.
Proof. by destruct h. Qed.

Lemma apply_heartbeat_other e reply h :
  handle_epoch h <> Some e -> apply_heartbeat_result e reply (dh_actor h) = (dh_actor h, HbStale).
Proof.
  unfold apply_heartbeat_result, handle_epoch, current_epoch.
  destruct (connection_state (dh_actor h)); try done. intros Hne.
  destruct (N.eqb_spec epoch e) as [->|]; [done|reflexivity].
Qed.

Lemma apply_heartbeat_cases ticket reply h :
  let '(h', out) := apply_heartbeat ticket reply h in
  (out = HbStale -> h' = h) /\
  (out <> HbStale -> handle_epoch h = Some (ht_epoch ticket) /\
     dh_heartbeat_attempts h = ht_attempt ticket) /\
  (h' <> h -> out = HbExpired /\ handle_epoch h' = None /\ checkout_session h' = None).
Proof.
  unfold apply_heartbeat.
  destruct (N.eqb_spec (dh_heartbeat_attempts h) (ht_attempt ticket)) as [Ha|]; [|by split_and!]. simpl negb.
  cbn iota. destruct (decide (handle_epoch h = Some (ht_epoch ticket))) as [He|Hne].
  2:{ rewrite apply_heartbeat_other by done. rewrite set_actor_same. by split_and!. }
  unfold apply_heartbeat_result. unfold handle_epoch, current_epoch in He |- *.
  destruct (connection_state (dh_actor h)) eqn:Ec; try done. injection He as ->.
  rewrite N.eqb_refl. simpl negb. cbn iota.
  destruct reply as [r|e]; [rewrite set_actor_same; by split_and!|].
  case_bool_decide; [|rewrite set_actor_same; by split_and!]. by split_and!.
Qed.

(** A late reply never touches a newer connection.  Take a heartbeat
    ticket issued by a connected device.  If at any moment between issuing it
    and applying the reply the connection epoch was another one, or a newer
    heartbeat had been issued, then the reply is discarded as stale and the
    handle is untouched, whatever the reply says; otherwise the reply is
    judged on its own, and only a rejected credential changes the actor, which
    then holds no credential. *)
Theorem late_heartbeat_is_stale others h h1 m h2 ticket reply :
  handle_ok h -> (forall i x, handle_run x (others i x)) ->
  (dh_heartbeat_attempts (others 0%nat h) < u64_max)%N ->
  issue_heartbeat_ticket others h = (h1, Some ticket) -> handle_run h1 m -> handle_run m h2 ->
  (handle_epoch m <> Some (ht_epoch ticket) \/ dh_heartbeat_attempts m <> ht_attempt ticket ->
     apply_heartbeat ticket reply h2 = (h2, HbStale)) /\
  (let '(h3, out) := apply_heartbeat ticket reply h2 in
   (out = HbStale -> h3 = h2) /\
   (out <> HbStale -> handle_epoch h2 = Some (ht_epoch ticket) /\
      dh_heartbeat_attempts h2 = ht_attempt ticket) /\
   (h3 <> h2 -> out = HbExpired /\ handle_epoch h3 = None /\ checkout_session h3 = None)).
Proof.
  intros Hok Hoth Hlt Hissue Hrun1 Hrun2. split; [|apply apply_heartbeat_cases].
  unfold issue_heartbeat_ticket in Hissue.
  destruct (checkout_session h) as [s|] eqn:Es; [|done]. cbn [next_heartbeat] in Hissue.
  rewrite u64_add_small in Hissue by lia. injection Hissue as <- <-. cbn [ht_epoch ht_attempt].
  assert (L0 := run_later _ _ (Hoth 0%nat h)). assert (L1 := run_later _ _ Hrun1).
  assert (L2 := run_later _ _ Hrun2). assert (He := session_epoch h s Hok Es).
  assert (Hle := epoch_le_next h _ Hok He). assert (Hok0 := lt_ok _ _ L0 Hok).
  assert (Hn0 := lt_next _ _ L0 Hok). assert (Hn1 := lt_next _ _ L1 Hok0).
  assert (Hok1 := lt_ok _ _ L1 Hok0). simpl in Hn1.
  intros [Hm|Hm]; unfold apply_heartbeat; cbn [ht_epoch ht_attempt].
  - destruct (negb _); [done|]. rewrite apply_heartbeat_other; [by rewrite set_actor_same|].
    intros He2. apply Hm. apply (epoch_stays m h2 _ (as_epoch s)); try done; lia.
  - assert (H1 := lt_heartbeats _ _ L1). assert (H2 := lt_heartbeats _ _ L2). simpl in H1.
    destruct (N.eqb_spec (dh_heartbeat_attempts h2) (dh_heartbeat_attempts (others 0%nat h) + 1)); [lia|done].
Qed.

Lemma fetched_epoch {Detail : Type} others
    (call : AuthenticatedPiSession -> string -> result PiClientError Detail) session_id e s g h' detail :
  (forall i x, handle_run x (others i x)) ->
  fetch_detail others call session_id (mkEpochTicket e) s g = (h', SdFetched detail) ->
  handle_run g h' /\ handle_epoch h' = Some e /\ call s session_id = Ok detail.
Proof.
  intros Hoth. unfold fetch_detail. cbn [et_epoch]. case_bool_decide; [|done]. simpl negb. cbn iota.
  destruct (call s session_id) as [d|err]; [|done]. case_bool_decide as He; [|done].
  intros [= <- <-]. split_and!; [|done|done]. etrans; apply Hoth.
Qed.

Lemma fetched_is_current {Detail : Type} others
    (call : AuthenticatedPiSession -> string -> result PiClientError Detail) session_id e s k g h' detail :
  (forall i x, handle_run x (others i x)) -> handle_ok g -> checkout_session g = Some s ->
  as_publication_key_fingerprint s = Some k -> (e <= ac_next_epoch (dh_actor g))%N ->
  fetch_detail others call session_id (mkEpochTicket e) s g = (h', SdFetched detail) ->
  exists s s' k, call s session_id = Ok detail /\ handle_epoch h' = Some (as_epoch s) /\
    as_publication_key_fingerprint s = Some k /\
    checkout_session h' = Some s' /\ as_token s' = as_token s /\ as_tls_pin s' = as_tls_pin s /\
    as_publication_key_fingerprint s' = Some k.
Proof.
  intros Hoth Hok Hs Hk Hle Hf. apply fetched_epoch in Hf as (Hrun & He' & Hcall); [|done].
  assert (He : handle_epoch g = Some e).
  { apply (epoch_stays g h' e e); [done|done|done|by apply run_later|done]. }
  destruct (run_pinned g h' e s Hok Hrun He He' Hs) as (s' & Hs' & Ht & Hp & Hk').
  assert (Hse := session_epoch g s Hok Hs). rewrite He in Hse. injection Hse as Hse.
  exists s, s', k. split_and!; try done; [by rewrite He', Hse|by apply Hk'].
Qed.

(** A session detail is shown only for the connection it was read on.
    When [get_session_with] returns a detail, whatever other threads did while
    the lock was released, the detail is the catalog's answer to a session of
    the connection epoch current when the method returns, that session was
    already bound to a publication key, and the handle still holds that
    session's token, pin and key. *)
Theorem session_detail_is_current {Detail : Type} others
    (call_device : AuthenticatedPiSession -> result PiClientError DeviceInfoView)
    (call : AuthenticatedPiSession -> string -> result PiClientError Detail) session_id h h' detail :
  handle_ok h -> (forall i x, handle_run x (others i x)) ->
  get_session_with others call_device call session_id h = (h', SdFetched detail) ->
  exists s s' k, call s session_id = Ok detail /\ handle_epoch h' = Some (as_epoch s) /\
    as_publication_key_fingerprint s = Some k /\
    checkout_session h' = Some s' /\ as_token s' = as_token s /\ as_tls_pin s' = as_tls_pin s /\
    as_publication_key_fingerprint s' = Some k.
Proof.
  intros Hok Hoth. unfold get_session_with, issue_epoch_ticket.
  destruct (checkout_session h) as [s0|] eqn:Es0; [|done]. cbn [fmap option_fmap option_map].
  assert (He0 := session_epoch h s0 Hok Es0). assert (Hle0 := epoch_le_next h _ Hok He0).
  set (g0 := others 0%nat h). assert (L0 := run_later _ _ (Hoth 0%nat h)). fold g0 in L0.
  assert (Hok0 := lt_ok _ _ L0 Hok). assert (Hn0 := lt_next _ _ L0 Hok).
  destruct (checkout_session g0) as [s|] eqn:Es; [|done].
  destruct (as_publication_key_fingerprint s) as [k|] eqn:Ek.
  { apply (fetched_is_current others call session_id (as_epoch s0) s k g0); try done. lia. }
  destruct (call_device s) as [info|e]; [|done].
  set (g1 := others 1%nat g0). assert (L1 := run_later _ _ (Hoth 1%nat g0)). fold g1 in L1.
  assert (Hok1 := lt_ok _ _ L1 Hok0). assert (Hn1 := lt_next _ _ L1 Hok0).
  unfold handle_apply_device_info. cbn [et_epoch].
  case_bool_decide as He1; [|done]. simpl negb. cbn iota.
  destruct (apply_device_info info (dh_actor g1)) as [a [[]|e]] eqn:Ei; [|done].
  set (g2 := set_actor a g1). assert (Hok2 : handle_ok g2) by by eapply device_info_credentials.
  destruct (epoch_session g1 _ Hok1 He1) as (s1 & Hs1 & _).
  apply device_info_ok in Ei as (Hc & Hn & _ & _ & _ & Hb). unfold checkout_session in Hs1.
  rewrite Hs1 in Hb. destruct Hb as (s2 & Hbind & Hs2). apply bind_key_ok in Hbind as (-> & _ & _).
  assert (He2 : handle_epoch g2 = Some (as_epoch s0)).
  { unfold handle_epoch, current_epoch, g2. simpl. by rewrite Hc. }
  set (g3 := others 2%nat g2). assert (R3 := Hoth 2%nat g2). fold g3 in R3.
  assert (L3 := run_later _ _ R3). assert (Hok3 := lt_ok _ _ L3 Hok2). assert (Hn3 := lt_next _ _ L3 Hok2).
  assert (Hn2 : ac_next_epoch (dh_actor g2) = ac_next_epoch (dh_actor g1)) by (by unfold g2; simpl).
  destruct (checkout_session g3) as [s3|] eqn:Es3; [|done]. intros Hfetch.
  assert (Hend := fetched_epoch others call session_id (as_epoch s0) s3 g3 h' detail Hoth Hfetch).
  assert (He3 : handle_epoch g3 = Some (as_epoch s0)).
  { destruct Hend as (Hrun & He' & _).
    apply (epoch_stays g3 h' (as_epoch s0) (as_epoch s0)); [done|done|lia|by apply run_later|done]. }
  destruct (run_pinned g2 g3 _ _ Hok2 R3 He2 He3 Hs2) as (s3' & Hs3' & _ & _ & Hk3).
  rewrite Es3 in Hs3'. injection Hs3' as <-.
  apply (fetched_is_current others call session_id (as_epoch s0) s3
           (iv_publication_key_fingerprint info) g3); try done; [by apply Hk3|lia].
Qed.

(** ** The sweep does not depend on the schedule *)

Lemma ascii_lt_trans a b c : Ascii.compare a b = Lt -> Ascii.compare b c = Lt -> Ascii.compare a c = Lt.
Proof. unfold Ascii.compare. rewrite !N.compare_lt_iff. lia. Qed.

Lemma string_leb_trans a b c : String.leb a b = true -> String.leb b c = true -> String.leb a c = true.
Proof.
  revert b c. induction a as [|x a IH]; intros [|y b] [|z c]; try done.
  unfold String.leb in *. simpl.
  destruct (Ascii.compare x y) eqn:Exy; [|clear IH|done].
  - apply Ascii.compare_eq_iff in Exy as ->. destruct (Ascii.compare y z); [apply IH|done..].
  - intros _. destruct (Ascii.compare y z) eqn:Eyz; [|by rewrite (ascii_lt_trans _ _ _ Exy Eyz)|done].
    apply Ascii.compare_eq_iff in Eyz as <-. by rewrite Exy.
Qed.

#[global] Instance by_key_trans {A : Type} : Transitive (@by_key A).
Proof. intros x y z. apply string_leb_trans. Qed.
#[global] Instance by_key_total {A : Type} : Total (@by_key A).
Proof. intros x y. apply String.leb_total. Qed.

(** Sorting by distinct keys forgets the order of arrival. *)
Lemma sort_by_key_unique {A : Type} (l1 l2 : list (DeviceFingerprint * A)) :
  NoDup l2.*1 -> l1 ≡ₚ l2 -> merge_sort by_key l1 = merge_sort by_key l2.
Proof.
  intros Hnd Hp. assert (Hs : merge_sort by_key l1 ≡ₚ merge_sort by_key l2)
    by (by rewrite !merge_sort_Permutation).
  apply (StronglySorted_unique_strong by_key); [|apply StronglySorted_merge_sort; apply _..|done].
  intros x y Hx Hy Hxy Hyx. rewrite Hs in Hx. rewrite merge_sort_Permutation in Hx, Hy.
  assert (Hk : x.1 = y.1) by by apply String.leb_antisym.
  apply list_elem_of_lookup in Hx as [i Hi]. apply list_elem_of_lookup in Hy as [j Hj].
  assert (i = j) as ->.
  { apply (NoDup_lookup l2.*1 i j x.1 Hnd); rewrite list_lookup_fmap.
    - by rewrite Hi. - by rewrite Hj, Hk. }
  congruence.
Qed.

Definition report {T : Type} (op : DeviceHandle -> option T) (h : DeviceHandle)
    : option (DeviceFingerprint * T) := v ← op h; Some (dh_fingerprint h, v).

Lemma report_keys {T : Type} (op : DeviceHandle -> option T) hs :
  NoDup (dh_fingerprint <$> hs) -> NoDup (omap (report op) hs).*1.
Proof.
  induction hs as [|h hs IH]; [done|]. cbn [fmap list_fmap]. intros [Hn Hnd]%NoDup_cons. cbn [omap list_omap].
  unfold report at 1. destruct (op h) as [v|]; cbn [mbind option_bind]; [|by apply IH].
  cbn [fmap list_fmap fst]. apply NoDup_cons. split; [|by apply IH].
  intros ([fp w] & Hf & (h' & Hh & Hr)%list_elem_of_omap)%list_elem_of_fmap. apply Hn.
  unfold report in Hr. destruct (op h') as [v'|]; [|done]. injection Hr as <- <-. simpl in Hf.
  rewrite Hf. apply list_elem_of_fmap. by exists h'.
Qed.

(** What the pool has taken is either being worked on or reported. *)
Record pool_ok {T : Type} (workers : nat) (handles : list DeviceHandle) (op : DeviceHandle -> option T)
    (p : Pool T) : Prop := {
  pk_next : po_next p <= length handles;
  pk_busy : length (po_busy p) <= workers;
  pk_results : omap (report op) (po_busy p) ++ po_results p
               ≡ₚ omap (report op) (take (po_next p) handles);
}.

(** Work left: two units for a handle not taken, one for a busy worker. *)
Definition pool_work {T : Type} (handles : list DeviceHandle) (p : Pool T) : nat :=
  2 * (length handles - po_next p) + length (po_busy p).

Lemma pool_step_ok {T : Type} workers handles (op : DeviceHandle -> option T) p p' :
  pool_ok workers handles op p -> pool_step workers handles op p p' ->
  pool_ok workers handles op p' /\ S (pool_work handles p') = pool_work handles p.
Proof.
  intros Hok Hstep. destruct Hstep as [q h Hh Hw|q before h after Hbusy]; destruct Hok as [Hn Hb Hr].
  - assert (Hlt := lookup_lt_Some _ _ _ Hh). split; [|unfold pool_work; simpl; lia].
    split; cbn [po_next po_busy po_results]; [lia|simpl; lia|].
    rewrite (take_S_r _ _ h Hh), omap_app, <- Hr. change (h :: po_busy q) with ([h] ++ po_busy q)%list.
    rewrite omap_app. solve_Permutation.
  - rewrite Hbusy in Hb, Hr. rewrite length_app in Hb. simpl in Hb.
    split; [|unfold pool_work; rewrite Hbusy; simpl; rewrite !length_app; simpl; lia].
    split; cbn [po_next po_busy po_results]; [done|rewrite length_app; lia|]. rewrite <- Hr.
    change (before ++ h :: after)%list with (before ++ [h] ++ after)%list. rewrite !omap_app.
    replace (match op h with Some v => _ | None => _ end) with (omap (report op) [h])
      by (simpl; unfold report; by destruct (op h)).
    solve_Permutation.
Qed.

Lemma pool_run_ok {T : Type} workers handles (op : DeviceHandle -> option T) n p p' :
  pool_ok workers handles op p -> nsteps (pool_step workers handles op) n p p' ->
  pool_ok workers handles op p' /\ n + pool_work handles p' = pool_work handles p.
Proof.
  intros Hok Hrun. induction Hrun as [p|n p q r Hpq _ IH]; [done|].
  destruct (pool_step_ok _ _ _ _ _ Hok Hpq) as [Hq Hw]. destruct (IH Hq) as [Hr Hn]. split; [done|lia].
Qed.

Lemma pool_stuck {T : Type} workers handles (op : DeviceHandle -> option T) p :
  (1 <= workers)%nat \/ handles = [] -> pool_ok workers handles op p ->
  ~ (exists p', pool_step workers handles op p p') -> po_busy p = [] /\ po_next p = length handles.
Proof.
  intros Hw [Hn _ _] Hstuck. destruct (po_busy p) as [|h busy] eqn:Eb.
  - split; [done|]. destruct (handles !! po_next p) as [h|] eqn:Eh.
    + destruct Hstuck. eexists. apply (pool_take _ _ _ _ h Eh). rewrite Eb. simpl.
      destruct Hw as [?| ->]; [lia|done].
    + apply lookup_ge_None in Eh. lia.
  - destruct Hstuck. eexists. by apply (pool_done _ _ _ _ [] h busy).
Qed.

Definition fleet_ok (fleet : DeviceFleet) : Prop :=
  forall fp h, fleet !! fp = Some h -> dh_fingerprint h = fp.

Lemma fleet_insert_ok fleet h : fleet_ok fleet -> fleet_ok (<[dh_fingerprint h := h]> fleet).
Proof.
  intros Hok fp g [[<- <-]|[_ Hg]]%lookup_insert_Some; [done|by apply Hok].
Qed.

Lemma get_or_create_ok fp make_device fleet :
  fleet_ok fleet -> fleet_ok (get_or_create fp make_device fleet).1.
Proof.
  intros Hok. unfold get_or_create. destruct (fleet !! fp); [done|].
  by apply (fleet_insert_ok fleet (DeviceHandle_new fp (make_device tt))).
Qed.

Lemma fleet_handles_keys fleet : fleet_ok fleet -> NoDup (dh_fingerprint <$> fleet_handles fleet).
Proof.
  intros Hok. unfold fleet_handles. rewrite <- list_fmap_compose.
  rewrite (list_fmap_ext _ fst); [apply NoDup_fst_map_to_list|].
  intros i [fp h] Hi%list_elem_of_lookup_2%elem_of_map_to_list. by apply Hok.
Qed.

Lemma fleet_handles_in fleet h : fleet_ok fleet ->
  h ∈ fleet_handles fleet <-> fleet !! dh_fingerprint h = Some h.
Proof.
  intros Hok. unfold fleet_handles. rewrite list_elem_of_fmap. split.
  - intros ([fp h'] & -> & Hin%elem_of_map_to_list). simpl. by rewrite (Hok fp h' Hin).
  - intros Hh. exists (dh_fingerprint h, h). split; [done|]. by apply elem_of_map_to_list.
Qed.

Lemma sweep_in {T : Type} (op : DeviceHandle -> option T) fleet fp v : fleet_ok fleet ->
  (fp, v) ∈ sweep op (fleet_handles fleet) <-> exists h, fleet !! fp = Some h /\ op h = Some v.
Proof.
  intros Hok. unfold sweep. rewrite merge_sort_Permutation, list_elem_of_omap. split.
  - intros (h & Hh%fleet_handles_in & Hr); [|done]. destruct (op h) as [w|] eqn:Eo; [|done].
    injection Hr as <- <-. by exists h.
  - intros (h & Hh & Ho). exists h. rewrite fleet_handles_in, (Hok fp h Hh), Ho by done. done.
Qed.

(** A sweep over the fleet does not depend on how its workers are
    scheduled.  For every interleaving of the worker threads, at most the
    configured number of devices (at least one, at most one per device) is
    being talked to at once; the sweep ends after at most two moves per device
    and gets stuck only when it is over; and its result is the same sorted
    list, which holds exactly one entry for each registered device that
    answered. *)
Theorem sweep_independent_of_schedule {T : Type} (op : DeviceHandle -> option T) max_concurrency fleet n p :
  fleet_ok fleet ->
  let handles := fleet_handles fleet in
  let workers := pool_workers max_concurrency handles in
  nsteps (pool_step workers handles op) n (mkPool 0 [] []) p ->
  length (po_busy p) <= workers /\ n <= 2 * length handles /\
  (~ (exists p', pool_step workers handles op p p') -> pool_output p = sweep op handles) /\
  NoDup (sweep op handles).*1 /\
  (forall fp v, (fp, v) ∈ sweep op handles <-> exists h, fleet !! fp = Some h /\ op h = Some v).
Proof.
  intros Hfleet handles workers Hrun.
  destruct (pool_run_ok workers handles op n (mkPool 0 [] []) p) as [Hok Hn]; [split; simpl; [lia|lia|done]|done|].
  assert (Hnd := fleet_handles_keys fleet Hfleet). split_and!.
  - by destruct Hok.
  - unfold pool_work in Hn. simpl in Hn. lia.
  - intros Hstuck. destruct (pool_stuck workers handles op p) as [Hb Hall]; [|done|done|].
    { unfold workers, pool_workers. destruct (nil_or_length_pos handles); [by right|left; lia]. }
    apply sort_by_key_unique; [by apply report_keys|]. destruct Hok as [_ _ Hr].
    rewrite Hb, Hall, firstn_all in Hr. exact Hr.
  - unfold sweep. rewrite merge_sort_Permutation. by apply report_keys.
  - intros fp v. by apply sweep_in.
Qed.

(** ** Pairing responses *)

Lemma disconnect_run h :
  (dh_pairing_attempts h < u64_max)%N -> (ac_next_epoch (dh_actor h) < u64_max)%N ->
  handle_run h (disconnect_local h).
Proof.
  intros Hp He. apply (rtc_l _ _ (next_pairing h).1); [by apply hs_pairing|].
  apply rtc_once. by apply (hs_actor (next_pairing h).1 AoClear).
Qed.

(** What another thread does in the tests below: disconnect at point [i]. *)
Definition disconnect_at (i : nat) (k : nat) (h : DeviceHandle) : DeviceHandle :=
  if decide (k = i) then disconnect_local h else h.

(** C39: a pairing response installs an attempt only if no other pairing
    was started and nobody disconnected the device up to the comparison of the
    counter; a response that lost that race changes nothing.  The comparison
    and the installation are two steps: a disconnect that falls between them
    is overwritten, and the handle ends up pairing although the counter says
    the response is superseded. *)
Theorem pairing_response_fenced others h created :
  (dh_pairing_attempts h + 1 < u64_max)%N ->
  let asked := (issue_pairing_ticket h).1 in
  let checked := others 0%nat asked in
  (dh_pairing_attempts checked <> dh_pairing_attempts asked ->
     start_pairing_with others (Ok created) h = (checked, Err superseded)) /\
  (forall e, start_pairing_with others (Err e) h = (checked, Err e)) /\
  (forall h' info, start_pairing_with others (Ok created) h = (h', Ok info) ->
     dh_pairing_attempts checked = (dh_pairing_attempts h + 1)%N /\
     handle_epoch h' = None /\ checkout_session h' = None /\
     connection_state (dh_actor h') = Pairing (pc_attempt_id created) (pc_phase created)) /\
  (exists h' info, start_pairing_with (disconnect_at 1) (Ok created) h = (h', Ok info) /\
     connection_state (dh_actor h') = Pairing (pc_attempt_id created) (pc_phase created) /\
     pairing_ticket_is_current (issue_pairing_ticket h).2 h' = false).
Proof.
  intros Hlt asked checked.
  assert (Hasked : dh_pairing_attempts asked = u64_add (dh_pairing_attempts h) 1) by done.
  unfold start_pairing_with, pairing_ticket_is_current. cbn [issue_pairing_ticket next_pairing].
  cbn [pt_generation]. rewrite u64_add_small in Hasked |- * by lia.
  assert (Hch : others 0%nat (mkHandle (dh_fingerprint h) (dh_actor h) (dh_heartbeat_attempts h)
    (dh_pairing_attempts h + 1)) = checked)
    by (unfold checked, asked; cbn [issue_pairing_ticket next_pairing fst]; by rewrite u64_add_small by lia).
  split_and!.
  - intros Hne. rewrite Hch. rewrite Hasked in Hne. by destruct (N.eqb_spec (dh_pairing_attempts checked)
      (dh_pairing_attempts h + 1)).
  - intros e. by rewrite Hch.
  - intros h' info. rewrite Hch.
    destruct (N.eqb_spec (dh_pairing_attempts checked) (dh_pairing_attempts h + 1)); [|done].
    unfold handle_apply_pairing_created. by intros [= <- _].
  - cbn [disconnect_at decide]. rewrite N.eqb_refl. simpl negb. cbn iota.
    eexists _, _. split; [reflexivity|]. split; [done|].
    change ((u64_add (dh_pairing_attempts h + 1) 1 =? dh_pairing_attempts h + 1)%N = false).
    rewrite u64_add_small by lia. apply N.eqb_neq. lia.
Qed.

(** ** A connected handle, and a fleet of two *)
Module DemoFleet.

Definition handle : DeviceHandle := mkHandle "sha256:a" DemoActor.connected 0 0.
Definition other : DeviceHandle := DeviceHandle_new "sha256:b" DemoActor.device.
Definition quiet (i : nat) (h : DeviceHandle) : DeviceHandle := h.
Definition asked : DeviceHandle := (issue_heartbeat_ticket quiet handle).1.
Definition fleet : DeviceFleet :=
  (get_or_create "sha256:b" (fun _ => DemoActor.device) (<["sha256:a" := handle]> ∅)).1.
Definition answer (h : DeviceHandle) : option N := handle_epoch h.

Lemma quiet_run i h : handle_run h (quiet i h).
Proof. apply rtc_refl. Qed.

Lemma fleet_good : fleet_ok fleet.
Proof.
  apply get_or_create_ok. apply (fleet_insert_ok _ handle). intros fp h Hh. discriminate Hh.
Qed.

End DemoFleet.

Lemma late_heartbeat_is_stale_witness :
  apply_heartbeat (mkHeartbeatTicket 1 1) (Err (mkPiError Unauthorized "late"))
    (disconnect_local DemoFleet.asked) = (disconnect_local DemoFleet.asked, HbStale).
Proof.
  apply (late_heartbeat_is_stale DemoFleet.quiet DemoFleet.handle DemoFleet.asked
           (disconnect_local DemoFleet.asked)).
  - apply DemoActor.connected_ok.
  - apply DemoFleet.quiet_run.
  - vm_compute. reflexivity.
  - vm_compute. reflexivity.
  - apply disconnect_run; vm_compute; reflexivity.
  - apply rtc_refl.
  - left. vm_compute. discriminate.
Defined.

Lemma session_detail_is_current_witness :
  exists s s' k, Ok "detail" = @Ok PiClientError string "detail" /\ handle_epoch DemoFleet.handle = Some (as_epoch s) /\
    as_publication_key_fingerprint s = Some k /\
    checkout_session DemoFleet.handle = Some s' /\ as_token s' = as_token s /\ as_tls_pin s' = as_tls_pin s /\
    as_publication_key_fingerprint s' = Some k.
Proof.
  apply (session_detail_is_current DemoFleet.quiet (fun _ => Err epoch_changed)
           (fun _ _ => Ok "detail") "s1" DemoFleet.handle).
  - apply DemoActor.connected_ok.
  - apply DemoFleet.quiet_run.
  - vm_compute. reflexivity.
Defined.

Lemma sweep_independent_of_schedule_witness :
  sweep DemoFleet.answer (fleet_handles DemoFleet.fleet) = [("sha256:a", 1%N)] /\
  NoDup (sweep DemoFleet.answer (fleet_handles DemoFleet.fleet)).*1.
Proof.
  split; [vm_compute; reflexivity|].
  apply (sweep_independent_of_schedule DemoFleet.answer 2 DemoFleet.fleet 0 (mkPool 0 [] [])).
  - apply DemoFleet.fleet_good.
  - apply nsteps_O.
Defined.

Lemma pairing_response_fenced_witness :
  start_pairing_with (disconnect_at 0) (Ok DemoActor.created) DemoFleet.other
  = (disconnect_local (issue_pairing_ticket DemoFleet.other).1, Err superseded).
Proof.
  destruct (pairing_response_fenced (disconnect_at 0) DemoFleet.other DemoActor.created) as (H & _);
    [vm_compute; reflexivity|].
  apply H. vm_compute. discriminate.
Defined.
