(* ===== verification/Disk.v ===== *)
(** * Disk: whole trees, I/O errors and crashes

[Files] gives the meaning of single filesystem calls.  Publication moves
whole directories, and what matters about it is what is on disk when a call
fails or when the process dies between two calls.  A [Disk] is therefore the
filesystem together with the I/O errors still to come and the states it went
through: every call that changes the disk takes its turn through [act], which
either fails with the next planned error, changing nothing, or succeeds and
leaves the state before it in the past.  A crash leaves one of those states
(calls take effect in order; [sync_all] and directory fsync, which make that
order hold across a power loss, are calls that change nothing but may fail).
[always] is the logic used to reason about all of them at once.

Links to directories are not modelled: a symbolic link is not a directory. *)

From Stdlib Require Import NArith Lia Ascii String.
From stdpp Require Import base numbers list strings gmap sorting.
From S2P Require Import Prelude Domain Files Journal.

(** ** Trees inside the filesystem *)

(** What is left of [q] below [p]. *)
Fixpoint path_strip (p q : Path) : option Path :=
  match p, q with
  | [], _ => Some q
  | a :: p', b :: q' => if String.eqb a b then path_strip p' q' else None
  | _ :: _, [] => None
  end.

Definition starts_with (p stop : Path) : bool :=
  match path_strip stop p with Some _ => true | None => false end.

(** The tree at [p], [p] itself being its root [[]]. *)
Definition subtree (fs : FS) (p : Path) : FS :=
  list_to_map (omap (fun e => r ← path_strip p e.1; Some (r, e.2)) (map_to_list fs)).

(** The filesystem without the tree at [p]. *)
Definition prune (p : Path) (fs : FS) : FS := filter (fun e => path_strip p e.1 = None) fs.

(** The filesystem with the tree at [p] replaced by [t]. *)
Definition graft (p : Path) (t fs : FS) : FS := kmap (p ++.) t ∪ prune p fs.

Definition move_tree (from to : Path) (fs : FS) : FS := graft to (subtree fs from) (prune from fs).

Definition has_children (fs : FS) (p : Path) : bool :=
  existsb (fun e => match path_strip p e.1 with Some (_ :: _) => true | _ => false end) (map_to_list fs).

(** [Path::is_dir]. *)
Definition is_dir (fs : FS) (p : Path) : bool := bool_decide (node_at fs p = Some NDir).

(** [Path::exists], which follows links. *)
Definition path_exists (fs : FS) (p : Path) : bool :=
  match node_at fs p with None | Some (NSymlink None) => false | Some _ => true end.

(** [fs::symlink_metadata(p).is_ok()]. *)
Definition entry_exists (fs : FS) (p : Path) : bool := bool_decide (is_Some (node_at fs p)).

(** [fs::rename] as POSIX has it: a directory only replaces an empty one. *)
Definition rename_node (from to : Path) (fs : FS) : result IoKind FS :=
  match node_at fs from with
  | None => Err IoNotFound
  | Some n =>
      if starts_with to from || starts_with from to then Err IoInvalidInput else
      match node_at fs (path_parent to) with
      | None => Err IoNotFound
      | Some NDir =>
          match n, node_at fs to with
          | _, None => Ok (move_tree from to fs)
          | NDir, Some NDir => if has_children fs to then Err IoDirectoryNotEmpty
                               else Ok (move_tree from to fs)
          | NDir, Some _ => Err IoNotADirectory
          | _, Some NDir => Err IoIsADirectory
          | _, Some _ => Ok (move_tree from to fs)
          end
      | Some _ => Err IoNotADirectory
      end
  end.

(** [fs::remove_dir]. *)
Definition remove_dir (p : Path) (fs : FS) : result IoKind FS :=
  match node_at fs p with
  | Some NDir => if has_children fs p then Err IoDirectoryNotEmpty else Ok (delete p fs)
  | Some _ => Err IoNotADirectory
  | None => Err IoNotFound
  end.

(** The entries of the tree at [p], children before their directory. *)
Definition deeper (x y : Path) : Prop := length y <= length x.
#[global] Instance deeper_dec x y : Decision (deeper x y).
Proof. unfold deeper. apply _. Defined.

Definition tree_entries (fs : FS) (p : Path) : list Path :=
  merge_sort deeper (omap (fun e => (fun _ => e.1) <$> path_strip p e.1) (map_to_list fs)).

(** ** Calls that may fail, and the states they pass through *)

Record Disk := mkDisk {
  dk_fs : FS;
  dk_errors : list (option IoKind);
  dk_past : list FS;
}.

(** One call: the next planned error, or the call's own outcome. *)
Definition act (f : FS -> result IoKind FS) : sm Disk IoKind unit := fun d =>
  let errors := tail (dk_errors d) in
  match head (dk_errors d) with
  | Some (Some k) => (mkDisk (dk_fs d) errors (dk_past d), Err k)
  | _ => match f (dk_fs d) with
         | Ok fs' => (mkDisk fs' errors (dk_past d ++ [dk_fs d]), Ok tt)
         | Err k => (mkDisk (dk_fs d) errors (dk_past d), Err k)
         end
  end.

Definition io (p : Path) (f : FS -> result IoKind FS) : sm Disk DownloadError unit := serr (DIo p) (act f).

(** A look at the disk. *)
Definition look {E A : Type} (f : FS -> result E A) : sm Disk E A := fun d => (d, f (dk_fs d)).
Definition peek {E A : Type} (f : FS -> A) : sm Disk E A := fun d => (d, Ok (f (dk_fs d))).

(** [fsync_dir] (library/download.rs:674-678). *)
Definition fsync_dir (p : Path) : sm Disk DownloadError unit :=
  io p (fun fs => match node_at fs p with Some _ => Ok fs | None => Err IoNotFound end).

(** [File::sync_all] on an open file. *)
Definition sync_file (p : Path) : sm Disk DownloadError unit := io p (fun fs => Ok fs).

(** [fs::create_dir_all]: one call per missing ancestor. *)
Fixpoint make_dirs (done rest : Path) : sm Disk IoKind unit :=
  match rest with
  | [] => sret tt
  | c :: rest' =>
      let p := (done ++ [c])%list in
      let! here := peek (fun fs => node_at fs p) in
      match here with
      | Some NDir => make_dirs p rest'
      | None => do! act (fun fs => create_dir fs p) then! make_dirs p rest'
      | Some _ => sfail IoNotADirectory
      end
  end.

Definition create_dirs_at (p : Path) : sm Disk DownloadError unit := serr (DIo p) (make_dirs [] p).

(** [fs::remove_dir_all]: one call per entry; a link is removed itself. *)
Definition remove_tree (p : Path) : sm Disk IoKind unit :=
  let! here := peek (fun fs => node_at fs p) in
  match here with
  | None => sfail IoNotFound
  | Some (NFile _) => sfail IoNotADirectory
  | Some _ => let! entries := peek (fun fs => tree_entries fs p) in
              sforeach (fun q => act (fun fs => Ok (delete q fs))) entries
  end.

(** [match fs::remove_dir_all(p) { NotFound => Ok(()), .. }]. *)
Definition remove_tree_if_present (p : Path) : sm Disk DownloadError unit := fun d =>
  match remove_tree p d with
  | (d', Ok _) | (d', Err IoNotFound) => (d', Ok tt)
  | (d', Err k) => (d', Err (DIo p k))
  end.

(** [write_file_durably] (library/download.rs:641-667). *)
Definition write_durably (p : Path) (bytes : list byte) : sm Disk DownloadError unit :=
  let parent := path_parent p in
  let tmp := path_push_suffix p ".tmp" in
  do! create_dirs_at parent then!
  do! io tmp (fun fs => open_write fs tmp true) then!
  do! io tmp (fun fs => Ok (write_chunk fs tmp 0 bytes)) then!
  do! sync_file tmp then!
  do! io p (rename_node tmp p) then!
  fsync_dir parent.

(** [remove_any] (library/staging.rs:1336-1347). *)
Definition remove_any (p : Path) : sm Disk DownloadError unit :=
  let! here := peek (fun fs => node_at fs p) in
  match here with
  | None => sret tt
  | Some NDir => serr (DIo p) (remove_tree p)
  | Some _ => io p (fun fs => remove_file fs p)
  end.

(** [prune_empty_parents, loop] (library/staging.rs:1318-1323): at most one
    round per component of the path. *)
Fixpoint prune_upwards (rounds : nat) (dir stop_at : Path) : sm Disk IoKind unit :=
  match rounds with
  | O => sret tt
  | S rounds' =>
      if bool_decide (dir = stop_at) || negb (starts_with dir stop_at) || bool_decide (dir = [])
      then sret tt
      else fun d => match act (remove_dir dir) d with
                    | (d', Err _) => (d', Ok tt)
                    | (d', Ok _) => prune_upwards rounds' (path_parent dir) stop_at d'
                    end
  end.

(** [prune_empty_parents] (library/staging.rs:1316-1324). *)
Definition prune_empty_parents (p stop_at : Path) : sm Disk IoKind unit :=
  prune_upwards (length p) (path_parent p) stop_at.

(** ** Reasoning about every state on the way *)

Definition passes (I : FS -> Prop) (d d' : Disk) : Prop :=
  exists l, dk_past d' = (dk_past d ++ l)%list /\ Forall I l.

(** From [P], every state passed satisfies [I] and the outcome satisfies [Q];
    with [errors = false], for runs in which no call fails by accident. *)
Definition always {E A : Type} (errors : bool) (I P : FS -> Prop) (c : sm Disk E A)
    (Q : result E A -> FS -> Prop) : Prop :=
  forall d, (errors = false -> dk_errors d = []) -> P (dk_fs d) ->
    (errors = false -> dk_errors (c d).1 = []) /\ passes I d (c d).1 /\ Q (c d).2 (dk_fs (c d).1).

Lemma passes_refl I d : passes I d d.
Proof. exists []. by rewrite app_nil_r. Qed.

Lemma passes_trans I d1 d2 d3 : passes I d1 d2 -> passes I d2 d3 -> passes I d1 d3.
Proof.
  intros (l1 & E1 & H1) (l2 & E2 & H2). exists (l1 ++ l2)%list.
  split; [by rewrite E2, E1, (assoc_L app)|by apply Forall_app].
Qed.

Section always.
Context {E A : Type} (errors : bool) (I : FS -> Prop).
Implicit Types P : FS -> Prop.

Lemma always_weaken P P' (c : sm Disk E A) Q Q' :
  always errors I P' c Q' -> (forall fs, P fs -> P' fs) -> (forall r fs, Q' r fs -> Q r fs) ->
  always errors I P c Q.
Proof. intros H HP HQ d Hd Hp. destruct (H d Hd (HP _ Hp)) as (? & ? & ?). auto. Qed.

Lemma always_bind {B : Type} P (c : sm Disk E A) (k : A -> sm Disk E B) R Q :
  always errors I P c (fun r fs => match r with Ok a => R a fs | Err e => Q (Err e) fs end) ->
  (forall a, always errors I (R a) (k a) Q) -> always errors I P (sbind c k) Q.
Proof.
  intros Hc Hk d Hd Hp. destruct (Hc d Hd Hp) as (He & Hs & Hq). unfold sbind.
  destruct (c d) as [d1 [a|e]]; simpl in *; [|done]. destruct (Hk a d1 He Hq) as (? & ? & ?).
  split_and!; [done|by eapply passes_trans|done].
Qed.

Lemma always_ret P (a : A) Q : (forall fs, P fs -> Q (Ok a) fs) -> always (E := E) errors I P (sret a) Q.
Proof. intros H d Hd Hp. split_and!; [done|apply passes_refl|by apply H]. Qed.

Lemma always_fail P (e : E) Q : (forall fs, P fs -> Q (Err e) fs) -> always (A := A) errors I P (sfail e) Q.
Proof. intros H d Hd Hp. split_and!; [done|apply passes_refl|by apply H]. Qed.

Lemma always_lift P (r : result E A) Q : (forall fs, P fs -> Q r fs) -> always errors I P (slift r) Q.
Proof. intros H d Hd Hp. split_and!; [done|apply passes_refl|by apply H]. Qed.

Lemma always_look P (f : FS -> result E A) Q :
  (forall fs, P fs -> Q (f fs) fs) -> always errors I P (look f) Q.
Proof. intros H d Hd Hp. split_and!; [done|apply passes_refl|by apply H]. Qed.

Lemma always_peek P (f : FS -> A) Q :
  (forall fs, P fs -> Q (Ok (f fs)) fs) -> always errors I P (peek (E := E) f) Q.
Proof. intros H d Hd Hp. split_and!; [done|apply passes_refl|by apply H]. Qed.

Lemma always_serr {F : Type} P (f : E -> F) (c : sm Disk E A) Q :
  always errors I P c (fun r fs => Q (rmap_err f r) fs) -> always errors I P (serr f c) Q.
Proof.
  intros H d Hd Hp. destruct (H d Hd Hp) as (? & ? & ?). unfold serr. by destruct (c d) as [d' r].
Qed.

Lemma always_ignore P (c : sm Disk E A) Q :
  always errors I P c (fun _ => Q (Ok tt)) -> always (E := E) errors I P (signore c) Q.
Proof. intros H d Hd Hp. by apply H. Qed.

End always.

Lemma always_act (errors : bool) (I P : FS -> Prop) f Q :
  (forall fs, P fs -> I fs) ->
  (forall fs k, P fs -> errors = true \/ f fs = Err k -> Q (Err k) fs) ->
  (forall fs fs', P fs -> f fs = Ok fs' -> Q (Ok tt) fs') -> always errors I P (act f) Q.
Proof.
  intros HI Herr Hok d Hd Hp. unfold act.
  assert (Hstep : forall d', d' = match f (dk_fs d) with
      | Ok fs' => (mkDisk fs' (tail (dk_errors d)) (dk_past d ++ [dk_fs d]), Ok tt)
      | Err k => (mkDisk (dk_fs d) (tail (dk_errors d)) (dk_past d), Err k) end ->
    (errors = false -> dk_errors d'.1 = []) /\ passes I d d'.1 /\ Q d'.2 (dk_fs d'.1)).
  { intros d' ->. destruct (f (dk_fs d)) as [fs'|k] eqn:Ef; cbn.
    - split_and!; [intros Hq; by rewrite (Hd Hq)| |by eapply Hok].
      exists [dk_fs d]. split; [done|]. by repeat constructor; apply HI.
    - split_and!; [intros Hq; by rewrite (Hd Hq)|by exists []; rewrite app_nil_r|eapply Herr; eauto]. }
  destruct (dk_errors d) as [|[k|] es] eqn:Ees; cbn [head tail] in *; [by apply Hstep| |by apply Hstep].
  destruct errors; [|by specialize (Hd eq_refl)]. cbn.
  split_and!; [done|by exists []; rewrite app_nil_r|apply Herr; auto].
Qed.

Lemma always_foreach {E A : Type} (errors : bool) (I : FS -> Prop) (c : A -> sm Disk E unit)
    (l : list A) (R : FS -> Prop) (Q : result E unit -> FS -> Prop) :
  (forall x, x ∈ l -> always errors I R (c x) (fun r fs => match r with Ok _ => R fs | Err e => Q (Err e) fs end)) ->
  (forall fs, R fs -> Q (Ok tt) fs) -> always errors I R (sforeach c l) Q.
Proof.
  intros Hc HQ. induction l as [|x l IH]; [by apply always_ret|].
  apply (always_bind errors I R (c x) _ (fun _ => R)).
  - eapply always_weaken; [apply Hc; by left|done|]. by intros [[]|e] fs.
  - intros _. apply IH. intros y Hy. apply Hc. by right.
Qed.

(** ** The algebra of trees *)

Lemma path_strip_Some p q r : path_strip p q = Some r <-> q = (p ++ r)%list.
Proof.
  revert q. induction p as [|a p IH]; intros q; simpl; [split; [by intros [= ->]|by intros ->]|].
  destruct q as [|b q]; [done|]. destruct (String.eqb_spec a b) as [->|Hne].
  - rewrite IH. split; [by intros ->|by intros [= ->]].
  - split; [done|]. intros [= ? _]. congruence.
Qed.

Lemma path_strip_app p r : path_strip p (p ++ r) = Some r.
Proof. by apply path_strip_Some. Qed.

Lemma lookup_subtree fs p q : subtree fs p !! q = fs !! (p ++ q)%list.
Proof.
  apply option_eq. intros n. unfold subtree. rewrite <- elem_of_list_to_map.
  - rewrite list_elem_of_omap. split.
    + intros ([k m] & Hk%elem_of_map_to_list & Hs). simpl in Hs.
      destruct (path_strip p k) as [r|] eqn:Er; [|done]. injection Hs as <- <-.
      by apply path_strip_Some in Er as <-.
    + intros Hn. exists (p ++ q, n)%list. rewrite elem_of_map_to_list. split; [done|].
      simpl. by rewrite path_strip_app.
  - assert (Hnd := NoDup_fst_map_to_list fs). revert Hnd.
    generalize (map_to_list fs) as l. induction l as [|[k m] l IH]; [constructor|].
    cbn [fmap list_fmap fst]. intros [Hnk Hnd]%NoDup_cons. cbn [omap list_omap fst snd].
    destruct (path_strip p k) as [r|] eqn:Er; cbn [mbind option_bind]; [|by apply IH].
    cbn [fmap list_fmap fst]. apply NoDup_cons. split; [|by apply IH].
    intros ([r' m'] & Hr & ([k' m''] & Hk & Hs)%list_elem_of_omap)%list_elem_of_fmap.
    simpl in Hr, Hs. destruct (path_strip p k') as [r''|] eqn:Er'; [|done]. injection Hs as -> ->.
    apply path_strip_Some in Er, Er'. apply Hnk. rewrite Er, Hr, <- Er'.
    apply list_elem_of_fmap. by exists (k', m').
Qed.

Lemma lookup_prune p fs q : prune p fs !! q = match path_strip p q with Some _ => None | None => fs !! q end.
Proof.
  unfold prune. rewrite map_lookup_filter. destruct (fs !! q) as [n|]; simpl; [|by destruct (path_strip p q)].
  destruct (path_strip p q) as [r|] eqn:Er; case_guard as Hg; simpl in *; congruence.
Qed.

Lemma lookup_graft p t fs q :
  graft p t fs !! q = match path_strip p q with Some r => t !! r | None => fs !! q end.
Proof.
  unfold graft. assert (Inj (=) (=) (p ++.)) by apply _.
  destruct (path_strip p q) as [r|] eqn:Er.
  - apply path_strip_Some in Er as ->. rewrite lookup_union, lookup_kmap, lookup_prune, path_strip_app by done.
    by destruct (t !! r).
  - rewrite lookup_union_r, lookup_prune, Er; [done|]. apply lookup_kmap_None; [done|].
    intros r ->. by rewrite path_strip_app in Er.
Qed.

Lemma lookup_move from to fs q :
  move_tree from to fs !! q = match path_strip to q with
    | Some r => fs !! (from ++ r)%list
    | None => match path_strip from q with Some _ => None | None => fs !! q end
    end.
Proof.
  unfold move_tree. rewrite lookup_graft, lookup_prune.
  destruct (path_strip to q); [apply lookup_subtree|done].
Qed.

(** ** What a call leaves alone *)

(** Outside [K] the two filesystems are the same. *)
Definition agree (K : Path -> Prop) (fs0 fs : FS) : Prop := forall q, ~ K q -> fs !! q = fs0 !! q.

Definition under (p q : Path) : Prop := is_Some (path_strip p q).

#[global] Instance under_dec p q : Decision (under p q).
Proof. unfold under. apply _. Defined.

Lemma agree_refl K fs : agree K fs fs.
Proof. by intros q. Qed.

Lemma agree_trans K fs1 fs2 fs3 : agree K fs1 fs2 -> agree K fs2 fs3 -> agree K fs1 fs3.
Proof. intros H1 H2 q Hq. rewrite H2, H1 by done. done. Qed.

Lemma agree_weaken (K K' : Path -> Prop) fs1 fs2 :
  (forall q, K q -> K' q) -> agree K fs1 fs2 -> agree K' fs1 fs2.
Proof. intros HK H q Hq. apply H. auto. Qed.

Lemma agree_subtree K fs0 fs p :
  agree K fs0 fs -> (forall q, ~ K (p ++ q)%list) -> subtree fs p = subtree fs0 p.
Proof. intros H HK. apply map_eq. intros q. rewrite !lookup_subtree. by apply H. Qed.

Lemma agree_delete (K : Path -> Prop) fs0 fs p : agree K fs0 fs -> K p -> agree K fs0 (delete p fs).
Proof. intros H Hp q Hq. rewrite lookup_delete_ne by (by intros ->). by apply H. Qed.

Lemma agree_insert (K : Path -> Prop) fs0 fs p n : agree K fs0 fs -> K p -> agree K fs0 (<[p := n]> fs).
Proof. intros H Hp q Hq. rewrite lookup_insert_ne by (by intros ->). by apply H. Qed.

Lemma under_spec p q : under p q <-> exists r, q = (p ++ r)%list.
Proof. unfold under, is_Some. by setoid_rewrite path_strip_Some. Qed.

Lemma tree_entries_in fs p q : q ∈ tree_entries fs p <-> under p q /\ is_Some (fs !! q).
Proof.
  unfold tree_entries. rewrite merge_sort_Permutation, list_elem_of_omap. split.
  - intros ([k n] & Hk%elem_of_map_to_list & Hs). simpl in Hs. unfold under.
    destruct (path_strip p k) as [r|] eqn:Er; [|done]. injection Hs as <-. rewrite Er. eauto.
  - intros [[r Hr] [n Hn]]. exists (q, n). rewrite elem_of_map_to_list. split; [done|].
    simpl. by rewrite Hr.
Qed.

Lemma agree_move K fs0 fs from to :
  agree K fs0 fs -> (forall q, under from q -> K q) -> (forall q, under to q -> K q) ->
  agree K fs0 (move_tree from to fs).
Proof.
  intros H Hf Ht q Hq. rewrite lookup_move.
  destruct (path_strip to q) eqn:Et; [destruct Hq; apply Ht; unfold under; rewrite Et; eauto|].
  destruct (path_strip from q) eqn:Ef; [destruct Hq; apply Hf; unfold under; rewrite Ef; eauto|].
  by apply H.
Qed.

Section frames.
Context (errors : bool) (K : Path -> Prop) (fs0 : FS).
Abbreviation kept := (agree K fs0).
Abbreviation keeps c := (always errors kept kept c (fun _ => kept)).

Lemma act_keeps f :
  (forall fs fs', kept fs -> f fs = Ok fs' -> kept fs') -> keeps (act f).
Proof. intros H. apply always_act; eauto. Qed.

Lemma io_keeps p f :
  (forall fs fs', kept fs -> f fs = Ok fs' -> kept fs') -> keeps (io p f).
Proof. intros H. by apply always_serr, act_keeps. Qed.

Lemma fsync_keeps p : keeps (fsync_dir p).
Proof. apply io_keeps. intros fs fs' Hk. destruct (node_at fs p); [by intros [= <-]|done]. Qed.

Lemma sync_file_keeps p : keeps (sync_file p).
Proof. apply io_keeps. by intros fs fs' Hk [= <-]. Qed.

Lemma bind_keeps {E A B : Type} (c : sm Disk E A) (k : A -> sm Disk E B) :
  keeps c -> (forall a, keeps (k a)) -> keeps (sbind c k).
Proof.
  intros Hc Hk. apply (always_bind _ _ _ _ _ (fun _ => kept)); [|done].
  eapply always_weaken; [exact Hc|done|]. by intros [a|e] fs.
Qed.

Lemma peek_keeps {E A : Type} (f : FS -> A) : keeps (peek (E := E) f).
Proof. by apply always_peek. Qed.

Lemma ret_keeps {E A : Type} (a : A) : keeps (sret (E := E) a).
Proof. by apply always_ret. Qed.

Lemma fail_keeps {E A : Type} (e : E) : keeps (sfail (A := A) e).
Proof. by apply always_fail. Qed.

Lemma foreach_keeps {E A : Type} (c : A -> sm Disk E unit) (l : list A) :
  (forall x, x ∈ l -> keeps (c x)) -> keeps (sforeach c l).
Proof.
  intros H. apply (always_foreach _ _ _ _ kept); [|done]. intros x Hx.
  eapply always_weaken; [by apply H|done|]. by intros [a|e] fs.
Qed.

Lemma make_dirs_keeps done rest :
  (forall q r, rest = (q ++ r)%list -> q <> [] -> K (done ++ q)%list) -> keeps (make_dirs done rest).
Proof.
  revert done. induction rest as [|c rest IH]; intros done HK; simpl; [apply ret_keeps|].
  apply bind_keeps; [apply peek_keeps|]. intros here.
  assert (Hnext : keeps (make_dirs (done ++ [c]) rest)).
  { apply IH. intros q r -> Hq. rewrite <- app_assoc. by apply (HK (c :: q) r). }
  assert (Hc : K (done ++ [c])) by (by apply (HK [c] rest)).
  destruct here as [[| |]|]; [apply fail_keeps|done|apply fail_keeps|].
  apply bind_keeps; [|done]. apply act_keeps. intros fs fs' Hk. unfold create_dir.
  destruct (node_at fs _); [done|]. intros [= <-]. by apply agree_insert.
Qed.

Lemma remove_tree_keeps p : (forall q, under p q -> K q) -> keeps (remove_tree p).
Proof.
  intros HK. unfold remove_tree. apply bind_keeps; [apply peek_keeps|]. intros here.
  assert (Hrest : keeps (let! entries := peek (E := IoKind) (fun fs => tree_entries fs p) in
    sforeach (fun q => act (fun fs => Ok (delete q fs))) entries)).
  { apply (always_bind _ _ _ _ _ (fun entries fs => kept fs /\ forall q, q ∈ entries -> K q)).
    - apply always_peek. intros fs Hfs. split; [done|]. intros q [Hq _]%tree_entries_in. auto.
    - intros entries. intros d Hd [Hk HE]. apply foreach_keeps; [|done..]. intros q Hq.
      apply act_keeps. intros fs fs' Hfs [= <-]. apply agree_delete; auto. }
  destruct here as [[| |]|]; [apply fail_keeps|apply Hrest|apply Hrest|apply fail_keeps].
Qed.

Lemma prune_keeps rounds dir stop_at : (forall q, under stop_at q -> K q) -> keeps (prune_upwards rounds dir stop_at).
Proof.
  intros HK. revert dir. induction rounds as [|rounds IH]; intros dir; simpl; [apply ret_keeps|].
  destruct (bool_decide (dir = stop_at) || negb (starts_with dir stop_at) || bool_decide (dir = [])) eqn:Eb;
    [apply ret_keeps|].
  assert (Hd : K dir).
  { apply HK. unfold starts_with in Eb. unfold under. destruct (path_strip stop_at dir); [eauto|].
    by rewrite orb_true_r in Eb. }
  assert (Hact : keeps (act (remove_dir dir))).
  { apply act_keeps. intros fs fs' Hk. unfold remove_dir. destruct (node_at fs dir) as [[| |]|]; try done.
    destruct (has_children fs dir); [done|]. intros [= <-]. by apply agree_delete. }
  intros d He Hp. destruct (Hact d He Hp) as (H1 & H2 & H3).
  destruct (act (remove_dir dir) d) as [d' [[]|k]]; simpl in *; [|by split_and!].
  destruct (IH (path_parent dir) d' H1 H3) as (? & ? & ?).
  split_and!; [done|by eapply passes_trans|done].
Qed.

Lemma rename_keeps p from to :
  (forall q, under from q -> K q) -> (forall q, under to q -> K q) -> keeps (io p (rename_node from to)).
Proof.
  intros Hf Ht. apply io_keeps. intros fs fs' Hk. unfold rename_node.
  destruct (node_at fs from) as [n|]; [|done]. destruct (_ || _); [done|].
  assert (Hm := agree_move K fs0 fs from to Hk Hf Ht).
  destruct (node_at fs (path_parent to)) as [[| |]|]; try done.
  destruct n, (node_at fs to) as [[| |]|]; try done; try (by intros [= <-]).
  destruct (has_children fs to); [done|]. by intros [= <-].
Qed.

End frames.

(** ** Outcomes when nothing fails by accident *)

Section totals.
Context (errors : bool) (I : FS -> Prop).

Lemma always_and {E A : Type} (I1 I2 P1 P2 : FS -> Prop) (c : sm Disk E A) Q1 Q2 :
  always errors I1 P1 c Q1 -> always errors I2 P2 c Q2 ->
  always errors (fun fs => I1 fs /\ I2 fs) (fun fs => P1 fs /\ P2 fs) c (fun r fs => Q1 r fs /\ Q2 r fs).
Proof.
  intros H1 H2 d Hd [Hp1 Hp2]. destruct (H1 d Hd Hp1) as (? & (l & El & Hl) & ?).
  destruct (H2 d Hd Hp2) as (? & (l' & El' & Hl') & ?). split_and!; try done.
  rewrite El in El'. apply app_inv_head in El' as <-. exists l. split; [done|].
  apply Forall_forall. intros x Hx. rewrite Forall_forall in Hl, Hl'. auto.
Qed.

Lemma always_states {E A : Type} (I1 I2 P : FS -> Prop) (c : sm Disk E A) Q :
  always errors I1 P c Q -> (forall fs, I1 fs -> I2 fs) -> always errors I2 P c Q.
Proof.
  intros H Hi d Hd Hp. destruct (H d Hd Hp) as (? & (l & El & Hl) & ?). split_and!; try done.
  exists l. split; [done|]. by eapply Forall_impl.
Qed.

Definition dir_or_free (fs : FS) (p : Path) : Prop := fs !! p = None \/ fs !! p = Some NDir.

(** Every non-empty prefix of [p]. *)
Definition prefixes_are (X : Path -> Prop) (p : Path) : Prop :=
  forall q r, p = (q ++ r)%list -> q <> [] -> X q.

Lemma prefixes_snoc X p c : prefixes_are X p -> X (p ++ [c])%list -> prefixes_are X (p ++ [c])%list.
Proof.
  intros Hp Hc q r Hq Hne. destruct r as [|x r _] using rev_ind; [rewrite app_nil_r in Hq; by subst q|].
  rewrite app_assoc in Hq. apply app_inj_tail in Hq as [-> _]. by apply (Hp q r).
Qed.

Lemma make_dirs_total done rest :
  always errors (fun _ => True)
    (fun fs => prefixes_are (fun q => fs !! q = Some NDir) done /\
               prefixes_are (fun q => dir_or_free fs (done ++ q)%list) rest)
    (make_dirs done rest)
    (fun r fs => match r with
                 | Ok _ => prefixes_are (fun q => fs !! q = Some NDir) (done ++ rest)%list
                 | Err _ => errors = true
                 end).
Proof.
  revert done. induction rest as [|c rest IH]; intros done; simpl.
  { apply always_ret. intros fs [Hd _]. by rewrite app_nil_r. }
  assert (Happ : (done ++ c :: rest = (done ++ [c]) ++ rest)%list) by (by rewrite <- app_assoc).
  assert (Hc0 : (done ++ [c])%list <> []) by (by destruct done).
  assert (Hnext : forall fs, fs !! (done ++ [c])%list = Some NDir ->
    prefixes_are (fun q => fs !! q = Some NDir) done ->
    prefixes_are (fun q => dir_or_free fs (done ++ q)%list) (c :: rest) ->
    prefixes_are (fun q => fs !! q = Some NDir) (done ++ [c])%list /\
    prefixes_are (fun q => dir_or_free fs ((done ++ [c]) ++ q)%list) rest).
  { intros fs Hd Hdone Hrest. split; [by apply prefixes_snoc|]. intros q r -> Hq.
    rewrite <- app_assoc. by apply (Hrest (c :: q) r). }
  rewrite Happ. apply (always_bind _ _ _ _ _ (fun here fs =>
    here = fs !! (done ++ [c])%list /\ prefixes_are (fun q => fs !! q = Some NDir) done /\
    prefixes_are (fun q => dir_or_free fs (done ++ q)%list) (c :: rest))).
  { apply always_peek. intros fs [Hd Hr]. split; [by apply node_at_nonempty|done]. }

  intros here. assert (Hgo := IH (done ++ [c])%list). destruct here as [[bs| |o]|].
  - intros d _ (Hn & _ & Hr). destruct (Hr [c] rest eq_refl ltac:(done)) as [Hx|Hx]; congruence.
  - eapply always_weaken; [exact Hgo| |done]. intros fs (Hn & Hd & Hr). by apply Hnext.
  - intros d _ (Hn & _ & Hr). destruct (Hr [c] rest eq_refl ltac:(done)) as [Hx|Hx]; congruence.
  - apply (always_bind _ _ _ _ _ (fun _ fs =>
      prefixes_are (fun q => fs !! q = Some NDir) (done ++ [c])%list /\
      prefixes_are (fun q => dir_or_free fs ((done ++ [c]) ++ q)%list) rest)); [|by intros []].
    apply always_act; [done| |].
    + intros fs k (Hn & _) [He|Hk]; [done|]. unfold create_dir in Hk.
      rewrite node_at_nonempty, <- Hn in Hk by done. done.
    + intros fs fs' (Hn & Hd & Hr) Hc. unfold create_dir in Hc.
      rewrite node_at_nonempty, <- Hn in Hc by done. injection Hc as <-.
      apply Hnext; [apply lookup_insert_eq| |].
      * intros q r Hq Hne. destruct (decide (q = done ++ [c])%list) as [->|Hq']; [apply lookup_insert_eq|].
        rewrite lookup_insert_ne by done. by apply (Hd q r).
      * intros q r Hq Hne. unfold dir_or_free. destruct (decide (done ++ q = done ++ [c])%list) as [->|Hq'].
        { right. apply lookup_insert_eq. }
        rewrite lookup_insert_ne by done. by apply (Hr q r).
Qed.

Lemma deletes_total (l : list Path) p :
  always errors (fun _ => True) (fun fs => p ∈ l \/ fs !! p = None)
    (sforeach (fun q => act (fun fs => Ok (delete q fs))) l)
    (fun r fs => match r with Ok _ => fs !! p = None | Err _ => errors = true end).
Proof.
  induction l as [|x l IH]; simpl.
  { apply always_ret. intros fs [Hp|Hp]; [by apply not_elem_of_nil in Hp|done]. }
  apply (always_bind _ _ _ _ _ (fun _ fs => p ∈ l \/ fs !! p = None)); [|by intros []].
  apply always_act; [done|by intros fs k _ [?|?]|]. intros fs fs' Hp [= <-].
  destruct (decide (x = p)) as [->|Hne]; [right; apply lookup_delete_eq|].
  rewrite lookup_delete_ne by done. destruct Hp as [[->|Hp]%elem_of_cons|Hp]; auto. done.
Qed.

Lemma remove_if_present_total p :
  p <> [] ->
  always errors (fun _ => True) (fun fs => forall bs, fs !! p <> Some (NFile bs))
    (remove_tree_if_present p)
    (fun r fs => match r with Ok _ => fs !! p = None \/ errors = true | Err _ => errors = true end).
Proof.
  intros Hp. assert (Ht : always errors (fun _ => True) (fun fs => forall bs, fs !! p <> Some (NFile bs))
    (remove_tree p) (fun r fs => match r with
      | Ok _ | Err IoNotFound => fs !! p = None \/ errors = true
      | Err _ => errors = true end)).
  { apply (always_bind _ _ _ _ _ (fun here fs => here = fs !! p /\ forall bs, fs !! p <> Some (NFile bs))).
    { apply always_peek. intros fs Hf. split; [by apply node_at_nonempty|done]. }
    assert (Hdel : forall n, always errors (fun _ => True) (fun fs => Some n = fs !! p)
      (let! entries := peek (E := IoKind) (fun fs => tree_entries fs p) in
       sforeach (fun q => act (fun fs => Ok (delete q fs))) entries)
      (fun r fs => match r with
      | Ok _ | Err IoNotFound => fs !! p = None \/ errors = true
      | Err _ => errors = true end)).
    { intros n. apply (always_bind _ _ _ _ _ (fun entries fs => p ∈ entries \/ fs !! p = None)).
      - apply always_peek. intros fs Hn. left. apply tree_entries_in. rewrite <- Hn. split; [|eauto].
        apply under_spec. exists []. by rewrite app_nil_r.
      - intros entries. eapply always_weaken; [apply (deletes_total _ p)|done|].
        intros [[]|k] fs Hr; [by left|destruct k; auto]. }
    intros [[bs| |o]|].
    - intros d _ [Hn Hf]. by destruct (Hf bs).
    - eapply always_weaken; [apply Hdel|by intros fs [? _]|done].
    - eapply always_weaken; [apply Hdel|by intros fs [? _]|done].
    - apply always_fail. intros fs [Hn _]. by left. }
  intros d Hd Hf. destruct (Ht d Hd Hf) as (H1 & H2 & H3). unfold remove_tree_if_present.
  destruct (remove_tree p d) as [d' [[]|k]]; simpl in *.
  - by split_and!.
  - destruct k; simpl in *; by split_and!.
Qed.

End totals.

Lemma always_assume {E A : Type} (errors : bool) (I P : FS -> Prop) (X : Prop) (c : sm Disk E A) Q :
  (X -> always errors I P c Q) -> always errors I (fun fs => X /\ P fs) c Q.
Proof. intros H d Hd [Hx Hp]. by apply H. Qed.

Lemma always_pre {E A : Type} (P' P : FS -> Prop) (errors : bool) (I : FS -> Prop) (c : sm Disk E A) Q :
  (forall fs, P fs -> P' fs) -> always errors I P' c Q -> always errors I P c Q.
Proof. intros HP H d Hd Hp. apply H; auto. Qed.

(** A look at a disk that is known. *)
Lemma always_seen {E A B : Type} (errors : bool) (I : FS -> Prop) (fs0 : FS) (f : FS -> A)
    (k : A -> sm Disk E B) Q :
  always errors I (fun fs => fs = fs0) (k (f fs0)) Q ->
  always errors I (fun fs => fs = fs0) (sbind (peek f) k) Q.
Proof.
  intros H. apply (always_bind _ _ _ _ _ (fun a fs => a = f fs0 /\ fs = fs0)).
  { apply always_peek. by intros fs ->. }
  intros a. apply always_assume. by intros ->.
Qed.

Lemma frame_phase {E A : Type} (errors : bool) (K : Path -> Prop) (X : FS -> Prop) (c : sm Disk E A) :
  (forall fs0, always errors (agree K fs0) (agree K fs0) c (fun _ => agree K fs0)) ->
  (forall fs fs', X fs -> agree K fs fs' -> X fs') -> always errors X X c (fun _ => X).
Proof.
  intros Hc HX d Hd Hp. destruct (Hc (dk_fs d) d Hd (agree_refl _ _)) as (? & (l & El & Hl) & ?).
  split_and!; [done| |by eapply HX]. exists l. split; [done|].
  eapply Forall_impl; [exact Hl|]. intros fs Hfs. by eapply HX.
Qed.

Lemma remove_if_present_keeps errors K fs0 p :
  (forall q, under p q -> K q) ->
  always errors (agree K fs0) (agree K fs0) (remove_tree_if_present p) (fun _ => agree K fs0).
Proof.
  intros HK d Hd Hp. destruct (remove_tree_keeps errors K fs0 p HK d Hd Hp) as (H1 & H2 & H3).
  unfold remove_tree_if_present. destruct (remove_tree p d) as [d' [[]|[]]]; by split_and!.
Qed.

Lemma create_dirs_keeps errors K fs0 p :
  prefixes_are K p -> always errors (agree K fs0) (agree K fs0) (create_dirs_at p) (fun _ => agree K fs0).
Proof. intros HK. apply always_serr, make_dirs_keeps. exact HK. Qed.
