(* ===== verification/Staging.v ===== *)
(** * Staging: revision-scoped staging and publication (library/staging.rs)

A session is assembled in a hidden directory named by its publication,
sealed once every file of its manifest is verified, and made visible by one
rename.  Paths are relative to the library root.  The two marker files are
JSON: [serde_json] enters as [MarkerCodec].  Functions that change the disk
are calls on a [Disk], so an I/O error or a crash is possible at every one of
them; creating the parents of a target is one call. *)

From Stdlib Require Import NArith Lia Ascii String.
From stdpp Require Import base numbers list strings gmap.
From S2P Require Import Prelude Domain Files Journal Artifact Download Fault Disk.

Local Open Scope string_scope.

(** [SUPERSEDED_DIR_NAME] (library/staging.rs:149-149). *)
Definition SUPERSEDED_DIR_NAME : string := ".superseded".
(** [SELECTED_TRASH_DIR_NAME] (library/staging.rs:155-155). *)
Definition SELECTED_TRASH_DIR_NAME : string := ".selected-trash".

(** [RevisionMarker] (library/staging.rs:207-211). *)
Record RevisionMarker := mkRevisionMarker {
  rm_revision : string;
  rm_file_count : N;
  rm_total_bytes : N;
}.

(** [SelectedMarker] (library/staging.rs:218-228). *)
Record SelectedMarker := mkSelectedMarker {
  sm_scope : string;
  sm_revision : string;
  sm_file_count : N;
  sm_total_bytes : N;
  sm_manifest_digest : string;
}.

Definition revision_marker_fits (m : RevisionMarker) : Prop :=
  (rm_file_count m <= u32_max)%N /\ (rm_total_bytes m <= u64_max)%N.
Definition selected_marker_fits (m : SelectedMarker) : Prop :=
  (sm_file_count m <= u32_max)%N /\ (sm_total_bytes m <= u64_max)%N.

(** [serde_json] on the two markers: text that parses back to the value. *)
Class MarkerCodec := {
  revision_encode : RevisionMarker -> list byte;
  revision_decode : list byte -> option RevisionMarker;
  selected_encode : SelectedMarker -> list byte;
  selected_decode : list byte -> option SelectedMarker;
  revision_encode_utf8 : forall m, utf8_valid (revision_encode m) = true;
  selected_encode_utf8 : forall m, utf8_valid (selected_encode m) = true;
  revision_decode_encode : forall m, revision_marker_fits m -> revision_decode (revision_encode m) = Some m;
  selected_decode_encode : forall m, selected_marker_fits m -> selected_decode (selected_encode m) = Some m;
}.

(** [SessionManifest] (library/staging.rs:273-277). *)
Record SessionManifest := mkManifest {
  mf_device_id : string;
  mf_session_id : string;
  mf_files : list ExpectedArtifact;
}.

(** [SessionManifest::from_plans] (library/staging.rs:297-307). *)
Definition from_plans (device_id session_id : string) (plans : list FilePlan) : SessionManifest :=
  mkManifest device_id session_id (expected_of_plan <$> plans).

Definition join_path (segments : Path) : string := String.concat "/" segments.

(** [relative_display_path] (library/staging.rs:381-394). *)
Definition relative_display_path (base_dir p : Path) : option string :=
  match path_strip base_dir p with
  | None | Some [] => None
  | Some segments => Some (join_path segments)
  end.

(** [SessionManifest::from_verified] (library/staging.rs:319-335). *)
Definition from_verified (device_id session_id : string) (base_dir : Path) (files : list VerifiedFile)
    : SessionManifest :=
  mkManifest device_id session_id
    ((fun f => mkExpected (vf_file_id f) (relative_display_path base_dir (vf_path f)) (vf_size_bytes f)
                 (Some (vf_sha256_hex f))) <$> files).

(** [SessionManifest::total_bytes] (library/staging.rs:338-342). *)
Definition manifest_total_bytes (m : SessionManifest) : N :=
  fold_left (fun acc f => u64_sat_add acc (ea_expected_size f)) (mf_files m) 0%N.

(** [manifest.files.len() as u32] (library/staging.rs:698-698). *)
Definition manifest_file_count (m : SessionManifest) : N :=
  (N.of_nat (length (mf_files m)) mod (u32_max + 1))%N.

(** [u64::to_le_bytes]. *)
Fixpoint le_bytes (k : nat) (n : N) : list byte :=
  match k with
  | O => []
  | S k' => byte_of n :: le_bytes k' (n / 256)
  end.

(** [hash_manifest_component] (library/staging.rs:373-376). *)
Definition manifest_component (value : string) : list byte :=
  (le_bytes 8 (str_len value) ++ bytes_of value)%list.

(** [SessionManifest::digest, file] (library/staging.rs:353-368). *)
Definition manifest_file_preimage (f : ExpectedArtifact) : list byte :=
  (manifest_component (ea_file_id f)
   ++ manifest_component (default "" (ea_target_relative_path f))
   ++ [if ea_target_relative_path f is Some _ then Byte.x01 else Byte.x00]
   ++ le_bytes 8 (ea_expected_size f)
   ++ match ea_expected_sha256_hex f with
      | Some hash => Byte.x01 :: manifest_component hash
      | None => [Byte.x00]
      end)%list.

(** [SessionManifest::digest, preimage] (library/staging.rs:348-370). *)
Definition manifest_preimage (m : SessionManifest) : list byte :=
  (manifest_component (mf_device_id m) ++ manifest_component (mf_session_id m)
   ++ mjoin (manifest_file_preimage <$> mf_files m))%list.

(** [SessionManifest::digest] (library/staging.rs:348-370). *)
Definition manifest_digest `{Sha256} (m : SessionManifest) : string := to_hex (sha256 (manifest_preimage m)).

(** [PublishError::ManifestMismatch, problems] (library/staging.rs:752-791):
    what each message is formatted from. *)
Inductive ManifestProblem :=
| MpMissing (file_id : string)
| MpPartial (file_id : string) (durable_offset expected_size : N)
| MpInvalid (file_id : string) (reason : InvalidReason)
| MpUnexpected (shown : Path)
| MpDuplicateTarget (shown : Path)
| MpFoldedDuplicateTarget (shown : Path)
| MpTempSize (file_id : string)
| MpTempDigest (file_id actual expected : string).

(** [PublishError] (library/staging.rs:407-422). *)
Inductive PublishError :=
| PubDownload (e : DownloadError)
| PubNothingStaged (revision : string) (path : Path)
| PubNotSealed (revision : string)
| PubManifestMismatch (revision : string) (problems : list ManifestProblem).

(** [From<PathSafetyError> for PublishError] (library/staging.rs:424-428). *)
Definition pub_path (e : PathSafetyError) : PublishError := PubDownload (DPathSafety e).

(** [From<PublishError> for DownloadError] (library/staging.rs:430-444). *)
Definition publish_download_error `{Display PublishError} (e : PublishError) : DownloadError :=
  match e with
  | PubDownload inner => inner
  | other => DInvalidPlan (to_string other)
  end.

(** [PublishOutcome] (library/staging.rs:451-454). *)
Inductive PublishOutcome := PoPublished (revision : string) | PoAlreadyPublished (revision : string).

(** [RevisionState] (library/staging.rs:469-477). *)
Inductive RevisionState := RsAbsent | RsStaged | RsSealed | RsPublished | RsSelectedPublished.

#[global] Instance RevisionState_eq_dec : EqDecision RevisionState.
Proof. solve_decision. Defined.

(** [SessionStaging] (library/staging.rs:490-495): the library root is the
    root of all paths. *)
Record SessionStaging := mkStaging {
  ss_device_id : string;
  ss_session_id : string;
  ss_revision : string;
}.

(** [SealedRevision] (library/staging.rs:922-924). *)
Record SealedRevision := mkSealed { sr_staging : SessionStaging }.

(** [SessionStaging::new] (library/staging.rs:499-515). *)
Definition SessionStaging_new (device_id session_id revision : string)
    : result PathSafetyError SessionStaging :=
  let? _ := validate_id_segment device_id in
  let? _ := validate_id_segment session_id in
  Ok (mkStaging device_id session_id revision).

(** [RevisionId::parse] (library/staging.rs:187-190). *)
Definition RevisionId_parse (raw : string) : result PathSafetyError string :=
  let? _ := validate_id_segment raw in Ok raw.

(** [SessionStaging::staging_root] (library/staging.rs:557-559). *)
Definition staging_root : Path := [STAGING_DIR_NAME].
(** [SessionStaging::file_root] (library/staging.rs:564-566). *)
Definition file_root (s : SessionStaging) : Path := [STAGING_DIR_NAME; ss_revision s].
(** [SessionStaging::revision_dir] (library/staging.rs:571-575). *)
Definition revision_dir (s : SessionStaging) : Path :=
  [STAGING_DIR_NAME; ss_revision s; ss_device_id s; ss_session_id s].
(** [SessionStaging::published_dir] (library/staging.rs:594-598). *)
Definition published_dir (s : SessionStaging) : Path := [ss_device_id s; ss_session_id s].
(** [SessionStaging::superseded_dir] (library/staging.rs:1219-1225). *)
Definition superseded_dir (s : SessionStaging) : Path :=
  [STAGING_DIR_NAME; SUPERSEDED_DIR_NAME; ss_revision s; ss_device_id s; ss_session_id s].
(** [SessionStaging::selected_trash_dir] (library/staging.rs:1227-1233). *)
Definition selected_trash_dir (s : SessionStaging) : Path :=
  [STAGING_DIR_NAME; SELECTED_TRASH_DIR_NAME; ss_revision s; ss_device_id s; ss_session_id s].
(** [SessionStaging::selected_trash_path] (library/staging.rs:1235-1237). *)
Definition selected_trash_path (s : SessionStaging) (index : nat) : Path :=
  (selected_trash_dir s ++ [String.append "file-" (dec (N.of_nat index))])%list.
(** [SessionStaging::selected_marker_trash_path] (library/staging.rs:1239-1241). *)
Definition selected_marker_trash_path (s : SessionStaging) : Path := (selected_trash_dir s ++ ["marker"])%list.

(** [durable_temp_path] (library/staging.rs:1327-1331). *)
Definition durable_temp_path (p : Path) : Path := path_push_suffix p ".tmp".

(** [selected_temp_path] (library/staging.rs:1352-1358). *)
Definition selected_temp_path (target : Path) (revision : string) (index : nat) : Path :=
  let name := "." ++ path_file_name target ++ ".ylx-selected-" ++ revision ++ "-" ++ dec (N.of_nat index)
              ++ ".tmp" in
  (path_parent target ++ [name])%list.

(** The filesystem as seen from a root below the library root. *)
Definition view (fs : FS) (root : Path) : FS := subtree fs root.

(** An error of code run on such a view, in terms of the library root. *)
Definition error_at (root : Path) (e : DownloadError) : DownloadError :=
  match e with
  | DPathSafety (PsSymlinkNotAllowed p) => DPathSafety (PsSymlinkNotAllowed (root ++ p)%list)
  | DPathSafety (PsIo p k) => DPathSafety (PsIo (root ++ p)%list k)
  | DIo p k => DIo (root ++ p)%list k
  | DCheckpoint (ExceedsDurableBytes p a b) => DCheckpoint (ExceedsDurableBytes (root ++ p)%list a b)
  | e => e
  end.

(** [collect_files] (library/staging.rs:1530-1546). *)
Definition collect_files (fs : FS) (dir : Path) : list Path :=
  omap (fun e => match path_strip dir e.1 with
                 | Some (_ :: _) => if decide (e.2 = NDir) then None else Some e.1
                 | _ => None
                 end) (map_to_list fs).

(** The directories [fsync_tree] visits. *)
Definition tree_dirs (fs : FS) (dir : Path) : list Path :=
  omap (fun e => match path_strip dir e.1 with
                 | Some _ => if decide (e.2 = NDir) then Some e.1 else None
                 | None => None
                 end) (map_to_list fs).

(** [fsync_tree] (library/staging.rs:1551-1567). *)
Definition fsync_tree (dir : Path) : sm Disk DownloadError unit :=
  let! dirs := peek (fun fs => tree_dirs fs dir) in sforeach fsync_dir dirs.

(** A download error where a publication error is expected. *)
Definition pub {A : Type} (c : sm Disk DownloadError A) : sm Disk PublishError A := serr PubDownload c.

(** The result of a call, as a value. *)
Definition attempt {E F A : Type} (c : sm Disk E A) : sm Disk F (result E A) :=
  fun d => let '(d', r) := c d in (d', Ok r).

(** [let _ = c;] where another error type is expected. *)
Definition best_effort {E F A : Type} (c : sm Disk E A) : sm Disk F unit :=
  let! _ := attempt c in sret tt.

(** [rewrite_internal_marker] (library/staging.rs:1426-1446). *)
Definition rewrite_internal_marker (p : Path) (bytes : list byte) : sm Disk PublishError unit :=
  let! here := peek (fun fs => node_at fs p) in
  match here with
  | Some (NSymlink _) => sfail (pub_path (PsSymlinkNotAllowed p))
  | Some NDir => sfail (PubDownload (DInvalidPlan "internal marker is not a regular file"))
  | Some (NFile _) =>
      do! pub (io p (fun fs => remove_file fs p)) then!
      do! pub (fsync_dir (path_parent p)) then!
      pub (write_durably p bytes)
  | None => pub (write_durably p bytes)
  end.

(** ** Rules for the combinators above *)

Lemma always_attempt {E F A : Type} (errors : bool) (I P : FS -> Prop) (c : sm Disk E A)
    (Q : result F (result E A) -> FS -> Prop) :
  always errors I P c (fun r => Q (Ok r)) -> always errors I P (attempt c) Q.
Proof. intros H d Hd Hp. destruct (H d Hd Hp) as (? & ? & ?). unfold attempt. by destruct (c d). Qed.

Lemma always_best_effort {E F A : Type} (errors : bool) (I P X : FS -> Prop) (c : sm Disk E A) :
  always errors I P c (fun _ => X) ->
  always errors I P (best_effort (F := F) c) (fun r fs => r = Ok tt /\ X fs).
Proof.
  intros H. apply (always_bind _ _ _ _ _ (fun _ => X)); [by apply always_attempt|].
  intros r. by apply always_ret.
Qed.

Section staging.
Context `{JournalCodec, Sha256, MarkerCodec, Lowercase}.

(** [RevisionId::from_publication] (library/staging.rs:175-181). *)
Definition from_publication (payload : list byte) : string := "rev-" ++ str_take 32 (to_hex (sha256 payload)).

(** [SessionStaging::for_publication] (library/staging.rs:519-527). *)
Definition for_publication (device_id session_id : string) (payload : list byte)
    : result PathSafetyError SessionStaging :=
  SessionStaging_new device_id session_id (from_publication payload).

(** [read_revision_marker] (library/staging.rs:235-238). *)
Definition read_revision_marker (fs : FS) (dir : Path) : option RevisionMarker :=
  match read_to_string fs (dir ++ [REVISION_MARKER_NAME])%list with
  | Ok raw => revision_decode raw
  | Err _ => None
  end.

(** [read_selected_marker] (library/staging.rs:243-247). *)
Definition read_selected_marker (fs : FS) (dir : Path) : option SelectedMarker :=
  match read_to_string fs (dir ++ [SELECTED_MARKER_NAME])%list with
  | Ok raw => match selected_decode raw with
              | Some marker => if String.eqb (sm_scope marker) "selected_files" then Some marker else None
              | None => None
              end
  | Err _ => None
  end.

(** [published_revision] (library/staging.rs:256-263). *)
Definition published_revision (fs : FS) (device_id session_id : string) : option string :=
  match read_revision_marker fs [device_id; session_id] with
  | Some marker => match RevisionId_parse (rm_revision marker) with Ok r => Some r | Err _ => None end
  | None => None
  end.

(** [SessionStaging::marker_matches] (library/staging.rs:661-663). *)
Definition marker_matches (s : SessionStaging) (fs : FS) (dir : Path) : bool :=
  match read_revision_marker fs dir with
  | Some m => String.eqb (rm_revision m) (ss_revision s)
  | None => false
  end.

(** [SessionStaging::selected_marker_matches] (library/staging.rs:665-667). *)
Definition selected_marker_matches (s : SessionStaging) (fs : FS) (dir : Path) : bool :=
  match read_selected_marker fs dir with
  | Some m => String.eqb (sm_revision m) (ss_revision s)
  | None => false
  end.

(** [SessionStaging::is_published] (library/staging.rs:647-649). *)
Definition is_published (s : SessionStaging) (fs : FS) : bool := marker_matches s fs (published_dir s).
(** [SessionStaging::is_selected_published] (library/staging.rs:657-659). *)
Definition is_selected_published (s : SessionStaging) (fs : FS) : bool :=
  selected_marker_matches s fs (published_dir s).

(** [SessionStaging::state] (library/staging.rs:623-642). *)
Definition staging_state (s : SessionStaging) (fs : FS) : RevisionState :=
  if is_published s fs then RsPublished
  else if is_selected_published s fs then RsSelectedPublished
  else if is_dir fs (revision_dir s)
  then if marker_matches s fs (revision_dir s) || selected_marker_matches s fs (revision_dir s)
       then RsSealed else RsStaged
  else RsAbsent.

(** [SessionStaging::prepare] (library/staging.rs:585-590). *)
Definition prepare (s : SessionStaging) : sm Disk DownloadError unit :=
  do! create_dirs_at (revision_dir s) then! fsync_dir (revision_dir s).

(** [SessionStaging::discard] (library/staging.rs:731-740). *)
Definition discard (s : SessionStaging) : sm Disk DownloadError unit :=
  do! remove_tree_if_present (revision_dir s) then!
  best_effort (prune_empty_parents (revision_dir s) staging_root).

(** [SessionStaging::verify_manifest, evidence] (library/staging.rs:750-765). *)
Definition evidence_problems (evidence : ArtifactEvidence) : list ManifestProblem :=
  match ae_status evidence with
  | AVerified => []
  | AMissing => [MpMissing (ae_file_id evidence)]
  | APartial durable_offset => [MpPartial (ae_file_id evidence) durable_offset (ae_expected_size evidence)]
  | AInvalid reason => [MpInvalid (ae_file_id evidence) reason]
  end.

(** [SessionStaging::verify_manifest] (library/staging.rs:744-799). *)
Definition verify_manifest (s : SessionStaging) (manifest : SessionManifest) (fs : FS)
    : result PublishError unit :=
  let evidence := plan_recovery (view fs (file_root s)) (ss_device_id s) (ss_session_id s) (mf_files manifest) in
  let expected_paths := (fun t => file_root s ++ t)%list <$> omap ae_target evidence in
  let known := ((revision_dir s ++ [REVISION_MARKER_NAME]) :: (revision_dir s ++ [SELECTED_MARKER_NAME])
                :: expected_paths)%list in
  let unexpected := List.filter (fun p => negb (bool_decide (p ∈ known))) (collect_files fs (revision_dir s)) in
  let problems := (mjoin (evidence_problems <$> evidence)
                   ++ ((fun p => MpUnexpected (default p (path_strip (revision_dir s) p))) <$> unexpected))%list in
  match problems with
  | [] => Ok tt
  | _ => Err (PubManifestMismatch (ss_revision s) problems)
  end.

(** [SessionStaging::visible_manifest_is_complete] (library/staging.rs:846-854). *)
Definition visible_manifest_is_complete (s : SessionStaging) (manifest : SessionManifest) (fs : FS) : bool :=
  forallb is_verified (plan_recovery fs (ss_device_id s) (ss_session_id s) (mf_files manifest)).

(** [selected_marker_matches_manifest_at] (library/staging.rs:1247-1254). *)
Definition selected_marker_matches_manifest_at (s : SessionStaging) (fs : FS) (dir : Path)
    (manifest : SessionManifest) : bool :=
  match read_selected_marker fs dir with
  | Some m => String.eqb (sm_revision m) (ss_revision s)
              && (sm_file_count m =? manifest_file_count manifest)%N
              && (sm_total_bytes m =? manifest_total_bytes manifest)%N
              && String.eqb (sm_manifest_digest m) (manifest_digest manifest)
  | None => false
  end.

(** [selected_marker_matches_manifest] (library/staging.rs:1243-1245). *)
Definition selected_marker_matches_manifest (s : SessionStaging) (fs : FS) (manifest : SessionManifest) : bool :=
  selected_marker_matches_manifest_at s fs (published_dir s) manifest.

(** [SessionStaging::validate_selected_manifest, loop] (library/staging.rs:866-887). *)
Fixpoint selected_problems (s : SessionStaging) (exact : list Path) (folded : list string)
    (files : list ExpectedArtifact) : result PublishError (list ManifestProblem) :=
  match files with
  | [] => Ok []
  | expected :: files' =>
      let? target := rmap_err pub_path
        (derive_target_path_for_file (ss_device_id s) (ss_session_id s) (ea_file_id expected)
           (ea_target_relative_path expected)) in
      let portable := to_lowercase (join_path target) in
      let found := ((if bool_decide (target ∈ exact) then [MpDuplicateTarget target] else [])
                    ++ (if bool_decide (portable ∈ folded) then [MpFoldedDuplicateTarget target] else []))%list in
      let? rest := selected_problems s (target :: exact) (portable :: folded) files' in
      Ok (found ++ rest)%list
  end.

(** [SessionStaging::validate_selected_manifest] (library/staging.rs:856-898). *)
Definition validate_selected_manifest (s : SessionStaging) (manifest : SessionManifest)
    : result PublishError unit :=
  if negb (String.eqb (mf_device_id manifest) (ss_device_id s))
     || negb (String.eqb (mf_session_id manifest) (ss_session_id s))
  then Err (PubDownload (DInvalidPlan "selected manifest identity does not match its staging area"))
  else let? problems := selected_problems s [] [] (mf_files manifest) in
       match problems with
       | [] => Ok tt
       | _ => Err (PubManifestMismatch (ss_revision s) problems)
       end.

(** [SessionStaging::cleanup_marker_temp_files] (library/staging.rs:900-907). *)
Definition cleanup_marker_temp_files (s : SessionStaging) : sm Disk PublishError unit :=
  let remove name := best_effort (act (fun fs => remove_file fs (durable_temp_path (revision_dir s ++ [name])%list))) in
  do! remove REVISION_MARKER_NAME then! remove SELECTED_MARKER_NAME.

(** [SessionStaging::seal] (library/staging.rs:677-710). *)
Definition seal (s : SessionStaging) (manifest : SessionManifest) : sm Disk PublishError SealedRevision :=
  let! published := peek (is_published s) in
  if (published : bool) then sret (mkSealed s) else
  let! staged := peek (fun fs => is_dir fs (revision_dir s)) in
  if negb staged then sfail (PubNothingStaged (ss_revision s) (revision_dir s)) else
  do! cleanup_marker_temp_files s then!
  do! look (verify_manifest s manifest) then!
  let marker := mkRevisionMarker (ss_revision s) (manifest_file_count manifest) (manifest_total_bytes manifest) in
  do! rewrite_internal_marker (revision_dir s ++ [REVISION_MARKER_NAME])%list (revision_encode marker) then!
  do! pub (fsync_tree (revision_dir s)) then!
  sret (mkSealed s).

Definition selected_marker (s : SessionStaging) (manifest : SessionManifest) : SelectedMarker :=
  mkSelectedMarker "selected_files" (ss_revision s) (manifest_file_count manifest)
    (manifest_total_bytes manifest) (manifest_digest manifest).

(** The post-marker window: nothing is left to publish. *)
Definition selected_is_complete (s : SessionStaging) (manifest : SessionManifest) (fs : FS) : bool :=
  selected_marker_matches_manifest s fs manifest && visible_manifest_is_complete s manifest fs.

(** [SessionStaging::seal_selected] (library/staging.rs:805-841). *)
Definition seal_selected (s : SessionStaging) (manifest : SessionManifest)
    : sm Disk PublishError SealedRevision :=
  do! slift (validate_selected_manifest s manifest) then!
  let! complete := peek (selected_is_complete s manifest) in
  if (complete : bool) then sret (mkSealed s) else
  let! staged := peek (fun fs => is_dir fs (revision_dir s)) in
  if negb staged then sfail (PubNothingStaged (ss_revision s) (revision_dir s)) else
  do! cleanup_marker_temp_files s then!
  do! look (verify_manifest s manifest) then!
  do! rewrite_internal_marker (revision_dir s ++ [SELECTED_MARKER_NAME])%list
        (selected_encode (selected_marker s manifest)) then!
  do! pub (fsync_tree (revision_dir s)) then!
  sret (mkSealed s).

(** ** Publication of a whole session *)

(** [SessionStaging::cleanup_staging_skeleton] (library/staging.rs:1260-1274). *)
Definition cleanup_staging_skeleton (s : SessionStaging) : sm Disk PublishError unit :=
  let superseded_root := (staging_root ++ [SUPERSEDED_DIR_NAME])%list in
  do! best_effort (remove_tree (revision_dir s)) then!
  do! best_effort (prune_empty_parents (revision_dir s) staging_root) then!
  do! best_effort (remove_tree (superseded_dir s)) then!
  do! best_effort (prune_empty_parents (superseded_dir s) superseded_root) then!
  do! best_effort (act (remove_dir superseded_root)) then!
  best_effort (act (remove_dir staging_root)).

(** [SealedRevision::publish, superseded] (library/staging.rs:973-990). *)
Definition move_aside (s : SessionStaging) : sm Disk DownloadError unit :=
  do! remove_tree_if_present (superseded_dir s) then!
  do! create_dirs_at (path_parent (superseded_dir s)) then!
  do! io (published_dir s) (rename_node (published_dir s) (superseded_dir s)) then!
  fsync_dir (path_parent (published_dir s)).

(** [SealedRevision::publish, rollback] (library/staging.rs:1000-1016). *)
Definition roll_back {A : Type} (s : SessionStaging) (error : IoKind) : sm Disk DownloadError A :=
  let! hole := peek (fun fs => path_exists fs (superseded_dir s) && negb (path_exists fs (published_dir s))) in
  if (hole : bool) then
    do! io (published_dir s) (rename_node (superseded_dir s) (published_dir s)) then!
    do! best_effort (fsync_dir (path_parent (published_dir s))) then!
    sfail (DIo (published_dir s) error)
  else sfail (DIo (published_dir s) error).

(** [SealedRevision::publish] (library/staging.rs:943-1023). *)
Definition publish_sealed (s : SessionStaging) : sm Disk PublishError PublishOutcome :=
  let! published := peek (is_published s) in
  if (published : bool) then
    do! cleanup_staging_skeleton s then! sret (PoAlreadyPublished (ss_revision s))
  else
    let! staged := peek (fun fs => is_dir fs (revision_dir s)) in
    if negb staged then sfail (PubNothingStaged (ss_revision s) (revision_dir s)) else
    let! sealed := peek (fun fs => marker_matches s fs (revision_dir s)) in
    if negb sealed then sfail (PubNotSealed (ss_revision s)) else
    do! pub (create_dirs_at (path_parent (published_dir s))) then!
    let! occupied := peek (fun fs => entry_exists fs (published_dir s)) in
    do! (if (occupied : bool) then pub (move_aside s) else sret tt) then!
    let! renamed := attempt (act (rename_node (revision_dir s) (published_dir s))) in
    match renamed with
    | Err error => pub (roll_back s error)
    | Ok _ =>
        do! pub (fsync_dir (path_parent (published_dir s))) then!
        do! best_effort (remove_tree (superseded_dir s)) then!
        do! cleanup_staging_skeleton s then!
        sret (PoPublished (ss_revision s))
    end.

(** [SessionStaging::publish] (library/staging.rs:714-716). *)
Definition publish (s : SessionStaging) (manifest : SessionManifest) : sm Disk PublishError PublishOutcome :=
  let! sealed := seal s manifest in publish_sealed (sr_staging sealed).

End staging.
