(* ===== verification/Publish.v ===== *)
(** * Publish: what is on disk while a session is being published

The contract of [SealedRevision::publish] (library/staging.rs): at every
instant the visible session directory holds the old tree, nothing (the old
tree then waits aside) or the sealed tree, and a later attempt finishes the
job. *)

From Stdlib Require Import NArith Lia Ascii String.
From stdpp Require Import base numbers list strings gmap.
From S2P Require Import Prelude Domain Files Journal Artifact Download Fault Disk Staging.

(** A staging area whose own directory names cannot meet the internal ones. *)
Record staging_ok (s : SessionStaging) : Prop := {
  sk_device : ss_device_id s <> STAGING_DIR_NAME;
  sk_superseded : ss_revision s <> SUPERSEDED_DIR_NAME;
  sk_trash : ss_revision s <> SELECTED_TRASH_DIR_NAME;
}.

Lemma under_cons a p b q : under (a :: p) (b :: q) <-> a = b /\ under p q.
Proof.
  rewrite !under_spec. split.
  - intros [r [= <- ->]]. eauto.
  - intros (-> & r & ->). by exists r.
Qed.

Lemma under_nil q : under [] q.
Proof. by eexists. Qed.

Lemma not_under_nil a p : ~ under (a :: p) [].
Proof. rewrite under_spec. by intros [r [=]]. Qed.

(** Decides [under] between paths made of the names of a staging area. *)
Ltac split_under :=
  repeat match goal with
    | |- ~ _ => intro
    | |- forall _, _ => intro
    | H : under (_ :: _) [] |- _ => by apply not_under_nil in H
    | H : under (_ :: _) (_ :: _) |- _ => apply under_cons in H as [? H]
    | H : _ \/ _ |- _ => destruct H
    | H : _ /\ _ |- _ => destruct H
    end.

Section publish.
Context `{JournalCodec, Sha256, MarkerCodec, Lowercase}.
Context (s : SessionStaging) (Hs : staging_ok s).

Ltac solve_under :=
  generalize (sk_device s Hs) (sk_superseded s Hs) (sk_trash s Hs); intros ? ? ?;
  unfold published_dir, revision_dir, superseded_dir in *; simpl; split_under; simpl in *; congruence.

Abbreviation P := (published_dir s).
Abbreviation R := (revision_dir s).
Abbreviation U := (superseded_dir s).

(** Where a publication may write. *)
Definition zone (q : Path) : Prop := under P q \/ under [STAGING_DIR_NAME] q \/ q = [ss_device_id s].

(** The trees in place, nothing else touched. *)
Definition phase (fs0 : FS) (trees : list (Path * FS)) (fs : FS) : Prop :=
  Forall (fun e => subtree fs e.1 = e.2) trees /\ agree zone fs0 fs.

Lemma phase_agree fs0 trees K fs fs' :
  phase fs0 trees fs -> (forall q, K q -> zone q) ->
  Forall (fun e => forall q, ~ K (e.1 ++ q)%list) trees -> agree K fs fs' -> phase fs0 trees fs'.
Proof.
  intros [Ht Hz] HK Hd Hag. split; [|eapply agree_trans; [exact Hz|by eapply agree_weaken]].
  rewrite Forall_forall in Ht, Hd |- *. intros e He. rewrite <- (Ht e He).
  by apply (agree_subtree K); [|apply Hd].
Qed.

(** A call that only writes where none of the trees is. *)
Lemma phase_frame {E A : Type} (errors : bool) fs0 trees (K : Path -> Prop) (c : sm Disk E A) :
  (forall fs, always errors (agree K fs) (agree K fs) c (fun _ => agree K fs)) ->
  (forall q, K q -> zone q) -> Forall (fun e => forall q, ~ K (e.1 ++ q)%list) trees ->
  always errors (phase fs0 trees) (phase fs0 trees) c (fun _ => phase fs0 trees).
Proof.
  intros Hc HK Hd. apply (frame_phase _ K); [done|]. intros fs fs' Hp Hag. by eapply phase_agree.
Qed.

Lemma cleanup_phase errors fs0 t :
  always errors (phase fs0 [(P, t)]) (phase fs0 [(P, t)]) (cleanup_staging_skeleton s)
    (fun r fs => r = Ok tt /\ phase fs0 [(P, t)] fs).
Proof.
  set (X := phase fs0 [(P, t)]). assert (Hstep : forall {E A : Type} (c : sm Disk E A),
    (forall fs, always errors (agree (under [STAGING_DIR_NAME]) fs) (agree (under [STAGING_DIR_NAME]) fs) c
       (fun _ => agree (under [STAGING_DIR_NAME]) fs)) ->
    always errors X X (best_effort (F := PublishError) c) (fun r fs => r = Ok tt /\ X fs)).
  { intros E A c Hc. apply always_best_effort. apply (phase_frame _ _ _ (under [STAGING_DIR_NAME])); [done| |].
    - intros q Hq. by right; left.
    - repeat constructor. simpl. solve_under. }
  assert (Hbind : forall (c k : sm Disk PublishError unit),
    always errors X X c (fun r fs => r = Ok tt /\ X fs) ->
    always errors X X k (fun r fs => r = Ok tt /\ X fs) ->
    always errors X X (sbind c (fun _ => k)) (fun r fs => r = Ok tt /\ X fs)).
  { intros c k Hc Hk. apply (always_bind _ _ _ _ _ (fun _ => X)); [|done].
    eapply always_weaken; [exact Hc|done|]. by intros [[]|e] fs [? ?]. }
  assert (Hin : forall p q, under (STAGING_DIR_NAME :: p) q -> under [STAGING_DIR_NAME] q).
  { intros p [|b q] Hq; [by apply not_under_nil in Hq|]. apply under_cons in Hq as [-> _].
    apply under_cons. split; [done|apply under_nil]. }
  unfold cleanup_staging_skeleton.
  apply Hbind; [apply Hstep; intros fs; by apply remove_tree_keeps, Hin|].
  apply Hbind; [apply Hstep; intros fs; by apply prune_keeps|].
  apply Hbind; [apply Hstep; intros fs; by apply remove_tree_keeps, Hin|].
  apply Hbind; [apply Hstep; intros fs; by apply prune_keeps, Hin|].
  assert (Hrd : forall p fs, always errors (agree (under [STAGING_DIR_NAME]) fs)
    (agree (under [STAGING_DIR_NAME]) fs) (act (remove_dir (STAGING_DIR_NAME :: p)))
    (fun _ => agree (under [STAGING_DIR_NAME]) fs)).
  { intros p fs. apply act_keeps. intros fs1 fs2 Hk. unfold remove_dir.
    destruct (node_at _ _) as [[| |]|]; try done. destruct (has_children _ _); [done|]. intros [= <-].
    apply agree_delete; [done|]. apply under_cons. split; [done|apply under_nil]. }
  apply Hbind; apply Hstep; intros fs; apply Hrd.
Qed.

(** ** The states on the way *)

Abbreviation visible fs := (subtree fs P).
Abbreviation staged fs := (subtree fs R).
Abbreviation aside fs := (subtree fs U).

(** What a crash can leave of a publication begun at [fs0]: the old tree and
    the sealed one; a hole, the old tree aside; the new tree; or, when an
    earlier crash had left a hole, what that attempt had put aside. *)
Definition instant (fs0 fs : FS) : Prop :=
  agree zone fs0 fs /\
  ((visible fs = visible fs0 /\ staged fs = staged fs0) \/
   (visible fs = ∅ /\ staged fs = staged fs0 /\ aside fs = visible fs0) \/
   visible fs = staged fs0 \/
   (fs0 !! P = None /\ visible fs = aside fs0 /\ staged fs = staged fs0)).

Section from.
Context (errors : bool) (fs0 : FS).

Abbreviation before := (phase fs0 [(P, visible fs0); (R, staged fs0); (U, aside fs0)]).
Abbreviation untouched := (phase fs0 [(P, visible fs0); (R, staged fs0)]).
Abbreviation hole := (phase fs0 [(P, ∅); (R, staged fs0); (U, visible fs0)]).
Abbreviation restored := (phase fs0 [(P, aside fs0); (R, staged fs0)]).
Abbreviation done := (phase fs0 [(P, staged fs0)]).

Ltac open_phase H := let Hz := fresh "Hz" in
  destruct H as [H Hz]; repeat (apply Forall_cons in H as [? H]); simpl in *.

Lemma untouched_instant fs : untouched fs -> instant fs0 fs.
Proof. intros Hp. open_phase Hp. split; [done|]. by left. Qed.
Lemma before_untouched fs : before fs -> untouched fs.
Proof. intros Hp. open_phase Hp. split; [by repeat constructor|done]. Qed.
Lemma hole_instant fs : hole fs -> instant fs0 fs.
Proof. intros Hp. open_phase Hp. split; [done|]. right; left. by split_and!. Qed.
Lemma done_instant fs : done fs -> instant fs0 fs.
Proof. intros Hp. open_phase Hp. split; [done|]. by right; right; left. Qed.
Lemma restored_instant fs : fs0 !! P = None -> restored fs -> instant fs0 fs.
Proof. intros Hn Hp. open_phase Hp. split; [done|]. right; right; right. by split_and!. Qed.

Lemma before_refl : before fs0.
Proof. split; [by repeat constructor|apply agree_refl]. Qed.

Lemma under_zone p q : p ∈ [P; R; U] -> under p q -> zone q.
Proof.
  rewrite !elem_of_cons, elem_of_nil. intros [->|[->|[->|[]]]] Hq; [by left|right; left..];
    destruct q as [|a q]; try (by apply not_under_nil in Hq); apply under_cons in Hq as [-> _];
    apply under_cons; (split; [done|apply under_nil]).
Qed.

Lemma renamed_is_moved p from to fs fs' : p = from -> rename_node from to fs = Ok fs' ->
  fs' = move_tree from to fs /\ is_Some (node_at fs from).
Proof.
  intros _. unfold rename_node. destruct (node_at fs from) as [n|]; [|done]. destruct (_ || _); [done|].
  destruct (node_at fs (path_parent to)) as [[| |]|]; try done.
  destruct n, (node_at fs to) as [[| |]|]; try done; try (by intros [= <-]);
    destruct (has_children fs to); try done; by intros [= <-].
Qed.

Lemma subtree_move_to from to fs : subtree (move_tree from to fs) to = subtree fs from.
Proof. apply map_eq. intros q. by rewrite !lookup_subtree, lookup_move, path_strip_app. Qed.

Lemma subtree_move_from from to fs :
  (forall q, ~ under to (from ++ q)%list) -> subtree (move_tree from to fs) from = ∅.
Proof.
  intros Hd. apply map_eq. intros q. rewrite lookup_subtree, lookup_move, lookup_empty, path_strip_app.
  destruct (path_strip to (from ++ q)) as [r|] eqn:E; [|done]. destruct (Hd q). unfold under. by rewrite E.
Qed.

Lemma subtree_move_other from to p fs :
  (forall q, ~ under to (p ++ q)%list) -> (forall q, ~ under from (p ++ q)%list) ->
  subtree (move_tree from to fs) p = subtree fs p.
Proof.
  intros Ht Hf. apply map_eq. intros q. rewrite !lookup_subtree, lookup_move.
  destruct (path_strip to (p ++ q)) as [r|] eqn:E; [destruct (Ht q); unfold under; by rewrite E|].
  destruct (path_strip from (p ++ q)) as [r|] eqn:E'; [destruct (Hf q); unfold under; by rewrite E'|done].
Qed.

Lemma move_zone from to fs : from ∈ [P; R; U] -> to ∈ [P; R; U] -> agree zone fs0 fs ->
  agree zone fs0 (move_tree from to fs).
Proof. intros Hf Ht Hz. apply agree_move; [done|..]; intros q; by apply under_zone. Qed.

Lemma untouched_moved fs : untouched fs -> hole (move_tree P U fs).
Proof.
  intros Hp. open_phase Hp. split; [|apply move_zone; [by left|by right; right; left|done]].
  repeat constructor; simpl.
  - apply subtree_move_from. solve_under.
  - rewrite subtree_move_other; [done|solve_under..].
  - by rewrite subtree_move_to.
Qed.

Lemma staged_moved trees fs :
  phase fs0 trees fs -> (R, staged fs0) ∈ trees -> done (move_tree R P fs).
Proof.
  intros [Ht Hz] Hin. rewrite Forall_forall in Ht. assert (Hr := Ht _ Hin). simpl in Hr.
  split; [|apply move_zone; [by right; left|by left|done]]. repeat constructor. simpl.
  by rewrite subtree_move_to.
Qed.

Lemma hole_filled fs : hole fs -> untouched (move_tree U P fs).
Proof.
  intros Hp. open_phase Hp. split; [|apply move_zone; [by right; right; left|by left|done]].
  repeat constructor; simpl.
  - by rewrite subtree_move_to.
  - rewrite subtree_move_other; [done|solve_under..].
Qed.

Lemma before_filled fs : before fs -> restored (move_tree U P fs).
Proof.
  intros Hp. open_phase Hp. split; [|apply move_zone; [by right; right; left|by left|done]].
  repeat constructor; simpl.
  - by rewrite subtree_move_to.
  - rewrite subtree_move_other; [done|solve_under..].
Qed.


Lemma phase_step {E A : Type} trees (K : Path -> Prop) (c : sm Disk E A) :
  (forall fs, phase fs0 trees fs -> instant fs0 fs) ->
  (forall fs, always errors (agree K fs) (agree K fs) c (fun _ => agree K fs)) ->
  (forall q, K q -> zone q) -> Forall (fun e => forall q, ~ K (e.1 ++ q)%list) trees ->
  always errors (instant fs0) (phase fs0 trees) c (fun _ => phase fs0 trees).
Proof. intros Hi Hc HK Hd. eapply always_states; [by eapply phase_frame|done]. Qed.

Lemma fsync_phase trees p :
  (forall fs, phase fs0 trees fs -> instant fs0 fs) ->
  always errors (instant fs0) (phase fs0 trees) (fsync_dir p) (fun _ => phase fs0 trees).
Proof.
  intros Hi. apply (phase_step _ (fun _ => False)); [done| |done|].
  - intros fs. apply fsync_keeps.
  - apply Forall_forall. intros e _ q. tauto.
Qed.

Lemma aside_dirs_phase :
  always errors (instant fs0) untouched (create_dirs_at (path_parent U)) (fun _ => untouched).
Proof.
  apply (phase_step [(P, visible fs0); (R, staged fs0)] (fun q => q <> [] /\ under q (path_parent U))); [apply untouched_instant|..].
  - intros fs. apply create_dirs_keeps. intros q r Hq Hne. split; [done|]. apply under_spec. by exists r.
  - intros q [Hne Hq]. right; left. destruct q as [|a q]; [done|]. simpl in Hq.
    apply under_cons in Hq as [-> _]. apply under_cons. split; [done|apply under_nil].
  - repeat constructor; simpl; intros q [_ Hq]; revert Hq; solve_under.
Qed.

Lemma move_aside_phase :
  always errors (instant fs0) untouched (move_aside s)
    (fun r fs => match r with Ok _ => hole fs | Err _ => instant fs0 fs end).
Proof.
  apply (always_bind _ _ _ _ _ (fun _ => untouched)); [|intros _].
  { eapply always_weaken; [apply (phase_step [(P, visible fs0); (R, staged fs0)] (under U)); [apply untouched_instant|..]|done|].
    - intros fs. by apply remove_if_present_keeps.
    - intros q. apply under_zone. by right; right; left.
    - repeat constructor; simpl; solve_under.
    - intros [[]|e] fs; [done|apply untouched_instant]. }
  apply (always_bind _ _ _ _ _ (fun _ => untouched)); [|intros _].
  { eapply always_weaken; [apply aside_dirs_phase|done|]. intros [[]|e] fs; [done|apply untouched_instant]. }
  apply (always_bind _ _ _ _ _ (fun _ => hole)); [|intros _].
  - apply always_serr, always_act; [apply untouched_instant|intros fs k Hp _; by apply untouched_instant|].
    intros fs fs' Hp Hr. destruct (renamed_is_moved P P U fs fs' eq_refl Hr) as [-> _].
    by apply untouched_moved.
  - eapply always_weaken; [apply fsync_phase, hole_instant|done|].
    intros [[]|e] fs; [done|apply hole_instant].
Qed.

(** Ready for the rename that publishes. *)
Definition ready (fs : FS) : Prop := (fs0 !! P = None /\ before fs) \/ hole fs.

Lemma ready_instant fs : ready fs -> instant fs0 fs.
Proof. intros [[_ Hb]|Hh]; [by apply untouched_instant, before_untouched|by apply hole_instant]. Qed.

Lemma roll_back_instant {A : Type} error :
  always errors (instant fs0) ready (roll_back (A := A) s error)
    (fun r fs => match r with Ok _ => False | Err _ => instant fs0 fs end).
Proof.
  apply (always_bind _ _ _ _ _ (fun _ => ready)); [by apply always_peek|]. intros [|];
    [|apply always_fail, ready_instant].
  apply (always_bind _ _ _ _ _ (fun _ fs => untouched fs \/ (fs0 !! P = None /\ restored fs))); [|intros _].
  - apply always_serr, always_act; [apply ready_instant|intros fs k Hr _; by apply ready_instant|].
    intros fs fs' Hr Hren. destruct (renamed_is_moved U U P fs fs' eq_refl Hren) as [-> _].
    destruct Hr as [[Hn Hb]|Hh]; [right; split; [done|by apply before_filled]|left; by apply hole_filled].
  - apply (always_bind _ _ _ _ _ (fun _ => instant fs0)); [|intros _; by apply always_fail].
    eapply always_weaken; [apply (always_best_effort _ _
      (fun fs => untouched fs \/ (fs0 !! P = None /\ restored fs)) (instant fs0))| |].
    + intros d Hd [Hu|[Hn Hr]].
      * destruct (fsync_phase [(P, visible fs0); (R, staged fs0)] (path_parent P) untouched_instant d Hd Hu)
          as (? & ? & ?). split_and!; [done|done|by apply untouched_instant].
      * destruct (fsync_phase [(P, aside fs0); (R, staged fs0)] (path_parent P) (fun fs => restored_instant fs Hn)
          d Hd Hr) as (? & ? & ?). split_and!; [done|done|by apply restored_instant].
    + done.
    + by intros [[]|e] fs [_ ?].
Qed.


Lemma device_dir_before :
  always errors (instant fs0) before (create_dirs_at (path_parent P)) (fun _ => before).
Proof.
  apply (phase_step [(P, visible fs0); (R, staged fs0); (U, aside fs0)] (fun q => q = [ss_device_id s])).
  - intros fs Hb. by apply untouched_instant, before_untouched.
  - intros fs. apply create_dirs_keeps. intros [|a q] r Hq Hne; [done|]. simpl in Hq.
    injection Hq as <- Hq. by destruct q.
  - intros q ->. by right; right.
  - repeat constructor; simpl; intros q; solve_under.
Qed.

(** After the rename: only the hidden tree is touched again. *)
Lemma finish_done :
  always errors (instant fs0) done
    (let! _ := pub (fsync_dir (path_parent P)) in
     let! _ := best_effort (F := PublishError) (remove_tree U) in
     let! _ := cleanup_staging_skeleton s in sret (PoPublished (ss_revision s)))
    (fun _ => done).
Proof.
  apply (always_bind _ _ _ _ _ (fun _ => done)); [|intros _].
  { apply always_serr. eapply always_weaken; [apply fsync_phase, done_instant|done|]. by intros [[]|e] fs. }
  apply (always_bind _ _ _ _ _ (fun _ => done)); [|intros _].
  { eapply always_weaken; [apply (always_best_effort _ _ done done)|done|by intros [[]|e] fs [_ ?]].
    apply (phase_step [(P, staged fs0)] (under U)); [apply done_instant|..].
    - intros fs. by apply remove_tree_keeps.
    - intros q. apply under_zone. by right; right; left.
    - repeat constructor; simpl; solve_under. }
  apply (always_bind _ _ _ _ _ (fun _ => done)); [|intros _; by apply always_ret].
  eapply always_states; [|apply done_instant].
  eapply always_weaken; [apply cleanup_phase|done|by intros [[]|e] fs [_ ?]].
Qed.

Lemma publish_instants :
  is_published s fs0 = false ->
  always errors (instant fs0) (fun fs => fs = fs0) (publish_sealed s)
    (fun r fs => instant fs0 fs /\ match r with Ok _ => visible fs = staged fs0 | Err _ => True end).
Proof.
  intros Hnp. assert (Hi : instant fs0 fs0) by apply untouched_instant, before_untouched, before_refl.
  unfold publish_sealed. apply always_seen. rewrite Hnp.
  apply always_seen. destruct (is_dir fs0 R); simpl negb; cbn iota; [|apply always_fail; by intros fs ->].
  apply always_seen. destruct (marker_matches s fs0 R); simpl negb; cbn iota;
    [|apply always_fail; by intros fs ->].
  apply (always_bind _ _ _ _ _ (fun _ => before)); [|intros _].
  { apply always_serr. eapply always_weaken; [apply device_dir_before|intros fs ->; apply before_refl|].
    intros [[]|e] fs Hb; [done|]. split; [by apply untouched_instant, before_untouched|done]. }
  apply (always_bind _ _ _ _ _ (fun occupied fs => (occupied = false -> fs0 !! P = None) /\ before fs)).
  { apply always_peek. intros fs Hb. split; [|done]. intros Hocc. unfold entry_exists in Hocc.
    apply bool_decide_eq_false, eq_None_not_Some in Hocc. rewrite node_at_nonempty in Hocc by done.
    destruct Hb as [Hb _]. apply Forall_cons in Hb as [Hv _]. apply (f_equal (lookup [])) in Hv. simpl in Hv. rewrite !lookup_subtree, app_nil_r in Hv.
    by rewrite <- Hv. }
  intros occupied. apply always_assume. intros Hocc.
  apply (always_bind _ _ _ _ _ (fun _ => ready)); [|intros _].
  { destruct occupied.
    - apply always_serr. eapply always_weaken; [apply move_aside_phase|apply before_untouched|].
      intros [[]|e] fs; [by right|by split].
    - apply always_ret. intros fs Hb. left. by split; [apply Hocc|]. }
  apply (always_bind _ _ _ _ _ (fun renamed fs => if is_ok renamed then done fs else ready fs)).
  - apply always_attempt, always_act; [apply ready_instant|done|]. intros fs fs' Hr Hren.
    destruct (renamed_is_moved R R P fs fs' eq_refl Hren) as [-> _].
    destruct Hr as [[_ Hb]|Hh]; (eapply staged_moved; [eassumption|]); by right; left.
  - intros [[]|error]; cbn [is_ok].
    + eapply always_weaken; [apply finish_done|done|]. intros r fs Hd.
      split; [by apply done_instant|]. open_phase Hd. by destruct r.
    + apply always_serr. eapply always_weaken; [apply roll_back_instant|done|]. by intros [a|e] fs Hr.
Qed.

End from.

(** ** A publication nothing interferes with succeeds *)

(** No stray file or link sits where publication needs a directory. *)
Record clean (fs : FS) : Prop := {
  cl_device : dir_or_free fs [ss_device_id s];
  cl_aside : prefixes_are (dir_or_free fs) (path_parent U);
  cl_files : forall p bs, p ∈ [P; R; U] -> fs !! p <> Some (NFile bs);
}.

Section total.
Context (errors : bool).
Abbreviation anywhere := (fun _ : FS => True).
Abbreviation fails_only_by_accident X := (fun r (fs : FS) => match r with Ok _ => X fs | Err _ => errors = true end).

Lemma cleanup_ok : always errors anywhere anywhere (cleanup_staging_skeleton s) (fun r _ => r = Ok tt).
Proof.
  intros d Hd _. destruct (cleanup_phase errors (dk_fs d) (subtree (dk_fs d) P) d Hd) as (? & (l & El & _) & ? & _).
  { split; [by repeat constructor|apply agree_refl]. }
  split_and!; [done| |done]. exists l. split; [done|]. by apply Forall_forall.
Qed.

(** A framed call keeps [X] and is as total as [Hc] says. *)
Lemma framed_total {E A : Type} (K : Path -> Prop) (X Pre : FS -> Prop) (c : sm Disk E A)
    (Post : FS -> Prop) :
  (forall fs, always errors (agree K fs) (agree K fs) c (fun _ => agree K fs)) ->
  (forall fs fs', X fs -> agree K fs fs' -> X fs') ->
  always errors anywhere Pre c (fails_only_by_accident Post) ->
  always errors anywhere (fun fs => X fs /\ Pre fs) c (fails_only_by_accident (fun fs => X fs /\ Post fs)).
Proof.
  intros HK HX Hc. eapply always_states; [eapply always_weaken; [apply always_and; [by apply (frame_phase _ K X)|exact Hc]|done|]|done].
  intros [a|e] fs [Hx Hq]; [by split|done].
Qed.

Lemma fsync_total (p : Path) : p <> [] ->
  forall X : FS -> Prop, (forall fs, X fs -> is_Some (fs !! p)) ->
  always errors anywhere X (fsync_dir p) (fails_only_by_accident X).
Proof.
  intros Hp X HX. apply always_serr, always_act; [done| |].
  - intros fs k Hx [He|Hk]; [done|]. rewrite node_at_nonempty in Hk by done.
    destruct (HX fs Hx) as [n Hn]. by rewrite Hn in Hk.
  - intros fs fs' Hx. by destruct (node_at fs p); [intros [= <-]|].
Qed.

Lemma rename_total (X : FS -> Prop) (from to : Path) (Post : FS -> Prop) :
  from <> [] -> to <> [] -> path_parent to <> [] -> starts_with to from = false -> starts_with from to = false ->
  (forall fs, X fs -> errors = true \/
     (is_Some (fs !! from) /\ fs !! path_parent to = Some NDir /\ fs !! to = None)) ->
  (forall fs, X fs -> Post (move_tree from to fs)) ->
  always errors anywhere X (act (rename_node from to)) (fails_only_by_accident Post).
Proof.
  intros Hf Ht Hpt Hov1 Hov2 HX HP. apply always_act; [done| |].
  - intros fs k Hx [He|Hk]; [done|]. destruct (HX fs Hx) as [He|([n Hn] & Hd & Hto)]; [done|].
    unfold rename_node in Hk. rewrite !node_at_nonempty, Hn, Hov1, Hov2, Hd, Hto in Hk by done. by destruct n.
  - intros fs fs' Hx Hr. destruct (renamed_is_moved from from to fs fs' eq_refl Hr) as [-> _]. by apply HP.
Qed.

Lemma lookup_agree (K : Path -> Prop) (fs fs' : FS) (q : Path) n : agree K fs fs' -> ~ K q -> fs !! q = n -> fs' !! q = n.
Proof. intros Hov1 Hov2 <-. by apply Hov1. Qed.

Lemma starts_with_false (p stop : Path) : ~ under stop p -> starts_with p stop = false.
Proof. unfold starts_with, under. destruct (path_strip stop p); [|done]. intros Hn. destruct Hn. eauto. Qed.

Lemma lookup_moved_other (from to : Path) (fs : FS) (q : Path) :
  ~ under to q -> ~ under from q -> move_tree from to fs !! q = fs !! q.
Proof.
  rewrite lookup_move. unfold under. intros Ht Hf. destruct (path_strip to q); [destruct Ht; eauto|].
  by destruct (path_strip from q); [destruct Hf; eauto|].
Qed.

Lemma lookup_moved_from (from to : Path) (fs : FS) : ~ under to from -> move_tree from to fs !! from = None.
Proof.
  intros Ht. rewrite lookup_move. unfold under in Ht. destruct (path_strip to from); [destruct Ht; eauto|].
  replace (path_strip from from) with (Some ([] : Path)); [done|].
  symmetry. apply path_strip_Some. by rewrite app_nil_r.
Qed.

(** The sealed tree is there and its place is free. *)
Definition set_up (fs : FS) : Prop :=
  fs !! R = Some NDir /\ fs !! [ss_device_id s] = Some NDir /\ fs !! P = None.

Lemma move_aside_total :
  always errors anywhere
    (fun fs => (fs !! R = Some NDir /\ fs !! [ss_device_id s] = Some NDir /\ is_Some (fs !! P)) /\
               prefixes_are (dir_or_free fs) (path_parent U) /\ (forall bs, fs !! U <> Some (NFile bs)))
    (move_aside s) (fails_only_by_accident set_up).
Proof.
  set (X := fun fs : FS => fs !! R = Some NDir /\ fs !! [ss_device_id s] = Some NDir /\ is_Some (fs !! P)).
  set (Y := fun fs : FS => prefixes_are (dir_or_free fs) (path_parent U)).
  assert (HX : forall K fs fs', X fs -> agree K fs fs' -> ~ K R -> ~ K [ss_device_id s] -> ~ K P -> X fs').
  { intros K fs fs' (H3 & H4 & [n Hn]) Ha K1 K2 K3. split_and!; [| |exists n]; by eapply lookup_agree. }
  apply (always_bind _ _ _ _ _ (fun _ fs => (X fs /\ (fs !! U = None \/ errors = true)) /\
           prefixes_are (fun q => fs !! q = Some NDir) [] /\ Y fs)); [|intros _].
  { eapply always_weaken.
    - apply (framed_total (under U) (fun fs => X fs /\ Y fs)); [| |by apply remove_if_present_total].
      + intros fs. by apply remove_if_present_keeps.
      + intros fs fs' [Hx Hy] Ha. split.
        * eapply HX; [exact Hx|exact Ha|unfold X; solve_under..].
        * intros q r Hq Hne. assert (Hu : ~ under U q).
          { intros [t Ht]%under_spec. rewrite Ht in Hq. apply (f_equal length) in Hq.
            rewrite !length_app in Hq. simpl in Hq. lia. }
          unfold dir_or_free. rewrite (Ha q Hu). by apply (Hy q r).
    - intros fs (Hx & Hy & Hu). by split_and!.
    - intros [[]|e] fs; [|done]. intros [[Hx Hy] Hu]. split_and!; try done.
      intros q r Hq Hne. by destruct q. }
  apply (always_bind _ _ _ _ _ (fun _ fs => (X fs /\ (fs !! U = None \/ errors = true)) /\
           prefixes_are (fun q => fs !! q = Some NDir) (path_parent U))); [|intros _].
  { apply (framed_total (fun q => q <> [] /\ under q (path_parent U))).
    - intros fs. apply create_dirs_keeps. intros q r Hq Hne. split; [done|]. apply under_spec. by exists r.
    - intros fs fs' [Hx Hu] Ha. split; [eapply HX; [exact Hx|exact Ha|..]|].
      + intros [_ Hq]. revert Hq. solve_under.
      + intros [_ Hq]. revert Hq. solve_under.
      + intros [_ Hq]. revert Hq. solve_under.
      + destruct Hu as [Hu|]; [left|by right]. eapply lookup_agree; [exact Ha| |exact Hu].
        intros [_ Hq]. revert Hq. solve_under.
    - apply always_serr. eapply always_weaken; [apply (make_dirs_total errors [] (path_parent U))|done|].
      by intros [[]|e] fs. }
  apply (always_bind _ _ _ _ _ (fun _ => set_up)); [|intros _; apply fsync_total; [done|]].
  - apply always_serr. eapply always_weaken;
      [apply (rename_total (fun fs => (X fs /\ (fs !! U = None \/ errors = true)) /\
         prefixes_are (fun q => fs !! q = Some NDir) (path_parent U)) P U set_up)|done|by intros [[]|e] fs];
      try done.
    + apply starts_with_false. solve_under.
    + apply starts_with_false. solve_under.
    + intros fs [[(_ & _ & Hp) [Hu|He]] Hd]; [right|by left]. split_and!; [done| |done].
      apply (Hd (path_parent U) []); [by rewrite app_nil_r|done].
    + intros fs [[(H3 & H4 & _) _] _]. split_and!.
      * rewrite lookup_moved_other; [done|solve_under..].
      * rewrite lookup_moved_other; [done|solve_under..].
      * apply lookup_moved_from. solve_under.
  - intros fs (_ & H3 & _). by eexists.
Qed.

Lemma roll_back_fails {A : Type} error (Pre : FS -> Prop) :
  (forall fs, Pre fs -> errors = true) ->
  always errors anywhere Pre (roll_back (A := A) s error) (fails_only_by_accident (fun _ => False)).
Proof.
  intros Hp. apply (always_bind _ _ _ _ _ (fun _ => Pre)); [by apply always_peek|].
  intros [|]; [|by apply always_fail].
  apply (always_bind _ _ _ _ _ (fun _ _ => errors = true)); [|intros _].
  - apply always_serr, always_act; simpl; eauto.
  - apply (always_bind _ _ _ _ _ (fun _ _ => errors = true)); [|intros _; by apply always_fail].
    apply (always_bind _ _ _ _ _ (fun _ _ => errors = true)); [|intros _; by apply always_ret].
    apply always_attempt, always_serr, always_act; simpl; eauto.
Qed.

Lemma publish_total fs0 :
  clean fs0 -> fs0 !! R = Some NDir -> marker_matches s fs0 R = true ->
  always errors anywhere (fun fs => fs = fs0) (publish_sealed s)
    (fun r fs => match r with
       | Ok o => o = if is_published s fs0 then PoAlreadyPublished (ss_revision s)
                     else PoPublished (ss_revision s)
       | Err _ => errors = true end).
Proof.
  intros [Hdev Hpre Hold] Hr Hm. unfold publish_sealed. apply always_seen.
  destruct (is_published s fs0).
  { apply (always_bind _ _ _ _ _ (fun _ => anywhere)); [|intros _; by apply always_ret].
    eapply always_weaken; [apply cleanup_ok|done|]. by intros [[]|e] fs Ho. }
  apply always_seen. unfold is_dir. rewrite node_at_nonempty, Hr by done. simpl negb. cbn iota.
  apply always_seen. rewrite Hm. simpl negb. cbn iota.
  set (X := fun fs : FS => fs !! R = Some NDir /\ prefixes_are (dir_or_free fs) (path_parent U) /\
    forall bs, fs !! U <> Some (NFile bs)).
  apply (always_bind _ _ _ _ _ (fun _ fs => X fs /\ fs !! [ss_device_id s] = Some NDir)); [|intros _].
  { apply always_serr, always_serr. eapply always_weaken.
    - apply (framed_total (fun q => q = [ss_device_id s]) X
        (fun fs => prefixes_are (fun q => fs !! q = Some NDir) [] /\
                   prefixes_are (fun q => dir_or_free fs ([] ++ q)%list) [ss_device_id s])
        (make_dirs [] [ss_device_id s])
        (fun fs => prefixes_are (fun q => fs !! q = Some NDir) [ss_device_id s])).
      + intros fs. apply (make_dirs_keeps errors (fun q => q = [ss_device_id s]) fs [] [ss_device_id s]).
        intros [|a q] r Hq Hne; [done|]. injection Hq as <- Hq. by destruct q.
      + intros fs fs' (H3 & H4 & H5) Ha. split_and!.
        * eapply lookup_agree; [exact Ha|done|exact H3].
        * intros q r Hq Hne. unfold dir_or_free. rewrite (Ha q); [by apply (H4 q r)|].
          intros ->. simpl in Hq. injection Hq as Hq _. by destruct (sk_device s Hs).
        * rewrite (Ha U) by done. done.
      + apply (make_dirs_total errors [] [ss_device_id s]).
    - intros fs ->. split; [split_and!; [done|done|intros bs; apply Hold; by right; right; left]|].
      split; [intros q r Hq Hne; by destruct q|].
      intros [|a q] r Hq Hne; [done|]. injection Hq as <- Hq. by destruct q.
    - intros [[]|e] fs; [|done]. intros [Hx Hd]. split; [done|]. by apply (Hd [ss_device_id s] []). }
  apply (always_bind _ _ _ _ _ (fun occupied fs => (occupied = true -> is_Some (fs !! P)) /\
     (occupied = false -> fs !! P = None) /\ X fs /\ fs !! [ss_device_id s] = Some NDir)).
  { apply always_peek. intros fs [Hx Hd]. split_and!; try done; unfold entry_exists; intros Hb.
    - apply bool_decide_eq_true in Hb. by rewrite node_at_nonempty in Hb.
    - apply bool_decide_eq_false, eq_None_not_Some in Hb. by rewrite node_at_nonempty in Hb. }
  intros occupied. apply (always_bind _ _ _ _ _ (fun _ => set_up)); [|intros _].
  { destruct occupied.
    - apply always_serr. eapply always_weaken; [apply move_aside_total| |by intros [[]|e] fs].
      intros fs (Ho & _ & (H3 & H4 & H5) & H6). split_and!; auto.
    - apply always_ret. intros fs (_ & Ho & (H3 & _) & H4). split_and!; auto. }
  apply (always_bind _ _ _ _ _ (fun renamed fs => match renamed with
    | Ok _ => fs !! [ss_device_id s] = Some NDir | Err _ => errors = true end)).
  - apply always_attempt. eapply always_weaken;
      [apply (rename_total set_up R P (fun fs => fs !! [ss_device_id s] = Some NDir))|done|]; try done.
    + apply starts_with_false. solve_under.
    + apply starts_with_false. solve_under.
    + intros fs (H3 & H4 & H5). right. split_and!; [by eexists|done|done].
    + intros fs (H3 & H4 & H5). rewrite lookup_moved_other; [done|solve_under..].
  - intros [[]|error].
    + apply (always_bind _ _ _ _ _ (fun _ => anywhere)); [|intros _].
      { apply always_serr. eapply always_weaken;
          [apply (fsync_total [ss_device_id s] ltac:(done) (fun fs => fs !! [ss_device_id s] = Some NDir))|done|].
        - intros fs Hd. by eexists.
        - by intros [[]|e] fs. }
      apply (always_bind _ _ _ _ _ (fun _ => anywhere)); [|intros _].
      { eapply always_weaken; [apply (always_best_effort _ _ anywhere anywhere)|done|by intros [[]|e] fs [? _]].
        eapply always_states; [|done].
        eapply always_weaken; [apply (frame_phase _ (under U) anywhere)|done|done]; [|done].
        intros fs. by apply remove_tree_keeps. }
      apply (always_bind _ _ _ _ _ (fun _ => anywhere)); [|intros _; by apply always_ret].
      eapply always_weaken; [apply cleanup_ok|done|]. by intros [[]|e] fs Ho.
    + apply always_serr. eapply always_weaken; [apply (roll_back_fails error (fun _ => errors = true)); done|done|].
      by intros [a|e] fs.
Qed.
End total.

(** ** Publication keeps the place clean *)

Section closed.
Context (errors : bool) (X : FS -> Prop).
Hypothesis X_delete : forall fs q, X fs -> X (delete q fs).
Hypothesis X_create : forall fs q, X fs -> fs !! q = None -> q <> [] -> X (<[q := NDir]> fs).
Hypothesis X_move : forall fs from to, X fs -> from ∈ [P; R; U] -> to ∈ [P; R; U] -> from <> to ->
  X (move_tree from to fs).
Abbreviation holds c := (always errors X X c (fun _ => X)).

Lemma act_holds f : (forall fs fs', X fs -> f fs = Ok fs' -> X fs') -> holds (act f).
Proof. intros Hf. apply always_act; eauto. Qed.

Lemma bind_holds {E A B : Type} (c : sm Disk E A) (k : A -> sm Disk E B) :
  holds c -> (forall a, holds (k a)) -> holds (sbind c k).
Proof.
  intros Hc Hk. apply (always_bind _ _ _ _ _ (fun _ => X)); [|done].
  eapply always_weaken; [exact Hc|done|]. by intros [a|e] fs.
Qed.

Lemma ret_holds {E A : Type} (a : A) : holds (sret (E := E) a).
Proof. by apply always_ret. Qed.
Lemma fail_holds {E A : Type} (e : E) : holds (sfail (A := A) e).
Proof. by apply always_fail. Qed.
Lemma peek_holds {E A : Type} (f : FS -> A) : holds (peek (E := E) f).
Proof. by apply always_peek. Qed.

Lemma remove_tree_holds p : holds (remove_tree p).
Proof.
  apply bind_holds; [apply peek_holds|]. intros [[| |]|]; try apply fail_holds;
    (apply bind_holds; [apply peek_holds|]; intros entries; induction entries as [|q l IH];
       [apply ret_holds|apply bind_holds; [|by intros []]]; apply act_holds; intros fs fs' Hx [= <-]; by apply X_delete).
Qed.

Lemma remove_if_present_holds p : holds (remove_tree_if_present p).
Proof.
  intros d Hd Hx. destruct (remove_tree_holds p d Hd Hx) as (? & ? & ?).
  unfold remove_tree_if_present. destruct (remove_tree p d) as [d' [[]|[]]]; by split_and!.
Qed.

Lemma make_dirs_holds done rest : holds (make_dirs done rest).
Proof.
  revert done. induction rest as [|c rest IH]; intros done; [apply ret_holds|]. simpl.
  apply bind_holds; [apply peek_holds|]. intros [[| |]|]; [apply fail_holds|apply IH|apply fail_holds|].
  apply bind_holds; [|intros _; apply IH]. apply act_holds. intros fs fs' Hx. unfold create_dir.
  assert (Hne : (done ++ [c])%list <> []) by by destruct done.
  rewrite node_at_nonempty by done. destruct (fs !! _) eqn:En; [done|]. intros [= <-]. by apply X_create.
Qed.

Lemma remove_dir_holds p : holds (act (remove_dir p)).
Proof.
  apply act_holds. intros fs fs' Hx. unfold remove_dir. destruct (node_at fs p) as [[| |]|]; try done.
  destruct (has_children fs p); [done|]. intros [= <-]. by apply X_delete.
Qed.

Lemma prune_holds p stop_at : holds (prune_empty_parents p stop_at).
Proof.
  unfold prune_empty_parents. generalize (length p) as rounds, (path_parent p) as dir.
  induction rounds as [|rounds IH]; intros dir; [apply ret_holds|]. simpl. case_match; [apply ret_holds|].
  intros d Hd Hx. destruct (remove_dir_holds dir d Hd Hx) as (G1 & G2 & G3).
  destruct (act (remove_dir dir) d) as [d' [[]|k]]; simpl in *; [|by split_and!].
  destruct (IH (path_parent dir) d' G1 G3) as (? & ? & ?). split_and!; [done|by eapply passes_trans|done].
Qed.

Lemma fsync_holds p : holds (fsync_dir p).
Proof. apply always_serr, act_holds. intros fs fs' Hx. by destruct (node_at fs p); [intros [= <-]|]. Qed.

Lemma rename_holds from to :
  from ∈ [P; R; U] -> to ∈ [P; R; U] -> from <> to -> holds (act (rename_node from to)).
Proof.
  intros Hf Ht Hne. apply act_holds. intros fs fs' Hx Hr.
  destruct (renamed_is_moved from from to fs fs' eq_refl Hr) as [-> _]. by apply X_move.
Qed.

Lemma best_effort_holds {E F A : Type} (c : sm Disk E A) : holds c -> holds (best_effort (F := F) c).
Proof. intros Hc. apply bind_holds; [by apply always_attempt|intros r; apply ret_holds]. Qed.

Lemma serr_holds {E F A : Type} (f : E -> F) (c : sm Disk E A) : holds c -> holds (serr f c).
Proof. intros Hc. apply (always_serr errors X X f c (fun _ => X)). exact Hc. Qed.

Create HintDb holds discriminated.
#[local] Hint Resolve ret_holds fail_holds peek_holds remove_tree_holds remove_if_present_holds make_dirs_holds
  remove_dir_holds prune_holds fsync_holds best_effort_holds serr_holds : holds.

Lemma publish_holds : holds (publish_sealed s).
Proof.
  assert (Hne : R <> P /\ P <> U /\ U <> P) by done. destruct Hne as (N1 & N2 & N3).
  assert (Hin : P ∈ [P; R; U] /\ R ∈ [P; R; U] /\ U ∈ [P; R; U]) by (rewrite !elem_of_cons; tauto).
  destruct Hin as (I1 & I2 & I3).
  assert (Hren : forall from to, from ∈ [P; R; U] -> to ∈ [P; R; U] -> from <> to ->
    holds (attempt (F := PublishError) (act (rename_node from to))))
    by (intros; by apply always_attempt, rename_holds).
  assert (Hclean : holds (cleanup_staging_skeleton s)).
  { unfold cleanup_staging_skeleton. do 5 (apply bind_holds; [auto with holds|intros _]). auto with holds. }
  unfold publish_sealed. apply bind_holds; [apply peek_holds|]. intros [|].
  { apply bind_holds; [done|intros _; apply ret_holds]. }
  apply bind_holds; [apply peek_holds|]. intros [|]; simpl negb; cbn iota; [|apply fail_holds].
  apply bind_holds; [apply peek_holds|]. intros [|]; simpl negb; cbn iota; [|apply fail_holds].
  apply bind_holds; [unfold pub, create_dirs_at; auto with holds|]. intros _.
  apply bind_holds; [apply peek_holds|]. intros occupied. apply bind_holds; [|intros _].
  { destruct occupied; [|apply ret_holds]. unfold pub, move_aside, create_dirs_at, io.
    apply serr_holds. repeat (apply bind_holds; [auto using rename_holds with holds|intros _]).
    auto with holds. }
  apply bind_holds; [by apply Hren|]. intros [[]|error].
  - unfold pub. repeat (apply bind_holds; [auto with holds|intros _]). apply ret_holds.
  - unfold pub, roll_back, io. apply serr_holds, bind_holds; [apply peek_holds|].
    intros [|]; [|apply fail_holds].
    repeat (apply bind_holds; [auto using rename_holds with holds|intros _]). apply fail_holds.
Qed.

End closed.

Lemma clean_delete fs q : clean fs -> clean (delete q fs).
Proof.
  intros [Hd Ha Hf]. assert (Hq : forall p n, delete q fs !! p = Some n -> fs !! p = Some n)
    by (intros p n [_ Hp]%lookup_delete_Some; done).
  assert (Hdf : forall p, dir_or_free fs p -> dir_or_free (delete q fs) p).
  { intros p Hp. unfold dir_or_free in *. destruct (decide (q = p)) as [->|Hne].
    - left. apply lookup_delete_eq.
    - by rewrite lookup_delete_ne. }
  split; [by apply Hdf|intros p r Hp Hne; apply Hdf; by apply (Ha p r)|].
  intros p bs Hp Hl. by apply (Hf p bs Hp), Hq.
Qed.

Lemma clean_create fs q : clean fs -> fs !! q = None -> q <> [] -> clean (<[q := NDir]> fs).
Proof.
  intros [Hd Ha Hf] Hn _. assert (Hdf : forall p, dir_or_free fs p -> dir_or_free (<[q := NDir]> fs) p).
  { intros p Hp. unfold dir_or_free in *. destruct (decide (q = p)) as [->|Hne].
    - right. apply lookup_insert_eq.
    - by rewrite lookup_insert_ne. }
  split; [by apply Hdf|intros p r Hp Hne; apply Hdf; by apply (Ha p r)|].
  intros p bs Hp [[_ Hl]|[_ Hl]]%lookup_insert_Some; [done|by apply (Hf p bs Hp)].
Qed.

Lemma trees_apart p q : p ∈ [P; R; U] -> q ∈ [P; R; U] -> p <> q -> ~ under p q.
Proof.
  rewrite !elem_of_cons, !elem_of_nil.
  intros [->|[->|[->|[]]]] [->|[->|[->|[]]]] Hne; try done; solve_under.
Qed.

Lemma clean_move fs from to :
  clean fs -> from ∈ [P; R; U] -> to ∈ [P; R; U] -> from <> to -> clean (move_tree from to fs).
Proof.
  intros [Hd Ha Hf] Hfrom Hto Hne.
  assert (Hshort : forall p q, p ∈ [P; R; U] -> q = [ss_device_id s] \/ (q <> [] /\ under q (path_parent U)) ->
    ~ under p q).
  { intros p q. rewrite !elem_of_cons, elem_of_nil.
    intros [->|[->|[->|[]]]] [->|[Hq0 Hq]]; try solve_under;
      (destruct q as [|a q]; [done|]; apply under_spec in Hq as [r Hr]; intros [t Ht]%under_spec;
       rewrite Ht in Hr; generalize (sk_device s Hs) (sk_superseded s Hs); intros ? ?;
       simpl in Hr; simplify_list_eq; try congruence).
    all: apply (f_equal length) in Hr; rewrite ?length_app in Hr; simpl in Hr; lia. }
  split.
  - unfold dir_or_free. rewrite lookup_moved_other; [done|apply Hshort; auto..].
  - intros q r Hq Hq0. assert (Hu : under q (path_parent U)) by (apply under_spec; by exists r).
    unfold dir_or_free. rewrite lookup_moved_other; [by apply (Ha q r)|apply Hshort; auto..].
  - intros p bs Hp. destruct (decide (p = to)) as [->|Hpt].
    + rewrite lookup_move. replace (path_strip to to) with (Some ([] : Path)).
      * rewrite app_nil_r. by apply Hf.
      * symmetry. apply path_strip_Some. by rewrite app_nil_r.
    + destruct (decide (p = from)) as [->|Hpf].
      * by rewrite lookup_moved_from by (apply trees_apart; auto).
      * rewrite lookup_moved_other; [by apply Hf|apply trees_apart; auto..].
Qed.

Lemma marker_matches_tree fs dir : marker_matches s fs dir = marker_matches s (subtree fs dir) [].
Proof.
  unfold marker_matches, read_revision_marker, read_to_string, read_file.
  rewrite !node_at_nonempty by (by destruct dir). by rewrite lookup_subtree.
Qed.

(** Publishing again what is already visible. *)
Lemma republish_done errors fs0 :
  is_published s fs0 = true ->
  always errors (fun _ => True) (fun fs => fs = fs0) (publish_sealed s)
    (fun r fs => r = Ok (PoAlreadyPublished (ss_revision s)) /\ visible fs = visible fs0).
Proof.
  intros Hp. unfold publish_sealed. apply always_seen. rewrite Hp.
  apply (always_bind _ _ _ _ _ (fun _ fs => visible fs = visible fs0)).
  - eapply always_states; [|done]. eapply always_weaken; [apply (cleanup_phase errors fs0 (visible fs0))| |].
    + intros fs ->. split; [by repeat constructor|apply agree_refl].
    + intros r fs [-> [Hf _]]. by apply Forall_cons in Hf as [? _].
  - intros _. by apply always_ret.
Qed.

End publish.

(** C27: the publication of a session is all or nothing.  Whatever calls
    fail and wherever the process dies while a sealed revision is published,
    the disk is at every instant in one of four conditions and nothing outside
    the session, the hidden tree and the device directory has changed: the old
    visible tree and the sealed tree both intact; nothing visible, the old tree
    intact aside and the sealed tree intact; the whole sealed tree visible; or,
    when nothing was visible to begin with, what an earlier attempt had put
    aside visible again.  When publication reports success, the visible tree is
    exactly the sealed tree. *)
Theorem publication_is_all_or_nothing `{JournalCodec, Sha256, MarkerCodec, Lowercase} s d :
  staging_ok s -> is_published s (dk_fs d) = false -> dk_past d = [] ->
  let '(d', r) := publish_sealed s d in
  Forall (instant s (dk_fs d)) (dk_past d' ++ [dk_fs d'])%list /\
  (forall o, r = Ok o -> subtree (dk_fs d') (published_dir s) = subtree (dk_fs d) (revision_dir s)).
Proof.
  intros Hs Hp Hpast. destruct (publish_instants s Hs true (dk_fs d) Hp d) as (_ & (l & El & Hl) & Hi & Hr);
    [done|done|]. destruct (publish_sealed s d) as [d' r]. simpl in *.
  rewrite Hpast in El. simpl in El. rewrite El. split.
  - apply Forall_app. split; [done|by constructor].
  - intros o ->. done.
Qed.

(** C28: an interrupted publication converges.  Begin publishing a sealed
    revision on a disk with no stray files where it needs directories, let any
    calls fail and the process die at any instant.  Publishing again from that
    state, with nothing failing this time, succeeds: the visible session is the
    sealed tree and is recognised as this revision. *)
Theorem interrupted_publication_converges `{JournalCodec, Sha256, MarkerCodec, Lowercase} s d fs :
  staging_ok s -> is_published s (dk_fs d) = false -> dk_past d = [] -> clean s (dk_fs d) ->
  dk_fs d !! revision_dir s = Some NDir -> marker_matches s (dk_fs d) (revision_dir s) = true ->
  marker_matches s (dk_fs d) (superseded_dir s) = false ->
  let d' := (publish_sealed s d).1 in
  fs ∈ (dk_past d' ++ [dk_fs d'])%list ->
  let '(d2, r) := publish_sealed s (mkDisk fs [] []) in
  r = Ok (if is_published s fs then PoAlreadyPublished (ss_revision s) else PoPublished (ss_revision s)) /\
  subtree (dk_fs d2) (published_dir s) = subtree (dk_fs d) (revision_dir s) /\
  is_published s (dk_fs d2) = true.
Proof.
  intros Hs Hp Hpast Hc Hr Hm Hu d' Hfs. set (fs0 := dk_fs d) in *.
  assert (Hboth : instant s fs0 fs /\ clean s fs).
  { destruct (publish_instants s Hs true fs0 Hp d) as (_ & (l & El & Hl) & Hi & _); [done|done|].
    destruct (publish_holds s true (clean s) (clean_delete s) (clean_create s) (clean_move s Hs) d)
      as (_ & (l' & El' & Hl') & Hc'); [done|done|].
    fold d' in El, El', Hi, Hc'. rewrite Hpast in El, El'. simpl in El, El'. rewrite El in El'. subst l'.
    rewrite El in Hfs. apply elem_of_app in Hfs as [Hin|Hin%list_elem_of_singleton]; [|by subst fs].
    rewrite Forall_forall in Hl, Hl'. auto. }
  destruct Hboth as [[Hz Hcase] Hcf].
  assert (Hv : forall a b, subtree a (published_dir s) = subtree b (revision_dir s) ->
    marker_matches s b (revision_dir s) = true -> is_published s a = true).
  { intros a b Hab Hb. unfold is_published. by rewrite marker_matches_tree, Hab, <- marker_matches_tree. }
  assert (Hpub : is_published s fs = true -> subtree fs (published_dir s) = subtree fs0 (revision_dir s)).
  { unfold is_published in *. rewrite marker_matches_tree. intros Hfp.
    destruct Hcase as [[Hx _]|[(Hx & _)|[Hx|(_ & Hx & _)]]]; [| |done|]; rewrite Hx in Hfp.
    - rewrite <- marker_matches_tree in Hfp. congruence.
    - done.
    - rewrite <- marker_matches_tree in Hfp. congruence. }
  destruct (is_published s fs) eqn:Ep.
  - destruct (republish_done s Hs false fs Ep (mkDisk fs [] [])) as (_ & _ & Hres & Hvis); [done|done|].
    destruct (publish_sealed s (mkDisk fs [] [])) as [d2 r]. simpl in *.
    assert (Hsub : subtree (dk_fs d2) (published_dir s) = subtree fs0 (revision_dir s)) by (by rewrite Hvis, Hpub).
    split_and!; [done|done|by eapply Hv].
  - assert (Hstaged : subtree fs (revision_dir s) = subtree fs0 (revision_dir s)).
    { destruct Hcase as [[_ Hx]|[(_ & Hx & _)|[Hx|(_ & _ & Hx)]]]; try done.
      rewrite (Hv fs fs0 Hx Hm) in Ep. done. }
    assert (Hrf : fs !! revision_dir s = Some NDir).
    { apply (f_equal (lookup [])) in Hstaged. rewrite !lookup_subtree, app_nil_r in Hstaged. congruence. }
    assert (Hmf : marker_matches s fs (revision_dir s) = true)
      by (rewrite marker_matches_tree, Hstaged, <- marker_matches_tree; done).
    destruct (publish_total s Hs false fs Hcf Hrf Hmf (mkDisk fs [] [])) as (_ & _ & Hres); [done|done|].
    destruct (publish_instants s Hs false fs Ep (mkDisk fs [] [])) as (_ & _ & _ & Hvis); [done|done|].
    rewrite Ep in Hres. destruct (publish_sealed s (mkDisk fs [] [])) as [d2 [o|e]]; simpl in *; [|done].
    subst o. rewrite Hstaged in Hvis. split_and!; [done|done|by eapply Hv].
Qed.

(** ** A staged revision replacing an older session *)

#[local] Existing Instance DemoCodec.codec.
#[local] Existing Instance DemoSha.sha.
Module DemoStaging.

Definition revision_journal (m : RevisionMarker) : DownloadJournal :=
  mkJournal (rm_file_count m) (rm_total_bytes m) (rm_revision m) None.
Definition journal_revision (j : DownloadJournal) : RevisionMarker :=
  mkRevisionMarker (dj_expected_sha256_hex j) (dj_confirmed_offset j) (dj_expected_size j).

Definition selected_journal (m : SelectedMarker) : DownloadJournal :=
  mkJournal (sm_file_count m) (sm_total_bytes m) (sm_scope m)
    (Some (DemoCodec.text (mkJournal 0 0 (sm_revision m) (Some (sm_manifest_digest m))))).
Definition journal_selected (j : DownloadJournal) : option SelectedMarker :=
  text ← dj_etag j; inner ← DemoCodec.parse text; digest ← dj_etag inner;
  Some (mkSelectedMarker (dj_expected_sha256_hex j) (dj_expected_sha256_hex inner) (dj_confirmed_offset j)
          (dj_expected_size j) digest).

Lemma decode_revision m : revision_marker_fits m ->
  journal_revision <$> DemoCodec.decode (DemoCodec.encode (revision_journal m)) = Some m.
Proof.
  intros [H1 H2]. rewrite DemoCodec.decode_encode; [by destruct m|].
  split; simpl; [|done]. etrans; [exact H1|done].
Qed.

Lemma decode_selected m : selected_marker_fits m ->
  DemoCodec.decode (DemoCodec.encode (selected_journal m)) ≫= journal_selected = Some m.
Proof.
  intros [H1 H2]. rewrite DemoCodec.decode_encode; [|split; simpl; [|done]; etrans; [exact H1|done]].
  assert (Hin := DemoCodec.decode_encode (mkJournal 0 0 (sm_revision m) (Some (sm_manifest_digest m))) ltac:(done)).
  unfold DemoCodec.decode, DemoCodec.encode, bytes_of in Hin. rewrite string_of_list_byte_of_string in Hin.
  simpl. unfold journal_selected. simpl. rewrite Hin. by destruct m.
Qed.

#[global] Instance markers : MarkerCodec := {|
  revision_encode := fun m => DemoCodec.encode (revision_journal m);
  revision_decode := fun bs => journal_revision <$> DemoCodec.decode bs;
  selected_encode := fun m => DemoCodec.encode (selected_journal m);
  selected_decode := fun bs => DemoCodec.decode bs ≫= journal_selected;
  revision_encode_utf8 := fun m => DemoCodec.encode_utf8 (revision_journal m);
  selected_encode_utf8 := fun m => DemoCodec.encode_utf8 (selected_journal m);
  revision_decode_encode := decode_revision;
  selected_decode_encode := decode_selected;
|}.
#[global] Instance lower : Lowercase := to_ascii_lowercase.

Local Open Scope string_scope.

Definition staging : SessionStaging := mkStaging "dev-1" "sess-1" (from_publication [Byte.x01]).
Definition body : list byte := [Byte.x01; Byte.x02; Byte.x03].
Definition manifest : SessionManifest :=
  mkManifest "dev-1" "sess-1"
    [mkExpected "f1" (Some "left.mp4") 3 (Some (to_hex (DemoSha.digest body)))].

Definition old : FS :=
  <[["dev-1"; "sess-1"; "old.mp4"] := NFile [Byte.x09]]>
  (<[["dev-1"; "sess-1"] := NDir]> (<[["dev-1"] := NDir]> ∅)).
Definition assembled : FS :=
  <[(revision_dir staging ++ ["left.mp4"])%list := NFile body]>
  (foldr (fun p fs => <[p := NDir]> fs) old
     [revision_dir staging; [STAGING_DIR_NAME; ss_revision staging; "dev-1"]; file_root staging; staging_root]).

(** The disk after a seal during which nothing failed. *)
Definition sealed : FS := dk_fs (seal staging manifest (mkDisk assembled [] [])).1.

Lemma staging_good : staging_ok staging.
Proof. by split. Qed.

Lemma sealed_clean : clean staging sealed.
Proof.
  split.
  - right. vm_compute. reflexivity.
  - intros q r Hq Hne. destruct q as [|a [|b [|c [|e [|f q]]]]]; simplify_eq/=; try done;
      unfold dir_or_free; (by left; vm_compute) || (by right; vm_compute).
  - intros p bs. rewrite !elem_of_cons, elem_of_nil. intros [->|[->|[->|[]]]]; vm_compute; discriminate.
Qed.

End DemoStaging.

Lemma publication_is_all_or_nothing_witness :
  subtree (dk_fs (publish_sealed DemoStaging.staging (mkDisk DemoStaging.sealed [] [])).1)
    (published_dir DemoStaging.staging)
  = subtree DemoStaging.sealed (revision_dir DemoStaging.staging).
Proof.
  generalize (publication_is_all_or_nothing DemoStaging.staging (mkDisk DemoStaging.sealed [] [])
    DemoStaging.staging_good ltac:(vm_compute; reflexivity) eq_refl).
  assert (Hok : is_ok (publish_sealed DemoStaging.staging (mkDisk DemoStaging.sealed [] [])).2 = true)
    by (vm_compute; reflexivity).
  destruct (publish_sealed DemoStaging.staging (mkDisk DemoStaging.sealed [] [])) as [d' [o|e]];
    [|discriminate Hok].
  intros [_ H]. apply (H o). reflexivity.
Defined.

(** The publishing rename and its rollback both fail: the old tree is aside and
    nothing is visible when publication starts again. *)
Lemma interrupted_publication_converges_witness :
  let interrupted := mkDisk DemoStaging.sealed (replicate 5 None ++ [Some IoInvalidData; Some IoInvalidData])%list [] in
  let d' := (publish_sealed DemoStaging.staging interrupted).1 in
  is_published DemoStaging.staging
    (dk_fs (publish_sealed DemoStaging.staging (mkDisk (dk_fs d') [] [])).1) = true.
Proof.
  intros interrupted d'.
  generalize (interrupted_publication_converges DemoStaging.staging interrupted (dk_fs d')
    DemoStaging.staging_good ltac:(vm_compute; reflexivity) eq_refl DemoStaging.sealed_clean
    ltac:(vm_compute; reflexivity) ltac:(vm_compute; reflexivity) ltac:(vm_compute; reflexivity)).
  fold d'. intros H. specialize (H ltac:(apply elem_of_app; right; apply list_elem_of_singleton; reflexivity)).
  destruct (publish_sealed DemoStaging.staging (mkDisk (dk_fs d') [] [])) as [d2 r].
  destruct H as (_ & _ & H). exact H.
Defined.
