(* ===== verification/Seal.v ===== *)
(** * Seal: what a sealed revision holds

[SessionStaging::seal] (library/staging.rs) checks the manifest against the
files in the revision directory in both directions and writes the marker;
[SessionStaging::publish] makes the result visible. *)

From Stdlib Require Import NArith Lia Ascii String.
From stdpp Require Import base numbers list strings gmap.
From S2P Require Import Prelude Domain Files Journal Artifact Download Fault Disk Staging Publish.

Section seal.
Context `{JournalCodec, Sha256, MarkerCodec, Lowercase}.

(** A file as the manifest describes it. *)
Definition content_matches (e : ExpectedArtifact) (bs : list byte) : Prop :=
  blen bs = ea_expected_size e /\
  forall sha, ea_expected_sha256_hex e = Some sha -> to_hex (sha256 bs) = to_ascii_lowercase sha.

Lemma inspect_verified_iff fs d ses e :
  ae_status (inspect fs d ses e) = AVerified <->
  exists target bs, derive_target_path_for_file d ses (ea_file_id e) (ea_target_relative_path e) = Ok target /\
    fs !! target = Some (NFile bs) /\ content_matches e bs.
Proof.
  unfold inspect. destruct (derive_target_path_for_file d ses _ _) as [t|err] eqn:Ed;
    [|split; [done|naive_solver]].
  assert (Ht : t <> []) by (by apply derive_target_path_spec in Ed as (_ & _ & _ & _ & -> & _)).
  simpl. unfold judge. rewrite node_at_nonempty by done. split.
  - destruct (fs !! t) as [[bs| |o]|] eqn:Et; try done;
      [|unfold partial_verdict; by destruct (_ =? 0)%N].
    intros Hv. exists t, bs. split_and!; [done|done|]. revert Hv. unfold committed_verdict, content_matches.
    destruct (N.eqb_spec (blen bs) (ea_expected_size e)); [simpl|done].
    destruct (ea_expected_sha256_hex e) as [sha|]; [|done].
    unfold sha256_of_file, read_file. rewrite node_at_nonempty, Et by done. simpl.
    destruct (String.eqb_spec (to_hex (sha256 bs)) (to_ascii_lowercase sha)); [|done].
    intros _. split; [done|]. by intros sha' [= <-].
  - intros (t' & bs & [= <-] & Et & Hl & Hh). rewrite Et. unfold committed_verdict.
    rewrite Hl, N.eqb_refl. simpl. destruct (ea_expected_sha256_hex e) as [sha|]; [|done].
    unfold sha256_of_file, read_file. rewrite node_at_nonempty, Et by done. simpl.
    by rewrite (Hh sha eq_refl), String.eqb_refl.
Qed.

(** Every file of the manifest is below [root], as the manifest describes it. *)
Definition complete (root : Path) (m : SessionManifest) (d ses : string) (fs : FS) : Prop :=
  forall e, e ∈ mf_files m -> exists target bs,
    derive_target_path_for_file d ses (ea_file_id e) (ea_target_relative_path e) = Ok target /\
    fs !! (root ++ target)%list = Some (NFile bs) /\ content_matches e bs.

(** A place of the manifest below [root]. *)
Definition listed (root : Path) (m : SessionManifest) (d ses : string) (q : Path) : Prop :=
  exists e target, e ∈ mf_files m /\ q = (root ++ target)%list /\
    derive_target_path_for_file d ses (ea_file_id e) (ea_target_relative_path e) = Ok target.

(** Everything but directories below [dir] is a marker or listed. *)
Definition nothing_else (root dir : Path) (m : SessionManifest) (d ses : string) (fs : FS) : Prop :=
  forall q n, under dir q -> q <> dir -> fs !! q = Some n -> n <> NDir ->
    q = (dir ++ [REVISION_MARKER_NAME])%list \/ q = (dir ++ [SELECTED_MARKER_NAME])%list \/
    listed root m d ses q.

Lemma collect_files_in fs dir q :
  q ∈ collect_files fs dir <-> under dir q /\ q <> dir /\ exists n, fs !! q = Some n /\ n <> NDir.
Proof.
  unfold collect_files. rewrite list_elem_of_omap. split.
  - intros ([k n] & Hk%elem_of_map_to_list & Hs). simpl in Hs.
    destruct (path_strip dir k) as [[|c r]|] eqn:Er; try done. case_decide; [done|]. injection Hs as <-.
    split; [unfold under; by rewrite Er|]. split; [|by exists n].
    intros ->. apply path_strip_Some in Er. apply (f_equal length) in Er. rewrite length_app in Er. simpl in Er. lia.
  - intros ([r Hr] & Hne & n & Hn & Hd). exists (q, n). rewrite elem_of_map_to_list. split; [done|]. simpl.
    rewrite Hr. destruct r as [|c r]; [|by rewrite decide_False].
    apply path_strip_Some in Hr. by rewrite app_nil_r in Hr.
Qed.

Lemma no_evidence_problem ev : evidence_problems ev = [] <-> ae_status ev = AVerified.
Proof. unfold evidence_problems. by destruct (ae_status ev). Qed.

Lemma mjoin_nil {A B : Type} (f : A -> list B) l : mjoin (f <$> l) = [] <-> forall x, x ∈ l -> f x = [].
Proof.
  induction l as [|x l IH]; simpl; [split; [by intros _ x Hx%not_elem_of_nil|done]|].
  rewrite app_nil, IH. split.
  - intros [Hx Hl] y [->|Hy]%elem_of_cons; auto.
  - intros Hall. split; [apply Hall; by left|intros y Hy; apply Hall; by right].
Qed.

Lemma filter_nil {A : Type} (f : A -> bool) l : List.filter f l = [] <-> forall x, x ∈ l -> f x = false.
Proof.
  induction l as [|x l IH]; simpl; [split; [by intros _ x Hx%not_elem_of_nil|done]|].
  destruct (f x) eqn:Ef.
  - split; [done|]. intros Hall. rewrite (Hall x) in Ef by (by left). done.
  - rewrite IH. split; [intros Hl y [->|Hy]%elem_of_cons; auto|intros Hall y Hy; apply Hall; by right].
Qed.

Lemma refused_iff {A : Type} (l : list A) (refuse : list A -> PublishError) :
  match l with [] => Ok tt | _ => Err (refuse l) end = Ok tt <-> l = [].
Proof. by destruct l; split. Qed.

Lemma verify_manifest_iff s m fs :
  verify_manifest s m fs = Ok tt <->
  complete (file_root s) m (ss_device_id s) (ss_session_id s) fs /\
  nothing_else (file_root s) (revision_dir s) m (ss_device_id s) (ss_session_id s) fs.
Proof.
  unfold verify_manifest. rewrite (refused_iff _ (PubManifestMismatch (ss_revision s))), app_nil, mjoin_nil.
  set (ev := plan_recovery _ _ _ _). set (unexpected := List.filter _ _).
  assert (Hf : (fun p => MpUnexpected (default p (path_strip (revision_dir s) p))) <$> unexpected = [] <->
    unexpected = []) by (split; [apply fmap_nil_inv|by intros ->]).
  rewrite Hf. unfold unexpected. rewrite filter_nil.
  assert (Hev : forall e, e ∈ mf_files m -> inspect (view fs (file_root s)) (ss_device_id s) (ss_session_id s) e ∈ ev)
    by (intros e He; apply list_elem_of_fmap; by exists e).
  assert (Htarget : forall e t, ae_target (inspect (view fs (file_root s)) (ss_device_id s) (ss_session_id s) e) = Some t <->
    derive_target_path_for_file (ss_device_id s) (ss_session_id s) (ea_file_id e) (ea_target_relative_path e) = Ok t).
  { intros e t. unfold inspect. destruct (derive_target_path_for_file _ _ _ _); simpl; naive_solver. }
  split; intros [H3 H4]; split.
  - intros e He. assert (Hv := proj1 (no_evidence_problem _) (H3 _ (Hev e He))).
    apply inspect_verified_iff in Hv as (t & bs & Hd & Ht & Hm). exists t, bs. split_and!; [done| |done].
    unfold view in Ht. by rewrite lookup_subtree in Ht.
  - intros q n Hu Hne Hn Hnd. assert (Hin : q ∈ collect_files fs (revision_dir s))
      by (apply collect_files_in; eauto).
    apply H4, negb_false_iff, bool_decide_eq_true in Hin. rewrite !elem_of_cons, list_elem_of_fmap in Hin.
    destruct Hin as [?|[?|(t & -> & Ht)]]; [by left|by right; left|right; right].
    apply list_elem_of_omap in Ht as (x & (e & -> & He)%list_elem_of_fmap & Hx). exists e, t.
    split_and!; [done|done|by apply Htarget].
  - intros x (e & -> & He)%list_elem_of_fmap. apply no_evidence_problem, inspect_verified_iff.
    destruct (H3 e He) as (t & bs & Hd & Ht & Hm). exists t, bs. unfold view. by rewrite lookup_subtree.
  - intros q (Hu & Hne & n & Hn & Hnd)%collect_files_in. apply negb_false_iff, bool_decide_eq_true.
    rewrite !elem_of_cons, list_elem_of_fmap.
    destruct (H4 q n Hu Hne Hn Hnd) as [?|[?|(e & t & He & -> & Hd)]]; [by left|by right; left|right; right].
    exists t. split; [done|]. apply list_elem_of_omap. eexists. split; [by apply Hev|by apply Htarget].
Qed.

(** ** Writing the marker *)

Definition marker_temp_name : string := String.append REVISION_MARKER_NAME ".tmp".

(** The marker's own paths and the directories above the revision. *)
Definition marker_paths (s : SessionStaging) (q : Path) : Prop :=
  under (revision_dir s ++ [REVISION_MARKER_NAME])%list q \/
  under (revision_dir s ++ [marker_temp_name])%list q \/
  (q <> [] /\ under q (revision_dir s)).

Lemma push_tmp (q : Path) c : path_push_suffix (q ++ [c]) ".tmp" = (q ++ [(c ++ ".tmp")%string])%list.
Proof. apply push_suffix_snoc. Qed.

Section marker.
Context (errors : bool) (s : SessionStaging).
Abbreviation marker := (revision_dir s ++ [REVISION_MARKER_NAME])%list.
Abbreviation marker_tmp := (revision_dir s ++ [marker_temp_name])%list.
Abbreviation K := (marker_paths s).
Abbreviation keeps fs0 c := (always errors (agree K fs0) (agree K fs0) c (fun _ => agree K fs0)).

Lemma open_write_keeps fs0 p truncate : K p -> keeps fs0 (io p (fun fs => open_write fs p truncate)).
Proof.
  intros Hp. apply io_keeps. intros fs fs' Hk. unfold open_write.
  destruct (node_at fs p) as [[| |]|]; try done; [destruct truncate|]; intros [= <-]; try done;
    by apply agree_insert.
Qed.

Lemma write_chunk_keeps fs0 p off chunk : K p -> keeps fs0 (io p (fun fs => Ok (write_chunk fs p off chunk))).
Proof.
  intros Hp. apply io_keeps. intros fs fs' Hk [= <-]. unfold write_chunk.
  destruct (fs !! p) as [[| |]|]; try done. by apply agree_insert.
Qed.

Lemma remove_file_keeps fs0 p : K p -> keeps fs0 (io p (fun fs => remove_file fs p)).
Proof.
  intros Hp. apply io_keeps. intros fs fs' Hk. unfold remove_file.
  destruct (node_at fs p) as [[| |]|]; try done; intros [= <-]; by apply agree_delete.
Qed.

Lemma under_refl p : under p p.
Proof. apply under_spec. exists []. by rewrite app_nil_r. Qed.

Lemma revision_dirs_keeps fs0 : keeps fs0 (create_dirs_at (revision_dir s)).
Proof.
  apply create_dirs_keeps. intros q r Hq Hne. right; right. split; [done|]. apply under_spec. by exists r.
Qed.

Lemma write_marker_keeps fs0 bytes : keeps fs0 (write_durably marker bytes).
Proof.
  assert (Hm : K marker) by (left; apply under_refl).
  assert (Ht : K marker_tmp) by (right; left; apply under_refl).
  unfold write_durably. rewrite parent_snoc, push_tmp. change (_ ++ ".tmp")%string with marker_temp_name.
  apply bind_keeps; [apply revision_dirs_keeps|intros _].
  apply bind_keeps; [by apply open_write_keeps|intros _].
  apply bind_keeps; [by apply write_chunk_keeps|intros _].
  apply bind_keeps; [apply sync_file_keeps|intros _].
  apply bind_keeps; [|intros _; apply fsync_keeps].
  apply rename_keeps; intros q Hq; [by right; left|by left].
Qed.

Lemma rewrite_marker_keeps fs0 bytes : keeps fs0 (rewrite_internal_marker marker bytes).
Proof.
  unfold rewrite_internal_marker. apply bind_keeps; [apply peek_keeps|].
  intros [[| |]|]; [|apply fail_keeps..|by apply always_serr, write_marker_keeps].
  apply bind_keeps; [apply always_serr, remove_file_keeps; left; apply under_refl|intros _].
  apply bind_keeps; [apply always_serr, fsync_keeps|intros _]. by apply always_serr, write_marker_keeps.
Qed.

(** What a marker write that succeeds leaves. *)
Lemma write_marker_result bytes :
  always errors (fun _ => True) (fun _ => True) (write_durably marker bytes)
    (fun r fs => match r with
       | Ok _ => fs !! marker = Some (NFile bytes) /\ forall q, under marker_tmp q -> fs !! q = None
       | Err _ => True end).
Proof.
  unfold write_durably. rewrite parent_snoc, push_tmp. change (_ ++ ".tmp")%string with marker_temp_name.
  assert (Hne : marker_tmp <> []) by by destruct (revision_dir s).
  apply (always_bind _ _ _ _ _ (fun _ _ => True)); [|intros _].
  { eapply always_states; [|done]. eapply always_weaken;
      [apply (frame_phase _ K (fun _ => True)); [apply revision_dirs_keeps|done]|done|]. by intros [[]|e]. }
  apply (always_bind _ _ _ _ _ (fun _ fs => fs !! marker_tmp = Some (NFile []))); [|intros _].
  { apply always_serr, always_act; [done|done|]. intros fs fs' _. unfold open_write.
    rewrite node_at_nonempty by done. destruct (fs !! marker_tmp) as [[| |]|]; try done; intros [= <-];
      apply lookup_insert_eq. }
  apply (always_bind _ _ _ _ _ (fun _ fs => fs !! marker_tmp = Some (NFile bytes))); [|intros _].
  { apply always_serr, always_act; [done|done|]. intros fs fs' Hf He.
    assert (fs' = write_chunk fs marker_tmp 0 bytes) as -> by congruence. unfold write_chunk. rewrite Hf.
    cbn [rmap_err]. rewrite lookup_insert_eq. unfold write_at. simpl. by rewrite drop_nil, app_nil_r. }
  apply (always_bind _ _ _ _ _ (fun _ fs => fs !! marker_tmp = Some (NFile bytes))); [|intros _].
  { apply always_serr, always_act; [done|done|]. by intros fs fs' Hf [= <-]. }
  set (X := fun fs : FS => fs !! marker = Some (NFile bytes) /\ forall q, under marker_tmp q -> fs !! q = None).
  apply (always_bind _ _ _ _ _ (fun _ => X)); [|intros _].
  - apply always_serr, always_act; [done|done|]. intros fs fs' Hf Hr.
    destruct (renamed_is_moved marker_tmp marker_tmp marker fs fs' eq_refl Hr) as [-> _]. split.
    + rewrite lookup_move. replace (path_strip marker marker) with (Some ([] : Path)); [by rewrite app_nil_r|].
      symmetry. apply path_strip_Some. by rewrite app_nil_r.
    + intros q [r ->]%under_spec. rewrite lookup_move, path_strip_app.
      by destruct (path_strip marker _) as [t|] eqn:E; [apply path_strip_Some in E|].
  - eapply always_states; [eapply always_weaken;
      [apply (frame_phase errors (fun _ => False) X)|done|by intros [[]|e]]|done].
    + intros fs0. apply fsync_keeps.
    + intros fs fs' [Hx Hy] Ha. split; [rewrite Ha by tauto; exact Hx|].
      intros q Hq. rewrite Ha by tauto. by apply Hy.
Qed.

End marker.

(** ** Sealing *)

Section sealing.
Context (s : SessionStaging) (m : SessionManifest).
Abbreviation d := (ss_device_id s).
Abbreviation ses := (ss_session_id s).
Abbreviation Rev := (revision_dir s).
Abbreviation marker := (revision_dir s ++ [REVISION_MARKER_NAME])%list.
Abbreviation marker_tmp := (revision_dir s ++ [marker_temp_name])%list.

(** No file of the manifest is kept where the marker is prepared. *)
Definition avoids_marker_temp : Prop :=
  forall e target, e ∈ mf_files m ->
    derive_target_path_for_file d ses (ea_file_id e) (ea_target_relative_path e) = Ok target ->
    ~ under [d; ses; marker_temp_name] target.

(** As [nothing_else], once the marker is in place. *)
Definition only_listed (root dir : Path) (fs : FS) : Prop :=
  forall q n, under dir q -> q <> dir -> fs !! q = Some n -> n <> NDir ->
    under (dir ++ [REVISION_MARKER_NAME])%list q \/ q = (dir ++ [SELECTED_MARKER_NAME])%list \/
    listed root m d ses q.

Lemma target_in_session e target :
  derive_target_path_for_file d ses (ea_file_id e) (ea_target_relative_path e) = Ok target ->
  exists c r, target = d :: ses :: c :: r /\ safe_segment c.
Proof.
  intros (_ & _ & _ & _ & Ht & Hsafe)%derive_target_path_spec.
  destruct (target_segments (ea_file_id e) (ea_target_relative_path e)) as [|c r] eqn:Eseg.
  - exfalso. destruct (ea_target_relative_path e) as [rel|]; simpl in Eseg; [|done].
    by destruct rel; simpl in Eseg; repeat case_match.
  - exists c, r. rewrite Ht. split; [done|]. rewrite Ht in Hsafe.
    apply Forall_cons in Hsafe as [_ Hsafe]. apply Forall_cons in Hsafe as [_ Hsafe].
    by apply Forall_cons in Hsafe as [? _].
Qed.

Lemma safe_not_marker c : safe_segment c -> c <> REVISION_MARKER_NAME /\ c <> SELECTED_MARKER_NAME.
Proof.
  intros (_ & _ & _ & _ & _ & _ & _ & _ & _ & Hall).
  apply Forall_cons in Hall as [_ Hall]. apply Forall_cons in Hall as [H3 Hall].
  apply Forall_cons in Hall as [H4 _]. by split; intros ->.
Qed.

Lemma listed_untouched q : avoids_marker_temp -> listed (file_root s) m d ses q -> ~ marker_paths s q.
Proof.
  intros Hav (e & target & He & -> & Hd) Hm.
  destruct (target_in_session e target Hd) as (c & r & -> & Hc).
  destruct (safe_not_marker c Hc) as [Hc1 _]. specialize (Hav _ _ He Hd).
  destruct Hm as [Hm|[Hm|[_ Hm]]].
  - apply under_spec in Hm as [t Ht]. simpl in Ht. congruence.
  - apply Hav. apply under_spec in Hm as [t Ht]. simpl in Ht. apply under_spec. exists t. simpl. congruence.
  - apply under_spec in Hm as [t Ht]. apply (f_equal length) in Ht. rewrite length_app in Ht. simpl in Ht. lia.
Qed.

Lemma complete_agree fs fs' : avoids_marker_temp ->
  complete (file_root s) m d ses fs -> agree (marker_paths s) fs fs' -> complete (file_root s) m d ses fs'.
Proof.
  intros Hav Hc Ha e He. destruct (Hc e He) as (target & bs & Hd & Hf & Hm). exists target, bs.
  split_and!; [done| |done]. rewrite Ha; [done|]. apply listed_untouched; [done|]. by exists e, target.
Qed.

Lemma only_listed_agree fs fs' :
  nothing_else (file_root s) Rev m d ses fs -> agree (marker_paths s) fs fs' ->
  (forall q, under marker_tmp q -> fs' !! q = None) -> only_listed (file_root s) Rev fs'.
Proof.
  intros Hn Ha Htmp q n Hu Hne Hq Hnd.
  assert (Hdec : marker_paths s q \/ ~ marker_paths s q).
  { unfold marker_paths. destruct (decide (under marker q)); [tauto|].
    destruct (decide (under marker_tmp q)); [tauto|].
    destruct (decide (q <> [])), (decide (under q Rev)); tauto. }
  destruct Hdec as [[Hm|[Hm|[_ Hm]]]|Hm].
  - by left.
  - rewrite Htmp in Hq by done. done.
  - destruct Hne. apply under_spec in Hu as [t ->], Hm as [t' Ht'].
    apply (f_equal length) in Ht' as Hlen. rewrite !length_app in Hlen.
    destruct t; [by rewrite app_nil_r|simpl in Hlen; lia].
  - rewrite Ha in Hq by done. destruct (Hn q n Hu Hne Hq Hnd) as [->|[?|?]]; [left; apply under_refl|auto..].
Qed.


(** Where sealing may write. *)
Definition seal_paths (q : Path) : Prop :=
  marker_paths s q \/ under (revision_dir s ++ [String.append SELECTED_MARKER_NAME ".tmp"])%list q.

Lemma marker_fits : revision_marker_fits (mkRevisionMarker (ss_revision s) (manifest_file_count m) (manifest_total_bytes m)).
Proof.
  split; simpl.
  - unfold manifest_file_count. assert (Hlt := N.mod_lt (N.of_nat (length (mf_files m))) (u32_max + 1) ltac:(done)). lia.
  - unfold manifest_total_bytes. assert (Hgen : forall l acc, (acc <= u64_max)%N ->
      (fold_left (fun acc f => u64_sat_add acc (ea_expected_size f)) l acc <= u64_max)%N).
    { induction l as [|f l IH]; intros acc Hacc; [done|]. apply IH, u64_sat_add_le. }
    by apply Hgen.
Qed.

Lemma cleanup_temps_keeps errors fs0 :
  always errors (agree seal_paths fs0) (agree seal_paths fs0) (cleanup_marker_temp_files s)
    (fun _ => agree seal_paths fs0).
Proof.
  assert (Hrm : forall name, seal_paths (revision_dir s ++ [String.append name ".tmp"])%list ->
    always errors (agree seal_paths fs0) (agree seal_paths fs0)
      (best_effort (F := PublishError)
         (act (fun fs => remove_file fs (durable_temp_path (revision_dir s ++ [name])%list))))
      (fun _ => agree seal_paths fs0)).
  { intros name Hk. eapply always_weaken; [apply (always_best_effort _ _ _ (agree seal_paths fs0))|done|by intros r fs [_ ?]].
    apply act_keeps. intros fs fs' Ha. unfold remove_file, durable_temp_path. rewrite push_tmp.
    destruct (node_at fs _) as [[| |]|]; try done; intros [= <-]; by apply agree_delete. }
  unfold cleanup_marker_temp_files. apply bind_keeps; [|intros _]; apply Hrm.
  - left; right; left. apply under_refl.
  - right. apply under_refl.
Qed.

Lemma tree_dirs_sync_keeps errors K fs0 dir :
  always errors (agree K fs0) (agree K fs0) (fsync_tree dir) (fun _ => agree K fs0).
Proof.
  apply bind_keeps; [apply peek_keeps|]. intros dirs. apply foreach_keeps. intros p _. apply fsync_keeps.
Qed.

(** The facts a seal establishes. *)
Definition sealed_facts (fs : FS) : Prop :=
  complete (file_root s) m d ses fs /\ only_listed (file_root s) Rev fs /\
  marker_matches s fs (revision_dir s) = true.

Lemma seal_spec errors fs0 : avoids_marker_temp -> is_published s fs0 = false ->
  always errors (agree seal_paths fs0) (fun fs => fs = fs0) (seal s m)
    (fun r fs => agree seal_paths fs0 fs /\ match r with Ok sealed => sealed = mkSealed s /\ sealed_facts fs | Err _ => True end).
Proof.
  intros Hav Hp. unfold seal. apply always_seen. rewrite Hp. apply always_seen.
  destruct (is_dir fs0 (revision_dir s)); simpl negb; cbn iota;
    [|apply always_fail; intros fs ->; split; [apply agree_refl|done]].
  apply (always_bind _ _ _ _ _ (fun _ => agree seal_paths fs0)); [|intros _].
  { eapply always_weaken; [apply cleanup_temps_keeps|intros fs ->; apply agree_refl|]. by intros [[]|e] fs. }
  apply (always_bind _ _ _ _ _ (fun _ fs => agree seal_paths fs0 fs /\ verify_manifest s m fs = Ok tt)); [|intros _].
  { apply always_look. intros fs Ha. by destruct (verify_manifest s m fs) as [[]|e]. }
  set (bytes := revision_encode _).
  apply (always_bind _ _ _ _ _ (fun _ fs => agree seal_paths fs0 fs /\ sealed_facts fs)); [|intros _].
  - intros dk Hd [Ha Hv]. apply verify_manifest_iff in Hv as [Hc Hn].
    destruct (rewrite_marker_keeps errors s (dk_fs dk) bytes dk Hd (agree_refl _ _)) as (H3 & (l & El & Hl) & H5).
    assert (Hin : forall fs, agree (marker_paths s) (dk_fs dk) fs -> agree seal_paths fs0 fs).
    { intros fs Hag. eapply agree_trans; [exact Ha|]. eapply agree_weaken; [|exact Hag]. by left. }
    assert (Hres : match (rewrite_internal_marker marker bytes dk).2 with
      | Ok _ => (fun fs => fs !! marker = Some (NFile bytes) /\ forall q, under marker_tmp q -> fs !! q = None)
                  (dk_fs (rewrite_internal_marker marker bytes dk).1)
      | Err _ => True end).
    { revert Hd. clear. intros Hd.
      assert (Hgoal : always errors (fun _ => True) (fun _ => True) (rewrite_internal_marker marker bytes)
        (fun r fs => match r with Ok _ => fs !! marker = Some (NFile bytes) /\
           forall q, under marker_tmp q -> fs !! q = None | Err _ => True end)).
      { assert (Hw : always errors (fun _ => True) (fun _ => True) (pub (write_durably marker bytes))
          (fun r fs => match r with Ok _ => fs !! marker = Some (NFile bytes) /\
             forall q, under marker_tmp q -> fs !! q = None | Err _ => True end)).
        { apply always_serr. eapply always_weaken; [apply write_marker_result|done|by intros [[]|e]]. }
        apply (always_bind _ _ _ _ _ (fun _ _ => True)); [by apply always_peek|].
        intros [[| |]|]; [|by apply always_fail..|done].
        apply (always_bind _ _ _ _ _ (fun _ _ => True)); [by apply always_serr, always_serr, always_act|intros _].
        apply (always_bind _ _ _ _ _ (fun _ _ => True)); [by apply always_serr, always_serr, always_act|by intros _]. }
      by destruct (Hgoal dk Hd I) as (_ & _ & ?). }
    split_and!; [done|exists l; split; [done|]; by eapply Forall_impl|].
    destruct (rewrite_internal_marker marker bytes dk) as [dk' [[]|e]]; cbn [fst snd] in *; [|by split; [apply Hin|]].
    destruct Hres as [Hm Htmp]. split; [by apply Hin|]. split_and!.
    + by eapply complete_agree.
    + by eapply only_listed_agree.
    + unfold marker_matches, read_revision_marker, read_to_string, read_file. rewrite node_at_nonempty by done.
      rewrite Hm. cbn [rbind]. unfold bytes. rewrite revision_encode_utf8. rewrite revision_decode_encode by apply marker_fits.
      simpl. apply String.eqb_refl.
  - apply (always_bind _ _ _ _ _ (fun _ fs => agree seal_paths fs0 fs /\ sealed_facts fs)); [|intros _].
    { apply always_serr.
      apply (always_states errors (fun fs => agree seal_paths fs0 fs /\ sealed_facts fs)); [|by intros fs [? _]].
      eapply always_weaken; [apply (frame_phase errors (fun _ => False)
        (fun fs => agree seal_paths fs0 fs /\ sealed_facts fs))|done|].
      - intros fs. apply tree_dirs_sync_keeps.
      - intros fs fs' Hx Ha. assert (fs' = fs) as -> by (apply map_eq; intros q; apply Ha; tauto). done.
      - intros [[]|e] fs [? ?]; by split. }
    apply always_ret. intros fs [? ?]. by split_and!.
Qed.

End sealing.
End seal.

(** Sealing checks the manifest against the files in both directions.
    When [seal] succeeds on a revision that is not published yet, whatever
    calls failed on the way, every file of the manifest is in the staged tree
    with its size and digest, everything else there is a marker, and the
    revision marker names this revision; and at no instant has anything outside
    the marker's own paths and the directories above the revision changed.  A
    manifest that keeps a file where the marker is prepared is the exception
    (see [marker_temp_is_lost]). *)
Theorem sealed_revision_is_complete `{JournalCodec, Sha256, MarkerCodec, Lowercase} s m d :
  avoids_marker_temp s m -> is_published s (dk_fs d) = false -> dk_past d = [] ->
  let '(d', r) := seal s m d in
  Forall (agree (seal_paths s) (dk_fs d)) (dk_past d' ++ [dk_fs d'])%list /\
  forall sealed, r = Ok sealed ->
    sr_staging sealed = s /\ marker_matches s (dk_fs d') (revision_dir s) = true /\
    complete (file_root s) m (ss_device_id s) (ss_session_id s) (dk_fs d') /\
    only_listed s m (file_root s) (revision_dir s) (dk_fs d').
Proof.
  intros Hav Hp Hpast. destruct (seal_spec s m true (dk_fs d) Hav Hp d) as (_ & (l & El & Hl) & Ha & Hr);
    [done|done|]. destruct (seal s m d) as [d' r]. cbn [fst snd] in *. rewrite Hpast in El. rewrite El. split.
  - apply Forall_app. split; [done|by constructor].
  - intros sealed ->. destruct Hr as (-> & Hc & Ho & Hm). by split_and!.
Qed.

Section publishing.
Context `{JournalCodec, Sha256, MarkerCodec, Lowercase} (s : SessionStaging) (m : SessionManifest).
Abbreviation dev := (ss_device_id s).
Abbreviation ses := (ss_session_id s).

Lemma seal_paths_hidden q : staging_ok s -> seal_paths s q -> ~ under (published_dir s) q.
Proof.
  intros [Hd _ _] Hq Hu. destruct q as [|a q]; [by apply not_under_nil in Hu|].
  apply under_cons in Hu as [<- Hu].
  assert (Hstg : under [STAGING_DIR_NAME] (ss_device_id s :: q)).
  { destruct Hq as [[Hq|[Hq|[_ Hq]]]|Hq]; simpl in Hq; apply under_cons in Hq as [Hq _]; congruence. }
  apply under_cons in Hstg as [? _]. congruence.
Qed.

Lemma complete_published fs fs' :
  subtree fs' (published_dir s) = subtree fs (revision_dir s) ->
  complete (file_root s) m dev ses fs -> complete [] m dev ses fs'.
Proof.
  intros Hsub Hc e He. destruct (Hc e He) as (target & bs & Hd & Hf & Hm). exists target, bs.
  split_and!; [done| |done]. destruct (target_in_session s e target Hd) as (c & r & -> & _).
  apply (f_equal (lookup (c :: r))) in Hsub. rewrite !lookup_subtree in Hsub. simpl in *. congruence.
Qed.

Lemma only_listed_published fs fs' :
  subtree fs' (published_dir s) = subtree fs (revision_dir s) ->
  only_listed s m (file_root s) (revision_dir s) fs -> only_listed s m [] (published_dir s) fs'.
Proof.
  intros Hsub Ho q n Hu Hne Hq Hnd. apply under_spec in Hu as [r ->].
  assert (Hr : fs !! (revision_dir s ++ r)%list = Some n).
  { apply (f_equal (lookup r)) in Hsub. rewrite !lookup_subtree in Hsub. congruence. }
  assert (Hrr : (revision_dir s ++ r)%list <> revision_dir s).
  { intros Hx. apply Hne. destruct r; [by rewrite app_nil_r|]. apply (f_equal length) in Hx.
    rewrite length_app in Hx. simpl in Hx. lia. }
  destruct (Ho (revision_dir s ++ r)%list n) as [Hx|[Hx|(e & target & He & Hx & Hd)]]; [apply under_spec; by exists r|done|done|done|..].
  - left. apply under_spec in Hx as [t Ht]. apply under_spec. exists t. simpl in *. congruence.
  - right; left. simpl in *. congruence.
  - right; right. exists e, target. split_and!; [done| |done].
    destruct (target_in_session s e target Hd) as (c & t & -> & _). simpl in *. congruence.
Qed.

End publishing.

(** A session that becomes visible is whole.  When [publish] succeeds
    for a revision that was not visible before, whatever calls failed on the
    way, every file of the manifest is in the visible session with its size and
    digest, every other file there is a marker, and the visible tree is
    recognised as this revision. *)
Lemma publish_whole `{JournalCodec, Sha256, MarkerCodec, Lowercase} s m d d' o :
  staging_ok s -> avoids_marker_temp s m -> is_published s (dk_fs d) = false ->
  publish s m d = (d', Ok o) ->
  complete [] m (ss_device_id s) (ss_session_id s) (dk_fs d') /\
  only_listed s m [] (published_dir s) (dk_fs d') /\
  is_published s (dk_fs d') = true.
Proof.
  intros Hs Hav Hp Hrun. unfold publish, sbind in Hrun.
  destruct (seal_spec s m true (dk_fs d) Hav Hp d) as (_ & _ & Ha & Hr); [done|done|].
  destruct (seal s m d) as [d1 [sealed|e]]; [|done]. cbn [fst snd] in *.
  destruct Hr as (-> & Hc & Ho & Hm). simpl in Hrun.
  assert (Hvis : subtree (dk_fs d1) (published_dir s) = subtree (dk_fs d) (published_dir s)).
  { apply (agree_subtree (seal_paths s)); [done|]. intros q Hq.
    destruct (seal_paths_hidden s _ Hs Hq). apply under_spec. by exists q. }
  assert (Hp1 : is_published s (dk_fs d1) = false).
  { unfold is_published in *. rewrite marker_matches_tree, Hvis, <- marker_matches_tree. done. }
  destruct (publish_instants s Hs true (dk_fs d1) Hp1 d1) as (_ & _ & _ & Hpub); [done|done|].
  rewrite Hrun in Hpub. simpl in Hpub. split_and!.
  - by eapply complete_published.
  - by eapply only_listed_published.
  - unfold is_published. rewrite marker_matches_tree, Hpub, <- marker_matches_tree. done.
Qed.

(** ** The exception *)

(** A staged file whose name is the marker's temporary name is deleted by
    [seal] before the manifest is checked, and the seal is refused. *)
Lemma marker_temp_is_lost `{JournalCodec, Sha256, MarkerCodec, Lowercase} s m e bs past fs :
  e ∈ mf_files m ->
  derive_target_path_for_file (ss_device_id s) (ss_session_id s) (ea_file_id e) (ea_target_relative_path e)
    = Ok [ss_device_id s; ss_session_id s; marker_temp_name] ->
  is_published s fs = false -> is_dir fs (revision_dir s) = true ->
  fs !! (revision_dir s ++ [marker_temp_name])%list = Some (NFile bs) ->
  let '(d', r) := seal s m (mkDisk fs [] past) in
  is_ok r = false /\ dk_fs d' !! (revision_dir s ++ [marker_temp_name])%list = None.
Proof.
  intros He Hd Hp Hdir Hf. set (tmp := (revision_dir s ++ [marker_temp_name])%list) in *.
  assert (Hgoal : always false (fun _ => True) (fun g => g = fs) (seal s m)
    (fun r g => is_ok r = false /\ g !! tmp = None)).
  { unfold seal. apply always_seen. rewrite Hp. apply always_seen. rewrite Hdir. simpl negb. cbn iota.
    apply (always_bind _ _ _ _ _ (fun _ g => g !! tmp = None)); [|intros _].
    - unfold cleanup_marker_temp_files. apply (always_bind _ _ _ _ _ (fun _ g => g !! tmp = None)); [|intros _].
      + eapply always_weaken; [apply (always_best_effort _ _ (fun g => g = fs) (fun g => g !! tmp = None))|done|].
        * unfold durable_temp_path. rewrite push_tmp. fold marker_temp_name. fold tmp.
          assert (Hrm : remove_file fs tmp = Ok (delete tmp fs)).
          { unfold remove_file. rewrite node_at_nonempty, Hf by done. done. }
          apply always_act; [done| |].
          -- intros g k -> [?|Hk]; [done|]. rewrite Hrm in Hk. done.
          -- intros g g' -> Hk. rewrite Hrm in Hk. injection Hk as <-. apply lookup_delete_eq.
        * intros [[]|x] g [Hx Hg]; done.
      + eapply always_weaken; [apply (always_best_effort _ _ (fun g => g !! tmp = None) (fun g => g !! tmp = None))|done|].
        * apply always_act; [done|done|]. intros g g' Hg. unfold remove_file.
          destruct (node_at g _) as [[| |]|]; try done; intros [= <-]; by apply lookup_delete_None; right.
        * intros [[]|x] g [Hx Hg]; done.
    - apply (always_bind _ _ _ _ _ (fun _ _ => False)); [|intros _; by intros d _ []].
      apply always_look. intros g Hg. destruct (verify_manifest s m g) as [[]|x] eqn:Ev; [|done].
      apply verify_manifest_iff in Ev as [Hc _]. destruct (Hc e He) as (target & bs' & Hd' & Hb & _).
      rewrite Hd in Hd'. injection Hd' as <-. unfold tmp in Hg. simpl in *. congruence. }
  destruct (Hgoal (mkDisk fs [] past)) as (_ & _ & Hr); [done|done|].
  by destruct (seal s m (mkDisk fs [] past)).
Qed.

(** ** The demo session *)

#[local] Existing Instance DemoCodec.codec.
#[local] Existing Instance DemoSha.sha.

Lemma demo_avoids : avoids_marker_temp DemoStaging.staging DemoStaging.manifest.
Proof.
  intros e target He Hd. apply list_elem_of_singleton in He as ->. vm_compute in Hd. injection Hd as <-.
  intros [r Hr]%under_spec. discriminate Hr.
Qed.

Lemma sealed_revision_is_complete_witness :
  complete (file_root DemoStaging.staging) DemoStaging.manifest "dev-1" "sess-1" DemoStaging.sealed.
Proof.
  generalize (sealed_revision_is_complete DemoStaging.staging DemoStaging.manifest (mkDisk DemoStaging.assembled [] [])
    demo_avoids ltac:(vm_compute; reflexivity) eq_refl).
  unfold DemoStaging.sealed.
  assert (Hok : is_ok (seal DemoStaging.staging DemoStaging.manifest (mkDisk DemoStaging.assembled [] [])).2 = true)
    by (vm_compute; reflexivity).
  destruct (seal DemoStaging.staging DemoStaging.manifest (mkDisk DemoStaging.assembled [] [])) as [d' [sealed|e]];
    [|discriminate Hok].
  intros [_ H]. destruct (H sealed eq_refl) as (_ & _ & Hc & _). exact Hc.
Defined.
