(* ===== verification/Selected.v ===== *)
(** * Selected: publication of selected files (library/staging.rs)

[SealedRevision::publish_selected] copies the requested files of a sealed
revision into the visible session one by one, keeping every sibling, and
writes the selected marker last; [commit_staged_session]
(library/download.rs) chooses between the two kinds of publication. *)

From Stdlib Require Import NArith Lia Ascii String.
From stdpp Require Import base numbers list strings gmap.
From S2P Require Import Prelude Domain Files Journal Artifact Download Fault Disk Staging.
From S2P Require Import Publish Seal.

Local Open Scope string_scope.

(** [prepare_target_parent] on a disk: one call. *)
Definition prepare_parent `{Lowercase} (target : Path) : sm Disk DownloadError unit := fun d =>
  let '(fs, r) := prepare_target_parent (dk_fs d) target in
  (mkDisk fs (dk_errors d) (dk_past d ++ [dk_fs d])%list, rmap_err of_prepare r).

Definition refuse_link (p : Path) : sm Disk DownloadError unit :=
  look (fun fs => rmap_err DPathSafety (reject_symlink fs p)).

(** [OpenOptions::create_new]. *)
Definition create_new (p : Path) (fs : FS) : result IoKind FS :=
  match node_at fs p with
  | None => Ok (<[p := NFile []]> fs)
  | Some _ => Err IoAlreadyExists
  end.

(** [copy_file_durably] (library/staging.rs:1362-1390). *)
Definition copy_file_durably (source temp : Path) : sm Disk DownloadError unit :=
  do! refuse_link source then!
  let! content := look (fun fs => match node_at fs source with
    | Some (NFile bs) => Ok bs
    | Some _ => Err (DInvalidPlan "staged source is not a regular file")
    | None => Err (DIo source IoNotFound)
    end) in
  do! create_dirs_at (path_parent temp) then!
  do! refuse_link temp then!
  do! io temp (create_new temp) then!
  do! io temp (fun fs => Ok (write_chunk fs temp 0 content)) then!
  sync_file temp.

(** [replace_file_durably] (library/staging.rs:1452-1525). *)
Definition replace_file_durably (bytes : list byte) (p backup : Path) : sm Disk DownloadError unit :=
  let parent := path_parent p in
  let temp := durable_temp_path p in
  do! create_dirs_at parent then!
  do! refuse_link p then!
  do! remove_any temp then!
  do! io temp (create_new temp) then!
  do! io temp (fun fs => Ok (write_chunk fs temp 0 bytes)) then!
  do! sync_file temp then!
  let! had_old := look (fun fs => match node_at fs p with
    | Some (NFile _) => Ok true
    | Some _ => Err (DInvalidPlan "selected marker path is not a regular file")
    | None => Ok false
    end) in
  do! (if (had_old : bool) then
         do! remove_any backup then!
         do! create_dirs_at (path_parent backup) then!
         do! io p (rename_node p backup) then!
         do! fsync_dir parent then!
         fsync_dir (path_parent backup)
       else sret tt) then!
  let! renamed := attempt (act (rename_node temp p)) in
  match renamed with
  | Err error =>
      let! can := peek (fun fs => had_old && entry_exists fs backup) in
      do! (if (can : bool) then
             do! io p (rename_node backup p) then! best_effort (fsync_dir parent)
           else sret tt) then!
      do! best_effort (act (fun fs => remove_file fs temp)) then!
      sfail (DIo p error)
  | Ok _ =>
      do! fsync_dir parent then!
      if (had_old : bool) then best_effort (remove_any backup) else sret tt
  end.

Section selected.
Context `{JournalCodec, Sha256, MarkerCodec, Lowercase}.

(** [verify_selected_temp] (library/staging.rs:1392-1420). *)
Definition verify_selected_temp (temp : Path) (expected : ExpectedArtifact) (revision : string) (fs : FS)
    : result PublishError unit :=
  let wrong_size := Err (PubManifestMismatch revision [MpTempSize (ea_file_id expected)]) in
  match node_at fs temp with
  | None | Some (NSymlink None) => Err (PubDownload (DIo temp IoNotFound))
  | Some NDir => wrong_size
  | Some (NFile bs) | Some (NSymlink (Some bs)) =>
      if negb (blen bs =? ea_expected_size expected)%N then wrong_size else
      match ea_expected_sha256_hex expected with
      | None => Ok tt
      | Some expected_hash =>
          let? actual := rmap_err (fun k => PubDownload (DIo temp k)) (sha256_of_file fs temp) in
          if eq_ignore_ascii_case actual expected_hash then Ok tt
          else Err (PubManifestMismatch revision [MpTempDigest (ea_file_id expected) actual expected_hash])
      end
  end.

(** [SessionStaging::cleanup_selected_file_artifacts] (library/staging.rs:1291-1294). *)
Definition cleanup_selected_file_artifacts (s : SessionStaging) (index : nat) (target : Path)
    : sm Disk PublishError unit :=
  do! best_effort (act (fun fs => remove_file fs (selected_temp_path target (ss_revision s) index))) then!
  best_effort (remove_any (selected_trash_path s index)).

(** [SessionStaging::cleanup_selected_staging] (library/staging.rs:1279-1289). *)
Definition cleanup_selected_staging (s : SessionStaging) : sm Disk PublishError unit :=
  let trash_root := (staging_root ++ [SELECTED_TRASH_DIR_NAME])%list in
  do! best_effort (remove_tree (revision_dir s)) then!
  do! best_effort (prune_empty_parents (revision_dir s) staging_root) then!
  do! best_effort (remove_tree (selected_trash_dir s)) then!
  do! best_effort (prune_empty_parents (selected_trash_dir s) trash_root) then!
  do! best_effort (act (remove_dir trash_root)) then!
  best_effort (act (remove_dir staging_root)).

(** [SessionStaging::replace_selected_marker] (library/staging.rs:1296-1306). *)
Definition replace_selected_marker (s : SessionStaging) (bytes : list byte) : sm Disk DownloadError unit :=
  let marker_path := (published_dir s ++ [SELECTED_MARKER_NAME])%list in
  do! prepare_parent marker_path then!
  do! refuse_link (published_dir s) then!
  replace_file_durably bytes marker_path (selected_marker_trash_path s).

(** [SealedRevision::publish_selected_file, old target] (library/staging.rs:1149-1163):
    a target moved aside by an attempt that died is put back first. *)
Definition restore_target (s : SessionStaging) (index : nat) (target : Path) : sm Disk DownloadError unit :=
  let trash := selected_trash_path s index in
  let! lost := peek (fun fs => negb (entry_exists fs target) && entry_exists fs trash) in
  if (lost : bool) then
    do! create_dirs_at (path_parent trash) then!
    do! io target (rename_node trash target) then!
    do! fsync_dir (path_parent target) then!
    fsync_dir (path_parent trash)
  else sret tt.

(** [SealedRevision::publish_selected_file, install] (library/staging.rs:1168-1214). *)
Definition install_target (s : SessionStaging) (index : nat) (target temp : Path)
    : sm Disk DownloadError unit :=
  let parent := path_parent target in
  let trash := selected_trash_path s index in
  let! had_target := peek (fun fs => entry_exists fs target) in
  do! (if (had_target : bool) then
         do! refuse_link target then!
         do! remove_any trash then!
         do! create_dirs_at (path_parent trash) then!
         do! io target (rename_node target trash) then!
         do! fsync_dir parent then!
         fsync_dir (path_parent trash)
       else sret tt) then!
  let! renamed := attempt (act (rename_node temp target)) in
  match renamed with
  | Err error =>
      let! can := peek (fun fs => had_target && entry_exists fs trash) in
      do! (if (can : bool) then
             do! io target (rename_node trash target) then!
             do! best_effort (fsync_dir parent) then!
             best_effort (fsync_dir (path_parent trash))
           else sret tt) then!
      do! best_effort (act (fun fs => remove_file fs temp)) then!
      sfail (DIo target error)
  | Ok _ => do! fsync_dir parent then! remove_any trash
  end.

(** [SealedRevision::publish_selected_file] (library/staging.rs:1094-1215). *)
Definition publish_selected_file (s : SessionStaging) (index : nat) (expected : ExpectedArtifact)
    : sm Disk PublishError unit :=
  let! relative := slift (rmap_err pub_path
    (derive_target_path_for_file (ss_device_id s) (ss_session_id s) (ea_file_id expected)
       (ea_target_relative_path expected))) in
  let source := (file_root s ++ relative)%list in
  let target := relative in
  do! pub (prepare_parent target) then!
  do! pub (refuse_link source) then!
  let! done := peek (fun fs => is_verified (inspect fs (ss_device_id s) (ss_session_id s) expected)) in
  if (done : bool) then cleanup_selected_file_artifacts s index target else
  do! look (fun fs => match node_at fs target with
    | Some (NSymlink _) => Err (pub_path (PsSymlinkNotAllowed target))
    | Some NDir => Err (PubDownload (DInvalidPlan "selected target is not a regular file"))
    | Some (NFile _) | None => Ok tt
    end) then!
  let temp := selected_temp_path target (ss_revision s) index in
  do! pub (remove_any temp) then!
  do! pub (restore_target s index target) then!
  do! pub (copy_file_durably source temp) then!
  do! look (verify_selected_temp temp expected (ss_revision s)) then!
  pub (install_target s index target temp).

Fixpoint publish_selected_files (s : SessionStaging) (index : nat) (files : list ExpectedArtifact)
    : sm Disk PublishError unit :=
  match files with
  | [] => sret tt
  | expected :: files' =>
      do! publish_selected_file s index expected then! publish_selected_files s (S index) files'
  end.

(** [SealedRevision::publish_selected] (library/staging.rs:1029-1092). *)
Definition publish_selected_sealed (s : SessionStaging) (manifest : SessionManifest)
    : sm Disk PublishError PublishOutcome :=
  let! complete := peek (selected_is_complete s manifest) in
  if (complete : bool) then
    do! cleanup_selected_staging s then! sret (PoAlreadyPublished (ss_revision s))
  else
    let! staged := peek (fun fs => is_dir fs (revision_dir s)) in
    if negb staged then sfail (PubNothingStaged (ss_revision s) (revision_dir s)) else
    let! sealed := peek (fun fs => selected_marker_matches_manifest_at s fs (revision_dir s) manifest) in
    if negb sealed then sfail (PubNotSealed (ss_revision s)) else
    do! look (verify_manifest s manifest) then!
    do! publish_selected_files s 0 (mf_files manifest) then!
    do! pub (replace_selected_marker s (selected_encode (selected_marker s manifest))) then!
    do! pub (fsync_dir (path_parent (published_dir s))) then!
    do! cleanup_selected_staging s then!
    sret (PoPublished (ss_revision s)).

(** [SessionStaging::publish_selected] (library/staging.rs:722-727). *)
Definition publish_selected (s : SessionStaging) (manifest : SessionManifest)
    : sm Disk PublishError PublishOutcome :=
  let! sealed := seal_selected s manifest in publish_selected_sealed (sr_staging sealed) manifest.

(** [LocalLibraryEntry] (library/download.rs:1458-1463): its only
    state is [Committed]. *)
Record LocalLibraryEntry := mkEntry {
  le_device_id : string;
  le_session_id : string;
  le_files : list VerifiedFile;
}.

Context `{Display PublishError, Display PathSafetyError}.
Context (verify : list byte -> list byte -> list byte -> result VerifyError unit).

(** [commit_staged_session] (library/download.rs:1474-1522). *)
Definition commit_staged_session (s : SessionStaging) (device_id session_id : string)
    (files : list VerifiedFile) (manifest : SessionManifest) (payload signature public_key : list byte)
    (scope : PublicationScope) : sm Disk DownloadError LocalLibraryEntry :=
  do! slift (rmap_err DVerification (verify payload signature public_key)) then!
  let expected_revision := from_publication payload in
  if negb (String.eqb (ss_revision s) expected_revision)
  then sfail (DInvalidPlan ("staging revision " ++ ss_revision s ++ " does not match publication revision "
                            ++ expected_revision))
  else if negb (String.eqb (ss_device_id s) device_id) || negb (String.eqb (ss_session_id s) session_id)
          || negb (String.eqb (mf_device_id manifest) device_id)
          || negb (String.eqb (mf_session_id manifest) session_id)
  then sfail (DInvalidPlan "staged publication identity does not match its session manifest")
  else
    do! prepare s then!
    do! serr publish_download_error
          (match scope with
           | FullSession => publish s manifest
           | SelectedFiles => publish_selected s manifest
           end) then!
    sret (mkEntry device_id session_id files).

End selected.

(** ** What publication spares *)

(** Outside [K] nothing is lost or replaced; directories may appear. *)
Definition spares (K : Path -> Prop) (fs0 fs : FS) : Prop :=
  forall q, ~ K q -> fs !! q = fs0 !! q \/ (fs0 !! q = None /\ fs !! q = Some NDir).

Lemma spares_refl K fs : spares K fs fs.
Proof. intros q _. by left. Qed.

Lemma spares_trans K fs1 fs2 fs3 : spares K fs1 fs2 -> spares K fs2 fs3 -> spares K fs1 fs3.
Proof.
  intros H1 H2 q Hq. destruct (H1 q Hq) as [E1|[N1 D1]], (H2 q Hq) as [E2|[N2 D2]];
    [left; congruence|right; split; congruence|right; split; congruence|congruence].
Qed.

Lemma spares_weaken (K K' : Path -> Prop) fs1 fs2 :
  (forall q, K q -> K' q) -> spares K fs1 fs2 -> spares K' fs1 fs2.
Proof. intros HK H q Hq. apply H. auto. Qed.

Lemma agree_spares K fs fs' : agree K fs fs' -> spares K fs fs'.
Proof. intros H q Hq. left. by apply H. Qed.

Lemma spares_keeps K fs fs' q n : spares K fs fs' -> ~ K q -> fs !! q = Some n -> fs' !! q = Some n.
Proof. intros H Hq Hn. destruct (H q Hq) as [->|[? _]]; congruence. Qed.

Section spares.
Context (errors : bool) (K : Path -> Prop) (fs0 : FS).
Abbreviation kept := (spares K fs0).
Abbreviation keeps c := (always errors kept kept c (fun _ => kept)).

Lemma act_spares f : (forall fs fs', f fs = Ok fs' -> spares K fs fs') -> keeps (act f).
Proof. intros H. apply always_act; eauto. intros fs fs' Hk Hf. eapply spares_trans; eauto. Qed.

Lemma agree_keeps {E A : Type} (c : sm Disk E A) :
  (forall fs, always errors (agree K fs) (agree K fs) c (fun _ => agree K fs)) -> keeps c.
Proof.
  intros Hc d Hd Hp. destruct (Hc (dk_fs d) d Hd (agree_refl _ _)) as (? & (l & El & Hl) & ?).
  assert (Hs : forall fs, agree K (dk_fs d) fs -> kept fs)
    by (intros fs Ha; eapply spares_trans; [exact Hp|by apply agree_spares]).
  split_and!; [done| |by apply Hs]. exists l. split; [done|]. eapply Forall_impl; [exact Hl|done].
Qed.

Lemma bind_spares {E A B : Type} (c : sm Disk E A) (k : A -> sm Disk E B) :
  keeps c -> (forall a, keeps (k a)) -> keeps (sbind c k).
Proof.
  intros Hc Hk. apply (always_bind _ _ _ _ _ (fun _ => kept)); [|done].
  eapply always_weaken; [exact Hc|done|]. by intros [a|e] fs.
Qed.

Lemma ret_spares {E A : Type} (a : A) : keeps (sret (E := E) a).
Proof. by apply always_ret. Qed.
Lemma fail_spares {E A : Type} (e : E) : keeps (sfail (A := A) e).
Proof. by apply always_fail. Qed.
Lemma lift_spares {E A : Type} (r : result E A) : keeps (slift r).
Proof. by apply always_lift. Qed.
Lemma peek_spares {E A : Type} (f : FS -> A) : keeps (peek (E := E) f).
Proof. by apply always_peek. Qed.
Lemma look_spares {E A : Type} (f : FS -> result E A) : keeps (look f).
Proof. by apply always_look. Qed.
Lemma serr_spares {E F A : Type} (f : E -> F) (c : sm Disk E A) : keeps c -> keeps (serr f c).
Proof. intros Hc. apply (always_serr errors kept kept f c (fun _ => kept)). exact Hc. Qed.
Lemma attempt_spares {E F A : Type} (c : sm Disk E A) : keeps c -> keeps (attempt (F := F) c).
Proof. intros Hc. by apply always_attempt. Qed.
Lemma best_effort_spares {E F A : Type} (c : sm Disk E A) : keeps c -> keeps (best_effort (F := F) c).
Proof. intros Hc. apply bind_spares; [by apply attempt_spares|intros r; apply ret_spares]. Qed.

Lemma fsync_spares p : keeps (fsync_dir p).
Proof. apply agree_keeps. intros fs. apply fsync_keeps. Qed.
Lemma sync_file_spares p : keeps (sync_file p).
Proof. apply agree_keeps. intros fs. apply sync_file_keeps. Qed.
Lemma remove_tree_spares p : (forall q, under p q -> K q) -> keeps (remove_tree p).
Proof. intros Hp. apply agree_keeps. intros fs. by apply remove_tree_keeps. Qed.
Lemma rename_spares from to :
  (forall q, under from q -> K q) -> (forall q, under to q -> K q) -> keeps (act (rename_node from to)).
Proof.
  intros Hf Ht. apply agree_keeps. intros fs. apply act_keeps. intros fs1 fs2 Ha Hr.
  destruct (renamed_is_moved from from to fs1 fs2 eq_refl Hr) as [-> _]. by apply agree_move.
Qed.
Lemma prune_spares p stop_at : (forall q, under stop_at q -> K q) -> keeps (prune_empty_parents p stop_at).
Proof. intros Hp. apply agree_keeps. intros fs. by apply prune_keeps. Qed.

Lemma remove_dir_spares p : K p -> keeps (act (remove_dir p)).
Proof.
  intros Hp. apply act_spares. intros fs fs'. unfold remove_dir.
  destruct (node_at fs p) as [[| |]|]; try done. destruct (has_children fs p); [done|]. intros [= <-].
  by apply agree_spares, agree_delete; [apply agree_refl|].
Qed.
Lemma remove_file_spares p : K p -> keeps (act (fun fs => remove_file fs p)).
Proof.
  intros Hp. apply act_spares. intros fs fs'. unfold remove_file.
  destruct (node_at fs p) as [[| |]|]; try done; intros [= <-];
    by apply agree_spares, agree_delete; [apply agree_refl|].
Qed.
Lemma create_new_spares p : K p -> keeps (act (create_new p)).
Proof.
  intros Hp. apply act_spares. intros fs fs'. unfold create_new. destruct (node_at fs p); [done|].
  intros [= <-]. by apply agree_spares, agree_insert; [apply agree_refl|].
Qed.
Lemma write_chunk_spares p off bytes : K p -> keeps (act (fun fs => Ok (write_chunk fs p off bytes))).
Proof.
  intros Hp. apply act_spares. intros fs fs' He.
  assert (fs' = write_chunk fs p off bytes) as -> by congruence. unfold write_chunk.
  destruct (fs !! p) as [[| |]|]; try apply spares_refl.
  by apply agree_spares, agree_insert; [apply agree_refl|].
Qed.

Lemma make_dirs_spares done rest : keeps (make_dirs done rest).
Proof.
  revert done. induction rest as [|c rest IH]; intros done; [apply ret_spares|]. simpl.
  apply bind_spares; [apply peek_spares|]. intros [[| |]|]; [apply fail_spares|apply IH|apply fail_spares|].
  apply bind_spares; [|intros _; apply IH]. apply act_spares. intros fs fs'. unfold create_dir.
  assert (Hne : (done ++ [c])%list <> []) by by destruct done.
  rewrite node_at_nonempty by done. destruct (fs !! _) eqn:En; [done|]. intros [= <-] q _.
  destruct (decide (done ++ [c] = q)%list) as [<-|Hq]; [right|left].
  - split; [done|apply lookup_insert_eq].
  - by rewrite lookup_insert_ne.
Qed.

Lemma create_dirs_spares p : keeps (create_dirs_at p).
Proof. apply serr_spares, make_dirs_spares. Qed.

Lemma remove_any_spares p : (forall q, under p q -> K q) -> keeps (remove_any p).
Proof.
  intros Hp. assert (K p) by (apply Hp, under_refl). unfold remove_any, io.
  apply bind_spares; [apply peek_spares|].
  intros [[| |]|]; [by apply serr_spares, remove_file_spares|by apply serr_spares, remove_tree_spares|
    by apply serr_spares, remove_file_spares|apply ret_spares].
Qed.

Lemma prepare_parent_spares `{Lowercase} target : target <> [] -> keeps (prepare_parent target).
Proof.
  intros Ht d Hd Hp. unfold prepare_parent.
  destruct (prepare_target_parent (dk_fs d) target) as [fs r] eqn:Ep.
  apply prepare_target_parent_spec in Ep as [Hnew _]; [|done]. simpl. split_and!; [done| |].
  - exists [dk_fs d]. split; [done|by constructor].
  - eapply spares_trans; [exact Hp|]. intros q _. destruct (Hnew q) as [?|(? & ? & _)]; auto.
Qed.

End spares.

Create HintDb spares discriminated.
#[export] Hint Resolve ret_spares fail_spares lift_spares peek_spares look_spares serr_spares attempt_spares
  best_effort_spares fsync_spares sync_file_spares make_dirs_spares create_dirs_spares : spares.

(** Walks through a computation whose calls are all spared. *)
Ltac walk :=
  lazymatch goal with
  | |- always _ _ _ (sbind _ _) _ => apply bind_spares; [walk|intros ?; walk]
  | |- always _ _ _ (if ?b then _ else _) _ => destruct b; walk
  | |- always _ _ _ (match ?r with Ok _ => _ | Err _ => _ end) _ => destruct r; walk
  | |- always _ _ _ (pub _) _ => apply serr_spares; walk
  | |- always _ _ _ (serr _ _) _ => apply serr_spares; walk
  | |- always _ _ _ (io _ _) _ => apply serr_spares; walk
  | |- always _ _ _ (attempt _) _ => apply attempt_spares; walk
  | |- always _ _ _ (best_effort _) _ => apply best_effort_spares; walk
  | |- always _ _ _ (look _) _ => apply look_spares
  | |- always _ _ _ (refuse_link _) _ => apply look_spares
  | |- _ => solve [eauto with spares]
  end.
#[export] Hint Resolve remove_tree_spares rename_spares prune_spares remove_dir_spares remove_file_spares
  create_new_spares write_chunk_spares remove_any_spares prepare_parent_spares : spares.

Section files.
Context `{JournalCodec, Sha256, MarkerCodec, Lowercase}.
Context (s : SessionStaging) (Hs : staging_ok s).

(** Where the copy of one file may write. *)
Definition file_paths (index : nat) (target q : Path) : Prop :=
  under target q \/ under (selected_temp_path target (ss_revision s) index) q \/ under [STAGING_DIR_NAME] q.

Lemma hidden p q : under (STAGING_DIR_NAME :: p) q -> under [STAGING_DIR_NAME] q.
Proof.
  destruct q as [|a q]; [by intros Hq%not_under_nil|]. intros [-> _]%under_cons. apply under_cons.
  split; [done|apply under_nil].
Qed.

Lemma copy_spares errors (K : Path -> Prop) fs0 source temp :
  K temp ->
  always errors (spares K fs0) (spares K fs0) (copy_file_durably source temp) (fun _ => spares K fs0).
Proof. intros Ht. unfold copy_file_durably. walk. Qed.

Lemma restore_spares errors (K : Path -> Prop) fs0 index target :
  (forall q, under target q -> K q) -> (forall q, under [STAGING_DIR_NAME] q -> K q) ->
  always errors (spares K fs0) (spares K fs0) (restore_target s index target) (fun _ => spares K fs0).
Proof.
  intros Ht Hh. assert (Htr : forall q, under (selected_trash_path s index) q -> K q)
    by (intros q Hq; by apply Hh, (hidden _ q Hq)).
  unfold restore_target. walk.
Qed.

Lemma install_spares errors (K : Path -> Prop) fs0 index target temp :
  (forall q, under target q -> K q) -> (forall q, under temp q -> K q) ->
  (forall q, under [STAGING_DIR_NAME] q -> K q) ->
  always errors (spares K fs0) (spares K fs0) (install_target s index target temp) (fun _ => spares K fs0).
Proof.
  intros Ht Htmp Hh. assert (Htr : forall q, under (selected_trash_path s index) q -> K q)
    by (intros q Hq; by apply Hh, (hidden _ q Hq)).
  assert (K temp) by (apply Htmp, under_refl).
  unfold install_target. walk.
Qed.

Lemma publish_file_spares errors fs0 index e target :
  derive_target_path_for_file (ss_device_id s) (ss_session_id s) (ea_file_id e) (ea_target_relative_path e) = Ok target ->
  let K := file_paths index target in
  always errors (spares K fs0) (spares K fs0) (publish_selected_file s index e) (fun _ => spares K fs0).
Proof.
  intros Hd K. assert (Ht : forall q, under target q -> K q) by (by left).
  assert (Htmp : forall q, under (selected_temp_path target (ss_revision s) index) q -> K q) by (by right; left).
  assert (Hh : forall q, under [STAGING_DIR_NAME] q -> K q) by (by right; right).
  assert (Hne : target <> []) by (by apply derive_target_path_spec in Hd as (_ & _ & _ & _ & -> & _)).
  assert (Htr : forall q, under (selected_trash_path s index) q -> K q)
    by (intros q Hq; by apply Hh, (hidden _ q Hq)).
  assert (K (selected_temp_path target (ss_revision s) index)) by (apply Htmp, under_refl).
  unfold publish_selected_file. rewrite Hd. simpl rmap_err.
  apply (always_bind _ _ _ _ _ (fun relative fs => relative = target /\ spares K fs0 fs)); [by apply always_lift|].
  intros relative. apply always_assume. intros ->.
  apply bind_spares; [walk|intros _]. apply bind_spares; [walk|intros _].
  apply bind_spares; [walk|intros [|]]; [unfold cleanup_selected_file_artifacts; walk|].
  apply bind_spares; [walk|intros _]. apply bind_spares; [walk|intros _].
  apply bind_spares; [by apply serr_spares, restore_spares|intros _].
  apply bind_spares; [by apply serr_spares, copy_spares|intros _].
  apply bind_spares; [walk|intros _]. by apply serr_spares, install_spares.
Qed.

Lemma publish_files_spares errors (K : Path -> Prop) fs0 files index :
  (forall i e target, files !! i = Some e ->
     derive_target_path_for_file (ss_device_id s) (ss_session_id s) (ea_file_id e) (ea_target_relative_path e)
       = Ok target -> forall q, file_paths (index + i) target q -> K q) ->
  always errors (spares K fs0) (spares K fs0) (publish_selected_files s index files) (fun _ => spares K fs0).
Proof.
  revert index. induction files as [|e files IH]; intros index HK; simpl; [apply ret_spares|].
  apply bind_spares; [|intros _; apply IH].
  - destruct (derive_target_path_for_file (ss_device_id s) (ss_session_id s) (ea_file_id e)
      (ea_target_relative_path e)) as [target|err] eqn:Ed.
    + intros d Hd Hp. destruct (publish_file_spares errors (dk_fs d) index e target Ed d Hd (spares_refl _ _))
        as (H3 & (l & El & Hl) & H5).
      assert (Hin : forall fs, spares (file_paths index target) (dk_fs d) fs -> spares K fs0 fs).
      { intros fs Hf. eapply spares_trans; [exact Hp|]. eapply spares_weaken; [|exact Hf].
        intros q. rewrite <- (Nat.add_0_r index). by apply (HK 0 e target). }
      split_and!; [done| |by apply Hin]. exists l. split; [done|]. by eapply Forall_impl.
    + unfold publish_selected_file. rewrite Ed. intros d Hd Hp. simpl.
      split_and!; [done|apply passes_refl|done].
  - intros i e' target Hi Hd q. rewrite Nat.add_succ_comm. by apply (HK (S i) e' target).
Qed.


Lemma cleanup_hidden_spares errors (K : Path -> Prop) fs0 :
  (forall q, under [STAGING_DIR_NAME] q -> K q) ->
  always errors (spares K fs0) (spares K fs0) (cleanup_selected_staging s) (fun _ => spares K fs0).
Proof.
  intros Hk. assert (Hh : forall p q, under (STAGING_DIR_NAME :: p) q -> K q)
    by (intros p q Hq; by apply Hk, (hidden p)).
  assert (K staging_root) by apply Hk, under_refl.
  assert (K (staging_root ++ [SELECTED_TRASH_DIR_NAME])%list)
    by (apply (Hh [SELECTED_TRASH_DIR_NAME]), under_refl).
  assert (H1' : forall q, under (revision_dir s) q -> K q) by apply Hh.
  assert (H2' : forall q, under (selected_trash_dir s) q -> K q) by apply Hh.
  assert (H3' : forall q, under staging_root q -> K q) by apply Hh.
  assert (H4' : forall q, under (staging_root ++ [SELECTED_TRASH_DIR_NAME])%list q -> K q) by apply Hh.
  unfold cleanup_selected_staging. walk.
Qed.

Lemma replace_marker_writes errors (K : Path -> Prop) fs0 bytes :
  let marker := (published_dir s ++ [SELECTED_MARKER_NAME])%list in
  (forall q, under marker q -> K q) -> (forall q, under (durable_temp_path marker) q -> K q) ->
  (forall q, under [STAGING_DIR_NAME] q -> K q) ->
  always errors (spares K fs0) (spares K fs0) (replace_selected_marker s bytes) (fun _ => spares K fs0).
Proof.
  intros marker Hm Ht Hh.
  assert (Hb : forall q, under (selected_marker_trash_path s) q -> K q)
    by (intros q Hq; by apply Hh, (hidden _ q Hq)).
  assert (K marker) by (apply Hm, under_refl). assert (K (durable_temp_path marker)) by (apply Ht, under_refl).
  assert (marker <> []) by done.
  unfold replace_selected_marker, replace_file_durably. fold marker. walk.
Qed.

(** Where the publication of a selection may write. *)
Definition selection_paths (m : SessionManifest) (q : Path) : Prop :=
  under [STAGING_DIR_NAME] q \/
  (exists i e target, mf_files m !! i = Some e /\
     derive_target_path_for_file (ss_device_id s) (ss_session_id s) (ea_file_id e) (ea_target_relative_path e)
       = Ok target /\ file_paths i target q) \/
  under (published_dir s ++ [SELECTED_MARKER_NAME])%list q \/
  under (published_dir s ++ [String.append SELECTED_MARKER_NAME ".tmp"])%list q.

Section whole.
Context (errors : bool) (m : SessionManifest) (fs0 : FS).
Abbreviation K := (selection_paths m).
Abbreviation keeps c := (always errors (spares K fs0) (spares K fs0) c (fun _ => spares K fs0)).

Lemma hidden_is_ours p q : under (STAGING_DIR_NAME :: p) q -> K q.
Proof. intros Hq. left. by apply (hidden p). Qed.

Lemma cleanup_selected_spares : keeps (cleanup_selected_staging s).
Proof. apply cleanup_hidden_spares. by left. Qed.

Lemma write_durably_spares p bytes :
  (forall q, under p q -> K q) -> (forall q, under (path_push_suffix p ".tmp") q -> K q) ->
  keeps (write_durably p bytes).
Proof.
  intros Hp Ht. assert (K p) by (apply Hp, under_refl).
  assert (K (path_push_suffix p ".tmp")) by (apply Ht, under_refl).
  assert (Hopen : keeps (act (fun fs => open_write fs (path_push_suffix p ".tmp") true))).
  { apply act_spares. intros fs fs'. unfold open_write. destruct (node_at fs _) as [[| |]|]; try done;
      intros [= <-]; by apply agree_spares, agree_insert; [apply agree_refl|]. }
  unfold write_durably. walk.
Qed.

Lemma seal_selected_spares : keeps (seal_selected s m).
Proof.
  set (marker := (revision_dir s ++ [SELECTED_MARKER_NAME])%list).
  assert (Hm : forall q, under marker q -> K q) by (intros q; apply hidden_is_ours).
  assert (Ht : forall q, under (path_push_suffix marker ".tmp") q -> K q).
  { unfold marker. intros q. rewrite push_tmp. apply hidden_is_ours. }
  assert (Ht2 : K (path_push_suffix (revision_dir s ++ [REVISION_MARKER_NAME])%list ".tmp")).
  { rewrite push_tmp. eapply hidden_is_ours, under_refl. }
  assert (K marker) by (apply Hm, under_refl). assert (K (path_push_suffix marker ".tmp")) by (apply Ht, under_refl).
  assert (Hw : forall bytes, keeps (pub (write_durably marker bytes)))
    by (intros bytes; by apply serr_spares, write_durably_spares).
  unfold seal_selected. fold marker.
  apply bind_spares; [walk|intros _]. apply bind_spares; [walk|intros [|]]; [walk|].
  apply bind_spares; [walk|intros [|]]; simpl negb; cbn iota; [|walk].
  apply bind_spares; [unfold cleanup_marker_temp_files, durable_temp_path; walk|intros _].
  apply bind_spares; [walk|intros _]. apply bind_spares; [|intros _].
  - unfold rewrite_internal_marker. apply bind_spares; [walk|intros [[| |]|]]; [|walk..|apply Hw].
    apply bind_spares; [walk|intros _]. apply bind_spares; [walk|intros _]. apply Hw.
  - apply bind_spares; [|intros _; walk]. apply serr_spares, agree_keeps. intros fs. apply tree_dirs_sync_keeps.
Qed.

Lemma replace_marker_spares bytes : keeps (replace_selected_marker s bytes).
Proof.
  apply replace_marker_writes.
  - intros q Hq. right; right. by left.
  - unfold durable_temp_path. intros q. rewrite push_tmp. by right; right; right.
  - by left.
Qed.

Lemma seal_selected_self d d' sealed : seal_selected s m d = (d', Ok sealed) -> sealed = mkSealed s.
Proof.
  unfold seal_selected. rewrite sbind_ok. intros (d1 & [] & _ & Hrun). apply sbind_ok in Hrun as (d2 & [|] & _ & Hrun).
  { by apply sret_ok in Hrun as [_ <-]. }
  apply sbind_ok in Hrun as (d3 & [|] & _ & Hrun); simpl negb in Hrun; cbn iota in Hrun; [|done].
  apply sbind_ok in Hrun as (d4 & u1 & _ & Hrun). apply sbind_ok in Hrun as (d5 & u2 & _ & Hrun).
  apply sbind_ok in Hrun as (d6 & u3 & _ & Hrun). apply sbind_ok in Hrun as (d7 & u4 & _ & Hrun).
  by apply sret_ok in Hrun as [_ <-].
Qed.

Lemma publish_selected_spares : keeps (publish_selected s m).
Proof.
  assert (Hc := cleanup_selected_spares). assert (Hr := replace_marker_spares).
  assert (Hf : keeps (publish_selected_files s 0 (mf_files m))).
  { apply publish_files_spares. intros i e target Hi Hd q Hq. right; left. by exists i, e, target. }
  unfold publish_selected.
  apply (always_bind _ _ _ _ _ (fun sealed fs => sealed = mkSealed s /\ spares K fs0 fs)).
  { intros d Hd Hp. destruct (seal_selected_spares d Hd Hp) as (H3 & H4 & H5).
    destruct (seal_selected s m d) as [d' [sealed|e]] eqn:Es; simpl in *; [|by split_and!].
    by split_and!; [| |eapply seal_selected_self|]. }
  intros sealed. apply always_assume. intros ->. unfold publish_selected_sealed. simpl sr_staging.
  apply bind_spares; [walk|intros [|]]; [walk|].
  apply bind_spares; [walk|intros [|]]; simpl negb; cbn iota; [|walk].
  apply bind_spares; [walk|intros [|]]; simpl negb; cbn iota; [|walk]. walk.
Qed.
End whole.
End files.

(** ** What the copy of one file achieves *)

Section result.
Context `{JournalCodec, Sha256, MarkerCodec, Lowercase}.
Context (s : SessionStaging) (Hs : staging_ok s) (errors : bool).
Abbreviation anywhere := (fun _ : FS => True).
Abbreviation when_ok X := (fun r (fs : FS) => match r with Ok _ => X fs | Err _ => True end).

(** A computation that spares [K], run where [X] holds of entries outside it. *)
Lemma spared_holds {E A : Type} (K : Path -> Prop) (X : FS -> Prop) (c : sm Disk E A) :
  (forall fs, always errors (spares K fs) (spares K fs) c (fun _ => spares K fs)) ->
  (forall fs fs', X fs -> spares K fs fs' -> X fs') -> always errors anywhere X c (fun _ => X).
Proof.
  intros Hc HX d Hd Hp. destruct (Hc (dk_fs d) d Hd (spares_refl _ _)) as (? & (l & El & _) & ?).
  split_and!; [done|exists l; split; [done|by apply Forall_forall]|by eapply HX].
Qed.

(** A computation of which nothing is asked. *)
Lemma anyhow {E A : Type} (c : sm Disk E A) :
  (forall fs, always errors (spares (fun _ => True) fs) (spares (fun _ => True) fs) c
     (fun _ => spares (fun _ => True) fs)) -> always errors anywhere anywhere c (when_ok anywhere).
Proof.
  intros Hc. eapply always_weaken; [by apply (spared_holds (fun _ => True) anywhere)|done|by intros [a|e]].
Qed.

Lemma bind_anyhow {E A B : Type} (c : sm Disk E A) (k : A -> sm Disk E B) X :
  (forall fs, always errors (spares (fun _ => True) fs) (spares (fun _ => True) fs) c
     (fun _ => spares (fun _ => True) fs)) ->
  (forall a, always errors anywhere anywhere (k a) (when_ok X)) ->
  always errors anywhere anywhere (sbind c k) (when_ok X).
Proof. intros Hc. apply (always_bind _ _ _ _ _ (fun _ => anywhere)). by apply anyhow. Qed.

Lemma target_shape e target :
  derive_target_path_for_file (ss_device_id s) (ss_session_id s) (ea_file_id e) (ea_target_relative_path e) = Ok target ->
  exists c r, target = ss_device_id s :: ss_session_id s :: c :: r.
Proof. intros Hd. destruct (target_in_session s e target Hd) as (c & r & -> & _). by exists c, r. Qed.

Lemma target_visible e target :
  derive_target_path_for_file (ss_device_id s) (ss_session_id s) (ea_file_id e) (ea_target_relative_path e) = Ok target ->
  ~ under [STAGING_DIR_NAME] target.
Proof.
  intros Hd. destruct (target_shape e target Hd) as (c & r & ->). intros [Hx _]%under_cons.
  by destruct (sk_device s Hs).
Qed.

Lemma temp_visible e target index :
  derive_target_path_for_file (ss_device_id s) (ss_session_id s) (ea_file_id e) (ea_target_relative_path e) = Ok target ->
  ~ under [STAGING_DIR_NAME] (selected_temp_path target (ss_revision s) index).
Proof.
  intros Hd. destruct (target_shape e target Hd) as (c & r & ->). unfold selected_temp_path.
  cbn [path_parent app]. intros [Hx _]%under_cons. by destruct (sk_device s Hs).
Qed.

Lemma parent_file_name (p : Path) : p <> [] -> (path_parent p ++ [path_file_name p])%list = p.
Proof.
  intros Hp. destruct p as [|c p _] using rev_ind; [done|]. rewrite parent_snoc. unfold path_file_name.
  by rewrite last_last.
Qed.

Lemma string_length_app (a b : string) : String.length (a ++ b) = (String.length a + String.length b)%nat.
Proof. induction a as [|c a IH]; simpl; [done|by rewrite IH]. Qed.

(** The temporary is a sibling with another name. *)
Lemma temp_apart (target : Path) index :
  target <> [] -> let temp := selected_temp_path target (ss_revision s) index in
  ~ under target temp /\ ~ under temp target /\ temp <> [] /\ path_parent temp = path_parent target.
Proof.
  intros Hne temp. unfold temp, selected_temp_path. set (name := String.append "." _).
  assert (Hname : name <> path_file_name target).
  { intros Hn. apply (f_equal String.length) in Hn. unfold name in Hn. simpl in Hn.
    rewrite !string_length_app in Hn. lia. }
  assert (Hsame : forall t, (path_parent target ++ [name])%list = (target ++ t)%list -> False).
  { intros t Ht. rewrite <- (parent_file_name target Hne) in Ht at 2. rewrite <- app_assoc in Ht.
    apply app_inv_head in Ht. by injection Ht as Hx _. }
  assert (Hsame2 : forall t, target = ((path_parent target ++ [name]) ++ t)%list -> False).
  { intros t Ht. rewrite <- (parent_file_name target Hne) in Ht at 1. rewrite <- app_assoc in Ht.
    apply app_inv_head in Ht. by injection Ht as Hx _. }
  split_and!.
  - intros [t Ht]%under_spec. by apply (Hsame t).
  - intros [t Ht]%under_spec. by apply (Hsame2 t).
  - by destruct (path_parent target).
  - apply parent_snoc.
Qed.

Definition holds_at (p : Path) (e : ExpectedArtifact) (fs : FS) : Prop :=
  exists bs, fs !! p = Some (NFile bs) /\ content_matches e bs.

Lemma holds_spared K p e fs fs' : holds_at p e fs -> spares K fs fs' -> ~ K p -> holds_at p e fs'.
Proof. intros (bs & Hb & Hm) Hsp Hp. exists bs. split; [by eapply spares_keeps|done]. Qed.

Lemma copy_result source temp :
  temp <> [] ->
  always errors anywhere anywhere (copy_file_durably source temp)
    (when_ok (fun fs => exists bs, fs !! temp = Some (NFile bs))).
Proof.
  intros Hne. unfold copy_file_durably.
  apply bind_anyhow; [intros fs; walk|intros _]. apply bind_anyhow; [intros fs; walk|intros content].
  apply bind_anyhow; [intros fs; walk|intros _]. apply bind_anyhow; [intros fs; walk|intros _].
  apply (always_bind _ _ _ _ _ (fun _ fs => exists bs, fs !! temp = Some (NFile bs))); [|intros _].
  { apply always_serr, always_act; [done|done|]. intros fs fs' _. unfold create_new.
    destruct (node_at fs temp); [done|]. intros [= <-]. exists []. apply lookup_insert_eq. }
  apply (always_bind _ _ _ _ _ (fun _ fs => exists bs, fs !! temp = Some (NFile bs))); [|intros _].
  - apply always_serr, always_act; [done|done|]. intros fs fs' [bs Hb] He.
    assert (fs' = write_chunk fs temp 0 content) as -> by congruence. unfold write_chunk. rewrite Hb.
    eexists. apply lookup_insert_eq.
  - apply always_serr, always_act; [done|done|]. intros fs fs' Hb He.
    assert (fs' = fs) as -> by congruence. done.
Qed.

Lemma lower_hex_lower (t : string) : str_all is_lower_hex t = true -> to_ascii_lowercase t = t.
Proof.
  unfold to_ascii_lowercase. induction t as [|c t IH]; [done|]. simpl. rewrite andb_true_iff.
  intros [Hc Ht]. rewrite (IH Ht). f_equal.
  unfold ascii_lower. replace (is_upper c) with false; [done|]. symmetry. unfold is_upper.
  unfold is_lower_hex, is_digit, byte_in in *. rewrite orb_true_iff, !andb_true_iff, !N.leb_le in Hc.
  apply andb_false_iff. rewrite !N.leb_gt. lia.
Qed.

Lemma verified_temp_matches temp e fs bs :
  temp <> [] -> fs !! temp = Some (NFile bs) -> verify_selected_temp temp e (ss_revision s) fs = Ok tt ->
  content_matches e bs.
Proof.
  intros Hne Hb. unfold verify_selected_temp, content_matches. rewrite node_at_nonempty, Hb by done.
  destruct (N.eqb_spec (blen bs) (ea_expected_size e)); [simpl|done].
  destruct (ea_expected_sha256_hex e) as [sha|]; [|done].
  unfold sha256_of_file, read_file. rewrite node_at_nonempty, Hb by done. simpl.
  destruct (eq_ignore_ascii_case _ _) eqn:Eh; [|done]. intros _. split; [done|]. intros sha' [= <-].
  apply String.eqb_eq in Eh. by rewrite (lower_hex_lower (to_hex (sha256 bs)) (to_hex_lower _)) in Eh.
Qed.

Lemma install_result index e target temp :
  ~ under target temp -> ~ under [STAGING_DIR_NAME] target -> ~ under [STAGING_DIR_NAME] temp ->
  always errors anywhere (holds_at temp e) (install_target s index target temp) (when_ok (holds_at target e)).
Proof.
  intros Htt Ht1 Ht2. set (trash := selected_trash_path s index).
  assert (Htrash : forall q, under trash q -> under [STAGING_DIR_NAME] q) by (intros q; apply hidden).
  set (K := fun q => under target q \/ under [STAGING_DIR_NAME] q).
  assert (HKt : forall q, under target q -> K q) by (by left).
  assert (HKh : forall q, under trash q -> K q) by (intros q Hq; right; by apply Htrash).
  assert (Hstep : forall {A : Type} (c : sm Disk DownloadError A),
    (forall fs, always errors (spares K fs) (spares K fs) c (fun _ => spares K fs)) ->
    always errors anywhere (holds_at temp e) c (when_ok (holds_at temp e))).
  { intros A c Hc. eapply always_weaken; [apply (spared_holds K (holds_at temp e)); [done|]|done|by intros [a|x]].
    intros fs fs' Hf Hsp. eapply holds_spared; [exact Hf|exact Hsp|]. intros [?|?]; auto. }
  assert (Hend : forall {A : Type} (c : sm Disk DownloadError A),
    (forall fs, always errors (spares (under [STAGING_DIR_NAME]) fs) (spares (under [STAGING_DIR_NAME]) fs) c
       (fun _ => spares (under [STAGING_DIR_NAME]) fs)) ->
    always errors anywhere (holds_at target e) c (when_ok (holds_at target e))).
  { intros A c Hc. eapply always_weaken; [apply (spared_holds (under [STAGING_DIR_NAME]) (holds_at target e)); [done|]|done|by intros [a|x]].
    intros fs fs' Hf Hsp. by eapply holds_spared. }
  unfold install_target. fold trash.
  apply (always_bind _ _ _ _ _ (fun _ => holds_at temp e)); [by apply always_peek|]. intros had.
  apply (always_bind _ _ _ _ _ (fun _ => holds_at temp e)); [destruct had; apply Hstep; intros fs; walk|].
  intros _. apply (always_bind _ _ _ _ _ (fun renamed fs => is_ok renamed = true -> holds_at target e fs)).
  - apply always_attempt, always_act; [done|done|]. intros fs fs' (bs & Hb & Hm) Hr _.
    destruct (renamed_is_moved temp temp target fs fs' eq_refl Hr) as [-> _]. exists bs. split; [|done].
    rewrite lookup_move. replace (path_strip target target) with (Some ([] : Path)); [by rewrite app_nil_r|].
    symmetry. apply path_strip_Some. by rewrite app_nil_r.
  - intros [[]|error].
    + apply (always_pre (holds_at target e)); [by intros fs Hf; apply Hf|].
      apply (always_bind _ _ _ _ _ (fun _ => holds_at target e));
        [apply Hend; intros fs; walk|intros _; apply Hend; intros fs; walk].
    + apply (always_pre anywhere); [done|].
      apply bind_anyhow; [intros fs; walk|intros can]. apply bind_anyhow; [intros fs; walk|intros _].
      apply bind_anyhow; [intros fs; walk|intros _]. by apply always_fail.
Qed.

Lemma cleanup_file_holds index e target :
  derive_target_path_for_file (ss_device_id s) (ss_session_id s) (ea_file_id e) (ea_target_relative_path e) = Ok target ->
  always errors anywhere (holds_at target e) (cleanup_selected_file_artifacts s index target)
    (when_ok (holds_at target e)).
Proof.
  intros Hd. assert (Hv := target_visible e target Hd).
  assert (Hne : target <> []) by (by apply derive_target_path_spec in Hd as (_ & _ & _ & _ & -> & _)).
  destruct (temp_apart target index Hne) as (_ & T2 & _).
  set (temp := selected_temp_path target (ss_revision s) index) in *.
  set (K := fun q => under temp q \/ under [STAGING_DIR_NAME] q).
  eapply always_weaken; [apply (spared_holds K (holds_at target e))|done|by intros [a|x]].
  - intros fs. assert (Htmp : K temp) by (left; apply under_refl).
    assert (Htr : forall q, under (selected_trash_path s index) q -> K q)
      by (intros q Hq; right; by apply (hidden _ q Hq)).
    unfold cleanup_selected_file_artifacts. fold temp. walk.
  - intros fs fs' Hf Hsp. eapply holds_spared; [exact Hf|exact Hsp|]. unfold K. tauto.
Qed.

Lemma publish_file_result index e target :
  derive_target_path_for_file (ss_device_id s) (ss_session_id s) (ea_file_id e) (ea_target_relative_path e) = Ok target ->
  always errors anywhere anywhere (publish_selected_file s index e) (when_ok (holds_at target e)).
Proof.
  intros Hd. assert (Hv := target_visible e target Hd). assert (Hvt := temp_visible e target index Hd).
  assert (Hne : target <> []) by (by apply derive_target_path_spec in Hd as (_ & _ & _ & _ & -> & _)).
  destruct (temp_apart target index Hne) as (T1 & T2 & T3 & _).
  set (temp := selected_temp_path target (ss_revision s) index) in *.
  unfold publish_selected_file. rewrite Hd. simpl rmap_err.
  apply (always_bind _ _ _ _ _ (fun relative _ => relative = target)); [by apply always_lift|].
  intros relative. apply (always_pre (fun fs => relative = target /\ True)); [done|].
  apply always_assume. intros ->. fold temp.
  apply bind_anyhow; [intros fs; walk|intros _]. apply bind_anyhow; [intros fs; walk|intros _].
  apply (always_bind _ _ _ _ _ (fun done fs => done = true -> holds_at target e fs)).
  { apply always_peek. intros fs _ Hdone.
    assert (Hver : ae_status (inspect fs (ss_device_id s) (ss_session_id s) e) = AVerified).
    { unfold is_verified in Hdone. by destruct (ae_status _). }
    apply inspect_verified_iff in Hver as (t & bs & Hd' & Hb & Hm). rewrite Hd in Hd'.
    injection Hd' as <-. by exists bs. }
  intros [|].
  { apply (always_pre (holds_at target e)); [by intros fs Hf; apply Hf|]. by apply cleanup_file_holds. }
  apply (always_pre anywhere); [done|].
  apply bind_anyhow; [intros fs; walk|intros _]. apply bind_anyhow; [intros fs; walk|intros _].
  apply bind_anyhow; [intros fs; by apply serr_spares, restore_spares|intros _].
  apply (always_bind _ _ _ _ _ (fun _ fs => exists bs, fs !! temp = Some (NFile bs))); [|intros _].
  { apply always_serr. eapply always_weaken; [by apply copy_result|done|by intros [a|x]]. }
  apply (always_bind _ _ _ _ _ (fun _ => holds_at temp e)); [|intros _].
  { apply always_look. intros fs [bs Hb]. destruct (verify_selected_temp _ _ _ fs) as [[]|x] eqn:Ev; [|done].
    exists bs. split; [done|]. by eapply verified_temp_matches. }
  apply always_serr. eapply always_weaken; [by apply install_result|done|by intros [a|x]].
Qed.

(** ** What the whole publication achieves *)

Context (m : SessionManifest).
Abbreviation target_of e := (derive_target_path_for_file (ss_device_id s) (ss_session_id s) (ea_file_id e)
  (ea_target_relative_path e)).

(** The places the files of a selection pass through are apart from each
    other's, and from the marker's. *)
Definition selection_apart : Prop :=
  (forall i j e f t u, mf_files m !! i = Some e -> mf_files m !! j = Some f -> i <> j ->
     target_of e = Ok t -> target_of f = Ok u -> ~ file_paths s j u t) /\
  (forall e t, e ∈ mf_files m -> target_of e = Ok t ->
     ~ under (published_dir s ++ [SELECTED_MARKER_NAME])%list t /\
     ~ under (published_dir s ++ [String.append SELECTED_MARKER_NAME ".tmp"])%list t).

Definition all_hold (files : list ExpectedArtifact) (fs : FS) : Prop :=
  forall e, e ∈ files -> exists t, target_of e = Ok t /\ holds_at t e fs.

Lemma publish_files_result files index :
  (forall i j e f t u, files !! i = Some e -> files !! j = Some f -> i <> j ->
     target_of e = Ok t -> target_of f = Ok u -> ~ file_paths s (index + j) u t) ->
  always errors anywhere anywhere (publish_selected_files s index files) (when_ok (all_hold files)).
Proof.
  revert index. induction files as [|e files IH]; intros index Hap; simpl.
  { apply always_ret. by intros fs _ e []%elem_of_nil. }
  destruct (target_of e) as [t|x] eqn:Et.
  2: { apply (always_bind _ _ _ _ _ (fun _ _ => False)); [|by intros a d Hd []].
       unfold publish_selected_file. rewrite Et. by apply always_fail. }
  apply (always_bind _ _ _ _ _ (fun _ => holds_at t e)).
  { eapply always_weaken; [by apply publish_file_result|done|by intros [a|y]]. }
  intros _. set (K := fun q => exists i f u, files !! i = Some f /\ target_of f = Ok u /\ file_paths s (S index + i) u q).
  assert (Hsp : always errors anywhere (holds_at t e) (publish_selected_files s (S index) files)
    (fun _ => holds_at t e)).
  { apply (spared_holds K).
    - intros fs. apply publish_files_spares. intros i f u Hi Hu q Hq. by exists i, f, u.
    - intros fs fs' Hf Hs'. eapply holds_spared; [exact Hf|exact Hs'|]. intros (i & f & u & Hi & Hu & Hq).
      apply (Hap 0 (S i) e f t u); try done. by rewrite Nat.add_succ_r. }
  assert (Hrest : always errors anywhere anywhere (publish_selected_files s (S index) files) (when_ok (all_hold files))).
  { apply IH. intros i j f g u v Hi Hj Hne Hu Hv. rewrite Nat.add_succ_comm. apply (Hap (S i) (S j) f g u v); auto. }
  eapply always_states; [|done].
  eapply always_weaken; [exact (always_and _ _ _ _ _ _ _ _ Hsp Hrest)|done|].
  intros [a|y] fs [H3 H4]; [|done]. intros f [->|Hf]%elem_of_cons; [by exists t|by apply H4].
Qed.

(** The paths of the marker, and the hidden tree. *)
Abbreviation marker := (published_dir s ++ [SELECTED_MARKER_NAME])%list.
Abbreviation marker_temp := (published_dir s ++ [String.append SELECTED_MARKER_NAME ".tmp"])%list.
Definition commit_paths (q : Path) : Prop :=
  under marker q \/ under marker_temp q \/ under [STAGING_DIR_NAME] q.

Lemma visible_here (q : Path) : under (published_dir s) q -> ~ under [STAGING_DIR_NAME] q.
Proof.
  intros [r ->]%under_spec [r' Hr]%under_spec. injection Hr as Hr _. by destruct (sk_device s Hs).
Qed.

Lemma marker_apart : ~ under marker_temp marker /\ ~ under [STAGING_DIR_NAME] marker /\
  ~ under [STAGING_DIR_NAME] marker_temp /\ ~ under marker marker_temp.
Proof.
  assert (Hin : forall c, under (published_dir s) (published_dir s ++ [c])%list)
    by (intros c; apply under_spec; by exists [c]).
  split_and!; [|by apply visible_here, Hin|by apply visible_here, Hin|];
    intros [r Hr]%under_spec; rewrite <- (assoc_L app) in Hr; apply app_inv_head in Hr; discriminate Hr.
Qed.

Lemma all_hold_spared (K : Path -> Prop) fs fs' :
  (forall e t, e ∈ mf_files m -> target_of e = Ok t -> ~ K t) ->
  all_hold (mf_files m) fs -> spares K fs fs' -> all_hold (mf_files m) fs'.
Proof.
  intros HK Ha Hsp e He. destruct (Ha e He) as (t & Ht & Hh). exists t. split; [done|].
  eapply holds_spared; [exact Hh|exact Hsp|by apply (HK e)].
Qed.

Lemma marker_file_result bytes backup :
  (forall q, under backup q -> under [STAGING_DIR_NAME] q) ->
  always errors anywhere anywhere (replace_file_durably bytes marker backup)
    (when_ok (fun fs => fs !! marker = Some (NFile bytes))).
Proof.
  intros Hb. destruct marker_apart as (M1 & M2 & M3 & M4).
  assert (Hstep : forall {A : Type} (K : Path -> Prop) q bs (c : sm Disk DownloadError A), ~ K q ->
    (forall fs, always errors (spares K fs) (spares K fs) c (fun _ => spares K fs)) ->
    always errors anywhere (fun fs => fs !! q = Some (NFile bs)) c (when_ok (fun fs => fs !! q = Some (NFile bs)))).
  { intros A K q bs c Hq Hc. eapply always_weaken;
      [apply (spared_holds K (fun fs => fs !! q = Some (NFile bs))); [done|]|done|by intros [a|x]].
    intros fs fs' Hf Hsp. by eapply spares_keeps. }
  set (K1 := fun q => under marker q \/ under [STAGING_DIR_NAME] q).
  assert (HK1 : ~ K1 marker_temp) by (intros [?|?]; auto).
  assert (HKm : forall q, under marker q -> K1 q) by (by left).
  assert (HKb : forall q, under backup q -> K1 q) by (intros q Hq; right; auto).
  assert (Hne : marker_temp <> []) by done.
  unfold replace_file_durably, durable_temp_path. rewrite push_tmp.
  change (SELECTED_MARKER_NAME ++ ".tmp")%string with (String.append SELECTED_MARKER_NAME ".tmp").
  do 3 (apply bind_anyhow; [intros fs; walk|intros _]).
  apply (always_bind _ _ _ _ _ (fun _ fs => fs !! marker_temp = Some (NFile []))); [|intros _].
  { apply always_serr, always_act; [done|done|]. intros fs fs' _. unfold create_new.
    destruct (node_at fs marker_temp); [done|]. intros [= <-]. apply lookup_insert_eq. }
  apply (always_bind _ _ _ _ _ (fun _ fs => fs !! marker_temp = Some (NFile bytes))); [|intros _].
  { apply always_serr, always_act; [done|done|]. intros fs fs' Hf He.
    assert (fs' = write_chunk fs marker_temp 0 bytes) as -> by congruence. unfold write_chunk. rewrite Hf.
    rewrite lookup_insert_eq. unfold write_at. simpl. by rewrite drop_nil, app_nil_r. }
  do 3 (apply (always_bind _ _ _ _ _ (fun _ fs => fs !! marker_temp = Some (NFile bytes)));
    [apply (Hstep _ K1); [done|intros fs; walk]|intros ?]).
  apply (always_bind _ _ _ _ _ (fun renamed fs => is_ok renamed = true -> fs !! marker = Some (NFile bytes))).
  { apply always_attempt, always_act; [done|done|]. intros fs fs' Hf Hr _.
    destruct (renamed_is_moved marker_temp marker_temp marker fs fs' eq_refl Hr) as [-> _].
    rewrite lookup_move. replace (path_strip marker marker) with (Some ([] : Path)); [by rewrite app_nil_r|].
    symmetry. apply path_strip_Some. by rewrite app_nil_r. }
  intros [[]|error].
  - apply (always_pre (fun fs => fs !! marker = Some (NFile bytes))); [by intros fs Hf; apply Hf|].
    eapply (Hstep _ (under [STAGING_DIR_NAME])); [done|]. intros fs. walk.
  - apply (always_pre anywhere); [done|].
    do 3 (apply bind_anyhow; [intros fs; walk|intros ?]). by apply always_fail.
Qed.

(** What is on disk once the selection is committed. *)
Definition committed (fs : FS) : Prop :=
  fs !! marker = Some (NFile (selected_encode (selected_marker s m))) /\ all_hold (mf_files m) fs.

Lemma marker_committed :
  selection_apart ->
  always errors anywhere (all_hold (mf_files m)) (replace_selected_marker s (selected_encode (selected_marker s m)))
    (when_ok committed).
Proof.
  intros [_ Hmk]. set (bytes := selected_encode _).
  assert (Hkeep : always errors anywhere (all_hold (mf_files m)) (replace_selected_marker s bytes)
    (fun _ => all_hold (mf_files m))).
  { apply (spared_holds commit_paths).
    - intros fs. apply replace_marker_writes; [by left| |by right; right].
      unfold durable_temp_path. rewrite push_tmp. by right; left.
    - intros fs fs'. apply all_hold_spared. intros e t He Ht [?|[?|?]].
      + by destruct (Hmk e t He Ht).
      + by destruct (Hmk e t He Ht).
      + by destruct (target_visible e t Ht). }
  assert (Hres : always errors anywhere anywhere (replace_selected_marker s bytes)
    (when_ok (fun fs => fs !! marker = Some (NFile bytes)))).
  { unfold replace_selected_marker. do 2 (apply bind_anyhow; [intros fs; walk|intros _]).
    apply marker_file_result. intros q Hq. by apply (hidden _ q Hq). }
  eapply always_states; [|done].
  eapply always_weaken; [exact (always_and _ _ _ _ _ _ _ _ Hkeep Hres)|done|].
  intros [a|x] fs [H3 H4]; [by split|done].
Qed.

Lemma committed_spared fs fs' : committed fs -> spares (under [STAGING_DIR_NAME]) fs fs' -> committed fs'.
Proof.
  intros [Hm Ha] Hsp. split; [eapply spares_keeps; [exact Hsp|by apply visible_here, under_spec; eexists|done]|].
  eapply all_hold_spared; [|exact Ha|exact Hsp]. intros e t _. apply target_visible.
Qed.

Lemma all_hold_complete fs : all_hold (mf_files m) fs <-> visible_manifest_is_complete s m fs = true.
Proof.
  unfold visible_manifest_is_complete, plan_recovery. rewrite forallb_forall.
  assert (Hv : forall ev, is_verified ev = true <-> ae_status ev = AVerified)
    by (intros ev; unfold is_verified; by destruct (ae_status ev)).
  split.
  - intros Ha ev (e & <- & He)%in_map_iff. apply Hv, inspect_verified_iff.
    destruct (Ha e) as (t & Ht & bs & Hb & Hc); [by apply list_elem_of_In|]. by exists t, bs.
  - intros Hf e He. destruct (proj1 (inspect_verified_iff fs (ss_device_id s) (ss_session_id s) e))
      as (t & bs & Ht & Hb & Hc); [|exists t; split; [done|by exists bs]].
    apply Hv, Hf, in_map, list_elem_of_In, He.
Qed.

Lemma selected_fits : selected_marker_fits (selected_marker s m).
Proof. split; simpl; [apply (marker_fits s m)|apply (marker_fits s m)]. Qed.

Lemma committed_is_complete fs : committed fs -> selected_is_complete s m fs = true.
Proof.
  intros [Hm Ha]. unfold selected_is_complete. apply andb_true_iff. split; [|by apply all_hold_complete].
  unfold selected_marker_matches_manifest, selected_marker_matches_manifest_at, read_selected_marker,
    read_to_string, read_file. rewrite node_at_nonempty by done. rewrite Hm. cbn [rbind].
  rewrite selected_encode_utf8, selected_decode_encode by apply selected_fits. simpl.
  by rewrite !String.eqb_refl, !N.eqb_refl.
Qed.

(** The early answer, too, leaves what it looked at. *)
Lemma complete_spared fs fs' :
  selected_is_complete s m fs = true -> spares (under [STAGING_DIR_NAME]) fs fs' ->
  selected_is_complete s m fs' = true.
Proof.
  unfold selected_is_complete. rewrite !andb_true_iff. intros [Hm Ha] Hsp. split.
  - revert Hm. unfold selected_marker_matches_manifest, selected_marker_matches_manifest_at, read_selected_marker,
      read_to_string, read_file. rewrite !node_at_nonempty by done.
    destruct (fs !! marker) as [n|] eqn:En; [|done].
    rewrite (spares_keeps _ _ _ _ _ Hsp (visible_here marker ltac:(apply under_spec; by eexists)) En). done.
  - apply all_hold_complete. eapply all_hold_spared; [|by apply all_hold_complete|exact Hsp].
    intros e t _. apply target_visible.
Qed.

Lemma publish_selected_result :
  selection_apart ->
  always errors anywhere anywhere (publish_selected s m) (when_ok (fun fs => selected_is_complete s m fs = true)).
Proof.
  intros Hap. assert (Hend : forall (X : FS -> Prop) {E A : Type} (c : sm Disk E A),
    (forall fs fs', X fs -> spares (under [STAGING_DIR_NAME]) fs fs' -> X fs') ->
    (forall fs, always errors (spares (under [STAGING_DIR_NAME]) fs) (spares (under [STAGING_DIR_NAME]) fs) c
       (fun _ => spares (under [STAGING_DIR_NAME]) fs)) -> always errors anywhere X c (when_ok X)).
  { intros X E A c HX Hc. eapply always_weaken; [by apply (spared_holds (under [STAGING_DIR_NAME]) X)|done|by intros [a|x]]. }
  assert (Hclean : forall fs, always errors (spares (under [STAGING_DIR_NAME]) fs)
    (spares (under [STAGING_DIR_NAME]) fs) (cleanup_selected_staging s) (fun _ => spares (under [STAGING_DIR_NAME]) fs))
    by (intros fs; by apply cleanup_hidden_spares).
  unfold publish_selected.
  apply (always_bind _ _ _ _ _ (fun sealed fs => sealed = mkSealed s /\ True)).
  { intros d Hd Hp. destruct (spared_holds (selection_paths s m) anywhere (seal_selected s m)
      ltac:(intros fs; by apply seal_selected_spares) ltac:(done) d Hd Hp) as (H3 & H4 & _).
    split_and!; [done|done|]. destruct (seal_selected s m d) as [d' [sealed|e]] eqn:Es; [|done].
    split; [by eapply seal_selected_self|done]. }
  intros sealed. apply always_assume. intros ->. unfold publish_selected_sealed. simpl sr_staging.
  apply (always_bind _ _ _ _ _ (fun done fs => done = true -> selected_is_complete s m fs = true));
    [by apply always_peek|].
  intros [|].
  - apply (always_pre (fun fs => selected_is_complete s m fs = true)); [by intros fs Hf; apply Hf|].
    eapply Hend; [apply complete_spared|]. intros fs. apply bind_spares; [apply Hclean|intros _; walk].
  - apply (always_pre anywhere); [done|].
    apply bind_anyhow; [intros fs; walk|intros [|]]; simpl negb; cbn iota; [|by apply always_fail].
    apply bind_anyhow; [intros fs; walk|intros [|]]; simpl negb; cbn iota; [|by apply always_fail].
    apply bind_anyhow; [intros fs; walk|intros _].
    apply (always_bind _ _ _ _ _ (fun _ => all_hold (mf_files m))); [|intros _].
    { eapply always_weaken; [apply publish_files_result|done|by intros [a|x]].
      intros i j e f t u Hi Hj Hne Ht Hu. by apply (proj1 Hap i j e f). }
    apply (always_bind _ _ _ _ _ (fun _ => committed)); [|intros _].
    { apply always_serr. eapply always_weaken; [by apply marker_committed|done|by intros [a|x]]. }
    eapply always_weaken; [apply (Hend committed); [apply committed_spared|]|done|
      intros [a|x] fs; [apply committed_is_complete|done]].
    intros fs. apply bind_spares; [walk|intros _]. apply bind_spares; [apply Hclean|intros _; walk].
Qed.
End result.

(** Publishing selected files keeps the session.  Whatever calls
    fail, and wherever the process dies, nothing outside the hidden tree, the
    requested files, their temporaries and the selected marker is ever lost or
    replaced (directories may appear); and when it succeeds, whatever failed on
    the way, every requested file is in the visible session with its size and
    digest under a marker for exactly this manifest, so that a further attempt
    has nothing left to do.  The second half asks that no requested file lies
    where another one's temporary or the marker goes. *)
Theorem selected_publication_keeps_the_session `{JournalCodec, Sha256, MarkerCodec, Lowercase} s m d :
  staging_ok s -> dk_past d = [] ->
  let '(d', r) := publish_selected s m d in
  Forall (spares (selection_paths s m) (dk_fs d)) (dk_past d' ++ [dk_fs d'])%list /\
  (selection_apart s m -> forall o, r = Ok o -> selected_is_complete s m (dk_fs d') = true).
Proof.
  intros Hs Hpast. destruct (publish_selected_spares s true m (dk_fs d) d) as (_ & (l & El & Hl) & Hf);
    [done|apply spares_refl|].
  assert (Hres : selection_apart s m ->
    match (publish_selected s m d).2 with
    | Ok _ => selected_is_complete s m (dk_fs (publish_selected s m d).1) = true
    | Err _ => True end).
  { intros Hap. by destruct (publish_selected_result s Hs true m Hap d) as (_ & _ & Hr). }
  destruct (publish_selected s m d) as [d' r]. cbn [fst snd] in *. rewrite Hpast in El. rewrite El. split.
  - apply Forall_app. split; [done|by constructor].
  - intros Hap o ->. by apply Hres.
Qed.

(** ** The commit of a staged session *)

Section commit.
Context `{JournalCodec, Sha256, MarkerCodec, Lowercase, Display PublishError, Display PathSafetyError}.
Context (s : SessionStaging) (Hs : staging_ok s).

Lemma marker_matches_spared (K : Path -> Prop) fs fs' :
  spares K fs fs' -> ~ K (published_dir s ++ [REVISION_MARKER_NAME])%list ->
  is_published s fs = false -> is_published s fs' = false.
Proof.
  intros Hsp Hk. unfold is_published, marker_matches, read_revision_marker, read_to_string, read_file.
  rewrite !node_at_nonempty by done. by destruct (Hsp _ Hk) as [->|[-> ->]].
Qed.

Lemma prepare_spares fs0 : always true (spares (fun _ => False) fs0) (spares (fun _ => False) fs0) (prepare s)
  (fun _ => spares (fun _ => False) fs0).
Proof. unfold prepare. walk. Qed.

Lemma selected_published fs m : selected_is_complete s m fs = true -> is_selected_published s fs = true.
Proof.
  unfold selected_is_complete, is_selected_published, selected_marker_matches,
    selected_marker_matches_manifest, selected_marker_matches_manifest_at.
  destruct (read_selected_marker fs (published_dir s)); [|done]. rewrite !andb_true_iff. tauto.
Qed.

Lemma complete_is_visible fs m :
  complete [] m (ss_device_id s) (ss_session_id s) fs -> visible_manifest_is_complete s m fs = true.
Proof.
  intros Hc. apply (all_hold_complete s m). intros e He. destruct (Hc e He) as (t & bs & Ht & Hb & Hm).
  exists t. split; [done|by exists bs].
Qed.
End commit.


(** ** The demo session *)

#[local] Existing Instance DemoCodec.codec.
#[local] Existing Instance DemoSha.sha.
#[local] Existing Instance DemoStaging.markers.
#[local] Existing Instance DemoStaging.lower.

Module DemoCommit.
#[global] Instance show_publish : Display PublishError := fun _ => "publication".
#[global] Instance show_path : Display PathSafetyError := fun _ => "path".

Definition disk : Disk := mkDisk DemoStaging.assembled [] [].
Definition accept : list byte -> list byte -> list byte -> result VerifyError unit := fun _ _ _ => Ok tt.
Definition file : VerifiedFile :=
  mkVerified "dev-1" "sess-1" "f1" ["dev-1"; "sess-1"; "left.mp4"] 3 (to_hex (DemoSha.digest DemoStaging.body)) None.
(** Whether the same session is published when the call after the first [n] fails. *)
Definition attempt_failing (n : nat) : bool :=
  is_ok (publish_selected DemoStaging.staging DemoStaging.manifest
    (mkDisk DemoStaging.assembled (replicate n None ++ [Some IoStorageFull])%list [])).2.

Lemma apart : selection_apart DemoStaging.staging DemoStaging.manifest.
Proof.
  split.
  - intros [|i] [|j] e f t u He Hf; simpl in He, Hf; try done.
  - intros e t He Ht. apply list_elem_of_singleton in He as ->. vm_compute in Ht. injection Ht as <-.
    split; intros [r Hr]%under_spec; discriminate Hr.
Qed.
End DemoCommit.

Lemma selected_publication_keeps_the_session_witness :
  selected_is_complete DemoStaging.staging DemoStaging.manifest
    (dk_fs (publish_selected DemoStaging.staging DemoStaging.manifest DemoCommit.disk).1) = true /\
  map DemoCommit.attempt_failing [0; 10; 100] = [true; false; true].
Proof.
  split; [|vm_compute; reflexivity].
  generalize (selected_publication_keeps_the_session DemoStaging.staging DemoStaging.manifest DemoCommit.disk
    DemoStaging.staging_good eq_refl).
  assert (Hok : is_ok (publish_selected DemoStaging.staging DemoStaging.manifest DemoCommit.disk).2 = true)
    by (vm_compute; reflexivity).
  destruct (publish_selected DemoStaging.staging DemoStaging.manifest DemoCommit.disk) as [d' [o|e]];
    [|discriminate Hok].
  intros [_ H]. exact (H DemoCommit.apart o eq_refl).
Defined.

