(* ===== verification/Json.v ===== *)
(** * Json: canonical text and the strict audit (publication.rs)

The bytes a publication's signature and revision cover are a canonical JSON
text, and a received text is audited before [serde_json] turns it into a map
(which would keep the last of two equal keys).  Values are those of
[serde_json::Value]; an object is the list of its entries in key order, as
its [BTreeMap] iterates them.  [serde_json]'s parser, [f64] and its printing
are external: they enter as the classes [JsonText] and [Floats]. *)

From Stdlib Require Import NArith ZArith Lia Ascii String.
From stdpp Require Import base numbers list strings.
From S2P Require Import Prelude Domain Files.

Local Open Scope string_scope.

(** ** Rejections *)

(** The texts of [PublicationTrustError::Rejected], with their data. *)
Inductive TrustReason :=
| NotUtf8 | BadUnicodeEscape | IsolatedSurrogate | TrailingData | BadValue | BadLiteral | DuplicateKey
| BadObject | BadArray | BadString | BadEscape | BadStringText | ControlCharacter | Unterminated
| BadNumber | NonFiniteNumber | NotJson | NotAnObject | MissingSignature
| PayloadNotUtf8 | PlanEmpty | PlanUnknown (id : string) | PlanDuplicate (id : string)
| VerifierRejected (message : string) | SessionMismatch | KeyHashMismatch | PayloadHasSignature | SchemaInvalid
| UnsupportedSchema (version : N) | RevisionNotCanonical | IntegrityNotOk | PublishedBeforeCaptured
| BadDuration | ScalarMismatch | InventoryMismatch | DuplicateFileId | DuplicateDisplayPath | BadDigest
| BadRole | TotalOverflow | VideoOverflow | AggregateMismatch | MissingContentField
| BadHexField (field : string) (expected : N) | FingerprintPrefix | FingerprintHex | KeyMismatch
| RevisionPrefix | RevisionHex | BadOpaqueId (field : string) | BadDisplayPath | BadMediaType
| BadTimestamp (field value : string).

(** [PublicationTrustError] (publication.rs:61-64). *)
Inductive PublicationTrustError := Rejected (reason : TrustReason).

(** [rejected] (publication.rs:80-82). *)
Definition rejected {A : Type} (reason : TrustReason) : result PublicationTrustError A := Err (Rejected reason).

(** ** Values *)

(** [f64] as far as the sources use it: comparison, printing (by [ryu], the
    shortest text that reads back) and reading. *)
Class Floats := {
  f64 : Type;
  f64_eqb : f64 -> f64 -> bool;
  f64_finite : f64 -> bool;
  f64_negative : f64 -> bool;
  f64_text : f64 -> string;
  f64_reads_finite : string -> bool;
  f64_text_inj : forall x y, f64_finite x = true -> f64_finite y = true -> f64_text x = f64_text y -> x = y;
  f64_text_chars : forall x, f64_finite x = true -> str_all (fun c => is_digit c || str_mem c "+-.eE") (f64_text x) = true;
  f64_text_marked : forall x, f64_finite x = true -> str_any (fun c => str_mem c ".e") (f64_text x) = true;
}.

(** The variants of [serde_json::Number]. *)
Inductive number `{Floats} :=
| PosInt (n : N)
| NegInt (z : Z)
| Float (x : f64).

Inductive json `{Floats} :=
| JNull
| JBool (b : bool)
| JNumber (n : number)
| JString (s : string)
| JArray (values : list json)
| JObject (entries : list (string * json)).

(** The object's map: entries in the order of their keys. *)
Fixpoint obj_get {A : Type} (key : string) (entries : list (string * A)) : option A :=
  match entries with
  | [] => None
  | (k, v) :: rest => if String.eqb k key then Some v else obj_get key rest
  end.

Definition obj_remove {A : Type} (key : string) (entries : list (string * A)) : list (string * A) :=
  filter (fun e => e.1 <> key) entries.

Fixpoint obj_insert {A : Type} (key : string) (value : A) (entries : list (string * A)) : list (string * A) :=
  match entries with
  | [] => [(key, value)]
  | (k, v) :: rest =>
      match String.compare key k with
      | Lt => (key, value) :: entries
      | Eq => (key, value) :: rest
      | Gt => (k, v) :: obj_insert key value rest
      end
  end.

(** ** Characters *)

(** [str::chars]: the scalar values of UTF-8 text. *)
Fixpoint chars (s : string) : list N :=
  match s with
  | EmptyString => []
  | String c1 s1 =>
      let b1 := N_of_ascii c1 in
      if (b1 <? 128)%N then b1 :: chars s1 else
      match s1 with
      | EmptyString => []
      | String c2 s2 =>
          let b2 := N_of_ascii c2 in
          if (b1 <? 224)%N then ((b1 - 192) * 64 + (b2 - 128))%N :: chars s2 else
          match s2 with
          | EmptyString => []
          | String c3 s3 =>
              let b3 := N_of_ascii c3 in
              if (b1 <? 240)%N then ((b1 - 224) * 4096 + (b2 - 128) * 64 + (b3 - 128))%N :: chars s3 else
              match s3 with
              | EmptyString => []
              | String c4 s4 =>
                  ((b1 - 240) * 262144 + (b2 - 128) * 4096 + (b3 - 128) * 64 + (N_of_ascii c4 - 128))%N :: chars s4
              end
          end
      end
  end.

(** ** The canonical text *)

(** [{:04x}] of a 16-bit unit. *)
Definition hex4 (n : N) : string :=
  String (hex_digit (n / 4096 mod 16)) (String (hex_digit (n / 256 mod 16))
    (String (hex_digit (n / 16 mod 16)) (String (hex_digit (n mod 16)) ""))).

Definition quote : ascii := "034".
Definition backslash : ascii := "092".

(** [write_ascii_json_string, one character] (publication.rs:192-215). *)
Definition escape (n : N) : string :=
  let short c := String backslash (String c "") in
  let unit_mark := short "u"%char in
  match n with
  | 34%N => short quote
  | 92%N => short backslash
  | 8%N => short "b"%char
  | 12%N => short "f"%char
  | 10%N => short "n"%char
  | 13%N => short "r"%char
  | 9%N => short "t"%char
  | _ =>
      if (n <=? 31)%N then unit_mark ++ hex4 n
      else if (n <? 128)%N then String (ascii_of_N n) ""
      else if (n <=? 65535)%N then unit_mark ++ hex4 n
      else let scalar := (n - 65536)%N in
           unit_mark ++ hex4 (55296 + scalar / 1024)
           ++ unit_mark ++ hex4 (56320 + scalar mod 1024)
  end.

(** [write_ascii_json_string] (publication.rs:183-213): the text it appends. *)
Definition write_ascii_json_string (value : string) : string :=
  String quote (foldr (fun n out => escape n ++ out) "" (chars value) ++ String quote "").

(** [serde_json::Number::to_string]. *)
Definition number_text `{Floats} (n : number) : string :=
  match n with
  | PosInt n => dec n
  | NegInt z => String "-"%char (dec (Z.to_N (- z)))
  | Float x => f64_text x
  end.

(** [write_canonical_json] (publication.rs:151-181): the text it
    appends; it never fails. *)
Fixpoint write_canonical_json `{Floats} (value : json) : string :=
  match value with
  | JNull => "null"
  | JBool b => if b then "true" else "false"
  | JNumber n => number_text n
  | JString s => write_ascii_json_string s
  | JArray values => "[" ++ String.concat "," (map write_canonical_json values) ++ "]"
  | JObject entries =>
      "{" ++ String.concat "," (map (fun '(key, v) => write_ascii_json_string key ++ ":" ++ write_canonical_json v) entries)
      ++ "}"
  end.

(** [canonicalize_rp_manifest] (publication.rs:135-149). *)
Definition canonicalize_rp_manifest `{Floats} (manifest : json) : result PublicationTrustError (list byte) :=
  match manifest with
  | JObject object =>
      match obj_get "publication_signature" object with
      | None => rejected MissingSignature
      | Some _ => Ok (bytes_of (write_canonical_json (JObject (obj_remove "publication_signature" object))))
      end
  | _ => rejected NotAnObject
  end.

(** ** The canonical text determines the value *)

Definition nested_ind `{Floats} (P : json -> Prop) (Pnull : P JNull) (Pbool : forall b, P (JBool b))
    (Pnumber : forall n, P (JNumber n)) (Pstring : forall s, P (JString s))
    (Parray : forall values, Forall P values -> P (JArray values))
    (Pobject : forall entries, Forall (fun e => P e.2) entries -> P (JObject entries)) : forall v, P v :=
  fix go v := match v with
  | JNull => Pnull
  | JBool b => Pbool b
  | JNumber n => Pnumber n
  | JString s => Pstring s
  | JArray values => Parray values ((fix all l : Forall P l :=
      match l with [] => Forall_nil_2 _ | x :: l' => Forall_cons_2 _ _ _ (go x) (all l') end) values)
  | JObject entries => Pobject entries ((fix all l : Forall (fun e => P e.2) l :=
      match l with [] => Forall_nil_2 _ | e :: l' => Forall_cons_2 _ _ _ (go e.2) (all l') end) entries)
  end.

(** *** UTF-8 *)

Definition byte_char (n : N) : ascii := ascii_of_N n.

(** The UTF-8 encoding of a scalar value. *)
Definition encode_char (n : N) : string :=
  (if n <? 128 then String (byte_char n) ""
   else if n <? 2048 then String (byte_char (192 + n / 64)) (String (byte_char (128 + n mod 64)) "")
   else if n <? 65536 then
     String (byte_char (224 + n / 4096)) (String (byte_char (128 + n / 64 mod 64))
       (String (byte_char (128 + n mod 64)) ""))
   else String (byte_char (240 + n / 262144)) (String (byte_char (128 + n / 4096 mod 64))
       (String (byte_char (128 + n / 64 mod 64)) (String (byte_char (128 + n mod 64)) ""))))%N.

Definition encode_chars (cs : list N) : string := foldr (fun n out => encode_char n ++ out) "" cs.

Definition scalar (n : N) : Prop := (n < 55296 \/ 57344 <= n < 1114112)%N.

Definition text_ok (s : string) : Prop := utf8_valid (bytes_of s) = true.

Lemma byte_N (c : ascii) : Byte.to_N (byte_of_ascii c) = N_of_ascii c.
Proof. by destruct c as [[] [] [] [] [] [] [] []]. Qed.

Lemma between_iff lo hi c : byte_between lo hi (byte_of_ascii c) = true <-> (lo <= N_of_ascii c <= hi)%N.
Proof. unfold byte_between. rewrite byte_N, andb_true_iff, !N.leb_le. done. Qed.

Lemma bytes_of_cons c s : bytes_of (String c s) = byte_of_ascii c :: bytes_of s.
Proof. done. Qed.

Lemma byte_char_N c : byte_char (N_of_ascii c) = c.
Proof. apply ascii_N_embedding. Qed.

Lemma N_byte_char n : (n < 256)%N -> N_of_ascii (byte_char n) = n.
Proof. apply N_ascii_embedding. Qed.

Lemma encode_two b1 b2 :
  (194 <= b1 <= 223)%N -> (128 <= b2 <= 191)%N ->
  let n := ((b1 - 192) * 64 + (b2 - 128))%N in
  scalar n /\ encode_char n = String (byte_char b1) (String (byte_char b2) "").
Proof.
  intros H1 H2 n. assert (Hn : (128 <= n < 2048)%N) by lia. split; [unfold scalar; lia|].
  unfold encode_char. destruct (N.ltb_spec n 128); [lia|]. destruct (N.ltb_spec n 2048); [|lia].
  assert (n / 64 = b1 - 192)%N as -> by (symmetry; apply (N.div_unique n 64 _ (b2 - 128)); lia).
  assert (n mod 64 = b2 - 128)%N as -> by (symmetry; apply (N.mod_unique n 64 (b1 - 192)); lia).
  repeat f_equal; lia.
Qed.

Lemma encode_three b1 b2 b3 :
  (224 <= b1 <= 239)%N -> (128 <= b2 <= 191)%N -> (128 <= b3 <= 191)%N ->
  (b1 = 224 -> 160 <= b2)%N -> (b1 = 237 -> b2 <= 159)%N ->
  let n := ((b1 - 224) * 4096 + (b2 - 128) * 64 + (b3 - 128))%N in
  scalar n /\ encode_char n = String (byte_char b1) (String (byte_char b2) (String (byte_char b3) "")).
Proof.
  intros H1 H2 H3 Hlo Hhi n. assert (Hn : (2048 <= n < 65536)%N) by lia. split; [unfold scalar; lia|].
  unfold encode_char. destruct (N.ltb_spec n 128); [lia|]. destruct (N.ltb_spec n 2048); [lia|].
  destruct (N.ltb_spec n 65536); [|lia].
  assert (n / 64 = (b1 - 224) * 64 + (b2 - 128))%N as -> by (symmetry; apply (N.div_unique n 64 _ (b3 - 128)); lia).
  assert (n mod 64 = b3 - 128)%N as -> by (symmetry; apply (N.mod_unique n 64 ((b1 - 224) * 64 + (b2 - 128))); lia).
  assert (n / 4096 = b1 - 224)%N as ->
    by (symmetry; apply (N.div_unique n 4096 _ ((b2 - 128) * 64 + (b3 - 128))); lia).
  assert (((b1 - 224) * 64 + (b2 - 128)) mod 64 = b2 - 128)%N as -> by (symmetry; apply (N.mod_unique _ 64 (b1 - 224)); lia).
  repeat f_equal; lia.
Qed.

Lemma encode_four b1 b2 b3 b4 :
  (240 <= b1 <= 244)%N -> (128 <= b2 <= 191)%N -> (128 <= b3 <= 191)%N -> (128 <= b4 <= 191)%N ->
  (b1 = 240 -> 144 <= b2)%N -> (b1 = 244 -> b2 <= 143)%N ->
  let n := ((b1 - 240) * 262144 + (b2 - 128) * 4096 + (b3 - 128) * 64 + (b4 - 128))%N in
  scalar n /\ encode_char n =
    String (byte_char b1) (String (byte_char b2) (String (byte_char b3) (String (byte_char b4) ""))).
Proof.
  intros H1 H2 H3 H4 Hlo Hhi n. assert (Hn : (65536 <= n < 1114112)%N) by lia. split; [unfold scalar; lia|].
  unfold encode_char. destruct (N.ltb_spec n 128); [lia|]. destruct (N.ltb_spec n 2048); [lia|].
  destruct (N.ltb_spec n 65536); [lia|]. set (hi := ((b1 - 240) * 64 + (b2 - 128))%N).
  assert (n / 64 = hi * 64 + (b3 - 128))%N as -> by (symmetry; apply (N.div_unique n 64 _ (b4 - 128)); lia).
  assert (n mod 64 = b4 - 128)%N as -> by (symmetry; apply (N.mod_unique n 64 (hi * 64 + (b3 - 128))); lia).
  assert (n / 4096 = hi)%N as -> by (symmetry; apply (N.div_unique n 4096 _ ((b3 - 128) * 64 + (b4 - 128))); lia).
  assert (n / 262144 = b1 - 240)%N as ->
    by (symmetry; apply (N.div_unique n 262144 _ ((b2 - 128) * 4096 + (b3 - 128) * 64 + (b4 - 128))); lia).
  assert (hi mod 64 = b2 - 128)%N as -> by (symmetry; apply (N.mod_unique _ 64 (b1 - 240)); lia).
  assert ((hi * 64 + (b3 - 128)) mod 64 = b3 - 128)%N as -> by (symmetry; apply (N.mod_unique _ 64 hi); lia).
  repeat f_equal; lia.
Qed.

Lemma range_with (b : bool) lo lo' (n : N) : ((if b then lo else lo') <= n)%N -> (lo' <= lo)%N -> (lo' <= n)%N.
Proof. destruct b; lia. Qed.
Lemma range_to (b : bool) hi hi' (n : N) : (n <= (if b then hi else hi'))%N -> (hi <= hi')%N -> (n <= hi')%N.
Proof. destruct b; lia. Qed.

Lemma exactly k c : N_of_ascii c = k -> byte_between k k (byte_of_ascii c) = true.
Proof. intros <-. apply between_iff. lia. Qed.

(** The first character of valid text, and what follows it. *)
Lemma text_cases s :
  text_ok s -> s = "" \/ exists n t, scalar n /\ s = encode_char n ++ t /\ text_ok t /\ chars s = n :: chars t.
Proof.
  unfold text_ok. destruct s as [|c1 s1]; [by left|]. intros Hv. right.
  rewrite bytes_of_cons in Hv. cbn [utf8_valid] in Hv. cbn [chars].
  destruct (byte_between 0 127 (byte_of_ascii c1)) eqn:E1.
  { apply between_iff in E1. exists (N_of_ascii c1), s1. unfold scalar, encode_char.
    destruct (N.ltb_spec (N_of_ascii c1) 128); [|lia]. split_and!; [lia| |done|done].
    simpl. by rewrite byte_char_N. }
  destruct (N.ltb_spec (N_of_ascii c1) 128) as [Hlt|_]; [by rewrite (proj2 (between_iff 0 127 c1)) in E1 by lia|].
  destruct s1 as [|c2 s2]; [done|]. rewrite bytes_of_cons in Hv.
  destruct (byte_between 194 223 (byte_of_ascii c1)) eqn:E2.
  { apply andb_true_iff in Hv as [Hb2%between_iff Hv]. apply between_iff in E2.
    destruct (N.ltb_spec (N_of_ascii c1) 224); [|lia].
    destruct (encode_two _ _ E2 Hb2) as [Hs He]. eexists _, s2. split_and!; [exact Hs| |done|done].
    rewrite He. simpl. by rewrite !byte_char_N. }
  destruct s2 as [|c3 s3]; [done|]. rewrite bytes_of_cons in Hv.
  destruct (byte_between 224 239 (byte_of_ascii c1)) eqn:E3.
  { rewrite !andb_true_iff, !between_iff in Hv. destruct Hv as [[[Hlo Hhi] Hb3] Hv]. apply between_iff in E3.
    destruct (N.ltb_spec (N_of_ascii c1) 224); [lia|]. destruct (N.ltb_spec (N_of_ascii c1) 240); [|lia].
    destruct (encode_three (N_of_ascii c1) (N_of_ascii c2) (N_of_ascii c3)) as [Hs He]; [done| |done| | |].
    - split; [by eapply range_with|by eapply range_to].
    - intros Hx%exactly. by rewrite Hx in Hlo.
    - intros Hx%exactly. by rewrite Hx in Hhi.
    - eexists _, s3. split_and!; [exact Hs| |done|done]. rewrite He. simpl. by rewrite !byte_char_N. }
  destruct s3 as [|c4 s4]; [done|]. rewrite bytes_of_cons in Hv.
  rewrite !andb_true_iff, !between_iff in Hv. destruct Hv as [[[[Hb1 [Hlo Hhi]] Hb3] Hb4] Hv].
  destruct (N.ltb_spec (N_of_ascii c1) 224); [lia|]. destruct (N.ltb_spec (N_of_ascii c1) 240); [lia|].
  destruct (encode_four (N_of_ascii c1) (N_of_ascii c2) (N_of_ascii c3) (N_of_ascii c4)) as [Hs He]; [done| |done|done| | |].
  - split; [by eapply range_with|by eapply range_to].
  - intros Hx%exactly. by rewrite Hx in Hlo.
  - intros Hx%exactly. by rewrite Hx in Hhi.
  - eexists _, s4. split_and!; [exact Hs| |done|done]. rewrite He. simpl. by rewrite !byte_char_N.
Qed.

Lemma encode_char_length n : (1 <= String.length (encode_char n))%nat.
Proof. unfold encode_char. repeat destruct (_ <? _)%N; simpl; lia. Qed.

Lemma encode_chars_chars s : text_ok s -> encode_chars (chars s) = s /\ Forall scalar (chars s).
Proof.
  induction s as [s IH] using (induction_ltof1 _ String.length). intros Hv.
  destruct (text_cases s Hv) as [->|(n & t & Hn & Hs & Ht & Hc)]; [by split|].
  destruct (IH t) as [He Hf]; [|done|].
  - unfold ltof. rewrite Hs. generalize (encode_char_length n), (str_len_app (encode_char n) t). unfold str_len. lia.
  - rewrite Hc. simpl. rewrite He. split; [by rewrite <- Hs|by constructor].
Qed.

Lemma chars_inj s t : text_ok s -> text_ok t -> chars s = chars t -> s = t.
Proof.
  intros [Hs _]%encode_chars_chars [Ht _]%encode_chars_chars He. by rewrite <- Hs, <- Ht, He.
Qed.

(** *** Escapes *)

Definition read_hex4 (s : string) : option (N * string) :=
  match s with
  | String a (String b (String c (String d rest))) =>
      x ← hex_val a; y ← hex_val b; z ← hex_val c; w ← hex_val d;
      Some (x * 4096 + y * 256 + z * 16 + w, rest)%N
  | _ => None
  end.

(** The reference reading of one character of a JSON string. *)
Definition unescape (s : string) : option (N * string) :=
  match s with
  | EmptyString => None
  | String c s1 =>
      if negb (Ascii.eqb c backslash) then Some (N_of_ascii c, s1) else
      match s1 with
      | EmptyString => None
      | String e s2 =>
          if Ascii.eqb e "u" then
            '(unit, rest) ← read_hex4 s2;
            if ((unit <? 55296) || (56319 <? unit))%N then Some (unit, rest)
            else rest ← strip_prefix (String backslash "u") rest;
                 '(low, rest) ← read_hex4 rest;
                 Some (65536 + (unit - 55296) * 1024 + (low - 56320), rest)%N
          else if Ascii.eqb e "b" then Some (8%N, s2) else if Ascii.eqb e "f" then Some (12%N, s2)
          else if Ascii.eqb e "n" then Some (10%N, s2) else if Ascii.eqb e "r" then Some (13%N, s2)
          else if Ascii.eqb e "t" then Some (9%N, s2) else Some (N_of_ascii e, s2)
      end
  end.

Lemma str_app_nil_l s : "" ++ s = s.
Proof. done. Qed.

Ltac flat := repeat first [rewrite str_app_assoc | rewrite str_app_cons | rewrite str_app_nil_l].

Lemma read_hex4_hex4 n x : (n < 65536)%N -> read_hex4 (hex4 n ++ x) = Some (n, x).
Proof.
  intros Hn. unfold hex4. flat. cbn [read_hex4].
  assert (Hd : forall k, hex_val (hex_digit (k mod 16)) = Some (k mod 16)%N)
    by (intros k; apply hex_digit_cases; by apply N.mod_lt).
  rewrite !Hd. cbn [mbind option_bind]. do 2 f_equal. zify. Z.to_euclidean_division_equations. lia.
Qed.

Lemma escape_high n :
  (128 <= n)%N -> escape n =
    if (n <=? 65535)%N then String backslash "u" ++ hex4 n
    else String backslash "u" ++ hex4 (55296 + (n - 65536) / 1024)
         ++ String backslash "u" ++ hex4 (56320 + (n - 65536) mod 1024).
Proof.
  intros Hn. unfold escape. destruct (N.leb_spec n 31); [lia|]. destruct (N.ltb_spec n 128); [lia|].
  destruct n as [|p]; [lia|]. do 7 (destruct p as [p|p|]; try reflexivity; try lia).
Qed.

Lemma escape_low n x : (n < 128)%N -> unescape (escape n ++ x) = Some (n, x).
Proof.
  intros Hn. assert (Hall : Forall (fun k => unescape (escape k ++ x) = Some (k, x)) (map N.of_nat (seq 0 128)))
    by (cbn -[unescape]; repeat constructor).
  rewrite Forall_forall in Hall. apply Hall. apply list_elem_of_In, in_map_iff. exists (N.to_nat n).
  rewrite N2Nat.id. split; [done|]. apply in_seq. lia.
Qed.

Lemma unescape_escape n x : scalar n -> unescape (escape n ++ x) = Some (n, x).
Proof.
  intros Hn. destruct (N.lt_ge_cases n 128) as [Hl|Hh]; [by apply escape_low|]. rewrite escape_high by done.
  unfold scalar in Hn. destruct (N.leb_spec n 65535).
  - flat. cbn [unescape]. rewrite Ascii.eqb_refl. cbn [negb].
    rewrite read_hex4_hex4 by lia. cbn [mbind option_bind].
    replace ((n <? 55296) || (56319 <? n))%N with true; [done|]. symmetry. apply orb_true_iff.
    rewrite !N.ltb_lt. lia.
  - destruct (N.le_exists_sub 65536 n) as (m & -> & _); [lia|]. rewrite N.add_sub.
    assert (Hm : (m < 1048576)%N) by lia.
    assert (Hq : (m / 1024 < 1024)%N) by (apply N.Div0.div_lt_upper_bound; lia).
    assert (Hr : (m mod 1024 < 1024)%N) by (by apply N.mod_lt).
    flat. cbn [unescape]. rewrite Ascii.eqb_refl. cbn [negb].
    rewrite read_hex4_hex4 by lia. cbn [mbind option_bind].
    replace ((55296 + m / 1024 <? 55296) || (56319 <? 55296 + m / 1024))%N with false.
    2: { symmetry. apply orb_false_iff. rewrite !N.ltb_ge. revert Hq. generalize (m / 1024)%N. lia. }
    cbn iota. replace (strip_prefix _ _) with (Some (hex4 (56320 + m mod 1024) ++ x))
      by (symmetry; by apply strip_prefix_Some).
    cbn [mbind option_bind]. rewrite read_hex4_hex4 by (revert Hr; generalize (m mod 1024)%N; lia).
    cbn [mbind option_bind]. do 2 f_equal. assert (Hdm := N.div_mod m 1024 ltac:(done)).
    revert Hdm. generalize (m / 1024)%N (m mod 1024)%N. lia.
Qed.

Lemma escape_inj n k x y : scalar n -> scalar k -> escape n ++ x = escape k ++ y -> n = k /\ x = y.
Proof.
  intros Hn Hk He. assert (Hx := unescape_escape n x Hn). rewrite He, unescape_escape in Hx by done.
  by injection Hx as -> ->.
Qed.

Lemma escape_no_quote n x y : scalar n -> escape n ++ x <> String quote y.
Proof.
  intros Hn He. assert (Hx := unescape_escape n x Hn). rewrite He in Hx. injection Hx as Hq _.
  subst n. discriminate He.
Qed.

Lemma quoted_inj cs ds x y :
  Forall scalar cs -> Forall scalar ds ->
  foldr (fun n out => escape n ++ out) "" cs ++ String quote x
    = foldr (fun n out => escape n ++ out) "" ds ++ String quote y -> cs = ds /\ x = y.
Proof.
  intros Hcs. revert ds. induction Hcs as [|n cs Hn _ IH]; intros ds0 [|k ds Hk Hds]; cbn [foldr].
  - by intros [= ->].
  - flat. intros He. symmetry in He. by apply escape_no_quote in He.
  - flat. intros He. by apply escape_no_quote in He.
  - flat. intros [-> He]%escape_inj; [|done..]. by apply IH in He as [-> ->].
Qed.

Lemma string_text_inj s t x y :
  text_ok s -> text_ok t -> write_ascii_json_string s ++ x = write_ascii_json_string t ++ y -> s = t /\ x = y.
Proof.
  intros Hs Ht. unfold write_ascii_json_string. flat.
  intros [= He]. destruct (encode_chars_chars s Hs) as [_ Hcs], (encode_chars_chars t Ht) as [_ Hct].
  apply quoted_inj in He as [He ->]; [|done..]. split; [by apply chars_inj|done].
Qed.

(** *** Numbers *)

Definition number_char (c : ascii) : bool := is_digit c || str_mem c "+-.eE".

Definition stops (x : string) : Prop :=
  match x with EmptyString => True | String c _ => number_char c = false end.

Lemma span_inj a b x y :
  str_all number_char a = true -> str_all number_char b = true -> stops x -> stops y ->
  a ++ x = b ++ y -> a = b /\ x = y.
Proof.
  revert b. induction a as [|c a IH]; intros [|d b]; cbn [str_all]; flat; rewrite ?andb_true_iff.
  - done.
  - by intros _ [Hd _] Hx _ ->; simpl in Hx; rewrite Hd in Hx.
  - by intros [Hc _] _ _ Hy <-; simpl in Hy; rewrite Hc in Hy.
  - intros [_ Ha] [_ Hb] Hx Hy [= -> He]. by destruct (IH b Ha Hb Hx Hy He) as [-> ->].
Qed.

Section canonical.
Context `{Floats}.

(** The values [serde_json] makes: machine integers, finite floats. *)
Definition number_ok (n : number) : Prop :=
  match n with
  | PosInt n => (n <= u64_max)%N
  | NegInt z => (- 9223372036854775808 <= z < 0)%Z
  | Float x => f64_finite x = true
  end.

Lemma digits_number s : str_all is_digit s = true -> str_all number_char s = true.
Proof.
  induction s as [|c s IH]; [done|]. cbn [str_all]. rewrite !andb_true_iff. intros [Hc Hs].
  split; [unfold number_char; by rewrite Hc|by apply IH].
Qed.

Lemma number_text_chars n : number_ok n -> str_all number_char (number_text n) = true.
Proof.
  destruct n as [n|z|x]; simpl; intros Hn.
  - apply digits_number, dec_digits.
  - apply digits_number, dec_digits.
  - by apply f64_text_chars.
Qed.

Lemma digits_unmarked s : str_all is_digit s = true -> str_any (fun c => str_mem c ".e") s = false.
Proof.
  unfold str_any. rewrite negb_false_iff. induction s as [|c s IH]; [done|]. cbn [str_all].
  rewrite !andb_true_iff. intros [Hc Hs]. split; [|by apply IH].
  destruct (str_mem c ".e") eqn:Em; [|done]. exfalso. revert Hc Em. unfold str_mem, str_any. simpl.
  destruct (Ascii.eqb_spec c ".") as [->|]; [done|]. destruct (Ascii.eqb_spec c "e") as [->|]; done.
Qed.

Lemma number_text_unmarked n :
  match n with Float _ => False | _ => True end -> str_any (fun c => str_mem c ".e") (number_text n) = false.
Proof.
  destruct n as [n|z|x]; simpl; intros Hn; [apply digits_unmarked, dec_digits| |done].
  assert (Hd := digits_unmarked _ (dec_digits (Z.to_N (- z)))). unfold str_any in *.
  rewrite negb_false_iff in *. cbn [str_all]. by rewrite Hd.
Qed.

Lemma dec_head n : exists d s, dec n = String d s /\ is_digit d = true.
Proof. apply dec_go_cons. Qed.

Lemma float_apart n y :
  match n with Float _ => False | _ => True end -> f64_finite y = true -> number_text n <> f64_text y.
Proof.
  intros Hn Hy He. assert (Hm := f64_text_marked y Hy). rewrite <- He in Hm. by rewrite number_text_unmarked in Hm.
Qed.

Lemma number_text_inj n k : number_ok n -> number_ok k -> number_text n = number_text k -> n = k.
Proof.
  intros Hn Hk. destruct n as [n|z|x], k as [k|w|y]; intros He.
  - f_equal. by apply dec_inj.
  - destruct (dec_head n) as (d & s & Hd & Hdig). cbn [number_text] in He. rewrite Hd in He. injection He as -> _. done.
  - by destruct (float_apart (PosInt n) y I Hk).
  - destruct (dec_head k) as (d & s & Hd & Hdig). cbn [number_text] in He. rewrite Hd in He. injection He as <- _. done.
  - injection He as He%dec_inj. f_equal. simpl in Hn, Hk. lia.
  - by destruct (float_apart (NegInt z) y I Hk).
  - by destruct (float_apart (PosInt k) x I Hn).
  - by destruct (float_apart (NegInt w) x I Hn).
  - f_equal. by apply f64_text_inj.
Qed.

Lemma number_text_head n : number_ok n -> exists c s, number_text n = String c s /\ number_char c = true.
Proof.
  intros Hn. assert (Hc := number_text_chars n Hn). destruct (number_text n) as [|c s] eqn:Et.
  - exfalso. destruct n as [n|z|x]; cbn [number_text] in Et.
    + destruct (dec_head n) as (d & s & Hd & _). congruence.
    + done.
    + assert (Hm := f64_text_marked x Hn). by rewrite Et in Hm.
  - exists c, s. split; [done|]. by apply andb_true_iff in Hc as [? _].
Qed.

(** *** Values *)

Inductive value_ok : json -> Prop :=
| ok_null : value_ok JNull
| ok_bool b : value_ok (JBool b)
| ok_number n : number_ok n -> value_ok (JNumber n)
| ok_string s : text_ok s -> value_ok (JString s)
| ok_array values : Forall value_ok values -> value_ok (JArray values)
| ok_object entries : Forall (fun e => text_ok e.1 /\ value_ok e.2) entries -> value_ok (JObject entries).

(** Texts that can be told apart however they are continued. *)
Definition told_apart {A : Type} (text : A -> string) (P : A -> Prop) (a : A) : Prop :=
  forall b x y, P b -> stops x -> stops y -> text a ++ x = text b ++ y -> a = b /\ x = y.

Lemma concat_cons (a b : string) l : String.concat "," (a :: b :: l) = a ++ "," ++ String.concat "," (b :: l).
Proof. done. Qed.

Lemma concat_apart {A : Type} (text : A -> string) (P : A -> Prop) (close : ascii) l :
  close <> ","%char -> number_char close = false ->
  (forall a x y, P a -> text a ++ x <> String close y) ->
  Forall P l -> Forall (told_apart text P) l ->
  forall k x y, Forall P k ->
    String.concat "," (map text l) ++ String close x = String.concat "," (map text k) ++ String close y -> l = k /\ x = y.
Proof.
  intros Hc Hn Hno Hl Hap. induction Hap as [|a l Ha Hap IH]; intros k x y Hk.
  - destruct Hk as [|b k Hb Hk]; [by intros [= ->]|]. intros He. exfalso.
    destruct k; [|rewrite map_cons, map_cons, concat_cons in He; rewrite str_app_assoc in He];
      symmetry in He; by apply Hno in He.
  - apply Forall_cons in Hl as [Pa Hl]. specialize (IH Hl).
    destruct Hk as [|b k Hb Hk].
    { intros He. exfalso. destruct l; [|rewrite map_cons, map_cons, concat_cons in He; rewrite str_app_assoc in He];
        by apply Hno in He. }
    rewrite !map_cons. destruct l as [|a' l], k as [|b' k].
    + simpl. intros He. by apply Ha in He as [-> [= ->]].
    + rewrite map_cons, concat_cons. simpl map. cbn [String.concat]. flat. intros He.
      apply Ha in He as [_ [= Hx _]]; done.
    + rewrite map_cons, concat_cons. simpl map. cbn [String.concat]. flat. intros He.
      apply Ha in He as [_ [= Hx _]]; done.
    + rewrite !map_cons, !concat_cons. flat. intros He.
      apply Ha in He as [-> [= He']]; [|done..].
      by apply (IH (b' :: k) x y Hk) in He' as [-> ->].
Qed.

(** The first character of a value's text names its kind. *)
Definition kind (v : json) : ascii -> bool :=
  match v with
  | JNull => Ascii.eqb "n"
  | JBool true => Ascii.eqb "t"
  | JBool false => Ascii.eqb "f"
  | JNumber _ => number_char
  | JString _ => Ascii.eqb quote
  | JArray _ => Ascii.eqb "["
  | JObject _ => Ascii.eqb "{"
  end.

Lemma text_head v : value_ok v -> exists c s, write_canonical_json v = String c s /\ kind v c = true.
Proof.
  destruct 1 as [|[]|n Hn| | |]; cbn [write_canonical_json]; try (by eexists _, _).
  destruct (number_text_head n Hn) as (c & s & -> & Hc). by exists c, s.
Qed.

Lemma text_not_close v close x y :
  value_ok v -> (forall c, kind v c = true -> c <> close) -> write_canonical_json v ++ x <> String close y.
Proof.
  intros Hv Hk. destruct (text_head v Hv) as (c & s & -> & Hc). flat. intros [= He _]. by destruct (Hk c Hc).
Qed.

Lemma kind_not v close c :
  close = "]"%char \/ close = "}"%char -> kind v c = true -> c <> close.
Proof. by intros [-> | ->]; destruct v as [|[]| | | |]; intros Hk ->. Qed.

Lemma member_apart entry : text_ok entry.1 -> told_apart write_canonical_json value_ok entry.2 ->
  told_apart (fun '(key, v) => write_ascii_json_string key ++ ":" ++ write_canonical_json v)
    (fun e => text_ok e.1 /\ value_ok e.2) entry.
Proof.
  destruct entry as [key v]. cbn [fst snd]. intros Hk Hv [key' v'] x y [Hk' Hv'] Hx Hy. flat.
  intros [-> [= He]]%string_text_inj; [|done..]. by apply Hv in He as [-> ->].
Qed.

Definition tag (v : json) : N :=
  match v with
  | JNull => 0
  | JBool true => 1
  | JBool false => 2
  | JNumber _ => 3
  | JString _ => 4
  | JArray _ => 5
  | JObject _ => 6
  end.

Lemma kind_tag v w c : kind v c = true -> kind w c = true -> tag v = tag w.
Proof.
  destruct v as [|[]| | | |], w as [|[]| | | |]; try done; cbn [kind]; intros Hv Hw; exfalso;
    repeat match goal with Hx : Ascii.eqb _ _ = true |- _ => apply Ascii.eqb_eq in Hx; subst c end;
    match goal with Hx : _ = true |- _ => by vm_compute in Hx end.
Qed.

Lemma same_tag v w x y :
  value_ok v -> value_ok w -> write_canonical_json v ++ x = write_canonical_json w ++ y -> tag v = tag w.
Proof.
  intros Hv Hw. destruct (text_head v Hv) as (c & s & -> & Hc). destruct (text_head w Hw) as (d & t & -> & Hd).
  flat. intros [= -> _]. by eapply kind_tag.
Qed.

Lemma canonical_apart v : value_ok v -> told_apart write_canonical_json value_ok v.
Proof.
  induction v as [|b|n|s|values IH|entries IH] using nested_ind; intros Hv w x y Hw Hx Hy He;
    assert (Ht := same_tag _ _ _ _ Hv Hw He).
  - by destruct w as [|[]| | | |]; try done; apply str_app_inj in He as [_ ->].
  - by destruct b, w as [|[]| | | |]; try done; apply str_app_inj in He as [_ ->].
  - destruct w as [|[]|k| | |]; try done. inversion Hv; inversion Hw; subst.
    apply span_inj in He as [He ->]; [|by apply number_text_chars..|done|done].
    apply number_text_inj in He as ->; done.
  - destruct w as [|[]| |t| |]; try done. inversion Hv; inversion Hw; subst.
    by apply string_text_inj in He as [-> ->].
  - destruct w as [|[]| | |others|]; try done. inversion Hv as [| | | |? Hvs|]; inversion Hw as [| | | |? Hws|]; subst.
    cbn [write_canonical_json] in He. revert He. flat. intros [= He].
    apply (concat_apart write_canonical_json value_ok "]") in He as [-> ->]; try done.
    + intros a x' y' Ha. apply text_not_close; [done|]. intros c. by apply kind_not; left.
    + rewrite Forall_forall in IH, Hvs |- *. intros a Ha. by apply IH, Hvs.
  - destruct w as [|[]| | | |others]; try done. inversion Hv as [| | | | |? Hvs]; inversion Hw as [| | | | |? Hws]; subst.
    cbn [write_canonical_json] in He. revert He. flat. intros [= He].
    apply (concat_apart _ (fun e => text_ok e.1 /\ value_ok e.2) "}") in He as [-> ->]; try done.
    + intros [key a] x' y' [Ha _]. unfold write_ascii_json_string. flat. discriminate.
    + rewrite Forall_forall in IH, Hvs |- *. intros e He'. destruct (Hvs e He'). by apply member_apart, IH.
Qed.

End canonical.

Lemma canonical_inj `{Floats} v w :
  value_ok v -> value_ok w -> write_canonical_json v = write_canonical_json w -> v = w.
Proof.
  intros Hv Hw He. destruct (canonical_apart v Hv w "" "" Hw I I) as [-> _]; [by rewrite !str_app_nil_r|done].
Qed.

(** C31: the signed bytes determine the manifest.  Two manifests with the
    same canonical bytes are objects with the same fields and values, the
    signature field apart: no change of a key, a string (escapes, surrogate
    pairs and all), a number, an order or a nesting leaves the bytes as they
    were. *)
Theorem canonical_bytes_determine_manifest `{Floats} m m' bytes :
  value_ok m -> value_ok m' ->
  canonicalize_rp_manifest m = Ok bytes -> canonicalize_rp_manifest m' = Ok bytes ->
  exists fields fields', m = JObject fields /\ m' = JObject fields' /\
    obj_remove "publication_signature" fields = obj_remove "publication_signature" fields'.
Proof.
  intros Hm Hm'. destruct Hm as [|b|n Hn|s Hs|vs Hvs|fields Hf]; try done.
  destruct Hm' as [|b|n Hn|s Hs|vs Hvs|fields' Hf']; try done. unfold canonicalize_rp_manifest.
  destruct (obj_get _ fields); [|done]. destruct (obj_get _ fields'); [|done]. intros H1 H2.
  rewrite <- H2 in H1. clear H2. exists fields, fields'. split_and!; [done..|].
  assert (He : bytes_of (write_canonical_json (JObject (obj_remove "publication_signature" fields)))
    = bytes_of (write_canonical_json (JObject (obj_remove "publication_signature" fields')))) by congruence.
  apply bytes_of_inj, canonical_inj in He; [congruence| |].
  - apply ok_object. rewrite Forall_forall in Hf |- *. intros e [_ He']%list_elem_of_filter. by apply Hf.
  - apply ok_object. rewrite Forall_forall in Hf' |- *. intros e [_ He']%list_elem_of_filter. by apply Hf'.
Qed.

(** ** A demo: floats that are whole numbers *)

Module DemoFloats.
Definition text (n : N) : string := dec n ++ ".0".

Lemma text_inj a b : text a = text b -> a = b.
Proof.
  unfold text. intros He. apply dec_inj.
  assert (Hs : forall n, split_once "." (dec n ++ String "." "0") = Some (dec n, "0"))
    by (intros n; apply split_once_app, digits_not_mem; [done|apply dec_digits]).
  assert (H := Hs a). rewrite He in H. rewrite Hs in H. by injection H as ->.
Qed.

Lemma text_chars n : str_all (fun c => is_digit c || str_mem c "+-.eE") (text n) = true.
Proof.
  unfold text. rewrite str_all_app, andb_true_r. apply (digits_number (dec n)), dec_digits.
Qed.

Lemma text_marked n : str_any (fun c => str_mem c ".e") (text n) = true.
Proof.
  unfold text, str_any. rewrite str_all_app. by rewrite andb_false_r.
Qed.

#[global] Instance floats : Floats := {|
  f64 := N;
  f64_eqb := N.eqb;
  f64_finite := fun _ => true;
  f64_negative := fun _ => false;
  f64_text := text;
  f64_reads_finite := fun _ => true;
  f64_text_inj := fun x y _ _ => text_inj x y;
  f64_text_chars := fun x _ => text_chars x;
  f64_text_marked := fun x _ => text_marked x;
|}.
End DemoFloats.

Lemma canonical_bytes_determine_manifest_witness :
  let body := JObject [("name", JString "left"); ("size", JNumber (PosInt 3))] in
  let signed s := JObject [("name", JString "left"); ("publication_signature", JString s); ("size", JNumber (PosInt 3))] in
  (exists bytes, canonicalize_rp_manifest (signed "a") = Ok bytes /\ canonicalize_rp_manifest (signed "b") = Ok bytes) /\
  write_canonical_json body <> "" /\
  exists f g, signed "a" = JObject f /\ signed "b" = JObject g /\
    obj_remove "publication_signature" f = obj_remove "publication_signature" g.
Proof.
  intros body signed. assert (Hs : forall s, text_ok s -> value_ok (signed s)).
  { intros s Hs. apply ok_object. repeat constructor; try exact Hs; by vm_compute. }
  split; [eexists; split; vm_compute; reflexivity|]. split; [discriminate|].
  eapply (canonical_bytes_determine_manifest (signed "a") (signed "b"));
    [apply Hs; reflexivity|apply Hs; reflexivity|vm_compute; reflexivity|vm_compute; reflexivity].
Defined.
