(* ===== verification/StrictJson.v ===== *)
(** * Audit: strict JSON before it becomes a map (publication.rs)

[StrictJsonAudit] reads the text once and refuses what [serde_json] would
accept or hide: equal keys of one object, non-finite numbers, lone
surrogates.  The scanner's offset is the text that is left.  Its recursion
is bounded by the text: [audit_fuel] calls are enough for any text, which is
part of [strict_audit_is_strict_json]. *)

From Stdlib Require Import NArith ZArith Lia Ascii String.
From stdpp Require Import base numbers list strings.
From S2P Require Import Prelude Domain Files Json.

Local Open Scope string_scope.

(** [serde_json::from_str], at [Value] and at [String]; its values hold UTF-8
    text, machine integers and finite floats. *)
Class JsonText `{Floats} := {
  json_from_str : string -> option json;
  string_from_str : string -> option string;
  json_from_str_ok : forall s v, json_from_str s = Some v -> value_ok v;
}.

(** ** Surrogate escapes *)

Fixpoint hex_number (acc : N) (s : string) : option N :=
  match s with
  | EmptyString => Some acc
  | String c s' => match hex_val c with Some d => hex_number (acc * 16 + d) s' | None => None end
  end.

(** [validate_surrogate_escapes, parse] (publication.rs:105-109): four bytes,
    of which [u16::from_str_radix] takes the first as a sign if it is [+]. *)
Definition unit_at (s : string) : option N :=
  if (str_len s <? 4)%N then None else
  match str_take 4 s with
  | String "+" v => hex_number 0 v
  | v => hex_number 0 v
  end.

Fixpoint surrogates (fuel : nat) (s : string) : result PublicationTrustError unit :=
  match fuel with
  | O => Ok tt
  | S fuel' =>
      if (str_len s <=? 5)%N then Ok tt else
      match strip_prefix (String backslash "u") s with
      | None => surrogates fuel' (str_drop 1 s)
      | Some r =>
          match unit_at r with
          | None => rejected BadUnicodeEscape
          | Some unit =>
              if ((55296 <=? unit) && (unit <=? 56319))%N then
                match (r ← strip_prefix (String backslash "u") (str_drop 4 r); unit_at r) with
                | None => rejected IsolatedSurrogate
                | Some low =>
                    if ((56320 <=? low) && (low <=? 57343))%N then surrogates fuel' (str_drop 12 s)
                    else rejected IsolatedSurrogate
                end
              else if ((56320 <=? unit) && (unit <=? 57343))%N then rejected IsolatedSurrogate
              else surrogates fuel' (str_drop 6 s)
          end
      end
  end.

(** [validate_surrogate_escapes] (publication.rs:97-131). *)
Definition validate_surrogate_escapes (text : string) : result PublicationTrustError unit :=
  surrogates (String.length text) text.

(** ** Tokens *)

(** [u8::is_ascii_whitespace]. *)
Definition is_ws (c : ascii) : bool :=
  let b := N_of_ascii c in ((b =? 32) || (b =? 9) || (b =? 10) || (b =? 12) || (b =? 13))%N.

(** [StrictJsonAudit::ws] (publication.rs:238-246). *)
Fixpoint ws (s : string) : string :=
  match s with
  | String c s' => if is_ws c then ws s' else s
  | EmptyString => s
  end.

(** [StrictJsonAudit::take] (publication.rs:313-315). *)
Definition take_byte (c : ascii) (s : string) : option string :=
  match s with
  | String d s' => if Ascii.eqb d c then Some s' else None
  | EmptyString => None
  end.

(** [StrictJsonAudit::literal] (publication.rs:260-267). *)
Definition audit_literal (expected s : string) : result PublicationTrustError string :=
  match strip_prefix expected s with
  | Some rest => Ok rest
  | None => rejected BadLiteral
  end.

Definition plain_escape (c : ascii) : bool := Ascii.eqb c quote || str_mem c "\/bfnrt".

(** [StrictJsonAudit::string, loop] (publication.rs:322-363): the token up to its
    closing quote, and what follows it. *)
Fixpoint scan_string (s : string) : result PublicationTrustError (string * string) :=
  match s with
  | EmptyString => rejected Unterminated
  | String c s1 =>
      if Ascii.eqb c backslash then
        match s1 with
        | EmptyString => rejected Unterminated
        | String e s2 =>
            if Ascii.eqb e "u" then
              match s2 with
              | String h1 (String h2 (String h3 (String h4 s3))) =>
                  if is_hexdigit h1 && is_hexdigit h2 && is_hexdigit h3 && is_hexdigit h4 then
                    let? (token, rest) := scan_string s3 in
                    Ok (String c (String e (String h1 (String h2 (String h3 (String h4 token))))), rest)
                  else rejected BadUnicodeEscape
              | _ => rejected BadUnicodeEscape
              end
            else if plain_escape e then
              let? (token, rest) := scan_string s2 in Ok (String c (String e token), rest)
            else rejected BadEscape
        end
      else if Ascii.eqb c quote then Ok (String quote "", s1)
      else if (N_of_ascii c <? 32)%N then rejected ControlCharacter
      else let? (token, rest) := scan_string s1 in Ok (String c token, rest)
  end.

Definition surrogate_char (n : N) : bool := ((55296 <=? n) && (n <=? 57343))%N.

(** [StrictJsonAudit::string] (publication.rs:316-364): the decoded text, and the rest. *)
Definition audit_string `{JsonText} (s : string) : result PublicationTrustError (string * string) :=
  match take_byte quote s with
  | None => rejected BadString
  | Some s1 =>
      let? (token, rest) := scan_string s1 in
      match string_from_str (String quote token) with
      | None => rejected BadStringText
      | Some decoded =>
          if existsb surrogate_char (chars decoded) then rejected IsolatedSurrogate
          else Ok (decoded, rest)
      end
  end.

(** A run of ASCII digits, and the rest. *)
Fixpoint digit_run (s : string) : string * string :=
  match s with
  | String c s' => if is_digit c then let '(d, r) := digit_run s' in (String c d, r) else ("", s)
  | EmptyString => ("", s)
  end.

(** A run of at least one digit, as the fraction and the exponent need. *)
Definition digits_after (mark s : string) : result PublicationTrustError (string * string) :=
  match digit_run s with
  | ("", _) => rejected BadNumber
  | (d, rest) => Ok (mark ++ d, rest)
  end.

(** [StrictJsonAudit::number, integer] (publication.rs:368-379). *)
Definition integer_part (s : string) : result PublicationTrustError (string * string) :=
  match s with
  | String "0" rest => Ok ("0", rest)
  | String c _ => if byte_in 49 57 c then Ok (digit_run s) else rejected BadNumber
  | EmptyString => rejected BadNumber
  end.

(** [StrictJsonAudit::number, fraction] (publication.rs:380-388). *)
Definition fraction_part (s : string) : result PublicationTrustError (string * string) :=
  match s with
  | String "." s1 => digits_after "." s1
  | _ => Ok ("", s)
  end.

(** [StrictJsonAudit::number, exponent] (publication.rs:389-409). *)
Definition exponent_part (s : string) : result PublicationTrustError (string * string) :=
  match s with
  | String c s1 =>
      if Ascii.eqb c "e" || Ascii.eqb c "E" then
        match s1 with
        | String sign s2 =>
            if Ascii.eqb sign "+" || Ascii.eqb sign "-" then digits_after (String c (String sign "")) s2
            else digits_after (String c "") s1
        | EmptyString => digits_after (String c "") s1
        end
      else Ok ("", s)
  | EmptyString => Ok ("", s)
  end.

(** [StrictJsonAudit::number] (publication.rs:365-415). *)
Definition audit_number `{Floats} (s : string) : result PublicationTrustError string :=
  let '(sign, s1) := match s with String "-" r => ("-", r) | _ => ("", s) end in
  let? (integer, s2) := integer_part s1 in
  let? (fraction, s3) := fraction_part s2 in
  let? (exponent, s4) := exponent_part s3 in
  if f64_reads_finite (sign ++ integer ++ fraction ++ exponent) then Ok s4 else rejected NonFiniteNumber.

(** ** Values *)

(** [StrictJsonAudit::value, object, array] (publication.rs:247-312). *)
Fixpoint audit_value `{JsonText} (fuel : nat) (s : string) : result PublicationTrustError string :=
  match fuel with
  | O => rejected BadValue
  | S fuel' =>
      match ws s with
      | String c rest =>
          if Ascii.eqb c "{" then
            match take_byte "}" (ws rest) with
            | Some r => Ok r
            | None => audit_members fuel' [] (ws rest)
            end
          else if Ascii.eqb c "[" then
            match take_byte "]" (ws rest) with
            | Some r => Ok r
            | None => audit_elements fuel' (ws rest)
            end
          else if Ascii.eqb c quote then let? (_, r) := audit_string (String c rest) in Ok r
          else if Ascii.eqb c "t" then audit_literal "true" (String c rest)
          else if Ascii.eqb c "f" then audit_literal "false" (String c rest)
          else if Ascii.eqb c "n" then audit_literal "null" (String c rest)
          else if Ascii.eqb c "-" || is_digit c then audit_number (String c rest)
          else rejected BadValue
      | EmptyString => rejected BadValue
      end
  end
(** The loop of [StrictJsonAudit::object]. *)
with audit_members `{JsonText} (fuel : nat) (keys : list string) (s : string)
    : result PublicationTrustError string :=
  match fuel with
  | O => rejected BadValue
  | S fuel' =>
      let? (key, s1) := audit_string (ws s) in
      if bool_decide (key ∈ keys) then rejected DuplicateKey else
      match take_byte ":" (ws s1) with
      | None => rejected BadObject
      | Some s2 =>
          let? s3 := audit_value fuel' s2 in
          match take_byte "}" (ws s3) with
          | Some r => Ok r
          | None => match take_byte "," (ws s3) with
                    | None => rejected BadObject
                    | Some s4 => audit_members fuel' (key :: keys) s4
                    end
          end
      end
  end
(** The loop of [StrictJsonAudit::array]. *)
with audit_elements `{JsonText} (fuel : nat) (s : string) : result PublicationTrustError string :=
  match fuel with
  | O => rejected BadValue
  | S fuel' =>
      let? s1 := audit_value fuel' s in
      match take_byte "]" (ws s1) with
      | Some r => Ok r
      | None => match take_byte "," (ws s1) with
                | None => rejected BadArray
                | Some s2 => audit_elements fuel' s2
                end
      end
  end.

Definition audit_fuel (s : string) : nat := (2 * String.length s + 2)%nat.

(** [StrictJsonAudit::audit] (publication.rs:228-237). *)
Definition audit `{JsonText} (text : string) : result PublicationTrustError unit :=
  let? rest := audit_value (audit_fuel text) (ws text) in
  match ws rest with
  | EmptyString => Ok tt
  | _ => rejected TrailingData
  end.

(** [parse_strict_json] (publication.rs:88-95). *)
Definition parse_strict_json `{JsonText} (raw : list byte) : result PublicationTrustError json :=
  if negb (utf8_valid raw) then rejected NotUtf8 else
  let text := string_of_list_byte raw in
  let? _ := validate_surrogate_escapes text in
  let? _ := audit text in
  ok_or (json_from_str text) (Rejected NotJson).

(** ** Strict JSON as a grammar *)

(** What a string token holds after its opening quote. *)
Inductive string_rest : string -> Prop :=
| rest_end : string_rest (String quote "")
| rest_plain c t : c <> backslash -> c <> quote -> (32 <= N_of_ascii c)%N -> string_rest t -> string_rest (String c t)
| rest_escape e t : plain_escape e = true -> string_rest t -> string_rest (String backslash (String e t))
| rest_unit a b c d t :
    is_hexdigit a = true -> is_hexdigit b = true -> is_hexdigit c = true -> is_hexdigit d = true -> string_rest t ->
    string_rest (String backslash (String "u" (String a (String b (String c (String d t)))))).

Definition digits1 (s : string) : Prop := s <> "" /\ str_all is_digit s = true.

Inductive integer_text : string -> Prop :=
| int_zero : integer_text "0"
| int_digits c t : byte_in 49 57 c = true -> str_all is_digit t = true -> integer_text (String c t).

Inductive fraction_text : string -> Prop :=
| no_fraction : fraction_text ""
| fraction d : digits1 d -> fraction_text (String "." d).

Inductive exponent_text : string -> Prop :=
| no_exponent : exponent_text ""
| exponent e d : e = "e"%char \/ e = "E"%char -> digits1 d -> exponent_text (String e d)
| signed_exponent e s d : e = "e"%char \/ e = "E"%char -> s = "+"%char \/ s = "-"%char -> digits1 d ->
    exponent_text (String e (String s d)).

Definition blank (s : string) : Prop := str_all is_ws s = true.

Section grammar.
Context `{JsonText}.

Inductive string_token : string -> string -> Prop :=
| token t key : string_rest t -> string_from_str (String quote t) = Some key ->
    existsb surrogate_char (chars key) = false -> string_token (String quote t) key.

Inductive number_token : string -> Prop :=
| number_tok sign i f e : sign = "" \/ sign = "-" -> integer_text i -> fraction_text f -> exponent_text e ->
    f64_reads_finite (sign ++ i ++ f ++ e) = true -> number_token (sign ++ i ++ f ++ e).

(** A value, with the white space before it; the elements and the members up
    to the closing bracket. *)
Inductive strict : string -> Prop :=
| st_literal w l : blank w -> l = "true" \/ l = "false" \/ l = "null" -> strict (w ++ l)
| st_number w n : blank w -> number_token n -> strict (w ++ n)
| st_string w t key : blank w -> string_token t key -> strict (w ++ t)
| st_empty_array w w' : blank w -> blank w' -> strict (w ++ "[" ++ w' ++ "]")
| st_array w e : blank w -> elements e -> strict (w ++ "[" ++ e)
| st_empty_object w w' : blank w -> blank w' -> strict (w ++ "{" ++ w' ++ "}")
| st_object w m keys : blank w -> members m keys -> NoDup keys -> strict (w ++ "{" ++ m)
with elements : string -> Prop :=
| el_last v w : strict v -> blank w -> elements (v ++ w ++ "]")
| el_more v w e : strict v -> blank w -> elements e -> elements (v ++ w ++ "," ++ e)
with members : string -> list string -> Prop :=
| mb_last w t key w' v w'' : blank w -> string_token t key -> blank w' -> strict v -> blank w'' ->
    members (w ++ t ++ w' ++ ":" ++ v ++ w'' ++ "}") [key]
| mb_more w t key w' v w'' m keys : blank w -> string_token t key -> blank w' -> strict v -> blank w'' ->
    members m keys -> members (w ++ t ++ w' ++ ":" ++ v ++ w'' ++ "," ++ m) (key :: keys).

(** A document: one value and white space. *)
Definition strict_document (text : string) : Prop := exists v w, text = v ++ w /\ strict v /\ blank w.
End grammar.

(** ** White space, runs and tokens *)

Ltac flat_in H := repeat first [rewrite str_app_assoc in H | rewrite str_app_cons in H | rewrite str_app_nil_l in H].

Definition starts (p : ascii -> bool) (s : string) : bool :=
  match s with String c _ => p c | EmptyString => false end.

Lemma ws_split s : exists w, s = w ++ ws s /\ blank w /\ starts is_ws (ws s) = false.
Proof.
  induction s as [|c s (w & He & Hw & Hs)]; [by exists ""|]. simpl. destruct (is_ws c) eqn:Ec.
  - exists (String c w). flat. rewrite <- He. split_and!; [done| |done]. unfold blank. simpl. by rewrite Ec.
  - exists "". by split_and!.
Qed.

Lemma ws_skip w s : blank w -> ws (w ++ s) = ws s.
Proof.
  unfold blank. induction w as [|c w IH]; [done|]. cbn [str_all]. rewrite andb_true_iff. intros [Hc Hw].
  flat. simpl. rewrite Hc. by apply IH.
Qed.

Lemma ws_stop s : starts is_ws s = false -> ws s = s.
Proof. destruct s as [|c s]; [done|]. simpl. by intros ->. Qed.

Lemma ws_idem s : ws (ws s) = ws s.
Proof. destruct (ws_split s) as (w & _ & _ & Hs). by apply ws_stop. Qed.

Lemma ws_number c : is_ws c = true -> number_char c = false.
Proof.
  unfold is_ws. rewrite !orb_true_iff, !N.eqb_eq. rewrite <- (ascii_N_embedding c) at 6.
  intros [[[[->| ->]| ->]| ->]| ->]; reflexivity.
Qed.

Lemma stops_blank w c r : blank w -> number_char c = false -> stops (w ++ String c r).
Proof.
  destruct w as [|d w]; [done|]. unfold blank. cbn [str_all]. rewrite andb_true_iff. intros [Hd _] _.
  by apply ws_number.
Qed.

Lemma stops_ws w r : blank w -> stops r -> stops (w ++ r).
Proof.
  destruct w as [|d w]; [done|]. unfold blank. cbn [str_all]. rewrite andb_true_iff. intros [Hd _] _.
  by apply ws_number.
Qed.

Lemma take_Some c s r : take_byte c s = Some r <-> s = String c r.
Proof.
  destruct s as [|d s]; [done|]. simpl. destruct (Ascii.eqb_spec d c) as [->|Hne]; split; try congruence; done.
Qed.

Lemma take_cons c r : take_byte c (String c r) = Some r.
Proof. by apply take_Some. Qed.

Lemma scan_exact s t r : scan_string s = Ok (t, r) <-> string_rest t /\ s = t ++ r.
Proof.
  split.
  - revert t r. induction s as [s IH] using (induction_ltof1 _ String.length). intros t r.
    destruct s as [|c s]; [done|]. cbn [scan_string]. destruct (Ascii.eqb_spec c backslash) as [->|Hc].
    + destruct s as [|e s]; [done|]. destruct (Ascii.eqb_spec e "u") as [->|He].
      * destruct s as [|h1 [|h2 [|h3 [|h4 s]]]]; try done. destruct (_ && _) eqn:Eh; [|done].
        rewrite !andb_true_iff in Eh. destruct Eh as [[[? ?] ?] ?]. rewrite rbind_ok.
        intros ([t' r'] & Hs & [= <- <-]). apply IH in Hs as [Ht ->]; [|unfold ltof; simpl; lia].
        split; [by constructor|done].
      * destruct (plain_escape e) eqn:Ep; [|done]. rewrite rbind_ok. intros ([t' r'] & Hs & [= <- <-]).
        apply IH in Hs as [Ht ->]; [|unfold ltof; simpl; lia]. split; [by constructor|done].
    + destruct (Ascii.eqb_spec c quote) as [->|Hq]; [intros [= <- <-]; by split; [constructor|]|].
      destruct (N.ltb_spec (N_of_ascii c) 32); [done|]. rewrite rbind_ok. intros ([t' r'] & Hs & [= <- <-]).
      apply IH in Hs as [Ht ->]; [|unfold ltof; simpl; lia]. split; [by constructor|done].
  - intros [Ht ->]. induction Ht as [|c t Hb Hq Hc _ IH|e t He _ IH|a b c d t Ha Hb Hc Hd _ IH]; flat; cbn [scan_string].
    + done.
    + rewrite (proj2 (Ascii.eqb_neq _ _) Hb), (proj2 (Ascii.eqb_neq _ _) Hq).
      destruct (N.ltb_spec (N_of_ascii c) 32); [lia|]. by rewrite IH.
    + rewrite Ascii.eqb_refl. destruct (Ascii.eqb_spec e "u") as [->|_]; [done|]. by rewrite He, IH.
    + rewrite !Ascii.eqb_refl, Ha, Hb, Hc, Hd. simpl. by rewrite IH.
Qed.

Lemma digit_run_split s d r : digit_run s = (d, r) -> s = d ++ r /\ str_all is_digit d = true /\ starts is_digit r = false.
Proof.
  revert d r. induction s as [|c s IH]; intros d r; cbn [digit_run]; [by intros [= <- <-]|].
  destruct (is_digit c) eqn:Ec; [|by intros [= <- <-]]. destruct (digit_run s) as [d' r'] eqn:Es.
  intros [= <- <-]. destruct (IH d' r' eq_refl) as (-> & Hd & Hr). cbn [str_all]. by rewrite Ec, Hd.
Qed.

Lemma digit_run_app d r : str_all is_digit d = true -> starts is_digit r = false -> digit_run (d ++ r) = (d, r).
Proof.
  intros Hd Hr. induction d as [|c d IH].
  - destruct r as [|c r]; [done|]. flat. simpl in *. by rewrite Hr.
  - cbn [str_all] in Hd. apply andb_true_iff in Hd as [Hc Hd]. flat. simpl. by rewrite Hc, IH.
Qed.

Lemma digits_after_exact mark s d r :
  digits_after mark s = Ok (d, r) -> exists d', d = mark ++ d' /\ digits1 d' /\ s = d' ++ r.
Proof.
  unfold digits_after. destruct (digit_run s) as [d' r'] eqn:Er. apply digit_run_split in Er as (-> & Hd & _).
  destruct d' as [|c d']; [done|]. intros [= <- <-]. by exists (String c d').
Qed.

Lemma digits_after_app mark d r :
  digits1 d -> starts is_digit r = false -> digits_after mark (d ++ r) = Ok (mark ++ d, r).
Proof.
  intros [Hne Hd] Hr. unfold digits_after. rewrite digit_run_app by done. by destruct d.
Qed.

Section tokens.
Context `{JsonText}.

Lemma audit_string_exact s k r : audit_string s = Ok (k, r) <-> exists t, string_token t k /\ s = t ++ r.
Proof.
  unfold audit_string. split.
  - destruct (take_byte quote s) as [s1|] eqn:Et; [|done]. apply take_Some in Et as ->.
    rewrite rbind_ok. intros ([t r'] & Hs & Hk). apply scan_exact in Hs as [Ht ->].
    destruct (string_from_str _) as [key|] eqn:Ek; [|done]. destruct (existsb _ _) eqn:Ex; [done|].
    injection Hk as <- <-. exists (String quote t). split; [by constructor|done].
  - intros (t & Ht & ->). destruct Ht as [t key Ht Hk Hx]. flat. rewrite take_cons.
    rewrite (proj2 (scan_exact (t ++ r) t r)) by done. simpl. by rewrite Hk, Hx.
Qed.

Lemma integer_part_exact s i r : integer_part s = Ok (i, r) -> integer_text i /\ s = i ++ r.
Proof.
  assert (Hd : forall c t, byte_in 49 57 c = true -> digit_run (String c t) = (i, r) ->
    integer_text i /\ String c t = i ++ r).
  { intros c t Hc Hr. simpl in Hr. assert (Hdig : is_digit c = true).
    { revert Hc. unfold is_digit, byte_in. rewrite !andb_true_iff, !N.leb_le. lia. }
    rewrite Hdig in Hr. destruct (digit_run t) as [d' r'] eqn:Ed. injection Hr as <- <-.
    apply digit_run_split in Ed as (-> & Hd & _). by split; [constructor|]. }
  destruct s as [|c t]; [done|].
  assert (Hgen : (if byte_in 49 57 c then Ok (digit_run (String c t)) else rejected BadNumber) = Ok (i, r) ->
    integer_text i /\ String c t = i ++ r).
  { destruct (byte_in 49 57 c) eqn:Ec; [|done]. intros [= He]. by apply Hd. }
  unfold integer_part. destruct c as [[] [] [] [] [] [] [] []]; try exact Hgen. intros [= <- <-].
  split; [constructor|done].
Qed.

Lemma integer_part_app i r : integer_text i -> starts is_digit r = false -> integer_part (i ++ r) = Ok (i, r).
Proof.
  intros [|c t Hc Ht] Hr; [done|]. assert (Hdig : is_digit c = true).
  { revert Hc. unfold is_digit, byte_in. rewrite !andb_true_iff, !N.leb_le. lia. }
  assert (Hrun : digit_run (String c t ++ r) = (String c t, r))
    by (apply digit_run_app; [cbn [str_all]; by rewrite Hdig|done]).
  assert (Hgen : (if byte_in 49 57 c then Ok (digit_run (String c t ++ r)) else rejected BadNumber)
    = Ok (String c t, r)) by (by rewrite Hc, Hrun).
  revert Hgen Hc. flat. unfold integer_part. by destruct c as [[] [] [] [] [] [] [] []].
Qed.

Lemma fraction_part_exact s f r : fraction_part s = Ok (f, r) -> fraction_text f /\ s = f ++ r.
Proof.
  assert (Hno : Ok ("", s) = Ok (E := PublicationTrustError) (f, r) -> fraction_text f /\ s = f ++ r)
    by (intros [= <- <-]; by split; [constructor|]).
  destruct s as [|c t]; [exact Hno|]. unfold fraction_part.
  destruct c as [[] [] [] [] [] [] [] []]; try exact Hno. intros Hd.
  apply digits_after_exact in Hd as (d & -> & Hd & ->). split; [by constructor|done].
Qed.

Lemma fraction_part_app f r :
  fraction_text f -> starts is_digit r = false -> starts (Ascii.eqb ".") r = false -> fraction_part (f ++ r) = Ok (f, r).
Proof.
  intros [|d Hd] Hr Hdot.
  - flat. destruct r as [|c t]; [done|]. unfold fraction_part. by destruct c as [[] [] [] [] [] [] [] []].
  - flat. by apply (digits_after_app ".").
Qed.

Lemma exponent_part_exact s e r : exponent_part s = Ok (e, r) -> exponent_text e /\ s = e ++ r.
Proof.
  destruct s as [|c t]; cbn [exponent_part]; [by intros [= <- <-]; split; [constructor|]|].
  destruct (Ascii.eqb c "e" || Ascii.eqb c "E") eqn:Ec; [|by intros [= <- <-]; split; [constructor|]].
  rewrite orb_true_iff, !Ascii.eqb_eq in Ec. destruct t as [|sign t].
  - intros (d & _ & [Hne _] & Hs)%digits_after_exact. by destruct d.
  - destruct (Ascii.eqb sign "+" || Ascii.eqb sign "-") eqn:Es; intros (d & -> & Hd & Hs)%digits_after_exact;
      rewrite Hs; flat.
    + rewrite orb_true_iff, !Ascii.eqb_eq in Es. split; [by constructor|done].
    + split; [by constructor|done].
Qed.

Lemma exponent_part_app e r :
  exponent_text e -> starts is_digit r = false -> starts (fun c => Ascii.eqb c "e" || Ascii.eqb c "E") r = false ->
  exponent_part (e ++ r) = Ok (e, r).
Proof.
  assert (He : forall c, c = "e"%char \/ c = "E"%char -> Ascii.eqb c "e" || Ascii.eqb c "E" = true)
    by (by intros c [-> | ->]).
  intros [|c d Hc Hd|c sign d Hc Hs Hd] Hr Hx.
  - flat. destruct r as [|c t]; [done|]. simpl in Hx |- *. by rewrite Hx.
  - flat. cbn [exponent_part]. rewrite He by done. destruct Hd as [Hne Hd]. destruct d as [|h d]; [done|]. flat.
    assert (Hh : Ascii.eqb h "+" || Ascii.eqb h "-" = false).
    { cbn [str_all] in Hd. apply andb_true_iff in Hd as [Hh _]. apply orb_false_iff.
      split; apply Ascii.eqb_neq; by intros ->. }
    rewrite Hh. by apply (digits_after_app (String c "") (String h d)).
  - flat. cbn [exponent_part]. rewrite He by done.
    replace (Ascii.eqb sign "+" || Ascii.eqb sign "-") with true by (by destruct Hs as [-> | ->]).
    by apply (digits_after_app (String c (String sign "")) d).
Qed.

Lemma audit_number_exact s r : audit_number s = Ok r -> exists n, number_token n /\ s = n ++ r.
Proof.
  unfold audit_number.
  assert (Hrest : forall sign s1, sign = "" \/ sign = "-" ->
    (let? (i, s2) := integer_part s1 in let? (f, s3) := fraction_part s2 in let? (e, s4) := exponent_part s3 in
     if f64_reads_finite (sign ++ i ++ f ++ e) then Ok s4 else rejected NonFiniteNumber) = Ok r ->
    exists n, number_token n /\ sign ++ s1 = n ++ r).
  { intros sign s1 Hsign. rewrite rbind_ok. intros ([i s2] & [Hi ->]%integer_part_exact & He). revert He.
    rewrite rbind_ok. intros ([f s3] & [Hf ->]%fraction_part_exact & He). revert He.
    rewrite rbind_ok. intros ([e s4] & [Hx ->]%exponent_part_exact & He). revert He.
    destruct (f64_reads_finite _) eqn:Efin; [|done]. intros [= <-].
    exists (sign ++ i ++ f ++ e). split; [by constructor|by flat]. }
  destruct s as [|c t]; [by apply (Hrest "" ""); left|].
  destruct c as [[] [] [] [] [] [] [] []]; try (by apply (Hrest "" (String _ t)); left).
  by apply (Hrest "-" t); right.
Qed.

Lemma audit_number_app n r : number_token n -> stops r -> audit_number (n ++ r) = Ok r.
Proof.
  intros [sign i f e Hsign Hi Hf He Hfin] Hr.
  assert (Hstop : forall p, (forall c, p c = true -> number_char c = true) -> starts p r = false).
  { intros p Hp. destruct r as [|c r]; [done|]. simpl in Hr |- *. destruct (p c) eqn:Ep; [|done].
    apply Hp in Ep. congruence. }
  assert (Hd : starts is_digit r = false) by (apply Hstop; intros c Hc; unfold number_char; by rewrite Hc).
  assert (He' : starts (fun c => Ascii.eqb c "e" || Ascii.eqb c "E") r = false).
  { apply Hstop. intros c. rewrite orb_true_iff, !Ascii.eqb_eq. by intros [-> | ->]. }
  assert (Hdot : starts (Ascii.eqb ".") r = false) by (apply Hstop; intros c Hc%Ascii.eqb_eq; by subst c).
  assert (Hxd : starts is_digit (e ++ r) = false).
  { destruct He as [|c d [-> | ->] _|c s d [-> | ->] _ _]; flat; done. }
  assert (Hxdot : starts (Ascii.eqb ".") (e ++ r) = false).
  { destruct He as [|c d [-> | ->] _|c s d [-> | ->] _ _]; flat; done. }
  assert (Hfd : starts is_digit (f ++ e ++ r) = false) by (destruct Hf; flat; done).
  assert (Hrest : (let? (i, s2) := integer_part (i ++ f ++ e ++ r) in let? (f, s3) := fraction_part s2 in
     let? (e, s4) := exponent_part s3 in
     if f64_reads_finite (sign ++ i ++ f ++ e) then Ok s4 else rejected NonFiniteNumber) = Ok r).
  { rewrite integer_part_app by done. cbn [rbind]. rewrite fraction_part_app by done. cbn [rbind].
    rewrite exponent_part_app by done. cbn [rbind]. by rewrite Hfin. }
  unfold audit_number. flat. destruct Hsign as [-> | ->]; [|exact Hrest]. flat.
  assert (Hminus : forall t, i ++ f ++ e ++ r <> String "-" t) by (destruct Hi as [|c t Hc _]; flat; [done|];
    intros t' [= -> _]; done).
  destruct (i ++ f ++ e ++ r) as [|c t]; [exact Hrest|].
  destruct c as [[] [] [] [] [] [] [] []]; try exact Hrest. by destruct (Hminus t).
Qed.

End tokens.

(** ** The audit accepts exactly strict JSON *)

Scheme strict_mut := Minimality for strict Sort Prop
  with elements_mut := Minimality for elements Sort Prop
  with members_mut := Minimality for members Sort Prop.
Combined Scheme strict_mutind from strict_mut, elements_mut, members_mut.

Section exact.
Context `{JsonText}.

Definition accepted_only (fuel : nat) : Prop :=
  (forall s r, audit_value fuel s = Ok r -> exists v, strict v /\ s = v ++ r) /\
  (forall s r, audit_elements fuel s = Ok r -> exists e, elements e /\ s = e ++ r) /\
  (forall keys s r, audit_members fuel keys s = Ok r ->
     exists m ks, members m ks /\ s = m ++ r /\ NoDup ks /\ forall k, k ∈ ks -> k ∉ keys).

Lemma audit_literal_exact l s r : audit_literal l s = Ok r -> s = l ++ r.
Proof.
  unfold audit_literal. destruct (strip_prefix l s) eqn:E; [|done]. intros [= <-]. by apply strip_prefix_Some.
Qed.

Lemma value_exact fuel s r :
  accepted_only fuel -> audit_value (S fuel) s = Ok r -> exists v, strict v /\ s = v ++ r.
Proof.
  intros (_ & IHe & IHm). cbn [audit_value]. destruct (ws_split s) as (w & Hw & Hb & _).
  revert Hw. generalize (ws s). intros core ->. destruct core as [|c rest]; [done|]. destruct (ws_split rest) as (w' & Hw' & Hb' & _).
  destruct (Ascii.eqb_spec c "{") as [->|_].
  { destruct (take_byte "}" (ws rest)) as [r'|] eqn:Et.
    - intros [= <-]. apply take_Some in Et. rewrite Hw', Et. exists (w ++ "{" ++ w' ++ "}").
      split; [by constructor|by flat].
    - intros Hm. apply IHm in Hm as (m & ks & Hm & He & Hnd & _). rewrite Hw', He. clear Et.
      assert (Hwm : members (w' ++ m) ks).
      { destruct Hm; rewrite <- str_app_assoc; constructor; try done; unfold blank in *; by rewrite str_all_app, Hb'. }
      exists (w ++ "{" ++ w' ++ m). split; [by eapply st_object|by flat]. }
  destruct (Ascii.eqb_spec c "[") as [->|_].
  { destruct (take_byte "]" (ws rest)) as [r'|] eqn:Et.
    - intros [= <-]. apply take_Some in Et. rewrite Hw', Et. exists (w ++ "[" ++ w' ++ "]").
      split; [by constructor|by flat].
    - intros He. apply IHe in He as (e & He & Hs). rewrite Hw', Hs. clear Et.
      assert (Hv : forall v, strict v -> strict (w' ++ v)).
      { intros v Hv. destruct Hv; rewrite <- str_app_assoc; econstructor; try done; unfold blank in *;
          by rewrite str_all_app, Hb'. }
      assert (Hwe : elements (w' ++ e))
        by (destruct He; rewrite <- str_app_assoc; constructor; auto).
      exists (w ++ "[" ++ w' ++ e). split; [by constructor|by flat]. }
  destruct (Ascii.eqb_spec c quote) as [->|_].
  { rewrite rbind_ok. intros ([k r'] & Hs & [= <-]). apply audit_string_exact in Hs as (t & Ht & ->).
    exists (w ++ t). split; [by econstructor|by flat]. }
  destruct (Ascii.eqb_spec c "t") as [->|_].
  { intros Hl%audit_literal_exact. rewrite Hl. exists (w ++ "true"). split; [apply st_literal; auto|by flat]. }
  destruct (Ascii.eqb_spec c "f") as [->|_].
  { intros Hl%audit_literal_exact. rewrite Hl. exists (w ++ "false"). split; [apply st_literal; auto|by flat]. }
  destruct (Ascii.eqb_spec c "n") as [->|_].
  { intros Hl%audit_literal_exact. rewrite Hl. exists (w ++ "null"). split; [apply st_literal; auto|by flat]. }
  destruct (_ || _); [|done]. intros Hn. apply audit_number_exact in Hn as (n & Hn & Hs). rewrite Hs.
  exists (w ++ n). split; [by constructor|by flat].
Qed.

Lemma elements_exact fuel s r :
  accepted_only fuel -> audit_elements (S fuel) s = Ok r -> exists e, elements e /\ s = e ++ r.
Proof.
  intros (IHv & IHe & _). cbn [audit_elements]. rewrite rbind_ok. intros (s1 & Hv & Hs).
  apply IHv in Hv as (v & Hv & ->). destruct (ws_split s1) as (w & Hw & Hb & _). rewrite Hw.
  destruct (take_byte "]" (ws s1)) as [r'|] eqn:Et.
  - injection Hs as <-. apply take_Some in Et. rewrite Et. exists (v ++ w ++ "]"). split; [by constructor|by flat].
  - destruct (take_byte "," (ws s1)) as [s2|] eqn:Ec; [|done]. apply take_Some in Ec. rewrite Ec.
    apply IHe in Hs as (e & He & ->). exists (v ++ w ++ "," ++ e). split; [by constructor|by flat].
Qed.

Lemma members_exact fuel keys s r :
  accepted_only fuel -> audit_members (S fuel) keys s = Ok r ->
  exists m ks, members m ks /\ s = m ++ r /\ NoDup ks /\ forall k, k ∈ ks -> k ∉ keys.
Proof.
  intros (IHv & _ & IHm). cbn [audit_members]. rewrite rbind_ok. intros ([key s1] & Hk & Hs).
  destruct (ws_split s) as (w & Hw & Hb & _). rewrite Hw. clear Hw.
  apply audit_string_exact in Hk as (t & Ht & ->). destruct (bool_decide _) eqn:Ek; [done|].
  apply bool_decide_eq_false in Ek. destruct (ws_split s1) as (w1 & Hw1 & Hb1 & _). rewrite Hw1. clear Hw1.
  destruct (take_byte ":" (ws s1)) as [s2|] eqn:Ec; [|done]. apply take_Some in Ec. rewrite Ec.
  revert Hs. rewrite rbind_ok. intros (s3 & Hv & Hs). apply IHv in Hv as (v & Hv & ->).
  destruct (ws_split s3) as (w3 & Hw3 & Hb3 & _). rewrite Hw3.
  destruct (take_byte "}" (ws s3)) as [r'|] eqn:Et.
  - injection Hs as <-. apply take_Some in Et. rewrite Et.
    exists (w ++ t ++ w1 ++ ":" ++ v ++ w3 ++ "}"), [key]. split_and!; [by constructor|by flat|apply NoDup_singleton|].
    by intros k ->%list_elem_of_singleton.
  - destruct (take_byte "," (ws s3)) as [s4|] eqn:Ed; [|done]. apply take_Some in Ed. rewrite Ed.
    apply IHm in Hs as (m & ks & Hm & -> & Hnd & Hks).
    exists (w ++ t ++ w1 ++ ":" ++ v ++ w3 ++ "," ++ m), (key :: ks).
    split_and!; [by constructor|by flat| |].
    + apply NoDup_cons. split; [|done]. intros Hin. apply (Hks key Hin). by left.
    + intros k [->|Hin]%elem_of_cons; [done|]. intros Hk'. apply (Hks k Hin). by right.
Qed.

Lemma audit_exact fuel : accepted_only fuel.
Proof.
  induction fuel as [|fuel IH]; [by split_and!|].
  split_and!; intros; [by eapply value_exact|by eapply elements_exact|by eapply members_exact].
Qed.

Lemma value_ws fuel s : audit_value fuel (ws s) = audit_value fuel s.
Proof. destruct fuel; [done|]. cbn [audit_value]. by rewrite ws_idem. Qed.
Lemma elements_ws fuel s : audit_elements fuel (ws s) = audit_elements fuel s.
Proof. destruct fuel; [done|]. cbn [audit_elements]. by rewrite value_ws. Qed.
Lemma members_ws fuel keys s : audit_members fuel keys (ws s) = audit_members fuel keys s.
Proof. destruct fuel; [done|]. cbn [audit_members]. by rewrite ws_idem. Qed.

(** What follows the white space of a value, of elements, of members. *)
Definition heads (p : ascii -> Prop) (s : string) : Prop :=
  exists w c t, s = w ++ String c t /\ blank w /\ is_ws c = false /\ p c.

Lemma heads_app p s t : heads p s -> heads p (s ++ t).
Proof. intros (w & c & s' & -> & Hw & Hc & Hp). exists w, c, (s' ++ t). by flat. Qed.

Lemma number_head n : number_token n -> exists c t, n = String c t /\ (Ascii.eqb c "-" || is_digit c) = true.
Proof.
  intros [sign i f e [-> | ->] Hi _ _ _]; flat; [|by eexists _, _].
  destruct Hi as [|c t Hc _]; [by eexists _, _|]. flat. eexists c, _. split; [done|]. apply orb_true_iff. right.
  revert Hc. unfold is_digit, byte_in. rewrite !andb_true_iff, !N.leb_le. lia.
Qed.

Lemma number_head_apart c d :
  (Ascii.eqb c "-" || is_digit c) = true -> (Ascii.eqb d "-" || is_digit d) = false -> Ascii.eqb c d = false.
Proof. intros Hc Hd. apply Ascii.eqb_neq. intros ->. congruence. Qed.

Lemma number_head_ws c : (Ascii.eqb c "-" || is_digit c) = true -> is_ws c = false.
Proof.
  intros Hc. destruct (is_ws c) eqn:E; [|done]. apply ws_number in E. unfold number_char in E.
  apply orb_false_iff in E as [E1 E2]. apply orb_true_iff in Hc as [Hc%Ascii.eqb_eq|Hc]; [by subst c|congruence].
Qed.

Lemma value_head v : strict v -> heads (fun c => c <> "]"%char) v.
Proof.
  destruct 1 as [w l Hw Hl|w n Hw Hn|w t key Hw Ht|w w' Hw _|w e Hw _|w w' Hw _|w m ks Hw _ _].
  - destruct Hl as [-> |[-> | ->]]; by exists w; eexists _, _.
  - destruct (number_head n Hn) as (c & t & -> & Hc). exists w, c, t. split_and!; [done|done|by apply number_head_ws|].
    apply Ascii.eqb_neq. by apply number_head_apart.
  - destruct Ht. by exists w; eexists _, _.
  - by exists w; eexists _, _.
  - by exists w; eexists _, _.
  - by exists w; eexists _, _.
  - by exists w; eexists _, _.
Qed.

Lemma elements_head e : elements e -> heads (fun c => c <> "]"%char) e.
Proof. destruct 1 as [v w Hv _|v w e Hv _ _]; by apply heads_app, value_head. Qed.

Lemma members_head m ks : members m ks -> heads (fun c => c = quote) m.
Proof. destruct 1 as [w t key w' v w'' Hw Ht _ _ _|w t key w' v w'' m ks Hw Ht _ _ _ _]; destruct Ht; by exists w; eexists _, _. Qed.

Lemma not_closed p c s : heads p s -> ~ p c -> take_byte c (ws s) = None.
Proof.
  intros (w & d & t & -> & Hw & Hd & Hp) Hc. rewrite ws_skip, ws_stop by done. simpl.
  destruct (Ascii.eqb_spec d c) as [->|]; done.
Qed.

Lemma len_app s t : (String.length (s ++ t) = String.length s + String.length t)%nat.
Proof. generalize (str_len_app s t). unfold str_len. lia. Qed.

Definition accepts (v : string) : Prop := forall r fuel,
  stops r -> (2 * String.length v + 1 <= fuel)%nat -> audit_value fuel (v ++ r) = Ok r.
Definition accepts_elements (e : string) : Prop := forall r fuel,
  (2 * String.length e + 2 <= fuel)%nat -> audit_elements fuel (e ++ r) = Ok r.
Definition accepts_members (m : string) (ks : list string) : Prop := forall r fuel keys,
  NoDup ks -> (forall k, k ∈ ks -> k ∉ keys) -> (2 * String.length m + 2 <= fuel)%nat ->
  audit_members fuel keys (m ++ r) = Ok r.

Lemma accepts_literal w l : blank w -> l = "true" \/ l = "false" \/ l = "null" -> accepts (w ++ l).
Proof.
  intros Hw Hl r [|fuel] _ Hf; [lia|]. flat. cbn [audit_value].
  by destruct Hl as [-> |[-> | ->]]; rewrite ws_skip, ws_stop.
Qed.

Lemma accepts_number w n : blank w -> number_token n -> accepts (w ++ n).
Proof.
  intros Hw Hn r [|fuel] Hr Hf; [lia|]. flat. cbn [audit_value].
  destruct (number_head n Hn) as (c & t & Hnt & Hc). assert (Ha := number_head_apart c).
  assert (Hgo := audit_number_app n r Hn Hr). rewrite Hnt in Hgo |- *. flat. revert Hgo. flat. intros Hgo.
  rewrite ws_skip, ws_stop by (try done; by apply number_head_ws).
  rewrite !Ha by done. by rewrite Hc.
Qed.

Lemma accepts_string w t key : blank w -> string_token t key -> accepts (w ++ t).
Proof.
  intros Hw Ht r [|fuel] _ Hf; [lia|]. flat. cbn [audit_value].
  assert (Hs : audit_string (t ++ r) = Ok (key, r)) by (apply audit_string_exact; by exists t).
  revert Hs. destruct Ht. flat. intros Hs. rewrite ws_skip, ws_stop by done.
  change (Ascii.eqb quote "{") with false. change (Ascii.eqb quote "[") with false. rewrite Ascii.eqb_refl.
  cbn iota. by rewrite Hs.
Qed.

Lemma accepts_array w e : blank w -> elements e -> accepts_elements e -> accepts (w ++ "[" ++ e).
Proof.
  intros Hw He IH r [|fuel] _ Hf; [lia|]. revert Hf. rewrite !len_app. intros Hf. flat. cbn [audit_value].
  rewrite ws_skip, ws_stop by done. change (Ascii.eqb "[" "{") with false. rewrite Ascii.eqb_refl. cbn iota.
  rewrite (not_closed (fun c => c <> "]"%char)) by (try (by apply heads_app, elements_head); congruence).
  rewrite elements_ws. apply IH. simpl in Hf. lia.
Qed.

Lemma accepts_object w m ks :
  blank w -> members m ks -> accepts_members m ks -> NoDup ks -> accepts (w ++ "{" ++ m).
Proof.
  intros Hw Hm IH Hnd r [|fuel] _ Hf; [lia|]. revert Hf. rewrite !len_app. intros Hf. flat. cbn [audit_value].
  rewrite ws_skip, ws_stop by done. rewrite Ascii.eqb_refl. cbn iota.
  rewrite (not_closed (fun c => c = quote)) by (try (by eapply heads_app, members_head); done).
  rewrite members_ws. apply IH; [done|by intros k _ []%elem_of_nil|]. simpl in Hf. lia.
Qed.

Lemma accepts_empty w w' o c :
  blank w -> blank w' -> (o = "[" /\ c = "]") \/ (o = "{" /\ c = "}") -> accepts (w ++ o ++ w' ++ c).
Proof.
  intros Hw Hw' Ho r [|fuel] _ Hf; [lia|]. flat. cbn [audit_value].
  destruct Ho as [[-> ->]|[-> ->]]; flat; rewrite ws_skip, ws_stop by done;
    (change (Ascii.eqb "[" "{") with false || idtac); rewrite Ascii.eqb_refl; cbn iota;
    rewrite ws_skip, ws_stop by done; by rewrite take_cons.
Qed.

Lemma accepts_el v w fuel r next close :
  accepts v -> blank w -> (2 * String.length v + 1 <= fuel)%nat -> number_char close = false ->
  audit_value fuel (v ++ w ++ String close (next ++ r)) = Ok (w ++ String close (next ++ r)) /\
  (is_ws close = false -> ws (w ++ String close (next ++ r)) = String close (next ++ r)).
Proof.
  intros Hv Hw Hf Hc. split; [apply Hv; [by apply stops_blank|done]|]. intros Hs.
  by rewrite ws_skip, ws_stop.
Qed.

Lemma accepts_all :
  (forall v, strict v -> accepts v) /\ (forall e, elements e -> accepts_elements e) /\
  (forall m ks, members m ks -> accepts_members m ks).
Proof.
  apply strict_mutind.
  - apply accepts_literal.
  - apply accepts_number.
  - apply accepts_string.
  - intros w w' Hw Hw'. apply accepts_empty; auto.
  - intros w e Hw He IH. by apply accepts_array.
  - intros w w' Hw Hw'. apply accepts_empty; auto.
  - intros w m ks Hw Hm IH Hnd. by eapply accepts_object.
  - intros v w _ IH Hw r [|fuel]; rewrite !len_app; simpl; intros Hf; [lia|]. flat.
    destruct (accepts_el v w fuel r "" "]" IH Hw ltac:(lia) eq_refl) as [Hv Hx]. revert Hv Hx. flat.
    intros -> Hx. cbn [rbind]. by rewrite Hx, take_cons.
  - intros v w e _ IH Hw _ IHe r [|fuel]; rewrite !len_app; simpl; intros Hf; [lia|]. flat.
    destruct (accepts_el v w fuel r e "," IH Hw ltac:(lia) eq_refl) as [-> Hx]. cbn [rbind].
    rewrite Hx by done. cbn [take_byte]. rewrite Ascii.eqb_refl. simpl. apply IHe. lia.
  - intros w t key w' v w'' Hw Ht Hw' _ IH Hw'' r [|fuel] keys; rewrite !len_app; simpl; intros _ Hks Hf; [lia|].
    flat. assert (Hs : forall rest, audit_string (t ++ rest) = Ok (key, rest))
      by (intros rest; apply audit_string_exact; by exists t).
    rewrite ws_skip, ws_stop by (try done; by destruct Ht). rewrite Hs. cbn [rbind].
    rewrite bool_decide_false by (apply Hks; by left). rewrite ws_skip, ws_stop by done. rewrite take_cons.
    destruct (accepts_el v w'' fuel r "" "}" IH Hw'' ltac:(lia) eq_refl) as [Hv Hx]. revert Hv Hx. flat.
    intros -> Hx. cbn [rbind]. by rewrite Hx, take_cons.
  - intros w t key w' v w'' m ks Hw Ht Hw' _ IH Hw'' _ IHm r [|fuel] keys; rewrite !len_app; simpl;
      intros [Hk Hnd]%NoDup_cons Hks Hf; [lia|].
    flat. assert (Hs : forall rest, audit_string (t ++ rest) = Ok (key, rest))
      by (intros rest; apply audit_string_exact; by exists t).
    rewrite ws_skip, ws_stop by (try done; by destruct Ht). rewrite Hs. cbn [rbind].
    rewrite bool_decide_false by (apply Hks; by left). rewrite ws_skip, ws_stop by done. rewrite take_cons.
    destruct (accepts_el v w'' fuel r m "," IH Hw'' ltac:(lia) eq_refl) as [-> Hx]. cbn [rbind].
    rewrite Hx by done. cbn [take_byte]. rewrite Ascii.eqb_refl. simpl. apply IHm; [done| |lia].
    intros k Hin. intros [->|Hin']%elem_of_cons; [done|]. apply (Hks k); [by right|done].
Qed.
End exact.

Lemma strict_audit `{JsonText} text : audit text = Ok tt <-> strict_document text.
Proof.
  unfold audit, strict_document. rewrite value_ws. split.
  - rewrite rbind_ok. intros (rest & Hv & Hr). apply (proj1 (audit_exact _)) in Hv as (v & Hv & ->).
    destruct (ws_split rest) as (w & Hw & Hb & _). exists v, w. split_and!; [|done..]. f_equal.
    rewrite Hw. destruct (ws rest); [by rewrite str_app_nil_r|done].
  - intros (v & w & -> & Hv & Hw). unfold audit_fuel.
    rewrite (proj1 accepts_all v Hv) by (rewrite ?len_app; try lia; by rewrite <- (str_app_nil_r w); apply stops_ws).
    cbn [rbind]. by rewrite <- (str_app_nil_r w), ws_skip.
Qed.


(** The scan for surrogate escapes does not know that a backslash may itself be
    escaped: the token of the string [\uzzzz] is strict JSON and is refused. *)
Lemma escaped_backslash_is_refused :
  let t := String backslash (String backslash ("uzzzz" ++ String quote "")) in
  string_rest t /\ validate_surrogate_escapes (String quote t) = rejected BadUnicodeEscape.
Proof.
  split; [|reflexivity]. apply rest_escape; [reflexivity|].
  do 5 (apply rest_plain; [discriminate|discriminate|by vm_compute|]). apply rest_end.
Qed.
