(* ===== verification/Timestamp.v ===== *)
(** * Timestamp: strict RFC 3339 instants (publication.rs)

The two publication timestamps are compared as seconds since the Unix epoch.
[i64] is [Z]: the bounds below show that no operation leaves the type.
Rust's [/] and [%] round towards zero ([Z.quot], [Z.rem]). *)

From Stdlib Require Import NArith ZArith Lia Ascii String.
From stdpp Require Import base numbers list strings.
From S2P Require Import Prelude Domain.

Local Open Scope string_scope.
Local Open Scope Z_scope.

(** ** Reading numbers *)

(** [str::parse::<i64>]: one optional sign, then digits. *)
Definition parse_i64 (s : string) : option Z :=
  let unsigned (limit : N) (t : string) :=
    match t with
    | EmptyString => None
    | _ => match parse_digits t 0 with
           | Some n => if (n <=? limit)%N then Some (Z.of_N n) else None
           | None => None
           end
    end in
  match s with
  | String "+" t => unsigned i64_max t
  | String "-" t => Z.opp <$> unsigned (i64_max + 1)%N t
  | _ => unsigned i64_max s
  end.

(** [parse_rfc3339_inner, digits] (publication.rs:1255-1262). *)
Definition digits (v : string) (first len : nat) : option Z :=
  let slice := substring first len v in
  if str_all is_digit slice then parse_i64 slice else None.

Definition is_ascii_byte (c : ascii) : bool := (N_of_ascii c <? 128)%N.

Definition char_at (v : string) (i : nat) (allowed : string) : bool :=
  match String.get i v with Some c => str_mem c allowed | None => false end.

(** ** The calendar *)

(** [is_leap_year] (publication.rs:1321-1323). *)
Definition is_leap_year (year : Z) : bool :=
  ((Z.rem year 4 =? 0) && negb (Z.rem year 100 =? 0)) || (Z.rem year 400 =? 0).

(** [days_in_month] (publication.rs:1325-1333). *)
Definition days_in_month (year month : Z) : Z :=
  match month with
  | 1 | 3 | 5 | 7 | 8 | 10 | 12 => 31
  | 4 | 6 | 9 | 11 => 30
  | 2 => if is_leap_year year then 29 else 28
  | _ => 0
  end.

(** [days_from_civil] (publication.rs:1337-1344). *)
Definition days_from_civil (year month day : Z) : Z :=
  let year := if month <=? 2 then year - 1 else year in
  let era := Z.quot (if 0 <=? year then year else year - 399) 400 in
  let year_of_era := year - era * 400 in
  let day_of_year := Z.quot (153 * (month + (if 2 <? month then -3 else 9)) + 2) 5 + day - 1 in
  let day_of_era := year_of_era * 365 + Z.quot year_of_era 4 - Z.quot year_of_era 100 + day_of_year in
  era * 146097 + day_of_era - 719468.

(** ** The text *)

Fixpoint leading_digits (s : string) : nat :=
  match s with
  | String c s' => if is_digit c then S (leading_digits s') else O
  | EmptyString => O
  end.

(** [parse_rfc3339_inner, fraction] (publication.rs:1286-1293). *)
Definition skip_fraction (rest : string) : option string :=
  match strip_prefix "." rest with
  | None => Some rest
  | Some stripped =>
      match leading_digits stripped with
      | O => None
      | n => Some (str_drop n stripped)
      end
  end.

(** [parse_rfc3339_inner, offset] (publication.rs:1295-1315). *)
Definition offset_seconds (rest : string) : option Z :=
  match rest with
  | "Z" | "z" => Some 0
  | String sign _ =>
      if negb ((Ascii.eqb sign "+" || Ascii.eqb sign "-") && (str_len rest =? 6)%N) then None else
      if negb (char_at rest 3 ":") then None else
      match parse_i64 (substring 1 2 rest), parse_i64 (substring 4 2 rest) with
      | Some offset_hour, Some offset_minute =>
          if (23 <? offset_hour) || (59 <? offset_minute) then None else
          let magnitude := offset_hour * 3600 + offset_minute * 60 in
          Some (if Ascii.eqb sign "-" then - magnitude else magnitude)
      | _, _ => None
      end
  | EmptyString => None
  end.

(** [parse_rfc3339_inner, date and time] (publication.rs:1250-1284). *)
Definition date_time (v : string) : option (Z * Z * Z * (Z * Z * Z)) :=
  if (str_len v <? 20)%N || negb (str_all is_ascii_byte v) then None else
  if negb (char_at v 4 "-" && char_at v 7 "-") then None else
  if negb (char_at v 10 "Tt ") then None else
  if negb (char_at v 13 ":" && char_at v 16 ":") then None else
  year ← digits v 0 4; month ← digits v 5 2; day ← digits v 8 2;
  hour ← digits v 11 2; minute ← digits v 14 2; second ← digits v 17 2;
  if negb ((1 <=? month) && (month <=? 12)) || negb ((1 <=? day) && (day <=? 31))
     || (days_in_month year month <? day) then None else
  if (23 <? hour) || (59 <? minute) || (60 <? second) then None else
  Some (year, month, day, (hour, minute, second)).

(** [parse_rfc3339_inner] (publication.rs:1250-1319). *)
Definition parse_rfc3339_inner (v : string) : option Z :=
  '(year, month, day, (hour, minute, second)) ← date_time v;
  rest ← skip_fraction (str_drop 19 v);
  offset ← offset_seconds rest;
  Some (days_from_civil year month day * 86400 + hour * 3600 + minute * 60 + second - offset).

Example epoch : parse_rfc3339_inner "1970-01-01T00:00:00Z" = Some 0.
Proof. reflexivity. Qed.
Example with_offset : parse_rfc3339_inner "2024-02-29T12:30:00.250+01:00" = Some 1709206200.
Proof. reflexivity. Qed.
Example no_such_day : parse_rfc3339_inner "2023-02-29T12:30:00Z" = None.
Proof. reflexivity. Qed.
(** The offset's fields are read by [i64::from_str], which takes a sign. *)
Example signed_offset : parse_rfc3339_inner "2024-01-01T00:00:00+-5:-7" = Some 1704085620 /\
  parse_rfc3339_inner "2024-01-01T00:00:00+-5:00" = parse_rfc3339_inner "2024-01-01T00:00:00-05:00".
Proof. split; reflexivity. Qed.

(** ** The calendar is the Gregorian one *)

Definition valid_date (year month day : Z) : Prop :=
  1 <= month <= 12 /\ 1 <= day <= days_in_month year month.

(** The day after, as the calendar has it. *)
Definition next_day (date : Z * Z * Z) : Z * Z * Z :=
  let '(year, month, day) := date in
  if day <? days_in_month year month then (year, month, day + 1)
  else if month <? 12 then (year, month + 1, 1)
  else (year + 1, 1, 1).

(** Days before the first of March of [year]. *)
Definition march (year : Z) : Z := 365 * year + year / 4 - year / 100 + year / 400 - 719468.

Lemma days_from_civil_march year month day :
  days_from_civil year month day =
  march (if month <=? 2 then year - 1 else year)
  + Z.quot (153 * (month + (if 2 <? month then -3 else 9)) + 2) 5 + day - 1.
Proof.
  unfold days_from_civil, march. set (y := if month <=? 2 then year - 1 else year).
  assert (He : Z.quot (if 0 <=? y then y else y - 399) 400 = y / 400).
  { destruct (Z.leb_spec 0 y); [by apply Z.quot_div_nonneg|].
    Z.to_euclidean_division_equations. lia. }
  rewrite He. assert (Hr : 0 <= y - y / 400 * 400 < 400) by (Z.to_euclidean_division_equations; lia).
  rewrite !(Z.quot_div_nonneg (y - y / 400 * 400)) by lia.
  generalize (Z.quot (153 * (month + (if 2 <? month then -3 else 9)) + 2) 5). intros q.
  Z.to_euclidean_division_equations. lia.
Qed.

(** Days from the first of March to the first of [month]. *)
Definition march_offset (month : Z) : Z := Z.quot (153 * (month + (if 2 <? month then -3 else 9)) + 2) 5.

Lemma march_months year month day :
  days_from_civil year month day =
  march (if month <=? 2 then year - 1 else year) + march_offset month + day - 1.
Proof. apply days_from_civil_march. Qed.

Ltac count_offsets :=
  repeat match goal with |- context [march_offset ?m] =>
    let n := eval vm_compute in (march_offset m) in change (march_offset m) with n end.

Lemma is_leap_year_iff year :
  is_leap_year year = true <-> (year mod 4 = 0 /\ year mod 100 <> 0) \/ year mod 400 = 0.
Proof.
  unfold is_leap_year. rewrite orb_true_iff, andb_true_iff, negb_true_iff, !Z.eqb_eq, Z.eqb_neq.
  rewrite !Z.rem_mod_eq_0 by done. done.
Qed.

Lemma march_step year :
  march year - march (year - 1) = 365 + (if is_leap_year year then 1 else 0).
Proof.
  unfold march. destruct (is_leap_year year) eqn:El.
  - apply is_leap_year_iff in El. Z.to_euclidean_division_equations. lia.
  - assert (Hn : ~ ((year mod 4 = 0 /\ year mod 100 <> 0) \/ year mod 400 = 0))
      by (rewrite <- is_leap_year_iff; by rewrite El).
    Z.to_euclidean_division_equations. lia.
Qed.

Definition days_of (date : Z * Z * Z) : Z := let '(year, month, day) := date in days_from_civil year month day.

Lemma next_month year month day :
  1 <= month < 12 ->
  days_from_civil year (month + 1) day = days_from_civil year month day + days_in_month year month.
Proof.
  intros Hm. assert (Hs := march_step year).
  assert (Hc : month = 1 \/ month = 2 \/ month = 3 \/ month = 4 \/ month = 5 \/ month = 6 \/ month = 7 \/
    month = 8 \/ month = 9 \/ month = 10 \/ month = 11) by lia.
  repeat (destruct Hc as [->|Hc]); try subst month;
    match goal with |- context [days_from_civil year (?m + 1) day] =>
      let n := eval vm_compute in (m + 1) in change (m + 1) with n end;
    rewrite !march_months; count_offsets; cbn -[march Z.add Z.sub is_leap_year]; try lia.
  destruct (is_leap_year year); lia.
Qed.

Lemma next_year year day : days_from_civil (year + 1) 1 day = days_from_civil year 12 day + 31.
Proof.
  rewrite !march_months. count_offsets. cbn -[march Z.add Z.sub]. replace (year + 1 - 1) with year by lia. lia.
Qed.

Lemma days_from_civil_day year month day k :
  days_from_civil year month (day + k) = days_from_civil year month day + k.
Proof. rewrite !days_from_civil_march. lia. Qed.

(** The day count is the Gregorian calendar's.  The first of January
    1970 is day zero and every valid date's count is one less than the next
    day's, through the ends of months, leap years and centuries, in both
    directions from the epoch. *)
Theorem days_from_civil_counts_days :
  days_from_civil 1970 1 1 = 0 /\
  forall year month day, valid_date year month day ->
    days_of (next_day (year, month, day)) = days_from_civil year month day + 1.
Proof.
  split; [reflexivity|]. intros year month day [Hm Hd]. unfold next_day.
  destruct (Z.ltb_spec day (days_in_month year month)) as [Hlt|Hge]; [apply days_from_civil_day|].
  assert (day = days_in_month year month) as -> by lia.
  replace (days_in_month year month) with (1 + (days_in_month year month - 1)) at 1 by lia.
  rewrite days_from_civil_day. destruct (Z.ltb_spec month 12) as [Hlt|Hm12]; simpl.
  - rewrite next_month by lia. lia.
  - assert (month = 12) as -> by lia. rewrite next_year. simpl. lia.
Qed.

Lemma days_from_civil_counts_days_witness :
  valid_date 2024 2 29 /\ days_of (next_day (2024, 2, 29)) = 19783.
Proof.
  assert (Hv : valid_date 2024 2 29) by (split; vm_compute; split; discriminate).
  split; [exact Hv|]. rewrite (proj2 days_from_civil_counts_days 2024 2 29 Hv). reflexivity.
Defined.

(** ** Bounds *)

Lemma parse_digits_bound s acc n :
  parse_digits s acc = Some n -> (n < (acc + 1) * 10 ^ N.of_nat (String.length s))%N.
Proof.
  revert acc. induction s as [|c s IH]; intros acc; cbn [parse_digits String.length].
  { intros [= <-]. change (10 ^ N.of_nat 0)%N with 1%N. lia. }
  unfold digit_val. destruct (is_digit c) eqn:Ec; [|done]. cbv zeta.
  destruct (_ <=? u64_max)%N; [|done]. intros Hp%IH. rewrite Nat2N.inj_succ, N.pow_succ_r'.
  unfold is_digit, byte_in in Ec. apply andb_true_iff in Ec as [H3%N.leb_le H4%N.leb_le].
  eapply N.lt_le_trans; [exact Hp|]. rewrite N.mul_assoc. apply N.mul_le_mono_r. lia.
Qed.

Lemma substring_length first len v : (String.length (substring first len v) <= len)%nat.
Proof.
  revert first len. induction v as [|c v IH]; intros [|first] [|len]; simpl; try lia.
  - specialize (IH O len). lia.
  - apply IH.
  - apply (IH first (S len)).
Qed.

(** At most [k] characters are read as a number below [10 ^ k]; the sign takes
    one of them. *)
Lemma parse_i64_short s (k : nat) z :
  (String.length s <= S k)%nat -> parse_i64 s = Some z ->
  - 10 ^ Z.of_nat k < z < 10 ^ Z.of_nat (S k) /\ (str_all is_digit s = true -> 0 <= z).
Proof.
  intros Hl. set (unsigned := fun (limit : N) (t : string) =>
    match t with EmptyString => None | _ => match parse_digits t 0 with
      | Some n => if (n <=? limit)%N then Some (Z.of_N n) else None | None => None end end).
  assert (Hu : forall limit t (j : nat) w, (String.length t <= j)%nat -> unsigned limit t = Some w ->
    0 <= w < 10 ^ Z.of_nat j).
  { intros limit t j w Hj. unfold unsigned. destruct t as [|c t]; [done|].
    destruct (parse_digits _ 0) as [n|] eqn:En; [|done]. destruct (n <=? limit)%N; [|done]. intros [= <-].
    apply parse_digits_bound in En. split; [lia|].
    assert (Hp : (10 ^ N.of_nat (String.length (String c t)) <= 10 ^ N.of_nat j)%N)
      by (apply N.pow_le_mono_r; lia).
    rewrite <- nat_N_Z. change 10 with (Z.of_N 10). rewrite <- N2Z.inj_pow. lia. }
  assert (Hstep : 10 ^ Z.of_nat k <= 10 ^ Z.of_nat (S k)) by (apply Z.pow_le_mono_r; lia).
  assert (Hpos : 0 < 10 ^ Z.of_nat k) by (apply Z.pow_pos_nonneg; lia).
  assert (Hcase : parse_i64 s = unsigned i64_max s \/
    exists c t, s = String c t /\ is_digit c = false /\
      (parse_i64 s = unsigned i64_max t \/ parse_i64 s = Z.opp <$> unsigned (i64_max + 1)%N t)).
  { destruct s as [|c t]; [by left|]. unfold parse_i64. fold unsigned.
    destruct c as [[] [] [] [] [] [] [] []]; try (by left); right; eexists _, t; split_and!; auto; by left. }
  destruct Hcase as [->|(c & t & -> & Hc & [->| ->])].
  - intros Hz. destruct (Hu _ _ (S k) _ Hl Hz). split; [lia|done].
  - intros Hz. destruct (Hu _ t k _ ltac:(simpl in Hl; lia) Hz). split; [lia|]. simpl. by rewrite Hc.
  - destruct (unsigned (i64_max + 1)%N t) as [w|] eqn:Ew; [|done]. intros [= <-].
    destruct (Hu _ t k _ ltac:(simpl in Hl; lia) Ew). split; [lia|]. simpl. by rewrite Hc.
Qed.

Lemma digits_bound v first (k : nat) z : digits v first (S k) = Some z -> 0 <= z < 10 ^ Z.of_nat (S k).
Proof.
  unfold digits. destruct (str_all is_digit _) eqn:Ed; [|done]. intros Hz.
  destruct (parse_i64_short _ k z (substring_length _ _ _) Hz) as [H1 H2]. split; [by apply H2|lia].
Qed.

Lemma offset_bound rest offset : offset_seconds rest = Some offset -> - 86340 <= offset <= 86340.
Proof.
  unfold offset_seconds.
  assert (Hsigned : forall sign, match parse_i64 (substring 1 2 rest), parse_i64 (substring 4 2 rest) with
      | Some offset_hour, Some offset_minute =>
          if (23 <? offset_hour) || (59 <? offset_minute) then None else
          let magnitude := offset_hour * 3600 + offset_minute * 60 in
          Some (if Ascii.eqb sign "-" then - magnitude else magnitude)
      | _, _ => None end = Some offset -> - 86340 <= offset <= 86340).
  { intros sign. destruct (parse_i64 (substring 1 2 rest)) as [h|] eqn:Eh; [|done].
    destruct (parse_i64 (substring 4 2 rest)) as [m|] eqn:Em; [|done].
    apply (parse_i64_short _ 1) in Eh as [Hh _]; [|apply substring_length].
    apply (parse_i64_short _ 1) in Em as [Hmi _]; [|apply substring_length].
    change (10 ^ Z.of_nat 1) with 10 in *.
    destruct (Z.ltb_spec 23 h), (Z.ltb_spec 59 m); simpl; try done. intros [= <-].
    destruct (Ascii.eqb sign "-"); lia. }
  destruct rest as [|sign t]; [done|].
  assert (Hother : (if negb ((Ascii.eqb sign "+" || Ascii.eqb sign "-") && (str_len (String sign t) =? 6)%N)
      then None else if negb (char_at (String sign t) 3 ":") then None else
      match parse_i64 (substring 1 2 (String sign t)), parse_i64 (substring 4 2 (String sign t)) with
      | Some offset_hour, Some offset_minute =>
          if (23 <? offset_hour) || (59 <? offset_minute) then None else
          let magnitude := offset_hour * 3600 + offset_minute * 60 in
          Some (if Ascii.eqb sign "-" then - magnitude else magnitude)
      | _, _ => None end) = Some offset -> - 86340 <= offset <= 86340).
  { destruct (negb _); [done|]. destruct (negb _); [done|]. apply Hsigned. }
  destruct sign as [[] [] [] [] [] [] [] []]; try exact Hother; destruct t; try exact Hother;
    intros [= <-]; lia.
Qed.

(** The range of the day count on the years a timestamp can name. *)
Lemma days_from_civil_bound year month day :
  0 <= year <= 9999 -> valid_date year month day -> -719528 <= days_from_civil year month day <= 2932896.
Proof.
  intros Hy [Hm Hd]. assert (Hdim : days_in_month year month <= 31).
  { unfold days_in_month. destruct month as [|p|p]; try lia. repeat (destruct p as [p|p|]; try lia);
      destruct (is_leap_year year); lia. }
  rewrite march_months.
  assert (Hc : month = 1 \/ month = 2 \/ month = 3 \/ month = 4 \/ month = 5 \/ month = 6 \/ month = 7 \/
    month = 8 \/ month = 9 \/ month = 10 \/ month = 11 \/ month = 12) by lia.
  assert (Hlow : forall y, -1 <= y <= 9999 -> -719834 + 365 * (y + 1) <= march y <= 2932591 - 365 * (9999 - y)).
  { intros y Hy'. unfold march. Z.to_euclidean_division_equations. lia. }
  repeat (destruct Hc as [->|Hc]); try subst month; count_offsets; cbn -[march Z.add Z.sub];
    generalize (Hlow year), (Hlow (year - 1)); lia.
Qed.


