(* ===== verification/Publication.v ===== *)
(** * Publication: the publication trust seam (publication.rs)

Everything that decides whether a device's description of a session may be
believed.  [verify] is the only function that makes a [VerifiedPublication],
and a download plan is made only from one.  The signature scheme is the
verifier argument; [serde]'s derived reading of the payload from a JSON value
enters as [PayloadSchema].  Reasons of rejections carry their data instead of
the message text. *)

From Stdlib Require Import NArith ZArith Lia Ascii String.
From stdpp Require Import base numbers list strings.
From S2P Require Import Prelude Domain Files Journal Json StrictJson Timestamp.

Local Open Scope string_scope.

(** [ED25519_PUBLIC_KEY_LENGTH] (publication.rs:51-51). *)
Definition ED25519_PUBLIC_KEY_LENGTH : nat := 32.
(** [ED25519_SIGNATURE_LENGTH] (publication.rs:53-53). *)
Definition ED25519_SIGNATURE_LENGTH : nat := 64.

(** [PublicationTrustError::from] (publication.rs:66-71). *)
Definition of_verify_error (e : VerifyError) : PublicationTrustError :=
  let 'VerifyRejected message := e in Rejected (VerifierRejected message).

Definition ensure (holds : bool) (reason : TrustReason) : result PublicationTrustError unit :=
  if holds then Ok tt else rejected reason.

(** ** Untrusted input *)

(** [PublicationFileClaim] (publication.rs:424-431). *)
Record PublicationFileClaim := mkClaim {
  pc_id : string;
  pc_display_path : string;
  pc_role : string;
  pc_size_bytes : N;
  pc_sha256 : string;
  pc_media_type : string;
}.

(** [SessionFileEntryView] (device/actor.rs:177-184): the same fields. *)
Definition SessionFileEntryView : Type := PublicationFileClaim.

Section input.
Context `{Floats}.

(** [SessionDetailView] (device/actor.rs:200-219). *)
Record SessionDetailView := mkDetail {
  sd_session_id : string;
  sd_revision : string;
  sd_captured_at : string;
  sd_published_at : string;
  sd_duration_seconds : f64;
  sd_total_bytes : N;
  sd_video_bytes : N;
  sd_file_count : N;
  sd_files : list SessionFileEntryView;
  sd_publication_payload : list byte;
  sd_publication_signature : list byte;
  sd_publication_public_key : list byte;
  sd_publication_key_fingerprint : string;
}.

(** [PublicationEnvelope] (publication.rs:441-461). *)
Record PublicationEnvelope := mkEnvelope {
  pe_session_id : string;
  pe_revision : string;
  pe_captured_at : string;
  pe_published_at : string;
  pe_duration_seconds : f64;
  pe_total_bytes : N;
  pe_video_bytes : N;
  pe_file_count : N;
  pe_files : list PublicationFileClaim;
  pe_publication_payload : string;
  pe_publication_signature_hex : string;
  pe_publication_public_key_hex : string;
  pe_publication_key_fingerprint : string;
}.

(** [SignedPublicationPayload] (publication.rs:1050-1061), its
    entries being [SignedFileEntry]. *)
Record SignedPublicationPayload := mkPayload {
  sp_schema_version : N;
  sp_session_id : string;
  sp_revision : string;
  sp_captured_at : string;
  sp_published_at : string;
  sp_duration_seconds : f64;
  sp_total_bytes : N;
  sp_video_bytes : N;
  sp_integrity_ok : bool;
  sp_files : list PublicationFileClaim;
}.

End input.

Definition REVISION_FIELDS : list string :=
  ["schema_version"; "session_id"; "captured_at"; "duration_seconds"; "total_bytes"; "video_bytes";
   "integrity_ok"; "files"].

(** [serde_json::from_value::<SignedPublicationPayload>]: a derived reading, field by field. *)
Class PayloadSchema `{Floats} := {
  payload_from_value : json -> option SignedPublicationPayload;
  payload_reads_fields : forall o o' p p',
    payload_from_value (JObject o) = Some p -> payload_from_value (JObject o') = Some p' ->
    (forall field, field ∈ REVISION_FIELDS -> obj_get field o = obj_get field o') ->
    sp_session_id p = sp_session_id p' /\ sp_captured_at p = sp_captured_at p' /\
    sp_total_bytes p = sp_total_bytes p' /\ sp_video_bytes p = sp_video_bytes p' /\ sp_files p = sp_files p';
}.

(** ** Hex *)

Definition nibble (c : ascii) : N :=
  if is_digit c then (N_of_ascii c - 48)%N else (N_of_ascii c - 97 + 10)%N.

Fixpoint decode_pairs (s : string) : list byte :=
  match s with
  | String h (String l s') => byte_of (N.lor (N.shiftl (nibble h) 4) (nibble l)) :: decode_pairs s'
  | _ => []
  end.

(** [decode_lower_hex_exact] (publication.rs:1107-1128). *)
Definition decode_lower_hex_exact (field value : string) (expected_bytes : nat)
    : result PublicationTrustError (list byte) :=
  if negb (str_len value =? N.of_nat (expected_bytes * 2))%N || negb (str_all is_lower_hex value)
  then rejected (BadHexField field (N.of_nat (expected_bytes * 2)))
  else Ok (decode_pairs value).

Definition HEX : string := "0123456789abcdef".

Definition hex_char (d : N) : ascii :=
  match String.get (N.to_nat d) HEX with Some c => c | None => "0"%char end.

(** [encode_lower_hex] (publication.rs:1130-1138). *)
Fixpoint encode_lower_hex (bytes : list byte) : string :=
  match bytes with
  | [] => ""
  | b :: bytes' =>
      String (hex_char (N.shiftr (Byte.to_N b) 4)) (String (hex_char (N.land (Byte.to_N b) 15))
        (encode_lower_hex bytes'))
  end.

(** [PublicationEnvelope::from_session_detail] (publication.rs:468-497). *)
Definition from_session_detail `{Floats} (detail : SessionDetailView)
    : result PublicationTrustError PublicationEnvelope :=
  if negb (utf8_valid (sd_publication_payload detail)) then rejected PayloadNotUtf8 else
  Ok (mkEnvelope (sd_session_id detail) (sd_revision detail) (sd_captured_at detail) (sd_published_at detail)
        (sd_duration_seconds detail) (sd_total_bytes detail) (sd_video_bytes detail) (sd_file_count detail)
        (map (fun f => mkClaim (pc_id f) (pc_display_path f) (pc_role f) (pc_size_bytes f) (pc_sha256 f)
                         (pc_media_type f)) (sd_files detail))
        (string_of_list_byte (sd_publication_payload detail))
        (encode_lower_hex (sd_publication_signature detail)) (encode_lower_hex (sd_publication_public_key detail))
        (sd_publication_key_fingerprint detail)).

(** ** Format validators *)

Definition sha256_form (value : string) (prefix hex : TrustReason) : result PublicationTrustError unit :=
  match strip_prefix "sha256:" value with
  | None => rejected prefix
  | Some h => ensure ((str_len h =? 64)%N && str_all is_lower_hex h) hex
  end.

(** [validate_publication_key_fingerprint] (publication.rs:1141-1153). *)
Definition validate_publication_key_fingerprint (value : string) : result PublicationTrustError unit :=
  sha256_form value FingerprintPrefix FingerprintHex.

(** [ensure_publication_key_identity_matches] (publication.rs:1161-1173). *)
Definition ensure_publication_key_identity_matches (expected observed : string)
    : result PublicationTrustError unit :=
  let? _ := validate_publication_key_fingerprint expected in
  let? _ := validate_publication_key_fingerprint observed in
  ensure (String.eqb expected observed) KeyMismatch.

(** [validate_revision] (publication.rs:1175-1185). *)
Definition validate_revision (value : string) : result PublicationTrustError unit :=
  sha256_form value RevisionPrefix RevisionHex.

Definition is_alnum (c : ascii) : bool := is_digit c || is_upper c || is_lower c.
Definition id_char (c : ascii) : bool := is_alnum c || Ascii.eqb c "_" || Ascii.eqb c "-".

(** [validate_opaque_id] (publication.rs:1187-1200). *)
Definition validate_opaque_id (field value : string) : result PublicationTrustError unit :=
  ensure (negb (String.eqb value "") && (str_len value <=? 128)%N && str_all id_char value) (BadOpaqueId field).

Definition path_char (c : ascii) : bool := is_alnum c || str_mem c "_./-".

(** [validate_display_path] (publication.rs:1202-1221). *)
Definition validate_display_path (value : string) : result PublicationTrustError unit :=
  let valid_first := match value with String c _ => is_alnum c || Ascii.eqb c "_" | EmptyString => false end in
  let valid_rest := str_all path_char (str_drop 1 value) in
  ensure ((str_len value <=? 4096)%N && valid_first && valid_rest && negb (str_contains ".." value)) BadDisplayPath.

(** [validate_media_type] (publication.rs:1223-1230). *)
Definition validate_media_type (value : string) : result PublicationTrustError unit :=
  ensure (negb (String.eqb value "") && (length (chars value) <=? 255)%nat) BadMediaType.

(** [parse_rfc3339_seconds] (publication.rs:1242-1248). *)
Definition parse_rfc3339_seconds (field value : string) : result PublicationTrustError Z :=
  ok_or (parse_rfc3339_inner value) (Rejected (BadTimestamp field value)).

(** [is_known_v1_role] (publication.rs:1082-1087). *)
Definition is_known_v1_role (role : string) : bool :=
  existsb (String.eqb role)
    ["video_left"; "video_right"; "video_mono"; "video_stereo"; "imu"; "metadata"; "other"].

(** [is_video_role] (publication.rs:1089-1094). *)
Definition is_video_role (role : string) : bool :=
  existsb (String.eqb role) ["video_left"; "video_right"; "video_mono"; "video_stereo"].

(** [file_entry_matches] (publication.rs:1073-1080). *)
Definition file_entry_matches (signed wire : PublicationFileClaim) : bool :=
  String.eqb (pc_id signed) (pc_id wire) && String.eqb (pc_display_path signed) (pc_display_path wire)
  && String.eqb (pc_role signed) (pc_role wire) && (pc_size_bytes signed =? pc_size_bytes wire)%N
  && String.eqb (pc_sha256 signed) (pc_sha256 wire) && String.eqb (pc_media_type signed) (pc_media_type wire).

Fixpoint pick_fields `{Floats} (object content : list (string * json)) (fields : list string)
    : result PublicationTrustError (list (string * json)) :=
  match fields with
  | [] => Ok content
  | field :: fields' =>
      let? v := ok_or (obj_get field object) (Rejected MissingContentField) in
      pick_fields object (obj_insert field v content) fields'
  end.

(** [payload_object_for_revision] (publication.rs:1019-1043). *)
Definition payload_object_for_revision `{Floats} (value : json) : result PublicationTrustError json :=
  match value with
  | JObject object => let? content := pick_fields object [] REVISION_FIELDS in Ok (JObject content)
  | _ => rejected NotAnObject
  end.

(** ** Verified output *)

(** [VerifiedFile] (publication.rs:517-524). *)
Record VerifiedFile := mkVerifiedFile {
  vf_file_id : FileId;
  vf_display_path : string;
  vf_role : string;
  vf_size_bytes : N;
  vf_sha256 : string;
  vf_media_type : string;
}.

Section trust.
Context `{PayloadSchema, Sha256} {JT : JsonText}.

(** [VerifiedPublication] (publication.rs:573-586). *)
Record VerifiedPublication := mkVerified {
  vp_session_id : SessionId;
  vp_revision : string;
  vp_captured_at : string;
  vp_published_at : string;
  vp_duration_seconds : f64;
  vp_total_bytes : N;
  vp_video_bytes : N;
  vp_key_fingerprint : string;
  vp_payload : list byte;
  vp_signature : list byte;
  vp_public_key : list byte;
  vp_files : list VerifiedFile;
}.

(** [VerifiedTransferPlan] (publication.rs:731-735). *)
Record VerifiedTransferPlan := mkPlan {
  tp_publication : VerifiedPublication;
  tp_requested : list nat;
  tp_full_session : bool;
}.

(** [PublicationTrust::verify, per file] (publication.rs:957-995). *)
Fixpoint check_files (ids paths : list string) (total_bytes video_bytes : N) (files : list PublicationFileClaim)
    : result PublicationTrustError (N * N * list VerifiedFile) :=
  match files with
  | [] => Ok (total_bytes, video_bytes, [])
  | file :: rest =>
      let? _ := validate_opaque_id "signed file id" (pc_id file) in
      let? _ := validate_display_path (pc_display_path file) in
      let? _ := validate_media_type (pc_media_type file) in
      let? _ := ensure (negb (bool_decide (pc_id file ∈ ids))) DuplicateFileId in
      let? _ := ensure (negb (bool_decide (pc_display_path file ∈ paths))) DuplicateDisplayPath in
      let? _ := ensure ((str_len (pc_sha256 file) =? 64)%N && str_all is_lower_hex (pc_sha256 file)) BadDigest in
      let? _ := ensure (is_known_v1_role (pc_role file)) BadRole in
      let? total := ok_or (u64_checked_add total_bytes (pc_size_bytes file)) (Rejected TotalOverflow) in
      let? video := (if is_video_role (pc_role file)
                     then ok_or (u64_checked_add video_bytes (pc_size_bytes file)) (Rejected VideoOverflow)
                     else Ok video_bytes) in
      let? (totals, files) := check_files (pc_id file :: ids) (pc_display_path file :: paths) total video rest in
      Ok (totals, mkVerifiedFile (pc_id file) (pc_display_path file) (pc_role file) (pc_size_bytes file)
                    (pc_sha256 file) (pc_media_type file) :: files)
  end.

(** [PublicationTrust::verify, schema] (publication.rs:872-905). *)
Definition signed_payload (payload_bytes : list byte) : result PublicationTrustError SignedPublicationPayload :=
  let? payload_value := parse_strict_json payload_bytes in
  let? _ := match payload_value with
            | JObject object => ensure (negb (bool_decide (is_Some (obj_get "publication_signature" object)))) PayloadHasSignature
            | _ => rejected NotAnObject
            end in
  let? payload := ok_or (payload_from_value payload_value) (Rejected SchemaInvalid) in
  let? _ := ensure (has_known_schema_version (sp_schema_version payload)) (UnsupportedSchema (sp_schema_version payload)) in
  let? content := payload_object_for_revision payload_value in
  let expected_revision := "sha256:" ++ to_hex (sha256 (bytes_of (write_canonical_json content))) in
  let? _ := ensure (String.eqb (sp_revision payload) expected_revision) RevisionNotCanonical in
  let? _ := ensure (sp_integrity_ok payload) IntegrityNotOk in
  Ok payload.

(** [PublicationTrust::verify, scalars and inventory] (publication.rs:907-949). *)
Definition matches_envelope (payload : SignedPublicationPayload) (envelope : PublicationEnvelope)
    : result PublicationTrustError unit :=
  let? _ := validate_opaque_id "signed session_id" (sp_session_id payload) in
  let? _ := validate_revision (sp_revision payload) in
  let? captured_at := parse_rfc3339_seconds "signed captured_at" (sp_captured_at payload) in
  let? published_at := parse_rfc3339_seconds "signed published_at" (sp_published_at payload) in
  let? _ := ensure (negb (published_at <? captured_at)%Z) PublishedBeforeCaptured in
  let? _ := ensure (f64_finite (sp_duration_seconds payload) && negb (f64_negative (sp_duration_seconds payload)))
              BadDuration in
  let? _ := ensure (String.eqb (sp_session_id payload) (pe_session_id envelope)
                    && String.eqb (sp_revision payload) (pe_revision envelope)
                    && String.eqb (sp_captured_at payload) (pe_captured_at envelope)
                    && String.eqb (sp_published_at payload) (pe_published_at envelope)
                    && f64_eqb (sp_duration_seconds payload) (pe_duration_seconds envelope)
                    && (sp_total_bytes payload =? pe_total_bytes envelope)%N
                    && (sp_video_bytes payload =? pe_video_bytes envelope)%N) ScalarMismatch in
  ensure ((N.of_nat (length (sp_files payload)) =? pe_file_count envelope)%N
          && negb (bool_decide (sp_files payload = []))
          && (N.of_nat (length (pe_files envelope)) =? pe_file_count envelope)%N
          && (length (sp_files payload) =? length (pe_files envelope))%nat
          && forallb (fun '(signed, wire) => file_entry_matches signed wire)
               (combine (sp_files payload) (pe_files envelope))) InventoryMismatch.

Definition Verifier : Type := list byte -> list byte -> list byte -> result VerifyError unit.

(** [PublicationTrust::verify] (publication.rs:829-1016). *)
Definition verify (verifier : Verifier) (envelope : PublicationEnvelope)
    (requested_session_id expected_key_fingerprint : string)
    : result PublicationTrustError VerifiedPublication :=
  let? _ := ensure_publication_key_identity_matches expected_key_fingerprint
              (pe_publication_key_fingerprint envelope) in
  let? _ := validate_opaque_id "requested session_id" requested_session_id in
  let? _ := ensure (String.eqb (pe_session_id envelope) requested_session_id) SessionMismatch in
  let? public_key := decode_lower_hex_exact "publication_public_key" (pe_publication_public_key_hex envelope)
                       ED25519_PUBLIC_KEY_LENGTH in
  let? signature := decode_lower_hex_exact "publication_signature" (pe_publication_signature_hex envelope)
                      ED25519_SIGNATURE_LENGTH in
  let computed_fingerprint := "sha256:" ++ to_hex (sha256 public_key) in
  let? _ := ensure (String.eqb computed_fingerprint (pe_publication_key_fingerprint envelope)) KeyHashMismatch in
  let payload_bytes := bytes_of (pe_publication_payload envelope) in
  let? _ := rmap_err of_verify_error (verifier payload_bytes signature public_key) in
  let? payload := signed_payload payload_bytes in
  let? _ := matches_envelope payload envelope in
  let? (total_bytes, video_bytes, files) := check_files [] [] 0 0 (sp_files payload) in
  let? _ := ensure ((total_bytes =? sp_total_bytes payload)%N && (video_bytes =? sp_video_bytes payload)%N)
              AggregateMismatch in
  Ok (mkVerified (sp_session_id payload) (sp_revision payload) (sp_captured_at payload) (sp_published_at payload)
        (sp_duration_seconds payload) (sp_total_bytes payload) (sp_video_bytes payload) computed_fingerprint
        payload_bytes signature public_key files).

(** ** Plans *)

(** [VerifiedPublication::full_download_plan] (publication.rs:673-680). *)
Definition full_download_plan (publication : VerifiedPublication) : VerifiedTransferPlan :=
  mkPlan publication (seq 0 (length (vp_files publication))) true.

Definition position_of (id : string) (files : list VerifiedFile) : option nat :=
  fst <$> list_find (fun f => vf_file_id f = id) files.

(** [VerifiedPublication::subset_download_plan, loop] (publication.rs:695-712). *)
Fixpoint choose (files : list VerifiedFile) (indices : list nat) (requested : list FileId)
    : result PublicationTrustError (list nat) :=
  match requested with
  | [] => Ok indices
  | id :: rest =>
      match position_of id files with
      | None => rejected (PlanUnknown id)
      | Some position =>
          if bool_decide (position ∈ indices) then rejected (PlanDuplicate id)
          else choose files (indices ++ [position])%list rest
      end
  end.

(** [VerifiedPublication::subset_download_plan] (publication.rs:688-717). *)
Definition subset_download_plan (publication : VerifiedPublication) (requested : list FileId)
    : result PublicationTrustError VerifiedTransferPlan :=
  match requested with
  | [] => rejected PlanEmpty
  | _ =>
      let? indices := choose (vp_files publication) [] requested in
      Ok (mkPlan publication indices (length indices =? length (vp_files publication))%nat)
  end.

(** [VerifiedTransferPlan::files] (publication.rs:744-746). *)
Definition plan_files (plan : VerifiedTransferPlan) : list VerifiedFile :=
  omap (fun i => vp_files (tp_publication plan) !! i) (tp_requested plan).

(** [VerifiedTransferPlan::into_job_spec] (publication.rs:762-804). *)
Definition into_job_spec (plan : VerifiedTransferPlan) (device_id date_label : string)
    : result JobSpecError JobSpec :=
  let publication := tp_publication plan in
  let? identity := JobIdentity_new device_id (vp_session_id publication) (vp_revision publication) in
  let? material := PublicationMaterial_new (vp_revision publication) (vp_payload publication)
                     (vp_signature publication) (vp_public_key publication) in
  let? session_files := rtraverse (fun file => JobFileSpec_new (vf_file_id file) (vf_display_path file)
                                                 (vf_size_bytes file) (vf_sha256 file)) (vp_files publication) in
  let requested := map vf_file_id (plan_files plan) in
  JobSpec_new identity material session_files requested (tp_full_session plan) date_label.

End trust.
