(* ===== verification/Trust.v ===== *)
(** * Trust: what a verified publication guarantees (publication.rs)

[verify] is sound: whatever envelope it accepts, the result is signed by the
pinned key, internally consistent and safe to turn into a job; and the plans
made from it always become job specifications whose sizes and digests are the
signed ones. *)

From Stdlib Require Import NArith ZArith Lia Ascii String.
From stdpp Require Import base numbers list strings.
From S2P Require Import Prelude Domain Files Journal Json StrictJson Timestamp Publication.

Local Open Scope string_scope.

Lemma ensure_ok b reason u : ensure b reason = Ok u <-> b = true.
Proof. unfold ensure. destruct b, u; split; done. Qed.

(** ** Formats *)

Lemma str_contains_app needle a b : str_contains needle (a ++ needle ++ b) = true.
Proof.
  assert (Hhere : forall s t, strip_prefix needle s = Some t -> str_contains needle s = true).
  { intros s t Hs. destruct s; simpl; by rewrite Hs. }
  induction a as [|c a IH].
  - rewrite str_app_nil_l. apply (Hhere _ b). by apply strip_prefix_Some.
  - rewrite str_app_cons. cbn [str_contains]. destruct (strip_prefix needle _); [done|apply IH].
Qed.

(** A piece of a split text is a part of it. *)
Lemma split_char_part c s w : w ∈ split_char c s -> exists a b, s = a ++ w ++ b.
Proof.
  revert w. assert (Hhead : forall s, exists w ws, split_char c s = w :: ws /\ exists b, s = w ++ b).
  { induction s0 as [|d s0 (w & ws & Hs & b & Hb)]; [exists "", []; split; [done|by exists ""]|]. simpl.
    destruct (Ascii.eqb d c); [exists "", (split_char c s0); split; [done|by exists (String d s0)]|].
    rewrite Hs. exists (String d w), ws. split; [done|]. exists b. by rewrite str_app_cons, <- Hb. }
  induction s as [|d s IH]; intros w; simpl.
  { intros ->%list_elem_of_singleton. by exists "", "". }
  destruct (Ascii.eqb d c).
  - intros [->|Hw]%elem_of_cons; [by exists "", (String d s)|]. destruct (IH w Hw) as (a & b & ->).
    by exists (String d a), b.
  - destruct (Hhead s) as (w0 & ws0 & Hs & b & Hb). rewrite Hs in IH |- *. intros [->|Hw]%elem_of_cons.
    + exists "", b. by rewrite str_app_nil_l, str_app_cons, <- Hb.
    + destruct (IH w) as (a & b' & ->); [by right|]. by exists (String d a), b'.
Qed.

Definition id_ok (id : string) : Prop := id <> "" /\ (str_len id <= 128)%N /\ str_all id_char id = true.
Definition digest_ok (h : string) : Prop := str_len h = 64%N /\ str_all is_lower_hex h = true.

(** Relative (it begins with a letter, a digit or [_]), without backslashes, and
    no component climbs. *)
Definition path_safe (p : string) : Prop :=
  (exists c t, p = String c t /\ is_alnum c || Ascii.eqb c "_" = true) /\ str_mem "\" p = false /\ (".." ∉ split_char "/" p) /\
  (str_len p <= 4096)%N.

Lemma validate_opaque_id_ok field v u : validate_opaque_id field v = Ok u -> id_ok v.
Proof.
  unfold validate_opaque_id. rewrite ensure_ok, !andb_true_iff, negb_true_iff. intros [[Hne Hl%N.leb_le] Hc].
  apply String.eqb_neq in Hne. by split_and!.
Qed.

Lemma all_not_mem c p s : p c = false -> str_all p s = true -> str_mem c s = false.
Proof.
  intros Hc. unfold str_mem, str_any. rewrite negb_false_iff. induction s as [|d s IH]; [done|]. cbn [str_all].
  rewrite !andb_true_iff. intros [Hd Hs]. split; [|by apply IH]. apply negb_true_iff, Ascii.eqb_neq. by intros ->; congruence.
Qed.

Lemma validate_display_path_ok p u : validate_display_path p = Ok u -> path_safe p.
Proof.
  unfold validate_display_path. rewrite ensure_ok, !andb_true_iff, negb_true_iff.
  intros [[[Hl%N.leb_le Hf] Hr] Hd]. destruct p as [|c t]; [done|]. simpl in Hr.
  assert (Ht := all_not_mem "\" path_char t eq_refl Hr). split_and!; [by exists c, t| | |done].
  - revert Ht. unfold str_mem, str_any. rewrite !negb_false_iff. cbn [str_all]. intros ->.
    rewrite andb_true_r. apply negb_true_iff, Ascii.eqb_neq. by intros <-.
  - intros (a & b & Hp)%split_char_part. by rewrite Hp, str_contains_app in Hd.
Qed.

Lemma sha256_form_ok v prefix hex u : sha256_form v prefix hex = Ok u -> exists h, v = "sha256:" ++ h /\ digest_ok h.
Proof.
  unfold sha256_form. destruct (strip_prefix "sha256:" v) as [h|] eqn:E; [|done].
  rewrite ensure_ok, andb_true_iff. intros [Hl%N.eqb_eq Hh]. apply strip_prefix_Some in E as ->. by exists h.
Qed.

(** *** Hex *)

Lemma decode_pairs_length (n : nat) s : str_len s = N.of_nat (n * 2) -> length (decode_pairs s) = n.
Proof.
  unfold str_len. intros Hl%Nat2N.inj. revert s Hl. induction n as [|n IH]; intros [|h [|l s]]; simpl; try done.
  intros [= Hl]. f_equal. by apply IH.
Qed.

Lemma nibble_hex_char d : (d < 16)%N -> nibble (hex_char d) = d /\ is_lower_hex (hex_char d) = true.
Proof.
  intros Hd. assert (Hin : d ∈ N.of_nat <$> seq 0 16).
  { apply list_elem_of_fmap. exists (N.to_nat d). split; [lia|]. apply elem_of_seq. lia. }
  clear Hd. revert d Hin. apply Forall_forall. repeat (constructor; [by vm_compute|]). constructor.
Qed.

Lemma byte_nibbles b : let n := Byte.to_N b in
  (N.shiftr n 4 < 16)%N /\ (N.land n 15 < 16)%N /\ byte_of (N.lor (N.shiftl (N.shiftr n 4) 4) (N.land n 15)) = b.
Proof. by destruct b; vm_compute. Qed.

Lemma decode_encode_hex bs : decode_pairs (encode_lower_hex bs) = bs.
Proof.
  induction bs as [|b bs IH]; [done|]. cbn [encode_lower_hex decode_pairs]. destruct (byte_nibbles b) as (H1 & H2 & H3).
  rewrite (proj1 (nibble_hex_char _ H1)), (proj1 (nibble_hex_char _ H2)), H3. by rewrite IH.
Qed.

Lemma decode_ok field v n bs : decode_lower_hex_exact field v n = Ok bs -> bs = decode_pairs v /\ length bs = n.
Proof.
  unfold decode_lower_hex_exact. destruct (str_len v =? N.of_nat (n * 2))%N eqn:El; [|done]. simpl.
  destruct (str_all is_lower_hex v); [|done]. intros [= <-]. split; [done|]. by apply decode_pairs_length, N.eqb_eq.
Qed.

(** ** The inventory *)

Definition claim_of (f : VerifiedFile) : PublicationFileClaim :=
  mkClaim (vf_file_id f) (vf_display_path f) (vf_role f) (vf_size_bytes f) (vf_sha256 f) (vf_media_type f).

Definition file_trusted (f : VerifiedFile) : Prop :=
  id_ok (vf_file_id f) /\ path_safe (vf_display_path f) /\ digest_ok (vf_sha256 f) /\
  is_known_v1_role (vf_role f) = true /\ vf_media_type f <> "".

Definition total_size (files : list VerifiedFile) : N := foldr (fun f n => vf_size_bytes f + n)%N 0%N files.
Definition video_size (files : list VerifiedFile) : N :=
  total_size (filter (fun f => is_video_role (vf_role f) = true) files).

Lemma check_files_ok files : forall ids paths total video total' video' out,
  check_files ids paths total video files = Ok (total', video', out) ->
  map claim_of out = files /\ Forall file_trusted out /\
  NoDup (map vf_file_id out) /\ (forall f, f ∈ out -> vf_file_id f ∉ ids) /\
  NoDup (map vf_display_path out) /\ (forall f, f ∈ out -> vf_display_path f ∉ paths) /\
  total' = (total + total_size out)%N /\ video' = (video + video_size out)%N /\
  (total <= u64_max -> total' <= u64_max)%N /\ (video <= u64_max -> video' <= u64_max)%N.
Proof.
  induction files as [|file files IH]; intros ids paths total video total' video' out; cbn [check_files].
  { intros [= <- <- <-]. split_and!; try done; try constructor; try (by intros f []%elem_of_nil);
      unfold video_size; simpl; lia. }
  rewrite rbind_ok. intros (u1 & Hid & Hr). revert Hr. rewrite rbind_ok. intros (u2 & Hpath & Hr).
  revert Hr. rewrite rbind_ok. intros (u3 & Hmedia & Hr). revert Hr. rewrite rbind_ok. intros (u4 & Hdup & Hr).
  revert Hr. rewrite rbind_ok. intros (u5 & Hdup2 & Hr). revert Hr. rewrite rbind_ok. intros (u6 & Hdig & Hr).
  revert Hr. rewrite rbind_ok. intros (u7 & Hrole & Hr). revert Hr. rewrite rbind_ok. intros (t1 & Ht & Hr).
  revert Hr. rewrite rbind_ok. intros (v1 & Hv & Hr). revert Hr. rewrite rbind_ok.
  intros ([[t2 v2] fs] & Hrest & [= <- <- <-]). apply IH in Hrest as (Hc & Hf & Hn & Hni & Hp & Hpi & Hts & Hvs & Htm & Hvm).
  apply validate_opaque_id_ok in Hid. apply validate_display_path_ok in Hpath.
  apply ensure_ok, negb_true_iff, bool_decide_eq_false in Hdup, Hdup2.
  apply ensure_ok, andb_true_iff in Hdig as [Hdl%N.eqb_eq Hdh]. apply ensure_ok in Hrole.
  unfold validate_media_type in Hmedia. apply ensure_ok, andb_true_iff in Hmedia as [Hmedia%negb_true_iff%String.eqb_neq _].
  apply ok_or_ok, u64_checked_add_Some in Ht as [Hle ->].
  assert (Hv' : v1 = (video + if is_video_role (pc_role file) then pc_size_bytes file else 0)%N /\
    (video <= u64_max -> v1 <= u64_max)%N).
  { destruct (is_video_role (pc_role file)).
    - apply ok_or_ok, u64_checked_add_Some in Hv as [? ->]. split; [done|lia].
    - injection Hv as <-. split; lia. }
  destruct Hv' as [Hv1 Hv1m]. set (f0 := mkVerifiedFile _ _ _ _ _ _).
  split_and!.
  - simpl. rewrite Hc. by destruct file.
  - constructor; [|done]. by split_and!.
  - simpl. apply NoDup_cons. split; [|done]. rewrite list_elem_of_In, in_map_iff. intros (f & He & Hin%list_elem_of_In).
    apply (Hni f Hin). rewrite He. by left.
  - intros f [->|Hin]%elem_of_cons; [done|]. intros Hx. apply (Hni f Hin). by right.
  - simpl. apply NoDup_cons. split; [|done]. rewrite list_elem_of_In, in_map_iff. intros (f & He & Hin%list_elem_of_In).
    apply (Hpi f Hin). rewrite He. by left.
  - intros f [->|Hin]%elem_of_cons; [done|]. intros Hx. apply (Hpi f Hin). by right.
  - rewrite Hts. simpl. lia.
  - rewrite Hvs, Hv1. unfold video_size. rewrite filter_cons. simpl.
    destruct (is_video_role (pc_role file)) eqn:Er; [rewrite decide_True by done; simpl; lia|].
    rewrite decide_False by done. lia.
  - intros _. by apply Htm.
  - intros Hm. by apply Hvm, Hv1m.
Qed.

(** ** What an accepted envelope has shown *)

Section trust.
Context `{PayloadSchema, Sha256} {JT : JsonText}.

Record trustworthy (verifier : Verifier) (envelope : PublicationEnvelope) (requested expected : string)
    (v : VerifiedPublication) : Prop := {
  tw_key : expected = "sha256:" ++ to_hex (sha256 (vp_public_key v));
  tw_named : pe_publication_key_fingerprint envelope = expected;
  tw_lengths : length (vp_public_key v) = 32 /\ length (vp_signature v) = 64;
  tw_exact : vp_payload v = bytes_of (pe_publication_payload envelope);
  tw_signed : verifier (vp_payload v) (vp_signature v) (vp_public_key v) = Ok tt;
  tw_session : vp_session_id v = requested /\ id_ok requested;
  tw_payload : exists object content p,
    strict_document (pe_publication_payload envelope) /\
    json_from_str (pe_publication_payload envelope) = Some (JObject object) /\
    payload_from_value (JObject object) = Some p /\
    payload_object_for_revision (JObject object) = Ok content /\
    vp_revision v = "sha256:" ++ to_hex (sha256 (bytes_of (write_canonical_json content))) /\
    sp_session_id p = vp_session_id v /\ sp_files p = map claim_of (vp_files v);
  tw_echo : pe_revision envelope = vp_revision v /\ pe_files envelope = map claim_of (vp_files v);
  tw_files : Forall file_trusted (vp_files v) /\ vp_files v <> [];
  tw_unique : NoDup (map vf_file_id (vp_files v)) /\ NoDup (map vf_display_path (vp_files v));
  tw_sizes : vp_total_bytes v = total_size (vp_files v) /\ vp_video_bytes v = video_size (vp_files v) /\
             (vp_total_bytes v <= u64_max)%N;
  tw_times : exists captured published, parse_rfc3339_inner (vp_captured_at v) = Some captured /\
             parse_rfc3339_inner (vp_published_at v) = Some published /\ (captured <= published)%Z;
}.

Lemma file_entry_matches_eq a b : file_entry_matches a b = true -> a = b.
Proof.
  unfold file_entry_matches. rewrite !andb_true_iff, !String.eqb_eq, N.eqb_eq. destruct a, b; simpl.
  intros [[[[[-> ->] ->] ->] ->] ->]. done.
Qed.

Lemma inventory_eq (a b : list PublicationFileClaim) :
  length a = length b -> forallb (fun '(signed, wire) => file_entry_matches signed wire) (combine a b) = true -> a = b.
Proof.
  revert b. induction a as [|x a IH]; intros [|y b]; try done. intros [= Hl]. simpl.
  rewrite andb_true_iff. intros [->%file_entry_matches_eq Hc]. f_equal. by apply IH.
Qed.

Lemma signed_payload_ok bytes p :
  signed_payload bytes = Ok p ->
  exists object content, audit (string_of_list_byte bytes) = Ok tt /\
    json_from_str (string_of_list_byte bytes) = Some (JObject object) /\
    payload_from_value (JObject object) = Some p /\
    payload_object_for_revision (JObject object) = Ok content /\
    sp_revision p = "sha256:" ++ to_hex (sha256 (bytes_of (write_canonical_json content))).
Proof.
  unfold signed_payload. rewrite rbind_ok. intros (value & Hparse & Hr).
  revert Hr. rewrite rbind_ok. intros (u1 & Hobj & Hr). revert Hr. rewrite rbind_ok. intros (p' & Hp & Hr).
  revert Hr. rewrite rbind_ok. intros (u2 & Hschema & Hr). revert Hr. rewrite rbind_ok. intros (content & Hc & Hr).
  revert Hr. rewrite rbind_ok. intros (u3 & Hrev & Hr). revert Hr. rewrite rbind_ok. intros (u4 & _ & [= <-]).
  destruct value as [| | | | |object]; try done. apply ok_or_ok in Hp.
  apply ensure_ok, String.eqb_eq in Hrev. revert Hparse. unfold parse_strict_json.
  destruct (utf8_valid bytes); simpl negb; cbn iota; [|done]. rewrite rbind_ok. intros (u5 & _ & Hr). revert Hr. rewrite rbind_ok.
  intros ([] & Ha & Hj%ok_or_ok). by exists object, content.
Qed.

Lemma matches_envelope_ok p envelope u :
  matches_envelope p envelope = Ok u ->
  sp_session_id p = pe_session_id envelope /\ sp_revision p = pe_revision envelope /\
  sp_files p = pe_files envelope /\ sp_files p <> [] /\
  exists captured published, parse_rfc3339_inner (sp_captured_at p) = Some captured /\
    parse_rfc3339_inner (sp_published_at p) = Some published /\ (captured <= published)%Z.
Proof.
  unfold matches_envelope. rewrite rbind_ok. intros (u1 & _ & Hr). revert Hr. rewrite rbind_ok. intros (u2 & _ & Hr).
  revert Hr. rewrite rbind_ok. intros (c & Hc%ok_or_ok & Hr). revert Hr. rewrite rbind_ok.
  intros (q & Hq%ok_or_ok & Hr). revert Hr. rewrite rbind_ok. intros (u3 & Ht & Hr).
  revert Hr. rewrite rbind_ok. intros (u4 & _ & Hr). revert Hr. rewrite rbind_ok. intros (u5 & Hs & Hi).
  apply ensure_ok, negb_true_iff, Z.ltb_ge in Ht. apply ensure_ok in Hs, Hi.
  rewrite !andb_true_iff, !String.eqb_eq in Hs. rewrite !andb_true_iff, Nat.eqb_eq, negb_true_iff in Hi.
  destruct Hs as [[[[[[Hs1 Hs2] _] _] _] _] _]. destruct Hi as [[[[_ Hne%bool_decide_eq_false] _] Hl] Hm].
  split_and!; [done|done|by apply inventory_eq|done|by exists c, q].
Qed.

Lemma map_claim_nil files : map claim_of files = [] -> files = [].
Proof. by destruct files. Qed.

Lemma verify_trustworthy verifier envelope requested expected v :
  verify verifier envelope requested expected = Ok v -> trustworthy verifier envelope requested expected v.
Proof.
  unfold verify. rewrite rbind_ok. intros (u1 & Hkey & Hr). revert Hr. rewrite rbind_ok. intros (u2 & Hreq & Hr).
  revert Hr. rewrite rbind_ok. intros (u3 & Hsess & Hr). revert Hr. rewrite rbind_ok. intros (key & Hk & Hr).
  revert Hr. rewrite rbind_ok. intros (sig & Hsig & Hr). revert Hr. rewrite rbind_ok. intros (u4 & Hhash & Hr).
  revert Hr. rewrite rbind_ok. intros ([] & Hver%rmap_err_ok & Hr). revert Hr. rewrite rbind_ok.
  intros (p & Hp & Hr). revert Hr. rewrite rbind_ok. intros (u5 & Hm & Hr). revert Hr. rewrite rbind_ok.
  intros ([[total video] files] & Hf & Hr). revert Hr. rewrite rbind_ok. intros (u6 & Hagg & [= <-]).
  apply ensure_ok, String.eqb_eq in Hsess, Hhash. apply ensure_ok, andb_true_iff in Hagg as [Ht%N.eqb_eq Hv%N.eqb_eq].
  apply decode_ok in Hk as [_ Hkl], Hsig as [_ Hsl]. apply validate_opaque_id_ok in Hreq.
  assert (Hexp : expected = pe_publication_key_fingerprint envelope).
  { revert Hkey. unfold ensure_publication_key_identity_matches. rewrite rbind_ok. intros (? & _ & Hr).
    revert Hr. rewrite rbind_ok. intros (? & _ & He%ensure_ok%String.eqb_eq). done. }
  apply signed_payload_ok in Hp as (object & content & Ha & Hj & Hpv & Hc & Hrev).
  unfold bytes_of in Ha, Hj. rewrite string_of_list_byte_of_string in Ha, Hj.
  apply strict_audit in Ha.
  apply matches_envelope_ok in Hm as (Hs1 & Hs2 & Hs3 & Hne & Htimes).
  apply check_files_ok in Hf as (Hcl & Hft & Hn1 & _ & Hn2 & _ & Htot & Hvid & Hb & _).
  constructor; cbn [vp_public_key vp_signature vp_payload vp_session_id vp_revision vp_files vp_total_bytes
    vp_video_bytes vp_captured_at vp_published_at]; try done.
  - by rewrite Hexp, <- Hhash.
  - split; [by rewrite Hs1|done].
  - exists object, content, p. by rewrite Hcl.
  - by rewrite Hs2, Hcl, Hs3.
  - split; [done|]. intros ->. by rewrite <- Hcl in Hne.
  - rewrite <- Ht, <- Hv, Htot, Hvid. split_and!; [lia|lia|]. rewrite Htot in Hb. apply Hb. done.
Qed.

(** C3: a verified publication is one the pinned key signed, and it is
    consistent.  When [verify] accepts, whatever the envelope claims: the pinned
    fingerprint is the hash of the key the signature was checked with, over the
    exact payload bytes; the payload is strict JSON for the requested session
    whose revision is the hash of its canonical content; the envelope's
    inventory is the signed one, with distinct ids and safe, distinct paths,
    well-formed digests and totals that are true sums without overflow; and it
    was not published before it was captured. *)
Theorem verified_publication_is_trustworthy verifier envelope requested expected v :
  verify verifier envelope requested expected = Ok v -> trustworthy verifier envelope requested expected v.
Proof. apply verify_trustworthy. Qed.

(** ** The wire *)

(** The view of a device's answer reaches the verifier as it is: hex and UTF-8
    on the way change no byte. *)
Lemma detail_reaches_verifier verifier detail envelope requested expected v :
  from_session_detail detail = Ok envelope -> verify verifier envelope requested expected = Ok v ->
  vp_payload v = sd_publication_payload detail /\ vp_signature v = sd_publication_signature detail /\
  vp_public_key v = sd_publication_public_key detail.
Proof.
  unfold from_session_detail. destruct (utf8_valid _); simpl negb; cbn iota; [|done]. intros [= <-].
  unfold verify. rewrite rbind_ok. intros (u1 & _ & Hr). revert Hr. rewrite rbind_ok. intros (u2 & _ & Hr).
  revert Hr. rewrite rbind_ok. intros (u3 & _ & Hr). revert Hr. rewrite rbind_ok. intros (key & Hk & Hr).
  revert Hr. rewrite rbind_ok. intros (sig & Hs & Hr). revert Hr. rewrite rbind_ok. intros (u4 & _ & Hr).
  revert Hr. rewrite rbind_ok. intros (u5 & _ & Hr). revert Hr. rewrite rbind_ok. intros (p & _ & Hr).
  revert Hr. rewrite rbind_ok. intros (u6 & _ & Hr). revert Hr. rewrite rbind_ok. intros ([[? ?] files] & _ & Hr).
  revert Hr. rewrite rbind_ok. intros (u7 & _ & [= <-]). cbn [vp_payload vp_signature vp_public_key].
  apply decode_ok in Hk as [-> _], Hs as [-> _]. cbn [pe_publication_payload pe_publication_signature_hex
    pe_publication_public_key_hex]. rewrite !decode_encode_hex. split_and!; [|done|done].
  unfold bytes_of. apply list_byte_of_string_of_list_byte.
Qed.

(** ** A revision names one content *)

Lemma compare_self s : String.compare s s = Eq.
Proof. induction s as [|c s IH]; [done|]. simpl. unfold Ascii.compare. by rewrite N.compare_refl. Qed.

Lemma obj_get_insert {A : Type} key field (v : A) entries :
  obj_get field (obj_insert key v entries) = if String.eqb key field then Some v else obj_get field entries.
Proof.
  induction entries as [|[k w] entries IH]; [done|]. cbn [obj_insert].
  destruct (String.compare key k) eqn:Ec.
  - apply String.compare_eq_iff in Ec as ->. simpl. by destruct (String.eqb k field).
  - done.
  - cbn [obj_get]. rewrite IH. destruct (String.eqb_spec k field) as [->|]; [|done].
    destruct (String.eqb_spec key field) as [->|]; [|done].
    by rewrite compare_self in Ec.
Qed.

Lemma pick_fields_get object content fields content' field :
  pick_fields object content fields = Ok content' ->
  obj_get field content' = if bool_decide (field ∈ fields) then obj_get field object else obj_get field content.
Proof.
  revert content. induction fields as [|f fields IH]; intros content; cbn [pick_fields].
  { intros [= <-]. by rewrite bool_decide_false by apply not_elem_of_nil. }
  rewrite rbind_ok. intros (v & Hv%ok_or_ok & Hp). rewrite (IH _ Hp), obj_get_insert.
  destruct (bool_decide_reflect (field ∈ fields)) as [Hin|Hnin].
  - by rewrite bool_decide_true by (by right).
  - destruct (String.eqb_spec f field) as [->|Hne]; [by rewrite bool_decide_true by (by left)|].
    rewrite bool_decide_false; [done|]. by intros [?|?]%elem_of_cons.
Qed.

Lemma obj_insert_ok key v entries :
  text_ok key -> value_ok v -> Forall (fun e => text_ok e.1 /\ value_ok e.2) entries ->
  Forall (fun e => text_ok e.1 /\ value_ok e.2) (obj_insert key v entries).
Proof.
  intros Hk Hv. induction 1 as [|[k w] entries He Hes IH]; cbn [obj_insert]; [by rewrite Forall_singleton|].
  destruct (String.compare key k); rewrite !Forall_cons; cbn [fst snd] in *; tauto.
Qed.

Lemma pick_fields_ok object content fields content' :
  Forall text_ok fields -> Forall (fun e => text_ok e.1 /\ value_ok e.2) object ->
  Forall (fun e => text_ok e.1 /\ value_ok e.2) content ->
  pick_fields object content fields = Ok content' -> Forall (fun e => text_ok e.1 /\ value_ok e.2) content'.
Proof.
  intros Hf Ho. revert content. induction Hf as [|f fields Hf _ IH]; intros content Hc; cbn [pick_fields].
  { by intros [= <-]. }
  rewrite rbind_ok. intros (v & Hv%ok_or_ok & Hp). eapply IH; [|exact Hp]. apply obj_insert_ok; [done| |done].
  revert Hv. clear -Ho. induction Ho as [|[k w] object He _ IH]; [done|]. simpl.
  destruct (String.eqb k f); [intros [= <-]; apply He|apply IH].
Qed.

Lemma content_ok object content :
  value_ok (JObject object) -> payload_object_for_revision (JObject object) = Ok content -> value_ok content.
Proof.
  intros Hv. inversion Hv as [| | | | |? Ho]; subst. unfold payload_object_for_revision. rewrite rbind_ok.
  intros (c & Hc & [= <-]). apply ok_object. eapply pick_fields_ok; [|exact Ho| |exact Hc]; [|constructor].
  repeat (constructor; [by vm_compute|]). constructor.
Qed.

(** The bytes whose hash is the revision of a signed payload. *)
Definition revision_text (payload : string) : option (list byte) :=
  match json_from_str payload with
  | Some value =>
      match payload_object_for_revision value with
      | Ok content => Some (bytes_of (write_canonical_json content))
      | Err _ => None
      end
  | None => None
  end.

(** A revision names one content.  If two accepted publications,
    from whatever devices, keys and envelopes, carry the same revision, then
    they are of the same session and list the same files with the same paths,
    sizes and digests -- or the two hashed texts themselves are different and
    have the same SHA-256. *)
Theorem revision_names_one_content verifier envelope requested expected v verifier' envelope' requested' expected' w :
  verify verifier envelope requested expected = Ok v -> verify verifier' envelope' requested' expected' = Ok w ->
  vp_revision v = vp_revision w ->
  (vp_session_id v = vp_session_id w /\ map claim_of (vp_files v) = map claim_of (vp_files w)) \/
  exists a b, revision_text (pe_publication_payload envelope) = Some a /\
    revision_text (pe_publication_payload envelope') = Some b /\ a <> b /\ sha256 a = sha256 b.
Proof.
  intros Hv Hw Hrev. destruct (tw_payload _ _ _ _ _ (verify_trustworthy _ _ _ _ _ Hv)) as
    (o & c & p & _ & Hj & Hp & Hc & Hr & Hs & Hf).
  destruct (tw_payload _ _ _ _ _ (verify_trustworthy _ _ _ _ _ Hw)) as (o' & c' & p' & _ & Hj' & Hp' & Hc' & Hr' & Hs' & Hf').
  rewrite Hr, Hr' in Hrev. apply str_app_inj in Hrev as [_ Hhash]; [|done].
  destruct (decide (bytes_of (write_canonical_json c) = bytes_of (write_canonical_json c'))) as [He|Hne].
  - left. apply bytes_of_inj, canonical_inj in He;
      [|exact (content_ok _ _ (json_from_str_ok _ _ Hj) Hc)|exact (content_ok _ _ (json_from_str_ok _ _ Hj') Hc')].
    subst c'.
    assert (Hfields : forall field, field ∈ REVISION_FIELDS -> obj_get field o = obj_get field o').
    { unfold payload_object_for_revision in Hc, Hc'. apply rbind_ok in Hc as (k & Hk & [= <-]).
      apply rbind_ok in Hc' as (k' & Hk' & [= ->]). intros field Hin.
      assert (G1 := pick_fields_get _ _ _ _ field Hk). assert (G2 := pick_fields_get _ _ _ _ field Hk').
      rewrite bool_decide_true in G1, G2 by done. congruence. }
    destruct (payload_reads_fields _ _ _ _ Hp Hp' Hfields) as (E1 & _ & _ & _ & E2). by rewrite <- Hs, <- Hs', <- Hf, <- Hf'.
  - right. eexists _, _. unfold revision_text. rewrite Hj, Hj', Hc, Hc'. split_and!; [done|done|exact Hne|].
    apply (f_equal hex_bytes) in Hhash. rewrite !hex_bytes_to_hex in Hhash. by injection Hhash.
Qed.

(** ** From plans to jobs *)

Definition spec_of (f : VerifiedFile) : JobFileSpec :=
  mkFileSpec (vf_file_id f) (vf_display_path f) (vf_size_bytes f) (vf_sha256 f).

Definition plan_of (v : VerifiedPublication) (ids : list FileId) (plan : VerifiedTransferPlan) : Prop :=
  (plan = full_download_plan v /\ ids = map vf_file_id (vp_files v)) \/ subset_download_plan v ids = Ok plan.

Lemma visible_not_blank c s : (33 <= N_of_ascii c < 128)%N -> is_blank (String c s) = false.
Proof.
  intros Hc. cbn [is_blank]. set (b := N_of_ascii c) in *.
  replace (((9 <=? b) && (b <=? 13)) || (b =? 32))%N with false.
  2: { symmetry. rewrite orb_false_iff, andb_false_iff, !N.leb_gt, N.eqb_neq. lia. }
  destruct s as [|c2 s]; [done|]. replace (b =? 194)%N with false by (symmetry; apply N.eqb_neq; lia).
  simpl. destruct s as [|c3 s]; [done|].
  replace (b =? 225)%N with false by (symmetry; apply N.eqb_neq; lia).
  replace (b =? 226)%N with false by (symmetry; apply N.eqb_neq; lia).
  by replace (b =? 227)%N with false by (symmetry; apply N.eqb_neq; lia).
Qed.

Lemma id_char_visible c : id_char c = true -> (33 <= N_of_ascii c < 128)%N.
Proof.
  unfold id_char, is_alnum, is_digit, is_upper, is_lower, byte_in.
  rewrite !orb_true_iff, !andb_true_iff, !N.leb_le, !Ascii.eqb_eq. intros [[[[?|?]|?]|Hx]|Hx]; try lia; by subst c.
Qed.

Lemma id_not_blank id : id_ok id -> is_blank id = false.
Proof.
  intros (Hne & _ & Hc). destruct id as [|c s]; [done|]. cbn [str_all] in Hc. apply andb_true_iff in Hc as [Hc _].
  by apply visible_not_blank, id_char_visible.
Qed.

Lemma path_not_blank p : path_safe p -> is_blank p = false.
Proof.
  intros ((c & t & -> & Hc) & _). apply visible_not_blank, id_char_visible. unfold id_char.
  apply orb_true_iff. by left.
Qed.

Lemma file_spec_ok f :
  file_trusted f -> JobFileSpec_new (vf_file_id f) (vf_display_path f) (vf_size_bytes f) (vf_sha256 f) = Ok (spec_of f).
Proof.
  intros (Hid & Hp & [Hl Hh] & _). unfold JobFileSpec_new, require_non_empty.
  rewrite id_not_blank, path_not_blank by done. simpl. unfold require_sha256_hex. by rewrite Hl, Hh.
Qed.

Lemma position_of_lookup id files i : position_of id files = Some i -> exists f, files !! i = Some f /\ vf_file_id f = id.
Proof.
  unfold position_of. destruct (list_find _ files) as [[j f]|] eqn:Ef; [|done]. intros [= <-].
  apply list_find_Some in Ef as (Hf & Hid & _). by exists f.
Qed.

Lemma choose_ok files indices ids out :
  choose files indices ids = Ok out ->
  exists new, out = (indices ++ new)%list /\ (NoDup indices -> NoDup out) /\
    Forall2 (fun i id => exists f, files !! i = Some f /\ vf_file_id f = id) new ids.
Proof.
  revert indices. induction ids as [|id ids IH]; intros indices; cbn [choose].
  { intros [= <-]. exists []. rewrite app_nil_r. split_and!; [done|done|constructor]. }
  destruct (position_of id files) as [i|] eqn:Ei; [|done]. destruct (bool_decide_reflect (i ∈ indices)); [done|].
  intros (new & -> & Hnd & Hall)%IH. exists (i :: new). rewrite <- app_assoc. split_and!; [done| |].
  - intros Hn. rewrite <- app_assoc in Hnd. apply Hnd. apply NoDup_app. split_and!; [done| |apply NoDup_singleton].
    intros x Hx ->%list_elem_of_singleton. done.
  - constructor; [by apply position_of_lookup|done].
Qed.

Lemma lookups_of (files : list VerifiedFile) indices ids :
  Forall2 (fun i id => exists f, files !! i = Some f /\ vf_file_id f = id) indices ids ->
  map vf_file_id (omap (fun i => files !! i) indices) = ids /\ Forall (fun i => i < length files) indices.
Proof.
  induction 1 as [|i id indices ids (f & Hf & <-) _ [IH1 IH2]]; [by split|]. cbn [omap list_omap]. rewrite Hf.
  simpl. rewrite IH1. split; [done|]. constructor; [by apply lookup_lt_is_Some; eexists|done].
Qed.

Lemma omap_map (files : list VerifiedFile) l :
  omap (fun i => map spec_of files !! i) l = map spec_of (omap (fun i => files !! i) l).
Proof.
  induction l as [|i l IH]; [done|]. cbn [omap list_omap]. rewrite list_lookup_fmap.
  destruct (files !! i); cbn; by rewrite IH.
Qed.

Lemma plan_shape v ids plan :
  plan_of v ids plan -> vp_files v <> [] ->
  tp_publication plan = v /\ tp_requested plan <> [] /\ NoDup (tp_requested plan) /\
  Forall (fun i => i < length (vp_files v)) (tp_requested plan) /\
  map vf_file_id (plan_files plan) = ids /\
  (tp_full_session plan = true -> length (tp_requested plan) = length (vp_files v)).
Proof.
  intros [[-> ->]|Hs] Hne.
  - unfold full_download_plan, plan_files. cbn [tp_publication tp_requested tp_full_session].
    assert (Hall : Forall2 (fun i id => exists f, vp_files v !! i = Some f /\ vf_file_id f = id)
      (seq 0 (length (vp_files v))) (map vf_file_id (vp_files v))).
    { apply Forall2_same_length_lookup. split; [by rewrite length_seq, length_map|]. intros i j id [-> Hi]%lookup_seq Hid.
      apply list_lookup_fmap_Some in Hid as (f & -> & Hf). by exists f. }
    destruct (lookups_of _ _ _ Hall) as [H3 H4]. split_and!; [done| |apply NoDup_seq|done|done|].
    + by destruct (vp_files v).
    + by rewrite length_seq.
  - revert Hs. unfold subset_download_plan. destruct ids as [|id ids]; [done|]. rewrite rbind_ok.
    intros (indices & Hc & [= <-]). apply choose_ok in Hc as (new & -> & Hnd & Hall). simpl in *.
    destruct (lookups_of _ _ _ Hall) as [H3 H4]. unfold plan_files. cbn [tp_publication tp_requested tp_full_session].
    split_and!; [done|by inversion Hall|by apply Hnd, NoDup_nil_2|done|done|by intros ?%Nat.eqb_eq].
Qed.
End trust.

(** Every plan of a verified publication becomes a job, and the job is
    the signed one.  For the full plan and for every accepted subset,
    [into_job_spec] succeeds on any device id that is not blank: the job lists
    the whole signed inventory, requests exactly the chosen ids in the order
    they were asked for, each with its signed path, size and digest, and
    carries the signed payload, signature and key. *)
Theorem verified_plan_becomes_job `{PayloadSchema, Sha256} {JT : JsonText} verifier envelope requested expected
    v ids plan device_id date_label :
  verify verifier envelope requested expected = Ok v -> plan_of v ids plan -> is_blank device_id = false ->
  exists spec, into_job_spec plan device_id date_label = Ok spec /\
    sp_session_files spec = map spec_of (vp_files v) /\
    requested_files spec = map spec_of (plan_files plan) /\ map fs_file_id (requested_files spec) = ids /\
    sp_full_session spec = tp_full_session plan /\
    sp_identity spec = mkIdentity device_id requested (vp_revision v) /\
    sp_publication spec = mkMaterial (vp_revision v) (vp_payload v) (vp_signature v) (vp_public_key v).
Proof.
  intros Hv Hplan Hdev. assert (Htw := verify_trustworthy _ _ _ _ _ Hv).
  destruct (tw_files _ _ _ _ _ Htw) as [Hft Hne]. destruct (tw_unique _ _ _ _ _ Htw) as [Hnd _].
  destruct (tw_session _ _ _ _ _ Htw) as [Hsess Hid]. destruct (tw_lengths _ _ _ _ _ Htw) as [Hkl Hsl].
  destruct (tw_payload _ _ _ _ _ Htw) as (object & content & p & Hdoc & _ & _ & _ & Hrev & _).
  destruct (plan_shape v ids plan Hplan Hne) as (Hpub & Hrne & Hrnd & Hrange & Hids & Hfull).
  set (spec := mkJobSpec (mkIdentity device_id requested (vp_revision v))
    (mkMaterial (vp_revision v) (vp_payload v) (vp_signature v) (vp_public_key v))
    (map spec_of (vp_files v)) (tp_requested plan) (tp_full_session plan) date_label).
  assert (Hreq : requested_files spec = map spec_of (plan_files plan)).
  { unfold requested_files, plan_files. rewrite Hpub. apply omap_map. }
  exists spec. split; [|split_and!; try done; by rewrite Hreq, map_map].
  unfold into_job_spec. rewrite Hpub, Hsess, Hids. unfold JobIdentity_new, PublicationMaterial_new, require_non_empty.
  assert (Hrb : is_blank (vp_revision v) = false).
  { rewrite Hrev. apply visible_not_blank. by vm_compute. }
  rewrite Hdev, (id_not_blank requested Hid), Hrb. cbn [rbind].
  assert (Hpay : vp_payload v <> []).
  { rewrite (tw_exact _ _ _ _ _ Htw). destruct Hdoc as (d & w & -> & (w0 & c & t & -> & _)%value_head & _).
    by destruct w0. }
  destruct (vp_payload v) eqn:Epay; [done|]. unfold require_len. rewrite Hkl, Hsl. simpl ((_ =? _)%N). cbn iota.
  cbn [rbind]. rewrite (proj2 (rtraverse_ok _ _ (map spec_of (vp_files v)))).
  2: { rewrite Forall2_fmap_r. apply Forall_Forall2_diag. eapply Forall_impl; [exact Hft|]. apply file_spec_ok. }
  cbn [rbind]. apply JobSpec_new_spec. split_and!; try done.
  - constructor; try done; cbn [sp_session_files sp_requested sp_full_session].
    + by destruct (vp_files v).
    + change (NoDup (map fs_file_id (map spec_of (vp_files v)))). by rewrite map_map.
    + unfold spec. cbn [sp_session_files sp_requested]. by rewrite length_map.
    + unfold spec. cbn [sp_session_files sp_requested sp_full_session]. by rewrite length_map.
  - rewrite Hreq. change (map fs_file_id (map spec_of (plan_files plan)) = ids). by rewrite map_map.
Qed.

(** What the seam calls safe the library may still refuse to write: an empty
    component or a device name is accepted here and has no target there. *)
Lemma accepted_path_without_target :
  validate_display_path "video//left.mp4" = Ok tt /\
  derive_target_path_for_file "dev-1" "sess-1" "f1" (Some "video//left.mp4") = Err PsEmpty /\
  validate_display_path "CON" = Ok tt /\
  derive_target_path_for_file "dev-1" "sess-1" "f1" (Some "CON") = Err (PsReservedDeviceName "CON").
Proof. by vm_compute. Qed.

(** ** A demo publication *)

Module DemoPublication.
#[local] Existing Instance DemoFloats.floats.
#[local] Existing Instance DemoSha.sha.

Definition digest_text : string := to_hex (DemoSha.digest [Byte.x01; Byte.x02]).
Definition claim : PublicationFileClaim := mkClaim "f1" "left.mp4" "video_left" 2 digest_text "video/mp4".

Definition file_value : json :=
  JObject [("display_path", JString "left.mp4"); ("id", JString "f1"); ("media_type", JString "video/mp4");
           ("role", JString "video_left"); ("sha256", JString digest_text); ("size_bytes", JNumber (PosInt 2))].
Definition content_fields : list (string * json) :=
  [("captured_at", JString "2024-01-01T10:00:00Z"); ("duration_seconds", JNumber (Float (12%N : f64)));
   ("files", JArray [file_value]); ("integrity_ok", JBool true); ("schema_version", JNumber (PosInt 1));
   ("session_id", JString "sess-1"); ("total_bytes", JNumber (PosInt 2)); ("video_bytes", JNumber (PosInt 2))].
Definition revision : string :=
  "sha256:" ++ to_hex (DemoSha.digest (bytes_of (write_canonical_json (JObject content_fields)))).
Definition payload_value : json :=
  JObject (obj_insert "published_at" (JString "2024-01-01T11:00:00Z") (obj_insert "revision" (JString revision) content_fields)).
Definition payload_text : string := write_canonical_json payload_value.

(** The string tokens of JSON, read with the reference [unescape]. *)
Fixpoint read_chars (fuel : nat) (s : string) : option string :=
  match fuel with
  | O => None
  | S fuel' =>
      if String.eqb s (String quote "") then Some "" else
      '(n, r) ← unescape s; t ← read_chars fuel' r; Some (encode_char n ++ t)
  end.
Definition read_string (token : string) : option string :=
  r ← take_byte quote token; read_chars (String.length r) r.

(** A parser that knows one document. *)
Definition parse (s : string) : option json := if String.eqb s payload_text then Some payload_value else None.

Lemma payload_ok : value_ok payload_value.
Proof.
  unfold payload_value. apply ok_object.
  assert (Hf : value_ok file_value).
  { apply ok_object. repeat (constructor; [split; [by vm_compute|constructor; by vm_compute]|]). constructor. }
  vm_compute obj_insert. repeat (constructor; [split; [by vm_compute|]|]); try constructor; try (by vm_compute).
  by constructor.
Qed.

Lemma parse_ok s v : parse s = Some v -> value_ok v.
Proof. unfold parse. destruct (String.eqb s payload_text); [intros [= <-]; apply payload_ok|done]. Qed.

#[global] Instance json_text : JsonText := {|
  json_from_str := parse;
  string_from_str := read_string;
  json_from_str_ok := parse_ok;
|}.

Definition text_field (field : string) (o : list (string * json)) : option string :=
  match obj_get field o with Some (JString s) => Some s | _ => None end.
Definition size_field (field : string) (o : list (string * json)) : option N :=
  match obj_get field o with Some (JNumber (PosInt n)) => Some n | _ => None end.
Definition claim_from (v : json) : option PublicationFileClaim :=
  match v with
  | JObject o =>
      id ← text_field "id" o; path ← text_field "display_path" o; role ← text_field "role" o;
      size ← size_field "size_bytes" o; sha ← text_field "sha256" o; media ← text_field "media_type" o;
      Some (mkClaim id path role size sha media)
  | _ => None
  end.
Definition files_field (o : list (string * json)) : option (list PublicationFileClaim) :=
  match obj_get "files" o with Some (JArray vs) => mapM claim_from vs | _ => None end.

Definition from_value (v : json) : option SignedPublicationPayload :=
  match v with
  | JObject o =>
      schema ← size_field "schema_version" o; session ← text_field "session_id" o;
      revision ← text_field "revision" o; captured ← text_field "captured_at" o;
      published ← text_field "published_at" o;
      duration ← match obj_get "duration_seconds" o with Some (JNumber (Float x)) => Some x | _ => None end;
      total ← size_field "total_bytes" o; video ← size_field "video_bytes" o;
      integrity ← match obj_get "integrity_ok" o with Some (JBool b) => Some b | _ => None end;
      files ← files_field o;
      Some (mkPayload schema session revision captured published duration total video integrity files)
  | _ => None
  end.

Lemma from_value_fields o p :
  from_value (JObject o) = Some p ->
  text_field "session_id" o = Some (sp_session_id p) /\ text_field "captured_at" o = Some (sp_captured_at p) /\
  size_field "total_bytes" o = Some (sp_total_bytes p) /\ size_field "video_bytes" o = Some (sp_video_bytes p) /\
  files_field o = Some (sp_files p).
Proof.
  unfold from_value. intros Hp. repeat (apply bind_Some in Hp as (? & ? & Hp)). injection Hp as <-. by split_and!.
Qed.

Lemma from_value_reads o o' p p' :
  from_value (JObject o) = Some p -> from_value (JObject o') = Some p' ->
  (forall field, field ∈ REVISION_FIELDS -> obj_get field o = obj_get field o') ->
  sp_session_id p = sp_session_id p' /\ sp_captured_at p = sp_captured_at p' /\
  sp_total_bytes p = sp_total_bytes p' /\ sp_video_bytes p = sp_video_bytes p' /\ sp_files p = sp_files p'.
Proof.
  intros (A1 & A2 & A3 & A4 & A5)%from_value_fields (B1 & B2 & B3 & B4 & B5)%from_value_fields Hf.
  unfold text_field, size_field, files_field in *.
  rewrite Hf in A1, A2, A3, A4, A5 by (unfold REVISION_FIELDS; rewrite !elem_of_cons; tauto). repeat split; congruence.
Qed.

#[global] Instance schema : PayloadSchema := {|
  payload_from_value := from_value;
  payload_reads_fields := from_value_reads;
|}.

Definition key : list byte := replicate 32 Byte.x07.
Definition fingerprint : string := "sha256:" ++ to_hex (DemoSha.digest key).
Definition detail : SessionDetailView :=
  mkDetail "sess-1" revision "2024-01-01T10:00:00Z" "2024-01-01T11:00:00Z" (12%N : f64) 2 2 1 [claim]
    (bytes_of payload_text) (replicate 64 Byte.x09) key fingerprint.
Definition trusting : Verifier := fun _ _ _ => Ok tt.

Definition envelope : PublicationEnvelope :=
  match from_session_detail detail with
  | Ok e => e
  | Err _ => mkEnvelope "" "" "" "" (0%N : f64) 0 0 0 [] "" "" "" ""
  end.

Definition verified : VerifiedPublication :=
  match verify trusting envelope "sess-1" fingerprint with
  | Ok v => v
  | Err _ => mkVerified "" "" "" "" (0%N : f64) 0 0 "" [] [] [] []
  end.

Lemma accepted : verify trusting envelope "sess-1" fingerprint = Ok verified.
Proof. vm_compute. reflexivity. Qed.

(** A wrong size in the unsigned inventory is noticed. *)
Example tampered_inventory :
  verify trusting (mkEnvelope "sess-1" revision "2024-01-01T10:00:00Z" "2024-01-01T11:00:00Z" (12%N : f64) 2 2 1
      [mkClaim "f1" "left.mp4" "video_left" 3 digest_text "video/mp4"] payload_text
      (encode_lower_hex (replicate 64 Byte.x09)) (encode_lower_hex key) fingerprint) "sess-1" fingerprint
  = rejected InventoryMismatch.
Proof. vm_compute. reflexivity. Qed.
End DemoPublication.

#[local] Existing Instance DemoFloats.floats.
#[local] Existing Instance DemoSha.sha.

Lemma verified_publication_is_trustworthy_witness :
  total_size (vp_files DemoPublication.verified) = 2%N /\
  trustworthy DemoPublication.trusting DemoPublication.envelope "sess-1" DemoPublication.fingerprint
    DemoPublication.verified.
Proof.
  split; [vm_compute; reflexivity|]. apply verified_publication_is_trustworthy, DemoPublication.accepted.
Defined.

Lemma revision_names_one_content_witness :
  (vp_session_id DemoPublication.verified = vp_session_id DemoPublication.verified /\
   map claim_of (vp_files DemoPublication.verified) = map claim_of (vp_files DemoPublication.verified)) \/
  exists a b, revision_text (pe_publication_payload DemoPublication.envelope) = Some a /\
    revision_text (pe_publication_payload DemoPublication.envelope) = Some b /\ a <> b /\ sha256 a = sha256 b.
Proof.
  exact (revision_names_one_content _ _ _ _ _ _ _ _ _ _ DemoPublication.accepted DemoPublication.accepted eq_refl).
Defined.

Lemma verified_plan_becomes_job_witness :
  exists spec, into_job_spec (full_download_plan DemoPublication.verified) "dev-1" "today" = Ok spec /\
    map fs_file_id (requested_files spec) = ["f1"].
Proof.
  destruct (verified_plan_becomes_job DemoPublication.trusting DemoPublication.envelope "sess-1"
    DemoPublication.fingerprint DemoPublication.verified ["f1"] (full_download_plan DemoPublication.verified) "dev-1" "today"
    DemoPublication.accepted) as (spec & Hs & _ & _ & Hids & _).
  - left. split; [reflexivity|vm_compute; reflexivity].
  - vm_compute. reflexivity.
  - exists spec. split; [exact Hs|exact Hids].
Defined.
