(* ===== verification/Ingest.v ===== *)
(** * Ingest: identities, paths and admitted recordings (ingest/)

What removable media claim and what the importer may believe: opaque and
digest identities (ingest/identity.rs), portable relative paths
(ingest/path.rs), and the admitted recording with its provenance
(ingest/source.rs).  A digest identity is a text together with the check its
constructor makes.  The checks that open files are not modelled. *)

From Stdlib Require Import NArith Lia Ascii String.
From stdpp Require Import base numbers list strings.
From S2P Require Import Prelude Domain Files Journal Json StrictJson Timestamp Publication.

Local Open Scope string_scope.

(** [char::is_control]: the general category Cc. *)
Definition is_control (c : N) : bool := ((c <? 32) || ((127 <=? c) && (c <=? 159)))%N.

Definition has_control (value : string) : bool := existsb is_control (chars value).

(** ** Identities *)

(** [IdentityError] (ingest/identity.rs:15-27). *)
Inductive IdentityError :=
| IdEmpty (field : string)
| IdTooLong (field : string) (maximum : N)
| IdUnsafeCharacters (field : string)
| IdInvalidShape (field expected : string).

#[global] Instance IdentityError_eq_dec : EqDecision IdentityError.
Proof. solve_decision. Defined.

(** [validate_opaque] (ingest/identity.rs:29-43). *)
Definition validate_opaque (field value : string) (maximum : N) : result IdentityError unit :=
  if String.eqb value "" then Err (IdEmpty field)
  else if (maximum <? str_len value)%N then Err (IdTooLong field maximum)
  else if existsb (fun c => is_control c || (c =? 47)%N || (c =? 92)%N) (chars value)
  then Err (IdUnsafeCharacters field)
  else Ok tt.

Definition digest_form (prefix value : string) : bool :=
  match strip_prefix prefix value with
  | Some digest => (str_len digest =? 64)%N && str_all is_lower_hex digest
  | None => false
  end.

(** [validate_prefixed_sha256] (ingest/identity.rs:45-67). *)
Definition validate_prefixed_sha256 (field value prefix : string) : result IdentityError unit :=
  if digest_form prefix value then Ok tt
  else Err (IdInvalidShape field "a namespaced lowercase SHA-256 identity").

(** [opaque_identity!] (ingest/identity.rs:69-79). *)
Definition opaque_parse (field : string) (maximum : N) (value : string) : result IdentityError string :=
  let? _ := validate_opaque field value maximum in Ok value.

(** The three opaque identities (ingest/identity.rs:128-130). *)
Abbreviation AcquisitionSourceId := string (only parsing).
Abbreviation SourceArtifactId := string (only parsing).
Abbreviation ImportJobId := string (only parsing).

(** [digest_identity!] (ingest/identity.rs:132-135): the private text and the form its
    constructors check. *)
Record Digest (prefix : string) := mkDigest {
  digest_text : string;
  digest_valid : Is_true (digest_form prefix digest_text);
}.
Arguments mkDigest {prefix} _ _.
Arguments digest_text {prefix} _.
Arguments digest_valid {prefix} _.

Lemma digest_ext {prefix} (d e : Digest prefix) : digest_text d = digest_text e -> d = e.
Proof. destruct d as [t v], e as [u w]; simpl. intros ->. f_equal. apply proof_irrel. Qed.

#[global] Instance Digest_eq_dec prefix : EqDecision (Digest prefix).
Proof.
  intros d e. destruct (decide (digest_text d = digest_text e)) as [H|H].
  - left. by apply digest_ext.
  - right. congruence.
Defined.

(** The digest identities (ingest/identity.rs:207-211). *)
Abbreviation CandidateId := (Digest "candidate:sha256:") (only parsing).
Abbreviation CandidateRevision := (Digest "candidate:sha256:") (only parsing).
Abbreviation SourceContentRevision := (Digest "sha256:") (only parsing).
Abbreviation MediaGenerationId := (Digest "media:sha256:") (only parsing).
Abbreviation InventoryDigest := (Digest "sha256:") (only parsing).

(** [digest_identity!, parse] (ingest/identity.rs:138-142). *)
Definition digest_parse (field prefix value : string) : result IdentityError (Digest prefix) :=
  match decide (Is_true (digest_form prefix value)) with
  | left valid => Ok (mkDigest value valid)
  | right _ => Err (IdInvalidShape field "a namespaced lowercase SHA-256 identity")
  end.

Lemma digest_parse_text field prefix (d : Digest prefix) : digest_parse field prefix (digest_text d) = Ok d.
Proof.
  unfold digest_parse. case_decide as H; [f_equal; by apply digest_ext|]. destruct d; simpl in *. done.
Qed.

Lemma digest_parse_ok field prefix value d :
  digest_parse field prefix value = Ok d <-> digest_text d = value.
Proof.
  split; [|intros <-; apply digest_parse_text].
  unfold digest_parse. case_decide; [by intros [= <-]|done].
Qed.

(** [SourceRevisionClaim] (ingest/identity.rs:221-224). *)
Inductive SourceRevisionClaim :=
| Published (revision : SourceContentRevision)
| Provisional (revision : CandidateRevision).

#[global] Instance SourceRevisionClaim_eq_dec : EqDecision SourceRevisionClaim.
Proof. solve_decision. Defined.

(** [SourceRevisionClaim::as_str] (ingest/identity.rs:228-233). *)
Definition claim_text (c : SourceRevisionClaim) : string :=
  match c with Published r => digest_text r | Provisional r => digest_text r end.

(** [SourceRevisionClaim::stable] (ingest/identity.rs:236-241). *)
Definition stable (c : SourceRevisionClaim) : option SourceContentRevision :=
  match c with Published r => Some r | Provisional _ => None end.

Section identities.
Context `{Sha256}.

Lemma digest_form_of bs prefix : length bs = 32 -> Is_true (digest_form prefix (prefix ++ to_hex bs)).
Proof.
  intros Hl. unfold digest_form. rewrite (proj2 (strip_prefix_Some prefix _ (to_hex bs)) eq_refl), to_hex_lower, andb_true_r. unfold str_len.
  by rewrite to_hex_length, Hl.
Qed.

(** [digest_identity!, from_material] (ingest/identity.rs:144-153): [from_digest] of the hash. *)
Definition from_material (prefix : string) (material : list byte) : Digest prefix :=
  mkDigest (prefix ++ to_hex (sha256 material)) (digest_form_of _ prefix (sha256_length material)).

(** [MediaGeneration] (ingest/identity.rs:247-253). *)
Record MediaGeneration := mkGeneration {
  mg_id : MediaGenerationId;
  mg_source_id : AcquisitionSourceId;
  mg_platform_volume_identity : string;
  mg_root_marker_digest : InventoryDigest;
  mg_observation_epoch : N;
}.

(** [MediaGeneration::new] (ingest/identity.rs:256-278). *)
Definition MediaGeneration_new (source_id : AcquisitionSourceId) (platform_volume_identity : string)
    (root_marker_digest : InventoryDigest) (observation_epoch : N) : result IdentityError MediaGeneration :=
  let? _ := validate_opaque "platform volume identity" platform_volume_identity 512 in
  let newline := String "010" "" in
  let material := source_id ++ newline ++ platform_volume_identity ++ newline
                  ++ digest_text root_marker_digest ++ newline ++ dec observation_epoch in
  Ok (mkGeneration (from_material "media:sha256:" (bytes_of material)) source_id platform_volume_identity
        root_marker_digest observation_epoch).

End identities.

#[global] Instance MediaGeneration_eq_dec : EqDecision MediaGeneration.
Proof. solve_decision. Defined.

(** ** Portable relative paths *)

(** [PathSafetyError] (ingest/path.rs:83-122); the last eight belong to the checks of opened files. *)
Inductive IngestPathError :=
| PathEmpty
| PathTooLong (maximum : N)
| PathTooDeep (maximum : N)
| AbsoluteOrPrefixed
| DotOrEmptyComponent
| Backslash
| ForbiddenCharacter (component : string)
| DriveOrAlternateStream (component : string)
| ReservedDeviceName (component : string)
| TrailingDotOrSpace (component : string)
| RootNotDirectory
| LinkNotAllowed (path : string)
| NotDirectory (path : string)
| NotRegularFile (path : string)
| UnexpectedHardlink (path : string)
| ChangedWhileOpen (path : string)
| Inspection (path kind message : string).

(** [WINDOWS_RESERVED_NAMES] (ingest/path.rs:13-17). *)
Definition MEDIA_RESERVED_NAMES : list string :=
  ["CON"; "PRN"; "AUX"; "NUL"; "COM1"; "COM2"; "COM3"; "COM4"; "COM5"; "COM6"; "COM7"; "COM8";
   "COM9"; "LPT1"; "LPT2"; "LPT3"; "LPT4"; "LPT5"; "LPT6"; "LPT7"; "LPT8"; "LPT9"; "CLOCK$";
   "CONIN$"; "CONOUT$"].

(** [<], [>], the double quote, [|], [?] and [*]. *)
Definition forbidden_char (c : N) : bool :=
  (c =? 0)%N || is_control c || existsb (N.eqb c) [60; 62; 34; 124; 63; 42]%N.

(** [validate_component] (ingest/path.rs:161-192). *)
Definition validate_component (component : string) : result IngestPathError unit :=
  if String.eqb component "" || String.eqb component "." || String.eqb component ".." then Err DotOrEmptyComponent
  else if str_mem ":" component then Err (DriveOrAlternateStream component)
  else if existsb forbidden_char (chars component) then Err (ForbiddenCharacter component)
  else if ends_with_char "." component || ends_with_char " " component then Err (TrailingDotOrSpace component)
  else
    let upper := to_ascii_uppercase component in
    let base := hd upper (split_char "." upper) in
    if existsb (String.eqb base) MEDIA_RESERVED_NAMES then Err (ReservedDeviceName component) else Ok tt.

(** [validate_relative_path] (ingest/path.rs:125-159), with the absolute paths of
    POSIX: a leading slash. *)
Definition validate_media_path (value : string) (maximum_components maximum_bytes : N)
    : result IngestPathError unit :=
  if String.eqb value "" then Err PathEmpty
  else if (maximum_bytes <? str_len value)%N then Err (PathTooLong maximum_bytes)
  else if str_mem "\" value then Err Backslash
  else if String.prefix "/" value then Err AbsoluteOrPrefixed
  else
    let components := split_char "/" value in
    if (maximum_components <? N.of_nat (length components))%N then Err (PathTooDeep maximum_components)
    else rforall validate_component components.

#[global] Instance IngestPathError_eq_dec : EqDecision IngestPathError.
Proof. solve_decision. Defined.

(** [SafeRelativePath] (ingest/path.rs:22-23). *)
Record SafeRelativePath := mkSafePath {
  path_text : string;
  path_valid : validate_media_path path_text 32 1024 = Ok tt;
}.

Lemma safe_path_ext (p q : SafeRelativePath) : path_text p = path_text q -> p = q.
Proof. destruct p as [t v], q as [u w]; simpl. intros ->. f_equal. apply proof_irrel. Qed.

#[global] Instance SafeRelativePath_eq_dec : EqDecision SafeRelativePath.
Proof.
  intros p q. destruct (decide (path_text p = path_text q)) as [H|H].
  - left. by apply safe_path_ext.
  - right. congruence.
Defined.

(** [SafeRelativePath::parse] (ingest/path.rs:26-30). *)
Definition safe_path_parse (value : string) : result IngestPathError SafeRelativePath :=
  match validate_media_path value 32 1024 as r
    return validate_media_path value 32 1024 = r -> result IngestPathError SafeRelativePath with
  | Ok tt => fun valid => Ok (mkSafePath value valid)
  | Err e => fun _ => Err e
  end eq_refl.

Lemma safe_path_parse_ok value p : safe_path_parse value = Ok p <-> path_text p = value.
Proof.
  split.
  - unfold safe_path_parse. generalize (eq_refl (validate_media_path value 32 1024)).
    generalize (validate_media_path value 32 1024) at 2 3. intros [[]|e] valid; [by intros [= <-]|done].
  - intros <-. unfold safe_path_parse. generalize (eq_refl (validate_media_path (path_text p) 32 1024)).
    generalize (validate_media_path (path_text p) 32 1024) at 2 3. intros r valid.
    assert (r = Ok tt) as -> by (rewrite <- valid; apply path_valid).
    f_equal. by apply safe_path_ext.
Qed.

(** [SafeRelativePath::components] (ingest/path.rs:37-39). *)
Definition path_components (p : SafeRelativePath) : list string := split_char "/" (path_text p).

(** [SafeRelativePath::join_to] (ingest/path.rs:42-45). *)
Definition join_to (root : Path) (p : SafeRelativePath) : Path :=
  fold_left (fun path component => (path ++ [component])%list) (path_components p) root.

(** ** Recordings as their source describes them *)

(** [SourceKind] (ingest/source.rs:18-23). *)
Inductive SourceKind := Lan | RemovableMedia | LocalFolder | LegacyRemovableMedia.

(** [SourceSchema] (ingest/source.rs:27-43). *)
Inductive SourceSchema :=
| DeviceSessionV1 | DeviceSessionV2 | SignedPublicationV1 | UnsignedPublicationV1
| RawCaptureV2 | LegacyMjpegSessionV5 | CompleteUnpublishedV6 | ApplianceSpoolV6.

(** [SourceSchema::is_signed] (ingest/source.rs:47-49). *)
Definition is_signed (s : SourceSchema) : bool :=
  match s with SignedPublicationV1 => true | _ => false end.

(** [SourceArtifactRole] (ingest/source.rs:54-68). *)
Inductive SourceArtifactRole :=
| RoleVideoLeft | RoleVideoRight | RoleVideoStereo | RoleAudio | RoleImu | RoleFrameIndex
| RoleSessionManifest | RoleCaptureManifest | RoleCaptureCommit | RoleEncodingState
| RolePublicationManifest | RoleSpoolIndex | RoleMetadata.

(** [SourceModelError] (ingest/source.rs:1248-1279). *)
Inductive SourceModelError :=
| SmIdentity (e : IdentityError)
| EmptyVideo (path : string)
| InvalidMediaType
| InvalidFrameRate
| InvalidSourceGeometry
| NoVideoSegments
| EmptyValidationReport
| InvalidText (field : string)
| InvalidSha256 (field : string)
| EmptySourceInventory
| DuplicateArtifactId (id : string)
| DuplicateArtifactPath (path : string)
| ReadinessContradictsValidation
| SignedMaterialMismatch
| InventoryNotVerified.

#[global] Instance SourceKind_eq_dec : EqDecision SourceKind.
Proof. solve_decision. Defined.
#[global] Instance SourceSchema_eq_dec : EqDecision SourceSchema.
Proof. solve_decision. Defined.
#[global] Instance SourceArtifactRole_eq_dec : EqDecision SourceArtifactRole.
Proof. solve_decision. Defined.
#[global] Instance SourceModelError_eq_dec : EqDecision SourceModelError.
Proof. solve_decision. Defined.

(** [validate_sha256_hex] (ingest/source.rs:1318-1327). *)
Definition validate_sha256_hex (field digest : string) : result SourceModelError unit :=
  if negb (str_len digest =? 64)%N || negb (str_all is_lower_hex digest) then Err (InvalidSha256 field)
  else Ok tt.

(** [validate_short_text] (ingest/source.rs:1329-1338). *)
Definition validate_short_text (field value : string) (maximum : N) : result SourceModelError unit :=
  if String.eqb value "" || (maximum <? str_len value)%N || has_control value then Err (InvalidText field)
  else Ok tt.

(** [SourceArtifactClaim] (ingest/source.rs:71-78). *)
Record SourceArtifactClaim := mkArtifactClaim {
  ac_id : SourceArtifactId;
  ac_relative_path : SafeRelativePath;
  ac_role : SourceArtifactRole;
  ac_size_bytes : N;
  ac_source_sha256 : option string;
  ac_media_type : option string;
}.

#[global] Instance SourceArtifactClaim_eq_dec : EqDecision SourceArtifactClaim.
Proof. solve_decision. Defined.

Definition is_video (role : SourceArtifactRole) : bool :=
  match role with RoleVideoLeft | RoleVideoRight | RoleVideoStereo => true | _ => false end.

(** [SourceArtifactClaim::new] (ingest/source.rs:81-120). *)
Definition SourceArtifactClaim_new (id : SourceArtifactId) (relative_path : SafeRelativePath)
    (role : SourceArtifactRole) (size_bytes : N) (source_sha256 media_type : option string)
    : result SourceModelError SourceArtifactClaim :=
  if (size_bytes =? 0)%N && is_video role then Err (EmptyVideo (path_text relative_path)) else
  let? _ := match source_sha256 with
            | Some digest => validate_sha256_hex "source artifact sha256" digest
            | None => Ok tt
            end in
  let? _ := match media_type with
            | Some m => if String.eqb m "" || (256 <? str_len m)%N || has_control m
                        then Err InvalidMediaType else Ok tt
            | None => Ok tt
            end in
  Ok (mkArtifactClaim id relative_path role size_bytes source_sha256 media_type).

(** [StereoLayout] (ingest/source.rs:155-158). *)
Inductive StereoLayout := LeftRightSideBySide | SeparateEyes.

(** [SourceVideoCodec] (ingest/source.rs:162-165). *)
Inductive SourceVideoCodec := SourceMjpeg | SourceH264.

(** [FrameRate] (ingest/source.rs:168-171). *)
Record FrameRate := mkFrameRate { fr_numerator : N; fr_denominator : N }.

(** [FrameRate::new] (ingest/source.rs:174-182). *)
Definition FrameRate_new (numerator denominator : N) : result SourceModelError FrameRate :=
  if (numerator =? 0)%N || (denominator =? 0)%N then Err InvalidFrameRate
  else Ok (mkFrameRate numerator denominator).

(** [SourceMediaPlan] (ingest/source.rs:196-208). *)
Record SourceMediaPlan := mkMediaPlan {
  smp_layout : StereoLayout;
  smp_codec : SourceVideoCodec;
  smp_frame_rate : option FrameRate;
  smp_frame_width : option N;
  smp_frame_height : option N;
  smp_segment_count : N;
  smp_reset_timestamps_per_segment : bool;
  smp_raw_frame_count : option N;
  smp_legacy_total_frames : option N;
}.

#[global] Instance SourceMediaPlan_eq_dec : EqDecision SourceMediaPlan.
Proof. unfold EqDecision, Decision. repeat decide equality. Defined.

(** [SourceMediaPlan::new] (ingest/source.rs:212-238). *)
Definition SourceMediaPlan_new (layout : StereoLayout) (codec : SourceVideoCodec) (frame_rate : option FrameRate)
    (frame_width frame_height : option N) (segment_count : N) (reset_timestamps_per_segment : bool)
    : result SourceModelError SourceMediaPlan :=
  if (segment_count =? 0)%N then Err NoVideoSegments
  else if bool_decide (frame_width = Some 0%N) || bool_decide (frame_height = Some 0%N)
  then Err InvalidSourceGeometry
  else Ok (mkMediaPlan layout codec frame_rate frame_width frame_height segment_count
             reset_timestamps_per_segment None None).

(** [MediaLocator] (ingest/source.rs:302-309). *)
Record MediaLocator := mkLocator {
  ml_source_id : AcquisitionSourceId;
  ml_media_generation : option MediaGeneration;
  ml_candidate_relative_path : option SafeRelativePath;
}.

#[global] Instance MediaLocator_eq_dec : EqDecision MediaLocator.
Proof. solve_decision. Defined.

(** [MediaLocator::media_generation_id] (ingest/source.rs:336-338). *)
Definition media_generation_id (l : MediaLocator) : option MediaGenerationId :=
  mg_id <$> ml_media_generation l.

(** [CandidateReadiness] (ingest/source.rs:348-359). *)
Inductive CandidateReadiness :=
| ReadySigned | ReadyUnsignedRequiresPolicy | PendingArtifactValidation | AlreadyImported
| WaitingForPairingKey | RecordingOrEncodingIncomplete | UnsupportedSourceSchema | UnsafeSourcePath
| InsufficientSpace | CorruptSource.

#[global] Instance CandidateReadiness_eq_dec : EqDecision CandidateReadiness.
Proof. solve_decision. Defined.

(** [ValidationCheck] (ingest/source.rs:362-366). *)
Record ValidationCheck := mkCheck { vc_code : string; vc_passed : bool; vc_detail : string }.

#[global] Instance ValidationCheck_eq_dec : EqDecision ValidationCheck.
Proof. solve_decision. Defined.

(** [ValidationCheck::new] (ingest/source.rs:369-383). *)
Definition ValidationCheck_new (code : string) (passed : bool) (detail : string)
    : result SourceModelError ValidationCheck :=
  let? _ := validate_short_text "validation check code" code 128 in
  let? _ := validate_short_text "validation check detail" detail 1024 in
  Ok (mkCheck code passed detail).

(** [ValidationReport] (ingest/source.rs:402-404), its checks. *)
Definition ValidationReport : Type := list ValidationCheck.

(** [ValidationReport::new] (ingest/source.rs:407-412). *)
Definition ValidationReport_new (checks : list ValidationCheck) : result SourceModelError ValidationReport :=
  if bool_decide (checks = []) then Err EmptyValidationReport else Ok checks.

(** [ValidationReport::is_accepted] (ingest/source.rs:420-422). *)
Definition is_accepted (report : ValidationReport) : bool := forallb vc_passed report.

(** ** Verdicts, provenance and admission *)

(** [InventoryHashesVerdict] (ingest/source.rs:427-431). *)
Inductive InventoryHashesVerdict := HashesPending | HashesValid (digest : InventoryDigest) | HashesInvalid (code : string).

(** [ManifestSignatureVerdict] (ingest/source.rs:435-440). *)
Inductive ManifestSignatureVerdict :=
| SignatureNotApplicable | SignaturePending | SignatureValid (key_fingerprint : string)
| SignatureInvalid (code : string).

(** [ProducerKeyTrustVerdict] (ingest/source.rs:444-449). *)
Inductive ProducerKeyTrustVerdict :=
| KeyNotApplicable | KeyUnknown (key_fingerprint : string) | KeyTrusted (key_fingerprint : string)
| KeyRejected (key_fingerprint : string).

(** [SourceTrustVerdicts] (ingest/source.rs:454-458). *)
Record SourceTrustVerdicts := mkVerdicts {
  tv_inventory_hashes : InventoryHashesVerdict;
  tv_manifest_signature : ManifestSignatureVerdict;
  tv_producer_key : ProducerKeyTrustVerdict;
}.

(** [SourceTrustVerdicts::pending_unsigned] (ingest/source.rs:472-478). *)
Definition pending_unsigned : SourceTrustVerdicts :=
  mkVerdicts HashesPending SignatureNotApplicable KeyNotApplicable.

(** [DeviceSigned] (ingest/source.rs:499-505). *)
Record DeviceSigned := mkDeviceSigned {
  dg_publication_key_fingerprint : string;
  dg_publication_revision : SourceContentRevision;
  dg_publication_payload : list byte;
  dg_publication_signature : list byte;
  dg_publication_public_key : list byte;
}.

(** [UnsignedSourceAdmissionReceipt] (ingest/source.rs:535-542). *)
Record UnsignedSourceAdmissionReceipt := mkAdmission {
  ua_receipt_id : string;
  ua_candidate_id : CandidateId;
  ua_media_generation_id : option MediaGenerationId;
  ua_candidate_revision : CandidateRevision;
  ua_policy_revision : string;
  ua_admitted_at : string;
}.

(** [UnsignedSourceAdmissionReceipt::new] (ingest/source.rs:552-574). *)
Definition UnsignedSourceAdmissionReceipt_new (receipt_id : string) (candidate_id : CandidateId)
    (media_generation_id : option MediaGenerationId) (candidate_revision : CandidateRevision)
    (policy_revision admitted_at : string) : result SourceModelError UnsignedSourceAdmissionReceipt :=
  let? _ := validate_short_text "unsigned admission receipt id" receipt_id 256 in
  let? _ := validate_short_text "unsigned admission policy revision" policy_revision 256 in
  let? _ := validate_short_text "unsigned admission timestamp" admitted_at 128 in
  Ok (mkAdmission receipt_id candidate_id media_generation_id candidate_revision policy_revision admitted_at).

(** [LocallyValidatedUnsigned] (ingest/source.rs:608-613). *)
Record LocallyValidatedUnsigned := mkUnsigned {
  lu_source_schema : SourceSchema;
  lu_validation_report : ValidationReport;
  lu_computed_inventory_digest : option InventoryDigest;
  lu_user_admission_receipt : option UnsignedSourceAdmissionReceipt;
}.

(** [SourceProvenance] (ingest/source.rs:639-642). *)
Inductive SourceProvenance :=
| SpDeviceSigned (evidence : DeviceSigned)
| SpLocallyValidatedUnsigned (evidence : LocallyValidatedUnsigned).

#[global] Instance InventoryHashesVerdict_eq_dec : EqDecision InventoryHashesVerdict.
Proof. solve_decision. Defined.
#[global] Instance ManifestSignatureVerdict_eq_dec : EqDecision ManifestSignatureVerdict.
Proof. solve_decision. Defined.
#[global] Instance ProducerKeyTrustVerdict_eq_dec : EqDecision ProducerKeyTrustVerdict.
Proof. solve_decision. Defined.
#[global] Instance SourceTrustVerdicts_eq_dec : EqDecision SourceTrustVerdicts.
Proof. solve_decision. Defined.
#[global] Instance DeviceSigned_eq_dec : EqDecision DeviceSigned.
Proof. solve_decision. Defined.
#[global] Instance UnsignedSourceAdmissionReceipt_eq_dec : EqDecision UnsignedSourceAdmissionReceipt.
Proof. solve_decision. Defined.
#[global] Instance ValidationReport_eq_dec : EqDecision ValidationReport.
Proof. unfold ValidationReport. solve_decision. Defined.
#[global] Instance LocallyValidatedUnsigned_eq_dec : EqDecision LocallyValidatedUnsigned.
Proof. solve_decision. Defined.
#[global] Instance SourceProvenance_eq_dec : EqDecision SourceProvenance.
Proof. solve_decision. Defined.

(** [SourceRecording] (ingest/source.rs:935-947). *)
Record SourceRecording := mkRecording {
  sr_candidate_id : CandidateId;
  sr_revision_claim : SourceRevisionClaim;
  sr_content_revision : option SourceContentRevision;
  sr_source_kind : SourceKind;
  sr_schema : SourceSchema;
  sr_session_id : string;
  sr_locator : MediaLocator;
  sr_inventory : list SourceArtifactClaim;
  sr_media_plan : SourceMediaPlan;
  sr_provenance : SourceProvenance;
  sr_trust_verdicts : SourceTrustVerdicts;
}.

#[global] Instance SourceRecording_eq_dec : EqDecision SourceRecording.
Proof. solve_decision. Defined.

(** [LocalSourceReceipt] (ingest/source.rs:1178-1185). *)
Record LocalSourceReceipt := mkSourceReceipt {
  lr_content_revision : SourceContentRevision;
  lr_inventory_digest : InventoryDigest;
  lr_sealed_relative_path : SafeRelativePath;
  lr_commit_receipt : string;
  lr_provenance : SourceProvenance;
  lr_committed_at : string;
}.

#[global] Instance LocalSourceReceipt_eq_dec : EqDecision LocalSourceReceipt.
Proof. solve_decision. Defined.

(** [SourceRecording::with_verified_inventory] (ingest/source.rs:1098-1110).  Both
    digest types carry the same form, so the parse of the source returns the digest itself
    ([digest_parse_text]). *)
Definition with_verified_inventory (r : SourceRecording) (digest : InventoryDigest) : SourceRecording :=
  let verdicts := mkVerdicts (HashesValid digest) (tv_manifest_signature (sr_trust_verdicts r))
                    (tv_producer_key (sr_trust_verdicts r)) in
  match sr_provenance r, digest_parse "source content revision" "sha256:" (digest_text digest) with
  | SpLocallyValidatedUnsigned u, Ok revision =>
      mkRecording (sr_candidate_id r) (Published revision) (Some revision) (sr_source_kind r) (sr_schema r)
        (sr_session_id r) (sr_locator r) (sr_inventory r) (sr_media_plan r)
        (SpLocallyValidatedUnsigned (mkUnsigned (lu_source_schema u) (lu_validation_report u) (Some digest)
                                       (lu_user_admission_receipt u)))
        verdicts
  | provenance, _ =>
      mkRecording (sr_candidate_id r) (sr_revision_claim r) (sr_content_revision r) (sr_source_kind r) (sr_schema r)
        (sr_session_id r) (sr_locator r) (sr_inventory r) (sr_media_plan r) provenance verdicts
  end.

(** [LocalSourceReceipt::new] (ingest/source.rs:1188-1214). *)
Definition LocalSourceReceipt_new (recording : SourceRecording) (sealed_relative_path : SafeRelativePath)
    (commit_receipt committed_at : string) : result SourceModelError LocalSourceReceipt :=
  let? content_revision := ok_or (sr_content_revision recording) InventoryNotVerified in
  let? digest := match tv_inventory_hashes (sr_trust_verdicts recording) with
                 | HashesValid digest => Ok digest
                 | _ => Err InventoryNotVerified
                 end in
  let? _ := validate_short_text "local source commit receipt" commit_receipt 512 in
  let? _ := validate_short_text "local source committed_at" committed_at 128 in
  Ok (mkSourceReceipt content_revision digest sealed_relative_path commit_receipt (sr_provenance recording)
        committed_at).

Fixpoint inventory_unique (ids paths : list string) (inventory : list SourceArtifactClaim)
    : result SourceModelError unit :=
  match inventory with
  | [] => Ok tt
  | artifact :: rest =>
      let path := path_text (ac_relative_path artifact) in
      if bool_decide (ac_id artifact ∈ ids) then Err (DuplicateArtifactId (ac_id artifact))
      else if bool_decide (path ∈ paths) then Err (DuplicateArtifactPath path)
      else inventory_unique (ac_id artifact :: ids) (path :: paths) rest
  end.

(** [validate_inventory] (ingest/source.rs:1297-1316). *)
Definition validate_inventory (inventory : list SourceArtifactClaim) : result SourceModelError unit :=
  if bool_decide (inventory = []) then Err EmptySourceInventory else inventory_unique [] [] inventory.

(** ** From a scan candidate to an admitted recording *)

(** What a mismatch message of [AdmissionError] names. *)
Inductive AdmissionMismatch :=
| SessionDiffers | MaterialMissing | NotTheCardPublication | RevisionDiffers | InventoryDiffers
| ReceiptCandidate | ReceiptGeneration | ReceiptRevision.

(** [AdmissionError] (ingest/source.rs:1282-1295). *)
Inductive AdmissionError :=
| AdIdentity (e : IdentityError)
| WrongProvenanceForSchema
| VerifiedPublicationMismatch (what : AdmissionMismatch)
| UnsignedCandidateAlreadyPublished
| CandidateNotAdmissible (readiness : CandidateReadiness)
| UnsignedAdmissionReceiptMismatch (what : AdmissionMismatch).

#[global] Instance AdmissionMismatch_eq_dec : EqDecision AdmissionMismatch.
Proof. solve_decision. Defined.
#[global] Instance AdmissionError_eq_dec : EqDecision AdmissionError.
Proof. solve_decision. Defined.

Section admission.
Context `{Floats}.

(** [SignedPublicationMaterial] (ingest/source.rs:649-665), its files having the
    fields of a publication's file claims. *)
Record SignedPublicationMaterial := mkSignedMaterial {
  sm_session_id : string;
  sm_revision : string;
  sm_captured_at : string;
  sm_published_at : string;
  sm_duration_seconds : f64;
  sm_total_bytes : N;
  sm_video_bytes : N;
  sm_files : list PublicationFileClaim;
  sm_publication_payload : string;
  sm_publication_signature_hex : string;
  sm_publication_public_key_hex : string;
  sm_presented_key_fingerprint : string;
  sm_inline_key_version : option N;
}.

(** [SignedPublicationMaterial::envelope] (ingest/source.rs:776-803). *)
Definition envelope (m : SignedPublicationMaterial) : PublicationEnvelope :=
  mkEnvelope (sm_session_id m) (sm_revision m) (sm_captured_at m) (sm_published_at m) (sm_duration_seconds m)
    (sm_total_bytes m) (sm_video_bytes m) (N.of_nat (length (sm_files m)))
    (map (fun f => mkClaim (pc_id f) (pc_display_path f) (pc_role f) (pc_size_bytes f) (pc_sha256 f)
                     (pc_media_type f)) (sm_files m))
    (sm_publication_payload m) (sm_publication_signature_hex m) (sm_publication_public_key_hex m)
    (sm_presented_key_fingerprint m).

(** [SignedPublicationMaterial::envelope_with_registry_public_key] (ingest/source.rs:769-773). *)
Definition envelope_with_registry_public_key (m : SignedPublicationMaterial) (public_key_hex : string)
    : PublicationEnvelope :=
  let e := envelope m in
  mkEnvelope (pe_session_id e) (pe_revision e) (pe_captured_at e) (pe_published_at e) (pe_duration_seconds e)
    (pe_total_bytes e) (pe_video_bytes e) (pe_file_count e) (pe_files e) (pe_publication_payload e)
    (pe_publication_signature_hex e) public_key_hex (pe_publication_key_fingerprint e).

(** [ScanCandidate] (ingest/source.rs:807-820). *)
Record ScanCandidate := mkCandidate {
  sc_id : CandidateId;
  sc_revision_claim : SourceRevisionClaim;
  sc_source_kind : SourceKind;
  sc_schema : SourceSchema;
  sc_session_id : string;
  sc_locator : MediaLocator;
  sc_inventory : list SourceArtifactClaim;
  sc_media_plan : SourceMediaPlan;
  sc_trust_verdicts : SourceTrustVerdicts;
  sc_readiness : CandidateReadiness;
  sc_validation_report : ValidationReport;
  sc_signed_publication : option SignedPublicationMaterial;
}.

Definition contradicts_validation (r : CandidateReadiness) : bool :=
  match r with
  | CorruptSource | UnsafeSourcePath | UnsupportedSourceSchema | RecordingOrEncodingIncomplete => true
  | _ => false
  end.

(** [ScanCandidate::new] (ingest/source.rs:824-868). *)
Definition ScanCandidate_new (c : ScanCandidate) : result SourceModelError ScanCandidate :=
  let? _ := validate_short_text "source session id" (sc_session_id c) 256 in
  let? _ := validate_inventory (sc_inventory c) in
  if negb (eqb (is_signed (sc_schema c)) (bool_decide (is_Some (sc_signed_publication c))))
  then Err SignedMaterialMismatch
  else if is_accepted (sc_validation_report c) && contradicts_validation (sc_readiness c)
  then Err ReadinessContradictsValidation
  else Ok c.

Definition claim_matches_file (claim : SourceArtifactClaim) (file : VerifiedFile) : bool :=
  String.eqb (ac_id claim) (vf_file_id file)
  && String.eqb (path_text (ac_relative_path claim)) (vf_display_path file)
  && (ac_size_bytes claim =? vf_size_bytes file)%N
  && bool_decide (ac_source_sha256 claim = Some (vf_sha256 file)).

Definition mismatch (holds : bool) (what : AdmissionMismatch) : result AdmissionError unit :=
  if holds then Ok tt else Err (VerifiedPublicationMismatch what).

(** [SourceRecording::admit_device_signed] (ingest/source.rs:950-1028). *)
Definition admit_device_signed (candidate : ScanCandidate) (verified : VerifiedPublication)
    : result AdmissionError SourceRecording :=
  if negb (bool_decide (sc_schema candidate = SignedPublicationV1)) then Err WrongProvenanceForSchema else
  let? _ := mismatch (String.eqb (sc_session_id candidate) (vp_session_id verified)) SessionDiffers in
  let? signed_material := ok_or (sc_signed_publication candidate) (VerifiedPublicationMismatch MaterialMissing) in
  let e := envelope signed_material in
  let? _ := mismatch
              (bool_decide (bytes_of (pe_publication_payload e) = vp_payload verified)
               && String.eqb (pe_publication_signature_hex e) (encode_lower_hex (vp_signature verified))
               && negb (negb (bool_decide (is_Some (sm_inline_key_version signed_material)))
                        && negb (String.eqb (pe_publication_public_key_hex e)
                                   (encode_lower_hex (vp_public_key verified))))
               && String.eqb (pe_publication_key_fingerprint e) (vp_key_fingerprint verified))
              NotTheCardPublication in
  let? publication_revision :=
    rmap_err AdIdentity (digest_parse "source content revision" "sha256:" (vp_revision verified)) in
  let? _ := mismatch (bool_decide (stable (sc_revision_claim candidate) = Some publication_revision))
              RevisionDiffers in
  let? _ := mismatch
              ((length (sc_inventory candidate) =? length (vp_files verified))%nat
               && forallb (fun '(claim, file) => claim_matches_file claim file)
                    (combine (sc_inventory candidate) (vp_files verified))) InventoryDiffers in
  let fingerprint := vp_key_fingerprint verified in
  Ok (mkRecording (sc_id candidate) (Published publication_revision) (Some publication_revision)
        (sc_source_kind candidate) (sc_schema candidate) (sc_session_id candidate) (sc_locator candidate)
        (sc_inventory candidate) (sc_media_plan candidate)
        (SpDeviceSigned (mkDeviceSigned fingerprint publication_revision (vp_payload verified)
                           (vp_signature verified) (vp_public_key verified)))
        (mkVerdicts HashesPending (SignatureValid fingerprint) (KeyTrusted fingerprint))).

Definition unsigned_readiness (r : CandidateReadiness) : bool :=
  match r with ReadyUnsignedRequiresPolicy | PendingArtifactValidation => true | _ => false end.

(** [SourceRecording::admit_unsigned] (ingest/source.rs:1030-1093). *)
Definition admit_unsigned (candidate : ScanCandidate)
    (user_admission_receipt : option UnsignedSourceAdmissionReceipt) : result AdmissionError SourceRecording :=
  if is_signed (sc_schema candidate) then Err WrongProvenanceForSchema else
  match sc_revision_claim candidate with
  | Published _ => Err UnsignedCandidateAlreadyPublished
  | Provisional candidate_revision =>
      if negb (is_accepted (sc_validation_report candidate)) || negb (unsigned_readiness (sc_readiness candidate))
      then Err (CandidateNotAdmissible (sc_readiness candidate)) else
      let? _ := match user_admission_receipt with
                | None => Ok tt
                | Some receipt =>
                    if negb (bool_decide (ua_candidate_id receipt = sc_id candidate))
                    then Err (UnsignedAdmissionReceiptMismatch ReceiptCandidate)
                    else if negb (bool_decide (ua_media_generation_id receipt
                                               = media_generation_id (sc_locator candidate)))
                    then Err (UnsignedAdmissionReceiptMismatch ReceiptGeneration)
                    else if negb (bool_decide (ua_candidate_revision receipt = candidate_revision))
                    then Err (UnsignedAdmissionReceiptMismatch ReceiptRevision)
                    else Ok tt
                end in
      Ok (mkRecording (sc_id candidate) (sc_revision_claim candidate) None (sc_source_kind candidate)
            (sc_schema candidate) (sc_session_id candidate) (sc_locator candidate) (sc_inventory candidate)
            (sc_media_plan candidate)
            (SpLocallyValidatedUnsigned (mkUnsigned (sc_schema candidate) (sc_validation_report candidate) None
                                           user_admission_receipt))
            pending_unsigned)
  end.

End admission.
