(* ===== verification/Import.v ===== *)
(** * Import: the import job and its reducer (ingest/job.rs)

One import copies an admitted recording into the library: preflight, copy with
checkpoints, verification of both ends, commit.  [reduce] is the whole command
table; [decide] commits a step, numbers it and puts the persistence effect
first.  The text that [serde_json] makes of a request is [ImportRequestText]. *)

From Stdlib Require Import NArith Lia Ascii String.
From stdpp Require Import base numbers list strings.
From S2P Require Import Prelude Domain Ingest.

Local Open Scope string_scope.

(** [UnsignedImportPolicy] (ingest/job.rs:18-22). *)
Inductive UnsignedImportPolicy := RejectUnsigned | RequireAdmissionReceipt | AllowExplicitSelection.

(** [ImportPolicy] (ingest/job.rs:25-29). *)
Record ImportPolicy := mkPolicy {
  ip_unsigned : UnsignedImportPolicy;
  ip_local_space_budget_bytes : N;
  ip_safety_margin_bytes : N;
}.

(** [ImportNaturalKey] (ingest/job.rs:63-71). *)
Inductive ImportNaturalKey :=
| KeyDeviceSigned (producer_key_fingerprint session_id : string) (revision : SourceContentRevision)
| KeyUnsignedContent (revision : SourceContentRevision)
| KeyProvisional (revision : CandidateRevision).

#[global] Instance ImportNaturalKey_eq_dec : EqDecision ImportNaturalKey.
Proof. solve_decision. Defined.

(** [append_key_component] (ingest/job.rs:122-128): length-prefixed. *)
Definition append_key_component (key component : string) : string := key ++ key_part component.

(** [ImportNaturalKey::canonical_key] (ingest/job.rs:96-119). *)
Definition canonical_key (k : ImportNaturalKey) : string :=
  let key := "import:" in
  match k with
  | KeyDeviceSigned producer_key_fingerprint session_id revision =>
      append_key_component
        (append_key_component (append_key_component (key ++ "device_signed:") producer_key_fingerprint) session_id)
        (digest_text revision)
  | KeyUnsignedContent revision => append_key_component (key ++ "unsigned_content:") (digest_text revision)
  | KeyProvisional revision => append_key_component (key ++ "provisional:") (digest_text revision)
  end.

(** [ImportFileSpec] (ingest/job.rs:131-137). *)
Record ImportFileSpec := mkImportFile {
  if_file_id : SourceArtifactId;
  if_relative_path : SafeRelativePath;
  if_role : SourceArtifactRole;
  if_expected_size : N;
  if_expected_source_sha256 : option string;
}.

#[global] Instance ImportFileSpec_eq_dec : EqDecision ImportFileSpec.
Proof. solve_decision. Defined.

(** [ImportFileSpec::from] (ingest/job.rs:140-148). *)
Definition import_file (claim : SourceArtifactClaim) : ImportFileSpec :=
  mkImportFile (ac_id claim) (ac_relative_path claim) (ac_role claim) (ac_size_bytes claim) (ac_source_sha256 claim).

(** [ImportSpec] (ingest/job.rs:181-190). *)
Record ImportSpec := mkImportSpec {
  is_job_id : ImportJobId;
  is_natural_key : ImportNaturalKey;
  is_request_digest : string;
  is_source : SourceRecording;
  is_locator : MediaLocator;
  is_files : list ImportFileSpec;
  is_total_bytes : N;
  is_policy : ImportPolicy;
}.

(** [ImportSpecError] (ingest/job.rs:807-822). *)
Inductive ImportSpecError :=
| EmptyInventory
| TotalBytesOverflow
| InsufficientLocalSpace (required available : N)
| UnsignedRejected
| UnsignedReceiptRequired
| ProvenanceRevisionMismatch
| Serialization (message : string).

(** [serde_json::to_vec] of the request tuple: distinct requests have distinct texts. *)
Class ImportRequestText := {
  request_text : ImportNaturalKey -> SourceSchema -> SourceMediaPlan -> list ImportFileSpec -> N
                 -> result string (list byte);
  request_text_inj : forall k s m f t k' s' m' f' t' text,
    request_text k s m f t = Ok text -> request_text k' s' m' f' t' = Ok text ->
    k = k' /\ s = s' /\ m = m' /\ f = f' /\ t = t';
}.

(** [enforce_unsigned_policy] (ingest/job.rs:1100-1117). *)
Definition enforce_unsigned_policy (source : SourceRecording) (policy : ImportPolicy)
    : result ImportSpecError unit :=
  match sr_provenance source with
  | SpDeviceSigned _ => Ok tt
  | SpLocallyValidatedUnsigned unsigned =>
      match ip_unsigned policy with
      | RejectUnsigned => Err UnsignedRejected
      | RequireAdmissionReceipt =>
          match lu_user_admission_receipt unsigned with
          | None => Err UnsignedReceiptRequired
          | Some _ => Ok tt
          end
      | AllowExplicitSelection => Ok tt
      end
  end.

(** [ImportSpec::new, total_bytes] (ingest/job.rs:203-207). *)
Fixpoint sum_sizes (total : N) (files : list ImportFileSpec) : result ImportSpecError N :=
  match files with
  | [] => Ok total
  | file :: rest =>
      let? total := ok_or (u64_checked_add total (if_expected_size file)) TotalBytesOverflow in
      sum_sizes total rest
  end.

(** [ImportSpec::new, natural_key] (ingest/job.rs:217-234). *)
Definition natural_key_of (source : SourceRecording) : result ImportSpecError ImportNaturalKey :=
  match sr_provenance source, sr_revision_claim source with
  | SpDeviceSigned signed, Published revision =>
      Ok (KeyDeviceSigned (dg_publication_key_fingerprint signed) (sr_session_id source) revision)
  | SpLocallyValidatedUnsigned _, Published revision => Ok (KeyUnsignedContent revision)
  | SpLocallyValidatedUnsigned _, Provisional revision => Ok (KeyProvisional revision)
  | SpDeviceSigned _, Provisional _ => Err ProvenanceRevisionMismatch
  end.

(** [ImportSpec::new] (ingest/job.rs:193-263). *)
Definition ImportSpec_new `{ImportRequestText, Sha256} (job_id : ImportJobId) (source : SourceRecording)
    (policy : ImportPolicy) : result ImportSpecError ImportSpec :=
  let? _ := enforce_unsigned_policy source policy in
  let files := map import_file (sr_inventory source) in
  if bool_decide (files = []) then Err EmptyInventory else
  let? total_bytes := sum_sizes 0 files in
  let? required := ok_or (u64_checked_add total_bytes (ip_safety_margin_bytes policy)) TotalBytesOverflow in
  if (ip_local_space_budget_bytes policy <? required)%N
  then Err (InsufficientLocalSpace required (ip_local_space_budget_bytes policy)) else
  let? natural_key := natural_key_of source in
  let? request_payload :=
    rmap_err Serialization (request_text natural_key (sr_schema source) (sr_media_plan source) files total_bytes) in
  let request_digest := "sha256:" ++ to_hex (sha256 request_payload) in
  Ok (mkImportSpec job_id natural_key request_digest source (sr_locator source) files total_bytes policy).

(** ** The job *)

(** [ImportDesiredState] (ingest/job.rs:308-312). *)
Inductive ImportDesiredState := WantRunning | WantPaused | WantCancelled.

(** [ImportResumePoint] (ingest/job.rs:316-319). *)
Inductive ImportResumePoint := FromPreflight | FromCopy.

(** [ImportJobState] (ingest/job.rs:323-337). *)
Inductive ImportJobState :=
| ImQueued
| ImWaitingForMedia (resume_from : ImportResumePoint)
| ImPreflighting | ImCopying | ImVerifying | ImCommitting | ImLocalVerified
| ImPausing (resume_from : ImportResumePoint)
| ImPaused (resume_from : ImportResumePoint)
| ImCancelling | ImCancelled
| ImRetryWait (resume_from : ImportResumePoint)
| ImFailed.

#[global] Instance ImportDesiredState_eq_dec : EqDecision ImportDesiredState.
Proof. solve_decision. Defined.
#[global] Instance ImportResumePoint_eq_dec : EqDecision ImportResumePoint.
Proof. solve_decision. Defined.
#[global] Instance ImportJobState_eq_dec : EqDecision ImportJobState.
Proof. solve_decision. Defined.

(** [ImportJobState::is_terminal] (ingest/job.rs:341-343). *)
Definition import_terminal (s : ImportJobState) : bool :=
  match s with ImLocalVerified | ImCancelled | ImFailed => true | _ => false end.

(** [ImportJobState::needs_media] (ingest/job.rs:346-351). *)
Definition needs_media (s : ImportJobState) : bool :=
  match s with ImWaitingForMedia _ | ImPreflighting | ImCopying => true | _ => false end.

(** [ImportFileCheckpoint] (ingest/job.rs:355-362). *)
Record ImportFileCheckpoint := mkCheckpoint {
  ck_file_id : SourceArtifactId;
  ck_durable_offset : N;
  ck_expected_size : N;
  ck_source_sha256 : option string;
  ck_target_sha256 : option string;
  ck_verified : bool;
}.

#[global] Instance ImportFileCheckpoint_eq_dec : EqDecision ImportFileCheckpoint.
Proof. solve_decision. Defined.

(** [ImportFileCheckpoint::from_spec] (ingest/job.rs:365-374). *)
Definition checkpoint_from_spec (f : ImportFileSpec) : ImportFileCheckpoint :=
  mkCheckpoint (if_file_id f) 0 (if_expected_size f) None None false.

(** [ImportFailureCode] (ingest/job.rs:409-420). *)
Inductive ImportFailureCode :=
| FailSourceUnavailable | FailMediaChanged | FailUnsafePath | FailPermissionDenied
| FailInsufficientLocalSpace | FailIntegrityMismatch | FailSourceRevisionMismatch | FailCommitFailed
| FailResourceStuck | FailInternal.

(** [ImportFailure] (ingest/job.rs:423-427). *)
Record ImportFailure := mkFailure {
  fl_code : ImportFailureCode;
  fl_message : string;
  fl_retryable : bool;
}.

#[global] Instance ImportFailureCode_eq_dec : EqDecision ImportFailureCode.
Proof. solve_decision. Defined.
#[global] Instance ImportFailure_eq_dec : EqDecision ImportFailure.
Proof. solve_decision. Defined.

(** [ImportJobError] (ingest/job.rs:825-832). *)
Inductive ImportJobError :=
| SnapshotDoesNotMatchSpec
| InvalidFailureMessage
| IjSource (e : SourceModelError).

(** [ImportFailure::new] (ingest/job.rs:430-444). *)
Definition ImportFailure_new (code : ImportFailureCode) (message : string) (retryable : bool)
    : result ImportJobError ImportFailure :=
  if String.eqb message "" || (1024 <? str_len message)%N || has_control message then Err InvalidFailureMessage
  else Ok (mkFailure code message retryable).

(** [ImportSnapshot] (ingest/job.rs:463-476). *)
Record ImportSnapshot := mkSnapshot {
  im_job_id : ImportJobId;
  im_request_digest : string;
  im_natural_key : ImportNaturalKey;
  im_state : ImportJobState;
  im_desired_state : ImportDesiredState;
  im_version : N;
  im_attempt : N;
  im_checkpoints : list ImportFileCheckpoint;
  im_active_locator : option MediaLocator;
  im_verified_source : option SourceRecording;
  im_local_receipt : option LocalSourceReceipt;
  im_failure : option ImportFailure;
}.

#[global] Instance ImportSnapshot_eq_dec : EqDecision ImportSnapshot.
Proof. solve_decision. Defined.

(** [ImportSnapshot::durable_bytes] (ingest/job.rs:554-558). *)
Definition durable_bytes (s : ImportSnapshot) : N :=
  fold_left (fun total c => u64_sat_add total (N.min (ck_durable_offset c) (ck_expected_size c)))
    (im_checkpoints s) 0%N.

(** [ImportCommand] (ingest/job.rs:567-606). *)
Inductive ImportCommand :=
| CmdStart
| CmdResetProgressForSource (revision_claim : SourceRevisionClaim)
| CmdSourceAvailable (locator : MediaLocator) (revision_claim : SourceRevisionClaim)
| CmdSourceUnavailable
| CmdPreflightPassed
| CmdCopyCheckpoint (file_id : SourceArtifactId) (durable_offset : N)
| CmdCopyFinished
| CmdFileVerified (file_id : SourceArtifactId) (source_sha256 target_sha256 : string)
| CmdVerificationPassed (inventory_digest : InventoryDigest)
| CmdCommitSucceeded (receipt : LocalSourceReceipt)
| CmdRetryableFailure (failure : ImportFailure)
| CmdPermanentFailure (failure : ImportFailure)
| CmdRequestPause
| CmdPauseCompleted
| CmdResume
| CmdRequestCancel
| CmdCancellationCompleted
| CmdRetry.

(** [ImportControlCommand] (ingest/job.rs:609-614). *)
Inductive ImportControlCommand := ControlPause | ControlResume | ControlCancel | ControlRetry.

(** [ImportCommand::from] (ingest/job.rs:617-624). *)
Definition control_command (c : ImportControlCommand) : ImportCommand :=
  match c with
  | ControlPause => CmdRequestPause
  | ControlResume => CmdResume
  | ControlCancel => CmdRequestCancel
  | ControlRetry => CmdRetry
  end.

(** [ImportEffect] (ingest/job.rs:630-649). *)
Inductive ImportEffect :=
| PersistSnapshot
| Schedule
| StartPreflight (locator : MediaLocator)
| StartCopy (locator : MediaLocator) (resume_offsets : list (SourceArtifactId * N))
| StartVerification
| StartCommit (source : SourceRecording)
| CancelIo
| ScheduleRetry
| PublishLocalVerified (receipt : LocalSourceReceipt).

(** [ImportRejectReason] (ingest/job.rs:652-662). *)
Inductive ImportRejectReason :=
| Terminal | IllegalInState | StaleOrRegressedCheckpoint | UnknownFile | CopyIncomplete | InvalidDigest
| IntegrityMismatch | ReceiptMismatch | FailureRetryabilityMismatch.

(** [ImportCommandOutcome] (ingest/job.rs:665-669). *)
Inductive ImportCommandOutcome := Applied | NoChange | RejectedBecause (reason : ImportRejectReason).

(** [ImportDecision] (ingest/job.rs:672-676). *)
Record ImportDecision := mkDecision {
  de_outcome : ImportCommandOutcome;
  de_effects : list ImportEffect;
  de_snapshot : ImportSnapshot;
}.

(** [ImportJob] (ingest/job.rs:696-699). *)
Record ImportJob := mkJob { ij_spec : ImportSpec; ij_snapshot : ImportSnapshot }.

(** [ImportJob::new] (ingest/job.rs:703-724). *)
Definition ImportJob_new (spec : ImportSpec) : ImportJob :=
  mkJob spec
    (mkSnapshot (is_job_id spec) (is_request_digest spec) (is_natural_key spec) ImQueued WantRunning 0 0
       (map checkpoint_from_spec (is_files spec)) (Some (is_locator spec)) None None None).

Definition checkpoint_fits (c : ImportFileCheckpoint) (f : ImportFileSpec) : bool :=
  String.eqb (ck_file_id c) (if_file_id f) && (ck_expected_size c =? if_expected_size f)%N
  && (ck_durable_offset c <=? ck_expected_size c)%N.

(** [ImportJob::from_snapshot] (ingest/job.rs:726-747). *)
Definition from_snapshot (spec : ImportSpec) (snapshot : ImportSnapshot) : result ImportJobError ImportJob :=
  if bool_decide (im_job_id snapshot = is_job_id spec)
     && bool_decide (im_request_digest snapshot = is_request_digest spec)
     && bool_decide (im_natural_key snapshot = is_natural_key spec)
     && (length (im_checkpoints snapshot) =? length (is_files spec))%nat
     && forallb (fun '(checkpoint, file) => checkpoint_fits checkpoint file)
          (combine (im_checkpoints snapshot) (is_files spec))
  then Ok (mkJob spec snapshot) else Err SnapshotDoesNotMatchSpec.

(** ** The reducer *)

Section setters.
Context (s : ImportSnapshot).
Definition set_state (state : ImportJobState) : ImportSnapshot :=
  mkSnapshot (im_job_id s) (im_request_digest s) (im_natural_key s) state (im_desired_state s) (im_version s)
    (im_attempt s) (im_checkpoints s) (im_active_locator s) (im_verified_source s) (im_local_receipt s) (im_failure s).
Definition set_desired (desired : ImportDesiredState) : ImportSnapshot :=
  mkSnapshot (im_job_id s) (im_request_digest s) (im_natural_key s) (im_state s) desired (im_version s)
    (im_attempt s) (im_checkpoints s) (im_active_locator s) (im_verified_source s) (im_local_receipt s) (im_failure s).
Definition set_version (version : N) : ImportSnapshot :=
  mkSnapshot (im_job_id s) (im_request_digest s) (im_natural_key s) (im_state s) (im_desired_state s) version
    (im_attempt s) (im_checkpoints s) (im_active_locator s) (im_verified_source s) (im_local_receipt s) (im_failure s).
Definition set_attempt (attempt : N) : ImportSnapshot :=
  mkSnapshot (im_job_id s) (im_request_digest s) (im_natural_key s) (im_state s) (im_desired_state s) (im_version s)
    attempt (im_checkpoints s) (im_active_locator s) (im_verified_source s) (im_local_receipt s) (im_failure s).
Definition set_checkpoints (checkpoints : list ImportFileCheckpoint) : ImportSnapshot :=
  mkSnapshot (im_job_id s) (im_request_digest s) (im_natural_key s) (im_state s) (im_desired_state s) (im_version s)
    (im_attempt s) checkpoints (im_active_locator s) (im_verified_source s) (im_local_receipt s) (im_failure s).
Definition set_locator (locator : option MediaLocator) : ImportSnapshot :=
  mkSnapshot (im_job_id s) (im_request_digest s) (im_natural_key s) (im_state s) (im_desired_state s) (im_version s)
    (im_attempt s) (im_checkpoints s) locator (im_verified_source s) (im_local_receipt s) (im_failure s).
Definition set_source (source : option SourceRecording) : ImportSnapshot :=
  mkSnapshot (im_job_id s) (im_request_digest s) (im_natural_key s) (im_state s) (im_desired_state s) (im_version s)
    (im_attempt s) (im_checkpoints s) (im_active_locator s) source (im_local_receipt s) (im_failure s).
Definition set_receipt (receipt : option LocalSourceReceipt) : ImportSnapshot :=
  mkSnapshot (im_job_id s) (im_request_digest s) (im_natural_key s) (im_state s) (im_desired_state s) (im_version s)
    (im_attempt s) (im_checkpoints s) (im_active_locator s) (im_verified_source s) receipt (im_failure s).
Definition set_failure (failure : option ImportFailure) : ImportSnapshot :=
  mkSnapshot (im_job_id s) (im_request_digest s) (im_natural_key s) (im_state s) (im_desired_state s) (im_version s)
    (im_attempt s) (im_checkpoints s) (im_active_locator s) (im_verified_source s) (im_local_receipt s) failure.
End setters.

(** [resume_offsets] (ingest/job.rs:1119-1126). *)
Definition resume_offsets (s : ImportSnapshot) : list (SourceArtifactId * N) :=
  map (fun c => (ck_file_id c, ck_durable_offset c)) (List.filter (fun c => negb (ck_verified c)) (im_checkpoints s)).

(** [resume_point] (ingest/job.rs:1128-1144). *)
Definition resume_point (state : ImportJobState) : ImportResumePoint :=
  match state with
  | ImCopying | ImVerifying | ImCommitting | ImPausing FromCopy | ImPaused FromCopy | ImRetryWait FromCopy => FromCopy
  | _ => FromPreflight
  end.

(** [is_sha256_hex] (ingest/job.rs:1146-1151). *)
Definition is_sha256_hex (value : string) : bool := (str_len value =? 64)%N && str_all is_lower_hex value.

Definition reset_checkpoint (c : ImportFileCheckpoint) : ImportFileCheckpoint :=
  mkCheckpoint (ck_file_id c) 0 (ck_expected_size c) None None false.

(** [reduce, copy checkpoint] (ingest/job.rs:927-943): the first checkpoint of that file. *)
Fixpoint record_offset (file_id : SourceArtifactId) (durable_offset : N) (cs : list ImportFileCheckpoint)
    : result ImportRejectReason (list ImportFileCheckpoint) :=
  match cs with
  | [] => Err UnknownFile
  | c :: rest =>
      if String.eqb (ck_file_id c) file_id then
        if (durable_offset <? ck_durable_offset c)%N || (ck_expected_size c <? durable_offset)%N
        then Err StaleOrRegressedCheckpoint
        else Ok (mkCheckpoint (ck_file_id c) durable_offset (ck_expected_size c) (ck_source_sha256 c)
                   (ck_target_sha256 c) (ck_verified c) :: rest)
      else let? rest := record_offset file_id durable_offset rest in Ok (c :: rest)
  end.

(** [reduce, file verified] (ingest/job.rs:955-986): the first file of that id, with its checkpoint. *)
Fixpoint record_verified (file_id : SourceArtifactId) (source_sha256 target_sha256 : string)
    (files : list ImportFileSpec) (cs : list ImportFileCheckpoint)
    : result ImportRejectReason (list ImportFileCheckpoint) :=
  match files, cs with
  | f :: files', c :: rest =>
      if String.eqb (if_file_id f) file_id then
        if match if_expected_source_sha256 f with
           | Some expected => negb (String.eqb expected source_sha256)
           | None => false
           end
        then Err IntegrityMismatch
        else if negb (ck_durable_offset c =? ck_expected_size c)%N then Err CopyIncomplete
        else Ok (mkCheckpoint (ck_file_id c) (ck_durable_offset c) (ck_expected_size c) (Some source_sha256)
                   (Some target_sha256) true :: rest)
      else let? rest := record_verified file_id source_sha256 target_sha256 files' rest in Ok (c :: rest)
  | _, _ => Err UnknownFile
  end.

Definition accept (s : ImportSnapshot) (effects : list ImportEffect)
    : result ImportRejectReason (ImportSnapshot * list ImportEffect) := Ok (s, effects).

(** [reduce, commit] (ingest/job.rs:1007-1031). *)
Definition commit_succeeded (s : ImportSnapshot) (receipt : LocalSourceReceipt)
    : result ImportRejectReason (ImportSnapshot * list ImportEffect) :=
  let? source := ok_or (im_verified_source s) ReceiptMismatch in
  let? content_revision := ok_or (sr_content_revision source) ReceiptMismatch in
  match tv_inventory_hashes (sr_trust_verdicts source) with
  | HashesValid digest =>
      if bool_decide (lr_content_revision receipt <> content_revision)
         || bool_decide (lr_inventory_digest receipt <> digest)
         || bool_decide (lr_provenance receipt <> sr_provenance source)
      then Err ReceiptMismatch
      else accept (set_failure (set_state (set_receipt s (Some receipt)) ImLocalVerified) None)
             [PublishLocalVerified receipt]
  | _ => Err ReceiptMismatch
  end.

(** [reduce] (ingest/job.rs:834-1098). *)
Definition reduce (spec : ImportSpec) (s : ImportSnapshot) (command : ImportCommand)
    : result ImportRejectReason (ImportSnapshot * list ImportEffect) :=
  if import_terminal (im_state s)
     && negb (match command, im_state s with CmdRetry, ImFailed => true | _, _ => false end)
  then Err Terminal else
  match command, im_state s with
  | CmdStart, ImQueued =>
      let locator := match im_active_locator s with Some l => l | None => is_locator spec end in
      accept (set_locator (set_state s ImPreflighting) (Some locator)) [StartPreflight locator]
  | CmdResetProgressForSource revision_claim, ImWaitingForMedia _ =>
      if bool_decide (revision_claim <> sr_revision_claim (is_source spec)) then Err IntegrityMismatch else
      let s := set_checkpoints s (map reset_checkpoint (im_checkpoints s)) in
      let s := set_failure (set_receipt (set_source (set_locator s None) None) None) None in
      accept (set_state s (ImWaitingForMedia FromPreflight)) []
  | CmdSourceAvailable locator revision_claim, ImWaitingForMedia resume_from =>
      if bool_decide (revision_claim <> sr_revision_claim (is_source spec)) then Err IntegrityMismatch else
      let s := set_locator s (Some locator) in
      match resume_from with
      | FromPreflight => accept (set_state s ImPreflighting) [StartPreflight locator]
      | FromCopy => accept (set_state s ImCopying) [StartCopy locator (resume_offsets s)]
      end
  | CmdSourceUnavailable, (ImPreflighting | ImCopying) =>
      accept (set_state (set_locator s None) (ImWaitingForMedia (resume_point (im_state s)))) [CancelIo]
  | CmdPreflightPassed, ImPreflighting =>
      let? locator := ok_or (im_active_locator s) IllegalInState in
      accept (set_state s ImCopying) [StartCopy locator (resume_offsets s)]
  | CmdCopyCheckpoint file_id durable_offset, ImCopying =>
      let? checkpoints := record_offset file_id durable_offset (im_checkpoints s) in
      accept (set_checkpoints s checkpoints) []
  | CmdCopyFinished, ImCopying =>
      if existsb (fun c => negb (ck_durable_offset c =? ck_expected_size c)%N) (im_checkpoints s)
      then Err CopyIncomplete
      else accept (set_state s ImVerifying) [StartVerification]
  | CmdFileVerified file_id source_sha256 target_sha256, ImVerifying =>
      if negb (is_sha256_hex source_sha256) || negb (is_sha256_hex target_sha256) then Err InvalidDigest
      else if negb (String.eqb source_sha256 target_sha256) then Err IntegrityMismatch
      else
        let? checkpoints := record_verified file_id source_sha256 target_sha256 (is_files spec) (im_checkpoints s) in
        accept (set_checkpoints s checkpoints) []
  | CmdVerificationPassed inventory_digest, ImVerifying =>
      if existsb (fun c => negb (ck_verified c)) (im_checkpoints s) then Err CopyIncomplete
      else
        let verified_source := with_verified_inventory (is_source spec) inventory_digest in
        accept (set_state (set_source s (Some verified_source)) ImCommitting) [StartCommit verified_source]
  | CmdCommitSucceeded receipt, ImCommitting => commit_succeeded s receipt
  | CmdRetryableFailure failure, state =>
      if import_terminal state then Err IllegalInState
      else if negb (fl_retryable failure) then Err FailureRetryabilityMismatch
      else
        let s' := set_attempt (set_failure s (Some failure)) (N.min (im_attempt s + 1) u32_max) in
        accept (set_state s' (ImRetryWait (resume_point state))) [CancelIo; ScheduleRetry]
  | CmdPermanentFailure failure, state =>
      if import_terminal state then Err IllegalInState
      else if fl_retryable failure then Err FailureRetryabilityMismatch
      else accept (set_state (set_failure s (Some failure)) ImFailed) [CancelIo]
  | CmdRequestPause, state =>
      if import_terminal state then Err IllegalInState
      else accept (set_state (set_desired s WantPaused) (ImPausing (resume_point state))) [CancelIo]
  | CmdPauseCompleted, ImPausing resume_from => accept (set_state s (ImPaused resume_from)) []
  | CmdResume, ImPaused _ => accept (set_state (set_desired s WantRunning) ImQueued) [Schedule]
  | CmdRequestCancel, state =>
      if import_terminal state then Err IllegalInState
      else accept (set_state (set_desired s WantCancelled) ImCancelling) [CancelIo]
  | CmdCancellationCompleted, ImCancelling => accept (set_state s ImCancelled) []
  | CmdRetry, (ImRetryWait _ | ImFailed) =>
      if match im_failure s with Some f => fl_retryable f | None => false end
      then accept (set_state (set_failure (set_desired s WantRunning) None) ImQueued) [Schedule]
      else Err IllegalInState
  | _, _ => Err IllegalInState
  end.

(** [ImportJob::decide] (ingest/job.rs:762-789): the job after the step, and the decision. *)
Definition decide_import (job : ImportJob) (command : ImportCommand) : ImportJob * ImportDecision :=
  match reduce (ij_spec job) (ij_snapshot job) command with
  | Ok (next, effects) =>
      if bool_decide (next = ij_snapshot job)
      then (job, mkDecision NoChange [] (ij_snapshot job))
      else
        let next := set_version next (u64_sat_add (im_version next) 1) in
        (mkJob (ij_spec job) next, mkDecision Applied (PersistSnapshot :: effects) next)
  | Err reason => (job, mkDecision (RejectedBecause reason) [] (ij_snapshot job))
  end.
