(* ===== verification/ImportProofs.v ===== *)
(** * ImportProofs: what an import that reports success has done

The invariant of the import job along every sequence of commands, the meaning
of its terminal states, the form of each step, and the guarantees of a
request; with the admission of signed recordings ([Ingest], [Trust]) they give
the chain from the device's key to the imported bytes. *)

From Stdlib Require Import NArith Lia Ascii String.
From stdpp Require Import base numbers list strings.
From S2P Require Import Prelude Domain Files Journal Json StrictJson Timestamp Publication Trust.
From S2P Require Import Ingest Import.

Local Open Scope string_scope.

(** A run: the commands a job is given, one after the other. *)
Definition import_run (job : ImportJob) (commands : list ImportCommand) : ImportJob :=
  fold_left (fun j c => (decide_import j c).1) commands job.

(** ** The invariant *)

(** A file's bytes are complete and both ends hash to the same digest, which is the claimed one
    when there is a claim. *)
Definition file_verified (f : ImportFileSpec) (c : ImportFileCheckpoint) : Prop :=
  ck_durable_offset c = ck_expected_size c /\
  exists h, is_sha256_hex h = true /\ ck_source_sha256 c = Some h /\ ck_target_sha256 c = Some h /\
    (forall expected, if_expected_source_sha256 f = Some expected -> h = expected).

Record checkpoint_inv (f : ImportFileSpec) (c : ImportFileCheckpoint) : Prop := {
  ci_id : ck_file_id c = if_file_id f;
  ci_size : ck_expected_size c = if_expected_size f;
  ci_offset : (ck_durable_offset c <= ck_expected_size c)%N;
  ci_verified : ck_verified c = true -> file_verified f c;
  ci_unverified : ck_verified c = false -> ck_source_sha256 c = None /\ ck_target_sha256 c = None;
}.

Definition copied (s : ImportSnapshot) : Prop :=
  Forall (fun c => ck_durable_offset c = ck_expected_size c) (im_checkpoints s).

Definition all_verified (s : ImportSnapshot) : Prop := Forall (fun c => ck_verified c = true) (im_checkpoints s).

Definition receipt_for (source : SourceRecording) (receipt : LocalSourceReceipt) : Prop :=
  sr_content_revision source = Some (lr_content_revision receipt) /\
  tv_inventory_hashes (sr_trust_verdicts source) = HashesValid (lr_inventory_digest receipt) /\
  lr_provenance receipt = sr_provenance source.

(** What each state promises. *)
Definition state_inv (s : ImportSnapshot) : Prop :=
  match im_state s with
  | ImWaitingForMedia _ => im_active_locator s = None
  | ImPreflighting | ImCopying => is_Some (im_active_locator s)
  | ImVerifying => copied s
  | ImCommitting => copied s /\ all_verified s /\ is_Some (im_verified_source s)
  | ImLocalVerified =>
      copied s /\ all_verified s /\ im_failure s = None /\
      exists source receipt, im_verified_source s = Some source /\ im_local_receipt s = Some receipt /\
        receipt_for source receipt
  | ImRetryWait _ => exists f, im_failure s = Some f /\ fl_retryable f = true
  | ImFailed => exists f, im_failure s = Some f /\ fl_retryable f = false
  | _ => True
  end.

Record import_inv (spec : ImportSpec) (s : ImportSnapshot) : Prop := {
  ii_identity : im_job_id s = is_job_id spec /\ im_request_digest s = is_request_digest spec /\
                im_natural_key s = is_natural_key spec;
  ii_files : Forall2 checkpoint_inv (is_files spec) (im_checkpoints s);
  ii_state : state_inv s;
  ii_source : forall source, im_verified_source s = Some source ->
                exists d, source = with_verified_inventory (is_source spec) d;
  ii_receipt : is_Some (im_local_receipt s) -> im_state s = ImLocalVerified;
}.

Lemma import_inv_new spec : import_inv spec (ij_snapshot (ImportJob_new spec)).
Proof.
  constructor; simpl; try done. induction (is_files spec) as [|f files IH]; simpl; constructor; [|done].
  by constructor; simpl; [..|lia| |].
Qed.

(** ** Checkpoints *)

Lemma record_offset_ok files file_id off cs cs' :
  Forall2 checkpoint_inv files cs -> record_offset file_id off cs = Ok cs' -> Forall2 checkpoint_inv files cs'.
Proof.
  intros Hcs. revert cs'. induction Hcs as [|f c files cs Hc Hcs IH]; intros cs'; simpl; [done|].
  destruct (String.eqb _ _).
  - destruct (N.ltb_spec off (ck_durable_offset c)); [done|].
    destruct (N.ltb_spec (ck_expected_size c) off); [done|]. simpl. intros [= <-]. constructor; [|done].
    destruct Hc as [Hi Hs Ho Hv Hu]. constructor; simpl; [done|done|done| |done].
    intros (He & h & Hh)%Hv. split; simpl; [lia|]. by exists h.
  - rewrite rbind_ok. intros (rest & Hr%IH & [= <-]). by constructor.
Qed.

(** The recorded offset of a file never goes back. *)
Definition progressed (c c' : ImportFileCheckpoint) : Prop :=
  ck_file_id c' = ck_file_id c /\ ck_expected_size c' = ck_expected_size c /\
  (ck_durable_offset c <= ck_durable_offset c')%N /\ (ck_verified c = true -> ck_verified c' = true).

Lemma progressed_refl cs : Forall2 progressed cs cs.
Proof. induction cs; constructor; [|done]. by repeat split. Qed.

Lemma record_offset_progress file_id off cs cs' :
  record_offset file_id off cs = Ok cs' -> Forall2 progressed cs cs'.
Proof.
  revert cs'. induction cs as [|c cs IH]; intros cs'; simpl; [done|]. destruct (String.eqb _ _).
  - destruct (N.ltb_spec off (ck_durable_offset c)); [done|].
    destruct (N.ltb_spec (ck_expected_size c) off); [done|]. simpl. intros [= <-].
    constructor; [by repeat split|apply progressed_refl].
  - rewrite rbind_ok. intros (rest & Hr%IH & [= <-]). constructor; [by repeat split|done].
Qed.

Lemma record_verified_ok files file_id h cs cs' :
  is_sha256_hex h = true -> Forall2 checkpoint_inv files cs -> record_verified file_id h h files cs = Ok cs' ->
  Forall2 checkpoint_inv files cs' /\ Forall2 progressed cs cs'.
Proof.
  intros Hh Hcs. revert cs'. induction Hcs as [|f c files cs Hc Hcs IH]; intros cs'; simpl; [done|].
  destruct (String.eqb _ _).
  - destruct (match if_expected_source_sha256 f with Some _ => _ | None => _ end) eqn:Hx; [done|].
    destruct (N.eqb_spec (ck_durable_offset c) (ck_expected_size c)) as [He|]; [|done]. simpl. intros [= <-].
    split; (constructor; [|]); [|done|by repeat split|apply progressed_refl].
    destruct Hc as [Hi Hs Ho Hv Hu]. constructor; simpl; [done|done|done| |done]. intros _. split; [done|].
    exists h. split_and!; [done|done|done|]. intros expected Ee. rewrite Ee in Hx.
    by apply negb_false_iff, String.eqb_eq in Hx.
  - rewrite rbind_ok. intros (rest & Hr & [= <-]). apply IH in Hr as [? ?]. split; (constructor; [|done]); [done|].
    by repeat split.
Qed.

Lemma record_offset_copied file_id off cs cs' :
  Forall (fun c => ck_durable_offset c = ck_expected_size c) cs -> record_offset file_id off cs = Ok cs' -> cs' = cs.
Proof.
  intros Hcs. revert cs'. induction Hcs as [|c cs Hc Hcs IH]; intros cs'; simpl; [done|]. destruct (String.eqb _ _).
  - destruct (N.ltb_spec off (ck_durable_offset c)); [done|].
    destruct (N.ltb_spec (ck_expected_size c) off); [done|]. simpl. intros [= <-].
    assert (off = ck_durable_offset c) as -> by lia. by destruct c.
  - rewrite rbind_ok. intros (rest & ->%IH & [= <-]). done.
Qed.

Lemma record_verified_copied files file_id a b cs cs' :
  record_verified file_id a b files cs = Ok cs' ->
  Forall (fun c => ck_durable_offset c = ck_expected_size c) cs ->
  Forall (fun c => ck_durable_offset c = ck_expected_size c) cs'.
Proof.
  intros Hr Hcs. revert files cs' Hr. induction Hcs as [|c cs Hc Hcs IH]; intros [|f files] cs'; simpl; try done.
  destruct (String.eqb _ _).
  - repeat (case_match; try done); intros [= <-]; by constructor.
  - rewrite rbind_ok. intros (rest & Hr%IH & [= <-]). by constructor.
Qed.

Lemma reset_inv files cs : Forall2 checkpoint_inv files cs -> Forall2 checkpoint_inv files (map reset_checkpoint cs).
Proof.
  induction 1 as [|f c files cs [Hi Hs Ho Hv Hu] _ IH]; simpl; constructor; [|done].
  by constructor; simpl; [..|lia| |].
Qed.

(** ** Preservation *)

Definition same_request (s s' : ImportSnapshot) : Prop :=
  im_job_id s' = im_job_id s /\ im_request_digest s' = im_request_digest s /\ im_natural_key s' = im_natural_key s.

Lemma set_version_inv spec s v : import_inv spec s -> import_inv spec (set_version s v).
Proof. by intros []. Qed.

Lemma forallb_false {A : Type} (p : A -> bool) l : existsb (fun x => negb (p x)) l = false -> Forall (fun x => p x = true) l.
Proof.
  induction l as [|x l IH]; simpl; [done|]. intros [?%negb_false_iff ?]%orb_false_iff. constructor; [done|by apply IH].
Qed.

Lemma copied_of s :
  existsb (fun c => negb (ck_durable_offset c =? ck_expected_size c)%N) (im_checkpoints s) = false -> copied s.
Proof.
  intros H. apply (forallb_false (fun c => (ck_durable_offset c =? ck_expected_size c)%N)) in H.
  eapply Forall_impl; [exact H|]. intros c. apply N.eqb_eq.
Qed.

Lemma verified_copied files cs :
  Forall2 checkpoint_inv files cs -> Forall (fun c => ck_verified c = true) cs ->
  Forall (fun c => ck_durable_offset c = ck_expected_size c) cs.
Proof.
  induction 1 as [|f c files cs Hc _ IH]; inversion 1; subst; constructor; [|by apply IH].
  by destruct (ci_verified _ _ Hc).
Qed.

Lemma verified_source_hashes source d :
  tv_inventory_hashes (sr_trust_verdicts (with_verified_inventory source d)) = HashesValid d.
Proof. unfold with_verified_inventory. by repeat case_match. Qed.

Lemma commit_succeeded_ok s receipt s' effects :
  commit_succeeded s receipt = Ok (s', effects) ->
  s' = set_failure (set_state (set_receipt s (Some receipt)) ImLocalVerified) None /\
  effects = [PublishLocalVerified receipt] /\
  exists source, im_verified_source s = Some source /\ receipt_for source receipt.
Proof.
  unfold commit_succeeded. rewrite rbind_ok. intros (source & Hs%ok_or_ok & Hr). revert Hr.
  rewrite rbind_ok. intros (rev & Hrev%ok_or_ok & Hr). revert Hr.
  destruct (tv_inventory_hashes _) as [|d|] eqn:Ed; try done.
  destruct (bool_decide _ || _ || _) eqn:Eb; [done|]. apply orb_false_iff in Eb as [[E1 E2]%orb_false_iff E3].
  apply bool_decide_eq_false, dec_stable in E1, E2, E3. intros [= <- <-]. split_and!; [done|done|].
  exists source. split; [done|]. by rewrite <- E1, <- E2 in *.
Qed.

(** The accepted commands, one row each. *)
Inductive import_move (spec : ImportSpec) (s : ImportSnapshot) : ImportCommand -> ImportSnapshot -> list ImportEffect -> Prop :=
| move_start l :
    im_state s = ImQueued -> l = default (is_locator spec) (im_active_locator s) ->
    import_move spec s CmdStart (set_locator (set_state s ImPreflighting) (Some l)) [StartPreflight l]
| move_reset r claim :
    im_state s = ImWaitingForMedia r -> claim = sr_revision_claim (is_source spec) ->
    import_move spec s (CmdResetProgressForSource claim)
      (set_state (set_failure (set_receipt (set_source (set_locator
         (set_checkpoints s (map reset_checkpoint (im_checkpoints s))) None) None) None) None)
         (ImWaitingForMedia FromPreflight)) []
| move_available r l claim :
    im_state s = ImWaitingForMedia r -> claim = sr_revision_claim (is_source spec) ->
    import_move spec s (CmdSourceAvailable l claim)
      (set_state (set_locator s (Some l)) (match r with FromPreflight => ImPreflighting | FromCopy => ImCopying end))
      [match r with FromPreflight => StartPreflight l | FromCopy => StartCopy l (resume_offsets s) end]
| move_unavailable :
    im_state s = ImPreflighting \/ im_state s = ImCopying ->
    import_move spec s CmdSourceUnavailable
      (set_state (set_locator s None) (ImWaitingForMedia (resume_point (im_state s)))) [CancelIo]
| move_preflight l :
    im_state s = ImPreflighting -> im_active_locator s = Some l ->
    import_move spec s CmdPreflightPassed (set_state s ImCopying) [StartCopy l (resume_offsets s)]
| move_copied file_id off cs :
    im_state s = ImCopying -> record_offset file_id off (im_checkpoints s) = Ok cs ->
    import_move spec s (CmdCopyCheckpoint file_id off) (set_checkpoints s cs) []
| move_copy_finished :
    im_state s = ImCopying -> copied s ->
    import_move spec s CmdCopyFinished (set_state s ImVerifying) [StartVerification]
| move_file_verified file_id h cs :
    im_state s = ImVerifying -> is_sha256_hex h = true ->
    record_verified file_id h h (is_files spec) (im_checkpoints s) = Ok cs ->
    import_move spec s (CmdFileVerified file_id h h) (set_checkpoints s cs) []
| move_verification d :
    im_state s = ImVerifying -> all_verified s ->
    import_move spec s (CmdVerificationPassed d)
      (set_state (set_source s (Some (with_verified_inventory (is_source spec) d))) ImCommitting)
      [StartCommit (with_verified_inventory (is_source spec) d)]
| move_commit source receipt :
    im_state s = ImCommitting -> im_verified_source s = Some source -> receipt_for source receipt ->
    import_move spec s (CmdCommitSucceeded receipt)
      (set_failure (set_state (set_receipt s (Some receipt)) ImLocalVerified) None) [PublishLocalVerified receipt]
| move_retryable f :
    import_terminal (im_state s) = false -> fl_retryable f = true ->
    import_move spec s (CmdRetryableFailure f)
      (set_state (set_attempt (set_failure s (Some f)) (N.min (im_attempt s + 1) u32_max))
         (ImRetryWait (resume_point (im_state s)))) [CancelIo; ScheduleRetry]
| move_permanent f :
    import_terminal (im_state s) = false -> fl_retryable f = false ->
    import_move spec s (CmdPermanentFailure f) (set_state (set_failure s (Some f)) ImFailed) [CancelIo]
| move_pause :
    import_terminal (im_state s) = false ->
    import_move spec s CmdRequestPause
      (set_state (set_desired s WantPaused) (ImPausing (resume_point (im_state s)))) [CancelIo]
| move_paused r :
    im_state s = ImPausing r -> import_move spec s CmdPauseCompleted (set_state s (ImPaused r)) []
| move_resume r :
    im_state s = ImPaused r ->
    import_move spec s CmdResume (set_state (set_desired s WantRunning) ImQueued) [Schedule]
| move_cancel :
    import_terminal (im_state s) = false ->
    import_move spec s CmdRequestCancel (set_state (set_desired s WantCancelled) ImCancelling) [CancelIo]
| move_cancelled :
    im_state s = ImCancelling -> import_move spec s CmdCancellationCompleted (set_state s ImCancelled) []
| move_retry f :
    (exists r, im_state s = ImRetryWait r) \/ im_state s = ImFailed -> im_failure s = Some f -> fl_retryable f = true ->
    import_move spec s CmdRetry (set_state (set_failure (set_desired s WantRunning) None) ImQueued) [Schedule].

Lemma reduce_moves spec s command s' effects :
  reduce spec s command = Ok (s', effects) -> import_move spec s command s' effects.
Proof.
  unfold reduce. destruct (import_terminal (im_state s) && _) eqn:Et; [done|].
  destruct command; cbn -[commit_succeeded import_terminal resume_offsets] in *;
    try (destruct (import_terminal (im_state s)) eqn:Ht;
         try solve [revert Et; by destruct (im_state s)]; try done).
  - destruct (im_state s) eqn:Es; try done. intros [= <- <-]. by constructor.
  - destruct (im_state s) eqn:Es; try done. case_bool_decide as Hc; [done|].
    intros [= <- <-]. by econstructor.
  - destruct (im_state s) eqn:Es; try done. case_bool_decide as Hc; [done|].
    assert (Hm := move_available spec s _ locator _ Es Hc). by destruct resume_from; intros [= <- <-].
  - assert (Hm := move_unavailable spec s). destruct (im_state s) eqn:Es; try done; intros [= <- <-]; by apply Hm; auto.
  - destruct (im_state s) eqn:Es; try done. rewrite rbind_ok. intros (l & Hl%ok_or_ok & [= <- <-]). by constructor.
  - destruct (im_state s) eqn:Es; try done. rewrite rbind_ok. intros (cs & Hcs & [= <- <-]). by constructor.
  - destruct (im_state s) eqn:Es; try done. destruct (existsb _ _) eqn:Ex; [done|]. intros [= <- <-].
    constructor; [done|by apply copied_of].
  - destruct (im_state s) eqn:Es; try done. destruct (is_sha256_hex source_sha256) eqn:Eh; [|done].
    destruct (is_sha256_hex target_sha256) eqn:Eh'; [|done]. destruct (String.eqb_spec source_sha256 target_sha256) as [<-|]; [|done].
    cbn [negb orb]. rewrite rbind_ok. intros (cs & Hcs & [= <- <-]). by constructor.
  - destruct (im_state s) eqn:Es; try done. destruct (existsb _ _) eqn:Ex; [done|]. intros [= <- <-].
    constructor; [done|by apply forallb_false].
  - destruct (im_state s) eqn:Es; try done. intros (-> & -> & source & ? & ?)%commit_succeeded_ok. by econstructor.
  - destruct (fl_retryable failure) eqn:Ef; [|done]. intros [= <- <-]. by constructor.
  - destruct (fl_retryable failure) eqn:Ef; [done|]. intros [= <- <-]. by constructor.
  - intros [= <- <-]. by constructor.
  - destruct (im_state s) eqn:Es; try done. intros [= <- <-]. by constructor.
  - destruct (im_state s) eqn:Es; try done. intros [= <- <-]. by econstructor.
  - intros [= <- <-]. by constructor.
  - destruct (im_state s) eqn:Es; try done. intros [= <- <-]. by constructor.
  - assert (Hm := move_retry spec s). destruct (im_state s) eqn:Es; try done.
    destruct (im_failure s) as [f|] eqn:Ef; [|done]. destruct (fl_retryable f) eqn:Er; [|done].
    intros [= <- <-]. apply (Hm f); auto.
  - assert (Hm := move_retry spec s). destruct (im_state s) eqn:Es; try done.
    destruct (im_failure s) as [f|] eqn:Ef; [|done]. destruct (fl_retryable f) eqn:Er; [|done].
    intros [= <- <-]. apply (Hm f); eauto.
Qed.

Lemma move_not_verified spec s command s' effects :
  import_move spec s command s' effects -> im_state s <> ImLocalVerified.
Proof.
  destruct 1; try congruence; try (intros E; rewrite E in *; done); naive_solver congruence.
Qed.

(** Every accepted command keeps the invariant. *)
Lemma move_inv spec s command s' effects :
  import_inv spec s -> import_move spec s command s' effects -> import_inv spec s'.
Proof.
  intros [Hid Hf Hst Hsrc Hrc] Hm. unfold state_inv in Hst.
  assert (Hn : im_local_receipt s = None).
  { destruct (im_local_receipt s) as [x|] eqn:E; [|done]. by destruct (move_not_verified _ _ _ _ _ Hm (Hrc (mk_is_Some _ _ eq_refl))). }
  clear Hrc. destruct Hm; try match goal with E : im_state s = _ |- _ => rewrite E in Hst end;
    constructor; simpl; try done; unfold state_inv; simpl; try done; try (intros [? ?]; congruence); try by eauto.
  - by apply reset_inv.
  - by destruct r.
  - by eapply record_offset_ok.
  - rewrite H. done.
  - by eapply record_verified_ok.
  - rewrite H. by eapply record_verified_copied.
  - intros ? [= <-]. by exists d.
  - destruct Hst as (Hc & Hv & _). split_and!; [done|done|done|]. by exists source, receipt.
Qed.

(** ** Runs *)

Lemma decide_move job command :
  (decide_import job command).1 = job \/
  exists s' effects, import_move (ij_spec job) (ij_snapshot job) command s' effects /\
    decide_import job command
    = (mkJob (ij_spec job) (set_version s' (u64_sat_add (im_version s') 1)),
       mkDecision Applied (PersistSnapshot :: effects) (set_version s' (u64_sat_add (im_version s') 1))).
Proof.
  unfold decide_import. destruct (reduce _ _ _) as [[s' effects]|reason] eqn:Er; [|by left].
  case_bool_decide; [by left|]. right. exists s', effects. split; [by apply reduce_moves|done].
Qed.

Lemma decide_inv job command :
  import_inv (ij_spec job) (ij_snapshot job) ->
  ij_spec (decide_import job command).1 = ij_spec job /\
  import_inv (ij_spec job) (ij_snapshot (decide_import job command).1).
Proof.
  intros Hi. destruct (decide_move job command) as [->|(s' & effects & Hm & ->)]; [done|].
  split; [done|]. simpl. by eapply set_version_inv, move_inv.
Qed.

Lemma import_run_inv job commands :
  import_inv (ij_spec job) (ij_snapshot job) ->
  ij_spec (import_run job commands) = ij_spec job /\
  import_inv (ij_spec job) (ij_snapshot (import_run job commands)).
Proof.
  revert job. induction commands as [|c commands IH]; intros job Hi; [done|]. simpl.
  destruct (decide_inv job c Hi) as [Hs Hi']. rewrite <- Hs in Hi' at 1. destruct (IH _ Hi') as [H1 H2].
  rewrite Hs in H1, H2. done.
Qed.

Lemma new_run_inv spec commands :
  ij_spec (import_run (ImportJob_new spec) commands) = spec /\
  import_inv spec (ij_snapshot (import_run (ImportJob_new spec) commands)).
Proof. apply (import_run_inv (ImportJob_new spec)), import_inv_new. Qed.

(** What a job that reports [ImLocalVerified] has. *)
Definition imported (spec : ImportSpec) (s : ImportSnapshot) : Prop :=
  Forall2 (fun f c => ck_file_id c = if_file_id f /\ ck_expected_size c = if_expected_size f /\ file_verified f c)
    (is_files spec) (im_checkpoints s) /\
  im_failure s = None /\
  exists d receipt, im_local_receipt s = Some receipt /\ lr_inventory_digest receipt = d /\
    receipt_for (with_verified_inventory (is_source spec) d) receipt.

Lemma local_verified_imported spec s : import_inv spec s -> im_state s = ImLocalVerified -> imported spec s.
Proof.
  intros [_ Hf Hst Hsrc _] Es. unfold state_inv in Hst. rewrite Es in Hst.
  destruct Hst as (_ & Hv & Hfl & source & receipt & Hs & Hr & Hrf). split_and!; [|done|].
  - clear -Hf Hv. unfold all_verified in Hv. induction Hf as [|f c files cs Hc _ IH]; constructor.
    + apply Forall_cons in Hv as [Hv _]. destruct Hc as [Hi Hz _ Hver _]. split_and!; [done|done|by apply Hver].
    + apply IH. by apply Forall_cons in Hv as [_ Hv].
  - destruct (Hsrc source Hs) as [d ->]. assert (Hd := verified_source_hashes (is_source spec) d).
    destruct Hrf as (H1 & H2 & H3). rewrite Hd in H2. injection H2 as ->. exists (lr_inventory_digest receipt), receipt.
    split_and!; [done|done|]. by split_and!.
Qed.

(** C29: an import that reports success is complete and checked at both ends.
    Whatever commands a new job was given, in whatever order, with retries,
    pauses, lost media and resets between them: if it is [LocalVerified], every
    file of the request has all of its bytes, its source and its target hash to
    the same well-formed digest, which is the claimed one where the source
    claimed one, no failure is left, and the receipt names the revision, the
    inventory and the provenance of the verified source. *)
Theorem imported_is_verified spec commands :
  im_state (ij_snapshot (import_run (ImportJob_new spec) commands)) = ImLocalVerified ->
  imported spec (ij_snapshot (import_run (ImportJob_new spec) commands)).
Proof. apply local_verified_imported, new_run_inv. Qed.

(** An import that has ended never changes.  After any commands, a job that
    is verified, cancelled or failed answers every further command without a
    change; in particular no retry revives a failed one, because only failures
    that cannot be retried end a job. *)
Theorem finished_import_is_final spec commands command :
  let job := import_run (ImportJob_new spec) commands in
  import_terminal (im_state (ij_snapshot job)) = true -> (decide_import job command).1 = job.
Proof.
  intros job Ht. destruct (new_run_inv spec commands) as [_ Hi]. fold job in Hi.
  destruct (decide_move job command) as [|(s' & effects & Hm & _)]; [done|]. exfalso.
  destruct Hi as [_ _ Hst _ _]. unfold state_inv in Hst. revert Ht Hst.
  destruct Hm; try congruence; try (rewrite H; done).
  - destruct H as [H|H]; by rewrite H.
  - destruct H as [[? H]|H]; rewrite H; [done|]. intros _ (f' & ? & ?). congruence.
Qed.

(** A step that does not restart the acquisition. *)
Definition keeps_progress (command : ImportCommand) : bool :=
  match command with CmdResetProgressForSource _ => false | _ => true end.

Lemma move_progress spec s command s' effects :
  import_inv spec s -> import_move spec s command s' effects -> keeps_progress command = true ->
  Forall2 progressed (im_checkpoints s) (im_checkpoints s').
Proof.
  intros [_ Hf _ _ _] Hm Hk. destruct Hm; simpl in *; try done; try apply progressed_refl.
  - by eapply record_offset_progress.
  - by eapply record_verified_ok.
Qed.

Lemma move_version spec s command s' effects : import_move spec s command s' effects -> im_version s' = im_version s.
Proof. by destruct 1. Qed.

Lemma move_identity spec s command s' effects : import_move spec s command s' effects -> same_request s s'.
Proof. by destruct 1. Qed.

(** A step of an import is numbered, persisted first and keeps progress.
    From every job a run reaches, a command either leaves the job as it is and
    has no effect, or it is applied: the version grows by one (it saturates),
    the request's identity stays, the first effect persists the snapshot the
    decision carries, and no checkpoint goes back except by the reset that
    starts the acquisition over. *)
Theorem import_steps_forward spec commands command :
  let job := import_run (ImportJob_new spec) commands in
  let '(job', decision) := decide_import job command in
  de_snapshot decision = ij_snapshot job' /\
  match de_outcome decision with
  | Applied =>
      im_version (ij_snapshot job') = u64_sat_add (im_version (ij_snapshot job)) 1 /\
      same_request (ij_snapshot job) (ij_snapshot job') /\
      (exists effects, de_effects decision = PersistSnapshot :: effects) /\
      (keeps_progress command = true ->
       Forall2 progressed (im_checkpoints (ij_snapshot job)) (im_checkpoints (ij_snapshot job')))
  | NoChange | RejectedBecause _ => job' = job /\ de_effects decision = []
  end.
Proof.
  intros job. destruct (new_run_inv spec commands) as [_ Hi]. fold job in Hi.
  unfold decide_import. destruct (reduce _ _ _) as [[s' effects]|reason] eqn:Er; [|done].
  apply reduce_moves in Er. case_bool_decide as He; simpl; [done|]. split; [done|].
  assert (Hs : ij_spec job = spec) by apply new_run_inv. rewrite Hs in Er.
  split_and!; [by rewrite (move_version _ _ _ _ _ Er)|by apply (move_identity _ _ _ _ _ Er)|by eexists|].
  by apply (move_progress _ _ _ _ _ Hi Er).
Qed.

(** ** A demo import *)

Module DemoImport.
#[local] Existing Instance DemoFloats.floats.
#[local] Existing Instance DemoSha.sha.

Definition id (prefix : string) (text : string) : Digest prefix := from_material prefix (bytes_of text).

(** The path of the demo file. *)
Definition left_path : SafeRelativePath := mkSafePath "left.mp4" eq_refl.

Definition locator : MediaLocator := mkLocator "source:card" None None.

Definition left_claim : SourceArtifactClaim :=
  mkArtifactClaim "f1" left_path RoleVideoLeft 2 (Some DemoPublication.digest_text) (Some "video/mp4").

Definition media_plan : SourceMediaPlan := mkMediaPlan SeparateEyes SourceH264 None None None 1 false None None.

Definition material : SignedPublicationMaterial :=
  let e := DemoPublication.envelope in
  mkSignedMaterial (pe_session_id e) (pe_revision e) (pe_captured_at e) (pe_published_at e) (pe_duration_seconds e)
    (pe_total_bytes e) (pe_video_bytes e) (pe_files e) (pe_publication_payload e) (pe_publication_signature_hex e)
    (pe_publication_public_key_hex e) (pe_publication_key_fingerprint e) None.

Lemma revision_form : Is_true (digest_form "sha256:" (vp_revision DemoPublication.verified)).
Proof. vm_compute. exact I. Qed.

Definition revision : SourceContentRevision := mkDigest (vp_revision DemoPublication.verified) revision_form.

Definition candidate : ScanCandidate :=
  mkCandidate (id "candidate:sha256:" "c") (Published revision) RemovableMedia SignedPublicationV1 "sess-1" locator
    [left_claim] media_plan (mkVerdicts HashesPending SignaturePending (KeyUnknown "k")) ReadySigned
    [mkCheck "layout" true "ok"] (Some material).

Definition recording : SourceRecording :=
  match admit_device_signed candidate DemoPublication.verified with
  | Ok r => r
  | Err _ => mkRecording (id "candidate:sha256:" "") (Published revision) None Lan DeviceSessionV1 "" locator []
               media_plan (SpLocallyValidatedUnsigned (mkUnsigned DeviceSessionV1 [] None None)) pending_unsigned
  end.

Lemma admitted : admit_device_signed candidate DemoPublication.verified = Ok recording.
Proof. unfold recording. destruct (admit_device_signed _ _) eqn:E; [done|]. revert E. by vm_compute. Qed.

Definition spec : ImportSpec :=
  mkImportSpec "job-1" (KeyDeviceSigned DemoPublication.fingerprint "sess-1" revision) "request" recording locator
    [import_file left_claim] 2 (mkPolicy RejectUnsigned 1000 10).

Definition inventory : InventoryDigest := id "sha256:" "inventory".
Definition receipt : LocalSourceReceipt :=
  mkSourceReceipt revision inventory left_path "commit-1" (sr_provenance recording) "2024-01-01T12:00:00Z".

(** The card is pulled out in the middle of the copy and put back. *)
Definition copy : list ImportCommand :=
  [CmdStart; CmdPreflightPassed; CmdCopyCheckpoint "f1" 1; CmdSourceUnavailable;
   CmdSourceAvailable locator (Published revision); CmdCopyCheckpoint "f1" 2; CmdCopyFinished].
Definition commands : list ImportCommand :=
  copy ++ [CmdFileVerified "f1" DemoPublication.digest_text DemoPublication.digest_text;
           CmdVerificationPassed inventory; CmdCommitSucceeded receipt].

(** Other bytes are noticed: the file stays unverified. *)
Example wrong_bytes_rejected :
  let other := to_hex (DemoSha.digest [Byte.x05]) in
  de_outcome (decide_import (import_run (ImportJob_new spec) copy) (CmdFileVerified "f1" other other)).2
  = RejectedBecause IntegrityMismatch.
Proof. vm_compute. reflexivity. Qed.

(** A pause that arrives while a cancellation is running replaces it. *)
Example pause_overrides_cancel :
  let job := import_run (ImportJob_new spec) (copy ++ [CmdRequestCancel; CmdRequestPause; CmdPauseCompleted; CmdResume]) in
  im_state (ij_snapshot job) = ImQueued /\ im_desired_state (ij_snapshot job) = WantRunning.
Proof. vm_compute. done. Qed.
End DemoImport.

Lemma imported_is_verified_witness :
  im_state (ij_snapshot (import_run (ImportJob_new DemoImport.spec) DemoImport.commands)) = ImLocalVerified /\
  imported DemoImport.spec (ij_snapshot (import_run (ImportJob_new DemoImport.spec) DemoImport.commands)).
Proof.
  assert (E : im_state (ij_snapshot (import_run (ImportJob_new DemoImport.spec) DemoImport.commands)) = ImLocalVerified)
    by (vm_compute; reflexivity).
  split; [exact E|exact (imported_is_verified _ _ E)].
Defined.

Lemma finished_import_is_final_witness :
  let job := import_run (ImportJob_new DemoImport.spec) DemoImport.commands in
  (decide_import job CmdRequestCancel).1 = job.
Proof.
  apply (finished_import_is_final DemoImport.spec DemoImport.commands CmdRequestCancel). vm_compute. reflexivity.
Defined.
