(* ===== verification/ImportTrust.v ===== *)
(** * ImportTrust: from the device's key to the imported bytes

The composition of the publication seam ([Trust]), the admission of a card's
candidate ([Ingest]) and the import job ([Import]): what is on the disk after a
signed import is what the pinned key signed.  Also what a request promises
before it runs: its budget, its policy and the meaning of its natural key. *)

From Stdlib Require Import NArith Lia Ascii String.
From stdpp Require Import base numbers list strings.
From S2P Require Import Prelude Domain Files Journal Json StrictJson Timestamp Publication Trust.
From S2P Require Import Ingest Import ImportProofs.

Local Open Scope string_scope.

(** ** Admission *)

Definition claims_file (claim : SourceArtifactClaim) (file : VerifiedFile) : Prop :=
  ac_id claim = vf_file_id file /\ path_text (ac_relative_path claim) = vf_display_path file /\
  ac_size_bytes claim = vf_size_bytes file /\ ac_source_sha256 claim = Some (vf_sha256 file).

Lemma claim_matches_ok claim file : claim_matches_file claim file = true -> claims_file claim file.
Proof.
  unfold claim_matches_file. rewrite !andb_true_iff, !String.eqb_eq, N.eqb_eq, bool_decide_eq_true.
  intros [[[? ?] ?] ?]. by split_and!.
Qed.

Lemma matching_inventory (inventory : list SourceArtifactClaim) (files : list VerifiedFile) :
  length inventory = length files ->
  forallb (fun '(claim, file) => claim_matches_file claim file) (combine inventory files) = true ->
  Forall2 claims_file inventory files.
Proof.
  revert files. induction inventory as [|c inventory IH]; intros [|f files]; try done. intros [= Hl]. simpl.
  rewrite andb_true_iff. intros [Hc Hr]. constructor; [by apply claim_matches_ok|by apply IH].
Qed.

Lemma mismatch_ok b what u : mismatch b what = Ok u <-> b = true.
Proof. unfold mismatch. destruct b, u; split; done. Qed.

Section admission.
Context `{Floats}.

(** What a device-signed admission has checked. *)
Record admitted_signed (candidate : ScanCandidate) (verified : VerifiedPublication) (recording : SourceRecording) : Prop := {
  as_session : sr_session_id recording = vp_session_id verified;
  as_inventory : Forall2 claims_file (sr_inventory recording) (vp_files verified);
  as_revision : exists revision, digest_text revision = vp_revision verified /\
    sr_content_revision recording = Some revision /\ sr_revision_claim recording = Published revision /\
    sr_provenance recording
    = SpDeviceSigned (mkDeviceSigned (vp_key_fingerprint verified) revision (vp_payload verified)
                        (vp_signature verified) (vp_public_key verified));
  as_hashes : tv_inventory_hashes (sr_trust_verdicts recording) = HashesPending;
}.

Lemma admit_device_signed_ok candidate verified recording :
  admit_device_signed candidate verified = Ok recording -> admitted_signed candidate verified recording.
Proof.
  unfold admit_device_signed. case_bool_decide; [|done]. cbn [negb]. rewrite rbind_ok. intros (u1 & Hs & Hr).
  revert Hr. rewrite rbind_ok. intros (m & _ & Hr). revert Hr. rewrite rbind_ok. intros (u2 & _ & Hr).
  revert Hr. rewrite rbind_ok. intros (revision & Hrev%rmap_err_ok & Hr). revert Hr. rewrite rbind_ok.
  intros (u3 & _ & Hr). revert Hr. rewrite rbind_ok. intros (u4 & Hi & [= <-]).
  apply mismatch_ok, String.eqb_eq in Hs. apply mismatch_ok, andb_true_iff in Hi as [Hl%Nat.eqb_eq Hi].
  apply digest_parse_ok in Hrev. constructor; cbn; [done|by apply matching_inventory| |done].
  exists revision. by split_and!.
Qed.
End admission.

(** ** Requests *)

Lemma sum_sizes_ok files : forall total total',
  sum_sizes total files = Ok total' ->
  total' = (total + foldr (fun f n => if_expected_size f + n) 0 files)%N /\ (total <= u64_max -> total' <= u64_max)%N.
Proof.
  induction files as [|f files IH]; intros total total'; cbn [sum_sizes foldr].
  { intros [= <-]. lia. }
  rewrite rbind_ok. intros (t & Ht%ok_or_ok & Hr%IH). apply u64_checked_add_Some in Ht as [Hle ->]. lia.
Qed.

Definition inventory_size (files : list ImportFileSpec) : N := foldr (fun f n => (if_expected_size f + n)%N) 0%N files.

Section requests.
Context `{ImportRequestText, Sha256}.

(** The text that a request's digest is the hash of. *)
Definition spec_text (spec : ImportSpec) : result string (list byte) :=
  request_text (is_natural_key spec) (sr_schema (is_source spec)) (sr_media_plan (is_source spec)) (is_files spec)
    (is_total_bytes spec).

(** What an accepted request is. *)
Record request_of (source : SourceRecording) (policy : ImportPolicy) (spec : ImportSpec) : Prop := {
  ro_files : is_files spec = map import_file (sr_inventory source) /\ is_files spec <> [];
  ro_source : is_source spec = source /\ is_locator spec = sr_locator source;
  ro_policy : enforce_unsigned_policy source policy = Ok tt;
  ro_total : is_total_bytes spec = inventory_size (is_files spec) /\ (is_total_bytes spec <= u64_max)%N;
  ro_space : (is_total_bytes spec + ip_safety_margin_bytes policy <= ip_local_space_budget_bytes policy)%N;
  ro_key : natural_key_of source = Ok (is_natural_key spec);
  ro_digest : exists text, spec_text spec = Ok text /\ is_request_digest spec = "sha256:" ++ to_hex (sha256 text);
}.

Lemma ImportSpec_new_ok job_id source policy spec :
  ImportSpec_new job_id source policy = Ok spec -> request_of source policy spec.
Proof.
  unfold ImportSpec_new. rewrite rbind_ok. intros ([] & Hp & Hr). revert Hr. case_bool_decide as Hne; [done|].
  rewrite rbind_ok. intros (total & Ht & Hr). revert Hr. rewrite rbind_ok. intros (req & Hq%ok_or_ok & Hr).
  revert Hr. destruct (N.ltb_spec (ip_local_space_budget_bytes policy) req) as [|Hb]; [done|]. rewrite rbind_ok.
  intros (key & Hk & Hr). revert Hr. rewrite rbind_ok. intros (text & Htext%rmap_err_ok & [= <-]).
  apply sum_sizes_ok in Ht as [Ht Hm]. apply u64_checked_add_Some in Hq as [_ ->].
  constructor; cbn; try done; [|by eexists]. split; [unfold inventory_size; lia|lia].
Qed.
End requests.


(** ** What a request is named by *)

Lemma canonical_key_inj k l : canonical_key k = canonical_key l -> k = l.
Proof.
  assert (Hkey : forall (prefix : string) (a b : string), (prefix ++ key_part a)%string = (prefix ++ key_part b)%string -> a = b).
  { intros prefix a b E. apply (inj (String.append prefix)) in E. apply (key_part_inj a b "" ""). by rewrite E. }
  destruct k as [f s r|r|r], l as [f' s' r'|r'|r']; unfold canonical_key, append_key_component; try done.
  - rewrite !str_app_assoc. intros E. do 2 apply (inj (String.append _)) in E.
    apply key_part_inj in E as [-> [-> E]%key_part_inj]. f_equal. apply digest_ext.
    apply (key_part_inj _ _ "" ""). by rewrite E.
  - intros E%Hkey. f_equal. by apply digest_ext.
  - intros E%Hkey. f_equal. by apply digest_ext.
Qed.

(** An import request is bounded and identified.  An accepted request has at
    least one file, its total is the true sum of the claimed sizes and fits in
    64 bits, and total and safety margin fit in the space budget; under the
    policy that rejects unsigned recordings only device-signed ones are
    accepted.  Two accepted requests with the same canonical key have the same
    natural key, and two with the same digest ask for the same key, plan, files
    and total, or their texts themselves differ and have one SHA-256. *)
Theorem import_request_bounded_and_identified `{ImportRequestText, Sha256} job_id source policy spec job_id' source' policy' spec' :
  ImportSpec_new job_id source policy = Ok spec -> ImportSpec_new job_id' source' policy' = Ok spec' ->
  (is_files spec <> [] /\ is_total_bytes spec = inventory_size (is_files spec) /\
   (is_total_bytes spec <= u64_max)%N /\
   (is_total_bytes spec + ip_safety_margin_bytes policy <= ip_local_space_budget_bytes policy)%N /\
   (ip_unsigned policy = RejectUnsigned -> exists evidence, sr_provenance source = SpDeviceSigned evidence)) /\
  (canonical_key (is_natural_key spec) = canonical_key (is_natural_key spec') ->
   is_natural_key spec = is_natural_key spec') /\
  (is_request_digest spec = is_request_digest spec' ->
   (is_natural_key spec = is_natural_key spec' /\ sr_media_plan source = sr_media_plan source' /\
    is_files spec = is_files spec' /\ is_total_bytes spec = is_total_bytes spec') \/
   exists a b, spec_text spec = Ok a /\ spec_text spec' = Ok b /\ a <> b /\ sha256 a = sha256 b).
Proof.
  intros H1%ImportSpec_new_ok H2%ImportSpec_new_ok.
  destruct H1 as [[_ Hne] [<- _] Hp [Ht Hm] Hs _ (text & Htext & Hd)].
  destruct H2 as [_ [<- _] _ _ _ _ (text' & Htext' & Hd')]. split_and!; try done.
  - intros Er. unfold enforce_unsigned_policy in Hp. rewrite Er in Hp. destruct (sr_provenance (is_source spec)); [by eexists|done].
  - apply canonical_key_inj.
  - rewrite Hd, Hd'. intros E. apply (inj (String.append _)) in E.
    assert (Hsha : sha256 text = sha256 text') by (apply (f_equal hex_bytes) in E; rewrite !hex_bytes_to_hex in E; by injection E).
    destruct (decide (text = text')) as [<-|]; [left|right; by exists text, text'].
    destruct (request_text_inj _ _ _ _ _ _ _ _ _ _ _ Htext Htext') as (E1 & _ & E3 & E4 & E5). by split_and!.
Qed.

(** ** A demo request *)

(** A serializer that knows one request. *)
Module DemoRequest.
#[local] Existing Instance DemoFloats.floats.
#[local] Existing Instance DemoSha.sha.

Definition key : ImportNaturalKey := is_natural_key DemoImport.spec.
Definition files : list ImportFileSpec := is_files DemoImport.spec.

Definition text (k : ImportNaturalKey) (s : SourceSchema) (m : SourceMediaPlan) (f : list ImportFileSpec) (t : N)
    : result string (list byte) :=
  if decide (k = key /\ s = SignedPublicationV1 /\ m = DemoImport.media_plan /\ f = files /\ t = 2%N)
  then Ok [Byte.x01] else Err "unknown".

Lemma demo_request_inj k s m f t k' s' m' f' t' bs :
  text k s m f t = Ok bs -> text k' s' m' f' t' = Ok bs -> k = k' /\ s = s' /\ m = m' /\ f = f' /\ t = t'.
Proof.
  unfold text. do 2 (case_decide; [|done]). intros _ _. destruct_and!. subst. done.
Qed.

#[global] Instance serializer : ImportRequestText := {| request_text := text; request_text_inj := demo_request_inj |}.

Definition policy : ImportPolicy := is_policy DemoImport.spec.

Definition spec : ImportSpec :=
  match ImportSpec_new "job-1" DemoImport.recording policy with Ok s => s | Err _ => DemoImport.spec end.

Lemma requested : ImportSpec_new "job-1" DemoImport.recording policy = Ok spec.
Proof. unfold spec. destruct (ImportSpec_new _ _ _) eqn:E; [done|]. revert E. by vm_compute. Qed.

Lemma finished : im_state (ij_snapshot (import_run (ImportJob_new spec) DemoImport.commands)) = ImLocalVerified.
Proof. vm_compute. reflexivity. Qed.
End DemoRequest.

#[local] Existing Instance DemoFloats.floats.
#[local] Existing Instance DemoSha.sha.


Lemma import_request_bounded_and_identified_witness :
  is_files DemoRequest.spec <> [] /\ (is_total_bytes DemoRequest.spec + 10 <= 1000)%N.
Proof.
  destruct (import_request_bounded_and_identified _ _ _ _ _ _ _ _ DemoRequest.requested DemoRequest.requested)
    as ((Hne & _ & _ & Hb & _) & _). split; [exact Hne|exact Hb].
Defined.
