(* ===== verification/Rational.v ===== *)
(** * Rational: frame rates and media time bases (normalization/rational.rs)

Positive reduced fractions of 32-bit integers, with the conversion from frames
to ticks in 128-bit arithmetic.  The checked operations keep their checks, and
the division by zero that panics (a fraction read from a file is not checked)
is the outcome [DivisionByZero].  [gcd] is the loop of the source with fuel. *)

From Stdlib Require Import NArith ZArith Lia.
From stdpp Require Import base numbers.
From S2P Require Import Prelude.

Local Open Scope N_scope.

(** [RationalError] (normalization/rational.rs:4-17), with the panic of the division. *)
Inductive RationalError :=
| RationalZero
| RationalOverflow
| InexactFrameTime (frames fps_num fps_den time_num time_den : N)
| DivisionByZero.

(** [Rational] (normalization/rational.rs:21-24). *)
Record Rational := mkRational { rt_numerator : N; rt_denominator : N }.

#[global] Instance RationalError_eq_dec : EqDecision RationalError.
Proof. solve_decision. Defined.
#[global] Instance Rational_eq_dec : EqDecision Rational.
Proof. solve_decision. Defined.

Fixpoint gcd_loop (fuel : nat) (left right : N) : N :=
  match fuel with
  | O => left
  | S fuel' => if right =? 0 then left else gcd_loop fuel' right (left mod right)
  end.

(** [gcd] (normalization/rational.rs:88-95): two turns halve the smaller number, so twice its
    size and one are enough. *)
Definition gcd (left right : N) : N := gcd_loop (2 * N.to_nat (N.size right) + 1) left right.

(** [Rational::new] (normalization/rational.rs:27-36). *)
Definition Rational_new (numerator denominator : N) : result RationalError Rational :=
  if (numerator =? 0) || (denominator =? 0) then Err RationalZero
  else
    let divisor := gcd numerator denominator in
    Ok (mkRational (numerator / divisor) (denominator / divisor)).

Definition u128_max : N := 340282366920938463463374607431768211455.

(** [checked_mul] at the width whose largest value is [m]. *)
Definition checked_mul (m a b : N) : option N := if a * b <=? m then Some (a * b) else None.

(** [Rational::frames_in_whole_seconds] (normalization/rational.rs:48-63). *)
Definition frames_in_whole_seconds (r : Rational) (seconds : N) : result RationalError N :=
  let? product := ok_or (checked_mul u64_max (rt_numerator r) seconds) RationalOverflow in
  let denominator := rt_denominator r in
  if denominator =? 0 then Err DivisionByZero
  else if negb (product mod denominator =? 0)
  then Err (InexactFrameTime product (rt_numerator r) (rt_denominator r) 1 1)
  else Ok (product / denominator).

(** [Rational::ticks_for_frames] (normalization/rational.rs:65-85). *)
Definition ticks_for_frames (r : Rational) (frames : N) (time_base : Rational) : result RationalError N :=
  let? numerator := ok_or (checked_mul u128_max frames (rt_denominator r)) RationalOverflow in
  let? numerator := ok_or (checked_mul u128_max numerator (rt_denominator time_base)) RationalOverflow in
  let? denominator := ok_or (checked_mul u128_max (rt_numerator r) (rt_numerator time_base)) RationalOverflow in
  if denominator =? 0 then Err DivisionByZero
  else if negb (numerator mod denominator =? 0)
  then Err (InexactFrameTime frames (rt_numerator r) (rt_denominator r) (rt_numerator time_base)
              (rt_denominator time_base))
  else if numerator / denominator <=? u64_max then Ok (numerator / denominator) else Err RationalOverflow.

(** ** The greatest common divisor *)

Lemma mod_halves l r : 0 < r -> 0 < l mod r -> 2 * (r mod (l mod r)) < r.
Proof.
  intros Hr Hm. assert (Hlt := N.mod_lt l r ltac:(lia)). set (m := l mod r) in *.
  assert (Hrm := N.mod_lt r m ltac:(lia)). destruct (N.le_gt_cases (2 * m) r) as [|Hbig]; [lia|].
  assert (E := N.div_mod r m ltac:(lia)). assert (r / m = 1) as Hq.
  { symmetry. apply (N.div_unique r m 1 (r - m)); lia. }
  rewrite Hq in E. lia.
Qed.

Lemma gcd_step l r : r <> 0 -> N.gcd l r = N.gcd r (l mod r).
Proof. intros. rewrite (N.gcd_comm r), N.Lcm0.gcd_mod. apply N.gcd_comm. Qed.

Lemma gcd_loop_spec k : forall fuel l r, (2 * k + 1 <= fuel)%nat -> r < 2 ^ N.of_nat k -> gcd_loop fuel l r = N.gcd l r.
Proof.
  induction k as [|k IH]; intros fuel l r Hf Hr.
  - change (2 ^ N.of_nat 0) with 1 in Hr. destruct fuel; [lia|]. assert (r = 0) as -> by lia. simpl. by rewrite N.gcd_0_r.
  - destruct fuel as [|[|fuel]]; [lia|lia|]. simpl. destruct (N.eqb_spec r 0) as [->|Hr0]; [by rewrite N.gcd_0_r|].
    destruct (N.eqb_spec (l mod r) 0) as [Hm|Hm].
    { by rewrite (gcd_step l r) by done; rewrite Hm, N.gcd_0_r. }
    rewrite IH; [by rewrite (gcd_step l r), (gcd_step r (l mod r)) by done|lia|].
    assert (Hh := mod_halves l r (proj1 (N.neq_0_lt_0 _) Hr0) (proj1 (N.neq_0_lt_0 _) Hm)).
    rewrite Nat2N.inj_succ, N.pow_succ_r' in Hr. revert Hh Hr.
    generalize (r mod (l mod r)) (2 ^ N.of_nat k). clear. intros. lia.
Qed.

Lemma gcd_spec l r : gcd l r = N.gcd l r.
Proof.
  unfold gcd. apply (gcd_loop_spec (N.to_nat (N.size r))); [lia|]. rewrite N2Nat.id. apply N.size_gt.
Qed.

(** ** Fractions *)

(** A value the constructors make: positive, reduced, 32 bits wide. *)
Record rational_ok (r : Rational) : Prop := {
  ro_numerator : 0 < rt_numerator r <= u32_max;
  ro_denominator : 0 < rt_denominator r <= u32_max;
  ro_reduced : N.gcd (rt_numerator r) (rt_denominator r) = 1;
}.

Lemma Rational_new_ok n d r :
  n <= u32_max -> d <= u32_max -> Rational_new n d = Ok r -> rational_ok r /\ rt_numerator r * d = n * rt_denominator r.
Proof.
  intros Hn Hd. unfold Rational_new. destruct (N.eqb_spec n 0) as [|Hn0]; [done|].
  destruct (N.eqb_spec d 0) as [|Hd0]; [done|]. cbn [orb]. rewrite gcd_spec. intros [= <-].
  set (g := N.gcd n d). assert (Hg : g <> 0) by (unfold g; rewrite N.gcd_eq_0; lia).
  destruct (N.gcd_divide_l n d) as [a Ha], (N.gcd_divide_r n d) as [b Hb]. fold g in Ha, Hb.
  assert (Ena : n / g = a) by (rewrite Ha; by apply N.div_mul). assert (Enb : d / g = b) by (rewrite Hb; by apply N.div_mul).
  cbn [rt_numerator rt_denominator]. split; [constructor; cbn [rt_numerator rt_denominator]|rewrite Ena, Enb; nia].
  - rewrite Ena. nia.
  - rewrite Enb. nia.
  - apply N.gcd_div_gcd; done.
Qed.

Lemma Rational_new_total n d : 0 < n -> 0 < d -> exists r, Rational_new n d = Ok r.
Proof.
  intros Hn Hd. unfold Rational_new. destruct (N.eqb_spec n 0); [lia|]. destruct (N.eqb_spec d 0); [lia|]. by eexists.
Qed.

Lemma checked_mul_Some m a b c : checked_mul m a b = Some c <-> a * b <= m /\ c = a * b.
Proof.
  unfold checked_mul. destruct (N.leb_spec (a * b) m); split; [by intros [= <-]|by intros [_ ->]|done|intros [? _]; lia].
Qed.

(** ** Exact times *)

(** [ticks] is the time of [frames] at the rate, counted in the time base. *)
Definition exact_time (fps time_base : Rational) (frames ticks : N) : Prop :=
  ticks * (rt_numerator fps * rt_numerator time_base) = frames * (rt_denominator fps * rt_denominator time_base).

Lemma ticks_for_frames_exact fps frames tb t :
  ticks_for_frames fps frames tb = Ok t ->
  exact_time fps tb frames t /\ t <= u64_max /\ 0 < rt_numerator fps * rt_numerator tb.
Proof.
  unfold ticks_for_frames. rewrite rbind_ok. intros (a & [_ ->]%ok_or_ok%checked_mul_Some & Hr). revert Hr.
  rewrite rbind_ok. intros (b & [_ ->]%ok_or_ok%checked_mul_Some & Hr). revert Hr.
  rewrite rbind_ok. intros (c & [_ ->]%ok_or_ok%checked_mul_Some & Hr). revert Hr.
  destruct (N.eqb_spec (rt_numerator fps * rt_numerator tb) 0) as [|Hd]; [done|].
  destruct (N.eqb_spec ((frames * rt_denominator fps * rt_denominator tb) mod (rt_numerator fps * rt_numerator tb)) 0) as [Hm|];
    [|done]. cbn [negb]. destruct (N.leb_spec (frames * rt_denominator fps * rt_denominator tb / (rt_numerator fps * rt_numerator tb)) u64_max);
    [|done]. intros [= <-]. split_and!; [|done|lia]. unfold exact_time.
  apply N.Div0.div_exact in Hm. rewrite N.mul_assoc. lia.
Qed.

Lemma exact_time_unique fps tb frames t t' :
  0 < rt_numerator fps * rt_numerator tb -> exact_time fps tb frames t -> exact_time fps tb frames t' -> t = t'.
Proof. unfold exact_time. intros. nia. Qed.

Lemma exact_time_add fps tb f g t u : exact_time fps tb f t -> exact_time fps tb g u -> exact_time fps tb (f + g) (t + u).
Proof. unfold exact_time. intros. lia. Qed.

Lemma exact_time_mul fps tb t frames : exact_time fps tb 1 t -> exact_time fps tb frames (frames * t).
Proof. unfold exact_time. intros. nia. Qed.

(** The products never reach 128 bits, so only the exactness and the final width decide. *)
Lemma ticks_for_frames_total fps frames tb t :
  rational_ok fps -> rational_ok tb -> frames <= u64_max -> exact_time fps tb frames t -> t <= u64_max ->
  ticks_for_frames fps frames tb = Ok t.
Proof.
  intros [Hn Hd _] [Hn' Hd' _] Hf He Ht. unfold ticks_for_frames.
  assert (Hw : u64_max * u32_max * u32_max <= u128_max) by (by vm_compute).
  assert (Hden : rt_denominator fps * rt_denominator tb <= u32_max * u32_max) by nia.
  assert (Hnum : rt_numerator fps * rt_numerator tb <= u32_max * u32_max) by nia.
  assert (H1 : frames * rt_denominator fps <= u64_max * u32_max) by (apply N.mul_le_mono; lia).
  assert (H2 : frames * rt_denominator fps * rt_denominator tb <= u64_max * u32_max * u32_max) by (apply N.mul_le_mono; lia).
  assert (Hu : u64_max * u32_max <= u128_max /\ u32_max * u32_max <= u128_max) by (by vm_compute).
  rewrite (proj2 (checked_mul_Some u128_max frames (rt_denominator fps) _)) by (split; [lia|done]). cbn [ok_or rbind].
  rewrite (proj2 (checked_mul_Some u128_max (frames * rt_denominator fps) (rt_denominator tb) _)) by (split; [lia|done]).
  cbn [ok_or rbind].
  rewrite (proj2 (checked_mul_Some u128_max (rt_numerator fps) (rt_numerator tb) _)) by (split; [lia|done]). cbn [ok_or rbind].
  assert (Hpos : rt_numerator fps * rt_numerator tb <> 0) by nia. destruct (N.eqb_spec (rt_numerator fps * rt_numerator tb) 0); [done|].
  unfold exact_time in He. rewrite <- N.mul_assoc, <- He, N.Div0.mod_mul, N.div_mul by done. simpl.
  by rewrite (proj2 (N.leb_le _ _)).
Qed.

Lemma frames_in_whole_seconds_ok r seconds frames :
  frames_in_whole_seconds r seconds = Ok frames -> frames * rt_denominator r = rt_numerator r * seconds.
Proof.
  unfold frames_in_whole_seconds. rewrite rbind_ok. intros (p & [_ ->]%ok_or_ok%checked_mul_Some & Hr). revert Hr.
  destruct (N.eqb_spec (rt_denominator r) 0); [done|].
  destruct (N.eqb_spec ((rt_numerator r * seconds) mod rt_denominator r) 0) as [Hm|]; [|done]. cbn [negb]. intros [= <-].
  apply N.Div0.div_exact in Hm. lia.
Qed.

(** Frame times are exact or refused, and the arithmetic is wide enough.
    [Rational::new] on 32-bit numbers fails only for a zero, and otherwise gives
    the reduced fraction of the same value.  For such fractions and any 64-bit
    frame number, [ticks_for_frames] answers exactly when the time of that frame
    is a whole number of ticks that fits in 64 bits, and then with that number:
    no intermediate product overflows, nothing is rounded, and nothing divides
    by zero. *)
Theorem frame_times_are_exact :
  (forall n d, n <= u32_max -> d <= u32_max ->
    match Rational_new n d with
    | Ok r => rational_ok r /\ rt_numerator r * d = n * rt_denominator r
    | Err e => e = RationalZero /\ (n = 0 \/ d = 0)
    end) /\
  (forall fps tb frames t, rational_ok fps -> rational_ok tb -> frames <= u64_max ->
    (ticks_for_frames fps frames tb = Ok t <-> exact_time fps tb frames t /\ t <= u64_max)) /\
  (forall fps tb frames, rational_ok fps -> rational_ok tb -> ticks_for_frames fps frames tb <> Err DivisionByZero).
Proof.
  split_and!.
  - intros n d Hn Hd. destruct (Rational_new n d) as [r|e] eqn:E; [by apply Rational_new_ok|].
    revert E. unfold Rational_new. destruct (N.eqb_spec n 0), (N.eqb_spec d 0); simpl; intros [= <-]; auto.
  - intros fps tb frames t Hf Ht Hn. split; [by intros (? & ? & _)%ticks_for_frames_exact|].
    intros [? ?]. by apply ticks_for_frames_total.
  - intros fps tb frames [Hn _ _] [Hn' _ _]. unfold ticks_for_frames.
    assert (Hpos : rt_numerator fps * rt_numerator tb <> 0) by nia.
    destruct (checked_mul _ frames _) as [a|]; [|done]. cbn [ok_or rbind].
    destruct (checked_mul _ a _) as [b|]; [|done]. cbn [ok_or rbind].
    destruct (checked_mul _ (rt_numerator fps) _) as [c|] eqn:Ec; [|done]. cbn [ok_or rbind].
    apply checked_mul_Some in Ec as [_ ->]. destruct (N.eqb_spec (rt_numerator fps * rt_numerator tb) 0); [done|].
    by repeat case_match.
Qed.

(** Thirty and sixty frames a second are exact at 90 kHz; the NTSC rate is not for one frame in whole milliseconds. *)
Example thirty_fps : ticks_for_frames (mkRational 30 1) 1 (mkRational 1 90000) = Ok 3000.
Proof. reflexivity. Qed.
Example ntsc_milliseconds :
  ticks_for_frames (mkRational 30000 1001) 1 (mkRational 1 1000) = Err (InexactFrameTime 1 30000 1001 1 1000).
Proof. reflexivity. Qed.
