(* ===== verification/Profile.v ===== *)
(** * Profile: encoding profiles, builds and their identities (normalization/identity.rs, profile.rs)

What a derivation is asked to produce: an immutable profile named by the hash
of its content, the encoder build that may implement it, and the review
evidence that releases it.  The canonical text that [serde_json] makes of a
profile's content is [ProfileText]. *)

From Stdlib Require Import NArith Lia Ascii String.
From stdpp Require Import base numbers list strings.
From S2P Require Import Prelude Domain Files Journal Json StrictJson Publication Ingest Rational.

Local Open Scope string_scope.

(** ** Identities *)

(** [IdentityError] (normalization/identity.rs:7-16). *)
Inductive NormIdentityError :=
| InvalidPrefixedSha256 (field value : string)
| InvalidBareSha256 (field value : string)
| InvalidOpaqueId (field : string)
| CanonicalJsonFailed (message : string).

#[global] Instance NormIdentityError_eq_dec : EqDecision NormIdentityError.
Proof. solve_decision. Defined.

(** [is_lower_hex] (normalization/identity.rs:18-23). *)
Definition is_lower_hex_of (value : string) (length : N) : bool :=
  (str_len value =? length)%N && str_all is_lower_hex value.

(** The digests of the module, as the form their constructors check. *)
Abbreviation ProfileRevision := (Digest "sha256:") (only parsing).
Abbreviation DerivedRevision := (Digest "sha256:") (only parsing).
Abbreviation SourceManifestDigest := (Digest "sha256:") (only parsing).
Abbreviation EncoderBuildFingerprint := (Digest "sha256:") (only parsing).
Abbreviation ContentSha256 := (Digest "") (only parsing).
Abbreviation DerivationJobId := string (only parsing).

(** [validate_prefixed_sha256, parse] (normalization/identity.rs:25-38). *)
Definition prefixed_parse (field value : string) : result NormIdentityError (Digest "sha256:") :=
  match decide (Is_true (digest_form "sha256:" value)) with
  | left valid => Ok (mkDigest value valid)
  | right _ => Err (InvalidPrefixedSha256 field value)
  end.

(** [validate_bare_sha256] (normalization/identity.rs:40-50). *)
Definition bare_parse (field value : string) : result NormIdentityError ContentSha256 :=
  match decide (Is_true (digest_form "" value)) with
  | left valid => Ok (mkDigest value valid)
  | right _ => Err (InvalidBareSha256 field value)
  end.

Definition opaque_char (c : ascii) : bool := is_alnum c || str_mem c "-_.:".

(** [validate_opaque_id] (normalization/identity.rs:52-67). *)
Definition parse_opaque_id (field value : string) : result NormIdentityError string :=
  if negb (String.eqb value "") && (str_len value <=? 128)%N && str_all opaque_char value then Ok value
  else Err (InvalidOpaqueId field).

(** The two forms of the source, spelled out. *)
Lemma digest_form_bare value : digest_form "" value = is_lower_hex_of value 64.
Proof. by destruct value. Qed.

(** [prefixed_sha256_newtype!, from_canonical_bytes] (normalization/identity.rs:82-84). *)
Definition from_canonical_bytes `{Sha256} (bytes : list byte) : Digest "sha256:" := from_material "sha256:" bytes.

(** ** The profile *)

Definition PROFILE_SCHEMA_VERSION : N := 1.
Definition HEVC_PROFILE_FAMILY_V1 : string := "hevc-main-cfr-sourcefps-gop2s-x265-slow-v1".
Definition X265_SOFTWARE_COMPATIBILITY_V1 : string := "x265-software-hevc-main-8bit-v1".

(** [VideoCodec] (normalization/profile.rs:15-19). *)
Inductive VideoCodec := Mjpeg | H264 | Hevc.
(** [HevcProfile] (normalization/profile.rs:23-25). *)
Inductive HevcProfile := Main.
(** [PixelFormat] (normalization/profile.rs:29-33). *)
Inductive PixelFormat := Yuv420p | Yuv422p | PixelUnknown.
(** [ContainerFormat] (normalization/profile.rs:37-41). *)
Inductive ContainerFormat := MjpegElementary | Mp4 | FragmentedMp4.
(** [SampleEntry] (normalization/profile.rs:45-47). *)
Inductive SampleEntry := Hvc1.
(** [QualityVariant] (normalization/profile.rs:51-55). *)
Inductive QualityVariant := MjpegCrf20 | H264Crf18 | H264Crf16Retry.
(** [TranscodeGeneration] (normalization/profile.rs:87-91). *)
Inductive TranscodeGeneration := FirstGeneration | SecondGeneration | SecondGenerationRetry.

#[global] Instance VideoCodec_eq_dec : EqDecision VideoCodec.
Proof. solve_decision. Defined.
#[global] Instance HevcProfile_eq_dec : EqDecision HevcProfile.
Proof. solve_decision. Defined.
#[global] Instance PixelFormat_eq_dec : EqDecision PixelFormat.
Proof. solve_decision. Defined.
#[global] Instance ContainerFormat_eq_dec : EqDecision ContainerFormat.
Proof. solve_decision. Defined.
#[global] Instance SampleEntry_eq_dec : EqDecision SampleEntry.
Proof. solve_decision. Defined.
#[global] Instance QualityVariant_eq_dec : EqDecision QualityVariant.
Proof. solve_decision. Defined.
#[global] Instance TranscodeGeneration_eq_dec : EqDecision TranscodeGeneration.
Proof. solve_decision. Defined.

(** [QualityVariant::crf] (normalization/profile.rs:59-65). *)
Definition crf_of (v : QualityVariant) : N :=
  match v with MjpegCrf20 => 20 | H264Crf18 => 18 | H264Crf16Retry => 16 end%N.

(** [QualityVariant::generation] (normalization/profile.rs:68-74). *)
Definition generation (v : QualityVariant) : TranscodeGeneration :=
  match v with
  | MjpegCrf20 => FirstGeneration
  | H264Crf18 => SecondGeneration
  | H264Crf16Retry => SecondGenerationRetry
  end.

(** [QualityVariant::accepts_source_codec] (normalization/profile.rs:77-82). *)
Definition accepts_source_codec (v : QualityVariant) (codec : VideoCodec) : bool :=
  match v with
  | MjpegCrf20 => bool_decide (codec = Mjpeg)
  | H264Crf18 | H264Crf16Retry => bool_decide (codec = H264)
  end.

(** [ProfileError] (normalization/profile.rs:317-333). *)
Inductive ProfileError :=
| InvalidField (field : string)
| CandidateUnapproved
| ApprovalRevisionMismatch (profile evidence : ProfileRevision)
| IncompatibleEncoder (required actual : string)
| PrIdentity (e : NormIdentityError)
| PrRational (e : RationalError).

#[global] Instance ProfileError_eq_dec : EqDecision ProfileError.
Proof. solve_decision. Defined.

(** [EncoderCompatibilityClass] (normalization/profile.rs:94-94). *)
Definition EncoderCompatibilityClass : Type := string.

Definition class_char (c : ascii) : bool := is_lower c || is_digit c || Ascii.eqb c "-".

(** [EncoderCompatibilityClass::parse] (normalization/profile.rs:102-117). *)
Definition compatibility_class_parse (value : string) : result ProfileError EncoderCompatibilityClass :=
  if negb (String.eqb value "") && (str_len value <=? 128)%N && str_all class_char value then Ok value
  else Err (InvalidField "encoder_compatibility_class").

(** [EncoderBuild] (normalization/profile.rs:131-137); the parameters as the map's entries. *)
Record EncoderBuild := mkBuild {
  eb_implementation : string;
  eb_version : string;
  eb_build_fingerprint : EncoderBuildFingerprint;
  eb_compatibility_class : EncoderCompatibilityClass;
  eb_build_parameters : list (string * string);
}.

#[global] Instance EncoderBuild_eq_dec : EqDecision EncoderBuild.
Proof. unfold EncoderCompatibilityClass. solve_decision. Defined.

(** [validate_bounded_text] (normalization/profile.rs:555-568). *)
Definition validate_bounded_text (field value : string) (maximum : N) : result ProfileError unit :=
  if String.eqb value "" || (maximum <? str_len value)%N || has_control value then Err (InvalidField field) else Ok tt.

Definition bad_parameter (entry : string * string) : bool :=
  let '(key, value) := entry in
  String.eqb key "" || (128 <? str_len key)%N || String.eqb value "" || (512 <? str_len value)%N
  || has_control key || has_control value.

(** [EncoderBuild::new] (normalization/profile.rs:140-173). *)
Definition EncoderBuild_new (implementation version : string) (build_fingerprint : EncoderBuildFingerprint)
    (compatibility_class : EncoderCompatibilityClass) (build_parameters : list (string * string))
    : result ProfileError EncoderBuild :=
  let? _ := validate_bounded_text "encoder_implementation" implementation 128 in
  let? _ := validate_bounded_text "encoder_version" version 256 in
  if (64 <? N.of_nat (length build_parameters))%N || existsb bad_parameter build_parameters
  then Err (InvalidField "encoder_build_parameters")
  else Ok (mkBuild implementation version build_fingerprint compatibility_class build_parameters).

(** [QualityThresholds] (normalization/profile.rs:202-209). *)
Record QualityThresholds := mkThresholds {
  qt_vmaf_neg_model : string;
  qt_vmaf_mean_milli_min : N;
  qt_vmaf_frame_p01_milli_min : N;
  qt_ssim_mean_millionths_min : N;
  qt_h264_corpus_size_ratio_basis_points_max : option N;
  qt_stereo_domain_metrics_required : bool;
}.

(** [QualityThresholds::proposed_v1] (normalization/profile.rs:213-225). *)
Definition proposed_v1 (v : QualityVariant) : QualityThresholds :=
  mkThresholds "vmaf_v0.6.1neg" 95000 90000 990000
    (match v with MjpegCrf20 => None | H264Crf18 | H264Crf16Retry => Some 6500%N end) true.

(** [ProfileApprovalEvidence] (normalization/profile.rs:262-270). *)
Record ProfileApprovalEvidence := mkEvidence {
  pa_profile_revision : ProfileRevision;
  pa_quality_corpus_report : SourceManifestDigest;
  pa_throughput_resource_report : SourceManifestDigest;
  pa_stereo_cv_report : SourceManifestDigest;
  pa_encoder_distribution_legal_review : SourceManifestDigest;
  pa_playback_compatibility_report : SourceManifestDigest;
  pa_approved_at : string;
}.

(** [ProfileApprovalEvidence::new] (normalization/profile.rs:274-294). *)
Definition ProfileApprovalEvidence_new (profile_revision : ProfileRevision)
    (quality_corpus_report throughput_resource_report stereo_cv_report encoder_distribution_legal_review
     playback_compatibility_report : SourceManifestDigest) (approved_at : string)
    : result ProfileError ProfileApprovalEvidence :=
  let? _ := validate_bounded_text "profile_approved_at" approved_at 128 in
  Ok (mkEvidence profile_revision quality_corpus_report throughput_resource_report stereo_cv_report
        encoder_distribution_legal_review playback_compatibility_report approved_at).

(** [ProfileReleaseStatus] (normalization/profile.rs:304-307). *)
Inductive ProfileReleaseStatus :=
| StCandidateUnapproved
| StApproved (evidence : ProfileApprovalEvidence).

#[global] Instance QualityThresholds_eq_dec : EqDecision QualityThresholds.
Proof. solve_decision. Defined.
#[global] Instance ProfileApprovalEvidence_eq_dec : EqDecision ProfileApprovalEvidence.
Proof. solve_decision. Defined.
#[global] Instance ProfileReleaseStatus_eq_dec : EqDecision ProfileReleaseStatus.
Proof. solve_decision. Defined.

(** [ProfileReleaseStatus::is_approved] (normalization/profile.rs:311-313). *)
Definition is_approved (s : ProfileReleaseStatus) : bool :=
  match s with StApproved _ => true | StCandidateUnapproved => false end.

(** [ProfileRevisionMaterial] (normalization/profile.rs:336-358). *)
Record ProfileRevisionMaterial := mkProfileMaterial {
  pm_schema_version : N;
  pm_family_id : string;
  pm_quality_variant : QualityVariant;
  pm_transcode_generation : TranscodeGeneration;
  pm_codec : VideoCodec;
  pm_codec_profile : HevcProfile;
  pm_pixel_format : PixelFormat;
  pm_container : ContainerFormat;
  pm_sample_entry : SampleEntry;
  pm_preset : string;
  pm_crf : N;
  pm_time_base : Rational;
  pm_gop_seconds : N;
  pm_segment_seconds : N;
  pm_closed_gop : bool;
  pm_scene_cut_keyframes : bool;
  pm_preserve_source_fps : bool;
  pm_preserve_eye_dimensions : bool;
  pm_audio_tracks : N;
  pm_encoder_compatibility_class : EncoderCompatibilityClass;
  pm_quality_thresholds : QualityThresholds;
}.

(** [NormalizationProfile] (normalization/profile.rs:364-368). *)
Record NormalizationProfile := mkProfile {
  np_revision_material : ProfileRevisionMaterial;
  np_profile_revision : ProfileRevision;
  np_release_status : ProfileReleaseStatus;
}.

#[global] Instance ProfileRevisionMaterial_eq_dec : EqDecision ProfileRevisionMaterial.
Proof. unfold EncoderCompatibilityClass. solve_decision. Defined.
#[global] Instance NormalizationProfile_eq_dec : EqDecision NormalizationProfile.
Proof. solve_decision. Defined.

(** [canonical_json] of a profile's content, through [serde_json]: distinct contents have
    distinct texts. *)
Class ProfileText := {
  profile_text : ProfileRevisionMaterial -> result string (list byte);
  profile_text_inj : forall a b text, profile_text a = Ok text -> profile_text b = Ok text -> a = b;
}.

Section profiles.
Context `{ProfileText, Sha256}.

Definition revision_material (v : QualityVariant) (time_base : Rational) : ProfileRevisionMaterial :=
  mkProfileMaterial PROFILE_SCHEMA_VERSION HEVC_PROFILE_FAMILY_V1 v (generation v) Hevc Main Yuv420p Mp4 Hvc1 "slow"
    (crf_of v) time_base 2 30 true false true true 0 X265_SOFTWARE_COMPATIBILITY_V1 (proposed_v1 v).

(** [NormalizationProfile::candidate] (normalization/profile.rs:383-414). *)
Definition candidate_profile (v : QualityVariant) : result ProfileError NormalizationProfile :=
  let? time_base := rmap_err PrRational (Rational_new 1 90000) in
  let material := revision_material v time_base in
  let? text := rmap_err (fun m => PrIdentity (CanonicalJsonFailed m)) (profile_text material) in
  Ok (mkProfile material (from_canonical_bytes text) StCandidateUnapproved).

End profiles.

(** [NormalizationProfile::approve] (normalization/profile.rs:416-425). *)
Definition approve (p : NormalizationProfile) (evidence : ProfileApprovalEvidence) : result ProfileError NormalizationProfile :=
  if negb (bool_decide (pa_profile_revision evidence = np_profile_revision p))
  then Err (ApprovalRevisionMismatch (np_profile_revision p) (pa_profile_revision evidence))
  else Ok (mkProfile (np_revision_material p) (np_profile_revision p) (StApproved evidence)).

(** [NormalizationProfile::require_approved] (normalization/profile.rs:427-433). *)
Definition require_approved (p : NormalizationProfile) : result ProfileError unit :=
  if is_approved (np_release_status p) then Ok tt else Err CandidateUnapproved.

(** [NormalizationProfile::require_compatible_encoder] (normalization/profile.rs:435-444). *)
Definition require_compatible_encoder (p : NormalizationProfile) (build : EncoderBuild) : result ProfileError unit :=
  let required := pm_encoder_compatibility_class (np_revision_material p) in
  if String.eqb (eb_compatibility_class build) required then Ok tt
  else Err (IncompatibleEncoder required (eb_compatibility_class build)).

(** [NormalizationProfile::gop_frames] (normalization/profile.rs:546-548). *)
Definition gop_frames (p : NormalizationProfile) (source_fps : Rational) : result ProfileError N :=
  rmap_err PrRational (frames_in_whole_seconds source_fps (pm_gop_seconds (np_revision_material p))).

(** [NormalizationProfile::segment_frames] (normalization/profile.rs:550-552). *)
Definition segment_frames (p : NormalizationProfile) (source_fps : Rational) : result ProfileError N :=
  rmap_err PrRational (frames_in_whole_seconds source_fps (pm_segment_seconds (np_revision_material p))).
