(* ===== verification/MediaPlan.v ===== *)
(** * MediaPlan: from probed sources to segment pairs (normalization/plan.rs)

The planner checks that exactly the expected artifacts were probed, lines the
two eyes up in runs, and cuts the runs into segment pairs of whole frames with
exact times.  [BTreeMap]s and [BTreeSet]s are association lists in key order;
indexing that panics is the outcome [PlanPanic]; 64-bit sums are checked where
the source checks them. *)

From Stdlib Require Import NArith ZArith Lia Ascii String.
From stdpp Require Import base numbers list strings.
From S2P Require Import Prelude Domain Files Json Ingest Rational Profile.

Local Open Scope string_scope.

(** [SourceMediaKind] (normalization/plan.rs:16-24). *)
Inductive SourceMediaKind :=
| KindRawCaptureV2 | KindLegacyMjpegSessionV5 | KindApplianceSpoolV6 | KindCompleteUnpublishedV6
| KindPairedH264PublicationV1 | KindUnsignedPairedH264PublicationV1 | KindUnsignedMjpegPublicationV1.

(** [Eye] (normalization/plan.rs:28-31). *)
Inductive Eye := EyeLeft | EyeRight.

(** [Dimensions] (normalization/plan.rs:34-37). *)
Record Dimensions := mkDimensions { dm_width : N; dm_height : N }.

(** [Rect] (normalization/plan.rs:59-64). *)
Record Rect := mkRect { rc_x : N; rc_y : N; rc_width : N; rc_height : N }.

(** [MediaPlanError] (normalization/plan.rs:848-904), with the panics of indexing. *)
Inductive MediaPlanError :=
| InvalidGeometry (width height : N)
| OddStereoWidth (width : N)
| InvalidLocalPath
| UnsafeRelativePath (path : string)
| EmptySourceArtifact (id : SourceArtifactId)
| DuplicateArtifact (id : SourceArtifactId)
| DuplicateProbe (id : SourceArtifactId)
| MissingProbe (id : SourceArtifactId)
| UnexpectedProbe (id : SourceArtifactId)
| EmptyProbe (id : SourceArtifactId)
| InvalidKeyframeInventory (id : SourceArtifactId)
| InvalidSegmentSequence
| InvalidRawFrameEvidence
| InvalidLegacyTimingEvidence
| ProfileSourceMismatch (variant : QualityVariant) (codec : VideoCodec)
| CodecMismatch (artifact : SourceArtifactId) (expected actual : VideoCodec)
| TrackLayoutMismatch (artifact : SourceArtifactId)
| FrameRateMismatch (artifact : SourceArtifactId)
| PairedEyeMismatch (segment_index : N) (reason : string)
| FrameEvidenceMismatch (declared probed : N)
| LegacyPtsNotReset (artifact : SourceArtifactId)
| ArithmeticOverflow
| MpRational (e : RationalError)
| MpProfile (e : ProfileError)
| PlanPanic (what : string).

#[global] Instance SourceMediaKind_eq_dec : EqDecision SourceMediaKind.
Proof. solve_decision. Defined.
#[global] Instance Eye_eq_dec : EqDecision Eye.
Proof. solve_decision. Defined.
#[global] Instance Dimensions_eq_dec : EqDecision Dimensions.
Proof. solve_decision. Defined.
#[global] Instance Rect_eq_dec : EqDecision Rect.
Proof. solve_decision. Defined.
#[global] Instance MediaPlanError_eq_dec : EqDecision MediaPlanError.
Proof. solve_decision. Defined.

(** [Dimensions::new] (normalization/plan.rs:40-45). *)
Definition Dimensions_new (width height : N) : result MediaPlanError Dimensions :=
  if (width =? 0)%N || (height =? 0)%N then Err (InvalidGeometry width height) else Ok (mkDimensions width height).

(** [Rect::new] (normalization/plan.rs:67-75). *)
Definition Rect_new (x y width height : N) : result MediaPlanError Rect :=
  let? _ := Dimensions_new width height in Ok (mkRect x y width height).

(** ** Sources *)

(** [ResolvedSourceArtifact] (normalization/plan.rs:102-108), its local path as text. *)
Record ResolvedSourceArtifact := mkResolved {
  ra_id : SourceArtifactId;
  ra_local_path : string;
  ra_manifest_relative_path : string;
  ra_expected_size_bytes : N;
  ra_expected_sha256 : ContentSha256;
}.

(** [Path::components] of a relative path: empty and later [.] components vanish. *)
Definition path_parts (value : string) : list string :=
  match split_char "/" value with
  | [] => []
  | first :: rest =>
      (if String.eqb first "" then [] else [first])
      ++ List.filter (fun c => negb (String.eqb c "" || String.eqb c ".")) rest
  end.

(** [validate_relative_path] (normalization/plan.rs:1391-1405): [.] and [..] begin
    with a dot like the hidden names. *)
Definition validate_relative_path (value : string) : result MediaPlanError unit :=
  if String.eqb value "" || str_mem "\" value || str_mem (ascii_of_N 0) value || String.prefix "/" value
     || existsb (String.prefix ".") (path_parts value)
  then Err (UnsafeRelativePath value) else Ok tt.

(** [ResolvedSourceArtifact::new] (normalization/plan.rs:111-133). *)
Definition ResolvedSourceArtifact_new (id : SourceArtifactId) (local_path manifest_relative_path : string)
    (expected_size_bytes : N) (expected_sha256 : ContentSha256) : result MediaPlanError ResolvedSourceArtifact :=
  let? _ := validate_relative_path manifest_relative_path in
  if String.eqb local_path "" then Err InvalidLocalPath
  else if (expected_size_bytes =? 0)%N then Err (EmptySourceArtifact id)
  else Ok (mkResolved id local_path manifest_relative_path expected_size_bytes expected_sha256).

(** [SourceSegment] (normalization/plan.rs:162-165). *)
Record SourceSegment := mkSegment { sg_segment_index : N; sg_artifact : ResolvedSourceArtifact }.

(** [PairedSourceSegment] (normalization/plan.rs:188-192). *)
Record PairedSourceSegment := mkPairedSegment {
  ps_segment_index : N;
  ps_left : ResolvedSourceArtifact;
  ps_right : ResolvedSourceArtifact;
}.

(** [PairedSourceSegment::new] (normalization/plan.rs:195-208). *)
Definition PairedSourceSegment_new (segment_index : N) (left right : ResolvedSourceArtifact)
    : result MediaPlanError PairedSourceSegment :=
  if String.eqb (ra_id left) (ra_id right) then Err (DuplicateArtifact (ra_id left))
  else Ok (mkPairedSegment segment_index left right).

(** [RawFrameEvidence] (normalization/plan.rs:227-233). *)
Record RawFrameEvidence := mkRawEvidence {
  rf_declared_frame_count : N;
  rf_declared_source_fps : Rational;
  rf_jpeg_boundaries_verified : bool;
  rf_sequence_gap_count : N;
  rf_timestamp_error_count : N;
}.

Definition raw_evidence_invalid (e : RawFrameEvidence) : bool :=
  (rf_declared_frame_count e =? 0)%N || negb (rf_jpeg_boundaries_verified e)
  || negb (rf_sequence_gap_count e =? 0)%N || negb (rf_timestamp_error_count e =? 0)%N.

(** [RawFrameEvidence::new] (normalization/plan.rs:236-257). *)
Definition RawFrameEvidence_new (declared_frame_count : N) (declared_source_fps : Rational)
    (jpeg_boundaries_verified : bool) (sequence_gap_count timestamp_error_count : N)
    : result MediaPlanError RawFrameEvidence :=
  let e := mkRawEvidence declared_frame_count declared_source_fps jpeg_boundaries_verified sequence_gap_count
             timestamp_error_count in
  if raw_evidence_invalid e then Err InvalidRawFrameEvidence else Ok e.

(** [LegacyTimingEvidence] (normalization/plan.rs:271-276). *)
Record LegacyTimingEvidence := mkLegacyEvidence {
  lt_frames_jsonl_digest : ContentSha256;
  lt_declared_total_frames : N;
  lt_declared_source_fps : Rational;
  lt_segment_pts_reset : bool;
}.

Definition legacy_evidence_invalid (e : LegacyTimingEvidence) : bool :=
  (lt_declared_total_frames e =? 0)%N || negb (lt_segment_pts_reset e).

(** [LegacyTimingEvidence::new] (normalization/plan.rs:279-294). *)
Definition LegacyTimingEvidence_new (frames_jsonl_digest : ContentSha256) (declared_total_frames : N)
    (declared_source_fps : Rational) (segment_pts_reset : bool) : result MediaPlanError LegacyTimingEvidence :=
  let e := mkLegacyEvidence frames_jsonl_digest declared_total_frames declared_source_fps segment_pts_reset in
  if legacy_evidence_invalid e then Err InvalidLegacyTimingEvidence else Ok e.

(** [NormalizationInput] (normalization/plan.rs:312-341). *)
Inductive NormalizationInput :=
| RawCapture (stereo : ResolvedSourceArtifact) (frame_evidence : RawFrameEvidence)
| LegacyMjpegSession (segments : list SourceSegment) (timing_evidence : LegacyTimingEvidence)
| ApplianceSpool (segments : list SourceSegment) (capture_commit_digest : SourceManifestDigest)
| CompleteUnpublished (segments : list PairedSourceSegment) (source_manifest_digest : SourceManifestDigest)
| PairedH264Publication (segments : list PairedSourceSegment) (publication_manifest_digest : SourceManifestDigest)
| UnsignedPairedH264Publication (segments : list PairedSourceSegment) (publication_manifest_digest : SourceManifestDigest)
| UnsignedMjpegPublication (segments : list SourceSegment) (publication_manifest_digest : SourceManifestDigest).

(** [NormalizationInput::kind] (normalization/plan.rs:421-433). *)
Definition input_kind (input : NormalizationInput) : SourceMediaKind :=
  match input with
  | RawCapture _ _ => KindRawCaptureV2
  | LegacyMjpegSession _ _ => KindLegacyMjpegSessionV5
  | ApplianceSpool _ _ => KindApplianceSpoolV6
  | CompleteUnpublished _ _ => KindCompleteUnpublishedV6
  | PairedH264Publication _ _ => KindPairedH264PublicationV1
  | UnsignedPairedH264Publication _ _ => KindUnsignedPairedH264PublicationV1
  | UnsignedMjpegPublication _ _ => KindUnsignedMjpegPublicationV1
  end.

(** [NormalizationInput::source_codec] (normalization/plan.rs:436-446). *)
Definition source_codec (input : NormalizationInput) : VideoCodec :=
  match input with
  | RawCapture _ _ | LegacyMjpegSession _ _ | ApplianceSpool _ _ | UnsignedMjpegPublication _ _ => Mjpeg
  | CompleteUnpublished _ _ | PairedH264Publication _ _ | UnsignedPairedH264Publication _ _ => H264
  end.

(** [NormalizationInput::artifacts] (normalization/plan.rs:449-464). *)
Definition input_artifacts (input : NormalizationInput) : list ResolvedSourceArtifact :=
  match input with
  | RawCapture stereo _ => [stereo]
  | LegacyMjpegSession segments _ | ApplianceSpool segments _ | UnsignedMjpegPublication segments _ =>
      map sg_artifact segments
  | CompleteUnpublished segments _ | PairedH264Publication segments _ | UnsignedPairedH264Publication segments _ =>
      flat_map (fun s => [ps_left s; ps_right s]) segments
  end.

Definition contiguous (indices : list N) : bool :=
  forallb (fun '(i, index) => (index =? N.of_nat i)%N) (combine (seq 0 (length indices)) indices).

(** [validate_segment_sequence] (normalization/plan.rs:1365-1375). *)
Definition validate_segment_sequence (segments : list SourceSegment) : result MediaPlanError unit :=
  if bool_decide (segments = nil) || negb (contiguous (map sg_segment_index segments))
  then Err InvalidSegmentSequence else Ok tt.

(** [validate_paired_segment_sequence] (normalization/plan.rs:1377-1389). *)
Definition validate_paired_segment_sequence (segments : list PairedSourceSegment) : result MediaPlanError unit :=
  if bool_decide (segments = nil) || negb (contiguous (map ps_segment_index segments))
  then Err InvalidSegmentSequence else Ok tt.

(** [validate_input_sequences] (normalization/plan.rs:1330-1363). *)
Definition validate_input_sequences (input : NormalizationInput) : result MediaPlanError unit :=
  match input with
  | RawCapture _ frame_evidence =>
      if raw_evidence_invalid frame_evidence then Err InvalidRawFrameEvidence else Ok tt
  | LegacyMjpegSession segments timing_evidence =>
      let? _ := validate_segment_sequence segments in
      if legacy_evidence_invalid timing_evidence then Err InvalidLegacyTimingEvidence else Ok tt
  | ApplianceSpool segments _ | UnsignedMjpegPublication segments _ => validate_segment_sequence segments
  | CompleteUnpublished segments _ | PairedH264Publication segments _ | UnsignedPairedH264Publication segments _ =>
      validate_paired_segment_sequence segments
  end.

(** ** Probes *)

(** [ProbedArtifact] (normalization/plan.rs:469-485). *)
Record ProbedArtifact := mkProbe {
  pb_artifact_id : SourceArtifactId;
  pb_codec : VideoCodec;
  pb_codec_profile : option string;
  pb_container : ContainerFormat;
  pb_sample_entry : option string;
  pb_pixel_format : PixelFormat;
  pb_dimensions : Dimensions;
  pb_frame_rate : Rational;
  pb_time_base : Rational;
  pb_first_pts : Z;
  pb_frame_count : N;
  pb_duration_ticks : N;
  pb_video_track_count : N;
  pb_audio_track_count : N;
  pb_keyframe_frames : list N;
}.

Fixpoint increasing (frames : list N) : bool :=
  match frames with
  | a :: (b :: _) as rest => (a <? b)%N && increasing rest
  | _ => true
  end.

(** [ProbedArtifact::new] (normalization/plan.rs:489-533), on the record its arguments make. *)
Definition ProbedArtifact_new (p : ProbedArtifact) : result MediaPlanError ProbedArtifact :=
  if (pb_frame_count p =? 0)%N || (pb_duration_ticks p =? 0)%N then Err (EmptyProbe (pb_artifact_id p))
  else if existsb (fun frame => (pb_frame_count p <=? frame)%N) (pb_keyframe_frames p)
          || negb (increasing (pb_keyframe_frames p))
  then Err (InvalidKeyframeInventory (pb_artifact_id p))
  else Ok p.

(** [ProbeReport] (normalization/plan.rs:612-614), its artifacts. *)
Definition ProbeReport : Type := list ProbedArtifact.

Fixpoint unique_probes (ids : list string) (artifacts : list ProbedArtifact) : result MediaPlanError unit :=
  match artifacts with
  | [] => Ok tt
  | a :: rest =>
      if bool_decide (pb_artifact_id a ∈ ids) then Err (DuplicateProbe (pb_artifact_id a))
      else unique_probes (pb_artifact_id a :: ids) rest
  end.

(** [ProbeReport::new] (normalization/plan.rs:617-627). *)
Definition ProbeReport_new (artifacts : list ProbedArtifact) : result MediaPlanError ProbeReport :=
  let? _ := unique_probes [] artifacts in Ok artifacts.

Abbreviation Probes := (list (string * ProbedArtifact)) (only parsing).

Definition sorted_set (ids : list string) : list string :=
  map fst (fold_left (fun s id => obj_insert id tt s) ids []).

(** The first repeated element. *)
Fixpoint first_duplicate (seen ids : list string) : option string :=
  match ids with
  | [] => None
  | id :: rest => if bool_decide (id ∈ seen) then Some id else first_duplicate (id :: seen) rest
  end.

(** [reconcile_probes] (normalization/plan.rs:979-1010). *)
Definition reconcile_probes (input : NormalizationInput) (report : ProbeReport) : result MediaPlanError Probes :=
  let ids := map ra_id (input_artifacts input) in
  let expected := sorted_set ids in
  if negb (length expected =? length ids)%nat then
    match first_duplicate [] ids with
    | Some duplicate => Err (DuplicateArtifact duplicate)
    | None => Err (PlanPanic "set length proved a duplicate")
    end
  else
    let actual := fold_left (fun m a => obj_insert (pb_artifact_id a) a m) report [] in
    match List.find (fun id => negb (bool_decide (is_Some (obj_get id actual)))) expected with
    | Some missing => Err (MissingProbe missing)
    | None =>
        match List.find (fun id => negb (bool_decide (id ∈ expected))) (map fst actual) with
        | Some unexpected => Err (UnexpectedProbe unexpected)
        | None => Ok actual
        end
    end.

Fixpoint probe_contract (expected_codec : VideoCodec) (source_fps : option Rational) (probes : list ProbedArtifact)
    : result MediaPlanError unit :=
  match probes with
  | [] => Ok tt
  | probe :: rest =>
      let id := pb_artifact_id probe in
      if negb (bool_decide (pb_codec probe = expected_codec))
      then Err (CodecMismatch id expected_codec (pb_codec probe))
      else if negb (pb_video_track_count probe =? 1)%N || negb (pb_audio_track_count probe =? 0)%N
      then Err (TrackLayoutMismatch id)
      else if match source_fps with Some fps => negb (bool_decide (fps = pb_frame_rate probe)) | None => false end
      then Err (FrameRateMismatch id)
      else probe_contract expected_codec (Some (pb_frame_rate probe)) rest
  end.

(** [validate_common_probe_contract] (normalization/plan.rs:1012-1039). *)
Definition validate_common_probe_contract (input : NormalizationInput) (probes : Probes) : result MediaPlanError unit :=
  probe_contract (source_codec input) None (map snd probes).

(** ** Runs *)

(** [TimingBasis] (normalization/plan.rs:637-645). *)
Inductive TimingBasis :=
| RawFrameIndex | LegacyV5ResetPtsAccumulated | CaptureCommitSegmentOrder | CompleteUnpublishedPairOrder
| SignedPublicationPairOrder | UnsignedPublicationPairOrder | UnsignedPublicationSideBySideOrder.

#[global] Instance TimingBasis_eq_dec : EqDecision TimingBasis.
Proof. solve_decision. Defined.

(** [PairedRun] (normalization/plan.rs:973-977). *)
Record PairedRun := mkRun { ru_left : ProbedArtifact; ru_right : ProbedArtifact; ru_frame_count : N }.

(** [probes[id]], which panics for a missing key. *)
Definition probe_at (probes : Probes) (id : string) : result MediaPlanError ProbedArtifact :=
  ok_or (obj_get id probes) (PlanPanic "no entry found for key").

(** [side_by_side_eye_dimensions] (normalization/plan.rs:1200-1205). *)
Definition side_by_side_eye_dimensions (source : Dimensions) : result MediaPlanError Dimensions :=
  if negb (dm_width source mod 2 =? 0)%N then Err (OddStereoWidth (dm_width source))
  else Dimensions_new (dm_width source / 2) (dm_height source).

(** [ensure_eye_dimensions] (normalization/plan.rs:1185-1198). *)
Definition ensure_eye_dimensions (expected : option Dimensions) (actual : Dimensions) (segment_index : N)
    : result MediaPlanError (option Dimensions) :=
  if match expected with Some d => negb (bool_decide (d = actual)) | None => false end
  then Err (PairedEyeMismatch segment_index "eye dimensions change between segments")
  else Ok (Some actual).

Section runs.
Context (probes : Probes).

Fixpoint side_by_side_loop (reset : bool) (dimensions : option Dimensions) (segments : list SourceSegment)
    : result MediaPlanError (list PairedRun * option Dimensions) :=
  match segments with
  | [] => Ok ([], dimensions)
  | segment :: rest =>
      let? probe := probe_at probes (ra_id (sg_artifact segment)) in
      if reset && negb (pb_first_pts probe =? 0)%Z then Err (LegacyPtsNotReset (pb_artifact_id probe)) else
      let? eye := side_by_side_eye_dimensions (pb_dimensions probe) in
      let? dimensions := ensure_eye_dimensions dimensions eye (sg_segment_index segment) in
      let? (runs, dimensions) := side_by_side_loop reset dimensions rest in
      Ok (mkRun probe probe (pb_frame_count probe) :: runs, dimensions)
  end.

Definition expect_dimensions (dimensions : option Dimensions) : result MediaPlanError Dimensions :=
  ok_or dimensions (PlanPanic "non-empty sequence was checked").

(** [side_by_side_runs] (normalization/plan.rs:1166-1183). *)
Definition side_by_side_runs (segments : list SourceSegment) : result MediaPlanError (list PairedRun * Dimensions) :=
  let? (runs, dimensions) := side_by_side_loop false None segments in
  let? dimensions := expect_dimensions dimensions in
  Ok (runs, dimensions).

Fixpoint paired_loop (dimensions : option Dimensions) (segments : list PairedSourceSegment)
    : result MediaPlanError (list PairedRun * option Dimensions) :=
  match segments with
  | [] => Ok ([], dimensions)
  | segment :: rest =>
      let? lhs := probe_at probes (ra_id (ps_left segment)) in
      let? rhs := probe_at probes (ra_id (ps_right segment)) in
      if negb (bool_decide (pb_dimensions lhs = pb_dimensions rhs))
         || negb (bool_decide (pb_frame_rate lhs = pb_frame_rate rhs))
         || negb (pb_frame_count lhs =? pb_frame_count rhs)%N
      then Err (PairedEyeMismatch (ps_segment_index segment) "dimensions, frame rate, and frame count must match")
      else
        let? dimensions := ensure_eye_dimensions dimensions (pb_dimensions lhs) (ps_segment_index segment) in
        let? (runs, dimensions) := paired_loop dimensions rest in
        Ok (mkRun lhs rhs (pb_frame_count lhs) :: runs, dimensions)
  end.

(** [paired_eye_runs] (normalization/plan.rs:1132-1164). *)
Definition paired_eye_runs (segments : list PairedSourceSegment) (timing_basis : TimingBasis)
    : result MediaPlanError (list PairedRun * Dimensions * TimingBasis * option N) :=
  let? (runs, dimensions) := paired_loop None segments in
  let? dimensions := expect_dimensions dimensions in
  Ok (runs, dimensions, timing_basis, None).

(** [build_runs] (normalization/plan.rs:1041-1130). *)
Definition build_runs (input : NormalizationInput) (source_fps : Rational)
    : result MediaPlanError (list PairedRun * Dimensions * TimingBasis * option N) :=
  match input with
  | RawCapture stereo frame_evidence =>
      if negb (bool_decide (rf_declared_source_fps frame_evidence = source_fps))
      then Err (FrameRateMismatch (ra_id stereo))
      else
        let? probe := probe_at probes (ra_id stereo) in
        let? eye := side_by_side_eye_dimensions (pb_dimensions probe) in
        Ok ([mkRun probe probe (pb_frame_count probe)], eye, RawFrameIndex,
            Some (rf_declared_frame_count frame_evidence))
  | LegacyMjpegSession segments timing_evidence =>
      if negb (bool_decide (lt_declared_source_fps timing_evidence = source_fps))
      then match segments with
           | segment :: _ => Err (FrameRateMismatch (ra_id (sg_artifact segment)))
           | [] => Err (PlanPanic "index out of bounds")
           end
      else
        let? (runs, dimensions) := side_by_side_loop true None segments in
        let? dimensions := expect_dimensions dimensions in
        Ok (runs, dimensions, LegacyV5ResetPtsAccumulated, Some (lt_declared_total_frames timing_evidence))
  | ApplianceSpool segments _ =>
      let? (runs, dimensions) := side_by_side_runs segments in
      Ok (runs, dimensions, CaptureCommitSegmentOrder, None)
  | UnsignedMjpegPublication segments _ =>
      let? (runs, dimensions) := side_by_side_runs segments in
      Ok (runs, dimensions, UnsignedPublicationSideBySideOrder, None)
  | CompleteUnpublished segments _ => paired_eye_runs segments CompleteUnpublishedPairOrder
  | PairedH264Publication segments _ => paired_eye_runs segments SignedPublicationPairOrder
  | UnsignedPairedH264Publication segments _ => paired_eye_runs segments UnsignedPublicationPairOrder
  end.
End runs.

(** ** Segment pairs *)

(** [FrameSlice] (normalization/plan.rs:648-655). *)
Record FrameSlice := mkSlice {
  fr_artifact_id : SourceArtifactId;
  fr_first_frame_in_artifact : N;
  fr_frame_count : N;
  fr_source_pts_first : Z;
  fr_source_time_base : Rational;
  fr_session_first_frame : N;
}.

(** [EyeInputPlan] (normalization/plan.rs:690-694). *)
Record EyeInputPlan := mkEyeInput { ei_eye : Eye; ei_slices : list FrameSlice; ei_crop : option Rect }.

(** [SegmentPairPlan] (normalization/plan.rs:714-726). *)
Record SegmentPairPlan := mkPair {
  sp_segment_index : N;
  sp_first_frame : N;
  sp_frame_count : N;
  sp_start_ticks : N;
  sp_duration_ticks : N;
  sp_source_fps : Rational;
  sp_eye_dimensions : Dimensions;
  sp_left : EyeInputPlan;
  sp_right : EyeInputPlan;
  sp_left_output_relative_path : string;
  sp_right_output_relative_path : string;
}.

(** [MediaPlan] (normalization/plan.rs:787-796). *)
Record MediaPlan := mkPlan {
  mp_source_kind : SourceMediaKind;
  mp_profile_revision : ProfileRevision;
  mp_source_fps : Rational;
  mp_eye_dimensions : Dimensions;
  mp_time_base : Rational;
  mp_timing_basis : TimingBasis;
  mp_total_frames : N;
  mp_segment_pairs : list SegmentPairPlan;
}.

#[global] Instance FrameSlice_eq_dec : EqDecision FrameSlice.
Proof. solve_decision. Defined.
#[global] Instance EyeInputPlan_eq_dec : EqDecision EyeInputPlan.
Proof. solve_decision. Defined.
#[global] Instance SegmentPairPlan_eq_dec : EqDecision SegmentPairPlan.
Proof. solve_decision. Defined.
#[global] Instance MediaPlan_eq_dec : EqDecision MediaPlan.
Proof. solve_decision. Defined.

(** [MediaPlan::segment_pair] (normalization/plan.rs:840-844). *)
Definition segment_pair (plan : MediaPlan) (index : N) : option SegmentPairPlan :=
  match mp_segment_pairs plan !! N.to_nat index with
  | Some found => if (sp_segment_index found =? index)%N then Some found else None
  | None => None
  end.

Definition i64_checked_add (a b : Z) : option Z :=
  if ((-9223372036854775808 <=? a + b) && (a + b <=? 9223372036854775807))%Z then Some (a + b)%Z else None.

(** [make_slice] (normalization/plan.rs:1307-1328). *)
Definition make_slice (probe : ProbedArtifact) (first_frame_in_artifact frame_count session_first_frame : N)
    (source_fps : Rational) : result MediaPlanError FrameSlice :=
  let? pts_offset := rmap_err MpRational (ticks_for_frames source_fps first_frame_in_artifact (pb_time_base probe)) in
  if (i64_max <? pts_offset)%N then Err ArithmeticOverflow else
  let? source_pts_first := ok_or (i64_checked_add (pb_first_pts probe) (Z.of_N pts_offset)) ArithmeticOverflow in
  Ok (mkSlice (pb_artifact_id probe) first_frame_in_artifact frame_count source_pts_first (pb_time_base probe)
        session_first_frame).

(** [{:05}] of an index. *)
Definition padded5 (n : N) : string :=
  let text := dec n in String.concat "" (replicate (5 - String.length text) "0") ++ text.

Section partition.
Context (runs : list PairedRun) (source_kind : SourceMediaKind) (eye_dimensions : Dimensions).
Context (source_fps time_base : Rational) (segment_frame_limit : N).

(** [partition_runs, slices of a pair] (normalization/plan.rs:1247-1276): every turn ends the
    pair or a run. *)
Fixpoint slices_loop (fuel : nat) (pair_end cursor : N) (run_index : nat) (frame_in_run : N)
    : result MediaPlanError (list FrameSlice * list FrameSlice * nat * N) :=
  match fuel with
  | O => Err (PlanPanic "out of fuel")
  | S fuel' =>
      if negb (cursor <? pair_end)%N then Ok ([], [], run_index, frame_in_run) else
      let? run := ok_or (runs !! run_index) ArithmeticOverflow in
      let available := (ru_frame_count run - frame_in_run)%N in
      let take := N.min available (pair_end - cursor) in
      let? lhs := make_slice (ru_left run) frame_in_run take cursor source_fps in
      let? rhs := make_slice (ru_right run) frame_in_run take cursor source_fps in
      let frame_in_run := (frame_in_run + take)%N in
      let cursor := (cursor + take)%N in
      let? (lefts, rights, run_index', frame_in_run') :=
        (if (frame_in_run =? ru_frame_count run)%N
         then slices_loop fuel' pair_end cursor (S run_index) 0
         else slices_loop fuel' pair_end cursor run_index frame_in_run) in
      Ok (lhs :: lefts, rhs :: rights, run_index', frame_in_run')
  end.

Definition side_by_side : bool :=
  match source_kind with
  | KindRawCaptureV2 | KindLegacyMjpegSessionV5 | KindApplianceSpoolV6 | KindUnsignedMjpegPublicationV1 => true
  | _ => false
  end.

Section pairs.
Context (crop_left crop_right : Rect) (total_frames : N).

(** [partition_runs, pairs] (normalization/plan.rs:1242-1303). *)
Fixpoint pairs_loop (fuel : nat) (index session_cursor : N) (run_index : nat) (frame_in_run : N)
    : result MediaPlanError (list SegmentPairPlan) :=
  match fuel with
  | O => Err (PlanPanic "out of fuel")
  | S fuel' =>
      if negb (session_cursor <? total_frames)%N then Ok [] else
      let pair_frame_count := N.min segment_frame_limit (total_frames - session_cursor) in
      let? pair_end := ok_or (u64_checked_add session_cursor pair_frame_count) ArithmeticOverflow in
      let? (left_slices, right_slices, run_index, frame_in_run) :=
        slices_loop (length runs + 2) pair_end session_cursor run_index frame_in_run in
      if (u32_max <? index)%N then Err ArithmeticOverflow else
      let? start_ticks := rmap_err MpRational (ticks_for_frames source_fps session_cursor time_base) in
      let? duration_ticks := rmap_err MpRational (ticks_for_frames source_fps pair_frame_count time_base) in
      let segment :=
        mkPair index session_cursor pair_frame_count start_ticks duration_ticks source_fps eye_dimensions
          (mkEyeInput EyeLeft left_slices (if side_by_side then Some crop_left else None))
          (mkEyeInput EyeRight right_slices (if side_by_side then Some crop_right else None))
          ("video/pairs/" ++ padded5 index ++ "/left.mp4") ("video/pairs/" ++ padded5 index ++ "/right.mp4") in
      let? rest := pairs_loop fuel' (index + 1) pair_end run_index frame_in_run in
      Ok (segment :: rest)
  end.
End pairs.

(** [partition_runs, total_frames] (normalization/plan.rs:1232-1236). *)
Definition total_of_runs : result MediaPlanError N :=
  fold_left (fun total run => let? total := total in ok_or (u64_checked_add total (ru_frame_count run)) ArithmeticOverflow)
    runs (Ok 0%N).

(** [partition_runs] (normalization/plan.rs:1207-1305): every pair but the last is full, so
    the quotient and one more turn, and one to stop, are enough. *)
Definition partition_runs : result MediaPlanError (list SegmentPairPlan) :=
  if (segment_frame_limit =? 0)%N then Err ArithmeticOverflow else
  let? crop_left := Rect_new 0 0 (dm_width eye_dimensions) (dm_height eye_dimensions) in
  let? crop_right := Rect_new (dm_width eye_dimensions) 0 (dm_width eye_dimensions) (dm_height eye_dimensions) in
  let? total_frames := total_of_runs in
  pairs_loop crop_left crop_right total_frames (N.to_nat (total_frames / segment_frame_limit) + 2) 0 0 0 0.
End partition.

(** [MediaPlanner::plan] (normalization/plan.rs:909-969). *)
Definition plan_media (input : NormalizationInput) (probe_report : ProbeReport) (profile : NormalizationProfile)
    : result MediaPlanError MediaPlan :=
  let variant := pm_quality_variant (np_revision_material profile) in
  if negb (accepts_source_codec variant (source_codec input))
  then Err (ProfileSourceMismatch variant (source_codec input)) else
  let? _ := validate_input_sequences input in
  let? probes := reconcile_probes input probe_report in
  let? _ := validate_common_probe_contract input probes in
  let? first := ok_or (snd <$> head probes) InvalidSegmentSequence in
  let source_fps := pb_frame_rate first in
  let? (runs, eye_dimensions, timing_basis, declared_total_frames) := build_runs probes input source_fps in
  let? probed_total_frames := total_of_runs runs in
  let? _ := match declared_total_frames with
            | Some declared => if negb (declared =? probed_total_frames)%N
                               then Err (FrameEvidenceMismatch declared probed_total_frames) else Ok tt
            | None => Ok tt
            end in
  let? segment_frame_limit := rmap_err MpProfile (segment_frames profile source_fps) in
  let time_base := pm_time_base (np_revision_material profile) in
  let? segment_pairs := partition_runs runs (input_kind input) eye_dimensions source_fps time_base segment_frame_limit in
  Ok (mkPlan (input_kind input) (np_profile_revision profile) source_fps eye_dimensions time_base timing_basis
        probed_total_frames segment_pairs).
