(* ===== verification/MediaPlanProofs.v ===== *)
(** * MediaPlanProofs: a media plan tiles its session

The pairs of a plan hold every frame of every run once and in order, the eyes
in lockstep, with exact times; the planner finishes with an answer and never
panics, and it succeeds whenever the frame times are exact. *)

From Stdlib Require Import NArith ZArith Lia Ascii String.
From stdpp Require Import base numbers list strings.
From S2P Require Import Prelude Domain Files Json Ingest Rational Profile MediaPlan.

Local Open Scope N_scope.

(** ** Frames *)

(** A frame of an artifact. *)
Definition frame : Type := SourceArtifactId * N.

Definition frames_of (id : SourceArtifactId) (first count : N) : list frame :=
  map (fun k => (id, first + N.of_nat k)) (seq 0 (N.to_nat count)).

Definition slice_frames (s : FrameSlice) : list frame :=
  frames_of (fr_artifact_id s) (fr_first_frame_in_artifact s) (fr_frame_count s).

Definition run_frames (eye : PairedRun -> ProbedArtifact) (run : PairedRun) : list frame :=
  frames_of (pb_artifact_id (eye run)) 0 (ru_frame_count run).

Definition all_frames (eye : PairedRun -> ProbedArtifact) (runs : list PairedRun) : list frame :=
  flat_map (run_frames eye) runs.

(** What is left of the runs at a position. *)
Definition rest_frames (eye : PairedRun -> ProbedArtifact) (runs : list PairedRun) (index : nat) (first : N) : list frame :=
  match drop index runs with
  | [] => []
  | run :: rest => frames_of (pb_artifact_id (eye run)) first (ru_frame_count run - first) ++ all_frames eye rest
  end.

Lemma frames_of_length id first count : length (frames_of id first count) = N.to_nat count.
Proof. unfold frames_of. by rewrite length_map, length_seq. Qed.

Lemma frames_of_app id first a b : frames_of id first (a + b) = frames_of id first a ++ frames_of id (first + a) b.
Proof.
  unfold frames_of. rewrite N2Nat.inj_add, List.seq_app, map_app. f_equal. simpl.
  replace (seq (N.to_nat a) (N.to_nat b)) with (map (fun k => N.to_nat a + k)%nat (seq 0 (N.to_nat b)))
    by (etransitivity; [exact (fmap_add_seq (N.to_nat a) 0 (N.to_nat b))|by rewrite Nat.add_0_r]).
  rewrite map_map. apply map_ext. intros k. f_equal. lia.
Qed.

Lemma rest_frames_start eye runs : rest_frames eye runs 0 0 = all_frames eye runs.
Proof. unfold rest_frames. rewrite drop_0. destruct runs as [|r runs]; [done|]. by rewrite N.sub_0_r. Qed.

Lemma rest_frames_next eye runs i : rest_frames eye runs (S i) 0 = all_frames eye (drop (S i) runs).
Proof. unfold rest_frames. destruct (drop (S i) runs); [done|]. by rewrite N.sub_0_r. Qed.

Lemma rest_frames_at eye runs i f run :
  runs !! i = Some run ->
  rest_frames eye runs i f
  = frames_of (pb_artifact_id (eye run)) f (ru_frame_count run - f) ++ all_frames eye (drop (S i) runs).
Proof. intros Hr. unfold rest_frames. by rewrite (drop_S _ _ _ Hr). Qed.

(** ** Slices *)

(** The slice is one of an artifact that a run shows to that eye, with its exact timestamp. *)
Definition slice_exact (eye : PairedRun -> ProbedArtifact) (runs : list PairedRun) (fps : Rational) (s : FrameSlice) : Prop :=
  exists run ticks, run ∈ runs /\ fr_artifact_id s = pb_artifact_id (eye run) /\
    fr_source_time_base s = pb_time_base (eye run) /\
    exact_time fps (pb_time_base (eye run)) (fr_first_frame_in_artifact s) ticks /\
    fr_source_pts_first s = (pb_first_pts (eye run) + Z.of_N ticks)%Z.

Definition same_place (l r : FrameSlice) : Prop :=
  fr_first_frame_in_artifact l = fr_first_frame_in_artifact r /\ fr_frame_count l = fr_frame_count r /\
  fr_session_first_frame l = fr_session_first_frame r.

(** The slices follow one another on the session's timeline, from [cursor] to [stop]. *)
Fixpoint adjacent (cursor stop : N) (slices : list FrameSlice) : Prop :=
  match slices with
  | [] => cursor = stop
  | s :: rest => fr_session_first_frame s = cursor /\ adjacent (cursor + fr_frame_count s) stop rest
  end.

Lemma make_slice_ok probe f count cursor fps s :
  make_slice probe f count cursor fps = Ok s ->
  fr_artifact_id s = pb_artifact_id probe /\ fr_first_frame_in_artifact s = f /\ fr_frame_count s = count /\
  fr_session_first_frame s = cursor /\ fr_source_time_base s = pb_time_base probe /\
  exists ticks, exact_time fps (pb_time_base probe) f ticks /\ fr_source_pts_first s = (pb_first_pts probe + Z.of_N ticks)%Z.
Proof.
  unfold make_slice. rewrite rbind_ok. intros (t & Ht%rmap_err_ok & Hr). revert Hr.
  destruct (i64_max <? t); [done|]. rewrite rbind_ok. intros (pts & Hp%ok_or_ok & [= <-]). cbn.
  apply ticks_for_frames_exact in Ht as (Ht & _). unfold i64_checked_add in Hp. case_match; [|done].
  injection Hp as <-. split_and!; [done..|]. by exists t.
Qed.

Section partition.
Context (runs : list PairedRun) (kind : SourceMediaKind) (dimensions : Dimensions) (fps tb : Rational) (limit : N).

Local Abbreviation slices := (slices_loop runs fps).

Record slices_ok (pair_end cursor : N) (i : nat) (f : N) (ls rs : list FrameSlice) (i' : nat) (f' : N) : Prop := {
  so_left : flat_map slice_frames ls ++ rest_frames ru_left runs i' f' = rest_frames ru_left runs i f;
  so_right : flat_map slice_frames rs ++ rest_frames ru_right runs i' f' = rest_frames ru_right runs i f;
  so_lockstep : Forall2 same_place ls rs;
  so_adjacent : cursor <= pair_end -> adjacent cursor pair_end ls;
  so_exact : Forall (slice_exact ru_left runs fps) ls /\ Forall (slice_exact ru_right runs fps) rs;
}.

Lemma slice_step eye i f run take rest tail s :
  runs !! i = Some run -> take <= ru_frame_count run - f ->
  fr_artifact_id s = pb_artifact_id (eye run) -> fr_first_frame_in_artifact s = f -> fr_frame_count s = take ->
  rest ++ tail = (if f + take =? ru_frame_count run then rest_frames eye runs (S i) 0 else rest_frames eye runs i (f + take)) ->
  (slice_frames s ++ rest) ++ tail = rest_frames eye runs i f.
Proof.
  intros Hr Ht H1 H2 H3 IH. rewrite <- app_assoc, IH, (rest_frames_at _ _ _ f _ Hr). unfold slice_frames. rewrite H1, H2, H3.
  replace (ru_frame_count run - f) with (take + (ru_frame_count run - f - take)) by lia.
  rewrite frames_of_app, <- app_assoc. f_equal. destruct (N.eqb_spec (f + take) (ru_frame_count run)) as [E|].
  - rewrite rest_frames_next. replace (ru_frame_count run - f - take) with 0 by lia. done.
  - rewrite (rest_frames_at _ _ _ _ _ Hr). do 2 f_equal. lia.
Qed.

Lemma slices_loop_ok fuel : forall pair_end cursor i f ls rs i' f',
  slices fuel pair_end cursor i f = Ok (ls, rs, i', f') -> slices_ok pair_end cursor i f ls rs i' f'.
Proof.
  induction fuel as [|fuel IH]; intros pair_end cursor i f ls rs i' f'; cbn [slices_loop]; [done|].
  destruct (N.ltb_spec cursor pair_end) as [Hc|Hc]; cbn [negb].
  2: { intros [= <- <- <- <-]. constructor; try done; by simpl; lia. }
  rewrite rbind_ok. intros (run & Hrun%ok_or_ok & Hr). revert Hr. rewrite rbind_ok. intros (l & Hl & Hr). revert Hr.
  rewrite rbind_ok. intros (r & Hrr & Hr). revert Hr. rewrite rbind_ok.
  intros ([[[ls0 rs0] i0] f0] & Hrec & [= <- <- <- <-]).
  set (take := N.min (ru_frame_count run - f) (pair_end - cursor)) in *.
  apply make_slice_ok in Hl as (L1 & L2 & L3 & L4 & L5 & tl & L6 & L7), Hrr as (R1 & R2 & R3 & R4 & R5 & tr & R6 & R7).
  assert (Hs : slices_ok pair_end (cursor + take) (if f + take =? ru_frame_count run then S i else i)
                 (if f + take =? ru_frame_count run then 0 else f + take) ls0 rs0 i0 f0).
  { destruct (f + take =? ru_frame_count run); by apply IH. }
  destruct Hs as [S1 S2 S3 S4 [S5 S6]]. assert (Hin := list_elem_of_lookup_2 _ _ _ Hrun).
  assert (Htake : take <= ru_frame_count run - f /\ cursor + take <= pair_end) by (unfold take; lia).
  constructor; simpl.
  - eapply slice_step; [done|apply Htake|done..|]. rewrite S1. by destruct (f + take =? _).
  - eapply slice_step; [done|apply Htake|done..|]. rewrite S2. by destruct (f + take =? _).
  - constructor; [|done]. unfold same_place. by rewrite L2, L3, L4, R2, R3, R4.
  - intros _. split; [done|]. rewrite L3. apply S4, Htake.
  - split; (constructor; [|done]); eexists run, _; (split_and!; [done|done|done| |done]); by rewrite ?L2, ?R2.
Qed.

(** ** Pairs *)

(** What a pair is, given its place. *)
Record pair_ok (total index cursor : N) (p : SegmentPairPlan) : Prop := {
  po_place : sp_segment_index p = index /\ sp_first_frame p = cursor /\ sp_frame_count p = N.min limit (total - cursor);
  po_size : cursor < total;
  po_times : exact_time fps tb cursor (sp_start_ticks p) /\ exact_time fps tb (sp_frame_count p) (sp_duration_ticks p) /\
             0 < rt_numerator fps * rt_numerator tb;
  po_lockstep : Forall2 same_place (ei_slices (sp_left p)) (ei_slices (sp_right p));
  po_adjacent : adjacent cursor (cursor + sp_frame_count p) (ei_slices (sp_left p));
  po_exact : Forall (slice_exact ru_left runs fps) (ei_slices (sp_left p)) /\
             Forall (slice_exact ru_right runs fps) (ei_slices (sp_right p));
}.

Fixpoint pairs_ok (total index cursor : N) (pairs : list SegmentPairPlan) : Prop :=
  match pairs with
  | [] => total <= cursor
  | p :: rest => pair_ok total index cursor p /\ pairs_ok total (index + 1) (cursor + sp_frame_count p) rest
  end.

Definition pair_frames (eye : SegmentPairPlan -> EyeInputPlan) (p : SegmentPairPlan) : list frame :=
  flat_map slice_frames (ei_slices (eye p)).

Lemma pairs_loop_ok cl cr total fuel : forall index cursor i f pairs,
  pairs_loop runs kind dimensions fps tb limit cl cr total fuel index cursor i f = Ok pairs ->
  pairs_ok total index cursor pairs /\
  (exists i' f', flat_map (pair_frames sp_left) pairs ++ rest_frames ru_left runs i' f' = rest_frames ru_left runs i f /\
   flat_map (pair_frames sp_right) pairs ++ rest_frames ru_right runs i' f' = rest_frames ru_right runs i f).
Proof.
  induction fuel as [|fuel IH]; intros index cursor i f pairs; cbn [pairs_loop]; [done|].
  destruct (N.ltb_spec cursor total) as [Hc|Hc]; cbn [negb].
  2: { intros [= <-]. split; [done|]. by exists i, f. }
  rewrite rbind_ok. intros (pair_end & [_ ->]%ok_or_ok%u64_checked_add_Some & Hr). revert Hr.
  rewrite rbind_ok. intros ([[[ls rs] i1] f1] & Hs%slices_loop_ok & Hr). revert Hr.
  destruct (u32_max <? index); [done|]. rewrite rbind_ok. intros (st & Hst%rmap_err_ok & Hr). revert Hr.
  rewrite rbind_ok. intros (du & Hdu%rmap_err_ok & Hr). revert Hr. rewrite rbind_ok.
  intros (rest & (Hp & i' & f' & Hl & Hr)%IH & [= <-]).
  apply ticks_for_frames_exact in Hst as (Hst & _ & Hpos), Hdu as (Hdu & _).
  destruct Hs as [S1 S2 S3 S4 S5]. simpl. split.
  - split; [|done]. constructor; cbn; try done. apply S4. lia.
  - exists i', f'. unfold pair_frames at 1 3. cbn. split.
    + by rewrite <- app_assoc, Hl.
    + by rewrite <- app_assoc, Hr.
Qed.

Lemma pairs_ok_lookup total : 0 < limit -> forall pairs (index : N) cursor,
  pairs_ok total index cursor pairs -> cursor <= total -> forall k p, pairs !! k = Some p ->
  pair_ok total (index + N.of_nat k) (cursor + N.of_nat k * limit) p.
Proof.
  intros Hl. induction pairs as [|q pairs IH]; intros index cursor Hp Hc k p; [done|].
  destruct Hp as [Hq Hp]. destruct k as [|k]; simpl.
  - intros [= <-]. by rewrite N.add_0_r, N.add_0_r.
  - intros Hk. destruct (po_place _ _ _ _ Hq) as (_ & _ & Hn). assert (Hs := po_size _ _ _ _ Hq).
    assert (IHk := IH _ _ Hp ltac:(lia) k p Hk). assert (Hz := po_size _ _ _ _ IHk).
    assert (sp_frame_count q = limit) as Eq by lia. rewrite Eq in IHk.
    replace (index + N.of_nat (S k)) with (index + 1 + N.of_nat k) by lia.
    by replace (cursor + N.of_nat (S k) * limit) with (cursor + limit + N.of_nat k * limit) by lia.
Qed.

Lemma pairs_ok_count total : 0 < limit -> forall pairs (index : N) cursor,
  pairs_ok total index cursor pairs -> cursor <= total ->
  foldr (fun p n => sp_frame_count p + n) 0 pairs = total - cursor /\
  (pairs <> [] -> N.of_nat (length pairs) * limit < total - cursor + limit) /\
  total - cursor <= N.of_nat (length pairs) * limit.
Proof.
  intros Hl. induction pairs as [|q pairs IH]; intros index cursor Hp Hc; simpl in *; [split_and!; [lia|done|lia]|].
  destruct Hp as [Hq Hp]. destruct (po_place _ _ _ _ Hq) as (_ & _ & Hn). assert (Hs := po_size _ _ _ _ Hq).
  destruct (IH _ _ Hp ltac:(lia)) as (H1 & H2 & H3). split_and!; [lia| |nia].
  intros _. destruct pairs as [|q' pairs]; [simpl; nia|].
  assert (Hq' : cursor + sp_frame_count q < total) by (destruct Hp as [Hp _]; apply (po_size _ _ _ _ Hp)).
  assert (sp_frame_count q = limit) by lia. specialize (H2 ltac:(done)). nia.
Qed.

Lemma adjacent_length slices : forall cursor stop,
  adjacent cursor stop slices -> N.of_nat (length (flat_map slice_frames slices)) = stop - cursor /\ cursor <= stop.
Proof.
  induction slices as [|s slices IH]; intros cursor stop; simpl; [intros ->; lia|]. intros [_ Ha].
  rewrite length_app. unfold slice_frames at 1. rewrite frames_of_length. apply IH in Ha as [Ha Hle]. lia.
Qed.

Lemma lockstep_length ls rs :
  Forall2 same_place ls rs -> length (flat_map slice_frames ls) = length (flat_map slice_frames rs).
Proof.
  induction 1 as [|l r ls rs (_ & Hc & _) _ IH]; [done|]. simpl. rewrite !length_app. unfold slice_frames at 1 3.
  by rewrite !frames_of_length, Hc, IH.
Qed.

Lemma pairs_length total pairs : forall (index : N) cursor,
  pairs_ok total index cursor pairs ->
  N.of_nat (length (flat_map (pair_frames sp_left) pairs)) = foldr (fun p n => sp_frame_count p + n) 0 pairs /\
  length (flat_map (pair_frames sp_left) pairs) = length (flat_map (pair_frames sp_right) pairs).
Proof.
  induction pairs as [|q pairs IH]; intros index cursor; simpl; [done|]. intros [Hq Hp]. apply IH in Hp as [H1 H2].
  destruct (adjacent_length _ _ _ (po_adjacent _ _ _ _ Hq)) as [Ha _]. rewrite !length_app. unfold pair_frames at 1 3 5.
  rewrite <- (lockstep_length _ _ (po_lockstep _ _ _ _ Hq)). split; [lia|by rewrite H2].
Qed.

Lemma all_frames_length eye : N.of_nat (length (all_frames eye runs)) = foldr (fun r n => ru_frame_count r + n) 0 runs.
Proof.
  unfold all_frames. induction runs as [|r rs IH]; [done|]. simpl. rewrite length_app. unfold run_frames at 1.
  rewrite frames_of_length. lia.
Qed.
End partition.

Lemma total_of_runs_ok runs total :
  total_of_runs runs = Ok total -> total = foldr (fun r n => ru_frame_count r + n) 0 runs /\ total <= u64_max.
Proof.
  unfold total_of_runs. assert (Hgen : forall rs acc t,
    fold_left (fun total run => let? total := total in ok_or (u64_checked_add total (ru_frame_count run)) ArithmeticOverflow)
      rs acc = Ok t -> exists a, acc = Ok a /\ t = a + foldr (fun r n => ru_frame_count r + n) 0 rs /\ (a <= u64_max -> t <= u64_max)).
  { induction rs as [|r rs IH]; intros acc t; simpl; [intros ->; exists t; split_and!; [done|lia|done]|].
    intros (a & Ha & -> & Hle)%IH. apply rbind_ok in Ha as (b & -> & [Hb ->]%ok_or_ok%u64_checked_add_Some).
    exists b. split_and!; [done|lia|lia]. }
  intros (a & [= <-] & -> & Hle)%Hgen. lia.
Qed.

(** ** The plan *)

(** The pairs cover the runs. *)
Record tiles (runs : list PairedRun) (fps tb : Rational) (limit total : N) (pairs : list SegmentPairPlan) : Prop := {
  ti_left : flat_map (pair_frames sp_left) pairs = all_frames ru_left runs;
  ti_right : flat_map (pair_frames sp_right) pairs = all_frames ru_right runs;
  ti_count : total = foldr (fun r n => ru_frame_count r + n) 0 runs /\
             N.of_nat (length pairs) = (total + limit - 1) / limit;
  ti_pairs : forall k p, pairs !! k = Some p -> pair_ok runs fps tb limit total (N.of_nat k) (N.of_nat k * limit) p;
  ti_times : forall k p q, pairs !! k = Some p -> pairs !! S k = Some q ->
             sp_first_frame q = sp_first_frame p + sp_frame_count p /\
             sp_start_ticks q = sp_start_ticks p + sp_duration_ticks p;
}.

Lemma app_same_length {A : Type} (a b c : list A) : a ++ b = c -> length a = length c -> a = c.
Proof.
  intros <-. rewrite length_app. intros Hl. assert (b = []) as -> by (destruct b; [done|simpl in Hl; lia]).
  by rewrite app_nil_r.
Qed.

Lemma partition_tiles runs kind dimensions fps tb limit pairs total :
  partition_runs runs kind dimensions fps tb limit = Ok pairs -> total_of_runs runs = Ok total ->
  tiles runs fps tb limit total pairs.
Proof.
  unfold partition_runs. destruct (N.eqb_spec limit 0) as [|Hl]; [done|]. rewrite rbind_ok. intros (cl & _ & Hr). revert Hr.
  rewrite rbind_ok. intros (cr & _ & Hr). revert Hr. rewrite rbind_ok. intros (t & Ht & Hr) Ht'.
  rewrite Ht' in Ht. injection Ht as <-. apply total_of_runs_ok in Ht' as [Htot Hmax].
  apply pairs_loop_ok in Hr as (Hp & i' & f' & Hleft & Hright). rewrite !rest_frames_start in Hleft, Hright.
  destruct (pairs_ok_count runs fps tb limit total ltac:(lia) _ _ _ Hp ltac:(lia)) as (Hc & Hc1 & Hc2).
  destruct (pairs_length runs fps tb limit total pairs _ _ Hp) as [Hn1 Hn2].
  assert (Hlk : forall k p, pairs !! k = Some p -> pair_ok runs fps tb limit total (N.of_nat k) (N.of_nat k * limit) p).
  { intros k p Hk. assert (Hk' := pairs_ok_lookup runs fps tb limit total ltac:(lia) _ _ _ Hp ltac:(lia) k p Hk).
    by rewrite !N.add_0_l in Hk'. }
  constructor; [| | |exact Hlk|].
  - eapply app_same_length; [exact Hleft|]. apply Nat2N.inj. rewrite all_frames_length. lia.
  - eapply app_same_length; [exact Hright|]. apply Nat2N.inj. rewrite all_frames_length. lia.
  - split; [done|]. destruct pairs as [|q pairs].
    + simpl in *. assert (total = 0) by lia. subst. symmetry. apply N.div_small. lia.
    + specialize (Hc1 ltac:(done)). set (n := N.of_nat (length (q :: pairs))) in *.
      apply (N.div_unique _ _ n (total + limit - 1 - n * limit)); nia.
  - intros k p q Hk Hk'. apply Hlk in Hk, Hk'. destruct (po_place _ _ _ _ _ _ _ _ Hk) as (_ & E1 & E2).
    destruct (po_place _ _ _ _ _ _ _ _ Hk') as (_ & E3 & _). assert (Hz := po_size _ _ _ _ _ _ _ _ Hk').
    assert (Hfirst : sp_first_frame q = sp_first_frame p + sp_frame_count p) by lia. split; [done|].
    destruct (po_times _ _ _ _ _ _ _ _ Hk) as (T1 & T2 & Hpos), (po_times _ _ _ _ _ _ _ _ Hk') as [T3 _].
    rewrite <- E3, Hfirst, E1 in T3. assert (T4 := exact_time_add _ _ _ _ _ _ T1 T2).
    by apply (exact_time_unique fps tb _ _ _ Hpos T3 T4).
Qed.

(** ** Sources and probes *)

(** The artifacts an eye is read from, segment by segment. *)
Definition left_ids (input : NormalizationInput) : list SourceArtifactId :=
  match input with
  | RawCapture stereo _ => [ra_id stereo]
  | LegacyMjpegSession segments _ | ApplianceSpool segments _ | UnsignedMjpegPublication segments _ =>
      map (fun s => ra_id (sg_artifact s)) segments
  | CompleteUnpublished segments _ | PairedH264Publication segments _ | UnsignedPairedH264Publication segments _ =>
      map (fun s => ra_id (ps_left s)) segments
  end.

Definition right_ids (input : NormalizationInput) : list SourceArtifactId :=
  match input with
  | CompleteUnpublished segments _ | PairedH264Publication segments _ | UnsignedPairedH264Publication segments _ =>
      map (fun s => ra_id (ps_right s)) segments
  | _ => left_ids input
  end.

Lemma obj_insert_keys {A : Type} key (v : A) entries k :
  k ∈ map fst (obj_insert key v entries) <-> k = key \/ k ∈ map fst entries.
Proof.
  induction entries as [|[k' v'] entries IH]; simpl; [rewrite list_elem_of_singleton; by rewrite elem_of_nil; tauto|].
  destruct (String.compare key k') eqn:E; simpl; rewrite !elem_of_cons; [|tauto|rewrite IH; tauto].
  apply String.compare_eq_iff in E as ->. tauto.
Qed.

Lemma obj_insert_length {A : Type} key (v : A) entries :
  key ∉ map fst entries -> length (obj_insert key v entries) = S (length entries).
Proof.
  induction entries as [|[k' v'] entries IH]; simpl; [done|]. rewrite elem_of_cons. intros Hn.
  destruct (String.compare key k') eqn:E; simpl; [|done|rewrite IH; [done|tauto]].
  apply String.compare_eq_iff in E as ->. tauto.
Qed.

Lemma obj_insert_values {A : Type} key (v : A) entries e : e ∈ obj_insert key v entries -> e = (key, v) \/ e ∈ entries.
Proof.
  induction entries as [|[k' v'] entries IH]; simpl; [rewrite list_elem_of_singleton; tauto|].
  destruct (String.compare key k') eqn:E; simpl; rewrite !elem_of_cons; intuition auto.
Qed.

Lemma obj_get_in {A : Type} key (v : A) entries : obj_get key entries = Some v -> (key, v) ∈ entries.
Proof.
  induction entries as [|[k w] entries IH]; simpl; [done|]. destruct (String.eqb_spec k key) as [->|].
  - intros [= ->]. by left.
  - intros ?%IH. by right.
Qed.

Lemma sorted_set_keys ids k : k ∈ sorted_set ids <-> k ∈ ids.
Proof.
  unfold sorted_set. assert (Hgen : forall s, k ∈ map fst (fold_left (fun s id => obj_insert id tt s) ids s) <-> k ∈ ids \/ k ∈ map fst s).
  { induction ids as [|id ids IH]; intros s; simpl; [rewrite elem_of_nil; tauto|].
    rewrite IH, obj_insert_keys, elem_of_cons. tauto. }
  rewrite Hgen. simpl. rewrite elem_of_nil. tauto.
Qed.

Lemma sorted_set_length ids : NoDup ids -> length (sorted_set ids) = length ids.
Proof.
  unfold sorted_set. rewrite length_map. assert (Hgen : forall s, NoDup ids -> (forall k, k ∈ ids -> k ∉ map fst s) ->
    length (fold_left (fun s id => obj_insert id tt s) ids s) = (length ids + length s)%nat).
  { induction ids as [|id ids IH]; intros s Hn Hd; simpl; [done|]. apply NoDup_cons in Hn as [Hid Hn].
    rewrite IH; [rewrite obj_insert_length; [lia|apply Hd; by left]|done|].
    intros k Hk. rewrite obj_insert_keys. intros [->|Hs]; [done|]. apply (Hd k); [by right|done]. }
  intros Hn. rewrite (Hgen [] Hn); [simpl; lia|]. intros k _ []%elem_of_nil.
Qed.

Lemma no_duplicate ids : forall seen, first_duplicate seen ids = None -> NoDup ids /\ forall k, k ∈ ids -> k ∉ seen.
Proof.
  induction ids as [|id ids IH]; intros seen; simpl; [split; [constructor|intros k; by rewrite elem_of_nil]|].
  case_bool_decide as Hs; [done|]. intros [Hn Hk]%IH. split.
  - apply NoDup_cons. split; [|done]. intros Hi. apply (Hk id Hi). by left.
  - intros k [->|Hi]%elem_of_cons; [done|]. intros Hx. apply (Hk k Hi). by right.
Qed.

(** The map of probes holds exactly the report's, one for each artifact. *)
Record reconciled (input : NormalizationInput) (report : ProbeReport) (probes : list (string * ProbedArtifact)) : Prop := {
  rc_complete : forall id, id ∈ map ra_id (input_artifacts input) -> exists p, obj_get id probes = Some p;
  rc_sound : forall id p, (id, p) ∈ probes -> p ∈ report /\ pb_artifact_id p = id;
  rc_known : forall id p, (id, p) ∈ probes -> id ∈ map ra_id (input_artifacts input);
}.

Lemma reconcile_ok input report probes : reconcile_probes input report = Ok probes -> reconciled input report probes.
Proof.
  unfold reconcile_probes. destruct (negb _); [by destruct (first_duplicate _ _)|].
  set (actual := fold_left _ report []). destruct (List.find _ (sorted_set _)) eqn:Ef; [done|].
  destruct (List.find _ (map fst actual)) eqn:Eg; [done|]. intros [= <-].
  assert (Hin : forall id p, (id, p) ∈ actual -> p ∈ report /\ pb_artifact_id p = id).
  { unfold actual. clear. assert (Hgen : forall l s, (forall id p, (id, p) ∈ s -> p ∈ report /\ pb_artifact_id p = id) ->
      (forall p, p ∈ l -> p ∈ report) ->
      forall id p, (id, p) ∈ fold_left (fun m a => obj_insert (pb_artifact_id a) a m) l s -> p ∈ report /\ pb_artifact_id p = id).
    { induction l as [|a l IH]; intros s Hs Hl id p; simpl; [apply Hs|]. apply IH.
      - intros id' p' [[= -> ->]|?]%obj_insert_values; [split; [apply Hl; by left|done]|by apply Hs].
      - intros q Hq. apply Hl. by right. }
    apply Hgen; [by intros id p ?%elem_of_nil|done]. }
  constructor; [| done |].
  - intros id Hid%sorted_set_keys. apply list_elem_of_In in Hid. apply (find_none _ _ Ef) in Hid.
    apply negb_false_iff, bool_decide_eq_true in Hid as [p Hp]. by exists p.
  - intros id p Hip. assert (Hk : In id (map fst actual)) by (apply in_map_iff; exists (id, p); split; [done|by apply list_elem_of_In]).
    apply (find_none _ _ Eg) in Hk. apply negb_false_iff, bool_decide_eq_true in Hk. by apply sorted_set_keys.
Qed.

(** ** Runs *)

Definition probed (report : ProbeReport) (id : SourceArtifactId) (p : ProbedArtifact) : Prop :=
  p ∈ report /\ pb_artifact_id p = id.

(** The runs show each eye its artifacts in order, and both eyes have as many frames. *)
Record runs_ok (input : NormalizationInput) (report : ProbeReport) (runs : list PairedRun) : Prop := {
  rn_left : Forall2 (probed report) (left_ids input) (map ru_left runs);
  rn_right : Forall2 (probed report) (right_ids input) (map ru_right runs);
  rn_count : Forall (fun r => ru_frame_count r = pb_frame_count (ru_left r) /\
                              ru_frame_count r = pb_frame_count (ru_right r)) runs;
}.

Section build.
Context (report : ProbeReport) (probes : list (string * ProbedArtifact)).
Context (Hsound : forall id p, (id, p) ∈ probes -> p ∈ report /\ pb_artifact_id p = id).

Lemma probe_at_ok id p : probe_at probes id = Ok p -> probed report id p.
Proof. intros Hp%ok_or_ok%obj_get_in. by apply Hsound. Qed.

Lemma side_by_side_loop_ok reset segments : forall dims runs dims',
  side_by_side_loop probes reset dims segments = Ok (runs, dims') ->
  Forall2 (probed report) (map (fun s => ra_id (sg_artifact s)) segments) (map ru_left runs) /\
  Forall (fun r => ru_left r = ru_right r /\ ru_frame_count r = pb_frame_count (ru_left r)) runs /\
  (is_Some dims \/ segments <> [] -> is_Some dims').
Proof.
  induction segments as [|s segments IH]; intros dims runs dims'; cbn [side_by_side_loop].
  { intros [= <- <-]. split_and!; [constructor|constructor|by intros [?|?]]. }
  rewrite rbind_ok. intros (p & Hp%probe_at_ok & Hr). revert Hr. destruct (reset && _); [done|].
  rewrite rbind_ok. intros (eye & _ & Hr). revert Hr. rewrite rbind_ok. intros (d & Hd & Hr). revert Hr. rewrite rbind_ok.
  intros ([rs d'] & (H1 & H2 & H3)%IH & [= <- <-]). simpl. split_and!; [by constructor|by constructor|].
  intros _. apply H3. left. unfold ensure_eye_dimensions in Hd. revert Hd. case_match; [done|]. by intros [= <-].
Qed.

Lemma paired_loop_ok segments : forall dims runs dims',
  paired_loop probes dims segments = Ok (runs, dims') ->
  Forall2 (probed report) (map (fun s => ra_id (ps_left s)) segments) (map ru_left runs) /\
  Forall2 (probed report) (map (fun s => ra_id (ps_right s)) segments) (map ru_right runs) /\
  Forall (fun r => ru_frame_count r = pb_frame_count (ru_left r) /\ ru_frame_count r = pb_frame_count (ru_right r)) runs /\
  (is_Some dims \/ segments <> [] -> is_Some dims').
Proof.
  induction segments as [|s segments IH]; intros dims runs dims'; cbn [paired_loop].
  { intros [= <- <-]. split_and!; [constructor|constructor|constructor|by intros [?|?]]. }
  rewrite rbind_ok. intros (l & Hl%probe_at_ok & Hr). revert Hr. rewrite rbind_ok. intros (r & Hrr%probe_at_ok & Hr).
  revert Hr. destruct (_ || _) eqn:Eb; [done|]. apply orb_false_iff in Eb as [_ Ec%negb_false_iff%N.eqb_eq].
  rewrite rbind_ok. intros (d & Hd & Hr). revert Hr. rewrite rbind_ok.
  intros ([rs d'] & (H1 & H2 & H3 & H4)%IH & [= <- <-]). simpl. split_and!; [by constructor|by constructor|by constructor|].
  intros _. apply H4. left. unfold ensure_eye_dimensions in Hd. revert Hd. case_match; [done|]. by intros [= <-].
Qed.

Lemma build_runs_ok input fps runs dims basis declared :
  build_runs probes input fps = Ok (runs, dims, basis, declared) -> runs_ok input report runs.
Proof.
  assert (Hsbs : forall rs, Forall2 (probed report) (left_ids input) (map ru_left rs) -> right_ids input = left_ids input ->
    Forall (fun r => ru_left r = ru_right r /\ ru_frame_count r = pb_frame_count (ru_left r)) rs -> runs_ok input report rs).
  { intros rs H1 He H2. constructor; [done| |].
    - rewrite He. replace (map ru_right rs) with (map ru_left rs); [done|].
      clear -H2. induction H2 as [|r rs [Hr _] _ IH]; [done|]. simpl. by rewrite Hr, IH.
    - eapply Forall_impl; [exact H2|]. intros r [Hr Hc]. by rewrite <- Hr. }
  unfold build_runs, side_by_side_runs, paired_eye_runs. destruct input as [stereo ev|segs ev|segs dg|segs dg|segs dg|segs dg|segs dg].
  - destruct (negb _); [done|]. rewrite rbind_ok. intros (p & Hp%probe_at_ok & Hr). revert Hr. rewrite rbind_ok.
    intros (eye & _ & [= <- _ _ _]). apply Hsbs; [by repeat constructor; apply Hp|done|by repeat constructor].
  - destruct (negb _); [by destruct segs|]. rewrite rbind_ok. intros ([rs d] & (H1 & H2 & _)%side_by_side_loop_ok & Hr).
    revert Hr. rewrite rbind_ok. intros (? & _ & [= <- _ _ _]). by apply Hsbs.
  - rewrite rbind_ok. intros ([rs d] & Hl & [= <- _ _ _]). revert Hl. rewrite rbind_ok.
    intros ([rs' d'] & (H1 & H2 & _)%side_by_side_loop_ok & Hr). revert Hr. rewrite rbind_ok. intros (? & _ & [= <- _]).
    by apply Hsbs.
  - rewrite rbind_ok. intros ([rs d] & (H1 & H2 & H3 & _)%paired_loop_ok & Hr). revert Hr. rewrite rbind_ok.
    by intros (? & _ & [= <- _ _ _]).
  - rewrite rbind_ok. intros ([rs d] & (H1 & H2 & H3 & _)%paired_loop_ok & Hr). revert Hr. rewrite rbind_ok.
    by intros (? & _ & [= <- _ _ _]).
  - rewrite rbind_ok. intros ([rs d] & (H1 & H2 & H3 & _)%paired_loop_ok & Hr). revert Hr. rewrite rbind_ok.
    by intros (? & _ & [= <- _ _ _]).
  - rewrite rbind_ok. intros ([rs d] & Hl & [= <- _ _ _]). revert Hl. rewrite rbind_ok.
    intros ([rs' d'] & (H1 & H2 & _)%side_by_side_loop_ok & Hr). revert Hr. rewrite rbind_ok. intros (? & _ & [= <- _]).
    by apply Hsbs.
Qed.
End build.

(** ** No panic, no missing fuel *)

Definition no_panic {A : Type} (r : result MediaPlanError A) : Prop :=
  match r with
  | Err (PlanPanic _) | Err (MpRational DivisionByZero) | Err (MpProfile (PrRational DivisionByZero)) => False
  | _ => True
  end.

Lemma no_panic_bind {A B : Type} (c : result MediaPlanError A) (k : A -> result MediaPlanError B) :
  no_panic c -> (forall a, c = Ok a -> no_panic (k a)) -> no_panic (rbind c k).
Proof. destruct c as [a|e]; simpl; [intros _ Hk; by apply Hk|done]. Qed.

Lemma no_panic_err {A B : Type} (e : MediaPlanError) : @no_panic A (Err e) -> @no_panic B (Err e).
Proof. done. Qed.

Lemma ticks_no_panic fps frames tb :
  0 < rt_numerator fps -> 0 < rt_numerator tb -> no_panic (rmap_err MpRational (ticks_for_frames fps frames tb)).
Proof.
  intros Hn Hn'. unfold ticks_for_frames. assert (Hpos : rt_numerator fps * rt_numerator tb <> 0) by nia.
  destruct (checked_mul u128_max frames _) as [a|]; [|done]. cbn [ok_or rbind].
  destruct (checked_mul u128_max a _) as [b|]; [|done]. cbn [ok_or rbind].
  destruct (checked_mul u128_max (rt_numerator fps) _) as [c|] eqn:Ec; [|done]. cbn [ok_or rbind].
  apply checked_mul_Some in Ec as [_ ->]. destruct (N.eqb_spec (rt_numerator fps * rt_numerator tb) 0); [done|].
  by repeat case_match.
Qed.

Lemma make_slice_no_panic probe f count cursor fps :
  0 < rt_numerator fps -> 0 < rt_numerator (pb_time_base probe) -> no_panic (make_slice probe f count cursor fps).
Proof.
  intros. unfold make_slice. apply no_panic_bind; [by apply ticks_no_panic|]. intros t _.
  destruct (i64_max <? t); [done|]. apply no_panic_bind; [|done]. by unfold i64_checked_add; case_match.
Qed.

(** The position lies in its run. *)
Definition position_ok (runs : list PairedRun) (i : nat) (f : N) : Prop :=
  forall run, runs !! i = Some run -> f <= ru_frame_count run.

Section termination.
Context (runs : list PairedRun) (fps : Rational).
Context (Hfps : 0 < rt_numerator fps).
Context (Hruns : Forall (fun r => 0 < rt_numerator (pb_time_base (ru_left r)) /\
                                  0 < rt_numerator (pb_time_base (ru_right r))) runs).

Lemma slices_loop_no_panic fuel : forall pair_end cursor i f,
  position_ok runs i f -> (cursor < pair_end -> (length runs - i + 2 <= fuel)%nat) -> (0 < fuel)%nat ->
  no_panic (slices_loop runs fps fuel pair_end cursor i f).
Proof.
  induction fuel as [|fuel IH]; intros pair_end cursor i f Hpos Hf Hz; [lia|]. cbn [slices_loop].
  destruct (N.ltb_spec cursor pair_end) as [Hc|Hc]; cbn [negb]; [|done]. specialize (Hf Hc).
  apply no_panic_bind; [by destruct (runs !! i)|]. intros run Hrun%ok_or_ok.
  assert (Hi := lookup_lt_Some _ _ _ Hrun). destruct (proj1 (Forall_lookup _ _) Hruns _ _ Hrun) as [Hl Hr].
  specialize (Hpos _ Hrun). apply no_panic_bind; [by apply make_slice_no_panic|]. intros l _.
  apply no_panic_bind; [by apply make_slice_no_panic|]. intros r _. apply no_panic_bind; [|by intros [[[? ?] ?] ?]].
  destruct (N.eqb_spec (f + N.min (ru_frame_count run - f) (pair_end - cursor)) (ru_frame_count run)) as [E|E].
  - apply IH; [intros run' _; lia|lia|lia].
  - apply IH; [intros run' Hrun'; rewrite Hrun in Hrun'; injection Hrun' as <-; lia|lia|lia].
Qed.

Lemma slices_loop_position fuel : forall pair_end cursor i f ls rs i' f',
  position_ok runs i f -> slices_loop runs fps fuel pair_end cursor i f = Ok (ls, rs, i', f') -> position_ok runs i' f'.
Proof.
  induction fuel as [|fuel IH]; intros pair_end cursor i f ls rs i' f' Hpos; cbn [slices_loop]; [done|].
  destruct (negb (cursor <? pair_end)); [by intros [= <- <- <- <-]|]. rewrite rbind_ok. intros (run & Hrun%ok_or_ok & Hr).
  revert Hr. rewrite rbind_ok. intros (l & _ & Hr). revert Hr. rewrite rbind_ok. intros (r & _ & Hr). revert Hr.
  rewrite rbind_ok. intros ([[[ls0 rs0] i0] f0] & Hrec & [= _ _ <- <-]). specialize (Hpos _ Hrun). revert Hrec.
  destruct (N.eqb_spec (f + N.min (ru_frame_count run - f) (pair_end - cursor)) (ru_frame_count run)) as [E|E]; apply IH.
  - intros run' _. lia.
  - intros run' Hrun'. rewrite Hrun in Hrun'. injection Hrun' as <-. lia.
Qed.

Context (kind : SourceMediaKind) (dimensions : Dimensions) (tb : Rational) (limit : N).
Context (Htb : 0 < rt_numerator tb) (Hlimit : 0 < limit).

Lemma pairs_loop_no_panic cl cr total fuel : forall index cursor i f,
  position_ok runs i f -> cursor <= total -> (N.to_nat ((total - cursor) / limit) + 2 <= fuel)%nat ->
  no_panic (pairs_loop runs kind dimensions fps tb limit cl cr total fuel index cursor i f).
Proof.
  induction fuel as [|fuel IH]; intros index cursor i f Hpos Hc Hf.
  { exfalso. revert Hf. generalize (N.to_nat ((total - cursor) / limit)). clear. lia. }
  cbn [pairs_loop].
  destruct (N.ltb_spec cursor total) as [Hlt|]; cbn [negb]; [|done].
  apply no_panic_bind; [by unfold u64_checked_add; case_match|]. intros pair_end [_ ->]%ok_or_ok%u64_checked_add_Some.
  apply no_panic_bind; [apply slices_loop_no_panic; [done|intros _; lia|lia]|]. intros [[[ls rs] i1] f1] Hs.
  apply slices_loop_position in Hs; [|done]. destruct (u32_max <? index); [done|].
  apply no_panic_bind; [by apply ticks_no_panic|]. intros st _. apply no_panic_bind; [by apply ticks_no_panic|]. intros du _.
  apply no_panic_bind; [|done]. destruct (N.le_gt_cases limit (total - cursor)) as [Hge|Hsmall].
  - apply IH; [done|clear -Hge Hlt; lia|]. replace (N.min limit (total - cursor)) with limit by lia.
    replace (total - cursor) with (total - (cursor + limit) + 1 * limit) in Hf by lia.
    rewrite N.div_add in Hf by lia. rewrite N2Nat.inj_add in Hf. change (N.to_nat 1) with 1%nat in Hf.
    revert Hf. generalize (N.to_nat ((total - (cursor + limit)) / limit)). clear. lia.
  - replace (N.min limit (total - cursor)) with (total - cursor) by lia.
    destruct fuel as [|fuel].
    { exfalso. revert Hf. generalize (N.to_nat ((total - cursor) / limit)). clear. lia. }
    cbn [pairs_loop]. destruct (N.ltb_spec (cursor + (total - cursor)) total); [lia|done].
Qed.
End termination.

Lemma total_no_panic runs : no_panic (total_of_runs runs).
Proof.
  unfold total_of_runs. assert (Hgen : forall rs (acc : result MediaPlanError N), no_panic acc ->
    no_panic (fold_left (fun total run => let? total := total in ok_or (u64_checked_add total (ru_frame_count run)) ArithmeticOverflow) rs acc)).
  { induction rs as [|r rs IH]; intros acc Ha; simpl; [done|]. apply IH. apply no_panic_bind; [done|].
    intros a _. by unfold u64_checked_add; case_match. }
  by apply Hgen.
Qed.

Lemma partition_no_panic runs kind dimensions fps tb limit :
  0 < rt_numerator fps -> 0 < rt_numerator tb ->
  Forall (fun r => 0 < rt_numerator (pb_time_base (ru_left r)) /\ 0 < rt_numerator (pb_time_base (ru_right r))) runs ->
  no_panic (partition_runs runs kind dimensions fps tb limit).
Proof.
  intros Hf Ht Hr. unfold partition_runs. destruct (N.eqb_spec limit 0); [done|].
  assert (Hrect : forall x y w h, no_panic (Rect_new x y w h)).
  { intros. unfold Rect_new, Dimensions_new. by case_match. }
  apply no_panic_bind; [apply Hrect|]. intros cl _. apply no_panic_bind; [apply Hrect|]. intros cr _.
  apply no_panic_bind; [apply total_no_panic|]. intros total _.
  apply pairs_loop_no_panic; [done..|lia| |lia|]; [intros ? _; lia|]. rewrite N.sub_0_r. lia.
Qed.

(** *** The probes *)

Lemma probe_contract_no_panic codec fps probes : no_panic (probe_contract codec fps probes).
Proof. revert fps. induction probes as [|p probes IH]; intros fps; simpl; [done|]. repeat (case_match; try done); apply IH. Qed.

Lemma reconcile_no_panic input report : no_panic (reconcile_probes input report).
Proof.
  unfold reconcile_probes. destruct (negb _) eqn:En; [|by repeat case_match].
  destruct (first_duplicate _ _) eqn:Ed; [done|]. apply no_duplicate in Ed as [Hn _].
  by rewrite (sorted_set_length _ Hn), Nat.eqb_refl in En.
Qed.

Lemma sequences_no_panic input : no_panic (validate_input_sequences input).
Proof.
  destruct input as [? ?|segs ?|segs ?|segs ?|segs ?|segs ?|segs ?]; simpl; unfold validate_segment_sequence, validate_paired_segment_sequence;
    by repeat (case_match; simpl; try done).
Qed.

Section build_total.
Context (report : ProbeReport) (probes : list (string * ProbedArtifact)).
Context (Hsound : forall id p, (id, p) ∈ probes -> p ∈ report /\ pb_artifact_id p = id).

Lemma probe_at_known id : (exists p, obj_get id probes = Some p) -> no_panic (probe_at probes id).
Proof. intros [p Hp]. unfold probe_at. by rewrite Hp. Qed.

Lemma ensure_no_panic expected actual index : no_panic (ensure_eye_dimensions expected actual index).
Proof. unfold ensure_eye_dimensions. by case_match. Qed.

Lemma eye_no_panic d : no_panic (side_by_side_eye_dimensions d).
Proof. unfold side_by_side_eye_dimensions, Dimensions_new. by repeat case_match. Qed.

Lemma side_by_side_loop_no_panic reset segments : forall dims,
  (forall id, id ∈ map ra_id (map sg_artifact segments) -> exists p, obj_get id probes = Some p) ->
  no_panic (side_by_side_loop probes reset dims segments).
Proof.
  induction segments as [|s segments IH]; intros dims Hk; cbn [side_by_side_loop]; [done|].
  apply no_panic_bind; [apply probe_at_known, Hk; by left|]. intros p _. destruct (reset && _); [done|].
  apply no_panic_bind; [apply eye_no_panic|]. intros eye _. apply no_panic_bind; [apply ensure_no_panic|]. intros d _.
  apply no_panic_bind; [|by intros [? ?]]. apply IH. intros id Hid. apply Hk. by right.
Qed.

Lemma paired_loop_no_panic segments : forall dims,
  (forall id, id ∈ map ra_id (flat_map (fun s => [ps_left s; ps_right s]) segments) -> exists p, obj_get id probes = Some p) ->
  no_panic (paired_loop probes dims segments).
Proof.
  induction segments as [|s segments IH]; intros dims Hk; cbn [paired_loop]; [done|].
  apply no_panic_bind; [apply probe_at_known, Hk; by left|]. intros l _.
  apply no_panic_bind; [apply probe_at_known, Hk; right; by left|]. intros r _. destruct (_ || _); [done|].
  apply no_panic_bind; [apply ensure_no_panic|]. intros d _.
  apply no_panic_bind; [|by intros [? ?]]. apply IH. intros id Hid. apply Hk. by do 2 right.
Qed.

Lemma expect_no_panic dims : is_Some dims -> no_panic (expect_dimensions dims).
Proof. by intros [d ->]. Qed.

Lemma build_runs_no_panic input fps :
  validate_input_sequences input = Ok tt ->
  (forall id, id ∈ map ra_id (input_artifacts input) -> exists p, obj_get id probes = Some p) ->
  no_panic (build_runs probes input fps).
Proof.
  intros Hv Hk. assert (Hs : forall segs, validate_segment_sequence segs = Ok tt -> segs <> []).
  { unfold validate_segment_sequence. intros segs. by case_bool_decide. }
  assert (Hps : forall segs, validate_paired_segment_sequence segs = Ok tt -> segs <> []).
  { unfold validate_paired_segment_sequence. intros segs. by case_bool_decide. }
  assert (Hpair : forall segs basis, segs <> [] ->
    (forall id, id ∈ map ra_id (flat_map (fun s => [ps_left s; ps_right s]) segs) -> exists p, obj_get id probes = Some p) ->
    no_panic (paired_eye_runs probes segs basis)).
  { intros segs basis Hne Hks. unfold paired_eye_runs. apply no_panic_bind; [by apply paired_loop_no_panic|].
    intros [rs d] (_ & _ & _ & Hd)%(paired_loop_ok report probes Hsound). apply no_panic_bind; [apply expect_no_panic, Hd; by right|done]. }
  assert (Hsbs : forall reset segs, segs <> [] ->
    (forall id, id ∈ map ra_id (map sg_artifact segs) -> exists p, obj_get id probes = Some p) ->
    forall B (k : list PairedRun -> Dimensions -> result MediaPlanError B), (forall rs d, no_panic (k rs d)) ->
    no_panic (let? (rs, d) := side_by_side_loop probes reset None segs in let? d := expect_dimensions d in k rs d)).
  { intros reset segs Hne Hks B k Hkk. apply no_panic_bind; [by apply side_by_side_loop_no_panic|].
    intros [rs d] (_ & _ & Hd)%(side_by_side_loop_ok report probes Hsound).
    apply no_panic_bind; [apply expect_no_panic, Hd; by right|]. intros d' _. apply Hkk. }
  destruct input as [stereo ev|segs ev|segs dg|segs dg|segs dg|segs dg|segs dg]; cbn [build_runs validate_input_sequences] in *.
  - destruct (negb _); [done|]. apply no_panic_bind; [apply probe_at_known, Hk; by left|]. intros p _.
    by apply no_panic_bind; [apply eye_no_panic|].
  - apply rbind_ok in Hv as ([] & Hv%Hs & _). destruct (negb _); [by destruct segs|]. by apply Hsbs.
  - apply no_panic_bind; [|by intros [? ?]]. by apply Hsbs; [apply Hs| |].
  - apply Hpair; [by apply Hps|done].
  - apply Hpair; [by apply Hps|done].
  - apply Hpair; [by apply Hps|done].
  - apply no_panic_bind; [|by intros [? ?]]. by apply Hsbs; [apply Hs| |].
Qed.
End build_total.

(** ** The properties of the planner *)

(** The numbers of a probe are ones that the constructors of fractions make. *)
Definition probe_rationals_ok (p : ProbedArtifact) : Prop :=
  rational_ok (pb_frame_rate p) /\ rational_ok (pb_time_base p).

(** The parts of an accepted plan. *)
Lemma plan_media_ok input report profile plan :
  plan_media input report profile = Ok plan ->
  exists probes runs limit basis declared,
    reconcile_probes input report = Ok probes /\
    build_runs probes input (mp_source_fps plan) = Ok (runs, mp_eye_dimensions plan, basis, declared) /\
    segment_frames profile (mp_source_fps plan) = Ok limit /\
    total_of_runs runs = Ok (mp_total_frames plan) /\
    mp_time_base plan = pm_time_base (np_revision_material profile) /\
    (forall n, declared = Some n -> n = mp_total_frames plan) /\
    partition_runs runs (input_kind input) (mp_eye_dimensions plan) (mp_source_fps plan) (mp_time_base plan) limit
    = Ok (mp_segment_pairs plan).
Proof.
  unfold plan_media. destruct (negb _); [done|]. rewrite rbind_ok. intros (u & _ & Hr). revert Hr.
  rewrite rbind_ok. intros (probes & Hp & Hr). revert Hr. rewrite rbind_ok. intros (u2 & _ & Hr). revert Hr.
  rewrite rbind_ok. intros (first & _ & Hr). revert Hr. rewrite rbind_ok. intros ([[[runs dims] basis] declared] & Hb & Hr).
  revert Hr. rewrite rbind_ok. intros (total & Ht & Hr). revert Hr. rewrite rbind_ok. intros (u3 & Hd & Hr). revert Hr.
  rewrite rbind_ok. intros (limit & Hl%rmap_err_ok & Hr). revert Hr. rewrite rbind_ok. intros (pairs & Hpairs & [= <-]).
  exists probes, runs, limit, basis, declared. cbn. split_and!; try done.
  intros n ->. revert Hd. by destruct (N.eqb_spec n total).
Qed.

(** C5: a media plan holds every probed frame of the session once, in order and
    in time.  For an accepted plan there are runs that show each eye the
    artifacts of its segments in order, with equal frame counts, such that the
    slices of all pairs, read in order, are exactly all frames of these
    artifacts, for the left eye and for the right; there are
    ceil(total / limit) pairs, pair [k] begins at frame [k * limit] and has
    [limit] frames (the last one what is left), both eyes cut at the same
    places, with start, duration and source timestamps that are exact in their
    time bases, so that each pair begins in time where the one before ends. *)
Theorem plan_tiles_the_session input report profile plan :
  plan_media input report profile = Ok plan ->
  exists runs limit, runs_ok input report runs /\
    segment_frames profile (mp_source_fps plan) = Ok limit /\
    tiles runs (mp_source_fps plan) (mp_time_base plan) limit (mp_total_frames plan) (mp_segment_pairs plan).
Proof.
  intros (probes & runs & limit & basis & declared & Hp & Hb & Hl & Ht & _ & _ & Hpairs)%plan_media_ok.
  exists runs, limit. split_and!; [|done|by eapply partition_tiles].
  eapply build_runs_ok; [|exact Hb]. apply (rc_sound _ _ _ (reconcile_ok _ _ _ Hp)).
Qed.

(** C33: planning ends and never panics.  Whatever the input, the report and the
    profile are, if the rates and time bases are ones that [Rational::new]
    makes, [MediaPlanner::plan] answers with a plan or with an error of its own:
    no index is out of range, no [expect] fails, nothing divides by zero, and
    its two loops stop. *)
Theorem planner_never_panics input report profile :
  Forall probe_rationals_ok report -> rational_ok (pm_time_base (np_revision_material profile)) ->
  no_panic (plan_media input report profile).
Proof.
  intros Hr Ht. unfold plan_media. destruct (negb _); [done|].
  apply no_panic_bind; [apply sequences_no_panic|]. intros [] Hseq.
  apply no_panic_bind; [apply reconcile_no_panic|]. intros probes [Hc Hs _]%reconcile_ok.
  apply no_panic_bind; [apply probe_contract_no_panic|]. intros u _.
  apply no_panic_bind; [by destruct probes|]. intros first Hfirst%ok_or_ok.
  assert (Hin : first ∈ report).
  { destruct probes as [|[id p] probes]; [done|]. injection Hfirst as <-. apply (Hs id). by left. }
  destruct (proj1 (list.Forall_forall _ _) Hr _ Hin) as [Hrate _].
  apply no_panic_bind; [by eapply build_runs_no_panic|]. intros [[[runs dims] basis] declared] Hb.
  apply no_panic_bind; [apply total_no_panic|]. intros total _.
  apply no_panic_bind; [by repeat case_match|]. intros u2 _.
  apply no_panic_bind.
  { unfold segment_frames, frames_in_whole_seconds, checked_mul. destruct (_ <=? u64_max); [|done]. cbn.
    destruct (N.eqb_spec (rt_denominator (pb_frame_rate first)) 0); [|by case_match].
    destruct (ro_denominator _ Hrate). lia. }
  intros limit _. apply no_panic_bind; [|done]. apply partition_no_panic.
  - apply (ro_numerator _ Hrate).
  - apply (ro_numerator _ Ht).
  - apply build_runs_ok with (report := report) in Hb as [H1 H2 _]; [|done].
    assert (Hall : forall ids ps, Forall2 (probed report) ids ps -> Forall (fun p => 0 < rt_numerator (pb_time_base p)) ps).
    { induction 1 as [|id p ids ps [Hp _] _ IH]; constructor; [|done].
      apply (proj1 (list.Forall_forall _ _) Hr), proj2, ro_numerator in Hp. apply Hp. }
    apply Hall in H1, H2. clear -H1 H2. induction runs as [|r runs IH]; constructor.
    + by inversion H1; inversion H2.
    + apply IH; [by inversion H1|by inversion H2].
Qed.

(** ** A demo session *)

(** Two reset segments of twenty seconds each, thirty frames a second. *)
Module DemoPlan.
#[local] Existing Instance DemoSha.sha.
Local Open Scope string_scope.

Definition fps : Rational := mkRational 30 1.
Definition tb : Rational := mkRational 1 90000.
Definition content : ContentSha256 := from_material "" [].
Definition artifact (id : string) : ResolvedSourceArtifact := mkResolved id ("/library/" ++ id) ("video/" ++ id) 1 content.
Definition probe (id : string) : ProbedArtifact :=
  mkProbe id Mjpeg None FragmentedMp4 None Yuv422p (mkDimensions 3840 1080) fps tb 0 600 1800000 1 0 [0%N].

Definition input : NormalizationInput :=
  LegacyMjpegSession [mkSegment 0 (artifact "segment-0"); mkSegment 1 (artifact "segment-1")]
    (mkLegacyEvidence content 1200 fps true).
Definition report : ProbeReport := [probe "segment-1"; probe "segment-0"].
Definition profile : NormalizationProfile :=
  mkProfile (revision_material MjpegCrf20 tb) (from_material "sha256:" []) StCandidateUnapproved.

Definition plan : MediaPlan :=
  match plan_media input report profile with
  | Ok p => p
  | Err _ => mkPlan KindRawCaptureV2 (from_material "sha256:" []) fps (mkDimensions 0 0) tb RawFrameIndex 0 []
  end.

Lemma planned : plan_media input report profile = Ok plan.
Proof. vm_compute. reflexivity. Qed.

Example thirty_second_pairs :
  map sp_frame_count (mp_segment_pairs plan) = [900; 300]%N /\ map sp_start_ticks (mp_segment_pairs plan) = [0; 2700000]%N /\
  map (fun p => map fr_frame_count (ei_slices (sp_left p))) (mp_segment_pairs plan) = [[600; 300]; [300]]%N.
Proof. vm_compute. done. Qed.

Lemma rates : Forall probe_rationals_ok report /\ rational_ok (pm_time_base (np_revision_material profile)).
Proof. split; [repeat constructor|constructor]; by vm_compute. Qed.

(** A frame rate whose thirty seconds are not whole frames is refused. *)
Example ntsc_refused :
  segment_frames profile (mkRational 30000 1001) = Err (PrRational (InexactFrameTime 900000 30000 1001 1 1)).
Proof. vm_compute. reflexivity. Qed.
End DemoPlan.

Lemma plan_tiles_the_session_witness :
  exists runs limit,
    tiles runs DemoPlan.fps DemoPlan.tb limit 1200 (mp_segment_pairs DemoPlan.plan) /\
    length (mp_segment_pairs DemoPlan.plan) = 2%nat.
Proof.
  destruct (plan_tiles_the_session _ _ _ _ DemoPlan.planned) as (runs & limit & _ & _ & Ht).
  exists runs, limit. split; [exact Ht|vm_compute; reflexivity].
Defined.

Lemma planner_never_panics_witness :
  no_panic (plan_media DemoPlan.input DemoPlan.report DemoPlan.profile).
Proof. apply planner_never_panics; apply DemoPlan.rates. Defined.
