(* ===== verification/Validation.v ===== *)
(** * Validation: the gates of an encoded pair (normalization/validation.rs, ports.rs)

What the prober reports about the two outputs of a pair, the four verdicts over
it, and the requests that carry a pair through the encoder and the validator.
The detail texts of issues are not modelled, nor the process handling of the
adapters (their outcomes are data here). *)

From Stdlib Require Import NArith ZArith Lia Ascii String.
From stdpp Require Import base numbers list strings.
From S2P Require Import Prelude Domain Files Json Ingest Rational Profile MediaPlan.

Local Open Scope string_scope.

(** [ValidationIssueCode] (normalization/validation.rs:14-43). *)
Inductive ValidationIssueCode :=
| WrongEye | WrongProfileRevision | WrongOutputPath | EmptyOutput | VCodecMismatch | CodecProfileMismatch
| ContainerMismatch | SampleEntryMismatch | PixelFormatMismatch | GeometryMismatch | VFrameRateMismatch
| TimeBaseMismatch | FrameCountMismatch | DurationMismatch | ExtraTrack | FirstFrameNotDecodable | OpenGop
| GopTooLong | SceneCutKeyframe | FullDecodeFailed | DecodeFrameCountMismatch | StereoFrameCountMismatch
| StereoDurationMismatch | StereoKeyframeMismatch | VmafMeanBelowThreshold | VmafFrameP01BelowThreshold
| SsimMeanBelowThreshold | StereoDomainMetricFailed.

(** [ValidationIssue] (normalization/validation.rs:46-50). *)
Record ValidationIssue := mkIssue { vi_code : ValidationIssueCode; vi_eye : option Eye }.

#[global] Instance ValidationIssueCode_eq_dec : EqDecision ValidationIssueCode.
Proof. solve_decision. Defined.
#[global] Instance ValidationIssue_eq_dec : EqDecision ValidationIssue.
Proof. solve_decision. Defined.

(** [ValidationError] (normalization/validation.rs:381-394). *)
Inductive ValidationError :=
| InvalidPartialPath
| VUnsafeRelativePath (path : string)
| VInvalidKeyframeInventory
| InvalidEyePair
| InvalidQualityEvidence
| VerdictFailed.

(** [OutputMediaEvidence] (normalization/validation.rs:75-100), its partial path as text. *)
Record OutputMediaEvidence := mkEvidenceOf {
  oe_eye : Eye;
  oe_partial_path : string;
  oe_manifest_relative_path : string;
  oe_profile_revision : ProfileRevision;
  oe_size_bytes : N;
  oe_sha256 : ContentSha256;
  oe_codec : VideoCodec;
  oe_codec_profile : HevcProfile;
  oe_container : ContainerFormat;
  oe_sample_entry : SampleEntry;
  oe_pixel_format : PixelFormat;
  oe_dimensions : Dimensions;
  oe_frame_rate : Rational;
  oe_time_base : Rational;
  oe_frame_count : N;
  oe_duration_ticks : N;
  oe_video_track_count : N;
  oe_audio_track_count : N;
  oe_first_frame_decodable : bool;
  oe_closed_gop : bool;
  oe_scene_cut_keyframes_detected : bool;
  oe_keyframe_frames : list N;
  oe_fully_decoded : bool;
  oe_decoded_frame_count : N;
}.

(** [validate_relative_path] (normalization/validation.rs:759-772): normal components only;
    hidden names are allowed here. *)
Definition validate_output_path (value : string) : result ValidationError unit :=
  if String.eqb value "" || str_mem "\" value || str_mem (ascii_of_N 0) value || String.prefix "/" value
     || existsb (fun c => String.eqb c "." || String.eqb c "..") (path_parts value)
  then Err (VUnsafeRelativePath value) else Ok tt.

(** [OutputMediaEvidence::new] (normalization/validation.rs:104-167), on the record its arguments make. *)
Definition OutputMediaEvidence_new (e : OutputMediaEvidence) : result ValidationError OutputMediaEvidence :=
  let? _ := validate_output_path (oe_manifest_relative_path e) in
  if String.eqb (oe_partial_path e) "" then Err InvalidPartialPath
  else if negb (increasing (oe_keyframe_frames e)) then Err VInvalidKeyframeInventory
  else Ok e.

(** [QualityEvidence] (normalization/validation.rs:268-276). *)
Record QualityEvidence := mkQuality {
  qe_eye : Eye;
  qe_vmaf_neg_model : string;
  qe_vmaf_mean_milli : N;
  qe_vmaf_frame_p01_milli : N;
  qe_ssim_mean_millionths : N;
  qe_stereo_domain_metrics_passed : bool;
  qe_report_digest : ContentSha256;
}.

(** [QualityEvidence::new] (normalization/validation.rs:280-308). *)
Definition QualityEvidence_new (e : QualityEvidence) : result ValidationError QualityEvidence :=
  if String.eqb (qe_vmaf_neg_model e) "" || (256 <? str_len (qe_vmaf_neg_model e))%N
     || has_control (qe_vmaf_neg_model e) || (100000 <? qe_vmaf_mean_milli e)%N
     || (100000 <? qe_vmaf_frame_p01_milli e)%N || (1000000 <? qe_ssim_mean_millionths e)%N
  then Err InvalidQualityEvidence else Ok e.

#[global] Instance OutputMediaEvidence_eq_dec : EqDecision OutputMediaEvidence.
Proof. solve_decision. Defined.
#[global] Instance QualityEvidence_eq_dec : EqDecision QualityEvidence.
Proof. solve_decision. Defined.

(** [verdict!] (normalization/validation.rs:346-372). *)
Record Verdict := mkVerdict { vd_passed : bool; vd_issues : list ValidationIssue }.

#[global] Instance Verdict_eq_dec : EqDecision Verdict.
Proof. solve_decision. Defined.

(** [verdict!, from_issues] (normalization/validation.rs:355-360). *)
Definition from_issues (issues : list ValidationIssue) : Verdict := mkVerdict (bool_decide (issues = [])) issues.

(** [SegmentValidationReport] (normalization/validation.rs:397-407). *)
Record SegmentValidationReport := mkReport {
  vr_segment_index : N;
  vr_left : OutputMediaEvidence;
  vr_right : OutputMediaEvidence;
  vr_left_quality : QualityEvidence;
  vr_right_quality : QualityEvidence;
  vr_structural : Verdict;
  vr_full_decode : Verdict;
  vr_sync : Verdict;
  vr_quality : Verdict;
}.

#[global] Instance SegmentValidationReport_eq_dec : EqDecision SegmentValidationReport.
Proof. solve_decision. Defined.

Definition check (condition : bool) (code : ValidationIssueCode) (eye : option Eye) : list ValidationIssue :=
  if condition then [] else [mkIssue code eye].

Definition abs_diff (a b : N) : N := if (a <? b)%N then (b - a)%N else (a - b)%N.

(** [checked_div] with a fallback. *)
Definition div_or (a b fallback : N) : N := if (b =? 0)%N then fallback else (a / b)%N.

(** [SegmentPairPlan::output_relative_path] (normalization/plan.rs:775-780). *)
Definition output_relative_path (plan : SegmentPairPlan) (eye : Eye) : string :=
  match eye with EyeLeft => sp_left_output_relative_path plan | EyeRight => sp_right_output_relative_path plan end.

(** All gaps are the fixed length. *)
Fixpoint fixed_gaps (gop : N) (frames : list N) : bool :=
  match frames with
  | a :: (b :: _) as rest => (b - a =? gop)%N && fixed_gaps gop rest
  | _ => true
  end.

Definition gaps_ok (gop_limit frame_count : N) (keyframes : list N) : bool :=
  bool_decide (head keyframes = Some 0%N) && fixed_gaps gop_limit keyframes
  && match last keyframes with Some k => (frame_count - k <=? gop_limit)%N | None => false end.

(** [validate_output_structure] (normalization/validation.rs:571-693). *)
Definition validate_output_structure (plan : SegmentPairPlan) (profile : NormalizationProfile)
    (output : OutputMediaEvidence) (eye : Eye) : list ValidationIssue :=
  let m := np_revision_material profile in
  let check condition code := check condition code (Some eye) in
  let gop_limit := match gop_frames profile (oe_frame_rate output) with Ok g => g | Err _ => 0%N end in
  check (bool_decide (oe_eye output = eye)) WrongEye
  ++ check (bool_decide (oe_profile_revision output = np_profile_revision profile)) WrongProfileRevision
  ++ check (String.eqb (oe_manifest_relative_path output) (output_relative_path plan eye)) WrongOutputPath
  ++ check (0 <? oe_size_bytes output)%N EmptyOutput
  ++ check (bool_decide (oe_codec output = pm_codec m)) VCodecMismatch
  ++ check (bool_decide (oe_codec_profile output = pm_codec_profile m)) CodecProfileMismatch
  ++ check (bool_decide (oe_container output = pm_container m)) ContainerMismatch
  ++ check (bool_decide (oe_sample_entry output = pm_sample_entry m)) SampleEntryMismatch
  ++ check (bool_decide (oe_pixel_format output = pm_pixel_format m)) PixelFormatMismatch
  ++ check (bool_decide (oe_dimensions output = sp_eye_dimensions plan)) GeometryMismatch
  ++ check (oe_frame_count output =? sp_frame_count plan)%N FrameCountMismatch
  ++ check (abs_diff (oe_duration_ticks output) (sp_duration_ticks plan)
            <=? u64_sat_add (div_or (sp_duration_ticks plan) (sp_frame_count plan) 0) 900)%N DurationMismatch
  ++ check ((oe_video_track_count output =? 1)%N && (oe_audio_track_count output =? 0)%N) ExtraTrack
  ++ check (oe_first_frame_decodable output) FirstFrameNotDecodable
  ++ check (oe_closed_gop output) OpenGop
  ++ check (negb (oe_scene_cut_keyframes_detected output)) SceneCutKeyframe
  ++ check (gaps_ok gop_limit (oe_frame_count output) (oe_keyframe_frames output)) GopTooLong
  ++ check (bool_decide (oe_frame_rate output = sp_source_fps plan)) VFrameRateMismatch
  ++ check (bool_decide (oe_time_base output = pm_time_base m)) TimeBaseMismatch.

(** [validate_full_decode] (normalization/validation.rs:695-714). *)
Definition validate_full_decode (plan : SegmentPairPlan) (output : OutputMediaEvidence) : list ValidationIssue :=
  check (oe_fully_decoded output) FullDecodeFailed (Some (oe_eye output))
  ++ check (oe_decoded_frame_count output =? sp_frame_count plan)%N DecodeFrameCountMismatch (Some (oe_eye output)).

(** [validate_quality] (normalization/validation.rs:716-757). *)
Definition validate_quality (profile : NormalizationProfile) (quality : QualityEvidence) : list ValidationIssue :=
  let thresholds := pm_quality_thresholds (np_revision_material profile) in
  let eye := Some (qe_eye quality) in
  check (String.eqb (qe_vmaf_neg_model quality) (qt_vmaf_neg_model thresholds)) VmafMeanBelowThreshold eye
  ++ check (qt_vmaf_mean_milli_min thresholds <=? qe_vmaf_mean_milli quality)%N VmafMeanBelowThreshold eye
  ++ check (qt_vmaf_frame_p01_milli_min thresholds <=? qe_vmaf_frame_p01_milli quality)%N VmafFrameP01BelowThreshold eye
  ++ check (qt_ssim_mean_millionths_min thresholds <=? qe_ssim_mean_millionths quality)%N SsimMeanBelowThreshold eye
  ++ check (negb (qt_stereo_domain_metrics_required thresholds && negb (qe_stereo_domain_metrics_passed quality)))
       StereoDomainMetricFailed eye.

(** The [u32] that a [u64] becomes after [min] with [u32::MAX]. *)
Definition frame_ticks (time_base : Rational) (frames : N) : N := div_or (rt_denominator time_base) (N.min frames u32_max) 0.

(** [SegmentValidationReport::evaluate, sync] (normalization/validation.rs:434-465). *)
Definition validate_sync (plan : SegmentPairPlan) (profile : NormalizationProfile) (left_ right_ : OutputMediaEvidence)
    : list ValidationIssue :=
  let ticks := frame_ticks (pm_time_base (np_revision_material profile)) (sp_frame_count plan) in
  let duration_delta := abs_diff (oe_duration_ticks left_) (oe_duration_ticks right_) in
  let one_frame_ticks := div_or (sp_duration_ticks plan) (sp_frame_count plan) ticks in
  check (oe_frame_count left_ =? oe_frame_count right_)%N StereoFrameCountMismatch None
  ++ check (duration_delta <=? one_frame_ticks)%N StereoDurationMismatch None
  ++ check (bool_decide (oe_keyframe_frames left_ = oe_keyframe_frames right_)) StereoKeyframeMismatch None.

(** [SegmentValidationReport::evaluate] (normalization/validation.rs:410-482). *)
Definition evaluate (plan : SegmentPairPlan) (profile : NormalizationProfile) (left_ right_ : OutputMediaEvidence)
    (left_quality right_quality : QualityEvidence) : result ValidationError SegmentValidationReport :=
  if negb (bool_decide (oe_eye left_ = EyeLeft)) || negb (bool_decide (oe_eye right_ = EyeRight))
     || negb (bool_decide (qe_eye left_quality = EyeLeft)) || negb (bool_decide (qe_eye right_quality = EyeRight))
  then Err InvalidEyePair
  else
    Ok (mkReport (sp_segment_index plan) left_ right_ left_quality right_quality
          (from_issues (validate_output_structure plan profile left_ EyeLeft
                        ++ validate_output_structure plan profile right_ EyeRight))
          (from_issues (validate_full_decode plan left_ ++ validate_full_decode plan right_))
          (from_issues (validate_sync plan profile left_ right_))
          (from_issues (validate_quality profile left_quality ++ validate_quality profile right_quality))).

(** [SegmentValidationReport::passed] (normalization/validation.rs:530-535). *)
Definition report_passed (r : SegmentValidationReport) : bool :=
  vd_passed (vr_structural r) && vd_passed (vr_full_decode r) && vd_passed (vr_sync r) && vd_passed (vr_quality r).

(** [ValidatedSegmentPair] (normalization/validation.rs:542-544): the report and the check its
    constructor makes. *)
Record ValidatedSegmentPair := mkValidated {
  vp_report : SegmentValidationReport;
  vp_valid : Is_true (report_passed vp_report);
}.

(** [ValidatedSegmentPair::try_from_report] (normalization/validation.rs:547-553). *)
Definition try_from_report (report : SegmentValidationReport) : result ValidationError ValidatedSegmentPair :=
  match decide (Is_true (report_passed report)) with
  | left valid => Ok (mkValidated report valid)
  | right _ => Err VerdictFailed
  end.

(** ** Requests of the ports *)

(** [ProcessStopReason] (normalization/ports.rs:13-18). *)
Inductive ProcessStopReason := StopPause | StopCancel | StopShutdown | StopSourceUnavailable.

#[global] Instance ProcessStopReason_eq_dec : EqDecision ProcessStopReason.
Proof. solve_decision. Defined.

(** [ProcessDeadline] (normalization/ports.rs:21-25). *)
Record ProcessDeadline := mkDeadline { pd_timeout_ms : N; pd_terminate_grace_ms : N; pd_kill_grace_ms : N }.

(** [MediaRequestError] (normalization/ports.rs:571-596). *)
Inductive MediaRequestError :=
| InvalidDeadline
| EmptyReapReport
| InvalidEncoderStatistics
| InputPlanMismatch
| UnknownSegment (index : N)
| InvalidPartialPair
| EncoderFrameCountMismatch (expected actual : N)
| EncodedPairMismatch
| QualityEyeMismatch
| RqProfile (e : ProfileError)
| RqPlan (e : MediaPlanError).

(** [ProcessDeadline::new] (normalization/ports.rs:28-41). *)
Definition ProcessDeadline_new (timeout_ms terminate_grace_ms kill_grace_ms : N) : result MediaRequestError ProcessDeadline :=
  if (timeout_ms =? 0)%N || (terminate_grace_ms =? 0)%N || (kill_grace_ms =? 0)%N then Err InvalidDeadline
  else Ok (mkDeadline timeout_ms terminate_grace_ms kill_grace_ms).

(** [ReapReceipt] (normalization/ports.rs:68-73). *)
Record ReapReceipt := mkReap {
  rp_process_id : N;
  rp_exit_code : option Z;
  rp_terminate_requested : bool;
  rp_kill_requested : bool;
}.

(** [ProcessReapReport] (normalization/ports.rs:76-78), its receipts. *)
Definition ProcessReapReport : Type := list ReapReceipt.

(** [ProcessReapReport::new] (normalization/ports.rs:81-87). *)
Definition ProcessReapReport_new (receipts : list ReapReceipt) : result MediaRequestError ProcessReapReport :=
  match receipts with [] => Err EmptyReapReport | _ => Ok receipts end.

(** [ProcessDisposition] (normalization/ports.rs:141-151). *)
Inductive ProcessDisposition :=
| NotSpawned
| Reaped (report : ProcessReapReport)
| ResourceStuck (process_id : N) (terminate_requested kill_requested : bool).

(** [ProcessDisposition::is_accounted_for] (normalization/ports.rs:160-162). *)
Definition is_accounted_for (d : ProcessDisposition) : bool :=
  match d with ResourceStuck _ _ _ => false | _ => true end.

(** [MediaProcessFailureCode] (normalization/ports.rs:167-178). *)
Inductive MediaProcessFailureCode :=
| PfExecutableUnavailable | PfSpawnRejected | PfProbeRejected | PfEncodeRejected | PfValidationRejected
| PfDeadlineExceeded | PfIo | PfInvalidOutput | PfResourceStuck | PfInternal.

(** [MediaProcessFailure] (normalization/ports.rs:181-185), without its detail. *)
Record MediaProcessFailure := mkProcessFailure { pf_code : MediaProcessFailureCode; pf_retryable : bool }.

(** [MediaProcessOutcome] (normalization/ports.rs:226-239). *)
Inductive MediaProcessOutcome (T : Type) :=
| Completed (value : T) (reap : ProcessReapReport)
| Stopped (reason : ProcessStopReason) (reap : ProcessReapReport)
| ProcessFailed (failure : MediaProcessFailure) (disposition : ProcessDisposition).
Arguments Completed {T} _ _.
Arguments Stopped {T} _ _.
Arguments ProcessFailed {T} _ _.

(** [EncoderStatistics] (normalization/ports.rs:311-317). *)
Record EncoderStatistics := mkStatistics {
  es_encoded_frame_count : N;
  es_output_duration_ticks : N;
  es_elapsed_ms : N;
  es_encoding_fps_milli : N;
  es_peak_memory_bytes : option N;
}.

(** [EncoderStatistics::new] (normalization/ports.rs:320-337). *)
Definition EncoderStatistics_new (encoded_frame_count output_duration_ticks elapsed_ms encoding_fps_milli : N)
    (peak_memory_bytes : option N) : result MediaRequestError EncoderStatistics :=
  if (encoded_frame_count =? 0)%N || (output_duration_ticks =? 0)%N || (elapsed_ms =? 0)%N
  then Err InvalidEncoderStatistics
  else Ok (mkStatistics encoded_frame_count output_duration_ticks elapsed_ms encoding_fps_milli peak_memory_bytes).

(** [EncodeSegmentPairRequest] (normalization/ports.rs:356-364), its paths as components. *)
Record EncodeSegmentPairRequest := mkEncodeRequest {
  er_local_source : LocalSourceReceipt;
  er_input : NormalizationInput;
  er_pair_plan : SegmentPairPlan;
  er_profile : NormalizationProfile;
  er_encoder_build : EncoderBuild;
  er_left_partial_path : Path;
  er_right_partial_path : Path;
}.

Definition ends_with (suffix s : string) : bool :=
  String.eqb (substring (String.length s - String.length suffix) (String.length suffix) s) suffix.

Definition valid_suffix (path : Path) : bool :=
  match last path with Some name => ends_with ".partial.mp4" name | None => false end.

(** [validate_partial_pair] (normalization/ports.rs:625-640). *)
Definition validate_partial_pair (left_ right_ : Path) : result MediaRequestError unit :=
  if bool_decide (left_ = right_) || negb (bool_decide (removelast left_ = removelast right_))
     || negb (valid_suffix left_) || negb (valid_suffix right_)
  then Err InvalidPartialPair else Ok tt.

(** [EncodeSegmentPairRequest::from_media_plan] (normalization/ports.rs:368-398). *)
Definition from_media_plan (local_source : LocalSourceReceipt) (input : NormalizationInput) (media_plan : MediaPlan)
    (segment_index : N) (profile : NormalizationProfile) (encoder_build : EncoderBuild) (left_ right_ : Path)
    : result MediaRequestError EncodeSegmentPairRequest :=
  if negb (bool_decide (input_kind input = mp_source_kind media_plan))
     || negb (bool_decide (mp_profile_revision media_plan = np_profile_revision profile))
  then Err InputPlanMismatch else
  let? pair_plan := ok_or (segment_pair media_plan segment_index) (UnknownSegment segment_index) in
  let? _ := rmap_err RqProfile (require_compatible_encoder profile encoder_build) in
  let? _ := validate_partial_pair left_ right_ in
  Ok (mkEncodeRequest local_source input pair_plan profile encoder_build left_ right_).

(** [EncodedSegmentPair] (normalization/ports.rs:442-447). *)
Record EncodedSegmentPair := mkEncoded {
  ep_segment_index : N;
  ep_left_partial_path : Path;
  ep_right_partial_path : Path;
  ep_statistics : EncoderStatistics;
}.

(** [EncodedSegmentPair::from_request] (normalization/ports.rs:450-466). *)
Definition from_request (request : EncodeSegmentPairRequest) (statistics : EncoderStatistics)
    : result MediaRequestError EncodedSegmentPair :=
  if negb (es_encoded_frame_count statistics =? sp_frame_count (er_pair_plan request))%N
  then Err (EncoderFrameCountMismatch (sp_frame_count (er_pair_plan request)) (es_encoded_frame_count statistics))
  else Ok (mkEncoded (sp_segment_index (er_pair_plan request)) (er_left_partial_path request)
             (er_right_partial_path request) statistics).

(** [SegmentValidationRequest] (normalization/ports.rs:490-499). *)
Record SegmentValidationRequest := mkValidationRequest {
  sv_local_source : LocalSourceReceipt;
  sv_input : NormalizationInput;
  sv_pair_plan : SegmentPairPlan;
  sv_profile : NormalizationProfile;
  sv_encoder_build : EncoderBuild;
  sv_encoded : EncodedSegmentPair;
  sv_left_quality : QualityEvidence;
  sv_right_quality : QualityEvidence;
}.

(** [SegmentValidationRequest::new] (normalization/ports.rs:502-527). *)
Definition SegmentValidationRequest_new (request : EncodeSegmentPairRequest) (encoded : EncodedSegmentPair)
    (left_quality right_quality : QualityEvidence) : result MediaRequestError SegmentValidationRequest :=
  if negb (ep_segment_index encoded =? sp_segment_index (er_pair_plan request))%N
     || negb (bool_decide (ep_left_partial_path encoded = er_left_partial_path request))
     || negb (bool_decide (ep_right_partial_path encoded = er_right_partial_path request))
  then Err EncodedPairMismatch
  else if negb (bool_decide (qe_eye left_quality = EyeLeft)) || negb (bool_decide (qe_eye right_quality = EyeRight))
  then Err QualityEyeMismatch
  else Ok (mkValidationRequest (er_local_source request) (er_input request) (er_pair_plan request)
             (er_profile request) (er_encoder_build request) encoded left_quality right_quality).
