(* ===== verification/Manifest.v ===== *)
(** * Manifest: checkpoints, the derived manifest and its completion (normalization/manifest.rs)

A validated pair becomes a checkpoint, the checkpoints of a plan become a
self-hashing manifest, and the manifest becomes the completion of a derivation.
The canonical JSON of a manifest through [serde_json] is [ManifestText]; a
[BTreeMap] of checkpoints is a list in key order. *)

From Stdlib Require Import NArith ZArith Lia Ascii String.
From stdpp Require Import base numbers list strings.
From S2P Require Import Prelude Domain Files Json Ingest Rational Profile MediaPlan Validation.

Local Open Scope string_scope.

Definition DERIVED_MANIFEST_SCHEMA_VERSION : N := 1.

(** [DerivedManifestError] (normalization/manifest.rs:695-727). *)
Inductive DerivedManifestError :=
| DmInvalidField (field : string)
| DmUnsafeRelativePath (path : string)
| PlanProfileMismatch
| CheckpointPlanMismatch (segment_index : N)
| DuplicateCheckpoint
| IncompleteCheckpoints (expected actual : N)
| ValidationFailed (segment_index : N)
| InvalidInventory
| UnsupportedSchema (version : N)
| Malformed (message : string)
| NonCanonical
| DmRevisionMismatch (expected actual : DerivedRevision)
| DmProfile (e : ProfileError)
| DmIdentity (e : NormIdentityError).

#[global] Instance DerivedManifestError_eq_dec : EqDecision DerivedManifestError.
Proof. solve_decision. Defined.

(** [validate_opaque_identity] (normalization/manifest.rs:803-817). *)
Definition validate_opaque_identity (field value : string) : result DerivedManifestError unit :=
  if String.eqb value "" || (256 <? str_len value)%N
     || existsb (fun c => is_control c || (c =? 47)%N || (c =? 92)%N) (chars value)
  then Err (DmInvalidField field) else Ok tt.

(** [validate_bounded_text] (normalization/manifest.rs:819-832). *)
Definition validate_manifest_text (field value : string) (maximum : N) : result DerivedManifestError unit :=
  if String.eqb value "" || (maximum <? str_len value)%N || has_control value then Err (DmInvalidField field) else Ok tt.

(** [validate_relative_path] (normalization/manifest.rs:834-853): the components of the text already
    exclude what [Path::components] would not call normal. *)
Definition validate_manifest_path (value : string) : result DerivedManifestError unit :=
  if String.eqb value "" || str_mem "\" value || str_mem (ascii_of_N 0) value || String.prefix "/" value
     || existsb (fun c => String.eqb c "" || String.prefix "." c) (split_char "/" value)
  then Err (DmUnsafeRelativePath value) else Ok tt.

(** [DerivedSubject] (normalization/manifest.rs:25-28). *)
Record DerivedSubject := mkSubject { ds_origin_identity : string; ds_session_identity : string }.

(** [DerivedSubject::new] (normalization/manifest.rs:31-43). *)
Definition DerivedSubject_new (origin_identity session_identity : string) : result DerivedManifestError DerivedSubject :=
  let? _ := validate_opaque_identity "origin_identity" origin_identity in
  let? _ := validate_opaque_identity "session_identity" session_identity in
  Ok (mkSubject origin_identity session_identity).

(** [InputInventoryEntry] (normalization/manifest.rs:57-62). *)
Record InputInventoryEntry := mkInputEntry {
  ie_artifact_id : SourceArtifactId;
  ie_manifest_relative_path : string;
  ie_size_bytes : N;
  ie_sha256 : ContentSha256;
}.

(** [DerivedOutputRole] (normalization/manifest.rs:88-91). *)
Inductive DerivedOutputRole := OutVideoLeft | OutVideoRight.

#[global] Instance DerivedOutputRole_eq_dec : EqDecision DerivedOutputRole.
Proof. solve_decision. Defined.

(** [DerivedOutputEntry] (normalization/manifest.rs:94-105). *)
Record DerivedOutputEntry := mkOutputEntry {
  do_relative_path : string;
  do_role : DerivedOutputRole;
  do_segment_index : N;
  do_first_frame : N;
  do_frame_count : N;
  do_start_ticks : N;
  do_duration_ticks : N;
  do_size_bytes : N;
  do_sha256 : ContentSha256;
  do_media_type : string;
}.

(** [output_entry] (normalization/manifest.rs:729-746). *)
Definition output_entry (plan : SegmentPairPlan) (output : OutputMediaEvidence) (role : DerivedOutputRole)
    : DerivedOutputEntry :=
  mkOutputEntry (oe_manifest_relative_path output) role (sp_segment_index plan) (sp_first_frame plan)
    (sp_frame_count plan) (sp_start_ticks plan) (oe_duration_ticks output) (oe_size_bytes output) (oe_sha256 output)
    "video/mp4".

(** [SegmentValidationSummary] (normalization/manifest.rs:155-163). *)
Record SegmentValidationSummary := mkSummary {
  vs_segment_index : N;
  vs_structural : Verdict;
  vs_full_decode : Verdict;
  vs_sync : Verdict;
  vs_quality : Verdict;
  vs_left_quality : QualityEvidence;
  vs_right_quality : QualityEvidence;
}.

(** [SegmentValidationSummary::from_report] (normalization/manifest.rs:166-176). *)
Definition from_report (r : SegmentValidationReport) : SegmentValidationSummary :=
  mkSummary (vr_segment_index r) (vr_structural r) (vr_full_decode r) (vr_sync r) (vr_quality r) (vr_left_quality r)
    (vr_right_quality r).

(** [SegmentValidationSummary::passed] (normalization/manifest.rs:184-189). *)
Definition summary_passed (s : SegmentValidationSummary) : bool :=
  vd_passed (vs_structural s) && vd_passed (vs_full_decode s) && vd_passed (vs_sync s) && vd_passed (vs_quality s).

(** [SegmentPairCheckpoint] (normalization/manifest.rs:205-214). *)
Record SegmentPairCheckpoint := mkPairCheckpoint {
  pc_segment_index : N;
  pc_profile_revision : ProfileRevision;
  pc_encoder_build_fingerprint : EncoderBuildFingerprint;
  pc_left : DerivedOutputEntry;
  pc_right : DerivedOutputEntry;
  pc_validation : SegmentValidationSummary;
  pc_published_pair_relative_path : string;
  pc_pair_commit_receipt : string;
}.

#[global] Instance DerivedSubject_eq_dec : EqDecision DerivedSubject.
Proof. solve_decision. Defined.
#[global] Instance InputInventoryEntry_eq_dec : EqDecision InputInventoryEntry.
Proof. solve_decision. Defined.
#[global] Instance DerivedOutputEntry_eq_dec : EqDecision DerivedOutputEntry.
Proof. solve_decision. Defined.
#[global] Instance SegmentValidationSummary_eq_dec : EqDecision SegmentValidationSummary.
Proof. solve_decision. Defined.
#[global] Instance SegmentPairCheckpoint_eq_dec : EqDecision SegmentPairCheckpoint.
Proof. solve_decision. Defined.

(** [SegmentPairCheckpoint::from_validated_pair] (normalization/manifest.rs:217-254). *)
Definition from_validated_pair (plan : SegmentPairPlan) (validated : ValidatedSegmentPair)
    (profile : NormalizationProfile) (encoder_build : EncoderBuild) (published_pair_relative_path pair_commit_receipt : string)
    : result DerivedManifestError SegmentPairCheckpoint :=
  let report := vp_report validated in
  if negb (sp_segment_index plan =? vr_segment_index report)%N
  then Err (CheckpointPlanMismatch (vr_segment_index report)) else
  let? _ := rmap_err DmProfile (require_compatible_encoder profile encoder_build) in
  let? _ := validate_manifest_path published_pair_relative_path in
  let? _ := validate_manifest_text "pair_commit_receipt" pair_commit_receipt 512 in
  let validation := from_report report in
  if negb (summary_passed validation) then Err (ValidationFailed (sp_segment_index plan))
  else Ok (mkPairCheckpoint (sp_segment_index plan) (np_profile_revision profile) (eb_build_fingerprint encoder_build)
             (output_entry plan (vr_left report) OutVideoLeft) (output_entry plan (vr_right report) OutVideoRight)
             validation published_pair_relative_path pair_commit_receipt).

(** [DerivedManifestMaterial] (normalization/manifest.rs:298-313). *)
Record DerivedManifestMaterial := mkManifestMaterial {
  dm_schema_version : N;
  dm_subject : DerivedSubject;
  dm_source_content_revision : SourceContentRevision;
  dm_source_provenance : SourceProvenance;
  dm_source_inventory_digest : InventoryDigest;
  dm_source_manifest_digest : SourceManifestDigest;
  dm_normalization_profile_revision : ProfileRevision;
  dm_encoder : EncoderBuild;
  dm_media_plan : MediaPlan;
  dm_input_inventory : list InputInventoryEntry;
  dm_output_inventory : list DerivedOutputEntry;
  dm_segment_validation : list SegmentValidationSummary;
  dm_transcode_generation : TranscodeGeneration;
  dm_created_at : string;
}.

(** [DerivedManifestDocument] (normalization/manifest.rs:316-320). *)
Record DerivedManifestDocument := mkDocument { dd_material : DerivedManifestMaterial; dd_derived_revision : DerivedRevision }.

(** [DerivedManifest] (normalization/manifest.rs:325-329). *)
Record DerivedManifest := mkManifest {
  mf_material : DerivedManifestMaterial;
  mf_derived_revision : DerivedRevision;
  mf_canonical_bytes : list byte;
}.

Definition output_matches (pair : SegmentPairPlan) (o : DerivedOutputEntry) : bool :=
  (do_first_frame o =? sp_first_frame pair)%N && (do_frame_count o =? sp_frame_count pair)%N
  && (do_start_ticks o =? sp_start_ticks pair)%N.

Definition has_role (role : DerivedOutputRole) (outputs : list DerivedOutputEntry) : bool :=
  existsb (fun o => bool_decide (do_role o = role)) outputs.

Definition pair_inventory_ok (inventory : list DerivedOutputEntry) (pair : SegmentPairPlan) : bool :=
  let outputs := List.filter (fun o => do_segment_index o =? sp_segment_index pair)%N inventory in
  (length outputs =? 2)%nat && has_role OutVideoLeft outputs && has_role OutVideoRight outputs
  && forallb (output_matches pair) outputs.

(** [validate_manifest_inventory] (normalization/manifest.rs:748-801); twice a list's length is in
    the range of [usize]. *)
Definition validate_manifest_inventory (m : DerivedManifestMaterial) : result DerivedManifestError unit :=
  let pairs := mp_segment_pairs (dm_media_plan m) in
  let input_ids := sorted_set (map ie_artifact_id (dm_input_inventory m)) in
  let output_paths := sorted_set (map do_relative_path (dm_output_inventory m)) in
  if negb (length input_ids =? length (dm_input_inventory m))%nat
     || negb (length output_paths =? length (dm_output_inventory m))%nat
     || negb (length (dm_output_inventory m) =? length pairs * 2)%nat
     || negb (length (dm_segment_validation m) =? length pairs)%nat
     || existsb (fun s => negb (summary_passed s)) (dm_segment_validation m)
  then Err InvalidInventory
  else if forallb (pair_inventory_ok (dm_output_inventory m)) pairs then Ok tt else Err InvalidInventory.

(** [canonical_json] and [serde_json::from_slice] of manifests: distinct contents have distinct
    texts, and a text of a document reads back as the document. *)
Class ManifestText := {
  material_text : DerivedManifestMaterial -> result string (list byte);
  document_text : DerivedManifestDocument -> result string (list byte);
  document_parse : list byte -> result string DerivedManifestDocument;
  material_text_inj : forall a b text, material_text a = Ok text -> material_text b = Ok text -> a = b;
  document_text_parse : forall d text, document_text d = Ok text -> document_parse text = Ok d;
}.

(** [DerivedManifestBuilder] (normalization/manifest.rs:429-439). *)
Record DerivedManifestBuilder := mkBuilder {
  bd_subject : DerivedSubject;
  bd_local_source : LocalSourceReceipt;
  bd_source_manifest_digest : SourceManifestDigest;
  bd_input : NormalizationInput;
  bd_media_plan : MediaPlan;
  bd_profile : NormalizationProfile;
  bd_encoder_build : EncoderBuild;
  bd_created_at : string;
  bd_checkpoints : list SegmentPairCheckpoint;
}.

(** [DerivedManifestBuilder::new] (normalization/manifest.rs:443-472). *)
Definition DerivedManifestBuilder_new (subject : DerivedSubject) (local_source : LocalSourceReceipt)
    (source_manifest_digest : SourceManifestDigest) (input : NormalizationInput) (media_plan : MediaPlan)
    (profile : NormalizationProfile) (encoder_build : EncoderBuild) (created_at : string)
    : result DerivedManifestError DerivedManifestBuilder :=
  if negb (bool_decide (input_kind input = mp_source_kind media_plan))
     || negb (bool_decide (mp_profile_revision media_plan = np_profile_revision profile))
  then Err PlanProfileMismatch else
  let? _ := rmap_err DmProfile (require_compatible_encoder profile encoder_build) in
  let? _ := validate_manifest_text "derived_created_at" created_at 128 in
  Ok (mkBuilder subject local_source source_manifest_digest input media_plan profile encoder_build created_at []).

(** [BTreeMap::insert] and [contains_key] on checkpoints by their index. *)
Fixpoint insert_checkpoint (c : SegmentPairCheckpoint) (cs : list SegmentPairCheckpoint) : list SegmentPairCheckpoint :=
  match cs with
  | [] => [c]
  | d :: rest =>
      if (pc_segment_index c <? pc_segment_index d)%N then c :: cs
      else if (pc_segment_index c =? pc_segment_index d)%N then c :: rest
      else d :: insert_checkpoint c rest
  end.

Definition has_checkpoint (index : N) (cs : list SegmentPairCheckpoint) : bool :=
  existsb (fun c => pc_segment_index c =? index)%N cs.

(** [DerivedManifestBuilder::add_checkpoint] (normalization/manifest.rs:474-497): the builder after the call,
    with its answer; a duplicate has replaced the old one. *)
Definition add_checkpoint (b : DerivedManifestBuilder) (c : SegmentPairCheckpoint)
    : DerivedManifestBuilder * result DerivedManifestError unit :=
  if negb (bool_decide (pc_profile_revision c = np_profile_revision (bd_profile b)))
     || negb (bool_decide (pc_encoder_build_fingerprint c = eb_build_fingerprint (bd_encoder_build b)))
     || negb (bool_decide (is_Some (segment_pair (bd_media_plan b) (pc_segment_index c))))
  then (b, Err (CheckpointPlanMismatch (pc_segment_index c)))
  else
    (mkBuilder (bd_subject b) (bd_local_source b) (bd_source_manifest_digest b) (bd_input b) (bd_media_plan b)
       (bd_profile b) (bd_encoder_build b) (bd_created_at b) (insert_checkpoint c (bd_checkpoints b)),
     if has_checkpoint (pc_segment_index c) (bd_checkpoints b) then Err DuplicateCheckpoint else Ok tt).

Definition input_entry (a : ResolvedSourceArtifact) : InputInventoryEntry :=
  mkInputEntry (ra_id a) (ra_manifest_relative_path a) (ra_expected_size_bytes a) (ra_expected_sha256 a).

(** [UploadBundleManifestInput] (normalization/manifest.rs:568-577). *)
Record UploadBundleManifestInput := mkBundleInput {
  ub_subject : DerivedSubject;
  ub_source_content_revision : SourceContentRevision;
  ub_source_provenance : SourceProvenance;
  ub_source_manifest_digest : SourceManifestDigest;
  ub_profile_revision : ProfileRevision;
  ub_derived_revision : DerivedRevision;
  ub_output_inventory : list DerivedOutputEntry;
  ub_derived_manifest_canonical_bytes : list byte;
}.

#[global] Instance UploadBundleManifestInput_eq_dec : EqDecision UploadBundleManifestInput.
Proof. solve_decision. Defined.

(** [DerivedManifest::upload_bundle_input] (normalization/manifest.rs:415-426). *)
Definition upload_bundle_input (m : DerivedManifest) : UploadBundleManifestInput :=
  let material := mf_material m in
  mkBundleInput (dm_subject material) (dm_source_content_revision material) (dm_source_provenance material)
    (dm_source_manifest_digest material) (dm_normalization_profile_revision material) (mf_derived_revision m)
    (dm_output_inventory material) (mf_canonical_bytes m).

(** [DerivedCompletion] (normalization/manifest.rs:624-632). *)
Record DerivedCompletion := mkCompletion {
  dc_source_content_revision : SourceContentRevision;
  dc_profile_revision : ProfileRevision;
  dc_derived_revision : DerivedRevision;
  dc_local_relative_path : string;
  dc_local_commit_receipt : string;
  dc_committed_at : string;
  dc_upload_bundle_input : UploadBundleManifestInput;
}.

#[global] Instance DerivedCompletion_eq_dec : EqDecision DerivedCompletion.
Proof. solve_decision. Defined.

(** [DerivedCompletion::new] (normalization/manifest.rs:635-656). *)
Definition DerivedCompletion_new (manifest : DerivedManifest) (local_relative_path local_commit_receipt committed_at : string)
    : result DerivedManifestError DerivedCompletion :=
  let? _ := validate_manifest_path local_relative_path in
  let? _ := validate_manifest_text "derived_local_commit_receipt" local_commit_receipt 512 in
  let? _ := validate_manifest_text "derived_committed_at" committed_at 128 in
  Ok (mkCompletion (dm_source_content_revision (mf_material manifest))
        (dm_normalization_profile_revision (mf_material manifest)) (mf_derived_revision manifest) local_relative_path
        local_commit_receipt committed_at (upload_bundle_input manifest)).

Section manifest.
Context `{ManifestText, Sha256}.

Definition canonical_error (message : string) : DerivedManifestError := DmIdentity (CanonicalJsonFailed message).

(** [DerivedManifestBuilder::build, material] (normalization/manifest.rs:516-551). *)
Definition build_material (b : DerivedManifestBuilder) : DerivedManifestMaterial :=
  let checkpoints := bd_checkpoints b in
  mkManifestMaterial DERIVED_MANIFEST_SCHEMA_VERSION (bd_subject b) (lr_content_revision (bd_local_source b))
    (lr_provenance (bd_local_source b)) (lr_inventory_digest (bd_local_source b)) (bd_source_manifest_digest b)
    (np_profile_revision (bd_profile b)) (bd_encoder_build b) (bd_media_plan b)
    (map input_entry (input_artifacts (bd_input b)))
    (flat_map (fun c => [pc_left c; pc_right c]) checkpoints) (map pc_validation checkpoints)
    (pm_transcode_generation (np_revision_material (bd_profile b))) (bd_created_at b).

(** [DerivedManifestBuilder::build] (normalization/manifest.rs:499-564). *)
Definition build (b : DerivedManifestBuilder) : result DerivedManifestError DerivedManifest :=
  let? _ := rmap_err DmProfile (require_approved (bd_profile b)) in
  let? _ := rmap_err DmProfile (require_compatible_encoder (bd_profile b) (bd_encoder_build b)) in
  let pairs := mp_segment_pairs (bd_media_plan b) in
  if negb (length (bd_checkpoints b) =? length pairs)%nat
     || existsb (fun p => negb (has_checkpoint (sp_segment_index p) (bd_checkpoints b))) pairs
  then Err (IncompleteCheckpoints (N.of_nat (length pairs)) (N.of_nat (length (bd_checkpoints b)))) else
  let material := build_material b in
  let? _ := validate_manifest_inventory material in
  let? text := rmap_err canonical_error (material_text material) in
  let derived_revision := from_canonical_bytes text in
  let? canonical_bytes := rmap_err canonical_error (document_text (mkDocument material derived_revision)) in
  Ok (mkManifest material derived_revision canonical_bytes).

(** [DerivedManifest::parse_verified] (normalization/manifest.rs:332-357). *)
Definition parse_verified (bytes : list byte) : result DerivedManifestError DerivedManifest :=
  let? document := rmap_err Malformed (document_parse bytes) in
  let material := dd_material document in
  if negb (dm_schema_version material =? DERIVED_MANIFEST_SCHEMA_VERSION)%N
  then Err (UnsupportedSchema (dm_schema_version material)) else
  let? text := rmap_err canonical_error (material_text material) in
  let expected := from_canonical_bytes text in
  if negb (bool_decide (expected = dd_derived_revision document))
  then Err (DmRevisionMismatch expected (dd_derived_revision document)) else
  let? canonical_bytes := rmap_err canonical_error (document_text document) in
  if negb (bool_decide (canonical_bytes = bytes)) then Err NonCanonical else
  let? _ := validate_manifest_inventory material in
  Ok (mkManifest material (dd_derived_revision document) canonical_bytes).

End manifest.
