(* ===== verification/ManifestProofs.v ===== *)
(** * ManifestProofs: what a validated pair and a derived manifest guarantee

A pair that passes the gates is what its plan and profile ask for, its
checkpoint says so, and a manifest is complete for its plan, named by the hash
of its content, and read back as it was written. *)

From Stdlib Require Import NArith ZArith Lia Ascii String Sorted.
From stdpp Require Import base numbers list strings.
From S2P Require Import Prelude Domain Files Json Ingest Rational Profile MediaPlan MediaPlanProofs.
From S2P Require Import Validation Manifest.

Local Open Scope N_scope.

(** ** Verdicts *)

Lemma check_nil c code eye : check c code eye = [] <-> c = true.
Proof. by destruct c. Qed.

Lemma app_nil_iff {A : Type} (a b : list A) : a ++ b = [] <-> a = [] /\ b = [].
Proof. split; [apply app_nil|by intros [-> ->]]. Qed.

Lemma from_issues_passed issues : vd_passed (from_issues issues) = true <-> issues = [].
Proof. unfold from_issues. simpl. by rewrite bool_decide_eq_true. Qed.

(** What one output of a pair is. *)
Record output_meets (plan : SegmentPairPlan) (profile : NormalizationProfile) (eye : Eye) (o : OutputMediaEvidence) : Prop := {
  om_identity : oe_eye o = eye /\ oe_profile_revision o = np_profile_revision profile /\
    oe_manifest_relative_path o = output_relative_path plan eye /\ 0 < oe_size_bytes o;
  om_encoding : oe_codec o = pm_codec (np_revision_material profile) /\
    oe_codec_profile o = pm_codec_profile (np_revision_material profile) /\
    oe_container o = pm_container (np_revision_material profile) /\
    oe_sample_entry o = pm_sample_entry (np_revision_material profile) /\
    oe_pixel_format o = pm_pixel_format (np_revision_material profile) /\
    oe_dimensions o = sp_eye_dimensions plan /\ oe_frame_rate o = sp_source_fps plan /\
    oe_time_base o = pm_time_base (np_revision_material profile) /\
    oe_video_track_count o = 1 /\ oe_audio_track_count o = 0;
  om_frames : oe_frame_count o = sp_frame_count plan /\ oe_fully_decoded o = true /\
    oe_decoded_frame_count o = sp_frame_count plan;
  om_gop : oe_first_frame_decodable o = true /\ oe_closed_gop o = true /\ oe_scene_cut_keyframes_detected o = false /\
    exists gop, (gop_frames profile (oe_frame_rate o) = Ok gop \/ gop = 0) /\
      gaps_ok gop (oe_frame_count o) (oe_keyframe_frames o) = true;
}.

(** The keyframes are the multiples of the fixed distance, up to the last frame. *)
Lemma fixed_gaps_multiples gop : 0 < gop -> forall frames first,
  fixed_gaps gop (first :: frames) = true ->
  forall k f, (first :: frames) !! k = Some f -> f = first + N.of_nat k * gop.
Proof.
  intros Hg. induction frames as [|b frames IH]; intros first Hf k f.
  - destruct k; simpl; [intros [= <-]; lia|done].
  - cbn [fixed_gaps] in Hf. apply andb_true_iff in Hf as [Hb%N.eqb_eq Hf]. destruct k as [|k]; [intros [= <-]; lia|].
    intros Hk. apply (IH b Hf k f) in Hk. lia.
Qed.

Lemma no_gaps_zero : forall frames, fixed_gaps 0 (0 :: frames) = true -> last (0 :: frames) = Some 0.
Proof.
  induction frames as [|b frames IH]; [done|]. cbn [fixed_gaps]. intros [Hb%N.eqb_eq Hf]%andb_true_iff.
  rewrite last_cons_cons. assert (b = 0) as -> by lia. by apply IH.
Qed.

Lemma gaps_ok_keyframes gop count keyframes :
  0 < count -> gaps_ok gop count keyframes = true ->
  0 < gop /\ (forall k f, keyframes !! k = Some f -> f = N.of_nat k * gop) /\
  count <= N.of_nat (length keyframes) * gop.
Proof.
  unfold gaps_ok. rewrite !andb_true_iff, bool_decide_eq_true. intros Hc [[Hh Hf] Hl].
  destruct keyframes as [|first keyframes]; [done|]. injection Hh as ->.
  destruct (N.eq_dec gop 0) as [->|Hg].
  { exfalso. rewrite (no_gaps_zero keyframes Hf) in Hl. apply N.leb_le in Hl. lia. }
  assert (Hm := fixed_gaps_multiples gop ltac:(lia) keyframes 0 Hf). split_and!; [lia| |].
  - intros k f Hk. apply Hm in Hk. lia.
  - destruct (last (0 :: keyframes)) as [e|] eqn:Ee; [|done]. apply N.leb_le in Hl. rewrite last_lookup in Ee.
    apply Hm in Ee. simpl length in *. simpl Nat.pred in Ee. lia.
Qed.

Lemma structure_meets plan profile o eye :
  validate_output_structure plan profile o eye = [] -> validate_full_decode plan o = [] -> output_meets plan profile eye o.
Proof.
  unfold validate_output_structure, validate_full_decode. rewrite !app_nil_iff, !check_nil, !bool_decide_eq_true.
  rewrite !String.eqb_eq, !N.eqb_eq, !N.ltb_lt, negb_true_iff, andb_true_iff, !N.eqb_eq.
  intros Hs Hd. destruct_and!. constructor; [by split_and!..|]. split_and!; [done|done|done|].
  destruct (gop_frames profile (oe_frame_rate o)) as [g|e]; [exists g; auto|exists 0; auto].
Qed.

(** Both outputs of a pair that passed, and its quality. *)
Record pair_meets (plan : SegmentPairPlan) (profile : NormalizationProfile) (r : SegmentValidationReport) : Prop := {
  pm_left : output_meets plan profile EyeLeft (vr_left r);
  pm_right : output_meets plan profile EyeRight (vr_right r);
  pm_stereo : oe_frame_count (vr_left r) = oe_frame_count (vr_right r) /\
    oe_keyframe_frames (vr_left r) = oe_keyframe_frames (vr_right r);
  pm_quality : Forall (fun q =>
      qe_vmaf_neg_model q = qt_vmaf_neg_model (pm_quality_thresholds (np_revision_material profile)) /\
      qt_vmaf_mean_milli_min (pm_quality_thresholds (np_revision_material profile)) <= qe_vmaf_mean_milli q /\
      qt_vmaf_frame_p01_milli_min (pm_quality_thresholds (np_revision_material profile)) <= qe_vmaf_frame_p01_milli q /\
      qt_ssim_mean_millionths_min (pm_quality_thresholds (np_revision_material profile)) <= qe_ssim_mean_millionths q)
    [vr_left_quality r; vr_right_quality r];
}.

Lemma evaluate_passed plan profile l r lq rq report :
  evaluate plan profile l r lq rq = Ok report -> report_passed report = true -> pair_meets plan profile report.
Proof.
  unfold evaluate. destruct (_ || _ || _ || _); [done|]. intros [= <-]. unfold report_passed. cbn [vr_structural vr_full_decode vr_sync vr_quality].
  rewrite !andb_true_iff, !from_issues_passed, !app_nil_iff. intros [[[[Hs1 Hs2] [Hd1 Hd2]] Hsync] [Hq1 Hq2]].
  unfold validate_sync in Hsync. rewrite !app_nil_iff, !check_nil, bool_decide_eq_true, N.eqb_eq in Hsync.
  constructor; cbn [vr_left vr_right vr_left_quality vr_right_quality].
  - by apply structure_meets.
  - by apply structure_meets.
  - by destruct_and!.
  - repeat constructor; unfold validate_quality in *; rewrite ?app_nil_iff, ?check_nil, ?String.eqb_eq, ?N.leb_le in *;
      by destruct_and!.
Qed.

(** A checkpoint stands for a pair that meets its plan.  If a report of
    [evaluate] became a validated pair and then a checkpoint for that plan:
    both eyes have exactly the planned frames, counted and decoded, at the
    planned path, size, rate and geometry and in the profile's codec, container
    and time base; their keyframes are equal, begin at frame 0 and are the
    multiples of one fixed distance that reach the end; every quality score is
    at its threshold or above; and the checkpoint carries the plan's place and
    times, the evidence's digests and the profile's and the build's identity. *)
Theorem checkpoint_meets_plan plan profile build l r lq rq report validated path receipt c :
  evaluate plan profile l r lq rq = Ok report -> try_from_report report = Ok validated ->
  from_validated_pair plan validated profile build path receipt = Ok c -> 0 < sp_frame_count plan ->
  pair_meets plan profile report /\
  (exists gop, 0 < gop /\ (forall k f, oe_keyframe_frames l !! k = Some f -> f = N.of_nat k * gop) /\
     sp_frame_count plan <= N.of_nat (length (oe_keyframe_frames l)) * gop) /\
  pc_left c = output_entry plan l OutVideoLeft /\ pc_right c = output_entry plan r OutVideoRight /\
  summary_passed (pc_validation c) = true /\ pc_segment_index c = sp_segment_index plan /\
  pc_profile_revision c = np_profile_revision profile /\ pc_encoder_build_fingerprint c = eb_build_fingerprint build.
Proof.
  intros He Ht Hc Hz. assert (Hrep : vp_report validated = report /\ report_passed report = true).
  { unfold try_from_report in Ht. case_decide as Hd; [|done]. injection Ht as <-. split; [done|by apply Is_true_eq_true]. }
  destruct Hrep as [Hrep Hp]. assert (Hm := evaluate_passed _ _ _ _ _ _ _ He Hp). split; [done|].
  unfold evaluate in He. destruct (_ || _ || _ || _); [done|]. injection He as <-. cbn [vr_left vr_right] in *. split.
  - destruct (om_gop _ _ _ _ (pm_left _ _ _ Hm)) as (_ & _ & _ & gop & _ & Hg). cbn in Hg.
    destruct (om_frames _ _ _ _ (pm_left _ _ _ Hm)) as (Hn & _). cbn in Hn. rewrite Hn in Hg. exists gop.
    by apply gaps_ok_keyframes.
  - unfold from_validated_pair in Hc. rewrite Hrep in Hc. destruct (negb _); [done|]. revert Hc.
    rewrite rbind_ok. intros (u1 & _ & Hr). revert Hr. rewrite rbind_ok. intros (u2 & _ & Hr). revert Hr.
    rewrite rbind_ok. intros (u3 & _ & Hr). revert Hr. destruct (summary_passed _) eqn:Es; [|done]. intros [= <-]. cbn.
    by split_and!.
Qed.

(** ** The manifest *)

Lemma has_role_find role outputs : has_role role outputs = true -> exists o, o ∈ outputs /\ do_role o = role.
Proof.
  unfold has_role. rewrite existsb_exists. intros (o & Hin & Hr%bool_decide_eq_true). exists o. split; [by apply list_elem_of_In|done].
Qed.

(** For a pair of the plan: one output for each eye, with the plan's place and start. *)
Definition pair_covered (inventory : list DerivedOutputEntry) (pair : SegmentPairPlan) : Prop :=
  exists l r, Permutation (List.filter (fun o => do_segment_index o =? sp_segment_index pair) inventory) [l; r] /\
    do_role l = OutVideoLeft /\ do_role r = OutVideoRight /\
    Forall (fun o => do_first_frame o = sp_first_frame pair /\ do_frame_count o = sp_frame_count pair /\
                     do_start_ticks o = sp_start_ticks pair) [l; r].

Lemma pair_inventory_covered inventory pair : pair_inventory_ok inventory pair = true -> pair_covered inventory pair.
Proof.
  unfold pair_inventory_ok, pair_covered. set (outputs := List.filter _ _).
  rewrite !andb_true_iff, Nat.eqb_eq. intros [[[Hl Hleft] Hright] Hall].
  assert (Hm : forall o, o ∈ outputs -> do_first_frame o = sp_first_frame pair /\ do_frame_count o = sp_frame_count pair /\
    do_start_ticks o = sp_start_ticks pair).
  { rewrite forallb_forall in Hall. intros o Ho%list_elem_of_In%Hall. unfold output_matches in Ho.
    rewrite !andb_true_iff, !N.eqb_eq in Ho. tauto. }
  apply has_role_find in Hleft as (l & Hl1 & Hl2), Hright as (r & Hr1 & Hr2).
  destruct outputs as [|a [|b [|]]]; try done. rewrite !elem_of_cons, elem_of_nil in Hl1, Hr1.
  assert (Hne : l <> r) by congruence.
  exists l, r. split_and!; [|done|done|repeat constructor; by apply Hm; rewrite !elem_of_cons; tauto].
  destruct Hl1 as [->|[->|[]]], Hr1 as [->|[->|[]]]; try done. by apply Permutation_swap.
Qed.

(** A set's list is strictly sorted, so an insertion that grows it adds a new key. *)
Definition key_lt (a b : string) : Prop := String.compare a b = Lt.

#[global] Instance key_lt_trans : Transitive key_lt.
Proof.
  unfold key_lt. intros a. induction a as [|x a IH]; intros [|y b] [|z c]; try done. simpl.
  destruct (Ascii.compare x y) eqn:Exy; [|intros _|done].
  - apply Ascii.compare_eq_iff in Exy as ->. destruct (Ascii.compare y z); [apply IH|done..].
  - destruct (Ascii.compare y z) eqn:Eyz; [|intros _|done].
    + apply Ascii.compare_eq_iff in Eyz as <-. by rewrite Exy.
    + revert Exy Eyz. unfold Ascii.compare. rewrite !N.compare_lt_iff. intros Hxy Hyz.
      by rewrite (proj2 (N.compare_lt_iff _ _) (N.lt_trans _ _ _ Hxy Hyz)).
Qed.

Lemma key_lt_irrefl a : ~ key_lt a a.
Proof.
  unfold key_lt. intros He. assert (Ha := String.compare_antisym a a). rewrite He in Ha. done.
Qed.

Definition keys_sorted (s : list (string * unit)) : Prop := StronglySorted key_lt (map fst s).

Lemma obj_insert_grows key s :
  keys_sorted s ->
  keys_sorted (obj_insert key tt s) /\
  (length (obj_insert key tt s) <= S (length s))%nat /\
  (length (obj_insert key tt s) = S (length s) -> key ∉ map fst s).
Proof.
  unfold keys_sorted. induction s as [|[k v] s IH]; intros Hs.
  { simpl. split_and!; [by repeat constructor|done|]. intros _. apply not_elem_of_nil. }
  apply StronglySorted_inv in Hs as [Hs Hk]. fold (map (@fst string unit)) in *.
  destruct (IH Hs) as (Hs' & Hl & Hn). simpl. destruct (String.compare key k) eqn:E.
  - apply String.compare_eq_iff in E as ->. simpl. split_and!; [by constructor|lia|lia].
  - simpl. split_and!; [|lia|].
    + constructor; [by constructor|]. constructor; [done|]. eapply Forall_impl; [exact Hk|]. intros x Hx. by etrans.
    + intros _. rewrite elem_of_cons. intros [->|Hin]; [by eapply key_lt_irrefl|].
      rewrite Forall_forall in Hk. apply Hk in Hin. eapply key_lt_irrefl. by etrans.
  - assert (Hlt : key_lt k key) by (unfold key_lt; rewrite String.compare_antisym, E; done). simpl. split_and!; [|lia|].
    + constructor; [done|]. apply Forall_forall. intros x [->|Hx]%obj_insert_keys; [done|].
      rewrite Forall_forall in Hk. by apply Hk.
    + intros He. rewrite elem_of_cons. intros [->|Hin]; [by eapply key_lt_irrefl|]. by apply Hn; [lia|].
Qed.

Lemma set_fold_grows ids : forall s, keys_sorted s ->
  (length (fold_left (fun s id => obj_insert id tt s) ids s) <= length ids + length s)%nat /\
  (length (fold_left (fun s id => obj_insert id tt s) ids s) = (length ids + length s)%nat ->
   NoDup ids /\ forall k, k ∈ ids -> k ∉ map fst s)%nat.
Proof.
  induction ids as [|id ids IH]; intros s Hs; simpl.
  { split; [lia|]. intros _. split; [constructor|]. by intros k ?%elem_of_nil. }
  destruct (obj_insert_grows id s Hs) as (Hs' & Hl & Hn). destruct (IH _ Hs') as [IHl IHn]. split; [lia|].
  intros He. destruct IHn as [Hd Hk]; [lia|]. split.
  - constructor; [|done]. intros Hin%Hk. apply Hin. rewrite obj_insert_keys. by left.
  - intros k [->|Hin]%elem_of_cons; [apply Hn; lia|]. intros Hks. apply (Hk k Hin). rewrite obj_insert_keys. by right.
Qed.

Lemma sorted_set_nodup ids : length (sorted_set ids) = length ids -> NoDup ids.
Proof.
  unfold sorted_set. rewrite length_map. intros Hl.
  destruct (set_fold_grows ids [] ltac:(by constructor)) as [_ Hn]. apply Hn. rewrite Hl. simpl. lia.
Qed.

(** What the inventory of a manifest holds. *)
Record inventory_complete (m : DerivedManifestMaterial) : Prop := {
  ic_pairs : Forall (pair_covered (dm_output_inventory m)) (mp_segment_pairs (dm_media_plan m));
  ic_outputs : length (dm_output_inventory m) = (length (mp_segment_pairs (dm_media_plan m)) * 2)%nat;
  ic_paths : NoDup (map do_relative_path (dm_output_inventory m));
  ic_inputs : NoDup (map ie_artifact_id (dm_input_inventory m));
  ic_validation : length (dm_segment_validation m) = length (mp_segment_pairs (dm_media_plan m)) /\
    Forall (fun s => summary_passed s = true) (dm_segment_validation m);
}.

Lemma validate_inventory_ok m : validate_manifest_inventory m = Ok tt -> inventory_complete m.
Proof.
  unfold validate_manifest_inventory. destruct (_ || _) eqn:E; [done|]. destruct (forallb _ _) eqn:Ep; [|done]. intros _.
  rewrite !orb_false_iff, !negb_false_iff, !Nat.eqb_eq in E. destruct E as [[[[Hi Ho] Hn] Hv] Hs]. constructor.
  - apply Forall_forall. intros pair Hin%list_elem_of_In. rewrite forallb_forall in Ep. by apply pair_inventory_covered, Ep.
  - done.
  - apply sorted_set_nodup. by rewrite Ho, length_map.
  - apply sorted_set_nodup. by rewrite Hi, length_map.
  - split; [done|]. apply Forall_forall. intros s Hin%list_elem_of_In.
    destruct (summary_passed s) eqn:Es; [done|]. enough (existsb (fun s => negb (summary_passed s)) (dm_segment_validation m) = true) by congruence.
    apply existsb_exists. exists s. by rewrite Es.
Qed.

Section manifests.
Context `{ManifestText, Sha256}.

Lemma build_ok b m :
  build b = Ok m ->
  is_approved (np_release_status (bd_profile b)) = true /\
  eb_compatibility_class (bd_encoder_build b) = pm_encoder_compatibility_class (np_revision_material (bd_profile b)) /\
  mf_material m = build_material b /\ inventory_complete (build_material b) /\
  validate_manifest_inventory (build_material b) = Ok tt /\
  exists text, material_text (build_material b) = Ok text /\ mf_derived_revision m = from_canonical_bytes text /\
  document_text (mkDocument (build_material b) (from_canonical_bytes text)) = Ok (mf_canonical_bytes m).
Proof.
  unfold build. rewrite rbind_ok. intros (u1 & Ha & Hr). revert Hr. rewrite rbind_ok. intros (u2 & He & Hr). revert Hr.
  destruct (_ || _); [done|]. rewrite rbind_ok. intros (u3 & Hv & Hr). revert Hr.
  rewrite rbind_ok. intros (text & Ht & Hr). revert Hr. rewrite rbind_ok. intros (bytes & Hb & Hr). injection Hr as <-.
  apply rmap_err_ok in Ha, He, Ht, Hb. destruct u3. cbn [mf_material mf_derived_revision mf_canonical_bytes].
  unfold require_approved in Ha. unfold require_compatible_encoder in He.
  destruct (is_approved _); [|done]. destruct (String.eqb_spec (eb_compatibility_class (bd_encoder_build b))
    (pm_encoder_compatibility_class (np_revision_material (bd_profile b)))); [|done].
  split_and!; [done|done|done|by apply validate_inventory_ok|done|]. by exists text.
Qed.

Lemma parse_verified_ok bytes m :
  parse_verified bytes = Ok m ->
  document_parse bytes = Ok (mkDocument (mf_material m) (mf_derived_revision m)) /\ mf_canonical_bytes m = bytes /\
  inventory_complete (mf_material m) /\
  document_text (mkDocument (mf_material m) (mf_derived_revision m)) = Ok bytes /\
  exists text, material_text (mf_material m) = Ok text /\ mf_derived_revision m = from_canonical_bytes text.
Proof.
  unfold parse_verified. rewrite rbind_ok. intros (d & Hd & Hr). revert Hr. cbv zeta. destruct (negb _); [done|].
  rewrite rbind_ok. intros (text & Ht & Hr). revert Hr. case_bool_decide as Hrev; simpl; [|done].
  rewrite rbind_ok. intros (cb & Hc & Hr). revert Hr. case_bool_decide as Hbytes; simpl; [|done]. rewrite rbind_ok.
  intros ([] & Hv & Hr). injection Hr as <-. apply rmap_err_ok in Hd, Ht, Hc. subst cb.
  cbn [mf_material mf_derived_revision mf_canonical_bytes].
  split_and!; [by destruct d|done|by apply validate_inventory_ok|by destruct d|]. by exists text.
Qed.

Lemma canonical_bytes_sha a b : from_canonical_bytes a = from_canonical_bytes b -> sha256 a = sha256 b.
Proof.
  intros E%(f_equal digest_text). cbn [digest_text from_canonical_bytes from_material] in E.
  apply (inj (String.append _)), (f_equal hex_bytes) in E. rewrite !hex_bytes_to_hex in E. by injection E.
Qed.


(** A manifest reads back as what was built.  The bytes of a built manifest
    pass [parse_verified] and give the same manifest; and any bytes that parse to
    a manifest of the same revision are these very bytes, with the same content,
    unless the two texts that were hashed differ and have the same SHA-256. *)
Theorem derived_manifest_roundtrip b m :
  build b = Ok m ->
  parse_verified (mf_canonical_bytes m) = Ok m /\
  forall bytes m', parse_verified bytes = Ok m' -> mf_derived_revision m' = mf_derived_revision m ->
    (bytes = mf_canonical_bytes m /\ m' = m) \/
    exists x y, material_text (mf_material m) = Ok x /\ material_text (mf_material m') = Ok y /\ x <> y /\
      sha256 x = sha256 y.
Proof.
  intros (_ & _ & Hm & _ & Hv & text & Ht & Hr & Hb)%build_ok. rewrite <- Hm in Hv, Ht, Hb. split.
  - unfold parse_verified. rewrite (document_text_parse _ _ Hb). cbn. rewrite Hm at 1. cbn. rewrite Ht. cbn.
    rewrite bool_decide_true by done. cbn. rewrite Hb. cbn. rewrite bool_decide_true by done. cbn. rewrite Hv. cbn.
    rewrite <- Hr. by destruct m.
  - intros bytes m' (_ & Hc' & _ & Hd' & text' & Ht' & Hr')%parse_verified_ok Heq.
    destruct (decide (text = text')) as [<-|Hne].
    + left. assert (Em := material_text_inj _ _ _ Ht' Ht). rewrite Em, Heq, Hr in Hd'. rewrite Hb in Hd'.
      injection Hd' as <-. split; [done|]. destruct m, m'. simpl in *. congruence.
    + right. exists text, text'. split_and!; [done|done|done|]. apply canonical_bytes_sha. congruence.
Qed.
End manifests.

(** ** A demo manifest *)

Module DemoManifest.
#[local] Existing Instance DemoSha.sha.
Local Open Scope string_scope.

Definition evidence : ProfileApprovalEvidence :=
  let d := from_material "sha256:" [] in mkEvidence d d d d d d "2024-01-01T00:00:00Z".
Definition profile : NormalizationProfile :=
  match approve DemoPlan.profile evidence with Ok p => p | Err _ => DemoPlan.profile end.
Definition encoder : EncoderBuild :=
  mkBuild "x265" "3.5" (from_material "sha256:" [Byte.x01]) X265_SOFTWARE_COMPATIBILITY_V1 [].
Definition source : LocalSourceReceipt :=
  mkSourceReceipt (from_material "sha256:" []) (from_material "sha256:" []) (mkSafePath "sess-1" eq_refl) "commit-1"
    (SpLocallyValidatedUnsigned (mkUnsigned DeviceSessionV1 [] None None)) "2024-01-01T00:00:00Z".

(** Keyframes every sixty frames, from the first. *)
Definition keyframes (count : N) : list N := map (fun k => N.of_nat k * 60)%N (seq 0 (N.to_nat (count / 60))).

Definition output (p : SegmentPairPlan) (eye : Eye) : OutputMediaEvidence :=
  mkEvidenceOf eye "left.partial.mp4" (output_relative_path p eye) (np_profile_revision profile) 10 (from_material "" [])
    Hevc Main Mp4 Hvc1 Yuv420p (sp_eye_dimensions p) (sp_source_fps p) DemoPlan.tb (sp_frame_count p) (sp_duration_ticks p)
    1 0 true true false (keyframes (sp_frame_count p)) true (sp_frame_count p).
Definition quality (eye : Eye) : QualityEvidence :=
  mkQuality eye "vmaf_v0.6.1neg" 96000 91000 995000 true (from_material "" []).

Definition first : SegmentPairPlan :=
  default (mkPair 0 0 0 0 0 DemoPlan.fps (mkDimensions 0 0) (mkEyeInput EyeLeft [] None) (mkEyeInput EyeRight [] None) "" "")
    (head (mp_segment_pairs DemoPlan.plan)).

Definition validated (p : SegmentPairPlan) : option ValidatedSegmentPair :=
  match evaluate p profile (output p EyeLeft) (output p EyeRight) (quality EyeLeft) (quality EyeRight) with
  | Ok r => match try_from_report r with Ok v => Some v | Err _ => None end
  | Err _ => None
  end.

Definition checkpoint (p : SegmentPairPlan) : option SegmentPairCheckpoint :=
  v ← validated p;
  match from_validated_pair p v profile encoder "pairs/0" "receipt" with Ok c => Some c | Err _ => None end.

Lemma first_checkpointed : match checkpoint first with Some _ => true | None => false end = true.
Proof. vm_compute. reflexivity. Qed.

Definition builder : DerivedManifestBuilder :=
  fold_left (fun b c => fst (add_checkpoint b c)) (omap checkpoint (mp_segment_pairs DemoPlan.plan))
    (mkBuilder (mkSubject "device" "sess-1") source (from_material "sha256:" []) DemoPlan.input DemoPlan.plan profile
       encoder "2024-01-02T00:00:00Z" []).

Definition material : DerivedManifestMaterial := build_material builder.

#[local] Instance DerivedManifestMaterial_eq_dec : EqDecision DerivedManifestMaterial.
Proof. solve_decision. Defined.
#[local] Instance DerivedManifestDocument_eq_dec : EqDecision DerivedManifestDocument.
Proof. solve_decision. Defined.

(** A serializer that knows one manifest. *)
Definition text (m : DerivedManifestMaterial) : result string (list byte) :=
  if decide (m = material) then Ok [Byte.x01] else Err "unknown".
Definition document : DerivedManifestDocument := mkDocument material (from_canonical_bytes [Byte.x01]).
Definition whole (d : DerivedManifestDocument) : result string (list byte) :=
  if decide (d = document) then Ok [Byte.x02] else Err "unknown".
Definition read (bytes : list byte) : result string DerivedManifestDocument :=
  if decide (bytes = [Byte.x02]) then Ok document else Err "unknown".

Lemma demo_text_inj a b t : text a = Ok t -> text b = Ok t -> a = b.
Proof. unfold text. do 2 (case_decide; [|done]). by subst. Qed.
Lemma whole_read d t : whole d = Ok t -> read t = Ok d.
Proof. unfold whole, read. case_decide; [|done]. intros [= <-]. by subst. Qed.

#[global] Instance serializer : ManifestText :=
  {| material_text := text; document_text := whole; document_parse := read; material_text_inj := demo_text_inj;
     document_text_parse := whole_read |}.

Lemma inventory_valid : validate_manifest_inventory material = Ok tt.
Proof. vm_compute. reflexivity. Qed.

Definition manifest : DerivedManifest := mkManifest material (from_canonical_bytes [Byte.x01]) [Byte.x02].

Lemma built : build builder = Ok manifest.
Proof.
  assert (Ha : require_approved (bd_profile builder) = Ok tt) by by vm_compute.
  assert (He : require_compatible_encoder (bd_profile builder) (bd_encoder_build builder) = Ok tt) by by vm_compute.
  unfold build. rewrite Ha, He. cbn [rbind rmap_err].
  destruct (_ || _) eqn:E; [exfalso; revert E; by vm_compute|]. fold material. rewrite inventory_valid. cbn [rbind].
  unfold material_text, serializer, text. rewrite decide_True by done. cbn [rbind rmap_err]. fold document.
  unfold document_text, whole. by rewrite decide_True by done.
Qed.

(** Without its last pair the manifest is not built, and a duplicate is refused. *)
Example missing_pair_refused :
  build (mkBuilder (bd_subject builder) source (bd_source_manifest_digest builder) DemoPlan.input DemoPlan.plan profile encoder
    "2024-01-02T00:00:00Z" (take 1 (bd_checkpoints builder))) = Err (IncompleteCheckpoints 2 1).
Proof. vm_compute. reflexivity. Qed.
End DemoManifest.

#[local] Existing Instance DemoSha.sha.

Lemma checkpoint_meets_plan_witness :
  exists report, report_passed report = true /\ pair_meets DemoManifest.first DemoManifest.profile report.
Proof.
  assert (Hc := DemoManifest.first_checkpointed). unfold DemoManifest.checkpoint, DemoManifest.validated in Hc.
  destruct (evaluate _ _ _ _ _ _) as [r|] eqn:He; [|done]. destruct (try_from_report r) as [v|] eqn:Ht; [|done]. simpl in Hc.
  destruct (from_validated_pair _ _ _ _ _ _) as [c|] eqn:Hf; [|done].
  destruct (checkpoint_meets_plan _ _ _ _ _ _ _ _ _ _ _ _ He Ht Hf) as [Hm _]; [by vm_compute|]. exists r.
  split; [|exact Hm]. unfold try_from_report in Ht. case_decide as Hp; [by apply Is_true_eq_true|done].
Defined.


Lemma derived_manifest_roundtrip_witness : parse_verified [Byte.x02] = Ok DemoManifest.manifest.
Proof. exact (proj1 (derived_manifest_roundtrip _ _ DemoManifest.built)). Defined.
