(* ===== verification/Derivation.v ===== *)
(** * Derivation: the derivation job and its reducer (normalization/job.rs)

One derivation turns an imported recording into normalized pairs: probe, plan,
encode pair by pair, validate, commit.  [decide] answers a command with effects
and changes nothing; [apply_committed_effect] replays one durable effect;
[rehydrate] rebuilds a job from its snapshot.  The checkpoints are a [BTreeMap]
by segment index, a list in key order. *)

From Stdlib Require Import NArith ZArith Lia Ascii String.
From stdpp Require Import base numbers list strings.
From S2P Require Import Prelude Domain Files Json Ingest Rational Profile MediaPlan Validation Manifest.

Local Open Scope string_scope.

(** [DerivationSpec] (normalization/job.rs:14-23). *)
Record DerivationSpec := mkDerivationSpec {
  dv_job_id : DerivationJobId;
  dv_subject : DerivedSubject;
  dv_local_source : LocalSourceReceipt;
  dv_source_manifest_digest : SourceManifestDigest;
  dv_profile : NormalizationProfile;
  dv_encoder_build : EncoderBuild;
  dv_input : NormalizationInput;
  dv_created_at : string;
}.

#[global] Instance ResolvedSourceArtifact_eq_dec : EqDecision ResolvedSourceArtifact.
Proof. solve_decision. Defined.
#[global] Instance SourceSegment_eq_dec : EqDecision SourceSegment.
Proof. solve_decision. Defined.
#[global] Instance PairedSourceSegment_eq_dec : EqDecision PairedSourceSegment.
Proof. solve_decision. Defined.
#[global] Instance RawFrameEvidence_eq_dec : EqDecision RawFrameEvidence.
Proof. solve_decision. Defined.
#[global] Instance LegacyTimingEvidence_eq_dec : EqDecision LegacyTimingEvidence.
Proof. solve_decision. Defined.
#[global] Instance NormalizationInput_eq_dec : EqDecision NormalizationInput.
Proof. solve_decision. Defined.
#[global] Instance ProbedArtifact_eq_dec : EqDecision ProbedArtifact.
Proof. solve_decision. Defined.
#[global] Instance ProbeReport_eq_dec : EqDecision ProbeReport.
Proof. unfold ProbeReport. solve_decision. Defined.
#[global] Instance DerivationSpec_eq_dec : EqDecision DerivationSpec.
Proof. solve_decision. Defined.

(** [DerivationSpecError] (normalization/job.rs:123-132). *)
Inductive DerivationSpecError :=
| InvalidCreatedAt
| InputProfileMismatch
| InvalidSnapshot (detail : string)
| SpProfile (e : ProfileError).

#[global] Instance DerivationSpecError_eq_dec : EqDecision DerivationSpecError.
Proof. solve_decision. Defined.

(** [DerivationSpec::validate] (normalization/job.rs:52-69). *)
Definition validate_spec (s : DerivationSpec) : result DerivationSpecError unit :=
  if String.eqb (dv_created_at s) "" || (128 <? str_len (dv_created_at s))%N || has_control (dv_created_at s)
  then Err InvalidCreatedAt else
  let? _ := rmap_err SpProfile (require_compatible_encoder (dv_profile s) (dv_encoder_build s)) in
  if negb (accepts_source_codec (pm_quality_variant (np_revision_material (dv_profile s))) (source_codec (dv_input s)))
  then Err InputProfileMismatch else Ok tt.

(** [DerivationSpec::new] (normalization/job.rs:27-50), on the record its arguments make. *)
Definition DerivationSpec_new (s : DerivationSpec) : result DerivationSpecError DerivationSpec :=
  let? _ := validate_spec s in Ok s.

Definition spec_source_revision (s : DerivationSpec) : SourceContentRevision := lr_content_revision (dv_local_source s).
Definition spec_profile_revision (s : DerivationSpec) : ProfileRevision := np_profile_revision (dv_profile s).
Definition spec_fingerprint (s : DerivationSpec) : EncoderBuildFingerprint := eb_build_fingerprint (dv_encoder_build s).

(** [DerivationFailureCode] (normalization/job.rs:185-197). *)
Inductive DerivationFailureCode :=
| DfSourceUnavailable | DfProbeFailed | DfPlanRejected | DfEncoderFailed | DfValidationFailed | DfProfileUnapproved
| DfIntegrityMismatch | DfDisk | DfDeadlineExceeded | DfResourceStuck | DfInternal.

(** [DerivationJobState] (normalization/job.rs:201-217). *)
Inductive DerivationJobState :=
| DsQueued | DsWaitingForSource | DsProbing | DsPlanning | DsEncoding | DsValidating | DsCommitting | DsRetryWait
| DsCancelling | DsDerivedVerified
| DsFailed (code : DerivationFailureCode) (retryable : bool)
| DsCancelled.

(** [DerivationDesiredState] (normalization/job.rs:239-242). *)
Inductive DerivationDesiredState := DesiredRun | DesiredPaused.

#[global] Instance DerivationFailureCode_eq_dec : EqDecision DerivationFailureCode.
Proof. solve_decision. Defined.
#[global] Instance DerivationJobState_eq_dec : EqDecision DerivationJobState.
Proof. solve_decision. Defined.
#[global] Instance DerivationDesiredState_eq_dec : EqDecision DerivationDesiredState.
Proof. solve_decision. Defined.

(** [DerivationJobState::is_terminal] (normalization/job.rs:221-226). *)
Definition derivation_terminal (s : DerivationJobState) : bool :=
  match s with DsDerivedVerified | DsFailed _ _ | DsCancelled => true | _ => false end.

(** [DerivationJobState::is_active] (normalization/job.rs:229-234). *)
Definition derivation_active (s : DerivationJobState) : bool :=
  match s with DsProbing | DsPlanning | DsEncoding | DsValidating | DsCommitting => true | _ => false end.

(** [DerivationWorkerReport] (normalization/job.rs:245-259). *)
Inductive DerivationWorkerReport :=
| ProbeCompleted (report : ProbeReport)
| PlanCompleted (plan : MediaPlan)
| PairStarted (segment_index : N)
| PairCheckpointed (checkpoint : SegmentPairCheckpoint)
| ValidationCompleted
| CommitCompleted (completion : DerivedCompletion)
| ProcessStopped (reason : ProcessStopReason)
| StageFailed (code : DerivationFailureCode) (retryable : bool).

(** [DerivationCommand] (normalization/job.rs:264-274). *)
Inductive DerivationCommand :=
| DcSourceAvailable | DcSourceUnavailable | DcPause | DcResume | DcCancel | DcFinalizeCancel | DcRetry | DcDismiss
| DcWorker (report : DerivationWorkerReport).

(** [DerivationEffect] (normalization/job.rs:277-317). *)
Inductive DerivationEffect :=
| EfCommitState (expected_version : N) (to : DerivationJobState)
| EfSetDesiredState (expected_version : N) (to : DerivationDesiredState)
| EfPersistProbe (expected_version : N) (report : ProbeReport) (to : DerivationJobState)
| EfPersistPlan (expected_version : N) (plan : MediaPlan) (to : DerivationJobState)
| EfSetCurrentPair (expected_version : N) (segment_index : N)
| EfCommitPairCheckpoint (expected_version : N) (checkpoint : SegmentPairCheckpoint) (to : DerivationJobState)
| EfPublishCompletion (expected_version : N) (completion : DerivedCompletion) (to : DerivationJobState)
| EfRequestProcessStop (reason : ProcessStopReason)
| EfAwaitProcessReap
| EfDiscardCurrentPartialPair (segment_index : N)
| EfDispatch
| EfRemoveJob.

(** [DerivationRejectReason] (normalization/job.rs:320-332). *)
Inductive DerivationRejectReason :=
| DrAlreadyTerminal | DrNotTerminal | DrNotRetryable
| DrWrongState (expected actual : DerivationJobState)
| DrUnexpectedSegment (segment_index : N)
| DrEvidenceMismatch.

(** [DerivationOutcome] (normalization/job.rs:335-339). *)
Inductive DerivationOutcome := DoAccepted | DoNoOp | DoRejected (reason : DerivationRejectReason).

(** [DerivationDecision] (normalization/job.rs:342-345). *)
Record DerivationDecision := mkDerivationDecision { dn_outcome : DerivationOutcome; dn_effects : list DerivationEffect }.

Definition accepted (effects : list DerivationEffect) : DerivationDecision := mkDerivationDecision DoAccepted effects.
Definition no_op : DerivationDecision := mkDerivationDecision DoNoOp [].
Definition refused (reason : DerivationRejectReason) : DerivationDecision := mkDerivationDecision (DoRejected reason) [].

(** [DerivationJob] (normalization/job.rs:443-453); [DerivationSnapshot] has the same fields, its
    checkpoints as the map's values in order. *)
Record DerivationJob := mkDerivation {
  dj_spec : DerivationSpec;
  dj_state : DerivationJobState;
  dj_desired_state : DerivationDesiredState;
  dj_version : N;
  dj_probe_report : option ProbeReport;
  dj_media_plan : option MediaPlan;
  dj_checkpoints : list SegmentPairCheckpoint;
  dj_current_pair : option N;
  dj_completion : option DerivedCompletion;
}.

(** [DerivationSnapshot] (normalization/job.rs:381-391). *)
Record DerivationSnapshot := mkDerivationSnapshot {
  dp_spec : DerivationSpec;
  dp_state : DerivationJobState;
  dp_desired_state : DerivationDesiredState;
  dp_version : N;
  dp_probe_report : option ProbeReport;
  dp_media_plan : option MediaPlan;
  dp_checkpoints : list SegmentPairCheckpoint;
  dp_current_pair : option N;
  dp_completion : option DerivedCompletion;
}.

#[global] Instance DerivationSnapshot_eq_dec : EqDecision DerivationSnapshot.
Proof. solve_decision. Defined.

(** [DerivationJob::new] (normalization/job.rs:456-469). *)
Definition DerivationJob_new (spec : DerivationSpec) : result DerivationSpecError DerivationJob :=
  let? _ := validate_spec spec in
  Ok (mkDerivation spec DsQueued DesiredRun 1 None None [] None None).

(** [DerivationJob::snapshot] (normalization/job.rs:566-578). *)
Definition snapshot (j : DerivationJob) : DerivationSnapshot :=
  mkDerivationSnapshot (dj_spec j) (dj_state j) (dj_desired_state j) (dj_version j) (dj_probe_report j) (dj_media_plan j)
    (dj_checkpoints j) (dj_current_pair j) (dj_completion j).

Definition checkpoint_matches (spec : DerivationSpec) (c : SegmentPairCheckpoint) : bool :=
  bool_decide (pc_profile_revision c = spec_profile_revision spec)
  && bool_decide (pc_encoder_build_fingerprint c = spec_fingerprint spec).

Fixpoint collect_checkpoints (spec : DerivationSpec) (m cs : list SegmentPairCheckpoint)
    : result DerivationSpecError (list SegmentPairCheckpoint) :=
  match cs with
  | [] => Ok m
  | c :: rest =>
      if negb (checkpoint_matches spec c) || has_checkpoint (pc_segment_index c) m
      then Err (InvalidSnapshot "checkpoint identity mismatch or duplicate")
      else collect_checkpoints spec (insert_checkpoint c m) rest
  end.

Definition completion_matches (spec : DerivationSpec) (c : DerivedCompletion) : bool :=
  bool_decide (dc_source_content_revision c = spec_source_revision spec)
  && bool_decide (dc_profile_revision c = spec_profile_revision spec).

Definition plan_matches (spec : DerivationSpec) (p : MediaPlan) : bool :=
  bool_decide (mp_source_kind p = input_kind (dv_input spec))
  && bool_decide (mp_profile_revision p = spec_profile_revision spec).

Definition in_plan (p : MediaPlan) (index : N) : bool := bool_decide (is_Some (segment_pair p index)).

(** [DerivationJob::rehydrate] (normalization/job.rs:472-563). *)
Definition rehydrate (spec : DerivationSpec) (s : DerivationSnapshot) : result DerivationSpecError DerivationJob :=
  let? _ := validate_spec spec in
  if (dp_version s =? 0)%N then Err (InvalidSnapshot "version must be positive") else
  let? checkpoints := collect_checkpoints spec [] (dp_checkpoints s) in
  if negb (contiguous (map pc_segment_index checkpoints))
  then Err (InvalidSnapshot "checkpoints must be contiguous from segment zero") else
  if negb (bool_decide (checkpoints = [])) && negb (bool_decide (is_Some (dp_media_plan s)))
  then Err (InvalidSnapshot "checkpoint ledger requires a media plan") else
  if match dp_media_plan s with
     | Some plan => negb (plan_matches spec plan)
                    || existsb (fun c => negb (in_plan plan (pc_segment_index c))) checkpoints
     | None => false
     end
  then Err (InvalidSnapshot "media plan differs from the durable spec") else
  if match dp_current_pair s with Some index => has_checkpoint index checkpoints | None => false end
  then Err (InvalidSnapshot "current partial pair is already checkpointed") else
  let? _ := match dp_state s, dp_completion s with
            | DsDerivedVerified, None => Err (InvalidSnapshot "derived_verified requires completion evidence")
            | DsDerivedVerified, Some completion =>
                if negb (completion_matches spec completion)
                then Err (InvalidSnapshot "completion identity differs from the durable spec") else Ok tt
            | _, Some _ => Err (InvalidSnapshot "completion evidence exists before derived_verified")
            | _, None => Ok tt
            end in
  Ok (mkDerivation spec (dp_state s) (dp_desired_state s) (dp_version s) (dp_probe_report s) (dp_media_plan s)
        checkpoints (dp_current_pair s) (dp_completion s)).

(** ** Committed effects *)

Definition expected_version (e : DerivationEffect) : option N :=
  match e with
  | EfCommitState v _ | EfSetDesiredState v _ | EfPersistProbe v _ _ | EfPersistPlan v _ _ | EfSetCurrentPair v _
  | EfCommitPairCheckpoint v _ _ | EfPublishCompletion v _ _ => Some v
  | _ => None
  end.

Section setters.
Context (j : DerivationJob).
Definition with_state (state : DerivationJobState) : DerivationJob :=
  mkDerivation (dj_spec j) state (dj_desired_state j) (dj_version j) (dj_probe_report j) (dj_media_plan j)
    (dj_checkpoints j) (dj_current_pair j) (dj_completion j).
Definition with_desired (desired : DerivationDesiredState) : DerivationJob :=
  mkDerivation (dj_spec j) (dj_state j) desired (dj_version j) (dj_probe_report j) (dj_media_plan j)
    (dj_checkpoints j) (dj_current_pair j) (dj_completion j).
Definition with_version (version : N) : DerivationJob :=
  mkDerivation (dj_spec j) (dj_state j) (dj_desired_state j) version (dj_probe_report j) (dj_media_plan j)
    (dj_checkpoints j) (dj_current_pair j) (dj_completion j).
Definition with_probe (report : ProbeReport) : DerivationJob :=
  mkDerivation (dj_spec j) (dj_state j) (dj_desired_state j) (dj_version j) (Some report) (dj_media_plan j)
    (dj_checkpoints j) (dj_current_pair j) (dj_completion j).
Definition with_plan (plan : MediaPlan) : DerivationJob :=
  mkDerivation (dj_spec j) (dj_state j) (dj_desired_state j) (dj_version j) (dj_probe_report j) (Some plan)
    (dj_checkpoints j) (dj_current_pair j) (dj_completion j).
Definition with_checkpoints (checkpoints : list SegmentPairCheckpoint) : DerivationJob :=
  mkDerivation (dj_spec j) (dj_state j) (dj_desired_state j) (dj_version j) (dj_probe_report j) (dj_media_plan j)
    checkpoints (dj_current_pair j) (dj_completion j).
Definition with_current_pair (pair : option N) : DerivationJob :=
  mkDerivation (dj_spec j) (dj_state j) (dj_desired_state j) (dj_version j) (dj_probe_report j) (dj_media_plan j)
    (dj_checkpoints j) pair (dj_completion j).
Definition with_completion (completion : DerivedCompletion) : DerivationJob :=
  mkDerivation (dj_spec j) (dj_state j) (dj_desired_state j) (dj_version j) (dj_probe_report j) (dj_media_plan j)
    (dj_checkpoints j) (dj_current_pair j) (Some completion).
End setters.

Definition next_pair_in_plan (j : DerivationJob) (segment_index : N) : bool :=
  match dj_media_plan j with Some plan => in_plan plan segment_index | None => false end.

(** [DerivationJob::apply_committed_effect, change] (normalization/job.rs:630-709). *)
Definition apply_change (j : DerivationJob) (e : DerivationEffect) : result DerivationSpecError DerivationJob :=
  match e with
  | EfCommitState _ to => Ok (with_state j to)
  | EfSetDesiredState _ to => Ok (with_desired j to)
  | EfPersistProbe _ report to => Ok (with_state (with_probe j report) to)
  | EfPersistPlan _ plan to =>
      if negb (plan_matches (dj_spec j) plan)
      then Err (InvalidSnapshot "persisted plan differs from the durable derivation spec")
      else Ok (with_state (with_plan j plan) to)
  | EfSetCurrentPair _ segment_index =>
      if has_checkpoint segment_index (dj_checkpoints j) || bool_decide (is_Some (dj_current_pair j))
      then Err (InvalidSnapshot "current pair is already set or checkpointed")
      else if (u32_max <? N.of_nat (length (dj_checkpoints j)))%N
      then Err (InvalidSnapshot "checkpoint count exceeds segment index range")
      else if negb (segment_index =? N.of_nat (length (dj_checkpoints j)))%N || negb (next_pair_in_plan j segment_index)
      then Err (InvalidSnapshot "current pair is not the next pair in the media plan")
      else Ok (with_current_pair j (Some segment_index))
  | EfCommitPairCheckpoint _ checkpoint to =>
      let segment_index := pc_segment_index checkpoint in
      if negb (bool_decide (dj_current_pair j = Some segment_index))
         || has_checkpoint segment_index (dj_checkpoints j)
         || negb (segment_index =? N.of_nat (length (dj_checkpoints j)))%N
         || negb (checkpoint_matches (dj_spec j) checkpoint)
      then Err (InvalidSnapshot "pair checkpoint does not match the next durable pair")
      else Ok (with_state (with_current_pair (with_checkpoints j (insert_checkpoint checkpoint (dj_checkpoints j))) None) to)
  | EfPublishCompletion _ completion to =>
      if negb (completion_matches (dj_spec j) completion)
      then Err (InvalidSnapshot "completion evidence differs from the durable derivation spec")
      else Ok (with_state (with_completion j completion) to)
  | _ => Err (InvalidSnapshot "effect does not mutate the durable derivation snapshot")
  end.

(** [DerivationJob::apply_committed_effect] (normalization/job.rs:587-715): the job after the call,
    changed by all but its version when the version overflows, and the snapshot. *)
Definition apply_committed_effect (j : DerivationJob) (e : DerivationEffect)
    : DerivationJob * result DerivationSpecError DerivationSnapshot :=
  match expected_version e with
  | None => (j, Err (InvalidSnapshot "effect does not mutate the durable derivation snapshot"))
  | Some v =>
      if negb (v =? dj_version j)%N then (j, Err (InvalidSnapshot "effect expected another version")) else
      match apply_change j e with
      | Err e => (j, Err e)
      | Ok changed =>
          match u64_checked_add (dj_version changed) 1 with
          | None => (changed, Err (InvalidSnapshot "derivation version overflow"))
          | Some version => let next := with_version changed version in (next, Ok (snapshot next))
          end
      end
  end.

(** ** Decisions *)

Section decide.
Context (j : DerivationJob).
Let state := dj_state j.
Let version := dj_version j.

(** [DerivationJob::commit] (normalization/job.rs:1042-1047). *)
Definition commit (to : DerivationJobState) : DerivationEffect := EfCommitState (dj_version j) to.

(** [DerivationJob::wrong_state] (normalization/job.rs:1035-1040). *)
Definition wrong_state (expected : DerivationJobState) : DerivationDecision := refused (DrWrongState expected (dj_state j)).

(** [DerivationJob::source_available] (normalization/job.rs:732-752). *)
Definition source_available : DerivationDecision :=
  if derivation_terminal state || bool_decide (state = DsCancelling) then no_op
  else if bool_decide (dj_desired_state j = DesiredPaused) then no_op
  else match state with
       | DsQueued | DsWaitingForSource | DsRetryWait => accepted [commit DsProbing; EfDispatch]
       | _ => no_op
       end.

(** [DerivationJob::source_unavailable] (normalization/job.rs:754-769). *)
Definition source_unavailable : DerivationDecision :=
  if derivation_terminal state || bool_decide (state = DsCancelling) then no_op
  else if derivation_active state then accepted [EfRequestProcessStop StopSourceUnavailable; EfAwaitProcessReap]
  else if bool_decide (state = DsWaitingForSource) then no_op
  else accepted [commit DsWaitingForSource].

(** [DerivationJob::pause] (normalization/job.rs:771-789). *)
Definition pause : DerivationDecision :=
  if derivation_terminal state then refused DrAlreadyTerminal
  else if bool_decide (dj_desired_state j = DesiredPaused) then no_op
  else accepted (EfSetDesiredState version DesiredPaused
                 :: (if derivation_active state then [EfRequestProcessStop StopPause; EfAwaitProcessReap] else [])).

(** [DerivationJob::resume] (normalization/job.rs:791-805). *)
Definition resume : DerivationDecision :=
  if derivation_terminal state then refused DrAlreadyTerminal
  else if bool_decide (dj_desired_state j = DesiredRun) then no_op
  else accepted [EfSetDesiredState version DesiredRun; EfDispatch].

(** The effect that throws the partial pair away; no durable effect forgets [current_pair]. *)
Definition discard_partial : list DerivationEffect :=
  match dj_current_pair j with Some segment_index => [EfDiscardCurrentPartialPair segment_index] | None => [] end.

(** [DerivationJob::cancel] (normalization/job.rs:807-830). *)
Definition cancel : DerivationDecision :=
  if derivation_terminal state then refused DrAlreadyTerminal
  else if bool_decide (state = DsCancelling) then no_op
  else accepted (commit DsCancelling ::
         (if derivation_active state then [EfRequestProcessStop StopCancel; EfAwaitProcessReap]
          else discard_partial ++ [EfCommitState (u64_add version 1) DsCancelled])).

(** [DerivationJob::finalize_cancel] (normalization/job.rs:832-845). *)
Definition finalize_cancel : DerivationDecision :=
  if negb (bool_decide (state = DsCancelling)) then wrong_state DsCancelling
  else accepted (discard_partial ++ [commit DsCancelled]).

(** [DerivationJob::retry] (normalization/job.rs:847-866). *)
Definition retry : DerivationDecision :=
  match state with
  | DsFailed _ true => accepted [commit DsQueued; EfDispatch]
  | DsFailed _ false => refused DrNotRetryable
  | _ => wrong_state (DsFailed DfInternal true)
  end.

(** [DerivationJob::dismiss] (normalization/job.rs:868-874). *)
Definition dismiss : DerivationDecision :=
  if derivation_terminal state then accepted [EfRemoveJob] else refused DrNotTerminal.

(** [DerivationJob::process_stopped] (normalization/job.rs:1003-1021). *)
Definition process_stopped (reason : ProcessStopReason) : DerivationDecision :=
  if bool_decide (state = DsCancelling) && bool_decide (reason = StopCancel) then finalize_cancel else
  match reason, dj_desired_state j with
  | StopPause, DesiredPaused => accepted (discard_partial ++ [commit DsRetryWait])
  | StopSourceUnavailable, _ => accepted (discard_partial ++ [commit DsWaitingForSource])
  | StopShutdown, _ => accepted (discard_partial ++ [commit DsRetryWait])
  | _, _ => refused DrEvidenceMismatch
  end.

(** [DerivationJob::stage_failed] (normalization/job.rs:1023-1033). *)
Definition stage_failed (code : DerivationFailureCode) (retryable : bool) : DerivationDecision :=
  if derivation_terminal state then refused DrAlreadyTerminal
  else accepted (discard_partial ++ [commit (DsFailed code retryable)]).

Definition pair_count : nat :=
  match dj_media_plan j with Some plan => length (mp_segment_pairs plan) | None => 0 end.

(** [DerivationJob::worker, pair started] (normalization/job.rs:909-929). *)
Definition pair_started (segment_index : N) : DerivationDecision :=
  if negb (bool_decide (state = DsEncoding)) then wrong_state DsEncoding
  else if negb (segment_index =? N.min (N.of_nat (length (dj_checkpoints j))) u32_max)%N
          || negb (next_pair_in_plan j segment_index)
  then refused (DrUnexpectedSegment segment_index)
  else accepted [EfSetCurrentPair version segment_index].

(** [DerivationJob::worker, pair checkpointed] (normalization/job.rs:930-963). *)
Definition pair_checkpointed (checkpoint : SegmentPairCheckpoint) : DerivationDecision :=
  if negb (bool_decide (state = DsEncoding)) then wrong_state DsEncoding
  else
    let segment_index := pc_segment_index checkpoint in
    if negb (bool_decide (dj_current_pair j = Some segment_index))
       || negb (segment_index =? N.of_nat (length (dj_checkpoints j)))%N
       || negb (checkpoint_matches (dj_spec j) checkpoint)
    then refused (DrUnexpectedSegment segment_index)
    else
      let to := if (length (dj_checkpoints j) + 1 =? pair_count)%nat then DsValidating else DsEncoding in
      accepted [EfCommitPairCheckpoint version checkpoint to; EfDispatch].

(** [DerivationJob::worker] (normalization/job.rs:876-1001). *)
Definition worker (report : DerivationWorkerReport) : DerivationDecision :=
  match report with
  | ProbeCompleted report =>
      if negb (bool_decide (state = DsProbing)) then wrong_state DsProbing
      else accepted [EfPersistProbe version report DsPlanning; EfDispatch]
  | PlanCompleted plan =>
      if negb (bool_decide (state = DsPlanning)) then wrong_state DsPlanning
      else if negb (plan_matches (dj_spec j) plan) then refused DrEvidenceMismatch
      else accepted [EfPersistPlan version plan DsEncoding; EfDispatch]
  | PairStarted segment_index => pair_started segment_index
  | PairCheckpointed checkpoint => pair_checkpointed checkpoint
  | ValidationCompleted =>
      if negb (bool_decide (state = DsValidating)) then wrong_state DsValidating
      else if (pair_count =? 0)%nat || negb (pair_count =? length (dj_checkpoints j))%nat then refused DrEvidenceMismatch
      else accepted [commit DsCommitting; EfDispatch]
  | CommitCompleted completion =>
      if negb (bool_decide (state = DsCommitting)) then wrong_state DsCommitting
      else if negb (completion_matches (dj_spec j) completion) then refused DrEvidenceMismatch
      else accepted [EfPublishCompletion version completion DsDerivedVerified]
  | ProcessStopped reason => process_stopped reason
  | StageFailed code retryable => stage_failed code retryable
  end.

(** [DerivationJob::decide] (normalization/job.rs:718-730). *)
Definition decide_derivation (command : DerivationCommand) : DerivationDecision :=
  match command with
  | DcSourceAvailable => source_available
  | DcSourceUnavailable => source_unavailable
  | DcPause => pause
  | DcResume => resume
  | DcCancel => cancel
  | DcFinalizeCancel => finalize_cancel
  | DcRetry => retry
  | DcDismiss => dismiss
  | DcWorker report => worker report
  end.
End decide.
