(* ===== verification/MediaStore.v ===== *)
(** * MediaStore: errors, outbox and derived receipts of the media database (media_store/)

The parts of the media database that its job lanes share: checked integers,
the completion outbox, the receipts of derived revisions and the counters of
the collections.  A column of JSON text is the value it stands for; rows whose
text does not parse are not modelled.  An operation is a transaction: it returns
the new tables, or an error that leaves the old ones. *)

From Stdlib Require Import NArith Lia Ascii String.
From stdpp Require Import base numbers list strings gmap sorting.
From S2P Require Import Prelude Domain Files Json Ingest Rational Profile MediaPlan Validation Manifest.

Local Open Scope string_scope.

(** [MediaStoreError] (media_store/error.rs:5-42), the outcomes of the modelled operations; a
    conflict keeps what distinguishes it. *)
Inductive MediaStoreError :=
| MsConflict (detail : string)
| MsCorrupt (table detail : string)
| MsNotFound (detail : string)
| MsSerialization (message : string)
| MsSqlite (message : string).

#[global] Instance MediaStoreError_eq_dec : EqDecision MediaStoreError.
Proof. solve_decision. Defined.

(** [checked_i64] (media_store/store.rs:135-139): an integer of SQLite is its value. *)
Definition checked_i64 (value : N) (field : string) : result MediaStoreError N :=
  if (value <=? i64_max)%N then Ok value else Err (MsConflict field).

(** [require_non_empty] (media_store/store.rs:146-153). *)
Definition require_non_empty (value field : string) : result MediaStoreError unit :=
  if String.eqb value "" then Err (MsConflict field) else Ok tt.

(** [require_sha256] (media_store/store.rs:155-166). *)
Definition require_sha256 (value field : string) : result MediaStoreError unit :=
  if is_lower_hex_of value 64 then Ok tt else Err (MsConflict field).

(** [require_sha256_identity] (media_store/receipts.rs:570-577). *)
Definition require_sha256_identity (value field : string) : result MediaStoreError unit :=
  let? digest := ok_or (strip_prefix "sha256:" value) (MsConflict field) in
  require_sha256 digest field.

(** ** Outcomes *)

(** [CompareAndSwapOutcome] (media_store/model.rs:41-44). *)
Inductive CompareAndSwapOutcome (T : Type) := Applied (value : T) | AlreadyApplied (value : T).
Arguments Applied {T} _.
Arguments AlreadyApplied {T} _.

(** [CreateJobOutcome] (media_store/model.rs:376-379). *)
Inductive CreateJobOutcome (T : Type) := JobCreated (job : T) | JobExisting (job : T).
Arguments JobCreated {T} _.
Arguments JobExisting {T} _.

(** [CreateJobConflict] (media_store/model.rs:382-397). *)
Inductive CreateJobConflict :=
| RequestDigestMismatch (natural_key existing_job_id existing_digest requested_digest : string)
| JobIdCollision (job_id existing_natural_key : string).

(** [CreateDerivationJobError] (media_store/model.rs:106-111). *)
Inductive CreateDerivationJobError :=
| CdConflict (conflict : CreateJobConflict)
| CdStore (error : MediaStoreError).

(** [AcknowledgeOutcome] (media_store/model.rs:353-357). *)
Inductive AcknowledgeOutcome (T : Type) := Acknowledged (value : T) | AlreadyAcknowledged (value : T) | AckUnknown.
Arguments Acknowledged {T} _.
Arguments AlreadyAcknowledged {T} _.
Arguments AckUnknown {T}.

(** [CompletionEnvelope] (media_store/model.rs:360-367). *)
Record CompletionEnvelope (T : Type) := mkEnvelope {
  ce_sequence : N;
  ce_job_id : string;
  ce_outcome : T;
  ce_state_version : N;
  ce_recorded_at : string;
  ce_acknowledged_at : option string;
}.
Arguments mkEnvelope {T} _ _ _ _ _ _.
Arguments ce_sequence {T} _.
Arguments ce_job_id {T} _.
Arguments ce_outcome {T} _.
Arguments ce_state_version {T} _.
Arguments ce_recorded_at {T} _.
Arguments ce_acknowledged_at {T} _.

(** [CompleteOutcome] (media_store/model.rs:370-373). *)
Inductive CompleteOutcome (T : Type) :=
| Recorded (envelope : CompletionEnvelope T)
| AlreadyRecorded (envelope : CompletionEnvelope T).
Arguments Recorded {T} _.
Arguments AlreadyRecorded {T} _.

(** ** The outbox of a lane *)

Section outbox.
Context {T : Type} `{EqDecision T}.

(** [media_derivation_outbox] (media_store/schema.rs:161-169), by its unique job; the second
    field is the last number given by AUTOINCREMENT. *)
Record Outbox := mkOutbox { ob_rows : gmap string (CompletionEnvelope T); ob_sequence : N }.

(** [insert_completion] (media_store/outbox.rs:24-61). *)
Definition insert_completion (ob : Outbox) (job_id : string) (outcome : T) (state_version : N) (recorded_at : string)
    : result MediaStoreError (Outbox * CompleteOutcome T) :=
  match ob_rows ob !! job_id with
  | Some existing =>
      if bool_decide (ce_outcome existing = outcome) && (ce_state_version existing =? state_version)%N
      then Ok (ob, AlreadyRecorded existing)
      else Err (MsConflict "different terminal completion")
  | None =>
      let? version := checked_i64 state_version "state_version" in
      if (i64_max <=? ob_sequence ob)%N then Err (MsSqlite "outbox sequence") else
      let record := mkEnvelope (ob_sequence ob + 1)%N job_id outcome version recorded_at None in
      Ok (mkOutbox (<[job_id := record]> (ob_rows ob)) (ob_sequence ob + 1)%N, Recorded record)
  end.

(** [acknowledge_completion] (media_store/outbox.rs:121-152). *)
Definition acknowledge_completion (ob : Outbox) (job_id acknowledged_at : string)
    : Outbox * AcknowledgeOutcome (CompletionEnvelope T) :=
  match ob_rows ob !! job_id with
  | None => (ob, AckUnknown)
  | Some existing =>
      match ce_acknowledged_at existing with
      | Some _ => (ob, AlreadyAcknowledged existing)
      | None =>
          let record := mkEnvelope (ce_sequence existing) (ce_job_id existing) (ce_outcome existing)
                          (ce_state_version existing) (ce_recorded_at existing) (Some acknowledged_at) in
          (mkOutbox (<[job_id := record]> (ob_rows ob)) (ob_sequence ob), Acknowledged record)
      end
  end.

Definition by_sequence (a b : CompletionEnvelope T) : Prop := (ce_sequence a <= ce_sequence b)%N.
#[global] Instance by_sequence_dec : RelDecision by_sequence.
Proof. intros a b. apply N.le_dec. Defined.

(** [read_pending_completions] (media_store/outbox.rs:91-119). *)
Definition read_pending_completions (ob : Outbox) : list (CompletionEnvelope T) :=
  merge_sort by_sequence
    (List.filter (fun e => match ce_acknowledged_at e with None => true | Some _ => false end)
       (map snd (map_to_list (ob_rows ob)))).
End outbox.
Arguments Outbox T : clear implicits.
Arguments mkOutbox {T} _ _.

(** ** Derived receipts *)

(** [DerivedReceipt] (media_store/model.rs:235-244); the commit receipt is a JSON value, of which
    only its text matters when it is a string. *)
Record DerivedReceipt := mkDerivedReceipt {
  dr_derivation_job_id : string;
  dr_derived_revision : string;
  dr_source_revision : string;
  dr_source_manifest_digest : string;
  dr_profile_revision : string;
  dr_local_path : string;
  dr_commit_receipt : option string;
  dr_committed_at : string;
}.

#[global] Instance DerivedReceipt_eq_dec : EqDecision DerivedReceipt.
Proof. solve_decision. Defined.

(** [ReceiptWriteOutcome] (media_store/model.rs:262-265). *)
Inductive ReceiptWriteOutcome (T : Type) := ReceiptRecorded (receipt : T) | ReceiptExisting (receipt : T).
Arguments ReceiptRecorded {T} _.
Arguments ReceiptExisting {T} _.

(** [ReceiptWriteOutcome::was_recorded] (media_store/model.rs:276-278). *)
Definition was_recorded {T} (o : ReceiptWriteOutcome T) : bool :=
  match o with ReceiptRecorded _ => true | ReceiptExisting _ => false end.

(** [validate_derived_receipt] (media_store/receipts.rs:554-568). *)
Definition validate_derived_receipt (r : DerivedReceipt) : result MediaStoreError unit :=
  let? _ := require_non_empty (dr_derivation_job_id r) "derivation_job_id" in
  let? _ := require_sha256_identity (dr_derived_revision r) "derived_revision" in
  let? _ := require_sha256_identity (dr_source_revision r) "source_revision" in
  let? _ := require_sha256_identity (dr_source_manifest_digest r) "source_manifest_digest" in
  let? _ := require_sha256_identity (dr_profile_revision r) "profile_revision" in
  let? _ := require_non_empty (dr_local_path r) "local_path" in
  let? _ := require_non_empty (dr_committed_at r) "committed_at" in
  let? commit_receipt := ok_or (dr_commit_receipt r) (MsConflict "derived commit_receipt must be a JSON string") in
  require_non_empty commit_receipt "commit_receipt".

(** [LocalDerivedReceipt] (media_pipeline/pipeline.rs:673-682). *)
Record LocalDerivedReceipt := mkLocalDerived {
  ld_derivation_job_id : DerivationJobId;
  ld_source_revision : SourceContentRevision;
  ld_source_manifest_digest : SourceManifestDigest;
  ld_profile_revision : ProfileRevision;
  ld_derived_revision : DerivedRevision;
  ld_sealed_artifact : string;
  ld_commit_receipt : string;
  ld_committed_at : string;
}.

#[global] Instance LocalDerivedReceipt_eq_dec : EqDecision LocalDerivedReceipt.
Proof. solve_decision. Defined.

Definition plain_reference (value : string) : bool := negb (String.eqb value "") && negb (has_control value).

(** [validate_reference] (media_pipeline/pipeline.rs:1195-1201). *)
Definition validate_reference (field value : string) : result string unit :=
  if plain_reference value then Ok tt else Err field.

(** [LocalArtifactRef::parse] (media_pipeline/upload_bundle.rs:174-178). *)
Definition local_artifact_parse (value : string) : result string string :=
  if plain_reference value then Ok value else Err "local_artifact_ref".

(** [LocalDerivedReceipt::from_completion, new] (media_pipeline/pipeline.rs:685-730). *)
Definition local_derived_from_completion (job_id : DerivationJobId) (c : DerivedCompletion) : result string LocalDerivedReceipt :=
  let? sealed_artifact := local_artifact_parse (dc_local_relative_path c) in
  let? _ := validate_reference "derived_commit_receipt" (dc_local_commit_receipt c) in
  let? _ := validate_reference "derived_committed_at" (dc_committed_at c) in
  Ok (mkLocalDerived job_id (dc_source_content_revision c) (ub_source_manifest_digest (dc_upload_bundle_input c))
        (dc_profile_revision c) (dc_derived_revision c) sealed_artifact (dc_local_commit_receipt c) (dc_committed_at c)).

(** [local_derived_receipt_row] (media_store/receipts.rs:250-265). *)
Definition local_derived_receipt_row (local : LocalDerivedReceipt) : result MediaStoreError DerivedReceipt :=
  let receipt := mkDerivedReceipt (ld_derivation_job_id local) (digest_text (ld_derived_revision local))
                   (digest_text (ld_source_revision local)) (digest_text (ld_source_manifest_digest local))
                   (digest_text (ld_profile_revision local)) (ld_sealed_artifact local) (Some (ld_commit_receipt local))
                   (ld_committed_at local) in
  let? _ := validate_derived_receipt receipt in Ok receipt.

(** The table [media_derived_receipts] is a map by its key. *)
Abbreviation DerivedReceipts := (gmap string DerivedReceipt) (only parsing).

(** [read_derived_receipt] (media_store/receipts.rs:425-467). *)
Definition read_derived_receipt (rows : DerivedReceipts) (revision : string) : result MediaStoreError (option DerivedReceipt) :=
  match rows !! revision with
  | None => Ok None
  | Some receipt => let? _ := validate_derived_receipt receipt in Ok (Some receipt)
  end.

(** The unique index on the job. *)
Definition receipt_job_taken (rows : DerivedReceipts) (job_id : string) : bool :=
  existsb (fun '(_, r) => String.eqb (dr_derivation_job_id r) job_id) (map_to_list rows).

(** [insert_derived_receipt] (media_store/receipts.rs:300-332). *)
Definition insert_derived_receipt (rows : DerivedReceipts) (receipt : DerivedReceipt)
    : result MediaStoreError (DerivedReceipts * ReceiptWriteOutcome DerivedReceipt) :=
  let? existing := read_derived_receipt rows (dr_derived_revision receipt) in
  match existing with
  | Some existing =>
      if bool_decide (existing = receipt) then Ok (rows, ReceiptExisting existing)
      else Err (MsConflict "different immutable receipt evidence")
  | None =>
      if receipt_job_taken rows (dr_derivation_job_id receipt) then Err (MsSqlite "derivation_job_id is unique")
      else Ok (<[dr_derived_revision receipt := receipt]> rows, ReceiptRecorded receipt)
  end.

(** [bump_projection_revision] (media_store/projection.rs:23-41). *)
Definition bump_projection_revision (revision : N) : result MediaStoreError N :=
  if (revision <? i64_max)%N then Ok (revision + 1)%N else Err (MsConflict "collection revision").
