(* ===== verification/DerivationStore.v ===== *)
(** * DerivationStore: the durable rows of derivation jobs (media_store/derivation_jobs.rs)

Creation under a natural key, reads that refuse inconsistent rows, the
compare-and-swap of a snapshot with its append-only ledger of pairs, and the
completion that writes the terminal snapshot, the derived receipt and the outbox
row in one transaction.  The text that [serde_json] makes of a request is
[DerivationText]. *)

From Stdlib Require Import NArith Lia Ascii String.
From stdpp Require Import base numbers list strings gmap sorting.
From S2P Require Import Prelude Domain Files Json Ingest Rational Profile MediaPlan Validation Manifest.
From S2P Require Import Derivation MediaStore.

Local Open Scope string_scope.

(** [serde_json::to_vec] of the six fields a request is identified by: distinct requests have
    distinct texts. *)
Class DerivationText := {
  derivation_text : DerivedSubject -> LocalSourceReceipt -> SourceManifestDigest -> NormalizationProfile -> EncoderBuild
    -> NormalizationInput -> result string (list byte);
  derivation_text_inj : forall s l d p e i s' l' d' p' e' i' text,
    derivation_text s l d p e i = Ok text -> derivation_text s' l' d' p' e' i' = Ok text ->
    s = s' /\ l = l' /\ d = d' /\ p = p' /\ e = e' /\ i = i';
}.

Definition CURRENT_DERIVATION_SPEC_VERSION : N := 1.

(** [media_derivation_jobs] (media_store/schema.rs:120-132) by its job. *)
Record DerivationRow := mkRow {
  rw_natural_key : string;
  rw_request_digest : string;
  rw_snapshot : DerivationSnapshot;
  rw_state_version : N;
  rw_is_terminal : bool;
  rw_created_at : string;
  rw_updated_at : string;
}.

(** [media_derivation_specs] (media_store/schema.rs:134-141). *)
Record SpecRow := mkSpecRow {
  sw_source_revision : string;
  sw_profile_revision : string;
  sw_spec_version : N;
  sw_spec : DerivationSpec;
}.

(** [media_derivation_segment_pairs] (media_store/schema.rs:146-159). *)
Record PairRow := mkPairRow {
  pw_segment_index : N;
  pw_state : string;
  pw_version : N;
  pw_checkpoint : SegmentPairCheckpoint;
  pw_left_sha256 : option string;
  pw_right_sha256 : option string;
  pw_verified : bool;
  pw_updated_at : string;
}.

(** The tables; the pairs of a job in the order of their index. *)
Record DerivationDb := mkDb {
  db_jobs : gmap string DerivationRow;
  db_specs : gmap string SpecRow;
  db_pairs : gmap string (list PairRow);
  db_outbox : Outbox DerivationSnapshot;
  db_receipts : DerivedReceipts;
  db_revision : N;
}.

(** [StoredDerivationJob] (media_store/model.rs:96-103). *)
Record StoredDerivationJob := mkStored {
  sd_spec : DerivationSpec;
  sd_snapshot : DerivationSnapshot;
  sd_natural_key : string;
  sd_request_digest : string;
  sd_created_at : string;
  sd_updated_at : string;
}.

(** [derivation_natural_key] (media_store/derivation_jobs.rs:713-723). *)
Definition derivation_natural_key (spec : DerivationSpec) : string :=
  let source := digest_text (spec_source_revision spec) in
  let profile := digest_text (spec_profile_revision spec) in
  "derivation-v1|" ++ dec (str_len source) ++ ":" ++ source ++ "|" ++ dec (str_len profile) ++ ":" ++ profile.

(** [validate_segment_pair_checkpoint] (media_store/derivation_jobs.rs:652-675). *)
Definition validate_segment_pair_checkpoint (c : SegmentPairCheckpoint) : result string unit :=
  if String.eqb (pc_published_pair_relative_path c) "" then Err "published_pair_relative_path" else
  if String.eqb (pc_pair_commit_receipt c) "" then Err "pair_commit_receipt" else
  if negb (bool_decide (do_role (pc_left c) = OutVideoLeft)) || negb (bool_decide (do_role (pc_right c) = OutVideoRight))
     || negb (do_segment_index (pc_left c) =? pc_segment_index c)%N
     || negb (do_segment_index (pc_right c) =? pc_segment_index c)%N
     || negb (vs_segment_index (pc_validation c) =? pc_segment_index c)%N
     || negb (summary_passed (pc_validation c))
     || String.eqb (do_relative_path (pc_left c)) (do_relative_path (pc_right c))
     || String.eqb (do_media_type (pc_left c)) "" || String.eqb (do_media_type (pc_right c)) ""
  then Err "internally inconsistent" else Ok tt.

Definition db_conflict {A} (detail : string) : result MediaStoreError A := Err (MsConflict detail).
Definition corrupt {A} (table detail : string) : result MediaStoreError A := Err (MsCorrupt table detail).

Fixpoint check_ordinals (ordinal : N) (checkpoints : list SegmentPairCheckpoint) : result MediaStoreError unit :=
  match checkpoints with
  | [] => Ok tt
  | c :: rest =>
      let? _ := rmap_err MsConflict (validate_segment_pair_checkpoint c) in
      if (u32_max <? ordinal)%N then db_conflict "segment-pair count exceeds u32"
      else if negb (pc_segment_index c =? ordinal)%N then db_conflict "checkpoints must be contiguous from zero"
      else check_ordinals (ordinal + 1) rest
  end.

(** [validate_pair_monotonicity] (media_store/derivation_jobs.rs:387-420). *)
Definition validate_pair_monotonicity (current next : DerivationSnapshot) : result MediaStoreError unit :=
  if (length (dp_checkpoints next) <? length (dp_checkpoints current))%nat
  then db_conflict "checkpoints cannot be removed"
  else if existsb (fun '(old, new) => negb (bool_decide (old = new))) (combine (dp_checkpoints current) (dp_checkpoints next))
  then db_conflict "committed segment-pair evidence is immutable"
  else check_ordinals 0 (dp_checkpoints next).

(** The insertion in the order of the primary key, which may be taken. *)
Fixpoint insert_pair_row (row : PairRow) (rows : list PairRow) : result MediaStoreError (list PairRow) :=
  match rows with
  | [] => Ok [row]
  | r :: rest =>
      if (pw_segment_index row <? pw_segment_index r)%N then Ok (row :: rows)
      else if (pw_segment_index row =? pw_segment_index r)%N then Err (MsSqlite "primary key")
      else let? rest := insert_pair_row row rest in Ok (r :: rest)
  end.

(** [insert_segment_pair] (media_store/derivation_jobs.rs:362-385). *)
Definition insert_segment_pair (c : SegmentPairCheckpoint) (state_version : N) (now : string) (rows : list PairRow)
    : result MediaStoreError (list PairRow) :=
  let? version := checked_i64 state_version "pair_version" in
  insert_pair_row (mkPairRow (pc_segment_index c) "verified" version c (Some (digest_text (do_sha256 (pc_left c))))
                     (Some (digest_text (do_sha256 (pc_right c)))) true now) rows.

Fixpoint insert_segment_pairs (cs : list SegmentPairCheckpoint) (state_version : N) (now : string) (rows : list PairRow)
    : result MediaStoreError (list PairRow) :=
  match cs with
  | [] => Ok rows
  | c :: rest => let? rows := insert_segment_pair c state_version now rows in insert_segment_pairs rest state_version now rows
  end.

(** [validate_stored_segment_pairs, a row] (media_store/derivation_jobs.rs:574-605). *)
Definition pair_row_agrees (version : N) (row : PairRow) (expected : SegmentPairCheckpoint) : bool :=
  bool_decide (pw_checkpoint row = expected) && (pc_segment_index (pw_checkpoint row) =? pw_segment_index row)%N
  && String.eqb (pw_state row) "verified" && negb (pw_version row =? 0)%N && (pw_version row <=? version)%N
  && bool_decide (pw_left_sha256 row = Some (digest_text (do_sha256 (pc_left (pw_checkpoint row)))))
  && bool_decide (pw_right_sha256 row = Some (digest_text (do_sha256 (pc_right (pw_checkpoint row)))))
  && pw_verified row.

(** [validate_stored_segment_pairs] (media_store/derivation_jobs.rs:544-608). *)
Definition validate_stored_segment_pairs (rows : list PairRow) (snapshot : DerivationSnapshot) : result MediaStoreError unit :=
  if negb (length rows =? length (dp_checkpoints snapshot))%nat
  then corrupt "media_derivation_segment_pairs" "pair count differs from its snapshot"
  else rforall (fun '(row, expected) =>
         let? _ := rmap_err (MsCorrupt "media_derivation_segment_pairs") (validate_segment_pair_checkpoint expected) in
         if (u32_max <? pw_segment_index row)%N || negb (pair_row_agrees (dp_version snapshot) row expected)
         then corrupt "media_derivation_segment_pairs" "row disagrees with snapshot" else Ok tt)
       (combine rows (dp_checkpoints snapshot)).

Section store.
Context `{DerivationText, ManifestText, Sha256}.

(** [derivation_request_digest] (media_store/derivation_jobs.rs:725-736). *)
Definition derivation_request_digest (spec : DerivationSpec) : result string string :=
  let? payload := derivation_text (dv_subject spec) (dv_local_source spec) (dv_source_manifest_digest spec)
                    (dv_profile spec) (dv_encoder_build spec) (dv_input spec) in
  Ok ("sha256:" ++ to_hex (sha256 payload)).

(** [local_derived_receipt_from_completion] (media_store/derivation_jobs.rs:677-693). *)
Definition local_derived_receipt_from_completion (job_id : DerivationJobId) (c : DerivedCompletion)
    : result string LocalDerivedReceipt :=
  let? manifest := rmap_err (fun _ => "manifest")
                     (parse_verified (ub_derived_manifest_canonical_bytes (dc_upload_bundle_input c))) in
  if negb (bool_decide (upload_bundle_input manifest = dc_upload_bundle_input c))
  then Err "completion upload bundle input disagrees with its manifest"
  else local_derived_from_completion job_id c.

(** [validate_derived_receipt_for_snapshot] (media_store/derivation_jobs.rs:610-650). *)
Definition validate_derived_receipt_for_snapshot (receipts : DerivedReceipts) (job_id : string) (s : DerivationSnapshot)
    : result MediaStoreError unit :=
  if negb (bool_decide (dp_state s = DsDerivedVerified)) then Ok tt else
  let? completion := ok_or (dp_completion s) (MsCorrupt "media_derivation_jobs" "no completion evidence") in
  let? typed := rmap_err (MsCorrupt "media_derivation_jobs")
                  (local_derived_receipt_from_completion (dv_job_id (dp_spec s)) completion) in
  let? expected := rmap_err (fun _ => MsCorrupt "media_derived_receipts" "cannot construct typed receipt")
                     (local_derived_receipt_row typed) in
  let? actual := read_derived_receipt receipts (dr_derived_revision expected) in
  match actual with
  | None => corrupt "media_derived_receipts" "no local derived receipt"
  | Some actual => if bool_decide (actual = expected) then Ok tt
                   else corrupt "media_derived_receipts" "receipt disagrees with completion"
  end.

Definition row_identity_agrees (job_id : string) (row : DerivationRow) (srow : SpecRow) (digest : string) : bool :=
  let spec := sw_spec srow in
  String.eqb (dv_job_id spec) job_id && String.eqb (digest_text (spec_source_revision spec)) (sw_source_revision srow)
  && String.eqb (digest_text (spec_profile_revision spec)) (sw_profile_revision srow)
  && String.eqb (derivation_natural_key spec) (rw_natural_key row) && String.eqb digest (rw_request_digest row)
  && bool_decide (dp_spec (rw_snapshot row) = spec) && (dp_version (rw_snapshot row) =? rw_state_version row)%N
  && Bool.eqb (derivation_terminal (dp_state (rw_snapshot row))) (rw_is_terminal row).

(** [read_derivation_job] (media_store/derivation_jobs.rs:457-542). *)
Definition read_derivation_job (db : DerivationDb) (job_id : string) : result MediaStoreError (option StoredDerivationJob) :=
  match db_jobs db !! job_id with
  | None => Ok None
  | Some row =>
      let? srow := ok_or (db_specs db !! job_id) (MsNotFound "no spec row") in
      if negb (sw_spec_version srow =? CURRENT_DERIVATION_SPEC_VERSION)%N
      then corrupt "media_derivation_specs" "unsupported spec version" else
      let spec := sw_spec srow in
      let? digest := rmap_err (MsCorrupt "media_derivation_specs") (derivation_request_digest spec) in
      if negb (row_identity_agrees job_id row srow digest)
      then corrupt "media_derivation_jobs" "indexed identity disagrees with its typed payload" else
      let? _ := rmap_err (fun _ => MsCorrupt "media_derivation_jobs" "cannot be rehydrated") (rehydrate spec (rw_snapshot row)) in
      let? _ := validate_stored_segment_pairs (default [] (db_pairs db !! job_id)) (rw_snapshot row) in
      let? _ := validate_derived_receipt_for_snapshot (db_receipts db) job_id (rw_snapshot row) in
      Ok (Some (mkStored spec (rw_snapshot row) (rw_natural_key row) (rw_request_digest row) (rw_created_at row)
                  (rw_updated_at row)))
  end.

(** [require_derivation_job] (media_store/derivation_jobs.rs:448-455). *)
Definition require_derivation_job (db : DerivationDb) (job_id : string) : result MediaStoreError StoredDerivationJob :=
  let? job := read_derivation_job db job_id in
  ok_or job (MsNotFound "derivation job").

(** [find_derivation_identity] (media_store/derivation_jobs.rs:422-433). *)
Definition find_derivation_identity (db : DerivationDb) (natural_key : string) : option (string * string) :=
  match List.find (fun '(_, row) => String.eqb (rw_natural_key row) natural_key) (map_to_list (db_jobs db)) with
  | Some (job_id, row) => Some (job_id, rw_request_digest row)
  | None => None
  end.

(** [create_derivation_job] (media_store/derivation_jobs.rs:25-96). *)
Definition create_derivation_job (db : DerivationDb) (spec : DerivationSpec) (now : string)
    : result CreateDerivationJobError (DerivationDb * CreateJobOutcome StoredDerivationJob) :=
  let? _ := rmap_err CdStore (require_non_empty now "now") in
  let? job := rmap_err (fun _ => CdStore (MsConflict "invalid derivation spec")) (DerivationJob_new spec) in
  let initial := snapshot job in
  let natural_key := derivation_natural_key spec in
  let? request_digest := rmap_err (fun m => CdStore (MsSerialization m)) (derivation_request_digest spec) in
  let job_id := dv_job_id spec in
  match find_derivation_identity db natural_key with
  | Some (existing_id, existing_digest) =>
      if negb (String.eqb existing_digest request_digest)
      then Err (CdConflict (RequestDigestMismatch natural_key existing_id existing_digest request_digest))
      else let? existing := rmap_err CdStore (require_derivation_job db existing_id) in Ok (db, JobExisting existing)
  | None =>
      match db_jobs db !! job_id with
      | Some row => Err (CdConflict (JobIdCollision job_id (rw_natural_key row)))
      | None =>
          if String.eqb job_id "" then Err (CdStore (MsSqlite "job_id is empty")) else
          let? version := rmap_err CdStore (checked_i64 (dp_version initial) "state_version") in
          let row := mkRow natural_key request_digest initial version (derivation_terminal (dp_state initial)) now now in
          let srow := mkSpecRow (digest_text (spec_source_revision spec)) (digest_text (spec_profile_revision spec))
                        CURRENT_DERIVATION_SPEC_VERSION spec in
          let? revision := rmap_err CdStore (bump_projection_revision (db_revision db)) in
          let db' := mkDb (<[job_id := row]> (db_jobs db)) (<[job_id := srow]> (db_specs db)) (db_pairs db)
                       (db_outbox db) (db_receipts db) revision in
          let? stored := rmap_err CdStore (require_derivation_job db' job_id) in
          Ok (db', JobCreated stored)
      end
  end.

(** [persist_derivation_snapshot] (media_store/derivation_jobs.rs:279-360). *)
Definition persist_derivation_snapshot (db : DerivationDb) (current : StoredDerivationJob) (expected_version : N)
    (next : DerivationSnapshot) (now : string) : result MediaStoreError DerivationDb :=
  let job_id := dv_job_id (dp_spec next) in
  let? _ := require_non_empty now "now" in
  if derivation_terminal (dp_state (sd_snapshot current)) then db_conflict "terminal derivation job" else
  if negb (dp_version (sd_snapshot current) =? expected_version)%N then db_conflict "expected version" else
  let? expected_next := ok_or (u64_checked_add expected_version 1) (MsConflict "exhausted the u64 version range") in
  if negb (dp_version next =? expected_next)%N then db_conflict "not expected next version" else
  if negb (bool_decide (dp_spec next = sd_spec current)) then db_conflict "changed its immutable spec" else
  let? _ := rmap_err (fun _ => MsConflict "snapshot is invalid") (rehydrate (sd_spec current) next) in
  let? _ := validate_pair_monotonicity (sd_snapshot current) next in
  let? version := checked_i64 (dp_version next) "state_version" in
  let? expected := checked_i64 expected_version "expected_version" in
  match db_jobs db !! job_id with
  | Some row =>
      if negb (rw_state_version row =? expected)%N then db_conflict "lost expected-version CAS" else
      let row := mkRow (rw_natural_key row) (rw_request_digest row) next version (derivation_terminal (dp_state next))
                   (rw_created_at row) now in
      let? pairs := insert_segment_pairs (drop (length (dp_checkpoints (sd_snapshot current))) (dp_checkpoints next))
                      (dp_version next) now (default [] (db_pairs db !! job_id)) in
      Ok (mkDb (<[job_id := row]> (db_jobs db)) (db_specs db) (<[job_id := pairs]> (db_pairs db)) (db_outbox db)
            (db_receipts db) (db_revision db))
  | None => db_conflict "lost expected-version CAS"
  end.

Definition with_revision (db : DerivationDb) (revision : N) : DerivationDb :=
  mkDb (db_jobs db) (db_specs db) (db_pairs db) (db_outbox db) (db_receipts db) revision.

(** [compare_and_swap_derivation_snapshot] (media_store/derivation_jobs.rs:110-133). *)
Definition compare_and_swap_derivation_snapshot (db : DerivationDb) (expected_version : N) (next : DerivationSnapshot)
    (now : string) : result MediaStoreError (DerivationDb * CompareAndSwapOutcome StoredDerivationJob) :=
  if derivation_terminal (dp_state next) then db_conflict "terminal snapshots must use complete_derivation_job" else
  let job_id := dv_job_id (dp_spec next) in
  let? current := require_derivation_job db job_id in
  if bool_decide (sd_snapshot current = next) then Ok (db, AlreadyApplied current) else
  let? db := persist_derivation_snapshot db current expected_version next now in
  let? revision := bump_projection_revision (db_revision db) in
  let db := with_revision db revision in
  let? stored := require_derivation_job db job_id in
  Ok (db, Applied stored).

(** [CompleteDerivationOutcome] (media_store/model.rs:126-129). *)
Record CompleteDerivationOutcome := mkCompleteDerivation {
  co_job : StoredDerivationJob;
  co_completion : CompleteOutcome DerivationSnapshot;
}.

Definition is_recorded {T} (o : CompleteOutcome T) : bool := match o with Recorded _ => true | AlreadyRecorded _ => false end.

(** [complete_derivation_job, the receipt of a success] (media_store/derivation_jobs.rs:158-173). *)
Definition record_success (db : DerivationDb) (next : DerivationSnapshot) : result MediaStoreError (DerivationDb * bool) :=
  if bool_decide (dp_state next = DsDerivedVerified) then
    let? completion := ok_or (dp_completion next) (MsConflict "derived_verified snapshot has no completion evidence") in
    let? typed := rmap_err MsConflict (local_derived_receipt_from_completion (dv_job_id (dp_spec next)) completion) in
    let? row := local_derived_receipt_row typed in
    let? (receipts, outcome) := insert_derived_receipt (db_receipts db) row in
    Ok (mkDb (db_jobs db) (db_specs db) (db_pairs db) (db_outbox db) receipts (db_revision db), was_recorded outcome)
  else if bool_decide (is_Some (dp_completion next)) then db_conflict "non-success terminal derivation carries completion"
  else Ok (db, false).

(** [complete_derivation_job] (media_store/derivation_jobs.rs:138-191). *)
Definition complete_derivation_job (db : DerivationDb) (expected_version : N) (next : DerivationSnapshot) (now : string)
    : result MediaStoreError (DerivationDb * CompleteDerivationOutcome) :=
  if negb (derivation_terminal (dp_state next)) then db_conflict "non-terminal derivation snapshots" else
  let job_id := dv_job_id (dp_spec next) in
  let? _ := require_non_empty now "now" in
  let? current := require_derivation_job db job_id in
  let replay := bool_decide (sd_snapshot current = next) in
  let? db := if replay then Ok db else persist_derivation_snapshot db current expected_version next now in
  let? (db, receipt_recorded) := record_success db next in
  let? (outbox, completion) := insert_completion (db_outbox db) job_id next (dp_version next) now in
  let db := mkDb (db_jobs db) (db_specs db) (db_pairs db) outbox (db_receipts db) (db_revision db) in
  let? revision := if negb replay || receipt_recorded || is_recorded completion
                   then bump_projection_revision (db_revision db) else Ok (db_revision db) in
  let db := with_revision db revision in
  let? job := require_derivation_job db job_id in
  Ok (db, mkCompleteDerivation job completion).

(** [pending_derivation_completions] (media_store/derivation_jobs.rs:193-197). *)
Definition pending_derivation_completions (db : DerivationDb) : list (CompletionEnvelope DerivationSnapshot) :=
  read_pending_completions (db_outbox db).

(** [acknowledge_derivation_completion] (media_store/derivation_jobs.rs:199-213). *)
Definition acknowledge_derivation_completion (db : DerivationDb) (job_id now : string)
    : result MediaStoreError (DerivationDb * AcknowledgeOutcome (CompletionEnvelope DerivationSnapshot)) :=
  let? _ := require_non_empty now "now" in
  let '(outbox, outcome) := acknowledge_completion (db_outbox db) job_id now in
  let db := mkDb (db_jobs db) (db_specs db) (db_pairs db) outbox (db_receipts db) (db_revision db) in
  match outcome with
  | Acknowledged _ => let? revision := bump_projection_revision (db_revision db) in Ok (with_revision db revision, outcome)
  | _ => Ok (db, outcome)
  end.

Definition by_creation (a b : string * DerivationRow) : Prop :=
  Is_true (String.ltb (rw_created_at a.2) (rw_created_at b.2)
           || (String.eqb (rw_created_at a.2) (rw_created_at b.2) && String.leb a.1 b.1)).
#[global] Instance by_creation_dec : RelDecision by_creation.
Proof. intros a b. unfold by_creation. apply _. Defined.

(** [derivation_projection] (media_store/derivation_jobs.rs:215-232). *)
Definition derivation_projection (db : DerivationDb) : result MediaStoreError (N * list StoredDerivationJob) :=
  let ids := map fst (merge_sort by_creation (map_to_list (db_jobs db))) in
  let? items := rtraverse (require_derivation_job db) ids in
  Ok (db_revision db, items).

(** [RecoveryBlockedReason] (media_store/model.rs:400-408). *)
Inductive RecoveryBlockedReason :=
| MissingSpec | MissingFiles | MissingLocator | UnknownSpecVersion | CorruptSpec | DigestMismatch | UnknownState.

(** [Recoverable] (media_store/model.rs:418-421); of a blocked row, its id and reason. *)
Inductive Recoverable (T : Type) := Ready (value : T) | Blocked (job_id : string) (reason : RecoveryBlockedReason).
Arguments Ready {T} _.
Arguments Blocked {T} _ _.

Definition recover_derivation (db : DerivationDb) (job_id : string) : result MediaStoreError (Recoverable StoredDerivationJob) :=
  match read_derivation_job db job_id with
  | Ok (Some job) => Ok (Ready job)
  | Ok None => Ok (Blocked job_id MissingSpec)
  | Err (MsCorrupt _ _) => Ok (Blocked job_id CorruptSpec)
  | Err (MsNotFound _) => Ok (Blocked job_id MissingSpec)
  | Err e => Err e
  end.

(** [list_recoverable_derivations] (media_store/derivation_jobs.rs:236-276). *)
Definition list_recoverable_derivations (db : DerivationDb) : result MediaStoreError (list (Recoverable StoredDerivationJob)) :=
  let open := List.filter (fun '(_, row) => negb (rw_is_terminal row)) (map_to_list (db_jobs db)) in
  rtraverse (recover_derivation db) (map fst (merge_sort by_creation open)).
End store.
