(* ===== verification/DerivationStoreProofs.v ===== *)
(** * DerivationStoreProofs: what the derivation tables guarantee

Every operation keeps every row readable, no row changes except by one version
at a time and by appending pairs, and a terminal row has its outbox row and, for
a success, its receipt. *)

From Stdlib Require Import NArith Lia Ascii String.
From stdpp Require Import base numbers list strings gmap sorting.
From S2P Require Import Prelude Domain Files Json Ingest Rational Profile MediaPlan Validation Manifest.
From S2P Require Import ManifestProofs Derivation MediaStore DerivationStore.

Local Open Scope string_scope.

Section store.
Context `{HT : DerivationText, HM : ManifestText, HS : Sha256}.

(** ** Reads *)

Lemma rbind_mono {E A B} (c : result E A) (k k' : A -> result E B) b :
  (forall a, c = Ok a -> k a = Ok b -> k' a = Ok b) -> rbind c k = Ok b -> rbind c k' = Ok b.
Proof. destruct c as [a|e]; [|done]. intros Hk. by apply Hk. Qed.

Lemma read_derived_receipt_mono (rows rows' : DerivedReceipts) revision r :
  rows ⊆ rows' -> read_derived_receipt rows revision = Ok (Some r) -> read_derived_receipt rows' revision = Ok (Some r).
Proof.
  unfold read_derived_receipt. intros Hs Hr. destruct (rows !! revision) as [r'|] eqn:E; [|done].
  by rewrite (lookup_weaken _ _ _ _ E Hs).
Qed.

Lemma validate_receipt_mono rows rows' job_id s u :
  rows ⊆ rows' -> validate_derived_receipt_for_snapshot rows job_id s = Ok u ->
  validate_derived_receipt_for_snapshot rows' job_id s = Ok u.
Proof.
  unfold validate_derived_receipt_for_snapshot. intros Hs. destruct (negb _); [done|].
  apply rbind_mono. intros c _. apply rbind_mono. intros t _. apply rbind_mono. intros e _. rewrite rbind_ok.
  intros ([actual|] & Ha & Hr); [|done]. by rewrite (read_derived_receipt_mono _ _ _ _ Hs Ha).
Qed.

(** A read of a job depends on its rows and on the receipts that were there. *)
Lemma read_ext db db' job_id job :
  db_jobs db' !! job_id = db_jobs db !! job_id -> db_specs db' !! job_id = db_specs db !! job_id ->
  db_pairs db' !! job_id = db_pairs db !! job_id -> db_receipts db ⊆ db_receipts db' ->
  read_derivation_job db job_id = Ok job -> read_derivation_job db' job_id = Ok job.
Proof.
  intros Hj Hs Hp Hr. unfold read_derivation_job. rewrite Hj, Hs, Hp. destruct (db_jobs db !! job_id) as [row|]; [|done].
  apply rbind_mono. intros srow _. destruct (negb _); [done|]. apply rbind_mono. intros digest _. destruct (negb _); [done|].
  apply rbind_mono. intros j _. apply rbind_mono. intros u _. rewrite !rbind_ok. intros (v & Hv & Hk). exists v.
  split; [by eapply validate_receipt_mono|done].
Qed.

(** What a successful read says of the rows. *)
Record row_reads (db : DerivationDb) (job_id : string) (row : DerivationRow) (job : StoredDerivationJob) : Prop := {
  rr_row : db_jobs db !! job_id = Some row;
  rr_job : job = mkStored (dp_spec (rw_snapshot row)) (rw_snapshot row) (rw_natural_key row) (rw_request_digest row)
                   (rw_created_at row) (rw_updated_at row);
  rr_id : dv_job_id (dp_spec (rw_snapshot row)) = job_id;
  rr_key : rw_natural_key row = derivation_natural_key (dp_spec (rw_snapshot row));
  rr_digest : derivation_request_digest (dp_spec (rw_snapshot row)) = Ok (rw_request_digest row);
  rr_version : rw_state_version row = dp_version (rw_snapshot row);
  rr_terminal : rw_is_terminal row = derivation_terminal (dp_state (rw_snapshot row));
  rr_rehydrates : exists j, rehydrate (dp_spec (rw_snapshot row)) (rw_snapshot row) = Ok j;
  rr_pairs : Forall (fun c => validate_segment_pair_checkpoint c = Ok tt) (dp_checkpoints (rw_snapshot row));
  rr_receipt : validate_derived_receipt_for_snapshot (db_receipts db) job_id (rw_snapshot row) = Ok tt;
}.

Lemma stored_pairs_valid rows s :
  validate_stored_segment_pairs rows s = Ok tt ->
  Forall (fun c => validate_segment_pair_checkpoint c = Ok tt) (dp_checkpoints s).
Proof.
  unfold validate_stored_segment_pairs. destruct (Nat.eqb_spec (length rows) (length (dp_checkpoints s))) as [Hl|]; [|done].
  cbn [negb]. rewrite rforall_ok, !Forall_forall. intros Hf c Hc. apply list_elem_of_lookup in Hc as [k Hk].
  destruct (lookup_lt_is_Some_2 rows k) as [row Hr]; [rewrite Hl; by eapply lookup_lt_Some|].
  specialize (Hf (row, c)). cbn in Hf. apply rbind_ok in Hf as ([] & Hv%rmap_err_ok & _); [done|].
  apply elem_of_lookup_zip_with. by exists k, row, c.
Qed.

Lemma read_derivation_ok db job_id job :
  read_derivation_job db job_id = Ok (Some job) -> exists row, row_reads db job_id row job.
Proof.
  unfold read_derivation_job. destruct (db_jobs db !! job_id) as [row|] eqn:Er; [|done].
  rewrite rbind_ok. intros (srow & Hs & Hk). revert Hk. destruct (negb _); [done|].
  rewrite rbind_ok. intros (digest & Hd & Hk). revert Hk. destruct (row_identity_agrees _ _ _ _) eqn:Ei; [|done]. cbn [negb].
  rewrite rbind_ok. intros (j & Hj & Hk). revert Hk. rewrite rbind_ok. intros ([] & Hpairs%stored_pairs_valid & Hk). revert Hk.
  rewrite rbind_ok. intros ([] & Hv & Hk). injection Hk as <-. apply rmap_err_ok in Hd, Hj.
  unfold row_identity_agrees in Ei. rewrite !andb_true_iff, !String.eqb_eq, bool_decide_eq_true, N.eqb_eq in Ei.
  destruct Ei as [[[[[[[Hid _] _] Hkey] Hdig] Hspec] Hver] Hterm%eqb_prop]. exists row. rewrite <- Hspec in *.
  constructor; try done; try congruence. by exists j.
Qed.

Lemma require_ok db job_id job :
  require_derivation_job db job_id = Ok job -> read_derivation_job db job_id = Ok (Some job).
Proof. unfold require_derivation_job. rewrite rbind_ok. intros (o & Ho & Hj%ok_or_ok). congruence. Qed.

(** ** Persisted snapshots *)

Lemma persist_ok db current v next now db' :
  persist_derivation_snapshot db current v next now = Ok db' ->
  derivation_terminal (dp_state (sd_snapshot current)) = false /\ dp_version (sd_snapshot current) = v /\
  dp_version next = (v + 1)%N /\ dp_spec next = sd_spec current /\
  validate_pair_monotonicity (sd_snapshot current) next = Ok tt /\
  exists row pairs, db_jobs db !! dv_job_id (dp_spec next) = Some row /\
    db' = mkDb (<[dv_job_id (dp_spec next) := mkRow (rw_natural_key row) (rw_request_digest row) next (dp_version next)
                    (derivation_terminal (dp_state next)) (rw_created_at row) now]> (db_jobs db)) (db_specs db)
            (<[dv_job_id (dp_spec next) := pairs]> (db_pairs db)) (db_outbox db) (db_receipts db) (db_revision db).
Proof.
  unfold persist_derivation_snapshot. rewrite rbind_ok. intros (u & _ & Hr). revert Hr.
  destruct (derivation_terminal _); [done|]. destruct (N.eqb_spec (dp_version (sd_snapshot current)) v) as [Ev|]; [|done].
  cbn [negb]. rewrite rbind_ok. intros (n & [_ ->]%ok_or_ok%u64_checked_add_Some & Hr). revert Hr.
  destruct (N.eqb_spec (dp_version next) (v + 1)) as [En|]; [|done]. cbn [negb].
  case_bool_decide as Es; [|done]. cbn [negb]. rewrite rbind_ok. intros (j & _ & Hr). revert Hr.
  rewrite rbind_ok. intros ([] & Hm & Hr). revert Hr. rewrite rbind_ok. intros (ver & Hver & Hr). revert Hr.
  rewrite rbind_ok. intros (ex & _ & Hr). revert Hr. destruct (db_jobs db !! _) as [row|] eqn:Er; [|done].
  destruct (negb _); [done|]. rewrite rbind_ok. intros (pairs & _ & Hr). injection Hr as <-.
  assert (ver = dp_version next) as -> by (unfold checked_i64 in Hver; destruct (_ <=? _)%N; [by injection Hver|done]).
  split_and!; try done. exists row, pairs. done.
Qed.

Lemma monotone_prefix current next :
  validate_pair_monotonicity current next = Ok tt -> dp_checkpoints current `prefix_of` dp_checkpoints next.
Proof.
  unfold validate_pair_monotonicity. destruct (Nat.ltb_spec (length (dp_checkpoints next)) (length (dp_checkpoints current)))
    as [|Hl]; [done|]. destruct (existsb _ _) eqn:E; [done|]. intros _. revert Hl E.
  generalize (dp_checkpoints next) as new. induction (dp_checkpoints current) as [|c old IH]; intros [|d new] Hl E; simpl in *.
  - done.
  - apply prefix_nil.
  - lia.
  - apply orb_false_iff in E as [E1 E2]. apply negb_false_iff, bool_decide_eq_true in E1 as ->.
    apply prefix_cons, IH; [lia|done].
Qed.

(** ** The invariant *)

(** A later row: the same request, and either the same snapshot or, from one that was not terminal, a higher version
    with no pair changed or removed. *)
Definition row_advances (old new : DerivationRow) : Prop :=
  rw_natural_key new = rw_natural_key old /\ rw_request_digest new = rw_request_digest old /\
  dp_spec (rw_snapshot new) = dp_spec (rw_snapshot old) /\
  dp_checkpoints (rw_snapshot old) `prefix_of` dp_checkpoints (rw_snapshot new) /\
  (rw_snapshot new = rw_snapshot old \/
   derivation_terminal (dp_state (rw_snapshot old)) = false /\
   (dp_version (rw_snapshot old) < dp_version (rw_snapshot new))%N).

Definition records (env : CompletionEnvelope DerivationSnapshot) (row : DerivationRow) : Prop :=
  ce_outcome env = rw_snapshot row /\ ce_state_version env = dp_version (rw_snapshot row) /\
  derivation_terminal (dp_state (rw_snapshot row)) = true.

Record store_ok (db : DerivationDb) : Prop := {
  so_reads : forall id, exists job, read_derivation_job db id = Ok job;
  so_keys : forall id id' row row', db_jobs db !! id = Some row -> db_jobs db !! id' = Some row' ->
    rw_natural_key row = rw_natural_key row' -> id = id';
  so_pairs : forall id, db_jobs db !! id = None -> db_pairs db !! id = None;
  so_recorded : forall id row, db_jobs db !! id = Some row -> derivation_terminal (dp_state (rw_snapshot row)) = true ->
    exists env, ob_rows (db_outbox db) !! id = Some env /\ records env row;
  so_outbox : forall id env, ob_rows (db_outbox db) !! id = Some env ->
    (ce_sequence env <= ob_sequence (db_outbox db))%N /\ exists row, db_jobs db !! id = Some row /\ records env row;
  so_sequence : forall id id' env env', ob_rows (db_outbox db) !! id = Some env -> ob_rows (db_outbox db) !! id' = Some env' ->
    ce_sequence env = ce_sequence env' -> id = id';
}.

(** An operation that changes the tables. *)
Inductive store_step (db : DerivationDb) : DerivationDb -> Prop :=
| step_create spec now db' outcome : create_derivation_job db spec now = Ok (db', outcome) -> store_step db db'
| step_swap v next now db' outcome :
    compare_and_swap_derivation_snapshot db v next now = Ok (db', outcome) -> store_step db db'
| step_complete v next now db' outcome : complete_derivation_job db v next now = Ok (db', outcome) -> store_step db db'
| step_acknowledge job_id now db' outcome :
    acknowledge_derivation_completion db job_id now = Ok (db', outcome) -> store_step db db'.

(** What a step keeps of the old tables. *)
Record advances (db db' : DerivationDb) : Prop := {
  ad_rows : forall id row, db_jobs db !! id = Some row -> exists row', db_jobs db' !! id = Some row' /\ row_advances row row';
  ad_outbox : forall id env, ob_rows (db_outbox db) !! id = Some env -> exists env', ob_rows (db_outbox db') !! id = Some env' /\
    ce_outcome env' = ce_outcome env /\ ce_sequence env' = ce_sequence env /\
    (is_Some (ce_acknowledged_at env) -> env' = env);
  ad_receipts : db_receipts db ⊆ db_receipts db';
}.

Lemma row_advances_refl row : row_advances row row.
Proof. unfold row_advances. split_and!; try done. by left. Qed.

Lemma row_advances_trans a b c : row_advances a b -> row_advances b c -> row_advances a c.
Proof.
  intros (A1 & A2 & A3 & A4 & A5) (B1 & B2 & B3 & B4 & B5). unfold row_advances. split_and!; [congruence..| |].
  - by etrans.
  - destruct A5 as [E|[Ht Hv]], B5 as [E'|[Ht' Hv']]; [left; congruence|right; rewrite <- E; by split|right; rewrite E'; by split|].
    right. split; [done|lia].
Qed.

Lemma advances_refl db : advances db db.
Proof.
  constructor; [|intros id env He; by exists env|done]. intros id row Hr. exists row. split; [done|apply row_advances_refl].
Qed.

Lemma advances_trans a b c : advances a b -> advances b c -> advances a c.
Proof.
  intros [A1 A2 A3] [B1 B2 B3]. constructor; [| |by etrans].
  - intros id row Hr. destruct (A1 _ _ Hr) as (row' & Hr' & Ha). destruct (B1 _ _ Hr') as (row2 & Hr2 & Hb). exists row2.
    split; [done|by eapply row_advances_trans].
  - intros id env He. destruct (A2 _ _ He) as (e1 & He1 & E1 & E2 & E3). destruct (B2 _ _ He1) as (e2 & He2 & F1 & F2 & F3).
    exists e2. split_and!; [done|congruence..|]. intros Hk. rewrite F3; [by apply E3|by rewrite E3].
Qed.

(** ** Steps *)

Lemma reads_preserved db db' jid :
  store_ok db -> (exists job, read_derivation_job db' jid = Ok job) ->
  (forall id, id <> jid -> db_jobs db' !! id = db_jobs db !! id /\ db_specs db' !! id = db_specs db !! id /\
     db_pairs db' !! id = db_pairs db !! id) ->
  db_receipts db ⊆ db_receipts db' -> forall id, exists job, read_derivation_job db' id = Ok job.
Proof.
  intros Hok Hj Hl Hr id. destruct (decide (id = jid)) as [->|Hne]; [done|]. destruct (so_reads _ Hok id) as [job Hjob].
  exists job. destruct (Hl id Hne) as (E1 & E2 & E3). by apply (read_ext db).
Qed.

Lemma find_identity_none db key id row :
  find_derivation_identity db key = None -> db_jobs db !! id = Some row -> rw_natural_key row <> key.
Proof.
  unfold find_derivation_identity. destruct (List.find _ _) as [[]|] eqn:E; [done|]. intros _ Hr Hk.
  eapply find_none in E; [|apply list_elem_of_In, elem_of_map_to_list, Hr]. simpl in E. apply String.eqb_neq in E. done.
Qed.

Lemma find_identity_some db key id digest :
  find_derivation_identity db key = Some (id, digest) ->
  exists row, db_jobs db !! id = Some row /\ rw_natural_key row = key /\ rw_request_digest row = digest.
Proof.
  unfold find_derivation_identity. destruct (List.find _ _) as [[id' row]|] eqn:E; [|done]. intros [= -> <-].
  apply find_some in E as [Hin%list_elem_of_In%elem_of_map_to_list Hk%String.eqb_eq]. by exists row.
Qed.

Lemma new_job_snapshot spec job :
  DerivationJob_new spec = Ok job ->
  snapshot job = mkDerivationSnapshot spec DsQueued DesiredRun 1 None None [] None None /\ validate_spec spec = Ok tt.
Proof. unfold DerivationJob_new. rewrite rbind_ok. by intros ([] & Hv & [= <-]). Qed.

Lemma step_create_ok db spec now db' outcome :
  store_ok db -> create_derivation_job db spec now = Ok (db', outcome) -> store_ok db' /\ advances db db'.
Proof.
  intros Hok. unfold create_derivation_job. rewrite rbind_ok. intros (u & _ & Hr). revert Hr.
  rewrite rbind_ok. intros (job & Hjob%rmap_err_ok%new_job_snapshot & Hr). destruct Hjob as [Hs _]. revert Hr. rewrite Hs.
  rewrite rbind_ok. intros (digest & _ & Hr). revert Hr.
  destruct (find_derivation_identity _ _) as [[eid edig]|] eqn:Ef.
  { destruct (negb _); [done|]. rewrite rbind_ok. intros (existing & _ & [= <- _]). split; [done|apply advances_refl]. }
  destruct (db_jobs db !! dv_job_id spec) as [row|] eqn:Ej; [done|]. destruct (String.eqb _ _); [done|].
  rewrite rbind_ok. intros (version & _ & Hr). revert Hr. rewrite rbind_ok. intros (revision & _ & Hr). revert Hr.
  set (row := mkRow _ _ _ _ _ _ _). set (db1 := mkDb _ _ _ _ _ _). rewrite rbind_ok.
  intros (stored & Hst & Hr). injection Hr as <- _. apply rmap_err_ok, require_ok in Hst.
  assert (Hrow : forall id r, db_jobs db1 !! id = Some r -> (id = dv_job_id spec /\ r = row) \/ db_jobs db !! id = Some r).
  { intros id r. subst db1. cbn. intros [[<- <-]|[_ Hr]]%lookup_insert_Some; [by left|by right]. }
  split.
  - constructor.
    + apply (reads_preserved db db1 (dv_job_id spec) Hok); [by eexists| |done].
      intros id Hne. subst db1. cbn. rewrite !lookup_insert_ne by done. done.
    + intros id id' r r' [[-> ->]|Hr]%Hrow [[-> ->]|Hr']%Hrow Hk; [done|..|by eapply so_keys].
      * exfalso. eapply find_identity_none; [exact Ef|exact Hr'|]. by rewrite <- Hk.
      * exfalso. eapply find_identity_none; [exact Ef|exact Hr|]. by rewrite Hk.
    + intros id. subst db1. cbn. rewrite lookup_insert_None. intros [Hn _]. by apply (so_pairs _ Hok).
    + intros id r [[-> ->]|Hr]%Hrow Ht; [done|]. by apply (so_recorded _ Hok).
    + intros id env He. destruct (so_outbox _ Hok id env He) as (Hseq & r & Hr & Hrec). split; [done|]. exists r.
      split; [|done]. subst db1. cbn. rewrite lookup_insert_ne; [done|]. intros <-. congruence.
    + apply (so_sequence _ Hok).
  - constructor; [|intros id env He; by exists env|done]. intros id r Hr. exists r. split; [|apply row_advances_refl].
    subst db1. cbn. rewrite lookup_insert_ne; [done|]. intros <-. congruence.
Qed.

(** The rows after a persisted snapshot. *)
Lemma persisted_row db current v next now db1 :
  read_derivation_job db (dv_job_id (dp_spec next)) = Ok (Some current) ->
  persist_derivation_snapshot db current v next now = Ok db1 ->
  let jid := dv_job_id (dp_spec next) in
  exists row row', db_jobs db !! jid = Some row /\ db_jobs db1 = <[jid := row']> (db_jobs db) /\ row_advances row row' /\
    rw_snapshot row' = next /\ derivation_terminal (dp_state (rw_snapshot row)) = false /\
    db_specs db1 = db_specs db /\ (forall id, id <> jid -> db_pairs db1 !! id = db_pairs db !! id) /\
    db_outbox db1 = db_outbox db /\ db_receipts db1 = db_receipts db /\ is_Some (db_pairs db1 !! jid).
Proof.
  intros Hread%read_derivation_ok Hp. apply persist_ok in Hp as (Ht & Hv & Hn & Hs & Hm & row & pairs & Er & ->). cbn.
  destruct Hread as [row0 [Hr0 Hjob _ _ _ _ _ _ _ _]]. rewrite Er in Hr0. injection Hr0 as <-. subst current. cbn in *.
  eexists row, _. split; [done|]. split; [reflexivity|]. split.
  - unfold row_advances. cbn. split_and!; try done; [by apply monotone_prefix|]. right. split; [done|]. lia.
  - cbn. split_and!; try done; [|rewrite lookup_insert_eq; by eexists]. intros id Hne. by rewrite lookup_insert_ne.
Qed.

Lemma step_swap_ok db v next now db' outcome :
  store_ok db -> compare_and_swap_derivation_snapshot db v next now = Ok (db', outcome) -> store_ok db' /\ advances db db'.
Proof.
  intros Hok. unfold compare_and_swap_derivation_snapshot. destruct (derivation_terminal (dp_state next)) eqn:Et; [done|].
  rewrite rbind_ok. intros (current & Hc%require_ok & Hr). revert Hr. case_bool_decide.
  { intros [= <- _]. split; [done|apply advances_refl]. }
  rewrite rbind_ok. intros (db1 & Hp & Hr). revert Hr. rewrite rbind_ok. intros (revision & _ & Hr). revert Hr.
  rewrite rbind_ok. intros (stored & Hst%require_ok & Hr). injection Hr as <- _.
  destruct (persisted_row _ _ _ _ _ _ Hc Hp) as (row & row' & Er & Ej & Hadv & Hsn & Hnt & Esp & Epa & Eob & Erc & Eps).
  set (jid := dv_job_id (dp_spec next)) in *. set (db2 := with_revision db1 revision) in *.
  assert (Hrow : forall id r, db_jobs db2 !! id = Some r -> (id = jid /\ r = row') \/ (id <> jid /\ db_jobs db !! id = Some r)).
  { intros id r. cbn. rewrite Ej. intros [[<- <-]|[Hne Hr]]%lookup_insert_Some; [by left|right; by split]. }
  assert (Hkey : rw_natural_key row' = rw_natural_key row) by apply Hadv.
  split.
  - constructor.
    + apply (reads_preserved db db2 jid Hok); [by eexists| |cbn; by rewrite Erc].
      intros id Hne. cbn. rewrite Ej, Esp, (Epa _ Hne), lookup_insert_ne by done. done.
    + intros id id' r r' [[-> ->]|[_ Hr]]%Hrow [[-> ->]|[_ Hr']]%Hrow Hk; [done|..|by eapply so_keys].
      * rewrite Hkey in Hk. by eapply so_keys.
      * rewrite Hkey in Hk. by eapply so_keys.
    + intros id. cbn. rewrite Ej, lookup_insert_None. intros [Hn Hne]. rewrite Epa by done. by apply (so_pairs _ Hok).
    + intros id r [[-> ->]|[_ Hr]]%Hrow Ht; [rewrite Hsn in Ht; congruence|]. cbn. rewrite Eob. by apply (so_recorded _ Hok).
    + intros id env. cbn. rewrite Eob, Ej. intros He. destruct (so_outbox _ Hok id env He) as (Hseq & r & Hr & Hrec).
      split; [done|]. exists r. split; [|done]. rewrite lookup_insert_ne; [done|]. intros <-. rewrite Er in Hr.
      injection Hr as <-. destruct Hrec as (_ & _ & Ht). congruence.
    + cbn. rewrite Eob. apply (so_sequence _ Hok).
  - constructor; cbn; [|rewrite Eob; intros id env He; by exists env|by rewrite Erc]. rewrite Ej. intros id r Hr.
    destruct (decide (id = jid)) as [->|Hne].
    + exists row'. rewrite lookup_insert_eq. split; [done|]. congruence.
    + exists r. rewrite lookup_insert_ne by done. split; [done|apply row_advances_refl].
Qed.

Lemma insert_completion_ok {T} `{EqDecision T} (ob ob' : Outbox T) job_id outcome version at_ o :
  insert_completion ob job_id outcome version at_ = Ok (ob', o) ->
  (ob' = ob /\ exists e, ob_rows ob !! job_id = Some e /\ ce_outcome e = outcome /\ ce_state_version e = version) \/
  (ob_rows ob !! job_id = None /\
   ob' = mkOutbox (<[job_id := mkEnvelope (ob_sequence ob + 1)%N job_id outcome version at_ None]> (ob_rows ob))
           (ob_sequence ob + 1)%N).
Proof.
  unfold insert_completion. destruct (ob_rows ob !! job_id) as [e|] eqn:E.
  - case_bool_decide as Ho; [|done]. destruct (N.eqb_spec (ce_state_version e) version) as [Hv|]; [|done].
    intros [= <- _]. left. split; [done|]. by exists e.
  - rewrite rbind_ok. intros (v & Hv & Hr). revert Hr. destruct (i64_max <=? _)%N; [done|]. intros [= <- _]. right.
    split; [done|]. unfold checked_i64 in Hv. destruct (version <=? i64_max)%N; [|done]. by injection Hv as <-.
Qed.

Lemma insert_receipt_ok (rows rows' : DerivedReceipts) receipt o :
  insert_derived_receipt rows receipt = Ok (rows', o) -> rows ⊆ rows' /\ rows' !! dr_derived_revision receipt = Some receipt.
Proof.
  unfold insert_derived_receipt, read_derived_receipt. destruct (rows !! dr_derived_revision receipt) as [r|] eqn:E.
  - rewrite rbind_ok. intros (o' & Ho & Hr). apply rbind_ok in Ho as (u & _ & [= <-]). revert Hr.
    case_bool_decide; [|done]. intros [= <- _]. by subst.
  - cbn [rbind]. destruct (receipt_job_taken _ _); [done|]. intros [= <- _].
    split; [by apply insert_subseteq|by rewrite lookup_insert_eq].
Qed.

Lemma record_success_ok db next db' recorded :
  record_success db next = Ok (db', recorded) ->
  exists receipts, db' = mkDb (db_jobs db) (db_specs db) (db_pairs db) (db_outbox db) receipts (db_revision db) /\
    db_receipts db ⊆ receipts.
Proof.
  unfold record_success. destruct db as [jobs specs pairs outbox receipts revision]. case_bool_decide.
  - rewrite rbind_ok. intros (c & _ & Hr). revert Hr. rewrite rbind_ok. intros (t & _ & Hr). revert Hr.
    rewrite rbind_ok. intros (row & _ & Hr). revert Hr. rewrite rbind_ok. intros ([receipts' o] & Hi & [= <- _]).
    apply insert_receipt_ok in Hi as [Hs _]. exists receipts'. by split.
  - case_bool_decide; [done|]. intros [= <- _]. by exists receipts.
Qed.

Lemma step_complete_ok db v next now db' outcome :
  store_ok db -> complete_derivation_job db v next now = Ok (db', outcome) -> store_ok db' /\ advances db db'.
Proof.
  intros Hok. unfold complete_derivation_job. destruct (derivation_terminal (dp_state next)) eqn:Et; [|done]. cbn [negb].
  rewrite rbind_ok. intros (u & _ & Hr). revert Hr. rewrite rbind_ok. intros (current & Hc%require_ok & Hr). revert Hr.
  rewrite rbind_ok. intros (db1 & Hp & Hr). revert Hr. rewrite rbind_ok. intros ([db2 recorded] & Hs & Hr). revert Hr.
  rewrite rbind_ok. intros ([ob completion] & Hi & Hr). revert Hr. rewrite rbind_ok. intros (revision & _ & Hr). revert Hr.
  rewrite rbind_ok. intros (job & Hj%require_ok & Hr). injection Hr as <- _.
  apply record_success_ok in Hs as (receipts & -> & Hrs). cbn [db_jobs db_specs db_pairs db_outbox db_receipts db_revision] in *.
  set (jid := dv_job_id (dp_spec next)) in *. set (db3 := with_revision _ revision) in *.
  apply insert_completion_ok in Hi. case_bool_decide as Hreplay.
  { injection Hp as <-. apply read_derivation_ok in Hc as [row Hrow]. destruct Hrow as [Er Hjob _ _ _ _ _ _ _ _]. subst current. cbn in Hreplay.
    destruct (so_recorded _ Hok jid row Er) as (env & He & _); [by rewrite Hreplay|].
    destruct Hi as [[-> _]|[Hn _]]; [|congruence]. split.
    - constructor; try apply Hok. cbn. apply (reads_preserved db db3 jid Hok); [by eexists| |done]. done.
    - constructor; cbn; [|intros id e Hid; by exists e|done]. intros id r Hr. exists r. split; [done|apply row_advances_refl]. }
  destruct (persisted_row _ _ _ _ _ _ Hc Hp) as (row & row' & Er & Ej & Hadv & Hsn & Hnt & Esp & Epa & Eob & Erc & Eps).
  fold jid in Er, Ej, Epa, Eps. rewrite Eob in Hi. rewrite Erc in Hrs.
  destruct Hi as [(_ & e & He & _)|[Hno ->]].
  { exfalso. destruct (so_outbox _ Hok jid e He) as (_ & r & Hr & _ & _ & Ht). rewrite Er in Hr. injection Hr as <-. congruence. }
  assert (Hrow : forall id r, db_jobs db3 !! id = Some r -> (id = jid /\ r = row') \/ (id <> jid /\ db_jobs db !! id = Some r)).
  { intros id r. cbn. rewrite Ej. intros [[<- <-]|[Hne Hr]]%lookup_insert_Some; [by left|right; by split]. }
  assert (Hkey : rw_natural_key row' = rw_natural_key row) by apply Hadv.
  assert (Henv : forall id e, ob_rows (db_outbox db3) !! id = Some e ->
    (id = jid /\ ce_sequence e = ob_sequence (db_outbox db) + 1 /\ records e row')%N \/
    (id <> jid /\ ob_rows (db_outbox db) !! id = Some e)).
  { intros id e. cbn. intros [[<- <-]|[Hne He]]%lookup_insert_Some; [left|right; by split]. split; [done|]. split; [done|].
    split; [by rewrite Hsn|]. cbn. rewrite Hsn. done. }
  split.
  - constructor.
    + apply (reads_preserved db db3 jid Hok); [by eexists| |done]. intros id Hne. cbn.
      rewrite Ej, Esp, (Epa _ Hne), lookup_insert_ne by done. done.
    + intros id id' r r' [[-> ->]|[_ Hr]]%Hrow [[-> ->]|[_ Hr']]%Hrow Hk; [done|..|by eapply so_keys].
      * rewrite Hkey in Hk. by eapply so_keys.
      * rewrite Hkey in Hk. by eapply so_keys.
    + intros id. cbn. rewrite Ej, lookup_insert_None. intros [Hn Hne]. rewrite Epa by done. by apply (so_pairs _ Hok).
    + intros id r [[-> ->]|[Hne Hr]]%Hrow Ht.
      * eexists. cbn. rewrite lookup_insert_eq. split; [done|]. split; [by rewrite Hsn|]. cbn. by rewrite Hsn.
      * cbn. rewrite lookup_insert_ne by done. by apply (so_recorded _ Hok).
    + intros id e He. apply Henv in He as [(-> & Hseq & Hrec)|[Hne He]].
      * split; [cbn in *; lia|]. exists row'. cbn. rewrite Ej, lookup_insert_eq. done.
      * destruct (so_outbox _ Hok id e He) as (Hseq & r & Hr & Hrec). split; [cbn in *; lia|]. exists r. cbn.
        rewrite Ej, lookup_insert_ne by done. done.
    + intros id id' e e' He He' Hs. apply Henv in He as [(-> & Hseq & _)|[Hne He]], He' as [(-> & Hseq' & _)|[Hne' He']];
        [done|..|by eapply so_sequence].
      * destruct (so_outbox _ Hok id' e' He') as (Hle & _). lia.
      * destruct (so_outbox _ Hok id e He) as (Hle & _). lia.
  - constructor; cbn; [|intros id e He|done].
    + rewrite Ej. intros id r Hr. destruct (decide (id = jid)) as [->|Hne].
      * exists row'. rewrite lookup_insert_eq. split; [done|]. congruence.
      * exists r. rewrite lookup_insert_ne by done. split; [done|apply row_advances_refl].
    + exists e. rewrite lookup_insert_ne; [done|]. intros <-. congruence.
Qed.

Lemma step_acknowledge_ok db job_id now db' outcome :
  store_ok db -> acknowledge_derivation_completion db job_id now = Ok (db', outcome) -> store_ok db' /\ advances db db'.
Proof.
  intros Hok. unfold acknowledge_derivation_completion, acknowledge_completion. rewrite rbind_ok. intros (u & _ & Hr). revert Hr.
  assert (Hsame : store_ok (mkDb (db_jobs db) (db_specs db) (db_pairs db) (db_outbox db) (db_receipts db) (db_revision db)) /\
    advances db (mkDb (db_jobs db) (db_specs db) (db_pairs db) (db_outbox db) (db_receipts db) (db_revision db))).
  { destruct db. split; [done|apply advances_refl]. }
  destruct (ob_rows (db_outbox db) !! job_id) as [e|] eqn:Ee; [|by intros [= <- _]].
  destruct (ce_acknowledged_at e) eqn:Ea; [by intros [= <- _]|]. rewrite rbind_ok. intros (revision & _ & [= <- _]).
  set (e' := mkEnvelope _ _ _ _ _ _). set (db3 := with_revision _ revision). destruct (so_outbox _ Hok job_id e Ee) as (Hseq & row & Hr & Hrec).
  assert (Henv : forall id x, ob_rows (db_outbox db3) !! id = Some x -> exists y, ob_rows (db_outbox db) !! id = Some y /\
    ce_sequence x = ce_sequence y /\ ce_outcome x = ce_outcome y /\ ce_state_version x = ce_state_version y).
  { intros id x. cbn. intros [[<- <-]|[Hne Hx]]%lookup_insert_Some; [by exists e|by exists x]. }
  assert (Henv' : forall id y, ob_rows (db_outbox db) !! id = Some y -> exists x, ob_rows (db_outbox db3) !! id = Some x /\
    ce_outcome x = ce_outcome y /\ ce_sequence x = ce_sequence y /\ ce_state_version x = ce_state_version y /\
    (is_Some (ce_acknowledged_at y) -> x = y)).
  { intros id y Hy. cbn. destruct (decide (id = job_id)) as [->|Hne]; [|exists y; by rewrite lookup_insert_ne].
    rewrite Ee in Hy. injection Hy as <-. exists e'. rewrite lookup_insert_eq. split_and!; try done. rewrite Ea. by intros [? ?]. }
  split.
  - constructor; try apply Hok.
    + intros id r Hid Ht. destruct (so_recorded _ Hok id r Hid Ht) as (y & Hy & R1 & R2 & R3).
      destruct (Henv' id y Hy) as (x & Hx & X1 & _ & X3 & _). exists x. split; [done|]. unfold records. by rewrite X1, X3.
    + intros id x Hx. destruct (Henv id x Hx) as (y & Hy & Y1 & Y2 & Y3).
      destruct (so_outbox _ Hok id y Hy) as (Hle & r & Hid & R1 & R2 & R3). split; [cbn; lia|]. exists r. split; [done|].
      unfold records. by rewrite Y2, Y3.
    + intros id id' x x' (y & Hy & Y1 & _)%Henv (y' & Hy' & Y1' & _)%Henv Hs. eapply so_sequence; [exact Hok|exact Hy|exact Hy'|congruence].
  - constructor; [intros id r Hid; exists r; split; [done|apply row_advances_refl]| |done].
    intros id y Hy. destruct (Henv' id y Hy) as (x & Hx & X1 & X2 & _ & X4). by exists x.
Qed.

(** ** What a step wrote *)

(** Every row of the new tables is an old one, or the one that was written. *)
Definition wrote (db db' : DerivationDb) (next : DerivationSnapshot) : Prop :=
  forall id row', db_jobs db' !! id = Some row' -> rw_snapshot row' = next \/ db_jobs db !! id = Some row'.

Lemma reads_row db id job row :
  read_derivation_job db id = Ok (Some job) -> db_jobs db !! id = Some row -> sd_snapshot job = rw_snapshot row.
Proof. intros Hj Hr. apply read_derivation_ok in Hj as [row' [Hr' -> _ _ _ _ _ _ _ _]]. cbn. congruence. Qed.

Lemma persisted_wrote db current v next now db1 db2 job :
  read_derivation_job db (dv_job_id (dp_spec next)) = Ok (Some current) ->
  persist_derivation_snapshot db current v next now = Ok db1 -> db_jobs db2 = db_jobs db1 ->
  read_derivation_job db2 (dv_job_id (dp_spec next)) = Ok (Some job) -> wrote db db2 next /\ sd_snapshot job = next.
Proof.
  intros Hc Hp Ej Hj. destruct (persisted_row _ _ _ _ _ _ Hc Hp) as (row & row' & _ & E1 & _ & Hsn & _). split.
  - intros id r. rewrite Ej, E1. intros [[<- <-]|[_ Hr]]%lookup_insert_Some; [by left|by right].
  - rewrite <- Hsn. eapply reads_row; [exact Hj|]. by rewrite Ej, E1, lookup_insert_eq.
Qed.

Lemma swap_wrote db v next now db' outcome :
  compare_and_swap_derivation_snapshot db v next now = Ok (db', outcome) ->
  derivation_terminal (dp_state next) = false /\ wrote db db' next /\
  sd_snapshot (match outcome with Applied job | AlreadyApplied job => job end) = next.
Proof.
  unfold compare_and_swap_derivation_snapshot. destruct (derivation_terminal (dp_state next)); [done|].
  rewrite rbind_ok. intros (current & Hc%require_ok & Hr). revert Hr. case_bool_decide.
  { intros [= <- <-]. split_and!; [done| |done]. intros id r Hr. by right. }
  rewrite rbind_ok. intros (db1 & Hp & Hr). revert Hr. rewrite rbind_ok. intros (revision & _ & Hr). revert Hr.
  rewrite rbind_ok. intros (stored & Hst%require_ok & Hr). injection Hr as <- <-. split; [done|].
  by eapply persisted_wrote.
Qed.

Lemma complete_wrote db v next now db' outcome :
  complete_derivation_job db v next now = Ok (db', outcome) ->
  derivation_terminal (dp_state next) = true /\ wrote db db' next /\ sd_snapshot (co_job outcome) = next.
Proof.
  unfold complete_derivation_job. destruct (derivation_terminal (dp_state next)); [|done]. cbn [negb].
  rewrite rbind_ok. intros (u & _ & Hr). revert Hr. rewrite rbind_ok. intros (current & Hc%require_ok & Hr). revert Hr.
  rewrite rbind_ok. intros (db1 & Hp & Hr). revert Hr. rewrite rbind_ok. intros ([db2 recorded] & Hs & Hr). revert Hr.
  rewrite rbind_ok. intros ([ob completion] & Hi & Hr). revert Hr. rewrite rbind_ok. intros (revision & _ & Hr). revert Hr.
  rewrite rbind_ok. intros (job & Hj%require_ok & Hr). injection Hr as <- <-.
  apply record_success_ok in Hs as (receipts & -> & _). split; [done|]. case_bool_decide as Hreplay.
  - injection Hp as <-. split; [by right|]. cbn. rewrite <- Hreplay. apply read_derivation_ok in Hc as [row Hrow].
    rewrite (reads_row _ _ _ row Hj); [by rewrite (rr_job _ _ _ _ Hrow)|]. apply Hrow.
  - by eapply persisted_wrote.
Qed.

Lemma create_wrote db spec now db' outcome :
  create_derivation_job db spec now = Ok (db', outcome) ->
  forall id row', db_jobs db' !! id = Some row' -> dp_state (rw_snapshot row') = DsQueued \/ db_jobs db !! id = Some row'.
Proof.
  unfold create_derivation_job. rewrite rbind_ok. intros (u & _ & Hr). revert Hr.
  rewrite rbind_ok. intros (job & Hjob%rmap_err_ok%new_job_snapshot & Hr). destruct Hjob as [Hs _]. revert Hr. rewrite Hs.
  rewrite rbind_ok. intros (digest & _ & Hr). revert Hr. destruct (find_derivation_identity _ _) as [[eid edig]|].
  { destruct (negb _); [done|]. rewrite rbind_ok. intros (existing & _ & [= <- _]). by right. }
  destruct (db_jobs db !! dv_job_id spec) as [row|]; [done|]. destruct (String.eqb _ _); [done|].
  rewrite rbind_ok. intros (version & _ & Hr). revert Hr. rewrite rbind_ok. intros (revision & _ & Hr). revert Hr.
  rewrite rbind_ok. intros (stored & _ & [= <- _]) id row'. cbn.
  intros [[<- <-]|[_ Hr]]%lookup_insert_Some; [by left|by right].
Qed.

Lemma create_keeps_rows db spec now db' outcome id row :
  create_derivation_job db spec now = Ok (db', outcome) -> db_jobs db !! id = Some row -> db_jobs db' !! id = Some row.
Proof.
  unfold create_derivation_job. rewrite rbind_ok. intros (u & _ & Hr). revert Hr. rewrite rbind_ok. intros (job & _ & Hr).
  revert Hr. rewrite rbind_ok. intros (digest & _ & Hr). revert Hr.
  destruct (find_derivation_identity _ _) as [[eid edig]|].
  { destruct (negb _); [done|]. rewrite rbind_ok. by intros (existing & _ & [= <- _]). }
  destruct (db_jobs db !! dv_job_id spec) as [row'|] eqn:E; [done|]. destruct (String.eqb _ _); [done|].
  rewrite rbind_ok. intros (version & _ & Hr). revert Hr. rewrite rbind_ok. intros (revision & _ & Hr). revert Hr.
  rewrite rbind_ok. intros (stored & _ & [= <- _]) Hrow. cbn. rewrite lookup_insert_ne; [done|]. intros <-. congruence.
Qed.

(** The receipt of a stored success. *)
Lemma success_receipt receipts job_id s :
  validate_derived_receipt_for_snapshot receipts job_id s = Ok tt -> dp_state s = DsDerivedVerified ->
  exists completion manifest receipt, dp_completion s = Some completion /\
    parse_verified (ub_derived_manifest_canonical_bytes (dc_upload_bundle_input completion)) = Ok manifest /\
    upload_bundle_input manifest = dc_upload_bundle_input completion /\
    receipts !! digest_text (dc_derived_revision completion) = Some receipt /\
    dr_derivation_job_id receipt = dv_job_id (dp_spec s) /\
    dr_local_path receipt = dc_local_relative_path completion /\
    dr_commit_receipt receipt = Some (dc_local_commit_receipt completion).
Proof.
  unfold validate_derived_receipt_for_snapshot. intros Hr Hs. rewrite bool_decide_true in Hr by done. cbn [negb] in Hr.
  apply rbind_ok in Hr as (completion & Hc%ok_or_ok & Hr). apply rbind_ok in Hr as (typed & Ht%rmap_err_ok & Hr).
  apply rbind_ok in Hr as (expected & He%rmap_err_ok & Hr). apply rbind_ok in Hr as (actual & Ha & Hr).
  destruct actual as [actual|]; [|done]. case_bool_decide as Heq; [|done]. subst actual.
  unfold local_derived_receipt_from_completion in Ht. apply rbind_ok in Ht as (manifest & Hm%rmap_err_ok & Ht).
  case_bool_decide as Hu; [|done]. cbn [negb] in Ht. unfold local_derived_from_completion in Ht.
  apply rbind_ok in Ht as (artifact & Hp & Ht). apply rbind_ok in Ht as (u1 & _ & Ht). apply rbind_ok in Ht as (u2 & _ & [= <-]).
  unfold local_artifact_parse in Hp. destruct (plain_reference _); [|done]. injection Hp as <-.
  unfold local_derived_receipt_row in He. apply rbind_ok in He as (u3 & _ & [= <-]). cbn in *.
  unfold read_derived_receipt in Ha. exists completion, manifest.
  destruct (receipts !! digest_text (dc_derived_revision completion)) as [r|] eqn:Er; [|done].
  apply rbind_ok in Ha as (u4 & _ & [= ->]). by eexists.
Qed.
End store.
