(* ===== verification/DerivationProofs.v ===== *)
(** * DerivationProofs: how far a derivation has come

The reducer's part in the guarantees of the executor: which effects a decision
may hold, what a durable effect does to a job, and that a job is only validated
and committed with every pair of its plan checkpointed. *)

From Stdlib Require Import NArith Lia Ascii String.
From stdpp Require Import base numbers list strings.
From S2P Require Import Prelude Domain Files Json Ingest Rational Profile MediaPlan Validation Manifest.
From S2P Require Import Derivation.

Local Open Scope string_scope.

(** The pairs of a plan. *)
Definition plan_pairs (plan : option MediaPlan) : nat :=
  match plan with Some plan => length (mp_segment_pairs plan) | None => 0 end.

(** Past the encoding every pair is checkpointed and none is in work, and past the validation there is one. *)
Definition progress_ok (state : DerivationJobState) (plan : option MediaPlan) (n : nat) (current : option N) : Prop :=
  match state with
  | DsValidating => n = plan_pairs plan /\ current = None
  | DsCommitting | DsDerivedVerified => n = plan_pairs plan /\ 0 < n /\ current = None
  | _ => True
  end.

Definition job_ok (j : DerivationJob) : Prop :=
  progress_ok (dj_state j) (dj_media_plan j) (length (dj_checkpoints j)) (dj_current_pair j).
Definition snapshot_ok (s : DerivationSnapshot) : Prop :=
  progress_ok (dp_state s) (dp_media_plan s) (length (dp_checkpoints s)) (dp_current_pair s).

(** ** Rehydration *)

Lemma insert_checkpoint_length c cs :
  has_checkpoint (pc_segment_index c) cs = false -> length (insert_checkpoint c cs) = S (length cs).
Proof.
  unfold has_checkpoint. induction cs as [|d cs IH]; [done|]. simpl. rewrite orb_false_iff. intros [Hd Hcs].
  rewrite N.eqb_sym in Hd. rewrite Hd. destruct (_ <? _)%N; simpl; [done|]. by rewrite IH.
Qed.

Lemma collect_checkpoints_length spec cs : forall m m',
  collect_checkpoints spec m cs = Ok m' -> length m' = length m + length cs.
Proof.
  induction cs as [|c cs IH]; intros m m'; simpl; [intros [= <-]; lia|].
  destruct (negb (checkpoint_matches spec c)); [done|]. simpl. destruct (has_checkpoint _ m) eqn:E; [done|].
  intros Hm%IH. rewrite insert_checkpoint_length in Hm by done. lia.
Qed.

Lemma insert_checkpoint_elem c d cs : d ∈ insert_checkpoint c cs -> d = c \/ d ∈ cs.
Proof.
  induction cs as [|e cs IH]; simpl; [rewrite list_elem_of_singleton; by left|].
  destruct (_ <? _)%N; [rewrite elem_of_cons; tauto|]. destruct (_ =? _)%N; rewrite !elem_of_cons; tauto.
Qed.

Lemma collect_checkpoints_elem spec cs : forall m m',
  collect_checkpoints spec m cs = Ok m' ->
  Forall (fun c => checkpoint_matches spec c = true) cs /\ forall d, d ∈ m' -> d ∈ m \/ d ∈ cs.
Proof.
  induction cs as [|c cs IH]; intros m m'; simpl; [intros [= <-]; split; [done|tauto]|].
  destruct (checkpoint_matches spec c) eqn:Em; [|done]. simpl. destruct (has_checkpoint _ m); [done|].
  intros [Hf Hd]%IH. split; [by constructor|]. intros d [[->|Hm]%insert_checkpoint_elem|Hc]%Hd; rewrite ?elem_of_cons; tauto.
Qed.

Lemma contiguous_lookup indices k i : contiguous indices = true -> indices !! k = Some i -> i = N.of_nat k.
Proof.
  unfold contiguous. rewrite forallb_forall. intros Hf Hk. specialize (Hf (k, i)). apply N.eqb_eq, Hf.
  apply list_elem_of_In, elem_of_lookup_zip_with. exists k, k, i. split_and!; [done| |done].
  apply lookup_seq. split; [lia|]. by apply lookup_lt_Some in Hk.
Qed.

(** What rehydration keeps. *)
Record rehydrated (spec : DerivationSpec) (s : DerivationSnapshot) (j : DerivationJob) : Prop := {
  rh_spec : dj_spec j = spec;
  rh_state : dj_state j = dp_state s;
  rh_desired : dj_desired_state j = dp_desired_state s;
  rh_version : dj_version j = dp_version s;
  rh_plan : dj_media_plan j = dp_media_plan s;
  rh_current : dj_current_pair j = dp_current_pair s;
  rh_completion : dj_completion j = dp_completion s;
  rh_count : length (dj_checkpoints j) = length (dp_checkpoints s);
  rh_success : dp_state s = DsDerivedVerified ->
    exists completion, dp_completion s = Some completion /\ completion_matches spec completion = true;
  rh_matches : Forall (fun c => checkpoint_matches spec c = true) (dp_checkpoints s);
  rh_contiguous : forall k, (k < length (dp_checkpoints s))%nat ->
    exists c, c ∈ dp_checkpoints s /\ pc_segment_index c = N.of_nat k;
}.

Lemma rehydrate_ok spec s j : rehydrate spec s = Ok j -> rehydrated spec s j.
Proof.
  unfold rehydrate. rewrite rbind_ok. intros (u & _ & Hr). revert Hr. destruct (_ =? 0)%N; [done|].
  rewrite rbind_ok. intros (cs & Hc & Hr). revert Hr. assert (Hn := collect_checkpoints_length _ _ _ _ Hc). simpl in Hn.
  destruct (collect_checkpoints_elem _ _ _ _ Hc) as [Hm Helem].
  destruct (contiguous _) eqn:Ec; [|done]. cbn [negb]. destruct (_ && _); [done|].
  destruct (match dp_media_plan s with Some _ => _ | None => _ end); [done|].
  destruct (match dp_current_pair s with Some _ => _ | None => _ end); [done|].
  rewrite rbind_ok. intros (u' & Hs & [= <-]). constructor; try done; cbn.
  - intros E. rewrite E in Hs. destruct (dp_completion s) as [c|]; [|done]. exists c. split; [done|].
    by destruct (completion_matches spec c).
  - intros k Hk. rewrite <- Hn in Hk. destruct (lookup_lt_is_Some_2 _ _ Hk) as [c Hk']. exists c. split.
    + destruct (Helem c) as [Hnil|]; [by eapply list_elem_of_lookup_2|by apply elem_of_nil in Hnil|done].
    + apply (contiguous_lookup _ _ _ Ec). by rewrite list_lookup_fmap, Hk'.
Qed.

Lemma rehydrated_ok spec s j : rehydrated spec s j -> snapshot_ok s -> job_ok j.
Proof. intros [_ Hst _ _ Hp Hc _ Hn _ _ _]. unfold job_ok, snapshot_ok. by rewrite Hst, Hp, Hn, Hc. Qed.

(** ** Effects of decisions *)

(** A state that may be committed whatever the job's progress. *)
Definition free_state (to : DerivationJobState) : bool :=
  match to with DsValidating | DsCommitting | DsDerivedVerified => false | _ => true end.

Definition free_effect (e : DerivationEffect) : Prop :=
  match e with
  | EfCommitState _ to => free_state to = true
  | EfPersistProbe _ _ to | EfPersistPlan _ _ to => free_state to = true
  | EfSetCurrentPair _ _ | EfCommitPairCheckpoint _ _ _ | EfPublishCompletion _ _ _ => False
  | _ => True
  end.

(** The first effect of a decision may rest on the job's progress. *)
Definition first_effect (j : DerivationJob) (e : DerivationEffect) : Prop :=
  match e with
  | EfCommitState _ DsCommitting =>
      dj_state j = DsValidating /\ length (dj_checkpoints j) = plan_pairs (dj_media_plan j) /\ 0 < length (dj_checkpoints j)
  | EfSetCurrentPair _ _ => dj_state j = DsEncoding
  | EfCommitPairCheckpoint _ _ to =>
      match to with
      | DsEncoding => True
      | DsValidating => S (length (dj_checkpoints j)) = plan_pairs (dj_media_plan j)
      | _ => False
      end
  | EfPublishCompletion _ _ to => dj_state j = DsCommitting /\ to = DsDerivedVerified
  | _ => free_effect e
  end.

Definition legal_effects (j : DerivationJob) (effects : list DerivationEffect) : Prop :=
  match effects with
  | [] => True
  | e :: rest => first_effect j e /\ Forall free_effect rest
  end.

Lemma discard_free j : Forall free_effect (discard_partial j).
Proof. unfold discard_partial. destruct (dj_current_pair j); repeat constructor. Qed.

Lemma legal_discard j to : free_state to = true -> legal_effects j (discard_partial j ++ [EfCommitState (dj_version j) to]).
Proof.
  intros Hf. unfold discard_partial. destruct (dj_current_pair j); simpl.
  - split; [done|]. by repeat constructor.
  - split; [|constructor]. destruct to; done.
Qed.

Lemma decide_legal j command : legal_effects j (dn_effects (decide_derivation j command)).
Proof.
  destruct command as [| | | | | | | |r]; [..|destruct r]; cbn [decide_derivation worker];
    unfold source_available, source_unavailable, pause, resume, cancel, finalize_cancel, retry, dismiss, wrong_state,
      process_stopped, stage_failed, pair_started, pair_checkpointed, finalize_cancel, commit, accepted, refused, no_op.
  all: repeat match goal with
  | |- legal_effects _ (dn_effects (if ?b then _ else _)) => destruct b eqn:?
  | |- legal_effects _ (dn_effects (match ?x with _ => _ end)) => destruct x eqn:?
  end.
  all: cbn [dn_effects]; try exact I; try by apply legal_discard.
  all: cbn [legal_effects]; try (split; [exact I|]); try (split; [reflexivity|]).
  all: try by repeat constructor.
  all: try (destruct (derivation_active _); by repeat constructor).
  all: try (destruct (derivation_active _); [by repeat constructor|]; apply Forall_app; split; [apply discard_free|by repeat constructor]).
  - split; [|by repeat constructor]. cbn [first_effect]. rewrite !orb_false_iff, !negb_false_iff, bool_decide_eq_true in *. tauto.
  - rewrite !orb_false_iff, !negb_false_iff in *. split; [|by repeat constructor]. cbn [first_effect].
    destruct (_ =? _)%nat eqn:E; [|done]. apply Nat.eqb_eq in E. unfold pair_count in E. unfold plan_pairs. lia.
  - split; [|by repeat constructor]. cbn [first_effect].
    rewrite orb_false_iff, negb_false_iff, bool_decide_eq_true, Nat.eqb_eq, Nat.eqb_neq in *.
    unfold plan_pairs, pair_count in *. split; [done|lia].
  - split; [|constructor]. cbn [first_effect]. split; [|done].
    rewrite negb_false_iff, bool_decide_eq_true in *. done.
Qed.

(** ** Durable effects *)

Lemma free_progress state plan n current : free_state state = true -> progress_ok state plan n current.
Proof. by destruct state. Qed.

Lemma apply_change_ok j e j' :
  job_ok j -> first_effect j e -> apply_change j e = Ok j' ->
  job_ok j' /\ dj_spec j' = dj_spec j /\ dj_version j' = dj_version j.
Proof.
  unfold job_ok. intros Hj Hf. destruct e; cbn [apply_change first_effect free_effect] in *; try done.
  - intros [= <-]. split_and!; [|done|done]. cbn. destruct to; try done. destruct Hf as (Hs & Hn & Hpos). rewrite Hs in Hj.
    split_and!; [done|done|apply Hj].
  - by intros [= <-].
  - intros [= <-]. split_and!; [|done|done]. cbn. by apply free_progress.
  - destruct (negb _); [done|]. intros [= <-]. split_and!; [|done|done]. cbn. by apply free_progress.
  - destruct (_ || _); [done|]. destruct (_ <? _)%N; [done|]. destruct (_ || _); [done|].
    intros [= <-]. split_and!; [|done|done]. cbn. by rewrite Hf.
  - destruct (_ || _ || _ || _) eqn:E; [done|]. intros [= <-]. split_and!; [|done|done]. cbn.
    rewrite !orb_false_iff in E. destruct E as [[[_ E] _] _]. rewrite insert_checkpoint_length by done.
    destruct to; try done.
  - destruct (negb _); [done|]. intros [= <-]. split_and!; [|done|done]. cbn. destruct Hf as [Hs ->]. by rewrite Hs in Hj.
Qed.

Lemma apply_effect_ok j e next :
  job_ok j -> first_effect j e -> (apply_committed_effect j e).2 = Ok next ->
  snapshot_ok next /\ dp_spec next = dj_spec j /\ dp_version next = (dj_version j + 1)%N /\ expected_version e = Some (dj_version j) /\
  (forall v c to, e = EfPublishCompletion v c to -> dp_state next = DsDerivedVerified).
Proof.
  unfold apply_committed_effect. intros Hj Hf. destruct (expected_version e) as [v|] eqn:Ev; [|done].
  destruct (N.eqb_spec v (dj_version j)) as [->|]; [|done]. cbn [negb]. destruct (apply_change j e) as [j'|] eqn:Ea; [|done].
  destruct (apply_change_ok j e j' Hj Hf Ea) as (Hj' & Hs & Hv). destruct (u64_checked_add (dj_version j') 1) as [w|] eqn:Ew; [|done].
  cbn. intros [= <-]. apply u64_checked_add_Some in Ew as [_ ->]. split_and!; [done|done|cbn; by rewrite Hv|done|].
  intros v c to ->. cbn in *. destruct Hf as [_ ->]. destruct (negb _); [done|]. by injection Ea as <-.
Qed.
