(* ===== verification/Normalizer.v ===== *)
(** * Normalizer: the executor of derivation jobs (media_normalizer/)

[reduce_inner] loads a job, lets the reducer decide, and interprets the effects
one by one: durable ones through the compare-and-swap of the store, a completion
through its transaction, the others on the runtime and the staging area.  The
worker [run_one] drives a job from state to state.  Processes, files, leases and
the clock are the ports of [NormalizerPorts]; one call of [reduce_inner] is one
critical section of the job's command mutex, and what other threads do between
the sections of a worker are their own sections. *)

From Stdlib Require Import NArith Lia Ascii String.
From stdpp Require Import base numbers list strings gmap.
From S2P Require Import Prelude Domain Files Json Ingest Rational Profile MediaPlan Validation Manifest.
From S2P Require Import Derivation MediaStore DerivationStore.

Local Open Scope string_scope.

(** [MediaNormalizerError] (normalization/job.rs:143-158), without its texts. *)
Inductive MediaNormalizerError :=
| NeNotFound (job_id : DerivationJobId)
| NeStale (expected actual : N)
| NeRejected (reason : DerivationRejectReason)
| NeShuttingDown
| NeResourceStuck
| NeRepository
| NeWorker.

#[global] Instance DerivationRejectReason_eq_dec : EqDecision DerivationRejectReason.
Proof. solve_decision. Defined.
#[global] Instance MediaNormalizerError_eq_dec : EqDecision MediaNormalizerError.
Proof. solve_decision. Defined.

(** [DerivationStartOutcome] (normalization/job.rs:136-140). *)
Inductive DerivationStartOutcome :=
| StartCreated (job_id : DerivationJobId)
| StartExisting (job_id : DerivationJobId)
| StartConflict (existing_job_id : DerivationJobId).

(** [NormalizerRunOutcome] (media_normalizer/engine.rs:39-49), without the failure's text. *)
Inductive NormalizerRunOutcome :=
| RunIdle (snapshot : DerivationSnapshot)
| RunCompleted (snapshot : DerivationSnapshot)
| RunWaitingForSource (snapshot : DerivationSnapshot)
| RunPaused (snapshot : DerivationSnapshot)
| RunCancelled (snapshot : DerivationSnapshot)
| RunFailed (snapshot : DerivationSnapshot).

(** [DerivedCommitEvidence] (media_normalizer/ports.rs:65-70). *)
Record DerivedCommitEvidence := mkCommitEvidence {
  ev_manifest_sha256 : string;
  ev_output_inventory_sha256 : string;
  ev_local_relative_path : string;
  ev_local_commit_receipt : string;
}.

(** [PublishedPair] (media_normalizer/staging.rs:117-120). *)
Record PublishedPair := mkPublished { pp_relative_path : string; pp_commit_receipt : string }.

(** [JobRuntime] (media_normalizer/control.rs:132-136): the stop request and whether an operation is active. *)
Record JobRuntime := mkRuntime { jr_stop : option ProcessStopReason; jr_active : bool }.

Definition new_runtime : JobRuntime := mkRuntime None false.

(** The ports of the executor (processes, leases, clock, queue) and the file transactions of its staging
    area, on a world of their own; and the text of an inventory in the commit's evidence. *)
Class NormalizerPorts := {
  World : Type;
  now_rfc3339 : World -> World * string;
  enqueue_job : string -> World -> World * result unit unit;
  wait_until_idle : string -> World -> World * bool;
  acquire_shared : SourceContentRevision -> string -> World -> World * result unit unit;
  assert_current : World -> World * result unit unit;
  prepare_job : string -> World -> World * result unit unit;
  verify_checkpoint : string -> SegmentPairCheckpoint -> World -> World * result unit unit;
  recover_uncheckpointed_pair : string -> N -> World -> World * result unit (option (Path * Path));
  prepare_pair : string -> N -> World -> World * result unit (Path * Path);
  discard_pair : string -> N -> World -> World * result unit unit;
  publish_validated_pair : string -> N -> string -> string -> World -> World * result unit PublishedPair;
  commit_derivative : string -> SourceContentRevision -> ProfileRevision -> DerivedManifest -> World
    -> World * result unit DerivedCommitEvidence;
  encoder_build : EncoderBuild;
  probe_media : LocalSourceReceipt -> NormalizationInput -> option ProcessStopReason -> World
    -> World * MediaProcessOutcome ProbeReport;
  encode_segment_pair : EncodeSegmentPairRequest -> option ProcessStopReason -> World
    -> World * MediaProcessOutcome EncodedSegmentPair;
  analyze_segment_pair : EncodeSegmentPairRequest -> EncodedSegmentPair -> option ProcessStopReason -> World
    -> World * MediaProcessOutcome (QualityEvidence * QualityEvidence);
  validate_segment_pair : SegmentValidationRequest -> option ProcessStopReason -> World
    -> World * MediaProcessOutcome SegmentValidationReport;
  inventory_text : list DerivedOutputEntry -> list byte;
}.

Section normalizer.
Context `{HT : DerivationText, HM : ManifestText, HS : Sha256, HP : NormalizerPorts}.

(** [MediaNormalizerExecutor] (media_normalizer/engine.rs:54-66) with the store behind its repository. *)
Record Executor := mkExecutor {
  ex_db : DerivationDb;
  ex_runtimes : gmap string JobRuntime;
  ex_shutting_down : bool;
  ex_world : World;
}.

Definition set_db (e : Executor) (db : DerivationDb) : Executor :=
  mkExecutor db (ex_runtimes e) (ex_shutting_down e) (ex_world e).
Definition set_runtimes (e : Executor) (runtimes : gmap string JobRuntime) : Executor :=
  mkExecutor (ex_db e) runtimes (ex_shutting_down e) (ex_world e).
Definition set_world (e : Executor) (world : World) : Executor :=
  mkExecutor (ex_db e) (ex_runtimes e) (ex_shutting_down e) world.

Definition engine (A : Type) : Type := sm Executor MediaNormalizerError A.

Definition port {A} (call : World -> World * A) : engine A :=
  fun e => let '(world, a) := call (ex_world e) in (set_world e world, Ok a).

(** A port's refusal becomes an error of the executor. *)
Definition port_or {A} (error : MediaNormalizerError) (call : World -> World * result unit A) : engine A :=
  let! answer := port call in slift (rmap_err (fun _ => error) answer).

(** [JobRuntimeRegistry::runtime_for] (media_normalizer/control.rs:170-176). *)
Definition runtime_for (job_id : string) (e : Executor) : JobRuntime := default new_runtime (ex_runtimes e !! job_id).

Definition stop_requested (job_id : string) : engine (option ProcessStopReason) :=
  let! e := sget in sret (jr_stop (runtime_for job_id e)).
Definition set_runtime (job_id : string) (f : JobRuntime -> JobRuntime) : engine unit :=
  fun e => (set_runtimes e (<[job_id := f (runtime_for job_id e)]> (ex_runtimes e)), Ok tt).

(** [JobProcessControl::request_stop, clear_stop] (media_normalizer/control.rs:48-50). *)
Definition set_stop (job_id : string) (reason : option ProcessStopReason) : engine unit :=
  set_runtime job_id (fun r => mkRuntime reason (jr_active r)).

(** [JobProcessControl::begin] (media_normalizer/control.rs:37-46) and [finish]: an operation is active
    until it is finished or dropped. *)
Definition with_operation {A} (job_id : string) (c : engine A) : engine A :=
  do! set_runtime job_id (fun r => mkRuntime (jr_stop r) true) then!
  fun e => let '(e', r) := c e in ((set_runtime job_id (fun r => mkRuntime (jr_stop r) false) e').1, r).

(** ** The repository *)

(** [MediaStoreDerivationRepository::load_derivation] (media_normalizer/store.rs:100-112). *)
Definition load (job_id : string) : engine (option DerivationSnapshot) :=
  let! e := sget in
  slift (rmap_err (fun _ => NeRepository)
    (let? job := read_derivation_job (ex_db e) job_id in Ok (option_map sd_snapshot job))).

Definition load_existing (job_id : string) : engine DerivationSnapshot :=
  let! stored := load job_id in
  slift (ok_or stored (NeNotFound job_id)).

(** [map_cas_error] (media_normalizer/store.rs:340-354), and the answer of its caller to a stale version. *)
Definition cas_error (db : DerivationDb) (job_id : string) (expected_version : N) : MediaNormalizerError :=
  match read_derivation_job db job_id with
  | Ok (Some current) =>
      if (dp_version (sd_snapshot current) =? expected_version)%N then NeRepository
      else NeStale expected_version (dp_version (sd_snapshot current))
  | _ => NeRepository
  end.

(** [MediaStoreDerivationRepository::compare_and_swap] (media_normalizer/store.rs:129-150). *)
Definition repository_compare_and_swap (expected_version : N) (next : DerivationSnapshot) (now : string)
    : engine DerivationSnapshot :=
  fun e =>
    match compare_and_swap_derivation_snapshot (ex_db e) expected_version next now with
    | Ok (db, Applied job) | Ok (db, AlreadyApplied job) => (set_db e db, Ok (sd_snapshot job))
    | Err _ => (e, Err (cas_error (ex_db e) (dv_job_id (dp_spec next)) expected_version))
    end.

(** [validate_commit_evidence] (media_normalizer/store.rs:315-333). *)
Definition commit_evidence_ok (completion : DerivedCompletion) (manifest : DerivedManifest)
    (evidence : DerivedCommitEvidence) : bool :=
  String.eqb (to_hex (sha256 (mf_canonical_bytes manifest))) (ev_manifest_sha256 evidence)
  && String.eqb (to_hex (sha256 (inventory_text (dm_output_inventory (mf_material manifest)))))
       (ev_output_inventory_sha256 evidence)
  && bool_decide (dc_derived_revision completion = mf_derived_revision manifest)
  && String.eqb (dc_local_relative_path completion) (ev_local_relative_path evidence)
  && String.eqb (dc_local_commit_receipt completion) (ev_local_commit_receipt evidence).

(** [MediaStoreDerivationRepository::commit_derived_verified] (media_normalizer/store.rs:153-185). *)
Definition repository_commit (expected_version : N) (next : DerivationSnapshot) (completion : DerivedCompletion)
    (manifest : DerivedManifest) (evidence : DerivedCommitEvidence) (now : string) : engine DerivationSnapshot :=
  if negb (commit_evidence_ok completion manifest evidence) then sfail NeRepository else
  fun e =>
    match complete_derivation_job (ex_db e) expected_version next now with
    | Ok (db, outcome) => (set_db e db, Ok (sd_snapshot (co_job outcome)))
    | Err _ => (e, Err (cas_error (ex_db e) (dv_job_id (dp_spec next)) expected_version))
    end.

(** ** One command *)

(** [CommitContext] (media_normalizer/engine.rs:1062-1065). *)
Record CommitContext := mkContext { cx_completion_manifest : DerivedManifest; cx_evidence : DerivedCommitEvidence }.

(** What the loop over the effects carries. *)
Record Interpretation := mkInterpretation {
  it_domain : DerivationJob;
  it_should_dispatch : bool;
  it_await_reap : bool;
  it_remove : bool;
  it_stop_reason : option ProcessStopReason;
  it_snapshot_after : option DerivationSnapshot;
}.

Definition it_committed (it : Interpretation) (domain : DerivationJob) (accepted : DerivationSnapshot) : Interpretation :=
  mkInterpretation domain (it_should_dispatch it) (it_await_reap it) (it_remove it) (it_stop_reason it) (Some accepted).

(** A durable effect is applied to the job, stored, and the job is rebuilt from what was stored. *)
Definition commit_effect (effect : DerivationEffect) (context : option CommitContext) (domain : DerivationJob)
    : engine (DerivationJob * DerivationSnapshot) :=
  let expected := default 0%N (expected_version effect) in
  match effect with
  | EfPublishCompletion _ completion _ =>
      match context with
      | None => sfail NeWorker
      | Some cx =>
          let! next := slift (rmap_err (fun _ => NeWorker) (apply_committed_effect domain effect).2) in
          let! now := port now_rfc3339 in
          let! accepted := repository_commit expected next completion (cx_completion_manifest cx) (cx_evidence cx) now in
          let! domain := slift (rmap_err (fun _ => NeWorker) (rehydrate (dp_spec accepted) accepted)) in
          sret (domain, accepted)
      end
  | _ =>
      let! next := slift (rmap_err (fun _ => NeWorker) (apply_committed_effect domain effect).2) in
      let! now := port now_rfc3339 in
      let! accepted := repository_compare_and_swap expected next now in
      let! domain := slift (rmap_err (fun _ => NeWorker) (rehydrate (dp_spec accepted) accepted)) in
      sret (domain, accepted)
  end.

(** [MediaNormalizerExecutor::reduce_inner, the loop over the effects] (media_normalizer/engine.rs:789-881). *)
Fixpoint interpret (job_id : string) (context : option CommitContext) (effects : list DerivationEffect)
    (it : Interpretation) : engine Interpretation :=
  match effects with
  | [] => sret it
  | effect :: rest =>
      let! it :=
        match effect with
        | EfRequestProcessStop reason =>
            do! set_stop job_id (Some reason) then!
            sret (mkInterpretation (it_domain it) (it_should_dispatch it) (it_await_reap it) (it_remove it) (Some reason)
                    (it_snapshot_after it))
        | EfAwaitProcessReap =>
            sret (mkInterpretation (it_domain it) (it_should_dispatch it) true (it_remove it) (it_stop_reason it)
                    (it_snapshot_after it))
        | EfDiscardCurrentPartialPair segment_index =>
            do! port_or NeWorker (discard_pair job_id segment_index) then! sret it
        | EfDispatch =>
            sret (mkInterpretation (it_domain it) true (it_await_reap it) (it_remove it) (it_stop_reason it)
                    (it_snapshot_after it))
        | EfRemoveJob =>
            sret (mkInterpretation (it_domain it) (it_should_dispatch it) (it_await_reap it) true (it_stop_reason it)
                    (it_snapshot_after it))
        | _ => let! (domain, accepted) := commit_effect effect context (it_domain it) in sret (it_committed it domain accepted)
        end in
      interpret job_id context rest it
  end.

(** [MediaNormalizerExecutor::reduce_inner, the section] (media_normalizer/engine.rs:768-887) under the command mutex:
    [None] when the command was a no-op.  Retirement keeps the rows. *)
Definition reduce_section (job_id : string) (command : DerivationCommand) (context : option CommitContext)
    : engine (DerivationSnapshot * option Interpretation) :=
  let! stored := load_existing job_id in
  do! match command with DcResume | DcSourceAvailable => set_stop job_id None | _ => sret tt end then!
  let! domain := slift (rmap_err (fun _ => NeWorker) (rehydrate (dp_spec stored) stored)) in
  let decision := decide_derivation domain command in
  match dn_outcome decision with
  | DoRejected reason => sfail (NeRejected reason)
  | DoNoOp => sret (stored, None)
  | DoAccepted =>
      let! it := interpret job_id context (dn_effects decision) (mkInterpretation domain false false false None None) in
      do! (if it_remove it then fun e => (set_runtimes e (delete job_id (ex_runtimes e)), Ok tt) else sret tt) then!
      sret (stored, Some it)
  end.

(** [MediaNormalizerExecutor::reduce_inner] (media_normalizer/engine.rs:755-920): a stop that finds no active
    operation is settled by a nested command, which asks for no further stop ([stop_settles_once]). *)
Fixpoint reduce_inner (nesting : nat) (job_id : string) (command : DerivationCommand) (schedule : bool)
    (context : option CommitContext) : engine (option DerivationSnapshot) :=
  let! (stored, section) := reduce_section job_id command context in
  match section with
  | None => sret (Some stored)
  | Some it =>
      let! e := sget in
      let settles := it_await_reap it && negb (jr_active (runtime_for job_id e)) in
      let! await_reap :=
        match settles, it_stop_reason it, nesting with
        | true, Some reason, S nesting =>
            do! reduce_inner nesting job_id (DcWorker (ProcessStopped reason)) false None then! sret false
        | _, _, _ => sret (it_await_reap it)
        end in
      do! (if await_reap then let! idle := port (wait_until_idle job_id) in if idle then sret tt else sfail NeResourceStuck
           else sret tt) then!
      do! (if it_should_dispatch it && schedule then port_or NeRepository (enqueue_job job_id) else sret tt) then!
      let! after := load job_id in
      sret (match after with Some snapshot => Some snapshot | None => it_snapshot_after it end)
  end.

(** [MediaNormalizerExecutor::reduce] (media_normalizer/engine.rs:725-732). *)
Definition reduce_command (job_id : string) (command : DerivationCommand) (schedule : bool)
    : engine (option DerivationSnapshot) :=
  reduce_inner 2 job_id command schedule None.

Definition report (job_id : string) (r : DerivationWorkerReport) : engine (option DerivationSnapshot) :=
  reduce_command job_id (DcWorker r) false.

(** ** The worker *)

Definition ignore {A} (c : engine A) : engine unit := do! c then! sret tt.

(** [MediaNormalizerExecutor::fail_stage] (media_normalizer/engine.rs:657-669). *)
Definition fail_stage (job_id : string) (code : DerivationFailureCode) (retryable : bool) : engine unit :=
  ignore (report job_id (StageFailed code retryable)).

(** [MediaNormalizerExecutor::reduce_worker_stopped] (media_normalizer/engine.rs:615-631). *)
Definition reduce_worker_stopped (job_id : string) (reason : ProcessStopReason) : engine unit :=
  ignore (report job_id (ProcessStopped reason)).

(** [MediaNormalizerExecutor::reduce_worker_failed] (media_normalizer/engine.rs:633-655): every error becomes a
    worker's error. *)
Definition reduce_worker_failed (job_id : string) (code : DerivationFailureCode) (retryable : bool) : engine unit :=
  serr (fun _ => NeWorker) (ignore (report job_id (StageFailed code retryable))).

(** [map_process_failure] (media_normalizer/engine.rs:1094-1108). *)
Definition map_process_failure (code : MediaProcessFailureCode) : DerivationFailureCode :=
  match code with
  | PfExecutableUnavailable | PfSpawnRejected | PfEncodeRejected => DfEncoderFailed
  | PfProbeRejected => DfProbeFailed
  | PfValidationRejected | PfInvalidOutput => DfValidationFailed
  | PfDeadlineExceeded => DfDeadlineExceeded
  | PfResourceStuck => DfResourceStuck
  | PfIo => DfDisk
  | PfInternal => DfInternal
  end.

(** [MediaNormalizerExecutor::run_probe, the beginning of the operation] (media_normalizer/engine.rs:209-234) and the same
    block of [run_next_pair]: the job is still in the state, no stop is requested and it is not paused; otherwise the
    stage ends. *)
Definition may_begin (job_id : string) (state : DerivationJobState) : engine bool :=
  let! current := load_existing job_id in
  if negb (bool_decide (dp_state current = state)) then sret false else
  let! stop := stop_requested job_id in
  match stop with
  | Some reason => do! report job_id (ProcessStopped reason) then! sret false
  | None => sret (negb (bool_decide (dp_desired_state current = DesiredPaused)))
  end.

(** [MediaNormalizerExecutor::reduce_process_outcome] (media_normalizer/engine.rs:583-613). *)
Definition reduce_process_outcome {T} (job_id : string) (outcome : MediaProcessOutcome T)
    (to_report : T -> DerivationWorkerReport) (failure_code : DerivationFailureCode) : engine unit :=
  match outcome with
  | Completed value _ => ignore (report job_id (to_report value))
  | Stopped reason _ => reduce_worker_stopped job_id reason
  | ProcessFailed failure _ => reduce_worker_failed job_id failure_code (pf_retryable failure)
  end.

(** [MediaNormalizerExecutor::run_probe] (media_normalizer/engine.rs:196-244). *)
Definition run_probe (job_id : string) : engine unit :=
  let! snapshot := load_existing job_id in
  let! begins := may_begin job_id DsProbing in
  if negb begins then sret tt else
  with_operation job_id
    (let! stop := stop_requested job_id in
     let! outcome := port (probe_media (dv_local_source (dp_spec snapshot)) (dv_input (dp_spec snapshot)) stop) in
     reduce_process_outcome job_id outcome ProbeCompleted DfProbeFailed).

(** [MediaNormalizerExecutor::run_plan] (media_normalizer/engine.rs:246-274). *)
Definition run_plan (job_id : string) : engine unit :=
  let! snapshot := load_existing job_id in
  match dp_probe_report snapshot with
  | None => fail_stage job_id DfPlanRejected false
  | Some probe =>
      match plan_media (dv_input (dp_spec snapshot)) probe (dv_profile (dp_spec snapshot)) with
      | Ok plan => ignore (report job_id (PlanCompleted plan))
      | Err _ => fail_stage job_id DfPlanRejected false
      end
  end.

(** The outcome of a process of the pair, or the end of the stage. *)
Definition completed_or {T} (job_id : string) (outcome : MediaProcessOutcome T) (k : T -> engine unit) : engine unit :=
  match outcome with
  | Completed value _ => k value
  | Stopped reason _ => reduce_worker_stopped job_id reason
  | ProcessFailed failure _ => reduce_worker_failed job_id (map_process_failure (pf_code failure)) (pf_retryable failure)
  end.

(** [MediaNormalizerExecutor::run_next_pair, from the validated pair] (media_normalizer/engine.rs:461-488). *)
Definition publish_pair (job_id : string) (snapshot : DerivationSnapshot) (pair_plan : SegmentPairPlan) (index : N)
    (validated : ValidatedSegmentPair) : engine unit :=
  do! port_or NeWorker assert_current then!
  let r := vp_report validated in
  let! published := port_or NeWorker (publish_validated_pair job_id index (digest_text (oe_sha256 (vr_left r)))
                                        (digest_text (oe_sha256 (vr_right r)))) in
  let! checkpoint := slift (rmap_err (fun _ => NeWorker)
                       (from_validated_pair pair_plan validated (dv_profile (dp_spec snapshot))
                          (dv_encoder_build (dp_spec snapshot)) (pp_relative_path published) (pp_commit_receipt published))) in
  ignore (report job_id (PairCheckpointed checkpoint)).

(** [MediaNormalizerExecutor::run_next_pair, the operation] (media_normalizer/engine.rs:352-460). *)
Definition encode_and_publish (job_id : string) (snapshot : DerivationSnapshot) (pair_plan : SegmentPairPlan) (index : N)
    (request : EncodeSegmentPairRequest) (reused_pair : bool) : engine unit :=
  let! stop := stop_requested job_id in
  let! outcome :=
    if reused_pair then
      let! encoded := slift (rmap_err (fun _ => NeWorker)
        (let? stats := EncoderStatistics_new (sp_frame_count pair_plan) (sp_duration_ticks pair_plan) 1 1 None in
         from_request request stats)) in
      sret (Completed encoded [])
    else port (encode_segment_pair request stop) in
  completed_or job_id outcome (fun encoded =>
    let! stop := stop_requested job_id in
    match stop with
    | Some reason => reduce_worker_stopped job_id reason
    | None =>
        let! quality := port (analyze_segment_pair request encoded stop) in
        completed_or job_id quality (fun '(left_quality, right_quality) =>
          let! validation_request :=
            slift (rmap_err (fun _ => NeWorker) (SegmentValidationRequest_new request encoded left_quality right_quality)) in
          let! stop := stop_requested job_id in
          let! validation := port (validate_segment_pair validation_request stop) in
          completed_or job_id validation (fun r =>
            let! stop := stop_requested job_id in
            match stop with
            | Some reason =>
                do! port_or NeWorker (discard_pair job_id index) then! reduce_worker_stopped job_id reason
            | None =>
                match try_from_report r with
                | Err _ => reduce_worker_failed job_id DfValidationFailed false
                | Ok validated => publish_pair job_id snapshot pair_plan index validated
                end
            end))
    end).

(** [MediaNormalizerExecutor::run_next_pair] (media_normalizer/engine.rs:276-488). *)
Definition run_next_pair (job_id : string) : engine unit :=
  let! snapshot := load_existing job_id in
  match dp_media_plan snapshot with
  | None => fail_stage job_id DfPlanRejected false
  | Some plan =>
      let index := N.of_nat (length (dp_checkpoints snapshot)) in
      if (u32_max <? index)%N then sfail NeWorker else
      match segment_pair plan index with
      | None => fail_stage job_id DfInternal false
      | Some pair_plan =>
          let! recovered := port_or NeWorker (recover_uncheckpointed_pair job_id index) in
          let! (left_partial, right_partial) :=
            match recovered with Some workspace => sret workspace | None => port_or NeWorker (prepare_pair job_id index) end in
          do! report job_id (PairStarted index) then!
          let! request := slift (rmap_err (fun _ => NeWorker)
            (from_media_plan (dv_local_source (dp_spec snapshot)) (dv_input (dp_spec snapshot)) plan index
               (dv_profile (dp_spec snapshot)) (dv_encoder_build (dp_spec snapshot)) left_partial right_partial)) in
          let! begins := may_begin job_id DsEncoding in
          if negb begins then sret tt else
          with_operation job_id
            (encode_and_publish job_id snapshot pair_plan index request (bool_decide (is_Some recovered)))
      end
  end.

(** [MediaNormalizerExecutor::run_validation_gate] (media_normalizer/engine.rs:490-507). *)
Definition run_validation_gate (job_id : string) : engine unit :=
  let! stored := load_existing job_id in
  do! sforeach (fun c => port_or NeWorker (verify_checkpoint job_id c)) (dp_checkpoints stored) then!
  ignore (report job_id ValidationCompleted).

Fixpoint add_checkpoints (b : DerivedManifestBuilder) (cs : list SegmentPairCheckpoint)
    : result DerivedManifestError DerivedManifestBuilder :=
  match cs with
  | [] => Ok b
  | c :: rest => let '(b, answer) := add_checkpoint b c in let? _ := answer in add_checkpoints b rest
  end.

(** [MediaNormalizerExecutor::run_commit, the manifest] (media_normalizer/engine.rs:524-542). *)
Definition build_manifest (snapshot : DerivationSnapshot) (plan : MediaPlan) : result DerivedManifestError DerivedManifest :=
  let spec := dp_spec snapshot in
  let? builder := DerivedManifestBuilder_new (dv_subject spec) (dv_local_source spec) (dv_source_manifest_digest spec)
                    (dv_input spec) plan (dv_profile spec) (dv_encoder_build spec) (dv_created_at spec) in
  let? builder := add_checkpoints builder (dp_checkpoints snapshot) in
  build builder.

(** [MediaNormalizerExecutor::run_commit] (media_normalizer/engine.rs:509-570); the notification that follows is
    best effort. *)
Definition run_commit (job_id : string) : engine unit :=
  let! snapshot := load_existing job_id in
  match dp_media_plan snapshot with
  | None => fail_stage job_id DfInternal false
  | Some plan =>
      do! port_or NeWorker assert_current then!
      let! manifest := slift (rmap_err (fun _ => NeWorker) (build_manifest snapshot plan)) in
      let spec := dp_spec snapshot in
      let! commit := port_or NeWorker (commit_derivative job_id (spec_source_revision spec) (spec_profile_revision spec)
                                         manifest) in
      let! now := port now_rfc3339 in
      let! completion := slift (rmap_err (fun _ => NeWorker)
        (DerivedCompletion_new manifest (ev_local_relative_path commit) (ev_local_commit_receipt commit) now)) in
      ignore (reduce_inner 2 job_id (DcWorker (CommitCompleted completion)) false (Some (mkContext manifest commit)))
  end.

(** [terminal_outcome] (media_normalizer/engine.rs:1110-1120). *)
Definition terminal_outcome (snapshot : DerivationSnapshot) : NormalizerRunOutcome :=
  match dp_state snapshot with
  | DsDerivedVerified => RunCompleted snapshot
  | DsCancelled => RunCancelled snapshot
  | DsFailed _ _ => RunFailed snapshot
  | _ => RunIdle snapshot
  end.

(** [MediaNormalizerExecutor::run_one, a stage] (media_normalizer/engine.rs:157-192). *)
Definition run_stage (job_id : string) (snapshot : DerivationSnapshot) : engine (option NormalizerRunOutcome) :=
  let stage c := do! ignore c then! sret None in
  match dp_state snapshot with
  | DsQueued | DsRetryWait | DsWaitingForSource => stage (reduce_command job_id DcSourceAvailable false)
  | DsProbing => do! run_probe job_id then! sret None
  | DsPlanning => do! run_plan job_id then! sret None
  | DsEncoding => do! run_next_pair job_id then! sret None
  | DsValidating => do! run_validation_gate job_id then! sret None
  | DsCommitting => do! run_commit job_id then! sret None
  | DsCancelling => stage (report job_id (ProcessStopped StopCancel))
  | DsDerivedVerified | DsFailed _ _ | DsCancelled => sret (Some (terminal_outcome snapshot))
  end.

(** [MediaNormalizerExecutor::run_one, the loop] (media_normalizer/engine.rs:130-193); [None] when the fuel ends. *)
Fixpoint run_loop (fuel : nat) (job_id : string) (snapshot : DerivationSnapshot) : engine (option NormalizerRunOutcome) :=
  match fuel with
  | O => sret None
  | S fuel =>
      let! e := sget in
      if ex_shutting_down e then
        let! reduced := report job_id (ProcessStopped StopShutdown) in
        sret (Some (RunPaused (default snapshot reduced)))
      else
        let! snapshot := load_existing job_id in
        if derivation_terminal (dp_state snapshot) then sret (Some (terminal_outcome snapshot)) else
        if bool_decide (dp_desired_state snapshot = DesiredPaused) then sret (Some (RunPaused snapshot)) else
        do! port_or NeWorker assert_current then!
        let! outcome := run_stage job_id snapshot in
        match outcome with Some outcome => sret (Some outcome) | None => run_loop fuel job_id snapshot end
  end.

(** [MediaNormalizerExecutor::reconcile_checkpoint_files] (media_normalizer/engine.rs:572-581). *)
Definition reconcile_checkpoint_files (job_id : string) (snapshot : DerivationSnapshot) : engine bool :=
  fun e => let '(e', r) := sforeach (fun c => port_or NeWorker (verify_checkpoint job_id c)) (dp_checkpoints snapshot) e in
           (e', Ok (is_ok r)).

(** [MediaNormalizerExecutor::run_one] (media_normalizer/engine.rs:87-194). *)
Definition run_one (fuel : nat) (job_id : string) : engine (option NormalizerRunOutcome) :=
  let! e := sget in
  if ex_shutting_down e then sfail NeShuttingDown else
  let! snapshot := load_existing job_id in
  if derivation_terminal (dp_state snapshot) then sret (Some (terminal_outcome snapshot)) else
  if bool_decide (dp_desired_state snapshot = DesiredPaused) then sret (Some (RunPaused snapshot)) else
  let! lease := port (acquire_shared (spec_source_revision (dp_spec snapshot)) job_id) in
  match lease with
  | Err _ =>
      let! reduced := reduce_command job_id DcSourceUnavailable false in
      sret (Some (RunWaitingForSource (default snapshot reduced)))
  | Ok _ =>
      do! port_or NeWorker assert_current then!
      do! port_or NeWorker (prepare_job job_id) then!
      let! intact := reconcile_checkpoint_files job_id snapshot in
      if negb intact then
        do! signore (report job_id (StageFailed DfIntegrityMismatch false)) then! sret (Some (RunFailed snapshot))
      else run_loop fuel job_id snapshot
  end.

(** ** The interface *)

(** [MediaNormalizerExecutor::start] (media_normalizer/engine.rs:924-978), with the repository's creation. *)
Definition start_derivation (spec : DerivationSpec) : engine DerivationStartOutcome :=
  let! e := sget in
  if ex_shutting_down e then sfail NeShuttingDown else
  do! slift (rmap_err (fun _ => NeWorker) (require_approved (dv_profile spec))) then!
  if negb (bool_decide (encoder_build = dv_encoder_build spec)) then sfail NeWorker else
  do! slift (rmap_err (fun _ => NeWorker) (DerivationJob_new spec)) then!
  let! now := port now_rfc3339 in
  let! (outcome, should_enqueue) :=
    fun e =>
      match create_derivation_job (ex_db e) spec now with
      | Err (CdConflict (RequestDigestMismatch _ existing_job_id _ _)) => (e, Ok (StartConflict existing_job_id, false))
      | Err _ => (e, Err NeRepository)
      | Ok (db, JobCreated job) => (set_db e db, Ok (StartCreated (dv_job_id (dp_spec (sd_snapshot job))), true))
      | Ok (db, JobExisting job) =>
          let s := sd_snapshot job in
          if negb (bool_decide (dp_spec s = spec)) || (dp_version s =? 0)%N then (e, Err NeRepository)
          else (set_db e db, Ok (StartExisting (dv_job_id (dp_spec s)),
                                 negb (derivation_terminal (dp_state s)) && bool_decide (dp_desired_state s = DesiredRun)))
      end in
  match outcome with
  | StartCreated job_id | StartExisting job_id =>
      do! (if should_enqueue : bool then port_or NeRepository (enqueue_job job_id) else sret tt) then! sret outcome
  | StartConflict _ => sret outcome
  end.

(** [MediaNormalizerExecutor::command] (media_normalizer/engine.rs:980-1003). *)
Definition command_derivation (job_id : string) (command : DerivationCommand) : engine DerivationSnapshot :=
  let! e := sget in
  if ex_shutting_down e && negb (match command with DcCancel => true | _ => false end) then sfail NeShuttingDown else
  let! after := reduce_command job_id command true in
  let! snapshot := slift (ok_or after (NeNotFound job_id)) in
  match dp_state snapshot with
  | DsFailed DfResourceStuck _ => sfail NeWorker
  | _ => sret snapshot
  end.

(** [MediaNormalizerExecutor::recover] (media_normalizer/engine.rs:1020-1037). *)
Definition recover_derivations : engine (list DerivationSnapshot) :=
  let! e := sget in
  let! (_, items) := slift (rmap_err (fun _ => NeRepository) (derivation_projection (ex_db e))) in
  let snapshots := map sd_snapshot items in
  do! sforeach (fun s =>
        if negb (derivation_terminal (dp_state s)) && bool_decide (dp_desired_state s = DesiredRun)
        then port_or NeRepository (enqueue_job (dv_job_id (dp_spec s))) else sret tt) snapshots then!
  sret snapshots.

(** [MediaNormalizerExecutor::shutdown] (media_normalizer/engine.rs:1039-1059), before its wait for the active
    operations. *)
Definition begin_executor_shutdown : engine unit :=
  fun e => (mkExecutor (ex_db e) (fmap (fun r => mkRuntime (Some StopShutdown) (jr_active r)) (ex_runtimes e)) true (ex_world e),
            Ok tt).
End normalizer.
