(* ===== verification/NormalizerProofs.v ===== *)
(** * NormalizerProofs: what the executor keeps of its tables

A predicate on the tables that every store transaction of a critical section
preserves is kept by every operation of the executor: the combinators, the effects
of a decision, the sections, and the worker built from them. *)

From Stdlib Require Import NArith Lia Ascii String.
From stdpp Require Import base numbers list strings gmap.
From S2P Require Import Prelude Domain Files Json Ingest Rational Profile MediaPlan MediaPlanProofs.
From S2P Require Import Validation Manifest ManifestProofs Derivation DerivationProofs MediaStore.
From S2P Require Import DerivationStore DerivationStoreProofs Normalizer.

Local Open Scope string_scope.

(** A state that no failure led to. *)
Definition unfailed (s : DerivationJobState) : bool :=
  match s with DsFailed _ _ | DsCancelled => false | _ => true end.

(** A report that ends the work on a pair. *)
Definition claims_pair (command : DerivationCommand) : bool :=
  match command with DcWorker (PairCheckpointed _) => true | _ => false end.

Create HintDb engine discriminated.

(** ** Combinators *)

Section combinators.
Context `{HT : DerivationText, HM : ManifestText, HS : Sha256, HP : NormalizerPorts}.
Context (R : DerivationDb -> Prop).

Definition preserves {A} (c : engine A) : Prop := forall e, R (ex_db e) -> R (ex_db (c e).1).

Lemma preserves_same {A} (c : engine A) : (forall e, ex_db (c e).1 = ex_db e) -> preserves c.
Proof. intros Hc e He. by rewrite Hc. Qed.

Lemma preserves_bind {A B} (c : engine A) (k : A -> engine B) : preserves c -> (forall a, preserves (k a)) -> preserves (sbind c k).
Proof.
  intros Hc Hk e He. unfold sbind. specialize (Hc e He). destruct (c e) as [e1 [a|err]]; simpl in *; [|done].
  by apply Hk.
Qed.

Lemma preserves_ret {A} (a : A) : preserves (sret a).
Proof. by apply preserves_same. Qed.
Lemma preserves_fail {A} error : preserves (A := A) (sfail error).
Proof. by apply preserves_same. Qed.
Lemma preserves_lift {A} (r : result MediaNormalizerError A) : preserves (slift r).
Proof. by apply preserves_same. Qed.
Lemma preserves_get : preserves sget.
Proof. by apply preserves_same. Qed.
Lemma preserves_port {A} (call : World -> World * A) : preserves (port call).
Proof. apply preserves_same. intros e. unfold port. by destruct (call (ex_world e)). Qed.
Lemma preserves_set_runtime job_id f : preserves (set_runtime job_id f).
Proof. by apply preserves_same. Qed.
Lemma preserves_serr {A} f (c : engine A) : preserves c -> preserves (serr f c).
Proof. intros Hc e He. specialize (Hc e He). unfold serr. by destruct (c e). Qed.
Lemma preserves_signore {A} (c : engine A) : preserves c -> preserves (signore (E := MediaNormalizerError) c).
Proof. intros Hc e He. apply (Hc e He). Qed.

Hint Resolve preserves_bind preserves_ret preserves_fail preserves_lift preserves_get preserves_port preserves_set_runtime preserves_serr preserves_signore : engine.

Lemma preserves_port_or {A} error (call : World -> World * result unit A) : preserves (port_or error call).
Proof. unfold port_or. auto with engine. Qed.
Lemma preserves_stop_requested job_id : preserves (stop_requested job_id).
Proof. unfold stop_requested. auto with engine. Qed.
Lemma preserves_set_stop job_id reason : preserves (set_stop job_id reason).
Proof. unfold set_stop. auto with engine. Qed.
Lemma preserves_load job_id : preserves (load job_id).
Proof. unfold load. auto with engine. Qed.
Lemma preserves_load_existing job_id : preserves (load_existing job_id).
Proof. unfold load_existing. auto using preserves_load with engine. Qed.
Hint Resolve preserves_port_or preserves_stop_requested preserves_set_stop preserves_load preserves_load_existing : engine.

Lemma preserves_with_operation {A} job_id (c : engine A) : preserves c -> preserves (with_operation job_id c).
Proof.
  intros Hc. unfold with_operation. apply preserves_bind; [auto with engine|]. intros _ e He. specialize (Hc e He).
  by destruct (c e).
Qed.
Lemma preserves_ignore {A} (c : engine A) : preserves c -> preserves (ignore c).
Proof. intros Hc. unfold ignore. auto with engine. Qed.
Lemma preserves_foreach {A} (c : A -> engine unit) l : (forall a, preserves (c a)) -> preserves (sforeach c l).
Proof. intros Hc. induction l; simpl; auto with engine. Qed.

(** The same with what the answer is. *)
Definition yields {A} (r : Executor * result MediaNormalizerError A) (Q : A -> Prop) : Prop :=
  R (ex_db r.1) /\ forall a, r.2 = Ok a -> Q a.

Lemma yields_same {A} e (r : result MediaNormalizerError A) (Q : A -> Prop) :
  R (ex_db e) -> (forall a, r = Ok a -> Q a) -> yields (e, r) Q.
Proof. by split. Qed.

Lemma yields_bind {A B} (c : engine A) (k : A -> engine B) e Q P :
  yields (c e) Q -> (forall e1 a, R (ex_db e1) -> Q a -> yields (k a e1) P) -> yields (sbind c k e) P.
Proof.
  unfold yields, sbind. intros [H1 H2] Hk. destruct (c e) as [e1 [a|err]]; simpl in *; [|by split].
  by apply Hk; [|apply H2].
Qed.

Lemma yields_preserves {A} (c : engine A) e : R (ex_db e) -> preserves c -> yields (c e) (fun _ => True).
Proof. intros He Hc. split; [by apply Hc|done]. Qed.

Lemma preserves_yields {A} (c : engine A) : (forall e, R (ex_db e) -> yields (c e) (fun _ => True)) -> preserves c.
Proof. intros Hc e He. apply (Hc e He). Qed.
End combinators.

#[export] Hint Resolve preserves_bind preserves_ret preserves_fail preserves_lift preserves_get preserves_port preserves_set_runtime preserves_serr
  preserves_signore preserves_port_or preserves_stop_requested preserves_set_stop preserves_load preserves_load_existing preserves_with_operation
  preserves_ignore preserves_foreach : engine.

Ltac engine_steps :=
  repeat first [progress auto with engine | apply preserves_with_operation | apply preserves_bind; [|intros] | case_match].

(** ** Tables and critical sections *)

Section tables.
Context `{HT : DerivationText, HM : ManifestText, HS : Sha256, HP : NormalizerPorts}.

(** The tables of an executor. *)
Record tables_ok (db : DerivationDb) : Prop := {
  to_store : store_ok db;
  to_rows : forall id row, db_jobs db !! id = Some row ->
    snapshot_ok (rw_snapshot row) /\ unfailed (dp_state (rw_snapshot row)) = true;
}.

Lemma wrote_ok db db' next :
  tables_ok db -> store_ok db' -> wrote db db' next -> snapshot_ok next -> unfailed (dp_state next) = true -> tables_ok db'.
Proof.
  intros Hdb Hs Hw Hn Hu. constructor; [done|]. intros id row Hr. destruct (Hw _ _ Hr) as [->|Hr']; [done|].
  by apply (to_rows _ Hdb id).
Qed.

Lemma nonterminal_unfailed s : derivation_terminal s = false -> unfailed s = true.
Proof. by destruct s. Qed.

Lemma free_legal j effects : Forall free_effect effects -> legal_effects j effects.
Proof.
  intros [|e rest He Hr]; [done|]. split; [|done]. destruct e; try done. by destruct to.
Qed.

Lemma create_tables_ok db spec now db' outcome :
  tables_ok db -> create_derivation_job db spec now = Ok (db', outcome) -> tables_ok db' /\ advances db db'.
Proof.
  intros Hdb E. destruct (step_create_ok _ _ _ _ _ (to_store _ Hdb) E) as [Hs Ha]. split; [|done].
  constructor; [done|]. intros id row Hr. destruct (create_wrote _ _ _ _ _ E id row Hr) as [Hq|Hr'].
  - unfold snapshot_ok. by rewrite Hq.
  - by apply (to_rows _ Hdb id).
Qed.

(** What the section of a job keeps beside [tables_ok]: [K] of the tables, as long as the snapshots of the job are
    [M], the rebuilt jobs [J], and the effects [G]. *)
Record kept (job_id : string) (K : DerivationDb -> Prop) (M : DerivationSnapshot -> Prop) (J : DerivationJob -> Prop)
    (G : DerivationEffect -> Prop) : Prop := {
  kp_load : forall db row, tables_ok db -> K db -> db_jobs db !! job_id = Some row -> M (rw_snapshot row);
  kp_rehydrate : forall s j, M s -> rehydrated (dp_spec s) s j -> J j;
  kp_apply : forall j effect next, J j -> G effect -> (apply_committed_effect j effect).2 = Ok next -> M next;
  kp_write : forall db db' next,
    tables_ok db -> tables_ok db' -> K db -> M next -> advances db db' -> wrote db db' next -> K db';
}.

Section sections.
Context (job_id : string) (K : DerivationDb -> Prop) (M : DerivationSnapshot -> Prop) (J : DerivationJob -> Prop).
Context (G : DerivationEffect -> Prop) (Hkept : kept job_id K M J G).

Abbreviation R := (fun db => tables_ok db /\ K db).
Abbreviation yields := (yields R).
Abbreviation preserves := (preserves R).

Lemma swap_yields v next now e :
  R (ex_db e) -> snapshot_ok next -> M next -> yields (repository_compare_and_swap v next now e) (fun s => s = next).
Proof.
  intros [He HK] Hn HM'. unfold repository_compare_and_swap.
  destruct (compare_and_swap_derivation_snapshot _ _ _ _) as [[db o]|err] eqn:E; [|by apply yields_same].
  destruct (step_swap_ok _ _ _ _ _ _ (to_store _ He) E) as [Hs Ha].
  destruct (swap_wrote _ _ _ _ _ _ E) as (Ht & Hw & Hj).
  assert (Hok : tables_ok db) by (eapply wrote_ok; [done..|]; by apply nonterminal_unfailed).
  destruct o; (split; simpl; [split; [done|by apply (kp_write _ _ _ _ _ Hkept (ex_db e) db next)]|by intros s [= <-]]).
Qed.

Lemma complete_yields v next completion manifest evidence now e :
  R (ex_db e) -> snapshot_ok next -> M next -> dp_state next = DsDerivedVerified ->
  yields (repository_commit v next completion manifest evidence now e) (fun s => s = next).
Proof.
  intros [He HK] Hn HM' Hst. unfold repository_commit. destruct (negb _); [by apply yields_same|].
  destruct (complete_derivation_job _ _ _ _) as [[db o]|err] eqn:E; [|by apply yields_same].
  destruct (step_complete_ok _ _ _ _ _ _ (to_store _ He) E) as [Hs Ha].
  destruct (complete_wrote _ _ _ _ _ _ E) as (Ht & Hw & Hj).
  assert (Hok : tables_ok db) by (eapply wrote_ok; [done..|]; by rewrite Hst).
  split; simpl; [split; [done|by apply (kp_write _ _ _ _ _ Hkept (ex_db e) db next)]|by intros s [= <-]].
Qed.

(** A durable effect: if it is stored, the job that is rebuilt has come as far. *)
Lemma stored_effect_yields effect domain (store : N -> DerivationSnapshot -> string -> engine DerivationSnapshot) e :
  R (ex_db e) -> job_ok domain -> J domain -> first_effect domain effect -> G effect ->
  (forall v next now e, R (ex_db e) -> M next -> (apply_committed_effect domain effect).2 = Ok next ->
     yields (store v next now e) (fun s => s = next)) ->
  yields ((let! next := slift (rmap_err (fun _ => NeWorker) (apply_committed_effect domain effect).2) in
           let! now := port now_rfc3339 in
           let! accepted := store (default 0%N (expected_version effect)) next now in
           let! domain := slift (rmap_err (fun _ => NeWorker) (rehydrate (dp_spec accepted) accepted)) in
           sret (domain, accepted)) e) (fun r => job_ok r.1 /\ J r.1).
Proof.
  intros He Hd HJ Hf HG Hstore. apply (yields_bind _ _ _ _ (fun next => (apply_committed_effect domain effect).2 = Ok next)).
  { apply yields_same; [done|]. by intros a Ha%rmap_err_ok. }
  intros e1 next He1 Ha. destruct (apply_effect_ok _ _ _ Hd Hf Ha) as (Hn & _).
  assert (HMn : M next) by by eapply (kp_apply _ _ _ _ _ Hkept).
  eapply yields_bind; [apply yields_preserves; [done|apply preserves_port]|]. intros e2 now He2 _.
  eapply yields_bind; [by apply Hstore|]. intros e3 s He3 ->.
  eapply (yields_bind _ _ _ _ (fun d => rehydrate (dp_spec next) next = Ok d)).
  { apply yields_same; [done|]. by intros a Hr%rmap_err_ok. }
  intros e4 d He4 Hr%rehydrate_ok. apply yields_same; [done|]. intros a [= <-].
  split; [by eapply rehydrated_ok|by eapply (kp_rehydrate _ _ _ _ _ Hkept)].
Qed.

Lemma commit_effect_yields effect context domain e :
  R (ex_db e) -> job_ok domain -> J domain -> first_effect domain effect -> G effect ->
  yields (commit_effect effect context domain e) (fun r => job_ok r.1 /\ J r.1).
Proof.
  intros He Hd HJ Hf HG.
  destruct effect; try (apply stored_effect_yields; [done..|]; intros v' next now e' He' HM' Ha;
    destruct (apply_effect_ok _ _ _ Hd Hf Ha) as (Hn & _); by apply swap_yields).
  cbn [commit_effect]. destruct context as [cx|]; [|by apply yields_same].
  apply (stored_effect_yields _ _ (fun v next now => repository_commit v next completion (cx_completion_manifest cx) (cx_evidence cx) now));
    [done..|]. intros v' next now e' He' HM' Ha. destruct (apply_effect_ok _ _ _ Hd Hf Ha) as (Hn & _ & _ & _ & Hp).
  apply complete_yields; [done|done|done|by eapply Hp].
Qed.

Lemma interpret_preserves context effects : forall it,
  job_ok (it_domain it) -> J (it_domain it) -> legal_effects (it_domain it) effects -> Forall G effects ->
  preserves (interpret job_id context effects it).
Proof.
  induction effects as [|effect rest IH]; intros it Hd HJ Hl HG; cbn [interpret]; [auto with engine|].
  destruct Hl as [Hf Hr]. apply Forall_cons in HG as [HG HGr]. apply preserves_yields. intros e He.
  apply (yields_bind _ _ _ _ (fun it' => job_ok (it_domain it') /\ J (it_domain it'))).
  2: { intros e1 it' He1 [Hd' HJ']. apply yields_preserves; [done|]. apply IH; [done|done|by apply free_legal|done]. }
  assert (Hdurable : yields ((let! (domain, accepted) := commit_effect effect context (it_domain it) in
                                sret (it_committed it domain accepted)) e) (fun it' => job_ok (it_domain it') /\ J (it_domain it'))).
  { eapply yields_bind; [by apply commit_effect_yields|]. intros e1 [d s] He1 Hd1. apply yields_same; [done|].
    by intros a [= <-]. }
  destruct effect; try exact Hdurable.
  all: try (apply yields_same; [done|]; by intros a [= <-]).
  all: eapply yields_bind; [apply yields_preserves; [done|auto with engine]|]; intros e1 _ He1 _;
    (apply yields_same; [done|]; by intros a [= <-]).
Qed.

(** What a load finds. *)
Lemma load_yields e :
  R (ex_db e) ->
  yields (load_existing job_id e) (fun s => exists row, db_jobs (ex_db e) !! job_id = Some row /\ s = rw_snapshot row).
Proof.
  intros He. unfold load_existing. apply (yields_bind _ _ _ _ (fun o => forall s, o = Some s ->
    exists row, db_jobs (ex_db e) !! job_id = Some row /\ s = rw_snapshot row)).
  - unfold load, sbind, sget, slift. apply yields_same; [done|]. intros a Ha%rmap_err_ok s ->.
    apply rbind_ok in Ha as ([job|] & Hj & [= <-]). destruct (read_derivation_ok _ _ _ Hj) as [row Hrow]. exists row.
    split; [apply Hrow|]. by rewrite (rr_job _ _ _ _ Hrow).
  - intros e1 o He1 Ho. apply yields_same; [done|]. intros s Hs%ok_or_ok. by apply Ho.
Qed.

Lemma reduce_section_preserves command context :
  (forall j, J j -> Forall G (dn_effects (decide_derivation j command))) -> preserves (reduce_section job_id command context).
Proof.
  intros HG. apply preserves_yields. intros e He. unfold reduce_section. eapply yields_bind; [by apply load_yields|].
  intros e1 s He1 (row & Hrow & ->). destruct (to_rows _ (proj1 He) job_id row Hrow) as [Hs _].
  assert (HMs : M (rw_snapshot row)) by (eapply (kp_load _ _ _ _ _ Hkept); [apply He..|done]).
  eapply yields_bind; [apply yields_preserves; [done|]|].
  { destruct command; auto with engine. }
  intros e2 _ He2 _. apply (yields_bind _ _ _ _ (fun d => job_ok d /\ J d)).
  { apply yields_same; [done|]. intros d Hd%rmap_err_ok%rehydrate_ok.
    split; [by eapply rehydrated_ok|by eapply (kp_rehydrate _ _ _ _ _ Hkept)]. }
  intros e3 d He3 [Hd HJ]. destruct (dn_outcome (decide_derivation d command)); [|by apply yields_same..].
  apply yields_preserves; [done|]. apply preserves_bind.
  - apply interpret_preserves; [done|done|apply decide_legal|by apply HG].
  - intros it. apply preserves_bind; [destruct (it_remove it); [by apply preserves_same|auto with engine]|auto with engine].
Qed.
End sections.
End tables.

(** ** The operations *)

Section operations.
Context `{HT : DerivationText, HM : ManifestText, HS : Sha256, HP : NormalizerPorts}.
Context (R : DerivationDb -> Prop) (allowed : string -> DerivationCommand -> Prop).
Abbreviation preserves := (preserves R).

Hypothesis section_preserves : forall job_id command context,
  allowed job_id command -> preserves (reduce_section job_id command context).
Hypothesis unclaimed_allowed : forall job_id command, claims_pair command = false -> allowed job_id command.

Lemma reduce_inner_preserves nesting : forall job_id command schedule context,
  allowed job_id command -> preserves (reduce_inner nesting job_id command schedule context).
Proof.
  induction nesting as [|nesting IH]; intros job_id command schedule context Hc; cbn [reduce_inner];
    (apply preserves_bind; [by apply section_preserves|]); intros [stored [it|]]; auto with engine.
  all: apply preserves_bind; [auto with engine|]; intros e.
  all: apply preserves_bind; [repeat case_match; auto using unclaimed_allowed with engine|].
  all: intros await; apply preserves_bind; [destruct await; auto with engine; apply preserves_bind; auto with engine; intros []; auto with engine|].
  all: intros _; apply preserves_bind; [destruct (_ && _); auto with engine|]; auto with engine.
Qed.

Lemma reduce_command_preserves job_id command schedule :
  allowed job_id command -> preserves (reduce_command job_id command schedule).
Proof. intros. by apply reduce_inner_preserves. Qed.
Lemma report_preserves job_id r : allowed job_id (DcWorker r) -> preserves (report job_id r).
Proof. intros. by apply reduce_inner_preserves. Qed.
Hint Resolve reduce_inner_preserves reduce_command_preserves report_preserves unclaimed_allowed : engine.

Lemma fail_stage_preserves job_id code retryable : preserves (fail_stage job_id code retryable).
Proof. unfold fail_stage. auto with engine. Qed.
Lemma worker_stopped_preserves job_id reason : preserves (reduce_worker_stopped job_id reason).
Proof. unfold reduce_worker_stopped. auto with engine. Qed.
Lemma worker_failed_preserves job_id code retryable : preserves (reduce_worker_failed job_id code retryable).
Proof. unfold reduce_worker_failed. auto with engine. Qed.
Lemma may_begin_preserves job_id state : preserves (may_begin job_id state).
Proof. unfold may_begin. engine_steps. Qed.
Hint Resolve fail_stage_preserves worker_stopped_preserves worker_failed_preserves may_begin_preserves : engine.

Lemma run_probe_preserves job_id : preserves (run_probe job_id).
Proof. unfold run_probe, reduce_process_outcome. engine_steps. Qed.
Lemma run_plan_preserves job_id : preserves (run_plan job_id).
Proof. unfold run_plan. engine_steps. Qed.

Lemma completed_or_preserves {T} job_id (outcome : MediaProcessOutcome T) k :
  (forall value, preserves (k value)) -> preserves (completed_or job_id outcome k).
Proof. intros Hk. unfold completed_or. engine_steps. Qed.

Section pair_work.
Context (job_id : string) (Hfree : forall command, allowed job_id command).

Lemma publish_pair_preserves snapshot pair_plan index validated : preserves (publish_pair job_id snapshot pair_plan index validated).
Proof using section_preserves unclaimed_allowed Hfree. unfold publish_pair. engine_steps. Qed.
Hint Resolve publish_pair_preserves : engine.

Lemma encode_preserves snapshot pair_plan index request reused :
  preserves (encode_and_publish job_id snapshot pair_plan index request reused).
Proof using section_preserves unclaimed_allowed Hfree.
  unfold encode_and_publish. apply preserves_bind; [auto with engine|]. intros stop.
  apply preserves_bind; [engine_steps|]. intros outcome. apply completed_or_preserves. intros encoded.
  apply preserves_bind; [auto with engine|]. intros [reason|]; [auto with engine|].
  apply preserves_bind; [auto with engine|]. intros quality. apply completed_or_preserves. intros [lq rq].
  apply preserves_bind; [auto with engine|]. intros request'. apply preserves_bind; [auto with engine|]. intros stop'.
  apply preserves_bind; [auto with engine|]. intros validation. apply completed_or_preserves. intros r. engine_steps.
Qed.
Hint Resolve encode_preserves : engine.

Lemma run_next_pair_preserves : preserves (run_next_pair job_id).
Proof using section_preserves unclaimed_allowed Hfree. unfold run_next_pair. engine_steps. Qed.
End pair_work.

Lemma run_validation_gate_preserves job_id : preserves (run_validation_gate job_id).
Proof. unfold run_validation_gate. engine_steps. Qed.
Lemma run_commit_preserves job_id : preserves (run_commit job_id).
Proof. unfold run_commit. engine_steps. Qed.
Hint Resolve run_probe_preserves run_plan_preserves run_validation_gate_preserves run_commit_preserves : engine.

Hypothesis next_pair_preserves : forall job_id, preserves (run_next_pair job_id).
Hint Resolve next_pair_preserves : engine.

Lemma run_stage_preserves job_id snapshot : preserves (run_stage job_id snapshot).
Proof. unfold run_stage. engine_steps. Qed.
Hint Resolve run_stage_preserves : engine.

Lemma run_loop_preserves fuel : forall job_id snapshot, preserves (run_loop fuel job_id snapshot).
Proof. induction fuel; intros job_id snapshot; cbn [run_loop]; engine_steps. Qed.
Hint Resolve run_loop_preserves : engine.

Lemma reconcile_preserves job_id snapshot : preserves (reconcile_checkpoint_files job_id snapshot).
Proof.
  intros e He. unfold reconcile_checkpoint_files.
  assert (Hf : preserves (sforeach (fun c => port_or NeWorker (verify_checkpoint job_id c)) (dp_checkpoints snapshot)))
    by auto with engine. specialize (Hf e He). by destruct (sforeach _ _ e).
Qed.
Hint Resolve reconcile_preserves : engine.

Lemma run_one_preserves fuel job_id : preserves (run_one fuel job_id).
Proof. unfold run_one. engine_steps. Qed.

Lemma command_preserves job_id command : allowed job_id command -> preserves (command_derivation job_id command).
Proof. intros. unfold command_derivation. engine_steps. Qed.

Lemma recover_preserves : preserves recover_derivations.
Proof. unfold recover_derivations. engine_steps. apply preserves_foreach. intros s. engine_steps. Qed.

Hypothesis create_preserves : forall db spec now db' outcome,
  R db -> create_derivation_job db spec now = Ok (db', outcome) -> R db'.

Lemma start_preserves spec : preserves (start_derivation spec).
Proof.
  unfold start_derivation. apply preserves_bind; [auto with engine|]. intros e0. case_match; [auto with engine|].
  apply preserves_bind; [auto with engine|]. intros _. case_match; [auto with engine|].
  apply preserves_bind; [auto with engine|]. intros _. apply preserves_bind; [auto with engine|]. intros now.
  apply preserves_bind; [|intros [outcome should]; engine_steps]. intros e He.
  destruct (create_derivation_job _ _ _) as [[db o]|err] eqn:E.
  - assert (Hok := create_preserves _ _ _ _ _ He E). by destruct o as [job|job]; simpl; [|destruct (negb _ || _)].
  - by destruct err as [[]|].
Qed.
End operations.
