(* ===== verification/NormalizerRuns.v ===== *)
(** * NormalizerRuns: what the executor guarantees, and where it is stuck

Over every sequence of operations, and of sections of concurrent workers, the
tables stay readable and only advance, a stored success is whole, and no failure
or cancellation is ever stored; a pair that was interrupted is never taken up
again by any later operation. *)

From Stdlib Require Import NArith Lia Ascii String.
From stdpp Require Import base numbers list strings gmap relations.
From S2P Require Import Prelude Domain Files Json Ingest Rational Profile MediaPlan MediaPlanProofs.
From S2P Require Import Validation Manifest ManifestProofs Derivation DerivationProofs MediaStore.
From S2P Require Import DerivationStore DerivationStoreProofs Normalizer NormalizerProofs.

Local Open Scope string_scope.

Section runs.
Context `{HT : DerivationText, HM : ManifestText, HS : Sha256, HP : NormalizerPorts}.

(** A new database, and an executor on it. *)
Definition empty_db : DerivationDb := mkDb ∅ ∅ ∅ (mkOutbox ∅ 0) ∅ 0.
Definition new_executor (world : World) : Executor := mkExecutor empty_db ∅ false world.

(** The operations, and any section that a worker may take between them; a restart, the runtimes of
    other threads and the world change anything but the tables. *)
Inductive executor_move (e : Executor) : Executor -> Prop :=
| mv_start spec : executor_move e (start_derivation spec e).1
| mv_command job_id command : executor_move e (command_derivation job_id command e).1
| mv_section nesting job_id command schedule context :
    executor_move e (reduce_inner nesting job_id command schedule context e).1
| mv_run fuel job_id : executor_move e (run_one fuel job_id e).1
| mv_recover : executor_move e (recover_derivations e).1
| mv_acknowledge job_id now db outcome :
    acknowledge_derivation_completion (ex_db e) job_id now = Ok (db, outcome) -> executor_move e (set_db e db)
| mv_world runtimes down world : executor_move e (mkExecutor (ex_db e) runtimes down world).

(** The operations as wholes, none of which reports a pair that it did not encode. *)
Inductive whole_move (e : Executor) : Executor -> Prop :=
| wm_start spec : whole_move e (start_derivation spec e).1
| wm_command job_id command : claims_pair command = false -> whole_move e (command_derivation job_id command e).1
| wm_run fuel job_id : whole_move e (run_one fuel job_id e).1
| wm_recover : whole_move e (recover_derivations e).1
| wm_acknowledge job_id now db outcome :
    acknowledge_derivation_completion (ex_db e) job_id now = Ok (db, outcome) -> whole_move e (set_db e db)
| wm_world runtimes down world : whole_move e (mkExecutor (ex_db e) runtimes down world).

(** A row is read as it stands. *)
Lemma row_read db id row : tables_ok db -> db_jobs db !! id = Some row -> 
  exists job, read_derivation_job db id = Ok (Some job) /\ row_reads db id row job.
Proof.
  intros Hdb Hrow. destruct (so_reads _ (to_store _ Hdb) id) as [[job|] Hread].
  - destruct (read_derivation_ok _ _ _ Hread) as [row' Hr]. assert (row' = row) as -> by (assert (Er := rr_row _ _ _ _ Hr); congruence).
    by exists job.
  - exfalso. revert Hread. unfold read_derivation_job. rewrite Hrow.
    rewrite rbind_ok. intros (srow & _ & Hk). revert Hk. destruct (negb _); [done|].
    rewrite rbind_ok. intros (digest & _ & Hk). revert Hk. destruct (negb _); [done|].
    do 3 (rewrite rbind_ok; intros (? & _ & Hk); revert Hk). done.
Qed.

(** ** The tables advance *)

Definition since (db0 db : DerivationDb) : Prop := tables_ok db /\ advances db0 db.

Lemma empty_ok : tables_ok empty_db.
Proof.
  constructor; [constructor|]; cbn; intros; set_solver.
Qed.

Lemma kept_since job_id db0 :
  kept job_id (advances db0) (fun _ => True) (fun _ => True) (fun _ => True).
Proof. constructor; try done. intros db db' next _ _ Hk _ Ha _. by eapply advances_trans. Qed.

Lemma section_since db0 job_id command context : True -> preserves (since db0) (reduce_section job_id command context).
Proof. intros _. eapply reduce_section_preserves; [apply kept_since|]. intros j _. by apply Forall_true. Qed.

Lemma acknowledge_ok db job_id now db' outcome :
  tables_ok db -> acknowledge_derivation_completion db job_id now = Ok (db', outcome) ->
  tables_ok db' /\ advances db db' /\ db_jobs db' = db_jobs db.
Proof.
  intros Hdb E. destruct (step_acknowledge_ok _ _ _ _ _ (to_store _ Hdb) E) as [Hs Ha].
  assert (Hj : db_jobs db' = db_jobs db).
  { revert E. unfold acknowledge_derivation_completion. rewrite rbind_ok. intros (u & _ & Hr). revert Hr.
    destruct (acknowledge_completion _ _ _) as [ob [env|env|]]; [|by intros [= <- _]..].
    rewrite rbind_ok. by intros (revision & _ & [= <- _]). }
  split_and!; [|done|done]. constructor; [done|]. rewrite Hj. apply (to_rows _ Hdb).
Qed.

Lemma move_since db0 e e' : executor_move e e' -> since db0 (ex_db e) -> since db0 (ex_db e').
Proof.
  assert (Hsec := section_since db0). assert (Hall : forall (j : string) (c : DerivationCommand), claims_pair c = false -> True) by done.
  assert (Hpair : forall j, preserves (since db0) (run_next_pair j)).
  { intros j. by apply (run_next_pair_preserves _ (fun _ _ => True)). }
  destruct 1 as [spec|j c|n j c b cx|f j| |j now db o E|].
  - apply (start_preserves (since db0)). intros db spec' now db' o [Hdb Ha] E.
    destruct (create_tables_ok _ _ _ _ _ Hdb E) as [Hdb' Ha']. split; [done|by eapply advances_trans].
  - by apply (command_preserves _ (fun _ _ => True)).
  - by apply (reduce_inner_preserves _ (fun _ _ => True)).
  - by apply (run_one_preserves _ (fun _ _ => True)).
  - by apply (recover_preserves _ e).
  - intros [Hdb Ha]. destruct (acknowledge_ok _ _ _ _ _ Hdb E) as (Hdb' & Ha' & _).
    split; [done|by eapply advances_trans].
  - done.
Qed.

Lemma moves_since e e' : rtc executor_move e e' -> tables_ok (ex_db e) -> since (ex_db e) (ex_db e').
Proof.
  intros Hm He. assert (Hs : since (ex_db e) (ex_db e)) by (split; [done|apply advances_refl]).
  revert Hs. generalize (ex_db e) at 1 3 as db0. clear He. induction Hm as [e|e e1 e2 H1 _ IH]; [done|].
  intros db0 Hs. eapply IH, move_since; [exact H1|exact Hs].
Qed.

Definition reachable (e : Executor) : Prop := exists world, rtc executor_move (new_executor world) e.

Lemma reachable_ok e : reachable e -> tables_ok (ex_db e).
Proof. intros [world Hm]. by apply (moves_since _ _ Hm), empty_ok. Qed.

(** From a new database on, whatever the interleaving of commands, workers'
    reports and restarts: every row of a derivation can be read, rehydrates and
    is found under one natural key, and a later database is an advance of an
    earlier one: a row keeps its key, its request and its specification, its
    pairs are only appended to, its version only grows, a terminal row never
    changes, completions and receipts are only added and an acknowledged
    completion is final. *)
Theorem derivation_tables_only_advance e e' :
  reachable e -> rtc executor_move e e' ->
  (forall id, exists job, read_derivation_job (ex_db e') id = Ok job) /\
  (forall id id' row row', db_jobs (ex_db e') !! id = Some row -> db_jobs (ex_db e') !! id' = Some row' ->
     rw_natural_key row = rw_natural_key row' -> id = id') /\
  advances (ex_db e) (ex_db e').
Proof.
  intros Hr Hm. destruct (moves_since _ _ Hm (reachable_ok _ Hr)) as [Hdb Ha]. split_and!; [|by eapply so_keys, to_store|done].
  apply (so_reads _ (to_store _ Hdb)).
Qed.

(** ** A stored success *)

Record whole_success (db : DerivationDb) (id : string) (s : DerivationSnapshot) : Prop := {
  ws_plan : exists plan, dp_media_plan s = Some plan /\ (0 < length (mp_segment_pairs plan))%nat /\
    length (dp_checkpoints s) = length (mp_segment_pairs plan);
  ws_pairs : forall k, (k < length (dp_checkpoints s))%nat -> exists c, c ∈ dp_checkpoints s /\
    pc_segment_index c = N.of_nat k /\ checkpoint_matches (dp_spec s) c = true /\
    validate_segment_pair_checkpoint c = Ok tt;
  ws_current : dp_current_pair s = None;
  ws_completion : exists completion manifest receipt,
    dp_completion s = Some completion /\ completion_matches (dp_spec s) completion = true /\
    parse_verified (ub_derived_manifest_canonical_bytes (dc_upload_bundle_input completion)) = Ok manifest /\
    upload_bundle_input manifest = dc_upload_bundle_input completion /\ inventory_complete (mf_material manifest) /\
    db_receipts db !! digest_text (dc_derived_revision completion) = Some receipt /\
    dr_derivation_job_id receipt = id /\ dr_local_path receipt = dc_local_relative_path completion;
  ws_recorded : exists envelope, ob_rows (db_outbox db) !! id = Some envelope /\ ce_outcome envelope = s;
}.

(** C7: a derivation that is stored as verified is whole: every pair of its
    plan has a checkpoint that passed its validation, under the profile and the
    encoder of the request; its completion is of the request's source and
    profile and carries a manifest that verifies and whose inventory is
    complete; the receipt of the derived revision and the completion of the
    outbox are there with it. *)
Theorem stored_success_is_whole e id row :
  reachable e -> db_jobs (ex_db e) !! id = Some row -> dp_state (rw_snapshot row) = DsDerivedVerified ->
  whole_success (ex_db e) id (rw_snapshot row).
Proof.
  intros Hdb%reachable_ok Hrow Hst. destruct (to_rows _ Hdb id row Hrow) as [Hsn _]. unfold snapshot_ok in Hsn.
  destruct (row_read _ _ _ Hdb Hrow) as (job & _ & [_ _ Hid _ _ _ _ [j Hj%rehydrate_ok] Hp Hv]).
  rewrite Hst in Hsn. destruct Hsn as (Hn & Hpos & Hcur).
  destruct (so_recorded _ (to_store _ Hdb) id row Hrow) as (env & Henv & Hrec); [by rewrite Hst|].
  destruct (success_receipt _ _ _ Hv Hst) as (completion & manifest & receipt & Hc & Hm & Hu & Hr & R1 & R2 & _).
  destruct (rh_success _ _ _ Hj Hst) as (completion' & Hc' & Hmatch). rewrite Hc in Hc'. injection Hc' as <-.
  constructor; [| |done| |].
  - unfold plan_pairs in Hn. destruct (dp_media_plan (rw_snapshot row)) as [plan|]; [|lia]. exists plan. by split_and!; [|lia|].
  - intros k Hk. destruct (rh_contiguous _ _ _ Hj k Hk) as (c & Hc1 & Hc2). exists c. split_and!; try done.
    + exact (proj1 (Forall_forall _ _) (rh_matches _ _ _ Hj) c Hc1).
    + exact (proj1 (Forall_forall _ _) Hp c Hc1).
  - exists completion, manifest, receipt. split_and!; try done; [|congruence].
    by destruct (parse_verified_ok _ _ Hm) as (_ & _ & Hi & _).
  - exists env. split; [done|apply Hrec].
Qed.

(** No failure and no cancellation is ever stored: the executor commits both
    through the compare-and-swap, which refuses every terminal snapshot, so that
    a job only ever rests in a state that is not terminal or verified. *)
Theorem failed_and_cancelled_never_stored e id row :
  reachable e -> db_jobs (ex_db e) !! id = Some row ->
  dp_state (rw_snapshot row) <> DsCancelled /\ forall code retryable, dp_state (rw_snapshot row) <> DsFailed code retryable.
Proof.
  intros Hdb%reachable_ok Hrow. destruct (to_rows _ Hdb id row Hrow) as [_ Hu].
  split; [|intros code retryable]; intros E; by rewrite E in Hu.
Qed.

(** ** An interrupted pair *)

Definition claimed (job_id : string) (index : N) (db : DerivationDb) : Prop :=
  exists row, db_jobs db !! job_id = Some row /\ dp_current_pair (rw_snapshot row) = Some index.

Definition held (job_id : string) (index : N) (db : DerivationDb) : Prop := tables_ok db /\ claimed job_id index db.

Definition keeps_claim (effect : DerivationEffect) : Prop :=
  match effect with EfCommitPairCheckpoint _ _ _ => False | _ => True end.

Lemma unclaimed_effects j command :
  claims_pair command = false -> Forall keeps_claim (dn_effects (decide_derivation j command)).
Proof.
  intros Hc. destruct command as [| | | | | | | |r]; [..|destruct r]; try discriminate; cbn [decide_derivation worker];
    unfold source_available, source_unavailable, pause, resume, cancel, finalize_cancel, retry, dismiss, wrong_state,
      process_stopped, stage_failed, pair_started, finalize_cancel, commit, accepted, refused, no_op, discard_partial.
  all: repeat (case_match; cbn [dn_effects]); repeat constructor.
Qed.

Lemma apply_keeps_current j effect next index :
  dj_current_pair j = Some index -> keeps_claim effect -> (apply_committed_effect j effect).2 = Ok next ->
  dp_current_pair next = Some index.
Proof.
  unfold apply_committed_effect. intros Hc Hk. destruct (expected_version effect) as [v|]; [|done].
  destruct (negb _); [done|]. destruct (apply_change j effect) as [j'|] eqn:Ea; [|done].
  destruct (u64_checked_add _ _); [|done]. intros [= <-]. cbn.
  destruct effect; cbn [apply_change keeps_claim] in *; try done; try (by injection Ea as <-).
  - destruct (negb _); [done|]. by injection Ea as <-.
  - rewrite (bool_decide_true (is_Some (dj_current_pair j))), orb_true_r in Ea by by rewrite Hc. done.
  - destruct (negb _); [done|]. by injection Ea as <-.
Qed.

Lemma kept_claim job_id index j :
  kept j (claimed job_id index)
    (fun s => dv_job_id (dp_spec s) = j /\ (j = job_id -> dp_current_pair s = Some index))
    (fun d => dv_job_id (dj_spec d) = j /\ (j = job_id -> dj_current_pair d = Some index))
    (fun effect => j = job_id -> keeps_claim effect).
Proof.
  assert (Hid : forall db id row, tables_ok db -> db_jobs db !! id = Some row -> dv_job_id (dp_spec (rw_snapshot row)) = id).
  { intros db id row Hdb Hrow. destruct (row_read _ _ _ Hdb Hrow) as (job & _ & Hr). apply Hr. }
  constructor.
  - intros db row Hdb (r & Hr & Hc) Hrow. split; [by eapply Hid|]. intros ->. congruence.
  - intros s d [Hi Hc] Hr. split; [by rewrite (rh_spec _ _ _ Hr)|]. intros Hj. by rewrite (rh_current _ _ _ Hr), Hc.
  - intros d effect next [Hi Hc] Hk Ha. split; [|intros Hj; by eapply apply_keeps_current; [apply Hc|apply Hk|]].
    revert Ha. unfold apply_committed_effect. destruct (expected_version effect) as [v|]; [|done]. destruct (negb _); [done|].
    destruct (apply_change d effect) as [d'|] eqn:Ea; [|done]. destruct (u64_checked_add _ _); [|done]. intros [= <-]. cbn.
    rewrite <- Hi. f_equal. clear -Ea. destruct effect; cbn [apply_change] in Ea; repeat case_match; try done; by injection Ea as <-.
  - intros db db' next Hdb Hdb' (row & Hrow & Hc) [Hi Hn] Ha Hw. destruct (ad_rows _ _ Ha _ _ Hrow) as (row' & Hrow' & _).
    exists row'. split; [done|]. destruct (Hw _ _ Hrow') as [E|E]; [|congruence].
    rewrite E. apply Hn. rewrite <- Hi, <- E. by eapply Hid.
Qed.
(** The next pair cannot be started. *)
Lemma pair_start_refused job_id index segment_index e :
  held job_id index (ex_db e) -> exists err, report job_id (PairStarted segment_index) e = (e, Err err).
Proof.
  intros [Hdb (row & Hrow & Hc)]. destruct (row_read _ _ _ Hdb Hrow) as (job & Hread & Hr).
  assert (Hload : load_existing job_id e = (e, Ok (rw_snapshot row))).
  { unfold load_existing, load, sbind, sget, slift. rewrite Hread. cbn. by rewrite (rr_job _ _ _ _ Hr). }
  destruct (rr_rehydrates _ _ _ _ Hr) as [j Hj]. assert (Hj' := rehydrate_ok _ _ _ Hj).
  unfold report, reduce_command. cbn [reduce_inner]. unfold reduce_section. unfold sbind at 1 2. rewrite Hload.
  cbn [sbind sret slift]. rewrite Hj. cbn [rmap_err]. cbn [decide_derivation worker]. unfold pair_started.
  destruct (negb _); [by eexists|]. destruct (_ || _); [by eexists|]. cbn [dn_outcome accepted dn_effects interpret].
  cbn [it_domain commit_effect]. unfold sbind at 1 2 3 4 5, slift at 1. unfold apply_committed_effect.
  cbn [expected_version]. rewrite N.eqb_refl. cbn [negb apply_change].
  rewrite (bool_decide_true (is_Some (dj_current_pair j))), orb_true_r by (rewrite (rh_current _ _ _ Hj'), Hc; by eexists).
  by eexists.
Qed.

Definition unclaiming (job_id j : string) (command : DerivationCommand) : Prop := j = job_id -> claims_pair command = false.

Lemma section_held job_id index j command context :
  unclaiming job_id j command -> preserves (held job_id index) (reduce_section j command context).
Proof.
  intros Ha. eapply reduce_section_preserves; [apply kept_claim|]. intros d _. rewrite Forall_forall. intros effect He ->.
  by eapply (proj1 (Forall_forall _ _) (unclaimed_effects d command (Ha eq_refl))).
Qed.

Lemma next_pair_held job_id index j : preserves (held job_id index) (run_next_pair j).
Proof.
  destruct (decide (j = job_id)) as [->|Hne].
  - unfold run_next_pair. apply preserves_bind; [auto with engine|]. intros s. destruct (dp_media_plan s) as [plan|].
    2: { apply (fail_stage_preserves _ (unclaiming job_id)); [apply section_held|by intros ? ? ? _]. }
    destruct (_ <? _)%N; [auto with engine|]. destruct (segment_pair _ _) as [pair_plan|].
    2: { apply (fail_stage_preserves _ (unclaiming job_id)); [apply section_held|by intros ? ? ? _]. }
    apply preserves_bind; [auto with engine|]. intros recovered. apply preserves_bind; [destruct recovered; auto with engine|].
    intros [lp rp] e He. destruct (pair_start_refused _ _ (N.of_nat (length (dp_checkpoints s))) e He) as [err Hr].
    unfold sbind at 1. by rewrite Hr.
  - by apply (run_next_pair_preserves _ (unclaiming job_id)); [apply section_held|intros ? ? ? _|intros c ?].
Qed.

Lemma move_held job_id index e e' : whole_move e e' -> held job_id index (ex_db e) -> held job_id index (ex_db e').
Proof.
  assert (Hsec := section_held job_id index). assert (Hpair := next_pair_held job_id index).
  assert (Hall : forall j c, claims_pair c = false -> unclaiming job_id j c) by by intros ? ? ? _.
  destruct 1 as [spec|j c Hc|f j| |j now db o E|].
  - apply (start_preserves (held job_id index)). intros db spec' now db' o [Hdb (row & Hrow & Hc)] E.
    destruct (create_tables_ok _ _ _ _ _ Hdb E) as [Hdb' Ha']. split; [done|]. exists row.
    split; [by eapply create_keeps_rows|done].
  - apply (command_preserves _ (unclaiming job_id)); [done|done|]. by apply Hall.
  - by apply (run_one_preserves _ (unclaiming job_id)).
  - by apply (recover_preserves _ e).
  - intros [Hdb (row & Hrow & Hc)]. destruct (acknowledge_ok _ _ _ _ _ Hdb E) as (Hdb' & _ & Hj). split; [done|].
    exists row. cbn. by rewrite Hj.
  - done.
Qed.

(** Once a worker has started a pair and ended without its checkpoint (a
    stop, a failure, a crash), the job preserves that pair as current for ever: no
    command, run, restart or recovery clears it, every later start of a pair is
    refused, and so the job never gets past its encoding. *)
Theorem interrupted_pair_is_never_resumed job_id index e e' :
  reachable e -> claimed job_id index (ex_db e) -> rtc whole_move e e' ->
  (exists row, db_jobs (ex_db e') !! job_id = Some row /\ dp_current_pair (rw_snapshot row) = Some index /\
     match dp_state (rw_snapshot row) with DsValidating | DsCommitting | DsDerivedVerified => False | _ => True end) /\
  forall segment_index, exists err, report job_id (PairStarted segment_index) e' = (e', Err err).
Proof.
  intros Hr Hc Hm. assert (He : held job_id index (ex_db e)) by (split; [by apply reachable_ok|done]).
  clear Hr Hc. assert (He' : held job_id index (ex_db e')) by (induction Hm; eauto using move_held). clear Hm He.
  split; [|intros k; by eapply pair_start_refused]. destruct He' as [Hdb (row & Hrow & Hc)]. exists row.
  split_and!; [done|done|]. destruct (to_rows _ Hdb _ _ Hrow) as [Hs _]. unfold snapshot_ok, progress_ok in Hs.
  rewrite Hc in Hs. destruct (dp_state (rw_snapshot row)); intuition discriminate.
Qed.
End runs.

(** ** A run *)

Module DemoNormalizer.
#[local] Existing Instance DemoSha.sha.
#[local] Existing Instance DemoManifest.serializer.
Local Open Scope string_scope.

Definition spec : DerivationSpec :=
  mkDerivationSpec "job-1" (mkSubject "device" "sess-1") DemoManifest.source (from_material "sha256:" [])
    DemoManifest.profile DemoManifest.encoder DemoPlan.input "2024-01-02T00:00:00Z".

(** A serializer that knows one request. *)
Definition request (s : DerivedSubject) (l : LocalSourceReceipt) (d : SourceManifestDigest) (p : NormalizationProfile)
    (b : EncoderBuild) (i : NormalizationInput) : result string (list byte) :=
  if decide (mkDerivationSpec "job-1" s l d p b i "2024-01-02T00:00:00Z" = spec) then Ok [Byte.x03] else Err "unknown".

Lemma request_inj s l d p e i s' l' d' p' e' i' text :
  request s l d p e i = Ok text -> request s' l' d' p' e' i' = Ok text ->
  s = s' /\ l = l' /\ d = d' /\ p = p' /\ e = e' /\ i = i'.
Proof.
  unfold request. case_decide as H1; [|done]. case_decide as H2; [|done]. intros _ _. rewrite <- H2 in H1. by injection H1.
Qed.

#[global] Instance requests : DerivationText :=
  {| derivation_text := request; derivation_text_inj := request_inj |}.

Definition statistics (p : SegmentPairPlan) : EncoderStatistics := mkStatistics (sp_frame_count p) (sp_duration_ticks p) 1 1 None.
Definition no_reap : ProcessReapReport := [].

(** The ports of a machine on which everything works, but that the next encoding is stopped when the world says so. *)
#[global] Instance machine : NormalizerPorts := {|
  World := bool;
  now_rfc3339 w := (w, "2024-01-02T00:00:00Z");
  enqueue_job _ w := (w, Ok tt);
  wait_until_idle _ w := (w, true);
  acquire_shared _ _ w := (w, Ok tt);
  assert_current w := (w, Ok tt);
  prepare_job _ w := (w, Ok tt);
  verify_checkpoint _ _ w := (w, Ok tt);
  recover_uncheckpointed_pair _ _ w := (w, Ok None);
  prepare_pair _ _ w := (w, Ok (["left.partial.mp4"], ["right.partial.mp4"]));
  discard_pair _ _ w := (w, Ok tt);
  publish_validated_pair _ _ _ _ w := (w, Ok (mkPublished "pairs/0" "receipt"));
  commit_derivative _ _ _ m w :=
    (w, Ok (mkCommitEvidence (to_hex (sha256 (mf_canonical_bytes m))) (to_hex (sha256 [])) "derived/1" "commit"));
  encoder_build := DemoManifest.encoder;
  probe_media _ _ _ w := (w, Completed DemoPlan.report no_reap);
  encode_segment_pair r _ w :=
    if w then (false, Stopped StopShutdown no_reap)
    else match from_request r (statistics (er_pair_plan r)) with
         | Ok encoded => (w, Completed encoded no_reap)
         | Err _ => (w, Stopped StopShutdown no_reap)
         end;
  analyze_segment_pair _ _ _ w := (w, Completed (DemoManifest.quality EyeLeft, DemoManifest.quality EyeRight) no_reap);
  validate_segment_pair r _ w :=
    match evaluate (sv_pair_plan r) (sv_profile r) (DemoManifest.output (sv_pair_plan r) EyeLeft)
            (DemoManifest.output (sv_pair_plan r) EyeRight) (sv_left_quality r) (sv_right_quality r) with
    | Ok report => (w, Completed report no_reap)
    | Err _ => (w, Stopped StopShutdown no_reap)
    end;
  inventory_text _ := [];
|}.

Definition job : string := "job-1".
Definition started (stops : bool) : Executor := (start_derivation spec (new_executor stops)).1.
Definition finished : Executor := (run_one 20 job (started false)).1.
Definition interrupted : Executor := (run_one 20 job (started true)).1.
Definition restarted : Executor := (run_one 20 job (mkExecutor (ex_db interrupted) ∅ false false)).1.

(** The fuel of five stages ends before the validation; a pause there sends the job back to its plan. *)
Definition paused : Executor := (command_derivation job DcPause (run_one 5 job (started false)).1).1.
Definition resumed : Executor := (run_one 20 job (command_derivation job DcResume paused).1).1.
Definition cancelled : Executor := (command_derivation job DcCancel (started false)).1.

Definition stored (e : Executor) : option (DerivationJobState * option N * nat) :=
  row ← db_jobs (ex_db e) !! job;
  let s := rw_snapshot row in Some (dp_state s, dp_current_pair s, length (dp_checkpoints s)).

Lemma stored_row e state current n :
  stored e = Some (state, current, n) ->
  exists row, db_jobs (ex_db e) !! job = Some row /\ dp_state (rw_snapshot row) = state /\
    dp_current_pair (rw_snapshot row) = current.
Proof.
  unfold stored. destruct (db_jobs (ex_db e) !! job) as [row|]; [|done]. intros [= <- <- _]. by exists row.
Qed.

Lemma finished_state : stored finished = Some (DsDerivedVerified, None, 2).
Proof. vm_compute. reflexivity. Qed.
Lemma interrupted_state : stored interrupted = Some (DsEncoding, Some 0%N, 0).
Proof. vm_compute. reflexivity. Qed.

Lemma reach_started stops : reachable (started stops).
Proof. exists stops. apply rtc_once, mv_start. Qed.
Lemma run_finished : executor_move (started false) finished.
Proof. unfold finished. apply mv_run. Qed.
Lemma reach_finished : reachable finished.
Proof. exists false. eapply rtc_r; [apply rtc_once, mv_start|apply run_finished]. Qed.
Lemma reach_interrupted : reachable interrupted.
Proof. exists true. unfold interrupted. eapply rtc_r; [apply rtc_once, mv_start|apply mv_run]. Qed.
Lemma moves_restarted : rtc whole_move interrupted restarted.
Proof. unfold restarted. eapply rtc_l; [apply (wm_world _ ∅ false (false : World (NormalizerPorts := machine)))|apply rtc_once, wm_run]. Qed.

(** A pause during the validation: the job goes back to encode pairs of which none is left, reports a failure that
    cannot be stored, and stays. *)
Example replanned_job_is_stuck :
  stored (run_one 5 job (started false)).1 = Some (DsValidating, None, 2) /\
  stored resumed = Some (DsEncoding, None, 2) /\ stored (run_one 20 job resumed).1 = Some (DsEncoding, None, 2) /\
  is_ok (run_one 20 job resumed).2 = false.
Proof. vm_compute. done. Qed.

(** A cancellation: the answer is an error, and the job is cancelling for ever. *)
Example cancellation_is_stuck :
  is_ok (command_derivation job DcCancel (started false)).2 = false /\ stored cancelled = Some (DsCancelling, None, 0) /\
  stored (run_one 20 job cancelled).1 = Some (DsCancelling, None, 0).
Proof. vm_compute. done. Qed.
End DemoNormalizer.

#[local] Existing Instance DemoSha.sha.
#[local] Existing Instance DemoManifest.serializer.

Lemma derivation_tables_only_advance_witness :
  advances (ex_db (DemoNormalizer.started false)) (ex_db DemoNormalizer.finished) /\
  DemoNormalizer.stored DemoNormalizer.finished = Some (DsDerivedVerified, None, 2).
Proof.
  destruct (derivation_tables_only_advance _ DemoNormalizer.finished (DemoNormalizer.reach_started false)) as (_ & _ & Ha).
  - apply rtc_once, DemoNormalizer.run_finished.
  - split; [exact Ha|exact DemoNormalizer.finished_state].
Defined.

Lemma stored_success_is_whole_witness :
  exists row, db_jobs (ex_db DemoNormalizer.finished) !! DemoNormalizer.job = Some row /\
    whole_success (ex_db DemoNormalizer.finished) DemoNormalizer.job (rw_snapshot row).
Proof.
  destruct (DemoNormalizer.stored_row _ _ _ _ DemoNormalizer.finished_state) as (row & Hr & Hs & _). exists row.
  split; [exact Hr|]. exact (stored_success_is_whole _ _ row DemoNormalizer.reach_finished Hr Hs).
Defined.

Lemma failed_and_cancelled_never_stored_witness :
  exists row, db_jobs (ex_db DemoNormalizer.interrupted) !! DemoNormalizer.job = Some row /\
    dp_state (rw_snapshot row) <> DsCancelled.
Proof.
  destruct (DemoNormalizer.stored_row _ _ _ _ DemoNormalizer.interrupted_state) as (row & Hr & _). exists row.
  split; [exact Hr|]. exact (proj1 (failed_and_cancelled_never_stored _ _ row DemoNormalizer.reach_interrupted Hr)).
Defined.

Lemma interrupted_pair_is_never_resumed_witness :
  exists err, report DemoNormalizer.job (PairStarted 0) DemoNormalizer.restarted = (DemoNormalizer.restarted, Err err).
Proof.
  refine (proj2 (interrupted_pair_is_never_resumed DemoNormalizer.job 0 DemoNormalizer.interrupted _
    DemoNormalizer.reach_interrupted _ DemoNormalizer.moves_restarted) 0%N).
  destruct (DemoNormalizer.stored_row _ _ _ _ DemoNormalizer.interrupted_state) as (row & Hr & _ & Hc). exists row. exact (conj Hr Hc).
Defined.
