(* ===== verification/Leases.v ===== *)
(** * Leases: shared and exclusive leases of sealed revisions (media_store/leases.rs, media_library/lease.rs)

Readers of a sealed tree hold it shared, publishers and the local clean-up hold
it exclusively.  A lease has an expiry in the caller's clock and a fencing token
that its revision's epoch numbers.  A transaction returns the new tables, or an
error that leaves the old ones. *)

From Stdlib Require Import NArith Lia Ascii String.
From stdpp Require Import base numbers list strings gmap sorting.
From S2P Require Import Prelude Domain Files Json Ingest Rational Profile MediaPlan Validation Manifest.
From S2P Require Import MediaStore.

Local Open Scope string_scope.

(** [LibraryRevisionKind] (media_store/model.rs:133-136). *)
Inductive LibraryRevisionKind := KindSource | KindDerived.

(** [LibraryLeaseMode] (media_store/model.rs:157-160). *)
Inductive LibraryLeaseMode := Shared | Exclusive.

#[global] Instance LibraryRevisionKind_eq_dec : EqDecision LibraryRevisionKind.
Proof. solve_decision. Defined.
#[global] Instance LibraryLeaseMode_eq_dec : EqDecision LibraryLeaseMode.
Proof. solve_decision. Defined.
#[global] Program Instance LibraryRevisionKind_countable : Countable LibraryRevisionKind :=
  inj_countable' (fun k => match k with KindSource => true | KindDerived => false end)
    (fun b : bool => if b then KindSource else KindDerived) _.
Next Obligation. by intros []. Qed.

(** [LibraryRevisionLease] (media_store/model.rs:185-195). *)
Record LibraryRevisionLease := mkLease {
  ll_lease_id : string;
  ll_revision_kind : LibraryRevisionKind;
  ll_revision_id : string;
  ll_owner_id : string;
  ll_mode : LibraryLeaseMode;
  ll_fencing_token : N;
  ll_acquired_at : string;
  ll_updated_at : string;
  ll_expires_at_ms : N;
}.

#[global] Instance LibraryRevisionLease_eq_dec : EqDecision LibraryRevisionLease.
Proof. solve_decision. Defined.

(** [AcquireLibraryLease] (media_store/model.rs:198-207). *)
Record AcquireLibraryLease := mkAcquire {
  al_lease_id : string;
  al_revision_kind : LibraryRevisionKind;
  al_revision_id : string;
  al_owner_id : string;
  al_mode : LibraryLeaseMode;
  al_now : string;
  al_now_ms : N;
  al_expires_at_ms : N;
}.

(** [AcquireLeaseOutcome] (media_store/model.rs:210-214). *)
Inductive AcquireLeaseOutcome :=
| LeaseAcquired (lease : LibraryRevisionLease)
| LeaseExisting (lease : LibraryRevisionLease)
| LeaseConflict (conflicts : list LibraryRevisionLease).

(** [ReleaseLeaseOutcome] (media_store/model.rs:217-221). *)
Inductive ReleaseLeaseOutcome := LeaseReleased | LeaseAlreadyReleased | LeaseOwnershipLost.

Definition Revision : Type := LibraryRevisionKind * string.

(** [media_library_lease_epochs, media_library_revision_leases] (media_store/schema.rs:249-269), the leases
    by their primary key. *)
Record LeaseDb := mkLeaseDb {
  ls_epochs : gmap Revision N;
  ls_leases : gmap string LibraryRevisionLease;
}.

Definition revision_of (l : LibraryRevisionLease) : Revision := (ll_revision_kind l, ll_revision_id l).
Definition requested (r : AcquireLibraryLease) : Revision := (al_revision_kind r, al_revision_id r).
Definition lease_conflict {A} (detail : string) : result MediaStoreError A := Err (MsConflict detail).

(** [read_lease] (media_store/leases.rs:325-346), [read_lease_row]: a row is the lease. *)
Definition read_lease (db : LeaseDb) (lease_id : string) : option LibraryRevisionLease := ls_leases db !! lease_id.

(** [validate_request] (media_store/leases.rs:247-258). *)
Definition validate_request (r : AcquireLibraryLease) : result MediaStoreError unit :=
  let? _ := require_non_empty (al_lease_id r) "lease_id" in
  let? _ := require_non_empty (al_revision_id r) "revision_id" in
  let? _ := require_non_empty (al_owner_id r) "owner_id" in
  let? _ := require_non_empty (al_now r) "now" in
  if (al_expires_at_ms r <=? al_now_ms r)%N then lease_conflict "lease expiry must be after now" else Ok tt.

(** [delete_expired_for_revision] (media_store/leases.rs:260-276). *)
Definition delete_expired_for_revision (db : LeaseDb) (revision : Revision) (now_ms : N) : result MediaStoreError LeaseDb :=
  let? now_ms := checked_i64 now_ms "now_ms" in
  Ok (mkLeaseDb (ls_epochs db)
        (filter (fun '(_, l) => negb (bool_decide (revision_of l = revision) && (ll_expires_at_ms l <=? now_ms)%N))
           (ls_leases db))).

Definition by_token (a b : LibraryRevisionLease) : Prop :=
  Is_true ((ll_fencing_token a <? ll_fencing_token b)%N
           || ((ll_fencing_token a =? ll_fencing_token b)%N && String.leb (ll_lease_id a) (ll_lease_id b))).
#[global] Instance by_token_dec : RelDecision by_token.
Proof. intros a b. unfold by_token. apply _. Defined.

(** [read_active_leases] (media_store/leases.rs:295-323). *)
Definition read_active_leases (db : LeaseDb) (revision : Revision) (now_ms : N)
    : result MediaStoreError (list LibraryRevisionLease) :=
  let? now_ms := checked_i64 now_ms "now_ms" in
  Ok (merge_sort by_token
        (List.filter (fun l => bool_decide (revision_of l = revision) && (now_ms <? ll_expires_at_ms l)%N)
           (map snd (map_to_list (ls_leases db))))).

Definition modes_conflict (a b : LibraryLeaseMode) : bool :=
  match a, b with Shared, Shared => false | _, _ => true end.

(** [active_conflicts] (media_store/leases.rs:278-293). *)
Definition active_conflicts (db : LeaseDb) (revision : Revision) (requested_mode : LibraryLeaseMode) (now_ms : N)
    : result MediaStoreError (list LibraryRevisionLease) :=
  let? active := read_active_leases db revision now_ms in
  Ok (List.filter (fun l => modes_conflict requested_mode (ll_mode l)) active).

Definition same_request (l : LibraryRevisionLease) (r : AcquireLibraryLease) : bool :=
  bool_decide (revision_of l = requested r) && String.eqb (ll_owner_id l) (al_owner_id r)
  && bool_decide (ll_mode l = al_mode r) && (ll_expires_at_ms l =? al_expires_at_ms r)%N.

(** The UNIQUE index on the revision and the token. *)
Definition token_taken (db : LeaseDb) (revision : Revision) (token : N) : bool :=
  existsb (fun '(_, l) => bool_decide (revision_of l = revision) && (ll_fencing_token l =? token)%N) (map_to_list (ls_leases db)).

(** [MediaStore::acquire_library_revision_lease] (media_store/leases.rs:16-120). *)
Definition acquire_library_revision_lease (db : LeaseDb) (r : AcquireLibraryLease)
    : result MediaStoreError (LeaseDb * AcquireLeaseOutcome) :=
  let? _ := validate_request r in
  let? db := delete_expired_for_revision db (requested r) (al_now_ms r) in
  match read_lease db (al_lease_id r) with
  | Some existing =>
      if same_request existing r then Ok (db, LeaseExisting existing)
      else lease_conflict "lease id is already bound to another request"
  | None =>
      let? conflicts := active_conflicts db (requested r) (al_mode r) (al_now_ms r) in
      match conflicts with
      | _ :: _ => Ok (db, LeaseConflict conflicts)
      | [] =>
          let last := default 0%N (ls_epochs db !! requested r) in
          if (i64_max <=? last)%N then lease_conflict "fencing token range exhausted" else
          let token := (last + 1)%N in
          let? stored_token := checked_i64 token "fencing_token" in
          let? expires_at_ms := checked_i64 (al_expires_at_ms r) "expires_at_ms" in
          if token_taken db (requested r) token then Err (MsSqlite "fencing_token is unique") else
          let lease := mkLease (al_lease_id r) (al_revision_kind r) (al_revision_id r) (al_owner_id r) (al_mode r)
                         stored_token (al_now r) (al_now r) expires_at_ms in
          let db := mkLeaseDb (<[requested r := token]> (ls_epochs db)) (<[al_lease_id r := lease]> (ls_leases db)) in
          let? lease := ok_or (read_lease db (al_lease_id r)) (MsNotFound "lease vanished after insertion") in
          Ok (db, LeaseAcquired lease)
      end
  end.

Definition owned (l : LibraryRevisionLease) (owner_id : string) (fencing_token : N) : bool :=
  String.eqb (ll_owner_id l) owner_id && (ll_fencing_token l =? fencing_token)%N.

(** [MediaStore::renew_library_revision_lease] (media_store/leases.rs:125-166). *)
Definition renew_library_revision_lease (db : LeaseDb) (lease_id owner_id : string) (fencing_token : N) (now : string)
    (now_ms expires_at_ms : N) : result MediaStoreError (LeaseDb * LibraryRevisionLease) :=
  let? _ := require_non_empty lease_id "lease_id" in
  let? _ := require_non_empty owner_id "owner_id" in
  let? _ := require_non_empty now "now" in
  if (expires_at_ms <=? now_ms)%N then lease_conflict "renewed lease expiry must be after now" else
  let? fencing_token := checked_i64 fencing_token "fencing_token" in
  let? expires_at_ms := checked_i64 expires_at_ms "expires_at_ms" in
  let? now_ms := checked_i64 now_ms "now_ms" in
  match read_lease db lease_id with
  | Some l =>
      if owned l owner_id fencing_token && (now_ms <? ll_expires_at_ms l)%N then
        let l := mkLease (ll_lease_id l) (ll_revision_kind l) (ll_revision_id l) (ll_owner_id l) (ll_mode l)
                   (ll_fencing_token l) (ll_acquired_at l) now expires_at_ms in
        Ok (mkLeaseDb (ls_epochs db) (<[lease_id := l]> (ls_leases db)), l)
      else lease_conflict "lease is expired or no longer owned by the fencing token"
  | None => lease_conflict "lease is expired or no longer owned by the fencing token"
  end.

(** [MediaStore::release_library_revision_lease] (media_store/leases.rs:168-193). *)
Definition release_library_revision_lease (db : LeaseDb) (lease_id owner_id : string) (fencing_token : N)
    : result MediaStoreError (LeaseDb * ReleaseLeaseOutcome) :=
  let? _ := require_non_empty lease_id "lease_id" in
  let? _ := require_non_empty owner_id "owner_id" in
  let? fencing_token := checked_i64 fencing_token "fencing_token" in
  match read_lease db lease_id with
  | Some l =>
      if owned l owner_id fencing_token
      then Ok (mkLeaseDb (ls_epochs db) (delete lease_id (ls_leases db)), LeaseReleased)
      else Ok (db, LeaseOwnershipLost)
  | None => Ok (db, LeaseAlreadyReleased)
  end.

(** [MediaStore::assert_library_revision_lease] (media_store/leases.rs:196-219). *)
Definition assert_library_revision_lease (db : LeaseDb) (lease_id owner_id : string) (fencing_token : N)
    (required_mode : LibraryLeaseMode) (now_ms : N) : result MediaStoreError LibraryRevisionLease :=
  match read_lease db lease_id with
  | None => lease_conflict "lease no longer exists"
  | Some l =>
      if negb (owned l owner_id fencing_token) || negb (bool_decide (ll_mode l = required_mode))
         || (ll_expires_at_ms l <=? now_ms)%N
      then lease_conflict "ownership or fencing check failed" else Ok l
  end.

(** [MediaStore::purge_expired_library_revision_leases] (media_store/leases.rs:230-244). *)
Definition purge_expired_library_revision_leases (db : LeaseDb) (now_ms : N) : result MediaStoreError (LeaseDb * N) :=
  let? now_ms := checked_i64 now_ms "now_ms" in
  let kept := filter (fun '(_, l) => (now_ms < ll_expires_at_ms l)%N) (ls_leases db) in
  Ok (mkLeaseDb (ls_epochs db) kept, N.of_nat (size (ls_leases db) - size kept)).

(** [LibraryRevisionLeasePort::consume_revision_lease] (media_library/lease.rs:82-111). *)
Definition consume_revision_lease (db : LeaseDb) (lease_id owner_id : string) (fencing_token : N)
    (required_kind : LibraryRevisionKind) (required_revision : string) (required_mode : LibraryLeaseMode) (now_ms : N)
    : result MediaStoreError LibraryRevisionLease :=
  let? lease := assert_library_revision_lease db lease_id owner_id fencing_token required_mode now_ms in
  if negb (bool_decide (ll_revision_kind lease = required_kind)) || negb (String.eqb (ll_revision_id lease) required_revision)
  then lease_conflict "lease targets another revision" else Ok lease.

(** ** Holders *)

(** [MediaStoreSourceReadLease] (media_normalizer/store.rs:265-272), and [MediaStoreSourcePublishLease] of the
    ingestor with the other mode. *)
Record LeaseHolder := mkHolder {
  lh_lease_id : string;
  lh_owner_id : string;
  lh_fencing_token : N;
  lh_expires_at_ms : N;
  lh_ttl_ms : N;
}.

(** [MediaStoreSourceReadLeases::acquire_shared] (media_normalizer/store.rs:219-262): the name
    holds a fresh UUID; [None] is a busy revision. *)
Definition acquire_holder (db : LeaseDb) (mode : LibraryLeaseMode) (prefix uuid source_revision owner_id : string)
    (ttl_ms now_ms : N) : result MediaStoreError (LeaseDb * option LeaseHolder) :=
  let lease_id := prefix ++ owner_id ++ "-" ++ uuid in
  let request := mkAcquire lease_id KindSource source_revision owner_id mode (dec now_ms) now_ms
                   (u64_sat_add now_ms ttl_ms) in
  let? (db, outcome) := acquire_library_revision_lease db request in
  match outcome with
  | LeaseAcquired l | LeaseExisting l =>
      Ok (db, Some (mkHolder (ll_lease_id l) (ll_owner_id l) (ll_fencing_token l) (ll_expires_at_ms l) ttl_ms))
  | LeaseConflict _ => Ok (db, None)
  end.

(** [MediaStoreSourceReadLease::assert_current] (media_normalizer/store.rs:275-302): renewed when a third of
    its time is left. *)
Definition holder_assert_current (db : LeaseDb) (mode : LibraryLeaseMode) (h : LeaseHolder) (now_ms : N)
    : result MediaStoreError (LeaseDb * LeaseHolder) :=
  if (lh_expires_at_ms h <=? u64_sat_add now_ms (lh_ttl_ms h / 3))%N then
    let? (db, renewed) := renew_library_revision_lease db (lh_lease_id h) (lh_owner_id h) (lh_fencing_token h) (dec now_ms)
                            now_ms (u64_sat_add now_ms (lh_ttl_ms h)) in
    Ok (db, mkHolder (lh_lease_id h) (lh_owner_id h) (lh_fencing_token h) (ll_expires_at_ms renewed) (lh_ttl_ms h))
  else
    let? _ := assert_library_revision_lease db (lh_lease_id h) (lh_owner_id h) (lh_fencing_token h) mode now_ms in
    Ok (db, h).

(** [MediaStoreSourceReadLease::drop] (media_normalizer/store.rs:306-312). *)
Definition holder_drop (db : LeaseDb) (h : LeaseHolder) : LeaseDb :=
  match release_library_revision_lease db (lh_lease_id h) (lh_owner_id h) (lh_fencing_token h) with
  | Ok (db, _) => db
  | Err _ => db
  end.
