(* ===== verification/LeasesProofs.v ===== *)
(** * LeasesProofs: an exclusive lease excludes, and an old token is fenced

The invariant of the lease tables holds whatever clocks the callers have: it
speaks of the rows, not of the time, since every expired row of a revision is
deleted before a new one of it is inserted. *)

From Stdlib Require Import NArith Lia Ascii String.
From stdpp Require Import base numbers list strings gmap sorting relations.
From S2P Require Import Prelude Domain Files Json Ingest Rational Profile MediaPlan Validation Manifest.
From S2P Require Import MediaStore Leases.

Local Open Scope string_scope.

Definition empty_leases : LeaseDb := mkLeaseDb ∅ ∅.

(** A transaction of any process. *)
Inductive lease_step (db : LeaseDb) : LeaseDb -> Prop :=
| ls_acquire r db' outcome : acquire_library_revision_lease db r = Ok (db', outcome) -> lease_step db db'
| ls_renew id owner token now now_ms expires db' l :
    renew_library_revision_lease db id owner token now now_ms expires = Ok (db', l) -> lease_step db db'
| ls_release id owner token db' outcome :
    release_library_revision_lease db id owner token = Ok (db', outcome) -> lease_step db db'
| ls_purge now_ms db' n : purge_expired_library_revision_leases db now_ms = Ok (db', n) -> lease_step db db'.

Record leases_ok (db : LeaseDb) : Prop := {
  lk_ids : forall id l, ls_leases db !! id = Some l -> ll_lease_id l = id;
  lk_epochs : forall id l, ls_leases db !! id = Some l -> exists n, ls_epochs db !! revision_of l = Some n /\
    (ll_fencing_token l <= n)%N;
  lk_tokens : forall id id' l l', ls_leases db !! id = Some l -> ls_leases db !! id' = Some l' ->
    revision_of l = revision_of l' -> ll_fencing_token l = ll_fencing_token l' -> id = id';
  lk_modes : forall id id' l l', ls_leases db !! id = Some l -> ls_leases db !! id' = Some l' ->
    revision_of l = revision_of l' -> id <> id' -> modes_conflict (ll_mode l) (ll_mode l') = false;
}.

(** What of a lease never changes. *)
Definition same_lease (a b : LibraryRevisionLease) : Prop :=
  ll_lease_id a = ll_lease_id b /\ revision_of a = revision_of b /\ ll_owner_id a = ll_owner_id b /\
  ll_mode a = ll_mode b /\ ll_fencing_token a = ll_fencing_token b.

#[global] Instance same_lease_equivalence : Equivalence same_lease.
Proof. unfold same_lease. constructor; repeat intro; repeat match goal with H : _ /\ _ |- _ => destruct H end; split_and!; congruence. Qed.

(** Epochs only grow; every lease is an old one or has a token that its revision had not given out. *)
Record fences (db db' : LeaseDb) : Prop := {
  fn_epochs : forall revision, (default 0 (ls_epochs db !! revision) <= default 0 (ls_epochs db' !! revision))%N;
  fn_leases : forall id l', ls_leases db' !! id = Some l' ->
    (exists l, ls_leases db !! id = Some l /\ same_lease l l') \/
    (default 0 (ls_epochs db !! revision_of l') < ll_fencing_token l')%N;
}.

(** ** Tables with fewer rows *)

(** The same leases, some of them gone and some with another expiry. *)
Definition thinned (db db' : LeaseDb) : Prop :=
  ls_epochs db' = ls_epochs db /\
  forall id l', ls_leases db' !! id = Some l' -> exists l, ls_leases db !! id = Some l /\ same_lease l l'.

Lemma thinned_ok db db' : leases_ok db -> thinned db db' -> leases_ok db' /\ fences db db'.
Proof.
  intros Hdb [He Hl]. split; [constructor|constructor].
  - intros id l' (l & Hr & Hs)%Hl. rewrite <- (lk_ids _ Hdb _ _ Hr). symmetry. apply Hs.
  - intros id l' (l & Hr & Hs)%Hl. rewrite He. destruct Hs as (_ & <- & _ & _ & <-). by apply (lk_epochs _ Hdb id).
  - intros id id' l l' (a & Ha & Hs)%Hl (b & Hb & Ht)%Hl Hr Hk. destruct Hs as (_ & Es & _ & _ & Et), Ht as (_ & Es' & _ & _ & Et').
    apply (lk_tokens _ Hdb id id' a b); [done|done|congruence..].
  - intros id id' l l' (a & Ha & Hs)%Hl (b & Hb & Ht)%Hl Hr Hne. destruct Hs as (_ & Es & _ & <- & _), Ht as (_ & Es' & _ & <- & _).
    apply (lk_modes _ Hdb id id'); [done|done|congruence|done].
  - intros revision. by rewrite He.
  - intros id l' Hr. left. by apply Hl.
Qed.

Lemma filter_thinned db P `{forall x : string * LibraryRevisionLease, Decision (P x)} :
  thinned db (mkLeaseDb (ls_epochs db) (filter P (ls_leases db))).
Proof.
  split; [done|]. cbn. intros id l' [Hr _]%map_lookup_filter_Some. by exists l'.
Qed.

Lemma fences_refl db : fences db db.
Proof. constructor; [done|]. intros id l Hl. left. by exists l. Qed.

Lemma fences_trans a b c : fences a b -> fences b c -> fences a c.
Proof.
  intros [A1 A2] [B1 B2]. constructor; [intros r; etrans; [apply A1|apply B1]|]. intros id l Hl.
  destruct (B2 _ _ Hl) as [(m & Hm & Hs)|Hk].
  - destruct (A2 _ _ Hm) as [(k & Hk & Hs')|Hk]; [left; exists k; split; [done|by etrans]|]. right.
    destruct Hs as (_ & <- & _ & _ & <-). done.
  - right. specialize (A1 (revision_of l)). lia.
Qed.

(** ** Acquisition *)

Lemma lease_i64_ok n field m : checked_i64 n field = Ok m -> m = n /\ (n <= i64_max)%N.
Proof. unfold checked_i64. destruct (N.leb_spec n i64_max); [|done]. intros [= <-]. by split. Qed.

(** An insertion finds no row of its revision that its mode conflicts with: the expired are gone and the others active. *)
Lemma no_conflict_rows db revision mode now_ms db1 :
  delete_expired_for_revision db revision now_ms = Ok db1 -> active_conflicts db1 revision mode now_ms = Ok [] ->
  forall id l, ls_leases db1 !! id = Some l -> revision_of l = revision -> modes_conflict mode (ll_mode l) = false.
Proof.
  unfold delete_expired_for_revision, active_conflicts, read_active_leases. rewrite rbind_ok.
  intros (n & [-> _]%lease_i64_ok & [= <-]). rewrite rbind_ok. intros (active & Ha & Hc).
  apply rbind_ok in Ha as (m & [-> _]%lease_i64_ok & [= <-]). injection Hc as Hc. intros id l Hl Hr.
  assert (Hin := Hl). cbn in Hin. apply map_lookup_filter_Some in Hin as [_ Hlive].
  destruct (modes_conflict mode (ll_mode l)) eqn:E; [|done]. exfalso.
  rewrite bool_decide_true in Hlive by done. cbn in Hlive. destruct (N.leb_spec (ll_expires_at_ms l) now_ms); [done|].
  assert (Hf : In l []); [|done]. rewrite <- Hc. apply filter_In. split; [|done].
  apply list_elem_of_In. rewrite merge_sort_Permutation. apply list_elem_of_In, filter_In. split.
  - apply list_elem_of_In, list_elem_of_fmap. exists (id, l). split; [done|]. by apply elem_of_map_to_list.
  - rewrite bool_decide_true by done. apply N.ltb_lt. lia.
Qed.

Lemma delete_expired_thinned db revision now_ms db1 :
  delete_expired_for_revision db revision now_ms = Ok db1 -> thinned db db1.
Proof.
  unfold delete_expired_for_revision. rewrite rbind_ok. intros (n & _ & [= <-]). apply filter_thinned.
Qed.

(** What an acquisition does. *)
Lemma acquire_ok db r db' outcome :
  acquire_library_revision_lease db r = Ok (db', outcome) ->
  exists db1, thinned db db1 /\
    match outcome with
    | LeaseAcquired l =>
        ll_lease_id l = al_lease_id r /\ revision_of l = requested r /\ ll_owner_id l = al_owner_id r /\ ll_mode l = al_mode r /\
        ll_fencing_token l = (default 0 (ls_epochs db1 !! requested r) + 1)%N /\ ls_leases db1 !! al_lease_id r = None /\
        (forall id l', ls_leases db1 !! id = Some l' -> revision_of l' = requested r -> modes_conflict (al_mode r) (ll_mode l') = false) /\
        db' = mkLeaseDb (<[requested r := ll_fencing_token l]> (ls_epochs db1)) (<[al_lease_id r := l]> (ls_leases db1))
    | _ => db' = db1
    end.
Proof.
  unfold acquire_library_revision_lease. rewrite rbind_ok. intros (u & _ & Hr). revert Hr.
  rewrite rbind_ok. intros (db1 & Hd & Hr). revert Hr. assert (Ht := delete_expired_thinned _ _ _ _ Hd).
  unfold read_lease. destruct (ls_leases db1 !! al_lease_id r) as [l|] eqn:El.
  { destruct (same_request _ _); [|done]. intros [= <- <-]. by exists db1. }
  rewrite rbind_ok. intros ([|c cs] & Hc & Hr); revert Hr; [|intros [= <- <-]; by exists db1].
  destruct (_ <=? _)%N; [done|]. rewrite rbind_ok. intros (token & [-> _]%lease_i64_ok & Hr). revert Hr.
  rewrite rbind_ok. intros (expires & _ & Hr). revert Hr. destruct (token_taken _ _ _); [done|]. cbn.
  rewrite lookup_insert_eq. cbn. intros [= <- <-]. exists db1. split; [done|]. cbn. split_and!; try done.
  by eapply no_conflict_rows.
Qed.

Lemma modes_conflict_sym a b : modes_conflict a b = modes_conflict b a.
Proof. by destruct a, b. Qed.

Lemma lease_step_ok db db' : leases_ok db -> lease_step db db' -> leases_ok db' /\ fences db db'.
Proof.
  intros Hdb. destruct 1 as [r db' outcome E|id owner token now now_ms expires db' l E|id owner token db' outcome E|now_ms db' n E].
  - destruct (acquire_ok _ _ _ _ E) as (db1 & Ht & Ho). destruct (thinned_ok _ _ Hdb Ht) as [H1 F1].
    destruct outcome as [l|l|cs]; [|by subst..]. destruct Ho as (Hid & Hrev & _ & Hmode & Htok & Hnone & Hfree & ->).
    assert (Hnew : forall id l', ls_leases db1 !! id = Some l' -> revision_of l' = revision_of l -> (ll_fencing_token l' < ll_fencing_token l)%N).
    { intros id l' Hl' Hr. destruct (lk_epochs _ H1 _ _ Hl') as (n & Hn & Hle). rewrite Hr, Hrev in Hn. rewrite Htok, Hn. cbn. lia. }
    split; [constructor|eapply fences_trans; [exact F1|constructor]]; cbn.
    + intros id l' [[<- <-]|[_ Hl']]%lookup_insert_Some; [done|by apply (lk_ids _ H1)].
    + intros id l' [[<- <-]|[_ Hl']]%lookup_insert_Some; [exists (ll_fencing_token l); by rewrite Hrev, lookup_insert_eq|].
      destruct (lk_epochs _ H1 _ _ Hl') as (n & Hn & Hle). destruct (decide (revision_of l' = requested r)) as [Eq|Hne].
      * exists (ll_fencing_token l). rewrite Eq, lookup_insert_eq. split; [done|]. apply N.lt_le_incl, (Hnew id); [done|congruence].
      * exists n. by rewrite lookup_insert_ne.
    + intros id id' a b [[<- <-]|[_ Ha]]%lookup_insert_Some [[<- <-]|[_ Hb]]%lookup_insert_Some Hr Hk; [done|..|by eapply lk_tokens].
      * assert (Hlt := Hnew _ _ Hb (eq_sym Hr)). lia.
      * assert (Hlt := Hnew _ _ Ha Hr). lia.
    + intros id id' a b [[<- <-]|[_ Ha]]%lookup_insert_Some [[<- <-]|[_ Hb]]%lookup_insert_Some Hr Hne; [done|..|by eapply lk_modes].
      * rewrite Hmode. apply (Hfree id'); [done|congruence].
      * rewrite modes_conflict_sym, Hmode. apply (Hfree id); [done|congruence].
    + intros revision. destruct (decide (revision = requested r)) as [->|Hne]; [rewrite lookup_insert_eq; cbn; lia|by rewrite lookup_insert_ne].
    + intros id l' [[<- <-]|[_ Hl']]%lookup_insert_Some; [right; rewrite Hrev; lia|left; by exists l'].
  - apply thinned_ok; [done|]. revert E. unfold renew_library_revision_lease, read_lease.
    do 3 (rewrite rbind_ok; intros (? & _ & Hr); revert Hr). destruct (_ <=? _)%N; [done|].
    do 3 (rewrite rbind_ok; intros (? & _ & Hr); revert Hr). destruct (ls_leases db !! id) as [m|] eqn:Em; [|done].
    destruct (_ && _); [|done]. intros [= <- _]. split; [done|]. cbn.
    intros i l' [[<- <-]|[_ Hl']]%lookup_insert_Some; [by exists m|by exists l'].
  - apply thinned_ok; [done|]. revert E. unfold release_library_revision_lease, read_lease.
    do 3 (rewrite rbind_ok; intros (? & _ & Hr); revert Hr). destruct (ls_leases db !! id) as [m|]; [|intros [= <- _]; split; [done|by eexists]].
    destruct (owned _ _ _); intros [= <- _]; (split; [done|]); cbn; [|by eexists].
    intros i l' [_ Hl']%lookup_delete_Some. by exists l'.
  - apply thinned_ok; [done|]. revert E. unfold purge_expired_library_revision_leases. rewrite rbind_ok.
    intros (m & _ & [= <- _]). apply filter_thinned.
Qed.

Lemma lease_steps_ok db db' : rtc lease_step db db' -> leases_ok db -> leases_ok db' /\ fences db db'.
Proof.
  induction 1 as [db|db db1 db2 H1 _ IH]; intros Hdb; [split; [done|apply fences_refl]|].
  destruct (lease_step_ok _ _ Hdb H1) as [Hdb1 F1]. destruct (IH Hdb1) as [Hdb2 F2]. split; [done|by eapply fences_trans].
Qed.

Lemma empty_leases_ok : leases_ok empty_leases.
Proof. constructor; cbn; intros; set_solver. Qed.

Lemma consume_ok db id owner token kind revision mode now_ms l :
  consume_revision_lease db id owner token kind revision mode now_ms = Ok l ->
  ls_leases db !! id = Some l /\ revision_of l = (kind, revision) /\ ll_owner_id l = owner /\ ll_fencing_token l = token /\
  ll_mode l = mode /\ (now_ms < ll_expires_at_ms l)%N.
Proof.
  unfold consume_revision_lease, assert_library_revision_lease, read_lease, owned. rewrite rbind_ok. intros (m & Hm & Hr). revert Hr Hm.
  destruct (negb (bool_decide (ll_revision_kind m = kind)) || _) eqn:E1; [done|]. intros [= ->].
  destruct (ls_leases db !! id) as [a|]; [|done].
  destruct (negb _ || _ || _) eqn:E2; [done|]. intros [= ->]. rewrite !orb_false_iff, !negb_false_iff in E1. rewrite !orb_false_iff, !negb_false_iff in E2.
  rewrite andb_true_iff, String.eqb_eq, N.eqb_eq, bool_decide_eq_true, N.leb_gt in E2. rewrite bool_decide_eq_true, String.eqb_eq in E1.
  destruct E2 as [[[E2 E3] E4] E5], E1 as [E6 E7]. split_and!; try done. unfold revision_of. congruence.
Qed.

(** C23: two leases that pass the check before a filesystem action on the same
    revision, at whatever times of whatever clocks, are both shared: the holder
    of an exclusive lease is alone, for as long as its row exists. *)
Theorem exclusive_lease_excludes db id id' owner owner' token token' kind revision mode mode' now_ms now_ms' l l' :
  rtc lease_step empty_leases db -> id <> id' ->
  consume_revision_lease db id owner token kind revision mode now_ms = Ok l ->
  consume_revision_lease db id' owner' token' kind revision mode' now_ms' = Ok l' ->
  mode = Shared /\ mode' = Shared.
Proof.
  intros Hm Hne (Hl & Hr & _ & _ & <- & _)%consume_ok (Hl' & Hr' & _ & _ & <- & _)%consume_ok.
  destruct (lease_steps_ok _ _ Hm empty_leases_ok) as [Hdb _].
  assert (Hc := lk_modes _ Hdb _ _ _ _ Hl Hl' (eq_trans Hr (eq_sym Hr')) Hne). by destruct (ll_mode l), (ll_mode l').
Qed.

(** An owner whose lease ran out is fenced: once another lease of the same
    revision was granted that excludes it, the old lease never again passes the
    check for that revision, whatever is acquired, renewed, released or purged
    later, and by whatever clock; the new fencing token is the greater one. *)
Theorem expired_owner_is_fenced db r1 db1 l1 db2 r2 db3 l2 db4 mode now_ms :
  rtc lease_step empty_leases db -> acquire_library_revision_lease db r1 = Ok (db1, LeaseAcquired l1) ->
  rtc lease_step db1 db2 -> acquire_library_revision_lease db2 r2 = Ok (db3, LeaseAcquired l2) ->
  requested r2 = requested r1 -> modes_conflict (al_mode r1) (al_mode r2) = true -> rtc lease_step db3 db4 ->
  (ll_fencing_token l1 < ll_fencing_token l2)%N /\
  is_ok (consume_revision_lease db4 (ll_lease_id l1) (ll_owner_id l1) (ll_fencing_token l1) (al_revision_kind r1)
           (al_revision_id r1) mode now_ms) = false.
Proof.
  intros Hm E1 Hm1 E2 Hreq Hconf Hm3. destruct (lease_steps_ok _ _ Hm empty_leases_ok) as [Hdb _].
  destruct (lease_step_ok _ _ Hdb (ls_acquire _ _ _ _ E1)) as [Hdb1 _].
  destruct (lease_steps_ok _ _ Hm1 Hdb1) as [Hdb2 F12]. destruct (lease_step_ok _ _ Hdb2 (ls_acquire _ _ _ _ E2)) as [Hdb3 F23].
  destruct (lease_steps_ok _ _ Hm3 Hdb3) as [Hdb4 F34].
  destruct (acquire_ok _ _ _ _ E1) as (dba & _ & Hid1 & Hrev1 & _ & Hmode1 & _ & _ & _ & Edb1).
  destruct (acquire_ok _ _ _ _ E2) as (dbb & [Ee _] & Hid2 & Hrev2 & _ & Hmode2 & Htok2 & _ & _ & Edb3).
  assert (Hl1 : ls_leases db1 !! al_lease_id r1 = Some l1) by (rewrite Edb1; cbn; by rewrite lookup_insert_eq).
  assert (Hl3 : ls_leases db3 !! al_lease_id r2 = Some l2) by (rewrite Edb3; cbn; by rewrite lookup_insert_eq).
  assert (He1 : (ll_fencing_token l1 <= default 0 (ls_epochs db1 !! requested r1))%N).
  { rewrite Edb1. cbn. rewrite lookup_insert_eq. cbn. lia. }
  assert (Hlt : (ll_fencing_token l1 < ll_fencing_token l2)%N).
  { assert (Hf := fn_epochs _ _ F12 (requested r1)). rewrite Htok2, Ee, Hreq. lia. }
  split; [done|].
  destruct (consume_revision_lease _ _ _ _ _ _ _ _) as [l|] eqn:Ec; [|done]. exfalso.
  apply consume_ok in Ec as (Hl & Hrev & _ & Htok & _ & _). change (revision_of l = requested r1) in Hrev.
  assert (He3 : (ll_fencing_token l2 <= default 0 (ls_epochs db3 !! requested r1))%N).
  { rewrite Edb3. cbn. rewrite Hreq, lookup_insert_eq. cbn. lia. }
  destruct (fn_leases _ _ F34 _ _ Hl) as [(a & Ha & Hsa)|Hnew]; [|rewrite Hrev in Hnew; lia].
  destruct (fn_leases _ _ (fences_trans _ _ _ F12 F23) _ _ Ha) as [(b & Hb & Hsb)|Hnew].
  2: { destruct Hsa as (_ & Es & _ & _ & Et). rewrite Es, Hrev in Hnew. lia. }
  assert (Hs : same_lease b l) by by etrans. destruct Hs as (_ & Es & _ & _ & Et).
  assert (ll_lease_id l1 = al_lease_id r1) as Hk by done.
  assert (b = l1) as -> by (rewrite Hk in Hb; congruence).
  destruct Hsb as (_ & Esa & _ & Ema & Eta).
  assert (Hmodes := lk_modes _ Hdb3 _ _ _ _ Ha Hl3). rewrite <- Ema, Hmode1, Hmode2, Hconf in Hmodes. discriminate Hmodes.
  - rewrite <- Esa. congruence.
  - intros Heq. rewrite Heq in Ha. assert (a = l2) as -> by congruence. lia.
Qed.

(** ** Two readers, a publisher *)

Module DemoLeases.
Local Open Scope string_scope.

Definition request (id : string) (mode : LibraryLeaseMode) (now expires : N) : AcquireLibraryLease :=
  mkAcquire id KindSource "sha256:rev" "owner" mode "2024" now expires.
Definition step (db : LeaseDb) (r : AcquireLibraryLease) : LeaseDb * option LibraryRevisionLease :=
  match acquire_library_revision_lease db r with
  | Ok (db', LeaseAcquired l) => (db', Some l)
  | Ok (db', _) => (db', None)
  | Err _ => (db, None)
  end.
Definition reader : LeaseDb * option LibraryRevisionLease := step empty_leases (request "a" Shared 10 20).
Definition readers : LeaseDb * option LibraryRevisionLease := step reader.1 (request "b" Shared 15 30).
(** The publisher waits for the readers to expire. *)
Definition refused : LeaseDb * option LibraryRevisionLease := step readers.1 (request "c" Exclusive 25 50).
Definition publisher : LeaseDb * option LibraryRevisionLease := step refused.1 (request "c" Exclusive 30 50).

Example publisher_waits :
  readers.2 <> None /\ refused.2 = None /\ publisher.2 <> None /\
  option_map ll_fencing_token publisher.2 = Some 3%N /\ size (ls_leases publisher.1) = 1%nat.
Proof. vm_compute. split_and!; done. Qed.

Definition consumed (db : LeaseDb) (id : string) (token : N) : bool :=
  is_ok (consume_revision_lease db id "owner" token KindSource "sha256:rev" Shared 12).
End DemoLeases.

Lemma exclusive_lease_excludes_witness :
  DemoLeases.consumed DemoLeases.readers.1 "a" 1 = true /\ DemoLeases.consumed DemoLeases.readers.1 "b" 2 = true /\
  Shared = Shared /\ Shared = Shared.
Proof.
  split; [by vm_compute|]. split; [by vm_compute|].
  apply (exclusive_lease_excludes DemoLeases.readers.1 "a" "b" "owner" "owner" 1 2 KindSource "sha256:rev" Shared Shared 16 16
           (mkLease "a" KindSource "sha256:rev" "owner" Shared 1 "2024" "2024" 20)
           (mkLease "b" KindSource "sha256:rev" "owner" Shared 2 "2024" "2024" 30)).
  - eapply rtc_l; [eapply (ls_acquire _ (DemoLeases.request "a" Shared 10 20)); by vm_compute|].
    apply rtc_once. eapply (ls_acquire _ (DemoLeases.request "b" Shared 15 30)). by vm_compute.
  - done.
  - by vm_compute.
  - by vm_compute.
Defined.

(** A reader that expired at 20 and asserts its lease by a clock that still shows 12. *)
Lemma expired_owner_is_fenced_witness :
  (1 < 2)%N /\ DemoLeases.consumed (DemoLeases.step DemoLeases.reader.1 (DemoLeases.request "c" Exclusive 25 50)).1 "a" 1 = false.
Proof.
  exact (expired_owner_is_fenced empty_leases (DemoLeases.request "a" Shared 10 20) DemoLeases.reader.1
           (mkLease "a" KindSource "sha256:rev" "owner" Shared 1 "2024" "2024" 20) DemoLeases.reader.1
           (DemoLeases.request "c" Exclusive 25 50)
           (DemoLeases.step DemoLeases.reader.1 (DemoLeases.request "c" Exclusive 25 50)).1
           (mkLease "c" KindSource "sha256:rev" "owner" Exclusive 2 "2024" "2024" 50) _ Shared 12
           (rtc_refl _ _) eq_refl (rtc_refl _ _) eq_refl eq_refl eq_refl (rtc_refl _ _)).
Defined.
