(* ===== verification/UploadBundle.v ===== *)
(** * UploadBundle: frozen upload bundles and their admission (media_pipeline/upload_bundle.rs, admission.rs)

A derivative leaves the machine as a frozen bundle: an ordered list of objects
with derived keys, the derived manifest last, under a revision that hashes
everything that decides what is uploaded and where to.  An unsigned source needs
an admission receipt bound to that hash, and a remote receipt exists only when
every object was read back.  A [BTreeSet] of texts is the list in its order. *)

From Stdlib Require Import NArith Lia Ascii String.
From stdpp Require Import base numbers list strings gmap sorting.
From S2P Require Import Prelude Domain Files Json Ingest Rational Profile MediaPlan Validation Manifest.
From S2P Require Import MediaStore.

Local Open Scope string_scope.

Definition UPLOAD_BUNDLE_SCHEMA_VERSION : N := 2.
Definition MAX_RAW_SEGMENT_BYTES : N := 512.
Definition MAX_OBJECT_KEY_BYTES : N := 1024.
(** [DERIVED_UPLOAD_POLICY_REVISION] (media_pipeline/upload_bundle.rs:25-25). *)
Definition DERIVED_UPLOAD_POLICY_REVISION : string := "ylx.derived-upload-policy.v1".

Abbreviation StorageProfileIdentity := string (only parsing).
Abbreviation ObjectKey := string (only parsing).
Abbreviation SourceSha256 := (list byte) (only parsing).
Abbreviation LocalArtifactRef := string (only parsing).
(** Two digest identities. *)
Abbreviation PreFreezeUploadRequestDigest := (Digest "sha256:") (only parsing).
Abbreviation UploadBundleRevision := (Digest "sha256:") (only parsing).

(** [UploadBundleError] (media_pipeline/upload_bundle.rs:861-905), without the text of an admission error. *)
Inductive UploadBundleError :=
| EmptyField (field : string)
| UnsupportedSchema (version : N)
| FrozenEvidenceMismatch
| ControlCharacter (field : string)
| SegmentTooLong
| ObjectKeyTooLong (actual : N)
| ZeroLengthObject
| DuplicateSingletonRole (role : string)
| RequiredSingletonRole (role : string) (actual : N)
| MissingDerivedMedia
| DuplicateObjectKey (key : ObjectKey)
| DuplicateSourceVideo (id : string)
| SourceArchivalDisabled
| EmptySourceArchive
| SourceArchiveInventoryMismatch (expected actual : list string)
| UnsignedAdmissionRequired
| UnsignedAdmissionMismatch
| UnexpectedUnsignedAdmission
| InvalidAdmissionRequest.

#[global] Instance UploadBundleError_eq_dec : EqDecision UploadBundleError.
Proof. solve_decision. Defined.

(** [validate_opaque_value] (media_pipeline/upload_bundle.rs:1304-1312). *)
Definition validate_opaque_value (field value : string) : result UploadBundleError unit :=
  if String.eqb value "" then Err (EmptyField field)
  else if has_control value then Err (ControlCharacter field) else Ok tt.

(** [StorageProfileIdentity::parse] (media_pipeline/upload_bundle.rs:37-41). *)
Definition storage_profile_parse (value : string) : result UploadBundleError StorageProfileIdentity :=
  let? _ := validate_opaque_value "storage_profile_identity" value in Ok value.

(** [UploadJobNaturalKey] (media_pipeline/upload_bundle.rs:100-103). *)
Record UploadJobNaturalKey := mkUploadKey {
  uk_upload_bundle_revision : UploadBundleRevision;
  uk_storage_profile_identity : StorageProfileIdentity;
}.

#[global] Instance UploadJobNaturalKey_eq_dec : EqDecision UploadJobNaturalKey.
Proof. solve_decision. Defined.

(** ** Object keys *)

Definition unreserved (b : byte) : bool :=
  let n := Byte.to_N b in
  (((48 <=? n) && (n <=? 57)) || ((65 <=? n) && (n <=? 90)) || ((97 <=? n) && (n <=? 122))
   || (n =? 45) || (n =? 95) || (n =? 46) || (n =? 126))%N.

Definition upper_hex_digit (d : N) : ascii := if (d <? 10)%N then ascii_of_N (48 + d) else ascii_of_N (55 + d).

(** One byte of a segment; the others are percent-encoded in upper case. *)
Definition encode_byte (b : byte) (rest : string) : string :=
  if unreserved b then String (ascii_of_byte b) rest
  else String "%" (String (upper_hex_digit (Byte.to_N b / 16)) (String (upper_hex_digit (Byte.to_N b mod 16)) rest)).

Definition percent_encode (bs : list byte) : string := foldr encode_byte "" bs.

(** [encode_opaque_segment] (media_pipeline/upload_bundle.rs:1288-1302). *)
Definition encode_opaque_segment (value : string) : result UploadBundleError string :=
  let? _ := validate_opaque_value "object_key_segment" value in
  if (MAX_RAW_SEGMENT_BYTES <? str_len value)%N then Err SegmentTooLong else Ok (percent_encode (bytes_of value)).

(** [ObjectNamespace] (media_pipeline/upload_bundle.rs:111-113), its raw segments. *)
Definition ObjectNamespace : Type := list string.

(** [ObjectNamespace::from_raw_segments] (media_pipeline/upload_bundle.rs:116-133). *)
Definition from_raw_segments (segments : list string) : result UploadBundleError ObjectNamespace :=
  let? _ := rtraverse encode_opaque_segment segments in
  if bool_decide (segments = []) then Err (EmptyField "object_namespace") else Ok segments.

(** [ObjectNamespace::extend_key] (media_pipeline/upload_bundle.rs:135-153). *)
Definition extend_key (namespace : ObjectNamespace) (segments : list string) : result UploadBundleError ObjectKey :=
  let? encoded := rtraverse encode_opaque_segment (namespace ++ segments) in
  let key := String.concat "/" encoded in
  if (MAX_OBJECT_KEY_BYTES <? str_len key)%N then Err (ObjectKeyTooLong (str_len key)) else Ok key.

(** [ObjectNamespace::validate] (media_pipeline/upload_bundle.rs:155-163). *)
Definition validate_namespace (namespace : ObjectNamespace) : result UploadBundleError unit :=
  if bool_decide (namespace = []) then Err (EmptyField "object_namespace")
  else let? _ := rtraverse encode_opaque_segment namespace in Ok tt.

(** ** Objects and policies *)

(** [UploadObjectRole] (media_pipeline/upload_bundle.rs:200-208). *)
Inductive UploadObjectRole :=
| UoDerivedMedia (opaque_file_id : string)
| UoDerivedMetadata (opaque_file_id : string)
| UoDerivedManifest
| UoSourceManifest
| UoSourceMetadata (opaque_file_id : string)
| UoProvenanceReport
| UoSourceVideoArchive (opaque_file_id : string).

#[global] Instance UploadObjectRole_eq_dec : EqDecision UploadObjectRole.
Proof. solve_decision. Defined.

(** [UploadObjectRole::opaque_file_id] (media_pipeline/upload_bundle.rs:211-219). *)
Definition opaque_file_id (r : UploadObjectRole) : option string :=
  match r with
  | UoDerivedMedia id | UoDerivedMetadata id | UoSourceMetadata id | UoSourceVideoArchive id => Some id
  | UoDerivedManifest | UoSourceManifest | UoProvenanceReport => None
  end.

(** [UploadObjectRole::tag] (media_pipeline/upload_bundle.rs:221-231). *)
Definition role_tag (r : UploadObjectRole) : string :=
  match r with
  | UoDerivedMedia _ => "derived_media"
  | UoDerivedMetadata _ => "derived_metadata"
  | UoDerivedManifest => "derived_manifest"
  | UoSourceManifest => "source_manifest"
  | UoSourceMetadata _ => "source_metadata"
  | UoProvenanceReport => "provenance_report"
  | UoSourceVideoArchive _ => "source_video_archive"
  end.

(** [UploadObjectInput] (media_pipeline/upload_bundle.rs:236-242). *)
Record UploadObjectInput := mkObjectInput {
  oi_role : UploadObjectRole;
  oi_local_artifact : LocalArtifactRef;
  oi_size_bytes : N;
  oi_sha256 : SourceSha256;
  oi_media_type : string;
}.

(** [UploadObjectInput::new] (media_pipeline/upload_bundle.rs:245-267). *)
Definition UploadObjectInput_new (role : UploadObjectRole) (local_artifact : LocalArtifactRef) (size_bytes : N)
    (sha : SourceSha256) (media_type : string) : result UploadBundleError UploadObjectInput :=
  if (size_bytes =? 0)%N then Err ZeroLengthObject else
  let? _ := validate_opaque_value "media_type" media_type in
  let? _ := match opaque_file_id role with
            | Some file_id => validate_opaque_value "opaque_file_id" file_id
            | None => Ok tt
            end in
  Ok (mkObjectInput role local_artifact size_bytes sha media_type).

(** [SourceArchivalPolicy] (media_pipeline/upload_bundle.rs:273-282). *)
Inductive SourceArchivalPolicy :=
| ArchivalDisabled
| ArchivalEnabled (policy_revision : string) (expected_source_video_ids : list string).

(** [SourceRetentionPolicy] (media_pipeline/upload_bundle.rs:288-295). *)
Inductive SourceRetentionPolicy :=
| RetentionDisabled
| AfterVerifiedSourceArchive (archive_policy_revision : string) (grace_period_seconds : N).

#[global] Instance SourceArchivalPolicy_eq_dec : EqDecision SourceArchivalPolicy.
Proof. solve_decision. Defined.
#[global] Instance SourceRetentionPolicy_eq_dec : EqDecision SourceRetentionPolicy.
Proof. solve_decision. Defined.

(** ** Admission of unsigned sources *)

(** [AdmissionError] (media_pipeline/admission.rs:351-364). *)
Inductive UploadAdmissionError :=
| AdEmpty (field : string)
| AdTooLong (field : string) (maximum : N)
| AdControlCharacter (field : string)
| AdSourceArchivalMustBeDisabled
| AdInvalidPersistedReceipt.

#[global] Instance UploadAdmissionError_eq_dec : EqDecision UploadAdmissionError.
Proof. solve_decision. Defined.

(** [UNSIGNED_ADMISSION_STATEMENT] (media_pipeline/admission.rs:12-12). *)
Definition UNSIGNED_ADMISSION_STATEMENT : string := "ylx.unsigned-source-upload-admission.v2".

(** [validate_receipt_text] (media_pipeline/admission.rs:366-380). *)
Definition validate_receipt_text (field value : string) : result UploadAdmissionError unit :=
  if String.eqb value "" then Err (AdEmpty field)
  else if (512 <? str_len value)%N then Err (AdTooLong field 512)
  else if has_control value then Err (AdControlCharacter field) else Ok tt.

(** [UnsignedUploadAdmissionRequest] (media_pipeline/admission.rs:65-73). *)
Record UnsignedUploadAdmissionRequest := mkAdmissionRequest {
  ar_source_revision : SourceContentRevision;
  ar_inventory_digest : InventoryDigest;
  ar_derived_revision : DerivedRevision;
  ar_upload_request_digest : PreFreezeUploadRequestDigest;
  ar_storage_profile_identity : StorageProfileIdentity;
  ar_source_archival : SourceArchivalPolicy;
  ar_policy_revision : string;
}.

#[global] Instance UnsignedUploadAdmissionRequest_eq_dec : EqDecision UnsignedUploadAdmissionRequest.
Proof. solve_decision. Defined.

(** [UnsignedUploadAdmissionRequest::new] (media_pipeline/admission.rs:77-100). *)
Definition UnsignedUploadAdmissionRequest_new (r : UnsignedUploadAdmissionRequest)
    : result UploadAdmissionError UnsignedUploadAdmissionRequest :=
  let? _ := validate_receipt_text "policy_revision" (ar_policy_revision r) in
  if negb (bool_decide (ar_source_archival r = ArchivalDisabled)) then Err AdSourceArchivalMustBeDisabled else Ok r.

(** [UnsignedUploadAdmissionReceipt] (media_pipeline/admission.rs:182-194): its request's
    fields as a request. *)
Record UnsignedUploadAdmissionReceipt := mkAdmissionReceipt {
  at_receipt_id : string;
  at_statement : string;
  at_request : UnsignedUploadAdmissionRequest;
  at_admitted_by : string;
  at_admitted_at : string;
}.

#[global] Instance UnsignedUploadAdmissionReceipt_eq_dec : EqDecision UnsignedUploadAdmissionReceipt.
Proof. solve_decision. Defined.

(** [UnsignedUploadAdmissionReceipt::matches] (media_pipeline/admission.rs:338-347). *)
Definition admission_matches (receipt : UnsignedUploadAdmissionReceipt) (request : UnsignedUploadAdmissionRequest) : bool :=
  String.eqb (at_statement receipt) UNSIGNED_ADMISSION_STATEMENT && bool_decide (at_request receipt = request).

Section admission.
Context `{Sha256}.

Definition admission_fields (r : UnsignedUploadAdmissionRequest) (admitted_by admitted_at : string) : list string :=
  [UNSIGNED_ADMISSION_STATEMENT; digest_text (ar_source_revision r); digest_text (ar_inventory_digest r);
   digest_text (ar_derived_revision r); digest_text (ar_upload_request_digest r); ar_storage_profile_identity r;
   "source_archival=disabled"; ar_policy_revision r; admitted_by; admitted_at].

Definition admission_text (r : UnsignedUploadAdmissionRequest) (admitted_by admitted_at : string) : list byte :=
  mjoin ((fun s => absorb (bytes_of s)) <$> admission_fields r admitted_by admitted_at).

(** [UnsignedUploadAdmissionReceipt::issue] (media_pipeline/admission.rs:238-285). *)
Definition admit_request (r : UnsignedUploadAdmissionRequest) (admitted_by admitted_at : string)
    : result UploadAdmissionError UnsignedUploadAdmissionReceipt :=
  let? _ := validate_receipt_text "admitted_by" admitted_by in
  let? _ := validate_receipt_text "admitted_at" admitted_at in
  let receipt_id := "admission:sha256:" ++ to_hex (sha256 (admission_text r admitted_by admitted_at)) in
  Ok (mkAdmissionReceipt receipt_id UNSIGNED_ADMISSION_STATEMENT r admitted_by admitted_at).

(** [UnsignedUploadAdmissionReceipt::deserialize] (media_pipeline/admission.rs:196-220), on the stored fields. *)
Definition rebuild_admission (wire : UnsignedUploadAdmissionReceipt)
    : result UploadAdmissionError UnsignedUploadAdmissionReceipt :=
  let? request := UnsignedUploadAdmissionRequest_new (at_request wire) in
  let? rebuilt := admit_request request (at_admitted_by wire) (at_admitted_at wire) in
  if negb (String.eqb (at_receipt_id rebuilt) (at_receipt_id wire)) || negb (String.eqb (at_statement rebuilt) (at_statement wire))
  then Err AdInvalidPersistedReceipt else Ok rebuilt.
End admission.

(** ** Bundles *)

(** [UploadBundleInput] (media_pipeline/upload_bundle.rs:299-313). *)
Record UploadBundleInput := mkBundleInput {
  bi_namespace : ObjectNamespace;
  bi_origin_identity : string;
  bi_session_or_source_id : string;
  bi_source_revision : SourceContentRevision;
  bi_source_provenance : SourceProvenance;
  bi_source_inventory_digest : InventoryDigest;
  bi_unsigned_admission : option UnsignedUploadAdmissionReceipt;
  bi_profile_revision : ProfileRevision;
  bi_derived_revision : DerivedRevision;
  bi_storage_profile_identity : StorageProfileIdentity;
  bi_source_archival : SourceArchivalPolicy;
  bi_upload_policy_revision : string;
  bi_objects : list UploadObjectInput;
}.

(** [FrozenUploadObject] (media_pipeline/upload_bundle.rs:351-358). *)
Record FrozenUploadObject := mkFrozenObject {
  fo_role : UploadObjectRole;
  fo_local_artifact : LocalArtifactRef;
  fo_object_key : ObjectKey;
  fo_size_bytes : N;
  fo_sha256 : SourceSha256;
  fo_media_type : string;
}.

#[global] Instance FrozenUploadObject_eq_dec : EqDecision FrozenUploadObject.
Proof. solve_decision. Defined.

(** [PreparedUploadBundle] (media_pipeline/upload_bundle.rs:344-347). *)
Record PreparedUploadBundle := mkPrepared { pr_provenance_digest : SourceSha256; pr_objects : list FrozenUploadObject }.

(** [FrozenUploadBundle] (media_pipeline/upload_bundle.rs:396-414). *)
Record FrozenUploadBundle := mkBundle {
  fb_schema_version : N;
  fb_revision : UploadBundleRevision;
  fb_namespace : ObjectNamespace;
  fb_origin_identity : string;
  fb_session_or_source_id : string;
  fb_source_revision : SourceContentRevision;
  fb_source_provenance : SourceProvenance;
  fb_source_inventory_digest : InventoryDigest;
  fb_unsigned_admission : option UnsignedUploadAdmissionReceipt;
  fb_provenance_digest : SourceSha256;
  fb_profile_revision : ProfileRevision;
  fb_derived_revision : DerivedRevision;
  fb_storage_profile_identity : StorageProfileIdentity;
  fb_source_archival : SourceArchivalPolicy;
  fb_upload_policy_revision : string;
  fb_upload_request_digest : PreFreezeUploadRequestDigest;
  fb_objects : list FrozenUploadObject;
}.

Definition role_segments (profile_revision : ProfileRevision) (derived_revision : DerivedRevision) (role : UploadObjectRole)
    : list string :=
  let derivative := ["derivatives"; digest_text profile_revision; digest_text derived_revision] in
  match role with
  | UoSourceManifest => ["source"; "source_manifest.json"]
  | UoSourceMetadata id => ["source"; "metadata"; id]
  | UoSourceVideoArchive id => ["source"; "archive"; id]
  | UoDerivedMedia id => derivative ++ ["video"; id]
  | UoDerivedMetadata id => derivative ++ ["metadata"; id]
  | UoProvenanceReport => derivative ++ ["metadata"; "provenance.json"]
  | UoDerivedManifest => derivative ++ ["derived_manifest.json"]
  end.

(** [derive_object_key] (media_pipeline/upload_bundle.rs:941-997). *)
Definition derive_object_key (input : UploadBundleInput) (role : UploadObjectRole) : result UploadBundleError ObjectKey :=
  extend_key (bi_namespace input)
    ([bi_origin_identity input; bi_session_or_source_id input; digest_text (bi_source_revision input)]
     ++ role_segments (bi_profile_revision input) (bi_derived_revision input) role).

(** [validate_source_archival_policy] (media_pipeline/upload_bundle.rs:1314-1330). *)
Definition validate_source_archival_policy (policy : SourceArchivalPolicy) : result UploadBundleError unit :=
  match policy with
  | ArchivalDisabled => Ok tt
  | ArchivalEnabled policy_revision expected =>
      let? _ := validate_opaque_value "source_archive_policy_revision" policy_revision in
      if bool_decide (expected = []) then Err EmptySourceArchive
      else rforall (validate_opaque_value "source_archive_file_id") expected
  end.

(** [validate_upload_object_input] (media_pipeline/upload_bundle.rs:1332-1342). *)
Definition validate_upload_object_input (o : UploadObjectInput) : result UploadBundleError unit :=
  if (oi_size_bytes o =? 0)%N then Err ZeroLengthObject else
  let? _ := validate_opaque_value "local_artifact_ref" (oi_local_artifact o) in
  let? _ := validate_opaque_value "media_type" (oi_media_type o) in
  match opaque_file_id (oi_role o) with
  | Some file_id => validate_opaque_value "opaque_file_id" file_id
  | None => Ok tt
  end.

(** [validate_source_archive_inventory] (media_pipeline/upload_bundle.rs:1344-1363). *)
Definition validate_source_archive_inventory (policy : SourceArchivalPolicy) (actual : list string)
    : result UploadBundleError unit :=
  match policy with
  | ArchivalDisabled => if bool_decide (actual = []) then Ok tt else Err SourceArchivalDisabled
  | ArchivalEnabled _ expected =>
      if bool_decide (expected = actual) then Ok tt else Err (SourceArchiveInventoryMismatch expected actual)
  end.

(** [BTreeSet::insert]: [None] when the text is there. *)
Fixpoint btree_insert (x : string) (l : list string) : option (list string) :=
  match l with
  | [] => Some [x]
  | y :: rest =>
      if String.ltb x y then Some (x :: l)
      else if String.eqb x y then None
      else match btree_insert x rest with Some rest => Some (y :: rest) | None => None end
  end.

(** What the loop of [prepare_upload_bundle] has counted. *)
Record Tally := mkTally {
  ta_derived_manifest : option FrozenUploadObject;
  ta_source_manifest_count : N;
  ta_provenance_count : N;
  ta_derived_media_count : N;
  ta_source_video_ids : list string;
  ta_objects : list FrozenUploadObject;
  ta_keys : gset string;
}.

Definition empty_tally : Tally := mkTally None 0 0 0 [] [] ∅.

Definition count_role (t : Tally) (role : UploadObjectRole) : result UploadBundleError Tally :=
  let '(mkTally manifest sources provenances media ids objects keys) := t in
  match role with
  | UoDerivedManifest =>
      match manifest with Some _ => Err (DuplicateSingletonRole "derived_manifest") | None => Ok t end
  | UoSourceManifest => Ok (mkTally manifest (sources + 1) provenances media ids objects keys)
  | UoProvenanceReport => Ok (mkTally manifest sources (provenances + 1) media ids objects keys)
  | UoDerivedMedia _ => Ok (mkTally manifest sources provenances (media + 1) ids objects keys)
  | UoSourceVideoArchive id =>
      let? ids := ok_or (btree_insert id ids) (DuplicateSourceVideo id) in
      Ok (mkTally manifest sources provenances media ids objects keys)
  | UoDerivedMetadata _ | UoSourceMetadata _ => Ok t
  end.

Definition frozen_of (o : UploadObjectInput) (key : ObjectKey) : FrozenUploadObject :=
  mkFrozenObject (oi_role o) (oi_local_artifact o) key (oi_size_bytes o) (oi_sha256 o) (oi_media_type o).

Definition is_manifest (role : UploadObjectRole) : bool := match role with UoDerivedManifest => true | _ => false end.

(** [prepare_upload_bundle, the loop] (media_pipeline/upload_bundle.rs:1017-1057). *)
Definition tally_object (input : UploadBundleInput) (t : Tally) (o : UploadObjectInput) : result UploadBundleError Tally :=
  let? _ := validate_upload_object_input o in
  let? t := count_role t (oi_role o) in
  let? key := derive_object_key input (oi_role o) in
  if bool_decide (key ∈ ta_keys t) then Err (DuplicateObjectKey key) else
  let '(mkTally manifest sources provenances media ids objects keys) := t in
  let frozen := frozen_of o key in
  Ok (if is_manifest (oi_role o)
      then mkTally (Some frozen) sources provenances media ids objects ({[key]} ∪ keys)
      else mkTally manifest sources provenances media ids (objects ++ [frozen])%list ({[key]} ∪ keys)).

Fixpoint tally_objects (input : UploadBundleInput) (t : Tally) (os : list UploadObjectInput) : result UploadBundleError Tally :=
  match os with
  | [] => Ok t
  | o :: rest => let? t := tally_object input t o in tally_objects input t rest
  end.

(** [prepare_upload_bundle, the counts] (media_pipeline/upload_bundle.rs:1059-1086). *)
Definition tally_complete (archival : SourceArchivalPolicy) (t : Tally) : result UploadBundleError (list FrozenUploadObject) :=
  if negb (ta_source_manifest_count t =? 1)%N
  then Err (RequiredSingletonRole "source_manifest" (ta_source_manifest_count t)) else
  if negb (ta_provenance_count t =? 1)%N
  then Err (RequiredSingletonRole "provenance_report" (ta_provenance_count t)) else
  if (ta_derived_media_count t =? 0)%N then Err MissingDerivedMedia else
  let? _ := validate_source_archive_inventory archival (ta_source_video_ids t) in
  let? manifest := ok_or (ta_derived_manifest t) (RequiredSingletonRole "derived_manifest" 0) in
  Ok (ta_objects t ++ [manifest])%list.

(** [validate_upload_admission] (media_pipeline/upload_bundle.rs:1365-1395). *)
Definition validate_upload_admission (provenance : SourceProvenance) (admission : option UnsignedUploadAdmissionReceipt)
    (request : option UnsignedUploadAdmissionRequest) : result UploadBundleError unit :=
  match provenance, admission, request with
  | SpDeviceSigned _, None, None => Ok tt
  | SpDeviceSigned _, Some _, _ | SpDeviceSigned _, None, Some _ => Err UnexpectedUnsignedAdmission
  | SpLocallyValidatedUnsigned _, None, Some _ => Err UnsignedAdmissionRequired
  | SpLocallyValidatedUnsigned _, Some receipt, Some request =>
      if admission_matches receipt request then Ok tt else Err UnsignedAdmissionMismatch
  | SpLocallyValidatedUnsigned _, _, None => Err InvalidAdmissionRequest
  end.

(** *** Digests of tagged fields *)

(** [digest_field] (media_pipeline/upload_bundle.rs:1281-1286). *)
Definition digest_field (f : string * list byte) : list byte := (absorb (bytes_of f.1) ++ absorb f.2)%list.

Definition fields_text (fields : list (string * list byte)) : list byte := mjoin (digest_field <$> fields).

(** [source_schema_tag] (media_pipeline/upload_bundle.rs:1268-1279). *)
Definition source_schema_tag (schema : SourceSchema) : string :=
  match schema with
  | DeviceSessionV1 => "device_session_v1"
  | DeviceSessionV2 => "device_session_v2"
  | SignedPublicationV1 => "signed_publication_v1"
  | UnsignedPublicationV1 => "unsigned_publication_v1"
  | CompleteUnpublishedV6 => "complete_unpublished_v6"
  | RawCaptureV2 => "raw_capture_v2"
  | LegacyMjpegSessionV5 => "legacy_mjpeg_session_v5"
  | ApplianceSpoolV6 => "appliance_spool_v6"
  end.

Definition text_field (tag value : string) : string * list byte := (tag, bytes_of value).

Definition check_fields (c : ValidationCheck) : list (string * list byte) :=
  [text_field "validation_code" (vc_code c); ("validation_passed", [if vc_passed c then Byte.x01 else Byte.x00]);
   text_field "validation_detail" (vc_detail c)].

(** [digest_source_provenance, its fields] (media_pipeline/upload_bundle.rs:1207-1266). *)
Definition provenance_fields (p : SourceProvenance) : list (string * list byte) :=
  match p with
  | SpDeviceSigned signed =>
      [text_field "kind" "device_signed"; text_field "publication_key_fingerprint" (dg_publication_key_fingerprint signed);
       text_field "publication_revision" (digest_text (dg_publication_revision signed))]
  | SpLocallyValidatedUnsigned unsigned =>
      [text_field "kind" "locally_validated_unsigned"; text_field "source_schema" (source_schema_tag (lu_source_schema unsigned))]
      ++ mjoin (check_fields <$> lu_validation_report unsigned)
      ++ match lu_computed_inventory_digest unsigned with
         | Some inventory => [text_field "computed_inventory_digest" (digest_text inventory)]
         | None => []
         end
      ++ match lu_user_admission_receipt unsigned with
         | Some receipt => [text_field "ingest_admission_receipt_id" (ua_receipt_id receipt);
                            text_field "ingest_admission_policy_revision" (ua_policy_revision receipt);
                            text_field "ingest_admission_timestamp" (ua_admitted_at receipt)]
         | None => []
         end
  end%list.

(** [digest_source_archival] (media_pipeline/upload_bundle.rs:1191-1205). *)
Definition archival_fields (a : SourceArchivalPolicy) : list (string * list byte) :=
  match a with
  | ArchivalDisabled => [text_field "archive" "disabled"]
  | ArchivalEnabled policy_revision expected =>
      [text_field "archive" "enabled"; text_field "archive_policy" policy_revision]
      ++ (text_field "archive_file" <$> expected)
  end%list.

Definition object_fields (index : nat) (o : FrozenUploadObject) : list (string * list byte) :=
  [("object_index", be64 (N.of_nat index)); text_field "role" (role_tag (fo_role o))]
  ++ match opaque_file_id (fo_role o) with Some file_id => [text_field "file_id" file_id] | None => [] end
  ++ [text_field "local_ref" (fo_local_artifact o); text_field "key" (fo_object_key o);
      ("size", be64 (fo_size_bytes o)); ("sha256", fo_sha256 o); text_field "media_type" (fo_media_type o)].

(** [compute_pre_freeze_request_digest, its fields] (media_pipeline/upload_bundle.rs:1090-1158). *)
Definition request_fields (input : UploadBundleInput) (prepared : PreparedUploadBundle) : list (string * list byte) :=
  [("schema", be_bytes 4 UPLOAD_BUNDLE_SCHEMA_VERSION)]
  ++ (text_field "namespace_segment" <$> bi_namespace input)
  ++ [text_field "origin" (bi_origin_identity input); text_field "session_or_source" (bi_session_or_source_id input);
      text_field "source" (digest_text (bi_source_revision input));
      text_field "source_inventory" (digest_text (bi_source_inventory_digest input));
      ("provenance", pr_provenance_digest prepared); text_field "profile" (digest_text (bi_profile_revision input));
      text_field "derived" (digest_text (bi_derived_revision input));
      text_field "storage_profile" (bi_storage_profile_identity input);
      text_field "upload_policy" (bi_upload_policy_revision input)]
  ++ archival_fields (bi_source_archival input)
  ++ mjoin (imap object_fields (pr_objects prepared)).

(** [compute_bundle_revision, its fields] (media_pipeline/upload_bundle.rs:1160-1189). *)
Definition revision_fields (upload_request_digest : PreFreezeUploadRequestDigest)
    (admission : option UnsignedUploadAdmissionReceipt) : list (string * list byte) :=
  [("schema", be_bytes 4 UPLOAD_BUNDLE_SCHEMA_VERSION); text_field "upload_request" (digest_text upload_request_digest)]
  ++ match admission with Some a => [text_field "unsigned_admission" (at_receipt_id a)] | None => [] end.

Section bundle.
Context `{Sha256}.

Definition provenance_digest (p : SourceProvenance) : SourceSha256 := sha256 (fields_text (provenance_fields p)).

(** [prepare_upload_bundle] (media_pipeline/upload_bundle.rs:999-1086). *)
Definition prepare_upload_bundle (input : UploadBundleInput) : result UploadBundleError PreparedUploadBundle :=
  let? _ := validate_namespace (bi_namespace input) in
  let? _ := validate_opaque_value "origin_identity" (bi_origin_identity input) in
  let? _ := validate_opaque_value "session_or_source_id" (bi_session_or_source_id input) in
  let? _ := validate_opaque_value "upload_policy_revision" (bi_upload_policy_revision input) in
  let? _ := validate_source_archival_policy (bi_source_archival input) in
  let? t := tally_objects input empty_tally (bi_objects input) in
  let? objects := tally_complete (bi_source_archival input) t in
  Ok (mkPrepared (provenance_digest (bi_source_provenance input)) objects).

Definition request_digest_of (input : UploadBundleInput) (prepared : PreparedUploadBundle) : PreFreezeUploadRequestDigest :=
  from_material "sha256:" (fields_text (request_fields input prepared)).

Definition bundle_revision (digest : PreFreezeUploadRequestDigest) (admission : option UnsignedUploadAdmissionReceipt)
    : UploadBundleRevision :=
  from_material "sha256:" (fields_text (revision_fields digest admission)).

(** [UploadBundleInput::admission_request_for_prepared] (media_pipeline/upload_bundle.rs:327-341). *)
Definition admission_request_for_prepared (input : UploadBundleInput) (prepared : PreparedUploadBundle)
    : result UploadBundleError UnsignedUploadAdmissionRequest :=
  rmap_err (fun _ => InvalidAdmissionRequest)
    (UnsignedUploadAdmissionRequest_new
       (mkAdmissionRequest (bi_source_revision input) (bi_source_inventory_digest input) (bi_derived_revision input)
          (request_digest_of input prepared) (bi_storage_profile_identity input) (bi_source_archival input)
          (bi_upload_policy_revision input))).

(** [UploadBundleInput::unsigned_upload_admission_request] (media_pipeline/upload_bundle.rs:320-325). *)
Definition input_admission_request (input : UploadBundleInput) : result UploadBundleError UnsignedUploadAdmissionRequest :=
  let? prepared := prepare_upload_bundle input in admission_request_for_prepared input prepared.

Definition is_unsigned (p : SourceProvenance) : bool :=
  match p with SpLocallyValidatedUnsigned _ => true | SpDeviceSigned _ => false end.

(** [FrozenUploadBundle::freeze] (media_pipeline/upload_bundle.rs:417-455). *)
Definition freeze (input : UploadBundleInput) : result UploadBundleError FrozenUploadBundle :=
  let? prepared := prepare_upload_bundle input in
  let upload_request_digest := request_digest_of input prepared in
  let? admission_request :=
    if is_unsigned (bi_source_provenance input)
    then let? r := admission_request_for_prepared input prepared in Ok (Some r) else Ok None in
  let? _ := validate_upload_admission (bi_source_provenance input) (bi_unsigned_admission input) admission_request in
  Ok (mkBundle UPLOAD_BUNDLE_SCHEMA_VERSION (bundle_revision upload_request_digest (bi_unsigned_admission input))
        (bi_namespace input) (bi_origin_identity input) (bi_session_or_source_id input) (bi_source_revision input)
        (bi_source_provenance input) (bi_source_inventory_digest input) (bi_unsigned_admission input)
        (pr_provenance_digest prepared) (bi_profile_revision input) (bi_derived_revision input)
        (bi_storage_profile_identity input) (bi_source_archival input) (bi_upload_policy_revision input)
        upload_request_digest (pr_objects prepared)).

(** [FrozenUploadBundle::unsigned_upload_admission_request] (media_pipeline/upload_bundle.rs:532-545). *)
Definition bundle_admission_request (b : FrozenUploadBundle) : result UploadBundleError UnsignedUploadAdmissionRequest :=
  rmap_err (fun _ => InvalidAdmissionRequest)
    (UnsignedUploadAdmissionRequest_new
       (mkAdmissionRequest (fb_source_revision b) (fb_source_inventory_digest b) (fb_derived_revision b)
          (fb_upload_request_digest b) (fb_storage_profile_identity b) (fb_source_archival b) (fb_upload_policy_revision b))).

Definition input_of_object (o : FrozenUploadObject) : UploadObjectInput :=
  mkObjectInput (fo_role o) (fo_local_artifact o) (fo_size_bytes o) (fo_sha256 o) (fo_media_type o).

(** The input that a persisted bundle is frozen from again. *)
Definition wire_input (wire : FrozenUploadBundle) (admission : option UnsignedUploadAdmissionReceipt) : UploadBundleInput :=
  mkBundleInput (fb_namespace wire) (fb_origin_identity wire) (fb_session_or_source_id wire) (fb_source_revision wire)
    (fb_source_provenance wire) (fb_source_inventory_digest wire) admission (fb_profile_revision wire)
    (fb_derived_revision wire) (fb_storage_profile_identity wire) (fb_source_archival wire)
    (fb_upload_policy_revision wire) (map input_of_object (fb_objects wire)).

(** [FrozenUploadBundle::deserialize] (media_pipeline/upload_bundle.rs:627-674), on
    the fields of the document; the text of an admission's refusal is not kept. *)
Definition thaw (wire : FrozenUploadBundle) : result UploadBundleError FrozenUploadBundle :=
  let? _ := storage_profile_parse (fb_storage_profile_identity wire) in
  let? admission := match fb_unsigned_admission wire with
                    | Some a => let? a := rmap_err (fun _ => InvalidAdmissionRequest) (rebuild_admission a) in Ok (Some a)
                    | None => Ok None
                    end in
  if negb (fb_schema_version wire =? UPLOAD_BUNDLE_SCHEMA_VERSION)%N then Err (UnsupportedSchema (fb_schema_version wire)) else
  let? rebuilt := freeze (wire_input wire admission) in
  if negb (bool_decide (fb_revision rebuilt = fb_revision wire))
     || negb (bool_decide (fb_provenance_digest rebuilt = fb_provenance_digest wire))
     || negb (bool_decide (fb_upload_request_digest rebuilt = fb_upload_request_digest wire))
     || negb (bool_decide (fb_objects rebuilt = fb_objects wire))
  then Err FrozenEvidenceMismatch else Ok rebuilt.
End bundle.

(** [FrozenUploadBundle::natural_key] (media_pipeline/upload_bundle.rs:553-558). *)
Definition bundle_natural_key (b : FrozenUploadBundle) : UploadJobNaturalKey :=
  mkUploadKey (fb_revision b) (fb_storage_profile_identity b).

(** ** Remote receipts *)

(** [CompletedUpload] (library/object_store_port.rs:260-265). *)
Record CompletedUpload := mkCompleted {
  cu_key : ObjectKey;
  cu_upload_id : string;
  cu_etag : string;
  cu_version_id : option string;
}.

(** [DigestProof] (library/object_store_port.rs:279-287). *)
Inductive DigestProof := ServerChecksum | StreamedReadback.

(** [VerifiedObjectReceipt] (library/object_store_port.rs:296-308). *)
Record VerifiedObjectReceipt := mkVerified {
  vo_key : ObjectKey;
  vo_etag : string;
  vo_version_id : option string;
  vo_size_bytes : N;
  vo_source_sha256 : SourceSha256;
  vo_digest_proof : DigestProof;
}.

(** [CompletionBoundObjectReceipt] (media_pipeline/upload_bundle.rs:745-748). *)
Record CompletionBoundObjectReceipt := mkBound { cb_completion : CompletedUpload; cb_verified : VerifiedObjectReceipt }.

(** [RemoteSourceArchive] (media_pipeline/upload_bundle.rs:799-802). *)
Inductive RemoteSourceArchive := NotArchived | ArchiveVerified (policy_revision : string).

(** [RemoteVerificationError] (media_pipeline/upload_bundle.rs:908-939). *)
Inductive RemoteVerificationError :=
| CompletionBindingMismatch (completion_key verified_key : ObjectKey)
| StorageProfileMismatch (expected actual : StorageProfileIdentity)
| MissingReceipt (key : ObjectKey)
| DuplicateReceipt (key : ObjectKey)
| UnexpectedReceipt (key : ObjectKey)
| RemoteSizeMismatch (key : ObjectKey) (expected actual : N)
| RemoteDigestMismatch (key : ObjectKey) (expected actual : SourceSha256).

(** [RemoteBundleReceipt] (media_pipeline/upload_bundle.rs:701-707). *)
Record RemoteBundleReceipt := mkRemote {
  rb_natural_key : UploadJobNaturalKey;
  rb_derived_revision : DerivedRevision;
  rb_source_revision : SourceContentRevision;
  rb_source_archive : RemoteSourceArchive;
  rb_object_receipts : list CompletionBoundObjectReceipt;
}.

(** [CompletionBoundObjectReceipt::bind] (media_pipeline/upload_bundle.rs:751-768). *)
Definition bind_receipt (completion : CompletedUpload) (verified : VerifiedObjectReceipt)
    : result RemoteVerificationError CompletionBoundObjectReceipt :=
  if negb (String.eqb (cu_key completion) (vo_key verified)) || negb (String.eqb (cu_etag completion) (vo_etag verified))
     || negb (bool_decide (cu_version_id completion = vo_version_id verified))
  then Err (CompletionBindingMismatch (cu_key completion) (vo_key verified)) else Ok (mkBound completion verified).

(** [FrozenUploadBundle::verify_remote] (media_pipeline/upload_bundle.rs:574-580): its receipts by key. *)
Fixpoint receipts_by_key (receipts : list CompletionBoundObjectReceipt) (m : gmap string CompletionBoundObjectReceipt)
    : result RemoteVerificationError (gmap string CompletionBoundObjectReceipt) :=
  match receipts with
  | [] => Ok m
  | r :: rest =>
      let key := vo_key (cb_verified r) in
      if bool_decide (is_Some (m !! key)) then Err (DuplicateReceipt key) else receipts_by_key rest (<[key := r]> m)
  end.

(** [FrozenUploadBundle::verify_remote] (media_pipeline/upload_bundle.rs:582-602): its loop over the objects. *)
Fixpoint order_receipts (objects : list FrozenUploadObject) (m : gmap string CompletionBoundObjectReceipt)
    : result RemoteVerificationError (list CompletionBoundObjectReceipt * gmap string CompletionBoundObjectReceipt) :=
  match objects with
  | [] => Ok ([], m)
  | o :: rest =>
      let? r := ok_or (m !! fo_object_key o) (MissingReceipt (fo_object_key o)) in
      if negb (vo_size_bytes (cb_verified r) =? fo_size_bytes o)%N
      then Err (RemoteSizeMismatch (fo_object_key o) (fo_size_bytes o) (vo_size_bytes (cb_verified r))) else
      if negb (bool_decide (vo_source_sha256 (cb_verified r) = fo_sha256 o))
      then Err (RemoteDigestMismatch (fo_object_key o) (fo_sha256 o) (vo_source_sha256 (cb_verified r))) else
      let? (receipts, m) := order_receipts rest (delete (fo_object_key o) m) in Ok (r :: receipts, m)
  end.

(** The first key of a map. *)
Definition first_key {A} (m : gmap string A) : option string :=
  fold_left (fun least k => match least with Some l => if String.ltb k l then Some k else Some l | None => Some k end)
    (map fst (map_to_list m)) None.

(** [FrozenUploadBundle::verify_remote] (media_pipeline/upload_bundle.rs:563-624). *)
Definition verify_remote (b : FrozenUploadBundle) (storage_profile_identity : StorageProfileIdentity)
    (receipts : list CompletionBoundObjectReceipt) : result RemoteVerificationError RemoteBundleReceipt :=
  if negb (String.eqb storage_profile_identity (fb_storage_profile_identity b))
  then Err (StorageProfileMismatch (fb_storage_profile_identity b) storage_profile_identity) else
  let? by_key := receipts_by_key receipts ∅ in
  let? (ordered, unexpected) := order_receipts (fb_objects b) by_key in
  match first_key unexpected with
  | Some key => Err (UnexpectedReceipt key)
  | None =>
      let archive := match fb_source_archival b with
                     | ArchivalDisabled => NotArchived
                     | ArchivalEnabled policy_revision _ => ArchiveVerified policy_revision
                     end in
      Ok (mkRemote (bundle_natural_key b) (fb_derived_revision b) (fb_source_revision b) archive ordered)
  end.

(** [RemoteBundleReceipt::is_source_backup] (media_pipeline/upload_bundle.rs:737-739). *)
Definition is_source_backup (r : RemoteBundleReceipt) : bool :=
  match rb_source_archive r with ArchiveVerified _ => true | NotArchived => false end.

(** [RetentionBlockReason] (media_pipeline/upload_bundle.rs:818-822). *)
Inductive RetentionBlockReason := DisabledByDefault | SourceArchiveNotRemotelyVerified | ArchivePolicyMismatch.

(** [SourceRetentionDecision] (media_pipeline/upload_bundle.rs:806-814). *)
Inductive SourceRetentionDecision :=
| KeepSource (reason : RetentionBlockReason)
| EligibleAfterGracePeriod (archive_policy_revision : string) (grace_period_seconds : N).

(** [evaluate_source_retention] (media_pipeline/upload_bundle.rs:828-858). *)
Definition evaluate_source_retention (policy : SourceRetentionPolicy) (remote : RemoteBundleReceipt)
    : SourceRetentionDecision :=
  match policy with
  | RetentionDisabled => KeepSource DisabledByDefault
  | AfterVerifiedSourceArchive archive_policy_revision grace_period_seconds =>
      match rb_source_archive remote with
      | NotArchived => KeepSource SourceArchiveNotRemotelyVerified
      | ArchiveVerified policy_revision =>
          if String.eqb policy_revision archive_policy_revision
          then EligibleAfterGracePeriod archive_policy_revision grace_period_seconds
          else KeepSource ArchivePolicyMismatch
      end
  end.
