(* ===== verification/UploadBundleProofs.v ===== *)
(** * UploadBundleProofs: what a frozen bundle and a remote receipt guarantee

An object key names one object of one revision; a frozen bundle is whole, reads
back as itself and is named by its revision; a remote receipt has every object
read back; and a local source is only released against a whole remote archive. *)

From Stdlib Require Import NArith Lia Ascii String.
From stdpp Require Import base numbers list strings gmap sorting.
From S2P Require Import Prelude Domain Files Json Ingest Rational Profile MediaPlan Validation Manifest.
From S2P Require Import MediaStore UploadBundle.

Local Open Scope string_scope.

(** ** Object keys *)

Lemma split_char_app c s t : str_mem c s = false -> split_char c (s ++ String c t) = s :: split_char c t.
Proof.
  unfold str_mem, str_any. rewrite negb_false_iff. induction s as [|a s IH]; intros Hs.
  - change ("" ++ String c t) with (String c t). cbn [split_char]. by rewrite Ascii.eqb_refl.
  - change (String a s ++ String c t) with (String a (s ++ String c t)). cbn [str_all] in Hs. apply andb_true_iff in Hs as [Ha Hs]. rewrite negb_true_iff in Ha. cbn [split_char].
    rewrite Ascii.eqb_sym, Ha, IH by done. done.
Qed.

Lemma split_char_none c s : str_mem c s = false -> split_char c s = [s].
Proof.
  unfold str_mem, str_any. rewrite negb_false_iff. induction s as [|a s IH]; [done|]. intros Hs.
  cbn [str_all] in Hs. apply andb_true_iff in Hs as [Ha Hs]. rewrite negb_true_iff in Ha. cbn [split_char].
  by rewrite Ascii.eqb_sym, Ha, IH.
Qed.

Lemma split_concat c l :
  l <> [] -> Forall (fun s => str_mem c s = false) l -> split_char c (String.concat (String c "") l) = l.
Proof.
  intros Hl Hf. induction Hf as [|s l Hs Hf IH]; [done|]. destruct l as [|t l].
  - cbn. by apply split_char_none.
  - change (String.concat (String c "") (s :: t :: l)) with (s ++ String c (String.concat (String c "") (t :: l))).
    rewrite split_char_app by done. by rewrite IH.
Qed.

Lemma encode_byte_inj b b' r r' : encode_byte b r = encode_byte b' r' -> b = b' /\ r = r'.
Proof.
  unfold encode_byte. assert (Hp : forall c, unreserved c = true -> ascii_of_byte c <> "%"%char) by (intros []; vm_compute; done).
  assert (Hx : forall c, byte_of (default 0%N (hex_val (upper_hex_digit (Byte.to_N c / 16))) * 16
                                   + default 0%N (hex_val (upper_hex_digit (Byte.to_N c mod 16)))) = c) by (intros []; by vm_compute).
  destruct (unreserved b) eqn:Eb, (unreserved b') eqn:Eb'; intros [= Ha].
  - split; [|done]. by rewrite <- (byte_of_ascii_of_byte b), Ha, byte_of_ascii_of_byte.
  - by apply Hp in Eb.
  - by apply Hp in Eb'.
  - split; [|done]. rewrite <- (Hx b), <- (Hx b'). congruence.
Qed.

Lemma percent_encode_inj bs bs' : percent_encode bs = percent_encode bs' -> bs = bs'.
Proof.
  assert (Hne : forall b r, encode_byte b r <> "") by (intros b r; unfold encode_byte; by destruct (unreserved b)).
  revert bs'. induction bs as [|b bs IH]; intros [|b' bs']; simpl; [done|intros E; by destruct (Hne _ _ (eq_sym E))|
    intros E; by destruct (Hne _ _ E)|]. intros [-> E]%encode_byte_inj. f_equal. by apply IH.
Qed.

Lemma percent_encode_no_slash bs : str_mem "/" (percent_encode bs) = false.
Proof.
  unfold str_mem, str_any. rewrite negb_false_iff. induction bs as [|b bs IH]; [done|].
  change (percent_encode (b :: bs)) with (encode_byte b (percent_encode bs)). unfold encode_byte.
  assert (Hb : negb ("/" =? ascii_of_byte b)%char = true \/ unreserved b = false) by (destruct b; vm_compute; auto).
  assert (Hx : negb ("/" =? upper_hex_digit (Byte.to_N b / 16))%char = true /\
               negb ("/" =? upper_hex_digit (Byte.to_N b mod 16))%char = true) by (destruct b; by vm_compute).
  destruct (unreserved b) eqn:Eb; cbn [str_all]; rewrite IH, ?andb_true_r.
  - by destruct Hb.
  - destruct Hx as [-> ->]. done.
Qed.

Lemma encode_segment_ok s e : encode_opaque_segment s = Ok e -> e = percent_encode (bytes_of s).
Proof.
  unfold encode_opaque_segment. rewrite rbind_ok. intros (u & _ & Hr). revert Hr. destruct (_ <? _)%N; [done|]. by intros [= <-].
Qed.

(** A key determines the segments it was made of. *)
Lemma extend_key_inj ns segments ns' segments' k :
  extend_key ns segments = Ok k -> extend_key ns' segments' = Ok k -> segments <> [] -> segments' <> [] ->
  (ns ++ segments = ns' ++ segments')%list.
Proof.
  unfold extend_key. intros H1 H2 Hs Hs'. apply rbind_ok in H1 as (e & He%rtraverse_ok & H1), H2 as (e' & He'%rtraverse_ok & H2).
  destruct (_ <? str_len (String.concat "/" e))%N; [done|]. destruct (_ <? str_len (String.concat "/" e'))%N; [done|].
  injection H1 as <-. injection H2 as Hk.
  assert (Hsplit : forall l enc, Forall2 (fun x y => encode_opaque_segment x = Ok y) l enc -> l <> [] ->
    split_char "/" (String.concat "/" enc) = enc /\ enc = map (fun x => percent_encode (bytes_of x)) l).
  { intros l enc Hf Hl.
    assert (Henc : enc = map (fun x => percent_encode (bytes_of x)) l).
    { clear Hl. induction Hf as [|x y l enc Hx _ IH]; [done|]. simpl. f_equal; [by apply encode_segment_ok|done]. }
    split; [|done]. apply split_concat; [destruct l; [done|by rewrite Henc]|]. rewrite Henc, Forall_map.
    apply Forall_true. intros x. apply percent_encode_no_slash. }
  destruct (Hsplit _ _ He) as [S1 ->]; [by destruct ns, segments|]. destruct (Hsplit _ _ He') as [S2 ->]; [by destruct ns', segments'|].
  rewrite <- Hk, S2 in S1. symmetry.
  assert (Hinj : Inj (=) (=) (fun x => percent_encode (bytes_of x))) by (intros x y E; by apply bytes_of_inj, percent_encode_inj).
  exact (inj (fmap (M := list) (fun x => percent_encode (bytes_of x))) _ _ S1).
Qed.

(** The roles that share one place. *)
Definition same_place (a b : UploadObjectRole) : Prop :=
  a = b \/ (a = UoDerivedMetadata "provenance.json" /\ b = UoProvenanceReport) \/
  (a = UoProvenanceReport /\ b = UoDerivedMetadata "provenance.json").

Definition is_derived (r : UploadObjectRole) : bool :=
  match r with UoSourceManifest | UoSourceMetadata _ | UoSourceVideoArchive _ => false | _ => true end.

(** An object key names one object: two bundles that derive the same key in
    the same namespace have the same origin, session and source revision, for a
    derived object also the same profile and derived revision, and the object
    has the same role and file; the one exception is a derived metadata file
    called provenance.json, which takes the place of the provenance report (and
    makes one bundle's keys collide, which is refused). *)
Theorem object_key_names_one_object i i' r r' k :
  derive_object_key i r = Ok k -> derive_object_key i' r' = Ok k -> bi_namespace i = bi_namespace i' ->
  bi_origin_identity i = bi_origin_identity i' /\ bi_session_or_source_id i = bi_session_or_source_id i' /\
  bi_source_revision i = bi_source_revision i' /\ same_place r r' /\
  (is_derived r = true -> bi_profile_revision i = bi_profile_revision i' /\ bi_derived_revision i = bi_derived_revision i').
Proof.
  unfold derive_object_key. intros H1 H2 Hns. rewrite Hns in H1.
  assert (E := extend_key_inj _ _ _ _ _ H1 H2 ltac:(done) ltac:(done)). apply (inj (app (bi_namespace i'))) in E.
  injection E as Ho Hs Hr Hrole. split_and!; [done|done|by apply digest_ext|..].
  - unfold same_place. destruct r, r'; cbn in Hrole; try discriminate Hrole; try (injection Hrole; intros; subst); auto.
  - intros Hd. destruct r, r'; cbn in Hrole, Hd; try discriminate; injection Hrole; intros; split; by apply digest_ext.
Qed.

(** ** The loop over the objects *)

Lemma btree_insert_elem x l l' y : btree_insert x l = Some l' -> y ∈ l' <-> y = x \/ y ∈ l.
Proof.
  revert l'. induction l as [|z l IH]; intros l'; simpl; [intros [= <-]; set_solver|].
  destruct (String.ltb x z); [intros [= <-]; set_solver|]. destruct (String.eqb x z); [done|].
  destruct (btree_insert x l) as [r|]; [|done]. intros [= <-]. rewrite !elem_of_cons, (IH r eq_refl). tauto.
Qed.

Definition role_is (p : UploadObjectRole -> bool) (o : FrozenUploadObject) : bool := p (fo_role o).
Definition count (p : UploadObjectRole -> bool) (os : list FrozenUploadObject) : N := N.of_nat (length (List.filter (role_is p) os)).
Definition is_source_manifest (r : UploadObjectRole) : bool := match r with UoSourceManifest => true | _ => false end.
Definition is_provenance (r : UploadObjectRole) : bool := match r with UoProvenanceReport => true | _ => false end.
Definition is_media (r : UploadObjectRole) : bool := match r with UoDerivedMedia _ => true | _ => false end.

Lemma count_cons p o os : count p (o :: os) = ((if p (fo_role o) then 1 else 0) + count p os)%N.
Proof. unfold count, role_is. simpl. destruct (p (fo_role o)); simpl; lia. Qed.

(** An object as it is frozen. *)
Definition freezes (i : UploadBundleInput) (o : UploadObjectInput) (f : FrozenUploadObject) : Prop :=
  exists key, derive_object_key i (oi_role o) = Ok key /\ f = frozen_of o key.

(** What the loop does to the tally. *)
Record tallied (t t' : Tally) (fs : list FrozenUploadObject) : Prop := {
  td_keys : NoDup (fo_object_key <$> fs) /\ (forall f, f ∈ fs -> fo_object_key f ∉ ta_keys t) /\
    ta_keys t' = ta_keys t ∪ list_to_set (fo_object_key <$> fs);
  td_objects : ta_objects t' = (ta_objects t ++ List.filter (fun f => negb (role_is is_manifest f)) fs)%list;
  td_manifest : match List.filter (role_is is_manifest) fs with
                | [] => ta_derived_manifest t' = ta_derived_manifest t
                | [m] => ta_derived_manifest t = None /\ ta_derived_manifest t' = Some m
                | _ => False
                end;
  td_sources : ta_source_manifest_count t' = (ta_source_manifest_count t + count is_source_manifest fs)%N;
  td_provenances : ta_provenance_count t' = (ta_provenance_count t + count is_provenance fs)%N;
  td_media : ta_derived_media_count t' = (ta_derived_media_count t + count is_media fs)%N;
  td_ids : forall id, id ∈ ta_source_video_ids t' <->
    id ∈ ta_source_video_ids t \/ exists f, f ∈ fs /\ fo_role f = UoSourceVideoArchive id;
}.

Lemma tally_object_ok i t o t' :
  tally_object i t o = Ok t' -> exists f, freezes i o f /\ tallied t t' [f].
Proof.
  unfold tally_object. rewrite rbind_ok. intros (u & _ & Hr). revert Hr. rewrite rbind_ok. intros (t1 & Hc & Hr). revert Hr.
  rewrite rbind_ok. intros (key & Hk & Hr). revert Hr. case_bool_decide as Hin; [done|].
  destruct t1 as [m1 s1 p1 d1 ids1 os1 keys1] eqn:E1. intros [= <-]. exists (frozen_of o key). split; [by exists key|].
  destruct t as [m s p d ids os keys]. cbn in Hin.
  destruct (oi_role o) eqn:Er; cbn [count_role] in Hc;
    try (injection Hc as <- <- <- <- <- <- <-; constructor; unfold count, role_is; cbn; rewrite ?Er, ?app_nil_r; cbn;
         try (split_and!; [apply NoDup_singleton|set_solver|set_solver]); try reflexivity; try lia; try done;
         intros id; split; [by left|intros [?|(f & ->%list_elem_of_singleton & Hf)]; [done|]; cbn in Hf; congruence]).
  - destruct m as [m|]; [done|]. injection Hc as <- <- <- <- <- <- <-. constructor; unfold count, role_is; cbn; rewrite ?Er, ?app_nil_r; cbn;
      try (split_and!; [apply NoDup_singleton|set_solver|set_solver]); try reflexivity; try lia; try done.
    intros id; split; [by left|intros [?|(f & ->%list_elem_of_singleton & Hf)]; [done|]; cbn in Hf; congruence].
  - apply rbind_ok in Hc as (ids' & Hi%ok_or_ok & Hc). injection Hc as <- <- <- <- <- <- <-.
    constructor; unfold count, role_is; cbn; rewrite ?Er, ?app_nil_r; cbn;
      try (split_and!; [apply NoDup_singleton|set_solver|set_solver]); try reflexivity; try lia; try done.
    intros id. rewrite (btree_insert_elem _ _ _ id Hi). split.
    + intros [->|?]; [right|by left]. eexists. split; [by apply list_elem_of_singleton|done].
    + intros [?|(f & ->%list_elem_of_singleton & Hf)]; [by right|]. cbn in Hf. left. congruence.
Qed.

Lemma tallied_trans t t1 t2 f fs : tallied t t1 [f] -> tallied t1 t2 fs -> tallied t t2 (f :: fs).
Proof.
  intros [(_ & K2 & K3) O M S P D I] [(L1 & L2 & L3) O' M' S' P' D' I']. constructor.
  - split_and!.
    + cbn. constructor; [|done]. intros (g & Hg & Hin)%list_elem_of_fmap. apply (L2 g Hin). rewrite K3, <- Hg. set_solver.
    + intros g [->|Hg]%elem_of_cons; [apply K2; set_solver|]. specialize (L2 g Hg). rewrite K3 in L2. set_solver.
    + rewrite L3, K3. cbn. set_solver.
  - rewrite O', O, <- app_assoc. f_equal. simpl. by destruct (role_is is_manifest f).
  - cbn [List.filter] in M |- *. destruct (role_is is_manifest f).
    + destruct M as [M1 M2]. revert M'. destruct (List.filter (role_is is_manifest) fs) as [|m [|]]; [intros; split; congruence|intros []; congruence|done].
    + revert M'. destruct (List.filter (role_is is_manifest) fs) as [|m [|]]; [congruence|intros []; split; congruence|done].
  - rewrite S', S, !count_cons. change (count is_source_manifest []) with 0%N. lia.
  - rewrite P', P, !count_cons. change (count is_provenance []) with 0%N. lia.
  - rewrite D', D, !count_cons. change (count is_media []) with 0%N. lia.
  - intros id. rewrite I', I. setoid_rewrite elem_of_cons. setoid_rewrite elem_of_nil. naive_solver.
Qed.

Lemma tally_objects_ok i os : forall t t',
  tally_objects i t os = Ok t' -> exists fs, Forall2 (freezes i) os fs /\ tallied t t' fs.
Proof.
  induction os as [|o os IH]; intros t t'; simpl.
  - intros [= <-]. exists []. split; [constructor|]. constructor; unfold count; simpl; try lia; try done.
    + split_and!; [constructor|intros f Hf; by apply elem_of_nil in Hf|set_solver].
    + by rewrite app_nil_r.
    + intros id. split; [by left|intros [?|(f & Hf & _)]; [done|by apply elem_of_nil in Hf]].
  - rewrite rbind_ok. intros (t1 & H1 & H2). apply tally_object_ok in H1 as (f & Hf & T1). apply IH in H2 as (fs & Hfs & T2).
    exists (f :: fs). split; [by constructor|by eapply tallied_trans].
Qed.

Lemma filter_permutation {A} (p : A -> bool) l : l ≡ₚ (List.filter (fun x => negb (p x)) l ++ List.filter p l)%list.
Proof.
  induction l as [|x l IH]; [done|]. simpl. destruct (p x); simpl; [|by constructor].
  rewrite IH at 1. apply Permutation_middle.
Qed.

Section frozen.
Context `{Sha256}.

(** What [freeze] checked and made. *)
Record frozen_from (i : UploadBundleInput) (prepared : PreparedUploadBundle) (b : FrozenUploadBundle) : Prop := {
  ff_prepared : prepare_upload_bundle i = Ok prepared;
  ff_bundle : b = mkBundle UPLOAD_BUNDLE_SCHEMA_VERSION (bundle_revision (request_digest_of i prepared) (bi_unsigned_admission i))
        (bi_namespace i) (bi_origin_identity i) (bi_session_or_source_id i) (bi_source_revision i)
        (bi_source_provenance i) (bi_source_inventory_digest i) (bi_unsigned_admission i)
        (pr_provenance_digest prepared) (bi_profile_revision i) (bi_derived_revision i)
        (bi_storage_profile_identity i) (bi_source_archival i) (bi_upload_policy_revision i)
        (request_digest_of i prepared) (pr_objects prepared);
  ff_admission : if is_unsigned (bi_source_provenance i)
    then bi_source_archival i = ArchivalDisabled /\
      exists receipt, bi_unsigned_admission i = Some receipt /\ at_statement receipt = UNSIGNED_ADMISSION_STATEMENT /\
      at_request receipt = mkAdmissionRequest (bi_source_revision i) (bi_source_inventory_digest i) (bi_derived_revision i)
          (request_digest_of i prepared) (bi_storage_profile_identity i) (bi_source_archival i) (bi_upload_policy_revision i)
    else bi_unsigned_admission i = None;
}.

Lemma freeze_ok i b : freeze i = Ok b -> exists prepared, frozen_from i prepared b.
Proof.
  unfold freeze. rewrite rbind_ok. intros (p & Hp & Hr). revert Hr. rewrite rbind_ok. intros (request & Hq & Hr). revert Hr.
  rewrite rbind_ok. intros (u & Ha & [= <-]). exists p. constructor; [done|done|].
  destruct (bi_source_provenance i) as [signed|unsigned]; cbn [is_unsigned] in *.
  - injection Hq as <-. cbn in Ha. by destruct (bi_unsigned_admission i).
  - apply rbind_ok in Hq as (r & Hr & [= <-]). unfold admission_request_for_prepared in Hr. apply rmap_err_ok in Hr.
    unfold UnsignedUploadAdmissionRequest_new in Hr. apply rbind_ok in Hr as (u' & _ & Hr). cbn in Hr.
    case_bool_decide as Harch; [|done]. injection Hr as <-. split; [done|]. cbn in Ha.
    destruct (bi_unsigned_admission i) as [receipt|]; [|done]. destruct (admission_matches _ _) eqn:Em; [|done].
    unfold admission_matches in Em. rewrite andb_true_iff, String.eqb_eq, bool_decide_eq_true in Em. destruct Em. by exists receipt.
Qed.

Lemma prepare_ok i p :
  prepare_upload_bundle i = Ok p ->
  pr_provenance_digest p = provenance_digest (bi_source_provenance i) /\
  exists t fs m, tally_objects i empty_tally (bi_objects i) = Ok t /\ Forall2 (freezes i) (bi_objects i) fs /\
    tallied empty_tally t fs /\ List.filter (role_is is_manifest) fs = [m] /\
    pr_objects p = (List.filter (fun f => negb (role_is is_manifest f)) fs ++ [m])%list /\
    count is_source_manifest fs = 1%N /\ count is_provenance fs = 1%N /\ (0 < count is_media fs)%N /\
    validate_source_archive_inventory (bi_source_archival i) (ta_source_video_ids t) = Ok tt.
Proof.
  unfold prepare_upload_bundle. do 5 (rewrite rbind_ok; intros (? & _ & Hr); revert Hr).
  rewrite rbind_ok. intros (t & Ht & Hr). revert Hr. rewrite rbind_ok. intros (os & Hos & [= <-]). cbn. split; [done|].
  destruct (tally_objects_ok _ _ _ _ Ht) as (fs & Hfs & T). exists t, fs. revert Hos. unfold tally_complete.
  rewrite (td_sources _ _ _ T), (td_provenances _ _ _ T), (td_media _ _ _ T), (td_objects _ _ _ T). cbn [empty_tally ta_source_manifest_count ta_provenance_count ta_derived_media_count ta_objects].
  destruct (N.eqb_spec (0 + count is_source_manifest fs) 1); [|done]. destruct (N.eqb_spec (0 + count is_provenance fs) 1); [|done].
  destruct (N.eqb_spec (0 + count is_media fs) 0); [done|]. cbn [negb]. rewrite rbind_ok. intros ([] & Hv & Hr). revert Hr.
  rewrite rbind_ok. intros (m & Hm%ok_or_ok & [= <-]). exists m. assert (M := td_manifest _ _ _ T). rewrite Hm in M. revert M.
  destruct (List.filter (role_is is_manifest) fs) as [|m' [|]]; [done|intros [_ [= <-]]|done].
  split_and!; try done; lia.
Qed.

(** The videos that a policy archives. *)
Definition archived_ids (a : SourceArchivalPolicy) : list string :=
  match a with ArchivalDisabled => [] | ArchivalEnabled _ ids => ids end.

Record bundle_whole (i : UploadBundleInput) (b : FrozenUploadBundle) : Prop := {
  bw_objects : exists fs, Forall2 (freezes i) (bi_objects i) fs /\ fb_objects b ≡ₚ fs;
  bw_keys : NoDup (fo_object_key <$> fb_objects b);
  bw_manifest_last : exists before m, fb_objects b = (before ++ [m])%list /\ fo_role m = UoDerivedManifest /\
    Forall (fun o => fo_role o <> UoDerivedManifest) before;
  bw_roles : count is_source_manifest (fb_objects b) = 1%N /\ count is_provenance (fb_objects b) = 1%N /\
    (0 < count is_media (fb_objects b))%N;
  bw_archive : forall id, id ∈ archived_ids (fb_source_archival b) <->
    exists o, o ∈ fb_objects b /\ fo_role o = UoSourceVideoArchive id;
  bw_admission : if is_unsigned (fb_source_provenance b)
    then fb_source_archival b = ArchivalDisabled /\ exists receipt, fb_unsigned_admission b = Some receipt /\
      at_request receipt = mkAdmissionRequest (fb_source_revision b) (fb_source_inventory_digest b) (fb_derived_revision b)
          (fb_upload_request_digest b) (fb_storage_profile_identity b) ArchivalDisabled (fb_upload_policy_revision b)
    else fb_unsigned_admission b = None;
}.

Lemma count_permutation p os os' : os ≡ₚ os' -> count p os = count p os'.
Proof.
  unfold count. intros Hp. f_equal. induction Hp as [|x l l' _ IH|x y l|l l' l2 _ IH1 _ IH2]; simpl; [done|..].
  - destruct (role_is p x); simpl; congruence.
  - by destruct (role_is p x), (role_is p y).
  - congruence.
Qed.

Lemma frozen_objects_permutation i p fs m :
  List.filter (role_is is_manifest) fs = [m] ->
  pr_objects p = (List.filter (fun f => negb (role_is is_manifest f)) fs ++ [m])%list -> Forall2 (freezes i) (bi_objects i) fs ->
  pr_objects p ≡ₚ fs.
Proof. intros Hm -> _. rewrite (filter_permutation (role_is is_manifest) fs) at 2. by rewrite Hm. Qed.

Lemma freeze_whole i b : freeze i = Ok b -> bundle_whole i b.
Proof.
  intros (p & [Hp -> Ha])%freeze_ok. destruct (prepare_ok _ _ Hp) as (_ & t & fs & m & _ & Hfs & T & Hm & Hos & Hs & Hpr & Hd & Harch).
  assert (Hperm := frozen_objects_permutation _ _ _ _ Hm Hos Hfs).
  assert (Hrole : forall x, x ∈ List.filter (role_is is_manifest) fs -> fo_role x = UoDerivedManifest).
  { intros x [_ Hx]%list_elem_of_In%filter_In. unfold role_is, is_manifest in Hx. by destruct (fo_role x). }
  constructor; cbn.
  - by exists fs.
  - rewrite Hperm. apply (td_keys _ _ _ T).
  - eexists _, m. split; [exact Hos|]. split; [apply Hrole; rewrite Hm; set_solver|]. apply Forall_forall.
    intros x [_ Hx]%list_elem_of_In%filter_In Hr. unfold role_is in Hx. by rewrite Hr in Hx.
  - rewrite !(count_permutation _ _ _ Hperm). done.
  - intros id. setoid_rewrite Hperm. assert (Hid := td_ids _ _ _ T id). cbn in Hid. rewrite elem_of_nil in Hid.
    transitivity (id ∈ ta_source_video_ids t); [|tauto]. revert Harch. unfold validate_source_archive_inventory, archived_ids.
    destruct (bi_source_archival i); case_bool_decide as Hids; try done; by rewrite Hids.
  - destruct (is_unsigned _); [|done]. destruct Ha as (He & receipt & Hr & _ & Hreq). split; [done|]. exists receipt.
    split; [done|]. by rewrite Hreq, He.
Qed.

(** C22: a frozen bundle is whole: it holds every object of its input exactly
    once, under the key derived for it, no two under one key; one source
    manifest, one provenance report, some derived media and, as the last object,
    the one derived manifest; its source videos are exactly those its archival
    policy names; a signed source carries no admission, and an unsigned one
    carries a receipt for this very source, derivative, request digest,
    destination and policy, with archival disabled. *)
Theorem frozen_bundle_is_whole i b : freeze i = Ok b -> bundle_whole i b.
Proof. apply freeze_whole. Qed.

(** ** Reading a bundle back *)

Lemma rebuild_same a a' : rebuild_admission a = Ok a' -> a' = a.
Proof.
  unfold rebuild_admission. rewrite rbind_ok. intros (r & Hr & Hk). revert Hk. rewrite rbind_ok. intros (a2 & Ha & Hk). revert Hk.
  destruct (_ || _) eqn:E; [done|]. intros [= ->]. rewrite orb_false_iff, !negb_false_iff, !String.eqb_eq in E.
  unfold UnsignedUploadAdmissionRequest_new in Hr. apply rbind_ok in Hr as (u & _ & Hr). destruct (negb _); [done|]. injection Hr as <-.
  unfold admit_request in Ha. do 2 (apply rbind_ok in Ha as (? & _ & Ha)). injection Ha as <-. cbn in E. destruct a as [id st rq by_ at_].
  cbn in *. destruct E as [-> ->]. done.
Qed.

(** The manifest may be counted after an object that it came before. *)
Lemma tally_manifest_later i t m t1 o t2 :
  tally_object i t m = Ok t1 -> is_manifest (oi_role m) = true -> tally_object i t1 o = Ok t2 -> is_manifest (oi_role o) = false ->
  exists t1', tally_object i t o = Ok t1' /\ tally_object i t1' m = Ok t2.
Proof.
  unfold tally_object. destruct (oi_role m) eqn:Erm; try done. intros H1 _ H2 Hno.
  apply rbind_ok in H1 as ([] & Hvm & H1). apply rbind_ok in H1 as (tc & Hc & H1). apply rbind_ok in H1 as (km & Hkm & H1).
  destruct t as [mf s pr d ids os keys]. cbn [count_role] in Hc. destruct mf as [mf|]; [done|]. injection Hc as <-.
  revert H1. case_bool_decide as Hin; [done|]. intros [= <-]. cbn [is_manifest] in *.
  apply rbind_ok in H2 as ([] & Hvo & H2). apply rbind_ok in H2 as (tc & Hc & H2). apply rbind_ok in H2 as (ko & Hko & H2).
  revert H2. case_bool_decide as Hino; [done|]. intros H2. rewrite Hvo, Hko, Hvm, Hkm, Hno in *. cbn [rbind] in *.
  assert (Hswap : forall k, {[ko]} ∪ ({[km]} ∪ k) =@{gset string} {[km]} ∪ ({[ko]} ∪ k)) by set_solver.
  assert (Hc' : exists s' pr' d' ids', count_role (mkTally None s pr d ids os keys) (oi_role o) = Ok (mkTally None s' pr' d' ids' os keys) /\
    tc = mkTally (Some (frozen_of m km)) s' pr' d' ids' os ({[km]} ∪ keys)).
  { destruct (oi_role o); try done; cbn [count_role] in *;
      try (injection Hc as <-; eexists _, _, _, _; split; reflexivity).
    apply rbind_ok in Hc as (ids' & Hids & [= <-]). rewrite Hids. eexists _, _, _, _. split; reflexivity. }
  destruct Hc' as (s' & pr' & d' & ids' & Hcr & ->). rewrite Hcr. cbn [rbind ta_keys] in *. injection H2 as <-.
  rewrite bool_decide_false by set_solver. eexists. split; [reflexivity|]. cbn [count_role ta_keys rbind].
  rewrite bool_decide_false by set_solver. by rewrite Hswap.
Qed.

Lemma tally_manifest_last i m os : forall t t',
  is_manifest (oi_role m) = true -> Forall (fun o => is_manifest (oi_role o) = false) os ->
  tally_objects i t (m :: os) = Ok t' -> tally_objects i t (os ++ [m]) = Ok t'.
Proof.
  induction os as [|o os IH]; intros t t' Hm Hf; [done|]. apply Forall_cons in Hf as [Ho Hf].
  cbn [tally_objects app]. rewrite rbind_ok. intros (t1 & H1 & Hr). apply rbind_ok in Hr as (t2 & H2 & Hr).
  destruct (tally_manifest_later _ _ _ _ _ _ H1 Hm H2 Ho) as (t1' & H1' & H2'). rewrite H1'. cbn [rbind].
  apply IH; [done|done|]. cbn [tally_objects]. by rewrite H2'.
Qed.

Lemma tally_objects_app i a b t :
  tally_objects i t (a ++ b) = (let? t := tally_objects i t a in tally_objects i t b).
Proof. revert t. induction a as [|o a IH]; intros t; [done|]. cbn. destruct (tally_object i t o); [apply IH|done]. Qed.

(** The objects of a bundle, as inputs, are counted alike. *)
Lemma frozen_inputs i os fs : Forall2 (freezes i) os fs -> map input_of_object fs = os.
Proof. induction 1 as [|o f os fs (k & _ & ->) _ IH]; simpl; [done|]. rewrite IH. by destruct o. Qed.

Lemma manifest_split i os fs m :
  Forall2 (freezes i) os fs -> List.filter (role_is is_manifest) fs = [m] ->
  exists a b, os = (a ++ input_of_object m :: b)%list /\
    map input_of_object (List.filter (fun f => negb (role_is is_manifest f)) fs) = (a ++ b)%list /\
    is_manifest (oi_role (input_of_object m)) = true /\ Forall (fun o => is_manifest (oi_role o) = false) b.
Proof.
  assert (Hnone : forall os fs, Forall2 (freezes i) os fs -> List.filter (role_is is_manifest) fs = [] ->
    map input_of_object (List.filter (fun f => negb (role_is is_manifest f)) fs) = os /\
    Forall (fun o => is_manifest (oi_role o) = false) os).
  { induction 1 as [|o f os' fs' (k & _ & ->) Hf IH]; [done|]. cbn [List.filter].
    change (role_is is_manifest (frozen_of o k)) with (is_manifest (oi_role o)).
    destruct (is_manifest (oi_role o)) eqn:E; [done|]. intros [IH1 IH2]%IH. cbn [negb map]. rewrite IH1.
    split; [by destruct o|by constructor]. }
  induction 1 as [|o f os fs (k & Hk & ->) Hf IH]; [done|]. cbn [List.filter].
  change (role_is is_manifest (frozen_of o k)) with (is_manifest (oi_role o)).
  destruct (is_manifest (oi_role o)) eqn:E.
  - intros [= <- Hn]. destruct (Hnone _ _ Hf Hn) as [N1 N2]. exists [], os. cbn [negb map app]. split_and!; [by destruct o|done|by destruct o|done].
  - intros (a & b & -> & Hab & Hm & Hb)%IH. exists (o :: a), b. cbn [negb map app]. rewrite Hab. split_and!; [done|by destruct o|done|done].
Qed.

Lemma prepare_wire i p b :
  frozen_from i p b -> prepare_upload_bundle (wire_input b (bi_unsigned_admission i)) = Ok p.
Proof.
  intros [Hp -> _]. destruct (prepare_ok _ _ Hp) as (_ & t & fs & m & Ht & Hfs & T & Hm & Hos & _).
  destruct (manifest_split _ _ _ _ Hfs Hm) as (a & c & Eos & Hac & Hrole & Hc).
  assert (Hw : tally_objects i empty_tally (map input_of_object (pr_objects p)) = Ok t).
  { rewrite Hos, map_app, Hac. simpl. rewrite <- app_assoc, tally_objects_app. revert Ht. rewrite Eos, tally_objects_app.
    destruct (tally_objects i empty_tally a) as [t1|]; [|done]. cbn [rbind]. by apply tally_manifest_last. }
  revert Hp. unfold prepare_upload_bundle. cbn [wire_input bi_namespace bi_origin_identity bi_session_or_source_id
    bi_upload_policy_revision bi_source_archival bi_source_provenance bi_objects fb_namespace fb_origin_identity fb_session_or_source_id
    fb_upload_policy_revision fb_source_archival fb_source_provenance fb_objects].
  do 5 (rewrite rbind_ok; intros (? & -> & Hr); cbn [rbind]; revert Hr). rewrite Ht. cbn [rbind].
  replace (tally_objects (wire_input _ _) empty_tally (map input_of_object (pr_objects p))) with (Ok (E := UploadBundleError) t); [done|].
  rewrite <- Hw. generalize (map input_of_object (pr_objects p)) as os. generalize empty_tally. clear.
  intros t os. revert t. induction os as [|o os IH]; intros t; [done|]. cbn [tally_objects].
  change (tally_object (wire_input _ _) t o) with (tally_object i t o). destruct (tally_object i t o); [apply IH|done].
Qed.

(** A frozen bundle reads back as itself, and whatever reads back is a
    frozen bundle, equal to what was stored: the persisted order, keys, digests
    and revision cannot be anything but what freezing the stored fields again
    gives. *)
Theorem frozen_bundle_roundtrip i b :
  freeze i = Ok b -> storage_profile_parse (bi_storage_profile_identity i) = Ok (bi_storage_profile_identity i) ->
  (forall a, bi_unsigned_admission i = Some a -> rebuild_admission a = Ok a) ->
  thaw b = Ok b /\ forall wire b', thaw wire = Ok b' -> b' = wire /\ exists i', freeze i' = Ok b'.
Proof.
  intros Hf Hst Had. split.
  - assert (Hff := Hf). apply freeze_ok in Hff as (p & Hff). assert (Hw := prepare_wire _ _ _ Hff). destruct Hff as [Hp -> _].
    unfold thaw. cbn [fb_storage_profile_identity fb_unsigned_admission fb_schema_version]. rewrite Hst. cbn [rbind].
    set (b := mkBundle _ _ _ _ _ _ _ _ _ _ _ _ _ _ _ _ _) in *.
    assert (Hfw : freeze (wire_input b (bi_unsigned_admission i)) = Ok b).
    { revert Hf. unfold freeze. rewrite Hp, Hw. cbn [rbind]. tauto. }
    destruct (bi_unsigned_admission i) as [a|]; [rewrite (Had a eq_refl)|]; cbn [rmap_err rbind]; rewrite N.eqb_refl; cbn [negb];
      rewrite Hfw; cbn [rbind]; by rewrite !bool_decide_true.
  - intros wire b'. unfold thaw. rewrite rbind_ok. intros (u & _ & Hr). revert Hr. rewrite rbind_ok. intros (a & Ha & Hr). revert Hr.
    destruct (N.eqb_spec (fb_schema_version wire) UPLOAD_BUNDLE_SCHEMA_VERSION) as [Hv|]; [|done]. cbn [negb].
    rewrite rbind_ok. intros (r & Hfr & Hr). revert Hr. destruct (negb (bool_decide (fb_revision r = fb_revision wire)) || _ || _ || _) eqn:E; [done|].
    intros [= <-]. split; [|by eexists]. rewrite !orb_false_iff, !negb_false_iff, !bool_decide_eq_true in E.
    destruct E as [[[E1 E2] E3] E4]. assert (Haa : a = fb_unsigned_admission wire).
    { destruct (fb_unsigned_admission wire) as [w|]; [|by injection Ha as <-]. apply rbind_ok in Ha as (w' & Hw%rmap_err_ok & [= <-]).
      by rewrite (rebuild_same _ _ Hw). }
    subst a. apply freeze_ok in Hfr as (p & [_ -> _]). clear Ha. destruct wire. cbn in *. f_equal; done.
Qed.
End frozen.

(** ** The revision of a bundle *)

Definition fields_fit (fields : list (string * list byte)) : Prop :=
  Forall (fun f => fits_str f.1 /\ addressable f.2) fields.

Lemma digest_field_inj f g x y :
  fits_str f.1 /\ addressable f.2 -> fits_str g.1 /\ addressable g.2 ->
  (digest_field f ++ x = digest_field g ++ y)%list -> f = g /\ x = y.
Proof.
  destruct f as [t v], g as [t' v']. unfold digest_field. cbn [fst snd]. intros [Ht Hv] [Ht' Hv']. rewrite <- !app_assoc.
  intros [-> E]%absorb_str_inj; [|done..]. by apply absorb_app_inj in E as [-> ->].
Qed.

Lemma digest_field_nonempty f x : (digest_field f ++ x)%list <> [].
Proof. unfold digest_field, absorb, be64. done. Qed.

Lemma fields_text_inj l l' : fields_fit l -> fields_fit l' -> fields_text l = fields_text l' -> l = l'.
Proof.
  unfold fields_text. intros Hl. revert l'. induction Hl as [|f l Hf Hl IH]; intros [|g l'] Hl'; simpl.
  - done.
  - intros E. by apply eq_sym, digest_field_nonempty in E.
  - intros E. by apply digest_field_nonempty in E.
  - apply Forall_cons in Hl' as [Hg Hl']. intros [-> E]%digest_field_inj; [|done..]. f_equal. by apply IH.
Qed.

(** A list does not begin with a field of the tag. *)
Definition not_tagged (tag : string) (l : list (string * list byte)) : Prop :=
  match l with [] => True | (t, _) :: _ => t <> tag end.

Lemma tagged_run_inj tag xs xs' r r' :
  not_tagged tag r -> not_tagged tag r' ->
  ((text_field tag <$> xs) ++ r = (text_field tag <$> xs') ++ r')%list -> xs = xs' /\ r = r'.
Proof.
  intros Hr Hr'. revert xs'. induction xs as [|x xs IH]; intros [|x' xs']; simpl; [done|..].
  - intros ->. by destruct Hr.
  - intros E. rewrite <- E in Hr'. by destruct Hr'.
  - intros [= Hx E]. apply bytes_of_inj in Hx as ->. by destruct (IH _ E) as [-> ->].
Qed.

Lemma object_fields_inj k k' o o' x y :
  (fo_size_bytes o <= u64_max)%N -> (fo_size_bytes o' <= u64_max)%N ->
  (object_fields k o ++ x = object_fields k' o' ++ y)%list -> o = o' /\ x = y.
Proof.
  destruct o as [r l ky s h m], o' as [r' l' ky' s' h' m']. cbn [fo_size_bytes]. intros Hs Hs'.
  assert (Hsize : be64 s = be64 s' -> s = s').
  { intros E. apply (be64_app_inj s s' [] []); [done|done|]. by rewrite E. }
  unfold object_fields. cbn [fo_role fo_local_artifact fo_object_key fo_size_bytes fo_sha256 fo_media_type].
  revert Hsize. generalize (be64 (N.of_nat k)) (be64 (N.of_nat k')) (be64 s) (be64 s'). intros bk bk' bs bs' Hsize.
  destruct r, r'; cbn; intros E; try discriminate E; injection E; intros;
    repeat match goal with Hb : bytes_of _ = bytes_of _ |- _ => apply bytes_of_inj in Hb; subst end;
    subst; split; try done; by rewrite (Hsize eq_refl).
Qed.

Lemma objects_fields_inj os : forall os' (g g' : nat -> FrozenUploadObject -> list (string * list byte)),
  (forall n o, exists k, g n o = object_fields k o) -> (forall n o, exists k, g' n o = object_fields k o) ->
  Forall (fun o => fo_size_bytes o <= u64_max)%N os -> Forall (fun o => fo_size_bytes o <= u64_max)%N os' ->
  mjoin (imap g os) = mjoin (imap g' os') -> os = os'.
Proof.
  induction os as [|o os IH]; intros [|o' os'] g g' Hg Hg' Hs Hs'; [done|..].
  - simpl. destruct (Hg' 0 o') as [k ->]. discriminate.
  - simpl. destruct (Hg 0 o) as [k ->]. discriminate.
  - apply Forall_cons in Hs as [Ho Hs], Hs' as [Ho' Hs']. simpl. destruct (Hg 0 o) as [k ->], (Hg' 0 o') as [k' ->].
    intros [-> E]%object_fields_inj; [|done..]. f_equal. revert E.
    apply IH; [intros n x; cbn; apply Hg|intros n x; cbn; apply Hg'|done|done].
Qed.

Lemma objects_not_tagged tag os : tag <> "object_index" -> not_tagged tag (mjoin (imap object_fields os)).
Proof. by destruct os. Qed.

(** What a revision decides. *)
Record same_upload (b b' : FrozenUploadBundle) : Prop := {
  su_namespace : fb_namespace b = fb_namespace b';
  su_origin : fb_origin_identity b = fb_origin_identity b' /\ fb_session_or_source_id b = fb_session_or_source_id b';
  su_source : fb_source_revision b = fb_source_revision b' /\ fb_source_inventory_digest b = fb_source_inventory_digest b' /\
    fb_provenance_digest b = fb_provenance_digest b';
  su_derived : fb_profile_revision b = fb_profile_revision b' /\ fb_derived_revision b = fb_derived_revision b';
  su_destination : fb_storage_profile_identity b = fb_storage_profile_identity b' /\
    fb_upload_policy_revision b = fb_upload_policy_revision b' /\ fb_source_archival b = fb_source_archival b';
  su_objects : fb_objects b = fb_objects b';
  su_admission : option_map at_receipt_id (fb_unsigned_admission b) = option_map at_receipt_id (fb_unsigned_admission b');
}.

Lemma request_fields_inj i p i' p' :
  Forall (fun o => fo_size_bytes o <= u64_max)%N (pr_objects p) -> Forall (fun o => fo_size_bytes o <= u64_max)%N (pr_objects p') ->
  request_fields i p = request_fields i' p' ->
  bi_namespace i = bi_namespace i' /\ bi_origin_identity i = bi_origin_identity i' /\
  bi_session_or_source_id i = bi_session_or_source_id i' /\ bi_source_revision i = bi_source_revision i' /\
  bi_source_inventory_digest i = bi_source_inventory_digest i' /\ pr_provenance_digest p = pr_provenance_digest p' /\
  bi_profile_revision i = bi_profile_revision i' /\ bi_derived_revision i = bi_derived_revision i' /\
  bi_storage_profile_identity i = bi_storage_profile_identity i' /\ bi_upload_policy_revision i = bi_upload_policy_revision i' /\
  bi_source_archival i = bi_source_archival i' /\ pr_objects p = pr_objects p'.
Proof.
  intros Hs Hs'. unfold request_fields. cbn [app]. intros [= E]. apply tagged_run_inj in E as [-> E]; [|done..].
  injection E as E1 E2 E3 E4 E5 E6 E7 E8 E9 E.
  apply bytes_of_inj in E1, E2, E3, E4, E6, E7, E8, E9. apply digest_ext in E3, E4, E6, E7.
  assert (Ho : bi_source_archival i = bi_source_archival i' /\ mjoin (imap object_fields (pr_objects p)) = mjoin (imap object_fields (pr_objects p'))).
  { destruct (bi_source_archival i) as [|rev ids], (bi_source_archival i') as [|rev' ids']; cbn in E; try discriminate E.
    - injection E as E. by split.
    - injection E as Er E. apply bytes_of_inj in Er as ->.
      apply tagged_run_inj in E as [-> E]; [done|by apply objects_not_tagged..]. }
  destruct Ho as [Ha Ho]. split_and!; try done. revert Ho. apply objects_fields_inj; try done; intros n o; by exists n.
Qed.

Lemma revision_fields_inj d a d' a' :
  revision_fields d a = revision_fields d' a' -> d = d' /\ option_map at_receipt_id a = option_map at_receipt_id a'.
Proof.
  unfold revision_fields. cbn [app]. intros [= Ed Ea]. apply bytes_of_inj, digest_ext in Ed. split; [done|].
  destruct a, a'; try discriminate Ea; [|done]. injection Ea as Ea. apply bytes_of_inj in Ea. cbn. by rewrite Ea.
Qed.

Section revision.
Context `{Sha256}.

Lemma from_material_inj prefix a b : from_material prefix a = from_material prefix b -> a = b \/ (a <> b /\ sha256 a = sha256 b).
Proof.
  intros E. destruct (decide (a = b)) as [|Hne]; [by left|right]. split; [done|].
  apply (f_equal digest_text) in E. cbn in E. apply (inj (String.append prefix)) in E.
  apply (f_equal hex_bytes) in E. rewrite !hex_bytes_to_hex in E. by injection E.
Qed.

(** The revision of a bundle, and so the natural key of its upload, names one
    upload: two frozen bundles of the same revision have the same namespace,
    source, provenance digest, derivative, destination, policies, admission and
    objects, with their keys, sizes, digests and order; or two of the four texts
    that were hashed collide. *)
Theorem bundle_revision_names_one_upload i p b i' p' b' :
  freeze i = Ok b -> prepare_upload_bundle i = Ok p -> freeze i' = Ok b' -> prepare_upload_bundle i' = Ok p' ->
  fields_fit (request_fields i p) -> fields_fit (request_fields i' p') ->
  fields_fit (revision_fields (fb_upload_request_digest b) (fb_unsigned_admission b)) ->
  fields_fit (revision_fields (fb_upload_request_digest b') (fb_unsigned_admission b')) ->
  Forall (fun o => fo_size_bytes o <= u64_max)%N (fb_objects b) -> Forall (fun o => fo_size_bytes o <= u64_max)%N (fb_objects b') ->
  fb_revision b = fb_revision b' ->
  let text := fields_text (request_fields i p) in
  let text' := fields_text (request_fields i' p') in
  let rev := fields_text (revision_fields (fb_upload_request_digest b) (fb_unsigned_admission b)) in
  let rev' := fields_text (revision_fields (fb_upload_request_digest b') (fb_unsigned_admission b')) in
  same_upload b b' \/ (text <> text' /\ sha256 text = sha256 text') \/ (rev <> rev' /\ sha256 rev = sha256 rev').
Proof.
  intros (q & [Hq -> _])%freeze_ok Hp (q' & [Hq' -> _])%freeze_ok Hp'.
  cbn [fb_upload_request_digest fb_unsigned_admission fb_revision fb_objects]. cbv zeta.
  rewrite Hp in Hq. injection Hq as <-. rewrite Hp' in Hq'. injection Hq' as <-.
  intros F1 F2 F3 F4 S1 S2 [Er|Hcol]%from_material_inj; [|by right; right].
  apply fields_text_inj in Er; [|done..]. apply revision_fields_inj in Er as [Ed Ea].
  destruct (from_material_inj "sha256:" (fields_text (request_fields i p)) (fields_text (request_fields i' p'))) as [Et|Hcol];
    [exact Ed| |by right; left].
  apply fields_text_inj in Et; [|done..].
  destruct (request_fields_inj _ _ _ _ S1 S2 Et) as (E1 & E2 & E3 & E4 & E5 & E6 & E7 & E8 & E9 & E10 & E11 & E12).
  left. constructor; cbn [fb_namespace fb_origin_identity fb_session_or_source_id fb_source_revision fb_source_inventory_digest
    fb_provenance_digest fb_profile_revision fb_derived_revision fb_storage_profile_identity fb_upload_policy_revision fb_source_archival
    fb_objects fb_unsigned_admission]; try by split_and?.
Qed.
End revision.

(** ** Remote receipts *)

(** The object was read back: the bytes under its key have its size and its digest. *)
Definition reads_back (o : FrozenUploadObject) (r : CompletionBoundObjectReceipt) : Prop :=
  vo_key (cb_verified r) = fo_object_key o /\ vo_size_bytes (cb_verified r) = fo_size_bytes o /\
  vo_source_sha256 (cb_verified r) = fo_sha256 o.

Definition keyed (m : gmap string CompletionBoundObjectReceipt) : Prop := forall k r, m !! k = Some r -> vo_key (cb_verified r) = k.

Lemma receipts_by_key_ok rs : forall m m',
  receipts_by_key rs m = Ok m' -> keyed m ->
  keyed m' /\ forall r, (exists k, m' !! k = Some r) <-> (exists k, m !! k = Some r) \/ r ∈ rs.
Proof.
  induction rs as [|r rs IH]; intros m m'; simpl.
  - intros [= <-] Hm. split; [done|]. intros r. rewrite elem_of_nil. tauto.
  - case_bool_decide as Hn; [done|]. intros Hr Hm. apply IH in Hr as [Hk Hin].
    + split; [done|]. intros x. rewrite Hin, elem_of_cons. rewrite <- eq_None_not_Some in Hn. split.
      * intros [(k & [[<- <-]|[_ Hx]]%lookup_insert_Some)|?]; [by right; left|left; by exists k|by right; right].
      * intros [(k & Hx)|[->|?]]; [left|left|by right].
        -- exists k. rewrite lookup_insert_ne; [done|]. intros <-. congruence.
        -- eexists. by rewrite lookup_insert_eq.
    + intros k x [[<- <-]|[_ Hx]]%lookup_insert_Some; [done|by apply Hm].
Qed.

Lemma order_receipts_ok os : forall m rs m',
  order_receipts os m = Ok (rs, m') -> keyed m -> Forall2 reads_back os rs /\ keyed m' /\ m' ⊆ m /\
  forall k r, m !! k = Some r -> r ∈ rs \/ m' !! k = Some r.
Proof.
  induction os as [|o os IH]; intros m rs m'; simpl.
  - intros [= <- <-] Hm. split_and!; [constructor|done|done|by right].
  - rewrite rbind_ok. intros (r & Hr%ok_or_ok & Hk). revert Hk. destruct (N.eqb_spec (vo_size_bytes (cb_verified r)) (fo_size_bytes o)); [|done].
    cbn [negb]. case_bool_decide; [|done]. cbn [negb]. rewrite rbind_ok. intros ([rs' m2] & Ho & [= <- <-]) Hm.
    apply IH in Ho as (H1 & H2 & H3 & H4); [|intros k x [_ Hx]%lookup_delete_Some; by apply Hm]. split_and!.
    + constructor; [|done]. split_and!; [by apply Hm|done|done].
    + done.
    + etrans; [done|apply delete_subseteq].
    + intros k x Hx. destruct (decide (k = fo_object_key o)) as [->|Hne]; [left; rewrite Hr in Hx; injection Hx as <-; set_solver|].
      destruct (H4 k x) as [Hin|Hin]; [by rewrite lookup_delete_ne|left; set_solver|by right].
Qed.

Lemma first_key_none {A} (m : gmap string A) : first_key m = None -> m = ∅.
Proof.
  unfold first_key. intros Hf. apply map_to_list_empty_iff. destruct (map_to_list m) as [|[k x] l]; [done|]. exfalso. simpl in Hf.
  assert (Hs : forall ks a, fold_left (fun least k => match least with Some l => if String.ltb k l then Some k else Some l | None => Some k end) ks (Some a) <> None).
  { induction ks as [|k' ks IH]; intros a; simpl; [done|]. destruct (String.ltb k' a); apply IH. }
  by apply Hs in Hf.
Qed.

Lemma verify_remote_ok b profile rs r :
  verify_remote b profile rs = Ok r ->
  Forall2 reads_back (fb_objects b) (rb_object_receipts r) /\ rb_natural_key r = bundle_natural_key b /\
  profile = fb_storage_profile_identity b /\ (forall x, x ∈ rs <-> x ∈ rb_object_receipts r) /\
  rb_derived_revision r = fb_derived_revision b /\ rb_source_revision r = fb_source_revision b /\
  rb_source_archive r = match fb_source_archival b with ArchivalDisabled => NotArchived | ArchivalEnabled p _ => ArchiveVerified p end.
Proof.
  unfold verify_remote. destruct (String.eqb_spec profile (fb_storage_profile_identity b)); [|done]. cbn [negb].
  rewrite rbind_ok. intros (m & Hm & Hr). revert Hr. rewrite rbind_ok. intros ([ordered rest] & Ho & Hr). revert Hr.
  destruct (first_key rest) eqn:Ef; [done|]. apply first_key_none in Ef. subst rest. intros [= <-]. cbn.
  apply receipts_by_key_ok in Hm as [Hk Hin]; [|intros k x Hx; by rewrite lookup_empty in Hx].
  assert (Hsub := Ho). apply order_receipts_ok in Ho as (H1 & _ & _ & H4); [|done]. split_and!; try done.
  intros x. split.
  - intros Hx. destruct (proj2 (Hin x) (or_intror Hx)) as [k Hkx]. destruct (H4 _ _ Hkx) as [?|Hn]; [done|by rewrite lookup_empty in Hn].
  - intros Hx. assert (Hmx : exists k, m !! k = Some x).
    { clear -Hsub Hx. revert ordered m Hsub Hx. induction (fb_objects b) as [|o os IH]; intros ordered m; simpl; [intros [= <- _] Hx; by apply elem_of_nil in Hx|].
      rewrite rbind_ok. intros (y & Hy%ok_or_ok & Hr). revert Hr. destruct (negb _); [done|]. destruct (negb _); [done|].
      rewrite rbind_ok. intros ([rs m2] & Ho & [= <- ->]) [->|Hx]%elem_of_cons; [by eexists|].
      destruct (IH _ _ Ho Hx) as [k [_ Hk]%lookup_delete_Some]. by exists k. }
    apply Hin in Hmx as [[k Hk']|?]; [by rewrite lookup_empty in Hk'|done].
Qed.

(** A remote receipt of a bundle is earned: it is for the bundle's own
    destination and revision, its object receipts are those that were given, and
    in the order of the bundle each is of that object's key with that object's
    size and digest, the final manifest included; it counts as a backup of the
    source exactly when the bundle archives the source videos. *)
Theorem remote_receipt_is_earned b profile rs r :
  verify_remote b profile rs = Ok r ->
  profile = fb_storage_profile_identity b /\ rb_natural_key r = bundle_natural_key b /\
  Forall2 reads_back (fb_objects b) (rb_object_receipts r) /\ (forall x, x ∈ rs <-> x ∈ rb_object_receipts r) /\
  (is_source_backup r = true <-> fb_source_archival b <> ArchivalDisabled).
Proof.
  intros (H1 & H2 & H3 & H4 & _ & _ & H5)%verify_remote_ok. split_and!; try done. unfold is_source_backup. rewrite H5.
  by destruct (fb_source_archival b).
Qed.

(** C21: a local source is only ever eligible for deletion when it is whole
    elsewhere: the retention policy names the archival policy of the bundle, and
    every source video that the policy archives was read back from the object
    store with the size and the digest it was frozen with. *)
Theorem source_deletion_needs_archive `{Sha256} i b profile rs r policy revision grace :
  freeze i = Ok b -> verify_remote b profile rs = Ok r ->
  evaluate_source_retention policy r = EligibleAfterGracePeriod revision grace ->
  policy = AfterVerifiedSourceArchive revision grace /\
  exists ids, fb_source_archival b = ArchivalEnabled revision ids /\
    forall id, id ∈ ids -> exists o receipt, o ∈ fb_objects b /\ fo_role o = UoSourceVideoArchive id /\
      receipt ∈ rb_object_receipts r /\ reads_back o receipt.
Proof.
  intros Hf%freeze_whole (H1 & _ & _ & _ & _ & _ & H5)%verify_remote_ok. unfold evaluate_source_retention.
  destruct policy as [|rev g]; [done|]. rewrite H5. destruct (fb_source_archival b) as [|p ids] eqn:Ea; [done|].
  destruct (String.eqb_spec p rev) as [->|]; [|done]. intros [= -> ->]. split; [done|]. exists ids. split; [done|].
  intros id Hid. assert (Hw := bw_archive _ _ Hf id). rewrite Ea in Hw. apply Hw in Hid as (o & Ho & Hrole).
  assert (Ho' := Ho). apply list_elem_of_lookup in Ho as [k Hk]. destruct (Forall2_lookup_l _ _ _ _ _ H1 Hk) as (receipt & Hr & Hb).
  exists o, receipt. split_and!; [done|done|by eapply list_elem_of_lookup_2|done].
Qed.

(** ** A bundle *)

Module DemoBundle.
#[local] Existing Instance DemoSha.sha.
Local Open Scope string_scope.

Definition digest (b : byte) : Digest "sha256:" := from_material "sha256:" [b].
Definition provenance : SourceProvenance :=
  SpDeviceSigned (mkDeviceSigned "fingerprint" (digest Byte.x01) [Byte.x01] [Byte.x02] [Byte.x03]).
Definition object (role : UploadObjectRole) : UploadObjectInput := mkObjectInput role "local/artifact" 3 [Byte.x07] "video/mp4".
Definition archival : SourceArchivalPolicy := ArchivalEnabled "archive.v1" ["cam-a"; "cam-b"].
Definition objects : list UploadObjectInput :=
  map object [UoDerivedManifest; UoSourceManifest; UoProvenanceReport; UoDerivedMedia "left 0.mp4"; UoDerivedMedia "right/0.mp4";
              UoSourceVideoArchive "cam-b"; UoSourceVideoArchive "cam-a"].
Definition input : UploadBundleInput :=
  mkBundleInput ["prod"; "eu"] "device" "session" (digest Byte.x01) provenance (digest Byte.x02) None (digest Byte.x04)
    (digest Byte.x05) "storage" archival DERIVED_UPLOAD_POLICY_REVISION objects.
Definition none : FrozenUploadBundle :=
  mkBundle 0 (digest Byte.x01) [] "" "" (digest Byte.x01) provenance (digest Byte.x01) None [] (digest Byte.x01) (digest Byte.x01) "" archival "" (digest Byte.x01) [].
Definition bundle : FrozenUploadBundle := match freeze input with Ok b => b | Err _ => none end.

Lemma frozen : freeze input = Ok bundle.
Proof. vm_compute. reflexivity. Qed.

Example manifest_moves_last_and_keys_are_encoded :
  map fo_role (drop 5 (fb_objects bundle)) = [UoSourceVideoArchive "cam-a"; UoDerivedManifest] /\
  option_map fo_object_key (fb_objects bundle !! 3) =
    Some ("prod/eu/device/session/" ++ percent_encode (bytes_of (digest_text (digest Byte.x01))) ++ "/derivatives/"
          ++ percent_encode (bytes_of (digest_text (digest Byte.x04))) ++ "/" ++ percent_encode (bytes_of (digest_text (digest Byte.x05)))
          ++ "/video/right%2F0.mp4").
Proof. vm_compute. done. Qed.

Example missing_video_refused :
  freeze (mkBundleInput ["prod"] "device" "session" (digest Byte.x01) provenance (digest Byte.x02) None (digest Byte.x04)
            (digest Byte.x05) "storage" archival DERIVED_UPLOAD_POLICY_REVISION (take 6 objects))
  = Err (SourceArchiveInventoryMismatch ["cam-a"; "cam-b"] ["cam-b"]).
Proof. vm_compute. reflexivity. Qed.

Definition receipt (o : FrozenUploadObject) : CompletionBoundObjectReceipt :=
  mkBound (mkCompleted (fo_object_key o) "upload" "etag" None)
    (mkVerified (fo_object_key o) "etag" None (fo_size_bytes o) (fo_sha256 o) StreamedReadback).
Definition receipts : list CompletionBoundObjectReceipt := rev (map receipt (fb_objects bundle)).
Definition remote : RemoteBundleReceipt :=
  match verify_remote bundle "storage" receipts with
  | Ok r => r
  | Err _ => mkRemote (mkUploadKey (digest Byte.x01) "") (digest Byte.x01) (digest Byte.x01) NotArchived []
  end.

Lemma verified : verify_remote bundle "storage" receipts = Ok remote.
Proof. vm_compute. reflexivity. Qed.

Lemma fits : fields_fit (request_fields input (mkPrepared (fb_provenance_digest bundle) (fb_objects bundle))) /\
  fields_fit (revision_fields (fb_upload_request_digest bundle) (fb_unsigned_admission bundle)) /\
  Forall (fun o => fo_size_bytes o <= u64_max)%N (fb_objects bundle).
Proof.
  assert (Hd : forall fields, forallb (fun f => (N.of_nat (length (bytes_of f.1)) <=? u64_max) && (N.of_nat (length f.2) <=? u64_max))%N fields = true ->
    fields_fit fields).
  { intros fields. rewrite forallb_forall. intros Hf. apply Forall_forall. intros f Hin%list_elem_of_In.
    specialize (Hf f Hin). rewrite andb_true_iff, !N.leb_le in Hf. apply Hf. }
  split; [apply Hd; by vm_compute|]. split; [apply Hd; by vm_compute|]. apply Forall_forall. intros o Ho.
  assert (Hb : forallb (fun o => fo_size_bytes o <=? u64_max)%N (fb_objects bundle) = true) by by vm_compute.
  rewrite forallb_forall in Hb. apply N.leb_le, Hb, list_elem_of_In, Ho.
Qed.
End DemoBundle.

#[local] Existing Instance DemoSha.sha.

Lemma object_key_names_one_object_witness :
  exists k, derive_object_key DemoBundle.input UoSourceManifest = Ok k /\ same_place UoSourceManifest UoSourceManifest.
Proof.
  destruct (derive_object_key DemoBundle.input UoSourceManifest) as [k|] eqn:E; [|vm_compute in E; discriminate].
  exists k. split; [reflexivity|]. exact (proj1 (proj2 (proj2 (proj2 (object_key_names_one_object _ _ _ _ _ E E eq_refl))))).
Defined.

Lemma frozen_bundle_is_whole_witness : bundle_whole DemoBundle.input DemoBundle.bundle.
Proof. exact (frozen_bundle_is_whole _ _ DemoBundle.frozen). Defined.

Lemma frozen_bundle_roundtrip_witness : thaw DemoBundle.bundle = Ok DemoBundle.bundle.
Proof. apply (frozen_bundle_roundtrip _ _ DemoBundle.frozen); [reflexivity|discriminate]. Defined.

Lemma bundle_revision_names_one_upload_witness :
  let p := mkPrepared (fb_provenance_digest DemoBundle.bundle) (fb_objects DemoBundle.bundle) in
  prepare_upload_bundle DemoBundle.input = Ok p /\ same_upload DemoBundle.bundle DemoBundle.bundle.
Proof.
  cbv zeta. assert (Hp : prepare_upload_bundle DemoBundle.input =
    Ok (mkPrepared (fb_provenance_digest DemoBundle.bundle) (fb_objects DemoBundle.bundle))) by (vm_compute; reflexivity).
  split; [exact Hp|]. destruct DemoBundle.fits as (F1 & F2 & F3).
  destruct (bundle_revision_names_one_upload _ _ _ _ _ _ DemoBundle.frozen Hp DemoBundle.frozen Hp F1 F1 F2 F2 F3 F3 eq_refl)
    as [Hs|[[Hne _]|[Hne _]]]; [exact Hs|destruct (Hne eq_refl)|destruct (Hne eq_refl)].
Defined.

Lemma remote_receipt_is_earned_witness :
  Forall2 reads_back (fb_objects DemoBundle.bundle) (rb_object_receipts DemoBundle.remote).
Proof. exact (proj1 (proj2 (proj2 (remote_receipt_is_earned _ _ _ _ DemoBundle.verified)))). Defined.

Lemma source_deletion_needs_archive_witness :
  exists ids, fb_source_archival DemoBundle.bundle = ArchivalEnabled "archive.v1" ids.
Proof.
  destruct (source_deletion_needs_archive _ _ _ _ _ (AfterVerifiedSourceArchive "archive.v1" 60) "archive.v1" 60
              DemoBundle.frozen DemoBundle.verified eq_refl) as (_ & ids & Hi & _).
  exists ids. exact Hi.
Defined.
