(* ===== verification/UploadStore.v ===== *)
(** * UploadStore: uploads in the durable store (persistence/upload_store.rs)

Upload jobs share the tables of TransferStore.v: a job row of kind [upload],
its immutable specification, its activity (the progress the user sees), the
multipart handles with the parts the object store acknowledged, and the
receipts of verified objects.  Every operation is a transaction on [Db].
A SELECT without ORDER BY gives its first row by a [QueryPlan]: SQLite
promises one of the matching rows, not which.  The crash points of the tests
are arguments, as in TransferStore.v.  The import of the legacy JSON sidecar
is not modelled. *)

From Stdlib Require Import NArith ZArith Lia Ascii String.
From Stdlib Require Import Strings.Byte.
From stdpp Require Import base numbers list strings gmap sorting.
From S2P Require Import Prelude Domain Device Schema Aggregate TransferStore.

Local Open Scope string_scope.

(** The row a query without ORDER BY yields first. *)
Class QueryPlan := {
  first_row : forall A : Type, list A -> option A;
  first_row_in : forall A (l : list A) x, first_row A l = Some x -> x ∈ l;
  first_row_none : forall A (l : list A), first_row A l = None -> l = [];
}.
Arguments first_row {_ A} l.

(** ** Vocabulary *)

(** [UploadDesiredState] (persistence/upload_store.rs:55-62). *)
Inductive UploadDesiredState := UdRunning | UdAborting.

(** [UploadUrlStyle] (persistence/upload_store.rs:71-80). *)
Inductive UploadUrlStyle := UsVirtualHost | UsPath | UsLegacyConfigured.

(** [UploadReceiptRole] (persistence/upload_store.rs:199-202). *)
Inductive UploadReceiptRole := UrData | UrEvidence.

(** [UploadReceiptDigestProof] (persistence/upload_store.rs:229-232). *)
Inductive UploadReceiptDigestProof := UpServerChecksum | UpStreamedReadback.

#[global] Instance UploadDesiredState_eq_dec : EqDecision UploadDesiredState.
Proof. solve_decision. Defined.
#[global] Instance UploadUrlStyle_eq_dec : EqDecision UploadUrlStyle.
Proof. solve_decision. Defined.
#[global] Instance UploadReceiptRole_eq_dec : EqDecision UploadReceiptRole.
Proof. solve_decision. Defined.
#[global] Instance UploadReceiptDigestProof_eq_dec : EqDecision UploadReceiptDigestProof.
Proof. solve_decision. Defined.

(** [UploadDesiredState::as_db_str] (persistence/upload_store.rs:104-109). *)
Definition desired_as_db_str (d : UploadDesiredState) : string :=
  match d with UdRunning => "running" | UdAborting => "aborting" end.

(** [UploadDesiredState::from_db_str] (persistence/upload_store.rs:112-118). *)
Definition desired_from_db_str (value : string) : option UploadDesiredState :=
  if String.eqb value "running" then Some UdRunning
  else if String.eqb value "aborting" then Some UdAborting
  else None.

(** [UploadUrlStyle::as_db_str] (persistence/upload_store.rs:83-89). *)
Definition style_as_db_str (s : UploadUrlStyle) : string :=
  match s with UsVirtualHost => "virtual_host" | UsPath => "path" | UsLegacyConfigured => "legacy_configured" end.

(** [UploadUrlStyle::from_db_str] (persistence/upload_store.rs:92-99). *)
Definition style_from_db_str (value : string) : option UploadUrlStyle :=
  if String.eqb value "virtual_host" then Some UsVirtualHost
  else if String.eqb value "path" then Some UsPath
  else if String.eqb value "legacy_configured" then Some UsLegacyConfigured
  else None.

(** [UploadReceiptRole::as_db_str] (persistence/upload_store.rs:206-211). *)
Definition role_as_db_str (r : UploadReceiptRole) : string :=
  match r with UrData => "data" | UrEvidence => "evidence" end.

(** [UploadReceiptRole::from_db_str] (persistence/upload_store.rs:214-220). *)
Definition role_from_db_str (value : string) : option UploadReceiptRole :=
  if String.eqb value "data" then Some UrData
  else if String.eqb value "evidence" then Some UrEvidence
  else None.

(** [UploadReceiptDigestProof::as_db_str] (persistence/upload_store.rs:236-241). *)
Definition proof_as_db_str (p : UploadReceiptDigestProof) : string :=
  match p with UpServerChecksum => "server_checksum" | UpStreamedReadback => "streamed_readback" end.

(** [UploadReceiptDigestProof::from_db_str] (persistence/upload_store.rs:244-250). *)
Definition proof_from_db_str (value : string) : option UploadReceiptDigestProof :=
  if String.eqb value "server_checksum" then Some UpServerChecksum
  else if String.eqb value "streamed_readback" then Some UpStreamedReadback
  else None.

(** [NewUpload] (persistence/upload_store.rs:127-140). *)
Record NewUpload := mkNewUpload {
  nu_transfer_key : string;
  nu_entry_key : string;
  nu_revision : string;
  nu_object_key : string;
  nu_upload_id : string;
  nu_endpoint : string;
  nu_bucket : string;
  nu_url_style : UploadUrlStyle;
}.

#[global] Instance NewUpload_eq_dec : EqDecision NewUpload.
Proof. solve_decision. Defined.

(** [UploadJobSpec] (persistence/upload_store.rs:147-155). *)
Record UploadJobSpec := mkUploadJobSpec {
  uj_entry_key : string;
  uj_revision : string;
  uj_input_digest : string;
  uj_object_prefix : option string;
}.

(** [UploadActivitySeed] (persistence/upload_store.rs:161-166). *)
Record UploadActivitySeed := mkSeed {
  as_label : string;
  as_target_label : string;
  as_total_bytes : N;
}.

(** [UploadActivitySeed::fallback] (persistence/upload_store.rs:170-176). *)
Definition seed_fallback (spec : UploadJobSpec) : UploadActivitySeed := mkSeed (uj_entry_key spec) "" 0.

(** [StoredUploadActivity] (persistence/upload_store.rs:182-191). *)
Record StoredUploadActivity := mkStoredActivity {
  sa_job : StoredJob;
  sa_spec : UploadJobSpec;
  sa_label : string;
  sa_target_label : string;
  sa_total_bytes : N;
  sa_confirmed_bytes : N;
  sa_created_at : string;
  sa_updated_at : string;
}.

(** [UploadReceiptSeed] (persistence/upload_store.rs:260-268). *)
Record UploadReceiptSeed := mkReceiptSeed {
  sd_object_key : string;
  sd_role : UploadReceiptRole;
  sd_etag : string;
  sd_version_id : option string;
  sd_size_bytes : N;
  sd_source_sha256 : string;
  sd_digest_proof : UploadReceiptDigestProof;
}.

#[global] Instance UploadReceiptSeed_eq_dec : EqDecision UploadReceiptSeed.
Proof. solve_decision. Defined.

(** [StoredUploadReceipt] (persistence/upload_store.rs:296-308). *)
Record StoredUploadReceipt := mkStoredReceipt {
  st_job_id : string;
  st_entry_key : string;
  st_revision : string;
  st_seed : UploadReceiptSeed;
  st_staged_at : string;
}.

(** [UploadPartRecord] (persistence/upload_store.rs:539-543). *)
Record UploadPartRecord := mkPart {
  pa_part_number : N;
  pa_etag : string;
  pa_size_bytes : N;
}.

(** [StoredUpload] (persistence/upload_store.rs:547-557). *)
Record StoredUpload := mkStoredUpload {
  su_upload : NewUpload;
  su_job_id : option string;
  su_desired_state : UploadDesiredState;
  su_parts : list UploadPartRecord;
  su_created_at : string;
  su_updated_at : string;
}.

(** [StoredUpload::confirmed_bytes] (persistence/upload_store.rs:572-574). *)
Definition su_confirmed_bytes (u : StoredUpload) : N := fold_right N.add 0%N (pa_size_bytes <$> su_parts u).

(** ** Errors *)

(** [UploadStoreError] (persistence/upload_store.rs:582-629). *)
Inductive UploadStoreError :=
| UsConflict (object_key upload_id detail : string)
| UsUnknownUpload (object_key upload_id : string)
| UsPartConflict (object_key upload_id : string) (part_number : N) (existing_etag : string) (existing_size : N)
    (requested_etag : string) (requested_size : N)
| UsInvalid (what : string)
| UsPersistence (e : PersistenceError).

(** [UploadJobConflict] (persistence/upload_store.rs:397-403). *)
Record UploadJobConflict := mkUploadConflict {
  uc_entry_key : string;
  uc_existing_job_id : string;
  uc_existing_revision : string;
  uc_requested_revision : string;
  uc_detail : string;
}.

(** [UploadJobCreateError] (persistence/upload_store.rs:406-418). *)
Inductive UploadJobCreateError :=
| UcInvalid (what : string)
| UcConflict (c : UploadJobConflict)
| UcJobIdCollision (job_id : string)
| UcPersistence (e : PersistenceError).

(** [RepeatUploadJobError] (persistence/upload_store.rs:433-478). *)
Inductive RepeatUploadJobError :=
| RpUnknownJob (job_id : string)
| RpWrongOperationKind (job_id : string) (kind : OperationKind)
| RpNotSuccessful (job_id state : string)
| RpUnacknowledgedParent (job_id : string)
| RpSpecMismatch (job_id expected_entry_key expected_revision requested_entry_key requested_revision : string)
| RpInvalid (what : string)
| RpUnchangedInput (job_id : string)
| RpJobIdCollision (job_id : string)
| RpChildConflict (job_id detail : string)
| RpPersistence (e : PersistenceError).

(** [UploadJobError] (persistence/upload_store.rs:491-528). *)
Inductive UploadJobError :=
| UjUnknownJob (job_id : string)
| UjWrongOperationKind (job_id : string) (kind : OperationKind)
| UjStale (job_id : string) (expected actual : N)
| UjAlreadyTerminal (job_id : string) (existing : TerminalOutcome)
| UjIllegalTransition (job_id state : string)
| UjJobMismatch (object_key upload_id : string)
| UjPart (e : UploadStoreError)
| UjPersistence (e : PersistenceError).

(** [UploadReceiptError] (persistence/upload_store.rs:639-676). *)
Inductive UploadReceiptError :=
| UrUnknownJob (job_id : string)
| UrWrongOperationKind (job_id : string) (kind : OperationKind)
| UrJobContextMismatch (job_id expected_entry_key expected_revision requested_entry_key requested_revision : string)
| UrInvalid (what : string)
| UrConflict (job_id object_key detail : string)
| UrPersistence (e : PersistenceError).

(** ** Validation *)

(** [str::trim_start]: the characters [is_blank] recognises, on their UTF-8 bytes. *)
Fixpoint trim_start (s : string) : string :=
  match s with
  | EmptyString => EmptyString
  | String c1 s1 =>
      let b1 := N_of_ascii c1 in
      if (((9 <=? b1) && (b1 <=? 13)) || (b1 =? 32))%N then trim_start s1
      else match s1 with
           | EmptyString => s
           | String c2 s2 =>
               let b2 := N_of_ascii c2 in
               if ((b1 =? 194) && ((b2 =? 133) || (b2 =? 160)))%N then trim_start s2
               else match s2 with
                    | EmptyString => s
                    | String c3 s3 => if is_blank (String c1 (String c2 (String c3 EmptyString))) then trim_start s3 else s
                    end
           end
  end.

(** [str::trim_end]. *)
Fixpoint trim_end (s : string) : string :=
  if is_blank s then EmptyString else
  match s with EmptyString => EmptyString | String c s' => String c (trim_end s') end.

(** [str::trim]. *)
Definition trim (s : string) : string := trim_end (trim_start s).

Definition is_slash (c : ascii) : bool := Ascii.eqb c "/"%char.

(** [str::trim_matches]. *)
Fixpoint drop_slashes (s : string) : string :=
  match s with String c s' => if is_slash c then drop_slashes s' else s | EmptyString => EmptyString end.
Fixpoint drop_last_slashes (s : string) : string :=
  if str_all is_slash s then EmptyString else
  match s with EmptyString => EmptyString | String c s' => String c (drop_last_slashes s') end.

(** [normalize_object_prefix] (persistence/upload_store.rs:2504-2506). *)
Definition normalize_object_prefix (prefix : string) : string := drop_last_slashes (drop_slashes (trim prefix)).

(** The first of the named values that is blank. *)
Fixpoint first_blank (fields : list (string * string)) : option string :=
  match fields with
  | [] => None
  | (label, value) :: rest => if is_blank value then Some label else first_blank rest
  end.

Definition none_blank (fields : list (string * string)) : result string unit :=
  match first_blank fields with Some label => Err label | None => Ok tt end.

(** [validate_new_upload] (persistence/upload_store.rs:2469-2484). *)
Definition validate_new_upload (u : NewUpload) : result UploadStoreError unit :=
  rmap_err UsInvalid (none_blank
    [("object key", nu_object_key u); ("upload id", nu_upload_id u); ("transfer key", nu_transfer_key u);
     ("entry key", nu_entry_key u); ("revision", nu_revision u); ("endpoint", nu_endpoint u); ("bucket", nu_bucket u)]).

(** [validate_upload_job_spec] (persistence/upload_store.rs:2486-2502). *)
Definition validate_upload_job_spec (spec : UploadJobSpec) : result string unit :=
  let? _ := none_blank [("entry_key", uj_entry_key spec); ("revision", uj_revision spec);
                        ("input_digest", uj_input_digest spec)] in
  match uj_object_prefix spec with
  | Some prefix => if String.eqb (normalize_object_prefix prefix) prefix then Ok tt else Err "object_prefix"
  | None => Ok tt
  end.

(** [UploadJobSpec::new] (persistence/upload_store.rs:318-331). *)
Definition UploadJobSpec_new (entry_key revision input_digest : string) : result UploadStoreError UploadJobSpec :=
  let spec := mkUploadJobSpec entry_key revision input_digest None in
  let? _ := rmap_err UsInvalid (validate_upload_job_spec spec) in Ok spec.

(** [UploadJobSpec::new_with_prefix] (persistence/upload_store.rs:335-350). *)
Definition UploadJobSpec_new_with_prefix (entry_key revision input_digest object_prefix : string)
    : result UploadStoreError UploadJobSpec :=
  let spec := mkUploadJobSpec entry_key revision input_digest (Some (normalize_object_prefix object_prefix)) in
  let? _ := rmap_err UsInvalid (validate_upload_job_spec spec) in Ok spec.

(** [UploadJobSpec::natural_key, length_prefixed_key] (persistence/upload_store.rs:2588-2596). *)
Definition uj_natural_key (spec : UploadJobSpec) : string := key_part (uj_entry_key spec) ++ key_part (uj_revision spec).

(** [validate_upload_activity_seed] (persistence/upload_store.rs:2508-2513). *)
Definition validate_upload_activity_seed (seed : UploadActivitySeed) : result string unit :=
  if is_blank (as_label seed) then Err "upload activity label" else Ok tt.

(** [validate_part] (persistence/upload_store.rs:2614-2627). *)
Definition validate_part (p : UploadPartRecord) : result UploadStoreError unit :=
  if (pa_part_number p =? 0)%N then Err (UsInvalid "part numbers start at 1")
  else if is_blank (pa_etag p) then Err (UsInvalid "part has no etag")
  else Ok tt.

Definition is_hex_digit (c : ascii) : bool :=
  let n := N_of_ascii c in
  (((48 <=? n) && (n <=? 57)) || ((97 <=? n) && (n <=? 102)) || ((65 <=? n) && (n <=? 70)))%N.

(** [normalize_upload_sha256] (persistence/upload_store.rs:2307-2315). *)
Definition normalize_upload_sha256 (value : string) : result string string :=
  let trimmed := trim value in
  if negb (str_len trimmed =? 64)%N || negb (str_all is_hex_digit trimmed) then Err "source_sha256"
  else Ok (to_ascii_lowercase trimmed).

(** [validate_upload_receipt_seed] (persistence/upload_store.rs:2283-2305): the
    receipt it leaves behind. *)
Definition validate_upload_receipt_seed (r : UploadReceiptSeed) : result string UploadReceiptSeed :=
  if is_blank (sd_object_key r) then Err "object_key" else
  if is_blank (sd_etag r) then Err "etag" else
  if match sd_version_id r with Some version => is_blank version | None => false end then Err "version_id" else
  let? sha := normalize_upload_sha256 (sd_source_sha256 r) in
  Ok (mkReceiptSeed (sd_object_key r) (sd_role r) (sd_etag r) (sd_version_id r) (sd_size_bytes r) sha
        (sd_digest_proof r)).

(** [checked_i64_upload] (persistence/upload_store.rs:2568-2572). *)
Definition checked_i64_upload (value : N) (field : string) : result PersistenceError Z :=
  if (value <=? i64_max)%N then Ok (Z.of_N value) else Err (PConflict (ExceedsInteger field value)).

(** [upload_job_identity] (persistence/upload_store.rs:2598-2605). *)
Definition upload_job_identity (entry_key revision : string) : result string JobIdentity :=
  rmap_err (fun _ => "identity") (JobIdentity_new "__upload__" entry_key revision).

(** ** Statements *)

Definition upload_text (s : string) : bool := negb (String.eqb s "").

(** [INSERT INTO transfer_upload_job_specs], its CHECKs and the subject guard. *)
Definition upload_spec_row_ok (r : UploadSpecRow) : bool :=
  match us_storage_profile_identity r with
  | Some identity => String.eqb (us_subject_kind r) "derived_bundle" && upload_text identity
  | None => String.eqb (us_subject_kind r) "library_publication"
  end.

Definition insert_upload_spec (job_id : string) (row : UploadSpecRow) : sm Db PersistenceError unit :=
  owned_by job_id (fun db =>
    if bool_decide (is_Some (t_upload_specs db !! job_id)) then (db, Err (PSqlite (SqUnique "job_id")))
    else if negb (upload_spec_row_ok row) then (db, Err (PSqlite (SqCheck "transfer_upload_job_specs")))
    else (with_upload_specs (<[job_id := row]> (t_upload_specs db)) db, Ok tt)).

Definition activity_row_ok (r : ActivityRow) : bool :=
  (0 <=? ac_total_bytes r)%Z && (0 <=? ac_confirmed_bytes r)%Z
  && ((ac_total_bytes r =? 0)%Z || (ac_confirmed_bytes r <=? ac_total_bytes r)%Z).

(** [INSERT INTO transfer_upload_activity]. *)
Definition insert_activity (job_id : string) (row : ActivityRow) : sm Db PersistenceError unit :=
  owned_by job_id (fun db =>
    if bool_decide (is_Some (t_activity db !! job_id)) then (db, Err (PSqlite (SqUnique "job_id")))
    else if negb (activity_row_ok row) then (db, Err (PSqlite (SqCheck "transfer_upload_activity")))
    else (with_activity (<[job_id := row]> (t_activity db)) db, Ok tt)).

(** [UPDATE transfer_upload_activity SET .. WHERE job_id = id]: whether a row changed. *)
Definition update_activity (job_id : string) (set : ActivityRow -> ActivityRow) : sm Db PersistenceError bool :=
  fun db =>
    match t_activity db !! job_id with
    | Some r => if activity_row_ok (set r) then (with_activity (<[job_id := set r]> (t_activity db)) db, Ok true)
                else (db, Err (PSqlite (SqCheck "transfer_upload_activity")))
    | None => (db, Ok false)
    end.

Definition has_handle (object_key upload_id : string) (u : UploadRow) : bool :=
  String.eqb (up_object_key u) object_key && String.eqb (up_upload_id u) upload_id.

Definition upload_row_ok (r : UploadRow) : bool :=
  upload_text (up_object_key r) && upload_text (up_upload_id r) && upload_text (up_transfer_key r)
  && upload_text (up_bucket r) && bool_decide (is_Some (desired_from_db_str (up_desired_state r)))
  && bool_decide (is_Some (style_from_db_str (up_url_style r))).

(** [INSERT INTO transfer_uploads]. *)
Definition insert_upload (row : UploadRow) : sm Db PersistenceError unit :=
  fun db =>
    if match up_job_id row with Some id => bool_decide (t_jobs db !! id = None) | None => false end
    then (db, Err (PSqlite SqForeignKey))
    else if existsb (has_handle (up_object_key row) (up_upload_id row)) (t_uploads db)
    then (db, Err (PSqlite (SqUnique "transfer_uploads")))
    else if negb (upload_row_ok row) then (db, Err (PSqlite (SqCheck "transfer_uploads")))
    else (with_multipart (t_uploads db ++ [row])%list (t_parts db) db, Ok tt).

(** [UPDATE transfer_uploads SET .. WHERE ..]: how many rows changed. *)
Definition update_uploads (cond : UploadRow -> bool) (set : UploadRow -> UploadRow) : sm Db PersistenceError nat :=
  fun db => (with_multipart (map (fun u => if cond u then set u else u) (t_uploads db)) (t_parts db) db,
             Ok (length (List.filter cond (t_uploads db)))).

Definition part_key (object_key upload_id : string) (number : Z) (p : PartRow) : bool :=
  String.eqb (pt_object_key p) object_key && String.eqb (pt_upload_id p) upload_id && (pt_part_number p =? number)%Z.

(** [INSERT INTO transfer_upload_parts]. *)
Definition insert_part (row : PartRow) : sm Db PersistenceError unit :=
  fun db =>
    if negb (existsb (has_handle (pt_object_key row) (pt_upload_id row)) (t_uploads db))
    then (db, Err (PSqlite SqForeignKey))
    else if existsb (part_key (pt_object_key row) (pt_upload_id row) (pt_part_number row)) (t_parts db)
    then (db, Err (PSqlite (SqUnique "transfer_upload_parts")))
    else if negb ((1 <=? pt_part_number row)%Z && upload_text (pt_etag row) && (0 <=? pt_size_bytes row)%Z)
    then (db, Err (PSqlite (SqCheck "transfer_upload_parts")))
    else (with_multipart (t_uploads db) (t_parts db ++ [row])%list db, Ok tt).

Definition receipts_of (db : Db) (job_id : string) : gmap string ReceiptRow := default ∅ (t_receipts db !! job_id).

Definition receipt_row_ok (object_key : string) (r : ReceiptRow) : bool :=
  upload_text object_key && upload_text (rp_entry_key r) && upload_text (rp_revision r) && upload_text (rp_etag r)
  && bool_decide (is_Some (role_from_db_str (rp_object_role r))) && (0 <=? rp_size_bytes r)%Z
  && (str_len (rp_source_sha256 r) =? 64)%N && bool_decide (is_Some (proof_from_db_str (rp_digest_proof r))).

(** [INSERT INTO transfer_upload_receipts]. *)
Definition insert_receipt (job_id object_key : string) (row : ReceiptRow) : sm Db PersistenceError unit :=
  owned_by job_id (fun db =>
    if bool_decide (is_Some (receipts_of db job_id !! object_key)) then (db, Err (PSqlite (SqUnique "transfer_upload_receipts")))
    else if negb (receipt_row_ok object_key row) then (db, Err (PSqlite (SqCheck "transfer_upload_receipts")))
    else (with_receipts (<[job_id := <[object_key := row]> (receipts_of db job_id)]> (t_receipts db)) db, Ok tt)).

(** ** Reading *)

(** [read_parts] (persistence/upload_store.rs:2899-2927): one row. *)
Definition read_part (p : PartRow) : result PersistenceError UploadPartRecord :=
  if ((pt_part_number p <? 1) || (Z.of_N u32_max <? pt_part_number p))%Z then Err (PSqlite (SqConversion "part_number")) else
  let? size := ok_or (u64_of_i64 (pt_size_bytes p)) (PSqlite (SqConversion "size_bytes")) in
  Ok (mkPart (Z.to_N (pt_part_number p)) (pt_etag p) size).

Definition by_part_number (a b : PartRow) : Prop := (pt_part_number a <= pt_part_number b)%Z.
#[global] Instance by_part_number_dec : RelDecision by_part_number.
Proof. intros a b. unfold by_part_number. apply _. Defined.

Definition parts_of (db : Db) (object_key upload_id : string) : list PartRow :=
  List.filter (fun p => String.eqb (pt_object_key p) object_key && String.eqb (pt_upload_id p) upload_id) (t_parts db).

(** [read_parts] (persistence/upload_store.rs:2889-2931). *)
Definition read_parts (db : Db) (object_key upload_id : string) : result PersistenceError (list UploadPartRecord) :=
  rtraverse read_part (merge_sort by_part_number (parts_of db object_key upload_id)).

(** [read_uploads, mapper] (persistence/upload_store.rs:2830-2855). *)
Definition read_upload_columns (u : UploadRow) : result PersistenceError NewUpload :=
  let? style := ok_or (style_from_db_str (up_url_style u)) (PSqlite (SqConversion "url_style")) in
  Ok (mkNewUpload (up_transfer_key u) (up_entry_key u) (up_revision u) (up_object_key u) (up_upload_id u)
        (up_endpoint u) (up_bucket u) style).

(** [read_uploads, one row] (persistence/upload_store.rs:2864-2884). *)
Definition read_upload_rest (db : Db) (e : UploadRow * NewUpload) : result PersistenceError StoredUpload :=
  let '(u, upload) := e in
  let? desired := ok_or (desired_from_db_str (up_desired_state u)) (PCorrupt "transfer_uploads" (up_object_key u)) in
  let? parts := read_parts db (nu_object_key upload) (nu_upload_id upload) in
  Ok (mkStoredUpload upload (up_job_id u) desired parts (up_created_at u) (up_updated_at u)).

(** [ORDER BY created_at, rowid]. *)
Definition by_age (a b : nat * UploadRow) : Prop :=
  Is_true (match String.compare (up_created_at a.2) (up_created_at b.2) with
           | Lt => true | Gt => false | Eq => (a.1 <=? b.1)%nat
           end).
#[global] Instance by_age_dec : RelDecision by_age.
Proof. intros a b. unfold by_age. apply _. Defined.

Definition in_age_order (rows : list UploadRow) : list UploadRow :=
  (merge_sort by_age (imap (fun i u => (i, u)) rows)).*2.

(** [read_uploads] (persistence/upload_store.rs:2818-2887). *)
Definition read_uploads (db : Db) (matching : UploadRow -> bool) : result UploadStoreError (list StoredUpload) :=
  let rows := in_age_order (List.filter matching (t_uploads db)) in
  let? uploads := rmap_err UsPersistence (rtraverse read_upload_columns rows) in
  rmap_err UsPersistence (rtraverse (read_upload_rest db) (zip rows uploads)).

(** [read_upload] (persistence/upload_store.rs:2805-2816). *)
Definition read_upload (db : Db) (object_key upload_id : string) : result UploadStoreError (option StoredUpload) :=
  let? found := read_uploads db (has_handle object_key upload_id) in Ok (hd_error found).

(** [TransferStore::pending_upload] (persistence/upload_store.rs:2116-2122). *)
Definition pending_upload := read_upload.

(** [TransferStore::list_pending_uploads] (persistence/upload_store.rs:2125-2127). *)
Definition list_pending_uploads (db : Db) : result UploadStoreError (list StoredUpload) := read_uploads db (fun _ => true).

(** [read_upload_receipt_row] (persistence/upload_store.rs:2379-2432). *)
Definition read_upload_receipt_row (job_id : string) (e : string * ReceiptRow) : result PersistenceError StoredUploadReceipt :=
  let '(object_key, r) := e in
  let? role := ok_or (role_from_db_str (rp_object_role r)) (PSqlite (SqConversion "object_role")) in
  let? proof := ok_or (proof_from_db_str (rp_digest_proof r)) (PSqlite (SqConversion "digest_proof")) in
  let? size := ok_or (u64_of_i64 (rp_size_bytes r)) (PSqlite (SqConversion "size_bytes")) in
  let? sha := rmap_err (fun _ => PSqlite (SqConversion "source_sha256")) (normalize_upload_sha256 (rp_source_sha256 r)) in
  if match rp_version_id r with Some version => is_blank version | None => false end
  then Err (PSqlite (SqConversion "version_id")) else
  Ok (mkStoredReceipt job_id (rp_entry_key r) (rp_revision r)
        (mkReceiptSeed object_key role (rp_etag r) (rp_version_id r) size sha proof) (rp_staged_at r)).

Definition by_object_key (a b : string * ReceiptRow) : Prop := Is_true (String.leb a.1 b.1).
#[global] Instance by_object_key_dec : RelDecision by_object_key.
Proof. intros a b. unfold by_object_key. apply _. Defined.

(** [read_upload_receipt_rows] (persistence/upload_store.rs:2434-2467). *)
Definition read_upload_receipt_rows (db : Db) (job_id : string) (object_key : option string)
    : result UploadReceiptError (list StoredUploadReceipt) :=
  rmap_err UrPersistence (rtraverse (read_upload_receipt_row job_id)
    match object_key with
    | Some key => match receipts_of db job_id !! key with Some r => [(key, r)] | None => [] end
    | None => merge_sort by_object_key (map_to_list (receipts_of db job_id))
    end).

(** [TransferStore::list_upload_receipts] (persistence/upload_store.rs:1242-1247). *)
Definition list_upload_receipts (db : Db) (job_id : string) := read_upload_receipt_rows db job_id None.

(** [TransferStore::upload_receipt] (persistence/upload_store.rs:1259-1266). *)
Definition upload_receipt (db : Db) (job_id object_key : string) : result UploadReceiptError (option StoredUploadReceipt) :=
  let? rows := read_upload_receipt_rows db job_id (Some object_key) in Ok (hd_error rows).

Definition spec_of_row (r : UploadSpecRow) : UploadJobSpec :=
  mkUploadJobSpec (us_entry_key r) (us_revision r) (us_input_digest r) (us_object_prefix r).

(** [TransferStore::upload_job_spec] (persistence/upload_store.rs:949-967). *)
Definition upload_job_spec (db : Db) (job_id : string) : option UploadJobSpec := spec_of_row <$> t_upload_specs db !! job_id.

(** [TransferStore::upload_activity] (persistence/upload_store.rs:971-1042). *)
Definition upload_activity (db : Db) (job_id : string) : result PersistenceError (option StoredUploadActivity) :=
  let? found := read_job db job_id in
  match found with
  | None => Ok None
  | Some job =>
      if negb (bool_decide (sj_operation_kind job = OpUpload)) then Ok None else
      let? spec := ok_or (upload_job_spec db job_id) (PCorrupt "transfer_upload_job_specs" job_id) in
      let corrupt := PCorrupt "transfer_upload_activity" job_id in
      let? row := ok_or (t_activity db !! job_id) corrupt in
      let? total := ok_or (u64_of_i64 (ac_total_bytes row)) corrupt in
      let? confirmed := ok_or (u64_of_i64 (ac_confirmed_bytes row)) corrupt in
      if negb (total =? 0)%N && (total <? confirmed)%N then Err corrupt else
      Ok (Some (mkStoredActivity job spec (ac_label row) (ac_target_label row) total confirmed
                  (ac_created_at row) (ac_updated_at row)))
  end.

(** [TransferStore::list_upload_activities] (persistence/upload_store.rs:1048-1072). *)
Definition list_upload_activities (db : Db) : result PersistenceError (list StoredUploadActivity) :=
  let visible e :=
    String.eqb (jr_operation_kind e.2) "upload" && bool_decide (jr_dismissed_at e.2 = None)
    && (negb (String.eqb (jr_state e.2) "succeeded")
        || negb (match t_outbox db !! e.1 with Some o => bool_decide (is_Some (or_acknowledged_at o)) | None => false end)) in
  rtraverse (fun e => let? found := upload_activity db e.1 in ok_or found (PCorrupt "transfer_upload_activity" e.1))
    (rev (List.filter visible (jobs_in_order db))).

(** ** Creating an upload job *)

(** [UploadJobCreateOutcome] (persistence/upload_store.rs:368-371). *)
Inductive UploadJobCreateOutcome := UjCreated (job : StoredJob) | UjExisting (job : StoredJob).

(** [UploadJobCreateAbort] (persistence/upload_store.rs:376-380). *)
Inductive UploadJobCreateAbort := AfterJob | AfterSpec | AfterActivity.

#[global] Instance UploadJobCreateAbort_eq_dec : EqDecision UploadJobCreateAbort.
Proof. solve_decision. Defined.

(** [abort_upload_job_create_if] (persistence/upload_store.rs:2574-2586). *)
Definition abort_upload_job_create_if {S : Type} (abort : option UploadJobCreateAbort) (stage : UploadJobCreateAbort)
    : sm S UploadJobCreateError unit :=
  if bool_decide (abort = Some stage)
  then sfail (UcPersistence (PConflict (SimulatedCrash
         (match stage with AfterJob => "AfterJob" | AfterSpec => "AfterSpec" | AfterActivity => "AfterActivity" end))))
  else sret tt.

(** The job rows in progress whose upload specification satisfies [p]. *)
Definition live_uploads (db : Db) (p : UploadSpecRow -> bool) : list (string * JobRow) :=
  List.filter (fun e => negb (terminal_text (jr_state e.2))
                        && match t_upload_specs db !! e.1 with Some s => p s | None => false end)
    (map_to_list (t_jobs db)).

Definition is_publication (s : UploadSpecRow) : bool := String.eqb (us_subject_kind s) "library_publication".

Definition publication_row (spec : UploadJobSpec) : UploadSpecRow :=
  mkUploadSpecRow (uj_entry_key spec) (uj_revision spec) (uj_input_digest spec) (uj_object_prefix spec)
    "library_publication" None.

Section uploads.
Context `{Sha256}.

(** [upload_input_digest] (persistence/upload_store.rs:2607-2612). *)
Definition upload_input_digest (input : string) : string := to_hex (sha256 (bytes_of input)).

Section create.
Context `{QueryPlan}.

(** [create_upload_job, same natural key] (persistence/upload_store.rs:818-861): the
    answer when the entry's revision has a specification already. *)
Definition existing_upload_job (db : Db) (spec : UploadJobSpec) : result UploadJobCreateError (option StoredJob) :=
  let same e := is_publication e.2 && String.eqb (us_entry_key e.2) (uj_entry_key spec)
                && String.eqb (us_revision e.2) (uj_revision spec) in
  match first_row (List.filter same (map_to_list (t_upload_specs db))) with
  | None => Ok None
  | Some (existing_id, row) =>
      let? found := rmap_err UcPersistence (read_job db existing_id) in
      let? existing := ok_or found (UcPersistence (PCorrupt "transfer_upload_job_specs" existing_id)) in
      let conflict := mkUploadConflict (uj_entry_key spec) existing_id (uj_revision spec) (uj_revision spec) in
      if negb (bool_decide (sj_operation_kind existing = OpUpload))
      then Err (UcConflict (conflict "natural key is occupied by a non-upload job"))
      else if String.eqb (us_input_digest row) (uj_input_digest spec) then Ok (Some existing)
      else Err (UcConflict (conflict "immutable input differs"))
  end.

(** [create_upload_job, one live revision] (persistence/upload_store.rs:863-889). *)
Definition entry_is_free (db : Db) (spec : UploadJobSpec) : result UploadJobCreateError unit :=
  match latest_row (live_uploads db (fun s => is_publication s && String.eqb (us_entry_key s) (uj_entry_key spec))) with
  | None => Ok tt
  | Some (existing_id, _) =>
      Err (UcConflict (mkUploadConflict (uj_entry_key spec) existing_id
             (from_option us_revision "" (t_upload_specs db !! existing_id)) (uj_revision spec)
             "another upload revision for this entry is still active"))
  end.

(** [create_upload_job_with_activity_inner] (persistence/upload_store.rs:803-946). *)
Definition create_upload_job (job_id : string) (spec : UploadJobSpec) (activity : UploadActivitySeed) (now : string)
    (abort : option UploadJobCreateAbort) : sm Db UploadJobCreateError UploadJobCreateOutcome :=
  let! _ := slift (rmap_err UcInvalid (validate_upload_job_spec spec)) in
  if is_blank job_id then sfail (UcInvalid "job_id") else
  let! _ := slift (rmap_err UcInvalid (validate_upload_activity_seed activity)) in
  transaction (
    let! db := sget in
    let! same := slift (existing_upload_job db spec) in
    match same with
    | Some existing => sret (UjExisting existing)
    | None =>
        let! _ := slift (entry_is_free db spec) in
        let! taken := slift (rmap_err UcPersistence (read_job db job_id)) in
        match taken with
        | Some existing => sfail (UcJobIdCollision (sj_job_id existing))
        | None =>
            let! identity := slift (rmap_err UcInvalid (upload_job_identity (uj_entry_key spec) (uj_revision spec))) in
            do! serr UcPersistence (insert_job job_id
                  (queued_row identity OpUpload ("upload:" ++ uj_natural_key spec)
                     (upload_input_digest (uj_input_digest spec)) now)) then!
            do! abort_upload_job_create_if abort AfterJob then!
            do! serr UcPersistence (insert_upload_spec job_id (publication_row spec)) then!
            do! abort_upload_job_create_if abort AfterSpec then!
            let! total := slift (rmap_err UcPersistence (checked_i64_upload (as_total_bytes activity) "total_bytes")) in
            do! serr UcPersistence (insert_activity job_id
                  (mkActivityRow (as_label activity) (as_target_label activity) total 0 now now)) then!
            do! abort_upload_job_create_if abort AfterActivity then!
            let! after := sget in
            let! found := slift (rmap_err UcPersistence (read_job after job_id)) in
            let! job := slift (ok_or found (UcPersistence (PNotFound job_id))) in
            sret (UjCreated job)
        end
    end).

End create.

(** ** The life of an upload job *)

(** [ensure_upload_kind] (persistence/upload_store.rs:2629-2637). *)
Definition ensure_upload_kind (job : StoredJob) : result UploadJobError unit :=
  if bool_decide (sj_operation_kind job = OpUpload) then Ok tt
  else Err (UjWrongOperationKind (sj_job_id job) (sj_operation_kind job)).

(** [check_expected_version] (persistence/upload_store.rs:2639-2648). *)
Definition check_expected_version (job : StoredJob) (expected : N) : result UploadJobError unit :=
  if (sj_state_version job =? expected)%N then Ok tt else Err (UjStale (sj_job_id job) expected (sj_state_version job)).

(** [persisted_state] (persistence/upload_store.rs:2650-2677). *)
Definition persisted_state (job : StoredJob) : result UploadJobError TransferJobState :=
  match sj_state job with
  | TQueued => Ok Queued
  | TWaitingForDevice => Ok WaitingForDevice
  | TWaitingForPairing => Ok WaitingForPairing
  | TPausedCaptureActive => Ok PausedCaptureActive
  | TPreparing => Ok Preparing
  | TTransferring => Ok Transferring
  | TVerifying => Ok Verifying
  | TCommitting => Ok Committing
  | TRetryWait => Ok RetryWait
  | TCancelling => Ok Cancelling
  | TSucceeded => Ok Succeeded
  | TCancelled => Ok Cancelled
  | TFailed =>
      match sj_error job with
      | Some (code, retryable) => Ok (Failed (Other code) retryable)
      | None => Err (UjPersistence (PCorrupt "transfer_jobs" (sj_job_id job)))
      end
  end.

(** [terminal_outcome] (persistence/upload_store.rs:2679-2691). *)
Definition terminal_outcome (job : StoredJob) : result UploadJobError TerminalOutcome :=
  match sj_state job, sj_error job with
  | TSucceeded, _ => Ok ToSucceeded
  | TCancelled, _ => Ok ToCancelled
  | TFailed, Some (code, retryable) => Ok (ToFailed code retryable)
  | _, _ => Err (UjPersistence (PCorrupt "transfer_jobs" (sj_job_id job)))
  end.

(** [require_upload_job] (persistence/upload_store.rs:754-760). *)
Definition require_upload_job (db : Db) (job_id : string) : result UploadJobError StoredJob :=
  let? found := rmap_err UjPersistence (read_job db job_id) in
  let? job := ok_or found (UjUnknownJob job_id) in
  let? _ := ensure_upload_kind job in Ok job.

Definition not_terminal (job : StoredJob) : result UploadJobError unit :=
  if tag_is_terminal (sj_state job)
  then let? existing := terminal_outcome job in Err (UjAlreadyTerminal (sj_job_id job) existing)
  else Ok tt.

(** [TransferStore::start_upload_job] (persistence/upload_store.rs:1279-1299). *)
Definition start_upload_job (job_id : string) (expected_version : N) (now : string) : sm Db UploadJobError N :=
  let! db := sget in
  let! job := slift (require_upload_job db job_id) in
  let! _ := slift (check_expected_version job expected_version) in
  let! current := slift (persisted_state job) in
  let aggregate := JobAggregate_new current in
  let decision := JobAggregate_decide (mkAggregate current expected_version (ag_desired_run_state aggregate)
                                         (ag_observed_device_version aggregate)) (Transition Preparing) in
  if is_rejected (outcome decision) then sfail (UjIllegalTransition job_id (tag_as_db_str (sj_state job)))
  else serr UjPersistence (transition_job job_id expected_version TPreparing None now).

(** [insert_upload_outbox_row] (persistence/upload_store.rs:2697-2745). *)
Definition insert_upload_outbox_row (job_id : string) (outcome : TerminalOutcome) (state_version : N) (now : string)
    : sm Db UploadJobError CompletionRecord :=
  let! version := slift (rmap_err UjPersistence (checked_i64 state_version "state version")) in
  do! serr UjPersistence (insert_outbox job_id (fun seq =>
        mkOutboxRow seq "upload" (outcome_as_db_str outcome) (error_columns outcome).1 (error_columns outcome).2
          version now None)) then!
  let! after := sget in
  let! row := slift (ok_or (t_outbox after !! job_id) (UjPersistence (PSqlite SqNoRows))) in
  let! sequence := slift (ok_or (u64_of_i64 (or_sequence row))
                                (UjPersistence (PCorrupt "transfer_completion_outbox" job_id))) in
  sret (mkCompletion sequence job_id OpUpload outcome state_version now None).

Definition touch_activity (now : string) (r : ActivityRow) : ActivityRow :=
  mkActivityRow (ac_label r) (ac_target_label r) (ac_total_bytes r) (ac_confirmed_bytes r) (ac_created_at r) now.

(** [TransferStore::complete_upload_job] (persistence/upload_store.rs:1304-1388). *)
Definition complete_upload_job (job_id : string) (expected_version : N) (outcome : TerminalOutcome) (now : string)
    : sm Db UploadJobError CompleteJobOutcome :=
  transaction (
    let! db := sget in
    let! job := slift (require_upload_job db job_id) in
    let! _ := slift (not_terminal job) in
    let! _ := slift (check_expected_version job expected_version) in
    let! next_version := slift (ok_or (u64_checked_add expected_version 1)
                                  (UjPersistence (PConflict (StateVersionExhausted job_id)))) in
    let! next := slift (rmap_err UjPersistence (checked_i64 next_version "state version")) in
    let! expected := slift (rmap_err UjPersistence (checked_i64 expected_version "expected version")) in
    let! changed := serr UjPersistence (update_job job_id
      (fun r => String.eqb (jr_operation_kind r) "upload" && (jr_state_version r =? expected)%Z
                && negb (terminal_text (jr_state r)))
      (set_outcome outcome next now)) in
    if negb changed then
      let! after := sget in
      let! found := slift (rmap_err UjPersistence (read_job after job_id)) in
      sfail (UjStale job_id expected_version (from_option sj_state_version expected_version found))
    else
    let! activity_changed := serr UjPersistence (update_activity job_id (touch_activity now)) in
    if negb activity_changed then sfail (UjPersistence (PCorrupt "transfer_upload_activity" job_id)) else
    let! record := insert_upload_outbox_row job_id outcome next_version now in
    sret (CpRecorded record)).

(** [TransferStore::cancel_upload_job] (persistence/upload_store.rs:1404-1411). *)
Definition cancel_upload_job (job_id : string) (expected_version : N) (now : string) :=
  complete_upload_job job_id expected_version ToCancelled now.

(** [TransferStore::retry_upload_job] (persistence/upload_store.rs:1416-1423). *)
Definition retry_upload_job (parent_job_id child_job_id now : string) :=
  spawn_upload_retry_job parent_job_id child_job_id now.

(** *** Repeating an upload *)

(** [repeat_child_matches] (persistence/upload_store.rs:2515-2566). *)
Definition repeat_child_matches (db : Db) (child_job_id : string) (spec : UploadJobSpec) (activity : UploadActivitySeed)
    : result RepeatUploadJobError bool :=
  let? row := ok_or (t_upload_specs db !! child_job_id) (RpPersistence (PCorrupt "transfer_upload_job_specs" child_job_id)) in
  let? act := ok_or (t_activity db !! child_job_id) (RpPersistence (PCorrupt "transfer_upload_activity" child_job_id)) in
  let? total := ok_or (u64_of_i64 (ac_total_bytes act)) (RpPersistence (PCorrupt "transfer_upload_activity" child_job_id)) in
  Ok (String.eqb (us_entry_key row) (uj_entry_key spec) && String.eqb (us_revision row) (uj_revision spec)
      && String.eqb (us_input_digest row) (uj_input_digest spec)
      && bool_decide (us_object_prefix row = uj_object_prefix spec)
      && String.eqb (ac_label act) (as_label activity) && String.eqb (ac_target_label act) (as_target_label activity)
      && (total =? as_total_bytes activity)%N).

(** [repeat_upload_job_inner, guards] (persistence/upload_store.rs:1487-1553): the parent, once
    every guard passed. *)
Definition repeat_parent_checked (db : Db) (parent_job_id : string) (spec : UploadJobSpec) (allow_terminal_supersede : bool)
    : result RepeatUploadJobError StoredJob :=
  let? found := rmap_err RpPersistence (read_job db parent_job_id) in
  let? parent := ok_or found (RpUnknownJob parent_job_id) in
  if negb (bool_decide (sj_operation_kind parent = OpUpload))
  then Err (RpWrongOperationKind parent_job_id (sj_operation_kind parent)) else
  let terminal_supersede := allow_terminal_supersede
    && (bool_decide (sj_state parent = TFailed) || bool_decide (sj_state parent = TCancelled)) in
  if negb (bool_decide (sj_state parent = TSucceeded)) && negb terminal_supersede
  then Err (RpNotSuccessful parent_job_id (tag_as_db_str (sj_state parent))) else
  if negb (match t_outbox db !! parent_job_id with Some o => bool_decide (is_Some (or_acknowledged_at o)) | None => false end)
  then Err (RpUnacknowledgedParent parent_job_id) else
  let? row := ok_or (t_upload_specs db !! parent_job_id) (RpPersistence (PCorrupt "transfer_upload_job_specs" parent_job_id)) in
  if terminal_supersede && String.eqb (us_input_digest row) (uj_input_digest spec)
     && bool_decide (sj_dismissed_at parent = None)
  then Err (RpUnchangedInput parent_job_id) else
  if negb (String.eqb (us_entry_key row) (uj_entry_key spec)) || negb (String.eqb (us_revision row) (uj_revision spec))
  then Err (RpSpecMismatch parent_job_id (us_entry_key row) (us_revision row) (uj_entry_key spec) (uj_revision spec))
  else Ok parent.

(** [repeat_upload_job_inner, existing child] (persistence/upload_store.rs:1554-1613): the child that
    answers the request, when there is one. *)
Definition repeat_existing_child (db : Db) (parent_job_id child_job_id : string) (spec : UploadJobSpec)
    (activity : UploadActivitySeed) : result RepeatUploadJobError (option StoredJob) :=
  let? taken := rmap_err RpPersistence (read_job db child_job_id) in
  match taken with
  | Some existing =>
      if bool_decide (ln_parent_job_id <$> t_lineage db !! child_job_id = Some parent_job_id) then
        let? matches := repeat_child_matches db child_job_id spec activity in
        if matches : bool then Ok (Some existing)
        else Err (RpChildConflict child_job_id "replayed child id has different spec or activity metadata")
      else Err (RpJobIdCollision child_job_id)
  | None =>
      match latest_attempt (joined_children db parent_job_id
              (fun r => String.eqb (jr_operation_kind r) "upload" && negb (terminal_text (jr_state r)))) with
      | None => Ok None
      | Some (active_child_id, _) =>
          let? found := rmap_err RpPersistence (read_job db active_child_id) in
          let? existing := ok_or found (RpPersistence (PCorrupt "transfer_job_lineage" parent_job_id)) in
          let? matches := repeat_child_matches db active_child_id spec activity in
          if matches : bool then Ok (Some existing)
          else Err (RpChildConflict active_child_id "an active repeat already owns a different spec or activity metadata")
      end
  end.

(** [SELECT COALESCE(MAX(attempt), 0)]. *)
Definition last_attempt (db : Db) (parent_job_id : string) : Z :=
  fold_right Z.max 0%Z ((fun e => ln_attempt e.2) <$> children_of db parent_job_id).

(** [repeat_upload_job_inner, the next attempt] (persistence/upload_store.rs:1615-1638). *)
Definition next_attempt (db : Db) (parent_job_id : string) : result RepeatUploadJobError Z :=
  let? previous := ok_or (u64_of_i64 (last_attempt db parent_job_id))
                         (RpPersistence (PCorrupt "transfer_job_lineage" parent_job_id)) in
  let exhausted := RpPersistence (PConflict (RetryAttemptsExhausted parent_job_id)) in
  let? attempt := ok_or (u64_checked_add previous 1) exhausted in
  rmap_err (fun _ => exhausted) (checked_i64 attempt "attempt").

(** [TransferStore::repeat_upload_job_inner] (persistence/upload_store.rs:1466-1697). *)
Definition repeat_upload_job_inner (parent_job_id child_job_id : string) (spec : UploadJobSpec)
    (activity : UploadActivitySeed) (now : string) (allow_terminal_supersede : bool)
    : sm Db RepeatUploadJobError RetryJobOutcome :=
  let! _ := slift (rmap_err RpInvalid (validate_upload_job_spec spec)) in
  if is_blank child_job_id then sfail (RpInvalid "child_job_id") else
  let! _ := slift (rmap_err RpInvalid (validate_upload_activity_seed activity)) in
  transaction (
    let! db := sget in
    let! parent := slift (repeat_parent_checked db parent_job_id spec allow_terminal_supersede) in
    let! child := slift (repeat_existing_child db parent_job_id child_job_id spec activity) in
    match child with
    | Some existing => sret (RtExisting existing)
    | None =>
        let! attempt := slift (next_attempt db parent_job_id) in
        let key := "upload:" ++ natural_key (sj_identity parent) ++ "#repeat:" ++ child_job_id in
        do! serr RpPersistence (insert_job child_job_id
              (queued_row (sj_identity parent) OpUpload key (upload_input_digest (uj_input_digest spec)) now)) then!
        do! serr RpPersistence (insert_upload_spec child_job_id (publication_row spec)) then!
        let! total := slift (rmap_err RpPersistence (checked_i64_upload (as_total_bytes activity) "total_bytes")) in
        do! serr RpPersistence (insert_activity child_job_id
              (mkActivityRow (as_label activity) (as_target_label activity) total 0 now now)) then!
        do! serr RpPersistence (insert_lineage child_job_id (mkLineageRow parent_job_id attempt now)) then!
        let! after := sget in
        let! found := slift (rmap_err RpPersistence (read_job after child_job_id)) in
        let! created := slift (ok_or found (RpPersistence (PNotFound child_job_id))) in
        sret (RtCreated created)
    end).

(** [TransferStore::repeat_upload_job] (persistence/upload_store.rs:1438-1447). *)
Definition repeat_upload_job (parent_job_id child_job_id : string) (spec : UploadJobSpec) (activity : UploadActivitySeed)
    (now : string) := repeat_upload_job_inner parent_job_id child_job_id spec activity now false.

(** [TransferStore::supersede_upload_job] (persistence/upload_store.rs:1455-1464). *)
Definition supersede_upload_job (parent_job_id child_job_id : string) (spec : UploadJobSpec) (activity : UploadActivitySeed)
    (now : string) := repeat_upload_job_inner parent_job_id child_job_id spec activity now true.

(** ** Multipart handles and parts *)

(** [describe_upload_mismatch] (persistence/upload_store.rs:2747-2786): the field that differs. *)
Definition describe_upload_mismatch (existing requested : NewUpload) : string :=
  let differs f := negb (String.eqb (f existing) (f requested)) in
  if differs nu_transfer_key then "transfer key" else
  if differs nu_entry_key then "entry key" else
  if differs nu_revision then "revision" else
  if differs nu_endpoint then "endpoint" else
  if differs nu_bucket then "bucket" else
  if negb (bool_decide (nu_url_style existing = nu_url_style requested)) then "url style" else "the records differ".

Definition upload_columns (u : NewUpload) (now : string) (job_id : option string) : UploadRow :=
  mkUploadRow (nu_object_key u) (nu_upload_id u) (nu_transfer_key u) (nu_entry_key u) (nu_revision u) (nu_endpoint u)
    (nu_bucket u) (style_as_db_str (nu_url_style u)) "running" now now job_id.

(** [TransferStore::begin_upload] (persistence/upload_store.rs:1720-1766). *)
Definition begin_upload (upload : NewUpload) (now : string) : sm Db UploadStoreError StoredUpload :=
  let! _ := slift (validate_new_upload upload) in
  transaction (
    let! db := sget in
    let! found := slift (read_upload db (nu_object_key upload) (nu_upload_id upload)) in
    match found with
    | Some existing =>
        if bool_decide (su_upload existing = upload) then sret existing
        else sfail (UsConflict (nu_object_key upload) (nu_upload_id upload)
                      (describe_upload_mismatch (su_upload existing) upload))
    | None =>
        do! serr UsPersistence (insert_upload (upload_columns upload now None)) then!
        let! after := sget in
        let! inserted := slift (read_upload after (nu_object_key upload) (nu_upload_id upload)) in
        slift (ok_or inserted (UsPersistence (PNotFound (nu_object_key upload))))
    end).

(** [TransferStore::begin_upload_for_job] (persistence/upload_store.rs:1772-1829). *)
Definition begin_upload_for_job (job_id : string) (expected_version : N) (upload : NewUpload) (now : string)
    : sm Db UploadJobError StoredUpload :=
  let! _ := slift (rmap_err UjPart (validate_new_upload upload)) in
  transaction (
    let! db := sget in
    let! job := slift (require_upload_job db job_id) in
    let! _ := slift (check_expected_version job expected_version) in
    let! _ := slift (not_terminal job) in
    let! found := slift (rmap_err UjPart (read_upload db (nu_object_key upload) (nu_upload_id upload))) in
    match found with
    | Some existing =>
        if bool_decide (su_upload existing = upload) && bool_decide (su_job_id existing = Some job_id) then sret existing
        else sfail (UjJobMismatch (nu_object_key upload) (nu_upload_id upload))
    | None =>
        do! serr UjPersistence (insert_upload (upload_columns upload now (Some job_id))) then!
        let! after := sget in
        let! inserted := slift (rmap_err UjPart (read_upload after (nu_object_key upload) (nu_upload_id upload))) in
        slift (ok_or inserted (UjPersistence (PNotFound (nu_object_key upload))))
    end).

(** [record_upload_part, stored evidence] (persistence/upload_store.rs:1863-1892): whether
    the part is recorded already. *)
Definition part_recorded (db : Db) (object_key upload_id : string) (part : UploadPartRecord) : result UploadStoreError bool :=
  match find (part_key object_key upload_id (Z.of_N (pa_part_number part))) (t_parts db) with
  | None => Ok false
  | Some row =>
      let? size := ok_or (u64_of_i64 (pt_size_bytes row)) (UsPersistence (PCorrupt "transfer_upload_parts" object_key)) in
      if String.eqb (pt_etag row) (pa_etag part) && (size =? pa_size_bytes part)%N then Ok true
      else Err (UsPartConflict object_key upload_id (pa_part_number part) (pt_etag row) size (pa_etag part)
                  (pa_size_bytes part))
  end.

Definition touch_upload (now : string) (u : UploadRow) : UploadRow :=
  mkUploadRow (up_object_key u) (up_upload_id u) (up_transfer_key u) (up_entry_key u) (up_revision u) (up_endpoint u)
    (up_bucket u) (up_url_style u) (up_desired_state u) (up_created_at u) now (up_job_id u).

(** [record_upload_part, the writes] (persistence/upload_store.rs:1895-1917): the two writes of
    an acknowledged part. *)
Definition write_part (object_key upload_id : string) (part : UploadPartRecord) (now : string) : sm Db UploadStoreError unit :=
  let! size := slift (rmap_err (fun _ => UsInvalid "part size") (checked_i64 (pa_size_bytes part) "size_bytes")) in
  do! serr UsPersistence (insert_part
        (mkPartRow object_key upload_id (Z.of_N (pa_part_number part)) (pa_etag part) size now)) then!
  do! serr UsPersistence (update_uploads (has_handle object_key upload_id) (touch_upload now)) then!
  sret tt.

(** [TransferStore::record_upload_part] (persistence/upload_store.rs:1837-1920). *)
Definition record_upload_part (object_key upload_id : string) (part : UploadPartRecord) (now : string)
    : sm Db UploadStoreError unit :=
  let! _ := slift (validate_part part) in
  transaction (
    let! db := sget in
    if negb (existsb (has_handle object_key upload_id) (t_uploads db)) then sfail (UsUnknownUpload object_key upload_id) else
    let! recorded := slift (part_recorded db object_key upload_id part) in
    if recorded : bool then sret tt else write_part object_key upload_id part now).

(** [record_upload_part_for_job_with_progress, the activity] (persistence/upload_store.rs:2032-2069). *)
Definition add_progress (job_id : string) (progress_bytes : N) (now : string) : sm Db PersistenceError unit :=
  let! db := sget in
  let corrupt := PCorrupt "transfer_upload_activity" job_id in
  let! row := slift (ok_or (t_activity db !! job_id) corrupt) in
  let! total := slift (ok_or (u64_of_i64 (ac_total_bytes row)) corrupt) in
  let! confirmed := slift (ok_or (u64_of_i64 (ac_confirmed_bytes row)) corrupt) in
  let! next := slift (ok_or (u64_checked_add confirmed progress_bytes) (PConflict (ProgressOverflow job_id))) in
  if negb (total =? 0)%N && (total <? next)%N then sfail (PConflict (ProgressExceedsTotal job_id next total)) else
  let! next := slift (checked_i64_upload next "confirmed_bytes") in
  do! update_activity job_id (fun r => mkActivityRow (ac_label r) (ac_target_label r) (ac_total_bytes r) next
                                         (ac_created_at r) now) then!
  sret tt.

(** [record_upload_part_for_job_with_progress, the owner] (persistence/upload_store.rs:1971-1983). *)
Definition upload_owner (db : Db) (object_key upload_id : string) : result UploadJobError (option string) :=
  match find (has_handle object_key upload_id) (t_uploads db) with
  | None => Ok None
  | Some row => let? owner := ok_or (up_job_id row) (UjPersistence (PSqlite (SqConversion "job_id"))) in Ok (Some owner)
  end.

(** [record_upload_part_for_job_with_progress] (persistence/upload_store.rs:1949-2073). *)
Definition record_upload_part_for_job (job_id : string) (expected_version : N) (object_key upload_id : string)
    (part : UploadPartRecord) (progress_bytes : option N) (now : string) : sm Db UploadJobError unit :=
  let! _ := slift (rmap_err UjPart (validate_part part)) in
  transaction (
    let! db := sget in
    let! job := slift (require_upload_job db job_id) in
    let! _ := slift (check_expected_version job expected_version) in
    let! _ := slift (not_terminal job) in
    let! owner := slift (upload_owner db object_key upload_id) in
    if negb (bool_decide (owner = Some job_id)) then sfail (UjJobMismatch object_key upload_id) else
    let! recorded := slift (rmap_err UjPart (part_recorded db object_key upload_id part)) in
    if recorded : bool then sret tt else
    do! serr UjPart (write_part object_key upload_id part now) then!
    match progress_bytes with
    | Some progress => serr UjPersistence (add_progress job_id progress now)
    | None => sret tt
    end).

(** [TransferStore::set_upload_desired_state] (persistence/upload_store.rs:2077-2090). *)
Definition set_upload_desired_state (object_key upload_id : string) (desired : UploadDesiredState) (now : string)
    : sm Db PersistenceError bool :=
  let! changed := update_uploads (has_handle object_key upload_id)
    (fun u => mkUploadRow (up_object_key u) (up_upload_id u) (up_transfer_key u) (up_entry_key u) (up_revision u)
                (up_endpoint u) (up_bucket u) (up_url_style u) (desired_as_db_str desired) (up_created_at u) now
                (up_job_id u)) in
  sret (0 <? changed)%nat.

(** [TransferStore::finish_upload] (persistence/upload_store.rs:2098-2114). *)
Definition finish_upload (object_key upload_id : string) : sm Db PersistenceError bool :=
  fun db =>
    (with_multipart (List.filter (fun u => negb (has_handle object_key upload_id u)) (t_uploads db))
       (List.filter (fun p => negb (String.eqb (pt_object_key p) object_key && String.eqb (pt_upload_id p) upload_id))
          (t_parts db)) db,
     Ok (existsb (has_handle object_key upload_id) (t_uploads db))).

(** [TransferStore::claim_orphan_uploads] (persistence/upload_store.rs:2138-2151). *)
Definition claim_orphan_uploads (now : string) : sm Db UploadStoreError (list StoredUpload) :=
  transaction (
    do! serr UsPersistence (update_uploads (fun u => negb (String.eqb (up_desired_state u) "aborting"))
          (fun u => mkUploadRow (up_object_key u) (up_upload_id u) (up_transfer_key u) (up_entry_key u) (up_revision u)
                      (up_endpoint u) (up_bucket u) (up_url_style u) "aborting" (up_created_at u) now (up_job_id u))) then!
    let! db := sget in
    slift (list_pending_uploads db)).

(** ** Receipts *)

(** [upload_receipt_matches_seed] (persistence/upload_store.rs:2317-2332). *)
Definition upload_receipt_matches_seed (existing : StoredUploadReceipt) (entry_key revision : string)
    (requested : UploadReceiptSeed) : bool :=
  String.eqb (st_entry_key existing) entry_key && String.eqb (st_revision existing) revision
  && bool_decide (st_seed existing = requested).

(** [describe_upload_receipt_conflict] (persistence/upload_store.rs:2334-2377): the
    field that differs. *)
Definition describe_upload_receipt_conflict (existing : StoredUploadReceipt) (entry_key revision : string)
    (requested : UploadReceiptSeed) : string :=
  let s := st_seed existing in
  if negb (String.eqb (st_entry_key existing) entry_key) then "entry_key" else
  if negb (String.eqb (st_revision existing) revision) then "revision" else
  if negb (bool_decide (sd_role s = sd_role requested)) then "role" else
  if negb (String.eqb (sd_etag s) (sd_etag requested)) then "etag" else
  if negb (String.eqb (default "<none>" (sd_version_id s)) (default "<none>" (sd_version_id requested))) then "version_id" else
  if negb (String.eqb (sd_source_sha256 s) (sd_source_sha256 requested)) then "source_sha256" else
  if negb (bool_decide (sd_digest_proof s = sd_digest_proof requested)) then "digest_proof" else
  if negb (sd_size_bytes s =? sd_size_bytes requested)%N then "size_bytes" else "the records differ".

(** [stage_upload_receipts, the batch] (persistence/upload_store.rs:1109-1127): normalised, each
    object key once. *)
Fixpoint normalize_batch (seen : list UploadReceiptSeed) (receipts : list UploadReceiptSeed)
    : result UploadReceiptError (list UploadReceiptSeed) :=
  match receipts with
  | [] => Ok seen
  | r :: rest =>
      let? normalized := rmap_err UrInvalid (validate_upload_receipt_seed r) in
      if existsb (fun s => String.eqb (sd_object_key s) (sd_object_key normalized)) seen
      then Err (UrInvalid "object key appears more than once in one receipt batch")
      else normalize_batch (seen ++ [normalized])%list rest
  end.

(** [stage_upload_receipts, one receipt] (persistence/upload_store.rs:1162-1204). *)
Definition stage_receipt (job_id entry_key revision staged_at : string) (r : UploadReceiptSeed)
    : sm Db UploadReceiptError unit :=
  let! db := sget in
  match receipts_of db job_id !! sd_object_key r with
  | Some row =>
      let! existing := slift (rmap_err UrPersistence (read_upload_receipt_row job_id (sd_object_key r, row))) in
      if upload_receipt_matches_seed existing entry_key revision r then sret tt
      else sfail (UrConflict job_id (sd_object_key r) (describe_upload_receipt_conflict existing entry_key revision r))
  | None =>
      let! size := slift (rmap_err UrPersistence (checked_i64_upload (sd_size_bytes r) "receipt size_bytes")) in
      serr UrPersistence (insert_receipt job_id (sd_object_key r)
        (mkReceiptRow entry_key revision (role_as_db_str (sd_role r)) (sd_etag r) (sd_version_id r) size
           (sd_source_sha256 r) (proof_as_db_str (sd_digest_proof r)) staged_at))
  end.

(** [TransferStore::stage_upload_receipts] (persistence/upload_store.rs:1084-1209). *)
Definition stage_upload_receipts (job_id entry_key revision : string) (receipts : list UploadReceiptSeed) (staged_at : string)
    : sm Db UploadReceiptError (list StoredUploadReceipt) :=
  let! _ := slift (rmap_err UrInvalid (none_blank
    [("job_id", job_id); ("entry_key", entry_key); ("revision", revision); ("staged_at", staged_at)])) in
  let! normalized := slift (normalize_batch [] receipts) in
  transaction (
    let! db := sget in
    let! found := slift (rmap_err UrPersistence (read_job db job_id)) in
    let! job := slift (ok_or found (UrUnknownJob job_id)) in
    if negb (bool_decide (sj_operation_kind job = OpUpload))
    then sfail (UrWrongOperationKind job_id (sj_operation_kind job)) else
    let! spec := slift (ok_or (t_upload_specs db !! job_id) (UrPersistence (PCorrupt "transfer_upload_job_specs" job_id))) in
    if negb (String.eqb (us_entry_key spec) entry_key) || negb (String.eqb (us_revision spec) revision)
    then sfail (UrJobContextMismatch job_id (us_entry_key spec) (us_revision spec) entry_key revision) else
    do! sforeach (stage_receipt job_id entry_key revision staged_at) normalized then!
    let! after := sget in
    slift (list_upload_receipts after job_id)).

(** [TransferStore::stage_upload_receipts_for_job] (persistence/upload_store.rs:1214-1236). *)
Definition stage_upload_receipts_for_job (job_id : string) (receipts : list UploadReceiptSeed) (staged_at : string)
    : sm Db UploadReceiptError (list StoredUploadReceipt) :=
  let! db := sget in
  let! found := slift (rmap_err UrPersistence (read_job db job_id)) in
  let! job := slift (ok_or found (UrUnknownJob job_id)) in
  if negb (bool_decide (sj_operation_kind job = OpUpload))
  then sfail (UrWrongOperationKind job_id (sj_operation_kind job)) else
  let! spec := slift (ok_or (upload_job_spec db job_id) (UrPersistence (PCorrupt "transfer_upload_job_specs" job_id))) in
  stage_upload_receipts job_id (uj_entry_key spec) (uj_revision spec) receipts staged_at.

End uploads.
