(* ===== verification/UploadStoreProofs.v ===== *)
(** * UploadStoreProofs: what the upload side of the store guarantees

The invariant of the upload tables, kept by every operation of TransferStore.v
and UploadStore.v; an upload ends once; a part the object store acknowledged
counts once; specifications, receipts and progress are never taken back. *)

From Stdlib Require Import NArith ZArith Lia Ascii String.
From Stdlib Require Import Strings.Byte.
From stdpp Require Import base numbers list strings gmap sorting.
From S2P Require Import Prelude Domain Device Schema Aggregate TransferStore StoreProofs UploadStore.

Local Open Scope string_scope.

(** ** The invariant *)

Definition upload_job (db : Db) (id : string) : Prop :=
  exists r, t_jobs db !! id = Some r /\ jr_operation_kind r = "upload".

Definition handle_of (u : UploadRow) : string * string := (up_object_key u, up_upload_id u).
Definition part_handle (p : PartRow) : string * string := (pt_object_key p, pt_upload_id p).

(** A receipt reads back under the specification of its job. *)
Definition receipt_ok (db : Db) (id key : string) (r : ReceiptRow) : Prop :=
  exists s receipt, t_upload_specs db !! id = Some s /\ rp_entry_key r = us_entry_key s /\ rp_revision r = us_revision s /\
    receipt_row_ok key r = true /\ read_upload_receipt_row id (key, r) = Ok receipt.

Record upload_inv (db : Db) : Prop := {
  ui_specs : forall id s, t_upload_specs db !! id = Some s -> upload_job db id /\ upload_spec_row_ok s = true;
  ui_activity : forall id a, t_activity db !! id = Some a -> upload_job db id /\ activity_row_ok a = true;
  ui_jobs : forall id, upload_job db id -> is_Some (t_upload_specs db !! id) /\ is_Some (t_activity db !! id);
  ui_uploads : forall u, u ∈ t_uploads db -> upload_row_ok u = true /\ forall id, up_job_id u = Some id -> upload_job db id;
  ui_handles : NoDup (handle_of <$> t_uploads db);
  ui_parts : forall p, p ∈ t_parts db -> part_handle p ∈ handle_of <$> t_uploads db /\ (1 <= pt_part_number p)%Z /\
               (0 <= pt_size_bytes p)%Z;
  ui_numbers : NoDup ((fun p => (part_handle p, pt_part_number p)) <$> t_parts db);
  ui_receipts : forall id key r, receipts_of db id !! key = Some r -> receipt_ok db id key r;
}.

Lemma empty_upload_inv : upload_inv empty_db.
Proof.
  split; simpl; try (intros *; by rewrite ?lookup_empty); try set_solver; try apply NoDup_nil_2.
  intros id (r & Hr & _). cbn in Hr. by rewrite lookup_empty in Hr.
Qed.

Definition upload_tables (db : Db) :=
  (t_upload_specs db, t_activity db, t_uploads db, t_parts db, t_receipts db, t_derived db).

(** A step that leaves the upload tables and the set of upload jobs alone. *)
Definition quiet (db db' : Db) : Prop :=
  upload_tables db' = upload_tables db /\ forall id, upload_job db' id <-> upload_job db id.

Lemma quiet_refl db : quiet db db.
Proof. done. Qed.

Lemma quiet_trans a b c : quiet a b -> quiet b c -> quiet a c.
Proof. intros [H1 H2] [H3 H4]. split; [congruence|]. intros id. by rewrite H4, H2. Qed.
#[export] Hint Resolve quiet_refl : sm.

Lemma quiet_inv db db' : quiet db db' -> upload_inv db -> upload_inv db'.
Proof.
  intros [[= Hs Ha Hu Hp Hr Hd] Hj] [I1 I2 I3 I4 I5 I6 I7 I8].
  split; unfold receipts_of, receipt_ok in *; rewrite ?Hs, ?Ha, ?Hu, ?Hp, ?Hr; try setoid_rewrite Hj; try done.
Qed.

Lemma quiet_row db id r r' :
  t_jobs db !! id = Some r -> jr_operation_kind r' = jr_operation_kind r ->
  quiet db (with_jobs (<[id := r']> (t_jobs db)) db).
Proof.
  intros Hr Hk. split; [done|]. intros j. unfold upload_job. cbn [with_jobs t_jobs].
  destruct (decide (j = id)) as [->|Hne]; [|by rewrite lookup_insert_ne].
  rewrite lookup_insert_eq, Hr. split; intros (x & [= <-] & Hx); eexists; split; try done; congruence.
Qed.

Lemma quiet_same db db' : upload_tables db' = upload_tables db -> t_jobs db' = t_jobs db -> quiet db db'.
Proof. intros Ht Hj. split; [done|]. intros id. unfold upload_job. by rewrite Hj. Qed.

Section quiet.
Context (db0 : Db).

Lemma quiet_insert_download id identity key digest now :
  maintains (quiet db0) (insert_job id (queued_row identity OpDownload key digest now)).
Proof.
  intros db db' [] Hq. unfold insert_job. destruct (bool_decide_reflect (is_Some (t_jobs db !! id))) as [|Hno]; [done|].
  apply eq_None_not_Some in Hno. destruct (existsb _ _); [done|]. destruct (negb _); [done|]. intros [= <-].
  apply (quiet_trans _ _ _ Hq). split; [done|]. intros j. unfold upload_job. cbn [with_jobs t_jobs].
  destruct (decide (j = id)) as [->|Hne]; [|by rewrite lookup_insert_ne].
  rewrite lookup_insert_eq, Hno. split; intros (x & Hx & Hk); [|done]. by injection Hx as <-.
Qed.

Lemma quiet_insert_spec id row : maintains (quiet db0) (insert_spec id row).
Proof.
  intros db db' [] Hq [_ H]%owned_by_ok. case_bool_decide; [done|]. destruct (negb (_ && _)); [done|]. injection H as <-.
  by apply (quiet_trans _ _ _ Hq), quiet_same.
Qed.

Lemma quiet_insert_file id row : maintains (quiet db0) (insert_file id row).
Proof.
  intros db db' [] Hq [_ H]%owned_by_ok. destruct (existsb _ _); [done|]. destruct (negb _); [done|]. injection H as <-.
  by apply (quiet_trans _ _ _ Hq), quiet_same.
Qed.

Lemma quiet_insert_ledger id row : maintains (quiet db0) (insert_ledger id row).
Proof.
  intros db db' [] Hq. unfold insert_ledger. destruct (negb (existsb _ _)); [done|]. destruct (existsb _ _); [done|].
  destruct (negb _); [done|]. intros [= <-]. by apply (quiet_trans _ _ _ Hq), quiet_same.
Qed.

Lemma quiet_insert_lineage id row : maintains (quiet db0) (insert_lineage id row).
Proof.
  intros db db' [] Hq [_ [_ H]%owned_by_ok]%owned_by_ok. case_bool_decide; [done|]. destruct (existsb _ _); [done|].
  destruct (_ <? _)%Z; [done|]. injection H as <-. by apply (quiet_trans _ _ _ Hq), quiet_same.
Qed.
End quiet.

#[export] Hint Resolve quiet_insert_download quiet_insert_spec quiet_insert_file quiet_insert_ledger
  quiet_insert_lineage : sm.

Lemma quiet_insert_file_of db0 child spec e : maintains (quiet db0) (insert_file_of child spec e).
Proof. destruct e as [i f]. unfold insert_file_of. auto 10 with sm. Qed.
#[export] Hint Resolve quiet_insert_file_of : sm.

(** ** Adding an upload job *)

Definition add_upload (id : string) (row : JobRow) (spec : UploadSpecRow) (act : ActivityRow) (db : Db) : Db :=
  with_activity (<[id := act]> (t_activity db))
    (with_upload_specs (<[id := spec]> (t_upload_specs db)) (with_jobs (<[id := row]> (t_jobs db)) db)).

Lemma upload_job_add id row spec act db j :
  jr_operation_kind row = "upload" -> upload_job (add_upload id row spec act db) j <-> j = id \/ upload_job db j.
Proof.
  intros Hk. unfold upload_job, add_upload. cbn [with_activity with_upload_specs with_jobs t_jobs].
  destruct (decide (j = id)) as [->|Hne].
  - rewrite lookup_insert_eq. split; [by left|]. intros _. by exists row.
  - rewrite lookup_insert_ne by done. naive_solver.
Qed.

Lemma add_upload_inv id row spec act db :
  upload_inv db -> t_jobs db !! id = None -> jr_operation_kind row = "upload" -> upload_spec_row_ok spec = true ->
  activity_row_ok act = true -> upload_inv (add_upload id row spec act db).
Proof.
  intros [I1 I2 I3 I4 I5 I6 I7 I8] Hno Hk Hs Ha.
  assert (Hj := fun j => upload_job_add id row spec act db j Hk).
  split; try (setoid_rewrite Hj); unfold add_upload;
    cbn [with_activity with_upload_specs with_jobs t_upload_specs t_activity t_uploads t_parts]; try done.
  - intros j s [[<- <-]|[_ H]]%lookup_insert_Some; [by split; [left|]|]. destruct (I1 j s H). by split; [right|].
  - intros j a [[<- <-]|[_ H]]%lookup_insert_Some; [by split; [left|]|]. destruct (I2 j a H). by split; [right|].
  - intros j Hor. destruct (decide (j = id)) as [->|Hne]; [by rewrite !lookup_insert_eq|].
    rewrite !lookup_insert_ne by done. destruct Hor as [|H]; [done|]. by apply I3.
  - intros u Hu. destruct (I4 u Hu) as [? H]. split; [done|]. intros j Hju. right. by apply H.
  - intros j key r Hr. destruct (I8 j key r Hr) as (s & rc & H1 & H2). exists s, rc. split; [|done].
    cbn. rewrite lookup_insert_ne; [done|]. intros <-. destruct (I1 id s H1) as [(x & Hx & _) _]. congruence.
Qed.

Lemma insert_job_new id row db db' :
  insert_job id row db = (db', Ok tt) ->
  t_jobs db !! id = None /\ job_row_ok row = true /\ db' = with_jobs (<[id := row]> (t_jobs db)) db.
Proof.
  unfold insert_job. destruct (bool_decide_reflect (is_Some (t_jobs db !! id))) as [|Hno]; [done|].
  destruct (existsb _ _); [done|]. destruct (job_row_ok row); [|done]. intros [= <-].
  split_and!; try done. by apply eq_None_not_Some.
Qed.

Lemma insert_upload_spec_new id row db db' :
  insert_upload_spec id row db = (db', Ok tt) ->
  upload_spec_row_ok row = true /\ db' = with_upload_specs (<[id := row]> (t_upload_specs db)) db.
Proof.
  intros [_ H]%owned_by_ok. case_bool_decide; [done|]. destruct (upload_spec_row_ok row); [|done]. by injection H as <-.
Qed.

Lemma insert_activity_new id row db db' :
  insert_activity id row db = (db', Ok tt) ->
  activity_row_ok row = true /\ db' = with_activity (<[id := row]> (t_activity db)) db.
Proof.
  intros [_ H]%owned_by_ok. case_bool_decide; [done|]. destruct (activity_row_ok row); [|done]. by injection H as <-.
Qed.

(** What adding an upload job yields: a fresh row under its own id, nothing else moved. *)
Definition adds_upload (id : string) (db db' : Db) : Prop :=
  exists row spec act, t_jobs db !! id = None /\ jr_operation_kind row = "upload" /\ terminal_text (jr_state row) = false /\
    upload_spec_row_ok spec = true /\ activity_row_ok act = true /\ ac_confirmed_bytes act = 0%Z /\
    quiet (add_upload id row spec act db) db' /\ t_outbox db' = t_outbox db /\
    (forall j, j <> id -> t_jobs db' !! j = t_jobs db !! j).

(** The new upload is of a library publication. *)
Definition publishes (id : string) (db' : Db) : Prop :=
  forall s, t_upload_specs db' !! id = Some s -> us_subject_kind s = "library_publication".

Lemma adds_upload_inv id db db' : adds_upload id db db' -> upload_inv db -> upload_inv db'.
Proof.
  intros (row & spec & act & H1 & H2 & _ & H3 & H4 & _ & Hq & _) Hinv. eapply quiet_inv; [exact Hq|].
  by apply add_upload_inv.
Qed.

Lemma insert_lineage_row child l db db' :
  insert_lineage child l db = (db', Ok tt) -> db' = with_lineage (<[child := l]> (t_lineage db)) db.
Proof.
  intros [_ [_ H]%owned_by_ok]%owned_by_ok. case_bool_decide; [done|]. destruct (existsb _ _); [done|].
  destruct (_ <? _)%Z; [done|]. by injection H as <-.
Qed.

Lemma spawn_upload_child_adds parent child attempt now db db' :
  upload_inv db -> spawn_upload_child parent child attempt now db = (db', Ok tt) ->
  adds_upload child db db' /\ publishes child db'.
Proof.
  intros Hinv. unfold spawn_upload_child. rewrite get_bind.
  intros (s & Hs & H)%lift_or_bind_ok. apply serr_bind_ok in H as (d1 & [] & (Hno & Hok & ->)%insert_job_new & H).
  apply serr_bind_ok in H as (d2 & [] & [_ H2]%owned_by_ok & H). injection H2 as <-.
  apply lift_or_bind_ok in H as (a & Ha & H). apply serr_bind_ok in H as (d3 & [] & [_ H3]%owned_by_ok & H). injection H3 as <-.
  apply serr_ok, insert_lineage_row in H as ->. apply ui_activity in Ha as [_ Ha]; [|done].
  split; [|intros x; cbn; rewrite lookup_insert_eq; by intros [= <-]].
  eexists _, _, _. split_and!; [done| | | | | |by split| |]; try done.
  - unfold activity_row_ok in *. cbn. rewrite !andb_true_iff, orb_true_iff, !Z.leb_le in *. destruct Ha as [[Ha _] _].
    split; [lia|]. by right.
  - intros j Hj. cbn. by rewrite lookup_insert_ne.
Qed.

Lemma retry_moves db db' p child now allow out :
  upload_inv db -> spawn_retry_job_inner p child now allow db = (db', Ok out) ->
  db' = db \/ (quiet db db' /\ ~ upload_job db p) \/ (adds_upload child db db' /\ publishes child db').
Proof.
  intros Hinv. unfold spawn_retry_job_inner. rewrite transaction_ok, get_bind.
  intros (parent & (_ & (pr & Hpr & Hprow) & _)%retry_parent_checked_ok & H)%lift_bind_ok.
  apply read_job_row_ok in Hprow as (_ & Hkind & _).
  apply lift_err_bind_ok in H as (taken & _ & H). destruct taken as [ex|].
  { case_bool_decide; [|by apply sfail_ok in H]. apply sret_ok in H as [-> <-]. by left. }
  apply lift_bind_ok in H as (live & _ & H). destruct live as [ex|]; [apply sret_ok in H as [-> <-]; by left|].
  apply lift_bind_ok in H as (attempt & _ & H). apply sbind_ok in H as (d & [] & Hrun & H). rewrite get_bind in H.
  apply lift_err_bind_ok in H as (f & _ & H). apply lift_or_bind_ok in H as (job & -> & H). apply sret_ok in H as [-> <-].
  right. destruct (sj_operation_kind parent).
  - left. split; [|intros (x & Hx & Hk); assert (x = pr) as -> by congruence; by rewrite Hk in Hkind]. revert Hrun.
    unfold spawn_download_child. rewrite get_bind. intros Hrun.
    eapply (maintains_bind (quiet db)); [| |apply quiet_refl|exact Hrun]; [auto with sm|intros ?].
    apply maintains_bind; [|intros ?; maintains_step]. destruct (t_specs db !! _); auto with sm.
  - right. by eapply spawn_upload_child_adds.
Qed.

Lemma create_job_quiet `{Sha256} id spec now abort db db' out :
  create_job id spec now abort db = (db', Ok out) -> quiet db db'.
Proof.
  intros Hc. unfold create_job in Hc. eapply (maintains_transaction (quiet db)); [|apply quiet_refl|exact Hc].
  unfold insert_job_tx. apply maintains_bind; [auto with sm|]. intros d.
  apply maintains_bind; [auto with sm|]. intros [existing|]; [case_bool_decide; auto with sm|].
  apply maintains_bind; [auto with sm|]. intros [existing|]; [auto with sm|]. maintains_step.
Qed.

Lemma NoDup_fmap_filter {A B} (f : A -> B) (p : A -> bool) l : NoDup (f <$> l) -> NoDup (f <$> List.filter p l).
Proof.
  induction l as [|x l IH]; [done|]. simpl. rewrite NoDup_cons. intros [Hx Hl]. destruct (p x); [|by apply IH].
  simpl. apply NoDup_cons. split; [|by apply IH]. rewrite list_elem_of_fmap. intros (y & He & Hy). apply Hx.
  apply list_elem_of_fmap. exists y. split; [done|]. apply list_elem_of_In, filter_In in Hy as [Hy _]. by apply list_elem_of_In.
Qed.

(** A deleted job takes its upload rows with it. *)
Lemma delete_upload_inv id db db' b :
  upload_inv db -> delete_job_row id db = (db', Ok b) -> upload_inv db'.
Proof.
  intros Hinv. unfold delete_job_row. destruct (t_jobs db !! id) as [r|] eqn:Hr; [|by intros [= <- _]].
  destruct (negb (length _ =? 0)%nat); [done|]. intros [= <- _].
  assert (Hj : forall j, j <> id -> upload_job db j ->
    exists r, delete id (t_jobs db) !! j = Some r /\ jr_operation_kind r = "upload").
  { intros j Hne (x & Hx & Hk). exists x. by rewrite lookup_delete_ne. }
  destruct Hinv as [I1 I2 I3 I4 I5 I6 I7 I8].
  split; unfold upload_job, receipts_of; cbn [t_jobs t_upload_specs t_activity t_uploads t_parts t_receipts].
  - intros j s [Hne Hs]%lookup_delete_Some. destruct (I1 j s Hs). by split; [apply Hj|].
  - intros j a [Hne Ha]%lookup_delete_Some. destruct (I2 j a Ha). by split; [apply Hj|].
  - intros j (x & [Hne Hx]%lookup_delete_Some & Hk). rewrite !lookup_delete_ne by done. apply I3. by exists x.
  - intros u [Hu Ho%negb_true_iff]%list_elem_of_In%filter_In. apply list_elem_of_In in Hu. destruct (I4 u Hu) as [? Hju].
    split; [done|]. intros j Hj'. apply Hj; [|by apply Hju]. intros ->. apply bool_decide_eq_false in Ho. done.
  - by apply NoDup_fmap_filter.
  - intros p [Hp Ho%negb_true_iff]%list_elem_of_In%filter_In. apply list_elem_of_In in Hp. destruct (I6 p Hp) as [Hin ?].
    split; [|done]. apply list_elem_of_fmap in Hin as (u & Hh & Hu). apply list_elem_of_fmap. exists u. split; [done|].
    apply list_elem_of_In, filter_In. split; [by apply list_elem_of_In|]. apply negb_true_iff.
    apply not_true_iff_false. intros Hown. apply not_true_iff_false in Ho. apply Ho, existsb_exists.
    exists u. split; [by apply list_elem_of_In|]. rewrite Hown. injection Hh as H1 H2. unfold part_of.
    by rewrite H1, H2, !String.eqb_refl.
  - by apply NoDup_fmap_filter.
  - intros j key rc Hrc. destruct (decide (j = id)) as [->|Hne]; [by rewrite lookup_delete_eq in Hrc|].
    rewrite lookup_delete_ne in Hrc by done. destruct (I8 j key rc Hrc) as (s & x & H1 & H2). exists s, x.
    split; [|done]. cbn. by rewrite lookup_delete_ne.
Qed.

(** ** What is never taken back *)

(** Two readings of one ending: only the acknowledgement may differ. *)
Definition same_ending (o o' : OutboxRow) : Prop :=
  o' = mkOutboxRow (or_sequence o) (or_operation_kind o) (or_outcome o) (or_error_code o) (or_error_retryable o)
         (or_state_version o) (or_recorded_at o) (or_acknowledged_at o').

Definition grows (a a' : ActivityRow) : Prop :=
  ac_label a' = ac_label a /\ ac_target_label a' = ac_target_label a /\ ac_total_bytes a' = ac_total_bytes a /\
  (ac_confirmed_bytes a <= ac_confirmed_bytes a')%Z.

(** Upload job [id] from [db] to [db']: its specification, receipts, ending and
    confirmed progress are kept. *)
Record kept (id : string) (db db' : Db) : Prop := {
  kp_job : upload_job db' id;
  kp_spec : t_upload_specs db' !! id = t_upload_specs db !! id;
  kp_activity : forall a, t_activity db !! id = Some a -> exists a', t_activity db' !! id = Some a' /\ grows a a';
  kp_receipts : forall key r, receipts_of db id !! key = Some r -> receipts_of db' id !! key = Some r;
  kp_ending : forall o, t_outbox db !! id = Some o -> exists o', t_outbox db' !! id = Some o' /\ same_ending o o';
}.

Lemma same_ending_refl o : same_ending o o.
Proof. by destruct o. Qed.
Lemma activity_grows_refl a : grows a a.
Proof. by unfold grows. Qed.
#[export] Hint Resolve same_ending_refl activity_grows_refl : sm.

Lemma kept_refl id db : upload_job db id -> kept id db db.
Proof. split; eauto with sm. Qed.

Lemma kept_trans id a b c : kept id a b -> kept id b c -> kept id a c.
Proof.
  intros [_ S1 A1 R1 E1] [J2 S2 A2 R2 E2]. split; [done|congruence| |eauto|].
  - intros x (y & Hy & Hg)%A1. destruct (A2 y Hy) as (z & Hz & Hg'). exists z. split; [done|].
    unfold grows in *. destruct Hg as (? & ? & ? & ?), Hg' as (? & ? & ? & ?). split_and!; [congruence..|lia].
  - intros x (y & Hy & Hs)%E1. destruct (E2 y Hy) as (z & Hz & Hs'). exists z. split; [done|]. revert Hs Hs'.
    unfold same_ending. destruct y, z. cbn. intros [= -> -> -> -> -> -> ->] [= -> -> -> -> -> -> ->]. done.
Qed.

(** The upload tables of [id] and its ending decide. *)
Lemma kept_same id db db' :
  upload_job db' id -> t_upload_specs db' !! id = t_upload_specs db !! id -> t_activity db' !! id = t_activity db !! id ->
  t_receipts db' !! id = t_receipts db !! id ->
  (forall o, t_outbox db !! id = Some o -> exists o', t_outbox db' !! id = Some o' /\ same_ending o o') -> kept id db db'.
Proof.
  intros Hj Hs Ha Hr Ho. split; [done|done| | |done].
  - intros a Hx. exists a. rewrite Ha. auto with sm.
  - unfold receipts_of. by rewrite Hr.
Qed.

Lemma quiet_kept id db db' :
  quiet db db' -> upload_job db id ->
  (forall o, t_outbox db !! id = Some o -> exists o', t_outbox db' !! id = Some o' /\ same_ending o o') -> kept id db db'.
Proof.
  intros [[= Hs Ha _ _ Hr _] Hj] Hid Ho. apply kept_same; rewrite ?Hs, ?Ha, ?Hr; try done. by apply Hj.
Qed.

Lemma quiet_kept_outbox id db db' :
  quiet db db' -> upload_job db id -> t_outbox db' !! id = t_outbox db !! id -> kept id db db'.
Proof. intros Hq Hid Ho. apply quiet_kept; [done..|]. intros o Hx. exists o. rewrite Ho. auto with sm. Qed.

Lemma adds_kept id child db db' : adds_upload child db db' -> upload_job db id -> kept id db db'.
Proof.
  intros (row & spec & act & Hno & Hk & _ & _ & _ & _ & Hq & Ho & _) Hid.
  assert (Hne : id <> child) by (intros ->; destruct Hid as (r & Hr & _); congruence).
  destruct Hq as [[= Hs Ha _ _ Hr _] Hj].
  apply kept_same; rewrite ?Hs, ?Ha, ?Hr, ?Ho; unfold add_upload;
    cbn [with_activity with_upload_specs with_jobs t_activity t_upload_specs t_receipts];
    rewrite ?lookup_insert_ne by done; try done.
  - apply Hj, upload_job_add; [done|by right].
  - intros o Hx. exists o. auto with sm.
Qed.

(** What every operation of the store does to the uploads. *)
Definition upload_safe (db db' : Db) (deletes : string -> Prop) : Prop :=
  upload_inv db' /\ forall id, upload_job db id -> ~ deletes id -> kept id db db'.

Lemma quiet_safe db db' deletes :
  upload_inv db -> quiet db db' -> t_outbox db' = t_outbox db -> upload_safe db db' deletes.
Proof.
  intros Hinv Hq Ho. split; [by eapply quiet_inv|]. intros id Hid _. apply quiet_kept_outbox; try done. by rewrite Ho.
Qed.

Lemma adds_safe child db db' deletes : upload_inv db -> adds_upload child db db' -> upload_safe db db' deletes.
Proof. intros Hinv Ha. split; [by eapply adds_upload_inv|]. intros id Hid _. by eapply adds_kept. Qed.

Lemma refl_safe db deletes : upload_inv db -> upload_safe db db deletes.
Proof. intros Hinv. split; [done|]. intros id Hid _. by apply kept_refl. Qed.

Lemma finish_quiet db id r o v now : t_jobs db !! id = Some r -> quiet db (finished db id r o v now).
Proof.
  intros Hr. apply (quiet_trans _ (with_jobs (<[id := set_outcome o (Z.of_N v) now r]> (t_jobs db)) db));
    [by eapply quiet_row|by apply quiet_same].
Qed.

Lemma finish_safe db id r o v now deletes :
  upload_inv db -> t_jobs db !! id = Some r -> t_outbox db !! id = None ->
  upload_safe db (finished db id r o v now) deletes.
Proof.
  intros Hinv Hr Hno. assert (Hq := finish_quiet db id r o v now Hr).
  split; [by eapply quiet_inv|]. intros j Hj _. apply quiet_kept; [done..|]. intros x Hx. exists x.
  cbn. rewrite lookup_insert_ne by congruence. auto with sm.
Qed.

Lemma delete_safe id db db' b :
  upload_inv db -> delete_job_row id db = (db', Ok b) -> upload_safe db db' (fun j => j = id).
Proof.
  intros Hinv Hd. split; [by eapply delete_upload_inv|]. intros j Hj Hne. revert Hd. unfold delete_job_row.
  destruct (t_jobs db !! id); [|intros [= <- _]; by apply kept_refl]. destruct (negb (length _ =? 0)%nat); [done|].
  intros [= <- _]. destruct Hj as (r & Hr & Hk).
  apply kept_same; cbn; rewrite ?lookup_delete_ne by congruence; try done.
  - exists r. cbn. by rewrite lookup_delete_ne by congruence.
  - intros o Ho. exists o. auto with sm.
Qed.

Lemma retarget_safe old new now db db' job deletes :
  store_inv db -> upload_inv db -> retarget_job old new now db = (db', Ok job) -> upload_safe db db' deletes.
Proof.
  intros Hst Hinv (Hack & r & Hr & Hn & Hd & _ & _ & ->)%retarget_job_ok.
  assert (Hnj : ~ upload_job db old).
  { intros [[s Hs] _]%(ui_jobs _ Hinv). unfold dangling in Hd. rewrite !orb_false_iff, Hs in Hd.
    destruct Hd as ((((((_ & _) & Hd) & _) & _) & _) & _). by apply bool_decide_eq_false in Hd as []. }
  assert (Hnew : ~ upload_job db new) by (intros (x & Hx & _); congruence).
  match goal with |- upload_safe _ ?d _ => assert (Hq : quiet db d) end.
  { split; [done|]. intros j. unfold upload_job, retargeted in *. cbn [t_jobs].
    destruct (decide (j = new)) as [->|Hne].
    - rewrite lookup_insert_eq. split; [|done]. intros (x & [= <-] & Hk). destruct Hnj. exists r. by split.
    - rewrite lookup_insert_ne by done. destruct (decide (j = old)) as [->|Hne'];
        [rewrite lookup_delete_eq; split; [by intros (? & ? & _)|done]|by rewrite lookup_delete_ne]. }
  split; [by eapply quiet_inv|]. intros id Hid _. apply quiet_kept_outbox; try done. cbn.
  rewrite lookup_delete_ne; [done|]. by intros ->.
Qed.

Section store_operations.
Context `{Sha256}.

Definition store_deletes (op : StoreOp) (id : string) : Prop := op = ODelete id.

Lemma store_op_safe op db :
  store_inv db -> upload_inv db -> upload_safe db (run_op op db).1 (store_deletes op).
Proof.
  intros Hst Hinv.
  enough (Hind : let '(d, ok) := run_op op db in upload_safe db d (store_deletes op) /\ (ok = false -> d = db))
    by (destruct (run_op op db); apply Hind).
  apply run_op_ind; [by apply refl_safe|intros *; intros Hop; intros Hrun..].
  - apply transition_job_ok in Hrun as (_ & _ & _ & _ & r & Hr & _ & _ & _ & ->). apply quiet_safe; [done| |done].
    by eapply quiet_row.
  - apply set_desired_run_state_ok in Hrun as (r & Hr & _ & ->). apply quiet_safe; [done| |done]. by eapply quiet_row.
  - apply update_file_ledger_ok in Hrun as (f & dg & _ & _ & _ & [|] & _ & Hw); simpl in Hw;
      [subst; by apply refl_safe|destruct Hw as [-> _]]. by apply quiet_safe; [|apply quiet_same|].
  - apply quiet_safe; [done|by eapply create_job_quiet|by eapply create_job_outbox].
  - apply complete_job_ok in Hrun as (job & r & Hr & _ & [(c & _ & -> & _)|(c & _ & _ & Hno & _ & _ & _ & _ & _ & _ & _ & ->)]);
      [by apply refl_safe|by apply finish_safe|done].
  - apply acknowledge_completion_ok in Hrun as [->|(o & Ho & _ & ->)]; [by apply refl_safe|].
    split; [by eapply quiet_inv, Hinv; apply quiet_same|]. intros j Hj _. apply quiet_kept; [by apply quiet_same|done|].
    intros x Hx. cbn. destruct (decide (j = id)) as [->|Hne].
    + rewrite lookup_insert_eq. exists (stamp_ack now o). split; [done|]. assert (x = o) as -> by congruence. by destruct o.
    + rewrite lookup_insert_ne by done. exists x. auto with sm.
  - assert (Ho : t_outbox db' = t_outbox db).
    { apply spawn_retry_job_ok in Hrun as [(? & _ & ->)|(? & ? & _ & _ & _ & _ & _ & Hout & _)]; done. }
    apply retry_moves in Hrun as [->|[[Hq _]|[Ha _]]]; [by apply refl_safe|by apply quiet_safe|by eapply adds_safe|done].
  - apply dismiss_job_ok in Hrun as [[_ ->]|(r & r' & Hr & _ & -> & _ & _ & _ & _ & Hk & _)]; [by apply refl_safe|].
    apply quiet_safe; [done| |done]. by eapply quiet_row.
  - apply delete_job_ok in Hrun as [_ Hd]. subst op. destruct (delete_safe _ _ _ _ Hinv Hd) as [? Hk]. split; [done|].
    intros j Hj Hne. apply Hk; [done|]. intros ->. by apply Hne.
  - by eapply retarget_safe.
Qed.
End store_operations.

(** ** Lineage: the children of an upload are uploads *)

Definition lineage_ok (db : Db) : Prop :=
  forall c l, t_lineage db !! c = Some l -> upload_job db (ln_parent_job_id l) -> upload_job db c.

Lemma lineage_quiet db db' : quiet db db' -> t_lineage db' = t_lineage db -> lineage_ok db -> lineage_ok db'.
Proof. intros [_ Hj] Hl Hok c l. rewrite Hl, !Hj. apply Hok. Qed.

Lemma adds_upload_jobs child db db' j : adds_upload child db db' -> upload_job db' j <-> j = child \/ upload_job db j.
Proof. intros (row & spec & act & _ & Hk & _ & _ & _ & _ & [_ Hq] & _). by rewrite Hq, upload_job_add. Qed.

Lemma lineage_adds child parent attempt now db db' :
  store_inv db -> adds_upload child db db' ->
  t_lineage db' = t_lineage db \/ t_lineage db' = <[child := mkLineageRow parent attempt now]> (t_lineage db) ->
  lineage_ok db -> lineage_ok db'.
Proof.
  intros Hst Ha Hl Hok c l Hc. rewrite !(adds_upload_jobs _ _ _ _ Ha).
  assert (Hor : c = child \/ t_lineage db !! c = Some l).
  { destruct Hl as [Hl|Hl]; rewrite Hl in Hc; [by right|]. apply lookup_insert_Some in Hc as [[? _]|[_ ?]]; [by left|by right]. }
  destruct Hor as [->|Hold]; [by left|]. intros [Hp|Hp]; [|right; by eapply Hok].
  destruct (si_lineage db Hst c l Hold) as [_ [r Hr]%elem_of_dom]. destruct Ha as (? & ? & ? & Hno & _). congruence.
Qed.

Section store_lineage.
Context `{Sha256}.

Lemma store_op_lineage op db :
  store_inv db -> upload_inv db -> lineage_ok db -> lineage_ok (run_op op db).1.
Proof.
  intros Hst Hinv Hok.
  enough (Hind : let '(d, ok) := run_op op db in lineage_ok d /\ (ok = false -> d = db))
    by (destruct (run_op op db); apply Hind).
  apply run_op_ind; [done|intros *; intros Hop; intros Hrun..].
  - apply transition_job_ok in Hrun as (_ & _ & _ & _ & r & Hr & _ & _ & _ & ->).
    eapply lineage_quiet; [by eapply quiet_row|done..].
  - apply set_desired_run_state_ok in Hrun as (r & Hr & _ & ->). eapply lineage_quiet; [by eapply quiet_row|done..].
  - apply update_file_ledger_ok in Hrun as (f & dg & _ & _ & _ & [|] & _ & Hw); simpl in Hw;
      [by subst|destruct Hw as [-> _]]. by apply (lineage_quiet db); [apply quiet_same|..].
  - eapply lineage_quiet; [by eapply create_job_quiet| |done]. unfold create_job in Hrun. rewrite transaction_ok in Hrun.
    eapply insert_job_tx_keeps in Hrun; [|by apply creating_refl]. apply Hrun.
  - apply complete_job_ok in Hrun as (job & r & Hr & _ & [(c & _ & -> & _)|(c & _ & _ & _ & _ & _ & _ & _ & _ & _ & _ & ->)]);
      [done| |done]. by apply (lineage_quiet db); [apply finish_quiet|..].
  - apply acknowledge_completion_ok in Hrun as [->|(o & Ho & _ & ->)]; [done|].
    by apply (lineage_quiet db); [apply quiet_same|..].
  - assert (Hl : db' = db \/ exists attempt, t_lineage db' = <[child := mkLineageRow parent attempt now]> (t_lineage db)).
    { apply spawn_retry_job_ok in Hrun as [(? & _ & ->)|(? & at_ & _ & _ & _ & _ & Hl & _)]; [by left|right; by exists at_|done]. }
    destruct Hl as [->|[attempt Hl]]; [done|].
    apply retry_moves in Hrun as [->|[[Hq Hnp]|[Ha _]]]; [done| |by eapply lineage_adds; eauto|done].
    intros c l Hc. destruct Hq as [_ Hq]. rewrite !Hq. rewrite Hl in Hc.
    apply lookup_insert_Some in Hc as [[_ <-]|[_ Hc]]; [done|by apply Hok].
  - apply dismiss_job_ok in Hrun as [[_ ->]|(r & r' & Hr & _ & -> & _ & _ & _ & _ & Hk & _)]; [done|].
    eapply lineage_quiet; [by eapply quiet_row|done..].
  - apply delete_job_ok in Hrun as [_ Hd]. revert Hd. unfold delete_job_row.
    destruct (t_jobs db !! id); [|by intros [= <- _]]. destruct (negb (length _ =? 0)%nat) eqn:Hc; [done|].
    intros [= <- _]. intros c l. unfold upload_job. cbn [t_lineage t_jobs].
    intros [Hne Hl]%lookup_delete_Some (r & [_ Hr]%lookup_delete_Some & Hk).
    destruct (Hok c l Hl) as (x & Hx & Hkx); [by exists r|]. exists x. by rewrite lookup_delete_ne.
  - assert (Hs := retarget_safe _ _ _ _ _ _ (fun _ => False) Hst Hinv Hrun).
    apply retarget_job_ok in Hrun as (_ & r & Hr & Hn & Hd & _ & _ & ->).
    intros c l Hc Hp. cbn in Hc. destruct Hs as [_ Hk]. eapply kp_job, Hk; [|tauto]. apply (Hok c l Hc).
    destruct Hp as (x & Hx & Hkx). cbn in Hx. exists x. split; [|done].
    destruct (si_lineage db Hst c l Hc) as [_ [y Hy]%elem_of_dom].
    apply lookup_insert_Some in Hx as [[Hnew _]|[_ [_ Hx]%lookup_delete_Some]]; [congruence|done].
Qed.
End store_lineage.
