(* ===== verification/UploadRuns.v ===== *)
(** * UploadRuns: every operation on uploads, and runs of them

What each operation of UploadStore.v leaves in the tables, the theorems about
runs of store and upload operations in any order, and a worked example. *)

From Stdlib Require Import NArith ZArith Lia Ascii String.
From Stdlib Require Import Strings.Byte.
From stdpp Require Import base numbers list strings gmap sorting.
From S2P Require Import Prelude Domain Device Schema Aggregate Identity Trust TransferStore StoreProofs UploadStore UploadStoreProofs.

Local Open Scope string_scope.

(** The invariant of the whole store. *)
Record all_inv (db : Db) : Prop := {
  ai_store : store_inv db;
  ai_upload : upload_inv db;
  ai_lineage : lineage_ok db;
}.

(** A step of the uploads: the invariant and everything [kept] stay. *)
Record upload_step (db db' : Db) : Prop := {
  up_inv : all_inv db';
  up_kept : forall id, upload_job db id -> kept id db db';
}.

Lemma upload_step_refl db : all_inv db -> upload_step db db.
Proof. intros Hinv. split; [done|]. intros id Hid. by apply kept_refl. Qed.

Lemma upload_step_safe db db' :
  store_inv db' -> lineage_ok db' -> upload_safe db db' (fun _ => False) -> upload_step db db'.
Proof. intros Hs Hl [Hi Hk]. split; [by split|]. intros id Hid. apply Hk; [done|tauto]. Qed.

(** A step that only writes upload tables. *)
Lemma upload_step_tables db db' :
  all_inv db -> job_tables db' = job_tables db -> upload_inv db' -> t_upload_specs db' = t_upload_specs db ->
  (forall id a, t_activity db !! id = Some a -> exists a', t_activity db' !! id = Some a' /\ grows a a') ->
  (forall id key r, receipts_of db id !! key = Some r -> receipts_of db' id !! key = Some r) -> upload_step db db'.
Proof.
  intros [Hs Hu Hl] Ht Hi Hsp Ha Hr. assert (Hs' := store_inv_uploads _ _ Ht Hs). injection Ht as Hj _ _ _ Ho _ Hln.
  assert (Hjob : forall id, upload_job db' id <-> upload_job db id) by (intros id; unfold upload_job; by rewrite Hj).
  split; [split; [done..|]|].
  - intros c l. rewrite Hln, !Hjob. apply Hl.
  - intros id Hid. split; [by apply Hjob|by rewrite Hsp|by apply Ha|by apply Hr|].
    intros o Hx. exists o. rewrite Ho. auto with sm.
Qed.

Lemma upload_kind k : op_from_db_str k = Some OpUpload -> k = "upload".
Proof.
  unfold op_from_db_str. destruct (String.eqb k "download"); [done|].
  destruct (String.eqb_spec k "upload"); [done|]. discriminate.
Qed.

Lemma require_upload_job_ok db id job :
  require_upload_job db id = Ok job ->
  exists r, t_jobs db !! id = Some r /\ read_job_row id r = Ok job /\ jr_operation_kind r = "upload" /\
    jr_state r = tag_as_db_str (sj_state job) /\ jr_state_version r = Z.of_N (sj_state_version job).
Proof.
  unfold require_upload_job. intros (f & Hf%rmap_err_ok & H)%rbind_ok. apply rbind_ok in H as (j & ->%ok_or_ok & H).
  apply rbind_ok in H as ([] & Hk & [= ->]). apply read_job_ok in Hf as (r & Hr & Hrow). exists r. split; [done|].
  split; [done|]. apply read_job_row_ok in Hrow as (_ & Hop & _ & Hst & Hv & _). unfold ensure_upload_kind in Hk.
  case_bool_decide as Ek; [|done]. rewrite Ek in Hop. by apply upload_kind in Hop.
Qed.

Lemma not_terminal_ok job u : not_terminal job = Ok u -> tag_is_terminal (sj_state job) = false.
Proof. unfold not_terminal. destruct (tag_is_terminal (sj_state job)); [|done]. by intros (? & _ & ?)%rbind_ok. Qed.

Lemma check_expected_version_ok job v u : check_expected_version job v = Ok u -> sj_state_version job = v.
Proof. unfold check_expected_version. by destruct (N.eqb_spec (sj_state_version job) v). Qed.

(** *** Starting and ending *)

Lemma start_upload_job_ok id v now db db' v' :
  start_upload_job id v now db = (db', Ok v') ->
  upload_job db id /\ transition_job id v TPreparing None now db = (db', Ok v').
Proof.
  unfold start_upload_job. rewrite get_bind. intros (job & Hj & H)%lift_bind_ok.
  apply require_upload_job_ok in Hj as (r & Hr & _ & Hk & _). apply lift_bind_ok in H as (_ & _ & H).
  apply lift_bind_ok in H as (st & _ & H). destruct (is_rejected _); [by apply sfail_ok in H|]. apply serr_ok in H.
  split; [by exists r|done].
Qed.

Lemma start_upload_step id v now db db' v' :
  all_inv db -> start_upload_job id v now db = (db', Ok v') -> upload_step db db'.
Proof.
  intros [Hs Hu Hl] [_ Ht]%start_upload_job_ok. assert (Hs' := transition_job_inv _ _ _ _ _ _ _ _ Hs Ht).
  apply transition_job_ok in Ht as (_ & _ & _ & _ & r & Hr & _ & _ & _ & ->).
  assert (Hq := quiet_row db id r (moved_row TPreparing (v + 1) now r) Hr eq_refl).
  apply upload_step_safe; [done|by eapply lineage_quiet|by apply quiet_safe].
Qed.

(** The tables after an upload ended. *)
Definition upload_ended (db : Db) (id : string) (r : JobRow) (a : ActivityRow) (o : TerminalOutcome) (v : N) (now : string) : Db :=
  finished (with_activity (<[id := touch_activity now a]> (t_activity db)) db) id r o v now.

Lemma insert_upload_outbox_row_ok id o v now db db' rec :
  insert_upload_outbox_row id o v now db = (db', Ok rec) ->
  (v <= i64_max)%N /\ t_outbox db !! id = None /\
  let row := mkOutboxRow (t_outbox_seq db + 1) "upload" (outcome_as_db_str o) (error_columns o).1 (error_columns o).2
               (Z.of_N v) now None in
  outbox_row_ok row = true /\ db' = with_outbox (<[id := row]> (t_outbox db)) (t_outbox_seq db + 1) db /\
  cr_outcome rec = o /\ cr_state_version rec = v.
Proof.
  unfold insert_upload_outbox_row. intros (z & [Hv ->]%checked_i64_ok & H)%lift_err_bind_ok.
  apply serr_bind_ok in H as (d & [] & Hi & H). unfold insert_outbox in Hi. apply owned_by_ok in Hi as [_ Hi].
  destruct (bool_decide_reflect (is_Some (t_outbox db !! id))) as [|Hno]; [done|].
  destruct (Z.of_N i64_max <? _)%Z; [done|]. destruct (outbox_row_ok _) eqn:Hok; [|done]. injection Hi as <-.
  rewrite get_bind in H. apply lift_or_bind_ok in H as (row & _ & H). apply lift_or_bind_ok in H as (sq & _ & H).
  apply sret_ok in H as [-> <-]. split_and!; try done. by apply eq_None_not_Some.
Qed.

Lemma complete_upload_job_ok id v o now db db' out :
  complete_upload_job id v o now db = (db', Ok out) ->
  exists r a c, t_jobs db !! id = Some r /\ jr_operation_kind r = "upload" /\ jr_state_version r = Z.of_N v /\
    terminal_text (jr_state r) = false /\ t_outbox db !! id = None /\ t_activity db !! id = Some a /\
    activity_row_ok (touch_activity now a) = true /\ (v + 1 <= i64_max)%N /\
    job_row_ok (set_outcome o (Z.of_N (v + 1)) now r) = true /\
    outbox_row_ok (outbox_row_of r o (v + 1) now (t_outbox_seq db + 1)) = true /\
    out = CpRecorded c /\ cr_outcome c = o /\ cr_state_version c = (v + 1)%N /\ db' = upload_ended db id r a o (v + 1) now.
Proof.
  unfold complete_upload_job. rewrite transaction_ok, get_bind. intros (job & Hj & H)%lift_bind_ok.
  apply require_upload_job_ok in Hj as (r & Hr & _ & Hk & Hst & Hv).
  apply lift_bind_ok in H as (u1 & Hnt%not_terminal_ok & H). apply lift_bind_ok in H as (u2 & <-%check_expected_version_ok & H).
  set (v := sj_state_version job) in *. apply lift_or_bind_ok in H as (nv & [_ ->]%u64_checked_add_Some & H).
  apply lift_err_bind_ok in H as (z & [Hb ->]%checked_i64_ok & H). apply lift_err_bind_ok in H as (z & [_ ->]%checked_i64_ok & H).
  apply serr_bind_ok in H as (d1 & b & Hu & H). apply update_job_ok in Hu as [(-> & -> & Hf)|[-> Hu]].
  { cbn [negb] in H. rewrite get_bind in H. apply lift_err_bind_ok in H as (? & _ & H). by apply sfail_ok in H. }
  destruct Hu as (r1 & Hr1 & _ & Hok & ->). assert (r1 = r) as -> by congruence. cbn [negb] in H.
  apply serr_bind_ok in H as (d2 & b & Ha & H). unfold update_activity in Ha. cbn [with_jobs t_activity] in Ha.
  destruct (t_activity db !! id) as [a|] eqn:Hact; [|injection Ha as <- <-; by apply sfail_ok in H].
  destruct (activity_row_ok _) eqn:Haok; [|done]. injection Ha as <- <-. cbn [negb] in H.
  apply sbind_ok in H as (d3 & c & Hi & H). apply sret_ok in H as [-> <-].
  apply insert_upload_outbox_row_ok in Hi as (Hb' & Hno & Hor & -> & Hco & Hcv). cbn in Hno, Hor.
  exists r, a, c. unfold outbox_row_of. rewrite Hk, Hst, terminal_text_tag. split_and!; try done.
  unfold upload_ended, finished, outbox_row_of. cbn. by rewrite Hk.
Qed.

Lemma touch_grows now a : grows a (touch_activity now a).
Proof. by unfold grows. Qed.

(** Rewriting an activity row so that it grows. *)
Lemma activity_step db id a a' :
  all_inv db -> t_activity db !! id = Some a -> activity_row_ok a' = true -> grows a a' ->
  upload_step db (with_activity (<[id := a']> (t_activity db)) db).
Proof.
  intros Hinv Ha Hok Hg. assert (Hu := ai_upload _ Hinv). apply upload_step_tables; try done.
  - destruct Hu as [I1 I2 I3 I4 I5 I6 I7 I8]. split; try done; cbn [with_activity t_activity].
    + intros j x [[<- <-]|[_ H]]%lookup_insert_Some; [|by apply I2]. split; [by eapply I2|done].
    + intros j Hj. split; [by apply I3|]. destruct (decide (j = id)) as [->|Hne]; [by rewrite lookup_insert_eq|].
      rewrite lookup_insert_ne by done. by apply I3.
  - intros j x Hx. cbn [with_activity t_activity]. destruct (decide (j = id)) as [->|Hne].
    + rewrite lookup_insert_eq. exists a'. split; [done|]. congruence.
    + rewrite lookup_insert_ne by done. exists x. auto with sm.
Qed.

Lemma upload_step_trans a b c : upload_step a b -> upload_step b c -> upload_step a c.
Proof.
  intros [_ H1] [H2 H3]. split; [done|]. intros id Hid. eapply kept_trans; [by apply H1|]. apply H3.
  eapply kp_job, H1, Hid.
Qed.

Lemma complete_upload_step id v o now db db' out :
  all_inv db -> complete_upload_job id v o now db = (db', Ok out) -> upload_step db db'.
Proof.
  intros Hinv (r & a & c & Hr & Hk & Hv & Hnt & Hno & Ha & Haok & Hb & Hok & Hok2 & _ & _ & _ & ->)%complete_upload_job_ok.
  assert (H1 := activity_step db id a _ Hinv Ha Haok (touch_grows now a)). apply (upload_step_trans _ _ _ H1).
  destruct H1 as [[Hs Hu Hl] _]. apply upload_step_safe.
  - apply (store_inv_finish _ id r); try done; [split; [done|]; cbn [set_outcome jr_state_version]; lia|].
    apply outcome_terminal_text.
  - by eapply (lineage_quiet _ _ (finish_quiet _ id r o (v + 1) now Hr)).
  - by apply finish_safe.
Qed.

(** *** Creating and repeating *)

Lemma three_inserts id identity key digest now spec act db d1 d2 d3 :
  store_inv db ->
  insert_job id (queued_row identity OpUpload ("upload:" ++ key) digest now) db = (d1, Ok tt) ->
  insert_upload_spec id spec d1 = (d2, Ok tt) -> insert_activity id act d2 = (d3, Ok tt) ->
  ac_confirmed_bytes act = 0%Z ->
  adds_upload id db d3 /\ creating db id d3 /\ t_upload_specs d3 = <[id := spec]> (t_upload_specs db).
Proof.
  intros Hs H1 H2 H3 H0. split; [|split].
  - apply insert_job_new in H1 as (Hno & Hok & ->). apply insert_upload_spec_new in H2 as [Hsok ->].
    apply insert_activity_new in H3 as [Haok ->]. eexists _, spec, act. split_and!; [done| | |done..|split; [reflexivity|done]|done|].
    + done.
    + done.
    + intros j Hj. cbn. by rewrite lookup_insert_ne.
  - eapply creating_insert_job in H1; [|by apply upload_key|by apply creating_refl].
    apply insert_upload_spec_new in H2 as [_ ->]. apply insert_activity_new in H3 as [_ ->].
    by apply (creating_uploads _ _ d1).
  - apply insert_job_new in H1 as (_ & _ & ->). apply insert_upload_spec_new in H2 as [_ ->].
    by apply insert_activity_new in H3 as [_ ->].
Qed.

Section create.
Context `{Sha256} `{QueryPlan}.

Lemma create_upload_job_moves id spec activity now abort db db' out :
  store_inv db -> create_upload_job id spec activity now abort db = (db', Ok out) ->
  (db' = db /\ exists job, out = UjExisting job) \/ 
  (adds_upload id db db' /\ creating db id db' /\ publishes id db' /\ exists job, out = UjCreated job).
Proof.
  intros Hs. unfold create_upload_job. intros (u & _ & H')%lift_err_bind_ok. destruct (is_blank id); [by apply sfail_ok in H'|].
  apply lift_err_bind_ok in H' as (u' & _ & H'). rewrite transaction_ok, get_bind in H'.
  apply lift_bind_ok in H' as (same & _ & H'). destruct same as [ex|]; [apply sret_ok in H' as [-> <-]; left; by eauto|].
  apply lift_bind_ok in H' as (u2 & _ & H'). apply lift_err_bind_ok in H' as (taken & _ & H').
  destruct taken; [by apply sfail_ok in H'|]. apply lift_err_bind_ok in H' as (identity & _ & H').
  assert (Hab : forall st (d d' : Db), abort_upload_job_create_if abort st d = (d', Ok tt) -> d' = d).
  { intros st d d'. unfold abort_upload_job_create_if. case_bool_decide; [by intros ?%sfail_ok|by intros [-> _]%sret_ok]. }
  apply serr_bind_ok in H' as (d1 & [] & H1 & H'). apply sbind_ok in H' as (? & [] & ->%Hab & H').
  apply serr_bind_ok in H' as (d2 & [] & H2 & H'). apply sbind_ok in H' as (? & [] & ->%Hab & H').
  apply lift_err_bind_ok in H' as (total & _ & H'). apply serr_bind_ok in H' as (d3 & [] & H3 & H').
  apply sbind_ok in H' as (? & [] & ->%Hab & H'). rewrite get_bind in H'. apply lift_err_bind_ok in H' as (f & _ & H').
  apply lift_or_bind_ok in H' as (job & _ & H'). apply sret_ok in H' as [-> <-]. right.
  destruct (three_inserts _ _ _ _ _ _ _ _ _ _ _ Hs H1 H2 H3 eq_refl) as (? & ? & Hsp). split_and!; [done|done| |by eexists].
  intros s. rewrite Hsp, lookup_insert_eq. by intros [= <-].
Qed.

Lemma create_upload_step id spec activity now abort db db' out :
  all_inv db -> create_upload_job id spec activity now abort db = (db', Ok out) -> upload_step db db'.
Proof.
  intros Hinv Hrun. assert (Hs := ai_store _ Hinv).
  apply create_upload_job_moves in Hrun as [[-> _]|(Ha & Hc & _ & _)]; [by apply upload_step_refl| |done].
  apply upload_step_safe; [apply Hc| |by eapply adds_safe, Ha; apply Hinv].
  eapply (lineage_adds id "" 0 "" db); [done..|left; apply Hc|apply Hinv].
Qed.
End create.

Lemma last_attempt_bound db p c l :
  t_lineage db !! c = Some l -> ln_parent_job_id l = p -> (ln_attempt l <= last_attempt db p)%Z.
Proof.
  intros Hc Hp. assert (Hin : (c, l) ∈ children_of db p) by (by apply children_of_spec). unfold last_attempt.
  induction (children_of db p) as [|x xs IH]; [by apply not_elem_of_nil in Hin|].
  rewrite fmap_cons. cbn [fold_right]. apply elem_of_cons in Hin as [<-|Hin]; [cbn; lia|]. specialize (IH Hin). lia.
Qed.

(** A repeat's guard: no child of the parent is unfinished. *)
Lemma repeat_may_spawn db p child spec activity attempt :
  all_inv db -> upload_job db p -> repeat_existing_child db p child spec activity = Ok None ->
  next_attempt db p = Ok attempt -> may_spawn db p attempt /\ t_jobs db !! child = None.
Proof.
  intros Hinv Hp He Ha. unfold repeat_existing_child in He. apply rbind_ok in He as (taken & Ht%rmap_err_ok & He).
  destruct taken as [ex|].
  { case_bool_decide; [|done]. apply rbind_ok in He as ([|] & _ & He); done. }
  apply read_job_none in Ht. split; [|done]. intros c l Hc Hl. split.
  - unfold next_attempt in Ha. apply rbind_ok in Ha as (prev & Hprev%ok_or_ok%u64_of_i64_Some & Ha).
    apply rbind_ok in Ha as (a & [_ ->]%ok_or_ok%u64_checked_add_Some & [_ ->]%rmap_err_ok%checked_i64_ok).
    assert (Hb := last_attempt_bound db p c l Hc Hl). lia.
  - destruct (si_lineage db (ai_store _ Hinv) c l Hc) as [[r Hr]%elem_of_dom _]. exists r. split; [done|].
    destruct (ai_lineage _ Hinv c l Hc) as (x & Hx & Hk); [by rewrite Hl|]. assert (x = r) as -> by congruence.
    destruct (latest_attempt _) as [[ac ?]|] eqn:El.
    { apply rbind_ok in He as (? & _ & He). apply rbind_ok in He as (? & _ & He). by apply rbind_ok in He as ([|] & _ & He). }
    apply latest_attempt_None in El. apply not_false_iff_true. intros Hnt.
    assert (Hin : (c, l) ∈ joined_children db p
              (fun r => String.eqb (jr_operation_kind r) "upload" && negb (terminal_text (jr_state r)))).
    { unfold joined_children. apply list_elem_of_In, filter_In. split; [apply list_elem_of_In; by apply children_of_spec|].
      cbn [fst]. by rewrite Hr, Hk, Hnt. }
    rewrite El in Hin. by apply not_elem_of_nil in Hin.
Qed.

Lemma repeat_parent_checked_ok db p spec allow parent :
  repeat_parent_checked db p spec allow = Ok parent -> sj_job_id parent = p /\ upload_job db p.
Proof.
  unfold repeat_parent_checked. intros (f & Hf%rmap_err_ok & H)%rbind_ok. apply rbind_ok in H as (j & ->%ok_or_ok & H).
  apply read_job_ok in Hf as (r & Hr & Hrow). apply read_job_row_ok in Hrow as (Hid & Hk & _).
  case_bool_decide as Ek; [|done]. cbn [negb] in H.
  destruct (negb (bool_decide _) && negb _); [done|]. destruct (negb _); [done|].
  apply rbind_ok in H as (row & _ & H). destruct (_ && _ && _); [done|]. destruct (_ || _); [done|]. injection H as ->.
  split; [done|]. exists r. split; [done|]. rewrite Ek in Hk. by apply upload_kind.
Qed.

Section repeat.
Context `{Sha256}.

Lemma repeat_upload_moves p child spec activity now allow db db' out :
  all_inv db -> repeat_upload_job_inner p child spec activity now allow db = (db', Ok out) ->
  (db' = db /\ exists job, out = RtExisting job) \/
  (exists attempt job, out = RtCreated job /\ adds_upload child db db' /\ store_inv db' /\ publishes child db' /\
     t_lineage db' = <[child := mkLineageRow p attempt now]> (t_lineage db)).
Proof.
  intros Hinv. assert (Hs := ai_store _ Hinv). unfold repeat_upload_job_inner.
  intros (u & _ & H')%lift_err_bind_ok. destruct (is_blank child); [by apply sfail_ok in H'|].
  apply lift_err_bind_ok in H' as (u' & _ & H'). rewrite transaction_ok, get_bind in H'.
  apply lift_bind_ok in H' as (parent & Hpar & H'). apply repeat_parent_checked_ok in Hpar as [Hid Hp].
  apply lift_bind_ok in H' as (ex & Hex & H'). destruct ex as [ex|]; [apply sret_ok in H' as [-> <-]; left; by eauto|].
  apply lift_bind_ok in H' as (attempt & Hatt & H').
  destruct (repeat_may_spawn _ _ _ _ _ _ Hinv Hp Hex Hatt) as [Hmay Hno].
  apply serr_bind_ok in H' as (d1 & [] & H1 & H'). apply serr_bind_ok in H' as (d2 & [] & H2 & H').
  apply lift_err_bind_ok in H' as (total & _ & H'). apply serr_bind_ok in H' as (d3 & [] & H3 & H').
  apply serr_bind_ok in H' as (d4 & [] & H4 & H'). rewrite get_bind in H'. apply lift_err_bind_ok in H' as (f & _ & H').
  apply lift_or_bind_ok in H' as (job & _ & H'). apply sret_ok in H' as [-> <-]. right. exists attempt, job.
  destruct (three_inserts _ _ _ _ _ _ _ _ _ _ _ Hs H1 H2 H3 eq_refl) as (Ha & Hc & Hsp).
  destruct (insert_lineage_creating db child (mkLineageRow p attempt now) d3 d4 Hc Hs Hno Hmay H4) as (Hs4 & Hl4 & _ & Hj4).
  split; [done|]. assert (H4' := H4). apply insert_lineage_row in H4'. split.
  2:{ split_and!; try done. intros s. rewrite H4'. cbn. rewrite Hsp, lookup_insert_eq. by intros [= <-]. }
  apply insert_lineage_row in H4. destruct Ha as (row & s & a & ? & ? & ? & ? & ? & ? & Hq & Ho & Hj).
  exists row, s, a. split_and!; try done.
  - subst. apply (quiet_trans _ _ _ Hq). by apply quiet_same.
  - by rewrite H4.
  - intros j Hne. by rewrite Hj4, Hj.
Qed.

Lemma repeat_upload_step p child spec activity now allow db db' out :
  all_inv db -> repeat_upload_job_inner p child spec activity now allow db = (db', Ok out) -> upload_step db db'.
Proof.
  intros Hinv Hrun. apply repeat_upload_moves in Hrun as [[-> _]|(attempt & job & _ & Ha & Hs & _ & Hl)];
    [by apply upload_step_refl| |done].
  apply upload_step_safe; [done| |by eapply adds_safe, Ha; apply Hinv].
  eapply lineage_adds; [apply Hinv|exact Ha|right; exact Hl|apply Hinv].
Qed.
End repeat.

(** *** Multipart handles and parts *)

Lemma NoDup_snoc {A} (l : list A) x : NoDup l -> x ∉ l -> NoDup (l ++ [x]).
Proof. intros Hl Hx. apply NoDup_app. split_and!; [done| |apply NoDup_singleton]. intros y Hy. set_solver. Qed.

Lemma has_handle_of k i l : existsb (has_handle k i) l = true <-> (k, i) ∈ handle_of <$> l.
Proof.
  rewrite existsb_exists, list_elem_of_fmap. unfold has_handle, handle_of.
  setoid_rewrite andb_true_iff. setoid_rewrite String.eqb_eq. setoid_rewrite <- list_elem_of_In. split.
  - intros (u & Hu & <- & <-). by exists u.
  - intros (u & [= -> ->] & Hu). by exists u.
Qed.

Lemma part_key_of k i n l :
  existsb (part_key k i n) l = true <-> ((k, i), n) ∈ (fun p => (part_handle p, pt_part_number p)) <$> l.
Proof.
  rewrite existsb_exists, list_elem_of_fmap. unfold part_key, part_handle.
  setoid_rewrite andb_true_iff. setoid_rewrite andb_true_iff. setoid_rewrite String.eqb_eq. setoid_rewrite Z.eqb_eq.
  setoid_rewrite <- list_elem_of_In. split.
  - intros (p & Hp & [<- <-] & <-). by exists p.
  - intros (p & [= -> -> ->] & Hp). by exists p.
Qed.

(** Steps on the two multipart tables. *)
Lemma multipart_step db ups parts :
  all_inv db ->
  (forall u, u ∈ ups -> upload_row_ok u = true /\ forall id, up_job_id u = Some id -> upload_job db id) ->
  NoDup (handle_of <$> ups) ->
  (forall p, p ∈ parts -> part_handle p ∈ handle_of <$> ups /\ (1 <= pt_part_number p)%Z /\ (0 <= pt_size_bytes p)%Z) ->
  NoDup ((fun p => (part_handle p, pt_part_number p)) <$> parts) ->
  upload_step db (with_multipart ups parts db).
Proof.
  intros Hinv H1 H2 H3 H4. apply upload_step_tables; try done.
  - destruct (ai_upload _ Hinv). by split.
  - intros id a Ha. exists a. auto with sm.
Qed.

Lemma insert_upload_ok row db db' :
  insert_upload row db = (db', Ok tt) ->
  (forall id, up_job_id row = Some id -> is_Some (t_jobs db !! id)) /\ handle_of row ∉ handle_of <$> t_uploads db /\
  upload_row_ok row = true /\ db' = with_multipart (t_uploads db ++ [row])%list (t_parts db) db.
Proof.
  unfold insert_upload. destruct (match up_job_id row with Some _ => _ | None => _ end) eqn:Ej; [done|].
  destruct (existsb _ _) eqn:Eh; [done|]. destruct (upload_row_ok row); [|done]. intros [= <-]. split_and!; try done.
  - intros id E. rewrite E in Ej. apply bool_decide_eq_false in Ej. destruct (t_jobs db !! id); [by eexists|done].
  - intros Hin. by apply (has_handle_of (up_object_key row) (up_upload_id row)) in Hin; rewrite Hin in Eh.
Qed.

Lemma insert_upload_step row db db' :
  all_inv db -> (forall id, up_job_id row = Some id -> upload_job db id) ->
  insert_upload row db = (db', Ok tt) -> upload_step db db'.
Proof.
  intros Hinv Hj (_ & Hn & Hok & ->)%insert_upload_ok. destruct (ai_upload _ Hinv) as [_ _ _ I4 I5 I6 I7 _].
  apply multipart_step; try done.
  - intros u [Hu|Hu%list_elem_of_singleton]%elem_of_app; [by apply I4|by subst u].
  - rewrite fmap_app. by apply NoDup_snoc.
  - intros p Hp. rewrite fmap_app, elem_of_app. destruct (I6 p Hp) as [? ?]. by split; [left|].
Qed.

Lemma begin_upload_step upload now db db' out :
  all_inv db -> begin_upload upload now db = (db', Ok out) -> upload_step db db'.
Proof.
  intros Hinv. unfold begin_upload. intros (u & _ & H)%lift_bind_ok. rewrite transaction_ok, get_bind in H.
  apply lift_bind_ok in H as ([ex|] & _ & H).
  { case_bool_decide; [|by apply sfail_ok in H]. apply sret_ok in H as [-> _]. by apply upload_step_refl. }
  apply serr_bind_ok in H as (d & [] & Hi & H). rewrite get_bind in H. apply lift_bind_ok in H as (f & _ & H).
  apply slift_ok in H as [-> _]. by apply insert_upload_step in Hi.
Qed.

Lemma begin_upload_for_job_step id v upload now db db' out :
  all_inv db -> begin_upload_for_job id v upload now db = (db', Ok out) -> upload_step db db'.
Proof.
  intros Hinv. unfold begin_upload_for_job. intros (u & _ & H)%lift_err_bind_ok. rewrite transaction_ok, get_bind in H.
  apply lift_bind_ok in H as (job & (r & Hr & _ & Hk & _)%require_upload_job_ok & H).
  apply lift_bind_ok in H as (? & _ & H). apply lift_bind_ok in H as (? & _ & H).
  apply lift_err_bind_ok in H as ([ex|] & _ & H).
  { destruct (_ && _); [|by apply sfail_ok in H]. apply sret_ok in H as [-> _]. by apply upload_step_refl. }
  apply serr_bind_ok in H as (d & [] & Hi & H). rewrite get_bind in H. apply lift_err_bind_ok in H as (f & _ & H).
  apply slift_ok in H as [-> _]. apply insert_upload_step in Hi; [done..|]. intros j [= <-]. by exists r.
Qed.

(** Rewriting upload rows without touching their key columns. *)
Lemma update_uploads_step cond set db db' n :
  all_inv db -> update_uploads cond set db = (db', Ok n) ->
  (forall u, upload_row_ok u = true -> upload_row_ok (set u) = true) ->
  (forall u, handle_of (set u) = handle_of u /\ up_job_id (set u) = up_job_id u) -> upload_step db db'.
Proof.
  intros Hinv [= <- _] Hok Hset. destruct (ai_upload _ Hinv) as [_ _ _ I4 I5 I6 I7 _].
  assert (Hh : handle_of <$> map (fun u => if cond u then set u else u) (t_uploads db) = handle_of <$> t_uploads db).
  { clear -Hset. induction (t_uploads db) as [|u l IH]; [done|]. simpl. f_equal; [|done]. destruct (cond u); [apply Hset|done]. }
  apply multipart_step; rewrite ?Hh; try done. intros u Hu. apply list_elem_of_In, in_map_iff in Hu as (x & <- & Hx).
  apply list_elem_of_In in Hx. destruct (I4 x Hx) as [? Hj]. destruct (cond x); [|done]. split; [by apply Hok|].
  intros id. rewrite (proj2 (Hset x)). apply Hj.
Qed.

Lemma insert_part_ok row db db' :
  insert_part row db = (db', Ok tt) ->
  part_handle row ∈ handle_of <$> t_uploads db /\
  (part_handle row, pt_part_number row) ∉ (fun p => (part_handle p, pt_part_number p)) <$> t_parts db /\
  (1 <= pt_part_number row)%Z /\ (0 <= pt_size_bytes row)%Z /\
  db' = with_multipart (t_uploads db) (t_parts db ++ [row])%list db.
Proof.
  unfold insert_part. destruct (existsb (has_handle _ _) _) eqn:Eh; [|done]. cbn [negb].
  destruct (existsb (part_key _ _ _) _) eqn:Ep; [done|]. destruct (_ && _ && _) eqn:Ec; [|done]. intros [= <-].
  rewrite !andb_true_iff, !Z.leb_le in Ec. destruct Ec as [[? _] ?]. split_and!; try done.
  - by apply has_handle_of.
  - intros Hin. apply part_key_of in Hin. congruence.
Qed.

(** What writing a part leaves: the row at the end of the table, and a new time stamp. *)
Lemma write_part_ok k i part now db db' :
  write_part k i part now db = (db', Ok tt) ->
  let row := mkPartRow k i (Z.of_N (pa_part_number part)) (pa_etag part) (Z.of_N (pa_size_bytes part)) now in
  t_parts db' = (t_parts db ++ [row])%list /\ t_activity db' = t_activity db /\ t_jobs db' = t_jobs db /\
  t_uploads db' = map (fun u => if has_handle k i u then touch_upload now u else u) (t_uploads db) /\
  (all_inv db -> upload_step db db').
Proof.
  unfold write_part. intros (z & [_ ->]%checked_i64_ok & H)%lift_err_bind_ok.
  apply serr_bind_ok in H as (d1 & [] & Hi & H). apply serr_bind_ok in H as (d2 & n & Hu & H).
  apply sret_ok in H as [-> _]. assert (Hu' := Hu). injection Hu as <- _.
  assert (Hi' := Hi). apply insert_part_ok in Hi' as (H1 & H2 & H3 & H4 & E). cbn. rewrite E. split_and!; try done.
  rewrite <- E. intros Hinv. assert (Hs : upload_step db d1).
  { rewrite E. destruct (ai_upload _ Hinv) as [_ _ _ I4 I5 I6 I7 _]. apply multipart_step; try done.
    - intros p [Hp|Hp%list_elem_of_singleton]%elem_of_app; [by apply I6|by subst p].
    - rewrite fmap_app. by apply NoDup_snoc. }
  apply (upload_step_trans _ _ _ Hs). eapply update_uploads_step; [apply Hs|exact Hu'|by intros []|by intros []].
Qed.

Lemma record_upload_part_step k i part now db db' :
  all_inv db -> record_upload_part k i part now db = (db', Ok tt) -> upload_step db db'.
Proof.
  intros Hinv. unfold record_upload_part. intros (u & _ & H)%lift_bind_ok. rewrite transaction_ok, get_bind in H.
  destruct (negb _); [by apply sfail_ok in H|]. apply lift_bind_ok in H as ([|] & _ & H).
  - apply sret_ok in H as [-> _]. by apply upload_step_refl.
  - by apply write_part_ok in H as (_ & _ & _ & _ & H); apply H.
Qed.

Definition progressed (r : ActivityRow) (n : N) (now : string) : ActivityRow :=
  mkActivityRow (ac_label r) (ac_target_label r) (ac_total_bytes r) (ac_confirmed_bytes r + Z.of_N n) (ac_created_at r) now.

Lemma add_progress_ok id n now db db' :
  add_progress id n now db = (db', Ok tt) ->
  exists a, t_activity db !! id = Some a /\ (0 <= ac_confirmed_bytes a)%Z /\ activity_row_ok (progressed a n now) = true /\
    db' = with_activity (<[id := progressed a n now]> (t_activity db)) db.
Proof.
  unfold add_progress. rewrite get_bind. intros (a & Ha & H)%lift_or_bind_ok.
  apply lift_or_bind_ok in H as (t & _ & H). apply lift_or_bind_ok in H as (c & Hc%u64_of_i64_Some & H).
  apply lift_or_bind_ok in H as (nx & [_ ->]%u64_checked_add_Some & H). destruct (negb _ && _); [by apply sfail_ok in H|].
  apply lift_bind_ok in H as (z & Hz & H). unfold checked_i64_upload in Hz. destruct (_ <=? _)%N; [|done]. injection Hz as <-.
  apply sbind_ok in H as (d & b & Hu & H). apply sret_ok in H as [-> _]. unfold update_activity in Hu. rewrite Ha in Hu.
  exists a. unfold progressed. rewrite Hc, <- N2Z.inj_add. destruct (activity_row_ok _) eqn:Hok; [|done].
  injection Hu as <- _. split_and!; try done. lia.
Qed.

Lemma progress_grows a n now : grows a (progressed a n now).
Proof. unfold grows, progressed. cbn. split_and!; try done. lia. Qed.

(** What recording a part for a job leaves. *)
Lemma record_part_ok id v k i part progress now db db' :
  record_upload_part_for_job id v k i part progress now db = (db', Ok tt) ->
  upload_job db id /\
  ((part_recorded db k i part = Ok true /\ db' = db) \/
   (part_recorded db k i part = Ok false /\
    exists d, write_part k i part now db = (d, Ok tt) /\
      match progress with Some n => add_progress id n now d = (db', Ok tt) | None => db' = d end)).
Proof.
  unfold record_upload_part_for_job. intros (u & _ & H)%lift_err_bind_ok. rewrite transaction_ok, get_bind in H.
  apply lift_bind_ok in H as (job & (r & Hr & _ & Hk & _)%require_upload_job_ok & H).
  apply lift_bind_ok in H as (? & _ & H). apply lift_bind_ok in H as (? & _ & H). apply lift_bind_ok in H as (o & _ & H).
  split; [by exists r|]. destruct (negb _); [by apply sfail_ok in H|]. apply lift_err_bind_ok in H as ([|] & Hp & H).
  - left. by apply sret_ok in H as [-> _].
  - right. split; [done|]. apply serr_bind_ok in H as (d & [] & Hw & H). exists d. split; [done|].
    destruct progress; [by apply serr_ok in H|by apply sret_ok in H as [-> _]].
Qed.

Lemma record_part_for_job_step id v k i part progress now db db' :
  all_inv db -> record_upload_part_for_job id v k i part progress now db = (db', Ok tt) -> upload_step db db'.
Proof.
  intros Hinv [_ [[_ ->]|(_ & d & (_ & _ & _ & _ & Hw)%write_part_ok & Hp)]]%record_part_ok; [by apply upload_step_refl|].
  specialize (Hw Hinv). destruct progress as [n|]; [|by subst]. apply add_progress_ok in Hp as (a & Ha & _ & Hok & ->).
  apply (upload_step_trans _ _ _ Hw). apply (activity_step _ _ a); [apply Hw|done..|apply progress_grows].
Qed.

Lemma desired_roundtrip d : desired_from_db_str (desired_as_db_str d) = Some d.
Proof. by destruct d. Qed.

Lemma upload_row_ok_desired u d now :
  upload_row_ok u = true ->
  upload_row_ok (mkUploadRow (up_object_key u) (up_upload_id u) (up_transfer_key u) (up_entry_key u) (up_revision u)
    (up_endpoint u) (up_bucket u) (up_url_style u) (desired_as_db_str d) (up_created_at u) now (up_job_id u)) = true.
Proof.
  unfold upload_row_ok. cbn. rewrite desired_roundtrip, !andb_true_iff, !bool_decide_eq_true. intros H. destruct_and!.
  split_and!; try done.
Qed.

Lemma set_desired_step k i d now db db' b :
  all_inv db -> set_upload_desired_state k i d now db = (db', Ok b) -> upload_step db db'.
Proof.
  intros Hinv (d1 & n & Hu & H)%sbind_ok. apply sret_ok in H as [-> _].
  eapply update_uploads_step; [done|exact Hu| |by intros []]. intros u. apply upload_row_ok_desired.
Qed.

Lemma claim_step now db db' out : all_inv db -> claim_orphan_uploads now db = (db', Ok out) -> upload_step db db'.
Proof.
  intros Hinv. unfold claim_orphan_uploads. rewrite transaction_ok. intros (d1 & n & Hu & H)%serr_bind_ok.
  rewrite get_bind in H. apply slift_ok in H as [-> _].
  eapply update_uploads_step; [done|exact Hu| |by intros []]. intros u. apply (upload_row_ok_desired u UdAborting).
Qed.

Lemma finish_upload_step k i db db' b : all_inv db -> finish_upload k i db = (db', Ok b) -> upload_step db db'.
Proof.
  intros Hinv [= <- _]. destruct (ai_upload _ Hinv) as [_ _ _ I4 I5 I6 I7 _]. apply multipart_step; try done.
  - intros u [Hu _]%list_elem_of_In%filter_In. by apply I4, list_elem_of_In.
  - by apply NoDup_fmap_filter.
  - intros p [Hp Hne]%list_elem_of_In%filter_In. apply list_elem_of_In in Hp. destruct (I6 p Hp) as [Hin ?].
    split; [|done]. apply list_elem_of_fmap in Hin as (u & Hh & Hu). apply list_elem_of_fmap. exists u. split; [done|].
    apply list_elem_of_In, filter_In. split; [by apply list_elem_of_In|]. unfold has_handle. injection Hh as <- <-. done.
  - by apply NoDup_fmap_filter.
Qed.

(** *** Receipts *)

Definition visible (c : ascii) : bool := (33 <=? N_of_ascii c)%N && (N_of_ascii c <? 128)%N.

Lemma hex_visible c : is_hex_digit c = true -> visible c = true.
Proof.
  unfold is_hex_digit, visible. rewrite !orb_true_iff, !andb_true_iff, !N.leb_le, N.ltb_lt. lia.
Qed.

Lemma hex_string_visible s : str_all is_hex_digit s = true -> str_all visible s = true.
Proof.
  induction s as [|c s IH]; [done|]. cbn [str_all]. rewrite !andb_true_iff. intros [Hc Hs].
  split; [by apply hex_visible|by apply IH].
Qed.

Lemma visible_head_not_blank c s : visible c = true -> is_blank (String c s) = false.
Proof. unfold visible. rewrite andb_true_iff, N.leb_le, N.ltb_lt. apply visible_not_blank. Qed.

Lemma trim_visible s : str_all visible s = true -> trim s = s.
Proof.
  intros Hs. unfold trim. assert (trim_start s = s) as ->.
  - destruct s as [|c s]; [done|]. cbn [str_all] in Hs. apply andb_true_iff in Hs as [Hc _].
    assert (Hb : forall t, is_blank (String c t) = false) by (intros t; by apply visible_head_not_blank).
    unfold visible in Hc. rewrite andb_true_iff, N.leb_le, N.ltb_lt in Hc. cbn [trim_start].
    replace (_ || _) with false by (symmetry; rewrite orb_false_iff, andb_false_iff, !N.leb_gt, N.eqb_neq; lia).
    destruct s as [|c2 s]; [done|]. replace (N_of_ascii c =? 194)%N with false by (symmetry; apply N.eqb_neq; lia).
    cbn [andb]. destruct s as [|c3 s]; [done|]. by rewrite Hb.
  - induction s as [|c s IH]; [done|]. cbn [str_all] in Hs. apply andb_true_iff in Hs as [Hc Hs]. cbn [trim_end].
    rewrite visible_head_not_blank by done. by rewrite IH.
Qed.

Lemma lower_hex_digit c : is_hex_digit c = true ->
  is_hex_digit (ascii_lower c) = true /\ ascii_lower (ascii_lower c) = ascii_lower c.
Proof.
  assert (H := all_ascii (fun c => implb (is_hex_digit c)
    (is_hex_digit (ascii_lower c) && Ascii.eqb (ascii_lower (ascii_lower c)) (ascii_lower c)))
                 ltac:(vm_compute; reflexivity) c).
  cbv beta in H. intros Hc. rewrite Hc in H. by apply andb_true_iff in H as [? ?%Ascii.eqb_eq].
Qed.

(** A digest that was stored reads back as itself. *)
Lemma normalized_sha_stable v s :
  normalize_upload_sha256 v = Ok s -> normalize_upload_sha256 s = Ok s /\ str_len s = 64%N.
Proof.
  unfold normalize_upload_sha256. set (t := trim v). destruct (N.eqb_spec (str_len t) 64) as [Hl|]; [|done].
  destruct (str_all is_hex_digit t) eqn:Ha; [|done]. intros [= <-]. unfold to_ascii_lowercase.
  assert (Hs : str_all is_hex_digit (str_map ascii_lower t) = true)
    by (eapply str_all_map; [|exact Ha]; intros c Hc; by apply lower_hex_digit).
  assert (Hi : str_map ascii_lower (str_map ascii_lower t) = str_map ascii_lower t).
  { clear -Ha. induction t as [|c t IH]; [done|]. cbn [str_all] in Ha. apply andb_true_iff in Ha as [Hc Ht]. simpl.
    rewrite (proj2 (lower_hex_digit c Hc)). f_equal. by apply IH. }
  rewrite trim_visible by (by apply hex_string_visible).
  by rewrite str_len_map, Hl, Hs, Hi.
Qed.

(** A normalised receipt is one that was accepted. *)
Definition receipt_accepted (r : UploadReceiptSeed) : Prop :=
  match sd_version_id r with Some version => is_blank version | None => false end = false /\
  normalize_upload_sha256 (sd_source_sha256 r) = Ok (sd_source_sha256 r).

Lemma seed_accepted r r' : validate_upload_receipt_seed r = Ok r' -> receipt_accepted r'.
Proof.
  unfold validate_upload_receipt_seed. destruct (is_blank _); [done|]. destruct (is_blank _); [done|].
  destruct (match sd_version_id r with Some _ => _ | None => _ end) eqn:Ev; [done|].
  intros (sha & Hs & [= <-])%rbind_ok. split; [done|]. by apply normalized_sha_stable in Hs as [? _].
Qed.

Lemma batch_accepted seen l out :
  normalize_batch seen l = Ok out -> Forall receipt_accepted seen -> Forall receipt_accepted out.
Proof.
  revert seen. induction l as [|r l IH]; intros seen; cbn [normalize_batch]; [by intros [= <-]|].
  intros (n & Hn%rmap_err_ok & H)%rbind_ok Hs. destruct (existsb _ _); [done|]. apply (IH _ H).
  apply Forall_app; split; [done|]. apply Forall_singleton. by eapply seed_accepted.
Qed.

Lemma insert_upload_receipt_ok id key row db db' :
  insert_receipt id key row db = (db', Ok tt) ->
  receipts_of db id !! key = None /\ receipt_row_ok key row = true /\
  db' = with_receipts (<[id := <[key := row]> (receipts_of db id)]> (t_receipts db)) db.
Proof.
  intros [_ H]%owned_by_ok. destruct (bool_decide_reflect (is_Some (receipts_of db id !! key))) as [|Hn]; [done|].
  destruct (receipt_row_ok key row); [|done]. cbn [negb] in H. injection H as <-. split_and!; try done.
  by apply eq_None_not_Some.
Qed.

(** Staging one receipt under the specification of its job. *)
Lemma stage_receipt_step id entry revision now r spec db db' :
  receipt_accepted r -> all_inv db -> t_upload_specs db !! id = Some spec -> us_entry_key spec = entry ->
  us_revision spec = revision -> stage_receipt id entry revision now r db = (db', Ok tt) ->
  upload_step db db' /\ t_upload_specs db' = t_upload_specs db.
Proof.
  intros [Hv Hsha] Hinv Hspec He Hr. unfold stage_receipt. rewrite get_bind.
  destruct (receipts_of db id !! sd_object_key r) as [row|] eqn:Ho.
  { intros (ex & _ & H)%lift_err_bind_ok. destruct (upload_receipt_matches_seed _ _ _ _); [|by apply sfail_ok in H].
    apply sret_ok in H as [-> _]. split; [by apply upload_step_refl|done]. }
  intros (z & Hz & H)%lift_err_bind_ok. unfold checked_i64_upload in Hz. destruct (_ <=? _)%N; [|done].
  injection Hz as <-. apply serr_ok, insert_upload_receipt_ok in H as (_ & Hok & ->). split; [|done].
  assert (Hi := ai_upload _ Hinv). apply upload_step_tables; try done.
  - destruct Hi as [I1 I2 I3 I4 I5 I6 I7 I8]. split; try done. intros j key rc. unfold receipts_of.
    cbn [with_receipts t_receipts]. destruct (decide (j = id)) as [->|Hne].
    + rewrite lookup_insert_eq. cbn [default Datatypes.id]. intros [[<- <-]|[_ H]]%lookup_insert_Some; [|by apply I8].
      exists spec, (mkStoredReceipt id entry revision r now). split_and!; try done. unfold read_upload_receipt_row. cbn.
      assert (Hu : u64_of_i64 (Z.of_N (sd_size_bytes r)) = Some (sd_size_bytes r))
        by (unfold u64_of_i64; rewrite N2Z.id, (proj2 (Z.ltb_ge _ _)); [done|lia]).
      destruct r as [k ro e v z h p]. cbn in *. destruct ro, p; cbn; rewrite Hu; cbn; rewrite Hsha; cbn; by rewrite Hv.
    + rewrite lookup_insert_ne by done. apply I8.
  - intros j a Ha. exists a. auto with sm.
  - intros j key rc. unfold receipts_of at 2. cbn [with_receipts t_receipts].
    destruct (decide (j = id)) as [->|Hne]; [|by rewrite lookup_insert_ne].
    rewrite lookup_insert_eq. cbn [default Datatypes.id]. intros H. rewrite lookup_insert_ne; [done|congruence].
Qed.

Lemma stage_all_step id entry revision now spec l db db' :
  Forall receipt_accepted l -> all_inv db -> t_upload_specs db !! id = Some spec -> us_entry_key spec = entry ->
  us_revision spec = revision -> sforeach (stage_receipt id entry revision now) l db = (db', Ok tt) -> upload_step db db'.
Proof.
  intros Hl. revert db. induction Hl as [|r l Hr Hl IH]; intros db Hinv Hs He Hv.
  - intros [-> _]%sret_ok. by apply upload_step_refl.
  - intros (d & [] & H1 & H2)%sbind_ok. destruct (stage_receipt_step _ _ _ _ _ _ _ _ Hr Hinv Hs He Hv H1) as [Hst Hsp].
    apply (upload_step_trans _ _ _ Hst), IH; [by destruct Hst|by rewrite Hsp|done..].
Qed.

Lemma stage_receipts_step id entry revision receipts now db db' out :
  all_inv db -> stage_upload_receipts id entry revision receipts now db = (db', Ok out) -> upload_step db db'.
Proof.
  intros Hinv. unfold stage_upload_receipts. intros (? & _ & H)%lift_err_bind_ok.
  apply lift_bind_ok in H as (l & Hl & H). apply batch_accepted in Hl; [|constructor].
  rewrite transaction_ok, get_bind in H. apply lift_err_bind_ok in H as (f & _ & H).
  apply lift_or_bind_ok in H as (job & _ & H). destruct (negb _); [by apply sfail_ok in H|].
  apply lift_or_bind_ok in H as (spec & Hs & H). destruct (negb (us_entry_key spec =? entry)%string || _) eqn:Ec;
    [by apply sfail_ok in H|]. apply orb_false_iff in Ec as [He%negb_false_iff%String.eqb_eq Hv%negb_false_iff%String.eqb_eq].
  apply sbind_ok in H as (d & [] & Hrun & H). rewrite get_bind in H. apply slift_ok in H as [-> _].
  by eapply stage_all_step.
Qed.

(** ** Every operation *)

Inductive UploadOp :=
| UStore (op : StoreOp)
| UCreate (id : string) (spec : UploadJobSpec) (activity : UploadActivitySeed) (now : string)
          (abort : option UploadJobCreateAbort)
| UStart (id : string) (v : N) (now : string)
| UComplete (id : string) (v : N) (o : TerminalOutcome) (now : string)
| URepeat (parent child : string) (spec : UploadJobSpec) (activity : UploadActivitySeed) (now : string) (supersede : bool)
| UBegin (upload : NewUpload) (now : string)
| UBeginFor (id : string) (v : N) (upload : NewUpload) (now : string)
| UPart (object_key upload_id : string) (part : UploadPartRecord) (now : string)
| UPartFor (id : string) (v : N) (object_key upload_id : string) (part : UploadPartRecord) (progress : option N) (now : string)
| UDesired (object_key upload_id : string) (desired : UploadDesiredState) (now : string)
| UFinish (object_key upload_id : string)
| UClaim (now : string)
| UStage (id entry_key revision : string) (receipts : list UploadReceiptSeed) (now : string).

Section all_uploads.
Context `{Sha256} `{QueryPlan}.

(** Every operation a caller can make on the store, uploads included. *)
Definition run_upload (op : UploadOp) (db : Db) : Db * bool :=
  match op with
  | UStore op => run_op op db
  | UCreate id spec activity now abort => outcome_flag (create_upload_job id spec activity now abort db)
  | UStart id v now => outcome_flag (start_upload_job id v now db)
  | UComplete id v o now => outcome_flag (complete_upload_job id v o now db)
  | URepeat parent child spec activity now supersede =>
      outcome_flag (repeat_upload_job_inner parent child spec activity now supersede db)
  | UBegin upload now => outcome_flag (begin_upload upload now db)
  | UBeginFor id v upload now => outcome_flag (begin_upload_for_job id v upload now db)
  | UPart k i part now => outcome_flag (record_upload_part k i part now db)
  | UPartFor id v k i part progress now => outcome_flag (record_upload_part_for_job id v k i part progress now db)
  | UDesired k i desired now => outcome_flag (set_upload_desired_state k i desired now db)
  | UFinish k i => outcome_flag (finish_upload k i db)
  | UClaim now => outcome_flag (claim_orphan_uploads now db)
  | UStage id entry revision receipts now => outcome_flag (stage_upload_receipts id entry revision receipts now db)
  end.

Fixpoint run_uploads (ops : list UploadOp) (db : Db) : Db :=
  match ops with [] => db | op :: ops' => run_uploads ops' (run_upload op db).1 end.

(** A failed operation left the tables as they were. *)
Lemma start_atomic id v now : atomic (start_upload_job id v now).
Proof.
  unfold start_upload_job. apply atomic_sget_bind; intros d. do 3 (apply atomic_slift_bind; intros ?).
  destruct (is_rejected _); [auto with sm|]. intros db db' e. unfold serr.
  destruct (transition_job id v TPreparing None now db) as [d' [?|?]] eqn:Et; [done|]. intros [= <- _].
  by eapply transition_job_atomic.
Qed.

#[local] Hint Resolve start_atomic : sm.

Lemma create_upload_atomic id spec activity now abort : atomic (create_upload_job id spec activity now abort).
Proof. unfold create_upload_job. apply atomic_slift_bind; intros ?. destruct (is_blank id); auto with sm. Qed.

Lemma repeat_upload_atomic p c spec activity now allow : atomic (repeat_upload_job_inner p c spec activity now allow).
Proof. unfold repeat_upload_job_inner. apply atomic_slift_bind; intros ?. destruct (is_blank c); auto with sm. Qed.

Lemma set_desired_atomic k i d now : atomic (set_upload_desired_state k i d now).
Proof. intros db db' e. done. Qed.

Lemma finish_atomic k i : atomic (finish_upload k i).
Proof. intros db db' e. done. Qed.

Lemma begin_atomic u now : atomic (begin_upload u now).
Proof. unfold begin_upload. auto with sm. Qed.

Lemma begin_for_atomic id v u now : atomic (begin_upload_for_job id v u now).
Proof. unfold begin_upload_for_job. auto with sm. Qed.

Lemma part_atomic k i p now : atomic (record_upload_part k i p now).
Proof. unfold record_upload_part. auto with sm. Qed.

Lemma part_for_atomic id v k i p n now : atomic (record_upload_part_for_job id v k i p n now).
Proof. unfold record_upload_part_for_job. auto with sm. Qed.

Lemma stage_atomic id e r l now : atomic (stage_upload_receipts id e r l now).
Proof. unfold stage_upload_receipts. auto with sm. Qed.

Lemma claim_atomic now : atomic (claim_orphan_uploads now).
Proof. apply atomic_transaction. Qed.

Lemma complete_upload_atomic id v o now : atomic (complete_upload_job id v o now).
Proof. apply atomic_transaction. Qed.

#[local] Hint Resolve create_upload_atomic repeat_upload_atomic set_desired_atomic finish_atomic begin_atomic
  begin_for_atomic part_atomic part_for_atomic stage_atomic claim_atomic complete_upload_atomic : sm.

Lemma upload_op_step op db :
  all_inv db -> (forall sop, op <> UStore sop) ->
  let '(db', ok) := run_upload op db in upload_step db db' /\ (ok = false -> db' = db).
Proof.
  intros Hinv Hns. destruct op; cbn [run_upload]; [by destruct (Hns op)|..];
    (apply outcome_flag_spec; [by eauto with sm|by apply upload_step_refl|intros db' out Hrun]).
  - by eapply create_upload_step.
  - by eapply start_upload_step.
  - by eapply complete_upload_step.
  - by eapply repeat_upload_step.
  - by eapply begin_upload_step.
  - by eapply begin_upload_for_job_step.
  - destruct out. by eapply record_upload_part_step.
  - destruct out. by eapply record_part_for_job_step.
  - by eapply set_desired_step.
  - by eapply finish_upload_step.
  - by eapply claim_step.
  - by eapply stage_receipts_step.
Qed.

(** Deleting the job is the one operation that takes its rows away. *)
Definition deletes (op : UploadOp) (id : string) : Prop := op = UStore (ODelete id).

Lemma upload_op_safe op db :
  all_inv db ->
  let '(db', ok) := run_upload op db in
  all_inv db' /\ (forall id, upload_job db id -> ~ deletes op id -> kept id db db') /\ (ok = false -> db' = db).
Proof.
  intros Hinv. assert (Hcase : (exists sop, op = UStore sop) \/ forall sop, op <> UStore sop)
    by (destruct op; [left; by eexists|right; done..]).
  destruct Hcase as [[sop ->]|Hne].
  2:{ assert (Hst := upload_op_step op db Hinv Hne). destruct (run_upload op db). destruct Hst as [[? Hk] ?].
      split_and!; auto. }
  destruct Hinv as [Hs Hu Hl]. assert (H1 := store_operations_inv db sop Hs). assert (H2 := store_op_safe sop db Hs Hu).
  assert (H3 := store_op_lineage sop db Hs Hu Hl). cbn [run_upload]. destruct (run_op sop db) as [db' ok].
  cbn [fst] in *. destruct H1 as [? ?], H2 as [? Hk]. split_and!; [done| |done].
  intros id Hid Hd. apply Hk; [done|]. intros ->. by apply Hd.
Qed.

Lemma run_uploads_safe ops db id :
  all_inv db -> upload_job db id -> (forall op, op ∈ ops -> ~ deletes op id) ->
  all_inv (run_uploads ops db) /\ kept id db (run_uploads ops db).
Proof.
  revert db. induction ops as [|op ops IH]; intros db Hinv Hid Hd; [split; [done|by apply kept_refl]|].
  assert (Hop := upload_op_safe op db Hinv). cbn [run_uploads]. destruct (run_upload op db) as [d ok]. cbn [fst].
  destruct Hop as (Hi & Hk & _). specialize (Hk id Hid (Hd op ltac:(set_solver))).
  destruct (IH d Hi) as [Hi' Hk']; [by eapply kp_job|set_solver|]. split; [done|by eapply kept_trans].
Qed.


(** What an upload proved is never taken back: over any sequence of
    operations that does not delete the job, its specification is unchanged,
    its confirmed bytes only grow while the total and the labels stand still,
    every receipt it staged is still there word for word and every ending it
    recorded still reads the same. *)
Theorem upload_evidence_is_permanent ops db id :
  all_inv db -> upload_job db id -> (forall op, op ∈ ops -> ~ deletes op id) ->
  let db' := run_uploads ops db in
  upload_job_spec db' id = upload_job_spec db id /\
  (forall a, t_activity db !! id = Some a -> exists a', t_activity db' !! id = Some a' /\ grows a a') /\
  (forall key r, upload_receipt db id key = Ok (Some r) -> upload_receipt db' id key = Ok (Some r)) /\
  (forall o, t_outbox db !! id = Some o -> exists o', t_outbox db' !! id = Some o' /\ same_ending o o').
Proof.
  intros Hinv Hid Hd. destruct (run_uploads_safe ops db id Hinv Hid Hd) as [_ [_ Hs Ha Hr Ho]]. cbv zeta.
  split_and!; [|done| |done].
  - unfold upload_job_spec. by rewrite Hs.
  - intros key r. unfold upload_receipt, read_upload_receipt_rows.
    destruct (receipts_of db id !! key) as [row|] eqn:E; [|done]. by rewrite (Hr _ _ E).
Qed.
End all_uploads.

(** ** An upload ends once *)

(** The operations that move an upload on. *)
Definition advances (op : UploadOp) (id : string) : Prop :=
  match op with
  | UStart j _ _ | UComplete j _ _ _ | UBeginFor j _ _ _ | UPartFor j _ _ _ _ _ _ | UStore (OTransition j _ _ _ _) => j = id
  | _ => False
  end.

Lemma ended_row db id o :
  store_inv db -> t_outbox db !! id = Some o ->
  exists r, t_jobs db !! id = Some r /\ terminal_text (jr_state r) = true.
Proof.
  intros Hs Ho. destruct (si_outbox db Hs id o Ho) as (r & Hr & (Hok & Hst & _)). exists r. split; [done|].
  rewrite Hst. unfold outbox_row_ok in Hok. rewrite !andb_true_iff in Hok. destruct_and!.
  by match goal with H : terminal_text _ = true |- _ => rewrite H end.
Qed.

Lemma ended_not_terminal db id o job u :
  store_inv db -> t_outbox db !! id = Some o -> require_upload_job db id = Ok job -> not_terminal job = Ok u -> False.
Proof.
  intros Hs Ho (r & Hr & _ & _ & Hst & _)%require_upload_job_ok Hn%not_terminal_ok.
  destruct (ended_row db id o Hs Ho) as (x & Hx & Ht). assert (x = r) as -> by congruence.
  rewrite Hst, terminal_text_tag in Ht. congruence.
Qed.

Lemma begin_for_ok id v upload now db db' out :
  begin_upload_for_job id v upload now db = (db', Ok out) ->
  exists job, require_upload_job db id = Ok job /\ exists u, not_terminal job = Ok u.
Proof.
  unfold begin_upload_for_job. intros (u & _ & H)%lift_err_bind_ok. rewrite transaction_ok, get_bind in H.
  apply lift_bind_ok in H as (job & Hj & H). apply lift_bind_ok in H as (? & _ & H). apply lift_bind_ok in H as (? & Hn & _).
  eauto.
Qed.

Lemma part_for_ok id v k i part progress now db db' out :
  record_upload_part_for_job id v k i part progress now db = (db', Ok out) ->
  exists job, require_upload_job db id = Ok job /\ exists u, not_terminal job = Ok u.
Proof.
  unfold record_upload_part_for_job. intros (u & _ & H)%lift_err_bind_ok. rewrite transaction_ok, get_bind in H.
  apply lift_bind_ok in H as (job & Hj & H). apply lift_bind_ok in H as (? & _ & H). apply lift_bind_ok in H as (? & Hn & _).
  eauto.
Qed.

Section ends_once.
Context `{Sha256} `{QueryPlan}.

Lemma ended_stays op db id o :
  all_inv db -> t_outbox db !! id = Some o -> advances op id -> run_upload op db = (db, false).
Proof.
  intros Hinv Ho Ha. assert (Hop := upload_op_safe op db Hinv). assert (Hs := ai_store _ Hinv).
  destruct (run_upload op db) as [d [|]] eqn:Erun; [exfalso|by destruct Hop as (_ & _ & ->)].
  destruct (ended_row db id o Hs Ho) as (r & Hr & Ht).
  assert (Hok : forall (E A : Type) (c : sm Db E A), outcome_flag (c db) = (d, true) -> exists a, c db = (d, Ok a)).
  { intros E A c. unfold outcome_flag. destruct (c db) as [x [a|e]]; [|done]. intros [= ->]. by exists a. }
  assert (Htr : forall v to err now w, transition_job id v to err now db <> (d, Ok w)).
  { intros v to err now w (_ & _ & _ & _ & x & Hx & _ & Hnt & _)%transition_job_ok. congruence. }
  destruct op; try done; simpl in Ha; subst; cbn [run_upload] in Erun.
  - destruct op; try done. subst. cbn [run_op] in Erun. apply Hok in Erun as [w Erun]. by apply Htr in Erun.
  - apply Hok in Erun as [w [_ Erun]%start_upload_job_ok]. by apply Htr in Erun.
  - apply Hok in Erun as [w (x & a & c & Hx & _ & _ & Hnt & _)%complete_upload_job_ok]. congruence.
  - apply Hok in Erun as [w (job & Hj & u & Hn)%begin_for_ok]. by eapply ended_not_terminal.
  - apply Hok in Erun as [w (job & Hj & u & Hn)%part_for_ok]. by eapply ended_not_terminal.
Qed.

(** An upload ends once: when it ended, no sequence of operations moves it
    again. The ending it recorded reads the same afterwards (only its
    acknowledgement may be stamped), and starting, completing, cancelling,
    opening a multipart handle for it or recording a part for it fails without
    changing anything. *)
Theorem upload_ends_once db id v o now db1 out ops :
  all_inv db -> complete_upload_job id v o now db = (db1, Ok out) ->
  (forall op, op ∈ ops -> ~ deletes op id) ->
  let db' := run_uploads ops db1 in
  (exists row, t_outbox db' !! id = Some row /\ or_operation_kind row = "upload" /\ or_outcome row = outcome_as_db_str o /\
     or_state_version row = Z.of_N (v + 1) /\ or_recorded_at row = now) /\
  forall op, advances op id -> run_upload op db' = (db', false).
Proof.
  intros Hinv Hc Hd. assert (Hst := complete_upload_step _ _ _ _ _ _ _ Hinv Hc).
  apply complete_upload_job_ok in Hc as (r & a & c & Hr & Hk & _ & _ & _ & _ & _ & _ & _ & _ & _ & _ & _ & Edb).
  assert (Hj : upload_job db id) by (by exists r). destruct Hst as [Hi1 Hkeep].
  destruct (run_uploads_safe ops db1 id Hi1 (kp_job _ _ _ (Hkeep id Hj)) Hd) as [Hi' Hk'].
  assert (Ho : t_outbox db1 !! id = Some (outbox_row_of r o (v + 1) now (t_outbox_seq db + 1)))
    by (rewrite Edb; cbn; by rewrite lookup_insert_eq).
  destruct (kp_ending _ _ _ Hk' _ Ho) as (row & Hrow & Hsame). split.
  - exists row. split; [done|]. rewrite Hsame. by unfold outbox_row_of.
  - intros op Hop. by eapply ended_stays.
Qed.
End ends_once.

(** ** A part counts once *)

Lemma find_map_same {A} (p : A -> bool) (f : A -> A) l :
  (forall x, p (f x) = p x) -> find p (map (fun x => if p x then f x else x) l) = f <$> find p l.
Proof.
  intros Hp. induction l as [|x l IH]; [done|]. simpl. destruct (p x) eqn:E; [by rewrite Hp, E|by rewrite E].
Qed.

Lemma find_snoc {A} (p : A -> bool) l x : find p l = None -> p x = true -> find p (l ++ [x])%list = Some x.
Proof. intros Hl Hx. induction l as [|y l IH]; simpl in *; [by rewrite Hx|]. destruct (p y); [done|by apply IH]. Qed.

Lemma part_recorded_false db k i part :
  part_recorded db k i part = Ok false -> find (part_key k i (Z.of_N (pa_part_number part))) (t_parts db) = None.
Proof.
  unfold part_recorded. destruct (find _ _) as [row|]; [|done]. intros (size & _ & H)%rbind_ok. by destruct (_ && _).
Qed.

(** The same part again, and another one under its number. *)
Lemma part_row_decides db k i part other row :
  find (part_key k i (Z.of_N (pa_part_number part))) (t_parts db) = Some row -> pt_etag row = pa_etag part ->
  pt_size_bytes row = Z.of_N (pa_size_bytes part) -> pa_part_number other = pa_part_number part ->
  part_recorded db k i other =
    if String.eqb (pa_etag part) (pa_etag other) && (pa_size_bytes part =? pa_size_bytes other)%N then Ok true
    else Err (UsPartConflict k i (pa_part_number part) (pa_etag part) (pa_size_bytes part) (pa_etag other) (pa_size_bytes other)).
Proof.
  intros Hf He Hs Hn. unfold part_recorded. rewrite Hn, Hf, Hs.
  assert (Hu : u64_of_i64 (Z.of_N (pa_size_bytes part)) = Some (pa_size_bytes part))
    by (unfold u64_of_i64; rewrite N2Z.id, (proj2 (Z.ltb_ge _ _)); [done|lia]).
  rewrite Hu. cbn. by rewrite He.
Qed.

Lemma part_row_found db k i part row :
  find (part_key k i (Z.of_N (pa_part_number part))) (t_parts db) = Some row -> part_recorded db k i part = Ok true ->
  pt_etag row = pa_etag part /\ pt_size_bytes row = Z.of_N (pa_size_bytes part).
Proof.
  intros Hf. unfold part_recorded. rewrite Hf. intros (size & Hs%ok_or_ok%u64_of_i64_Some & H)%rbind_ok.
  destruct (String.eqb_spec (pt_etag row) (pa_etag part)) as [He|]; [|done].
  destruct (N.eqb_spec size (pa_size_bytes part)) as [->|]; [|done]. split; [done|]. lia.
Qed.

(** What recording the next part under the same number depends on. *)
Lemma record_part_again id v k i part progress now db db1 :
  record_upload_part_for_job id v k i part progress now db = (db1, Ok tt) ->
  (exists row, find (part_key k i (Z.of_N (pa_part_number part))) (t_parts db1) = Some row /\
     pt_etag row = pa_etag part /\ pt_size_bytes row = Z.of_N (pa_size_bytes part)) /\
  forall other m later, validate_part other = Ok tt ->
    record_upload_part_for_job id v k i other m later db1 =
      transaction (
        let! recorded := slift (rmap_err UjPart (part_recorded db1 k i other)) in
        if recorded : bool then sret tt else
        do! serr UjPart (write_part k i other later) then!
        match m with Some n => serr UjPersistence (add_progress id n later) | None => sret tt end) db1.
Proof.
  intros Hrun. destruct (record_part_ok _ _ _ _ _ _ _ _ _ Hrun) as [_ Hcase].
  assert (Hsame : t_jobs db1 = t_jobs db /\ upload_owner db1 k i = upload_owner db k i /\
    exists row, find (part_key k i (Z.of_N (pa_part_number part))) (t_parts db1) = Some row /\
     pt_etag row = pa_etag part /\ pt_size_bytes row = Z.of_N (pa_size_bytes part)).
  { destruct Hcase as [[Hp ->]|(Hp & d & Hw & Hpr)].
    - split_and!; [done..|]. destruct (find (part_key k i (Z.of_N (pa_part_number part))) (t_parts db)) as [row|] eqn:Hf;
        [|by unfold part_recorded in Hp; rewrite Hf in Hp].
      exists row. split; [done|by eapply part_row_found].
    - apply write_part_ok in Hw as (H1 & _ & H2 & H3 & _). apply part_recorded_false in Hp.
      assert (Hd : t_jobs db1 = t_jobs d /\ t_uploads db1 = t_uploads d /\ t_parts db1 = t_parts d).
      { destruct progress; [|by subst]. by apply add_progress_ok in Hpr as (? & _ & _ & _ & ->). }
      destruct Hd as (D1 & D2 & D3). split_and!; [congruence| |].
      + unfold upload_owner. rewrite D2, H3, find_map_same by done. by destruct (find _ (t_uploads db)).
      + rewrite D3, H1. eexists. split; [apply find_snoc; [done|]|by split].
        unfold part_key. cbn. by rewrite !String.eqb_refl, Z.eqb_refl. }
  destruct Hsame as (Hj & Ho & Hrow). split; [done|]. intros other m later Hv.
  unfold record_upload_part_for_job in *. rewrite Hv. apply lift_err_bind_ok in Hrun as (u & _ & Hrun).
  rewrite transaction_ok, get_bind in Hrun. unfold transaction. cbn [rmap_err slift sbind].
  assert (Hreq : require_upload_job db1 id = require_upload_job db id)
    by (unfold require_upload_job, read_job; by rewrite Hj).
  apply lift_bind_ok in Hrun as (job & Hr & Hrun). apply lift_bind_ok in Hrun as (u1 & H1 & Hrun).
  apply lift_bind_ok in Hrun as (u2 & H2 & Hrun). apply lift_bind_ok in Hrun as (o & H3 & Hrun).
  destruct (negb (bool_decide (o = Some id))) eqn:E; [by apply sfail_ok in Hrun|].
  unfold sbind, slift, sget. cbn beta iota. rewrite Hreq, Hr, H1, H2, Ho, H3, E. done.
Qed.

(** A part the object store acknowledged counts once: recording it with
    progress either adds exactly that progress to the job's confirmed bytes or,
    when it was recorded before, nothing; afterwards recording the same evidence
    again, at any time and with any progress, succeeds and changes nothing, and
    different evidence under the same part number is a conflict that changes
    nothing. *)
Theorem acknowledged_part_counts_once id v k i part n now db db1 a :
  record_upload_part_for_job id v k i part (Some n) now db = (db1, Ok tt) -> t_activity db !! id = Some a ->
  (part_recorded db k i part = Ok true /\ db1 = db \/
   part_recorded db k i part = Ok false /\ t_activity db1 !! id = Some (progressed a n now)) /\
  (forall m later, record_upload_part_for_job id v k i part m later db1 = (db1, Ok tt)) /\
  forall other m later, pa_part_number other = pa_part_number part -> other <> part -> validate_part other = Ok tt ->
    record_upload_part_for_job id v k i other m later db1 =
      (db1, Err (UjPart (UsPartConflict k i (pa_part_number part) (pa_etag part) (pa_size_bytes part)
                           (pa_etag other) (pa_size_bytes other)))).
Proof.
  intros Hrun Ha. destruct (record_part_again _ _ _ _ _ _ _ _ _ Hrun) as [(row & Hf & He & Hs) Hagain]. split_and!.
  - destruct (record_part_ok _ _ _ _ _ _ _ _ _ Hrun) as [_ [H|(Hp & d & Hw & Hpr)]]; [by left|right]. split; [done|].
    apply write_part_ok in Hw as (_ & Hact & _). apply add_progress_ok in Hpr as (x & Hx & _ & _ & ->).
    assert (x = a) as -> by congruence. cbn. by rewrite lookup_insert_eq.
  - intros m later. assert (Hv : validate_part part = Ok tt).
    { unfold record_upload_part_for_job in Hrun. by apply lift_err_bind_ok in Hrun as ([] & ? & _). }
    rewrite Hagain by done. unfold transaction. rewrite (part_row_decides _ _ _ _ _ _ Hf He Hs eq_refl).
    by rewrite String.eqb_refl, N.eqb_refl.
  - intros other m later Hn Hne Hv. rewrite Hagain by done. unfold transaction.
    rewrite (part_row_decides _ _ _ _ _ _ Hf He Hs Hn).
    destruct (String.eqb_spec (pa_etag part) (pa_etag other)) as [E1|]; [|done].
    destruct (N.eqb_spec (pa_size_bytes part) (pa_size_bytes other)) as [E2|]; [|done].
    destruct Hne. destruct part, other; cbn in *; congruence.
Qed.

(** *** Witnesses *)

Lemma all_inv_empty : all_inv empty_db.
Proof. split; [apply store_inv_empty|apply empty_upload_inv|]. intros c l. cbn. by rewrite lookup_empty. Qed.

Module DemoUpload.
#[local] Existing Instance DemoSha.sha.

#[local] Instance plan : QueryPlan.
Proof.
  refine {| first_row := fun A (l : list A) => hd_error l |}.
  - intros A [|y l] x; [done|]. intros [= ->]. by left.
  - by intros A [|y l].
Defined.

Definition spec (revision : string) : UploadJobSpec := mkUploadJobSpec "dev/session" revision "input" None.
Definition seed : UploadActivitySeed := mkSeed "A session" "bucket" 300.
Definition handle : NewUpload :=
  mkNewUpload "tk" "dev/session" "rev-1" "objects/data.bin" "mp-1" "https://store" "bucket" UsPath.
Definition part : UploadPartRecord := mkPart 1 "etag-1" 100.
Definition sha_text : string := "ABCDEF0123456789abcdef0123456789abcdef0123456789abcdef0123456789".
Definition receipt : UploadReceiptSeed := mkReceiptSeed "objects/data.bin" UrData "etag-9" None 300 sha_text UpServerChecksum.

(** An upload up to its last part. *)
Definition opening : list UploadOp :=
  [UCreate "up-1" (spec "rev-1") seed "t0" None; UStart "up-1" 1 "t1"; UBeginFor "up-1" 2 handle "t2"].
Definition opened : Db := run_uploads opening empty_db.
Definition recorded : Db := (record_upload_part_for_job "up-1" 2 "objects/data.bin" "mp-1" part (Some 100%N) "t3" opened).1.
Definition staged : Db := run_uploads [UStage "up-1" "dev/session" "rev-1" [receipt] "t4"] recorded.
Definition ended : Db := (complete_upload_job "up-1" 2 ToSucceeded "t5" staged).1.

Lemma opened_inv : all_inv opened.
Proof.
  unfold opened, opening. cbn [run_uploads].
  assert (H1 := upload_op_safe (UCreate "up-1" (spec "rev-1") seed "t0" None) empty_db all_inv_empty).
  destruct (run_upload _ empty_db) as [d1 b1]. destruct H1 as [H1 _]. cbn [fst].
  assert (H2 := upload_op_safe (UStart "up-1" 1 "t1") d1 H1). destruct (run_upload _ d1) as [d2 b2]. destruct H2 as [H2 _].
  cbn [fst]. assert (H3 := upload_op_safe (UBeginFor "up-1" 2 handle "t2") d2 H2). destruct (run_upload _ d2) as [d3 b3].
  by destruct H3.
Qed.

Example opened_activity : option_map ac_confirmed_bytes (t_activity opened !! "up-1") = Some 0%Z.
Proof. vm_compute. reflexivity. Qed.

Example recorded_ok :
  is_ok (record_upload_part_for_job "up-1" 2 "objects/data.bin" "mp-1" part (Some 100%N) "t3" opened).2 = true /\
  option_map ac_confirmed_bytes (t_activity recorded !! "up-1") = Some 100%Z.
Proof. vm_compute. by split. Qed.

(** The digest is kept in lower case. *)
Example staged_receipt :
  rmap_err (fun _ => tt) (upload_receipt staged "up-1" "objects/data.bin") =
  Ok (Some (mkStoredReceipt "up-1" "dev/session" "rev-1"
       (mkReceiptSeed "objects/data.bin" UrData "etag-9" None 300
          "abcdef0123456789abcdef0123456789abcdef0123456789abcdef0123456789" UpServerChecksum) "t4")).
Proof. vm_compute. reflexivity. Qed.

Example ended_ok : option_map or_outcome (t_outbox ended !! "up-1") = Some "succeeded".
Proof. vm_compute. reflexivity. Qed.

(** Past the total: the part and its progress are refused together. *)
Example too_much :
  (record_upload_part_for_job "up-1" 2 "objects/data.bin" "mp-1" part (Some 301%N) "t3" opened).2 =
  Err (UjPersistence (PConflict (ProgressExceedsTotal "up-1" 301 300))).
Proof. vm_compute. reflexivity. Qed.

(** [create_upload_job] refuses a second job while one is live for the entry,
    but a retry of an older revision's job is not asked. *)
Definition failed_then_new : list UploadOp :=
  [UCreate "up-1" (spec "rev-1") seed "t0" None; UComplete "up-1" 1 (ToFailed "network" true) "t1"; UStore (OAck "up-1" "t1");
   UCreate "up-2" (spec "rev-2") seed "t2" None].

Definition live_for_entry (db : Db) : list string :=
  map fst (live_uploads db (fun s => is_publication s && String.eqb (us_entry_key s) "dev/session")).

Example a_third_revision_is_refused :
  (run_upload (UCreate "up-3" (spec "rev-3") seed "t3" None) (run_uploads failed_then_new empty_db)).2 = false.
Proof. vm_compute. reflexivity. Qed.

Example retry_makes_a_second_live_job :
  length (live_for_entry (run_uploads failed_then_new empty_db)) = 1 /\
  length (live_for_entry (run_uploads (failed_then_new ++ [UStore (ORetry "up-1" "up-1b" "t3" true)]) empty_db)) = 2.
Proof. vm_compute. by split. Qed.

End DemoUpload.

#[local] Existing Instance DemoSha.sha.
#[local] Existing Instance DemoUpload.plan.


Lemma opened_is_upload : upload_job DemoUpload.opened "up-1".
Proof.
  destruct (t_jobs DemoUpload.opened !! "up-1") as [r|] eqn:E; [|vm_compute in E; discriminate]. exists r. split; [done|].
  assert (H : option_map jr_operation_kind (t_jobs DemoUpload.opened !! "up-1") = Some "upload") by (vm_compute; reflexivity).
  rewrite E in H. by injection H.
Qed.

Lemma upload_evidence_is_permanent_witness :
  upload_job_spec (run_uploads [UClaim "t9"] DemoUpload.opened) "up-1" = upload_job_spec DemoUpload.opened "up-1".
Proof.
  apply (upload_evidence_is_permanent [UClaim "t9"] DemoUpload.opened "up-1" DemoUpload.opened_inv opened_is_upload).
  intros op Hop%list_elem_of_singleton. by subst op.
Defined.

Lemma upload_ends_once_witness :
  let db1 := (complete_upload_job "up-1" 2 ToCancelled "t5" DemoUpload.opened).1 in
  run_upload (UComplete "up-1" 3 ToSucceeded "t6") (run_uploads [UClaim "t9"] db1) = (run_uploads [UClaim "t9"] db1, false).
Proof.
  cbv zeta.
  assert (Hc : is_ok (complete_upload_job "up-1" 2 ToCancelled "t5" DemoUpload.opened).2 = true) by (vm_compute; reflexivity).
  destruct (complete_upload_job "up-1" 2 ToCancelled "t5" DemoUpload.opened) as [db1 [out|e]] eqn:E; [|done].
  apply (upload_ends_once DemoUpload.opened "up-1" 2 ToCancelled "t5" db1 out [UClaim "t9"] DemoUpload.opened_inv E); [|reflexivity].
  intros x Hx%list_elem_of_singleton. by subst x.
Defined.

Lemma acknowledged_part_counts_once_witness :
  record_upload_part_for_job "up-1" 2 "objects/data.bin" "mp-1" DemoUpload.part (Some 7%N) "t8" DemoUpload.recorded =
  (DemoUpload.recorded, Ok tt).
Proof.
  assert (Hc : is_ok (record_upload_part_for_job "up-1" 2 "objects/data.bin" "mp-1" DemoUpload.part (Some 100%N) "t3"
                        DemoUpload.opened).2 = true) by (vm_compute; reflexivity).
  unfold DemoUpload.recorded.
  destruct (record_upload_part_for_job _ _ _ _ _ _ "t3" DemoUpload.opened) as [db1 [[]|e]] eqn:E; [|done].
  destruct (t_activity DemoUpload.opened !! "up-1") as [a|] eqn:Ea; [|vm_compute in Ea; discriminate].
  apply (acknowledged_part_counts_once _ _ _ _ _ _ _ _ _ a E Ea).
Defined.
