(* ===== verification/DerivedUploadStore.v ===== *)
(** * DerivedUploadStore: uploads of derived bundles in the transfer store

The operations of persistence/derived_upload_store.rs: creating the one live
attempt of a frozen bundle at a destination, retrying a failed attempt with a
fresh checkpoint, replacing the checkpoint under its version, and the reads.
The tables and their constraints are those of TransferStore.v and
UploadStore.v. A frozen bundle and a checkpoint are opaque JSON text here, as
they are to the store; the two JSON readers that judge the text (serde_json in
the program, json_valid in SQLite) are the class [JsonText]. *)

From Stdlib Require Import NArith ZArith Lia Ascii String.
From Stdlib Require Import Strings.Byte.
From stdpp Require Import base numbers list strings gmap sorting.
From S2P Require Import Prelude Domain Device Schema Aggregate TransferStore UploadStore.

Local Open Scope string_scope.

(** Which texts the JSON readers accept. *)
Class JsonText := {
  serde_accepts : string -> bool;
  json_valid : string -> bool;
}.

Definition UPLOAD_SUBJECT_LIBRARY_PUBLICATION : string := "library_publication".
Definition UPLOAD_SUBJECT_DERIVED_BUNDLE : string := "derived_bundle".
Definition MAX_DERIVED_UPLOAD_JSON_BYTES : N := 8388608.

(** [DerivedUploadJobSpec] (persistence/derived_upload_store.rs:41-51). *)
Record DerivedUploadJobSpec := mkDerivedSpec {
  ds_media_library_entry_key : string;
  ds_upload_bundle_revision : string;
  ds_storage_profile_identity : string;
  ds_frozen_bundle_json : string;
  ds_checkpoint_json : string;
}.

(** [StoredDerivedUploadJob] (persistence/derived_upload_store.rs:54-64). *)
Record StoredDerivedUploadJob := mkStoredDerived {
  sv_job : StoredJob;
  sv_media_library_entry_key : string;
  sv_upload_bundle_revision : string;
  sv_storage_profile_identity : string;
  sv_frozen_bundle_json : string;
  sv_checkpoint_json : string;
  sv_checkpoint_version : N;
  sv_created_at : string;
  sv_updated_at : string;
}.

(** [DerivedUploadCreateOutcome] (persistence/derived_upload_store.rs:67-72). *)
Inductive DerivedUploadCreateOutcome :=
| DcCreated (job : StoredDerivedUploadJob)
| DcExisting (job : StoredDerivedUploadJob).

(** [DerivedUploadRetryOutcome] (persistence/derived_upload_store.rs:75-78). *)
Inductive DerivedUploadRetryOutcome :=
| DrCreated (job : StoredDerivedUploadJob)
| DrExisting (job : StoredDerivedUploadJob).

(** [CheckpointSwapOutcome] (persistence/derived_upload_store.rs:95-105). *)
Inductive CheckpointSwapOutcome :=
| CsApplied (checkpoint_version : N)
| CsStale (actual_version : N).

(** [DerivedUploadStoreError] (persistence/derived_upload_store.rs:108-126). *)
Inductive DerivedUploadStoreError :=
| DeInvalid (detail : string)
| DeConflict (existing_job_id detail : string)
| DeUnknownJob (job_id : string)
| DeCreate (e : UploadJobCreateError)
| DePersistence (e : PersistenceError).

(** [DerivedUploadRetryError] (persistence/derived_upload_store.rs:129-161). *)
Inductive DerivedUploadRetryError :=
| DyUnknownJob (job_id : string)
| DyNotDerivedUpload (job_id : string)
| DyNotRetryable (job_id : string)
| DyDismissedParent (job_id : string)
| DyUnacknowledgedParent (job_id : string)
| DySuccessfulDescendant (parent_job_id child_job_id : string)
| DyJobIdCollision (job_id : string)
| DyInvalid (detail : string)
| DyPersistence (e : PersistenceError).

(** [DerivedUploadRetryOutcome::job] (persistence/derived_upload_store.rs:82-86). *)
Definition retry_outcome_job (o : DerivedUploadRetryOutcome) : StoredDerivedUploadJob :=
  match o with DrCreated job | DrExisting job => job end.

(** [DerivedUploadRetryOutcome::was_created] (persistence/derived_upload_store.rs:89-91). *)
Definition was_created (o : DerivedUploadRetryOutcome) : bool :=
  match o with DrCreated _ => true | DrExisting _ => false end.

(** [derived_upload_natural_key] (persistence/derived_upload_store.rs:787-795). *)
Definition derived_upload_natural_key (revision storage_profile_identity : string) : string :=
  "upload:derived:" ++ dec (str_len revision) ++ ":" ++ revision ++ ":"
    ++ dec (str_len storage_profile_identity) ++ ":" ++ storage_profile_identity.

Section derived.
Context `{Sha256} `{JsonText}.

(** [validate_json_payload] (persistence/derived_upload_store.rs:831-842). *)
Definition validate_json_payload (field value : string) : result DerivedUploadStoreError unit :=
  if (MAX_DERIVED_UPLOAD_JSON_BYTES <? str_len value)%N then Err (DeInvalid field)
  else if serde_accepts value then Ok tt else Err (DeInvalid field).

(** [validate_derived_spec] (persistence/derived_upload_store.rs:815-829). *)
Definition validate_derived_spec (spec : DerivedUploadJobSpec) : result DerivedUploadStoreError unit :=
  let? _ := rmap_err DeInvalid (none_blank
    [("media_library_entry_key", ds_media_library_entry_key spec);
     ("upload_bundle_revision", ds_upload_bundle_revision spec);
     ("storage_profile_identity", ds_storage_profile_identity spec)]) in
  let? _ := validate_json_payload "frozen_bundle_json" (ds_frozen_bundle_json spec) in
  validate_json_payload "checkpoint_json" (ds_checkpoint_json spec).

(** [bundle_input_digest, preimage] (persistence/derived_upload_store.rs:802-811). *)
Definition bundle_input (spec : DerivedUploadJobSpec) : list byte :=
  (bytes_of "ylx-transfer/derived-upload-input-v1" ++ [Byte.x00]
   ++ absorb (bytes_of (ds_upload_bundle_revision spec)) ++ absorb (bytes_of (ds_storage_profile_identity spec))
   ++ absorb (bytes_of (ds_frozen_bundle_json spec)))%list.

(** [bundle_input_digest] (persistence/derived_upload_store.rs:800-813). *)
Definition bundle_input_digest (spec : DerivedUploadJobSpec) : string :=
  "sha256:" ++ to_hex (sha256 (bundle_input spec)).

Definition derived_row_ok (r : DerivedRow) : bool :=
  upload_text (dj_media_library_entry_key r) && upload_text (dj_upload_bundle_revision r)
  && upload_text (dj_storage_profile_identity r) && json_valid (dj_frozen_bundle_json r)
  && json_valid (dj_checkpoint_json r) && (1 <=? dj_checkpoint_version r)%Z.

(** The foreign key of the sidecar: the job's specification names the same
    revision and destination. *)
Definition names_spec (db : Db) (job_id : string) (r : DerivedRow) : bool :=
  match t_upload_specs db !! job_id with
  | Some s => String.eqb (us_revision s) (dj_upload_bundle_revision r)
              && bool_decide (us_storage_profile_identity s = Some (dj_storage_profile_identity r))
  | None => false
  end.

(** [INSERT INTO transfer_derived_upload_jobs]. *)
Definition insert_derived (job_id : string) (row : DerivedRow) : sm Db PersistenceError unit :=
  owned_by job_id (fun db =>
    if bool_decide (is_Some (t_derived db !! job_id)) then (db, Err (PSqlite (SqUnique "job_id")))
    else if negb (derived_row_ok row) then (db, Err (PSqlite (SqCheck "transfer_derived_upload_jobs")))
    else if negb (names_spec db job_id row) then (db, Err (PSqlite SqForeignKey))
    else (with_derived (<[job_id := row]> (t_derived db)) db, Ok tt)).

(** [read_derived_upload_job] (persistence/derived_upload_store.rs:860-920). *)
Definition read_derived_upload_job (db : Db) (job_id : string) : result PersistenceError (option StoredDerivedUploadJob) :=
  match t_derived db !! job_id with
  | None => Ok None
  | Some r =>
      let? found := read_job db job_id in
      let? job := ok_or found (PCorrupt "transfer_derived_upload_jobs" job_id) in
      if negb (bool_decide (sj_operation_kind job = OpUpload))
      then Err (PCorrupt "transfer_derived_upload_jobs" job_id) else
      Ok (Some (mkStoredDerived job (dj_media_library_entry_key r) (dj_upload_bundle_revision r)
                  (dj_storage_profile_identity r) (dj_frozen_bundle_json r) (dj_checkpoint_json r)
                  (Z.to_N (Z.max (dj_checkpoint_version r) 0)) (dj_created_at r) (dj_updated_at r)))
  end.

(** The sidecar a query promises. *)
Definition read_sidecar (db : Db) (job_id : string) : result PersistenceError StoredDerivedUploadJob :=
  let? found := read_derived_upload_job db job_id in
  ok_or found (PCorrupt "transfer_derived_upload_jobs" job_id).

(** The specifications of one natural key. *)
Definition same_derived_key (revision storage : string) (s : UploadSpecRow) : bool :=
  String.eqb (us_subject_kind s) "derived_bundle" && String.eqb (us_revision s) revision
  && bool_decide (us_storage_profile_identity s = Some storage).

(** [create_derived_upload_job, active attempt] (persistence/derived_upload_store.rs:211-224): the
    live attempt created last. *)
Definition live_derived (db : Db) (revision storage : string) : option string :=
  fst <$> latest_row (live_uploads db (same_derived_key revision storage)).

(** [TransferStore::derived_upload_job] (persistence/derived_upload_store.rs:321-326). *)
Definition derived_upload_job (db : Db) (job_id : string) : result DerivedUploadStoreError (option StoredDerivedUploadJob) :=
  rmap_err DePersistence (read_derived_upload_job db job_id).

(** [create_derived_upload_job, sidecar] (persistence/derived_upload_store.rs:297-312). *)
Definition derived_row_of (spec : DerivedUploadJobSpec) (checkpoint_json now : string) : DerivedRow :=
  mkDerivedRow (ds_media_library_entry_key spec) (ds_upload_bundle_revision spec) (ds_storage_profile_identity spec)
    (ds_frozen_bundle_json spec) checkpoint_json 1 now now.

(** [TransferStore::create_derived_upload_job] (persistence/derived_upload_store.rs:183-319). *)
Definition create_derived_upload_job (job_id : string) (spec : DerivedUploadJobSpec) (activity : UploadActivitySeed)
    (now : string) : sm Db DerivedUploadStoreError DerivedUploadCreateOutcome :=
  let! _ := slift (validate_derived_spec spec) in
  if is_blank job_id then sfail (DeInvalid "job_id") else
  let! upload_spec := slift (rmap_err (fun _ => DeInvalid "upload spec")
    (UploadJobSpec_new (ds_media_library_entry_key spec) (ds_upload_bundle_revision spec) (bundle_input_digest spec))) in
  transaction (
    let! db := sget in
    match live_derived db (ds_upload_bundle_revision spec) (ds_storage_profile_identity spec) with
    | Some existing_id =>
        if String.eqb (from_option us_input_digest "" (t_upload_specs db !! existing_id)) (uj_input_digest upload_spec)
        then let! stored := slift (rmap_err DePersistence (read_sidecar db existing_id)) in sret (DcExisting stored)
        else sfail (DeConflict existing_id "a different frozen bundle is already uploading to this destination")
    | None =>
        let! identity := slift (rmap_err DeInvalid
          (upload_job_identity (ds_media_library_entry_key spec) (ds_upload_bundle_revision spec))) in
        if bool_decide (is_Some (t_jobs db !! job_id)) then sfail (DeInvalid "job id is already taken") else
        do! serr DePersistence (insert_job job_id
              (queued_row identity OpUpload
                 (derived_upload_natural_key (ds_upload_bundle_revision spec) (ds_storage_profile_identity spec))
                 (upload_input_digest (uj_input_digest upload_spec)) now)) then!
        do! serr DePersistence (insert_upload_spec job_id
              (mkUploadSpecRow (ds_media_library_entry_key spec) (ds_upload_bundle_revision spec)
                 (uj_input_digest upload_spec) None "derived_bundle" (Some (ds_storage_profile_identity spec)))) then!
        let! total := slift (rmap_err (fun _ => DeInvalid "total_bytes") (checked_i64 (as_total_bytes activity) "total_bytes")) in
        do! serr DePersistence (insert_activity job_id
              (mkActivityRow (as_label activity) (as_target_label activity) total 0 now now)) then!
        do! serr DePersistence (insert_derived job_id (derived_row_of spec (ds_checkpoint_json spec) now)) then!
        let! after := sget in
        let! found := slift (rmap_err DePersistence (read_derived_upload_job after job_id)) in
        let! stored := slift (ok_or found (DePersistence (PNotFound job_id))) in
        sret (DcCreated stored)
    end).

(** [TransferStore::is_derived_upload_job] (persistence/derived_upload_store.rs:331-383). *)
Definition is_derived_upload_job (db : Db) (job_id : string) : result DerivedUploadStoreError bool :=
  let corrupt := DePersistence (PCorrupt "transfer_upload_job_specs" job_id) in
  match t_upload_specs db !! job_id with
  | None => Ok false
  | Some s =>
      if String.eqb (us_subject_kind s) "library_publication" then
        if bool_decide (is_Some (us_storage_profile_identity s)) then Err corrupt else
        let? sidecar := rmap_err DePersistence (read_derived_upload_job db job_id) in
        if bool_decide (is_Some sidecar) then Err corrupt else Ok false
      else if String.eqb (us_subject_kind s) "derived_bundle" then
        let? stored := rmap_err DePersistence (read_sidecar db job_id) in
        if bool_decide (us_storage_profile_identity s = Some (sv_storage_profile_identity stored)) then Ok true
        else Err corrupt
      else Err corrupt
  end.

(** [TransferStore::active_derived_upload_job] (persistence/derived_upload_store.rs:387-410). *)
Definition active_derived_upload_job (db : Db) (revision storage : string)
    : result DerivedUploadStoreError (option StoredDerivedUploadJob) :=
  match live_derived db revision storage with
  | Some job_id => derived_upload_job db job_id
  | None => Ok None
  end.

(** [ORDER BY d.created_at ASC, d.job_id ASC]. *)
Definition by_sidecar_age (a b : string * DerivedRow) : Prop :=
  Is_true (match String.compare (dj_created_at a.2) (dj_created_at b.2) with
           | Lt => true | Gt => false | Eq => String.leb a.1 b.1
           end).
#[global] Instance by_sidecar_age_dec : RelDecision by_sidecar_age.
Proof. intros a b. unfold by_sidecar_age. apply _. Defined.

Definition row_is_live (db : Db) (job_id : string) : bool :=
  match t_jobs db !! job_id with Some r => negb (terminal_text (jr_state r)) | None => false end.

(** [TransferStore::list_active_derived_upload_jobs] (persistence/derived_upload_store.rs:414-435). *)
Definition list_active_derived_upload_jobs (db : Db) : result DerivedUploadStoreError (list StoredDerivedUploadJob) :=
  let ids := (merge_sort by_sidecar_age (List.filter (fun e => row_is_live db e.1) (map_to_list (t_derived db)))).*1 in
  rtraverse (fun job_id => let? found := derived_upload_job db job_id in ok_or found (DeUnknownJob job_id)) ids.

(** [retry_derived_upload_job, the parent] (persistence/derived_upload_store.rs:462-495): the
    parent, once every guard on its row passed. *)
Definition derived_parent_checked (db : Db) (parent_job_id : string) : result DerivedUploadRetryError StoredJob :=
  let? found := rmap_err DyPersistence (read_job db parent_job_id) in
  let? parent := ok_or found (DyUnknownJob parent_job_id) in
  if negb (bool_decide (sj_operation_kind parent = OpUpload)) then Err (DyNotDerivedUpload parent_job_id) else
  if bool_decide (is_Some (sj_dismissed_at parent)) then Err (DyDismissedParent parent_job_id) else
  if negb (bool_decide (sj_state parent = TFailed) && match sj_error parent with Some (_, r) => r | None => false end)
  then Err (DyNotRetryable parent_job_id) else
  if negb (match t_outbox db !! parent_job_id with Some o => bool_decide (is_Some (or_acknowledged_at o)) | None => false end)
  then Err (DyUnacknowledgedParent parent_job_id) else Ok parent.

(** [retry_derived_upload_job, typed context] (persistence/derived_upload_store.rs:497-542): the
    sidecar and the specification of the parent, agreeing. *)
Definition derived_parent_context (db : Db) (parent_job_id : string)
    : result DerivedUploadRetryError (StoredDerivedUploadJob * UploadSpecRow) :=
  let? found := rmap_err DyPersistence (read_derived_upload_job db parent_job_id) in
  let? sidecar := ok_or found (DyNotDerivedUpload parent_job_id) in
  let? spec := ok_or (t_upload_specs db !! parent_job_id)
                     (DyPersistence (PCorrupt "transfer_upload_job_specs" parent_job_id)) in
  if negb (String.eqb (us_subject_kind spec) "derived_bundle")
     || negb (bool_decide (us_storage_profile_identity spec = Some (sv_storage_profile_identity sidecar)))
     || negb (String.eqb (us_revision spec) (sv_upload_bundle_revision sidecar))
     || negb (String.eqb (us_entry_key spec) (sv_media_library_entry_key sidecar))
  then Err (DyPersistence (PCorrupt "transfer_upload_job_specs" parent_job_id))
  else Ok (sidecar, spec).

(** [retry_derived_upload_job, existing child] (persistence/derived_upload_store.rs:544-638): the
    attempt that answers the request, or the number of the next one. *)
Definition derived_existing_child (db : Db) (parent_job_id child_job_id revision storage : string)
    : result DerivedUploadRetryError (StoredDerivedUploadJob + Z) :=
  match latest_attempt (joined_children db parent_job_id (fun r => String.eqb (jr_state r) "succeeded")) with
  | Some (done, _) => Err (DySuccessfulDescendant parent_job_id done)
  | None =>
      let? taken := rmap_err DyPersistence (read_job db child_job_id) in
      match taken with
      | Some _ =>
          if bool_decide (ln_parent_job_id <$> t_lineage db !! child_job_id = Some parent_job_id)
          then let? stored := rmap_err DyPersistence (read_sidecar db child_job_id) in Ok (inl stored)
          else Err (DyJobIdCollision child_job_id)
      | None =>
          let previous := latest_attempt (joined_children db parent_job_id (fun _ => true)) in
          let? live := match previous with
            | Some (existing_id, _) =>
                let? job := rmap_err DyPersistence (read_job db existing_id) in
                match job with
                | Some existing =>
                    if tag_is_terminal (sj_state existing) then Ok None
                    else let? stored := rmap_err DyPersistence (read_sidecar db existing_id) in Ok (Some stored)
                | None => Ok None
                end
            | None => Ok None
            end in
          match live with
          | Some stored => Ok (inl stored)
          | None =>
              let? attempt := match previous with
                | Some (_, row) => if (ln_attempt row <? Z.of_N i64_max)%Z then Ok (ln_attempt row + 1)%Z
                                   else Err (DyPersistence (PConflict (RetryAttemptsExhausted parent_job_id)))
                | None => Ok 1%Z
                end in
              match live_derived db revision storage with
              | Some active => let? stored := rmap_err DyPersistence (read_sidecar db active) in Ok (inl stored)
              | None => Ok (inr attempt)
              end
          end
      end
  end.

(** [retry_derived_upload_job, the writes] (persistence/derived_upload_store.rs:640-718). *)
Definition write_derived_child (parent : StoredJob) (sidecar : StoredDerivedUploadJob) (spec : UploadSpecRow)
    (child_job_id checkpoint_json : string) (attempt : Z) (now : string) : sm Db DerivedUploadRetryError unit :=
  let! db := sget in
  let! activity := slift (ok_or (t_activity db !! sj_job_id parent)
                                (DyPersistence (PCorrupt "transfer_upload_activity" (sj_job_id parent)))) in
  let key := derived_upload_natural_key (us_revision spec) (sv_storage_profile_identity sidecar)
             ++ "#retry:" ++ child_job_id in
  do! serr DyPersistence (insert_job child_job_id
        (queued_row (sj_identity parent) OpUpload key (to_hex (sj_request_digest parent)) now)) then!
  do! serr DyPersistence (insert_upload_spec child_job_id
        (mkUploadSpecRow (us_entry_key spec) (us_revision spec) (us_input_digest spec) (us_object_prefix spec)
           "derived_bundle" (Some (sv_storage_profile_identity sidecar)))) then!
  do! serr DyPersistence (insert_activity child_job_id
        (mkActivityRow (ac_label activity) (ac_target_label activity) (ac_total_bytes activity) 0 now now)) then!
  do! serr DyPersistence (insert_derived child_job_id
        (mkDerivedRow (sv_media_library_entry_key sidecar) (sv_upload_bundle_revision sidecar)
           (sv_storage_profile_identity sidecar) (sv_frozen_bundle_json sidecar) checkpoint_json 1 now now)) then!
  serr DyPersistence (insert_lineage child_job_id (mkLineageRow (sj_job_id parent) attempt now)).

(** [TransferStore::retry_derived_upload_job] (persistence/derived_upload_store.rs:443-726). *)
Definition retry_derived_upload_job (parent_job_id child_job_id fresh_checkpoint_json now : string)
    : sm Db DerivedUploadRetryError DerivedUploadRetryOutcome :=
  if is_blank child_job_id then sfail (DyInvalid "child_job_id") else
  let! _ := slift (rmap_err (fun _ => DyInvalid "fresh_checkpoint_json")
                     (validate_json_payload "fresh_checkpoint_json" fresh_checkpoint_json)) in
  transaction (
    let! db := sget in
    let! parent := slift (derived_parent_checked db parent_job_id) in
    let! (sidecar, spec) := slift (derived_parent_context db parent_job_id) in
    let! child := slift (derived_existing_child db parent_job_id child_job_id (us_revision spec)
                           (sv_storage_profile_identity sidecar)) in
    match child with
    | inl stored => sret (DrExisting stored)
    | inr attempt =>
        do! write_derived_child parent sidecar spec child_job_id fresh_checkpoint_json attempt now then!
        let! after := sget in
        let! found := slift (rmap_err DyPersistence (read_derived_upload_job after child_job_id)) in
        let! stored := slift (ok_or found (DyPersistence (PNotFound child_job_id))) in
        sret (DrCreated stored)
    end).

(** [UPDATE transfer_derived_upload_jobs SET .. WHERE job_id = id]. *)
Definition update_derived (job_id : string) (set : DerivedRow -> DerivedRow) : sm Db PersistenceError bool :=
  fun db =>
    match t_derived db !! job_id with
    | None => (db, Ok false)
    | Some r =>
        if negb (derived_row_ok (set r)) then (db, Err (PSqlite (SqCheck "transfer_derived_upload_jobs")))
        else (with_derived (<[job_id := set r]> (t_derived db)) db, Ok true)
    end.

(** [compare_and_swap_derived_upload_checkpoint, the update] (persistence/derived_upload_store.rs:766-779). *)
Definition set_checkpoint (checkpoint_json : string) (version : Z) (now : string) (r : DerivedRow) : DerivedRow :=
  mkDerivedRow (dj_media_library_entry_key r) (dj_upload_bundle_revision r) (dj_storage_profile_identity r)
    (dj_frozen_bundle_json r) checkpoint_json version (dj_created_at r) now.

(** [TransferStore::compare_and_swap_derived_upload_checkpoint] (persistence/derived_upload_store.rs:732-783). *)
Definition compare_and_swap_derived_upload_checkpoint (job_id : string) (expected_version : N)
    (checkpoint_json now : string) : sm Db DerivedUploadStoreError CheckpointSwapOutcome :=
  let! _ := slift (validate_json_payload "checkpoint_json" checkpoint_json) in
  transaction (
    let! db := sget in
    let! row := slift (ok_or (t_derived db !! job_id) (DeUnknownJob job_id)) in
    let actual := Z.to_N (Z.max (dj_checkpoint_version row) 0) in
    if negb (actual =? expected_version)%N then sret (CsStale actual) else
    let! next := slift (ok_or (u64_checked_add actual 1) (DeInvalid "checkpoint version")) in
    let! version := slift (rmap_err (fun _ => DeInvalid "checkpoint version") (checked_i64 next "checkpoint_version")) in
    do! serr DePersistence (update_derived job_id (set_checkpoint checkpoint_json version now)) then!
    sret (CsApplied next)).

End derived.
