(* ===== verification/DerivedUploadProofs.v ===== *)
(** * DerivedUploadProofs: what the store guarantees about derived uploads

A destination has at most one live attempt of a bundle, whatever operations
the store runs; the frozen bundle of an attempt never changes; checkpoints are
replaced only by a writer that saw the current version. *)

From Stdlib Require Import NArith ZArith Lia Ascii String.
From Stdlib Require Import Strings.Byte.
From stdpp Require Import base numbers list strings gmap sorting.
From S2P Require Import Prelude Domain Device Schema Aggregate TransferStore StoreProofs UploadStore UploadStoreProofs UploadRuns DerivedUploadStore.

Local Open Scope string_scope.

(** ** The invariant *)

Definition derived_spec (s : UploadSpecRow) : Prop := us_subject_kind s = "derived_bundle".

(** The request a sidecar was made from. *)
Definition input_of (r : DerivedRow) : DerivedUploadJobSpec :=
  mkDerivedSpec (dj_media_library_entry_key r) (dj_upload_bundle_revision r) (dj_storage_profile_identity r)
    (dj_frozen_bundle_json r) (dj_checkpoint_json r).

(** The sidecar of a job agrees with its specification. *)
Record sidecar_ok `{Sha256} `{JsonText} (s : UploadSpecRow) (r : DerivedRow) : Prop := {
  so_row : derived_row_ok r = true;
  so_subject : derived_spec s;
  so_revision : us_revision s = dj_upload_bundle_revision r;
  so_storage : us_storage_profile_identity s = Some (dj_storage_profile_identity r);
  so_entry : us_entry_key s = dj_media_library_entry_key r;
  so_digest : us_input_digest s = bundle_input_digest (input_of r);
}.

Record derived_inv `{Sha256} `{JsonText} (db : Db) : Prop := {
  di_rows : forall id r, t_derived db !! id = Some r -> exists s, t_upload_specs db !! id = Some s /\ sidecar_ok s r;
  di_specs : forall id s, t_upload_specs db !! id = Some s -> derived_spec s -> is_Some (t_derived db !! id);
  di_one_live : forall i j s s', t_upload_specs db !! i = Some s -> t_upload_specs db !! j = Some s' ->
    derived_spec s -> derived_spec s' -> us_revision s = us_revision s' ->
    us_storage_profile_identity s = us_storage_profile_identity s' ->
    row_is_live db i = true -> row_is_live db j = true -> i = j;
}.

Lemma empty_derived_inv `{Sha256} `{JsonText} : derived_inv empty_db.
Proof. split; cbn; intros *; by rewrite lookup_empty. Qed.

(** A step without a new derived upload. *)
Record derived_kept (db db' : Db) : Prop := {
  dk_rows : forall id r, t_derived db' !! id = Some r ->
    t_derived db !! id = Some r /\ t_upload_specs db' !! id = t_upload_specs db !! id;
  dk_specs : forall id s, t_upload_specs db' !! id = Some s -> derived_spec s ->
    t_upload_specs db !! id = Some s /\ t_derived db' !! id = t_derived db !! id;
  dk_live : forall id s, t_upload_specs db' !! id = Some s -> derived_spec s ->
    row_is_live db' id = true -> row_is_live db id = true;
}.

Lemma derived_kept_inv `{Sha256} `{JsonText} db db' : derived_kept db db' -> derived_inv db -> derived_inv db'.
Proof.
  intros [K1 K2 K3] [D1 D2 D3]. split.
  - intros id r [Hr Hs]%K1. destruct (D1 id r Hr) as (s & Hs' & Ho). exists s. by rewrite Hs.
  - intros id s Hs Hd. destruct (K2 id s Hs Hd) as [H1 H2]. rewrite H2. by eapply D2.
  - intros i j s s' Hi Hj Hd Hd' Hr Hp Hli Hlj.
    apply (D3 i j s s'); try done; [by apply K2|by apply K2|by eapply K3|by eapply K3].
Qed.

(** An ended upload stays ended. *)
Lemma kept_live db db' id :
  store_inv db -> store_inv db' -> upload_job db id -> kept id db db' -> row_is_live db' id = true -> row_is_live db id = true.
Proof.
  intros Hs Hs' (r & Hr & _) Hk. unfold row_is_live. rewrite Hr. destruct (terminal_text (jr_state r)) eqn:Et; [|done].
  destruct (si_terminal db Hs id r Hr Et) as [o Ho]. destruct (kp_ending _ _ _ Hk o Ho) as (o' & Ho' & _).
  destruct (ended_row db' id o' Hs' Ho') as (r' & -> & ->). done.
Qed.

(** The two tables of derived uploads stand still. *)
Definition same_derived (db0 db : Db) : Prop := t_derived db = t_derived db0 /\ t_upload_specs db = t_upload_specs db0.

Lemma same_derived_refl db : same_derived db db.
Proof. done. Qed.
#[export] Hint Resolve same_derived_refl : sm.

Lemma quiet_same_derived db db' : quiet db db' -> same_derived db db'.
Proof. intros [[= Hs _ _ _ _ Hd] _]. done. Qed.

(** What an operation of the earlier files does to the two tables. *)
Inductive derived_effect (db db' : Db) : Prop :=
| ef_same : same_derived db db' -> derived_effect db db'
| ef_adds child : adds_upload child db db' -> publishes child db' -> derived_effect db db'
| ef_deletes id b : delete_job_row id db = (db', Ok b) -> derived_effect db db'.

Section store_effect.
Context `{Sha256}.

Lemma store_op_effect op db :
  store_inv db -> upload_inv db -> derived_effect db (run_op op db).1.
Proof.
  intros Hst Hinv.
  enough (Hind : let '(d, ok) := run_op op db in derived_effect db d /\ (ok = false -> d = db))
    by (destruct (run_op op db); apply Hind).
  apply run_op_ind; [by apply ef_same|intros *; intros Hop; intros Hrun..].
  - apply transition_job_ok in Hrun as (_ & _ & _ & _ & r & Hr & _ & _ & _ & ->). by apply ef_same.
  - apply set_desired_run_state_ok in Hrun as (r & Hr & _ & ->). by apply ef_same.
  - apply update_file_ledger_ok in Hrun as (f & dg & _ & _ & _ & [|] & _ & Hw); simpl in Hw;
      [subst|destruct Hw as [-> _]]; by apply ef_same.
  - apply ef_same. by eapply quiet_same_derived, create_job_quiet.
  - apply complete_job_ok in Hrun as (job & r & Hr & _ & [(c & _ & -> & _)|(c & _ & _ & Hno & _ & _ & _ & _ & _ & _ & _ & ->)]);
      [by apply ef_same|by apply ef_same|done].
  - apply acknowledge_completion_ok in Hrun as [->|(o & Ho & _ & ->)]; by apply ef_same.
  - apply retry_moves in Hrun as [->|[[Hq _]|[Ha Hp]]];
      [by apply ef_same|by apply ef_same, quiet_same_derived|by eapply ef_adds|done].
  - apply dismiss_job_ok in Hrun as [[_ ->]|(r & r' & Hr & _ & -> & _)]; by apply ef_same.
  - apply delete_job_ok in Hrun as [_ Hd]. by eapply ef_deletes.
  - apply retarget_job_ok in Hrun as (_ & r & Hr & Hn & Hd & _ & _ & ->). by apply ef_same.
Qed.
End store_effect.

(** The statements on the multipart and receipt tables. *)
Section frame.
Context (db0 : Db).

Lemma frame_insert_upload row : maintains (same_derived db0) (insert_upload row).
Proof.
  intros db db' [] Hp. unfold insert_upload. destruct (match up_job_id row with Some _ => _ | None => _ end); [done|].
  destruct (existsb _ _); [done|]. destruct (negb _); [done|]. by intros [= <-].
Qed.

Lemma frame_update_uploads cond set : maintains (same_derived db0) (update_uploads cond set).
Proof. intros db db' n Hp [= <- _]. done. Qed.

Lemma frame_insert_part row : maintains (same_derived db0) (insert_part row).
Proof. intros db db' [] Hp (_ & _ & _ & _ & ->)%insert_part_ok. done. Qed.

Lemma frame_update_activity id set : maintains (same_derived db0) (update_activity id set).
Proof.
  intros db db' b Hp. unfold update_activity. destruct (t_activity db !! id); [|by intros [= <- _]].
  destruct (activity_row_ok _); [|done]. by intros [= <- _].
Qed.

Lemma frame_insert_receipt id key row : maintains (same_derived db0) (insert_receipt id key row).
Proof. intros db db' [] Hp (_ & _ & ->)%insert_upload_receipt_ok. done. Qed.

Lemma frame_finish k i : maintains (same_derived db0) (finish_upload k i).
Proof. intros db db' b Hp [= <- _]. done. Qed.
End frame.

#[export] Hint Resolve frame_insert_upload frame_update_uploads frame_insert_part frame_update_activity
  frame_insert_receipt frame_finish : sm.

Lemma frame_write_part db0 k i part now : maintains (same_derived db0) (write_part k i part now).
Proof. unfold write_part. maintains_step. Qed.

Lemma frame_add_progress db0 id n now : maintains (same_derived db0) (add_progress id n now).
Proof. unfold add_progress. maintains_step. case_match; maintains_step. Qed.

Lemma frame_stage_receipt db0 id e r now s : maintains (same_derived db0) (stage_receipt id e r now s).
Proof. unfold stage_receipt. apply maintains_bind; [auto with sm|]. intros d. destruct (_ !! _); maintains_step. case_match; auto with sm. Qed.
#[export] Hint Resolve frame_write_part frame_add_progress frame_stage_receipt : sm.

Ltac frame := repeat first [ apply maintains_transaction | progress maintains_step | case_match ].

Section upload_effect.
Context `{Sha256} `{QueryPlan}.

Lemma upload_op_effect op db : all_inv db -> derived_effect db (run_upload op db).1.
Proof.
  intros Hinv. assert (Hs := ai_store _ Hinv). assert (Hu := ai_upload _ Hinv).
  assert (Hfl : forall (E A : Type) (c : sm Db E A), atomic c -> maintains (same_derived db) c ->
    derived_effect db (outcome_flag (c db)).1).
  { intros E A c Ha Hm. apply ef_same. unfold outcome_flag. destruct (c db) as [d [a|e]] eqn:Ec; cbn [fst].
    - by eapply Hm.
    - apply Ha in Ec as ->. done. }
  destruct op; cbn [run_upload].
  - by apply store_op_effect.
  - unfold outcome_flag. destruct (create_upload_job _ _ _ _ _ db) as [d [a|e]] eqn:Ec; cbn [fst].
    + apply create_upload_job_moves in Ec as [[-> _]|(Ha & _ & Hp & _)]; [by apply ef_same|by eapply ef_adds|done].
    + apply create_upload_atomic in Ec as ->. by apply ef_same.
  - apply Hfl; [apply start_atomic|]. intros d d' a Hp [_ Ht]%start_upload_job_ok.
    by apply transition_job_ok in Ht as (_ & _ & _ & _ & r & _ & _ & _ & _ & ->).
  - apply Hfl; [apply complete_upload_atomic|]. intros d d' a Hp Hc.
    by apply complete_upload_job_ok in Hc as (? & ? & ? & _ & _ & _ & _ & _ & _ & _ & _ & _ & _ & _ & _ & _ & ->).
  - unfold outcome_flag. destruct (repeat_upload_job_inner _ _ _ _ _ _ db) as [d [a|e]] eqn:Ec; cbn [fst].
    + apply repeat_upload_moves in Ec as [[-> _]|(? & ? & _ & Ha & _ & Hp & _)]; [by apply ef_same|by eapply ef_adds|done].
    + apply repeat_upload_atomic in Ec as ->. by apply ef_same.
  - apply Hfl; [apply begin_atomic|]. unfold begin_upload. frame.
  - apply Hfl; [apply begin_for_atomic|]. unfold begin_upload_for_job. frame.
  - apply Hfl; [apply part_atomic|]. unfold record_upload_part. frame.
  - apply Hfl; [apply part_for_atomic|]. unfold record_upload_part_for_job. frame.
  - apply Hfl; [apply set_desired_atomic|]. unfold set_upload_desired_state. frame.
  - apply Hfl; [apply finish_atomic|]. apply frame_finish.
  - apply Hfl; [apply claim_atomic|]. unfold claim_orphan_uploads. apply maintains_transaction. frame.
  - apply Hfl; [apply stage_atomic|]. unfold stage_upload_receipts. frame.
Qed.
End upload_effect.

Lemma spec_is_upload db id s : all_inv db -> t_upload_specs db !! id = Some s -> upload_job db id.
Proof. intros Hinv Hs. by apply (ui_specs _ (ai_upload _ Hinv)) in Hs as [? _]. Qed.

Lemma derived_has_spec `{Sha256} `{JsonText} db id : derived_inv db -> t_upload_specs db !! id = None -> t_derived db !! id = None.
Proof.
  intros Hd Hn. destruct (t_derived db !! id) as [r|] eqn:E; [|done].
  destruct (di_rows _ Hd id r E) as (s & Hs & _). congruence.
Qed.

(** What an operation did to the jobs that already were uploads. *)
Lemma same_derived_kept db db' :
  all_inv db -> all_inv db' -> same_derived db db' -> (forall id, upload_job db id -> kept id db db') -> derived_kept db db'.
Proof.
  intros Hinv Hinv' [Hd Hs] Hk. split; rewrite ?Hd, ?Hs; try done. intros id s Hid _ Hl.
  assert (Hu := spec_is_upload _ _ _ Hinv Hid). eapply kept_live; [apply Hinv|apply Hinv'|done|by apply Hk|done].
Qed.

Lemma adds_tables child db db' :
  adds_upload child db db' ->
  t_jobs db !! child = None /\ t_derived db' = t_derived db /\
  exists spec, t_upload_specs db' = <[child := spec]> (t_upload_specs db).
Proof.
  intros (row & spec & act & Hno & _ & _ & _ & _ & _ & [[= Hs _ _ _ _ Hd] _] & _ & _).
  split_and!; [done|done|]. by exists spec.
Qed.

Lemma fresh_no_spec db id : all_inv db -> t_jobs db !! id = None -> t_upload_specs db !! id = None.
Proof.
  intros Hinv Hn. destruct (t_upload_specs db !! id) as [s|] eqn:E; [|done].
  destruct (spec_is_upload _ _ _ Hinv E) as (r & Hr & _). congruence.
Qed.

Lemma adds_derived_kept `{Sha256} `{JsonText} child db db' :
  all_inv db -> all_inv db' -> derived_inv db -> adds_upload child db db' -> publishes child db' ->
  (forall id, upload_job db id -> kept id db db') -> derived_kept db db'.
Proof.
  intros Hinv Hinv' Hdi (Hno & Hd & spec & Hs)%adds_tables Hp Hk. assert (Hns := fresh_no_spec _ _ Hinv Hno).
  assert (Hne : forall id s, t_upload_specs db' !! id = Some s -> derived_spec s -> id <> child /\ t_upload_specs db !! id = Some s).
  { intros id s Hid Hds. destruct (decide (id = child)) as [->|Hne].
    - specialize (Hp s Hid). unfold derived_spec in Hds. congruence.
    - rewrite Hs, lookup_insert_ne in Hid by done. done. }
  split.
  - intros id r Hr. rewrite Hd in Hr. split; [done|]. rewrite Hs, lookup_insert_ne; [done|]. intros <-.
    rewrite (derived_has_spec db child Hdi Hns) in Hr. done.
  - intros id s Hid Hds. destruct (Hne id s Hid Hds) as [_ ?]. by rewrite Hd.
  - intros id s Hid Hds Hl. destruct (Hne id s Hid Hds) as [_ H1]. assert (Hu := spec_is_upload _ _ _ Hinv H1).
    eapply kept_live; [apply Hinv|apply Hinv'|done|by apply Hk|done].
Qed.

Lemma delete_derived_kept id db db' b : delete_job_row id db = (db', Ok b) -> derived_kept db db'.
Proof.
  unfold delete_job_row. destruct (t_jobs db !! id) as [row|]; [|intros [= <- _]; by split].
  destruct (negb (length _ =? 0)%nat); [done|]. intros [= <- _]. split; cbn [t_derived t_upload_specs].
  - intros j r [Hne Hr]%lookup_delete_Some. split; [done|]. by rewrite lookup_delete_ne.
  - intros j s [Hne Hs]%lookup_delete_Some _. split; [done|]. by rewrite lookup_delete_ne.
  - intros j s [Hne Hs]%lookup_delete_Some _. unfold row_is_live. cbn [t_jobs]. by rewrite lookup_delete_ne.
Qed.

(** ** The operations on derived uploads *)

(** The sidecar of an attempt only has its checkpoint replaced, under a larger version. *)
Definition checkpoint_moves (r r' : DerivedRow) : Prop :=
  dj_media_library_entry_key r' = dj_media_library_entry_key r /\
  dj_upload_bundle_revision r' = dj_upload_bundle_revision r /\
  dj_storage_profile_identity r' = dj_storage_profile_identity r /\
  dj_frozen_bundle_json r' = dj_frozen_bundle_json r /\ dj_created_at r' = dj_created_at r /\
  (r' = r \/ (dj_checkpoint_version r < dj_checkpoint_version r')%Z).

Lemma checkpoint_moves_refl r : checkpoint_moves r r.
Proof. unfold checkpoint_moves. auto 10. Qed.

Lemma checkpoint_moves_trans a b c : checkpoint_moves a b -> checkpoint_moves b c -> checkpoint_moves a c.
Proof.
  intros (A1 & A2 & A3 & A4 & A5 & A6) (B1 & B2 & B3 & B4 & B5 & B6). split_and!; [congruence..|].
  destruct A6 as [->|A6], B6 as [->|B6]; [by left|by right|by right|right; lia].
Qed.

(** A step of the derived uploads. *)
Record derived_step `{Sha256} `{JsonText} (db db' : Db) : Prop := {
  ds_inv : all_inv db' /\ derived_inv db';
  ds_kept : forall id, upload_job db id -> kept id db db';
  ds_sidecar : forall id r, t_derived db !! id = Some r -> exists r', t_derived db' !! id = Some r' /\ checkpoint_moves r r';
}.

Lemma derived_step_refl `{Sha256} `{JsonText} db : all_inv db -> derived_inv db -> derived_step db db.
Proof.
  intros Ha Hd. split; [done| |].
  - intros id Hid. by apply kept_refl.
  - intros id r Hr. exists r. split; [done|apply checkpoint_moves_refl].
Qed.

Section derived_steps.
Context `{Sha256} `{JsonText}.

Lemma insert_derived_ok id row db db' :
  insert_derived id row db = (db', Ok tt) ->
  t_derived db !! id = None /\ derived_row_ok row = true /\ names_spec db id row = true /\
  db' = with_derived (<[id := row]> (t_derived db)) db.
Proof.
  intros [_ H1]%owned_by_ok. destruct (bool_decide_reflect (is_Some (t_derived db !! id))) as [|Hn]; [done|].
  destruct (derived_row_ok row); [|done]. destruct (names_spec db id row); [|done]. cbn [negb] in H1.
  injection H1 as <-. split_and!; try done. by apply eq_None_not_Some.
Qed.

(** The natural key of an attempt is in the key space of the uploads. *)
Lemma derived_key_upload revision storage suffix :
  exists rest, derived_upload_natural_key revision storage ++ suffix = String "u" rest.
Proof. by eexists. Qed.

Lemma live_uploads_in db p id r :
  (id, r) ∈ live_uploads db p <->
  t_jobs db !! id = Some r /\ terminal_text (jr_state r) = false /\
  exists s, t_upload_specs db !! id = Some s /\ p s = true.
Proof.
  unfold live_uploads. rewrite list_elem_of_In, filter_In, <- list_elem_of_In, elem_of_map_to_list.
  cbn [fst snd]. rewrite andb_true_iff, negb_true_iff. split.
  - intros (H1 & H2 & H3). split_and!; [done|done|]. destruct (t_upload_specs db !! id) as [s|]; [|done]. by exists s.
  - intros (H1 & H2 & s & H3 & H4). by rewrite H3.
Qed.

Lemma latest_row_None l : latest_row l = None -> l = [].
Proof. destruct l as [|x l]; [done|]. simpl. by destruct (latest_row l) as [y|]; [destruct (row_after x y)|]. Qed.

Lemma same_derived_key_spec revision storage s :
  same_derived_key revision storage s = true <->
  derived_spec s /\ us_revision s = revision /\ us_storage_profile_identity s = Some storage.
Proof.
  unfold same_derived_key, derived_spec. rewrite !andb_true_iff, !String.eqb_eq, bool_decide_eq_true. tauto.
Qed.

Lemma live_derived_none db revision storage :
  live_derived db revision storage = None ->
  forall id s, t_upload_specs db !! id = Some s -> derived_spec s -> us_revision s = revision ->
    us_storage_profile_identity s = Some storage -> row_is_live db id = false.
Proof.
  unfold live_derived. destruct (latest_row _) as [x|] eqn:El; [done|]. intros _ id s Hs Hd Hr Hst.
  apply latest_row_None in El. unfold row_is_live. destruct (t_jobs db !! id) as [r|] eqn:Hj; [|done].
  destruct (terminal_text (jr_state r)) eqn:Et; [done|]. exfalso.
  assert (Hin : (id, r) ∈ live_uploads db (same_derived_key revision storage)).
  { apply live_uploads_in. split_and!; [done|done|]. exists s. split; [done|]. by apply same_derived_key_spec. }
  rewrite El in Hin. by apply not_elem_of_nil in Hin.
Qed.

(** Adding the sidecar and nothing else. *)
Lemma with_derived_all_inv m db : all_inv db -> all_inv (with_derived m db).
Proof.
  intros [Hs Hu Hl]. split; [by apply (store_inv_uploads db)| |done]. destruct Hu. by split.
Qed.

Lemma with_derived_kept m db id : upload_job db id -> kept id db (with_derived m db).
Proof. intros Hid. destruct (kept_refl id db Hid) as [? ? ? ? ?]. by split. Qed.

(** The rows of a new attempt. *)
Record new_attempt (id : string) (spec : UploadSpecRow) (row : DerivedRow) (db db' : Db) : Prop := {
  na_adds : exists d, adds_upload id db d /\ t_upload_specs d = <[id := spec]> (t_upload_specs db) /\
    quiet (with_derived (<[id := row]> (t_derived d)) d) db' /\ t_outbox db' = t_outbox d /\ t_jobs db' = t_jobs d;
  na_row : sidecar_ok spec row;
  na_free : live_derived db (us_revision spec) (dj_storage_profile_identity row) = None;
}.

Lemma new_attempt_step id spec row db db' :
  all_inv db -> derived_inv db -> store_inv db' -> lineage_ok db' -> new_attempt id spec row db db' -> derived_step db db'.
Proof.
  intros Hinv Hdi Hs' Hl' [(d & Hadd & Hspec & Hq & Ho & Hj) Hrow Hfree].
  destruct (adds_tables _ _ _ Hadd) as (Hno & Hder & _). assert (Hns := fresh_no_spec _ _ Hinv Hno).
  assert (Hnd := derived_has_spec _ _ Hdi Hns).
  assert (Hsp' : t_upload_specs db' = <[id := spec]> (t_upload_specs db)) by (destruct Hq as [[= -> _ _ _ _ _] _]; done).
  assert (Hde' : t_derived db' = <[id := row]> (t_derived db))
    by (destruct Hq as [[= _ _ _ _ _ ->] _]; by rewrite <- Hder).
  assert (Hlive : forall j, j <> id -> row_is_live db' j = row_is_live db j).
  { intros j Hne. unfold row_is_live. rewrite Hj. destruct Hadd as (? & ? & ? & _ & _ & _ & _ & _ & _ & _ & _ & Hk).
    by rewrite Hk. }
  assert (Huinv : upload_inv (with_derived (<[id := row]> (t_derived d)) d)).
  { destruct (adds_upload_inv _ _ _ Hadd (ai_upload _ Hinv)). by split. }
  destruct Hdi as [D1 D2 D3]. split; [split; [split|split]| |].
  - done.
  - by eapply quiet_inv.
  - done.
  - intros j r. rewrite Hde', Hsp'. intros [[<- <-]|[Hne Hr]]%lookup_insert_Some.
    + exists spec. by rewrite lookup_insert_eq.
    + rewrite lookup_insert_ne by done. by apply D1.
  - intros j s. rewrite Hde', Hsp'. intros [[<- <-]|[Hne Hs]]%lookup_insert_Some Hd.
    + by rewrite lookup_insert_eq.
    + rewrite lookup_insert_ne by done. by eapply D2.
  - assert (Hnew : forall j s, j <> id -> t_upload_specs db !! j = Some s -> derived_spec s ->
      us_revision spec = us_revision s -> us_storage_profile_identity spec = us_storage_profile_identity s ->
      row_is_live db' j = true -> False).
    { intros j s Hne Hs Hd Hr Hst Hl. rewrite Hlive in Hl by done.
      assert (row_is_live db j = false); [|congruence]. eapply live_derived_none; try done.
      rewrite <- Hst. apply Hrow. }
    intros i j s s'. rewrite Hsp'.
    intros [[<- <-]|[Hi Hs]]%lookup_insert_Some [[<- <-]|[Hj' Hs2]]%lookup_insert_Some Hd Hd' Hr Hst Hli Hlj; [done| | |].
    + exfalso. by eapply (Hnew j s').
    + exfalso. by eapply (Hnew i s).
    + rewrite Hlive in Hli, Hlj by done. by apply (D3 i j s s').
  - intros j Hju. eapply kept_trans; [by eapply adds_kept|].
    assert (Hjd : upload_job d j) by (apply (adds_upload_jobs _ _ _ j Hadd); by right).
    eapply kept_trans; [by apply (with_derived_kept (<[id := row]> (t_derived d)) d)|]. apply quiet_kept_outbox; [exact Hq|exact Hjd|by rewrite Ho].
  - intros j r Hr. exists r. split; [|apply checkpoint_moves_refl]. rewrite Hde', lookup_insert_ne; [done|congruence].
Qed.

(** The four inserts both operations make. *)
Lemma four_inserts id identity key digest now spec act row db d1 d2 d3 d4 :
  store_inv db ->
  insert_job id (queued_row identity OpUpload ("upload:" ++ key) digest now) db = (d1, Ok tt) ->
  insert_upload_spec id spec d1 = (d2, Ok tt) -> insert_activity id act d2 = (d3, Ok tt) ->
  ac_confirmed_bytes act = 0%Z -> insert_derived id row d3 = (d4, Ok tt) ->
  adds_upload id db d3 /\ creating db id d4 /\ t_upload_specs d3 = <[id := spec]> (t_upload_specs db) /\
  d4 = with_derived (<[id := row]> (t_derived d3)) d3 /\ derived_row_ok row = true /\
  us_revision spec = dj_upload_bundle_revision row /\
  us_storage_profile_identity spec = Some (dj_storage_profile_identity row).
Proof.
  intros Hs I1 I2 I3 Hz (_ & Hok & Hn & ->)%insert_derived_ok.
  destruct (three_inserts _ _ _ _ _ _ _ _ _ _ _ Hs I1 I2 I3 Hz) as (Ha & Hc & Hsp). split_and!; try done.
  1: by apply (creating_uploads _ _ d3).
  all: unfold names_spec in Hn; rewrite Hsp, lookup_insert_eq in Hn; apply andb_true_iff in Hn as [Hr Hst].
  - by apply String.eqb_eq.
  - by apply bool_decide_eq_true in Hst.
Qed.

Lemma create_derived_moves id spec activity now db db' out :
  all_inv db -> create_derived_upload_job id spec activity now db = (db', Ok out) ->
  (db' = db /\ exists job, out = DcExisting job) \/
  (exists job, out = DcCreated job) /\ store_inv db' /\ lineage_ok db' /\
  exists s, us_input_digest s = bundle_input_digest spec /\ new_attempt id s (derived_row_of spec (ds_checkpoint_json spec) now) db db'.
Proof.
  intros Hinv. assert (Hst := ai_store _ Hinv). unfold create_derived_upload_job. intros (u & _ & H1)%lift_bind_ok.
  destruct (is_blank id); [by apply sfail_ok in H1|]. apply lift_err_bind_ok in H1 as (us & Hus & H1).
  assert (uj_input_digest us = bundle_input_digest spec) as Hdig
    by (unfold UploadJobSpec_new in Hus; apply rbind_ok in Hus as (? & _ & [= <-]); done).
  rewrite transaction_ok, get_bind in H1. destruct (live_derived db _ _) as [ex|] eqn:El.
  { destruct (String.eqb _ _); [|by apply sfail_ok in H1]. apply lift_err_bind_ok in H1 as (job & _ & H1).
    apply sret_ok in H1 as [-> <-]. left. by eauto. }
  right. apply lift_err_bind_ok in H1 as (identity & _ & H1). destruct (bool_decide _); [by apply sfail_ok in H1|].
  apply serr_bind_ok in H1 as (d1 & [] & I1 & H1). apply serr_bind_ok in H1 as (d2 & [] & I2 & H1).
  apply lift_err_bind_ok in H1 as (total & _ & H1). apply serr_bind_ok in H1 as (d3 & [] & I3 & H1).
  apply serr_bind_ok in H1 as (d4 & [] & I4 & H1). rewrite get_bind in H1. apply lift_err_bind_ok in H1 as (f & _ & H1).
  apply lift_or_bind_ok in H1 as (job & _ & H1). apply sret_ok in H1 as [-> <-].
  destruct (four_inserts _ _ ("derived:" ++ dec (str_len (ds_upload_bundle_revision spec)) ++ ":" ++ ds_upload_bundle_revision spec
      ++ ":" ++ dec (str_len (ds_storage_profile_identity spec)) ++ ":" ++ ds_storage_profile_identity spec)
      _ _ _ _ _ _ _ _ _ _ Hst I1 I2 I3 eq_refl I4) as (Ha & Hc & Hsp & Hd4 & Hok & Hr & Hs).
  split; [by eexists|]. split; [by apply Hc|]. split.
  - subst d4. assert (Hl3 : lineage_ok d3).
    { eapply (lineage_adds id "" 0 "" db); [done..|left|apply Hinv]. apply Hc. }
    done.
  - exists (mkUploadSpecRow (ds_media_library_entry_key spec) (ds_upload_bundle_revision spec) (uj_input_digest us) None
             "derived_bundle" (Some (ds_storage_profile_identity spec))). split; [exact Hdig|]. split.
    + exists d3. subst d4. split_and!; [done|exact Hsp|apply quiet_refl|done..].
    + by split.
    + exact El.
Qed.

Lemma create_derived_step id spec activity now db db' out :
  all_inv db -> derived_inv db -> create_derived_upload_job id spec activity now db = (db', Ok out) -> derived_step db db'.
Proof.
  intros Hinv Hdi Hrun. apply create_derived_moves in Hrun as [[-> _]|(_ & Hs & Hl & s & _ & Hn)]; [|by eapply new_attempt_step|done].
  by apply derived_step_refl.
Qed.

Lemma read_derived_ok db id job :
  read_derived_upload_job db id = Ok (Some job) ->
  exists r, t_derived db !! id = Some r /\ sv_media_library_entry_key job = dj_media_library_entry_key r /\
    sv_upload_bundle_revision job = dj_upload_bundle_revision r /\
    sv_storage_profile_identity job = dj_storage_profile_identity r /\
    sv_frozen_bundle_json job = dj_frozen_bundle_json r /\ sv_checkpoint_json job = dj_checkpoint_json r /\
    sv_checkpoint_version job = Z.to_N (Z.max (dj_checkpoint_version r) 0).
Proof.
  unfold read_derived_upload_job. destruct (t_derived db !! id) as [r|]; [|done].
  intros (f & _ & Hk)%rbind_ok. apply rbind_ok in Hk as (j & _ & Hk). destruct (negb _); [done|]. injection Hk as <-.
  by exists r.
Qed.

Lemma derived_parent_checked_ok db p parent :
  derived_parent_checked db p = Ok parent -> sj_job_id parent = p /\ upload_job db p.
Proof.
  unfold derived_parent_checked. intros (f & Hf%rmap_err_ok & Hk)%rbind_ok. apply rbind_ok in Hk as (j & ->%ok_or_ok & Hk).
  apply read_job_ok in Hf as (r & Hr & Hrow). apply read_job_row_ok in Hrow as (Hid & Hop & _).
  case_bool_decide as Ek; [|done]. cbn [negb] in Hk. case_bool_decide; [done|]. destruct (negb _); [done|].
  destruct (negb _); [done|]. injection Hk as ->. split; [done|]. exists r. split; [done|]. rewrite Ek in Hop.
  by apply upload_kind.
Qed.

Lemma derived_parent_context_ok db p sidecar spec :
  derived_parent_context db p = Ok (sidecar, spec) ->
  read_derived_upload_job db p = Ok (Some sidecar) /\ t_upload_specs db !! p = Some spec.
Proof.
  unfold derived_parent_context. intros (f & Hf%rmap_err_ok & Hk)%rbind_ok. apply rbind_ok in Hk as (j & ->%ok_or_ok & Hk).
  apply rbind_ok in Hk as (s & Hs%ok_or_ok & Hk). destruct (_ || _); [done|]. by injection Hk as -> ->.
Qed.

(** When the next attempt may be made: nothing else is live. *)
Lemma derived_next_attempt db p child revision storage attempt :
  store_inv db -> derived_existing_child db p child revision storage = Ok (inr attempt) ->
  may_spawn db p attempt /\ t_jobs db !! child = None /\ live_derived db revision storage = None.
Proof.
  intros Hinv. unfold derived_existing_child. destruct (latest_attempt (joined_children db p _)) as [[? ?]|]; [done|].
  intros (taken & Ht%rmap_err_ok & Hk)%rbind_ok. destruct taken as [ex|].
  { case_bool_decide; [|done]. by apply rbind_ok in Hk as (? & _ & [=]). }
  apply read_job_none in Ht. rewrite joined_children_all in Hk by done.
  apply rbind_ok in Hk as (live & Hlive & Hk). destruct live as [ex|]; [done|].
  apply rbind_ok in Hk as (at_ & Hatt & Hk). destruct (live_derived db revision storage) as [x|];
    [by apply rbind_ok in Hk as (? & _ & [=])|]. injection Hk as ->. split_and!; [|done|done].
  apply attempt_may_spawn; [done|]. intros lc ll El. rewrite El in Hlive, Hatt.
  destruct (_ <? _)%Z; [|done]. injection Hatt as <-. split; [done|].
  apply rbind_ok in Hlive as (lj & Hlj%rmap_err_ok & Hlive). exists lj. split; [done|]. intros j ->.
  destruct (tag_is_terminal (sj_state j)); [done|]. by apply rbind_ok in Hlive as (? & _ & [=]).
Qed.

Lemma retry_derived_moves p child checkpoint now db db' out :
  all_inv db -> derived_inv db -> retry_derived_upload_job p child checkpoint now db = (db', Ok out) ->
  (db' = db /\ exists job, out = DrExisting job) \/
  (exists job, out = DrCreated job) /\ store_inv db' /\ lineage_ok db' /\
  exists s row parent, t_derived db !! p = Some parent /\ dj_frozen_bundle_json row = dj_frozen_bundle_json parent /\
    dj_checkpoint_json row = checkpoint /\ new_attempt child s row db db'.
Proof.
  intros Hinv Hdi. assert (Hst := ai_store _ Hinv). unfold retry_derived_upload_job.
  destruct (is_blank child); [by intros ?%sfail_ok|]. intros (u & _ & H1)%lift_err_bind_ok.
  rewrite transaction_ok, get_bind in H1. apply lift_bind_ok in H1 as (parent & [Hid Hp]%derived_parent_checked_ok & H1).
  apply lift_bind_ok in H1 as ([sidecar spec] & [Hside Hspec]%derived_parent_context_ok & H1).
  apply lift_bind_ok in H1 as ([ex|attempt] & Hchild & H1); [apply sret_ok in H1 as [-> <-]; left; by eauto|right].
  apply derived_next_attempt in Hchild as (Hmay & Hno & Hfree); [|done].
  apply sbind_ok in H1 as (d5 & [] & Hw & H1). rewrite get_bind in H1. apply lift_err_bind_ok in H1 as (f & _ & H1).
  apply lift_or_bind_ok in H1 as (job & _ & H1). apply sret_ok in H1 as [-> <-]. split; [by eexists|].
  unfold write_derived_child in Hw. rewrite get_bind in Hw. apply lift_or_bind_ok in Hw as (act & _ & Hw).
  apply serr_bind_ok in Hw as (d1 & [] & I1 & Hw). apply serr_bind_ok in Hw as (d2 & [] & I2 & Hw).
  apply serr_bind_ok in Hw as (d3 & [] & I3 & Hw). apply serr_bind_ok in Hw as (d4 & [] & I4 & Hw). apply serr_ok in Hw.
  apply read_derived_ok in Hside as (pr & Hpr & E1 & E2 & E3 & E4 & _). rewrite E1, E2, E3, E4 in *.
  destruct (di_rows _ Hdi p pr Hpr) as (ps & Hps & [O1 O2 O3 O4 O5 O6]). assert (ps = spec) as -> by congruence.
  destruct (four_inserts _ _ (("derived:" ++ dec (str_len (us_revision spec)) ++ ":" ++ us_revision spec
      ++ ":" ++ dec (str_len (dj_storage_profile_identity pr)) ++ ":" ++ dj_storage_profile_identity pr) ++ "#retry:" ++ child)
      _ _ _ _ _ _ _ _ _ _ Hst I1 I2 I3 eq_refl I4) as (Ha & Hc & Hsp & Hd4 & Hok & Hr & Hs).
  rewrite Hid in Hw. destruct (insert_lineage_creating db child (mkLineageRow p attempt now) d4 d5 Hc Hst Hno Hmay Hw)
    as (Hs5 & Hl5 & Ho5 & Hj5). apply insert_lineage_row in Hw. split; [done|]. split.
  - assert (Hl3 : lineage_ok d3).
    { eapply (lineage_adds child "" 0 "" db); [done..|left|apply Hinv]. subst d4. apply Hc. }
    intros c l Hcl Hju. rewrite Hl5 in Hcl. assert (Hup : forall j, upload_job d5 j <-> upload_job d3 j)
      by (intros j; subst d5 d4; done). rewrite Hup in Hju |- *.
    apply lookup_insert_Some in Hcl as [[<- <-]|[Hne Hcl]].
    + apply (adds_upload_jobs _ _ _ _ Ha). by left.
    + apply (Hl3 c l); [|done]. destruct Hc as [_ Hcl4 _ _]. subst d4. cbn in Hcl4. by rewrite Hcl4.
  - eexists _, _, pr. split_and!; [done| | |split]; cycle 2.
    + exists d3. split_and!; [exact Ha|exact Hsp| | |]; subst d5 d4; [|done..]. by apply quiet_same.
    + split; [exact Hok|done|exact Hr|exact Hs|exact O5|exact O6].
    + exact Hfree.
    + done.
    + done.
Qed.

Lemma retry_derived_step p child checkpoint now db db' out :
  all_inv db -> derived_inv db -> retry_derived_upload_job p child checkpoint now db = (db', Ok out) -> derived_step db db'.
Proof.
  intros Hinv Hdi Hrun. apply retry_derived_moves in Hrun as [[-> _]|(_ & Hs & Hl & s & row & pr & _ & _ & _ & Hn)];
    [by apply derived_step_refl|by eapply new_attempt_step|done..].
Qed.
End derived_steps.

(** *** Replacing a checkpoint *)

Section checkpoint.
Context `{Sha256} `{JsonText}.

Lemma swap_ok id v checkpoint now db db' out :
  compare_and_swap_derived_upload_checkpoint id v checkpoint now db = (db', Ok out) ->
  exists r, t_derived db !! id = Some r /\
    let actual := Z.to_N (Z.max (dj_checkpoint_version r) 0) in
    ((actual <> v /\ out = CsStale actual /\ db' = db) \/
     (actual = v /\ out = CsApplied (v + 1) /\ (v + 1 <= i64_max)%N /\
      let r' := set_checkpoint checkpoint (Z.of_N (v + 1)) now r in
      derived_row_ok r' = true /\ db' = with_derived (<[id := r']> (t_derived db)) db)).
Proof.
  unfold compare_and_swap_derived_upload_checkpoint. intros (u & _ & H1)%lift_bind_ok. rewrite transaction_ok, get_bind in H1.
  apply lift_or_bind_ok in H1 as (r & Hr & H1). exists r. split; [done|]. cbv zeta. set (actual := Z.to_N _) in *.
  destruct (N.eqb_spec actual v) as [Hv|Hv]; cbn [negb] in H1; [right|left; by apply sret_ok in H1 as [-> <-]].
  rewrite <- Hv. apply lift_or_bind_ok in H1 as (nx & [_ ->]%u64_checked_add_Some & H1).
  apply lift_err_bind_ok in H1 as (z & [Hb ->]%checked_i64_ok & H1). apply serr_bind_ok in H1 as (d & b & Hu & H1).
  apply sret_ok in H1 as [-> <-]. unfold update_derived in Hu. rewrite Hr in Hu.
  destruct (derived_row_ok _) eqn:Hok; [|done]. cbn [negb] in Hu. injection Hu as <- _. by split_and!.
Qed.

Lemma swap_step id v checkpoint now db db' out :
  all_inv db -> derived_inv db -> compare_and_swap_derived_upload_checkpoint id v checkpoint now db = (db', Ok out) ->
  derived_step db db'.
Proof.
  intros Hinv Hdi (r & Hr & [(_ & _ & ->)|(Hv & _ & _ & Hok & ->)])%swap_ok; [by apply derived_step_refl|].
  destruct Hdi as [D1 D2 D3]. split.
  - split; [by apply with_derived_all_inv|]. split; [| |exact D3].
    + intros j x. cbn [with_derived t_derived t_upload_specs]. intros [[<- <-]|[_ Hx]]%lookup_insert_Some; [|by apply D1].
      destruct (D1 id r Hr) as (s & Hs & [O1 O2 O3 O4 O5 O6]). exists s. split; [done|]. by split.
    + intros j s Hs Hd. cbn [with_derived t_derived]. destruct (decide (j = id)) as [->|Hne];
        [by rewrite lookup_insert_eq|rewrite lookup_insert_ne by done; by eapply D2].
  - intros j Hj. by apply with_derived_kept.
  - intros j x Hx. cbn [with_derived t_derived]. destruct (decide (j = id)) as [->|Hne].
    + rewrite lookup_insert_eq. eexists. split; [done|]. assert (x = r) as -> by congruence.
      unfold checkpoint_moves. cbn. split_and!; try done. right. lia.
    + rewrite lookup_insert_ne by done. exists x. split; [done|apply checkpoint_moves_refl].
Qed.
End checkpoint.

(** ** Every operation *)

Inductive DerivedOp :=
| DUpload (op : UploadOp)
| DCreate (id : string) (spec : DerivedUploadJobSpec) (activity : UploadActivitySeed) (now : string)
| DRetry (parent child checkpoint now : string)
| DSwap (id : string) (v : N) (checkpoint now : string).

Section all_derived.
Context `{Sha256} `{QueryPlan} `{JsonText}.

Definition run_derived (op : DerivedOp) (db : Db) : Db * bool :=
  match op with
  | DUpload op => run_upload op db
  | DCreate id spec activity now => outcome_flag (create_derived_upload_job id spec activity now db)
  | DRetry parent child checkpoint now => outcome_flag (retry_derived_upload_job parent child checkpoint now db)
  | DSwap id v checkpoint now => outcome_flag (compare_and_swap_derived_upload_checkpoint id v checkpoint now db)
  end.

Fixpoint run_deriveds (ops : list DerivedOp) (db : Db) : Db :=
  match ops with [] => db | op :: ops' => run_deriveds ops' (run_derived op db).1 end.

Lemma create_derived_atomic id spec activity now : atomic (create_derived_upload_job id spec activity now).
Proof.
  unfold create_derived_upload_job. apply atomic_slift_bind; intros ?. destruct (is_blank id); [auto with sm|].
  apply atomic_slift_bind; intros ?. apply atomic_transaction.
Qed.

Lemma retry_derived_atomic p c checkpoint now : atomic (retry_derived_upload_job p c checkpoint now).
Proof.
  unfold retry_derived_upload_job. destruct (is_blank c); [auto with sm|]. apply atomic_slift_bind; intros ?.
  apply atomic_transaction.
Qed.

Lemma swap_atomic id v checkpoint now : atomic (compare_and_swap_derived_upload_checkpoint id v checkpoint now).
Proof. apply atomic_slift_bind; intros ?. apply atomic_transaction. Qed.

Definition derived_deletes (op : DerivedOp) (id : string) : Prop := op = DUpload (UStore (ODelete id)).

(** What an operation of the other files keeps of the derived uploads. *)
Lemma upload_op_derived op db :
  all_inv db -> derived_inv db -> derived_kept db (run_upload op db).1.
Proof.
  intros Hinv Hdi. assert (Hop := upload_op_safe op db Hinv). assert (Hef := upload_op_effect op db Hinv).
  assert (Hnd : (forall id, ~ deletes op id) -> forall id, upload_job db id -> kept id db (run_upload op db).1).
  { intros Hnd id Hid. destruct (run_upload op db) as [d b]. by apply Hop; [|apply Hnd]. }
  assert (Hdel : (exists id, op = UStore (ODelete id)) \/ forall id, ~ deletes op id).
  { unfold deletes. destruct op as [sop|?|?|?|?|?|?|?|?|?|?|?|?]; [|right; intros; discriminate..].
    destruct sop; try (right; intros; discriminate). left. by eexists. }
  destruct Hdel as [[id ->]|Hno].
  - cbn [run_upload run_op] in *. unfold outcome_flag in *. destruct (delete_job id db) as [d [b|e]] eqn:Ed; cbn [fst] in *.
    + apply delete_job_ok in Ed as [_ Ed]. by eapply delete_derived_kept.
    + assert (d = db) as -> by (by eapply atomic_transaction). by split.
  - specialize (Hnd Hno). destruct (run_upload op db) as [d b]. cbn [fst] in *. destruct Hop as (Hi & _ & _).
    destruct Hef as [Hs|child Ha Hp|id b' Hd].
    + by apply same_derived_kept.
    + by eapply adds_derived_kept.
    + by eapply delete_derived_kept.
Qed.

Definition derived_safe (op : DerivedOp) (db db' : Db) : Prop :=
  (all_inv db' /\ derived_inv db') /\
  (forall id, upload_job db id -> ~ derived_deletes op id -> kept id db db') /\
  (forall id r, t_derived db !! id = Some r -> ~ derived_deletes op id ->
     exists r', t_derived db' !! id = Some r' /\ checkpoint_moves r r').

Lemma sidecar_is_upload db id r : all_inv db -> derived_inv db -> t_derived db !! id = Some r -> upload_job db id.
Proof. intros Hinv Hdi Hr. destruct (di_rows _ Hdi id r Hr) as (s & Hs & _). by eapply spec_is_upload. Qed.

Lemma derived_op_safe op db :
  all_inv db -> derived_inv db ->
  let '(db', ok) := run_derived op db in derived_safe op db db' /\ (ok = false -> db' = db).
Proof.
  intros Hinv Hdi.
  assert (Hstep : forall d, derived_step db d -> derived_safe op db d).
  { intros d [Hi Hk Hs]. split; [done|]. split; intros; [by apply Hk|by apply Hs]. }
  assert (Hrefl : derived_safe op db db) by (by apply Hstep, derived_step_refl).
  destruct op as [uop|id spec activity now|p c checkpoint now|id v checkpoint now]; cbn [run_derived].
  - assert (Hop := upload_op_safe uop db Hinv). assert (Hd := upload_op_derived uop db Hinv Hdi).
    destruct (run_upload uop db) as [d b]. cbn [fst] in Hd. destruct Hop as (Hi & Hk & Hf).
    assert (Hdi' := derived_kept_inv _ _ Hd Hdi). split; [|done]. split; [done|]. split.
    + intros id Hid Hnd. apply Hk; [done|]. intros He. apply Hnd. unfold deletes, derived_deletes in *. by rewrite He.
    + intros id r Hr Hnd. exists r. split; [|apply checkpoint_moves_refl].
      destruct (di_rows _ Hdi id r Hr) as (s & Hs & Ho). assert (Hu := spec_is_upload _ _ _ Hinv Hs).
      assert (Hkp : kept id db d) by (apply Hk; [done|]; intros He; apply Hnd; unfold deletes, derived_deletes in *; by rewrite He).
      assert (Hs' : t_upload_specs d !! id = Some s) by (by rewrite (kp_spec _ _ _ Hkp)).
      by rewrite (proj2 (dk_specs _ _ Hd id s Hs' (so_subject _ _ Ho))).
  - apply outcome_flag_spec; [apply create_derived_atomic|done|intros; by eapply Hstep, create_derived_step].
  - apply outcome_flag_spec; [apply retry_derived_atomic|done|intros; by eapply Hstep, retry_derived_step].
  - apply outcome_flag_spec; [apply swap_atomic|done|intros; by eapply Hstep, swap_step].
Qed.

Lemma run_deriveds_safe ops db :
  all_inv db -> derived_inv db ->
  (all_inv (run_deriveds ops db) /\ derived_inv (run_deriveds ops db)) /\
  forall id r, t_derived db !! id = Some r -> (forall op, op ∈ ops -> ~ derived_deletes op id) ->
    kept id db (run_deriveds ops db) /\
    exists r', t_derived (run_deriveds ops db) !! id = Some r' /\ checkpoint_moves r r'.
Proof.
  revert db. induction ops as [|op ops IH]; intros db Hinv Hdi; cbn [run_deriveds].
  { split; [done|]. intros id r Hr _. split; [by eapply kept_refl, sidecar_is_upload|]. exists r.
    split; [done|apply checkpoint_moves_refl]. }
  assert (Hop := derived_op_safe op db Hinv Hdi). destruct (run_derived op db) as [d ok]. cbn [fst].
  destruct Hop as [((Hi & Hd) & Hk & Hs) _]. destruct (IH d Hi Hd) as [Hend Hrun]. split; [done|].
  intros id r Hr Hnd. assert (Hnop : ~ derived_deletes op id) by (apply Hnd; set_solver).
  destruct (Hs id r Hr Hnop) as (r1 & Hr1 & Hm1). destruct (Hrun id r1 Hr1) as [Hk2 (r2 & Hr2 & Hm2)]; [set_solver|].
  split; [|exists r2; split; [done|by eapply checkpoint_moves_trans]].
  eapply kept_trans; [|exact Hk2]. apply Hk; [|done]. by eapply sidecar_is_upload.
Qed.

(** C9: one live attempt per destination: every operation on jobs, uploads and
    derived uploads keeps the store's invariant, and with it: of all jobs that
    send one bundle revision to one storage destination at most one is not
    finished; every derived upload has its sidecar and every sidecar agrees with
    the job's specification and input digest. An operation that fails changes
    nothing. *)
Theorem one_live_attempt_per_destination op db :
  all_inv db -> derived_inv db ->
  let '(db', ok) := run_derived op db in
  all_inv db' /\ derived_inv db' /\ (ok = false -> db' = db) /\
  forall i j s s', t_upload_specs db' !! i = Some s -> t_upload_specs db' !! j = Some s' ->
    derived_spec s -> derived_spec s' -> us_revision s = us_revision s' ->
    us_storage_profile_identity s = us_storage_profile_identity s' ->
    row_is_live db' i = true -> row_is_live db' j = true -> i = j.
Proof.
  intros Hinv Hdi. assert (Hop := derived_op_safe op db Hinv Hdi). destruct (run_derived op db) as [d ok].
  destruct Hop as [((Hi & Hd) & _) Hf]. split_and!; [done..|]. apply Hd.
Qed.

(** Two workers cannot overwrite each other's checkpoint: a replacement is
    stored only for the version the worker saw and moves it on by one, so of two
    workers that read the same version the second is told it is stale and
    changes nothing; and over any operations that do not delete the job the
    frozen bundle and the destination of an attempt stay what they were and its
    checkpoint only changes under a larger version. *)
Theorem checkpoint_has_one_writer ops db id v checkpoint now db1 n :
  all_inv db -> derived_inv db ->
  compare_and_swap_derived_upload_checkpoint id v checkpoint now db = (db1, Ok (CsApplied n)) ->
  (forall op, op ∈ ops -> ~ derived_deletes op id) ->
  let db' := run_deriveds ops db1 in
  n = (v + 1)%N /\
  (exists r r', t_derived db1 !! id = Some r /\ dj_checkpoint_json r = checkpoint /\
     t_derived db' !! id = Some r' /\ checkpoint_moves r r') /\
  forall other later, serde_accepts other = true -> (str_len other <= MAX_DERIVED_UPLOAD_JSON_BYTES)%N ->
    exists w, (v < w)%N /\
      compare_and_swap_derived_upload_checkpoint id v other later db' = (db', Ok (CsStale w)).
Proof.
  intros Hinv Hdi Hrun Hnd db'. assert (Hstep := swap_step _ _ _ _ _ _ _ Hinv Hdi Hrun).
  apply swap_ok in Hrun as (r & Hr & [(_ & [=] & _)|(Hv & [= ->] & Hb & Hok & Edb)]).
  set (r1 := set_checkpoint checkpoint (Z.of_N (v + 1)) now r) in *.
  assert (Hr1 : t_derived db1 !! id = Some r1) by (rewrite Edb; cbn; by rewrite lookup_insert_eq).
  destruct Hstep as [[Hi1 Hd1] _ _]. destruct (run_deriveds_safe ops db1 Hi1 Hd1) as [_ Hops].
  destruct (Hops id r1 Hr1 Hnd) as [_ (r' & Hr' & Hm)]. split; [done|]. split; [by exists r1, r'|].
  intros other later Hser Hlen. exists (Z.to_N (Z.max (dj_checkpoint_version r') 0)).
  assert (Hle : (Z.of_N v < dj_checkpoint_version r')%Z).
  { destruct Hm as (_ & _ & _ & _ & _ & [->|Hlt]); unfold r1 in *; cbn in *; lia. }
  split; [lia|]. unfold compare_and_swap_derived_upload_checkpoint, validate_json_payload.
  rewrite (proj2 (N.ltb_ge _ _)) by done. rewrite Hser. unfold transaction, sbind, slift, sget. cbn beta iota.
  unfold db' in *. rewrite Hr'. cbn [ok_or]. rewrite (proj2 (N.eqb_neq _ _)) by lia. done.
Qed.

Lemma absorb_inj a b : absorb a = absorb b -> a = b.
Proof.
  unfold absorb. intros He. assert (Hl : length a = length b).
  { apply (f_equal length) in He. rewrite !length_app in He. unfold be64 in He. rewrite !be_bytes_length in He. lia. }
  rewrite Hl in He. by apply app_inv_head in He.
Qed.

(** Two different preimages of one input digest. *)
Definition inputs_collide (spec spec' : DerivedUploadJobSpec) : Prop :=
  bundle_input spec <> bundle_input spec' /\ sha256 (bundle_input spec) = sha256 (bundle_input spec').

Lemma bundle_digest_decides spec spec' :
  ds_upload_bundle_revision spec = ds_upload_bundle_revision spec' ->
  ds_storage_profile_identity spec = ds_storage_profile_identity spec' ->
  bundle_input_digest spec = bundle_input_digest spec' ->
  ds_frozen_bundle_json spec = ds_frozen_bundle_json spec' \/ inputs_collide spec spec'.
Proof.
  intros Hr Hs He. unfold bundle_input_digest in He.
  assert (Hh : to_hex (sha256 (bundle_input spec)) = to_hex (sha256 (bundle_input spec'))) by (by simplify_eq/=).
  apply (f_equal hex_bytes) in Hh. rewrite !hex_bytes_to_hex in Hh. injection Hh as Hh.
  destruct (decide (bundle_input spec = bundle_input spec')) as [Hb|Hne]; [left|by right].
  unfold bundle_input in Hb. rewrite Hr, Hs in Hb. do 4 apply app_inv_head in Hb. apply absorb_inj in Hb.
  apply (f_equal string_of_list_byte) in Hb. unfold bytes_of in Hb. by rewrite !string_of_list_byte_of_string in Hb.
Qed.

(** The request a stored attempt answers. *)
Definition request_of (job : StoredDerivedUploadJob) : DerivedUploadJobSpec :=
  mkDerivedSpec (sv_media_library_entry_key job) (sv_upload_bundle_revision job) (sv_storage_profile_identity job)
    (sv_frozen_bundle_json job) (sv_checkpoint_json job).

(** C3: asking again is safe and changing the bundle is refused: while an
    attempt for the destination is live, creating another one either returns
    that attempt, and then it sends exactly the frozen bundle asked for (unless
    the two requests' digest preimages are a SHA-256 collision), or fails, and in
    both cases nothing is stored. *)
Theorem replay_sends_the_same_bundle db live id spec activity now :
  all_inv db -> derived_inv db ->
  live_derived db (ds_upload_bundle_revision spec) (ds_storage_profile_identity spec) = Some live ->
  let '(db', out) := create_derived_upload_job id spec activity now db in
  db' = db /\
  forall result, out = Ok result ->
    exists job, result = DcExisting job /\ sj_job_id (sv_job job) = live /\
      sv_upload_bundle_revision job = ds_upload_bundle_revision spec /\
      sv_storage_profile_identity job = ds_storage_profile_identity spec /\
      (sv_frozen_bundle_json job = ds_frozen_bundle_json spec \/ inputs_collide (request_of job) spec).
Proof.
  intros Hinv Hdi Hl. destruct (create_derived_upload_job id spec activity now db) as [db' [res|e]] eqn:E.
  2:{ split; [by eapply create_derived_atomic|]. by intros ? [=]. }
  unfold create_derived_upload_job in E. apply lift_bind_ok in E as (u & _ & E).
  destruct (is_blank id); [by apply sfail_ok in E|]. apply lift_err_bind_ok in E as (us & Hus & E).
  assert (uj_input_digest us = bundle_input_digest spec) as Hdig
    by (unfold UploadJobSpec_new in Hus; apply rbind_ok in Hus as (? & _ & [= <-]); done).
  rewrite transaction_ok, get_bind, Hl in E. destruct (String.eqb_spec (from_option us_input_digest "" (t_upload_specs db !! live))
    (uj_input_digest us)) as [Heq|]; [|by apply sfail_ok in E]. apply lift_err_bind_ok in E as (job & Hjob & E).
  apply sret_ok in E as [-> <-]. split; [done|]. intros ? [= <-]. exists job. split; [done|].
  unfold read_sidecar in Hjob. apply rbind_ok in Hjob as (f & Hf & ->%ok_or_ok). assert (Hf' := Hf).
  apply read_derived_ok in Hf as (r & Hr & _ & E2 & E3 & E4 & _).
  destruct (di_rows _ Hdi live r Hr) as (s & Hs & [O1 O2 O3 O4 O5 O6]). rewrite Hs in Heq. cbn in Heq.
  unfold live_derived in Hl. destruct (latest_row _) as [[x row]|] eqn:El; [|done]. injection Hl as ->.
  assert (Hin : (live, row) ∈ live_uploads db (same_derived_key (ds_upload_bundle_revision spec) (ds_storage_profile_identity spec))).
  { revert El. generalize (live_uploads db (same_derived_key (ds_upload_bundle_revision spec) (ds_storage_profile_identity spec))).
    intros l. clear. revert live row. induction l as [|y l IH]; intros a b; [done|]. simpl.
    destruct (latest_row l) as [z|]; [|intros [= ->]; by left]. destruct (row_after y z); intros [= ->]; [by left|].
    right. by apply IH. }
  apply live_uploads_in in Hin as (_ & _ & s' & Hs' & Hkey). assert (s' = s) as -> by congruence.
  apply same_derived_key_spec in Hkey as (_ & K2 & K3).
  assert (Hst : dj_storage_profile_identity r = ds_storage_profile_identity spec) by congruence.
  assert (Hrev : dj_upload_bundle_revision r = ds_upload_bundle_revision spec) by congruence.
  split_and!; [|congruence|congruence|].
  - unfold read_derived_upload_job in Hf'. rewrite Hr in Hf'. apply rbind_ok in Hf' as (g & Hg & Hf').
    apply rbind_ok in Hf' as (jb & ->%ok_or_ok & Hf'). destruct (negb _); [done|]. injection Hf' as <-. cbn.
    apply read_job_ok in Hg as (? & _ & Hrow). by apply read_job_row_ok in Hrow as [? _].
  - assert (Hdec : dj_frozen_bundle_json r = ds_frozen_bundle_json spec \/ inputs_collide (input_of r) spec)
      by (apply (bundle_digest_decides (input_of r) spec); [done..|]; by rewrite <- O6, Heq, Hdig).
    rewrite E4. destruct Hdec as [|Hc]; [by left|right]. unfold inputs_collide, bundle_input in *. cbn in *.
    by rewrite E2, E3, E4.
Qed.
End all_derived.

(** *** Witnesses *)

Module DemoDerived.
#[local] Existing Instance DemoUpload.plan.

(** A toy digest that reads the end of its input. *)
Definition digest (bs : list byte) : list byte := take 32 (reverse bs ++ replicate 32 Byte.x00).

Lemma demo_digest_length bs : length (digest bs) = 32.
Proof. unfold digest. rewrite length_take, length_app, length_replicate. lia. Qed.

#[local] Instance sha : Sha256 := {| sha256 := digest; sha256_length := demo_digest_length |}.

#[local] Instance json : JsonText :=
  {| serde_accepts := fun s => negb (String.eqb s ""); json_valid := fun s => negb (String.eqb s "") |}.

Definition spec (bundle : string) : DerivedUploadJobSpec :=
  mkDerivedSpec "media-library-v1:aa" "sha256:bundle" "profile-a" bundle "{}".
Definition seed : UploadActivitySeed := mkSeed "session" "bucket" 0.

Definition created : Db := run_deriveds [DCreate "job-1" (spec "{b}") seed "t0"] empty_db.

Lemma created_inv : all_inv created /\ derived_inv created.
Proof. apply run_deriveds_safe; [apply all_inv_empty|apply empty_derived_inv]. Qed.

Example created_live : live_derived created "sha256:bundle" "profile-a" = Some "job-1".
Proof. vm_compute. reflexivity. Qed.

(** A changed bundle for the same destination is a conflict. *)
Example changed_bundle :
  (create_derived_upload_job "job-2" (spec "{c}") seed "t1" created).2 =
  Err (DeConflict "job-1" "a different frozen bundle is already uploading to this destination").
Proof. vm_compute. reflexivity. Qed.

Example first_swap :
  (compare_and_swap_derived_upload_checkpoint "job-1" 1 "{p}" "t2" created).2 = Ok (CsApplied 2).
Proof. vm_compute. reflexivity. Qed.

(** A failed and acknowledged attempt, and its retry. *)
Definition failed : Db :=
  run_deriveds [DUpload (UComplete "job-1" 1 (ToFailed "network" true) "t3"); DUpload (UStore (OAck "job-1" "t4"))] created.

Example retried :
  is_ok (retry_derived_upload_job "job-1" "job-2" "{}" "t5" failed).2 = true.
Proof. vm_compute. reflexivity. Qed.

(** [create_derived_upload_job] after a finished attempt: the column of the
    natural key is UNIQUE over all jobs, finished ones included. *)
Example finished_attempt_blocks_creation :
  live_derived failed "sha256:bundle" "profile-a" = None /\
  (create_derived_upload_job "job-2" (spec "{b}") seed "t5" failed).2 = Err (DePersistence (PSqlite (SqUnique "natural_key"))).
Proof. vm_compute. by split. Qed.

End DemoDerived.

#[local] Existing Instance DemoDerived.sha.
#[local] Existing Instance DemoUpload.plan.
#[local] Existing Instance DemoDerived.json.

Lemma one_live_attempt_per_destination_witness :
  let '(db', ok) := run_derived (DRetry "job-1" "job-2" "{}" "t5") DemoDerived.created in
  all_inv db' /\ derived_inv db' /\ (ok = false -> db' = DemoDerived.created).
Proof.
  assert (H := one_live_attempt_per_destination (DRetry "job-1" "job-2" "{}" "t5") DemoDerived.created
    (proj1 DemoDerived.created_inv) (proj2 DemoDerived.created_inv)).
  destruct (run_derived _ _) as [d b]. destruct H as (H1 & H2 & H3 & _). split; [exact H1|]. split; [exact H2|exact H3].
Defined.

Lemma checkpoint_has_one_writer_witness :
  exists w, (1 < w)%N /\
    let db1 := (compare_and_swap_derived_upload_checkpoint "job-1" 1 "{p}" "t2" DemoDerived.created).1 in
    compare_and_swap_derived_upload_checkpoint "job-1" 1 "{q}" "t6" db1 = (db1, Ok (CsStale w)).
Proof.
  assert (Hc := DemoDerived.first_swap).
  destruct (compare_and_swap_derived_upload_checkpoint "job-1" 1 "{p}" "t2" DemoDerived.created) as [db1 out] eqn:E.
  cbn [snd] in Hc. subst out. cbn [fst]. cbv zeta.
  apply (checkpoint_has_one_writer [] DemoDerived.created "job-1" 1 "{p}" "t2" db1 2
    (proj1 DemoDerived.created_inv) (proj2 DemoDerived.created_inv) E); [|reflexivity|done].
  intros op Hop. by apply not_elem_of_nil in Hop.
Defined.

Lemma replay_sends_the_same_bundle_witness :
  (create_derived_upload_job "job-2" (DemoDerived.spec "{b}") DemoDerived.seed "t1" DemoDerived.created).1 = DemoDerived.created.
Proof.
  assert (H := replay_sends_the_same_bundle DemoDerived.created "job-1" "job-2" (DemoDerived.spec "{b}") DemoDerived.seed "t1"
    (proj1 DemoDerived.created_inv) (proj2 DemoDerived.created_inv) DemoDerived.created_live).
  destruct (create_derived_upload_job _ _ _ _ _) as [d o]. exact (proj1 H).
Defined.
