(* ===== verification/Pipeline.v ===== *)
(** * Pipeline: one session from import to the remote copy (media_pipeline/pipeline.rs)

A session pipeline owns no job state: it stores which import, which derivation
and which upload belong to one admitted recording, and it decides from the
durable evidence of those jobs what happens next. Evidence is the receipts of
Ingest.v, MediaStore.v and UploadBundle.v. Identifiers made from random UUIDs
are arguments. *)

From Stdlib Require Import NArith Lia Ascii String.
From stdpp Require Import base numbers list strings gmap sorting.
From S2P Require Import Prelude Domain Files Json Ingest Rational Profile MediaPlan Validation Manifest.
From S2P Require Import MediaStore UploadBundle.

Local Open Scope string_scope.

Abbreviation SessionPipelineId := string (only parsing).
Abbreviation UploadJobId := string (only parsing).

(** [PipelineConflictReason] (media_pipeline/pipeline.rs:1113-1120). *)
Inductive PipelineConflictReason :=
| PcImportDependencyMismatch
| PcPolicyMismatch
| PcDerivationDependencyMismatch
| PcUploadDependencyMismatch
| PcStorageProfileMismatch
| PcUnsignedAdmissionMismatch.

(** [PipelineError] (media_pipeline/pipeline.rs:1123-1146). *)
Inductive PipelineError :=
| PeInvalidReference (field : string)
| PeInvalidActionField (field : string) (maximum : N)
| PeDependencyConflict (reason : PipelineConflictReason)
| PeDerivedReceiptMismatch
| PeSourceReceiptMismatch
| PeBundleMismatch
| PeUnsignedAdmissionMismatch
| PeUnsignedAdmissionRequestMissing
| PeUnsignedAdmissionRequestMismatch
| PeRemoteReceiptMismatch.

#[global] Instance PipelineConflictReason_eq_dec : EqDecision PipelineConflictReason.
Proof. solve_decision. Defined.
#[global] Instance PipelineError_eq_dec : EqDecision PipelineError.
Proof. solve_decision. Defined.

(** [PipelineError::code] (media_pipeline/pipeline.rs:1150-1163). *)
Definition pipeline_error_code (e : PipelineError) : string :=
  match e with
  | PeInvalidReference _ => "invalid_reference"
  | PeInvalidActionField _ _ => "invalid_action_field"
  | PeDependencyConflict _ => "dependency_conflict"
  | PeSourceReceiptMismatch => "source_receipt_mismatch"
  | PeDerivedReceiptMismatch => "derived_receipt_mismatch"
  | PeBundleMismatch => "upload_bundle_mismatch"
  | PeUnsignedAdmissionMismatch => "unsigned_admission_mismatch"
  | PeUnsignedAdmissionRequestMissing => "unsigned_admission_request_missing"
  | PeUnsignedAdmissionRequestMismatch => "unsigned_admission_request_mismatch"
  | PeRemoteReceiptMismatch => "remote_receipt_mismatch"
  end.

(** ** Policy *)

(** [PipelinePolicy] (media_pipeline/pipeline.rs:62-73). *)
Inductive PipelinePolicy :=
| ImportOnly
| AutoNormalize (profile_revision : ProfileRevision)
| AutoUpload (profile_revision : ProfileRevision) (storage_profile_identity : StorageProfileIdentity)
             (source_archival : SourceArchivalPolicy) (source_retention : SourceRetentionPolicy).

#[global] Instance PipelinePolicy_eq_dec : EqDecision PipelinePolicy.
Proof. solve_decision. Defined.

(** [PipelinePolicy::auto_upload] (media_pipeline/pipeline.rs:77-87). *)
Definition auto_upload (profile_revision : ProfileRevision) (storage : StorageProfileIdentity) : PipelinePolicy :=
  AutoUpload profile_revision storage ArchivalDisabled RetentionDisabled.

(** [PipelinePolicy::profile_revision] (media_pipeline/pipeline.rs:90-98). *)
Definition policy_profile (p : PipelinePolicy) : option ProfileRevision :=
  match p with ImportOnly => None | AutoNormalize profile | AutoUpload profile _ _ _ => Some profile end.

(** [PipelinePolicy::storage_profile_identity] (media_pipeline/pipeline.rs:101-109). *)
Definition policy_storage (p : PipelinePolicy) : option StorageProfileIdentity :=
  match p with AutoUpload _ storage _ _ => Some storage | _ => None end.

(** [PipelinePolicy::source_archival] (media_pipeline/pipeline.rs:112-122). *)
Definition policy_archival (p : PipelinePolicy) : SourceArchivalPolicy :=
  match p with AutoUpload _ _ archival _ => archival | _ => ArchivalDisabled end.

(** [PipelinePolicy::source_retention] (media_pipeline/pipeline.rs:125-135). *)
Definition policy_retention (p : PipelinePolicy) : SourceRetentionPolicy :=
  match p with AutoUpload _ _ _ retention => retention | _ => RetentionDisabled end.

Definition is_auto_upload (p : PipelinePolicy) : bool := match p with AutoUpload _ _ _ _ => true | _ => false end.

(** ** The aggregate *)

(** [PipelineStartRequest] (media_pipeline/pipeline.rs:139-144). *)
Record PipelineStartRequest := mkStart {
  ps_pipeline_id : SessionPipelineId;
  ps_source : SourceRecording;
  ps_import_job_id : ImportJobId;
  ps_policy : PipelinePolicy;
}.

(** [DerivationNaturalKey] (media_pipeline/pipeline.rs:193-196). *)
Record DerivationNaturalKey := mkDerivationKey {
  dk_source_revision : SourceContentRevision;
  dk_profile_revision : ProfileRevision;
}.

#[global] Instance DerivationNaturalKey_eq_dec : EqDecision DerivationNaturalKey.
Proof. solve_decision. Defined.

(** [DerivationDependency] (media_pipeline/pipeline.rs:199-202). *)
Record DerivationDependency := mkDerivationDependency {
  dd_natural_key : DerivationNaturalKey;
  dd_job_id : DerivationJobId;
}.

(** [UploadDependency] (media_pipeline/pipeline.rs:217-220). *)
Record UploadDependency := mkUploadDependency {
  ud_natural_key : UploadJobNaturalKey;
  ud_job_id : UploadJobId;
}.

#[global] Instance DerivationDependency_eq_dec : EqDecision DerivationDependency.
Proof. solve_decision. Defined.
#[global] Instance UploadDependency_eq_dec : EqDecision UploadDependency.
Proof. solve_decision. Defined.

(** [SessionPipeline] (media_pipeline/pipeline.rs:238-246). *)
Record SessionPipeline := mkPipeline {
  pl_id : SessionPipelineId;
  pl_source : SourceRecording;
  pl_policy : PipelinePolicy;
  pl_import : ImportJobId;
  pl_derivation : option DerivationDependency;
  pl_upload : option UploadDependency;
  pl_unsigned_admission : option UnsignedUploadAdmissionReceipt;
}.

#[global] Instance SessionPipeline_eq_dec : EqDecision SessionPipeline.
Proof. solve_decision. Defined.

(** [PipelineStartOutcome] (media_pipeline/pipeline.rs:812-823). *)
Inductive PipelineStartOutcome :=
| PsCreated (pipeline : SessionPipeline)
| PsExisting (pipeline_id : SessionPipelineId)
| PsConflict (existing_pipeline_id : SessionPipelineId) (reason : PipelineConflictReason).

(** [DependencyAttachOutcome] (media_pipeline/pipeline.rs:843-847). *)
Inductive DependencyAttachOutcome :=
| Attached
| DependencyExisting
| DependencyConflict (reason : PipelineConflictReason).

#[global] Instance DependencyAttachOutcome_eq_dec : EqDecision DependencyAttachOutcome.
Proof. solve_decision. Defined.

(** [SessionPipeline::start] (media_pipeline/pipeline.rs:254-289). *)
Definition pipeline_start (request : PipelineStartRequest) (existing : option SessionPipeline) : PipelineStartOutcome :=
  match existing with
  | Some existing =>
      if negb (String.eqb (pl_import existing) (ps_import_job_id request))
      then PsConflict (pl_id existing) PcImportDependencyMismatch
      else if negb (bool_decide (pl_policy existing = ps_policy request))
      then PsConflict (pl_id existing) PcPolicyMismatch
      else PsExisting (pl_id existing)
  | None =>
      PsCreated (mkPipeline (ps_pipeline_id request) (ps_source request) (ps_policy request) (ps_import_job_id request)
                   None None None)
  end.

Definition with_derivation (d : DerivationDependency) (p : SessionPipeline) : SessionPipeline :=
  mkPipeline (pl_id p) (pl_source p) (pl_policy p) (pl_import p) (Some d) (pl_upload p) (pl_unsigned_admission p).
Definition with_upload (u : UploadDependency) (p : SessionPipeline) : SessionPipeline :=
  mkPipeline (pl_id p) (pl_source p) (pl_policy p) (pl_import p) (pl_derivation p) (Some u) (pl_unsigned_admission p).
Definition with_admission (r : UnsignedUploadAdmissionReceipt) (p : SessionPipeline) : SessionPipeline :=
  mkPipeline (pl_id p) (pl_source p) (pl_policy p) (pl_import p) (pl_derivation p) (pl_upload p) (Some r).

(** [SessionPipeline::attach_derivation] (media_pipeline/pipeline.rs:329-354). *)
Definition attach_derivation (natural_key : DerivationNaturalKey) (job_id : DerivationJobId) (p : SessionPipeline)
    : SessionPipeline * DependencyAttachOutcome :=
  if negb (bool_decide (policy_profile (pl_policy p) = Some (dk_profile_revision natural_key)))
  then (p, DependencyConflict PcPolicyMismatch) else
  match pl_derivation p with
  | None => (with_derivation (mkDerivationDependency natural_key job_id) p, Attached)
  | Some existing =>
      if bool_decide (dd_natural_key existing = natural_key) && String.eqb (dd_job_id existing) job_id
      then (p, DependencyExisting) else (p, DependencyConflict PcDerivationDependencyMismatch)
  end.

(** [SessionPipeline::attach_upload] (media_pipeline/pipeline.rs:357-382). *)
Definition attach_upload (natural_key : UploadJobNaturalKey) (job_id : UploadJobId) (p : SessionPipeline)
    : SessionPipeline * DependencyAttachOutcome :=
  if negb (bool_decide (policy_storage (pl_policy p) = Some (uk_storage_profile_identity natural_key)))
  then (p, DependencyConflict PcStorageProfileMismatch) else
  match pl_upload p with
  | None => (with_upload (mkUploadDependency natural_key job_id) p, Attached)
  | Some existing =>
      if bool_decide (ud_natural_key existing = natural_key) && String.eqb (ud_job_id existing) job_id
      then (p, DependencyExisting) else (p, DependencyConflict PcUploadDependencyMismatch)
  end.

(** [SessionPipeline::replace_upload_attempt] (media_pipeline/pipeline.rs:387-414). *)
Definition replace_upload_attempt (expected_job_id : UploadJobId) (natural_key : UploadJobNaturalKey)
    (retry_job_id : UploadJobId) (p : SessionPipeline) : SessionPipeline * DependencyAttachOutcome :=
  if negb (bool_decide (policy_storage (pl_policy p) = Some (uk_storage_profile_identity natural_key)))
  then (p, DependencyConflict PcStorageProfileMismatch) else
  match pl_upload p with
  | Some existing =>
      if bool_decide (ud_natural_key existing = natural_key) && String.eqb (ud_job_id existing) expected_job_id
      then (with_upload (mkUploadDependency natural_key retry_job_id) p, Attached)
      else if bool_decide (ud_natural_key existing = natural_key) && String.eqb (ud_job_id existing) retry_job_id
      then (p, DependencyExisting) else (p, DependencyConflict PcUploadDependencyMismatch)
  | None => (p, DependencyConflict PcUploadDependencyMismatch)
  end.

(** [SessionPipeline::record_unsigned_admission] (media_pipeline/pipeline.rs:567-613). *)
Definition record_unsigned_admission (receipt : UnsignedUploadAdmissionReceipt) (p : SessionPipeline)
    : SessionPipeline * DependencyAttachOutcome :=
  let mismatch := (p, DependencyConflict PcUnsignedAdmissionMismatch) in
  let request := at_request receipt in
  if negb (is_auto_upload (pl_policy p)) then (p, DependencyConflict PcPolicyMismatch) else
  if negb (is_unsigned (sr_provenance (pl_source p))) then mismatch else
  match pl_derivation p with
  | None => mismatch
  | Some derivation =>
      if negb (bool_decide (ar_source_revision request = dk_source_revision (dd_natural_key derivation))) then mismatch else
      if negb (bool_decide (policy_storage (pl_policy p) = Some (ar_storage_profile_identity request)))
         || negb (bool_decide (policy_archival (pl_policy p) = ar_source_archival request))
         || negb (String.eqb (ar_policy_revision request) DERIVED_UPLOAD_POLICY_REVISION)
      then mismatch else
      match pl_unsigned_admission p with
      | None => (with_admission receipt p, Attached)
      | Some existing => if bool_decide (existing = receipt) then (p, DependencyExisting) else mismatch
      end
  end.

(** [PipelineCommand] (media_pipeline/pipeline.rs:827-839). *)
Inductive PipelineCommand :=
| AttachDerivation (natural_key : DerivationNaturalKey) (job_id : DerivationJobId)
| AttachUpload (natural_key : UploadJobNaturalKey) (job_id : UploadJobId)
| RecordUnsignedAdmission (receipt : UnsignedUploadAdmissionReceipt).

(** [SessionPipeline::command] (media_pipeline/pipeline.rs:416-430). *)
Definition pipeline_command (command : PipelineCommand) (p : SessionPipeline) : SessionPipeline * DependencyAttachOutcome :=
  match command with
  | AttachDerivation natural_key job_id => attach_derivation natural_key job_id p
  | AttachUpload natural_key job_id => attach_upload natural_key job_id p
  | RecordUnsignedAdmission receipt => record_unsigned_admission receipt p
  end.

(** ** Evidence *)

(** [PipelineEvidence] (media_pipeline/pipeline.rs:788-794). *)
Record PipelineEvidence := mkEvidence {
  ev_source : option LocalSourceReceipt;
  ev_derived : option LocalDerivedReceipt;
  ev_unsigned_upload_request : option UnsignedUploadAdmissionRequest;
  ev_bundle : option FrozenUploadBundle;
  ev_remote : option RemoteBundleReceipt;
}.

Definition empty_evidence : PipelineEvidence := mkEvidence None None None None None.

(** [validate_local_source_receipt] (media_pipeline/pipeline.rs:1166-1193). *)
Definition validate_local_source_receipt (recording : SourceRecording) (receipt : LocalSourceReceipt)
    : result PipelineError unit :=
  if match sr_content_revision recording with
     | Some expected => negb (bool_decide (expected = lr_content_revision receipt)) | None => false
     end
  then Err PeSourceReceiptMismatch else
  match sr_provenance recording, lr_provenance receipt with
  | SpDeviceSigned expected, SpDeviceSigned actual =>
      if bool_decide (expected = actual) then Ok tt else Err PeSourceReceiptMismatch
  | SpLocallyValidatedUnsigned expected, SpLocallyValidatedUnsigned actual =>
      if bool_decide (lu_source_schema expected = lu_source_schema actual)
         && bool_decide (lu_validation_report expected = lu_validation_report actual)
         && bool_decide (lu_user_admission_receipt expected = lu_user_admission_receipt actual)
      then Ok tt else Err PeSourceReceiptMismatch
  | _, _ => Err PeSourceReceiptMismatch
  end.

(** [LocalDerivedReceipt::validate_against] (media_pipeline/pipeline.rs:772-784). *)
Definition derived_validate_against (derived : LocalDerivedReceipt) (key : DerivationNaturalKey) (job_id : DerivationJobId)
    : result PipelineError unit :=
  if negb (String.eqb (ld_derivation_job_id derived) job_id)
     || negb (bool_decide (ld_source_revision derived = dk_source_revision key))
     || negb (bool_decide (ld_profile_revision derived = dk_profile_revision key))
  then Err PeDerivedReceiptMismatch else Ok tt.

(** [SessionPipeline::validate_unsigned_upload_request] (media_pipeline/pipeline.rs:651-667). *)
Definition validate_unsigned_upload_request (p : SessionPipeline) (source : LocalSourceReceipt) (derived : LocalDerivedReceipt)
    (request : UnsignedUploadAdmissionRequest) : result PipelineError unit :=
  if negb (bool_decide (ar_source_revision request = lr_content_revision source))
     || negb (bool_decide (ar_inventory_digest request = lr_inventory_digest source))
     || negb (bool_decide (ar_derived_revision request = ld_derived_revision derived))
     || negb (bool_decide (policy_storage (pl_policy p) = Some (ar_storage_profile_identity request)))
     || negb (bool_decide (policy_archival (pl_policy p) = ar_source_archival request))
     || negb (String.eqb (ar_policy_revision request) DERIVED_UPLOAD_POLICY_REVISION)
  then Err PeUnsignedAdmissionRequestMismatch else Ok tt.

Definition admits (admission : option UnsignedUploadAdmissionReceipt) (request : UnsignedUploadAdmissionRequest) : bool :=
  match admission with Some receipt => admission_matches receipt request | None => false end.

(** [SessionPipeline::validate_bundle] (media_pipeline/pipeline.rs:615-649). *)
Definition validate_bundle (p : SessionPipeline) (source : LocalSourceReceipt) (derived : LocalDerivedReceipt)
    (bundle : FrozenUploadBundle) : result PipelineError unit :=
  if negb (bool_decide (fb_source_revision bundle = lr_content_revision source))
     || negb (bool_decide (fb_source_inventory_digest bundle = lr_inventory_digest source))
     || negb (bool_decide (fb_source_provenance bundle = lr_provenance source))
     || negb (bool_decide (fb_profile_revision bundle = ld_profile_revision derived))
     || negb (bool_decide (fb_derived_revision bundle = ld_derived_revision derived))
     || negb (bool_decide (Some (fb_storage_profile_identity bundle) = policy_storage (pl_policy p)))
     || negb (bool_decide (fb_source_archival bundle = policy_archival (pl_policy p)))
     || negb (String.eqb (fb_upload_policy_revision bundle) DERIVED_UPLOAD_POLICY_REVISION)
  then Err PeBundleMismatch else
  if is_unsigned (lr_provenance source) then
    let? request := rmap_err (fun _ => PeUnsignedAdmissionMismatch) (bundle_admission_request bundle) in
    if negb (bool_decide (fb_unsigned_admission bundle = pl_unsigned_admission p))
       || negb (admits (pl_unsigned_admission p) request)
    then Err PeUnsignedAdmissionMismatch else Ok tt
  else Ok tt.

(** [validate_remote_receipt] (media_pipeline/pipeline.rs:1215-1228). *)
Definition validate_remote_receipt (source : LocalSourceReceipt) (derived : LocalDerivedReceipt)
    (expected_key : UploadJobNaturalKey) (remote : RemoteBundleReceipt) : result PipelineError unit :=
  if negb (bool_decide (rb_natural_key remote = expected_key))
     || negb (bool_decide (rb_source_revision remote = lr_content_revision source))
     || negb (bool_decide (rb_derived_revision remote = ld_derived_revision derived))
  then Err PeRemoteReceiptMismatch else Ok tt.

(** ** Decisions *)

(** [AwaitingDependency] (media_pipeline/pipeline.rs:874-885). *)
Inductive AwaitingDependency :=
| AwaitImport (job_id : ImportJobId)
| AwaitDerivation (job_id : DerivationJobId)
| AwaitRemoteVerification (job_id : UploadJobId) (upload_bundle_revision : UploadBundleRevision).

(** [PipelineActionRequired] (media_pipeline/pipeline.rs:892-901). *)
Inductive PipelineActionRequired :=
| AdmitUnsignedUpload (request : UnsignedUploadAdmissionRequest)
| ResolvePolicy (code message : string).

(** [RestartReplayDecision] (media_pipeline/pipeline.rs:851-870). *)
Inductive RestartReplayDecision :=
| Awaiting (dependency : AwaitingDependency)
| EnqueueDerivation (natural_key : DerivationNaturalKey)
| ActionRequired (action : PipelineActionRequired)
| FreezeUploadBundle (source_revision : SourceContentRevision) (derived_revision : DerivedRevision)
                     (storage_profile_identity : StorageProfileIdentity)
| EnqueueUpload (natural_key : UploadJobNaturalKey)
| Complete.

#[global] Instance AwaitingDependency_eq_dec : EqDecision AwaitingDependency.
Proof. solve_decision. Defined.
#[global] Instance PipelineActionRequired_eq_dec : EqDecision PipelineActionRequired.
Proof. solve_decision. Defined.
#[global] Instance RestartReplayDecision_eq_dec : EqDecision RestartReplayDecision.
Proof. solve_decision. Defined.

(** [SessionPipeline::recover, upload] (media_pipeline/pipeline.rs:509-539): from the
    derivation's receipt on, once the source is admitted. *)
Definition recover_upload (p : SessionPipeline) (source : LocalSourceReceipt) (derived : LocalDerivedReceipt)
    (storage : StorageProfileIdentity) (evidence : PipelineEvidence) : result PipelineError RestartReplayDecision :=
  match ev_bundle evidence with
  | None => Ok (FreezeUploadBundle (lr_content_revision source) (ld_derived_revision derived) storage)
  | Some bundle =>
      let? _ := validate_bundle p source derived bundle in
      let upload_key := bundle_natural_key bundle in
      match pl_upload p with
      | None => Ok (EnqueueUpload upload_key)
      | Some upload =>
          if negb (bool_decide (ud_natural_key upload = upload_key))
          then Err (PeDependencyConflict PcUploadDependencyMismatch) else
          match ev_remote evidence with
          | None => Ok (Awaiting (AwaitRemoteVerification (ud_job_id upload) (fb_revision bundle)))
          | Some remote =>
              let? _ := validate_remote_receipt source derived upload_key remote in Ok Complete
          end
      end
  end.

(** [SessionPipeline::recover, admission] (media_pipeline/pipeline.rs:488-508): what an unsigned
    source still asks for. *)
Definition recover_admission (p : SessionPipeline) (source : LocalSourceReceipt) (derived : LocalDerivedReceipt)
    (evidence : PipelineEvidence) : result PipelineError (option RestartReplayDecision) :=
  if is_unsigned (lr_provenance source) then
    let? request := ok_or (ev_unsigned_upload_request evidence) PeUnsignedAdmissionRequestMissing in
    let? _ := validate_unsigned_upload_request p source derived request in
    if negb (admits (pl_unsigned_admission p) request) then Ok (Some (ActionRequired (AdmitUnsignedUpload request)))
    else Ok None
  else Ok None.

(** [SessionPipeline::recover] (media_pipeline/pipeline.rs:435-540). *)
Definition recover (p : SessionPipeline) (evidence : PipelineEvidence) : result PipelineError RestartReplayDecision :=
  match ev_source evidence with
  | None => Ok (Awaiting (AwaitImport (pl_import p)))
  | Some source =>
      let? _ := validate_local_source_receipt (pl_source p) source in
      match policy_profile (pl_policy p) with
      | None => Ok Complete
      | Some profile_revision =>
          let derivation_key := mkDerivationKey (lr_content_revision source) profile_revision in
          match pl_derivation p with
          | None => Ok (EnqueueDerivation derivation_key)
          | Some derivation =>
              if negb (bool_decide (dd_natural_key derivation = derivation_key))
              then Err (PeDependencyConflict PcDerivationDependencyMismatch) else
              match ev_derived evidence with
              | None => Ok (Awaiting (AwaitDerivation (dd_job_id derivation)))
              | Some derived =>
                  let? _ := derived_validate_against derived derivation_key (dd_job_id derivation) in
                  match policy_storage (pl_policy p) with
                  | None => Ok Complete
                  | Some storage =>
                      let? asked := recover_admission p source derived evidence in
                      match asked with
                      | Some decision => Ok decision
                      | None => recover_upload p source derived storage evidence
                      end
                  end
              end
          end
      end
  end.

(** [SessionPipeline::replay] (media_pipeline/pipeline.rs:545-550). *)
Definition replay := recover.

(** [PipelineStopPlan] (media_pipeline/pipeline.rs:969-973). *)
Record PipelineStopPlan := mkStopPlan {
  st_import_job_id : ImportJobId;
  st_derivation_job_id : option DerivationJobId;
  st_upload_job_id : option UploadJobId;
}.

(** [SessionPipeline::stop] (media_pipeline/pipeline.rs:553-565). *)
Definition pipeline_stop (p : SessionPipeline) : PipelineStopPlan :=
  mkStopPlan (pl_import p) (dd_job_id <$> pl_derivation p) (ud_job_id <$> pl_upload p).

(** [validate_pipeline_action_field] (media_pipeline/pipeline.rs:1203-1213). *)
Definition validate_pipeline_action_field (field value : string) (maximum : N) : result PipelineError unit :=
  if String.eqb value "" || (maximum <? str_len value)%N || has_control value
  then Err (PeInvalidActionField field maximum) else Ok tt.

(** [PipelineActionRequired::resolve_policy] (media_pipeline/pipeline.rs:904-921). *)
Definition resolve_policy (code message : string) : result PipelineError PipelineActionRequired :=
  let? _ := validate_pipeline_action_field "pipeline_action_code" code 128 in
  let? _ := validate_pipeline_action_field "pipeline_action_message" message 1024 in
  Ok (ResolvePolicy code message).

(** ** Batches *)

(** [PipelineBatchOutcome] (media_pipeline/pipeline.rs:1085-1109). *)
Inductive PipelineBatchOutcome :=
| PbCreated (pipeline : SessionPipeline)
| PbExisting (pipeline_id : SessionPipelineId)
| PbProcessing (pipeline_id : SessionPipelineId) (decision : RestartReplayDecision)
| PbActionRequired (action : PipelineActionRequired)
| PbComplete (pipeline_id : SessionPipelineId)
| PbConflict (reason : PipelineConflictReason)
| PbRejected (code : string) (retryable : bool).

(** [PipelineBatchStartItem] (media_pipeline/pipeline.rs:1069-1073). *)
Record PipelineBatchStartItem := mkBatchItem {
  bs_item_id : string;
  bs_request : PipelineStartRequest;
  bs_existing : option SessionPipeline;
}.

(** [PipelineBatchResult::start] (media_pipeline/pipeline.rs:993-1025): one tagged outcome an item. *)
Definition batch_start_item (item : PipelineBatchStartItem) : string * PipelineBatchOutcome :=
  (bs_item_id item,
   if negb (plain_reference (bs_item_id item)) then PbRejected "invalid_item_id" false else
   match pipeline_start (bs_request item) (bs_existing item) with
   | PsCreated pipeline => PbCreated pipeline
   | PsExisting pipeline_id => PbExisting pipeline_id
   | PsConflict _ reason => PbConflict reason
   end).

Definition batch_start (items : list PipelineBatchStartItem) : list (string * PipelineBatchOutcome) :=
  map batch_start_item items.

(** [PipelineBatchResult::from_replay] (media_pipeline/pipeline.rs:1028-1065). *)
Definition batch_replay_item (item : string * SessionPipelineId * result PipelineError RestartReplayDecision)
    : string * PipelineBatchOutcome :=
  let '(item_id, pipeline_id, outcome) := item in
  (item_id,
   match outcome with
   | Ok Complete => PbComplete pipeline_id
   | Ok (ActionRequired action) => PbActionRequired action
   | Ok decision => PbProcessing pipeline_id decision
   | Err error => PbRejected (pipeline_error_code error) false
   end).
