(* ===== verification/PipelineProofs.v ===== *)
(** * PipelineProofs: what a session pipeline guarantees

What a pipeline attached stays attached; a session counts as uploaded only with
the whole chain of evidence; an unsigned session leaves the machine only with
its admission; and replaying the decisions reaches completion. *)

From Stdlib Require Import NArith Lia Ascii String.
From stdpp Require Import base numbers list strings gmap sorting.
From S2P Require Import Prelude Domain Files Json Ingest Rational Profile MediaPlan Validation Manifest.
From S2P Require Import MediaStore UploadBundle UploadBundleProofs Pipeline.

Local Open Scope string_scope.

(** ** What is attached stays attached *)

(** The commands of the aggregate, with the retry of an upload. *)
Inductive PipelineOp :=
| PoCommand (command : PipelineCommand)
| PoReplace (expected_job_id : UploadJobId) (natural_key : UploadJobNaturalKey) (retry_job_id : UploadJobId).

Definition pipeline_op (op : PipelineOp) (p : SessionPipeline) : SessionPipeline * DependencyAttachOutcome :=
  match op with
  | PoCommand command => pipeline_command command p
  | PoReplace expected key retry => replace_upload_attempt expected key retry p
  end.

Fixpoint pipeline_ops (ops : list PipelineOp) (p : SessionPipeline) : SessionPipeline :=
  match ops with [] => p | op :: ops' => pipeline_ops ops' (pipeline_op op p).1 end.

Record pipeline_kept (p p' : SessionPipeline) : Prop := {
  pk_id : pl_id p' = pl_id p;
  pk_source : pl_source p' = pl_source p;
  pk_policy : pl_policy p' = pl_policy p;
  pk_import : pl_import p' = pl_import p;
  pk_derivation : forall d, pl_derivation p = Some d -> pl_derivation p' = Some d;
  pk_upload : forall u, pl_upload p = Some u -> exists u', pl_upload p' = Some u' /\ ud_natural_key u' = ud_natural_key u;
  pk_admission : forall r, pl_unsigned_admission p = Some r -> pl_unsigned_admission p' = Some r;
}.

Lemma pipeline_kept_refl p : pipeline_kept p p.
Proof. split; eauto. Qed.
#[local] Hint Resolve pipeline_kept_refl : core.

Lemma pipeline_kept_trans a b c : pipeline_kept a b -> pipeline_kept b c -> pipeline_kept a c.
Proof.
  intros [A1 A2 A3 A4 A5 A6 A7] [B1 B2 B3 B4 B5 B6 B7]. split; try congruence; eauto.
  intros u (v & Hv & E)%A6. destruct (B6 v Hv) as (w & Hw & E'). exists w. split; [done|congruence].
Qed.

(** What an attachment needs: nothing there yet. *)
Inductive attach_result (p : SessionPipeline) : SessionPipeline * DependencyAttachOutcome -> Prop :=
| ar_derivation d : pl_derivation p = None -> policy_profile (pl_policy p) = Some (dk_profile_revision (dd_natural_key d)) ->
    attach_result p (with_derivation d p, Attached)
| ar_upload u : pl_upload p = None -> policy_storage (pl_policy p) = Some (uk_storage_profile_identity (ud_natural_key u)) ->
    attach_result p (with_upload u p, Attached)
| ar_retry old u : pl_upload p = Some old -> ud_natural_key u = ud_natural_key old ->
    attach_result p (with_upload u p, Attached)
| ar_admission r : pl_unsigned_admission p = None -> attach_result p (with_admission r p, Attached)
| ar_same : attach_result p (p, DependencyExisting)
| ar_conflict reason : attach_result p (p, DependencyConflict reason).
#[local] Hint Constructors attach_result : core.

Lemma pipeline_op_result op p : attach_result p (pipeline_op op p).
Proof.
  destruct op as [[key id|key id|receipt]|expected key retry]; cbn [pipeline_op pipeline_command].
  - unfold attach_derivation. case_bool_decide as Hp; cbn [negb]; [|auto]. destruct (pl_derivation p) eqn:E;
      [destruct (_ && _); auto|]. by apply ar_derivation.
  - unfold attach_upload. case_bool_decide as Hp; cbn [negb]; [|auto]. destruct (pl_upload p) eqn:E;
      [destruct (_ && _); auto|]. by apply ar_upload.
  - unfold record_unsigned_admission. destruct (negb _); [auto|]. destruct (negb _); [auto|].
    destruct (pl_derivation p); [|auto]. destruct (negb _); [auto|]. destruct (_ || _); [auto|].
    destruct (pl_unsigned_admission p) eqn:E; [case_bool_decide; auto|]. by apply ar_admission.
  - unfold replace_upload_attempt. destruct (negb _); [auto|]. destruct (pl_upload p) as [u|] eqn:E; [|auto].
    destruct (bool_decide (ud_natural_key u = key)) eqn:Ek; [|cbn [andb]; auto]. apply bool_decide_eq_true in Ek.
    cbn [andb]. destruct (ud_job_id u =? expected)%string; [|destruct (ud_job_id u =? retry)%string; auto].
    by apply (ar_retry _ u).
Qed.

Lemma attach_kept p r : attach_result p r -> pipeline_kept p r.1.
Proof.
  destruct 1 as [d H _|u H _|old u H He|r H| |]; cbn [fst]; try done; split; cbn; try done; try congruence; eauto.
  intros x Hx. exists u. split; [done|]. congruence.
Qed.

Lemma pipeline_ops_kept ops p : pipeline_kept p (pipeline_ops ops p).
Proof.
  revert p. induction ops as [|op ops IH]; intros p; [done|]. cbn [pipeline_ops].
  eapply pipeline_kept_trans; [|apply IH]. apply attach_kept, pipeline_op_result.
Qed.

(** A pipeline never changes what it stands for: over any commands and
    retries its session, policy and import stay, a derivation or an unsigned
    admission that was attached stays exactly that one, and an attached upload
    keeps its bundle and destination (only its attempt can be replaced). A
    command that is not a new attachment leaves the pipeline as it was, so
    repeating an accepted command changes nothing. *)
Theorem pipeline_dependencies_are_permanent ops p :
  pipeline_kept p (pipeline_ops ops p) /\
  (forall op, (pipeline_op op p).2 <> Attached -> (pipeline_op op p).1 = p) /\
  forall command, (pipeline_command command p).2 <> Attached \/
    pipeline_command command (pipeline_command command p).1 = ((pipeline_command command p).1, DependencyExisting).
Proof.
  split; [apply pipeline_ops_kept|]. split.
  - intros op. by destruct (pipeline_op_result op p).
  - intros [key id|key id|receipt]; cbn [pipeline_command].
    + destruct (attach_derivation key id p) as [q o] eqn:E. cbn [fst snd]. revert E. unfold attach_derivation.
      destruct (negb (bool_decide _)) eqn:Ep; [intros [= <- <-]; by left|]. destruct (pl_derivation p).
      { destruct (_ && _); intros [= <- <-]; by left. }
      intros [= <- <-]. right. cbn. by rewrite Ep, bool_decide_eq_true_2, String.eqb_refl.
    + destruct (attach_upload key id p) as [q o] eqn:E. cbn [fst snd]. revert E. unfold attach_upload.
      destruct (negb (bool_decide _)) eqn:Ep; [intros [= <- <-]; by left|]. destruct (pl_upload p).
      { destruct (_ && _); intros [= <- <-]; by left. }
      intros [= <- <-]. right. cbn. by rewrite Ep, bool_decide_eq_true_2, String.eqb_refl.
    + destruct (record_unsigned_admission receipt p) as [q o] eqn:E. cbn [fst snd].
      destruct (decide (o = Attached)) as [->|]; [right|by left]. revert E. unfold record_unsigned_admission.
      destruct (negb (is_auto_upload _)) eqn:E1; [done|]. destruct (negb (is_unsigned _)) eqn:E2; [done|].
      destruct (pl_derivation p) as [d|] eqn:E3; [|done]. destruct (negb (bool_decide _)) eqn:E4; [done|].
      destruct (_ || _ || _) eqn:E5; [done|]. destruct (pl_unsigned_admission p); [by destruct (bool_decide (_ = receipt))|].
      intros [= <-]. cbn. by rewrite E1, E2, E3, E4, E5, bool_decide_eq_true_2.
Qed.

(** ** What a decision rests on *)

(** The evidence that lets a derivative leave the machine. *)
Record upload_grounds (p : SessionPipeline) (ev : PipelineEvidence) (source : LocalSourceReceipt) (derived : LocalDerivedReceipt)
    : Prop := {
  ug_source : ev_source ev = Some source /\ validate_local_source_receipt (pl_source p) source = Ok tt;
  ug_derived : ev_derived ev = Some derived;
  ug_derivation : exists d, pl_derivation p = Some d /\ dd_natural_key d = mkDerivationKey (ld_source_revision derived) (ld_profile_revision derived) /\
    dd_job_id d = ld_derivation_job_id derived;
  ug_revisions : ld_source_revision derived = lr_content_revision source /\ policy_profile (pl_policy p) = Some (ld_profile_revision derived);
  ug_admission : is_unsigned (lr_provenance source) = true -> exists request receipt,
    ev_unsigned_upload_request ev = Some request /\ validate_unsigned_upload_request p source derived request = Ok tt /\
    pl_unsigned_admission p = Some receipt /\ admission_matches receipt request = true;
}.

(** The bundle of that evidence, field by field. *)
Record bundle_grounds (p : SessionPipeline) (source : LocalSourceReceipt) (derived : LocalDerivedReceipt) (b : FrozenUploadBundle)
    : Prop := {
  bg_source : fb_source_revision b = lr_content_revision source /\ fb_source_inventory_digest b = lr_inventory_digest source /\
    fb_source_provenance b = lr_provenance source;
  bg_derived : fb_profile_revision b = ld_profile_revision derived /\ fb_derived_revision b = ld_derived_revision derived;
  bg_policy : policy_storage (pl_policy p) = Some (fb_storage_profile_identity b) /\
    fb_source_archival b = policy_archival (pl_policy p) /\ fb_upload_policy_revision b = DERIVED_UPLOAD_POLICY_REVISION;
  bg_admission : is_unsigned (lr_provenance source) = true -> exists request receipt,
    bundle_admission_request b = Ok request /\ pl_unsigned_admission p = Some receipt /\ fb_unsigned_admission b = Some receipt /\
    admission_matches receipt request = true;
}.

Lemma admits_ok a request : admits a request = true -> exists receipt, a = Some receipt /\ admission_matches receipt request = true.
Proof. destruct a as [r|]; [|done]. by exists r. Qed.

(** Every disjunct of a failed refusal. *)
Ltac refused_none :=
  repeat match goal with
    | H : _ || _ = false |- _ => apply orb_false_iff in H; destruct H
    | H : negb _ = false |- _ => apply negb_false_iff in H
    | H : bool_decide _ = true |- _ => apply bool_decide_eq_true in H
    | H : String.eqb _ _ = true |- _ => apply String.eqb_eq in H
    end.

Lemma validate_bundle_ok p source derived b : validate_bundle p source derived b = Ok tt -> bundle_grounds p source derived b.
Proof.
  unfold validate_bundle. rewrite guard_ok. intros [Hg Hv]. refused_none. constructor; [done|done|by split_and!|].
  intros Hu. rewrite Hu in Hv. apply rbind_ok in Hv as (request & Hr & Hv). apply guard_ok in Hv as [Hv _]. refused_none.
  apply rmap_err_ok in Hr. match goal with H : admits _ _ = true |- _ => apply admits_ok in H as (receipt & Hp & Hm) end.
  exists request, receipt. split_and!; congruence.
Qed.

Lemma derived_validate_ok derived key job : derived_validate_against derived key job = Ok tt ->
  ld_derivation_job_id derived = job /\ ld_source_revision derived = dk_source_revision key /\
  ld_profile_revision derived = dk_profile_revision key.
Proof. unfold derived_validate_against. rewrite guard_ok. intros [Hg _]. by refused_none. Qed.

(** The decisions of an upload policy that let a derivative leave. *)
Definition leaves_machine (d : RestartReplayDecision) : bool :=
  match d with
  | FreezeUploadBundle _ _ _ | EnqueueUpload _ | Awaiting (AwaitRemoteVerification _ _) | Complete => true
  | _ => false
  end.

Lemma recover_grounds p ev d :
  recover p ev = Ok d -> is_auto_upload (pl_policy p) = true -> leaves_machine d = true ->
  exists source derived storage, upload_grounds p ev source derived /\ policy_storage (pl_policy p) = Some storage /\
    recover_upload p source derived storage ev = Ok d.
Proof.
  intros Hr Ha Hl. revert Hr. unfold recover. destruct (pl_policy p) as [| |profile storage archival retention] eqn:Ep; [done|done|].
  destruct (ev_source ev) as [source|] eqn:Es; [|by intros [= <-]]. rewrite rbind_ok. intros ([] & Hv & Hr). revert Hr. cbn.
  destruct (pl_derivation p) as [dd|] eqn:Ed; [|by intros [= <-]]. rewrite guard_ok. intros [Hk Hr]. revert Hr. refused_none.
  destruct (ev_derived ev) as [derived|] eqn:Ee; [|by intros [= <-]]. rewrite rbind_ok. intros ([] & Hd%derived_validate_ok & Hr). revert Hr.
  cbn in Hd. destruct Hd as (D1 & D2 & D3). rewrite rbind_ok. intros (asked & Hask & Hr). revert Hask. unfold recover_admission.
  intros Hask. exists source, derived, storage. destruct asked as [d'|].
  { injection Hr as ->. destruct (is_unsigned _) in Hask; [|done]. apply rbind_ok in Hask as (request & _ & Hask).
    apply rbind_ok in Hask as (? & _ & Hask). destruct (negb _) in Hask; [|done]. by injection Hask as <-. }
  split; [|done]. constructor; [done|done| |by rewrite D2, D3, Ep|].
  - exists dd. by rewrite D2, D3.
  - intros Hu. rewrite Hu in Hask. apply rbind_ok in Hask as (request & Hq%ok_or_ok & Hask).
    apply rbind_ok in Hask as ([] & Hval & Hask). destruct (negb (admits _ _)) eqn:Eadm; [done|]. refused_none.
    apply admits_ok in Eadm as (receipt & Hp & Hm). by exists request, receipt.
Qed.

Lemma recover_upload_ok p source derived storage ev d b :
  recover_upload p source derived storage ev = Ok d -> ev_bundle ev = Some b -> bundle_grounds p source derived b.
Proof. unfold recover_upload. intros Hr Hb. rewrite Hb in Hr. apply rbind_ok in Hr as ([] & Hv & _). by apply validate_bundle_ok. Qed.


(** C11: an unsigned session never leaves the machine without the user's
    admission: whenever replay asks to freeze its bundle, to upload it, to wait
    for the remote copy, or says it is complete, the pipeline holds an admission
    with the statement and the exact request that the evidence asks for, and that
    request is of this source revision and inventory, this derivative, the
    policy's storage and archival. A bundle that is uploaded carries that very
    admission, made for the digest of its own objects and keys. *)
Theorem unsigned_upload_needs_admission p ev d :
  recover p ev = Ok d -> is_auto_upload (pl_policy p) = true -> is_unsigned (sr_provenance (pl_source p)) = true ->
  leaves_machine d = true ->
  exists source derived receipt,
    ev_source ev = Some source /\ ev_derived ev = Some derived /\
    pl_unsigned_admission p = Some receipt /\ at_statement receipt = UNSIGNED_ADMISSION_STATEMENT /\
    ev_unsigned_upload_request ev = Some (at_request receipt) /\
    ar_source_revision (at_request receipt) = lr_content_revision source /\
    ar_inventory_digest (at_request receipt) = lr_inventory_digest source /\
    ar_derived_revision (at_request receipt) = ld_derived_revision derived /\
    policy_storage (pl_policy p) = Some (ar_storage_profile_identity (at_request receipt)) /\
    ar_source_archival (at_request receipt) = policy_archival (pl_policy p) /\
    forall b, ev_bundle ev = Some b -> fb_unsigned_admission b = Some receipt /\
      ar_upload_request_digest (at_request receipt) = fb_upload_request_digest b.
Proof.
  intros Hr Ha Hu Hl. destruct (recover_grounds _ _ _ Hr Ha Hl) as (source & derived & storage & Hg & Hs & Hup).
  destruct Hg as [[Hsrc Hv] Hd _ _ Had].
  assert (Hun : is_unsigned (lr_provenance source) = true).
  { unfold validate_local_source_receipt in Hv. apply guard_ok in Hv as [_ Hv]. destruct (sr_provenance _); [done|].
    by destruct (lr_provenance source). }
  destruct (Had Hun) as (request & receipt & Hq & Hval & Hp & Hm). unfold admission_matches in Hm.
  rewrite andb_true_iff, String.eqb_eq, bool_decide_eq_true in Hm. destruct Hm as [Hst <-].
  unfold validate_unsigned_upload_request in Hval. apply guard_ok in Hval as [Hval _]. refused_none.
  exists source, derived, receipt. split_and!; try done. intros b Hb.
  destruct (bg_admission _ _ _ _ (recover_upload_ok _ _ _ _ _ _ _ Hup Hb) Hun) as (request & receipt' & Hrb & Hp' & Hfb & Hm').
  assert (receipt' = receipt) as -> by congruence. split; [done|].
  unfold bundle_admission_request in Hrb. apply rmap_err_ok in Hrb. apply rbind_ok in Hrb as (? & _ & Hrb).
  apply guard_ok in Hrb as [_ [= <-]]. unfold admission_matches in Hm'.
  rewrite andb_true_iff, bool_decide_eq_true in Hm'. destruct Hm' as [_ ->]. done.
Qed.

(** ** From the import to the remote copy *)

Section world.
Context `{Sha256}.

(** What the jobs that a pipeline waits for produce, and what its user grants. *)
Record PipelineWorld := mkWorld {
  w_source : LocalSourceReceipt;
  w_derivation_job : DerivationJobId;
  w_derived : LocalDerivedReceipt;
  w_input : UploadBundleInput;
  w_admitted_by : string;
  w_admitted_at : string;
  w_upload_job : UploadJobId;
  w_receipts : list CompletionBoundObjectReceipt;
}.

Definition admitted_input (i : UploadBundleInput) (admission : option UnsignedUploadAdmissionReceipt) : UploadBundleInput :=
  mkBundleInput (bi_namespace i) (bi_origin_identity i) (bi_session_or_source_id i) (bi_source_revision i)
    (bi_source_provenance i) (bi_source_inventory_digest i) admission (bi_profile_revision i) (bi_derived_revision i)
    (bi_storage_profile_identity i) (bi_source_archival i) (bi_upload_policy_revision i) (bi_objects i).

(** The pipeline as it is stored, with the evidence that is on disk. *)
Abbreviation Stage := (SessionPipeline * PipelineEvidence)%type (only parsing).

(** One decision carried out. *)
Definition perform (w : PipelineWorld) (d : RestartReplayDecision) (s : Stage) : option Stage :=
  let '(p, ev) := s in
  match d with
  | Awaiting (AwaitImport _) => Some (p, mkEvidence (Some (w_source w)) None None None None)
  | EnqueueDerivation key => Some ((attach_derivation key (w_derivation_job w) p).1, ev)
  | Awaiting (AwaitDerivation _) =>
      Some (p, mkEvidence (ev_source ev) (Some (w_derived w))
                 (match input_admission_request (w_input w) with Ok r => Some r | Err _ => None end) None None)
  | ActionRequired (AdmitUnsignedUpload request) =>
      match admit_request request (w_admitted_by w) (w_admitted_at w) with
      | Ok receipt => Some ((record_unsigned_admission receipt p).1, ev)
      | Err _ => None
      end
  | ActionRequired (ResolvePolicy _ _) => None
  | FreezeUploadBundle _ _ _ =>
      match freeze (admitted_input (w_input w) (pl_unsigned_admission p)) with
      | Ok b => Some (p, mkEvidence (ev_source ev) (ev_derived ev) (ev_unsigned_upload_request ev) (Some b) None)
      | Err _ => None
      end
  | EnqueueUpload key => Some ((attach_upload key (w_upload_job w) p).1, ev)
  | Awaiting (AwaitRemoteVerification _ _) =>
      match ev_bundle ev with
      | None => None
      | Some b => match verify_remote b (fb_storage_profile_identity b) (w_receipts w) with
                  | Ok r => Some (p, mkEvidence (ev_source ev) (ev_derived ev) (ev_unsigned_upload_request ev) (Some b) (Some r))
                  | Err _ => None
                  end
      end
  | Complete => Some s
  end.

(** Replay, decide, carry out, again. *)
Fixpoint run_pipeline (w : PipelineWorld) (fuel : nat) (s : Stage) : option Stage :=
  match fuel with
  | O => Some s
  | S fuel => match recover s.1 s.2 with
              | Ok d => match perform w d s with Some s' => run_pipeline w fuel s' | None => None end
              | Err _ => None
              end
  end.

Lemma run_pipeline_step w fuel s d s' :
  recover s.1 s.2 = Ok d -> perform w d s = Some s' -> run_pipeline w (S fuel) s = run_pipeline w fuel s'.
Proof. intros Hr Hp. cbn [run_pipeline]. by rewrite Hr, Hp. Qed.

(** The jobs' results fit the recording and the policy. *)
Record fits_pipeline (w : PipelineWorld) (recording : SourceRecording) (profile : ProfileRevision)
    (storage : StorageProfileIdentity) (archival : SourceArchivalPolicy) (admission : option UnsignedUploadAdmissionReceipt)
    (b : FrozenUploadBundle) (r : RemoteBundleReceipt) : Prop := {
  fw_source : validate_local_source_receipt recording (w_source w) = Ok tt;
  fw_derived : derived_validate_against (w_derived w) (mkDerivationKey (lr_content_revision (w_source w)) profile) (w_derivation_job w) = Ok tt;
  fw_input_source : bi_source_revision (w_input w) = lr_content_revision (w_source w) /\
    bi_source_inventory_digest (w_input w) = lr_inventory_digest (w_source w) /\ bi_source_provenance (w_input w) = lr_provenance (w_source w);
  fw_input_derived : bi_profile_revision (w_input w) = profile /\ bi_derived_revision (w_input w) = ld_derived_revision (w_derived w);
  fw_input_policy : bi_storage_profile_identity (w_input w) = storage /\ bi_source_archival (w_input w) = archival /\
    bi_upload_policy_revision (w_input w) = DERIVED_UPLOAD_POLICY_REVISION;
  fw_admission : if is_unsigned (lr_provenance (w_source w)) then exists request receipt,
      input_admission_request (w_input w) = Ok request /\
      admit_request request (w_admitted_by w) (w_admitted_at w) = Ok receipt /\ admission = Some receipt
    else admission = None;
  fw_frozen : freeze (admitted_input (w_input w) admission) = Ok b;
  fw_verified : verify_remote b storage (w_receipts w) = Ok r;
}.

Lemma validated_provenance recording source :
  validate_local_source_receipt recording source = Ok tt -> is_unsigned (lr_provenance source) = is_unsigned (sr_provenance recording).
Proof.
  unfold validate_local_source_receipt. rewrite guard_ok. intros [_ Hv]. by destruct (sr_provenance recording), (lr_provenance source).
Qed.

(** The admission does not change what is prepared. *)
Lemma prepare_admitted i a : prepare_upload_bundle (admitted_input i a) = prepare_upload_bundle i.
Proof.
  assert (Ht : forall os t, tally_objects (admitted_input i a) t os = tally_objects i t os).
  { induction os as [|o os IH]; intros t; [done|]. cbn [tally_objects].
    change (tally_object (admitted_input i a) t o) with (tally_object i t o). destruct (tally_object i t o); [apply IH|done]. }
  unfold prepare_upload_bundle. cbn. by rewrite Ht.
Qed.

(** The input's request is the frozen bundle's, and it is what the bundle was admitted for. *)
Lemma frozen_request i a b request :
  input_admission_request i = Ok request -> freeze (admitted_input i a) = Ok b ->
  bundle_admission_request b = Ok request /\
  request = mkAdmissionRequest (bi_source_revision i) (bi_source_inventory_digest i) (bi_derived_revision i)
              (fb_upload_request_digest b) (bi_storage_profile_identity i) (bi_source_archival i) (bi_upload_policy_revision i).
Proof.
  unfold input_admission_request. rewrite rbind_ok. intros (q & Hq & Hr) (q' & [Hq' -> _])%freeze_ok.
  rewrite prepare_admitted in Hq'. assert (q' = q) as -> by congruence. split; [exact Hr|].
  unfold admission_request_for_prepared in Hr. apply rmap_err_ok, rbind_ok in Hr as (? & _ & Hr). by apply guard_ok in Hr as [_ [= <-]].
Qed.

(** What the evidence of a world that fits lets through. *)
Lemma fits_bundle w recording profile storage archival retention admission b r p :
  fits_pipeline w recording profile storage archival admission b r ->
  pl_policy p = AutoUpload profile storage archival retention -> pl_unsigned_admission p = admission ->
  validate_bundle p (w_source w) (w_derived w) b = Ok tt.
Proof.
  intros [F1 F2 (S1 & S2 & S3) [D1 D2] (P1 & P2 & P3) Fa Ff Fv] Hp Hadm. unfold validate_bundle. rewrite Hp, Hadm.
  apply derived_validate_ok in F2 as (_ & _ & F2). cbn in F2.
  assert (Hff := Ff). apply freeze_ok in Hff as (q & [_ Eb _]).
  rewrite !bool_decide_eq_true_2 by (rewrite Eb; cbn; congruence). rewrite (proj2 (String.eqb_eq _ _)) by (rewrite Eb; cbn; congruence).
  cbn [negb orb]. destruct (is_unsigned _); [|done]. destruct Fa as (request & receipt & Hr & Ha & ->).
  destruct (frozen_request _ _ _ _ Hr Ff) as [-> _]. cbn [rmap_err rbind].
  unfold admit_request in Ha. apply rbind_ok in Ha as (? & _ & Ha). apply rbind_ok in Ha as (? & _ & Ha). injection Ha as <-.
  cbn. by rewrite bool_decide_eq_true_2.
Qed.

Lemma input_request_ok i request : input_admission_request i = Ok request ->
  ar_source_revision request = bi_source_revision i /\ ar_inventory_digest request = bi_source_inventory_digest i /\
  ar_derived_revision request = bi_derived_revision i /\ ar_storage_profile_identity request = bi_storage_profile_identity i /\
  ar_source_archival request = bi_source_archival i /\ ar_policy_revision request = bi_upload_policy_revision i.
Proof.
  unfold input_admission_request. rewrite rbind_ok. intros (q & _ & Hr%rmap_err_ok). apply rbind_ok in Hr as (? & _ & Hr).
  by apply guard_ok in Hr as [_ [= <-]].
Qed.

Definition request_evidence (w : PipelineWorld) : option UnsignedUploadAdmissionRequest :=
  match input_admission_request (w_input w) with Ok r => Some r | Err _ => None end.

(** The question that an unsigned source asks, and that it asks nothing once admitted. *)
Lemma fits_admission w recording profile storage archival retention admission b r p ev :
  fits_pipeline w recording profile storage archival admission b r ->
  pl_policy p = AutoUpload profile storage archival retention -> ev_unsigned_upload_request ev = request_evidence w ->
  (pl_unsigned_admission p = admission -> recover_admission p (w_source w) (w_derived w) ev = Ok None) /\
  (pl_unsigned_admission p = None -> recover_admission p (w_source w) (w_derived w) ev =
     Ok (if is_unsigned (lr_provenance (w_source w)) then ActionRequired ∘ AdmitUnsignedUpload <$> request_evidence w else None)).
Proof.
  intros [F1 F2 (S1 & S2 & S3) [D1 D2] (P1 & P2 & P3) Fa Ff Fv] Hp Hev. unfold recover_admission.
  destruct (is_unsigned _); [|done]. destruct Fa as (request & receipt & Hr & Ha & ->). revert Hev. unfold request_evidence. rewrite Hr.
  intros ->. cbn [ok_or rbind]. destruct (input_request_ok _ _ Hr) as (R1 & R2 & R3 & R4 & R5 & R6).
  assert (validate_unsigned_upload_request p (w_source w) (w_derived w) request = Ok tt) as ->.
  { unfold validate_unsigned_upload_request. rewrite Hp. cbn [policy_storage policy_archival].
    rewrite !bool_decide_eq_true_2 by congruence. by rewrite (proj2 (String.eqb_eq _ _)) by congruence. }
  cbn [rbind]. unfold admit_request in Ha. apply rbind_ok in Ha as (? & _ & Ha). apply rbind_ok in Ha as (? & _ & Ha). injection Ha as <-.
  split; intros ->; [|done]. cbn. by rewrite bool_decide_eq_true_2.
Qed.

(** The stages of a pipeline whose jobs fit. *)
Definition staged (request : PipelineStartRequest) (d : option DerivationDependency) (u : option UploadDependency)
    (a : option UnsignedUploadAdmissionReceipt) : SessionPipeline :=
  mkPipeline (ps_pipeline_id request) (ps_source request) (ps_policy request) (ps_import_job_id request) d u a.

Definition derivation_of (w : PipelineWorld) (profile : ProfileRevision) : DerivationDependency :=
  mkDerivationDependency (mkDerivationKey (lr_content_revision (w_source w)) profile) (w_derivation_job w).

Section fitting.
Context (w : PipelineWorld) (request : PipelineStartRequest) (profile : ProfileRevision) (storage : StorageProfileIdentity).
Context (archival : SourceArchivalPolicy) (retention : SourceRetentionPolicy) (admission : option UnsignedUploadAdmissionReceipt).
Context (b : FrozenUploadBundle) (r : RemoteBundleReceipt).
Hypothesis policy_is : ps_policy request = AutoUpload profile storage archival retention.
Hypothesis world_fits : fits_pipeline w (ps_source request) profile storage archival admission b r.

Abbreviation derivation := (Some (derivation_of w profile)) (only parsing).
Abbreviation evidence := (mkEvidence (Some (w_source w)) (Some (w_derived w)) (request_evidence w)) (only parsing).

(** Up to the derivative. *)
Lemma run_to_derivative n :
  run_pipeline w (3 + n) (staged request None None None, empty_evidence)
  = run_pipeline w n (staged request derivation None None, evidence None None).
Proof.
  assert (F1 := fw_source _ _ _ _ _ _ _ _ world_fits).
  assert (Hp : policy_profile (ps_policy request) = Some profile) by by rewrite policy_is.
  change (3 + n) with (S (S (S n))). erewrite run_pipeline_step; [|reflexivity..].
  rewrite (run_pipeline_step w _ _ (EnqueueDerivation (mkDerivationKey (lr_content_revision (w_source w)) profile))
             (staged request derivation None None, mkEvidence (Some (w_source w)) None None None None)).
  - apply (run_pipeline_step w _ _ (Awaiting (AwaitDerivation (w_derivation_job w)))); [|reflexivity].
    unfold recover. cbn. rewrite F1. cbn. by rewrite Hp, bool_decide_eq_true_2.
  - unfold recover. cbn. rewrite F1. cbn. by rewrite Hp.
  - cbn. unfold attach_derivation. cbn. by rewrite Hp, bool_decide_eq_true_2.
Qed.

(** From there on, replay is the question of the admission and then the upload. *)
Lemma recover_derived u a ev :
  ev_source ev = Some (w_source w) -> ev_derived ev = Some (w_derived w) ->
  recover (staged request derivation u a) ev =
  (let? asked := recover_admission (staged request derivation u a) (w_source w) (w_derived w) ev in
   match asked with
   | Some decision => Ok decision
   | None => recover_upload (staged request derivation u a) (w_source w) (w_derived w) storage ev
   end).
Proof.
  intros E1 E2. unfold recover. rewrite E1. cbn [staged pl_source pl_policy pl_derivation].
  rewrite (fw_source _ _ _ _ _ _ _ _ world_fits). cbn [rbind]. rewrite policy_is. cbn [policy_profile derivation_of dd_natural_key].
  rewrite bool_decide_eq_true_2 by done. cbn [negb]. rewrite E2. cbn [dd_job_id].
  cbn [derivation_of dd_job_id]. by rewrite (fw_derived _ _ _ _ _ _ _ _ world_fits).
Qed.

(** The admission, when the source is unsigned. *)
Lemma run_to_admission n : exists k, k <= 1 /\
  run_pipeline w (1 + n) (staged request derivation None None, evidence None None)
  = run_pipeline w (k + n) (staged request derivation None admission, evidence None None).
Proof.
  assert (Fa := fw_admission _ _ _ _ _ _ _ _ world_fits). assert (Hs := validated_provenance _ _ (fw_source _ _ _ _ _ _ _ _ world_fits)).
  destruct (fits_admission w _ _ _ _ retention _ _ _ (staged request derivation None None) (evidence None None) world_fits policy_is eq_refl) as [_ Hask].
  specialize (Hask eq_refl). destruct (is_unsigned _) eqn:Eu; [|exists 1; by rewrite Fa].
  destruct Fa as (q & receipt & Hq & Hr & Ea). exists 0. split; [lia|]. unfold request_evidence in *. rewrite Hq in *.
  apply (run_pipeline_step w n _ (ActionRequired (AdmitUnsignedUpload q))).
  { cbn [fst snd]. by rewrite recover_derived, Hask. }
  cbn [perform]. rewrite Hr. rewrite Ea. destruct (input_request_ok _ _ Hq) as (R1 & R2 & R3 & R4 & R5 & R6).
  destruct world_fits as [_ _ (S1 & _ & _) _ (P1 & P2 & P3) _ _ _].
  unfold record_unsigned_admission. cbn [staged pl_policy pl_source pl_derivation pl_unsigned_admission]. rewrite policy_is. cbn [is_auto_upload negb].
  rewrite <- Hs. cbn [negb]. unfold admit_request in Hr. apply rbind_ok in Hr as (? & _ & Hr). apply rbind_ok in Hr as (? & _ & Hr).
  injection Hr as <-. cbn [at_request derivation_of dd_natural_key dk_source_revision policy_storage policy_archival].
  rewrite !bool_decide_eq_true_2 by congruence. by rewrite (proj2 (String.eqb_eq _ _)) by congruence.
Qed.

(** The bundle, the upload and the remote copy. *)
Definition upload_of : UploadDependency := mkUploadDependency (bundle_natural_key b) (w_upload_job w).

Lemma recover_admitted u ev :
  ev_source ev = Some (w_source w) -> ev_derived ev = Some (w_derived w) -> ev_unsigned_upload_request ev = request_evidence w ->
  recover (staged request derivation u admission) ev
  = recover_upload (staged request derivation u admission) (w_source w) (w_derived w) storage ev.
Proof.
  intros E1 E2 E3. rewrite recover_derived by done.
  by rewrite (proj1 (fits_admission _ _ _ _ _ retention _ _ _ (staged request derivation u admission) ev world_fits policy_is E3) eq_refl).
Qed.

Lemma run_to_completion n :
  run_pipeline w (3 + n) (staged request derivation None admission, evidence None None)
  = run_pipeline w n (staged request derivation (Some upload_of) admission, evidence (Some b) (Some r)).
Proof.
  assert (Hv := fun u => fits_bundle w _ _ _ _ retention _ _ _ (staged request derivation u admission) world_fits policy_is eq_refl).
  assert (Ff := fw_frozen _ _ _ _ _ _ _ _ world_fits). assert (Fv := fw_verified _ _ _ _ _ _ _ _ world_fits).
  destruct (verify_remote_ok _ _ _ _ Fv) as (_ & _ & Hst & _). change (3 + n) with (S (S (S n))).
  rewrite (run_pipeline_step w _ _ (FreezeUploadBundle (lr_content_revision (w_source w)) (ld_derived_revision (w_derived w)) storage)
             (staged request derivation None admission, evidence (Some b) None)).
  - rewrite (run_pipeline_step w _ _ (EnqueueUpload (bundle_natural_key b)) (staged request derivation (Some upload_of) admission, evidence (Some b) None)).
    + apply (run_pipeline_step w _ _ (Awaiting (AwaitRemoteVerification (w_upload_job w) (fb_revision b)))).
      * cbn [fst snd]. rewrite recover_admitted by done. unfold recover_upload. cbn [ev_bundle]. rewrite Hv. cbn [rbind staged pl_upload upload_of ud_natural_key].
        by rewrite bool_decide_eq_true_2.
      * cbn. by rewrite <- Hst, Fv.
    + cbn [fst snd]. rewrite recover_admitted by done. unfold recover_upload. cbn [ev_bundle]. by rewrite Hv.
    + cbn [perform]. unfold attach_upload. cbn [staged pl_policy pl_upload]. rewrite policy_is. cbn [policy_storage bundle_natural_key uk_storage_profile_identity].
      by rewrite bool_decide_eq_true_2 by congruence.
  - cbn [fst snd]. by rewrite recover_admitted.
  - cbn [perform staged pl_unsigned_admission]. by rewrite Ff.
Qed.

Lemma recover_complete :
  recover (staged request derivation (Some upload_of) admission) (evidence (Some b) (Some r)) = Ok Complete.
Proof.
  assert (Hv := fits_bundle w _ _ _ _ retention _ _ _ (staged request derivation (Some upload_of) admission) world_fits policy_is eq_refl).
  rewrite recover_admitted by done. unfold recover_upload. cbn [ev_bundle ev_remote]. rewrite Hv. cbn [rbind staged pl_upload upload_of ud_natural_key].
  rewrite bool_decide_eq_true_2 by done. cbn [negb]. destruct world_fits as [_ _ (S1 & _ & _) [_ D2] _ _ Ff Fv].
  apply freeze_ok in Ff as (q & [_ Eb _]). destruct (verify_remote_ok _ _ _ _ Fv) as (_ & Hk & _ & _ & Hd & Hs & _).
  unfold validate_remote_receipt. rewrite !bool_decide_eq_true_2; [done|..]; [rewrite Hd|rewrite Hs|done]; rewrite Eb; cbn; congruence.
Qed.
End fitting.

(** C12: a pipeline reaches the remote copy: when the import, the derivation, the
    freeze of the bundle and the verification of its upload give results that
    fit the recording and the policy, and the user grants the admission that an
    unsigned source asks for, then carrying out at most seven replay decisions
    takes a started pipeline to completion, signed or not, with the bundle, the
    remote receipt and the admission on record. Replay never stops at an error
    or at a decision that cannot be carried out. *)
Theorem pipeline_reaches_completion w request profile storage archival retention admission b r :
  ps_policy request = AutoUpload profile storage archival retention ->
  fits_pipeline w (ps_source request) profile storage archival admission b r ->
  exists p p' ev, pipeline_start request None = PsCreated p /\
    run_pipeline w 7 (p, empty_evidence) = Some (p', ev) /\ recover p' ev = Ok Complete /\
    ev_bundle ev = Some b /\ ev_remote ev = Some r /\ pl_unsigned_admission p' = admission /\
    pl_upload p' = Some (mkUploadDependency (bundle_natural_key b) (w_upload_job w)).
Proof.
  intros Hp Hf. destruct (run_to_admission w request profile storage archival retention admission b r Hp Hf 3) as (k & Hk & Hrun).
  exists (staged request None None None). do 2 eexists. split; [done|].
  change 7 with (3 + 4). erewrite run_to_derivative by done. change 4 with (1 + 3). rewrite Hrun.
  assert (Hend : run_pipeline w (k + 3) (staged request (Some (derivation_of w profile)) None admission,
      mkEvidence (Some (w_source w)) (Some (w_derived w)) (request_evidence w) None None)
    = Some (staged request (Some (derivation_of w profile)) (Some (upload_of w b)) admission,
      mkEvidence (Some (w_source w)) (Some (w_derived w)) (request_evidence w) (Some b) (Some r))).
  { rewrite Nat.add_comm. erewrite run_to_completion by done. destruct k as [|[|k]]; [done| |lia].
    erewrite run_pipeline_step; [reflexivity|by eapply recover_complete|done]. }
  split; [exact Hend|]. split; [by eapply recover_complete|done].
Qed.
End world.

(** ** An unsigned session that is uploaded *)

Module DemoPipeline.
#[local] Existing Instance DemoSha.sha.

Definition digest (b : byte) : Digest "sha256:" := from_material "sha256:" [b].
Definition profile : ProfileRevision := digest Byte.x04.
Definition provenance (inventory : option InventoryDigest) : SourceProvenance :=
  SpLocallyValidatedUnsigned (mkUnsigned DeviceSessionV2 [mkCheck "layout" true "ok"] inventory None).
Definition recording : SourceRecording :=
  mkRecording (from_material "candidate:sha256:" []) (Published (digest Byte.x01)) (Some (digest Byte.x01)) Lan DeviceSessionV2 "session"
    (mkLocator "source:card" None None) [] (mkMediaPlan SeparateEyes SourceH264 None None None 1 false None None)
    (provenance None) pending_unsigned.
Definition policy : PipelinePolicy := auto_upload profile "storage".
Definition request : PipelineStartRequest := mkStart "pipeline-1" recording "import-1" policy.

Definition source : LocalSourceReceipt :=
  mkSourceReceipt (digest Byte.x01) (digest Byte.x02) (mkSafePath "left.mp4" eq_refl) "commit-1" (provenance (Some (digest Byte.x02))) "now".
Definition derived : LocalDerivedReceipt :=
  mkLocalDerived "derivation-1" (digest Byte.x01) (digest Byte.x02) profile (digest Byte.x05) "derived" "commit-2" "now".
Definition object (role : UploadObjectRole) : UploadObjectInput := mkObjectInput role "local/artifact" 3 [Byte.x07] "video/mp4".
Definition input : UploadBundleInput :=
  mkBundleInput ["prod"] "device" "session" (digest Byte.x01) (provenance (Some (digest Byte.x02))) (digest Byte.x02) None profile
    (digest Byte.x05) "storage" ArchivalDisabled DERIVED_UPLOAD_POLICY_REVISION
    (map object [UoSourceManifest; UoProvenanceReport; UoDerivedMedia "0.mp4"; UoDerivedManifest]).

Definition default_request : UnsignedUploadAdmissionRequest :=
  mkAdmissionRequest (digest Byte.x01) (digest Byte.x02) (digest Byte.x05) (digest Byte.x01) "" ArchivalDisabled "".
Definition asked : UnsignedUploadAdmissionRequest :=
  match input_admission_request input with Ok r => r | Err _ => default_request end.
Definition receipt : UnsignedUploadAdmissionReceipt :=
  match admit_request asked "me" "now" with Ok r => r | Err _ => mkAdmissionReceipt "" "" asked "" "" end.
Definition bundle : FrozenUploadBundle :=
  match freeze (admitted_input input (Some receipt)) with Ok b => b | Err _ => DemoBundle.none end.
Definition receipts : list CompletionBoundObjectReceipt := map DemoBundle.receipt (fb_objects bundle).
Definition remote : RemoteBundleReceipt :=
  match verify_remote bundle "storage" receipts with
  | Ok r => r
  | Err _ => mkRemote (bundle_natural_key bundle) (digest Byte.x01) (digest Byte.x01) NotArchived []
  end.
Definition world : PipelineWorld := mkWorld source "derivation-1" derived input "me" "now" "upload-1" receipts.

Lemma demo_world_fits : fits_pipeline world recording profile "storage" ArchivalDisabled (Some receipt) bundle remote.
Proof.
  constructor; try by vm_compute. exists asked, receipt. by vm_compute.
Qed.

(** Its last two stages. *)
Definition uploaded : SessionPipeline :=
  staged request (Some (derivation_of world profile)) (Some (upload_of world bundle)) (Some receipt).
Definition evidence (r : option RemoteBundleReceipt) : PipelineEvidence :=
  mkEvidence (Some source) (Some derived) (Some asked) (Some bundle) r.

Example complete : recover uploaded (evidence (Some remote)) = Ok Complete.
Proof. by vm_compute. Qed.

(** An admission that was made for other objects is refused. *)
Example other_objects_refused :
  let other := mkAdmissionReceipt "id" UNSIGNED_ADMISSION_STATEMENT
    (mkAdmissionRequest (digest Byte.x01) (digest Byte.x02) (digest Byte.x05) (digest Byte.x09) "storage" ArchivalDisabled DERIVED_UPLOAD_POLICY_REVISION)
    "me" "now" in
  recover (staged request (Some (derivation_of world profile)) None (Some other)) (mkEvidence (Some source) (Some derived) (Some asked) None None)
  = Ok (ActionRequired (AdmitUnsignedUpload asked)).
Proof. by vm_compute. Qed.

(** A retry moves the dependency to the new attempt; the bundle stays. *)
Example retry_replaces_the_attempt :
  let '(p, o) := replace_upload_attempt "upload-1" (bundle_natural_key bundle) "upload-2" uploaded in
  o = Attached /\ recover p (evidence None) = Ok (Awaiting (AwaitRemoteVerification "upload-2" (fb_revision bundle))).
Proof. by vm_compute. Qed.
End DemoPipeline.

#[local] Existing Instance DemoSha.sha.


Lemma unsigned_upload_needs_admission_witness :
  exists receipt, pl_unsigned_admission DemoPipeline.uploaded = Some receipt /\ at_statement receipt = UNSIGNED_ADMISSION_STATEMENT.
Proof.
  destruct (unsigned_upload_needs_admission _ _ _ DemoPipeline.complete eq_refl eq_refl eq_refl) as (s & d & r & _ & _ & H3 & H4 & _).
  exists r. exact (conj H3 H4).
Defined.

Lemma pipeline_reaches_completion_witness :
  exists p' ev, run_pipeline DemoPipeline.world 7 (staged DemoPipeline.request None None None, empty_evidence) = Some (p', ev) /\
    recover p' ev = Ok Complete.
Proof.
  destruct (pipeline_reaches_completion DemoPipeline.world DemoPipeline.request _ _ _ RetentionDisabled _ _ _ eq_refl DemoPipeline.demo_world_fits) as (p & p' & ev & Hp & Hr & Hc & _).
  injection Hp as <-. exists p', ev. exact (conj Hr Hc).
Defined.
