(* ===== verification/ImportStore.v ===== *)
(** * ImportStore: the durable rows of imports and of session pipelines (media_store/)

The other half of the media database: observed media generations, import jobs
with their file plan, checkpoint ledger and acquisition locator, the receipts
that fence a second import, and the pipeline that belongs to each source.  An
operation is a transaction: it returns the new tables, or an error that leaves
the old ones.  A JSON column is the value it stands for. *)

From Stdlib Require Import NArith Lia Ascii String.
From stdpp Require Import base numbers list strings gmap sorting.
From S2P Require Import Prelude Domain Files Json Ingest Import Rational Profile MediaPlan Validation Manifest.
From S2P Require Import Derivation MediaStore DerivationStore UploadBundle Pipeline.

Local Open Scope string_scope.

Definition CURRENT_IMPORT_SPEC_VERSION : N := 1.

(** [media_generations] (media_store/schema.rs:27-35) by its id. *)
Record GenerationRow := mkGenerationRow {
  gn_identity_digest : string;
  gn_generation : MediaGeneration;
  gn_observation_epoch : N;
  gn_is_present : bool;
  gn_first_observed_at : string;
  gn_last_observed_at : string;
}.

(** [media_import_jobs] (media_store/schema.rs:39-51) by its job. *)
Record ImportRow := mkImportRow {
  jw_natural_key : string;
  jw_request_digest : string;
  jw_snapshot : ImportSnapshot;
  jw_state_version : N;
  jw_is_terminal : bool;
  jw_created_at : string;
  jw_updated_at : string;
}.

(** [media_import_specs] (media_store/schema.rs:53-58). *)
Record ImportSpecRow := mkImportSpecRow { js_spec_version : N; js_spec : ImportSpec }.

(** [media_import_files] (media_store/schema.rs:60-70), of one job in the order of
    the ordinals. *)
Record ImportFileRow := mkImportFileRow {
  jf_file_id : string;
  jf_expected_size : N;
  jf_expected_sha256 : option string;
  jf_file_spec : ImportFileSpec;
}.

(** [media_import_checkpoints] (media_store/schema.rs:72-91) by job and file. *)
Record ImportCheckpointRow := mkImportCheckpointRow {
  jc_durable_offset : N;
  jc_expected_size : N;
  jc_source_sha256 : option string;
  jc_target_sha256 : option string;
  jc_verified : bool;
  jc_checkpoint : ImportFileCheckpoint;
  jc_updated_at : string;
}.

(** [media_import_locators] (media_store/schema.rs:93-102). *)
Record ImportLocatorRow := mkImportLocatorRow {
  jl_media_generation_id : option string;
  jl_locator_version : N;
  jl_locator : MediaLocator;
  jl_installed_at : string;
  jl_updated_at : string;
}.

#[global] Instance UnsignedImportPolicy_eq_dec : EqDecision UnsignedImportPolicy.
Proof. solve_decision. Defined.
#[global] Instance ImportPolicy_eq_dec : EqDecision ImportPolicy.
Proof. solve_decision. Defined.
#[global] Instance ImportSpec_eq_dec : EqDecision ImportSpec.
Proof. solve_decision. Defined.

(** [SourceReceipt] (media_store/model.rs:224-232); the commit receipt is a JSON value, of which
    only its text matters when it is a string. *)
Record SourceReceipt := mkSourceReceiptRow {
  rx_source_revision : string;
  rx_source_identity : string;
  rx_sealed_inventory_digest : string;
  rx_provenance : SourceProvenance;
  rx_local_path : string;
  rx_commit_receipt : option string;
  rx_verified_at : string;
}.

(** [LibraryImportReceipt] (media_store/model.rs:249-259). *)
Record LibraryImportReceipt := mkImportReceipt {
  li_receipt_id : string;
  li_import_job_id : string;
  li_source_revision : string;
  li_source_identity : string;
  li_sealed_inventory_digest : string;
  li_provenance : SourceProvenance;
  li_local_path : string;
  li_commit_receipt : option string;
  li_committed_at : string;
}.

#[global] Instance SourceReceipt_eq_dec : EqDecision SourceReceipt.
Proof. solve_decision. Defined.
#[global] Instance LibraryImportReceipt_eq_dec : EqDecision LibraryImportReceipt.
Proof. solve_decision. Defined.

(** *** Pipelines *)

(** [PipelineStage] (media_store/model.rs:283-287). *)
Inductive PipelineStage := StageImport | StageDerivation | StageUpload.

(** The JSON of a dependency. *)
Inductive DependencyDetail :=
| DetailImport (job_id : ImportJobId)
| DetailDerivation (d : DerivationDependency)
| DetailUpload (u : UploadDependency).

(** [PipelineDependency] (media_store/model.rs:309-314). *)
Record PipelineDependency := mkDependency {
  pd_stage : PipelineStage;
  pd_job_id : string;
  pd_required_milestone : string;
  pd_detail : DependencyDetail;
}.

#[global] Instance PipelineStage_eq_dec : EqDecision PipelineStage.
Proof. solve_decision. Defined.
#[global] Instance DependencyDetail_eq_dec : EqDecision DependencyDetail.
Proof. solve_decision. Defined.
#[global] Instance PipelineDependency_eq_dec : EqDecision PipelineDependency.
Proof. solve_decision. Defined.

(** [PipelineSnapshot] (media_store/model.rs:317-326). *)
Record PipelineSnapshot := mkPipelineSnapshot {
  pn_pipeline_id : string;
  pn_source_key : string;
  pn_pipeline : SessionPipeline;
  pn_action_required : option PipelineActionRequired;
  pn_pipeline_version : N;
  pn_dependencies : list PipelineDependency;
  pn_created_at : string;
  pn_updated_at : string;
}.

#[global] Instance PipelineSnapshot_eq_dec : EqDecision PipelineSnapshot.
Proof. solve_decision. Defined.

(** [media_pipelines] (media_store/schema.rs:177-188) by its id. *)
Record PipelineRow := mkPipelineRow {
  pq_source_key : string;
  pq_pipeline : SessionPipeline;
  pq_policy : PipelinePolicy;
  pq_action_required : option PipelineActionRequired;
  pq_pipeline_version : N;
  pq_created_at : string;
  pq_updated_at : string;
}.

(** The tables; the dependencies of a pipeline in the order of their ordinals. *)
Record ImportDb := mkImportDb {
  ib_generations : gmap string GenerationRow;
  ib_jobs : gmap string ImportRow;
  ib_specs : gmap string ImportSpecRow;
  ib_files : gmap string (list ImportFileRow);
  ib_checkpoints : gmap (string * string) ImportCheckpointRow;
  ib_locators : gmap string ImportLocatorRow;
  ib_outbox : Outbox ImportSnapshot;
  ib_source_receipts : gmap string SourceReceipt;
  ib_import_receipts : gmap string LibraryImportReceipt;
  ib_pipelines : gmap string PipelineRow;
  ib_dependencies : gmap string (list PipelineDependency);
  ib_imports_revision : N;
  ib_pipelines_revision : N;
}.

Section setters.
Context (db : ImportDb).
Definition set_generations (x : gmap string GenerationRow) : ImportDb :=
  mkImportDb x (ib_jobs db) (ib_specs db) (ib_files db) (ib_checkpoints db) (ib_locators db) (ib_outbox db)
    (ib_source_receipts db) (ib_import_receipts db) (ib_pipelines db) (ib_dependencies db) (ib_imports_revision db) (ib_pipelines_revision db).
Definition set_import_jobs (x : gmap string ImportRow) : ImportDb :=
  mkImportDb (ib_generations db) x (ib_specs db) (ib_files db) (ib_checkpoints db) (ib_locators db) (ib_outbox db)
    (ib_source_receipts db) (ib_import_receipts db) (ib_pipelines db) (ib_dependencies db) (ib_imports_revision db) (ib_pipelines_revision db).
Definition set_import_specs (x : gmap string ImportSpecRow) : ImportDb :=
  mkImportDb (ib_generations db) (ib_jobs db) x (ib_files db) (ib_checkpoints db) (ib_locators db) (ib_outbox db)
    (ib_source_receipts db) (ib_import_receipts db) (ib_pipelines db) (ib_dependencies db) (ib_imports_revision db) (ib_pipelines_revision db).
Definition set_import_files (x : gmap string (list ImportFileRow)) : ImportDb :=
  mkImportDb (ib_generations db) (ib_jobs db) (ib_specs db) x (ib_checkpoints db) (ib_locators db) (ib_outbox db)
    (ib_source_receipts db) (ib_import_receipts db) (ib_pipelines db) (ib_dependencies db) (ib_imports_revision db) (ib_pipelines_revision db).
Definition set_ledger (x : gmap (string * string) ImportCheckpointRow) : ImportDb :=
  mkImportDb (ib_generations db) (ib_jobs db) (ib_specs db) (ib_files db) x (ib_locators db) (ib_outbox db)
    (ib_source_receipts db) (ib_import_receipts db) (ib_pipelines db) (ib_dependencies db) (ib_imports_revision db) (ib_pipelines_revision db).
Definition set_locators (x : gmap string ImportLocatorRow) : ImportDb :=
  mkImportDb (ib_generations db) (ib_jobs db) (ib_specs db) (ib_files db) (ib_checkpoints db) x (ib_outbox db)
    (ib_source_receipts db) (ib_import_receipts db) (ib_pipelines db) (ib_dependencies db) (ib_imports_revision db) (ib_pipelines_revision db).
Definition set_outbox (x : Outbox ImportSnapshot) : ImportDb :=
  mkImportDb (ib_generations db) (ib_jobs db) (ib_specs db) (ib_files db) (ib_checkpoints db) (ib_locators db) x
    (ib_source_receipts db) (ib_import_receipts db) (ib_pipelines db) (ib_dependencies db) (ib_imports_revision db) (ib_pipelines_revision db).
Definition set_receipts (x : gmap string SourceReceipt) (y : gmap string LibraryImportReceipt) : ImportDb :=
  mkImportDb (ib_generations db) (ib_jobs db) (ib_specs db) (ib_files db) (ib_checkpoints db) (ib_locators db) (ib_outbox db)
    x y (ib_pipelines db) (ib_dependencies db) (ib_imports_revision db) (ib_pipelines_revision db).
Definition set_pipelines (x : gmap string PipelineRow) (y : gmap string (list PipelineDependency)) : ImportDb :=
  mkImportDb (ib_generations db) (ib_jobs db) (ib_specs db) (ib_files db) (ib_checkpoints db) (ib_locators db) (ib_outbox db)
    (ib_source_receipts db) (ib_import_receipts db) x y (ib_imports_revision db) (ib_pipelines_revision db).
Definition set_revisions (x y : N) : ImportDb :=
  mkImportDb (ib_generations db) (ib_jobs db) (ib_specs db) (ib_files db) (ib_checkpoints db) (ib_locators db) (ib_outbox db)
    (ib_source_receipts db) (ib_import_receipts db) (ib_pipelines db) (ib_dependencies db) x y.
End setters.

Definition bump_imports (db : ImportDb) : result MediaStoreError ImportDb :=
  let? revision := bump_projection_revision (ib_imports_revision db) in Ok (set_revisions db revision (ib_pipelines_revision db)).
Definition bump_pipelines (db : ImportDb) : result MediaStoreError ImportDb :=
  let? revision := bump_projection_revision (ib_pipelines_revision db) in Ok (set_revisions db (ib_imports_revision db) revision).

Definition conflict {A} (detail : string) : result MediaStoreError A := Err (MsConflict detail).
Definition sqlite {A} (message : string) : result MediaStoreError A := Err (MsSqlite message).

(** ** Media generations *)

(** [digest_identity!, digest_hex] (ingest/identity.rs:161-163). *)
Definition digest_hex {prefix : string} (d : Digest prefix) : string :=
  default "" (strip_prefix prefix (digest_text d)).

(** [observe_generation_tx] (media_store/generations.rs:79-124). *)
Definition observe_generation_tx (db : ImportDb) (generation : MediaGeneration) (observed_at : string)
    : result MediaStoreError ImportDb :=
  let id := digest_text (mg_id generation) in
  match ib_generations db !! id with
  | Some existing =>
      if negb (bool_decide (gn_generation existing = generation)) then conflict "observed with different identity evidence"
      else Ok (set_generations db (<[id := mkGenerationRow (gn_identity_digest existing) (gn_generation existing)
                 (gn_observation_epoch existing) true (gn_first_observed_at existing) observed_at]> (ib_generations db)))
  | None =>
      let? epoch := checked_i64 (mg_observation_epoch generation) "observation_epoch" in
      Ok (set_generations db (<[id := mkGenerationRow (digest_hex (mg_id generation)) generation epoch true observed_at observed_at]>
            (ib_generations db)))
  end.

Definition mark_absent (observed_at : string) (row : GenerationRow) : GenerationRow :=
  mkGenerationRow (gn_identity_digest row) (gn_generation row) (gn_observation_epoch row) false (gn_first_observed_at row) observed_at.

Fixpoint observe_all (db : ImportDb) (generations : list MediaGeneration) (observed_at : string) : result MediaStoreError ImportDb :=
  match generations with
  | [] => Ok db
  | g :: rest => let? db := observe_generation_tx db g observed_at in observe_all db rest observed_at
  end.

(** [reconcile_media_generations] (media_store/generations.rs:17-34). *)
Definition reconcile_media_generations (db : ImportDb) (generations : list MediaGeneration) (observed_at : string)
    : result MediaStoreError ImportDb :=
  let? _ := require_non_empty observed_at "observed_at" in
  observe_all (set_generations db ((fun row => if gn_is_present row then mark_absent observed_at row else row) <$> ib_generations db))
    generations observed_at.

(** [StoredMediaGeneration] (media_store/model.rs:10-15). *)
Record StoredMediaGeneration := mkStoredGeneration {
  sg_generation : MediaGeneration;
  sg_is_present : bool;
  sg_first_observed_at : string;
  sg_last_observed_at : string;
}.

(** [read_generation] (media_store/generations.rs:126-178). *)
Definition read_generation (db : ImportDb) (id : string) : result MediaStoreError (option StoredMediaGeneration) :=
  match ib_generations db !! id with
  | None => Ok None
  | Some row =>
      if negb (String.eqb (digest_text (mg_id (gn_generation row))) id)
         || negb (mg_observation_epoch (gn_generation row) =? gn_observation_epoch row)%N
      then corrupt "media_generations" "JSON disagrees with indexed identity or epoch"
      else Ok (Some (mkStoredGeneration (gn_generation row) (gn_is_present row) (gn_first_observed_at row) (gn_last_observed_at row)))
  end.

(** [observe_media_generation] (media_store/generations.rs:38-55). *)
Definition observe_media_generation (db : ImportDb) (generation : MediaGeneration) (observed_at : string)
    : result MediaStoreError (ImportDb * StoredMediaGeneration) :=
  let? _ := require_non_empty observed_at "observed_at" in
  let? db := observe_generation_tx db generation observed_at in
  let? found := read_generation db (digest_text (mg_id generation)) in
  let? stored := ok_or found (MsNotFound "vanished during observation") in
  Ok (db, stored).

(** [mark_media_generation_absent] (media_store/generations.rs:57-69). *)
Definition mark_media_generation_absent (db : ImportDb) (id observed_at : string) : result MediaStoreError (ImportDb * bool) :=
  let? _ := require_non_empty observed_at "observed_at" in
  match ib_generations db !! id with
  | Some row => Ok (set_generations db (<[id := mark_absent observed_at row]> (ib_generations db)), true)
  | None => Ok (db, false)
  end.

(** ** Reading an import *)

(** [ImportLocatorSnapshot] (media_store/model.rs:18-23). *)
Record ImportLocatorSnapshot := mkLocatorSnapshot {
  ls_locator : MediaLocator;
  ls_version : N;
  ls_installed_at : string;
  ls_updated_at : string;
}.

(** [StoredImportJob] (media_store/model.rs:26-32). *)
Record StoredImportJob := mkStoredImport {
  si_spec : ImportSpec;
  si_snapshot : ImportSnapshot;
  si_locator : ImportLocatorSnapshot;
  si_created_at : string;
  si_updated_at : string;
}.

(** [ImportLocatorUpdate] (media_store/model.rs:35-38). *)
Record ImportLocatorUpdate := mkLocatorUpdate { lo_expected_version : N; lo_locator : MediaLocator }.

Definition file_row_agrees (row : ImportFileRow) (expected : ImportFileSpec) : bool :=
  bool_decide (jf_file_spec row = expected) && String.eqb (if_file_id (jf_file_spec row)) (jf_file_id row)
  && (if_expected_size (jf_file_spec row) =? jf_expected_size row)%N
  && bool_decide (if_expected_source_sha256 (jf_file_spec row) = jf_expected_sha256 row).

(** [validate_stored_files] (media_store/import_jobs.rs:770-811). *)
Definition validate_stored_files (db : ImportDb) (job_id : string) (spec : ImportSpec) : result MediaStoreError unit :=
  let rows := default [] (ib_files db !! job_id) in
  if negb (length rows =? length (is_files spec))%nat then corrupt "media_import_files" "file count differs from its spec"
  else if negb (forallb (fun '(row, f) => file_row_agrees row f) (combine rows (is_files spec)))
  then corrupt "media_import_files" "normalized file row disagrees with its spec" else Ok tt.

(** The join of the ledger with the plan, in the plan's order. *)
Definition stored_checkpoints (db : ImportDb) (job_id : string) : list (string * ImportCheckpointRow) :=
  omap (fun f => pair (jf_file_id f) <$> (ib_checkpoints db !! (job_id, jf_file_id f))) (default [] (ib_files db !! job_id)).

Definition checkpoint_row_agrees (raw : string * ImportCheckpointRow) (expected : ImportFileCheckpoint) : bool :=
  let row := raw.2 in let c := jc_checkpoint row in
  bool_decide (c = expected) && String.eqb (ck_file_id c) raw.1 && (ck_durable_offset c =? jc_durable_offset row)%N
  && (ck_expected_size c =? jc_expected_size row)%N && bool_decide (ck_source_sha256 c = jc_source_sha256 row)
  && bool_decide (ck_target_sha256 c = jc_target_sha256 row) && Bool.eqb (ck_verified c) (jc_verified row).

(** [validate_stored_checkpoints] (media_store/import_jobs.rs:813-865). *)
Definition validate_stored_checkpoints (db : ImportDb) (job_id : string) (snapshot : ImportSnapshot) : result MediaStoreError unit :=
  let rows := stored_checkpoints db job_id in
  if negb (length rows =? length (im_checkpoints snapshot))%nat
  then corrupt "media_import_checkpoints" "checkpoint count differs from its snapshot"
  else if negb (forallb (fun '(row, c) => checkpoint_row_agrees row c) (combine rows (im_checkpoints snapshot)))
  then corrupt "media_import_checkpoints" "normalized checkpoint disagrees with snapshot" else Ok tt.

(** [read_import_locator] (media_store/import_jobs.rs:867-906). *)
Definition read_import_locator (db : ImportDb) (job_id : string) : result MediaStoreError (option ImportLocatorSnapshot) :=
  match ib_locators db !! job_id with
  | None => Ok None
  | Some row =>
      if negb (bool_decide (digest_text <$> media_generation_id (jl_locator row) = jl_media_generation_id row))
      then corrupt "media_import_locators" "locator generation index disagrees with JSON"
      else Ok (Some (mkLocatorSnapshot (jl_locator row) (jl_locator_version row) (jl_installed_at row) (jl_updated_at row)))
  end.

Definition import_identity_agrees (job_id : string) (row : ImportRow) (spec : ImportSpec) : bool :=
  let snapshot := jw_snapshot row in
  String.eqb (is_job_id spec) job_id && String.eqb (canonical_key (is_natural_key spec)) (jw_natural_key row)
  && String.eqb (is_request_digest spec) (jw_request_digest row) && String.eqb (im_job_id snapshot) job_id
  && bool_decide (im_natural_key snapshot = is_natural_key spec) && String.eqb (im_request_digest snapshot) (is_request_digest spec)
  && (im_version snapshot =? jw_state_version row)%N && Bool.eqb (import_terminal (im_state snapshot)) (jw_is_terminal row).

(** [read_import_job] (media_store/import_jobs.rs:685-768). *)
Definition read_import_job (db : ImportDb) (job_id : string) : result MediaStoreError (option StoredImportJob) :=
  match ib_jobs db !! job_id with
  | None => Ok None
  | Some row =>
      let? srow := ok_or (ib_specs db !! job_id) (MsNotFound "import job has no spec row") in
      if negb (js_spec_version srow =? CURRENT_IMPORT_SPEC_VERSION)%N
      then corrupt "media_import_specs" "unsupported spec version" else
      let spec := js_spec srow in
      if negb (import_identity_agrees job_id row spec)
      then corrupt "media_import_jobs" "indexed identity disagrees with its typed payload" else
      let? _ := rmap_err (fun _ => MsCorrupt "media_import_jobs" "cannot be rehydrated") (from_snapshot spec (jw_snapshot row)) in
      let? _ := validate_stored_files db job_id spec in
      let? _ := validate_stored_checkpoints db job_id (jw_snapshot row) in
      let? found := read_import_locator db job_id in
      let? locator := ok_or found (MsNotFound "import job has no locator row") in
      Ok (Some (mkStoredImport spec (jw_snapshot row) locator (jw_created_at row) (jw_updated_at row)))
  end.

(** [require_import_job] (media_store/import_jobs.rs:676-683). *)
Definition require_import_job (db : ImportDb) (job_id : string) : result MediaStoreError StoredImportJob :=
  let? job := read_import_job db job_id in ok_or job (MsNotFound "import job").

(** [find_import_identity] (media_store/import_jobs.rs:650-661). *)
Definition find_import_identity (db : ImportDb) (natural_key : string) : option (string * string) :=
  match List.find (fun '(_, row) => String.eqb (jw_natural_key row) natural_key) (map_to_list (ib_jobs db)) with
  | Some (job_id, row) => Some (job_id, jw_request_digest row)
  | None => None
  end.

(** [import_natural_key_for_id] (media_store/import_jobs.rs:663-674). *)
Definition import_natural_key_for_id (db : ImportDb) (job_id : string) : option string :=
  jw_natural_key <$> ib_jobs db !! job_id.

(** ** Checkpoints *)

(** [validate_checkpoint] (media_store/import_jobs.rs:556-583). *)
Definition validate_checkpoint (c : ImportFileCheckpoint) : result MediaStoreError unit :=
  if (ck_expected_size c <? ck_durable_offset c)%N then conflict "checkpoint exceeds its expected size" else
  let? _ := match ck_source_sha256 c with Some digest => require_sha256 digest "source_sha256" | None => Ok tt end in
  let? _ := match ck_target_sha256 c with Some digest => require_sha256 digest "target_sha256" | None => Ok tt end in
  if ck_verified c && (negb (ck_durable_offset c =? ck_expected_size c)%N || bool_decide (ck_source_sha256 c = None)
                       || bool_decide (ck_target_sha256 c = None))
  then conflict "a verified checkpoint requires full length and both digests" else Ok tt.

Definition checkpoint_row (c : ImportFileCheckpoint) (offset size : N) (now : string) : ImportCheckpointRow :=
  mkImportCheckpointRow offset size (ck_source_sha256 c) (ck_target_sha256 c) (ck_verified c) c now.

(** [insert_import_checkpoint] (media_store/import_jobs.rs:494-519). *)
Definition insert_import_checkpoint (db : ImportDb) (job_id : string) (c : ImportFileCheckpoint) (now : string)
    : result MediaStoreError ImportDb :=
  let? _ := validate_checkpoint c in
  let? offset := checked_i64 (ck_durable_offset c) "durable_offset" in
  let? size := checked_i64 (ck_expected_size c) "expected_size" in
  if bool_decide (is_Some (ib_checkpoints db !! (job_id, ck_file_id c))) then sqlite "media_import_checkpoints is unique"
  else Ok (set_ledger db (<[(job_id, ck_file_id c) := checkpoint_row c offset size now]> (ib_checkpoints db))).

(** [write_import_checkpoint] (media_store/import_jobs.rs:521-554). *)
Definition write_import_checkpoint (db : ImportDb) (job_id : string) (c : ImportFileCheckpoint) (now : string)
    : result MediaStoreError ImportDb :=
  let? _ := validate_checkpoint c in
  let? offset := checked_i64 (ck_durable_offset c) "durable_offset" in
  let? size := checked_i64 (ck_expected_size c) "expected_size" in
  match ib_checkpoints db !! (job_id, ck_file_id c) with
  | Some row =>
      if (jc_expected_size row =? size)%N
      then Ok (set_ledger db (<[(job_id, ck_file_id c) := checkpoint_row c offset size now]> (ib_checkpoints db)))
      else conflict "checkpoint file is absent or has a different expected size"
  | None => conflict "checkpoint file is absent or has a different expected size"
  end.

Fixpoint write_import_checkpoints (db : ImportDb) (job_id : string) (cs : list ImportFileCheckpoint) (now : string)
    : result MediaStoreError ImportDb :=
  match cs with
  | [] => Ok db
  | c :: rest => let? db := write_import_checkpoint db job_id c now in write_import_checkpoints db job_id rest now
  end.

Definition is_waiting (s : ImportJobState) : bool := match s with ImWaitingForMedia _ => true | _ => false end.

(** [is_legal_source_progress_reset] (media_store/import_jobs.rs:619-648). *)
Definition is_legal_source_progress_reset (current next : ImportSnapshot) : bool :=
  is_waiting (im_state current) && bool_decide (im_state next = ImWaitingForMedia FromPreflight)
  && bool_decide (im_desired_state current = im_desired_state next) && (im_attempt current =? im_attempt next)%N
  && bool_decide (im_active_locator current = None) && bool_decide (im_active_locator next = None)
  && bool_decide (im_verified_source current = None) && bool_decide (im_verified_source next = None)
  && bool_decide (im_local_receipt current = None) && bool_decide (im_local_receipt next = None)
  && bool_decide (im_failure next = None)
  && forallb (fun '(old, reset) =>
       String.eqb (ck_file_id old) (ck_file_id reset) && (ck_expected_size old =? ck_expected_size reset)%N
       && (ck_durable_offset reset =? 0)%N && bool_decide (ck_source_sha256 reset = None)
       && bool_decide (ck_target_sha256 reset = None) && negb (ck_verified reset))
       (combine (im_checkpoints current) (im_checkpoints next)).

Definition checkpoint_regressed (old new : ImportFileCheckpoint) : bool :=
  negb (String.eqb (ck_file_id old) (ck_file_id new)) || negb (ck_expected_size old =? ck_expected_size new)%N
  || (ck_durable_offset new <? ck_durable_offset old)%N || (ck_verified old && negb (bool_decide (old = new))).

(** [validate_checkpoint_monotonicity] (media_store/import_jobs.rs:585-612). *)
Definition validate_checkpoint_monotonicity (current next : ImportSnapshot) : result MediaStoreError unit :=
  if negb (length (im_checkpoints current) =? length (im_checkpoints next))%nat
  then conflict "import checkpoint count cannot change" else
  if is_legal_source_progress_reset current next then Ok tt else
  if existsb (fun '(old, new) => checkpoint_regressed old new) (combine (im_checkpoints current) (im_checkpoints next))
  then conflict "checkpoint evidence regressed or changed identity" else Ok tt.

(** ** Creating an import *)

(** The length that the table asks of a request digest. *)
Definition request_digest_fits (digest : string) : bool :=
  (str_len digest =? 64)%N || ((str_len digest =? 71)%N && bool_decide (is_Some (strip_prefix "sha256:" digest))).

(** [insert_import_files_and_checkpoints, one file] (media_store/import_jobs.rs:464-489). *)
Definition insert_import_file (db : ImportDb) (job_id : string) (f : ImportFileSpec) (c : ImportFileCheckpoint) (now : string)
    : result MediaStoreError ImportDb :=
  if negb (String.eqb (if_file_id f) (ck_file_id c)) || negb (if_expected_size f =? ck_expected_size c)%N
  then conflict "initial import checkpoint differs from file plan" else
  let? size := checked_i64 (if_expected_size f) "expected_size" in
  let rows := default [] (ib_files db !! job_id) in
  if existsb (fun row => String.eqb (jf_file_id row) (if_file_id f)) rows then sqlite "media_import_files is unique" else
  if String.eqb (if_file_id f) "" then sqlite "file_id is empty" else
  if match if_expected_source_sha256 f with Some digest => negb (str_len digest =? 64)%N | None => false end
  then sqlite "expected_sha256" else
  insert_import_checkpoint
    (set_import_files db (<[job_id := (rows ++ [mkImportFileRow (if_file_id f) size (if_expected_source_sha256 f) f])%list]> (ib_files db)))
    job_id c now.

Fixpoint insert_import_files (db : ImportDb) (job_id : string) (plan : list (ImportFileSpec * ImportFileCheckpoint)) (now : string)
    : result MediaStoreError ImportDb :=
  match plan with
  | [] => Ok db
  | (f, c) :: rest => let? db := insert_import_file db job_id f c now in insert_import_files db job_id rest now
  end.

(** [insert_import_files_and_checkpoints] (media_store/import_jobs.rs:451-492). *)
Definition insert_import_files_and_checkpoints (db : ImportDb) (spec : ImportSpec) (snapshot : ImportSnapshot) (now : string)
    : result MediaStoreError ImportDb :=
  if negb (length (is_files spec) =? length (im_checkpoints snapshot))%nat
  then conflict "initial import checkpoint count differs from file plan"
  else insert_import_files db (is_job_id spec) (combine (is_files spec) (im_checkpoints snapshot)) now.

Definition observe_locator (db : ImportDb) (l : MediaLocator) (now : string) : result MediaStoreError ImportDb :=
  match ml_media_generation l with Some generation => observe_generation_tx db generation now | None => Ok db end.

(** [INSERT INTO media_import_jobs]: its unique columns and its checks. *)
Definition insert_import_row (db : ImportDb) (job_id : string) (row : ImportRow) : result MediaStoreError ImportDb :=
  if bool_decide (is_Some (ib_jobs db !! job_id)) || bool_decide (is_Some (find_import_identity db (jw_natural_key row)))
  then sqlite "media_import_jobs is unique" else
  if String.eqb job_id "" || String.eqb (jw_natural_key row) "" || negb (request_digest_fits (jw_request_digest row))
  then sqlite "media_import_jobs" else
  Ok (set_import_jobs db (<[job_id := row]> (ib_jobs db))).

(** [insert_new_import_job] (media_store/import_jobs.rs:264-313). *)
Definition insert_new_import_job (db : ImportDb) (spec : ImportSpec) (initial : ImportSnapshot) (now : string)
    : result MediaStoreError ImportDb :=
  let job_id := is_job_id spec in
  let? db := observe_locator db (is_locator spec) now in
  let? version := checked_i64 (im_version initial) "state_version" in
  let? db := insert_import_row db job_id
    (mkImportRow (canonical_key (is_natural_key spec)) (is_request_digest spec) initial version
       (import_terminal (im_state initial)) now now) in
  let db := set_import_specs db (<[job_id := mkImportSpecRow CURRENT_IMPORT_SPEC_VERSION spec]> (ib_specs db)) in
  let? db := insert_import_files_and_checkpoints db spec initial now in
  Ok (set_locators db (<[job_id := mkImportLocatorRow (digest_text <$> media_generation_id (is_locator spec)) 1
                                     (is_locator spec) now now]> (ib_locators db))).

(** [CreateImportJobError] (media_store/model.rs:61-66). *)
Inductive CreateImportJobError :=
| CiConflict (conflict : CreateJobConflict)
| CiStore (error : MediaStoreError).

(** [create_import_job_and_session_pipeline_validated, the import] (media_store/pipeline.rs:102-137): the
    existing import of the same request, or the new one. The second component
    says whether it is new. *)
Definition ensure_import (db : ImportDb) (spec : ImportSpec) (now : string)
    : result CreateImportJobError (ImportDb * (StoredImportJob * bool)) :=
  let natural_key := canonical_key (is_natural_key spec) in
  match find_import_identity db natural_key with
  | Some (existing_id, existing_digest) =>
      if negb (String.eqb existing_digest (is_request_digest spec))
      then Err (CiConflict (RequestDigestMismatch natural_key existing_id existing_digest (is_request_digest spec)))
      else
        let? found := rmap_err CiStore (read_import_job db existing_id) in
        let? existing := ok_or found (CiStore (MsNotFound "existing import job vanished")) in
        Ok (db, (existing, false))
  | None =>
      match import_natural_key_for_id db (is_job_id spec) with
      | Some existing_natural_key => Err (CiConflict (JobIdCollision (is_job_id spec) existing_natural_key))
      | None =>
          let initial := ij_snapshot (ImportJob_new spec) in
          let? db := rmap_err CiStore (insert_new_import_job db spec initial now) in
          let? found := rmap_err CiStore (read_import_job db (is_job_id spec)) in
          let? inserted := ok_or found (CiStore (MsNotFound "import job vanished immediately after insertion")) in
          Ok (db, (inserted, true))
      end
  end.

(** [create_import_job] (media_store/import_jobs.rs:25-71): the same steps; the counter moves
    before the row is read back, which does not look at it. *)
Definition create_import_job (db : ImportDb) (spec : ImportSpec) (now : string)
    : result CreateImportJobError (ImportDb * CreateJobOutcome StoredImportJob) :=
  let? _ := rmap_err CiStore (require_non_empty now "now") in
  let? (db, (job, created)) := ensure_import db spec now in
  if created then let? db := rmap_err CiStore (bump_imports db) in Ok (db, JobCreated job) else Ok (db, JobExisting job).

(** ** Snapshots *)

(** [update_import_locator] (media_store/import_jobs.rs:393-449). *)
Definition update_import_locator (db : ImportDb) (next : ImportSnapshot) (current : StoredImportJob) (update : ImportLocatorUpdate)
    (now : string) : result MediaStoreError ImportDb :=
  if negb (ls_version (si_locator current) =? lo_expected_version update)%N then conflict "import locator expected version" else
  if negb (bool_decide (im_active_locator next = Some (lo_locator update)))
  then conflict "active source locator does not match the installed locator" else
  if bool_decide (ls_locator (si_locator current) = lo_locator update) then Ok db else
  let? db := observe_locator db (lo_locator update) now in
  let? next_version := ok_or (u64_checked_add (lo_expected_version update) 1) (MsConflict "import locator version exhausted u64 range") in
  let? version := checked_i64 next_version "locator_version" in
  let? expected := checked_i64 (lo_expected_version update) "expected_locator_version" in
  match ib_locators db !! im_job_id next with
  | Some row =>
      if negb (jl_locator_version row =? expected)%N then conflict "import locator lost its expected-version CAS" else
      Ok (set_locators db (<[im_job_id next := mkImportLocatorRow (digest_text <$> media_generation_id (lo_locator update)) version
            (lo_locator update) (jl_installed_at row) now]> (ib_locators db)))
  | None => conflict "import locator lost its expected-version CAS"
  end.

(** [persist_import_snapshot, the locator] (media_store/import_jobs.rs:381-389). *)
Definition persist_locator (db : ImportDb) (next : ImportSnapshot) (current : StoredImportJob)
    (locator_update : option ImportLocatorUpdate) (now : string) : result MediaStoreError ImportDb :=
  match locator_update with
  | Some update => update_import_locator db next current update now
  | None =>
      if bool_decide (is_Some (im_active_locator next))
         && negb (bool_decide (im_active_locator next = Some (ls_locator (si_locator current))))
      then conflict "snapshot activates a new source locator without a locator CAS" else Ok db
  end.

(** [persist_import_snapshot] (media_store/import_jobs.rs:315-391). *)
Definition persist_import_snapshot (db : ImportDb) (current : StoredImportJob) (expected_version : N) (next : ImportSnapshot)
    (locator_update : option ImportLocatorUpdate) (now : string) : result MediaStoreError ImportDb :=
  let job_id := im_job_id next in
  let? _ := require_non_empty now "now" in
  if negb (im_version (si_snapshot current) =? expected_version)%N then conflict "expected version" else
  let? expected_next := ok_or (u64_checked_add expected_version 1) (MsConflict "exhausted the u64 version range") in
  if negb (im_version next =? expected_next)%N then conflict "not expected next version" else
  let? _ := rmap_err (fun _ => MsConflict "import snapshot does not match its immutable spec") (from_snapshot (si_spec current) next) in
  let? _ := validate_checkpoint_monotonicity (si_snapshot current) next in
  let? version := checked_i64 (im_version next) "state_version" in
  let? expected := checked_i64 expected_version "expected_version" in
  match ib_jobs db !! job_id with
  | Some row =>
      if negb (jw_state_version row =? expected)%N then conflict "lost expected-version CAS" else
      let db := set_import_jobs db (<[job_id := mkImportRow (jw_natural_key row) (jw_request_digest row) next version
                  (import_terminal (im_state next)) (jw_created_at row) now]> (ib_jobs db)) in
      let? db := write_import_checkpoints db job_id (im_checkpoints next) now in
      persist_locator db next current locator_update now
  | None => conflict "lost expected-version CAS"
  end.

(** [compare_and_swap_import_snapshot] (media_store/import_jobs.rs:85-108). *)
Definition compare_and_swap_import_snapshot (db : ImportDb) (expected_version : N) (next : ImportSnapshot)
    (locator_update : option ImportLocatorUpdate) (now : string)
    : result MediaStoreError (ImportDb * CompareAndSwapOutcome StoredImportJob) :=
  if import_terminal (im_state next) then conflict "terminal import snapshots must use complete_import_job" else
  let? current := require_import_job db (im_job_id next) in
  if bool_decide (si_snapshot current = next) then Ok (db, AlreadyApplied current) else
  let? db := persist_import_snapshot db current expected_version next locator_update now in
  let? db := bump_imports db in
  let? stored := require_import_job db (im_job_id next) in
  Ok (db, MediaStore.Applied stored).

(** ** Receipts *)

(** [local_source_receipt_rows] (media_store/receipts.rs:217-248). *)
Definition local_source_receipt_rows (receipt_id import_job_id source_identity : string) (local : LocalSourceReceipt)
    : SourceReceipt * LibraryImportReceipt :=
  let source_revision := digest_text (lr_content_revision local) in
  let inventory_digest := digest_hex (lr_inventory_digest local) in
  let local_path := path_text (lr_sealed_relative_path local) in
  (mkSourceReceiptRow source_revision source_identity inventory_digest (lr_provenance local) local_path
     (Some (lr_commit_receipt local)) (lr_committed_at local),
   mkImportReceipt receipt_id import_job_id source_revision source_identity inventory_digest (lr_provenance local) local_path
     (Some (lr_commit_receipt local)) (lr_committed_at local)).

(** [insert_source_receipt] (media_store/receipts.rs:267-298), with the table's checks. *)
Definition insert_source_receipt (rows : gmap string SourceReceipt) (receipt : SourceReceipt)
    : result MediaStoreError (gmap string SourceReceipt * ReceiptWriteOutcome SourceReceipt) :=
  match rows !! rx_source_revision receipt with
  | Some existing =>
      if bool_decide (existing = receipt) then Ok (rows, ReceiptExisting existing)
      else Err (MsConflict "source revision already has different immutable receipt evidence")
  | None =>
      if String.eqb (rx_source_revision receipt) "" || String.eqb (rx_source_identity receipt) ""
         || negb (str_len (rx_sealed_inventory_digest receipt) =? 64)%N || String.eqb (rx_local_path receipt) ""
      then Err (MsSqlite "media_source_receipts")
      else Ok (<[rx_source_revision receipt := receipt]> rows, ReceiptRecorded receipt)
  end.

(** [read_import_receipt_by_natural_key] (media_store/receipts.rs:476-487): the
    pair of columns is unique. *)
Definition read_import_receipt_by_natural_key (rows : gmap string LibraryImportReceipt) (source_identity source_revision : string)
    : option LibraryImportReceipt :=
  snd <$> List.find (fun '(_, r) => String.eqb (li_source_identity r) source_identity && String.eqb (li_source_revision r) source_revision)
            (map_to_list rows).

Definition import_receipt_of_job (rows : gmap string LibraryImportReceipt) (job_id : string) : option LibraryImportReceipt :=
  snd <$> List.find (fun '(_, r) => String.eqb (li_import_job_id r) job_id) (map_to_list rows).

(** [insert_import_receipt] (media_store/receipts.rs:334-381), with the table's constraints. *)
Definition insert_import_receipt (db : ImportDb) (receipt : LibraryImportReceipt)
    : result MediaStoreError (ImportDb * ReceiptWriteOutcome LibraryImportReceipt) :=
  let rows := ib_import_receipts db in
  match rows !! li_receipt_id receipt with
  | Some existing =>
      if bool_decide (existing = receipt) then Ok (db, ReceiptExisting existing)
      else Err (MsConflict "import receipt id already has different evidence")
  | None =>
      match read_import_receipt_by_natural_key rows (li_source_identity receipt) (li_source_revision receipt) with
      | Some existing =>
          if bool_decide (existing = receipt) then Ok (db, ReceiptExisting existing)
          else Err (MsConflict "source identity and revision already have a different import receipt")
      | None =>
          if bool_decide (is_Some (import_receipt_of_job rows (li_import_job_id receipt)))
             || negb (bool_decide (is_Some (ib_jobs db !! li_import_job_id receipt)))
             || negb (bool_decide (is_Some (ib_source_receipts db !! li_source_revision receipt)))
             || String.eqb (li_receipt_id receipt) "" || String.eqb (li_source_identity receipt) ""
             || negb (str_len (li_sealed_inventory_digest receipt) =? 64)%N || String.eqb (li_local_path receipt) ""
          then Err (MsSqlite "media_import_receipts")
          else Ok (set_receipts db (ib_source_receipts db) (<[li_receipt_id receipt := receipt]> rows), ReceiptRecorded receipt)
      end
  end.

(** [validate_source_receipt] (media_store/receipts.rs:546-552). *)
Definition validate_source_receipt (r : SourceReceipt) : result MediaStoreError unit :=
  let? _ := require_non_empty (rx_source_revision r) "source_revision" in
  let? _ := require_non_empty (rx_source_identity r) "source_identity" in
  let? _ := require_sha256 (rx_sealed_inventory_digest r) "sealed_inventory_digest" in
  let? _ := require_non_empty (rx_local_path r) "local_path" in
  require_non_empty (rx_verified_at r) "verified_at".

(** [validate_import_receipt] (media_store/receipts.rs:579-587). *)
Definition validate_import_receipt (r : LibraryImportReceipt) : result MediaStoreError unit :=
  let? _ := require_non_empty (li_receipt_id r) "receipt_id" in
  let? _ := require_non_empty (li_import_job_id r) "import_job_id" in
  let? _ := require_non_empty (li_source_revision r) "source_revision" in
  let? _ := require_non_empty (li_source_identity r) "source_identity" in
  let? _ := require_sha256 (li_sealed_inventory_digest r) "sealed_inventory_digest" in
  let? _ := require_non_empty (li_local_path r) "local_path" in
  require_non_empty (li_committed_at r) "committed_at".

(** Both receipts of one commit, the source's first. *)
Definition insert_receipt_pair (db : ImportDb) (source : SourceReceipt) (import : LibraryImportReceipt)
    : result MediaStoreError (ImportDb * ReceiptWriteOutcome LibraryImportReceipt) :=
  let? (rows, _) := insert_source_receipt (ib_source_receipts db) source in
  insert_import_receipt (set_receipts db rows (ib_import_receipts db)) import.

(** [record_import_commit] (media_store/receipts.rs:127-151). *)
Definition record_import_commit (db : ImportDb) (source : SourceReceipt) (import : LibraryImportReceipt)
    : result MediaStoreError (ImportDb * ReceiptWriteOutcome LibraryImportReceipt) :=
  let? _ := validate_source_receipt source in
  let? _ := validate_import_receipt import in
  if negb (String.eqb (rx_source_revision source) (li_source_revision import))
     || negb (String.eqb (rx_source_identity source) (li_source_identity import))
     || negb (String.eqb (rx_sealed_inventory_digest source) (li_sealed_inventory_digest import))
     || negb (String.eqb (rx_local_path source) (li_local_path import))
     || negb (bool_decide (rx_provenance source = li_provenance import))
     || negb (bool_decide (rx_commit_receipt source = li_commit_receipt import))
  then Err (MsConflict "source and import receipts describe different local commits")
  else insert_receipt_pair db source import.

(** [record_source_receipt] (media_store/receipts.rs:37-46). *)
Definition record_source_receipt (db : ImportDb) (receipt : SourceReceipt)
    : result MediaStoreError (ImportDb * ReceiptWriteOutcome SourceReceipt) :=
  let? _ := validate_source_receipt receipt in
  let? (rows, outcome) := insert_source_receipt (ib_source_receipts db) receipt in
  Ok (set_receipts db rows (ib_import_receipts db), outcome).

(** [record_local_source_import] (media_store/receipts.rs:25-35). *)
Definition record_local_source_import (db : ImportDb) (receipt_id import_job_id source_identity : string) (local : LocalSourceReceipt)
    : result MediaStoreError (ImportDb * ReceiptWriteOutcome LibraryImportReceipt) :=
  let '(source, import) := local_source_receipt_rows receipt_id import_job_id source_identity local in
  record_import_commit db source import.

(** [import_receipt_by_source] (media_store/receipts.rs:153-171). *)
Definition import_receipt_by_source (db : ImportDb) (source_identity source_revision : string) : option LibraryImportReceipt :=
  read_import_receipt_by_natural_key (ib_import_receipts db) source_identity source_revision.

(** [import_receipt_for_job] (media_store/receipts.rs:198-214). *)
Definition import_receipt_for_job (db : ImportDb) (import_job_id : string) : option LibraryImportReceipt :=
  import_receipt_of_job (ib_import_receipts db) import_job_id.

(** ** Completion *)

(** [ImportCommitProjection] (media_store/model.rs:84-87). *)
Record ImportCommitProjection := mkProjection { pj_receipt_id : string; pj_source_identity : string }.

(** [CompleteImportOutcome] (media_store/model.rs:90-93). *)
Record CompleteImportOutcome := mkCompleteImport {
  ci_job : StoredImportJob;
  ci_completion : CompleteOutcome ImportSnapshot;
}.

(** [complete_import_job, the receipts] (media_store/import_jobs.rs:135-158). *)
Definition record_import_success (db : ImportDb) (next : ImportSnapshot) (projection : option ImportCommitProjection)
    : result MediaStoreError ImportDb :=
  match im_local_receipt next, projection with
  | Some local, Some projection =>
      let '(source, import) := local_source_receipt_rows (pj_receipt_id projection) (im_job_id next) (pj_source_identity projection) local in
      let? (db, _) := insert_receipt_pair db source import in Ok db
  | Some _, None => conflict "a local-verified import requires its library projection keys"
  | None, Some _ => conflict "library projection keys require a local source receipt"
  | None, None => Ok db
  end.

(** [complete_import_job] (media_store/import_jobs.rs:114-173). *)
Definition complete_import_job (db : ImportDb) (expected_version : N) (next : ImportSnapshot)
    (locator_update : option ImportLocatorUpdate) (projection : option ImportCommitProjection) (now : string)
    : result MediaStoreError (ImportDb * CompleteImportOutcome) :=
  if negb (import_terminal (im_state next)) then conflict "non-terminal import snapshots" else
  let? current := require_import_job db (im_job_id next) in
  let replay := bool_decide (si_snapshot current = next) in
  let? db := if replay then Ok db else persist_import_snapshot db current expected_version next locator_update now in
  let? db := record_import_success db next projection in
  let? (outbox, completion) := insert_completion (ib_outbox db) (im_job_id next) next (im_version next) now in
  let db := set_outbox db outbox in
  let? db := if negb replay || is_recorded completion then bump_imports db else Ok db in
  let? job := require_import_job db (im_job_id next) in
  Ok (db, mkCompleteImport job completion).

(** [pending_import_completions] (media_store/import_jobs.rs:175-179). *)
Definition pending_import_completions (db : ImportDb) : list (CompletionEnvelope ImportSnapshot) :=
  read_pending_completions (ib_outbox db).

(** [acknowledge_import_completion] (media_store/import_jobs.rs:181-195). *)
Definition acknowledge_import_completion (db : ImportDb) (job_id now : string)
    : result MediaStoreError (ImportDb * AcknowledgeOutcome (CompletionEnvelope ImportSnapshot)) :=
  let? _ := require_non_empty now "now" in
  let '(outbox, outcome) := acknowledge_completion (ib_outbox db) job_id now in
  let db := set_outbox db outbox in
  match outcome with
  | Acknowledged _ => let? db := bump_imports db in Ok (db, outcome)
  | _ => Ok (db, outcome)
  end.

(** [ORDER BY created_at, job_id]. *)
Definition imports_by_creation (a b : string * ImportRow) : Prop :=
  Is_true (String.ltb (jw_created_at a.2) (jw_created_at b.2)
           || (String.eqb (jw_created_at a.2) (jw_created_at b.2) && String.leb a.1 b.1)).
#[global] Instance imports_by_creation_dec : RelDecision imports_by_creation.
Proof. intros a b. unfold imports_by_creation. apply _. Defined.

(** [import_projection] (media_store/import_jobs.rs:197-214). *)
Definition import_projection (db : ImportDb) : result MediaStoreError (N * list StoredImportJob) :=
  let? items := rtraverse (require_import_job db) (map fst (merge_sort imports_by_creation (map_to_list (ib_jobs db)))) in
  Ok (ib_imports_revision db, items).

Arguments Ready {T} _.
Arguments Blocked {T} _ _.

Definition recover_import (db : ImportDb) (job_id : string) : result MediaStoreError (Recoverable StoredImportJob) :=
  match read_import_job db job_id with
  | Ok (Some job) => Ok (Ready job)
  | Ok None => Ok (Blocked job_id MissingSpec)
  | Err (MsCorrupt _ _) => Ok (Blocked job_id CorruptSpec)
  | Err (MsNotFound _) => Ok (Blocked job_id MissingSpec)
  | Err e => Err e
  end.

(** [list_recoverable_imports] (media_store/import_jobs.rs:218-258). *)
Definition list_recoverable_imports (db : ImportDb) : result MediaStoreError (list (Recoverable StoredImportJob)) :=
  let open := List.filter (fun '(_, row) => negb (jw_is_terminal row)) (map_to_list (ib_jobs db)) in
  rtraverse (recover_import db) (map fst (merge_sort imports_by_creation open)).
