(* ===== verification/PipelineStore.v ===== *)
(** * PipelineStore: session pipelines in the media database (media_store/pipeline.rs)

One pipeline row per source revision with its normalized dependencies, admitted
in the same transaction as the import it waits for, and replaced under an
expected version.  The id that a new pipeline draws from a random UUID is an
argument. *)

From Stdlib Require Import NArith Lia Ascii String.
From stdpp Require Import base numbers list strings gmap sorting.
From S2P Require Import Prelude Domain Files Json Ingest Import Rational Profile MediaPlan Validation Manifest.
From S2P Require Import Derivation MediaStore DerivationStore UploadBundle Pipeline ImportStore.

Local Open Scope string_scope.

(** [dependencies_from_pipeline] (media_store/pipeline.rs:616-642). *)
Definition dependencies_from_pipeline (p : SessionPipeline) : list PipelineDependency :=
  ([mkDependency StageImport (pl_import p) "local_verified" (DetailImport (pl_import p))]
   ++ match pl_derivation p with
      | Some d => [mkDependency StageDerivation (dd_job_id d) "derived_verified" (DetailDerivation d)]
      | None => []
      end
   ++ match pl_upload p with
      | Some u => [mkDependency StageUpload (ud_job_id u) "object_store_verified" (DetailUpload u)]
      | None => []
      end)%list.

Definition source_key_of (p : SessionPipeline) : string := claim_text (sr_revision_claim (pl_source p)).

(** [initial_pipeline_snapshot, the snapshot] (media_store/pipeline.rs:393-402). *)
Definition initial_snapshot (p : SessionPipeline) (action_required : option PipelineActionRequired) (now : string) : PipelineSnapshot :=
  mkPipelineSnapshot (pl_id p) (source_key_of p) p action_required 1 (dependencies_from_pipeline p) now now.

(** [validate_dependencies] (media_store/pipeline.rs:595-614): the detail of a dependency is
    always an object. *)
Fixpoint validate_dependencies (stages : list PipelineStage) (ds : list PipelineDependency) : result MediaStoreError unit :=
  match ds with
  | [] => Ok tt
  | d :: rest =>
      if bool_decide (pd_stage d ∈ stages) then conflict "pipeline contains duplicate dependencies" else
      let? _ := require_non_empty (pd_job_id d) "dependency job_id" in
      let? _ := require_non_empty (pd_required_milestone d) "dependency required_milestone" in
      validate_dependencies (pd_stage d :: stages) rest
  end.

(** [validate_pipeline] (media_store/pipeline.rs:574-593). *)
Definition validate_pipeline (s : PipelineSnapshot) : result MediaStoreError unit :=
  let? _ := require_non_empty (pn_pipeline_id s) "pipeline_id" in
  let? _ := require_non_empty (pn_source_key s) "source_key" in
  let? _ := require_non_empty (pn_created_at s) "created_at" in
  let? _ := require_non_empty (pn_updated_at s) "updated_at" in
  if negb (String.eqb (pl_id (pn_pipeline s)) (pn_pipeline_id s)) || negb (String.eqb (source_key_of (pn_pipeline s)) (pn_source_key s))
  then conflict "typed pipeline identity disagrees with its indexes" else
  if negb (bool_decide (pn_dependencies s = dependencies_from_pipeline (pn_pipeline s)))
  then conflict "typed pipeline dependencies disagree with normalized rows" else
  validate_dependencies [] (pn_dependencies s).

(** [initial_pipeline_snapshot] (media_store/pipeline.rs:388-405). *)
Definition initial_pipeline_snapshot (p : SessionPipeline) (action_required : option PipelineActionRequired) (now : string)
    : result MediaStoreError PipelineSnapshot :=
  let snapshot := initial_snapshot p action_required now in
  let? _ := validate_pipeline snapshot in Ok snapshot.

(** [insert_dependencies] (media_store/pipeline.rs:434-460), into the rows of a pipeline that
    has none: the stage is unique and the job has a name. *)
Definition insert_dependencies (ds : list PipelineDependency) : result MediaStoreError (list PipelineDependency) :=
  if negb (bool_decide (NoDup (pd_stage <$> ds))) || existsb (fun d => String.eqb (pd_job_id d) "" || String.eqb (pd_required_milestone d) "") ds
  then sqlite "media_pipeline_dependencies" else Ok ds.

Definition find_source_key (db : ImportDb) (source_key : string) : option string :=
  fst <$> List.find (fun '(_, row) => String.eqb (pq_source_key row) source_key) (map_to_list (ib_pipelines db)).

(** [insert_pipeline] (media_store/pipeline.rs:407-432). *)
Definition insert_pipeline (db : ImportDb) (s : PipelineSnapshot) : result MediaStoreError ImportDb :=
  let? version := checked_i64 (pn_pipeline_version s) "pipeline_version" in
  if bool_decide (is_Some (ib_pipelines db !! pn_pipeline_id s)) || bool_decide (is_Some (find_source_key db (pn_source_key s)))
     || String.eqb (pn_pipeline_id s) "" || String.eqb (pn_source_key s) "" || (version =? 0)%N
  then sqlite "media_pipelines" else
  let? dependencies := insert_dependencies (pn_dependencies s) in
  let row := mkPipelineRow (pn_source_key s) (pn_pipeline s) (pl_policy (pn_pipeline s)) (pn_action_required s) version
               (pn_created_at s) (pn_updated_at s) in
  Ok (set_pipelines db (<[pn_pipeline_id s := row]> (ib_pipelines db)) (<[pn_pipeline_id s := dependencies]> (ib_dependencies db))).

(** [decode_pipeline] (media_store/pipeline.rs:506-572). *)
Definition decode_pipeline (db : ImportDb) (pipeline_id : string) (row : PipelineRow) : result MediaStoreError PipelineSnapshot :=
  let dependencies := default [] (ib_dependencies db !! pipeline_id) in
  let p := pq_pipeline row in
  if negb (String.eqb (pl_id p) pipeline_id) || negb (String.eqb (source_key_of p) (pq_source_key row))
     || negb (bool_decide (pl_policy p = pq_policy row)) || negb (bool_decide (dependencies = dependencies_from_pipeline p))
  then corrupt "media_pipelines" "typed pipeline disagrees with normalized indexes"
  else Ok (mkPipelineSnapshot pipeline_id (pq_source_key row) p (pq_action_required row) (pq_pipeline_version row) dependencies
             (pq_created_at row) (pq_updated_at row)).

(** [read_pipeline] (media_store/pipeline.rs:462-487). *)
Definition read_pipeline (db : ImportDb) (pipeline_id : string) : result MediaStoreError (option PipelineSnapshot) :=
  match ib_pipelines db !! pipeline_id with
  | None => Ok None
  | Some row => let? s := decode_pipeline db pipeline_id row in Ok (Some s)
  end.

(** [read_pipeline_by_source_key] (media_store/pipeline.rs:489-504). *)
Definition read_pipeline_by_source_key (db : ImportDb) (source_key : string) : result MediaStoreError (option PipelineSnapshot) :=
  match find_source_key db source_key with Some pipeline_id => read_pipeline db pipeline_id | None => Ok None end.

(** [CreatePipelineOutcome] (media_store/model.rs:335-338). *)
Inductive CreatePipelineOutcome := PipelineCreated (s : PipelineSnapshot) | PipelineExisting (s : PipelineSnapshot).

(** [create_pipeline] (media_store/pipeline.rs:226-268). *)
Definition create_pipeline (db : ImportDb) (s : PipelineSnapshot) : result MediaStoreError (ImportDb * CreatePipelineOutcome) :=
  let? _ := validate_pipeline s in
  if negb (pn_pipeline_version s =? 1)%N then conflict "a new pipeline must start at version 1" else
  let? existing := read_pipeline_by_source_key db (pn_source_key s) in
  match existing with
  | Some existing =>
      if bool_decide (existing = s) then Ok (db, PipelineExisting existing)
      else conflict "source key already has a different policy or dependency graph"
  | None =>
      let? bound := read_pipeline db (pn_pipeline_id s) in
      if bool_decide (is_Some bound) then conflict "pipeline id is already bound" else
      let? db := insert_pipeline db s in
      let? db := bump_pipelines db in
      let? found := read_pipeline db (pn_pipeline_id s) in
      let? created := ok_or found (MsNotFound "pipeline vanished immediately after insertion") in
      Ok (db, PipelineCreated created)
  end.

(** [create_session_pipeline] (media_store/pipeline.rs:35-52). *)
Definition create_session_pipeline (db : ImportDb) (p : SessionPipeline) (action_required : option PipelineActionRequired)
    (now : string) : result MediaStoreError (ImportDb * CreatePipelineOutcome) :=
  create_pipeline db (initial_snapshot p action_required now).

(** [replace_pipeline_projection] (media_store/pipeline.rs:273-330). *)
Definition replace_pipeline_projection (db : ImportDb) (pipeline_id : string) (expected_version : N) (p : SessionPipeline)
    (action_required : option PipelineActionRequired) (now : string) : result MediaStoreError (ImportDb * PipelineSnapshot) :=
  let? _ := require_non_empty pipeline_id "pipeline_id" in
  let? _ := require_non_empty now "now" in
  if negb (String.eqb (pl_id p) pipeline_id) then conflict "typed pipeline id does not match the row id" else
  let? next_version := ok_or (u64_checked_add expected_version 1) (MsConflict "version exhausted u64 range") in
  let? version := checked_i64 next_version "pipeline_version" in
  let? expected := checked_i64 expected_version "expected_version" in
  match ib_pipelines db !! pipeline_id with
  | Some row =>
      if negb (pq_pipeline_version row =? expected)%N then conflict "expected version is stale" else
      let? dependencies := insert_dependencies (dependencies_from_pipeline p) in
      let db := set_pipelines db
        (<[pipeline_id := mkPipelineRow (pq_source_key row) p (pl_policy p) action_required version (pq_created_at row) now]> (ib_pipelines db))
        (<[pipeline_id := dependencies]> (ib_dependencies db)) in
      let? db := bump_pipelines db in
      let? found := read_pipeline db pipeline_id in
      let? s := ok_or found (MsNotFound "pipeline vanished during CAS update") in
      Ok (db, s)
  | None => conflict "pipeline does not exist"
  end.

(** [pipeline_snapshot] (media_store/pipeline.rs:334-342). *)
Definition pipeline_snapshot (db : ImportDb) (pipeline_id : string) : result MediaStoreError (option PipelineSnapshot) :=
  read_pipeline db pipeline_id.

(** [ORDER BY created_at, pipeline_id]. *)
Definition pipelines_by_creation (a b : string * PipelineRow) : Prop :=
  Is_true (String.ltb (pq_created_at a.2) (pq_created_at b.2)
           || (String.eqb (pq_created_at a.2) (pq_created_at b.2) && String.leb a.1 b.1)).
#[global] Instance pipelines_by_creation_dec : RelDecision pipelines_by_creation.
Proof. intros a b. unfold pipelines_by_creation. apply _. Defined.

(** [list_pipeline_snapshots] (media_store/pipeline.rs:344-362). *)
Definition list_pipeline_snapshots (db : ImportDb) : result MediaStoreError (list PipelineSnapshot) :=
  rtraverse (fun id => let? found := read_pipeline db id in ok_or found (MsNotFound "pipeline vanished"))
    (map fst (merge_sort pipelines_by_creation (map_to_list (ib_pipelines db)))).

(** [pipeline_projection] (media_store/pipeline.rs:364-385). *)
Definition pipeline_projection (db : ImportDb) : result MediaStoreError (N * list PipelineSnapshot) :=
  let? items := list_pipeline_snapshots db in Ok (ib_pipelines_revision db, items).

(** ** Admission of an import with its pipeline *)

(** [CreateImportPipelineOutcome] (media_store/model.rs:345-350). *)
Record CreateImportPipelineOutcome := mkCreateImportPipeline {
  cp_import : StoredImportJob;
  cp_pipeline : PipelineSnapshot;
  cp_import_created : bool;
  cp_pipeline_created : bool;
}.

(** [create_import_job_and_session_pipeline_validated, the pipeline] (media_store/pipeline.rs:143-194). *)
Definition ensure_pipeline (db : ImportDb) (import : StoredImportJob) (policy : PipelinePolicy)
    (action_required : option PipelineActionRequired) (fresh_id now : string)
    : result MediaStoreError (ImportDb * (PipelineSnapshot * bool)) :=
  let source := is_source (si_spec import) in
  let? existing := read_pipeline_by_source_key db (claim_text (sr_revision_claim source)) in
  match pipeline_start (mkStart fresh_id source (is_job_id (si_spec import)) policy) (pn_pipeline <$> existing) with
  | PsCreated pipeline =>
      let? snapshot := initial_pipeline_snapshot pipeline action_required now in
      let? bound := read_pipeline db (pn_pipeline_id snapshot) in
      if bool_decide (is_Some bound) then conflict "pipeline id is already bound" else
      let? db := insert_pipeline db snapshot in
      Ok (db, (snapshot, true))
  | PsExisting _ =>
      let? existing := ok_or existing (MsConflict "pipeline admission lost its existing aggregate") in
      if negb (bool_decide (pn_action_required existing = action_required))
      then conflict "pipeline already has a different required policy action" else Ok (db, (existing, false))
  | PsConflict _ reason => conflict "existing session pipeline conflicts with the requested import intent"
  end.

Definition bump_if (b : bool) (bump : ImportDb -> result MediaStoreError ImportDb) (db : ImportDb) : result MediaStoreError ImportDb :=
  if b then bump db else Ok db.

(** [create_import_job_and_session_pipeline_validated] (media_store/pipeline.rs:81-221):
    what the adapter's check of the outcome says is an argument. *)
Definition create_import_job_and_session_pipeline_validated {T} (db : ImportDb) (spec : ImportSpec) (pipeline_source : SourceRecording)
    (policy : PipelinePolicy) (action_required : option PipelineActionRequired) (fresh_id now : string)
    (validate : CreateImportPipelineOutcome -> result MediaStoreError T)
    : result CreateImportJobError (ImportDb * (CreateImportPipelineOutcome * T)) :=
  let? _ := rmap_err CiStore (require_non_empty now "now") in
  if negb (bool_decide (is_source spec = pipeline_source))
  then Err (CiStore (MsConflict "pipeline source must be the exact source admitted into its import spec")) else
  let? (db, (import, import_created)) := ensure_import db spec now in
  rmap_err CiStore (
    let? (db, (pipeline, pipeline_created)) := ensure_pipeline db import policy action_required fresh_id now in
    let? db := bump_if import_created bump_imports db in
    let? db := bump_if pipeline_created bump_pipelines db in
    let? found := read_import_job db (is_job_id (si_spec import)) in
    let? import := ok_or found (MsNotFound "import vanished before atomic pipeline admission committed") in
    let? found := read_pipeline db (pn_pipeline_id pipeline) in
    let? pipeline := ok_or found (MsNotFound "pipeline vanished before atomic import admission committed") in
    let outcome := mkCreateImportPipeline import pipeline import_created pipeline_created in
    let? validated := validate outcome in
    Ok (db, (outcome, validated))).

(** [create_import_job_and_session_pipeline] (media_store/pipeline.rs:58-75). *)
Definition create_import_job_and_session_pipeline (db : ImportDb) (spec : ImportSpec) (pipeline_source : SourceRecording)
    (policy : PipelinePolicy) (action_required : option PipelineActionRequired) (fresh_id now : string)
    : result CreateImportJobError (ImportDb * CreateImportPipelineOutcome) :=
  let? (db, (outcome, _)) := create_import_job_and_session_pipeline_validated db spec pipeline_source policy action_required fresh_id now
                               (fun _ => Ok tt) in
  Ok (db, outcome).

(** ** Any sequence of operations *)

(** The operations of the tables; an operation that fails leaves them alone. *)
Inductive MediaOp :=
| OpCreateImport (spec : ImportSpec) (now : string)
| OpAdmit (spec : ImportSpec) (source : SourceRecording) (policy : PipelinePolicy) (action : option PipelineActionRequired)
    (fresh_id now : string) (validate : CreateImportPipelineOutcome -> result MediaStoreError unit)
| OpSwap (expected_version : N) (next : ImportSnapshot) (u : option ImportLocatorUpdate) (now : string)
| OpComplete (expected_version : N) (next : ImportSnapshot) (u : option ImportLocatorUpdate)
    (projection : option ImportCommitProjection) (now : string)
| OpAcknowledge (job_id now : string)
| OpRecordCommit (source : SourceReceipt) (import : LibraryImportReceipt)
| OpRecordLocal (receipt_id import_job_id source_identity : string) (local : LocalSourceReceipt)
| OpRecordSource (receipt : SourceReceipt)
| OpReconcile (generations : list MediaGeneration) (observed_at : string)
| OpObserve (generation : MediaGeneration) (observed_at : string)
| OpAbsent (generation_id observed_at : string)
| OpCreatePipeline (s : PipelineSnapshot)
| OpStartPipeline (p : SessionPipeline) (action : option PipelineActionRequired) (now : string)
| OpReplacePipeline (pipeline_id : string) (expected_version : N) (p : SessionPipeline) (action : option PipelineActionRequired)
    (now : string).

Definition committed {E A} (db : ImportDb) (r : result E (ImportDb * A)) : ImportDb :=
  match r with Ok (db', _) => db' | Err _ => db end.

Definition media_apply (db : ImportDb) (op : MediaOp) : ImportDb :=
  match op with
  | OpCreateImport spec now => committed db (create_import_job db spec now)
  | OpAdmit spec source policy action fresh_id now validate =>
      committed db (create_import_job_and_session_pipeline_validated db spec source policy action fresh_id now validate)
  | OpSwap v next u now => committed db (compare_and_swap_import_snapshot db v next u now)
  | OpComplete v next u projection now => committed db (complete_import_job db v next u projection now)
  | OpAcknowledge job_id now => committed db (acknowledge_import_completion db job_id now)
  | OpRecordCommit source import => committed db (record_import_commit db source import)
  | OpRecordLocal receipt_id job_id identity local => committed db (record_local_source_import db receipt_id job_id identity local)
  | OpRecordSource receipt => committed db (record_source_receipt db receipt)
  | OpReconcile generations observed_at =>
      match reconcile_media_generations db generations observed_at with Ok db' => db' | Err _ => db end
  | OpObserve generation observed_at => committed db (observe_media_generation db generation observed_at)
  | OpAbsent id observed_at => committed db (mark_media_generation_absent db id observed_at)
  | OpCreatePipeline s => committed db (create_pipeline db s)
  | OpStartPipeline p action now => committed db (create_session_pipeline db p action now)
  | OpReplacePipeline id v p action now => committed db (replace_pipeline_projection db id v p action now)
  end.

Definition media_run (db : ImportDb) (ops : list MediaOp) : ImportDb := foldl media_apply db ops.

Definition empty_media : ImportDb := mkImportDb ∅ ∅ ∅ ∅ ∅ ∅ (mkOutbox ∅ 0) ∅ ∅ ∅ ∅ 0 0.
