(* ===== verification/ImportStoreProofs.v ===== *)
(** * ImportStoreProofs: what the import tables guarantee

Every operation keeps every row readable and every natural key with one job; a
row only moves to later versions, a completion and a receipt never change; and a
job whose row is terminal has its completion, a verified one its receipts. *)

From Stdlib Require Import NArith Lia Ascii String.
From stdpp Require Import base numbers list strings gmap sorting.
From S2P Require Import Prelude Domain Files Json Ingest Import Rational Profile MediaPlan Validation Manifest.
From S2P Require Import Derivation MediaStore DerivationStore DerivationStoreProofs UploadBundle Pipeline ImportStore.

Local Open Scope string_scope.

(** ** Which rows a write touches *)

(** The rows that a read of the job looks at. *)
Record same_job (db db' : ImportDb) (id : string) : Prop := {
  sm_row : ib_jobs db' !! id = ib_jobs db !! id;
  sm_spec : ib_specs db' !! id = ib_specs db !! id;
  sm_files : ib_files db' !! id = ib_files db !! id;
  sm_ledger : forall f, ib_checkpoints db' !! (id, f) = ib_checkpoints db !! (id, f);
  sm_locator : ib_locators db' !! id = ib_locators db !! id;
}.

(** The rows of one job, and observed generations. *)
Record touches (jid : string) (db db' : ImportDb) : Prop := {
  to_others : forall id, id <> jid -> same_job db db' id;
  to_outbox : ib_outbox db' = ib_outbox db;
  to_sources : ib_source_receipts db' = ib_source_receipts db;
  to_imports : ib_import_receipts db' = ib_import_receipts db;
  to_pipelines : ib_pipelines db' = ib_pipelines db;
  to_dependencies : ib_dependencies db' = ib_dependencies db;
}.

Lemma same_job_refl db id : same_job db db id.
Proof. by split. Qed.
Lemma same_job_trans a b c id : same_job a b id -> same_job b c id -> same_job a c id.
Proof. intros [A1 A2 A3 A4 A5] [B1 B2 B3 B4 B5]. split; try congruence. Qed.
#[local] Hint Resolve same_job_refl : core.

Lemma touches_refl jid db : touches jid db db.
Proof. split; auto. Qed.
#[local] Hint Resolve touches_refl : core.

Lemma touches_trans jid a b c : touches jid a b -> touches jid b c -> touches jid a c.
Proof.
  intros [A1 A2 A3 A4 A5 A6] [B1 B2 B3 B4 B5 B6]. split; [|congruence..].
  intros id Hne. apply (same_job_trans a b); auto.
Qed.

Ltac touch := split; [intros ? ?; split; cbn; intros; try rewrite !lookup_insert_ne by congruence|..]; try done.

Lemma observe_touches jid db g at_ db' : observe_generation_tx db g at_ = Ok db' ->
  touches jid db db' /\ same_job db db' jid.
Proof.
  unfold observe_generation_tx. destruct (_ !! _).
  - destruct (negb _); [done|]. intros [= <-]. by split; split.
  - rewrite rbind_ok. intros (e & _ & [= <-]). by split; split.
Qed.

Lemma observe_locator_touches jid db l now db' : observe_locator db l now = Ok db' -> touches jid db db' /\ same_job db db' jid.
Proof. unfold observe_locator. destruct (ml_media_generation l); [apply observe_touches|]. by intros [= <-]. Qed.

Lemma write_checkpoint_touches db jid c now db' : write_import_checkpoint db jid c now = Ok db' ->
  touches jid db db' /\ ib_jobs db' = ib_jobs db /\ ib_specs db' = ib_specs db.
Proof.
  unfold write_import_checkpoint. rewrite rbind_ok. intros (u & _ & Hr). revert Hr. rewrite rbind_ok. intros (o & _ & Hr). revert Hr.
  rewrite rbind_ok. intros (z & _ & Hr). revert Hr. destruct (_ !! _); [|done]. destruct (_ =? _)%N; [|done]. intros [= <-].
  split; [touch|done].
Qed.

Lemma write_checkpoints_touches jid now cs : forall db db', write_import_checkpoints db jid cs now = Ok db' ->
  touches jid db db' /\ ib_jobs db' = ib_jobs db /\ ib_specs db' = ib_specs db.
Proof.
  induction cs as [|c cs IH]; intros db db'; cbn; [by intros [= <-]|]. rewrite rbind_ok.
  intros (db1 & (T1 & E1 & E2)%write_checkpoint_touches & (T2 & E3 & E4)%IH). split; [by eapply touches_trans|]. split; congruence.
Qed.

Lemma insert_file_touches db jid f c now db' : insert_import_file db jid f c now = Ok db' ->
  touches jid db db' /\ ib_jobs db' = ib_jobs db /\ ib_specs db' = ib_specs db.
Proof.
  unfold insert_import_file. intros [_ Hr]%guard_ok. revert Hr. rewrite rbind_ok. intros (z & _ & Hr).
  apply guard_ok in Hr as [_ Hr]. apply guard_ok in Hr as [_ Hr]. apply guard_ok in Hr as [_ Hr]. revert Hr. unfold insert_import_checkpoint. rewrite rbind_ok. intros (u & _ & Hr). revert Hr. rewrite rbind_ok. intros (o & _ & Hr). revert Hr.
  rewrite rbind_ok. intros (z' & _ & Hr). revert Hr. case_bool_decide; [done|]. intros [= <-]. split; [touch|done].
Qed.

Lemma insert_files_touches jid now plan : forall db db', insert_import_files db jid plan now = Ok db' ->
  touches jid db db' /\ ib_jobs db' = ib_jobs db /\ ib_specs db' = ib_specs db.
Proof.
  induction plan as [|[f c] plan IH]; intros db db'; cbn; [by intros [= <-]|]. rewrite rbind_ok.
  intros (db1 & (T1 & E1 & E2)%insert_file_touches & (T2 & E3 & E4)%IH). split; [by eapply touches_trans|]. split; congruence.
Qed.

Lemma touches_revisions jid db db' x y : touches jid db db' -> touches jid db (set_revisions db' x y).
Proof. intros T. eapply touches_trans; [exact T|touch]. Qed.

(** A new job. *)
Definition initial_row (spec : ImportSpec) (now : string) : ImportRow :=
  mkImportRow (canonical_key (is_natural_key spec)) (is_request_digest spec) (ij_snapshot (ImportJob_new spec)) 0 false now now.

Lemma insert_new_ok db spec now db' :
  insert_new_import_job db spec (ij_snapshot (ImportJob_new spec)) now = Ok db' ->
  touches (is_job_id spec) db db' /\ ib_jobs db !! is_job_id spec = None /\
  ib_jobs db' = <[is_job_id spec := initial_row spec now]> (ib_jobs db) /\
  ib_specs db' !! is_job_id spec = Some (mkImportSpecRow CURRENT_IMPORT_SPEC_VERSION spec) /\
  forall id row, ib_jobs db !! id = Some row -> jw_natural_key row <> canonical_key (is_natural_key spec).
Proof.
  unfold insert_new_import_job. rewrite rbind_ok. intros (db1 & Ho & Hr). revert Hr. rewrite rbind_ok. intros (v & Hv & Hr). revert Hr.
  cbn [ij_snapshot ImportJob_new im_version im_state import_terminal] in *. injection Hv as <-.
  rewrite rbind_ok. intros (db2 & Hi & Hr). revert Hr. rewrite rbind_ok. intros (db3 & Hf & [= <-]).
  destruct (observe_locator_touches (is_job_id spec) _ _ _ _ Ho) as [To So].
  assert (Ej : ib_jobs db1 = ib_jobs db).
  { clear -Ho. unfold observe_locator in Ho. destruct (ml_media_generation _); [|by injection Ho as <-]. unfold observe_generation_tx in Ho.
    destruct (_ !! _); [destruct (negb _); [done|]; by injection Ho as <-|]. apply rbind_ok in Ho as (e & _ & [= <-]). done. }
  unfold insert_import_row in Hi. rewrite Ej in Hi. destruct (bool_decide (is_Some (ib_jobs db !! is_job_id spec))) eqn:En; [done|].
  apply bool_decide_eq_false in En. rewrite <- eq_None_not_Some in En. cbn [orb jw_natural_key] in Hi.
  case_bool_decide as Ek; [done|]. rewrite <- eq_None_not_Some in Ek. destruct (_ || _ || _); [done|]. rewrite <- Ej in Hi. injection Hi as <-.
  unfold insert_import_files_and_checkpoints in Hf. destruct (negb _); [done|].
  apply insert_files_touches in Hf as (T & Ej3 & Es3). cbn in Ej3, Es3.
  split_and!.
  - eapply touches_trans; [exact To|]. eapply touches_trans; [|eapply touches_trans; [exact T|touch]]. touch.
  - done.
  - cbn. by rewrite Ej3, Ej.
  - cbn. by rewrite Es3, lookup_insert_eq.
  - intros id row Hr Hk. unfold find_import_identity in Ek. rewrite Ej in Ek.
    destruct (List.find _ _) as [[]|] eqn:E; [done|]. eapply find_none in E; [|apply list_elem_of_In, elem_of_map_to_list, Hr].
    cbn in E. by apply String.eqb_neq in E.
Qed.

(** ** Persisted snapshots *)

Lemma update_locator_touches db next current u now db' : update_import_locator db next current u now = Ok db' ->
  touches (im_job_id next) db db' /\ ib_jobs db' = ib_jobs db /\ ib_specs db' = ib_specs db.
Proof.
  unfold update_import_locator. destruct (negb _); [done|]. destruct (negb _); [done|]. case_bool_decide; [by intros [= <-]|].
  rewrite rbind_ok. intros (db1 & Ho & Hr). revert Hr. rewrite rbind_ok. intros (n & _ & Hr). revert Hr.
  rewrite rbind_ok. intros (v & _ & Hr). revert Hr. rewrite rbind_ok. intros (e & _ & Hr). revert Hr.
  destruct (ib_locators db1 !! _) as [row|]; [|done]. destruct (negb _); [done|]. intros [= <-].
  destruct (observe_locator_touches (im_job_id next) _ _ _ _ Ho) as [T S].
  assert (E : ib_jobs db1 = ib_jobs db /\ ib_specs db1 = ib_specs db).
  { clear -Ho. unfold observe_locator in Ho. destruct (ml_media_generation _); [|by injection Ho as <-]. unfold observe_generation_tx in Ho.
    destruct (_ !! _); [destruct (negb _); [done|]; by injection Ho as <-|]. apply rbind_ok in Ho as (x & _ & [= <-]). done. }
  split; [eapply touches_trans; [exact T|touch]|exact E].
Qed.

Lemma persist_locator_touches db next current u now db' : persist_locator db next current u now = Ok db' ->
  touches (im_job_id next) db db' /\ ib_jobs db' = ib_jobs db /\ ib_specs db' = ib_specs db.
Proof.
  unfold persist_locator. destruct u; [apply update_locator_touches|]. destruct (_ && _); [done|]. by intros [= <-].
Qed.

Definition later_row (row : ImportRow) (next : ImportSnapshot) (now : string) : ImportRow :=
  mkImportRow (jw_natural_key row) (jw_request_digest row) next (im_version next) (import_terminal (im_state next)) (jw_created_at row) now.

Lemma checked_i64_id n f m : checked_i64 n f = Ok m -> m = n.
Proof. unfold checked_i64. destruct (_ <=? _)%N; [by intros [= <-]|done]. Qed.

Lemma persist_import_ok db current v next u now db' :
  persist_import_snapshot db current v next u now = Ok db' ->
  im_version (si_snapshot current) = v /\ im_version next = (v + 1)%N /\
  (exists job, from_snapshot (si_spec current) next = Ok job) /\
  validate_checkpoint_monotonicity (si_snapshot current) next = Ok tt /\
  touches (im_job_id next) db db' /\ ib_specs db' = ib_specs db /\
  exists row, ib_jobs db !! im_job_id next = Some row /\ ib_jobs db' = <[im_job_id next := later_row row next now]> (ib_jobs db).
Proof.
  unfold persist_import_snapshot. rewrite rbind_ok. intros (u0 & _ & Hr). revert Hr.
  destruct (N.eqb_spec (im_version (si_snapshot current)) v) as [Ev|]; [|done]. cbn [negb].
  rewrite rbind_ok. intros (n & [_ ->]%ok_or_ok%u64_checked_add_Some & Hr). revert Hr.
  destruct (N.eqb_spec (im_version next) (v + 1)) as [En|]; [|done]. cbn [negb].
  rewrite rbind_ok. intros (j & Hj%rmap_err_ok & Hr). revert Hr. rewrite rbind_ok. intros ([] & Hm & Hr). revert Hr.
  rewrite rbind_ok. intros (ver & ->%checked_i64_id & Hr). revert Hr. rewrite rbind_ok. intros (ex & _ & Hr). revert Hr.
  destruct (ib_jobs db !! im_job_id next) as [row|] eqn:Er; [|done]. destruct (negb _); [done|].
  rewrite rbind_ok. intros (db1 & (T1 & E1 & E2)%write_checkpoints_touches & (T2 & E3 & E4)%persist_locator_touches).
  cbn in E1, E2. split_and!; try done; [by exists j| |congruence|exists row; split; [done|]; rewrite E3, E1; done].
  eapply touches_trans; [|eapply touches_trans; [exact T1|exact T2]]. touch.
Qed.

(** ** Reads *)

Lemma same_job_reads db db' id : same_job db db' id -> read_import_job db' id = read_import_job db id.
Proof.
  intros [E1 E2 E3 E4 E5]. unfold read_import_job. rewrite E1, E2. destruct (ib_jobs db !! id); [|done]. destruct (ib_specs db !! id); [|done].
  assert (Hf : validate_stored_files db' id = validate_stored_files db id) by (unfold validate_stored_files; by rewrite E3).
  assert (Hs : stored_checkpoints db' id = stored_checkpoints db id).
  { unfold stored_checkpoints. rewrite E3. apply list_omap_ext, Forall2_same_length_lookup_2; [done|].
    intros k x y Hx Hy. rewrite Hx in Hy. injection Hy as <-. by rewrite E4. }
  unfold validate_stored_checkpoints, read_import_locator. by rewrite Hf, Hs, E5.
Qed.

(** What a successful read says of the rows. *)
Record import_reads (db : ImportDb) (id : string) (row : ImportRow) (job : StoredImportJob) : Prop := {
  ird_row : ib_jobs db !! id = Some row;
  ird_spec : ib_specs db !! id = Some (mkImportSpecRow CURRENT_IMPORT_SPEC_VERSION (si_spec job));
  ird_snapshot : si_snapshot job = jw_snapshot row;
  ird_id : is_job_id (si_spec job) = id /\ im_job_id (jw_snapshot row) = id;
  ird_key : jw_natural_key row = canonical_key (is_natural_key (si_spec job));
  ird_digest : jw_request_digest row = is_request_digest (si_spec job);
  ird_version : jw_state_version row = im_version (jw_snapshot row);
  ird_terminal : jw_is_terminal row = import_terminal (im_state (jw_snapshot row));
  ird_rehydrates : from_snapshot (si_spec job) (jw_snapshot row) = Ok (mkJob (si_spec job) (jw_snapshot row));
}.

Lemma from_snapshot_ok spec s j : from_snapshot spec s = Ok j -> j = mkJob spec s.
Proof. unfold from_snapshot. destruct (_ && _); [by intros [= <-]|done]. Qed.

Lemma read_import_ok db id job : read_import_job db id = Ok (Some job) -> exists row, import_reads db id row job.
Proof.
  unfold read_import_job. destruct (ib_jobs db !! id) as [row|] eqn:Er; [|done]. rewrite rbind_ok. intros (srow & Hs%ok_or_ok & Hr).
  revert Hr. destruct (N.eqb_spec (js_spec_version srow) CURRENT_IMPORT_SPEC_VERSION) as [Ev|]; [|done]. cbn [negb].
  destruct (import_identity_agrees _ _ _) eqn:Ei; [|done]. cbn [negb]. rewrite rbind_ok. intros (j & Hj%rmap_err_ok & Hr). revert Hr.
  rewrite rbind_ok. intros (u & _ & Hr). revert Hr. rewrite rbind_ok. intros (u' & _ & Hr). revert Hr.
  rewrite rbind_ok. intros (f & _ & Hr). revert Hr. rewrite rbind_ok. intros (l & _ & [= <-]). exists row.
  unfold import_identity_agrees in Ei. rewrite !andb_true_iff, !String.eqb_eq, bool_decide_eq_true, N.eqb_eq in Ei.
  destruct Ei as [[[[[[[Hid Hkey] Hdig] Hsid] _] _] Hver] Hterm%eqb_prop]. assert (Hj' := from_snapshot_ok _ _ _ Hj). subst j.
  constructor; cbn; try done. destruct srow as [v sp]. cbn in *. by subst.
Qed.

Lemma require_import_read db id job : require_import_job db id = Ok job -> read_import_job db id = Ok (Some job).
Proof. unfold require_import_job. rewrite rbind_ok. intros (o & Ho & ->%ok_or_ok). done. Qed.

Lemma require_import_ok db id job : require_import_job db id = Ok job -> exists row, import_reads db id row job.
Proof. intros Hr%require_import_read. by apply read_import_ok. Qed.

(** ** The invariant *)

Definition receipts_agree (s : SourceReceipt) (r : LibraryImportReceipt) : Prop :=
  rx_source_revision s = li_source_revision r /\ rx_source_identity s = li_source_identity r /\
  rx_sealed_inventory_digest s = li_sealed_inventory_digest r /\ rx_local_path s = li_local_path r /\
  rx_provenance s = li_provenance r /\ rx_commit_receipt s = li_commit_receipt r.

(** The receipts that a verified import leaves. *)
Definition receipted (db : ImportDb) (id : string) (local : LocalSourceReceipt) : Prop :=
  exists receipt_id identity,
    let '(s, r) := local_source_receipt_rows receipt_id id identity local in
    ib_source_receipts db !! rx_source_revision s = Some s /\ ib_import_receipts db !! receipt_id = Some r.

Record import_store_ok (db : ImportDb) : Prop := {
  io_reads : forall id, exists job, read_import_job db id = Ok job;
  io_keys : forall id id' row row', ib_jobs db !! id = Some row -> ib_jobs db !! id' = Some row' ->
    jw_natural_key row = jw_natural_key row' -> id = id';
  io_recorded : forall id row, ib_jobs db !! id = Some row -> import_terminal (im_state (jw_snapshot row)) = true ->
    exists env, ob_rows (ib_outbox db) !! id = Some env /\ ce_outcome env = jw_snapshot row;
  io_outbox : forall id env, ob_rows (ib_outbox db) !! id = Some env ->
    (ce_sequence env <= ob_sequence (ib_outbox db))%N /\
    (exists row, ib_jobs db !! id = Some row /\ (im_version (ce_outcome env) <= im_version (jw_snapshot row))%N) /\
    import_terminal (im_state (ce_outcome env)) = true /\
    forall local, im_local_receipt (ce_outcome env) = Some local -> receipted db id local;
  io_sequence : forall id id' env env', ob_rows (ib_outbox db) !! id = Some env -> ob_rows (ib_outbox db) !! id' = Some env' ->
    ce_sequence env = ce_sequence env' -> id = id';
  io_receipts : forall rid r, ib_import_receipts db !! rid = Some r ->
    li_receipt_id r = rid /\ is_Some (ib_jobs db !! li_import_job_id r) /\
    exists s, ib_source_receipts db !! li_source_revision r = Some s /\ receipts_agree s r;
  io_fence : forall rid rid' r r', ib_import_receipts db !! rid = Some r -> ib_import_receipts db !! rid' = Some r' ->
    li_import_job_id r = li_import_job_id r' \/
    li_source_identity r = li_source_identity r' /\ li_source_revision r = li_source_revision r' -> rid = rid';
}.

(** A later row of a job: the same request, and the same snapshot or a later version. *)
Definition import_row_advances (old new : ImportRow) : Prop :=
  jw_natural_key new = jw_natural_key old /\ jw_request_digest new = jw_request_digest old /\
  jw_created_at new = jw_created_at old /\
  (jw_snapshot new = jw_snapshot old \/ (im_version (jw_snapshot old) < im_version (jw_snapshot new))%N).

(** What every operation keeps. *)
Record import_advances (db db' : ImportDb) : Prop := {
  ia_rows : forall id row, ib_jobs db !! id = Some row -> exists row', ib_jobs db' !! id = Some row' /\ import_row_advances row row';
  ia_specs : forall id, is_Some (ib_jobs db !! id) -> ib_specs db' !! id = ib_specs db !! id;
  ia_outbox : forall id env, ob_rows (ib_outbox db) !! id = Some env -> exists env', ob_rows (ib_outbox db') !! id = Some env' /\
    ce_outcome env' = ce_outcome env /\ ce_sequence env' = ce_sequence env;
  ia_sources : ib_source_receipts db ⊆ ib_source_receipts db';
  ia_imports : ib_import_receipts db ⊆ ib_import_receipts db';
}.

Lemma import_row_advances_refl row : import_row_advances row row.
Proof. unfold import_row_advances. split_and!; try done. by left. Qed.

Lemma import_row_advances_trans a b c : import_row_advances a b -> import_row_advances b c -> import_row_advances a c.
Proof.
  intros (A1 & A2 & A3 & A4) (B1 & B2 & B3 & B4). unfold import_row_advances. split_and!; [congruence..|].
  destruct A4 as [E|L], B4 as [E'|L']; [left; congruence|right; congruence|right; congruence|right; lia].
Qed.
#[local] Hint Resolve import_row_advances_refl : core.

Lemma advances_version old new : import_row_advances old new -> (im_version (jw_snapshot old) <= im_version (jw_snapshot new))%N.
Proof. intros (_ & _ & _ & [->|?]); lia. Qed.

Lemma import_advances_refl db : import_advances db db.
Proof. split; eauto. Qed.
#[local] Hint Resolve import_advances_refl : core.

Lemma import_advances_trans a b c : import_advances a b -> import_advances b c -> import_advances a c.
Proof.
  intros [A1 A2 A3 A4 A5] [B1 B2 B3 B4 B5]. split; [| | |by etrans..].
  - intros id row (r1 & H1 & K1)%A1. destruct (B1 _ _ H1) as (r2 & H2 & K2). exists r2. split; [done|by eapply import_row_advances_trans].
  - intros id Hs. rewrite <- (A2 id Hs). apply B2. destruct Hs as [row Hr]. destruct (A1 _ _ Hr) as (r1 & H1 & _). by eexists.
  - intros id env (e1 & H1 & K1 & K1')%A3. destruct (B3 _ _ H1) as (e2 & H2 & K2 & K2'). exists e2. split_and!; [done|congruence..].
Qed.

Lemma receipted_mono db db' id local :
  ib_source_receipts db ⊆ ib_source_receipts db' -> ib_import_receipts db ⊆ ib_import_receipts db' ->
  receipted db id local -> receipted db' id local.
Proof.
  intros Hs Hi (rid & identity & H1 & H2). exists rid, identity. cbn in *.
  split; eapply lookup_weaken; [exact H1|exact Hs|exact H2|exact Hi].
Qed.

(** Tables that an operation on something else leaves alone. *)
Lemma unrelated_ok db db' :
  (forall id, same_job db db' id) -> ib_jobs db' = ib_jobs db -> ib_outbox db' = ib_outbox db ->
  ib_source_receipts db' = ib_source_receipts db -> ib_import_receipts db' = ib_import_receipts db ->
  import_store_ok db -> import_store_ok db' /\ import_advances db db'.
Proof.
  intros Hsame Ej Eo Es Ei Hok. split.
  - split; rewrite ?Ej, ?Eo, ?Es, ?Ei; try apply Hok.
    + intros id. rewrite (same_job_reads _ _ _ (Hsame id)). apply Hok.
    + intros id env He. destruct (io_outbox _ Hok id env He) as (K1 & K2 & K3 & K4). split_and!; try done. intros local Hl.
      apply (receipted_mono db); [| |by apply K4]; by rewrite ?Es, ?Ei.
  - split; rewrite ?Ej, ?Eo, ?Es, ?Ei; eauto. intros id _. by apply Hsame.
Qed.

(** One job's rows changed, and the changed job was read back. *)
Lemma changed_job_ok db db' jid row :
  import_store_ok db -> touches jid db db' -> (exists job, read_import_job db' jid = Ok job) ->
  ib_jobs db' = <[jid := row]> (ib_jobs db) ->
  (forall id row', id <> jid -> ib_jobs db !! id = Some row' -> jw_natural_key row' <> jw_natural_key row) ->
  (forall old, ib_jobs db !! jid = Some old -> import_row_advances old row /\ ib_specs db' !! jid = ib_specs db !! jid) ->
  import_terminal (im_state (jw_snapshot row)) = false ->
  import_store_ok db' /\ import_advances db db'.
Proof.
  intros Hok T Hread Ej Hkey Hold Hnt.
  assert (Hrow : forall id r, ib_jobs db' !! id = Some r -> (id = jid /\ r = row) \/ (id <> jid /\ ib_jobs db !! id = Some r)).
  { intros id r. rewrite Ej. intros [[<- <-]|[Hne Hr]]%lookup_insert_Some; [by left|right; by split]. }
  assert (Hsome : forall id, is_Some (ib_jobs db !! id) -> is_Some (ib_jobs db' !! id)).
  { intros id Hs. rewrite Ej. destruct (decide (id = jid)) as [->|Hne]; [rewrite lookup_insert_eq; by eexists|by rewrite lookup_insert_ne]. }
  assert (Hlater : forall id n, (exists r, ib_jobs db !! id = Some r /\ (n <= im_version (jw_snapshot r))%N) ->
    exists r, ib_jobs db' !! id = Some r /\ (n <= im_version (jw_snapshot r))%N).
  { intros id n (r & Hr & Hle). rewrite Ej. destruct (decide (id = jid)) as [->|Hne]; [|exists r; by rewrite lookup_insert_ne].
    exists row. rewrite lookup_insert_eq. split; [done|]. destruct (Hold r Hr) as [Ha _]. apply advances_version in Ha. lia. }
  split.
  - split.
    + intros id. destruct (decide (id = jid)) as [->|Hne]; [done|]. rewrite (same_job_reads db); [apply Hok|]. by apply T.
    + intros id id' r r' [[-> ->]|[Hne Hr]]%Hrow [[-> ->]|[Hne' Hr']]%Hrow Hk; [done|..|by eapply (io_keys _ Hok)].
      * by destruct (Hkey id' r' Hne' Hr').
      * by destruct (Hkey id r Hne Hr).
    + intros id r [[-> ->]|[_ Hr]]%Hrow Ht; [congruence|]. rewrite (to_outbox _ _ _ T). by apply (io_recorded _ Hok).
    + rewrite (to_outbox _ _ _ T). intros id env He. destruct (io_outbox _ Hok id env He) as (K1 & K2 & K3 & K4). split_and!; try done; [by apply Hlater|].
      intros local Hl. apply (receipted_mono db); [by rewrite (to_sources _ _ _ T)|by rewrite (to_imports _ _ _ T)|by apply K4].
    + rewrite (to_outbox _ _ _ T). apply Hok.
    + rewrite (to_imports _ _ _ T), (to_sources _ _ _ T). intros rid r Hr. destruct (io_receipts _ Hok rid r Hr) as (K1 & K2 & K3).
      split_and!; try done. by apply Hsome.
    + rewrite (to_imports _ _ _ T). apply Hok.
  - split; [| |rewrite (to_outbox _ _ _ T); eauto|by rewrite (to_sources _ _ _ T)|by rewrite (to_imports _ _ _ T)].
    + intros id r Hr. rewrite Ej. destruct (decide (id = jid)) as [->|Hne].
      * exists row. rewrite lookup_insert_eq. split; [done|]. by apply Hold.
      * exists r. by rewrite lookup_insert_ne.
    + intros id [r Hr]. destruct (decide (id = jid)) as [->|Hne]; [by destruct (Hold r Hr)|by apply T].
Qed.

(** ** Creation *)

Lemma bump_imports_ok db db' : bump_imports db = Ok db' -> exists n, db' = set_revisions db n (ib_pipelines_revision db).
Proof. unfold bump_imports. rewrite rbind_ok. intros (n & _ & [= <-]). by exists n. Qed.

Lemma set_revisions_ok db x y : import_store_ok db -> import_store_ok (set_revisions db x y) /\ import_advances db (set_revisions db x y).
Proof. apply unrelated_ok; try done. Qed.

Lemma find_import_some db key id digest :
  find_import_identity db key = Some (id, digest) ->
  exists row, ib_jobs db !! id = Some row /\ jw_natural_key row = key /\ jw_request_digest row = digest.
Proof.
  unfold find_import_identity. destruct (List.find _ _) as [[id' row]|] eqn:E; [|done]. intros [= -> <-].
  apply find_some in E as [Hin%list_elem_of_In%elem_of_map_to_list Hk%String.eqb_eq]. by exists row.
Qed.

(** What [ensure_import] gives: the job of the request, new or old. *)
Record ensured (db db' : ImportDb) (spec : ImportSpec) (job : StoredImportJob) (created : bool) (now : string) : Prop := {
  en_ok : import_store_ok db' /\ import_advances db db';
  en_reads : exists row, import_reads db' (is_job_id (si_spec job)) row job;
  en_read : read_import_job db' (is_job_id (si_spec job)) = Ok (Some job);
  en_request : canonical_key (is_natural_key (si_spec job)) = canonical_key (is_natural_key spec) /\
    is_request_digest (si_spec job) = is_request_digest spec;
  en_pipelines : ib_pipelines db' = ib_pipelines db /\ ib_dependencies db' = ib_dependencies db;
  en_created : if created then ib_jobs db !! is_job_id spec = None /\ si_spec job = spec /\
      ib_jobs db' = <[is_job_id spec := initial_row spec now]> (ib_jobs db)
    else db' = db;
}.

Lemma ensure_import_ok db spec now db' job created :
  import_store_ok db -> ensure_import db spec now = Ok (db', (job, created)) -> ensured db db' spec job created now.
Proof.
  intros Hok. unfold ensure_import. destruct (find_import_identity _ _) as [[eid edig]|] eqn:Ef.
  - destruct (String.eqb_spec edig (is_request_digest spec)) as [Ed|]; [|done]. cbn [negb].
    rewrite rbind_ok. intros (found & Hf%rmap_err_ok & Hr). revert Hr. rewrite rbind_ok. intros (ex & ->%ok_or_ok & [= <- <- <-]).
    apply find_import_some in Ef as (row & Er & Ek & Edig). assert (Hrd := Hf). apply read_import_ok in Hrd as [row' Hrd].
    assert (row' = row) as -> by (destruct Hrd as [Hr' _ _ _ _ _ _ _ _]; congruence).
    split; [split; [done|done]| | |split|done|done].
    + exists row. by rewrite (proj1 (ird_id _ _ _ _ Hrd)).
    + by rewrite (proj1 (ird_id _ _ _ _ Hrd)).
    + rewrite <- (ird_key _ _ _ _ Hrd). done.
    + rewrite <- (ird_digest _ _ _ _ Hrd). congruence.
  - destruct (import_natural_key_for_id _ _) eqn:En; [done|]. rewrite rbind_ok. intros (db1 & Hi%rmap_err_ok & Hr). revert Hr.
    rewrite rbind_ok. intros (found & Hf%rmap_err_ok & Hr). revert Hr. rewrite rbind_ok. intros (ins & ->%ok_or_ok & [= <- <- <-]).
    destruct (insert_new_ok _ _ _ _ Hi) as (T & Hn & Ej & Es & Hkeys). assert (Hrd := Hf). apply read_import_ok in Hrd as [row Hrd].
    assert (Hsp : si_spec ins = spec) by (destruct Hrd as [_ Hs _ _ _ _ _ _ _]; congruence).
    split.
    + apply (changed_job_ok db db1 (is_job_id spec) (initial_row spec now) Hok T); [by eexists|done| | |done].
      * intros id row' _ Hr. by apply Hkeys in Hr.
      * intros old Ho. congruence.
    + exists row. by rewrite Hsp.
    + by rewrite Hsp.
    + by rewrite Hsp.
    + split; apply T.
    + done.
Qed.

Lemma step_create_import db spec now db' o :
  import_store_ok db -> create_import_job db spec now = Ok (db', o) -> import_store_ok db' /\ import_advances db db'.
Proof.
  intros Hok. unfold create_import_job. rewrite rbind_ok. intros (u & _ & Hr). revert Hr. rewrite rbind_ok.
  intros ([db1 [job created]] & He & Hr). apply ensure_import_ok in He as [[Hok1 Ha1] _ _ _ _]; [|done]. destruct created.
  - apply rbind_ok in Hr as (db2 & Hb%rmap_err_ok & [= <- _]). apply bump_imports_ok in Hb as [n ->].
    destruct (set_revisions_ok db1 n (ib_pipelines_revision db1) Hok1). split; [done|by eapply import_advances_trans].
  - by injection Hr as <- _.
Qed.

(** ** Snapshots *)

Lemma persisted_advances row v next now :
  im_version (jw_snapshot row) = v -> im_version next = (v + 1)%N -> import_row_advances row (later_row row next now).
Proof. intros H1 H2. unfold import_row_advances. cbn. split_and!; try done. right. lia. Qed.

Lemma step_swap_import db v next u now db' o :
  import_store_ok db -> compare_and_swap_import_snapshot db v next u now = Ok (db', o) ->
  import_store_ok db' /\ import_advances db db'.
Proof.
  intros Hok. unfold compare_and_swap_import_snapshot. destruct (import_terminal (im_state next)) eqn:Et; [done|].
  rewrite rbind_ok. intros (current & Hc%require_import_ok & Hr). revert Hr. case_bool_decide; [by intros [= <- _]|].
  rewrite rbind_ok. intros (db1 & Hp & Hr). revert Hr. rewrite rbind_ok. intros (db2 & Hb & Hr). revert Hr.
  rewrite rbind_ok. intros (stored & Hst%require_import_read & [= <- _]). apply bump_imports_ok in Hb as [n ->].
  destruct (persist_import_ok _ _ _ _ _ _ _ Hp) as (Hv & Hn & _ & _ & T & Es & row & Er & Ej).
  destruct Hc as [row0 Hrd]. assert (row0 = row) as -> by (destruct Hrd as [Hr0 _ _ _ _ _ _ _ _]; congruence).
  apply (changed_job_ok db _ (im_job_id next) (later_row row next now) Hok); try done.
  - by apply touches_revisions.
  - by eexists.
  - intros id row' Hne Hr Hk. cbn in Hk. by destruct (Hne (io_keys _ Hok _ _ _ _ Hr Er Hk)).
  - intros old Ho. rewrite Er in Ho. injection Ho as <-. split; [|cbn; by rewrite Es].
    eapply persisted_advances; [|exact Hn]. by rewrite <- (ird_snapshot _ _ _ _ Hrd).
Qed.

(** ** Receipts *)

Record receipts_ok (db : ImportDb) : Prop := {
  ro_receipts : forall rid r, ib_import_receipts db !! rid = Some r ->
    li_receipt_id r = rid /\ is_Some (ib_jobs db !! li_import_job_id r) /\
    exists s, ib_source_receipts db !! li_source_revision r = Some s /\ receipts_agree s r;
  ro_fence : forall rid rid' r r', ib_import_receipts db !! rid = Some r -> ib_import_receipts db !! rid' = Some r' ->
    li_import_job_id r = li_import_job_id r' \/
    li_source_identity r = li_source_identity r' /\ li_source_revision r = li_source_revision r' -> rid = rid';
}.

Lemma insert_source_ok rows s rows' o : insert_source_receipt rows s = Ok (rows', o) ->
  rows ⊆ rows' /\ rows' !! rx_source_revision s = Some s.
Proof.
  unfold insert_source_receipt. destruct (rows !! rx_source_revision s) as [x|] eqn:E.
  - case_bool_decide; [|done]. intros [= <- _]. by subst.
  - intros [_ Hr]%guard_ok. injection Hr as <- _. split; [by apply insert_subseteq|by rewrite lookup_insert_eq].
Qed.

Lemma find_none_lookup {A} (m : gmap string A) p k x : List.find (fun '(_, r) => p r) (map_to_list m) = None -> m !! k = Some x -> p x = false.
Proof. intros Hf Hx. eapply find_none in Hf; [|apply list_elem_of_In, elem_of_map_to_list, Hx]. done. Qed.

Lemma insert_pair_ok db s r db' o :
  receipts_ok db -> receipts_agree s r -> insert_receipt_pair db s r = Ok (db', o) ->
  receipts_ok db' /\ db' = set_receipts db (ib_source_receipts db') (ib_import_receipts db') /\
  ib_source_receipts db ⊆ ib_source_receipts db' /\ ib_import_receipts db ⊆ ib_import_receipts db' /\
  ib_source_receipts db' !! rx_source_revision s = Some s /\ ib_import_receipts db' !! li_receipt_id r = Some r.
Proof.
  intros Hok Ha. unfold insert_receipt_pair. rewrite rbind_ok. intros ([rows o1] & [Hs Hl]%insert_source_ok & Hr). revert Hr.
  unfold insert_import_receipt. set (db1 := set_receipts db rows _).
  assert (Hok1 : receipts_ok db1).
  { split; [|apply Hok]. intros rid x Hx. destruct (ro_receipts _ Hok rid x Hx) as (K1 & K2 & y & K3 & K4). split_and!; try done.
    exists y. split; [by eapply lookup_weaken|done]. }
  change (ib_import_receipts db1) with (ib_import_receipts db). destruct (ib_import_receipts db !! li_receipt_id r) as [x|] eqn:E.
  { case_bool_decide as Hx; [|done]. intros [= <- _]. subst x. by split_and!. }
  unfold read_import_receipt_by_natural_key. destruct (List.find _ _) as [[k x]|] eqn:En; cbn [fmap option_fmap option_map].
  { cbn [snd]. case_bool_decide as Hx; [|done]. intros [= <- _]. subst x. exfalso.
    apply find_some in En as [Hin%list_elem_of_In%elem_of_map_to_list _].
    destruct (ro_receipts _ Hok _ _ Hin) as (<- & _). congruence. }
  intros [Hg Hr]%guard_ok. injection Hr as <- _. rewrite !orb_false_iff, !negb_false_iff in Hg. destruct Hg as [[[[[[Hj Hjob] Hsrc] _] _] _] _].
  apply bool_decide_eq_true in Hjob, Hsrc. apply bool_decide_eq_false in Hj. rewrite <- eq_None_not_Some in Hj.
  unfold import_receipt_of_job in Hj. destruct (List.find (fun '(_, x) => String.eqb (li_import_job_id x) _) _) as [|] eqn:Ej; [done|].
  assert (Hnew : forall rid x, ib_import_receipts db !! rid = Some x ->
    ~ (li_import_job_id r = li_import_job_id x \/ li_source_identity r = li_source_identity x /\ li_source_revision r = li_source_revision x)).
  { intros rid x Hx. pose proof (find_none_lookup _ (fun x => String.eqb (li_import_job_id x) (li_import_job_id r)) _ _ Ej Hx) as N1.
    pose proof (find_none_lookup _ (fun x => String.eqb (li_source_identity x) (li_source_identity r) &&
      String.eqb (li_source_revision x) (li_source_revision r)) _ _ En Hx) as N2. cbn in N1, N2. apply String.eqb_neq in N1.
    intros [Hc|[E1 E2]]; [congruence|]. by rewrite E1, E2, !String.eqb_refl in N2. }
  split_and!; cbn; [|done|done|by apply insert_subseteq|done|by rewrite lookup_insert_eq].
  split; cbn.
  - intros rid x [[<- <-]|[_ Hx]]%lookup_insert_Some; [|by apply (ro_receipts _ Hok1)].
    split_and!; [done|done|]. exists s. split; [|done]. by rewrite <- (proj1 Ha).
  - intros rid rid' x x' [[<- <-]|[_ Hx]]%lookup_insert_Some [[<- <-]|[_ Hx']]%lookup_insert_Some Hsame; [done|..].
    + by destruct (Hnew _ _ Hx').
    + destruct (Hnew _ _ Hx). naive_solver.
    + by eapply (ro_fence _ Hok).
Qed.

Lemma rows_agree rid id identity local :
  let '(s, r) := local_source_receipt_rows rid id identity local in receipts_agree s r /\ li_receipt_id r = rid.
Proof. cbn. done. Qed.

Lemma store_receipts_ok db : import_store_ok db -> receipts_ok db.
Proof. intros Hok. split; apply Hok. Qed.

Lemma with_receipts_ok db db' :
  import_store_ok db -> receipts_ok db' -> db' = set_receipts db (ib_source_receipts db') (ib_import_receipts db') ->
  ib_source_receipts db ⊆ ib_source_receipts db' -> ib_import_receipts db ⊆ ib_import_receipts db' ->
  import_store_ok db' /\ import_advances db db'.
Proof.
  intros Hok Hro E Hs Hi. assert (Ej : ib_jobs db' = ib_jobs db) by by rewrite E. assert (Eo : ib_outbox db' = ib_outbox db) by by rewrite E.
  split.
  - split; rewrite ?Ej, ?Eo; try apply Hok; try apply Hro.
    + intros id. rewrite (same_job_reads db); [apply Hok|]. rewrite E. by split.
    + intros id env He. destruct (io_outbox _ Hok id env He) as (K1 & K2 & K3 & K4). split_and!; try done. intros local Hl.
      apply (receipted_mono db); auto.
    + rewrite <- Ej. apply Hro.
  - split; rewrite ?Ej, ?Eo; eauto. intros id _. by rewrite E.
Qed.

Lemma step_record_commit db s r db' o :
  import_store_ok db -> record_import_commit db s r = Ok (db', o) -> import_store_ok db' /\ import_advances db db'.
Proof.
  intros Hok. unfold record_import_commit. rewrite rbind_ok. intros (u & _ & Hr). revert Hr. rewrite rbind_ok. intros (u' & _ & Hr).
  apply guard_ok in Hr as [Hg Hr]. rewrite !orb_false_iff, !negb_false_iff, !String.eqb_eq, !bool_decide_eq_true in Hg.
  apply insert_pair_ok in Hr as (H1 & H2 & H3 & H4 & _); [|by apply store_receipts_ok|unfold receipts_agree; naive_solver].
  by apply with_receipts_ok.
Qed.

Lemma step_record_source db s db' o :
  import_store_ok db -> record_source_receipt db s = Ok (db', o) -> import_store_ok db' /\ import_advances db db'.
Proof.
  intros Hok. unfold record_source_receipt. rewrite rbind_ok. intros (u & _ & Hr). revert Hr. rewrite rbind_ok.
  intros ([rows o1] & [Hs Hl]%insert_source_ok & [= <- _]). apply with_receipts_ok; try done. cbn. split; cbn; [|apply Hok].
  intros rid x Hx. destruct (io_receipts _ Hok rid x Hx) as (K1 & K2 & y & K3 & K4). split_and!; try done.
  exists y. split; [by eapply lookup_weaken|done].
Qed.

(** ** Completion *)

Lemma record_success_receipted db next p db' :
  receipts_ok db -> record_import_success db next p = Ok db' ->
  receipts_ok db' /\ db' = set_receipts db (ib_source_receipts db') (ib_import_receipts db') /\
  ib_source_receipts db ⊆ ib_source_receipts db' /\ ib_import_receipts db ⊆ ib_import_receipts db' /\
  forall local, im_local_receipt next = Some local -> receipted db' (im_job_id next) local.
Proof.
  intros Hok. unfold record_import_success. destruct (im_local_receipt next) as [local|], p as [p|]; try done.
  - pose proof (rows_agree (pj_receipt_id p) (im_job_id next) (pj_source_identity p) local) as Ha.
    destruct (local_source_receipt_rows _ _ _ local) as [s r] eqn:E. destruct Ha as [Ha Hid].
    rewrite rbind_ok. intros ([db1 o] & Hi & Hr). injection Hr as <-.
    apply insert_pair_ok in Hi as (H1 & H2 & H3 & H4 & H5 & H6); [|done|done].
    split_and!; try done. intros l [= <-]. exists (pj_receipt_id p), (pj_source_identity p). rewrite E, <- Hid. by split.
  - intros [= <-]. split_and!; try done. by destruct db.
Qed.

Lemma step_complete_import db v next u p now db' o :
  import_store_ok db -> complete_import_job db v next u p now = Ok (db', o) -> import_store_ok db' /\ import_advances db db'.
Proof.
  intros Hok. unfold complete_import_job. destruct (import_terminal (im_state next)) eqn:Et; [|done]. cbn [negb].
  rewrite rbind_ok. intros (current & Hc%require_import_ok & Hr). destruct Hc as [row0 Hrd]. revert Hr.
  set (replay := bool_decide _). rewrite rbind_ok. intros (db1 & Hp & Hr). revert Hr.
  rewrite rbind_ok. intros (db2 & Hs & Hr). revert Hr. rewrite rbind_ok. intros ([ob completion] & Hi & Hr). revert Hr.
  rewrite rbind_ok. intros (db3 & Hb & Hr). revert Hr. rewrite rbind_ok. intros (job & Hj%require_import_read & [= <- _]).
  assert (Hdb3 : exists n m, db3 = set_revisions (set_outbox db2 ob) n m).
  { destruct (negb replay || is_recorded completion); [apply bump_imports_ok in Hb as [n ->]; by eexists _, _|].
    injection Hb as <-. eexists _, _. by destruct db2. }
  destruct Hdb3 as (n & m & ->). clear Hb. apply insert_completion_ok in Hi. set (jid := im_job_id next) in *.
  destruct Hrd as [Er _ Esn _ _ _ _ _ _]. subst replay. case_bool_decide as Hre; cbn [negb] in *.
  - injection Hp as <-. apply record_success_receipted in Hs as (H1 & H2 & H3 & H4 & _); [|by apply store_receipts_ok].
    destruct (with_receipts_ok _ _ Hok H1 H2 H3 H4) as [Hok2 Ha2].
    assert (Hob : ob = ib_outbox db2).
    { destruct Hi as [[-> _]|[Hn _]]; [done|]. destruct (io_recorded _ Hok jid row0 Er) as (env & He & _); [by rewrite <- Esn, Hre|].
      exfalso. rewrite H2 in Hn. cbn in Hn. congruence. }
    subst ob. replace (set_revisions (set_outbox db2 (ib_outbox db2)) n m) with (set_revisions db2 n m) by by destruct db2.
    destruct (set_revisions_ok db2 n m Hok2). split; [done|by eapply import_advances_trans].
  - destruct (persist_import_ok _ _ _ _ _ _ _ Hp) as (Hv & Hn & _ & _ & T & Es & row & Er' & Ej). fold jid in T, Er', Ej.
    assert (row0 = row) as -> by congruence. clear Er'.
    assert (Hro1 : receipts_ok db1).
    { split; rewrite ?(to_imports _ _ _ T), ?(to_sources _ _ _ T); [|apply Hok]. intros rid r Hr.
      destruct (io_receipts _ Hok rid r Hr) as (K1 & K2 & K3). split_and!; try done. rewrite Ej.
      destruct (decide (li_import_job_id r = jid)) as [->|]; [rewrite lookup_insert_eq; by eexists|by rewrite lookup_insert_ne]. }
    apply record_success_receipted in Hs as (H1 & H2 & H3 & H4 & H5); [|done].
    assert (Hdb2 : ib_jobs db2 = ib_jobs db1 /\ ib_outbox db2 = ib_outbox db1 /\ ib_specs db2 = ib_specs db1 /\ forall id, same_job db1 db2 id).
    { rewrite H2. by split_and!. }
    destruct Hdb2 as (Ej2 & Eo2 & Es2 & Hsame2). rewrite (to_outbox _ _ _ T) in Eo2. rewrite Eo2 in Hi.
    rewrite (to_sources _ _ _ T) in H3. rewrite (to_imports _ _ _ T) in H4.
    set (db3 := set_revisions (set_outbox db2 ob) n m) in *.
    assert (Hadv : import_row_advances row (later_row row next now)) by (eapply persisted_advances; [|exact Hn]; congruence).
    assert (Hrow : forall id r, ib_jobs db3 !! id = Some r -> (id = jid /\ r = later_row row next now) \/ (id <> jid /\ ib_jobs db !! id = Some r)).
    { intros id r. cbn. rewrite Ej2, Ej. intros [[<- <-]|[Hne Hr]]%lookup_insert_Some; [by left|right; by split]. }
    assert (Hlater : forall id r, ib_jobs db !! id = Some r -> exists r', ib_jobs db3 !! id = Some r' /\ import_row_advances r r').
    { intros id r Hr. cbn. rewrite Ej2, Ej. destruct (decide (id = jid)) as [->|]; [|exists r; by rewrite lookup_insert_ne].
      exists (later_row row next now). rewrite lookup_insert_eq. split; [done|]. congruence. }
    assert (Hver : im_version (jw_snapshot row) = v) by congruence.
    destruct Hi as [(_ & e & He & Eout & _)|[Hno ->]].
    { exfalso. destruct (io_outbox _ Hok jid e He) as (_ & (r & Hr & Hle) & _). rewrite Er in Hr. injection Hr as <-.
      rewrite Eout in Hle. lia. }
    split.
    + split.
      * intros id. destruct (decide (id = jid)) as [->|Hne]; [by eexists|].
        rewrite (same_job_reads db); [apply Hok|]. eapply same_job_trans; [by apply T|]. destruct (Hsame2 id). by split.
      * intros id id' r r' [[-> ->]|[_ Hr]]%Hrow [[-> ->]|[_ Hr']]%Hrow Hk; [done|..|by eapply (io_keys _ Hok)].
        -- by eapply (io_keys _ Hok).
        -- by eapply (io_keys _ Hok).
      * intros id r [[-> ->]|[Hne Hr]]%Hrow Ht.
        -- eexists. cbn. by rewrite lookup_insert_eq.
        -- cbn. rewrite lookup_insert_ne by done. by apply (io_recorded _ Hok).
      * intros id e. cbn. intros [[<- <-]|[Hne He]]%lookup_insert_Some; cbn.
        -- split; [lia|]. split; [|split; [done|intros local Hl; by apply H5]]. exists (later_row row next now).
           rewrite Ej2, Ej, lookup_insert_eq. split; [done|]. cbn. lia.
        -- destruct (io_outbox _ Hok id e He) as (K1 & (r & Hr & Hle) & K3 & K4). split; [lia|]. split_and!; [|done|].
           { destruct (Hlater id r Hr) as (r' & Hr' & Ha%advances_version). exists r'. split; [done|lia]. }
           intros local Hl. apply (receipted_mono db); auto.
      * intros id id' e e'. cbn. intros [[<- <-]|[Hne He]]%lookup_insert_Some [[<- <-]|[Hne' He']]%lookup_insert_Some Hs; [done|..].
        -- destruct (io_outbox _ Hok id' e' He') as (Hle & _). cbn in Hs. lia.
        -- destruct (io_outbox _ Hok id e He) as (Hle & _). cbn in Hs. lia.
        -- by eapply (io_sequence _ Hok).
      * apply H1.
      * apply H1.
    + split; cbn; [done| |intros id e He|done..].
      * intros id Hid. rewrite Es2, Es. done.
      * exists e. rewrite lookup_insert_ne; [done|]. intros <-. congruence.
Qed.

(** ** The other operations *)

Lemma step_acknowledge_import db job_id now db' o :
  import_store_ok db -> acknowledge_import_completion db job_id now = Ok (db', o) -> import_store_ok db' /\ import_advances db db'.
Proof.
  intros Hok. unfold acknowledge_import_completion. rewrite rbind_ok. intros (u & _ & Hr). revert Hr. unfold acknowledge_completion.
  destruct (ob_rows (ib_outbox db) !! job_id) as [e|] eqn:E.
  2: { intros [= <- _]. destruct db. by split. }
  destruct (ce_acknowledged_at e).
  { intros [= <- _]. destruct db. by split. }
  rewrite rbind_ok. intros (db1 & Hb & [= <- _]). apply bump_imports_ok in Hb as [n ->].
  set (e' := mkEnvelope _ _ _ _ _ _) in *.
  assert (Hold : forall id x, <[job_id := e']> (ob_rows (ib_outbox db)) !! id = Some x ->
    exists y, ob_rows (ib_outbox db) !! id = Some y /\ ce_outcome x = ce_outcome y /\ ce_sequence x = ce_sequence y).
  { intros id x [[<- <-]|[_ Hx]]%lookup_insert_Some; [by exists e|by exists x]. }
  split.
  - split; [intros id; rewrite (same_job_reads db); [apply Hok|by split]|cbn..]; try apply Hok.
    + intros id row Hr Ht. destruct (io_recorded _ Hok id row Hr Ht) as (x & Hx & Ex).
      destruct (decide (id = job_id)) as [->|Hne]; [|exists x; by rewrite lookup_insert_ne].
      exists e'. rewrite lookup_insert_eq. split; [done|]. cbn. congruence.
    + intros id x (y & Hy & Eo & Es)%Hold. rewrite Eo, Es. by apply (io_outbox _ Hok).
    + intros id id' x x' (y & Hy & _ & Ey)%Hold (y' & Hy' & _ & Ey')%Hold Hs. eapply (io_sequence _ Hok); [done..|congruence].
  - split; cbn; [eauto|done| |done|done]. intros id x Hx. destruct (decide (id = job_id)) as [->|Hne].
    + exists e'. rewrite lookup_insert_eq. assert (x = e) as -> by congruence. by split.
    + exists x. by rewrite lookup_insert_ne.
Qed.

(** Only the observed generations change. *)
Definition only_generations (db db' : ImportDb) : Prop := exists m, db' = set_generations db m.

Lemma only_generations_trans a b c : only_generations a b -> only_generations b c -> only_generations a c.
Proof. intros [m ->] [m' ->]. by exists m'. Qed.

Lemma observe_tx_generations db g at_ db' : observe_generation_tx db g at_ = Ok db' -> only_generations db db'.
Proof.
  unfold observe_generation_tx. destruct (_ !! _).
  - destruct (negb _); [done|]. intros [= <-]. by eexists.
  - rewrite rbind_ok. intros (e & _ & [= <-]). by eexists.
Qed.

Lemma observe_all_generations at_ gs : forall db db', observe_all db gs at_ = Ok db' -> only_generations db db'.
Proof.
  induction gs as [|g gs IH]; intros db db'; cbn.
  - intros [= <-]. exists (ib_generations db). by destruct db.
  - rewrite rbind_ok. intros (db1 & H1%observe_tx_generations & H2%IH). by eapply only_generations_trans.
Qed.

Lemma step_generations db db' : import_store_ok db -> only_generations db db' -> import_store_ok db' /\ import_advances db db'.
Proof. intros Hok [m ->]. by apply unrelated_ok. Qed.

Lemma reconcile_generations db gs at_ db' : reconcile_media_generations db gs at_ = Ok db' -> only_generations db db'.
Proof.
  unfold reconcile_media_generations. rewrite rbind_ok. intros (u & _ & [m ->]%observe_all_generations). by exists m.
Qed.

Lemma observe_generations db g at_ db' s : observe_media_generation db g at_ = Ok (db', s) -> only_generations db db'.
Proof.
  unfold observe_media_generation. rewrite rbind_ok. intros (u & _ & Hr). revert Hr. rewrite rbind_ok.
  intros (db1 & Ho%observe_tx_generations & Hr). revert Hr. rewrite rbind_ok. intros (f & _ & Hr). revert Hr.
  rewrite rbind_ok. by intros (x & _ & [= <- _]).
Qed.

Lemma absent_generations db id at_ db' b : mark_media_generation_absent db id at_ = Ok (db', b) -> only_generations db db'.
Proof.
  unfold mark_media_generation_absent. rewrite rbind_ok. intros (u & _ & Hr). revert Hr.
  destruct (_ !! _); intros [= <- _]; [by eexists|]. exists (ib_generations db). by destruct db.
Qed.

Lemma bump_imports_unrelated db db' : import_store_ok db -> bump_imports db = Ok db' -> import_store_ok db' /\ import_advances db db'.
Proof. intros Hok [n ->]%bump_imports_ok. by apply set_revisions_ok. Qed.
