(* ===== verification/PipelineStoreProofs.v ===== *)
(** * PipelineStoreProofs: the media database under any sequence of its operations

The operations of the import and pipeline tables as one language, what holds
after any sequence of them, and that the admission of an import with its
pipeline can be repeated. *)

From Stdlib Require Import NArith Lia Ascii String.
From stdpp Require Import base numbers list strings gmap sorting.
From S2P Require Import Prelude Domain Files Json Publication Trust Ingest Import ImportProofs Rational Profile MediaPlan Validation Manifest.
From S2P Require Import Derivation MediaStore DerivationStore DerivationStoreProofs UploadBundle Pipeline ImportStore PipelineStore ImportStoreProofs.

Local Open Scope string_scope.

(** ** The pipeline table *)

Record pipelines_ok (db : ImportDb) : Prop := {
  po_reads : forall id, exists found, read_pipeline db id = Ok found;
  po_keys : forall id id' row row', ib_pipelines db !! id = Some row -> ib_pipelines db !! id' = Some row' ->
    pq_source_key row = pq_source_key row' -> id = id';
}.

(** A later row of a pipeline: the same source, and the same row or a later version. *)
Definition pipeline_row_advances (old new : PipelineRow) : Prop :=
  pq_source_key new = pq_source_key old /\ pq_created_at new = pq_created_at old /\
  (new = old \/ (pq_pipeline_version old < pq_pipeline_version new)%N).

Definition pipelines_advance (db db' : ImportDb) : Prop :=
  forall id row, ib_pipelines db !! id = Some row -> exists row', ib_pipelines db' !! id = Some row' /\ pipeline_row_advances row row'.

Definition same_pipelines (db db' : ImportDb) : Prop :=
  ib_pipelines db' = ib_pipelines db /\ ib_dependencies db' = ib_dependencies db.

Lemma pipeline_row_refl row : pipeline_row_advances row row.
Proof. unfold pipeline_row_advances. auto. Qed.
#[local] Hint Resolve pipeline_row_refl : core.

Lemma pipelines_advance_trans a b c : pipelines_advance a b -> pipelines_advance b c -> pipelines_advance a c.
Proof.
  intros A B id row (r1 & H1 & K1 & K2 & K3)%A. destruct (B _ _ H1) as (r2 & H2 & L1 & L2 & L3). exists r2. split; [done|].
  unfold pipeline_row_advances. split_and!; [congruence..|]. destruct K3 as [->|], L3 as [->|]; auto. right. lia.
Qed.

Lemma same_pipelines_trans a b c : same_pipelines a b -> same_pipelines b c -> same_pipelines a c.
Proof. intros [A1 A2] [B1 B2]. split; congruence. Qed.

Lemma same_pipelines_read db db' id : same_pipelines db db' -> read_pipeline db' id = read_pipeline db id.
Proof. intros [E1 E2]. unfold read_pipeline, decode_pipeline. by rewrite E1, E2. Qed.

Lemma same_pipelines_ok db db' : same_pipelines db db' -> pipelines_ok db -> pipelines_ok db' /\ pipelines_advance db db'.
Proof.
  intros E Hok. split.
  - split; [intros id; rewrite (same_pipelines_read db) by done; apply Hok|]. rewrite (proj1 E). apply Hok.
  - intros id row. rewrite (proj1 E). eauto.
Qed.

(** What a read of a pipeline says. *)
Lemma read_pipeline_ok db id s : read_pipeline db id = Ok (Some s) -> exists row,
  ib_pipelines db !! id = Some row /\ pn_pipeline_id s = id /\ pn_pipeline s = pq_pipeline row /\
  pn_source_key s = pq_source_key row /\ source_key_of (pn_pipeline s) = pn_source_key s /\ pl_id (pn_pipeline s) = id.
Proof.
  unfold read_pipeline. destruct (ib_pipelines db !! id) as [row|] eqn:E; [|done]. rewrite rbind_ok. intros (x & Hd & [= <-]).
  exists row. revert Hd. unfold decode_pipeline. intros [Hg [= <-]]%guard_ok. cbn.
  rewrite !orb_false_iff, !negb_false_iff, !String.eqb_eq in Hg. destruct Hg as [[[H1 H2] _] _]. by split_and!.
Qed.

Lemma find_source_key_some db key id : find_source_key db key = Some id ->
  exists row, ib_pipelines db !! id = Some row /\ pq_source_key row = key.
Proof.
  unfold find_source_key. destruct (List.find _ _) as [[k row]|] eqn:E; [|done]. intros [= ->].
  apply find_some in E as [Hin%list_elem_of_In%elem_of_map_to_list Hk%String.eqb_eq]. by exists row.
Qed.

Lemma find_source_key_none db key id row : find_source_key db key = None -> ib_pipelines db !! id = Some row -> pq_source_key row <> key.
Proof.
  unfold find_source_key. destruct (List.find _ _) as [[k r]|] eqn:E; [done|]. intros _ Hr.
  pose proof (find_none_lookup _ (fun row => String.eqb (pq_source_key row) key) _ _ E Hr) as K. by apply String.eqb_neq in K.
Qed.

Lemma find_source_key_row db id row : pipelines_ok db -> ib_pipelines db !! id = Some row -> find_source_key db (pq_source_key row) = Some id.
Proof.
  intros Hok Hr. destruct (find_source_key db (pq_source_key row)) as [id'|] eqn:E.
  - apply find_source_key_some in E as (row' & Hr' & Ek). by rewrite (po_keys _ Hok _ _ _ _ Hr' Hr Ek).
  - by destruct (find_source_key_none _ _ _ _ E Hr).
Qed.

(** One pipeline was written and read back. *)
Lemma changed_pipeline_ok db db' id row s :
  pipelines_ok db -> ib_pipelines db' = <[id := row]> (ib_pipelines db) ->
  (forall k, k <> id -> ib_dependencies db' !! k = ib_dependencies db !! k) ->
  read_pipeline db' id = Ok (Some s) ->
  (forall k r, k <> id -> ib_pipelines db !! k = Some r -> pq_source_key r <> pq_source_key row) ->
  (forall old, ib_pipelines db !! id = Some old -> pipeline_row_advances old row) ->
  pipelines_ok db' /\ pipelines_advance db db'.
Proof.
  intros Hok Ep Ed Hread Hkey Hold.
  split.
  - split.
    + intros k. destruct (decide (k = id)) as [->|Hne]; [by eexists|]. destruct (po_reads _ Hok k) as [r Hr]. exists r.
      revert Hr. unfold read_pipeline, decode_pipeline. by rewrite Ep, lookup_insert_ne, Ed.
    + intros k k' r r'. rewrite Ep.
      intros [[<- <-]|[Hne Hr]]%lookup_insert_Some [[<- <-]|[Hne' Hr']]%lookup_insert_Some Hk; [done|..|by eapply (po_keys _ Hok)].
      * by destruct (Hkey k' r').
      * by destruct (Hkey k r).
  - intros k r Hr. rewrite Ep. destruct (decide (k = id)) as [->|Hne].
    + exists row. rewrite lookup_insert_eq. auto.
    + exists r. rewrite lookup_insert_ne by done. auto.
Qed.

Lemma bump_pipelines_ok db db' : bump_pipelines db = Ok db' -> exists n, db' = set_revisions db (ib_imports_revision db) n.
Proof. unfold bump_pipelines. rewrite rbind_ok. intros (n & _ & [= <-]). by exists n. Qed.

Lemma insert_dependencies_ok ds ds' : insert_dependencies ds = Ok ds' -> ds' = ds.
Proof. unfold insert_dependencies. by intros [_ [= <-]]%guard_ok. Qed.

Definition new_pipeline_row (s : PipelineSnapshot) : PipelineRow :=
  mkPipelineRow (pn_source_key s) (pn_pipeline s) (pl_policy (pn_pipeline s)) (pn_action_required s) (pn_pipeline_version s)
    (pn_created_at s) (pn_updated_at s).

Lemma insert_pipeline_ok db s db' : insert_pipeline db s = Ok db' ->
  db' = set_pipelines db (<[pn_pipeline_id s := new_pipeline_row s]> (ib_pipelines db))
          (<[pn_pipeline_id s := pn_dependencies s]> (ib_dependencies db)) /\
  ib_pipelines db !! pn_pipeline_id s = None /\ find_source_key db (pn_source_key s) = None.
Proof.
  unfold insert_pipeline. rewrite rbind_ok. intros (v & ->%checked_i64_id & Hr). apply guard_ok in Hr as [Hg Hr].
  rewrite rbind_ok in Hr. destruct Hr as (ds & ->%insert_dependencies_ok & [= <-]).
  rewrite !orb_false_iff, !bool_decide_eq_false, <- !eq_None_not_Some in Hg. split; [done|]. apply Hg.
Qed.

(** An inserted pipeline that reads back. *)
Lemma inserted_pipeline_ok db s db' db'' found :
  pipelines_ok db -> insert_pipeline db s = Ok db' -> same_pipelines db' db'' ->
  read_pipeline db'' (pn_pipeline_id s) = Ok (Some found) -> pipelines_ok db'' /\ pipelines_advance db db''.
Proof.
  intros Hok (-> & Hn & Hk)%insert_pipeline_ok [E1 E2] Hr. cbn in E1, E2.
  apply (changed_pipeline_ok db db'' (pn_pipeline_id s) (new_pipeline_row s) found Hok E1); [|done| |].
  - intros k Hne. by rewrite E2, lookup_insert_ne.
  - intros k r _ Hkr. by eapply find_source_key_none.
  - intros old Ho. congruence.
Qed.

Lemma step_create_pipeline db s db' o :
  pipelines_ok db -> create_pipeline db s = Ok (db', o) -> pipelines_ok db' /\ pipelines_advance db db' /\ exists p d m, db' = set_revisions (set_pipelines db p d) (ib_imports_revision db) m.
Proof.
  intros Hok. unfold create_pipeline. rewrite rbind_ok. intros (u & _ & Hr). revert Hr.
  destruct (negb _); [done|]. rewrite rbind_ok. intros (ex & _ & Hr). revert Hr. destruct ex as [e|].
  { destruct (bool_decide _); [|done]. intros [= <- _]. split; [done|]. split; [intros id row; eauto|].
    exists (ib_pipelines db), (ib_dependencies db), (ib_pipelines_revision db). by destruct db. }
  rewrite rbind_ok. intros (b & _ & Hr). revert Hr. destruct (bool_decide _); [done|].
  rewrite rbind_ok. intros (db1 & Hi & Hr). revert Hr. rewrite rbind_ok. intros (db2 & [m ->]%bump_pipelines_ok & Hr). revert Hr.
  rewrite rbind_ok. intros (f & Hf & Hr). revert Hr. rewrite rbind_ok. intros (c & ->%ok_or_ok & [= <- _]).
  destruct (inserted_pipeline_ok db s db1 (set_revisions db1 (ib_imports_revision db1) m) c Hok Hi) as [H1 H2]; [by split|done|].
  split_and!; [done..|]. apply insert_pipeline_ok in Hi as (-> & _). by eexists _, _, _.
Qed.

Lemma step_replace_pipeline db id v p action now db' s :
  pipelines_ok db -> replace_pipeline_projection db id v p action now = Ok (db', s) ->
  pipelines_ok db' /\ pipelines_advance db db' /\ exists x d m, db' = set_revisions (set_pipelines db x d) (ib_imports_revision db) m.
Proof.
  intros Hok. unfold replace_pipeline_projection. rewrite rbind_ok. intros (u & _ & Hr). revert Hr. rewrite rbind_ok. intros (u' & _ & Hr).
  apply guard_ok in Hr as [Hid Hr]. apply negb_false_iff, String.eqb_eq in Hid. rewrite rbind_ok in Hr.
  destruct Hr as (n & [_ ->]%ok_or_ok%u64_checked_add_Some & Hr). revert Hr. rewrite rbind_ok. intros (ver & ->%checked_i64_id & Hr). revert Hr.
  rewrite rbind_ok. intros (e & ->%checked_i64_id & Hr). revert Hr. destruct (ib_pipelines db !! id) as [row|] eqn:Er; [|done].
  intros [Hv Hr]%guard_ok. apply negb_false_iff, N.eqb_eq in Hv. rewrite rbind_ok in Hr. destruct Hr as (ds & ->%insert_dependencies_ok & Hr).
  rewrite rbind_ok in Hr. destruct Hr as (db1 & [m ->]%bump_pipelines_ok & Hr). rewrite rbind_ok in Hr. destruct Hr as (f & Hf & Hr).
  rewrite rbind_ok in Hr. destruct Hr as (c & ->%ok_or_ok & [= <- _]). apply Logic.and_assoc. split; [|by eexists _, _, _].
  eapply (changed_pipeline_ok db _ id _ c Hok); [done| |done| |].
  - intros k Hne. cbn. by rewrite lookup_insert_ne.
  - intros k r Hne Hkr Hk. cbn in Hk. apply Hne. by eapply (po_keys _ Hok).
  - intros old Ho. rewrite Er in Ho. injection Ho as <-. split_and!; try done. right. cbn. lia.
Qed.

(** ** What the import operations leave alone *)

Lemma same_pipelines_refl db : same_pipelines db db.
Proof. done. Qed.
#[local] Hint Resolve same_pipelines_refl : core.

Lemma bump_imports_pipelines db db' : bump_imports db = Ok db' -> same_pipelines db db'.
Proof. by intros [n ->]%bump_imports_ok. Qed.

Lemma create_import_pipelines db spec now db' o :
  import_store_ok db -> create_import_job db spec now = Ok (db', o) -> same_pipelines db db'.
Proof.
  intros Hok. unfold create_import_job. rewrite rbind_ok. intros (u & _ & Hr). revert Hr. rewrite rbind_ok.
  intros ([db1 [job created]] & He & Hr). apply ensure_import_ok in He as [_ _ _ _ Hp _]; [|done]. destruct created.
  - apply rbind_ok in Hr as (db2 & Hb%rmap_err_ok%bump_imports_pipelines & [= <- _]). by eapply same_pipelines_trans.
  - by injection Hr as <- _.
Qed.

Lemma persist_pipelines db current v next u now db' :
  persist_import_snapshot db current v next u now = Ok db' -> same_pipelines db db'.
Proof. intros (_ & _ & _ & _ & T & _)%persist_import_ok. split; apply T. Qed.

Lemma swap_import_pipelines db v next u now db' o :
  compare_and_swap_import_snapshot db v next u now = Ok (db', o) -> same_pipelines db db'.
Proof.
  unfold compare_and_swap_import_snapshot. destruct (import_terminal _); [done|]. rewrite rbind_ok. intros (c & _ & Hr). revert Hr.
  destruct (bool_decide _); [by intros [= <- _]|]. rewrite rbind_ok. intros (db1 & Hp%persist_pipelines & Hr). revert Hr.
  rewrite rbind_ok. intros (db2 & Hb%bump_imports_pipelines & Hr). revert Hr. rewrite rbind_ok. intros (s & _ & [= <- _]).
  by eapply same_pipelines_trans.
Qed.

Lemma insert_pair_pipelines db s r db' o : insert_receipt_pair db s r = Ok (db', o) -> same_pipelines db db'.
Proof.
  unfold insert_receipt_pair. rewrite rbind_ok. intros ([rows o1] & _ & Hr). revert Hr. unfold insert_import_receipt.
  destruct (_ !! _); [destruct (bool_decide _); [|done]; by intros [= <- _]|].
  destruct (read_import_receipt_by_natural_key _ _ _); [destruct (bool_decide _); [|done]; by intros [= <- _]|].
  by intros [_ [= <- _]]%guard_ok.
Qed.

Lemma record_commit_pipelines db s r db' o : record_import_commit db s r = Ok (db', o) -> same_pipelines db db'.
Proof.
  unfold record_import_commit. rewrite rbind_ok. intros (u & _ & Hr). revert Hr. rewrite rbind_ok. intros (u' & _ & Hr).
  apply guard_ok in Hr as [_ Hr]. by eapply insert_pair_pipelines.
Qed.

Lemma success_pipelines db next p db' : record_import_success db next p = Ok db' -> same_pipelines db db'.
Proof.
  unfold record_import_success. destruct (im_local_receipt next), p; [|done|done|by intros [= <-]].
  destruct (local_source_receipt_rows _ _ _ _) as [s r]. rewrite rbind_ok. intros ([db1 o] & Hi%insert_pair_pipelines & Hr). by injection Hr as <-.
Qed.

Lemma complete_import_pipelines db v next u p now db' o :
  complete_import_job db v next u p now = Ok (db', o) -> same_pipelines db db'.
Proof.
  unfold complete_import_job. destruct (negb _); [done|]. rewrite rbind_ok. intros (c & _ & Hr). revert Hr.
  set (replay := bool_decide _). rewrite rbind_ok. intros (db1 & Hp & Hr). revert Hr. rewrite rbind_ok.
  intros (db2 & Hs%success_pipelines & Hr). revert Hr. rewrite rbind_ok. intros ([ob compl] & _ & Hr). revert Hr.
  rewrite rbind_ok. intros (db3 & Hb & Hr). revert Hr. rewrite rbind_ok. intros (j & _ & [= <- _]).
  assert (same_pipelines db db1) as H1 by (destruct replay; [by injection Hp as <-|by eapply persist_pipelines]).
  assert (same_pipelines (set_outbox db2 ob) db3) as H3.
  { destruct (negb replay || is_recorded compl); [by apply bump_imports_pipelines|by injection Hb as <-]. }
  eapply same_pipelines_trans; [exact H1|]. eapply same_pipelines_trans; [exact Hs|exact H3].
Qed.

Lemma acknowledge_import_pipelines db id now db' o : acknowledge_import_completion db id now = Ok (db', o) -> same_pipelines db db'.
Proof.
  unfold acknowledge_import_completion. rewrite rbind_ok. intros (u & _ & Hr). revert Hr.
  destruct (acknowledge_completion _ _ _) as [ob []]; [|by intros [= <- _]..].
  rewrite rbind_ok. by intros (db1 & Hb%bump_imports_pipelines & [= <- _]).
Qed.

Lemma pipeline_tables_only db p d n m : import_store_ok db ->
  import_store_ok (set_revisions (set_pipelines db p d) n m) /\ import_advances db (set_revisions (set_pipelines db p d) n m).
Proof. by apply unrelated_ok. Qed.

(** ** Admission *)

Lemma bump_if_imports b db db' : bump_if b bump_imports db = Ok db' -> exists n, db' = set_revisions db n (ib_pipelines_revision db).
Proof.
  destruct b; cbn; [apply bump_imports_ok|]. intros [= <-]. exists (ib_imports_revision db). by destruct db.
Qed.
Lemma bump_if_pipelines b db db' : bump_if b bump_pipelines db = Ok db' -> exists m, db' = set_revisions db (ib_imports_revision db) m.
Proof.
  destruct b; cbn; [apply bump_pipelines_ok|]. intros [= <-]. exists (ib_pipelines_revision db). by destruct db.
Qed.

(** The pipeline that belongs to a stored import under a policy. *)
Definition pipeline_of (import : StoredImportJob) (policy : PipelinePolicy) (action : option PipelineActionRequired)
    (s : PipelineSnapshot) : Prop :=
  pl_import (pn_pipeline s) = is_job_id (si_spec import) /\ pl_policy (pn_pipeline s) = policy /\
  pn_source_key s = claim_text (sr_revision_claim (is_source (si_spec import))) /\
  pn_action_required s = action.

(** What [ensure_pipeline] gives. *)
Record pipeline_ensured (db db' : ImportDb) (import : StoredImportJob) (policy : PipelinePolicy)
    (action : option PipelineActionRequired) (s : PipelineSnapshot) (created : bool) : Prop := {
  pe_of : pipeline_of import policy action s;
  pe_tables : exists p d, db' = set_pipelines db p d;
  pe_created : if created then insert_pipeline db s = Ok db' else db' = db /\ read_pipeline db (pn_pipeline_id s) = Ok (Some s);
}.

Lemma ensure_pipeline_ok db import policy action fresh now db' s created :
  ensure_pipeline db import policy action fresh now = Ok (db', (s, created)) ->
  pipeline_ensured db db' import policy action s created.
Proof.
  unfold ensure_pipeline. rewrite rbind_ok. intros (ex & Hex & Hr). revert Hr.
  destruct ex as [e|]; cbn [fmap option_fmap option_map pipeline_start].
  - cbn [ps_import_job_id ps_policy]. destruct (String.eqb_spec (pl_import (pn_pipeline e)) (is_job_id (si_spec import))) as [Ei|]; [|done].
    cbn [negb]. destruct (bool_decide (pl_policy _ = _)) eqn:Ep; [|done]. apply bool_decide_eq_true in Ep. cbn [negb rbind ok_or].
    destruct (bool_decide (pn_action_required e = action)) eqn:Ea; [|done]. apply bool_decide_eq_true in Ea. intros [= <- <- <-].
    revert Hex. unfold read_pipeline_by_source_key. destruct (find_source_key _ _) as [id|] eqn:Ef; [|done]. intros Hread.
    destruct (read_pipeline_ok _ _ _ Hread) as (row & Hrow & Hid & _ & Hk & _).
    apply find_source_key_some in Ef as (row' & Hrow' & Ek). assert (row' = row) as -> by congruence.
    split; [|exists (ib_pipelines db), (ib_dependencies db); by destruct db|].
    + split_and!; [done|done|congruence|done].
    + by rewrite Hid.
  - unfold initial_pipeline_snapshot. rewrite rbind_ok. intros (sn & Hsn & Hr). apply rbind_ok in Hsn as (u & _ & [= <-]). revert Hr.
    rewrite rbind_ok. intros (b & _ & Hr). revert Hr. destruct (bool_decide _); [done|].
    rewrite rbind_ok. intros (db1 & Hi & [= <- <- <-]). split; [by split_and!| |done].
    apply insert_pipeline_ok in Hi as (-> & _). by eexists _, _.
Qed.

(** What an admission gives, whatever the caller checked of it. *)
Record admitted (db db' : ImportDb) (spec : ImportSpec) (policy : PipelinePolicy) (action : option PipelineActionRequired)
    (o : CreateImportPipelineOutcome) : Prop := {
  am_ok : import_store_ok db' /\ import_advances db db';
  am_pipelines : pipelines_ok db' /\ pipelines_advance db db';
  am_import : read_import_job db' (is_job_id (si_spec (cp_import o))) = Ok (Some (cp_import o));
  am_pipeline : read_pipeline db' (pn_pipeline_id (cp_pipeline o)) = Ok (Some (cp_pipeline o));
  am_of : pipeline_of (cp_import o) policy action (cp_pipeline o);
  am_request : canonical_key (is_natural_key (si_spec (cp_import o))) = canonical_key (is_natural_key spec) /\
    is_request_digest (si_spec (cp_import o)) = is_request_digest spec;
}.

Lemma revisions_same_pipelines db n m : same_pipelines db (set_revisions db n m).
Proof. done. Qed.

Lemma read_import_pipelines db p d id : read_import_job (set_pipelines db p d) id = read_import_job db id.
Proof. by apply same_job_reads. Qed.
Lemma read_import_revisions db n m id : read_import_job (set_revisions db n m) id = read_import_job db id.
Proof. by apply same_job_reads. Qed.

Lemma inserted_reads_back db s db' db'' found :
  insert_pipeline db s = Ok db' -> same_pipelines db' db'' -> read_pipeline db'' (pn_pipeline_id s) = Ok (Some found) -> found = s.
Proof.
  intros (-> & _)%insert_pipeline_ok E. rewrite (same_pipelines_read _ _ _ E). unfold read_pipeline, decode_pipeline. cbn.
  rewrite !lookup_insert_eq. cbn. rewrite rbind_ok. intros (x & [_ Hx]%guard_ok & [= <-]). injection Hx as <-. by destruct s.
Qed.

Lemma admission_ok {T} db spec source policy action fresh now validate db' o (t : T) :
  import_store_ok db -> pipelines_ok db ->
  create_import_job_and_session_pipeline_validated db spec source policy action fresh now validate = Ok (db', (o, t)) ->
  admitted db db' spec policy action o.
Proof.
  intros Hok Hp. unfold create_import_job_and_session_pipeline_validated. rewrite rbind_ok. intros (u & _ & Hr).
  apply guard_ok in Hr as [_ Hr]. rewrite rbind_ok in Hr. destruct Hr as ([db1 [import ic]] & He & Hr).
  apply ensure_import_ok in He as [[Hok1 Ha1] _ Hread Hreq Hpipes _]; [|done]. apply rmap_err_ok in Hr.
  rewrite rbind_ok in Hr. destruct Hr as ([db2 [s pc]] & Hs%ensure_pipeline_ok & Hr). destruct Hs as [Hof (p & d & E2) Hc].
  rewrite rbind_ok in Hr. destruct Hr as (db3 & [n ->]%bump_if_imports & Hr).
  rewrite rbind_ok in Hr. destruct Hr as (db4 & [m ->]%bump_if_pipelines & Hr).
  rewrite rbind_ok in Hr. destruct Hr as (f1 & Hf1 & Hr). rewrite rbind_ok in Hr. destruct Hr as (i1 & ->%ok_or_ok & Hr).
  rewrite rbind_ok in Hr. destruct Hr as (f2 & Hf2 & Hr). rewrite rbind_ok in Hr. destruct Hr as (s1 & ->%ok_or_ok & Hr).
  rewrite rbind_ok in Hr. destruct Hr as (v & _ & [= <- <- _]).
  assert (Hi : i1 = import).
  { rewrite !read_import_revisions, E2, read_import_pipelines in Hf1. congruence. } subst i1.
  assert (Hp1 : pipelines_ok db1) by (by apply (same_pipelines_ok db)).
  assert (Hsame : same_pipelines db2 (set_revisions (set_revisions db2 n (ib_pipelines_revision db2)) n m)) by done.
  cbn [ib_imports_revision set_revisions] in *. set (db4 := set_revisions (set_revisions _ _ _) _ _) in *.
  assert (Hs1 : s1 = s /\ pipelines_ok db4 /\ pipelines_advance db1 db4).
  { destruct pc.
    - split; [by eapply inserted_reads_back|]. by eapply inserted_pipeline_ok.
    - destruct Hc as [-> Hrs]. split; [rewrite (same_pipelines_read _ _ _ Hsame) in Hf2; congruence|]. by apply same_pipelines_ok. }
  destruct Hs1 as (-> & Hp4 & Ha4).
  destruct (unrelated_ok db1 db4) as [H1 H2]; [intros id; unfold db4; rewrite E2; by split|by unfold db4; rewrite E2..|done|].
  split; cbn; [split; [done|by eapply import_advances_trans]| | |done|done|done].
  - split; [done|]. intros id row Hrow. apply Ha4. by rewrite (proj1 Hpipes).
  - unfold db4. by rewrite !read_import_revisions, E2, read_import_pipelines.
Qed.

(** *** Repeating an admission *)

Lemma find_import_row db id row : import_store_ok db -> ib_jobs db !! id = Some row ->
  find_import_identity db (jw_natural_key row) = Some (id, jw_request_digest row).
Proof.
  intros Hok Hr. destruct (find_import_identity db (jw_natural_key row)) as [[id' d]|] eqn:E.
  - apply find_import_some in E as (row' & Hr' & Ek & Ed). assert (id' = id) as -> by (by eapply (io_keys _ Hok)). congruence.
  - unfold find_import_identity in E. destruct (List.find _ _) as [[]|] eqn:Ef; [done|].
    pose proof (find_none_lookup _ (fun x => String.eqb (jw_natural_key x) (jw_natural_key row)) _ _ Ef Hr) as K. cbv beta in K. by rewrite String.eqb_refl in K.
Qed.

(** The import of a stored request is found again. *)
Lemma ensure_import_again db spec import now :
  import_store_ok db -> read_import_job db (is_job_id (si_spec import)) = Ok (Some import) ->
  canonical_key (is_natural_key (si_spec import)) = canonical_key (is_natural_key spec) ->
  is_request_digest (si_spec import) = is_request_digest spec ->
  ensure_import db spec now = Ok (db, (import, false)).
Proof.
  intros Hok Hread Hk Hd. destruct (read_import_ok _ _ _ Hread) as [row [Hr _ _ _ Hkey Hdig _ _ _]].
  unfold ensure_import. rewrite <- Hk, <- Hkey, (find_import_row _ _ _ Hok Hr), Hdig, Hd, String.eqb_refl. cbn [negb].
  by rewrite Hread.
Qed.

(** The pipeline of a stored import is found again. *)
Lemma ensure_pipeline_again db import policy action s fresh now :
  pipelines_ok db -> read_pipeline db (pn_pipeline_id s) = Ok (Some s) -> pipeline_of import policy action s ->
  ensure_pipeline db import policy action fresh now = Ok (db, (s, false)).
Proof.
  intros Hok Hread (Hi & Hpol & Hkey & Ha). destruct (read_pipeline_ok _ _ _ Hread) as (row & Hr & _ & _ & Hk & _).
  unfold ensure_pipeline, read_pipeline_by_source_key. rewrite <- Hkey, Hk, (find_source_key_row _ _ _ Hok Hr), Hread.
  cbn [rbind fmap option_fmap option_map pipeline_start ps_import_job_id ps_policy]. rewrite Hi, Hpol, String.eqb_refl, bool_decide_eq_true_2 by done.
  cbn [negb ok_or rbind]. by rewrite Ha, bool_decide_eq_true_2.
Qed.

Lemma require_non_empty_ok s f u : require_non_empty s f = Ok u -> s <> "".
Proof. unfold require_non_empty. destruct (String.eqb_spec s ""); done. Qed.

Lemma admit_again db spec policy action o fresh now :
  import_store_ok db -> pipelines_ok db -> now <> "" ->
  read_import_job db (is_job_id (si_spec (cp_import o))) = Ok (Some (cp_import o)) ->
  read_pipeline db (pn_pipeline_id (cp_pipeline o)) = Ok (Some (cp_pipeline o)) ->
  pipeline_of (cp_import o) policy action (cp_pipeline o) ->
  canonical_key (is_natural_key (si_spec (cp_import o))) = canonical_key (is_natural_key spec) ->
  is_request_digest (si_spec (cp_import o)) = is_request_digest spec ->
  create_import_job_and_session_pipeline db spec (is_source spec) policy action fresh now
    = Ok (db, mkCreateImportPipeline (cp_import o) (cp_pipeline o) false false).
Proof.
  intros Hok Hp Hnow Hi Hs Hof Hk Hd.
  unfold create_import_job_and_session_pipeline, create_import_job_and_session_pipeline_validated, require_non_empty.
  destruct (String.eqb_spec now ""); [done|]. rewrite bool_decide_eq_true_2 by done. cbn [negb rmap_err rbind].
  rewrite (ensure_import_again _ _ _ _ Hok Hi Hk Hd). cbn [rbind].
  rewrite (ensure_pipeline_again _ _ _ _ _ _ _ Hp Hs Hof). cbn [rbind bump_if]. by rewrite Hi, Hs.
Qed.

(** ** Any sequence of operations *)

Definition media_ok (db : ImportDb) : Prop := import_store_ok db /\ pipelines_ok db.
Definition media_advances (db db' : ImportDb) : Prop := import_advances db db' /\ pipelines_advance db db'.

Lemma media_advances_refl db : media_advances db db.
Proof. split; [apply import_advances_refl|]. intros id row; eauto. Qed.
Lemma media_advances_trans a b c : media_advances a b -> media_advances b c -> media_advances a c.
Proof. intros [A1 A2] [B1 B2]. split; [by eapply import_advances_trans|by eapply pipelines_advance_trans]. Qed.

Lemma empty_media_ok : media_ok empty_media.
Proof. split; split; try (intros *; cbn; rewrite ?lookup_empty; done); intros id; exists None; [unfold read_import_job|unfold read_pipeline]; cbn; by rewrite lookup_empty. Qed.

Definition media_step_ok (db db' : ImportDb) : Prop := media_ok db' /\ media_advances db db'.

Lemma same_media_ok db : media_ok db -> media_step_ok db db.
Proof. split; [done|apply media_advances_refl]. Qed.

Lemma committed_ok {E A} db (r : result E (ImportDb * A)) :
  media_ok db -> (forall db' o, r = Ok (db', o) -> media_step_ok db db') -> media_step_ok db (committed db r).
Proof. intros Hok Hr. destruct r as [[db' o]|]; cbn; [by eapply Hr|by apply same_media_ok]. Qed.

(** A step of the imports that leaves the pipelines. *)
Lemma import_step_ok db db' : media_ok db -> import_store_ok db' /\ import_advances db db' -> same_pipelines db db' -> media_step_ok db db'.
Proof. intros [Hi Hp] [H1 H2] Hs. destruct (same_pipelines_ok _ _ Hs Hp). split; by split. Qed.

Lemma pipeline_step_ok db db' : media_ok db ->
  pipelines_ok db' /\ pipelines_advance db db' /\ (exists x d m, db' = set_revisions (set_pipelines db x d) (ib_imports_revision db) m) ->
  media_step_ok db db'.
Proof. intros [Hi Hp] (H1 & H2 & x & d & m & E). destruct (pipeline_tables_only db x d (ib_imports_revision db) m Hi). rewrite <- E in *. split; by split. Qed.

Lemma generations_step_ok db db' : media_ok db -> only_generations db db' -> media_step_ok db db'.
Proof. intros Hok Hg. apply import_step_ok; [done|by apply step_generations, Hg; apply Hok|]. by destruct Hg as [m ->]. Qed.

Lemma media_apply_ok db op : media_ok db -> media_step_ok db (media_apply db op).
Proof.
  intros Hok. assert (Hi := proj1 Hok). assert (Hp := proj2 Hok).
  destruct op; cbn [media_apply]; try (apply committed_ok; [done|]; intros db' o E).
  - apply import_step_ok; [done|by eapply step_create_import|by eapply create_import_pipelines].
  - destruct o as [o t]. destruct (admission_ok _ _ _ _ _ _ _ _ _ _ _ Hi Hp E) as [[A1 A2] [B1 B2] _ _ _ _]. split; by split.
  - apply import_step_ok; [done|by eapply step_swap_import|by eapply swap_import_pipelines].
  - apply import_step_ok; [done|by eapply step_complete_import|by eapply complete_import_pipelines].
  - apply import_step_ok; [done|by eapply step_acknowledge_import|by eapply acknowledge_import_pipelines].
  - apply import_step_ok; [done|by eapply step_record_commit|by eapply record_commit_pipelines].
  - unfold record_local_source_import in E. destruct (local_source_receipt_rows _ _ _ _) as [s r].
    apply import_step_ok; [done|by eapply step_record_commit|by eapply record_commit_pipelines].
  - apply import_step_ok; [done|by eapply step_record_source|]. revert E. unfold record_source_receipt.
    rewrite rbind_ok. intros (u & _ & Hr). revert Hr. rewrite rbind_ok. by intros ([rows x] & _ & [= <- _]).
  - destruct (reconcile_media_generations _ _ _) eqn:E; [|by apply same_media_ok]. apply generations_step_ok; [done|by eapply reconcile_generations].
  - apply generations_step_ok; [done|by eapply observe_generations].
  - apply generations_step_ok; [done|by eapply absent_generations].
  - apply pipeline_step_ok; [done|by eapply step_create_pipeline].
  - apply pipeline_step_ok; [done|by eapply step_create_pipeline].
  - apply pipeline_step_ok; [done|by eapply step_replace_pipeline].
Qed.

Lemma media_run_ok ops : forall db, media_ok db -> media_step_ok db (media_run db ops).
Proof.
  induction ops as [|op ops IH]; intros db Hok; cbn; [by apply same_media_ok|].
  destruct (media_apply_ok db op Hok) as [H1 H2]. destruct (IH _ H1) as [H3 H4]. split; [done|by eapply media_advances_trans].
Qed.

(** C13: after any sequence of operations, failed ones included, every row of the import and
    pipeline tables can be read, a request and a source have one row each, a terminal job has
    its completion, completions have distinct sequence numbers, and receipts refer to a job and to
    a source receipt they agree with; and whatever follows keeps every job with its immutable spec, every completion
    and every receipt, and moves a row only to a later version. *)
Theorem media_tables_keep_their_promises ops more :
  media_ok (media_run empty_media ops) /\
  media_advances (media_run empty_media ops) (media_run empty_media (ops ++ more)).
Proof.
  destruct (media_run_ok ops _ empty_media_ok) as [H1 _]. split; [done|].
  unfold media_run at 2. rewrite foldl_app. apply (media_run_ok more _ H1).
Qed.

(** The receipts of a finished import: of its job, and of the source revision, there is no other. *)
Definition fenced (db : ImportDb) (id : string) (local : LocalSourceReceipt) : Prop :=
  exists receipt_id identity,
    let '(s, r) := local_source_receipt_rows receipt_id id identity local in
    ib_source_receipts db !! rx_source_revision s = Some s /\ ib_import_receipts db !! receipt_id = Some r /\
    forall rid r', ib_import_receipts db !! rid = Some r' ->
      li_import_job_id r' = id \/ li_source_identity r' = identity /\ li_source_revision r' = rx_source_revision s ->
      rid = receipt_id.

Lemma receipted_fenced db id local : import_store_ok db -> receipted db id local -> fenced db id local.
Proof.
  intros Hok (rid & identity & Hs & Hr). exists rid, identity. cbn in *. split_and!; [done|done|]. intros rid' r' Hr' Hsame.
  eapply (io_fence _ Hok); [exact Hr'|exact Hr|]. cbn. naive_solver.
Qed.

(** C14: an import whose row is terminal has recorded that snapshot as its completion, and what is done afterwards
    never changes or renumbers it; when the snapshot holds a local receipt, the source receipt and
    the import receipt written from it stay, and no other import receipt of the job or of the source revision can appear. *)
Theorem finished_import_is_fenced ops id row :
  ib_jobs (media_run empty_media ops) !! id = Some row -> import_terminal (im_state (jw_snapshot row)) = true ->
  exists env, ob_rows (ib_outbox (media_run empty_media ops)) !! id = Some env /\ ce_outcome env = jw_snapshot row /\
    forall more, let later := media_run (media_run empty_media ops) more in
      (exists env', ob_rows (ib_outbox later) !! id = Some env' /\ ce_outcome env' = jw_snapshot row /\ ce_sequence env' = ce_sequence env) /\
      forall local, im_local_receipt (jw_snapshot row) = Some local -> fenced later id local.
Proof.
  intros Hr Ht. destruct (media_run_ok ops _ empty_media_ok) as [Hok _]. destruct (io_recorded _ (proj1 Hok) id row Hr Ht) as (env & He & Eo).
  exists env. split_and!; [done..|]. intros more. destruct (media_run_ok more _ Hok) as [[Hok' _] [Ha _]].
  destruct (ia_outbox _ _ Ha _ _ He) as (env' & He' & Eo' & Es'). split; [exists env'; split_and!; [done|congruence|done]|].
  intros local Hl. apply receipted_fenced; [done|]. destruct (io_outbox _ Hok' id env' He') as (_ & _ & _ & Hrec).
  apply Hrec. congruence.
Qed.


Module DemoMedia.
#[local] Existing Instance DemoSha.sha.

Definition spec : ImportSpec :=
  mkImportSpec "job-1" (is_natural_key DemoImport.spec) DemoPublication.digest_text DemoImport.recording DemoImport.locator
    (is_files DemoImport.spec) 2 (is_policy DemoImport.spec).
Definition policy : PipelinePolicy := ImportOnly.

(** The snapshot after some of the commands of the demo import. *)
Definition snapshot (k : nat) : ImportSnapshot := ij_snapshot (import_run (ImportJob_new spec) (take k DemoImport.commands)).
Definition swap (k : nat) : MediaOp := OpSwap (im_version (snapshot k) - 1) (snapshot k) None "t1".
Definition projection : ImportCommitProjection := mkProjection "receipt-1" "identity-1".
Definition complete : MediaOp := OpComplete (im_version (snapshot 10) - 1) (snapshot 10) None (Some projection) "t2".
Definition admission (id : string) : MediaOp := OpAdmit spec DemoImport.recording policy None id "t0" (fun _ => Ok tt).

Definition before : list MediaOp := admission "pipeline-1" :: map swap (seq 1 9).
Definition ops : list MediaOp := before ++ [complete].

Lemma finishes : exists row local, ib_jobs (media_run empty_media ops) !! "job-1" = Some row /\ import_terminal (im_state (jw_snapshot row)) = true /\
  im_local_receipt (jw_snapshot row) = Some local.
Proof.
  assert (K : match ib_jobs (media_run empty_media ops) !! "job-1" with
              | Some row => import_terminal (im_state (jw_snapshot row)) && bool_decide (is_Some (im_local_receipt (jw_snapshot row)))
              | None => false
              end = true) by by vm_compute.
  destruct (ib_jobs (media_run empty_media ops) !! "job-1") as [row|] eqn:E; [|discriminate K]. apply andb_true_iff in K as [K1 K2]. apply bool_decide_eq_true in K2 as [local K2].
  exists row, local. exact (conj eq_refl (conj K1 K2)).
Qed.

(** An admission before and after the import, and with another policy. *)
Definition created (r : result CreateImportJobError (ImportDb * CreateImportPipelineOutcome)) : option (bool * bool) :=
  match r with Ok (_, o) => Some (cp_import_created o, cp_pipeline_created o) | Err _ => None end.
Definition ask (db : ImportDb) (policy : PipelinePolicy) (id : string) :=
  create_import_job_and_session_pipeline db spec DemoImport.recording policy None id "t9".

Example asked_first : created (ask empty_media policy "pipeline-1") = Some (true, true).
Proof. by vm_compute. Qed.
Example asked_later : created (ask (media_run empty_media ops) policy "pipeline-2") = Some (false, false).
Proof. by vm_compute. Qed.
Example asked_otherwise : created (ask (media_run empty_media ops) (AutoNormalize DemoImport.revision) "pipeline-2") = None.
Proof. by vm_compute. Qed.

(** The completion is recorded once. *)
Example completed_twice :
  map ce_sequence (pending_import_completions (media_run empty_media (ops ++ [complete]))) = [1%N] /\
  pending_import_completions (media_run empty_media (ops ++ [OpAcknowledge "job-1" "t3"])) = [].
Proof. by vm_compute. Qed.
End DemoMedia.

#[local] Existing Instance DemoSha.sha.

Lemma finished_import_is_fenced_witness :
  exists local, fenced (media_run (media_run empty_media DemoMedia.ops) [DemoMedia.complete]) "job-1" local.
Proof.
  destruct DemoMedia.finishes as (row & local & Hr & Ht & Hl).
  destruct (finished_import_is_fenced DemoMedia.ops "job-1" row Hr Ht) as (env & _ & _ & Hmore).
  exists local. exact (proj2 (Hmore [DemoMedia.complete]) local Hl).
Defined.

