(* ===== verification/Ingestor.v ===== *)
(** * Ingestor: the executor of imports, its store and its commands (recording_ingestor/)

The adapter from the executor's repository to the media database
(recording_ingestor/store.rs), the executor's state, and how a command becomes a
stored snapshot (recording_ingestor/engine.rs): load, decide, compare and swap,
again when another thread was faster, then the effects.  Before every look at the
database the other threads have had their turn ([other_threads]).  The staging
tree of a job has one writer ([JobControl::writer]), so other threads do not
change it.  Devices, the queue, the clock, leases and notifications are ports. *)

From Stdlib Require Import NArith Lia Ascii String.
From stdpp Require Import base numbers list strings gmap.
From S2P Require Import Prelude Domain Files Journal Artifact Fault Disk Staging Json Ingest Import.
From S2P Require Import Rational Profile MediaPlan Validation Manifest Derivation MediaStore DerivationStore UploadBundle Pipeline.
From S2P Require Import ImportStore PipelineStore.

Local Open Scope string_scope.

(** ** Errors *)

(** [IngestPortError] (recording_ingestor/ports.rs:15-18). *)
Record IngestPortError := mkPortError { pe_code : string; pe_message : string }.

(** [IngestPortError::new] (recording_ingestor/ports.rs:22-30). *)
Definition port_error (code message : string) : IngestPortError :=
  mkPortError code (encode_chars (take 1024 (List.filter (fun c => negb (is_control c)) (chars message)))).

(** [RecordingIngestorError] (recording_ingestor/engine.rs:84-109), without the texts of the last ones. *)
Inductive RecordingIngestorError :=
| RiPort (e : IngestPortError)
| RiSpec (e : ImportSpecError)
| RiJob (e : ImportJobError)
| RiJobNotFound (job_id : string)
| RiCandidateUnavailable (candidate_id : string)
| RiCommandRejected (reason : ImportRejectReason)
| RiPersistenceConflict
| RiFilesystem
| RiPublication
| RiWorkerStepLimit.

(** The prefix of a text that fits a number of bytes, cut between two characters. *)
Fixpoint fitting (room : N) (cs : list N) : list N :=
  match cs with
  | [] => []
  | c :: rest =>
      let width := str_len (encode_char c) in
      if (width <=? room)%N then c :: fitting (room - width) rest else []
  end.

(** [bounded_text] (recording_ingestor/engine.rs:1736-1747). *)
Definition bounded_text (message : string) : string :=
  encode_chars (fitting 1024 (List.filter (fun c => negb (is_control c)) (chars message))).

(** ** The repository *)

(** [StoredImport] (recording_ingestor/ports.rs:44-49). *)
Record StoredImport := mkStored {
  st_spec : ImportSpec;
  st_snapshot : ImportSnapshot;
  st_locator : MediaLocator;
  st_locator_version : N;
}.

(** [CreateStoredImportOutcome] (recording_ingestor/ports.rs:52-59). *)
Inductive CreateStoredImportOutcome :=
| CsCreated (stored : StoredImport)
| CsExisting (stored : StoredImport)
| CsConflict (existing_job_id : string) (reason : string).

(** [CompareAndSwapOutcome] (recording_ingestor/ports.rs:62-66). *)
Inductive RepositorySwap := SwapApplied (s : ImportSnapshot) | SwapConflict (s : ImportSnapshot) | SwapMissing.

(** [stored_import] (recording_ingestor/store.rs:262-272). *)
Definition stored_import (job : StoredImportJob) : StoredImport :=
  mkStored (si_spec job) (si_snapshot job) (ls_locator (si_locator job)) (ls_version (si_locator job)).

(** [locator_update] (recording_ingestor/store.rs:274-286). *)
Definition locator_update (current : StoredImportJob) (next : ImportSnapshot) : option ImportLocatorUpdate :=
  match im_active_locator next with
  | None => None
  | Some active =>
      if bool_decide (active = ls_locator (si_locator current)) then None
      else Some (mkLocatorUpdate (ls_version (si_locator current)) active)
  end.

(** [append_component] (recording_ingestor/store.rs:356-360). *)
Definition append_component (output component : string) : string := output ++ dec (str_len component) ++ ":" ++ component.

(** [source_schema_str] (recording_ingestor/store.rs:339-350). *)
Definition source_schema_str (schema : SourceSchema) : string :=
  match schema with
  | DeviceSessionV1 => "device_session_v1"
  | DeviceSessionV2 => "device_session_v2"
  | SignedPublicationV1 => "signed_publication_v1"
  | UnsignedPublicationV1 => "unsigned_publication_v1"
  | RawCaptureV2 => "raw_capture_v2"
  | LegacyMjpegSessionV5 => "legacy_mjpeg_session_v5"
  | CompleteUnpublishedV6 => "complete_unpublished_v6"
  | ApplianceSpoolV6 => "appliance_spool_v6"
  end.

(** [source_identity] (recording_ingestor/store.rs:323-337). *)
Definition source_identity (spec : ImportSpec) (receipt : LocalSourceReceipt) : string :=
  match lr_provenance receipt with
  | SpDeviceSigned signed =>
      append_component (append_component "source-device-signed-v1:" (dg_publication_key_fingerprint signed))
        (sr_session_id (is_source spec))
  | SpLocallyValidatedUnsigned unsigned =>
      append_component "source-unsigned-local-v1:" (source_schema_str (lu_source_schema unsigned))
  end.

(** [import_receipt_id] (recording_ingestor/store.rs:352-354). *)
Definition import_receipt_id (job_id : string) : string := "local-source-import-v1:" ++ job_id.

Section repository.
Context `{Display MediaStoreError}.

(** [store_error] (recording_ingestor/store.rs:362-364). *)
Definition store_error (error : MediaStoreError) : IngestPortError := port_error "media_store" (to_string error).

(** [map_create_conflict] (recording_ingestor/store.rs:288-307): every id of the tables is an import's. *)
Definition map_create_conflict (conflict : CreateJobConflict) : result IngestPortError CreateStoredImportOutcome :=
  match conflict with
  | RequestDigestMismatch _ existing_job_id _ _ => Ok (CsConflict existing_job_id "natural key request digest differs")
  | JobIdCollision job_id existing_natural_key => Err (port_error "job_id_collision" "job id is already used")
  end.

(** [map_cas_error] (recording_ingestor/store.rs:309-321). *)
Definition map_cas_error (db : ImportDb) (job_id : string) (expected_version : N) (error : MediaStoreError)
    : result IngestPortError RepositorySwap :=
  match read_import_job db job_id with
  | Ok (Some current) =>
      if negb (im_version (si_snapshot current) =? expected_version)%N then Ok (SwapConflict (si_snapshot current))
      else Err (store_error error)
  | _ => Err (store_error error)
  end.

(** [MediaStoreImportRepository::create_import] (recording_ingestor/store.rs:42-59). *)
Definition repository_create (db : ImportDb) (spec : ImportSpec) (now : string)
    : ImportDb * result IngestPortError CreateStoredImportOutcome :=
  match create_import_job db spec now with
  | Ok (db, JobCreated job) => (db, Ok (CsCreated (stored_import job)))
  | Ok (db, JobExisting job) => (db, Ok (CsExisting (stored_import job)))
  | Err (CiConflict conflict) => (db, map_create_conflict conflict)
  | Err (CiStore error) => (db, Err (store_error error))
  end.

(** [MediaStoreImportRepository::load_import] (recording_ingestor/store.rs:61-66). *)
Definition repository_load (db : ImportDb) (job_id : string) : result IngestPortError (option StoredImport) :=
  rmap_err store_error (let? job := read_import_job db job_id in Ok (option_map stored_import job)).

(** [MediaStoreImportRepository::list_import_snapshots] (recording_ingestor/store.rs:68-79). *)
Definition repository_list (db : ImportDb) : result IngestPortError (list ImportSnapshot) :=
  rmap_err store_error (let? (_, items) := import_projection db in Ok (map si_snapshot items)).

(** [MediaStoreImportRepository::compare_and_swap] (recording_ingestor/store.rs:81-101). *)
Definition repository_swap (db : ImportDb) (job_id : string) (expected_version : N) (next : ImportSnapshot) (now : string)
    : ImportDb * result IngestPortError RepositorySwap :=
  match read_import_job db job_id with
  | Err error => (db, Err (store_error error))
  | Ok None => (db, Ok SwapMissing)
  | Ok (Some current) =>
      match compare_and_swap_import_snapshot db expected_version next (locator_update current next) now with
      | Ok (db, MediaStore.Applied job) | Ok (db, AlreadyApplied job) => (db, Ok (SwapApplied (si_snapshot job)))
      | Err error => (db, map_cas_error db job_id expected_version error)
      end
  end.

(** [MediaStoreImportRepository::commit_local_verified] (recording_ingestor/store.rs:103-140). *)
Definition repository_commit (db : ImportDb) (job_id : string) (expected_version : N) (next : ImportSnapshot)
    (receipt : LocalSourceReceipt) (now : string) : ImportDb * result IngestPortError RepositorySwap :=
  match read_import_job db job_id with
  | Err error => (db, Err (store_error error))
  | Ok None => (db, Ok SwapMissing)
  | Ok (Some current) =>
      let projection := mkProjection (import_receipt_id job_id) (source_identity (si_spec current) receipt) in
      match complete_import_job db expected_version next (locator_update current next) (Some projection) now with
      | Ok (db, outcome) => (db, Ok (SwapApplied (si_snapshot (ci_job outcome))))
      | Err error => (db, map_cas_error db job_id expected_version error)
      end
  end.

(** The receipt's effect, which the reducer gives only for a verified import. *)
Definition published_receipt (effects : list ImportEffect) : option LocalSourceReceipt :=
  head (omap (fun effect => match effect with PublishLocalVerified receipt => Some receipt | _ => None end) effects).

(** [RecordingIngestExecutor::apply_external, the write] (recording_ingestor/engine.rs:428-437): the receipt selects the transaction. *)
Definition persist (db : ImportDb) (job_id : string) (expected_version : N) (next : ImportSnapshot) (effects : list ImportEffect)
    (now : string) : ImportDb * result IngestPortError RepositorySwap :=
  match published_receipt effects with
  | Some receipt => repository_commit db job_id expected_version next receipt now
  | None => repository_swap db job_id expected_version next now
  end.

(** A command of another thread that takes effect at once: what was stored between its load and its write
    would have made its version check fail. *)
Definition other_command (db : ImportDb) (job_id : string) (command : ImportCommand) (now : string) : ImportDb :=
  match read_import_job db job_id with
  | Ok (Some stored) =>
      match from_snapshot (si_spec stored) (si_snapshot stored) with
      | Ok job =>
          let decision := (decide_import job command).2 in
          match de_outcome decision with
          | Import.Applied =>
              (persist db job_id (im_version (si_snapshot stored)) (de_snapshot decision) (de_effects decision) now).1
          | _ => db
          end
      | Err _ => db
      end
  | _ => db
  end.
End repository.

(** ** The executor *)

(** What other threads do: operations of the tables that are not the executors' own, commands, stop requests. *)
Inductive OtherMove :=
| OtherTable (op : MediaOp)
| OtherCommand (job_id : string) (command : ImportCommand) (now : string)
| OtherStop (job_id : string) (stop : bool).

(** Snapshots are written by executors alone. *)
Definition leaves_snapshots (op : MediaOp) : bool := match op with OpSwap _ _ _ _ | OpComplete _ _ _ _ _ => false | _ => true end.

(** [RecordingIngestConfig] (recording_ingestor/engine.rs:36-40). *)
Record RecordingIngestConfig := mkIngestConfig {
  rc_checkpoint_interval_bytes : N;
  rc_derivation_working_set_reserve_bytes : N;
  rc_maximum_worker_steps : nat;
}.

(** [RecordingIngestConfig::new] (recording_ingestor/engine.rs:44-50). *)
Definition default_ingest_config : RecordingIngestConfig := mkIngestConfig 262144 0 32.

(** [RecordingIngestConfig::validate] (recording_ingestor/engine.rs:52-64). *)
Definition config_valid (c : RecordingIngestConfig) : bool :=
  negb (rc_checkpoint_interval_bytes c =? 0)%N && negb (Nat.eqb (rc_maximum_worker_steps c) 0).

(** [ArtifactReadRequest] (ingest/artifact_source.rs:9-14). *)
Record ArtifactReadRequest := mkReadRequest {
  aq_file_id : SourceArtifactId;
  aq_expected_revision : SourceRevisionClaim;
  aq_expected_media_generation : option MediaGenerationId;
  aq_offset : N;
}.

(** [ArtifactReadFailure] (ingest/artifact_source.rs:229-243), as far as the executor tells them apart. *)
Inductive ArtifactReadFailure := ReadSourceUnavailable | ReadMediaChanged | ReadPreconditionFailed | ReadPermissionDenied | ReadIo.

(** The reads that are left of a body. *)
Abbreviation ArtifactBody := (list (result ArtifactReadFailure (list byte))).

(** [ArtifactOpenOutcome] (ingest/artifact_source.rs:43-69). *)
Inductive ArtifactOpenOutcome :=
| AoFullFromZero (revision : SourceRevisionClaim) (total_bytes : N) (body : ArtifactBody)
| AoPartial (revision : SourceRevisionClaim) (start end_inclusive total_bytes : N) (body : ArtifactBody)
| AoPreconditionFailed (current_revision : option SourceRevisionClaim)
| AoNotSatisfiable (total_bytes : option N)
| AoEndOfFile (revision : SourceRevisionClaim) (total_bytes : N)
| AoMediaChanged (observed_generation : option MediaGenerationId).

(** [ArtifactSourceError] (ingest/artifact_source.rs:189-203). *)
Inductive ArtifactSourceError :=
| AsUnavailable (message : string)
| AsPermissionDenied
| AsUnsafeArtifact (file_id : SourceArtifactId) (reason : string)
| AsIo (message : string)
| AsProtocolViolation (message : string).

(** The ports of the executor, on a world of their own, and the JSON text of a natural key. *)
Class IngestPorts := {
  IngestWorld : Type;
  ingest_now : IngestWorld -> IngestWorld * string;
  fresh_job_id : IngestWorld -> IngestWorld * string;
  other_threads : IngestWorld -> IngestWorld * list OtherMove;
  root_fence : IngestWorld -> IngestWorld * result RecordingIngestorError unit;
  known_candidate : CandidateId -> IngestWorld -> IngestWorld * result IngestPortError bool;
  admit_candidate : CandidateId -> ImportPolicy -> IngestWorld -> IngestWorld * result IngestPortError SourceRecording;
  resolve_source : MediaLocator -> IngestWorld -> IngestWorld * result IngestPortError (option MediaGenerationId);
  open_artifact : MediaLocator -> ArtifactReadRequest -> IngestWorld -> IngestWorld * result ArtifactSourceError ArtifactOpenOutcome;
  available_bytes : IngestWorld -> IngestWorld * result IngestPortError N;
  enqueue_import : string -> IngestWorld -> IngestWorld * result IngestPortError unit;
  enqueue_retry : string -> IngestWorld -> IngestWorld * result IngestPortError unit;
  notify_verified : string -> LocalSourceReceipt -> IngestWorld -> IngestWorld * result IngestPortError unit;
  acquire_exclusive : string -> string -> IngestWorld -> IngestWorld * result IngestPortError unit;
  assert_lease : IngestWorld -> IngestWorld * result IngestPortError unit;
  natural_key_text : ImportNaturalKey -> option (list byte);
}.

Section executor.
Context `{Display MediaStoreError, IngestPorts}.

(** [RecordingIngestExecutor] (recording_ingestor/engine.rs:111-123) with the database behind its repository, the disk with the library
    root at its root, and the stop flags of its job controls. *)
Record IngestExecutor := mkIngestExecutor {
  ig_config : RecordingIngestConfig;
  ig_db : ImportDb;
  ig_disk : Disk;
  ig_stops : gmap string bool;
  ig_world : IngestWorld;
}.

Definition set_ig_db (e : IngestExecutor) (db : ImportDb) : IngestExecutor :=
  mkIngestExecutor (ig_config e) db (ig_disk e) (ig_stops e) (ig_world e).
Definition set_ig_disk (e : IngestExecutor) (disk : Disk) : IngestExecutor :=
  mkIngestExecutor (ig_config e) (ig_db e) disk (ig_stops e) (ig_world e).
Definition set_ig_stops (e : IngestExecutor) (stops : gmap string bool) : IngestExecutor :=
  mkIngestExecutor (ig_config e) (ig_db e) (ig_disk e) stops (ig_world e).
Definition set_ig_world (e : IngestExecutor) (world : IngestWorld) : IngestExecutor :=
  mkIngestExecutor (ig_config e) (ig_db e) (ig_disk e) (ig_stops e) world.

Definition ingest (A : Type) : Type := sm IngestExecutor RecordingIngestorError A.

Definition ask {E A} (call : IngestWorld -> IngestWorld * A) : sm IngestExecutor E A :=
  fun e => let '(world, a) := call (ig_world e) in (set_ig_world e world, Ok a).

(** A port's refusal is an error of the executor. *)
Definition port_call {A} (call : IngestWorld -> IngestWorld * result IngestPortError A) : ingest A :=
  let! answer := ask call in slift (rmap_err RiPort answer).

Definition on_disk {E A} (c : sm Disk E A) : sm IngestExecutor E A :=
  fun e => let '(disk, r) := c (ig_disk e) in (set_ig_disk e disk, r).

Definition other_move (e : IngestExecutor) (m : OtherMove) : IngestExecutor :=
  match m with
  | OtherTable op => if leaves_snapshots op then set_ig_db e (media_apply (ig_db e) op) else e
  | OtherCommand job_id command now => set_ig_db e (other_command (ig_db e) job_id command now)
  | OtherStop job_id stop => set_ig_stops e (<[job_id := stop]> (ig_stops e))
  end.

(** The other threads have their turn. *)
Definition meanwhile {E} : sm IngestExecutor E unit :=
  fun e => let '(world, moves) := other_threads (ig_world e) in (foldl other_move (set_ig_world e world) moves, Ok tt).

(** [JobControl::request_stop, clear_stop] (recording_ingestor/reader_gate.rs:66-82). *)
Definition set_stop (job_id : string) (stop : bool) : ingest unit :=
  fun e => (set_ig_stops e (<[job_id := stop]> (ig_stops e)), Ok tt).

(** [JobControl::should_stop] (recording_ingestor/reader_gate.rs:79-81). *)
Definition should_stop {E} (job_id : string) : sm IngestExecutor E bool :=
  do! meanwhile then! fun e => (e, Ok (default false (ig_stops e !! job_id))).

(** [RecordingIngestExecutor::load] (recording_ingestor/engine.rs:303-307). *)
Definition load (job_id : string) : ingest StoredImport :=
  do! meanwhile then!
  let! stored := (fun e => (e, rmap_err RiPort (repository_load (ig_db e) job_id))) in
  slift (ok_or stored (RiJobNotFound job_id)).

(** [AppliedCommand] (recording_ingestor/engine.rs:1150-1153). *)
Record AppliedCommand := mkAppliedCommand { ap_outcome : ImportCommandOutcome; ap_snapshot : ImportSnapshot }.

(** [RecordingIngestExecutor::execute_post_persist_effects, one effect] (recording_ingestor/engine.rs:469-485). *)
Definition post_persist_effect (job_id : string) (effect : ImportEffect) : ingest unit :=
  match effect with
  | PersistSnapshot => sret tt
  | CancelIo => set_stop job_id true
  | Schedule | StartPreflight _ | StartCopy _ _ | StartVerification | StartCommit _ => port_call (enqueue_import job_id)
  | ScheduleRetry => port_call (enqueue_retry job_id)
  | PublishLocalVerified receipt => port_call (notify_verified job_id receipt)
  end.

(** [RecordingIngestExecutor::execute_post_persist_effects] (recording_ingestor/engine.rs:464-487). *)
Definition execute_post_persist_effects (job_id : string) (effects : list ImportEffect) : ingest unit :=
  sforeach (post_persist_effect job_id) effects.

Definition clears_stop (command : ImportCommand) : bool :=
  match command with CmdResume | CmdRetry | CmdSourceAvailable _ _ => true | _ => false end.

Definition store_write (job_id : string) (expected_version : N) (next : ImportSnapshot) (effects : list ImportEffect)
    : ingest RepositorySwap :=
  do! meanwhile then!
  let! now := ask ingest_now in
  fun e => let '(db, r) := persist (ig_db e) job_id expected_version next effects now in (set_ig_db e db, rmap_err RiPort r).

(** [RecordingIngestExecutor::apply_external, the attempts] (recording_ingestor/engine.rs:409-461). *)
Fixpoint apply_attempts (attempts : nat) (job_id : string) (command : ImportCommand) : ingest AppliedCommand :=
  match attempts with
  | O => sfail RiPersistenceConflict
  | S attempts =>
      let! stored := load job_id in
      let! job := slift (rmap_err RiJob (from_snapshot (st_spec stored) (st_snapshot stored))) in
      let decision := (decide_import job command).2 in
      let next := de_snapshot decision in
      match de_outcome decision with
      | Import.Applied =>
          let! persisted := store_write job_id (im_version (st_snapshot stored)) next (de_effects decision) in
          match persisted with
          | SwapApplied persisted =>
              if negb (bool_decide (persisted = next)) then sfail RiPersistenceConflict else
              do! (if clears_stop command then set_stop job_id false else sret tt) then!
              do! execute_post_persist_effects job_id (de_effects decision) then!
              sret (mkAppliedCommand Import.Applied persisted)
          | SwapConflict _ => apply_attempts attempts job_id command
          | SwapMissing => sfail (RiJobNotFound job_id)
          end
      | outcome => sret (mkAppliedCommand outcome next)
      end
  end.

(** [MAXIMUM_COMMAND_CAS_ATTEMPTS] (recording_ingestor/engine.rs:33-33). *)
Definition MAXIMUM_COMMAND_CAS_ATTEMPTS : nat := 8.

(** [RecordingIngestExecutor::apply_external] (recording_ingestor/engine.rs:400-462). *)
Definition apply_external (job_id : string) (command : ImportCommand) : ingest AppliedCommand :=
  apply_attempts MAXIMUM_COMMAND_CAS_ATTEMPTS job_id command.

(** [RecordingIngestExecutor::apply_internal] (recording_ingestor/engine.rs:391-398): a rejected command is not an error. *)
Definition apply_internal (job_id : string) (command : ImportCommand) : ingest ImportSnapshot :=
  let! applied := apply_external job_id command in sret (ap_snapshot applied).

(** [RecordingIngestExecutor::apply_failure] (recording_ingestor/engine.rs:1130-1146). *)
Definition apply_failure (job_id : string) (code : ImportFailureCode) (message : string) (retryable : bool)
    : ingest ImportSnapshot :=
  let! failure := slift (rmap_err RiJob (ImportFailure_new code (bounded_text message) retryable)) in
  apply_internal job_id (if retryable then CmdRetryableFailure failure else CmdPermanentFailure failure).

Definition fence : ingest unit := let! answer := ask root_fence in slift answer.
End executor.
