(* ===== verification/IngestCopy.v ===== *)
(** * IngestCopy: copying one file of an import into its staging tree (recording_ingestor/engine.rs)

The file is inspected first and taken as it is when it has the wanted digest; else
the partial is cut to what the checkpoint, the journal and the file agree on, the
source's prefix is hashed again, the rest is appended chunk by chunk with the
journal and the job's checkpoint behind the flushed bytes, and the finished file
is hashed independently before it gets its name.  The loops run on the bytes that
are left, of which every turn takes one at least. *)

From Stdlib Require Import NArith Lia Ascii String.
From stdpp Require Import base numbers list strings gmap.
From S2P Require Import Prelude Domain Files Journal Artifact Fault Disk Staging Json Ingest Import.
From S2P Require Import MediaStore ImportStore PipelineStore Ingestor.

Local Open Scope string_scope.

(** [PhaseFailure] (recording_ingestor/engine.rs:1185-1194). *)
Inductive PhaseFailure :=
| PhStopped
| PhWaitingForSource
| PhFailure (code : ImportFailureCode) (message : string) (retryable : bool)
| PhEngine (e : RecordingIngestorError).

(** [PhaseFailure::filesystem] (recording_ingestor/engine.rs:1197-1203). *)
Definition filesystem (message : string) : PhaseFailure := PhFailure FailInternal (bounded_text message) true.

(** [FileCopyEvidence] (recording_ingestor/engine.rs:1156-1160). *)
Record FileCopyEvidence := mkCopyEvidence {
  fe_file_id : SourceArtifactId;
  fe_source_sha256 : string;
  fe_target_sha256 : string;
}.

(** ** Answers of the source *)

(** [ensure_revision] (ingest/artifact_source.rs:282-296). *)
Definition ensure_revision (actual expected : SourceRevisionClaim) : result ArtifactSourceError unit :=
  if bool_decide (actual <> expected)
  then Err (AsProtocolViolation ("source returned revision " ++ claim_text actual ++ ", expected " ++ claim_text expected))
  else Ok tt.

(** [ArtifactOpenOutcome::validate_against] (ingest/artifact_source.rs:74-122). *)
Definition validate_against (o : ArtifactOpenOutcome) (request : ArtifactReadRequest) : result ArtifactSourceError unit :=
  match o with
  | AoFullFromZero revision _ _ => ensure_revision revision (aq_expected_revision request)
  | AoPartial revision start end_inclusive total_bytes _ =>
      let? _ := ensure_revision revision (aq_expected_revision request) in
      if negb (start =? aq_offset request)%N || (end_inclusive <? start)%N || (total_bytes <=? end_inclusive)%N
      then Err (AsProtocolViolation "invalid partial range") else Ok tt
  | AoEndOfFile revision total_bytes =>
      let? _ := ensure_revision revision (aq_expected_revision request) in
      if negb (aq_offset request =? total_bytes)%N then Err (AsProtocolViolation "EOF does not match requested offset") else Ok tt
  | AoPreconditionFailed _ | AoNotSatisfiable _ | AoMediaChanged _ => Ok tt
  end.

(** [classify_open_failure] (recording_ingestor/engine.rs:1343-1364). *)
Definition classify_open_failure (e : ArtifactSourceError) : PhaseFailure :=
  match e with
  | AsUnavailable _ | AsIo _ => PhWaitingForSource
  | AsPermissionDenied => PhFailure FailPermissionDenied "permission denied while reading the source" false
  | AsUnsafeArtifact _ _ => PhFailure FailUnsafePath "source artifact failed the safe-file contract" false
  | AsProtocolViolation message => PhFailure FailSourceRevisionMismatch (bounded_text message) false
  end.

(** [classify_body_failure] (recording_ingestor/engine.rs:1366-1378). *)
Definition classify_body_failure (e : ArtifactReadFailure) : PhaseFailure :=
  match e with
  | ReadPermissionDenied => PhFailure FailPermissionDenied "permission denied while streaming the source" false
  | _ => PhWaitingForSource
  end.

(** [SourceChunk] (recording_ingestor/engine.rs:1168-1173). *)
Record SourceChunk := mkChunk { sc_start : N; sc_end_inclusive : N; sc_body : ArtifactBody }.

(** [SourceChunk::remaining] (recording_ingestor/engine.rs:1176-1181), before anything is consumed. *)
Definition chunk_length (c : SourceChunk) : N := u64_sat_add (sc_end_inclusive c - sc_start c) 1.

(** One [read] with a buffer of that many bytes. *)
Definition read_body (limit : N) (body : ArtifactBody) : result ArtifactReadFailure (list byte) * ArtifactBody :=
  match body with
  | [] => (Ok [], [])
  | Err e :: rest => (Err e, rest)
  | Ok bytes :: rest =>
      if (blen bytes <=? limit)%N then (Ok bytes, rest)
      else (Ok (take (N.to_nat limit) bytes), Ok (drop (N.to_nat limit) bytes) :: rest)
  end.

(** [COPY_BUFFER_BYTES] (recording_ingestor/engine.rs:32-32). *)
Definition COPY_BUFFER_BYTES : N := 65536.

(** ** Digests *)

(** [expected_artifact] (recording_ingestor/engine.rs:1380-1395). *)
Definition expected_artifact (file : ImportFileSpec) (checkpoint : ImportFileCheckpoint) : ExpectedArtifact :=
  match match ck_target_sha256 checkpoint with Some digest => Some digest | None => if_expected_source_sha256 file end with
  | Some digest => ExpectedArtifact_new (if_file_id file) (Some (path_text (if_relative_path file))) (if_expected_size file) digest
  | None => without_digest (if_file_id file) (Some (path_text (if_relative_path file))) (if_expected_size file)
  end.

(** [checkpoint_evidence] (recording_ingestor/engine.rs:1397-1411). *)
Definition checkpoint_evidence (c : ImportFileCheckpoint) : result RecordingIngestorError FileCopyEvidence :=
  let? source_sha256 := ok_or (ck_source_sha256 c) RiPersistenceConflict in
  let? target_sha256 := ok_or (ck_target_sha256 c) RiPersistenceConflict in
  Ok (mkCopyEvidence (ck_file_id c) source_sha256 target_sha256).

(** [verify_digests] (recording_ingestor/engine.rs:1413-1431). *)
Definition verify_digests (file : ImportFileSpec) (source_sha256 target_sha256 : string) : result PhaseFailure unit :=
  if negb (String.eqb source_sha256 target_sha256)
     || match if_expected_source_sha256 file with Some expected => negb (String.eqb expected source_sha256) | None => false end
  then Err (PhFailure FailIntegrityMismatch "source stream and independently re-read target hashes do not agree" false)
  else Ok tt.

(** [journal_binding_digest] (recording_ingestor/engine.rs:1433-1444). *)
Definition journal_binding_digest `{Sha256} (spec : ImportSpec) (file : ImportFileSpec) : string :=
  match if_expected_source_sha256 file with
  | Some digest => digest
  | None =>
      to_hex (sha256 (bytes_of "ylx-import-unsigned-checkpoint-v1" ++ [Byte.x00] ++ bytes_of (is_request_digest spec)
                      ++ [Byte.x00] ++ bytes_of (if_file_id file)))
  end.

(** ** One file *)

Section copy.
Context `{Display MediaStoreError, IngestPorts, Sha256, JournalCodec, Display DownloadError, Display IoKind}.

Definition phase (A : Type) : Type := sm IngestExecutor PhaseFailure A.

Definition eng {A} (c : ingest A) : phase A := serr PhEngine c.

(** A call of the filesystem whose error fails the phase. *)
Definition file_call (what : string) (f : FS -> result IoKind FS) : phase unit :=
  serr (fun k => filesystem (what ++ to_string k)) (on_disk (act f)).

Definition file_work {A} (c : sm Disk DownloadError A) : phase A := serr (fun e => filesystem (to_string e)) (on_disk c).

Definition node_of (p : Path) : phase (option Node) := on_disk (peek (fun fs => node_at fs p)).

(** [DownloadJournal::advance] (library/download.rs:527-585), with its writes on the disk. *)
Definition advance_at (journal part : Path) (proposed : DownloadJournal) : sm Disk DownloadError unit :=
  let! durable := look (fun fs => durable_len fs part) in
  do! slift (rmap_err DCheckpoint (check_advance part durable None proposed)) then!
  let! recorded := look (fun fs => journal_read fs journal) in
  do! slift (rmap_err DCheckpoint (check_advance part durable recorded proposed)) then!
  write_durably journal (journal_encode proposed).

(** [recover_resume_offset] (library/download.rs:712-736), with its truncation on the disk. *)
Definition recover_at (part : Path) (journal : option DownloadJournal) : sm Disk DownloadError N :=
  let! actual_len := look (fun fs => durable_len fs part) in
  let claimed := match journal with Some j => dj_confirmed_offset j | None => 0%N end in
  let safe_offset := N.min actual_len claimed in
  if (safe_offset <? actual_len)%N
  then do! io part (fun fs => truncate_file fs part safe_offset) then! sret safe_offset
  else sret safe_offset.

(** [ensure_staging_parent] (recording_ingestor/engine.rs:1488-1518): the parents below the revision's directory. *)
Fixpoint ensure_parents (current : Path) (components : list string) : phase unit :=
  match components with
  | [] | [_] => sret tt
  | component :: rest =>
      let current := (current ++ [component])%list in
      let! here := node_of current in
      match here with
      | Some NDir => ensure_parents current rest
      | Some _ => sfail (PhFailure FailUnsafePath "staging parent contains a link or non-directory entry" false)
      | None => do! file_call "create staging directory: " (fun fs => create_dir fs current) then! ensure_parents current rest
      end
  end.

(** [reject_link] (recording_ingestor/engine.rs:1520-1535). *)
Definition reject_link (p : Path) : phase unit :=
  let! here := node_of p in
  match here with
  | Some (NFile _) | None => sret tt
  | Some _ => sfail (PhFailure FailUnsafePath "staging evidence path is a link or special entry" false)
  end.

(** [remove_invalid_staged_target] (recording_ingestor/engine.rs:1537-1554). *)
Definition remove_invalid_staged_target (p : Path) : phase unit :=
  let! here := node_of p in
  match here with
  | Some NDir => sfail (PhFailure FailUnsafePath "invalid staging target is not a removable regular-file entry" false)
  | Some _ => file_call "remove invalid target: " (fun fs => remove_file fs p)
  | None => sret tt
  end.

(** [truncate_partial] (recording_ingestor/engine.rs:1458-1469). *)
Definition truncate_partial (p : Path) (offset : N) : phase unit :=
  do! file_call "open partial: " (fun fs => open_write fs p false) then!
  do! file_call "truncate partial: " (fun fs => truncate_file fs p offset) then!
  file_call "flush partial: " (fun fs => Ok fs).

(** [sha256_file] (recording_ingestor/engine.rs:1471-1486). *)
Definition sha256_file (p : Path) : phase string :=
  serr (fun k => filesystem ("open staged target: " ++ to_string k)) (on_disk (look (fun fs => sha256_of_file fs p))).

(** [fsync_parent] (recording_ingestor/engine.rs:1556-1563). *)
Definition fsync_parent (p : Path) : phase unit :=
  file_call "flush staging directory: "
    (fun fs => match node_at fs (path_parent p) with Some _ => Ok fs | None => Err IoNotFound end).

Context (spec : ImportSpec) (staging : SessionStaging) (locator : MediaLocator) (file : ImportFileSpec).

(** [open_source_chunk] (recording_ingestor/engine.rs:1206-1267). *)
Definition open_source_chunk (offset : N) : phase SourceChunk :=
  let request := mkReadRequest (if_file_id file) (sr_revision_claim (is_source spec)) (media_generation_id locator) offset in
  let! answer := ask (open_artifact locator request) in
  let! outcome := slift (rmap_err classify_open_failure answer) in
  do! slift (rmap_err classify_open_failure (validate_against outcome request)) then!
  match outcome with
  | AoFullFromZero _ total_bytes body =>
      if negb (total_bytes =? if_expected_size file)%N || (total_bytes =? 0)%N then sfail PhWaitingForSource
      else sret (mkChunk 0 (total_bytes - 1) body)
  | AoPartial _ start end_inclusive total_bytes body =>
      if negb (total_bytes =? if_expected_size file)%N then sfail PhWaitingForSource
      else sret (mkChunk start end_inclusive body)
  | _ => sfail PhWaitingForSource
  end.

(** [hash_source_prefix, one chunk] (recording_ingestor/engine.rs:1300-1317): the bytes hashed so far and the next offset. *)
Fixpoint hash_chunk (fuel : nat) (remaining offset limit : N) (hashed : list byte) (body : ArtifactBody)
    : phase (N * list byte) :=
  match fuel with
  | O => sret (offset, hashed)
  | S fuel =>
      if (remaining =? 0)%N || (limit <=? offset)%N then sret (offset, hashed) else
      do! eng fence then!
      let '(read, body) := read_body (N.min (N.min remaining (limit - offset)) COPY_BUFFER_BYTES) body in
      let! bytes := slift (rmap_err classify_body_failure read) in
      if bool_decide (bytes = []) then sfail PhWaitingForSource
      else hash_chunk fuel (remaining - blen bytes) (u64_sat_add offset (blen bytes)) limit (hashed ++ bytes)%list body
  end.

(** [hash_source_prefix, the loop] (recording_ingestor/engine.rs:1285-1318). *)
Fixpoint hash_prefix (fuel : nat) (job_id : string) (offset limit : N) (hashed : list byte) : phase (list byte) :=
  match fuel with
  | O => sret hashed
  | S fuel =>
      if (limit <=? offset)%N then sret hashed else
      do! eng fence then!
      let! stop := should_stop job_id in
      if (stop : bool) then sfail PhStopped else
      let! chunk := open_source_chunk offset in
      if negb (sc_start chunk =? offset)%N then sfail PhWaitingForSource else
      let! (offset, hashed) := hash_chunk (N.to_nat (chunk_length chunk)) (chunk_length chunk) offset limit hashed (sc_body chunk) in
      hash_prefix fuel job_id offset limit hashed
  end.

(** [hash_source_prefix] (recording_ingestor/engine.rs:1278-1320). *)
Definition hash_source_prefix (limit : N) : phase (list byte) := hash_prefix (N.to_nat limit) (is_job_id spec) 0 limit [].

(** [hash_source_exact] (recording_ingestor/engine.rs:1322-1341). *)
Definition hash_source_exact : phase string :=
  let! bytes := hash_source_prefix (if_expected_size file) in sret (to_hex (sha256 bytes)).

(** [RecordingIngestExecutor::persist_checkpoint] (recording_ingestor/engine.rs:914-937). *)
Definition persist_checkpoint (durable_offset : N) : phase unit :=
  let! stop := should_stop (is_job_id spec) in
  if (stop : bool) then sfail PhStopped else
  let! snapshot := eng (apply_internal (is_job_id spec) (CmdCopyCheckpoint (if_file_id file) durable_offset)) in
  match im_state snapshot with ImCopying => sret tt | _ => sfail PhStopped end.

Context (part journal : Path).

(** [RecordingIngestExecutor::copy_source_to_partial, a checkpoint] (recording_ingestor/engine.rs:1016-1030). *)
Definition checkpoint_at (offset : N) : phase unit :=
  do! file_call "flush partial: " (fun fs => Ok fs) then!
  do! file_work (advance_at journal part (mkJournal offset (if_expected_size file) (journal_binding_digest spec file) None)) then!
  persist_checkpoint offset.

(** [RecordingIngestExecutor::copy_source_to_partial, one chunk] (recording_ingestor/engine.rs:993-1033). *)
Fixpoint copy_chunk (fuel : nat) (remaining offset since_checkpoint : N) (hashed : list byte) (body : ArtifactBody)
    : phase (N * N * list byte) :=
  match fuel with
  | O => sret (offset, since_checkpoint, hashed)
  | S fuel =>
      if (remaining =? 0)%N then sret (offset, since_checkpoint, hashed) else
      do! eng fence then!
      let! stop := should_stop (is_job_id spec) in
      if (stop : bool) then sfail PhStopped else
      let '(read, body) := read_body (N.min remaining COPY_BUFFER_BYTES) body in
      let! bytes := slift (rmap_err classify_body_failure read) in
      if bool_decide (bytes = []) then sfail PhWaitingForSource else
      do! file_call "write partial: " (fun fs => Ok (write_chunk fs part offset bytes)) then!
      let hashed := (hashed ++ bytes)%list in
      let remaining := (remaining - blen bytes)%N in
      let offset := u64_sat_add offset (blen bytes) in
      let since_checkpoint := u64_sat_add since_checkpoint (blen bytes) in
      let! e := sget in
      if (rc_checkpoint_interval_bytes (ig_config e) <=? since_checkpoint)%N
      then do! checkpoint_at offset then! copy_chunk fuel remaining offset 0 hashed body
      else copy_chunk fuel remaining offset since_checkpoint hashed body
  end.

(** [RecordingIngestExecutor::copy_source_to_partial, the loop] (recording_ingestor/engine.rs:981-1034). *)
Fixpoint copy_chunks (fuel : nat) (offset since_checkpoint : N) (hashed : list byte) : phase (N * list byte) :=
  match fuel with
  | O => sret (offset, hashed)
  | S fuel =>
      if (if_expected_size file <=? offset)%N then sret (offset, hashed) else
      do! eng fence then!
      let! stop := should_stop (is_job_id spec) in
      if (stop : bool) then sfail PhStopped else
      let! chunk := open_source_chunk offset in
      if (sc_start chunk =? 0)%N && (0 <? offset)%N then sfail PhWaitingForSource else
      let! (offset, since_checkpoint, hashed) :=
        copy_chunk (N.to_nat (chunk_length chunk)) (chunk_length chunk) offset since_checkpoint hashed (sc_body chunk) in
      copy_chunks fuel offset since_checkpoint hashed
  end.

(** [RecordingIngestExecutor::copy_source_to_partial] (recording_ingestor/engine.rs:940-1059). *)
Definition copy_source_to_partial (durable_offset : N) : phase (string * string) :=
  do! eng fence then!
  let! hashed := if (0 <? durable_offset)%N then hash_source_prefix durable_offset else sret [] in
  do! eng fence then!
  do! file_call "open partial: " (fun fs => open_write fs part false) then!
  let! (offset, hashed) := copy_chunks (N.to_nat (if_expected_size file - durable_offset)) durable_offset 0 hashed in
  do! checkpoint_at offset then!
  let! target_sha256 := sha256_file part in
  sret (to_hex (sha256 hashed), target_sha256).
End copy.

Section copy_file.
Context `{Display MediaStoreError, IngestPorts, Sha256, JournalCodec, Display DownloadError, Display IoKind}.
Context (spec : ImportSpec) (staging : SessionStaging) (locator : MediaLocator) (file : ImportFileSpec).

(** [RecordingIngestExecutor::copy_one_file, the transfer] (recording_ingestor/engine.rs:873-911). *)
Definition transfer_file (checkpoint : ImportFileCheckpoint) (target : Path) : phase FileCopyEvidence :=
  let part := part_path target in
  let journal := journal_path target in
  do! reject_link part then!
  do! reject_link journal then!
  let! sidecar := file_work (look (fun fs => journal_read fs journal)) in
  let! journal_offset := file_work (recover_at part sidecar) in
  let durable_offset := N.min (N.min (ck_durable_offset checkpoint) journal_offset) (if_expected_size file) in
  do! truncate_partial part durable_offset then!
  let! (source_sha256, target_sha256) := copy_source_to_partial spec locator file part journal durable_offset in
  do! slift (verify_digests file source_sha256 target_sha256) then!
  let! stop := should_stop (is_job_id spec) in
  if (stop : bool) then sfail PhStopped else
  do! eng fence then!
  do! file_call "commit partial: " (rename_node part target) then!
  do! fsync_parent target then!
  do! signore (file_call "" (fun fs => remove_file fs journal)) then!
  sret (mkCopyEvidence (if_file_id file) source_sha256 target_sha256).

(** [RecordingIngestExecutor::copy_one_file, a target with the wanted digest] (recording_ingestor/engine.rs:833-846). *)
Definition adopt_target (checkpoint : ImportFileCheckpoint) (digest : string) : phase FileCopyEvidence :=
  let source_digest :=
    match if_expected_source_sha256 file with
    | Some expected => expected
    | None => default digest (ck_source_sha256 checkpoint)
    end in
  do! persist_checkpoint spec file (if_expected_size file) then!
  sret (mkCopyEvidence (if_file_id file) source_digest digest).

(** [RecordingIngestExecutor::copy_one_file, a target of the wanted size] (recording_ingestor/engine.rs:850-866). *)
Definition confirm_target (target : Path) : phase FileCopyEvidence :=
  let! source_sha256 := hash_source_exact spec locator file in
  do! eng fence then!
  let! target_sha256 := sha256_file target in
  do! slift (verify_digests file source_sha256 target_sha256) then!
  do! persist_checkpoint spec file (if_expected_size file) then!
  sret (mkCopyEvidence (if_file_id file) source_sha256 target_sha256).

(** [RecordingIngestExecutor::copy_one_file] (recording_ingestor/engine.rs:796-912). *)
Definition copy_one_file (checkpoint : ImportFileCheckpoint) : phase FileCopyEvidence :=
  do! eng fence then!
  let expected := expected_artifact file checkpoint in
  let! existing := on_disk (peek (fun fs =>
    inspect (view fs (file_root staging)) (ss_device_id staging) (ss_session_id staging) expected)) in
  let! relative := slift (ok_or (ae_target existing)
    (PhFailure FailUnsafePath "staging target path could not be derived safely" false)) in
  let target := (file_root staging ++ relative)%list in
  do! ensure_parents (revision_dir staging) (path_components (if_relative_path file)) then!
  match ae_status existing, ea_expected_sha256_hex expected with
  | AVerified, Some digest => adopt_target checkpoint digest
  | AVerified, None =>
      if (ck_durable_offset checkpoint =? 0)%N
      then do! remove_invalid_staged_target target then! transfer_file checkpoint target
      else confirm_target target
  | AInvalid _, _ => do! remove_invalid_staged_target target then! transfer_file checkpoint target
  | _, _ => transfer_file checkpoint target
  end.
End copy_file.
