(* ===== verification/IngestRun.v ===== *)
(** * IngestRun: the phases of an import and the executor's interface (recording_ingestor/engine.rs)

The worker drives a job from phase to phase: preflight checks space and source,
the copy phase fills the staging tree, verification reports the digests of both
ends, the commit seals and publishes the tree under a lease and reports the
receipt.  The interface starts imports, takes commands and installs a source that
came back. *)

From Stdlib Require Import NArith Lia Ascii String.
From stdpp Require Import base numbers list strings gmap.
From S2P Require Import Prelude Domain Files Journal Artifact Fault Disk Staging Json Ingest Import.
From S2P Require Import MediaStore ImportStore PipelineStore Ingestor IngestCopy.

Local Open Scope string_scope.

(** [IngestRunOutcome] (recording_ingestor/engine.rs:74-81); no path gives [Progressed]. *)
Inductive IngestRunOutcome :=
| RoWaitingForMedia (s : ImportSnapshot)
| RoPaused (s : ImportSnapshot)
| RoRetryWaiting (s : ImportSnapshot)
| RoStopped (s : ImportSnapshot)
| RoTerminal (s : ImportSnapshot).

(** [CopyPhaseOutcome] (recording_ingestor/engine.rs:1163-1166). *)
Record CopyPhaseOutcome := mkCopyPhase { co_snapshot : ImportSnapshot; co_evidence : gmap string FileCopyEvidence }.

(** [ImportStartOutcome] (ingest/job.rs:793-804). *)
Inductive ImportStartOutcome :=
| IsCreated (job_id : string)
| IsExisting (job_id : string)
| IsConflict (existing_job_id reason : string).

(** [IngestError] (ingest/mod.rs:75-90), without its texts. *)
Inductive IngestError :=
| IgCandidateUnavailable | IgJobNotFound | IgPolicyApprovalRequired | IgConflict | IgPersistence | IgUnavailable | IgInternal.

(** [map_port_to_ingest] (recording_ingestor/engine.rs:1749-1765). *)
Definition map_port_to_ingest (e : IngestPortError) : IngestError :=
  let code := pe_code e in
  if String.eqb code "candidate_unavailable" then IgCandidateUnavailable
  else if String.eqb code "policy_approval_required" then IgPolicyApprovalRequired
  else if String.eqb code "persistence" || String.eqb code "conflict" || String.eqb code "corrupt" then IgPersistence
  else if String.eqb code "source_unavailable" || String.eqb code "scheduler_unavailable" then IgUnavailable
  else IgInternal.

(** [map_engine_to_ingest] (recording_ingestor/engine.rs:1767-1790). *)
Definition map_engine_to_ingest (e : RecordingIngestorError) : IngestError :=
  match e with
  | RiPort e => map_port_to_ingest e
  | RiCandidateUnavailable _ => IgCandidateUnavailable
  | RiJobNotFound _ => IgJobNotFound
  | RiCommandRejected _ => IgConflict
  | RiPersistenceConflict => IgPersistence
  | RiSpec (UnsignedRejected | UnsignedReceiptRequired) => IgPolicyApprovalRequired
  | RiSpec _ => IgConflict
  | _ => IgInternal
  end.

(** ** What a source must share with the one an import was admitted for *)

(** [same_source_provenance] (recording_ingestor/engine.rs:1701-1734). *)
Definition same_source_provenance (expected observed : SourceProvenance) : bool :=
  match expected, observed with
  | SpDeviceSigned expected, SpDeviceSigned observed => bool_decide (SpDeviceSigned expected = SpDeviceSigned observed)
  | SpLocallyValidatedUnsigned expected, SpLocallyValidatedUnsigned observed =>
      if negb (bool_decide (lu_source_schema expected = lu_source_schema observed))
         || negb (bool_decide (lu_validation_report expected = lu_validation_report observed))
         || negb (bool_decide (lu_computed_inventory_digest expected = lu_computed_inventory_digest observed))
      then false
      else match lu_user_admission_receipt expected, lu_user_admission_receipt observed with
           | Some expected, Some observed => bool_decide (ua_candidate_revision expected = ua_candidate_revision observed)
           | None, _ => true
           | Some _, None => false
           end
  | _, _ => false
  end.

(** [ensure_same_source] (recording_ingestor/engine.rs:1674-1691). *)
Definition ensure_same_source (spec : ImportSpec) (source : SourceRecording) : result RecordingIngestorError unit :=
  let expected := is_source spec in
  if negb (bool_decide (sr_revision_claim expected = sr_revision_claim source))
     || negb (String.eqb (sr_session_id expected) (sr_session_id source))
     || negb (bool_decide (sr_schema expected = sr_schema source))
     || negb (bool_decide (sr_inventory expected = sr_inventory source))
     || negb (bool_decide (sr_media_plan expected = sr_media_plan source))
     || negb (same_source_provenance (sr_provenance expected) (sr_provenance source))
  then Err (RiCommandRejected IntegrityMismatch) else Ok tt.

(** [acquisition_fence_changed] (recording_ingestor/engine.rs:1659-1661). *)
Definition acquisition_fence_changed (current replacement : MediaLocator) : bool := bool_decide (current <> replacement).

(** [has_strong_resume_identity] (recording_ingestor/engine.rs:1663-1672). *)
Definition has_strong_resume_identity (spec : ImportSpec) : bool :=
  match sr_provenance (is_source spec) with SpDeviceSigned _ => true | _ => false end
  && bool_decide (is_Some (stable (sr_revision_claim (is_source spec))))
  && forallb (fun f => bool_decide (is_Some (if_expected_source_sha256 f))) (is_files spec).

(** [generation_matches] (recording_ingestor/engine.rs:1655-1657). *)
Definition generation_matches (locator : MediaLocator) (observed_generation : option MediaGenerationId) : bool :=
  bool_decide (media_generation_id locator = observed_generation).

Definition checkpoint_of_file (s : ImportSnapshot) (file_id : SourceArtifactId) : result RecordingIngestorError ImportFileCheckpoint :=
  ok_or (List.find (fun c => String.eqb (ck_file_id c) file_id) (im_checkpoints s)) RiPersistenceConflict.

(** [manifest_from_verified, one file] (recording_ingestor/engine.rs:1600-1618). *)
Definition manifest_file (s : ImportSnapshot) (file : ImportFileSpec) : result RecordingIngestorError ExpectedArtifact :=
  let? checkpoint := checkpoint_of_file s (if_file_id file) in
  if negb (ck_verified checkpoint) then Err RiPersistenceConflict else
  let? digest := ok_or (ck_target_sha256 checkpoint) RiPersistenceConflict in
  Ok (ExpectedArtifact_new (if_file_id file) (Some (path_text (if_relative_path file))) (if_expected_size file) digest).

(** [manifest_from_verified] (recording_ingestor/engine.rs:1592-1625). *)
Definition manifest_from_verified (spec : ImportSpec) (s : ImportSnapshot) (staging : SessionStaging)
    : result RecordingIngestorError SessionManifest :=
  let? files := rtraverse (manifest_file s) (is_files spec) in
  Ok (mkManifest (ss_device_id staging) (ss_session_id staging) files).

(** [hash_inventory_field] (recording_ingestor/engine.rs:1650-1653). *)
Definition hash_inventory_field (value : string) : list byte := (le_bytes 8 (str_len value) ++ bytes_of value)%list.

(** [inventory_digest, one file] (recording_ingestor/engine.rs:1634-1645). *)
Definition inventory_file (s : ImportSnapshot) (file : ImportFileSpec) : result RecordingIngestorError (list byte) :=
  let? checkpoint := checkpoint_of_file s (if_file_id file) in
  let? digest := ok_or (ck_target_sha256 checkpoint) RiPersistenceConflict in
  Ok (hash_inventory_field (if_file_id file) ++ hash_inventory_field (path_text (if_relative_path file))
      ++ le_bytes 8 (if_expected_size file) ++ hash_inventory_field digest)%list.

Section run.
Context `{Display MediaStoreError, IngestPorts, Sha256, JournalCodec, MarkerCodec, Lowercase,
          Display DownloadError, Display IoKind, ImportRequestText}.

(** [inventory_digest] (recording_ingestor/engine.rs:1627-1648). *)
Definition inventory_digest (spec : ImportSpec) (s : ImportSnapshot) : result RecordingIngestorError InventoryDigest :=
  let? fields := rtraverse (inventory_file s) (is_files spec) in
  Ok (from_material "sha256:" (bytes_of "ylx-source-inventory-v1" ++ [Byte.x00] ++ mjoin fields)%list).

(** [staging_for_spec] (recording_ingestor/engine.rs:1577-1590). *)
Definition staging_for_spec (spec : ImportSpec) : result RecordingIngestorError SessionStaging :=
  let? natural_key := ok_or (natural_key_text (is_natural_key spec)) RiPublication in
  let session_id := "source-" ++ to_hex (sha256 (bytes_of "ylx-source-session-v1" ++ [Byte.x00] ++ natural_key)%list) in
  rmap_err (fun _ => RiPublication)
    (SessionStaging_new "sources" session_id (from_publication (bytes_of (is_request_digest spec)))).

(** ** Preflight *)

(** [RecordingIngestExecutor::run_preflight, the bytes that are needed] (recording_ingestor/engine.rs:523-529). *)
Definition required_space (stored : StoredImport) (reserve : N) : option N :=
  let remaining_source := (is_total_bytes (st_spec stored) - durable_bytes (st_snapshot stored))%N in
  u64_checked_add remaining_source reserve ≫= (fun bytes => u64_checked_add bytes (ip_safety_margin_bytes (is_policy (st_spec stored)))).

(** [RecordingIngestExecutor::run_preflight, the space] (recording_ingestor/engine.rs:538-556): the failure to report. *)
Definition space_failure (stored : StoredImport) (required : N) (available : result IngestPortError N)
    : option (ImportFailureCode * string) :=
  match available with
  | Err e => Some (FailInternal, "local-space preflight failed: " ++ pe_message e)
  | Ok available =>
      let available := N.min available (ip_local_space_budget_bytes (is_policy (st_spec stored))) in
      if (available <? required)%N
      then Some (FailInsufficientLocalSpace,
                 "local import needs " ++ dec required ++ " bytes but " ++ dec available ++ " are available")
      else None
  end.

(** [RecordingIngestExecutor::run_preflight, the beginning] (recording_ingestor/engine.rs:496-520) and of [run_copy]: the job as it is once its locks are
    held, or the snapshot that ends the phase. *)
Definition phase_begins (stored : StoredImport) (in_phase : ImportJobState -> bool)
    : ingest (ImportSnapshot + StoredImport * MediaLocator) :=
  let job_id := is_job_id (st_spec stored) in
  do! fence then!
  match im_active_locator (st_snapshot stored) with
  | None => let! s := apply_internal job_id CmdSourceUnavailable in sret (inl s)
  | Some locator =>
      let! stop := should_stop job_id in
      let! fresh := load job_id in
      if (stop : bool) || negb (in_phase (im_state (st_snapshot fresh)))
         || negb (bool_decide (im_active_locator (st_snapshot fresh) = Some locator))
      then sret (inl (st_snapshot fresh)) else sret (inr (fresh, locator))
  end.

(** [RecordingIngestExecutor::run_preflight] (recording_ingestor/engine.rs:489-571). *)
Definition run_preflight (stored : StoredImport) : ingest ImportSnapshot :=
  let! begins := phase_begins stored (fun s => match s with ImPreflighting => true | _ => false end) in
  match begins with
  | inl s => sret s
  | inr (fresh, locator) =>
      let job_id := is_job_id (st_spec fresh) in
      do! fence then!
      let! e := sget in
      match required_space fresh (rc_derivation_working_set_reserve_bytes (ig_config e)) with
      | None => apply_failure job_id FailInsufficientLocalSpace "local-space requirement overflowed u64" false
      | Some required =>
          let! available := ask available_bytes in
          match space_failure fresh required available with
          | Some (code, message) => apply_failure job_id code message true
          | None =>
              let! resolved := ask (resolve_source locator) in
              match resolved with
              | Err _ => apply_internal job_id CmdSourceUnavailable
              | Ok generation =>
                  do! fence then!
                  if generation_matches locator generation then apply_internal job_id CmdPreflightPassed
                  else apply_internal job_id CmdSourceUnavailable
              end
          end
      end
  end.

(** ** Copy *)

(** [RecordingIngestExecutor::run_copy, one failure] (recording_ingestor/engine.rs:764-786). *)
Definition copy_failed (job_id : string) (failure : PhaseFailure) : ingest ImportSnapshot :=
  match failure with
  | PhStopped => let! stored := load job_id in sret (st_snapshot stored)
  | PhWaitingForSource => apply_internal job_id CmdSourceUnavailable
  | PhFailure code message retryable => apply_failure job_id code message retryable
  | PhEngine e => sfail e
  end.

Definition try_phase {A} (c : phase A) : ingest (result PhaseFailure A) := fun e => let '(e, r) := c e in (e, Ok r).

(** [RecordingIngestExecutor::run_copy, the files] (recording_ingestor/engine.rs:724-788): the outcome that ends the phase early, or the evidence. *)
Fixpoint copy_files (job_id : string) (staging : SessionStaging) (locator : MediaLocator) (files : list ImportFileSpec)
    (evidence : gmap string FileCopyEvidence) : ingest (CopyPhaseOutcome + gmap string FileCopyEvidence) :=
  match files with
  | [] => sret (inr evidence)
  | file :: rest =>
      do! fence then!
      let! stop := should_stop job_id in
      let! fresh := load job_id in
      if (stop : bool) || negb (bool_decide (im_state (st_snapshot fresh) = ImCopying))
      then sret (inl (mkCopyPhase (st_snapshot fresh) evidence)) else
      let! checkpoint := slift (checkpoint_of_file (st_snapshot fresh) (if_file_id file)) in
      if ck_verified checkpoint then
        let! file_evidence := slift (checkpoint_evidence checkpoint) in
        copy_files job_id staging locator rest (<[if_file_id file := file_evidence]> evidence)
      else
        let! copied := try_phase (copy_one_file (st_spec fresh) staging locator file checkpoint) in
        match copied with
        | Ok file_evidence => copy_files job_id staging locator rest (<[if_file_id file := file_evidence]> evidence)
        | Err failure => let! s := copy_failed job_id failure in sret (inl (mkCopyPhase s evidence))
        end
  end.

(** [RecordingIngestExecutor::run_copy] (recording_ingestor/engine.rs:646-793). *)
Definition run_copy (stored : StoredImport) : ingest CopyPhaseOutcome :=
  let! begins := phase_begins stored (fun s => match s with ImCopying => true | _ => false end) in
  match begins with
  | inl s => sret (mkCopyPhase s ∅)
  | inr (fresh, locator) =>
      let job_id := is_job_id (st_spec fresh) in
      let! resolved := ask (resolve_source locator) in
      if match resolved with Ok generation => negb (generation_matches locator generation) | Err _ => true end
      then let! s := apply_internal job_id CmdSourceUnavailable in sret (mkCopyPhase s ∅) else
      do! fence then!
      let! staging := slift (staging_for_spec (st_spec fresh)) in
      do! fence then!
      do! serr (fun _ => RiFilesystem) (on_disk (prepare staging)) then!
      let! copied := copy_files job_id staging locator (is_files (st_spec fresh)) ∅ in
      match copied with
      | inl outcome => sret outcome
      | inr evidence => let! s := apply_internal job_id CmdCopyFinished in sret (mkCopyPhase s evidence)
      end
  end.

(** ** Verification *)

(** [RecordingIngestExecutor::run_verification, the evidence of the checkpoints] (recording_ingestor/engine.rs:590-603). *)
Definition checkpointed_evidence (s : ImportSnapshot) (copied : gmap string FileCopyEvidence) : gmap string FileCopyEvidence :=
  fold_left (fun evidence c =>
    match ck_source_sha256 c, ck_target_sha256 c with
    | Some source_sha256, Some target_sha256 =>
        <[ck_file_id c := mkCopyEvidence (ck_file_id c) source_sha256 target_sha256]> evidence
    | _, _ => evidence
    end) (im_checkpoints s) copied.

(** [RecordingIngestExecutor::run_verification, the files] (recording_ingestor/engine.rs:605-635): the snapshot that ends the phase early, or none. *)
Fixpoint verify_files (job_id : string) (evidence : gmap string FileCopyEvidence) (s : ImportSnapshot)
    (files : list ImportFileSpec) : ingest (option ImportSnapshot) :=
  match files with
  | [] => sret None
  | file :: rest =>
      do! fence then!
      match evidence !! if_file_id file with
      | None =>
          let! s := apply_failure job_id FailSourceUnavailable
            "copy evidence was interrupted before durable verification; retry from the source" true in
          sret (Some s)
      | Some found =>
          let! checkpoint := slift (checkpoint_of_file s (if_file_id file)) in
          if ck_verified checkpoint then verify_files job_id evidence s rest else
          let! s := apply_internal job_id (CmdFileVerified (fe_file_id found) (fe_source_sha256 found) (fe_target_sha256 found)) in
          match im_state s with
          | ImVerifying => verify_files job_id evidence s rest
          | _ => sret (Some s)
          end
      end
  end.

(** [RecordingIngestExecutor::run_verification] (recording_ingestor/engine.rs:573-644): the evidence of the copy grows by the checkpoints'. *)
Definition run_verification (stored : StoredImport) (copied : gmap string FileCopyEvidence)
    : ingest (ImportSnapshot * gmap string FileCopyEvidence) :=
  let job_id := is_job_id (st_spec stored) in
  do! fence then!
  let! stop := should_stop job_id in
  let! fresh := load job_id in
  if (stop : bool) || negb (bool_decide (im_state (st_snapshot fresh) = ImVerifying))
  then sret (st_snapshot fresh, copied) else
  let evidence := checkpointed_evidence (st_snapshot fresh) copied in
  let! ended := verify_files job_id evidence (st_snapshot fresh) (is_files (st_spec fresh)) in
  match ended with
  | Some s => sret (s, evidence)
  | None =>
      let! fresh := load job_id in
      do! fence then!
      let! digest := slift (inventory_digest (st_spec fresh) (st_snapshot fresh)) in
      let! s := apply_internal job_id (CmdVerificationPassed digest) in
      sret (s, evidence)
  end.

(** ** Commit *)

Definition published_text (o : PublishOutcome) : string :=
  match o with PoPublished revision => "published:" ++ revision | PoAlreadyPublished revision => "replayed:" ++ revision end.

(** [RecordingIngestExecutor::run_commit] (recording_ingestor/engine.rs:1061-1128). *)
Definition run_commit (stored : StoredImport) : ingest ImportSnapshot :=
  let job_id := is_job_id (st_spec stored) in
  do! fence then!
  let! stop := should_stop job_id in
  let! fresh := load job_id in
  if (stop : bool) || negb (bool_decide (im_state (st_snapshot fresh) = ImCommitting)) then sret (st_snapshot fresh) else
  let! source := slift (ok_or (im_verified_source (st_snapshot fresh)) RiPersistenceConflict) in
  let! source_revision := slift (ok_or (sr_content_revision source) RiPersistenceConflict) in
  let! staging := slift (staging_for_spec (st_spec fresh)) in
  do! fence then!
  let! manifest := slift (manifest_from_verified (st_spec fresh) (st_snapshot fresh) staging) in
  do! port_call (acquire_exclusive (digest_text source_revision) job_id) then!
  do! fence then!
  let! sealed := serr (fun _ => RiPublication) (on_disk (seal staging manifest)) in
  let! stop := should_stop job_id in
  if (stop : bool) then let! fresh := load job_id in sret (st_snapshot fresh) else
  do! fence then!
  do! port_call assert_lease then!
  do! fence then!
  let! published := serr (fun _ => RiPublication) (on_disk (publish_sealed (sr_staging sealed))) in
  let! sealed_relative_path := slift (rmap_err (fun _ => RiPublication)
    (safe_path_parse (ss_device_id staging ++ "/" ++ ss_session_id staging))) in
  let! now := ask ingest_now in
  let! receipt := slift (rmap_err (fun _ => RiPublication)
    (LocalSourceReceipt_new source sealed_relative_path (published_text published) now)) in
  apply_internal job_id (CmdCommitSucceeded receipt).

(** ** The worker *)

(** [RecordingIngestExecutor::run_to_quiescence_fenced, the outcome of a copy] (recording_ingestor/engine.rs:195-208). *)
Definition after_copy (s : ImportSnapshot) : option IngestRunOutcome :=
  match im_state s with
  | ImWaitingForMedia _ => Some (RoWaitingForMedia s)
  | ImRetryWait _ => Some (RoRetryWaiting s)
  | ImFailed | ImCancelled | ImLocalVerified => Some (RoTerminal s)
  | _ => None
  end.

(** [RecordingIngestExecutor::run_to_quiescence_fenced, one step] (recording_ingestor/engine.rs:177-229): the outcome that ends the run, or the evidence
    for the next step. *)
Definition run_step (job_id : string) (evidence : gmap string FileCopyEvidence)
    : ingest (IngestRunOutcome + gmap string FileCopyEvidence) :=
  do! fence then!
  let! stored := load job_id in
  let s := st_snapshot stored in
  let! stop := should_stop job_id in
  if (stop : bool) then sret (inl (RoStopped s)) else
  match im_state s with
  | ImQueued => do! apply_internal job_id CmdStart then! sret (inr evidence)
  | ImPreflighting => do! run_preflight stored then! sret (inr evidence)
  | ImCopying =>
      let! outcome := run_copy stored in
      match after_copy (co_snapshot outcome) with
      | Some ended => sret (inl ended)
      | None => sret (inr (co_evidence outcome))
      end
  | ImVerifying => let! (_, evidence) := run_verification stored evidence in sret (inr evidence)
  | ImCommitting => do! run_commit stored then! sret (inr evidence)
  | ImWaitingForMedia _ => sret (inl (RoWaitingForMedia s))
  | ImPausing _ | ImCancelling => sret (inl (RoStopped s))
  | ImPaused _ => sret (inl (RoPaused s))
  | ImRetryWait _ => sret (inl (RoRetryWaiting s))
  | ImLocalVerified | ImCancelled | ImFailed => sret (inl (RoTerminal s))
  end.

Fixpoint run_steps (steps : nat) (job_id : string) (evidence : gmap string FileCopyEvidence) : ingest IngestRunOutcome :=
  match steps with
  | O => sfail RiWorkerStepLimit
  | S steps =>
      let! answer := run_step job_id evidence in
      match answer with inl outcome => sret outcome | inr evidence => run_steps steps job_id evidence end
  end.

(** [RecordingIngestExecutor::run_to_quiescence_fenced] (recording_ingestor/engine.rs:168-232). *)
Definition run_to_quiescence (job_id : string) : ingest IngestRunOutcome :=
  let! e := sget in run_steps (rc_maximum_worker_steps (ig_config e)) job_id ∅.

(** ** The interface *)

Definition not_rejected (applied : AppliedCommand) : ingest ImportSnapshot :=
  match ap_outcome applied with
  | RejectedBecause reason => sfail (RiCommandRejected reason)
  | _ => sret (ap_snapshot applied)
  end.

(** [RecordingIngestExecutor::source_available] (recording_ingestor/engine.rs:251-301). *)
Definition source_available (job_id : string) (source : SourceRecording) : ingest ImportSnapshot :=
  let! stored := load job_id in
  do! slift (ensure_same_source (st_spec stored) source) then!
  do! (if acquisition_fence_changed (st_locator stored) (sr_locator source) && negb (has_strong_resume_identity (st_spec stored))
       then
         let! reset := apply_external job_id (CmdResetProgressForSource (sr_revision_claim source)) in
         do! not_rejected reset then!
         let! staging := slift (staging_for_spec (st_spec stored)) in
         serr (fun _ => RiFilesystem) (on_disk (discard staging))
       else sret tt) then!
  let! available := apply_external job_id (CmdSourceAvailable (sr_locator source) (sr_revision_claim source)) in
  not_rejected available.

(** [RecordingIngestExecutor::start_import_impl] (recording_ingestor/engine.rs:309-359). *)
Definition start_import (candidate_id : CandidateId) (policy : ImportPolicy) (at_root : bool) : ingest ImportStartOutcome :=
  let! known := port_call (known_candidate candidate_id) in
  if negb known then sfail (RiCandidateUnavailable (digest_text candidate_id)) else
  let! source := port_call (admit_candidate candidate_id policy) in
  let! job_id := ask fresh_job_id in
  let! spec := slift (rmap_err RiSpec (ImportSpec_new job_id source policy)) in
  let initial := ij_snapshot (ImportJob_new spec) in
  do! meanwhile then!
  let! now := ask ingest_now in
  let! created := (fun e => let '(db, r) := repository_create (ig_db e) spec now in (set_ig_db e db, rmap_err RiPort r)) in
  match created with
  | CsCreated stored =>
      if negb (bool_decide (st_spec stored = spec)) || negb (bool_decide (st_snapshot stored = initial))
      then sfail RiPersistenceConflict else
      let! applied := apply_external (is_job_id spec) CmdStart in
      match ap_outcome applied with
      | RejectedBecause _ => sfail RiPersistenceConflict
      | _ => sret (IsCreated (is_job_id spec))
      end
  | CsExisting stored =>
      do! (if is_waiting (im_state (st_snapshot stored)) && is_ok (ensure_same_source (st_spec stored) source) && at_root
           then do! source_available (is_job_id (st_spec stored)) source then! sret tt else sret tt) then!
      sret (IsExisting (is_job_id (st_spec stored)))
  | CsConflict existing_job_id reason => sret (IsConflict existing_job_id (bounded_text reason))
  end.

(** [RecordingIngestExecutor::command_impl] (recording_ingestor/engine.rs:361-389). *)
Definition command_import (job_id : string) (command : ImportControlCommand) : ingest ImportCommandOutcome :=
  let! applied := apply_external job_id (control_command command) in
  match ap_outcome applied, command with
  | Import.Applied, ControlPause =>
      let! acknowledged := apply_external job_id CmdPauseCompleted in
      do! not_rejected acknowledged then! sret Import.Applied
  | Import.Applied, ControlCancel =>
      let! acknowledged := apply_external job_id CmdCancellationCompleted in
      do! not_rejected acknowledged then! sret Import.Applied
  | outcome, _ => sret outcome
  end.

(** [RecordingIngestor::snapshots] (recording_ingestor/engine.rs:1818-1822). *)
Definition import_snapshots : ingest (list ImportSnapshot) :=
  do! meanwhile then! fun e => (e, rmap_err RiPort (repository_list (ig_db e))).
End run.
