(* ===== verification/IngestTables.v ===== *)
(** * IngestTables: what the executor of imports stores (recording_ingestor/)

The tables are sound when the store's invariant holds and every row is a run of the import
reducer from the row's spec.  A write of an executor, and whatever other threads do, keep them so.
[kept] lifts that, and any other relation that the ports respect, to every computation of the executor by
composition. *)

From Stdlib Require Import NArith Lia Ascii String.
From stdpp Require Import base numbers list strings gmap.
From S2P Require Import Prelude Domain Files Journal Artifact Fault Disk Staging Json Ingest Import ImportProofs.
From S2P Require Import MediaStore DerivationStore ImportStore PipelineStore ImportStoreProofs PipelineStoreProofs Ingestor IngestCopy IngestRun.

Local Open Scope string_scope.

(** ** Rows that are runs *)

(** A snapshot the executor stores: a run of the reducer, neither failed nor cancelled. *)
Definition stored_run (spec : ImportSpec) (s : ImportSnapshot) : Prop :=
  (exists commands, s = ij_snapshot (import_run (ImportJob_new spec) commands)) /\
  im_state s <> ImFailed /\ im_state s <> ImCancelled.

Definition reduced (db : ImportDb) : Prop :=
  forall id row, ib_jobs db !! id = Some row ->
    exists srow, ib_specs db !! id = Some srow /\ stored_run (js_spec srow) (jw_snapshot row).

Lemma new_stored_run spec : stored_run spec (ij_snapshot (ImportJob_new spec)).
Proof. split; [by exists []|done]. Qed.

Lemma stored_run_inv spec s : stored_run spec s -> import_inv spec s.
Proof. intros [[commands ->] _]. apply new_run_inv. Qed.

Lemma decided_run spec s command :
  stored_run spec s ->
  exists commands, ij_snapshot (decide_import (mkJob spec s) command).1 = ij_snapshot (import_run (ImportJob_new spec) commands).
Proof.
  intros [[commands E] _]. exists (commands ++ [command])%list. unfold import_run. rewrite fold_left_app. cbn.
  f_equal. f_equal. f_equal. fold (import_run (ImportJob_new spec) commands). rewrite E.
  destruct (new_run_inv spec commands) as [Es _]. rewrite <- Es at 1. by destruct (import_run _ _).
Qed.

(** Rows of other operations: as they were, or new. *)
Definition rows_kept (db db' : ImportDb) : Prop :=
  forall id row, ib_jobs db' !! id = Some row -> ib_jobs db !! id = Some row \/
    ib_jobs db !! id = None /\ exists spec now, row = initial_row spec now /\
      ib_specs db' !! id = Some (mkImportSpecRow CURRENT_IMPORT_SPEC_VERSION spec).

Lemma same_rows_kept db db' : ib_jobs db' = ib_jobs db -> rows_kept db db'.
Proof. intros E id row. rewrite E. by left. Qed.

Lemma rows_kept_reduced db db' : import_advances db db' -> rows_kept db db' -> reduced db -> reduced db'.
Proof.
  intros Ha Hk Hr id row Hrow. destruct (Hk id row Hrow) as [Hold|(_ & spec & now & -> & Hs)].
  - destruct (Hr id row Hold) as (srow & Hs & Hrun). exists srow. split; [|done]. rewrite (ia_specs _ _ Ha); [done|by eexists].
  - exists (mkImportSpecRow CURRENT_IMPORT_SPEC_VERSION spec). split; [done|]. apply new_stored_run.
Qed.

Lemma ensured_rows db db' spec job created now : ensured db db' spec job created now -> rows_kept db db'.
Proof.
  intros [_ [row [Hr Hs _ _ _ _ _ _ _]] _ _ _ Hc]. destruct created; [|subst; by apply same_rows_kept].
  destruct Hc as (Hn & Es & Ej). intros id row'. rewrite Ej. destruct (decide (id = is_job_id spec)) as [->|Hne].
  - rewrite lookup_insert_eq. intros [= <-]. right. split; [done|]. exists spec, now. split; [done|]. by rewrite <- Es.
  - rewrite lookup_insert_ne by done. by left.
Qed.

Lemma rows_kept_same db db' db'' : rows_kept db db' -> ib_jobs db'' = ib_jobs db' -> ib_specs db'' = ib_specs db' -> rows_kept db db''.
Proof. unfold rows_kept. by intros Hk -> ->. Qed.

Lemma create_rows db spec now db' o :
  import_store_ok db -> create_import_job db spec now = Ok (db', o) -> rows_kept db db'.
Proof.
  intros Hok. unfold create_import_job. rewrite rbind_ok. intros (u & _ & Hr). revert Hr. rewrite rbind_ok.
  intros ([db1 [job created]] & He & Hr). apply ensure_import_ok, ensured_rows in He; [|done]. destruct created.
  - apply rbind_ok in Hr as (db2 & Hb%rmap_err_ok & [= <- _]). apply bump_imports_ok in Hb as [n ->]. by eapply rows_kept_same.
  - by injection Hr as <- _.
Qed.

Lemma admission_rows {T} db spec source policy action fresh now validate db' o (t : T) :
  import_store_ok db ->
  create_import_job_and_session_pipeline_validated db spec source policy action fresh now validate = Ok (db', (o, t)) ->
  rows_kept db db'.
Proof.
  intros Hok. unfold create_import_job_and_session_pipeline_validated. rewrite rbind_ok. intros (u & _ & Hr).
  apply guard_ok in Hr as [_ Hr]. rewrite rbind_ok in Hr. destruct Hr as ([db1 [import ic]] & He & Hr).
  apply ensure_import_ok, ensured_rows in He; [|done]. apply rmap_err_ok in Hr.
  rewrite rbind_ok in Hr. destruct Hr as ([db2 [s pc]] & Hs%ensure_pipeline_ok & Hr). destruct Hs as [_ (p & d & E2) _].
  rewrite rbind_ok in Hr. destruct Hr as (db3 & [n ->]%bump_if_imports & Hr).
  rewrite rbind_ok in Hr. destruct Hr as (db4 & [m ->]%bump_if_pipelines & Hr).
  rewrite rbind_ok in Hr. destruct Hr as (f1 & _ & Hr). rewrite rbind_ok in Hr. destruct Hr as (i1 & _ & Hr).
  rewrite rbind_ok in Hr. destruct Hr as (f2 & _ & Hr). rewrite rbind_ok in Hr. destruct Hr as (s1 & _ & Hr).
  rewrite rbind_ok in Hr. destruct Hr as (v & _ & [= <- _ _]). subst db2. by eapply rows_kept_same.
Qed.

(** ** The write of a snapshot *)

(** The row of a job is the next snapshot of one with that version, or nothing was written. *)
Definition row_written (db db' : ImportDb) (v : N) (next : ImportSnapshot) : Prop :=
  ib_specs db' = ib_specs db /\
  (ib_jobs db' = ib_jobs db \/
   exists row now, ib_jobs db !! im_job_id next = Some row /\ im_version (jw_snapshot row) = v /\
     ib_jobs db' = <[im_job_id next := later_row row next now]> (ib_jobs db)).

Lemma persisted_import_row db current row v next u now db' :
  import_reads db (im_job_id next) row current -> persist_import_snapshot db current v next u now = Ok db' -> row_written db db' v next.
Proof.
  intros [Hr _ Es _ _ _ _ _ _] Hp. destruct (persist_import_ok _ _ _ _ _ _ _ Hp) as (Hv & _ & _ & _ & _ & Hs & row' & Hr' & Ej).
  split; [done|]. right. exists row', now. split_and!; [done| |done]. congruence.
Qed.

Lemma swap_written db v next u now db' o :
  compare_and_swap_import_snapshot db v next u now = Ok (db', o) -> row_written db db' v next /\ import_terminal (im_state next) = false.
Proof.
  unfold compare_and_swap_import_snapshot. destruct (import_terminal (im_state next)); [done|].
  rewrite rbind_ok. intros (current & Hc%require_import_ok & Hr). destruct Hc as [row Hc]. revert Hr.
  case_bool_decide; [intros [= <- _]; repeat split; by left|].
  rewrite rbind_ok. intros (db1 & Hp & Hr). revert Hr. rewrite rbind_ok. intros (db2 & Hb & Hr). revert Hr.
  rewrite rbind_ok. intros (stored & _ & [= <- _]). apply bump_imports_ok in Hb as [n ->]. split; [|done].
  exact (persisted_import_row _ _ _ _ _ _ _ _ Hc Hp).
Qed.

Lemma insert_pair_rows db s r db' o : insert_receipt_pair db s r = Ok (db', o) -> ib_jobs db' = ib_jobs db /\ ib_specs db' = ib_specs db.
Proof.
  unfold insert_receipt_pair. rewrite rbind_ok. intros ([rows o1] & _ & Hr). revert Hr. unfold insert_import_receipt.
  destruct (_ !! _); [destruct (bool_decide _); [|done]; by intros [= <- _]|].
  destruct (read_import_receipt_by_natural_key _ _ _); [destruct (bool_decide _); [|done]; by intros [= <- _]|].
  by intros [_ [= <- _]]%guard_ok.
Qed.

Lemma record_commit_rows db s r db' o : record_import_commit db s r = Ok (db', o) -> ib_jobs db' = ib_jobs db.
Proof.
  unfold record_import_commit. rewrite rbind_ok. intros (u & _ & Hr). revert Hr. rewrite rbind_ok. intros (u' & _ & Hr).
  apply guard_ok in Hr as [_ Hr]. by apply insert_pair_rows in Hr as [-> _].
Qed.

Lemma success_rows db next p db' : record_import_success db next p = Ok db' -> ib_jobs db' = ib_jobs db /\ ib_specs db' = ib_specs db.
Proof.
  unfold record_import_success. destruct (im_local_receipt next), p; [|done|done|by intros [= <-]].
  destruct (local_source_receipt_rows _ _ _ _) as [s r]. rewrite rbind_ok. intros ([db1 o] & Hi & Hr). injection Hr as <-.
  by eapply insert_pair_rows.
Qed.

Lemma complete_written db v next u p now db' o :
  complete_import_job db v next u p now = Ok (db', o) -> row_written db db' v next.
Proof.
  unfold complete_import_job. destruct (negb _); [done|].
  rewrite rbind_ok. intros (current & Hc%require_import_ok & Hr). destruct Hc as [row Hc]. revert Hr.
  set (replay := bool_decide _). rewrite rbind_ok. intros (db1 & Hp & Hr). revert Hr.
  rewrite rbind_ok. intros (db2 & [E1 E2]%success_rows & Hr). revert Hr. rewrite rbind_ok. intros ([ob completion] & _ & Hr). revert Hr.
  rewrite rbind_ok. intros (db3 & Hb & Hr). revert Hr. rewrite rbind_ok. intros (job & _ & [= <- _]).
  assert (H1 : row_written db db1 v next).
  { destruct replay; [injection Hp as <-; split; [done|by left]|by eapply persisted_import_row]. }
  assert (E : ib_jobs db3 = ib_jobs db2 /\ ib_specs db3 = ib_specs db2).
  { destruct (negb replay || is_recorded completion); [by apply bump_imports_ok in Hb as [n ->]|by injection Hb as <-]. }
  unfold row_written. by rewrite (proj1 E), (proj2 E), E1, E2.
Qed.

(** A spec and a snapshot that a reader has seen: the row still has it, or a later version. *)
Record seen (db : ImportDb) (id : string) (spec : ImportSpec) (s : ImportSnapshot) : Prop := {
  sn_id : is_job_id spec = id;
  sn_spec : exists srow, ib_specs db !! id = Some srow /\ js_spec srow = spec;
  sn_run : stored_run spec s;
  sn_row : exists row, ib_jobs db !! id = Some row /\ (jw_snapshot row = s \/ (im_version s < im_version (jw_snapshot row))%N);
}.

Lemma seen_later db db' id spec s : import_advances db db' -> seen db id spec s -> seen db' id spec s.
Proof.
  intros Ha [H1 (srow & Hs & E) H3 (row & Hr & Hc)]. split; [done| |done|].
  - exists srow. split; [|done]. rewrite (ia_specs _ _ Ha); [done|by eexists].
  - destruct (ia_rows _ _ Ha _ _ Hr) as (row' & Hr' & _ & _ & _ & Hv). exists row'. split; [done|].
    destruct Hc as [<-|Hlt], Hv as [Ev|Hv]; [left; congruence|by right|right; by rewrite Ev|right; lia].
Qed.

Lemma read_seen db id stored : reduced db -> read_import_job db id = Ok (Some stored) -> seen db id (si_spec stored) (si_snapshot stored).
Proof.
  intros Hr (row & [Hrow Hs Es [Hid _] _ _ _ _ _])%read_import_ok. destruct (Hr id row Hrow) as (srow & Hs' & Hrun).
  rewrite Hs in Hs'. injection Hs' as <-. split; [done|by eexists| |].
  - by rewrite Es.
  - exists row. by split; [|left].
Qed.

(** ** What a store keeps *)

Definition sound (db : ImportDb) : Prop := media_ok db /\ reduced db.
Definition step_keeps (db db' : ImportDb) : Prop := sound db' /\ import_advances db db'.

Lemma step_keeps_refl db : sound db -> step_keeps db db.
Proof. by split; [|apply import_advances_refl]. Qed.

Lemma step_keeps_trans a b c : step_keeps a b -> step_keeps b c -> step_keeps a c.
Proof. intros [_ H1] [H2 H3]. split; [done|by eapply import_advances_trans]. Qed.

Lemma empty_media_sound : sound empty_media.
Proof. split; [apply empty_media_ok|]. intros id row. cbn. by rewrite lookup_empty. Qed.

(** Operations that are not the executors' own. *)
Lemma committed_rows {E A} db (r : result E (ImportDb * A)) :
  (forall db' o, r = Ok (db', o) -> ib_jobs db' = ib_jobs db) -> rows_kept db (committed db r).
Proof. intros Hr. apply same_rows_kept. destruct r as [[db' o]|]; cbn; [by eapply Hr|done]. Qed.

Lemma foreign_rows db op : media_ok db -> leaves_snapshots op = true -> rows_kept db (media_apply db op).
Proof.
  intros [Hok Hp] Hl. destruct op; try discriminate Hl; cbn [media_apply].
  { destruct (create_import_job _ _ _) as [[db' o]|] eqn:E; [by eapply create_rows|by apply same_rows_kept]. }
  { destruct (create_import_job_and_session_pipeline_validated _ _ _ _ _ _ _ _) as [[db' [o t]]|] eqn:E; [by eapply admission_rows|by apply same_rows_kept]. }
  all: try (apply committed_rows; intros db' o).
  - unfold acknowledge_import_completion. rewrite rbind_ok. intros (u & _ & Hr). revert Hr.
    destruct (acknowledge_completion _ _ _) as [ob []]; [|by intros [= <- _]..].
    rewrite rbind_ok. by intros (db1 & [n ->]%bump_imports_ok & [= <- _]).
  - apply record_commit_rows.
  - unfold record_local_source_import. destruct (local_source_receipt_rows _ _ _ _). apply record_commit_rows.
  - unfold record_source_receipt. rewrite rbind_ok. intros (u & _ & Hr). revert Hr. rewrite rbind_ok. by intros ([rows x] & _ & [= <- _]).
  - destruct (reconcile_media_generations _ _ _) eqn:E; [|by apply same_rows_kept]. apply reconcile_generations in E as [m ->]. by apply same_rows_kept.
  - by intros [m ->]%observe_generations.
  - by intros [m ->]%absent_generations.
  - by intros (_ & _ & p & d & m & ->)%step_create_pipeline.
  - by intros (_ & _ & p' & d & m & ->)%step_create_pipeline.
  - by intros (_ & _ & p' & d & m & ->)%step_replace_pipeline.
Qed.

Lemma foreign_keeps db op : sound db -> leaves_snapshots op = true -> step_keeps db (media_apply db op).
Proof.
  intros [Hok Hr] Hl. destruct (media_apply_ok db op Hok) as [Hok' [Ha _]]. split; [|done]. split; [done|].
  eapply rows_kept_reduced; [done|by apply foreign_rows|done].
Qed.

(** ** The executors' writes *)

Section repository.
Context `{Display MediaStoreError}.

(** A write of an executor: nothing, or the row of the decided snapshot. *)
Record decided (db : ImportDb) (id : string) (spec : ImportSpec) (s : ImportSnapshot) (next : ImportSnapshot) (effects : list ImportEffect)
  : Prop := {
  dc_seen : seen db id spec s;
  dc_command : exists command, (decide_import (mkJob spec s) command).2 = mkDecision Import.Applied effects next;
}.

Lemma applied_move spec s command effects next : (decide_import (mkJob spec s) command).2 = mkDecision Import.Applied effects next ->
  exists s' rest, import_move spec s command s' rest /\ effects = PersistSnapshot :: rest /\ next = set_version s' (u64_sat_add (im_version s') 1).
Proof.
  unfold decide_import. cbn [ij_spec ij_snapshot]. destruct (reduce spec s command) as [[s' rest]|] eqn:Hm; [|done].
  apply reduce_moves in Hm. destruct (bool_decide (s' = s)); [done|]. cbn. intros [= <- <-]. by exists s', rest.
Qed.

Lemma applied_snapshot job command effects next :
  (decide_import job command).2 = mkDecision Import.Applied effects next -> ij_snapshot (decide_import job command).1 = next.
Proof. unfold decide_import. destruct (reduce _ _ _) as [[s' rest]|]; [|done]. destruct (bool_decide _); [done|]. by intros [= <- <-]. Qed.

Lemma decided_move db id spec s next effects : decided db id spec s next effects ->
  exists command s' rest, import_move spec s command s' rest /\ effects = PersistSnapshot :: rest /\
    next = set_version s' (u64_sat_add (im_version s') 1) /\
    exists commands, next = ij_snapshot (import_run (ImportJob_new spec) commands).
Proof.
  intros [[_ _ Hrun _] [command E]]. exists command. destruct (decided_run spec s command Hrun) as [commands Er].
  rewrite (applied_snapshot _ _ _ _ E) in Er. destruct (applied_move _ _ _ _ _ E) as (s' & rest & K1 & K2 & K3).
  exists s', rest. split_and!; [done..|by exists commands].
Qed.

Lemma decided_id db id spec s next effects : decided db id spec s next effects -> im_job_id next = id.
Proof.
  intros Hd. destruct (decided_move _ _ _ _ _ _ Hd) as (c & s' & rest & _ & _ & _ & commands & ->).
  destruct Hd as [[Hid _ _ _] _]. rewrite <- Hid. apply new_run_inv.
Qed.

(** The effects of a commit are for verified snapshots only. *)
Lemma published_verified spec s command s' rest v receipt :
  import_move spec s command s' rest -> published_receipt (PersistSnapshot :: rest) = Some receipt -> im_state (set_version s' v) = ImLocalVerified.
Proof. destruct 1; cbn; try done. by destruct r. Qed.

Lemma row_written_keeps db db' id spec s next effects :
  reduced db -> import_advances db db' -> decided db id spec s next effects -> row_written db db' (im_version s) next ->
  im_state next <> ImFailed -> im_state next <> ImCancelled -> reduced db'.
Proof.
  intros Hred Ha Hd [Es Hw] Hf Hc id' row'. rewrite Es. destruct Hw as [->|(row & now & Hr & Hv & ->)]; [apply Hred|].
  rewrite (decided_id _ _ _ _ _ _ Hd) in *. destruct (decide (id' = id)) as [->|Hne]; [|rewrite lookup_insert_ne by done; apply Hred].
  rewrite lookup_insert_eq. intros [= <-]. destruct (decided_move _ _ _ _ _ _ Hd) as (c & s' & rest & _ & _ & _ & Hrun).
  destruct Hd as [[_ (srow & Hs & E) _ _] _]. exists srow. split; [done|]. split; [by rewrite E|done].
Qed.

Lemma swap_keeps db id spec s next effects now :
  sound db -> decided db id spec s next effects ->
  step_keeps db (repository_swap db id (im_version s) next now).1.
Proof.
  intros Hsound Hd. assert (Hok := proj1 Hsound). unfold repository_swap.
  destruct (read_import_job db id) as [[current|]|]; [|by apply step_keeps_refl..].
  destruct (compare_and_swap_import_snapshot _ _ _ _ _) as [[db' o]|] eqn:E; [|by apply step_keeps_refl].
  assert (K : step_keeps db db').
  { pose proof (media_apply_ok db (OpSwap (im_version s) next (locator_update current next) now) Hok) as [Hok' [Ha _]].
    cbn [media_apply] in *. rewrite E in *. cbn in *. destruct (swap_written _ _ _ _ _ _ _ E) as [Hw Ht].
    split; [|done]. split; [done|]. eapply row_written_keeps; [apply Hsound|done..| |]; intros Ex; by rewrite Ex in Ht. }
  by destruct o.
Qed.

Lemma commit_keeps db id spec s next effects receipt now :
  sound db -> decided db id spec s next effects -> im_state next = ImLocalVerified ->
  step_keeps db (repository_commit db id (im_version s) next receipt now).1.
Proof.
  intros Hsound Hd Hv. assert (Hok := proj1 Hsound). unfold repository_commit.
  destruct (read_import_job db id) as [[current|]|]; [|by apply step_keeps_refl..].
  set (projection := mkProjection _ _). destruct (complete_import_job _ _ _ _ _ _) as [[db' o]|] eqn:E; [|by apply step_keeps_refl].
  pose proof (media_apply_ok db (OpComplete (im_version s) next (locator_update current next) (Some projection) now) Hok) as [Hok' [Ha _]].
  cbn [media_apply] in *. rewrite E in *. cbn in *. assert (Hw := complete_written _ _ _ _ _ _ _ _ E).
  split; [|done]. split; [done|]. eapply row_written_keeps; [apply Hsound|done..| |]; by rewrite Hv.
Qed.

Lemma persist_keeps db id spec s next effects now :
  sound db -> decided db id spec s next effects -> step_keeps db (persist db id (im_version s) next effects now).1.
Proof.
  intros Hsound Hd. unfold persist. destruct (published_receipt effects) as [receipt|] eqn:E; [|by eapply swap_keeps].
  eapply commit_keeps; [done..|]. destruct (decided_move _ _ _ _ _ _ Hd) as (c & s' & rest & Hm & -> & -> & _). by eapply published_verified.
Qed.

Lemma create_keeps db spec now : sound db -> step_keeps db (repository_create db spec now).1.
Proof.
  intros Hs. assert (K := foreign_keeps db (OpCreateImport spec now) Hs eq_refl). cbn in K. unfold repository_create.
  destruct (create_import_job db spec now) as [[db' []]|[]]; done.
Qed.

Lemma command_keeps db id command now : sound db -> step_keeps db (other_command db id command now).
Proof.
  intros Hs. unfold other_command. destruct (read_import_job db id) as [[stored|]|] eqn:Er; [|by apply step_keeps_refl..].
  destruct (from_snapshot _ _) as [job|] eqn:Ej; [|by apply step_keeps_refl]. apply from_snapshot_ok in Ej as ->.
  destruct ((decide_import _ command).2) as [o effects next] eqn:Ed. cbn [de_outcome de_snapshot de_effects].
  destruct o; try by apply step_keeps_refl. eapply persist_keeps; [done|]. split; [apply read_seen; [apply Hs|done]|by exists command].
Qed.
End repository.

(** ** What every computation of the executor keeps *)

Create HintDb kept.

Section kept.
Context `{Display MediaStoreError, IngestPorts}.

(** The states before and after are related, whatever the outcome. *)
Definition kept {E A} (R : relation IngestExecutor) (c : sm IngestExecutor E A) : Prop := forall e, R e (c e).1.

(** A relation that the world, stop flags and the other threads respect. *)
Class ExecRelation (R : relation IngestExecutor) : Prop := {
  er_order :: PreOrder R;
  er_world e w : R e (set_ig_world e w);
  er_stops e stops : R e (set_ig_stops e stops);
  er_moves e : R e (foldl other_move (set_ig_world e (other_threads (ig_world e)).1) (other_threads (ig_world e)).2);
}.
(** One that the executor's writes, or the disk, respect as well. *)
Class WriteRelation (R : relation IngestExecutor) : Prop := er_attempts n id command : kept R (apply_attempts n id command).
Class DiskRelation (R : relation IngestExecutor) : Prop := er_disk e disk : R e (set_ig_disk e disk).

Context (R : relation IngestExecutor) `{!ExecRelation R}.

Lemma kept_bind {E A B} (c : sm IngestExecutor E A) (k : A -> sm IngestExecutor E B) :
  kept R c -> (forall a, kept R (k a)) -> kept R (sbind c k).
Proof. intros Hc Hk e. unfold sbind. specialize (Hc e). destruct (c e) as [e' [a|]]; [|done]. cbn in Hc. etrans; [exact Hc|apply Hk]. Qed.
Lemma kept_read {E A} (f : IngestExecutor -> result E A) : kept R (fun e => (e, f e)).
Proof. intros e. reflexivity. Qed.
Lemma kept_ret {E A} (a : A) : kept R (sret (E := E) a).
Proof. apply kept_read. Qed.
Lemma kept_fail {E A} (x : E) : kept R (sfail (A := A) x).
Proof. apply kept_read. Qed.
Lemma kept_lift {E A} (c : result E A) : kept R (slift c).
Proof. apply kept_read. Qed.
Lemma kept_get {E} : kept R (sget (E := E)).
Proof. intros e. reflexivity. Qed.
Lemma kept_err {E F A} (f : E -> F) (c : sm IngestExecutor E A) : kept R c -> kept R (serr f c).
Proof. intros Hc e. specialize (Hc e). unfold serr. by destruct (c e) as [e' []]. Qed.
Lemma kept_ignore {E A} (c : sm IngestExecutor E A) : kept R c -> kept R (signore c).
Proof. intros Hc e. apply Hc. Qed.
#[local] Hint Resolve kept_read kept_ret kept_fail kept_lift kept_get kept_err kept_ignore : kept.
Lemma kept_foreach {E A} (c : A -> sm IngestExecutor E unit) l : (forall a, kept R (c a)) -> kept R (sforeach c l).
Proof. intros Hc. induction l; cbn; [apply kept_ret|apply kept_bind; auto]. Qed.
Lemma kept_try {A} (c : phase A) : kept R c -> kept R (try_phase c).
Proof. intros Hc e. specialize (Hc e). unfold try_phase. by destruct (c e). Qed.
Lemma kept_ask {E A} (call : IngestWorld -> IngestWorld * A) : kept R (ask (E := E) call).
Proof. intros e. unfold ask. destruct (call _). apply er_world. Qed.
Lemma kept_meanwhile {E} : kept R (meanwhile (E := E)).
Proof. intros e. assert (K := er_moves e). unfold meanwhile. by destruct (other_threads _). Qed.
Lemma kept_set_stop id b : kept R (set_stop id b).
Proof. intros e. apply er_stops. Qed.
#[local] Hint Resolve kept_ask kept_meanwhile kept_set_stop kept_bind : kept.
Lemma kept_should_stop {E} id : kept R (should_stop (E := E) id).
Proof. unfold should_stop. auto with kept. Qed.
Lemma kept_load id : kept R (load id).
Proof. unfold load. auto 6 with kept. Qed.
Lemma kept_port {A} (call : IngestWorld -> IngestWorld * result IngestPortError A) : kept R (port_call call).
Proof. unfold port_call. auto with kept. Qed.
Lemma kept_fence : kept R fence.
Proof. unfold fence. auto with kept. Qed.
#[local] Hint Resolve kept_port : kept.
Lemma kept_effects id effects : kept R (execute_post_persist_effects id effects).
Proof. apply kept_foreach. intros []; cbn; auto with kept. Qed.

Lemma kept_external `{!WriteRelation R} id command : kept R (apply_external id command).
Proof. apply er_attempts. Qed.
Lemma kept_internal `{!WriteRelation R} id command : kept R (apply_internal id command).
Proof. apply kept_bind; [apply kept_external|auto with kept]. Qed.
Lemma kept_failure `{!WriteRelation R} id code message retryable : kept R (apply_failure id code message retryable).
Proof. apply kept_bind; [auto with kept|intros f; apply kept_internal]. Qed.
Lemma kept_disk `{!DiskRelation R} {E A} (c : sm Disk E A) : kept R (on_disk c).
Proof. intros e. unfold on_disk. destruct (c _). apply er_disk. Qed.
End kept.
#[export] Hint Resolve kept_read kept_ret kept_fail kept_lift kept_get kept_err kept_ignore kept_foreach kept_try kept_ask kept_meanwhile
  kept_set_stop kept_should_stop kept_load kept_port kept_fence kept_effects kept_external kept_internal kept_failure kept_disk : kept.

(** Computations that only combine others: by cases on what they look at. *)
Ltac keep := repeat match goal with
  | |- kept _ (sbind _ _) => apply kept_bind; [apply _| |intros ?]
  | |- kept _ (match ?x with _ => _ end) => destruct x
  | |- kept _ (let x := _ in _) => cbv zeta
  | |- _ => solve [auto 3 with kept | eauto 3 with kept typeclass_instances]
  end.

(** *** The tables *)

Section tables.
Context `{Display MediaStoreError, IngestPorts}.

Definition tables_kept (e e' : IngestExecutor) : Prop := sound (ig_db e) -> step_keeps (ig_db e) (ig_db e').

#[export] Instance tables_order : PreOrder tables_kept.
Proof.
  split; [intros e Hs; by apply step_keeps_refl|]. intros a b c K1 K2 Hs. specialize (K1 Hs). eapply step_keeps_trans; [done|apply K2, K1].
Qed.

Lemma move_keeps e m : tables_kept e (other_move e m).
Proof.
  intros Hs. destruct m; cbn; [|by apply command_keeps|by apply step_keeps_refl].
  destruct (leaves_snapshots op) eqn:E; [by apply foreign_keeps|by apply step_keeps_refl].
Qed.

Lemma moves_keep moves : forall e, tables_kept e (foldl other_move e moves).
Proof. induction moves as [|m moves IH]; intros e; cbn; [reflexivity|]. etrans; [apply (move_keeps e m)|apply IH]. Qed.

#[export] Instance tables_relation : ExecRelation tables_kept.
Proof. split; [apply _|intros e w Hs; by apply step_keeps_refl..|]. intros e Hs. exact (moves_keep _ (set_ig_world e _) Hs). Qed.
#[export] Instance tables_disk : DiskRelation tables_kept.
Proof. intros e d Hs. by apply step_keeps_refl. Qed.

(** What a load saw. *)
Lemma load_read id e e' stored : load id e = (e', Ok stored) ->
  exists job, read_import_job (ig_db e') id = Ok (Some job) /\ stored = stored_import job.
Proof.
  unfold load. rewrite sbind_ok. intros (e1 & u & _ & Hr). revert Hr. rewrite sbind_ok.
  intros (e2 & found & Hf & Hr). injection Hf as -> Hf. revert Hr. rewrite slift_ok, ok_or_ok. intros [-> ->].
  apply rmap_err_ok in Hf. unfold repository_load in Hf.
  rewrite rmap_err_ok, rbind_ok in Hf. destruct Hf as (job & Hj & Hf). destruct job as [job|]; [|done]. injection Hf as <-. by exists job.
Qed.

Lemma load_seen id e e' stored : sound (ig_db e) -> load id e = (e', Ok stored) ->
  sound (ig_db e') /\ seen (ig_db e') id (st_spec stored) (st_snapshot stored).
Proof.
  intros Hs El. assert (K := kept_load tables_kept id e Hs). rewrite El in K. destruct K as [Hs' _]. split; [done|].
  apply load_read in El as (job & Hj & ->). apply read_seen; [apply Hs'|done].
Qed.

Lemma write_keeps id spec s next effects e :
  sound (ig_db e) -> decided (ig_db e) id spec s next effects ->
  step_keeps (ig_db e) (ig_db (store_write id (im_version s) next effects e).1).
Proof.
  intros Hs Hd. unfold store_write, sbind. assert (K := kept_meanwhile tables_kept (E := RecordingIngestorError) e Hs).
  destruct (meanwhile e) as [e1 [u|x]]; [|done]. cbn in K. unfold ask. destruct (ingest_now _) as [w now]. cbn.
  assert (Hd1 : decided (ig_db e1) id spec s next effects).
  { destruct Hd as [Hseen Hc]. split; [|done]. eapply seen_later; [apply K|done]. }
  assert (Hp := persist_keeps (ig_db e1) id spec s next effects now (proj1 K) Hd1).
  destruct (persist (ig_db e1) _ _ _ _ _) as [db r]. cbn in *. by eapply step_keeps_trans.
Qed.

#[export] Instance tables_writes : WriteRelation tables_kept.
Proof.
  intros n id command. change (kept tables_kept (apply_attempts n id command)). induction n as [|n IH]; cbn; [keep|]. intros e Hs. unfold sbind at 1.
  assert (K := kept_load tables_kept id e Hs). destruct (load id e) as [e1 [stored|x]] eqn:El; [|done].
  destruct (load_seen _ _ _ _ Hs El) as [Hs1 Hseen]. cbn in K. eapply step_keeps_trans; [exact K|]. clear K El.
  unfold sbind at 1, slift at 1. destruct (from_snapshot _ _) as [job|] eqn:Ej; [|by apply step_keeps_refl].
  cbn [rmap_err]. apply from_snapshot_ok in Ej as ->.
  destruct ((decide_import _ command).2) as [o effects next] eqn:Ed. cbn [de_outcome de_snapshot de_effects].
  destruct o; try by apply step_keeps_refl. unfold sbind at 1.
  assert (Hw := write_keeps id _ _ next effects e1 Hs1 (Build_decided _ _ _ _ _ _ Hseen (ex_intro _ command Ed))).
  destruct (store_write id _ next effects e1) as [e2 [r|x]]; [|done]. cbn in Hw. eapply step_keeps_trans; [exact Hw|].
  revert e2 Hw. cut (kept tables_kept (match r with
    | SwapApplied persisted =>
        if negb (bool_decide (persisted = next)) then sfail RiPersistenceConflict
        else do! if clears_stop command then set_stop id false else sret () then!
             do! execute_post_persist_effects id effects then! sret (mkAppliedCommand Import.Applied persisted)
    | SwapConflict _ => apply_attempts n id command
    | SwapMissing => sfail (RiJobNotFound id)
    end)); [intros Hk e2 Hw; apply Hk, Hw|]. keep.
Qed.
End tables.

Section copy.
Context `{Display MediaStoreError, IngestPorts, Sha256, JournalCodec, Display DownloadError, Display IoKind}.
Context (R : relation IngestExecutor) `{!ExecRelation R, !WriteRelation R, !DiskRelation R}.

Lemma kept_eng {A} (c : ingest A) : kept R c -> kept R (eng c).
Proof. intros Hc. unfold eng. keep. Qed.
Lemma kept_file_call what f : kept R (file_call what f).
Proof. keep. Qed.
Lemma kept_file_work {A} (c : sm Disk DownloadError A) : kept R (file_work c).
Proof. keep. Qed.
Lemma kept_node p : kept R (node_of p).
Proof. keep. Qed.
#[local] Hint Resolve kept_eng kept_file_call kept_file_work kept_node : kept.

Lemma kept_parents components : forall current, kept R (ensure_parents current components).
Proof. induction components as [|c rest IH]; intros current; cbn; [keep|]. keep; auto. Qed.
#[local] Hint Resolve kept_parents : kept.

Context (spec : ImportSpec) (staging : SessionStaging) (locator : MediaLocator) (file : ImportFileSpec).

Lemma kept_open_chunk offset : kept R (open_source_chunk spec locator file offset).
Proof. unfold open_source_chunk. keep. Qed.
#[local] Hint Resolve kept_open_chunk : kept.

Lemma kept_hash_chunk fuel : forall remaining offset limit hashed body, kept R (hash_chunk fuel remaining offset limit hashed body).
Proof. induction fuel; intros; cbn [hash_chunk]; keep; auto. Qed.
#[local] Hint Resolve kept_hash_chunk : kept.

Lemma kept_hash_prefix fuel : forall id offset limit hashed, kept R (hash_prefix spec locator file fuel id offset limit hashed).
Proof. induction fuel; intros; cbn [hash_prefix]; keep; auto. Qed.
#[local] Hint Resolve kept_hash_prefix : kept.

Lemma kept_checkpoint offset : kept R (persist_checkpoint spec file offset).
Proof. unfold persist_checkpoint. keep. Qed.
#[local] Hint Resolve kept_checkpoint : kept.

Lemma kept_checkpoint_at part journal offset : kept R (checkpoint_at spec file part journal offset).
Proof. unfold checkpoint_at. keep. Qed.
#[local] Hint Resolve kept_checkpoint_at : kept.

Lemma kept_copy_chunk part journal fuel : forall remaining offset since hashed body,
  kept R (copy_chunk spec file part journal fuel remaining offset since hashed body).
Proof. induction fuel; intros; cbn [copy_chunk]; keep; auto. Qed.
#[local] Hint Resolve kept_copy_chunk : kept.

Lemma kept_copy_chunks part journal fuel : forall offset since hashed,
  kept R (copy_chunks spec locator file part journal fuel offset since hashed).
Proof. induction fuel; intros; cbn [copy_chunks]; keep; auto. Qed.
#[local] Hint Resolve kept_copy_chunks : kept.

Lemma kept_transfer checkpoint target : kept R (transfer_file spec locator file checkpoint target).
Proof. unfold transfer_file, copy_source_to_partial, hash_source_prefix, reject_link, truncate_partial, sha256_file, fsync_parent. keep. Qed.
#[local] Hint Resolve kept_transfer : kept.

Lemma kept_copy_file checkpoint : kept R (copy_one_file spec staging locator file checkpoint).
Proof.
  unfold copy_one_file, adopt_target, confirm_target, hash_source_exact, hash_source_prefix, sha256_file, remove_invalid_staged_target. keep.
Qed.
End copy.
#[export] Hint Resolve kept_copy_file : kept.

Section run.
Context `{Display MediaStoreError, IngestPorts, Sha256, JournalCodec, MarkerCodec, Lowercase,
          Display DownloadError, Display IoKind, ImportRequestText}.

Section phases.
Context (R : relation IngestExecutor) `{!ExecRelation R, !WriteRelation R, !DiskRelation R}.

Lemma kept_begins stored in_phase : kept R (phase_begins stored in_phase).
Proof. unfold phase_begins. keep. Qed.
#[local] Hint Resolve kept_begins : kept.

Lemma kept_preflight stored : kept R (run_preflight stored).
Proof. unfold run_preflight. keep. Qed.

Lemma kept_copy_files id staging locator files : forall evidence, kept R (copy_files id staging locator files evidence).
Proof. induction files; intros; cbn [copy_files]; unfold copy_failed; keep; auto. Qed.
#[local] Hint Resolve kept_copy_files : kept.

Lemma kept_copy stored : kept R (run_copy stored).
Proof. unfold run_copy. keep. Qed.

Lemma kept_verify_files id evidence files : forall s, kept R (verify_files id evidence s files).
Proof. induction files; intros; cbn [verify_files]; keep; auto. Qed.
#[local] Hint Resolve kept_verify_files : kept.

Lemma kept_verification stored copied : kept R (run_verification stored copied).
Proof. unfold run_verification. keep. Qed.

Lemma kept_commit stored : kept R (run_commit stored).
Proof. unfold run_commit. keep. Qed.
#[local] Hint Resolve kept_preflight kept_copy kept_verification kept_commit : kept.

Lemma kept_step id evidence : kept R (run_step id evidence).
Proof. unfold run_step. keep. Qed.

Lemma kept_steps n id : forall evidence, kept R (run_steps n id evidence).
Proof. induction n; intros; cbn [run_steps]; [keep|]. apply kept_bind; [apply _|apply kept_step|]. intros []; keep. Qed.

Lemma kept_run id : kept R (run_to_quiescence id).
Proof. unfold run_to_quiescence. apply kept_bind; [apply _|keep|]. intros e. apply kept_steps. Qed.

Lemma kept_source id source : kept R (source_available id source).
Proof. unfold source_available, not_rejected. keep. Qed.
#[local] Hint Resolve kept_source : kept.

End phases.
#[local] Hint Resolve kept_source : kept.

Lemma kept_create spec now : kept tables_kept (fun e => let '(db, r) := repository_create (ig_db e) spec now in (set_ig_db e db, rmap_err RiPort r)).
Proof. intros e Hs. assert (K := create_keeps (ig_db e) spec now Hs). by destruct (repository_create _ _ _). Qed.
#[local] Hint Resolve kept_create : kept.

Lemma kept_start candidate policy at_root : kept tables_kept (start_import candidate policy at_root).
Proof. unfold start_import. keep. Qed.

Lemma kept_command id command : kept tables_kept (command_import id command).
Proof. unfold command_import, not_rejected. keep. Qed.

(** *** Calls from outside *)

Inductive IngestCall :=
| CallStart (candidate : CandidateId) (policy : ImportPolicy) (at_root : bool)
| CallCommand (id : string) (command : ImportControlCommand)
| CallRun (id : string)
| CallSource (id : string) (source : SourceRecording)
| CallSnapshots.

Definition ingest_call (e : IngestExecutor) (c : IngestCall) : IngestExecutor :=
  match c with
  | CallStart candidate policy at_root => (start_import candidate policy at_root e).1
  | CallCommand id command => (command_import id command e).1
  | CallRun id => (run_to_quiescence id e).1
  | CallSource id source => (source_available id source e).1
  | CallSnapshots => (import_snapshots e).1
  end.

Definition ingest_calls (e : IngestExecutor) (calls : list IngestCall) : IngestExecutor := foldl ingest_call e calls.

(** An executor over empty tables. *)
Definition new_executor (config : RecordingIngestConfig) (disk : Disk) (world : IngestWorld) : IngestExecutor :=
  mkIngestExecutor config empty_media disk ∅ world.

Lemma call_keeps e c : tables_kept e (ingest_call e c).
Proof.
  destruct c; cbn; [apply kept_start|apply kept_command|exact (kept_run tables_kept _ e)|exact (kept_source tables_kept _ _ e)|].
  assert (K : kept tables_kept import_snapshots) by (unfold import_snapshots; keep). apply K.
Qed.

Lemma calls_keep calls : forall e, tables_kept e (ingest_calls e calls).
Proof.
  induction calls as [|c calls IH]; intros e; cbn; [reflexivity|]. etrans; [apply (call_keeps e c)|apply IH].
Qed.
End run.
