(* ===== verification/IngestProofs.v ===== *)
(** * IngestProofs: imports that are stored, copied and committed (recording_ingestor/)

Every stored snapshot is a run of the reducer, and a verified one is a complete import with its completion and
its receipts.  A copied file is on the disk with the digest that is reported,
and a commit reports its receipt only when the library shows the whole tree.  The
last part runs a whole import, with a pause and with failures. *)

From Stdlib Require Import NArith Lia Ascii String.
From stdpp Require Import base numbers list strings gmap.
From S2P Require Import Prelude Domain Identity Files Journal Artifact Fault Disk Staging Publish Seal Json Ingest Trust Import ImportProofs ImportTrust CoordinatorRuns.
From S2P Require Import MediaStore ImportStore PipelineStore ImportStoreProofs PipelineStoreProofs Ingestor IngestCopy IngestRun IngestTables.

Local Open Scope string_scope.

Section stored.
Context `{Display MediaStoreError, IngestPorts, Sha256, JournalCodec, MarkerCodec, Lowercase,
          Display DownloadError, Display IoKind, ImportRequestText}.

(** C16: whatever is called on the executor, whatever its ports answer and whatever other threads do
    meanwhile, every stored snapshot is what some commands make of a new job of the row's spec. It is never a failed or cancelled one:
    the store refuses those, so that such a decision of the reducer is not recorded. *)
Theorem stored_imports_are_runs config disk world calls id row :
  let db := ig_db (ingest_calls (new_executor config disk world) calls) in
  ib_jobs db !! id = Some row ->
  exists srow commands, ib_specs db !! id = Some srow /\
    jw_snapshot row = ij_snapshot (import_run (ImportJob_new (js_spec srow)) commands) /\
    im_state (jw_snapshot row) <> ImFailed /\ im_state (jw_snapshot row) <> ImCancelled.
Proof.
  intros db Hr. destruct (calls_keep calls (new_executor config disk world) empty_media_sound) as [[_ Hred] _].
  destruct (Hred id row Hr) as (srow & Hs & [commands E] & Hf & Hc). by exists srow, commands.
Qed.

(** C17: a row that says its import is verified is a whole import: every file of the spec has its
    size and one digest at both ends, which is the claimed one when there is a claim; the receipt
    is for that source and inventory; the completion is recorded with that snapshot; the receipts written for it are there, and no
    other receipt of the job or of the source revision is.  Later calls change none of this. *)
Theorem stored_import_success_is_whole config disk world calls id row more :
  let e := ingest_calls (new_executor config disk world) calls in
  let later := ig_db (ingest_calls e more) in
  ib_jobs (ig_db e) !! id = Some row -> im_state (jw_snapshot row) = ImLocalVerified ->
  (exists srow, ib_specs later !! id = Some srow /\ imported (js_spec srow) (jw_snapshot row)) /\
  (exists env, ob_rows (ib_outbox later) !! id = Some env /\ ce_outcome env = jw_snapshot row) /\
  forall local, im_local_receipt (jw_snapshot row) = Some local -> fenced later id local.
Proof.
  intros e later Hr Hv. destruct (calls_keep calls (new_executor config disk world) empty_media_sound) as [Hsound _]. fold e in Hsound.
  destruct (calls_keep more e Hsound) as [[[Hok' _] _] Ha]. fold later in Hok', Ha. destruct Hsound as [[Hok _] Hred].
  destruct (Hred id row Hr) as (srow & Hs & [commands E] & _). destruct (io_recorded _ Hok id row Hr) as (env & He & Eo); [by rewrite Hv|].
  destruct (ia_outbox _ _ Ha _ _ He) as (env' & He' & Eo' & _). split_and!.
  - exists srow. split; [rewrite (ia_specs _ _ Ha); [done|by eexists]|]. apply local_verified_imported; [|done]. rewrite E. apply new_run_inv.
  - exists env'. split; [done|congruence].
  - intros local Hl. apply receipted_fenced; [done|]. destruct (io_outbox _ Hok' id env' He') as (_ & _ & _ & Hrec). apply Hrec. congruence.
Qed.
End stored.

(** ** A copied file is on the disk *)

Section disk.
Context `{Display MediaStoreError, IngestPorts}.

Definition same_disk (e e' : IngestExecutor) : Prop := ig_disk e' = ig_disk e.

#[export] Instance same_disk_order : PreOrder same_disk.
Proof. split; [by intros e|]. unfold same_disk. intros a b c K1 K2. congruence. Qed.

Lemma moves_same_disk moves : forall e, same_disk e (foldl other_move e moves).
Proof.
  induction moves as [|m moves IH]; intros e; cbn; [reflexivity|]. etrans; [|apply IH].
  destruct m; cbn; [by destruct (leaves_snapshots op)|done|done].
Qed.

#[export] Instance same_disk_relation : ExecRelation same_disk.
Proof. split; [apply _|done..|]. intros e. exact (moves_same_disk _ (set_ig_world e _)). Qed.

#[export] Instance same_disk_writes : WriteRelation same_disk.
Proof.
  assert (Hw : forall id v next effects, kept same_disk (store_write id v next effects)).
  { intros id v next effects. unfold store_write. keep. intros e. by destruct (persist _ _ _ _ _ _). }
  intros n id command. change (kept same_disk (apply_attempts n id command)). induction n as [|n IH]; cbn; keep; auto.
Qed.

Lemma kept_disk_ok {E A} (c : sm IngestExecutor E A) e e' r : kept same_disk c -> c e = (e', r) -> ig_disk e' = ig_disk e.
Proof. intros Hc E1. specialize (Hc e). by rewrite E1 in Hc. Qed.
End disk.

Lemma hex_stays_lower bs : to_ascii_lowercase (to_hex bs) = to_hex bs.
Proof.
  assert (Hl := to_hex_lower bs). induction (to_hex bs) as [|c s IH]; [done|]. cbn in *. apply andb_true_iff in Hl as [Hc Hs].
  unfold to_ascii_lowercase in *. cbn. by rewrite (IH Hs), lower_hex_stays.
Qed.

(** A path of files, and its companions. *)
Lemma companions q c : part_path (q ++ [c]) = (q ++ [(c ++ ".part")%string])%list /\
  journal_path (q ++ [c]) = (q ++ [((c ++ ".part") ++ ".journal")%string])%list.
Proof. unfold journal_path, part_path. by rewrite !push_suffix_snoc. Qed.

Lemma path_last (p : Path) : p <> [] -> exists q c, p = (q ++ [c])%list.
Proof. destruct p as [|c q _] using rev_ind; [done|]. eauto. Qed.

Lemma journal_elsewhere p : p <> [] -> journal_path p <> p.
Proof.
  destruct p as [|c q _] using rev_ind; [done|]. intros _. rewrite (proj2 (companions q c)).
  intros E%app_inj_tail. destruct E as [_ E]. apply (f_equal str_len) in E. rewrite !str_len_app in E. change (str_len ".journal") with 8%N in E. lia.
Qed.

(** What a reader of the disk finds. *)
Definition holds_digest `{Sha256} (fs : FS) (p : Path) (digest : string) : Prop :=
  exists bs, read_file fs p = Ok bs /\ to_hex (sha256 bs) = to_ascii_lowercase digest.

Section evidence.
Context `{Display MediaStoreError, IngestPorts, Sha256, JournalCodec, Display DownloadError, Display IoKind}.

Lemma file_call_ok what f e e' u : file_call what f e = (e', Ok u) -> f (dk_fs (ig_disk e)) = Ok (dk_fs (ig_disk e')).
Proof.
  unfold file_call. rewrite serr_ok. unfold on_disk, act. destruct (head _) as [[k|]|]; [done|..];
    destruct (f (dk_fs (ig_disk e))) as [fs'|k]; intros [= <- _]; try done.
Qed.

Lemma file_call_fails what f e e' x : file_call what f e = (e', Err x) -> dk_fs (ig_disk e') = dk_fs (ig_disk e).
Proof.
  unfold file_call, serr, on_disk, act. destruct (head _) as [[k|]|]; [by intros [= <- _]|..];
    destruct (f (dk_fs (ig_disk e))) as [fs'|k]; intros [= <- _]; done.
Qed.

Lemma sha256_file_ok p e e' digest : sha256_file p e = (e', Ok digest) ->
  ig_disk e' = ig_disk e /\ holds_digest (dk_fs (ig_disk e')) p digest.
Proof.
  unfold sha256_file. rewrite serr_ok. unfold on_disk, look, sha256_of_file. intros [= <- Hd]. split; [by destruct e|]. cbn.
  apply rbind_ok in Hd as (bs & Hr & [= <-]). exists bs. split; [done|]. by rewrite hex_stays_lower.
Qed.

Lemma renamed_digest from to fs fs' digest : to <> [] -> from <> [] ->
  rename_node from to fs = Ok fs' -> holds_digest fs from digest -> holds_digest fs' to digest.
Proof.
  intros Ht Hf Hr (bs & Hread & Hd). exists bs. split; [|done]. unfold rename_node in Hr.
  destruct (node_at fs from) as [n|] eqn:En; [|done]. destruct (_ || _); [done|].
  destruct (node_at fs (path_parent to)) as [[| |]|]; try done.
  assert (E : fs' = move_tree from to fs).
  { destruct n, (node_at fs to) as [[| |]|]; try done; try (by injection Hr as <-). destruct (has_children fs to); [done|by injection Hr as <-]. }
  unfold read_file in *. rewrite node_at_nonempty in * by done. rewrite E, lookup_move.
  assert (Es : path_strip to to = Some []) by (rewrite <- (app_nil_r to) at 2; apply path_strip_app). by rewrite Es, app_nil_r.
Qed.

Lemma removed_digest p q fs fs' digest : p <> q -> q <> [] -> remove_file fs p = Ok fs' -> holds_digest fs q digest -> holds_digest fs' q digest.
Proof.
  intros Hne Hq Hr (bs & Hread & Hd). exists bs. split; [|done]. revert Hr. unfold remove_file.
  assert (E : read_file (delete p fs) q = Ok bs) by (unfold read_file in *; rewrite node_at_nonempty in * by done; by rewrite lookup_delete_ne).
  destruct (node_at fs p) as [[| |]|]; try done; by intros [= <-].
Qed.

(** What a transfer or a check reports. *)
Record evidence_holds (file : ImportFileSpec) (fs : FS) (target : Path) (ev : FileCopyEvidence) : Prop := {
  eh_file : fe_file_id ev = if_file_id file;
  eh_both : fe_source_sha256 ev = fe_target_sha256 ev;
  eh_claimed : forall expected, if_expected_source_sha256 file = Some expected -> fe_target_sha256 ev = expected;
  eh_disk : holds_digest fs target (fe_target_sha256 ev);
}.

Lemma verified_digests file a b u : verify_digests file a b = Ok u ->
  a = b /\ forall expected, if_expected_source_sha256 file = Some expected -> b = expected.
Proof.
  unfold verify_digests. intros [Hg _]%guard_ok. apply orb_false_iff in Hg as [Hab He]. apply negb_false_iff, String.eqb_eq in Hab as ->.
  split; [done|]. intros expected Hx. rewrite Hx in He. by apply negb_false_iff, String.eqb_eq in He.
Qed.
Context (spec : ImportSpec) (staging : SessionStaging) (locator : MediaLocator) (file : ImportFileSpec).

(** The next step of a computation that succeeded. *)
Ltac step e a E := rewrite sbind_ok; intros (e & a & E & Hr); revert Hr.

Lemma part_read part journal offset e e' source target :
  copy_source_to_partial spec locator file part journal offset e = (e', Ok (source, target)) ->
  holds_digest (dk_fs (ig_disk e')) part target.
Proof.
  unfold copy_source_to_partial. step e1 u1 E1. step e2 u2 E2. step e3 u3 E3. step e4 u4 E4. step e5 x E5. destruct x as [o bytes].
  step e6 u6 E6. step e7 d E7. rewrite sret_ok. intros [-> [= _ <-]]. by apply sha256_file_ok in E7 as [_ Hd].
Qed.

Lemma transfer_holds checkpoint target e e' ev : target <> [] ->
  transfer_file spec locator file checkpoint target e = (e', Ok ev) -> evidence_holds file (dk_fs (ig_disk e')) target ev.
Proof.
  intros Ht. unfold transfer_file. step e1 u1 E1. step e2 u2 E2. step e3 u3 E3. step e4 u4 E4. step e5 u5 E5.
  step e6 digests Hcopy. destruct digests as [source digest]. apply part_read in Hcopy.
  rewrite lift_bind_ok. intros (u7 & Hv & Hr). revert Hr. step e8 stop Hstop. destruct stop; [by rewrite sfail_ok|].
  step e9 u9 Hf. step e10 u10 Hren. step e11 u11 Hsync. step e12 u12 Hrm. rewrite sret_ok. intros [-> <-].
  apply verified_digests in Hv as [-> Hexp]. split; [done|done|done|]. cbn.
  assert (D : ig_disk e9 = ig_disk e6).
  { etrans; [eapply (kept_disk_ok (eng fence)); [|exact Hf]; unfold eng; keep|]. eapply kept_disk_ok; [|exact Hstop]. keep. }
  rewrite <- D in Hcopy. apply file_call_ok in Hren, Hsync.
  assert (Hnil : part_path target <> []) by (destruct (path_last target Ht) as (q & c & ->); rewrite (proj1 (companions q c)); by destruct q).
  apply (fun E => renamed_digest _ _ _ _ digest Ht Hnil E Hcopy) in Hren. clear Hcopy.
  assert (Hs : holds_digest (dk_fs (ig_disk e11)) target digest).
  { revert Hsync. destruct (node_at _ _); [|done]. by intros [= <-]. }
  unfold signore in Hrm. destruct (file_call "" _ e11) as [e13 [v|x]] eqn:Hc; injection Hrm as <-; cbn.
  - apply file_call_ok in Hc. eapply removed_digest; [by apply journal_elsewhere|done|exact Hc|done].
  - apply file_call_fails in Hc. by rewrite Hc.
Qed.
Definition parents_step (current : Path) (c : string) (rest : list string) : phase unit :=
  let! here := node_of (current ++ [c])%list in
  match here with
  | Some NDir => ensure_parents (current ++ [c])%list rest
  | Some _ => sfail (PhFailure FailUnsafePath "staging parent contains a link or non-directory entry" false)
  | None => do! file_call "create staging directory: " (fun fs => create_dir fs (current ++ [c])%list) then! ensure_parents (current ++ [c])%list rest
  end.

Lemma parents_keep components : forall current e e' u p n, p <> [] ->
  ensure_parents current components e = (e', Ok u) -> dk_fs (ig_disk e) !! p = Some n -> dk_fs (ig_disk e') !! p = Some n.
Proof.
  induction components as [|c rest IH]; intros current e e' u p n Hp; [by intros [= <- _]|].
  destruct rest as [|c' rest]; [by intros [= <- _]|]. 
  change (ensure_parents current (c :: c' :: rest)) with (parents_step current c (c' :: rest)). unfold parents_step. step e1 here E1. injection E1 as <- <-. destruct (node_at (dk_fs (ig_disk e)) (current ++ [c])) as [[| |]|] eqn:En; try by rewrite sfail_ok.
  - intros Hr Hn. exact (IH _ _ _ _ p n Hp Hr Hn).
  - step e2 u2 E2. intros Hr Hn. apply (IH _ _ _ _ p n Hp Hr). apply file_call_ok in E2. cbn in E2.
    unfold create_dir in E2. rewrite En in E2. injection E2 as <-. destruct (decide (p = (current ++ [c])%list)) as [->|Hne].
    + rewrite node_at_nonempty in En by done. congruence.
    + by rewrite lookup_insert_ne.
Qed.

Lemma checkpoint_disk offset e e' u : persist_checkpoint spec file offset e = (e', Ok u) -> ig_disk e' = ig_disk e.
Proof. intros E. eapply kept_disk_ok; [|exact E]. apply kept_checkpoint; apply _. Qed.

Lemma adopted_holds checkpoint digest target e e' ev :
  ck_target_sha256 checkpoint = None -> ea_expected_sha256_hex (expected_artifact file checkpoint) = Some digest ->
  holds_digest (dk_fs (ig_disk e)) target digest ->
  adopt_target spec file checkpoint digest e = (e', Ok ev) -> evidence_holds file (dk_fs (ig_disk e')) target ev.
Proof.
  intros Hck He Hd. unfold adopt_target. step e1 u1 E1. apply checkpoint_disk in E1. rewrite sret_ok. intros [-> <-].
  unfold expected_artifact in He. rewrite Hck in He. destruct (if_expected_source_sha256 file) as [x|] eqn:Ex; [|done].
  injection He as <-. split; cbn; [done|done|congruence|by rewrite E1].
Qed.

Lemma confirmed_holds target e e' ev :
  confirm_target spec locator file target e = (e', Ok ev) -> evidence_holds file (dk_fs (ig_disk e')) target ev.
Proof.
  unfold confirm_target. step e1 source E1. step e2 u2 E2. step e3 digest E3. rewrite lift_bind_ok. intros (u4 & Hv & Hr). revert Hr.
  step e5 u5 E5. rewrite sret_ok. intros [-> <-]. apply sha256_file_ok in E3 as [_ Hd]. apply checkpoint_disk in E5.
  apply verified_digests in Hv as [-> Hexp]. split; [done|done|done|]. cbn. by rewrite E5.
Qed.

(** C18: when the copy of an unverified file answers with evidence, a reader of the file's place in the staging tree finds bytes of
    the reported digest; the digests of source and target are the same, and the claimed one when
    there is a claim. This holds for a new copy, for a resumed one and for a file found from an earlier attempt. *)
Theorem copied_file_is_on_disk checkpoint e e' ev :
  ck_target_sha256 checkpoint = None ->
  copy_one_file spec staging locator file checkpoint e = (e', Ok ev) ->
  exists relative,
    derive_target_path_for_file (ss_device_id staging) (ss_session_id staging) (if_file_id file) (Some (path_text (if_relative_path file)))
      = Ok relative /\
    evidence_holds file (dk_fs (ig_disk e')) (file_root staging ++ relative)%list ev.
Proof.
  intros Hck. unfold copy_one_file. set (expected := expected_artifact file checkpoint).
  assert (Hid : ea_file_id expected = if_file_id file /\ ea_target_relative_path expected = Some (path_text (if_relative_path file))).
  { unfold expected, expected_artifact. destruct (match ck_target_sha256 checkpoint with Some _ => _ | None => _ end); done. }
  step e1 u1 E1. step e2 existing E2. rewrite lift_bind_ok. intros (relative & Hrel%ok_or_ok & Hr). revert Hr. step e3 u3 E3.
  injection E2 as <- Ex. cbn [set_ig_disk] in *.
  assert (Hder : derive_target_path_for_file (ss_device_id staging) (ss_session_id staging) (if_file_id file)
                   (Some (path_text (if_relative_path file))) = Ok relative).
  { destruct Hid as [<- <-]. rewrite <- Ex in Hrel. unfold inspect in Hrel. destruct (derive_target_path_for_file _ _ _ _); [|done]. by injection Hrel as ->. }
  intros Hcase. exists relative. split; [done|]. set (target := (file_root staging ++ relative)%list) in *.
  assert (Ht : target <> []) by done. rewrite <- Ex in Hcase.
  destruct (ae_status (inspect _ _ _ expected)) eqn:Est.
  - by eapply transfer_holds.
  - by eapply transfer_holds.
  - destruct (ea_expected_sha256_hex expected) as [digest|] eqn:Edig.
    + eapply adopted_holds; [done|exact Edig| |exact Hcase].
      pose proof (proj1 (proj1 (inspect_spec _ _ _ expected digest Edig)) Est) as (x & bs & Hx & Hbs & _ & Hsha).
      destruct Hid as [Hi1 Hi2]. rewrite Hi1, Hi2, Hder in Hx. injection Hx as <-. unfold view in Hbs. rewrite lookup_subtree in Hbs.
      exists bs. split; [|done]. unfold read_file. rewrite node_at_nonempty by done.
      by rewrite (parents_keep _ _ _ _ _ _ _ Ht E3 Hbs).
    + destruct (_ =? 0)%N; [|by eapply confirmed_holds]. revert Hcase. step e4 u4 E4. by apply transfer_holds.
  - revert Hcase. step e4 u4 E4. by apply transfer_holds.
Qed.
End evidence.

(** ** The copy loops end *)

(** Computations that agree after every outcome of the first step agree. *)
Lemma bind_same {S E A B} (c : sm S E A) (k k' : A -> sm S E B) s :
  (forall s' a, c s = (s', Ok a) -> k a s' = k' a s') -> sbind c k s = sbind c k' s.
Proof. unfold sbind. destruct (c s) as [s' [a|x]]; [|done]. intros Hk. by apply Hk. Qed.

Section loops.
Context `{Display MediaStoreError, IngestPorts, Sha256, JournalCodec, Display DownloadError, Display IoKind}.
Context (spec : ImportSpec) (locator : MediaLocator) (file : ImportFileSpec) (part journal : Path).

Lemma copy_chunk_fuel k fuel : forall remaining offset since hashed body e, N.to_nat remaining <= fuel ->
  copy_chunk spec file part journal (fuel + k) remaining offset since hashed body e
  = copy_chunk spec file part journal fuel remaining offset since hashed body e.
Proof.
  induction fuel as [|fuel IH]; intros remaining offset since hashed body e Hf; cbn [Nat.add copy_chunk].
  { assert (remaining = 0%N) as -> by lia. by destruct k. }
  destruct (N.eqb_spec remaining 0) as [|Hr]; [done|].
  apply bind_same. intros e1 u1 _. apply bind_same. intros e2 stop _. destruct stop; [done|].
  destruct (read_body _ body) as [read rest]. apply bind_same. intros e3 bytes _. case_bool_decide as Hb; [done|].
  assert (Hlen : (0 < blen bytes)%N) by (destruct bytes; [done|]; unfold blen; cbn; lia).
  apply bind_same. intros e4 u4 _. cbv zeta. apply bind_same. intros e5 ex _.
  destruct (_ <=? _)%N; [apply bind_same; intros e6 u6 _|]; apply IH; lia.
Qed.

(** A chunk that ends well has moved on. *)
Lemma copy_chunk_moves fuel : forall remaining offset since hashed body e e' o s h, (offset <= u64_max)%N ->
  copy_chunk spec file part journal fuel remaining offset since hashed body e = (e', Ok (o, s, h)) ->
  (offset <= o <= u64_max)%N /\ (0 < fuel -> remaining <> 0%N -> (offset < u64_max)%N -> (offset < o)%N).
Proof.
  induction fuel as [|fuel IH]; intros remaining offset since hashed body e e' o s h Ho; cbn [copy_chunk].
  { rewrite sret_ok. intros [_ [= <- <- <-]]. split; [lia|]. lia. }
  destruct (N.eqb_spec remaining 0) as [Hr|Hr]; [rewrite sret_ok; intros [_ [= <- <- <-]]; split; [lia|done]|].
  rewrite sbind_ok. intros (e1 & u1 & _ & Hs). revert Hs. rewrite sbind_ok. intros (e2 & stop & _ & Hs). revert Hs.
  destruct stop; [by rewrite sfail_ok|]. destruct (read_body _ body) as [read rest]. rewrite sbind_ok. intros (e3 & bytes & _ & Hs). revert Hs.
  case_bool_decide as Hb; [by rewrite sfail_ok|].
  assert (Hlen : (0 < blen bytes)%N) by (destruct bytes; [done|]; unfold blen; cbn; lia).
  rewrite sbind_ok. intros (e4 & u4 & _ & Hs). revert Hs. cbv zeta. rewrite sbind_ok. intros (e5 & ex & _ & Hs). revert Hs.
  assert (Hadd : (offset <= u64_sat_add offset (blen bytes) <= u64_max /\ (offset < u64_max -> offset < u64_sat_add offset (blen bytes)))%N)
    by (unfold u64_sat_add; lia).
  destruct (_ <=? _)%N; [rewrite sbind_ok; intros (e6 & u6 & _ & Hs); revert Hs|]; (intros Hs; apply IH in Hs as [Hs _]; [split; lia|lia]).
Qed.

Lemma chunk_has_bytes c : chunk_length c <> 0%N.
Proof. assert (0 < u64_max)%N by done. unfold chunk_length, u64_sat_add. lia. Qed.

(** What one turn of the loop leaves of the file. *)
Lemma copy_chunk_progress c offset since hashed e e' o s h : (offset < u64_max)%N ->
  copy_chunk spec file part journal (N.to_nat (chunk_length c)) (chunk_length c) offset since hashed (sc_body c) e = (e', Ok (o, s, h)) ->
  (offset < o <= u64_max)%N.
Proof.
  intros Ho Hc. assert (Hn := chunk_has_bytes c). apply copy_chunk_moves in Hc as [Hle Hlt]; [|lia].
  split; [apply Hlt; [lia|done|done]|lia].
Qed.

Lemma copy_chunks_fuel k : (if_expected_size file <= u64_max)%N -> forall fuel offset since hashed e,
  N.to_nat (if_expected_size file - offset) <= fuel ->
  copy_chunks spec locator file part journal (fuel + k) offset since hashed e
  = copy_chunks spec locator file part journal fuel offset since hashed e.
Proof.
  intros Hsize fuel. induction fuel as [|fuel IH]; intros offset since hashed e Hf; cbn [Nat.add copy_chunks].
  { destruct k; [done|]. cbn. by replace (if_expected_size file <=? offset)%N with true by (symmetry; apply N.leb_le; lia). }
  destruct (N.leb_spec (if_expected_size file) offset) as [|Ho]; [done|].
  apply bind_same. intros e1 u1 _. apply bind_same. intros e2 stop _. destruct stop; [done|].
  apply bind_same. intros e3 c _. destruct (_ && _); [done|]. apply bind_same. intros e4 [[o s] h] Hc.
  apply copy_chunk_progress in Hc; [|lia]. apply IH. lia.
Qed.

Lemma copy_chunks_all : (if_expected_size file <= u64_max)%N -> forall fuel offset since hashed e e' o h,
  N.to_nat (if_expected_size file - offset) <= fuel ->
  copy_chunks spec locator file part journal fuel offset since hashed e = (e', Ok (o, h)) -> (if_expected_size file <= o)%N.
Proof.
  intros Hsize fuel. induction fuel as [|fuel IH]; intros offset since hashed e e' o h Hf; cbn [copy_chunks].
  { rewrite sret_ok. intros [_ [= <- <-]]. lia. }
  destruct (N.leb_spec (if_expected_size file) offset) as [|Ho]; [rewrite sret_ok; by intros [_ [= <- <-]]|].
  rewrite sbind_ok. intros (e1 & u1 & _ & Hs). revert Hs. rewrite sbind_ok. intros (e2 & stop & _ & Hs). revert Hs.
  destruct stop; [by rewrite sfail_ok|]. rewrite sbind_ok. intros (e3 & c & _ & Hs). revert Hs.
  destruct (_ && _); [by rewrite sfail_ok|]. rewrite sbind_ok. intros (e4 & [[o1 s1] h1] & Hc & Hs). revert Hs.
  apply copy_chunk_progress in Hc; [|lia]. apply IH. lia.
Qed.

(** The same for the loop that hashes what the source has. *)
Lemma hash_chunk_fuel k fuel : forall remaining offset limit hashed body (e : IngestExecutor), N.to_nat remaining <= fuel ->
  hash_chunk (fuel + k) remaining offset limit hashed body e = hash_chunk fuel remaining offset limit hashed body e.
Proof.
  induction fuel as [|fuel IH]; intros remaining offset limit hashed body e Hf; cbn [Nat.add hash_chunk].
  { assert (remaining = 0%N) as -> by lia. by destruct k. }
  destruct (_ || _) eqn:Eg; [done|]. apply orb_false_iff in Eg as [Hr%N.eqb_neq _].
  apply bind_same. intros e1 u1 _. destruct (read_body _ body) as [read rest]. apply bind_same. intros e2 bytes _. case_bool_decide as Hb; [done|].
  assert (Hlen : (0 < blen bytes)%N) by (destruct bytes; [done|]; unfold blen; cbn; lia). apply IH. lia.
Qed.

Lemma hash_chunk_moves fuel : forall remaining offset limit hashed body (e e' : IngestExecutor) o h, (offset <= u64_max)%N ->
  hash_chunk fuel remaining offset limit hashed body e = (e', Ok (o, h)) ->
  (offset <= o <= u64_max)%N /\ (0 < fuel -> remaining <> 0%N -> (offset < limit)%N -> (limit <= u64_max)%N -> (offset < o)%N).
Proof.
  induction fuel as [|fuel IH]; intros remaining offset limit hashed body e e' o h Ho; cbn [hash_chunk].
  { rewrite sret_ok. intros [_ [= <- <-]]. split; [lia|]. lia. }
  destruct (_ || _) eqn:Eg.
  { rewrite sret_ok. intros [_ [= <- <-]]. split; [lia|]. intros _ Hr Hl. apply orb_true_iff in Eg as [?%N.eqb_eq|?%N.leb_le]; lia. }
  rewrite sbind_ok. intros (e1 & u1 & _ & Hs). revert Hs. destruct (read_body _ body) as [read rest].
  rewrite sbind_ok. intros (e2 & bytes & _ & Hs). revert Hs. case_bool_decide as Hb; [by rewrite sfail_ok|].
  assert (Hlen : (0 < blen bytes)%N) by (destruct bytes; [done|]; unfold blen; cbn; lia).
  assert (Hadd : (offset <= u64_sat_add offset (blen bytes) <= u64_max /\ (offset < u64_max -> offset < u64_sat_add offset (blen bytes)))%N)
    by (unfold u64_sat_add; lia).
  intros Hs. apply IH in Hs as [Hs _]; [split; lia|lia].
Qed.

Lemma hash_prefix_fuel id limit k : (limit <= u64_max)%N -> forall fuel offset hashed e, N.to_nat (limit - offset) <= fuel ->
  hash_prefix spec locator file (fuel + k) id offset limit hashed e = hash_prefix spec locator file fuel id offset limit hashed e.
Proof.
  intros Hl fuel. induction fuel as [|fuel IH]; intros offset hashed e Hf; cbn [Nat.add hash_prefix].
  { destruct k; [done|]. cbn. by replace (limit <=? offset)%N with true by (symmetry; apply N.leb_le; lia). }
  destruct (N.leb_spec limit offset) as [|Ho]; [done|].
  apply bind_same. intros e1 u1 _. apply bind_same. intros e2 stop _. destruct stop; [done|].
  apply bind_same. intros e3 c _. destruct (negb _); [done|]. apply bind_same. intros e4 [o h] Hc.
  assert (Hn := chunk_has_bytes c). apply hash_chunk_moves in Hc as [Hle Hlt]; [|lia]. apply IH.
  assert (offset < o)%N by (apply Hlt; [lia|done|done|done]). lia.
Qed.

End loops.

(** ** A commit reports what the library shows *)

Lemma verified_by_commit spec s command s' rest : import_move spec s command s' rest -> im_state s' = ImLocalVerified ->
  exists receipt, command = CmdCommitSucceeded receipt.
Proof. intros Hm Hv. assert (K := move_not_verified _ _ _ _ _ Hm). destruct Hm; cbn in *; try done; try by destruct r. by eexists. Qed.

Definition is_commit (command : ImportCommand) : bool := match command with CmdCommitSucceeded _ => true | _ => false end.

(** Other threads leave the report of a commit to the job's writer. *)
Definition harmless (m : OtherMove) : Prop := match m with OtherCommand _ command _ => is_commit command = false | _ => True end.

Definition unverified (db : ImportDb) (id : string) : Prop :=
  forall row, ib_jobs db !! id = Some row -> im_state (jw_snapshot row) <> ImLocalVerified.

Section commit_tables.
Context `{Display MediaStoreError}.

Lemma persist_written db id v next effects now : row_written db (persist db id v next effects now).1 v next.
Proof.
  assert (Hsame : row_written db db v next) by (split; [done|by left]). unfold persist.
  destruct (published_receipt effects); [unfold repository_commit|unfold repository_swap]; (destruct (read_import_job db id) as [[current|]|]; [|done..]).
  - destruct (complete_import_job _ _ _ _ _ _) as [[db' o]|] eqn:E; [|done]. by eapply complete_written.
  - destruct (compare_and_swap_import_snapshot _ _ _ _ _) as [[db' o]|] eqn:E; [|done]. apply swap_written in E as [E _]. by destruct o.
Qed.

Lemma written_unverified db db' v next id : row_written db db' v next -> im_state next <> ImLocalVerified -> unverified db id -> unverified db' id.
Proof.
  intros [_ [E|(row & now & Hr & _ & E)]] Hn Hu row'; rewrite E; [apply Hu|].
  destruct (decide (id = im_job_id next)) as [->|Hne]; [rewrite lookup_insert_eq; by intros [= <-]|rewrite lookup_insert_ne by done; apply Hu].
Qed.

Lemma command_unverified db id' command now id : is_commit command = false -> unverified db id -> unverified (other_command db id' command now) id.
Proof.
  intros Hc Hu. unfold other_command. destruct (read_import_job db id') as [[stored|]|]; [|done..].
  destruct (from_snapshot _ _) as [job|] eqn:Ej; [|done]. apply from_snapshot_ok in Ej as ->.
  destruct ((decide_import _ command).2) as [o effects next] eqn:Ed. cbn [de_outcome de_snapshot de_effects]. destruct o; [|done..].
  eapply written_unverified; [apply persist_written| |done]. destruct (applied_move _ _ _ _ _ Ed) as (s' & rest & Hm & _ & ->). cbn.
  intros Hv. destruct (verified_by_commit _ _ _ _ _ Hm Hv) as [receipt ->]. done.
Qed.

Lemma rows_unverified db db' id : rows_kept db db' -> unverified db id -> unverified db' id.
Proof. intros Hk Hu row Hr. destruct (Hk _ _ Hr) as [|(_ & spec & now & -> & _)]; [by apply Hu|done]. Qed.
End commit_tables.

Section commit.
Context `{Display MediaStoreError, IngestPorts, Sha256, JournalCodec, MarkerCodec, Lowercase,
          Display DownloadError, Display IoKind, ImportRequestText}.
Context (Hothers : forall w, Forall harmless (other_threads w).2) (id : string).

(** The disk stays, the tables stay sound and the job unverified. *)
Definition awaiting (e : IngestExecutor) : Prop := sound (ig_db e) /\ unverified (ig_db e) id.
Definition pending (e e' : IngestExecutor) : Prop :=
  ig_disk e' = ig_disk e /\ (awaiting e -> awaiting e' /\ import_advances (ig_db e) (ig_db e')).

#[export] Instance pending_order : PreOrder pending.
Proof.
  split; [intros e; split; [done|]; intros Hw; by split; [|apply import_advances_refl]|]. intros a b c [D1 K1] [D2 K2]. split; [congruence|].
  intros Hw. destruct (K1 Hw) as [Hb Ha]. destruct (K2 Hb) as [Hc Hb']. split; [done|by eapply import_advances_trans].
Qed.

Lemma same_tables_pending e e' : ig_disk e' = ig_disk e -> ig_db e' = ig_db e -> pending e e'.
Proof. unfold pending, awaiting. intros -> ->. split; [done|]. intros Hw. by split; [|apply import_advances_refl]. Qed.

Lemma moves_pending moves : Forall harmless moves -> forall e, pending e (foldl other_move e moves).
Proof.
  induction 1 as [|m moves Hm _ IH]; intros e; cbn; [reflexivity|]. etrans; [|apply IH]. split; [apply (moves_same_disk [m])|].
  intros [Hs Hu]. destruct (move_keeps e m Hs) as [Hs' Ha]. split; [split; [done|]|done].
  destruct m; cbn; [|by apply command_unverified|done]. destruct (leaves_snapshots op) eqn:E; [|done].
  eapply rows_unverified, Hu. apply foreign_rows; [apply Hs|done].
Qed.

#[export] Instance pending_relation : ExecRelation pending.
Proof.
  split; [apply _|intros; by apply same_tables_pending..|]. intros e.
  etrans; [|apply (moves_pending _ (Hothers (ig_world e)))]. by apply same_tables_pending.
Qed.

Lemma kept_pending {E A} (c : sm IngestExecutor E A) e e' r : kept pending c -> c e = (e', r) -> pending e e'.
Proof. intros Hc E1. specialize (Hc e). by rewrite E1 in Hc. Qed.

Lemma load_unverified e e' stored : awaiting e -> load id e = (e', Ok stored) ->
  awaiting e' /\ seen (ig_db e') id (st_spec stored) (st_snapshot stored) /\ im_state (st_snapshot stored) <> ImLocalVerified.
Proof.
  intros Hw El. assert (Hp := kept_pending _ _ _ _ (kept_load pending id) El). destruct (proj2 Hp Hw) as [Hw' _]. split; [done|].
  split; [eapply load_seen; [apply Hw|done]|]. apply load_read in El as (job & Hj & ->).
  apply read_import_ok in Hj as (row & Hrd). cbn. rewrite (ird_snapshot _ _ _ _ Hrd). apply (proj2 Hw'), Hrd.
Qed.

Lemma staging_named spec staging : staging_for_spec spec = Ok staging -> staging_ok staging.
Proof.
  unfold staging_for_spec. rewrite rbind_ok. intros (k & _ & Hr). revert Hr. rewrite rmap_err_ok. unfold SessionStaging_new.
  rewrite rbind_ok. intros (u & _ & Hr). revert Hr. rewrite rbind_ok. intros (u' & _ & [= <-]). by split.
Qed.

(** One more step that leaves the disk. *)
Ltac pass P e a :=
  rewrite sbind_ok; let E := fresh "E" in let Hr := fresh "Hr" in intros (e & a & E & Hr); revert Hr;
  apply kept_pending in E; [|solve [keep]]; apply (fun K => transitivity P K) in E; clear P; rename E into P.

Lemma kept_tables_ok {E A} (c : sm IngestExecutor E A) e e' r :
  kept tables_kept c -> c e = (e', r) -> sound (ig_db e) -> import_advances (ig_db e) (ig_db e').
Proof. intros Hc E1 Hs. specialize (Hc e Hs). rewrite E1 in Hc. apply Hc. Qed.

Lemma on_disk_ok {E A} (c : sm Disk E A) e e' a : on_disk c e = (e', Ok a) -> c (ig_disk e) = (ig_disk e', Ok a).
Proof. unfold on_disk. destruct (c (ig_disk e)) as [d r]. by intros [= <- ->]. Qed.

Lemma sealed_awaiting {E A} (c : sm Disk E A) e e' r : awaiting e -> on_disk c e = (e', r) -> awaiting e'.
Proof. unfold on_disk. destruct (c (ig_disk e)). intros Hw [= <- _]. exact Hw. Qed.

(** A commit that reaches its report has sealed and published. *)
Lemma commit_publishes stored e e' s : is_job_id (st_spec stored) = id ->
  awaiting e -> run_commit stored e = (e', Ok s) -> im_state s = ImLocalVerified ->
  exists e1 fresh staging manifest published,
    import_advances (ig_db e1) (ig_db e') /\ seen (ig_db e1) id (st_spec fresh) (st_snapshot fresh) /\ im_state (st_snapshot fresh) = ImCommitting /\
    staging_for_spec (st_spec fresh) = Ok staging /\ manifest_from_verified (st_spec fresh) (st_snapshot fresh) staging = Ok manifest /\
    publish staging manifest (ig_disk e) = (ig_disk e', Ok published).
Proof.
  intros Hid Hw. unfold run_commit. rewrite Hid. assert (P : pending e e) by reflexivity. pass P e1 u1. pass P e2 stop.
  rewrite sbind_ok. intros (e3 & fresh & E3 & Hr). revert Hr.
  destruct (load_unverified _ _ _ (proj1 (proj2 P Hw)) E3) as (Hw3 & Hseen & Hnot).
  apply kept_pending in E3; [|keep]. apply (fun K => transitivity P K) in E3. clear P. rename E3 into P.
  intros Hr. assert (Hlater : import_advances (ig_db e3) (ig_db e')).
  { eapply (kept_tables_ok _ e3 e'); [|exact Hr|apply Hw3]. keep. }
  revert Hr. destruct (stop || negb (bool_decide (im_state (st_snapshot fresh) = ImCommitting))) eqn:Eg; [rewrite sret_ok; by intros [_ <-]|].
  apply orb_false_iff in Eg as [_ Hst%negb_false_iff%bool_decide_eq_true]. rewrite lift_bind_ok. intros (source & _ & Hr). revert Hr.
  rewrite lift_bind_ok. intros (revision & _ & Hr). revert Hr. rewrite lift_bind_ok. intros (staging & Hstaging & Hr). revert Hr.
  pass P e4 u4. rewrite lift_bind_ok. intros (manifest & Hman & Hr). revert Hr. pass P e5 u5. pass P e6 u6.
  rewrite serr_bind_ok. intros (e7 & sealed & Hseal & Hr). revert Hr.
  assert (Q : pending e7 e7) by reflexivity. pass Q e8 stop'.
  assert (Hw7 : awaiting e7) by (eapply sealed_awaiting; [exact (proj1 (proj2 P Hw))|exact Hseal]). destruct stop'.
  { rewrite sbind_ok. intros (e9 & now & E9 & Hr). revert Hr. rewrite sret_ok. intros [_ <-].
    by destruct (load_unverified _ _ _ (proj1 (proj2 Q Hw7)) E9) as (_ & _ & K). }
  pass Q e9 u9. pass Q e10 u10. pass Q e11 u11. rewrite serr_bind_ok. intros (e12 & published & Hpub & Hr). revert Hr.
  rewrite lift_err_bind_ok. intros (path & _ & Hr). revert Hr. rewrite sbind_ok. intros (e13 & now & E13 & Hr). revert Hr.
  rewrite lift_err_bind_ok. intros (receipt & _ & Hr) _. exists e3, fresh, staging, manifest, published. split_and!; [done..|].
  assert (D1 : ig_disk e13 = ig_disk e12) by (eapply kept_disk_ok; [|exact E13]; keep).
  assert (D2 : ig_disk e' = ig_disk e13) by (eapply kept_disk_ok; [|exact Hr]; keep).
  rewrite D2, D1, <- (proj1 P). apply on_disk_ok in Hseal, Hpub. rewrite (proj1 Q) in Hpub.
  unfold publish. by rewrite sbind_ok; eexists _, _.
Qed.
End commit.

(** C19: when the commit phase answers that its import is verified, it has sealed and published the staging tree of the job's
    spec against the manifest of the digests in the job's checkpoints: if that
    revision was not in the library before, the library shows every file of the manifest
    with its size and digest, nothing else, and the revision's marker.  Other threads may do
    anything but report the commit themselves. *)
Theorem reported_commit_is_visible
    `{Display MediaStoreError, IngestPorts, Sha256, JournalCodec, MarkerCodec, Lowercase,
      Display DownloadError, Display IoKind, ImportRequestText} config disk world calls stored e' s :
  let e := ingest_calls (new_executor config disk world) calls in
  (forall w, Forall harmless (other_threads w).2) ->
  unverified (ig_db e) (is_job_id (st_spec stored)) ->
  run_commit stored e = (e', Ok s) -> im_state s = ImLocalVerified ->
  exists srow fresh staging manifest,
    ib_specs (ig_db e') !! is_job_id (st_spec stored) = Some srow /\
    stored_run (js_spec srow) fresh /\ im_state fresh = ImCommitting /\
    staging_for_spec (js_spec srow) = Ok staging /\
    manifest_from_verified (js_spec srow) fresh staging = Ok manifest /\
    (is_published staging (dk_fs (ig_disk e)) = false -> avoids_marker_temp staging manifest ->
     complete [] manifest (ss_device_id staging) (ss_session_id staging) (dk_fs (ig_disk e')) /\
     only_listed staging manifest [] (published_dir staging) (dk_fs (ig_disk e')) /\
     is_published staging (dk_fs (ig_disk e')) = true).
Proof.
  intros e Hothers Hu Hrun Hv. destruct (calls_keep calls (new_executor config disk world) empty_media_sound) as [Hsound _]. fold e in Hsound.
  destruct (commit_publishes Hothers (is_job_id (st_spec stored)) stored e e' s eq_refl (conj Hsound Hu) Hrun Hv)
    as (e1 & fresh & staging & manifest & published & Ha & [_ (srow & Hs & Espec) Hrunf (row & Hrow & _)] & Hst & Hstaging & Hman & Hpub).
  exists srow, (st_snapshot fresh), staging, manifest. rewrite Espec. split_and!; [|done..|].
  - rewrite (ia_specs _ _ Ha); [done|by eexists].
  - intros Hp Hav. eapply publish_whole; [by eapply staging_named|done|done|exact Hpub].
Qed.

(** ** A whole import *)

Module DemoIngest.
#[local] Existing Instance DemoSha.sha.
#[local] Existing Instance DemoCodec.codec.
#[local] Existing Instance DemoStaging.markers.
#[local] Existing Instance DemoStaging.lower.
#[local] Existing Instance DemoRequest.serializer.
#[local] Existing Instance DemoCoordinator.show_download.
#[global] Instance show_store : Display MediaStoreError := fun _ => "store".
#[global] Instance show_kind : Display IoKind := fun _ => "io".

Definition bytes : list byte := [Byte.x01; Byte.x02].

(** The card has the file; from an offset it sends the rest. *)
Definition card (locator : MediaLocator) (request : ArtifactReadRequest) : result ArtifactSourceError ArtifactOpenOutcome :=
  let offset := aq_offset request in
  Ok (if (offset =? 0)%N then AoFullFromZero (aq_expected_revision request) 2 [Ok [Byte.x01]; Ok [Byte.x02]]
      else AoPartial (aq_expected_revision request) offset 1 2 [Ok (drop (N.to_nat offset) bytes)]).

Definition leaves_commit (m : OtherMove) : bool := match m with OtherCommand _ command _ => negb (is_commit command) | _ => true end.

(** The world is what the other threads do at each of their turns. *)
#[global] Instance ports : IngestPorts := {|
  IngestWorld := list (list OtherMove);
  ingest_now := fun w => (w, "2024-01-01T12:00:00Z");
  fresh_job_id := fun w => (w, "job-1");
  other_threads := fun w => (tail w, List.filter leaves_commit (default [] (head w)));
  root_fence := fun w => (w, Ok tt);
  known_candidate := fun _ w => (w, Ok true);
  admit_candidate := fun _ _ w => (w, Ok DemoImport.recording);
  resolve_source := fun locator w => (w, Ok (media_generation_id locator));
  open_artifact := fun locator request w => (w, card locator request);
  available_bytes := fun w => (w, Ok 1000%N);
  enqueue_import := fun _ w => (w, Ok tt);
  enqueue_retry := fun _ w => (w, Ok tt);
  notify_verified := fun _ _ w => (w, Ok tt);
  acquire_exclusive := fun _ _ w => (w, Ok tt);
  assert_lease := fun w => (w, Ok tt);
  natural_key_text := fun key => Some (bytes_of (canonical_key key));
|}.

Definition start : IngestCall := CallStart (DemoImport.id "candidate:sha256:" "c") (mkPolicy RejectUnsigned 1000 10) true.
Definition config : RecordingIngestConfig := mkIngestConfig 1 0 32.
Definition disk : Disk := mkDisk ∅ [] [].

Definition calm : @IngestWorld ports := [].

Definition after (world : list (list OtherMove)) (calls : list IngestCall) : IngestExecutor :=
  ingest_calls (new_executor config disk world) calls.

Definition state_of (e : IngestExecutor) : option ImportJobState := (fun row => im_state (jw_snapshot row)) <$> ib_jobs (ig_db e) !! "job-1".

Definition finished : IngestExecutor := ingest_calls (new_executor config disk calm) [start; CallRun "job-1"].
Definition place : Path := ["sources"; "source-796c782d736f757263652d73657373696f6e2d763100696d706f72743a646576"; "left.mp4"].

(** The import runs from the call to the file in the library. *)
Example imports : state_of finished = Some ImLocalVerified /\ dk_fs (ig_disk finished) !! place = Some (NFile bytes).
Proof. by vm_compute. Qed.

(** Another thread pauses it in the middle of the copy; it goes on after a resume. *)
Definition interrupted : list (list OtherMove) := (replicate 12 [] ++ [[OtherCommand "job-1" CmdRequestPause "t"]])%list.
Example pauses_and_goes_on :
  state_of (after interrupted [start; CallRun "job-1"]) = Some (ImPausing FromCopy) /\
  let e := after interrupted [start; CallRun "job-1"; CallRun "job-1"] in
  state_of e = Some (ImPausing FromCopy) /\
  state_of (ingest_calls (mkIngestExecutor (ig_config e) (other_command (ig_db e) "job-1" CmdPauseCompleted "t") (ig_disk e) ∅ [])
              [CallCommand "job-1" ControlResume; CallRun "job-1"]) = Some ImLocalVerified.
Proof. by vm_compute. Qed.

(** A cancelled import stays cancelling: the store refuses its end. *)
Example cancel_is_not_recorded :
  state_of (after [] [start; CallCommand "job-1" ControlCancel]) = Some ImCancelling /\
  is_ok (command_import "job-1" ControlCancel (after [] [start])).2 = false.
Proof. by vm_compute. Qed.

(** The removal of the journal fails after the file has its name, which the copy ignores; from then on the
    staging tree has a file that the manifest does not list, and no run, pause
    or resume gets the import past its commit. *)
Definition leftover : Disk := mkDisk ∅ (replicate 31 None ++ [Some IoStorageFull])%list [].
Definition again : list IngestCall :=
  [CallRun "job-1"; CallCommand "job-1" ControlPause; CallCommand "job-1" ControlResume; CallRun "job-1"; CallRun "job-1"].
Definition left_over : IngestExecutor := ingest_calls (new_executor config leftover []) [start; CallRun "job-1"].
Example leftover_journal_blocks :
  state_of left_over = Some ImCommitting /\ state_of (ingest_calls left_over again) = Some ImCommitting /\
  match (run_to_quiescence "job-1" left_over).2 with Err RiPublication => true | _ => false end = true.
Proof. by vm_compute. Qed.

(** The import as it ends, and after three steps of the worker, which leave it before its commit. *)
Abbreviation ended := (ingest_calls (new_executor config disk calm) [start; CallRun "job-1"]).
Abbreviation verified_files := (ingest_calls (new_executor (mkIngestConfig 1 0 3) disk calm) [start; CallRun "job-1"]).

Lemma ends : exists row, ib_jobs (ig_db ended) !! "job-1" = Some row /\ im_state (jw_snapshot row) = ImLocalVerified.
Proof.
  assert (K : match ib_jobs (ig_db ended) !! "job-1" with Some row => bool_decide (im_state (jw_snapshot row) = ImLocalVerified) | None => false end = true)
    by by vm_compute.
  destruct (ib_jobs (ig_db ended) !! "job-1") as [row|]; [|discriminate K]. exists row. apply bool_decide_eq_true in K. exact (conj eq_refl K).
Qed.

Definition commit_of (e : IngestExecutor) (s : StoredImport) : bool :=
  match run_commit s e with
  | (_, Ok answer) => bool_decide (im_state answer = ImLocalVerified) && String.eqb (is_job_id (st_spec s)) "job-1"
  | _ => false
  end.
Lemma commits : exists s e' answer, unverified (ig_db verified_files) (is_job_id (st_spec s)) /\
  run_commit s verified_files = (e', Ok answer) /\ im_state answer = ImLocalVerified.
Proof.
  assert (K : match (load "job-1" verified_files).2 with Ok s => commit_of verified_files s | Err _ => false end = true) by by vm_compute.
  assert (K' : match ib_jobs (ig_db verified_files) !! "job-1" with Some row => bool_decide (im_state (jw_snapshot row) = ImCommitting) | None => false end = true)
    by by vm_compute.
  destruct (load "job-1" verified_files).2 as [s|]; [|discriminate K]. unfold commit_of in K.
  destruct (run_commit s verified_files) as [e' [answer|x]] eqn:E; [|discriminate K].
  apply andb_true_iff in K as [Hv%bool_decide_eq_true Hid%String.eqb_eq]. exists s, e', answer. split; [|exact (conj E Hv)].
  rewrite Hid. intros row Hrow. rewrite Hrow in K'. apply bool_decide_eq_true in K'. congruence.
Qed.

(** The copy of the one file, after the first step. *)
Definition copying : IngestExecutor := ingest_calls (new_executor (mkIngestConfig 1 0 1) disk calm) [start; CallRun "job-1"].
Definition the_spec : ImportSpec := match (load "job-1" copying).2 with Ok s => st_spec s | Err _ => DemoImport.spec end.
Definition staging : SessionStaging := match staging_for_spec the_spec with Ok s => s | Err _ => mkStaging "" "" "" end.
Definition file : ImportFileSpec := import_file DemoImport.left_claim.
Definition prepared : IngestExecutor := (on_disk (prepare staging) copying).1.
Lemma copies : exists e' ev, copy_one_file the_spec staging DemoImport.locator file (checkpoint_from_spec file) prepared = (e', Ok ev).
Proof.
  assert (K : is_ok (copy_one_file the_spec staging DemoImport.locator file (checkpoint_from_spec file) prepared).2 = true) by by vm_compute.
  destruct (copy_one_file the_spec staging DemoImport.locator file (checkpoint_from_spec file) prepared) as [e' [ev|x]]; [|discriminate K].
  exists e', ev. exact eq_refl.
Qed.

Lemma others_harmless w : Forall harmless (other_threads w).2.
Proof.
  apply Forall_forall. intros m Hm%list_elem_of_In. apply filter_In in Hm as [_ Hm]. destruct m; [done|by apply negb_true_iff in Hm|done].
Qed.
End DemoIngest.

Section witnesses.
#[local] Existing Instance DemoSha.sha.
#[local] Existing Instance DemoCodec.codec.
#[local] Existing Instance DemoStaging.markers.
#[local] Existing Instance DemoStaging.lower.
#[local] Existing Instance DemoRequest.serializer.
#[local] Existing Instance DemoCoordinator.show_download.
Import DemoIngest.

Lemma stored_imports_are_runs_witness :
  exists row srow commands, ib_jobs (ig_db ended) !! "job-1" = Some row /\
    jw_snapshot row = ij_snapshot (import_run (ImportJob_new (js_spec srow)) commands).
Proof.
  destruct ends as (row & E & _). destruct (stored_imports_are_runs config disk calm [start; CallRun "job-1"] "job-1" row E) as (srow & commands & _ & Hrun & _).
  exists row, srow, commands. exact (conj E Hrun).
Defined.

Lemma stored_import_success_is_whole_witness :
  exists row srow, ib_jobs (ig_db ended) !! "job-1" = Some row /\ imported (js_spec srow) (jw_snapshot row).
Proof.
  destruct ends as (row & E & Hv).
  destruct (stored_import_success_is_whole config disk calm [start; CallRun "job-1"] "job-1" row [CallSnapshots] E Hv) as ((srow & _ & Hi) & _).
  exists row, srow. exact (conj E Hi).
Defined.

Lemma copied_file_is_on_disk_witness :
  exists e' ev place, copy_one_file the_spec staging DemoImport.locator file (checkpoint_from_spec file) prepared = (e', Ok ev) /\
    evidence_holds file (dk_fs (ig_disk e')) place ev.
Proof.
  destruct copies as (e' & ev & E).
  destruct (copied_file_is_on_disk the_spec staging DemoImport.locator file (checkpoint_from_spec file) prepared e' ev eq_refl E) as (relative & _ & Hev).
  exists e', ev, (file_root staging ++ relative)%list. exact (conj E Hev).
Defined.


Lemma reported_commit_is_visible_witness :
  exists e' staging manifest, is_published staging (dk_fs (ig_disk verified_files)) = false -> avoids_marker_temp staging manifest ->
    complete [] manifest (ss_device_id staging) (ss_session_id staging) (dk_fs (ig_disk e')).
Proof.
  destruct commits as (s & e' & answer & Hu & E & Hv).
  destruct (reported_commit_is_visible (mkIngestConfig 1 0 3) disk calm [start; CallRun "job-1"] s e' answer others_harmless Hu E Hv)
    as (srow & fresh & staging & manifest & _ & _ & _ & _ & _ & Hwhole).
  exists e', staging, manifest. exact (fun H1 H2 => proj1 (Hwhole H1 H2)).
Defined.
End witnesses.
